(* ===== verification/_CoqProject ===== *)
-Q . S2P
Prelude.v
Types.v
Bytes.v
Diskio.v
Window.v
Fat.v
Chain.v
Live.v
Dir.v
Path.v
Mount.v
File.v
DirApi.v
Content.v
Writing.v
Seeking.v
Refine.v
Listing.v
Entries.v
Tree.v
Persist.v
Change.v
Unlink.v
Readdir.v
Text.v
Space.v
Create.v
Mkdir.v
Rename.v
Move.v
Overwrite.v
Append.v
Mkfs.v
Plan.v
Boot.v
Format.v
MkfsSafe.v
Session.v
Fresh.v
Empty.v
Made.v
Harness.v
Zephyr.v
Firmware.v
Sample.v
Files.v
Names.v
Dirs.v
Volumes.v
Core.v
Api.v
Fuzzing.v
Findings.v
