(* ===== verification/Prelude.v ===== *)
(** * FatFs on a fuzzing RAM disk: a verification development

    The repository fuzzes the FatFs module (R0.15a) on a RAM disk and replays
    the findings on a board that runs Zephyr.  This library models the file
    system as it is configured there, the disk under it, the harnesses that
    drive it, and the replay program with its host script, and proves what
    makes them correct.

    ** The program and its model

    - filesystem_code/ff.c, ff.h, ffconf.h with ffconf_fuzz_override.h: the
      file system.  The configuration has no long names, no exFAT, no GPT, no
      relative paths, no locking, no re-entrancy, "tiny" buffers (one sector
      buffer per volume), 512-byte sectors, code page 437 and one volume.
      - [Types]: the structures ([FATFS], [FFOBJID], [FIL], [DIR], [FILINFO],
        [MKFS_PARM]) as records, the result codes, the constants.
      - [Bytes]: [ld_word] .. [st_dword].
      - [Window]: a volume [vol] is a filesystem object and its disk;
        [sync_window], [move_window], [sync_fs], [clst2sect].
      - [Fat]: [get_fat], [put_fat].   [Chain]: [remove_chain],
        [create_chain].   [Live]: the same on a medium without read errors.
      - [Dir]: [dir_sdi], [dir_next], [dir_alloc], [dir_read], [dir_find],
        [dir_register], [dir_remove], [get_fileinfo], [ld_clust], [st_clust].
      - [Path]: [create_name], [follow_path], [get_ldnumber].
      - [Mount]: [check_fs], [find_volume], [mount_volume], [validate],
        [f_mount], on the [world]: the heap of filesystem objects, the table
        [FatFs], the mount counter [Fsid] and the disk.
      - [File]: [f_open], [f_read], [f_write], [f_sync], [f_close], [f_lseek],
        [f_truncate].   [DirApi]: [f_opendir], [f_closedir], [f_readdir],
        [f_stat], [f_getfree], [f_unlink], [f_mkdir], [f_rename].
      - [Mkfs]: [create_partition] and [f_mkfs].
    - filesystem_code/diskio.h, diskio_fuzz.c: [Diskio].  The class [DiskIO]
      is the interface, [DiskIOLaws] what the file system relies on, and the
      RAM disk an instance of both.
    - filesystem_code/harness.c and harnesses/harness_*.c: [Harness], one
      function per main program.  The object [FATFS fs] of a turn of their
      loops is put on the heap of the world at the start of the turn and taken
      off at its end, at an address that is a parameter of the turn; an access
      to an object that is not on the heap is a [Fault].
    - Filesystem_sample_zephyr/src/main.c: [Zephyr], on the class [Zephyr] of
      the kernel's services.   scripts/send_packet.py: [Firmware].

    A C function on a volume is a computation of the monad [M] of this file:
    it takes the volume and gives a value and the new volume ([Done]), or
    [Fault] for an access outside an object, or [OutOfFuel] for a loop that
    was cut off.  A result code of ff.h is a value, so an error path carries
    the state the code leaves behind.
    Integers are [Z] with [u8], [u16] and [u32] at the stores where the C
    type wraps; byte arrays are lists of bytes with checked accesses.

    ** Loops

    A loop of the source is [loop body], which runs the body at most
    [LOOP_FUEL] = 2^34 times and gives [OutOfFuel] then.  This is enough: each loop
    has a measure that is proved to decrease and is bounded by a quantity of
    32 bits (clusters of a volume, sectors, directory entries up to 65536,
    bytes of a buffer or of a file) or by a few multiples of one; the lemmas
    on [loop] below ask for that bound.  A specification [wpt true] (written
    [wp]) holds only of a run that ends without a fault, so it is not
    satisfied by running out of fuel; [wpt false] leaves the end of the loops
    open and is used where the code does not promise it: for a boot record
    whose 32-bit FAT size wraps around, [mount_volume] accepts a volume whose
    FAT overlaps its data, and a loop over the table need not end there.

    ** The theorems

    - [Core]: the window is a transparent write-back cache; [get_fat] and
      [put_fat] implement a table of cluster numbers ([fat_entry]), the FAT12
      nibbles included; [create_chain] takes a free cluster and links it, or
      finds the volume full; [remove_chain] frees the chain and nothing else,
      and ends on cyclic tables; [create_name] agrees with a declarative
      reading of 8.3 names; the RAM disk keeps what it is given.
    - [Files] (by [Content], [Writing], [Seeking] and [Refine]): an open file
      is a byte string with a position.  [f_read], [f_write], [f_lseek] and
      [f_truncate] implement it on a volume in order ([sound]), with any
      number of open files and in any interleaving, as a forward simulation of
      the abstract step [astep]; a write fails only on a full volume, and then
      it says how much it has written.
    - [Names] (by [Listing], [Entries], [Tree] and [Persist]): a directory is
      a sequence of 32-byte entries ([dentry]), a volume a tree of them.
      [dir_find] finds the first entry of a name, [dir_register] puts one in
      the first free place, lengthening the directory by a cleared cluster
      when it is full, and [follow_path] walks through the tree along the
      names of a path.  [f_close] records size and first cluster of a file in
      its entry, and [f_open] of its path gives the same bytes again.
    - [Dirs]: the functions that change the tree or look at it.  What each of
      them may change is a set of clusters and a set of sectors ([Change]),
      and everything beside these sets keeps its meaning.  [f_open] makes
      ([Create]), overwrites ([Overwrite]) or lengthens ([Append]) a file, which
      is then written, closed and found again; [f_mkdir] ([Mkdir]) makes an empty directory,
      [f_rename] moves a file ([Rename]) or a directory ([Move]), [f_unlink] ([Unlink]) removes a file
      or an empty directory and frees its clusters, each with its refusals;
      [f_stat] ([Append]) reports the entry that a path names;
      [f_opendir] and [f_readdir] ([Readdir]) list a directory, and the names
      they report are paths that lead back to the entries ([Text]);
      [f_getfree] ([Space]) tells the number of free clusters that is stored, or
      counts it; allocation and release keep a count that is right.
    - [Volumes]: from an unknown medium to the first file.  [Plan] shows what
      sizes the search of [f_mkfs] ends with, [Boot] what the sectors it writes
      say, [Format] what it leaves on the drive; [Fresh] shows that
      [mount_volume] reads the same sizes back, and [Empty] and [Made] that
      this is a volume in order with nothing in it.  A file that is then
      created and written is read back.
    - [Api]: whatever bytes the medium holds, mounting gives a consistent
      object or an error.  A program that calls the functions of the API in any
      order ([Session]), [f_mount], [f_mkfs] ([MkfsSafe]) and the rewinding
      [f_readdir] included, on open, closed and stale objects, makes no access
      outside an object.  The calls other than [f_mount] and [f_mkfs] end on
      mounted volumes whose FAT does not wrap around and whose FAT copies do not
      overlap.
    - [Fuzzing]: no test case makes a harness fault as long as the filesystem
      object of every turn has the same address; at another address the turn
      after a failed mount uses the object that has ended.
    - [Firmware]: the packet protocol between host and board.
    - [Findings]: places where the code does not do what it means to.
    - [Sample] is the volume on which the theorems are applied; the witnesses
      run the model there.

    ** Assumptions

    - The disk: [DiskIOLaws] (a sector read gives what was last written to it,
      other sectors stay, transfers have the requested length).  Theorems that
      promise success ask in addition for a medium that answers ([sound]
      includes it); the RAM disk does.
    - Plain [char] may be signed or not: the class [Platform].
    - The time stamp of [get_fattime] is the constant of ffconf.h
      (FF_FS_NORTC); the Zephyr kernel is the class [Zephyr] with its laws, in
      which [pending] is what the UART delivers to the program.
    - Automatic arrays of the harnesses that the C code leaves uninitialised
      are parameters with arbitrary contents.

    ** Not modelled

    The code that the configuration compiles out (long names, exFAT, GPT,
    file locks, relative paths, label, forward, expand, find, string I/O,
    other code pages); the constant disk image of harnesses/clean_disk.c, an
    array without code, which is a parameter; harnesses/Harness.c, a shell
    here-document with an older version of the firmware that does not compile
    as it stands; the AFL++ runtime; the build tree and generated Zephyr
    headers.

    ** What is left

    The theorem on [f_mkfs] tells that a layout is found for small drives with
    the default sizes; for other drives and options it says what follows when
    one is found.  The theorem on [f_rename] of a directory asks for a new path
    that does not lead through the directory, which the code does not test. *)

From stdpp Require Import base numbers list gmap.
From Stdlib Require Import ZArith Lia.
From Stdlib Require Import Strings.Byte.

#[global] Open Scope Z_scope.
#[global] Set Default Goal Selector "!".

(** ** Bytes and machine integers *)

(** The C integer types of ff.h are kept as [Z]; a store to a variable of
    width [w] is written out with [u8], [u16] or [u32]. *)
Definition U32 : Z := 4294967296.
Definition u8 (x : Z) : Z := x mod 256.
Definition u16 (x : Z) : Z := x mod 65536.
Definition u32 (x : Z) : Z := x mod 4294967296.

(** A [BYTE] held in memory, and its value as an integer. *)
Definition bval (b : byte) : Z := Z.of_N (Byte.to_N b).
Definition mkb (z : Z) : byte :=
  match Byte.of_N (Z.to_N (z mod 256)) with Some b => b | None => x00 end.

#[global] Instance byte_eq_dec : EqDecision byte := Byte.byte_eq_dec.
#[global] Instance byte_inhabited : Inhabited byte := populate x00.

Lemma bval_range b : 0 <= bval b < 256.
Proof.
  unfold bval. pose proof (Byte.to_N_bounded b). lia.
Qed.

Lemma bval_mkb z : bval (mkb z) = z mod 256.
Proof.
  unfold bval, mkb. pose proof (Z.mod_pos_bound z 256 ltac:(lia)).
  destruct (Byte.of_N (Z.to_N (z mod 256))) eqn:E.
  - apply Byte.to_of_N in E. rewrite E. lia.
  - apply Byte.of_N_None_iff in E. lia.
Qed.

Lemma mkb_bval b : mkb (bval b) = b.
Proof.
  unfold mkb, bval. pose proof (Byte.to_N_bounded b).
  rewrite Z.mod_small by lia. by rewrite N2Z.id, Byte.of_to_N.
Qed.

Lemma bval_inj a b : bval a = bval b -> a = b.
Proof. intros H. by rewrite <- (mkb_bval a), <- (mkb_bval b), H. Qed.

Lemma mkb_mod z : mkb (z mod 256) = mkb z.
Proof. unfold mkb. by rewrite Z.mod_mod by lia. Qed.

Lemma u8_range x : 0 <= u8 x < 256.
Proof. apply Z.mod_pos_bound; lia. Qed.
Lemma u16_range x : 0 <= u16 x < 65536.
Proof. apply Z.mod_pos_bound; lia. Qed.
Lemma u32_range x : 0 <= u32 x < U32.
Proof. apply Z.mod_pos_bound; unfold U32; lia. Qed.
Lemma u32_small x : 0 <= x < U32 -> u32 x = x.
Proof. apply Z.mod_small. Qed.
Lemma u16_small x : 0 <= x < 65536 -> u16 x = x.
Proof. apply Z.mod_small. Qed.
Lemma u8_small x : 0 <= x < 256 -> u8 x = x.
Proof. apply Z.mod_small. Qed.

Lemma lor_range a b n : 0 <= n -> 0 <= a < 2 ^ n -> 0 <= b < 2 ^ n -> 0 <= Z.lor a b < 2 ^ n.
Proof.
  intros Hn Ha Hb. assert (0 <= Z.lor a b) as Hp by (apply Z.lor_nonneg; lia).
  split; [done|]. destruct (Z.eq_dec (Z.lor a b) 0) as [->|Hne]; [lia|].
  assert (n <> 0) by (intros ->; simpl in *; replace a with 0 in * by lia;
    replace b with 0 in * by lia; done).
  apply Z.log2_lt_pow2; [lia|]. rewrite Z.log2_lor by lia.
  apply Z.max_lub_lt.
  - destruct (Z.eq_dec a 0) as [->|]; [simpl; lia|]. apply Z.log2_lt_pow2; lia.
  - destruct (Z.eq_dec b 0) as [->|]; [simpl; lia|]. apply Z.log2_lt_pow2; lia.
Qed.

Lemma lor_u8 a b : 0 <= a < 256 -> 0 <= b < 256 -> 0 <= Z.lor a b < 256.
Proof. apply (lor_range a b 8). lia. Qed.

Create HintDb ff.
#[export] Hint Resolve bval_range u8_range u16_range u32_range lor_u8 : ff.

(** ** Objects in memory *)

(** The number of elements of an object, as an integer. *)
Definition len {A} (l : list A) : Z := Z.of_nat (length l).

(** [l\[i\]], [None] outside the object. *)
Definition at_ {A} (l : list A) (i : Z) : option A :=
  if 0 <=? i then l !! Z.to_nat i else None.

(** [n] elements from offset [o], [None] if the range leaves the object. *)
Definition slice {A} (l : list A) (o n : Z) : option (list A) :=
  if (0 <=? o) && (0 <=? n) && (o + n <=? len l)
  then Some (take (Z.to_nat n) (drop (Z.to_nat o) l)) else None.

(** [memcpy (l + o, src, len src)], [None] if it leaves the object. *)
Definition splice {A} (l : list A) (o : Z) (src : list A) : option (list A) :=
  if (0 <=? o) && (o + len src <=? len l)
  then Some (take (Z.to_nat o) l ++ src ++ drop (Z.to_nat (o + len src)) l)
  else None.

(** Store one element. *)
Definition upd {A} (l : list A) (i : Z) (x : A) : option (list A) := splice l i [x].

Section objects.
Context {A : Type}.
Implicit Types (l src r : list A) (i o n : Z).

Lemma len_nonneg l : 0 <= len l.
Proof. unfold len. lia. Qed.

Lemma len_app l r : len (l ++ r) = len l + len r.
Proof. unfold len. rewrite length_app. lia. Qed.

Lemma len_replicate n (x : A) : 0 <= n -> len (replicate (Z.to_nat n) x) = n.
Proof. unfold len. rewrite length_replicate. lia. Qed.

Lemma at_lookup l i : 0 <= i -> at_ l i = l !! Z.to_nat i.
Proof. intros. unfold at_. by rewrite (proj2 (Z.leb_le 0 i)). Qed.

Lemma at_neg l i : i < 0 -> at_ l i = None.
Proof. intros. unfold at_. by rewrite (proj2 (Z.leb_gt 0 i)). Qed.

Lemma at_is_Some l i : 0 <= i < len l -> exists x, at_ l i = Some x.
Proof.
  intros H. rewrite at_lookup by lia. apply lookup_lt_is_Some. unfold len in H. lia.
Qed.

Lemma at_Some_range l i x : at_ l i = Some x -> 0 <= i < len l.
Proof.
  unfold at_. destruct (Z.leb_spec 0 i); [|done].
  intros ?%lookup_lt_Some. unfold len. lia.
Qed.

Lemma at_None l i : len l <= i -> at_ l i = None.
Proof.
  intros H. destruct (at_ l i) eqn:E; [|done]. apply at_Some_range in E. lia.
Qed.

(** Two objects with the same contents are the same. *)
Lemma at_ext l r : (forall i, at_ l i = at_ r i) -> l = r.
Proof.
  intros H. apply list_eq. intros k. specialize (H (Z.of_nat k)).
  rewrite !at_lookup, Nat2Z.id in H by lia. done.
Qed.

Lemma at_app l r i :
  at_ (l ++ r) i = if i <? len l then at_ l i else at_ r (i - len l).
Proof.
  destruct (Z.ltb_spec i (len l)) as [H|H].
  - unfold at_. destruct (0 <=? i) eqn:E; [|done]. apply Z.leb_le in E.
    rewrite lookup_app_l; [done|]. unfold len in H. lia.
  - pose proof (len_nonneg l). rewrite !at_lookup by lia.
    unfold len in *. rewrite lookup_app_r by lia. f_equal. lia.
Qed.

Lemma slice_is_Some l o n :
  0 <= o -> 0 <= n -> o + n <= len l -> exists r, slice l o n = Some r /\ len r = n.
Proof.
  intros H1 H2 H3. unfold slice.
  rewrite (proj2 (Z.leb_le 0 o)), (proj2 (Z.leb_le 0 n)),
    (proj2 (Z.leb_le (o + n) (len l))) by done.
  eexists; split; [done|]. unfold len in *. rewrite length_take, length_drop. lia.
Qed.

Lemma slice_Some_inv l o n r :
  slice l o n = Some r ->
  0 <= o /\ 0 <= n /\ o + n <= len l /\ len r = n /\
  r = take (Z.to_nat n) (drop (Z.to_nat o) l).
Proof.
  unfold slice. destruct (_ && _) eqn:E; [|done].
  apply andb_prop in E as [[E1 E2]%andb_prop E3].
  apply Z.leb_le in E1, E2, E3. intros [= <-]. repeat split; [done|done|done|].
  unfold len in *. rewrite length_take, length_drop. lia.
Qed.

Lemma at_slice l o n r i :
  slice l o n = Some r ->
  at_ r i = if (0 <=? i) && (i <? n) then at_ l (o + i) else None.
Proof.
  intros (H1 & H2 & H3 & H4 & ->)%slice_Some_inv.
  destruct (Z.leb_spec 0 i); [|by apply at_neg].
  destruct (Z.ltb_spec i n); simpl.
  - rewrite !at_lookup by lia. rewrite lookup_take_lt by lia.
    rewrite lookup_drop. f_equal. lia.
  - apply at_None. lia.
Qed.

Lemma splice_is_Some l o src :
  0 <= o -> o + len src <= len l -> exists r, splice l o src = Some r /\ len r = len l.
Proof.
  intros H1 H2. unfold splice.
  rewrite (proj2 (Z.leb_le 0 o)), (proj2 (Z.leb_le (o + len src) (len l))) by done.
  eexists; split; [done|]. unfold len in *.
  rewrite !length_app, length_take, length_drop. lia.
Qed.

Lemma splice_Some_inv l o src r :
  splice l o src = Some r ->
  0 <= o /\ o + len src <= len l /\ len r = len l /\
  r = take (Z.to_nat o) l ++ src ++ drop (Z.to_nat (o + len src)) l.
Proof.
  unfold splice. destruct (_ && _) eqn:E; [|done].
  apply andb_prop in E as [E1 E2]. apply Z.leb_le in E1, E2. intros [= <-].
  repeat split; [done|done|]. unfold len in *.
  rewrite !length_app, length_take, length_drop. lia.
Qed.

Lemma at_splice l o src r i :
  splice l o src = Some r ->
  at_ r i = if (o <=? i) && (i <? o + len src) then at_ src (i - o) else at_ l i.
Proof.
  intros (H1 & H2 & H3 & ->)%splice_Some_inv. pose proof (len_nonneg src).
  assert (len (take (Z.to_nat o) l) = o) as Ho
    by (unfold len in *; rewrite length_take; lia).
  rewrite !at_app, Ho.
  destruct (Z.ltb_spec i o) as [Hio|Hio].
  { rewrite (proj2 (Z.leb_gt o i)) by done. simpl.
    unfold at_. destruct (Z.leb_spec 0 i); [|done]. by rewrite lookup_take_lt by lia. }
  rewrite (proj2 (Z.leb_le o i)) by done. simpl.
  destruct (Z.ltb_spec (i - o) (len src)), (Z.ltb_spec i (o + len src)); try lia; [done|].
  rewrite !at_lookup by lia. rewrite lookup_drop. f_equal. lia.
Qed.

Lemma upd_is_Some l i x : 0 <= i < len l -> exists r, upd l i x = Some r /\ len r = len l.
Proof. intros H. apply splice_is_Some; unfold len in *; simpl; lia. Qed.

Lemma upd_len l i x r : upd l i x = Some r -> len r = len l.
Proof. by intros (_ & _ & H & _)%splice_Some_inv. Qed.

Lemma at_upd l i x r j :
  upd l i x = Some r -> at_ r j = if j =? i then Some x else at_ l j.
Proof.
  intros H. rewrite (at_splice _ _ _ _ _ H). change (len [x]) with 1.
  destruct (Z.eqb_spec j i) as [->|Hne].
  - rewrite (proj2 (Z.leb_le i i)), (proj2 (Z.ltb_lt i (i + 1))) by lia. simpl.
    by rewrite Z.sub_diag.
  - destruct (Z.leb_spec i j), (Z.ltb_spec j (i + 1)); simpl; try done. lia.
Qed.

(** Reading back what was stored. *)
Lemma slice_splice_same l o src r :
  splice l o src = Some r -> slice r o (len src) = Some src.
Proof.
  intros H. destruct (splice_Some_inv _ _ _ _ H) as (H1 & H2 & H3 & _).
  destruct (slice_is_Some r o (len src)) as (r' & Hr' & Hl);
    [done|apply len_nonneg|lia|].
  rewrite Hr'. f_equal. apply at_ext. intros i.
  rewrite (at_slice _ _ _ _ _ Hr'), (at_splice _ _ _ _ _ H).
  destruct (Z.leb_spec 0 i); simpl; [|by rewrite at_neg].
  destruct (Z.ltb_spec i (len src)); [|by rewrite at_None].
  rewrite (proj2 (Z.leb_le o (o + i))), (proj2 (Z.ltb_lt (o + i) (o + len src))) by lia.
  simpl. f_equal. lia.
Qed.

(** A store leaves every disjoint range alone. *)
Lemma slice_splice_disjoint l o src r o' n :
  splice l o src = Some r -> o' + n <= o \/ o + len src <= o' ->
  slice r o' n = slice l o' n.
Proof.
  intros H Hd. destruct (splice_Some_inv _ _ _ _ H) as (H1 & H2 & H3 & _).
  unfold slice at 1. rewrite H3. destruct (_ && _) eqn:E.
  2:{ unfold slice. by rewrite E. }
  assert (exists r', slice r o' n = Some r') as [r' Hr'].
  { unfold slice. rewrite H3, E. eauto. }
  assert (exists l', slice l o' n = Some l') as [l' Hl'].
  { unfold slice. rewrite E. eauto. }
  rewrite Hl'. unfold slice in Hr'. rewrite H3, E in Hr'.
  rewrite Hr'. f_equal.
  assert (slice r o' n = Some r') as Hr2 by (unfold slice; by rewrite H3, E).
  apply at_ext. intros i. rewrite (at_slice _ _ _ _ _ Hr2), (at_slice _ _ _ _ _ Hl').
  destruct (Z.leb_spec 0 i), (Z.ltb_spec i n); simpl; try done.
  rewrite (at_splice _ _ _ _ _ H).
  destruct (Z.leb_spec o (o' + i)), (Z.ltb_spec (o' + i) (o + len src)); simpl; try done; lia.
Qed.

Lemma slice_all l : slice l 0 (len l) = Some l.
Proof.
  unfold slice. pose proof (len_nonneg l).
  rewrite (proj2 (Z.leb_le 0 (len l))), (proj2 (Z.leb_le (0 + len l) (len l))) by lia.
  simpl. unfold len. by rewrite Nat2Z.id, drop_0, firstn_all.
Qed.

Lemma slice_len l o n r : slice l o n = Some r -> len r = n.
Proof. intros H. apply slice_Some_inv in H. tauto. Qed.

Lemma splice_len l o src r : splice l o src = Some r -> len r = len l.
Proof. intros H. apply splice_Some_inv in H. tauto. Qed.

(** A slice of a slice. *)
Lemma slice_slice l o n r o' n' :
  slice l o n = Some r -> 0 <= o' -> 0 <= n' -> o' + n' <= n ->
  slice r o' n' = slice l (o + o') n'.
Proof.
  intros H Ho Hn Hle. pose proof (slice_Some_inv _ _ _ _ H) as (H1 & H2 & H3 & H4 & _).
  destruct (slice_is_Some r o' n') as (a & Ha & _); [lia..|].
  destruct (slice_is_Some l (o + o') n') as (b & Hb & _); [lia..|].
  rewrite Ha, Hb. f_equal. apply at_ext. intros i.
  rewrite (at_slice _ _ _ _ _ Ha), (at_slice _ _ _ _ _ Hb), (at_slice _ _ _ _ _ H).
  destruct (Z.leb_spec 0 i), (Z.ltb_spec i n'); simpl; try done.
  rewrite (proj2 (Z.leb_le 0 (o' + i))), (proj2 (Z.ltb_lt (o' + i) n)) by lia.
  simpl. f_equal. lia.
Qed.

End objects.

(** Distinct numbers in an interval. *)
Lemma nodup_len (l : list Z) a n :
  NoDup l -> 0 <= n -> (forall x, x ∈ l -> a <= x < a + n) -> len l <= n.
Proof.
  intros Hnd Hn Hx. assert (l ⊆+ seqZ a n) as Hs.
  { apply NoDup_submseteq; [done|]. intros x Hin. apply elem_of_seqZ. auto. }
  apply submseteq_length in Hs. rewrite length_seqZ in Hs. unfold len. lia.
Qed.

(** ** Computations *)

(** What a computation ends in: a result, an access outside an object (what
    C leaves undefined), or a loop that used up its iteration budget. *)
Inductive outcome (A : Type) : Type :=
| Done (a : A)
| Fault
| OutOfFuel.
Arguments Done {A} a.
Arguments Fault {A}.
Arguments OutOfFuel {A}.

(** Stateful computations over a state [S]. *)
Definition M (S A : Type) : Type := S -> outcome (A * S).

Definition ret {S A} (a : A) : M S A := fun s => Done (a, s).
Definition bind {S A B} (m : M S A) (k : A -> M S B) : M S B := fun s =>
  match m s with
  | Done (a, s') => k a s'
  | Fault => Fault
  | OutOfFuel => OutOfFuel
  end.
Lemma bind_done {S A B} (m : M S A) (k : A -> M S B) s a s' : m s = Done (a, s') -> bind m k s = k a s'.
Proof. unfold bind. by intros ->. Qed.

Definition get {S} : M S S := fun s => Done (s, s).
Definition put {S} (s : S) : M S unit := fun _ => Done (tt, s).
Definition modify {S} (f : S -> S) : M S unit := fun s => Done (tt, f s).
Definition fault {S A} : M S A := fun _ => Fault.
Definition out_of_fuel {S A} : M S A := fun _ => OutOfFuel.

(** A memory access that may be out of bounds. *)
Definition chk {S A} (o : option A) : M S A :=
  match o with Some a => ret a | None => fault end.

(** Run a computation on a part of the state. *)
Definition zoom {S T A} (gt : S -> T) (st : T -> S -> S) (m : M T A) : M S A :=
  fun s => match m (gt s) with
           | Done (a, t) => Done (a, st t s)
           | Fault => Fault
           | OutOfFuel => OutOfFuel
           end.

Declare Scope ff_scope.
Delimit Scope ff_scope with ff.
Notation "x <- m ;; k" := (bind m (fun x => k))
  (at level 100, m at next level, right associativity) : ff_scope.
Notation "'do' p <- m ;; k" := (bind m (fun x => match x with p => k end))
  (at level 100, p pattern, m at next level, right associativity) : ff_scope.
Notation "m ;;; k" := (bind m (fun _ => k))
  (at level 100, right associativity) : ff_scope.
#[global] Open Scope ff_scope.

(** ** Loops

    The iteration budget of a loop is a binary number, so that a large one
    costs nothing: [iter p body] runs [body] at most [p] times. *)
Fixpoint iter {S A B} (p : positive) (body : A -> M S (A + B)) (a : A) : M S (A + B) :=
  match p with
  | xH => body a
  | xO p => r <- iter p body a ;;
            match r with inl a' => iter p body a' | inr b => ret (inr b) end
  | xI p => r <- body a ;;
            match r with
            | inl a' => r' <- iter p body a' ;;
                        match r' with inl a'' => iter p body a'' | inr b => ret (inr b) end
            | inr b => ret (inr b)
            end
  end.

(** Every loop of the program takes fewer than 2^34 turns: counters and
    offsets are 32 bits wide. *)
Definition LOOP_FUEL : positive := 17179869184.

(** A C loop: the body yields [inl a] to go round again with loop variables
    [a], or [inr b] to leave with [b]. *)
Definition loop {S A B} (body : A -> M S (A + B)) (a : A) : M S B :=
  r <- iter LOOP_FUEL body a ;;
  match r with inl _ => out_of_fuel | inr b => ret b end.

(** ** Triples

    [wpt true m Q s]: run from [s], [m] ends, makes no access outside an
    object, and its result and final state satisfy [Q].  [wpt false m Q s]
    says the same except that a loop of [m] may not end. *)
Definition wpt {S A} (t : bool) (m : M S A) (Q : A -> S -> Prop) (s : S) : Prop :=
  match m s with
  | Done (a, s') => Q a s'
  | Fault => False
  | OutOfFuel => if t then False else True
  end.

(** Total correctness. *)
Abbreviation wp := (wpt true).

Section wp_rules.
Context {S : Type}.
Implicit Types (t : bool) (s : S).

Lemma wp_ret {A} t (a : A) (Q : A -> S -> Prop) s : Q a s -> wpt t (ret a) Q s.
Proof. done. Qed.

Lemma wp_bind {A B} t (m : M S A) (k : A -> M S B) Q s :
  wpt t m (fun a s' => wpt t (k a) Q s') s -> wpt t (bind m k) Q s.
Proof. unfold wpt, bind. destruct (m s) as [[a s']| |]; done. Qed.

Lemma wp_bind_inv {A B} t (m : M S A) (k : A -> M S B) Q s :
  wpt t (bind m k) Q s -> wpt t m (fun a s' => wpt t (k a) Q s') s.
Proof. unfold wpt, bind. destruct (m s) as [[a s']| |]; done. Qed.

Lemma wp_mono {A} t (m : M S A) (P Q : A -> S -> Prop) s :
  wpt t m P s -> (forall a s', P a s' -> Q a s') -> wpt t m Q s.
Proof. unfold wpt. destruct (m s) as [[a s']| |]; eauto. Qed.

Lemma wp_conj {A} t (m : M S A) (P Q : A -> S -> Prop) s :
  wpt t m P s -> wpt t m Q s -> wpt t m (fun a s' => P a s' /\ Q a s') s.
Proof. unfold wpt. destruct (m s) as [[a s']| |]; eauto. Qed.

Lemma wp_total {A} t (m : M S A) (Q : A -> S -> Prop) s : wp m Q s -> wpt t m Q s.
Proof. unfold wpt. destruct (m s) as [[a s']| |]; done. Qed.

Lemma wp_get t (Q : S -> S -> Prop) s : Q s s -> wpt t get Q s.
Proof. done. Qed.

Lemma wp_put t s0 (Q : unit -> S -> Prop) s : Q tt s0 -> wpt t (put s0) Q s.
Proof. done. Qed.

Lemma wp_modify t f (Q : unit -> S -> Prop) s : Q tt (f s) -> wpt t (modify f) Q s.
Proof. done. Qed.

Lemma wp_chk {A} t (o : option A) (Q : A -> S -> Prop) s a :
  o = Some a -> Q a s -> wpt t (chk o) Q s.
Proof. by intros -> HQ. Qed.

Lemma wp_zoom {T A} t (gt : S -> T) st (m : M T A) (Q : A -> S -> Prop) s :
  wpt t m (fun a x => Q a (st x s)) (gt s) -> wpt t (zoom gt st m) Q s.
Proof. unfold wpt, zoom. destruct (m (gt s)) as [[a x]| |]; done. Qed.

(** A triple gives the run it describes. *)
Lemma wp_run {A} (m : M S A) Q s :
  wp m Q s -> exists a s', m s = Done (a, s') /\ Q a s'.
Proof. unfold wpt. destruct (m s) as [[a s']| |]; [|done..]. eauto. Qed.

Lemma wp_of_run {A} t (m : M S A) (Q : A -> S -> Prop) s a s' :
  m s = Done (a, s') -> Q a s' -> wpt t m Q s.
Proof. unfold wpt. by intros ->. Qed.

(** The loop rules.  The invariant is indexed by a bound on the turns left,
    which every turn lowers. *)
Lemma wp_iter {A B} t (I : Z -> A -> S -> Prop) (Q : B -> S -> Prop) (body : A -> M S (A + B)) :
  (forall k a s, I k a s ->
     wpt t (body a) (fun r s' => match r with
                              | inl a' => exists k', 0 <= k' < k /\ I k' a' s'
                              | inr b => Q b s'
                              end) s) ->
  forall p k a s, I k a s ->
    wpt t (iter p body a) (fun r s' => match r with
       | inl a' => exists k', 0 <= k' /\ k' + Zpos p <= k /\ I k' a' s'
       | inr b => Q b s'
       end) s.
Proof.
  intros Hb p. induction p as [p IH|p IH|]; intros k a s HI; simpl.
  - apply wp_bind. eapply wp_mono; [by eapply Hb|].
    intros [a1|b] s1; [|done]. intros (k1 & Hk1 & HI1).
    apply wp_bind. eapply wp_mono; [by eapply IH|].
    intros [a2|b] s2; [|done]. intros (k2 & Hk2 & Hk2' & HI2).
    eapply wp_mono; [by eapply IH|].
    intros [a3|b] s3; [|done]. intros (k3 & Hk3 & Hk3' & HI3). exists k3. split_and!; [lia|lia|done].
  - apply wp_bind. eapply wp_mono; [by eapply IH|].
    intros [a2|b] s2; [|done]. intros (k2 & Hk2 & Hk2' & HI2).
    eapply wp_mono; [by eapply IH|].
    intros [a3|b] s3; [|done]. intros (k3 & Hk3 & Hk3' & HI3). exists k3. split_and!; [lia|lia|done].
  - eapply wp_mono; [by eapply Hb|].
    intros [a1|b] s1; [|done]. intros (k1 & Hk1 & HI1). exists k1. split_and!; [lia|lia|done].
Qed.

Lemma wp_loop_ix {A B} t (I : Z -> A -> S -> Prop) (Q : B -> S -> Prop)
    (body : A -> M S (A + B)) k a s :
  (forall k a s, I k a s ->
     wpt t (body a) (fun r s' => match r with
                              | inl a' => exists k', 0 <= k' < k /\ I k' a' s'
                              | inr b => Q b s'
                              end) s) ->
  I k a s -> k < Zpos LOOP_FUEL -> wpt t (loop body a) Q s.
Proof.
  intros Hb HI Hmu. unfold loop. apply wp_bind.
  eapply wp_mono; [by eapply (wp_iter t I Q)|].
  intros [a'|b] s'; [|by apply wp_ret]. intros (k' & Hnn & Hle & _). lia.
Qed.

(** An invariant and a measure of the loop variables and the state. *)
Lemma wp_loop {A B} t (I : A -> S -> Prop) (mu : A -> S -> Z) (Q : B -> S -> Prop)
    (body : A -> M S (A + B)) a s :
  (forall a s, I a s ->
     wpt t (body a) (fun r s' => match r with
                              | inl a' => I a' s' /\ 0 <= mu a' s' < mu a s
                              | inr b => Q b s'
                              end) s) ->
  I a s -> mu a s < Zpos LOOP_FUEL -> wpt t (loop body a) Q s.
Proof.
  intros Hb HI Hmu. apply (wp_loop_ix t (fun k a s => k = mu a s /\ I a s) Q body (mu a s)); [|done|done].
  intros k a1 s1 [-> HI1]. eapply wp_mono; [by apply Hb|].
  intros [a2|b] s2; [|done]. intros [HI2 Hmu2]. by exists (mu a2 s2).
Qed.

Lemma wp_iter_partial {A B} (I : A -> S -> Prop) (Q : B -> S -> Prop)
    (body : A -> M S (A + B)) :
  (forall a s, I a s ->
     wpt false (body a) (fun r s' => match r with inl a' => I a' s' | inr b => Q b s' end) s) ->
  forall p a s, I a s ->
    wpt false (iter p body a) (fun r s' => match r with inl a' => I a' s' | inr b => Q b s' end) s.
Proof.
  intros Hb p. induction p as [p IH|p IH|]; intros a s HI; simpl; [..|by apply Hb].
  - apply wp_bind. eapply wp_mono; [by apply Hb|]. intros [a1|b] s1 HI1; [|done].
    apply wp_bind. eapply wp_mono; [by apply IH|]. intros [a2|b] s2 HI2; [|done]. by apply IH.
  - apply wp_bind. eapply wp_mono; [by apply IH|]. intros [a2|b] s2 HI2; [|done]. by apply IH.
Qed.

Lemma wp_loop_partial {A B} (I : A -> S -> Prop) (Q : B -> S -> Prop)
    (body : A -> M S (A + B)) a s :
  (forall a s, I a s ->
     wpt false (body a) (fun r s' => match r with inl a' => I a' s' | inr b => Q b s' end) s) ->
  I a s -> wpt false (loop body a) Q s.
Proof.
  intros Hb HI. unfold loop. apply wp_bind.
  eapply wp_mono; [by apply (wp_iter_partial I Q)|].
  intros [a'|b] s'; [done|]. intros HQ. by apply wp_ret.
Qed.

End wp_rules.

(** ** Computations that leave the state alone *)

(** [runs m P]: from every state [m] ends without a bad access, does not
    change the state, and its result satisfies [P]. *)
Definition runs {S A} (m : M S A) (P : A -> Prop) : Prop :=
  forall s, wp m (fun a s' => s' = s /\ P a) s.

Section runs_rules.
Context {S : Type}.

Lemma runs_ret {A} (a : A) (P : A -> Prop) : P a -> runs (S := S) (ret a) P.
Proof. intros HP s. by apply wp_ret. Qed.

Lemma runs_bind {A B} (m : M S A) (k : A -> M S B) P Q :
  runs m P -> (forall a, P a -> runs (k a) Q) -> runs (bind m k) Q.
Proof.
  intros Hm Hk s. apply wp_bind. eapply wp_mono; [apply Hm|]. intros a s' [-> HP]. by apply Hk.
Qed.

Lemma runs_mono {A} (m : M S A) (P Q : A -> Prop) :
  runs m P -> (forall a, P a -> Q a) -> runs m Q.
Proof. intros Hm HPQ s. eapply wp_mono; [apply Hm|]. intros a s' []. auto. Qed.

Lemma runs_chk {A} (o : option A) (P : A -> Prop) :
  (exists a, o = Some a /\ P a) -> runs (S := S) (chk o) P.
Proof. intros (a & -> & HP). by apply runs_ret. Qed.

Lemma runs_loop {A B} (I : A -> Prop) (mu : A -> Z) (P : B -> Prop) (body : A -> M S (A + B)) a :
  (forall a, I a -> runs (body a)
     (fun r => match r with inl a' => I a' /\ 0 <= mu a' < mu a | inr b => P b end)) ->
  I a -> mu a < Zpos LOOP_FUEL -> runs (loop body a) P.
Proof.
  intros Hb HI Hmu s.
  apply (wp_loop true (fun a s' => s' = s /\ I a) (fun a _ => mu a)); [|done|done].
  intros a1 s1 [-> HI1]. eapply wp_mono; [by apply Hb|].
  intros [a2|b] s2 [-> H2]; [by destruct H2|done].
Qed.

(** The result of such a computation does not depend on the state. *)
Lemma runs_done {A} (m : M S A) P s : runs m P -> exists a, m s = Done (a, s) /\ P a.
Proof. intros H. destruct (wp_run _ _ _ (H s)) as (a & s' & E & -> & HP). eauto. Qed.

End runs_rules.
