(* ===== verification/Types.v ===== *)
(** * Data types and constants of the FAT module

    The integer constants of ff.c (limits, flags, byte offsets of the on-disk
    structures), of ff.h and of diskio.h, and the structures of ff.h as
    records with one setter per field.  Configuration: ffconf.h with
    ffconf_fuzz_override.h (no long names, no exFAT, no relative paths, no
    file locking, not re-entrant, tiny buffers, one volume, 512-byte sectors). *)

From stdpp Require Import base numbers list gmap.
From Stdlib Require Import ZArith Lia.
From Stdlib Require Import Strings.Byte.
From S2P Require Import Prelude.

(** ** Constants of ff.c *)

Definition MAX_DIR : Z := 2097152.
Definition MAX_FAT12 : Z := 4085.
Definition MAX_FAT16 : Z := 65525.
Definition MAX_FAT32 : Z := 268435445.
Definition FA_SEEKEND : Z := 32.
Definition FA_MODIFIED : Z := 64.
Definition FA_DIRTY : Z := 128.
Definition AM_VOL : Z := 8.
Definition AM_LFN : Z := 15.
Definition AM_MASK : Z := 63.
Definition NSFLAG : Z := 11.
Definition NS_LAST : Z := 4.
Definition NS_BODY : Z := 8.
Definition NS_EXT : Z := 16.
Definition NS_DOT : Z := 32.
Definition NS_NOLFN : Z := 64.
Definition NS_NONAME : Z := 128.
Definition BS_JmpBoot : Z := 0.
Definition BS_OEMName : Z := 3.
Definition BPB_BytsPerSec : Z := 11.
Definition BPB_SecPerClus : Z := 13.
Definition BPB_RsvdSecCnt : Z := 14.
Definition BPB_NumFATs : Z := 16.
Definition BPB_RootEntCnt : Z := 17.
Definition BPB_TotSec16 : Z := 19.
Definition BPB_Media : Z := 21.
Definition BPB_FATSz16 : Z := 22.
Definition BPB_SecPerTrk : Z := 24.
Definition BPB_NumHeads : Z := 26.
Definition BPB_HiddSec : Z := 28.
Definition BPB_TotSec32 : Z := 32.
Definition BS_DrvNum : Z := 36.
Definition BS_NTres : Z := 37.
Definition BS_BootSig : Z := 38.
Definition BS_VolID : Z := 39.
Definition BS_VolLab : Z := 43.
Definition BS_FilSysType : Z := 54.
Definition BS_BootCode : Z := 62.
Definition BS_55AA : Z := 510.
Definition BPB_FATSz32 : Z := 36.
Definition BPB_ExtFlags32 : Z := 40.
Definition BPB_FSVer32 : Z := 42.
Definition BPB_RootClus32 : Z := 44.
Definition BPB_FSInfo32 : Z := 48.
Definition BPB_BkBootSec32 : Z := 50.
Definition BS_DrvNum32 : Z := 64.
Definition BS_NTres32 : Z := 65.
Definition BS_BootSig32 : Z := 66.
Definition BS_VolID32 : Z := 67.
Definition BS_VolLab32 : Z := 71.
Definition BS_FilSysType32 : Z := 82.
Definition BS_BootCode32 : Z := 90.
Definition DIR_Name : Z := 0.
Definition DIR_Attr : Z := 11.
Definition DIR_NTres : Z := 12.
Definition DIR_CrtTime10 : Z := 13.
Definition DIR_CrtTime : Z := 14.
Definition DIR_LstAccDate : Z := 18.
Definition DIR_FstClusHI : Z := 20.
Definition DIR_ModTime : Z := 22.
Definition DIR_FstClusLO : Z := 26.
Definition DIR_FileSize : Z := 28.
Definition SZDIRE : Z := 32.
Definition DDEM : Z := 229.
Definition RDDEM : Z := 5.
Definition FSI_LeadSig : Z := 0.
Definition FSI_StrucSig : Z := 484.
Definition FSI_Free_Count : Z := 488.
Definition FSI_Nxt_Free : Z := 492.
Definition FSI_TrailSig : Z := 498.
Definition MBR_Table : Z := 446.
Definition SZ_PTE : Z := 16.
Definition PTE_Boot : Z := 0.
Definition PTE_StHead : Z := 1.
Definition PTE_StSec : Z := 2.
Definition PTE_StCyl : Z := 3.
Definition PTE_System : Z := 4.
Definition PTE_EdHead : Z := 5.
Definition PTE_EdSec : Z := 6.
Definition PTE_EdCyl : Z := 7.
Definition PTE_StLba : Z := 8.
Definition PTE_SizLba : Z := 12.

(** ** Constants of ff.h and diskio.h *)

Definition FA_READ : Z := 1.
Definition FA_WRITE : Z := 2.
Definition FA_OPEN_EXISTING : Z := 0.
Definition FA_CREATE_NEW : Z := 4.
Definition FA_CREATE_ALWAYS : Z := 8.
Definition FA_OPEN_ALWAYS : Z := 16.
Definition FA_OPEN_APPEND : Z := 48.
Definition FM_FAT : Z := 1.
Definition FM_FAT32 : Z := 2.
Definition FM_EXFAT : Z := 4.
Definition FM_ANY : Z := 7.
Definition FM_SFD : Z := 8.
Definition FS_FAT12 : Z := 1.
Definition FS_FAT16 : Z := 2.
Definition FS_FAT32 : Z := 3.
Definition AM_RDO : Z := 1.
Definition AM_HID : Z := 2.
Definition AM_SYS : Z := 4.
Definition AM_DIR : Z := 16.
Definition AM_ARC : Z := 32.
Definition STA_NOINIT : Z := 1.
Definition STA_NODISK : Z := 2.
Definition STA_PROTECT : Z := 4.
Definition CTRL_SYNC : Z := 0.
Definition GET_SECTOR_COUNT : Z := 1.
Definition GET_SECTOR_SIZE : Z := 2.
Definition GET_BLOCK_SIZE : Z := 3.

(** Configuration: the sector size, the number of volumes and the fixed
    timestamp of ffconf.h as overridden by ffconf_fuzz_override.h. *)
Definition SS : Z := 512.
Definition FF_VOLUMES : Z := 1.
Definition FF_NORTC_MON : Z := 11.
Definition FF_NORTC_MDAY : Z := 1.
Definition FF_NORTC_YEAR : Z := 2024.
Definition GET_FATTIME : Z :=
  Z.lor (Z.lor (Z.shiftl (FF_NORTC_YEAR - 1980) 25) (Z.shiftl FF_NORTC_MON 21))
        (Z.shiftl FF_NORTC_MDAY 16).

(** Unfold the constants, for arithmetic on offsets. *)
Ltac unfold_consts := cbv delta [MAX_DIR MAX_FAT12 MAX_FAT16 MAX_FAT32 FA_SEEKEND FA_MODIFIED FA_DIRTY AM_VOL
  AM_LFN AM_MASK NSFLAG NS_LAST NS_BODY NS_EXT NS_DOT NS_NOLFN
  NS_NONAME BS_JmpBoot BS_OEMName BPB_BytsPerSec BPB_SecPerClus BPB_RsvdSecCnt BPB_NumFATs BPB_RootEntCnt
  BPB_TotSec16 BPB_Media BPB_FATSz16 BPB_SecPerTrk BPB_NumHeads BPB_HiddSec BPB_TotSec32 BS_DrvNum
  BS_NTres BS_BootSig BS_VolID BS_VolLab BS_FilSysType BS_BootCode BS_55AA BPB_FATSz32
  BPB_ExtFlags32 BPB_FSVer32 BPB_RootClus32 BPB_FSInfo32 BPB_BkBootSec32 BS_DrvNum32 BS_NTres32 BS_BootSig32
  BS_VolID32 BS_VolLab32 BS_FilSysType32 BS_BootCode32 DIR_Name DIR_Attr DIR_NTres DIR_CrtTime10
  DIR_CrtTime DIR_LstAccDate DIR_FstClusHI DIR_ModTime DIR_FstClusLO DIR_FileSize SZDIRE DDEM
  RDDEM FSI_LeadSig FSI_StrucSig FSI_Free_Count FSI_Nxt_Free FSI_TrailSig MBR_Table SZ_PTE
  PTE_Boot PTE_StHead PTE_StSec PTE_StCyl PTE_System PTE_EdHead PTE_EdSec PTE_EdCyl
  PTE_StLba PTE_SizLba FA_READ FA_WRITE FA_OPEN_EXISTING FA_CREATE_NEW FA_CREATE_ALWAYS FA_OPEN_ALWAYS
  FA_OPEN_APPEND FM_FAT FM_FAT32 FM_EXFAT FM_ANY FM_SFD FS_FAT12 FS_FAT16
  FS_FAT32 AM_RDO AM_HID AM_SYS AM_DIR AM_ARC STA_NOINIT STA_NODISK
  STA_PROTECT CTRL_SYNC GET_SECTOR_COUNT GET_SECTOR_SIZE GET_BLOCK_SIZE SS FF_VOLUMES FF_NORTC_MON
  FF_NORTC_MDAY FF_NORTC_YEAR] in *.

(** ** Result codes *)

(** [FRESULT] of ff.h. *)
Inductive FRESULT : Set :=
| FR_OK | FR_DISK_ERR | FR_INT_ERR | FR_NOT_READY | FR_NO_FILE | FR_NO_PATH
| FR_INVALID_NAME | FR_DENIED | FR_EXIST | FR_INVALID_OBJECT | FR_WRITE_PROTECTED
| FR_INVALID_DRIVE | FR_NOT_ENABLED | FR_NO_FILESYSTEM | FR_MKFS_ABORTED | FR_TIMEOUT
| FR_LOCKED | FR_NOT_ENOUGH_CORE | FR_TOO_MANY_OPEN_FILES | FR_INVALID_PARAMETER.

(** [DRESULT] of diskio.h. *)
Inductive DRESULT : Set := RES_OK | RES_ERROR | RES_WRPRT | RES_NOTRDY | RES_PARERR.

#[global] Instance FRESULT_eq_dec : EqDecision FRESULT.
Proof. solve_decision. Defined.
#[global] Instance DRESULT_eq_dec : EqDecision DRESULT.
Proof. solve_decision. Defined.

(** [r == c] on result codes. *)
Definition fr_eqb (a b : FRESULT) : bool := bool_decide (a = b).
Definition dr_eqb (a b : DRESULT) : bool := bool_decide (a = b).
Notation "a =r b" := (fr_eqb a b) (at level 70) : ff_scope.
Notation "a =d b" := (dr_eqb a b) (at level 70) : ff_scope.

Lemma fr_eqb_spec a b : reflect (a = b) (a =r b).
Proof. unfold fr_eqb. case_bool_decide; by constructor. Qed.
Lemma dr_eqb_spec a b : reflect (a = b) (a =d b).
Proof. unfold dr_eqb. case_bool_decide; by constructor. Qed.

(** A C condition on an integer: zero is false. *)
Definition nz (x : Z) : bool := negb (x =? 0).

(** ** Structures *)

(** Filesystem object (FATFS of ff.h). *)
Record FATFS : Type := mkFATFS {
  fs_type : Z;
  pdrv : Z;
  ldrv : Z;
  n_fats : Z;
  wflag : Z;
  fsi_flag : Z;
  fs_id : Z;
  n_rootdir : Z;
  csize : Z;
  last_clst : Z;
  free_clst : Z;
  n_fatent : Z;
  fsize : Z;
  volbase : Z;
  fatbase : Z;
  dirbase : Z;
  database : Z;
  winsect : Z;
  win : list byte
}.

Definition set_fs_type (v : Z) (r : FATFS) : FATFS :=
  mkFATFS v (pdrv r) (ldrv r) (n_fats r) (wflag r) (fsi_flag r) (fs_id r) (n_rootdir r) (csize r) (last_clst r) (free_clst r) (n_fatent r) (fsize r) (volbase r) (fatbase r) (dirbase r) (database r) (winsect r) (win r).
Definition set_pdrv (v : Z) (r : FATFS) : FATFS :=
  mkFATFS (fs_type r) v (ldrv r) (n_fats r) (wflag r) (fsi_flag r) (fs_id r) (n_rootdir r) (csize r) (last_clst r) (free_clst r) (n_fatent r) (fsize r) (volbase r) (fatbase r) (dirbase r) (database r) (winsect r) (win r).
Definition set_ldrv (v : Z) (r : FATFS) : FATFS :=
  mkFATFS (fs_type r) (pdrv r) v (n_fats r) (wflag r) (fsi_flag r) (fs_id r) (n_rootdir r) (csize r) (last_clst r) (free_clst r) (n_fatent r) (fsize r) (volbase r) (fatbase r) (dirbase r) (database r) (winsect r) (win r).
Definition set_n_fats (v : Z) (r : FATFS) : FATFS :=
  mkFATFS (fs_type r) (pdrv r) (ldrv r) v (wflag r) (fsi_flag r) (fs_id r) (n_rootdir r) (csize r) (last_clst r) (free_clst r) (n_fatent r) (fsize r) (volbase r) (fatbase r) (dirbase r) (database r) (winsect r) (win r).
Definition set_wflag (v : Z) (r : FATFS) : FATFS :=
  mkFATFS (fs_type r) (pdrv r) (ldrv r) (n_fats r) v (fsi_flag r) (fs_id r) (n_rootdir r) (csize r) (last_clst r) (free_clst r) (n_fatent r) (fsize r) (volbase r) (fatbase r) (dirbase r) (database r) (winsect r) (win r).
Definition set_fsi_flag (v : Z) (r : FATFS) : FATFS :=
  mkFATFS (fs_type r) (pdrv r) (ldrv r) (n_fats r) (wflag r) v (fs_id r) (n_rootdir r) (csize r) (last_clst r) (free_clst r) (n_fatent r) (fsize r) (volbase r) (fatbase r) (dirbase r) (database r) (winsect r) (win r).
Definition set_fs_id (v : Z) (r : FATFS) : FATFS :=
  mkFATFS (fs_type r) (pdrv r) (ldrv r) (n_fats r) (wflag r) (fsi_flag r) v (n_rootdir r) (csize r) (last_clst r) (free_clst r) (n_fatent r) (fsize r) (volbase r) (fatbase r) (dirbase r) (database r) (winsect r) (win r).
Definition set_n_rootdir (v : Z) (r : FATFS) : FATFS :=
  mkFATFS (fs_type r) (pdrv r) (ldrv r) (n_fats r) (wflag r) (fsi_flag r) (fs_id r) v (csize r) (last_clst r) (free_clst r) (n_fatent r) (fsize r) (volbase r) (fatbase r) (dirbase r) (database r) (winsect r) (win r).
Definition set_csize (v : Z) (r : FATFS) : FATFS :=
  mkFATFS (fs_type r) (pdrv r) (ldrv r) (n_fats r) (wflag r) (fsi_flag r) (fs_id r) (n_rootdir r) v (last_clst r) (free_clst r) (n_fatent r) (fsize r) (volbase r) (fatbase r) (dirbase r) (database r) (winsect r) (win r).
Definition set_last_clst (v : Z) (r : FATFS) : FATFS :=
  mkFATFS (fs_type r) (pdrv r) (ldrv r) (n_fats r) (wflag r) (fsi_flag r) (fs_id r) (n_rootdir r) (csize r) v (free_clst r) (n_fatent r) (fsize r) (volbase r) (fatbase r) (dirbase r) (database r) (winsect r) (win r).
Definition set_free_clst (v : Z) (r : FATFS) : FATFS :=
  mkFATFS (fs_type r) (pdrv r) (ldrv r) (n_fats r) (wflag r) (fsi_flag r) (fs_id r) (n_rootdir r) (csize r) (last_clst r) v (n_fatent r) (fsize r) (volbase r) (fatbase r) (dirbase r) (database r) (winsect r) (win r).
Definition set_n_fatent (v : Z) (r : FATFS) : FATFS :=
  mkFATFS (fs_type r) (pdrv r) (ldrv r) (n_fats r) (wflag r) (fsi_flag r) (fs_id r) (n_rootdir r) (csize r) (last_clst r) (free_clst r) v (fsize r) (volbase r) (fatbase r) (dirbase r) (database r) (winsect r) (win r).
Definition set_fsize (v : Z) (r : FATFS) : FATFS :=
  mkFATFS (fs_type r) (pdrv r) (ldrv r) (n_fats r) (wflag r) (fsi_flag r) (fs_id r) (n_rootdir r) (csize r) (last_clst r) (free_clst r) (n_fatent r) v (volbase r) (fatbase r) (dirbase r) (database r) (winsect r) (win r).
Definition set_volbase (v : Z) (r : FATFS) : FATFS :=
  mkFATFS (fs_type r) (pdrv r) (ldrv r) (n_fats r) (wflag r) (fsi_flag r) (fs_id r) (n_rootdir r) (csize r) (last_clst r) (free_clst r) (n_fatent r) (fsize r) v (fatbase r) (dirbase r) (database r) (winsect r) (win r).
Definition set_fatbase (v : Z) (r : FATFS) : FATFS :=
  mkFATFS (fs_type r) (pdrv r) (ldrv r) (n_fats r) (wflag r) (fsi_flag r) (fs_id r) (n_rootdir r) (csize r) (last_clst r) (free_clst r) (n_fatent r) (fsize r) (volbase r) v (dirbase r) (database r) (winsect r) (win r).
Definition set_dirbase (v : Z) (r : FATFS) : FATFS :=
  mkFATFS (fs_type r) (pdrv r) (ldrv r) (n_fats r) (wflag r) (fsi_flag r) (fs_id r) (n_rootdir r) (csize r) (last_clst r) (free_clst r) (n_fatent r) (fsize r) (volbase r) (fatbase r) v (database r) (winsect r) (win r).
Definition set_database (v : Z) (r : FATFS) : FATFS :=
  mkFATFS (fs_type r) (pdrv r) (ldrv r) (n_fats r) (wflag r) (fsi_flag r) (fs_id r) (n_rootdir r) (csize r) (last_clst r) (free_clst r) (n_fatent r) (fsize r) (volbase r) (fatbase r) (dirbase r) v (winsect r) (win r).
Definition set_winsect (v : Z) (r : FATFS) : FATFS :=
  mkFATFS (fs_type r) (pdrv r) (ldrv r) (n_fats r) (wflag r) (fsi_flag r) (fs_id r) (n_rootdir r) (csize r) (last_clst r) (free_clst r) (n_fatent r) (fsize r) (volbase r) (fatbase r) (dirbase r) (database r) v (win r).
Definition set_win (v : list byte) (r : FATFS) : FATFS :=
  mkFATFS (fs_type r) (pdrv r) (ldrv r) (n_fats r) (wflag r) (fsi_flag r) (fs_id r) (n_rootdir r) (csize r) (last_clst r) (free_clst r) (n_fatent r) (fsize r) (volbase r) (fatbase r) (dirbase r) (database r) (winsect r) v.

(** Object ID and allocation information (FFOBJID of ff.h).  [obj_fs] is the
    pointer to the hosting volume: an address of the store of filesystem
    objects, [None] when null. *)
Record FFOBJID : Type := mkFFOBJID {
  obj_fs : option Z;
  obj_id : Z;
  obj_attr : Z;
  obj_stat : Z;
  obj_sclust : Z;
  obj_objsize : Z
}.

Definition set_obj_fs (v : option Z) (r : FFOBJID) : FFOBJID :=
  mkFFOBJID v (obj_id r) (obj_attr r) (obj_stat r) (obj_sclust r) (obj_objsize r).
Definition set_obj_id (v : Z) (r : FFOBJID) : FFOBJID :=
  mkFFOBJID (obj_fs r) v (obj_attr r) (obj_stat r) (obj_sclust r) (obj_objsize r).
Definition set_obj_attr (v : Z) (r : FFOBJID) : FFOBJID :=
  mkFFOBJID (obj_fs r) (obj_id r) v (obj_stat r) (obj_sclust r) (obj_objsize r).
Definition set_obj_stat (v : Z) (r : FFOBJID) : FFOBJID :=
  mkFFOBJID (obj_fs r) (obj_id r) (obj_attr r) v (obj_sclust r) (obj_objsize r).
Definition set_obj_sclust (v : Z) (r : FFOBJID) : FFOBJID :=
  mkFFOBJID (obj_fs r) (obj_id r) (obj_attr r) (obj_stat r) v (obj_objsize r).
Definition set_obj_objsize (v : Z) (r : FFOBJID) : FFOBJID :=
  mkFFOBJID (obj_fs r) (obj_id r) (obj_attr r) (obj_stat r) (obj_sclust r) v.

(** File object (FIL of ff.h).  [fp_dir_ptr] is the offset in the window of
    the hosting volume that [dir_ptr] points to; [fp_err] is the abort code. *)
Record FIL : Type := mkFIL {
  fp_obj : FFOBJID;
  fp_flag : Z;
  fp_err : FRESULT;
  fp_fptr : Z;
  fp_clust : Z;
  fp_sect : Z;
  fp_dir_sect : Z;
  fp_dir_ptr : Z
}.

Definition set_fp_obj (v : FFOBJID) (r : FIL) : FIL :=
  mkFIL v (fp_flag r) (fp_err r) (fp_fptr r) (fp_clust r) (fp_sect r) (fp_dir_sect r) (fp_dir_ptr r).
Definition set_fp_flag (v : Z) (r : FIL) : FIL :=
  mkFIL (fp_obj r) v (fp_err r) (fp_fptr r) (fp_clust r) (fp_sect r) (fp_dir_sect r) (fp_dir_ptr r).
Definition set_fp_err (v : FRESULT) (r : FIL) : FIL :=
  mkFIL (fp_obj r) (fp_flag r) v (fp_fptr r) (fp_clust r) (fp_sect r) (fp_dir_sect r) (fp_dir_ptr r).
Definition set_fp_fptr (v : Z) (r : FIL) : FIL :=
  mkFIL (fp_obj r) (fp_flag r) (fp_err r) v (fp_clust r) (fp_sect r) (fp_dir_sect r) (fp_dir_ptr r).
Definition set_fp_clust (v : Z) (r : FIL) : FIL :=
  mkFIL (fp_obj r) (fp_flag r) (fp_err r) (fp_fptr r) v (fp_sect r) (fp_dir_sect r) (fp_dir_ptr r).
Definition set_fp_sect (v : Z) (r : FIL) : FIL :=
  mkFIL (fp_obj r) (fp_flag r) (fp_err r) (fp_fptr r) (fp_clust r) v (fp_dir_sect r) (fp_dir_ptr r).
Definition set_fp_dir_sect (v : Z) (r : FIL) : FIL :=
  mkFIL (fp_obj r) (fp_flag r) (fp_err r) (fp_fptr r) (fp_clust r) (fp_sect r) v (fp_dir_ptr r).
Definition set_fp_dir_ptr (v : Z) (r : FIL) : FIL :=
  mkFIL (fp_obj r) (fp_flag r) (fp_err r) (fp_fptr r) (fp_clust r) (fp_sect r) (fp_dir_sect r) v.

(** Directory object (DIR of ff.h).  [dp_dir] is the offset in the window
    that [dir] points to. *)
Record DIR : Type := mkDIR {
  dp_obj : FFOBJID;
  dp_dptr : Z;
  dp_clust : Z;
  dp_sect : Z;
  dp_dir : Z;
  dp_fn : list byte
}.

Definition set_dp_obj (v : FFOBJID) (r : DIR) : DIR :=
  mkDIR v (dp_dptr r) (dp_clust r) (dp_sect r) (dp_dir r) (dp_fn r).
Definition set_dp_dptr (v : Z) (r : DIR) : DIR :=
  mkDIR (dp_obj r) v (dp_clust r) (dp_sect r) (dp_dir r) (dp_fn r).
Definition set_dp_clust (v : Z) (r : DIR) : DIR :=
  mkDIR (dp_obj r) (dp_dptr r) v (dp_sect r) (dp_dir r) (dp_fn r).
Definition set_dp_sect (v : Z) (r : DIR) : DIR :=
  mkDIR (dp_obj r) (dp_dptr r) (dp_clust r) v (dp_dir r) (dp_fn r).
Definition set_dp_dir (v : Z) (r : DIR) : DIR :=
  mkDIR (dp_obj r) (dp_dptr r) (dp_clust r) (dp_sect r) v (dp_fn r).
Definition set_dp_fn (v : list byte) (r : DIR) : DIR :=
  mkDIR (dp_obj r) (dp_dptr r) (dp_clust r) (dp_sect r) (dp_dir r) v.

(** File information (FILINFO of ff.h); [fi_fname] has 13 elements. *)
Record FILINFO : Type := mkFILINFO {
  fi_fsize : Z;
  fi_fdate : Z;
  fi_ftime : Z;
  fi_fattrib : Z;
  fi_fname : list byte
}.

Definition set_fi_fsize (v : Z) (r : FILINFO) : FILINFO :=
  mkFILINFO v (fi_fdate r) (fi_ftime r) (fi_fattrib r) (fi_fname r).
Definition set_fi_fdate (v : Z) (r : FILINFO) : FILINFO :=
  mkFILINFO (fi_fsize r) v (fi_ftime r) (fi_fattrib r) (fi_fname r).
Definition set_fi_ftime (v : Z) (r : FILINFO) : FILINFO :=
  mkFILINFO (fi_fsize r) (fi_fdate r) v (fi_fattrib r) (fi_fname r).
Definition set_fi_fattrib (v : Z) (r : FILINFO) : FILINFO :=
  mkFILINFO (fi_fsize r) (fi_fdate r) (fi_ftime r) v (fi_fname r).
Definition set_fi_fname (v : list byte) (r : FILINFO) : FILINFO :=
  mkFILINFO (fi_fsize r) (fi_fdate r) (fi_ftime r) (fi_fattrib r) v.

(** Format parameters (MKFS_PARM of ff.h). *)
Record MKFS_PARM : Type := mkMKFS_PARM {
  mk_fmt : Z;
  mk_n_fat : Z;
  mk_align : Z;
  mk_n_root : Z;
  mk_au_size : Z
}.


(** Simplify a field of an updated structure. *)
Ltac rec_simpl := cbn [fs_type pdrv ldrv n_fats wflag fsi_flag
  fs_id n_rootdir csize last_clst free_clst n_fatent
  fsize volbase fatbase dirbase database winsect
  win obj_fs obj_id obj_attr obj_stat obj_sclust
  obj_objsize fp_obj fp_flag fp_err fp_fptr fp_clust
  fp_sect fp_dir_sect fp_dir_ptr dp_obj dp_dptr dp_clust
  dp_sect dp_dir dp_fn fi_fsize fi_fdate fi_ftime
  fi_fattrib fi_fname mk_fmt mk_n_fat mk_align mk_n_root
  mk_au_size set_fs_type set_pdrv set_ldrv set_n_fats set_wflag
  set_fsi_flag set_fs_id set_n_rootdir set_csize set_last_clst set_free_clst
  set_n_fatent set_fsize set_volbase set_fatbase set_dirbase set_database
  set_winsect set_win set_obj_fs set_obj_id set_obj_attr set_obj_stat
  set_obj_sclust set_obj_objsize set_fp_obj set_fp_flag set_fp_err set_fp_fptr
  set_fp_clust set_fp_sect set_fp_dir_sect set_fp_dir_ptr set_dp_obj set_dp_dptr
  set_dp_clust set_dp_sect set_dp_dir set_dp_fn set_fi_fsize set_fi_fdate
  set_fi_ftime set_fi_fattrib set_fi_fname] in *.
