(* ===== verification/Bytes.v ===== *)
(** * Multi-byte fields of byte arrays

    The little-endian loads and stores of ff.c ([ld_word] .. [st_dword]) on
    the bytes of an object, [None] when an access leaves the object.  Each is
    related to [slice]/[splice] of the object, which gives the round trips,
    the frame of a store, and the range of a load. *)

From stdpp Require Import base numbers list option.
From Stdlib Require Import ZArith Lia.
From Stdlib Require Import Strings.Byte.
From S2P Require Import Prelude.

(** ** The functions of ff.c *)

Definition ld_word (b : list byte) (ptr : Z) : option Z :=
  b1 ← at_ b (ptr + 1); b0 ← at_ b ptr;
  let rv := u16 (bval b1) in
  Some (u16 (Z.lor (Z.shiftl rv 8) (bval b0))).

Definition ld_dword (b : list byte) (ptr : Z) : option Z :=
  b3 ← at_ b (ptr + 3); b2 ← at_ b (ptr + 2); b1 ← at_ b (ptr + 1); b0 ← at_ b ptr;
  let rv := u32 (bval b3) in
  let rv := u32 (Z.lor (Z.shiftl rv 8) (bval b2)) in
  let rv := u32 (Z.lor (Z.shiftl rv 8) (bval b1)) in
  Some (u32 (Z.lor (Z.shiftl rv 8) (bval b0))).

(** [*ptr++ = (BYTE)val; val >>= 8;] repeated [n] times. *)
Fixpoint st_bytes (n : nat) (b : list byte) (ptr : Z) (val : Z) : option (list byte) :=
  match n with
  | O => Some b
  | S n => b' ← upd b ptr (mkb val); st_bytes n b' (ptr + 1) (Z.shiftr val 8)
  end.

Definition st_word (b : list byte) (ptr : Z) (val : Z) : option (list byte) :=
  st_bytes 2 b ptr val.
Definition st_dword (b : list byte) (ptr : Z) (val : Z) : option (list byte) :=
  st_bytes 4 b ptr val.

(** ** Reference definitions *)

(** The number whose little-endian digits in base 256 are [l]. *)
Fixpoint le_combine (l : list byte) : Z :=
  match l with [] => 0 | b :: l => bval b + 256 * le_combine l end.

(** The [n] low-order digits of [v]. *)
Fixpoint le_split (n : nat) (v : Z) : list byte :=
  match n with O => [] | S n => mkb v :: le_split n (Z.shiftr v 8) end.

Lemma le_combine_range l : 0 <= le_combine l < 256 ^ len l.
Proof.
  induction l as [|b l IH]; [done|]. cbn [le_combine].
  pose proof (bval_range b).
  replace (len (b :: l)) with (1 + len l) by (unfold len; simpl; lia).
  rewrite Z.pow_add_r by (unfold len; lia). lia.
Qed.

Lemma le_combine_split n v : le_combine (le_split n v) = v mod 256 ^ Z.of_nat n.
Proof.
  revert v. induction n as [|n IH]; intros v; cbn [le_split le_combine].
  - by rewrite Z.mod_1_r.
  - rewrite IH, bval_mkb, Z.shiftr_div_pow2 by lia.
    replace (Z.of_nat (S n)) with (1 + Z.of_nat n) by lia.
    rewrite Z.pow_add_r by lia. change (256 ^ 1) with 256. change (2 ^ 8) with 256.
    rewrite Z.rem_mul_r by lia. done.
Qed.

Lemma len_le_split n v : len (le_split n v) = Z.of_nat n.
Proof.
  unfold len. f_equal. revert v. induction n as [|n IH]; intros v; [done|].
  cbn [le_split length]. by rewrite IH.
Qed.

Lemma le_split_combine l : le_split (length l) (le_combine l) = l.
Proof.
  induction l as [|b l IH]; [done|]. cbn [le_combine length le_split].
  pose proof (bval_range b). f_equal.
  - rewrite <- mkb_mod. replace ((bval b + 256 * le_combine l) mod 256) with (bval b)
      by (Z.to_euclidean_division_equations; lia).
    apply mkb_bval.
  - rewrite Z.shiftr_div_pow2 by lia. change (2 ^ 8) with 256.
    replace ((bval b + 256 * le_combine l) / 256) with (le_combine l)
      by (Z.to_euclidean_division_equations; lia).
    apply IH.
Qed.

(** ** Loads and stores against the reference *)

Lemma lor_shiftl_add x y n : 0 <= n -> 0 <= x < 2 ^ n -> Z.lor (Z.shiftl y n) x = y * 2 ^ n + x.
Proof.
  intros Hn Hx. rewrite <- Z.shiftl_mul_pow2 by done.
  assert (Z.land (Z.shiftl y n) x = 0) as H0.
  { apply Z.bits_inj'. intros i Hi. rewrite Z.land_spec, Z.bits_0.
    destruct (Z.lt_ge_cases i n).
    - by rewrite Z.shiftl_spec_low.
    - replace x with (x mod 2 ^ n) by (apply Z.mod_small; lia).
      by rewrite Z.mod_pow2_bits_high, andb_false_r by lia. }
  rewrite Z.add_nocarry_lxor by done. symmetry. by apply Z.lxor_lor.
Qed.

Lemma lor_byte w y b : 0 <= y -> 256 * y + 255 < w ->
  (Z.lor (Z.shiftl y 8) (bval b)) mod w = bval b + 256 * y.
Proof.
  intros Hy Hw. pose proof (bval_range b). rewrite lor_shiftl_add by (change (2 ^ 8) with 256; lia).
  change (2 ^ 8) with 256. rewrite Z.mod_small by lia. lia.
Qed.

Lemma at_slice_cons {A} (b : list A) p n : 0 < n ->
  slice b p n = (x ← at_ b p; l ← slice b (p + 1) (n - 1); Some (x :: l)).
Proof.
  intros Hn. destruct (at_ b p) as [x|] eqn:E; simpl.
  - pose proof (at_Some_range _ _ _ E). unfold slice.
    rewrite (proj2 (Z.leb_le 0 p)), (proj2 (Z.leb_le 0 n)), (proj2 (Z.leb_le 0 (p + 1))),
      (proj2 (Z.leb_le 0 (n - 1))) by lia. simpl.
    replace (p + 1 + (n - 1)) with (p + n) by lia.
    destruct (p + n <=? len b); [|done]. simpl. f_equal.
    rewrite at_lookup in E by lia.
    rewrite (drop_S _ _ _ E). replace (Z.to_nat n) with (S (Z.to_nat (n - 1))) by lia.
    simpl. by replace (Z.to_nat (p + 1)) with (S (Z.to_nat p)) by lia.
  - destruct (slice b p n) eqn:E2; [|done]. apply slice_Some_inv in E2 as (?&?&?&_).
    destruct (at_is_Some b p); [lia|congruence].
Qed.

Lemma slice_0 {A} (b : list A) p : 0 <= p <= len b -> slice b p 0 = Some [].
Proof.
  intros H. unfold slice. rewrite (proj2 (Z.leb_le 0 p)), (proj2 (Z.leb_le _ (len b))) by lia.
  done.
Qed.

Lemma slice_cons {A} (b : list A) p n x l :
  at_ b p = Some x -> slice b (p + 1) n = Some l -> slice b p (1 + n) = Some (x :: l).
Proof.
  intros H0 H1. pose proof (slice_Some_inv _ _ _ _ H1) as (?&?&?&_).
  rewrite at_slice_cons, H0 by lia. simpl.
  replace (1 + n - 1) with n by lia. by rewrite H1.
Qed.

Lemma slice_bytes2 {A} (b : list A) p b0 b1 :
  at_ b p = Some b0 -> at_ b (p + 1) = Some b1 -> slice b p 2 = Some [b0; b1].
Proof.
  intros H0 H1. pose proof (at_Some_range _ _ _ H1).
  apply (slice_cons b p 1); [done|]. apply (slice_cons b (p + 1) 0); [done|].
  apply slice_0. lia.
Qed.

Lemma slice_bytes4 {A} (b : list A) p b0 b1 b2 b3 :
  at_ b p = Some b0 -> at_ b (p + 1) = Some b1 -> at_ b (p + 2) = Some b2 ->
  at_ b (p + 3) = Some b3 -> slice b p 4 = Some [b0; b1; b2; b3].
Proof.
  intros H0 H1 H2 H3. apply (slice_cons b p 3); [done|].
  apply (slice_cons b (p + 1) 2); [done|].
  apply slice_bytes2; [rewrite <- H2|rewrite <- H3]; f_equal; lia.
Qed.

Lemma ld_word_slice b p : ld_word b p = le_combine <$> slice b p 2.
Proof.
  destruct (at_ b (p + 1)) as [b1|] eqn:E1.
  - pose proof (at_Some_range _ _ _ E1). destruct (Z.lt_ge_cases p 0).
    { unfold ld_word. rewrite E1. simpl. rewrite at_neg by done. simpl. unfold slice.
      by rewrite (proj2 (Z.leb_gt 0 p)). }
    destruct (at_is_Some b p) as [b0 E0]; [lia|].
    rewrite (slice_bytes2 _ _ _ _ E0 E1). unfold ld_word. rewrite E1, E0. simpl.
    pose proof (bval_range b1). unfold u16. rewrite (Z.mod_small (bval b1)) by lia.
    rewrite lor_byte by lia. f_equal. lia.
  - unfold ld_word. rewrite E1. simpl. destruct (slice b p 2) eqn:E2; [|done].
    apply slice_Some_inv in E2 as (?&?&?&_). destruct (at_is_Some b (p + 1)); [lia|congruence].
Qed.

Lemma slice_prefix {A} (b : list A) p n m :
  0 <= n <= m -> slice b p m ≠ None -> slice b p n ≠ None.
Proof.
  unfold slice. destruct (Z.leb_spec 0 p), (Z.leb_spec 0 m), (Z.leb_spec (p + m) (len b));
    simpl; try done. intros ? _.
  by rewrite (proj2 (Z.leb_le 0 n)), (proj2 (Z.leb_le (p + n) (len b))) by lia.
Qed.

Lemma ld_dword_slice b p : ld_dword b p = le_combine <$> slice b p 4.
Proof.
  destruct (slice b p 4) as [l|] eqn:E.
  - pose proof (slice_Some_inv _ _ _ _ E) as (Hp&_&Hl&_).
    destruct (at_is_Some b p) as [b0 E0]; [lia|].
    destruct (at_is_Some b (p + 1)) as [b1 E1]; [lia|].
    destruct (at_is_Some b (p + 2)) as [b2 E2]; [lia|].
    destruct (at_is_Some b (p + 3)) as [b3 E3]; [lia|].
    rewrite (slice_bytes4 _ _ _ _ _ _ E0 E1 E2 E3) in E. injection E as <-.
    unfold ld_dword. rewrite E3, E2, E1, E0. simpl.
    pose proof (bval_range b3); pose proof (bval_range b2); pose proof (bval_range b1).
    unfold u32. rewrite (Z.mod_small (bval b3)) by lia.
    rewrite (lor_byte _ (bval b3) b2) by lia.
    rewrite (lor_byte _ _ b1) by lia. rewrite (lor_byte _ _ b0) by lia.
    f_equal. lia.
  - unfold ld_dword. destruct (at_ b (p + 3)) eqn:E3; [|done]. simpl.
    apply at_Some_range in E3. destruct (at_ b (p + 2)) eqn:E2; [|done]. simpl.
    destruct (at_ b (p + 1)) eqn:E1; [|done]. simpl.
    destruct (at_ b p) eqn:E0; [|done]. apply at_Some_range in E0.
    destruct (slice_is_Some b p 4) as (?&?&_); [lia..|congruence].
Qed.

Lemma splice_cons {A} (l : list A) p x src :
  splice l p (x :: src) = b ← upd l p x; splice b (p + 1) src.
Proof.
  pose proof (len_nonneg src).
  assert (len (x :: src) = 1 + len src) as Hc by (unfold len; simpl; lia).
  destruct (upd l p x) as [b|] eqn:E; simpl.
  - pose proof (upd_len _ _ _ _ E) as Hl.
    destruct (splice_Some_inv _ _ _ _ E) as (Hp & Hle & _). change (len [x]) with 1 in Hle.
    destruct (splice b (p + 1) src) as [r|] eqn:E2.
    + destruct (splice_Some_inv _ _ _ _ E2) as (_ & Hle2 & _).
      destruct (splice_is_Some l p (x :: src)) as (r' & Hr' & _); [lia|lia|].
      rewrite Hr'. f_equal. apply at_ext. intros i.
      rewrite (at_splice _ _ _ _ _ Hr'), (at_splice _ _ _ _ _ E2), (at_upd _ _ _ _ i E), Hc.
      destruct (Z.eqb_spec i p) as [->|].
      { rewrite (proj2 (Z.leb_le p p)), (proj2 (Z.ltb_lt p (p + (1 + len src)))),
          (proj2 (Z.leb_gt (p + 1) p)) by lia. simpl. by rewrite Z.sub_diag. }
      destruct (Z.leb_spec p i), (Z.leb_spec (p + 1) i), (Z.ltb_spec i (p + (1 + len src))),
        (Z.ltb_spec i (p + 1 + len src)); simpl; try lia; try done.
      rewrite !at_lookup by lia. replace (Z.to_nat (i - p)) with (S (Z.to_nat (i - (p + 1)))) by lia.
      done.
    + destruct (splice l p (x :: src)) as [r'|] eqn:E3; [|done].
      apply splice_Some_inv in E3 as (_ & ? & _).
      destruct (splice_is_Some b (p + 1) src) as (?&?&_); [lia|lia|congruence].
  - destruct (splice l p (x :: src)) as [r'|] eqn:E3; [|done].
    apply splice_Some_inv in E3 as (? & ? & _).
    destruct (upd_is_Some l p x) as (?&?&_); [lia|congruence].
Qed.

Lemma splice_nil {A} (l : list A) p : 0 <= p <= len l -> splice l p [] = Some l.
Proof.
  intros H. destruct (splice_is_Some l p []) as (r & Hr & _); [lia|unfold len in *; simpl; lia|].
  rewrite Hr. f_equal. apply at_ext. intros i. rewrite (at_splice _ _ _ _ _ Hr).
  change (len (@nil A)) with 0.
  destruct (Z.leb_spec p i), (Z.ltb_spec i (p + 0)); simpl; try done. lia.
Qed.

(** A store is one [memcpy] of the digits of the value. *)
Lemma st_bytes_splice n b p v : (0 < n)%nat -> st_bytes n b p v = splice b p (le_split n v).
Proof.
  destruct n as [|n]; [lia|]. intros _. revert b p v. induction n as [|n IH]; intros b p v.
  - cbn [st_bytes le_split]. rewrite splice_cons. destruct (upd b p (mkb v)) eqn:E; [|done].
    simpl. pose proof (splice_Some_inv _ _ _ _ E) as (?&H2&H3&_).
    change (len [mkb v]) with 1 in H2. by rewrite splice_nil by lia.
  - change (st_bytes (S (S n)) b p v)
      with (b' ← upd b p (mkb v); st_bytes (S n) b' (p + 1) (Z.shiftr v 8)).
    change (le_split (S (S n)) v) with (mkb v :: le_split (S n) (Z.shiftr v 8)).
    rewrite splice_cons. destruct (upd b p (mkb v)); [|done]. simpl. apply IH.
Qed.

Lemma st_word_splice b p v : st_word b p v = splice b p (le_split 2 v).
Proof. apply st_bytes_splice. lia. Qed.
Lemma st_dword_splice b p v : st_dword b p v = splice b p (le_split 4 v).
Proof. apply st_bytes_splice. lia. Qed.

Lemma st_word_is_Some b p v :
  0 <= p -> p + 2 <= len b -> exists b', st_word b p v = Some b' /\ len b' = len b.
Proof. intros. rewrite st_word_splice. apply splice_is_Some; rewrite ?len_le_split; lia. Qed.

Lemma st_dword_is_Some b p v :
  0 <= p -> p + 4 <= len b -> exists b', st_dword b p v = Some b' /\ len b' = len b.
Proof. intros. rewrite st_dword_splice. apply splice_is_Some; rewrite ?len_le_split; lia. Qed.

Lemma ld_word_is_Some b p :
  0 <= p -> p + 2 <= len b -> exists w, ld_word b p = Some w /\ 0 <= w < 65536.
Proof.
  intros. destruct (slice_is_Some b p 2) as (r & Hr & Hl); [lia..|].
  rewrite ld_word_slice, Hr. eexists; split; [done|].
  pose proof (le_combine_range r) as Hc. by rewrite Hl in Hc.
Qed.

Lemma ld_dword_is_Some b p :
  0 <= p -> p + 4 <= len b -> exists w, ld_dword b p = Some w /\ 0 <= w < U32.
Proof.
  intros. destruct (slice_is_Some b p 4) as (r & Hr & Hl); [lia..|].
  rewrite ld_dword_slice, Hr. eexists; split; [done|].
  pose proof (le_combine_range r) as Hc. by rewrite Hl in Hc.
Qed.

(** Reading back a stored field. *)
Lemma ld_st_word b p v b' : st_word b p v = Some b' -> ld_word b' p = Some (u16 v).
Proof.
  rewrite st_word_splice, ld_word_slice. intros H%slice_splice_same.
  rewrite len_le_split in H. change (Z.of_nat 2) with 2 in H. rewrite H.
  cbn [fmap option_fmap option_map]. by rewrite le_combine_split.
Qed.

Lemma ld_st_dword b p v b' : st_dword b p v = Some b' -> ld_dword b' p = Some (u32 v).
Proof.
  rewrite st_dword_splice, ld_dword_slice. intros H%slice_splice_same.
  rewrite len_le_split in H. change (Z.of_nat 4) with 4 in H. rewrite H.
  cbn [fmap option_fmap option_map]. by rewrite le_combine_split.
Qed.
