(* ===== verification/Diskio.v ===== *)
(** * The disk I/O layer

    [DiskIO] is the interface FatFs uses (diskio.h) and [DiskIOLaws] what it
    relies on: sectors of 512 bytes that keep what was last written to them.
    Every theorem on the file system is proved against this interface.
    [Ram] is the fuzzing disk of diskio_fuzz.c, with its functions, and the
    instances at the end of the file show that it keeps the laws and never
    accesses memory outside its array. *)

From stdpp Require Import base numbers list.
From Stdlib Require Import ZArith Lia.
From Stdlib Require Import Strings.Byte.
From S2P Require Import Prelude Types.

(** ** The interface *)

(** The functions of diskio.h.  [dio_read pdrv buff sector count] is given
    the bytes of the caller's buffer and returns its new contents;
    [dio_ioctl] returns the value it stores through its pointer, if any. *)
Class DiskIO (D : Type) : Type := {
  dio_status : Z -> M D Z;
  dio_initialize : Z -> M D Z;
  dio_read : Z -> list byte -> Z -> Z -> M D (DRESULT * list byte);
  dio_write : Z -> list byte -> Z -> Z -> M D DRESULT;
  dio_ioctl : Z -> Z -> M D (DRESULT * option Z)
}.

(** What the file system relies on: [media d p s] is the content of sector
    [s] of drive [p], [None] where the drive has no such sector; [dgood d p s]
    says that the drive is there and that the sector can be read and written
    without an error; such a drive can also be flushed ([CTRL_SYNC]). *)
Class DiskIOLaws (D : Type) `{!DiskIO D} : Type := {
  dok : D -> Prop;
  media : D -> Z -> Z -> option (list byte);
  dgood : D -> Z -> Z -> Prop;
  media_len d p s b : dok d -> media d p s = Some b -> len b = SS;
  dio_status_law d p : dok d -> wp (dio_status p) (fun _ d' => d' = d) d;
  dio_initialize_law d p :
    dok d -> wp (dio_initialize p)
               (fun _ d' => dok d' /\ (forall s, media d' p s = media d p s) /\
                  (forall q x, dgood d q x -> dgood d' q x)) d;
  dio_read_law d p buf s n :
    dok d -> 0 <= s -> 0 <= n -> len buf = n * SS ->
    wp (dio_read p buf s n) (fun r d' =>
      d' = d /\ len r.2 = len buf /\
      (r.1 = RES_OK -> forall i, 0 <= i < n -> media d p (s + i) = slice r.2 (i * SS) SS) /\
      (0 < n -> (forall i, 0 <= i < n -> dgood d p (s + i)) -> r.1 = RES_OK)) d;
  dio_write_law d p buf s n :
    dok d -> 0 <= s -> 0 <= n -> len buf = n * SS ->
    wp (dio_write p buf s n) (fun r d' =>
      dok d' /\
      (forall x, x < s \/ s + n <= x -> media d' p x = media d p x) /\
      (r = RES_OK -> forall i, 0 <= i < n -> media d' p (s + i) = slice buf (i * SS) SS) /\
      (0 < n -> (forall i, 0 <= i < n -> dgood d p (s + i)) -> r = RES_OK) /\
      (forall q x, dgood d q x -> dgood d' q x)) d;
  dio_ioctl_law d p cmd :
    dok d -> wp (dio_ioctl p cmd)
               (fun r d' => dok d' /\ (forall s, media d' p s = media d p s) /\
                  (cmd = GET_SECTOR_COUNT -> r.1 = RES_OK -> is_Some r.2) /\
                  (forall q x, dgood d q x -> dgood d' q x) /\
                  (cmd = CTRL_SYNC -> (exists x, dgood d p x) -> r.1 = RES_OK)) d
}.

(** ** The RAM disk of diskio_fuzz.c *)

Module Ram.

Definition DISK_SECTORS : Z := 128.
Definition SECTOR_SIZE : Z := 512.
Definition DISK_SIZE : Z := DISK_SECTORS * SECTOR_SIZE.

(** [static BYTE disk\[DISK_SIZE\]]. *)
Record ram : Type := mkRam { disk : list byte }.

Definition fuzz_disk_load (data : list byte) (n : Z) : M ram unit :=
  st <- get ;;
  d <- chk (splice (disk st) 0 (replicate (Z.to_nat DISK_SIZE) x00)) ;;
  let n := if n >? DISK_SIZE then DISK_SIZE else n in
  src <- chk (slice data 0 n) ;;
  d <- chk (splice d 0 src) ;;
  put (mkRam d).

Definition disk_status (pdrv : Z) : M ram Z := ret 0.
Definition disk_initialize (pdrv : Z) : M ram Z := ret 0.

Definition in_bounds (sector count : Z) : bool :=
  if sector >=? DISK_SECTORS then false
  else if count >? DISK_SECTORS - sector then false
  else true.

Definition disk_read (pdrv : Z) (buff : list byte) (sector count : Z) :
    M ram (DRESULT * list byte) :=
  if negb (in_bounds sector count) then ret (RES_PARERR, buff)
  else
    st <- get ;;
    src <- chk (slice (disk st) (sector * SECTOR_SIZE) (count * SECTOR_SIZE)) ;;
    buff <- chk (splice buff 0 src) ;;
    ret (RES_OK, buff).

Definition disk_write (pdrv : Z) (buff : list byte) (sector count : Z) : M ram DRESULT :=
  if negb (in_bounds sector count) then ret RES_PARERR
  else
    st <- get ;;
    src <- chk (slice buff 0 (count * SECTOR_SIZE)) ;;
    d <- chk (splice (disk st) (sector * SECTOR_SIZE) src) ;;
    put (mkRam d) ;;;
    ret RES_OK.

Definition disk_ioctl (pdrv cmd : Z) : M ram (DRESULT * option Z) :=
  if cmd =? GET_SECTOR_COUNT then ret (RES_OK, Some DISK_SECTORS)
  else if cmd =? GET_SECTOR_SIZE then ret (RES_OK, Some SECTOR_SIZE)
  else if cmd =? GET_BLOCK_SIZE then ret (RES_OK, Some 1)
  else ret (RES_OK, None).

(** The array has its declared size. *)
Definition ram_ok (d : ram) : Prop := len (disk d) = DISK_SIZE.
#[global] Instance ram_ok_dec d : Decision (ram_ok d).
Proof. unfold ram_ok. apply _. Defined.

(** The content of a sector. *)
Definition sector (d : ram) (s : Z) : option (list byte) :=
  slice (disk d) (s * SECTOR_SIZE) SECTOR_SIZE.

#[global] Instance ram_io : DiskIO ram := {|
  dio_status := disk_status;
  dio_initialize := disk_initialize;
  dio_read := disk_read;
  dio_write := disk_write;
  dio_ioctl := disk_ioctl
|}.

(** *** Its laws *)

(** The comparison widened to 64 bits accepts exactly the ranges inside the
    array. *)
Lemma in_bounds_iff s n :
  0 <= s -> 0 <= n -> in_bounds s n = true <-> s < DISK_SECTORS /\ s + n <= DISK_SECTORS.
Proof.
  intros Hs Hn. unfold in_bounds, DISK_SECTORS.
  destruct (Z.geb_spec s 128), (Z.gtb_spec n (128 - s)); split; intros; try done; lia.
Qed.

Lemma sector_len d s b : sector d s = Some b -> len b = SS.
Proof. apply slice_len. Qed.

Lemma disk_read_spec d p buf s n :
  ram_ok d -> 0 <= s -> 0 <= n -> len buf = n * SS ->
  wp (disk_read p buf s n) (fun r d' =>
    d' = d /\ len r.2 = len buf /\
    (r.1 = RES_OK <-> s < DISK_SECTORS /\ s + n <= DISK_SECTORS) /\
    (r.1 = RES_OK -> forall i, 0 <= i < n -> sector d (s + i) = slice r.2 (i * SS) SS)) d.
Proof.
  intros Hok Hs Hn Hlen. unfold disk_read.
  destruct (in_bounds s n) eqn:E; cbn [negb].
  2:{ apply wp_ret. split; [done|]. split; [done|]. cbn [fst].
      rewrite <- in_bounds_iff, E by done. by split. }
  pose proof E as Hb. apply in_bounds_iff in Hb as [H1 H2]; [|done..].
  unfold ram_ok, DISK_SIZE, DISK_SECTORS, SS, SECTOR_SIZE in *.
  destruct (slice_is_Some (disk d) (s * 512) (n * 512)) as (src & Hsrc & Hl); [lia..|].
  destruct (splice_is_Some buf 0 src) as (b & Hb & Hbl); [lia|lia|].
  apply wp_bind, wp_get, wp_bind. eapply wp_chk; [done|].
  apply wp_bind. eapply wp_chk; [done|]. apply wp_ret. cbn [fst snd].
  split; [done|]. split; [done|]. split; [done|]. intros _ i Hi.
  assert (b = src) as ->.
  { apply slice_splice_same in Hb. assert (slice b 0 (len src) = Some b) as H
      by (replace (len src) with (len b) by lia; apply slice_all). congruence. }
  rewrite (slice_slice _ _ _ _ (i * 512) 512 Hsrc) by lia.
  unfold sector, SECTOR_SIZE. f_equal. lia.
Qed.

Lemma disk_write_spec d p buf s n :
  ram_ok d -> 0 <= s -> 0 <= n -> len buf = n * SS ->
  wp (disk_write p buf s n) (fun r d' =>
    ram_ok d' /\
    (r = RES_OK <-> s < DISK_SECTORS /\ s + n <= DISK_SECTORS) /\
    (r <> RES_OK -> d' = d) /\
    (forall x, x < s \/ s + n <= x -> sector d' x = sector d x) /\
    (r = RES_OK -> forall i, 0 <= i < n -> sector d' (s + i) = slice buf (i * SS) SS)) d.
Proof.
  intros Hok Hs Hn Hlen. unfold disk_write.
  destruct (in_bounds s n) eqn:E; cbn [negb].
  2:{ apply wp_ret. rewrite <- in_bounds_iff, E by done. by repeat split. }
  pose proof E as Hb. apply in_bounds_iff in Hb as [H1 H2]; [|done..].
  unfold ram_ok, DISK_SIZE, DISK_SECTORS, SS, SECTOR_SIZE in *.
  destruct (slice_is_Some buf 0 (n * 512)) as (src & Hsrc & Hl); [lia..|].
  assert (src = buf) as ->.
  { rewrite <- Hlen, slice_all in Hsrc. congruence. }
  destruct (splice_is_Some (disk d) (s * 512) buf) as (b & Hb & Hbl); [lia|lia|].
  apply wp_bind, wp_get, wp_bind. eapply wp_chk; [done|].
  apply wp_bind. eapply wp_chk; [done|]. apply wp_bind, wp_put, wp_ret. cbn [disk].
  split; [lia|]. split; [done|]. split; [done|].
  unfold sector, SECTOR_SIZE. cbn [disk]. split.
  - intros x Hx. eapply slice_splice_disjoint; [done|lia].
  - intros _ i Hi. pose proof (slice_splice_same _ _ _ _ Hb) as Hsame.
    rewrite (slice_slice _ _ _ _ (i * 512) 512 Hsame) by lia. f_equal. lia.
Qed.

#[global] Instance ram_laws : DiskIOLaws ram.
Proof.
  refine {| dok := ram_ok; media := fun d _ s => sector d s;
            dgood := fun _ _ s => 0 <= s < DISK_SECTORS |}.
  - intros d _ s b _. apply sector_len.
  - done.
  - intros d p H. done.
  - intros d p buf s n H1 H2 H3 H4. eapply wp_mono; [by apply disk_read_spec|].
    intros r d' (-> & Hl & Hr & Hm). split_and!; try done. intros Hn Hg. apply Hr.
    pose proof (Hg 0 ltac:(lia)). pose proof (Hg (n - 1) ltac:(lia)). lia.
  - intros d p buf s n H1 H2 H3 H4. eapply wp_mono; [by apply disk_write_spec|].
    intros r d' (Hd & Hr & _ & Hf & Hm). split_and!; try done. intros Hn Hg. apply Hr.
    pose proof (Hg 0 ltac:(lia)). pose proof (Hg (n - 1) ltac:(lia)). lia.
  - intros d p cmd H. cbn. unfold disk_ioctl. unfold GET_SECTOR_COUNT.
    destruct (Z.eqb_spec cmd 1); [|repeat case_match]; split_and!; done || eauto.
Defined.

(** Loading a test case fills the array from its start and clears the rest. *)
Lemma fuzz_disk_load_spec d data n :
  ram_ok d -> 0 <= n <= len data ->
  wp (fuzz_disk_load data n) (fun _ d' =>
    ram_ok d' /\
    forall i, 0 <= i < DISK_SIZE ->
      at_ (disk d') i = if i <? n then at_ data i else Some x00) d.
Proof.
  intros Hok Hn. unfold fuzz_disk_load. apply wp_bind, wp_get.
  assert (len (replicate (Z.to_nat DISK_SIZE) x00) = DISK_SIZE) as Hrep
    by (by apply len_replicate).
  destruct (splice_is_Some (disk d) 0 (replicate (Z.to_nat DISK_SIZE) x00)) as (z & Hz & Hzl);
    [done|unfold ram_ok in Hok; lia|].
  apply wp_bind. eapply wp_chk; [exact Hz|].
  set (n' := if n >? DISK_SIZE then DISK_SIZE else n).
  assert (n' = Z.min n DISK_SIZE /\ 0 <= DISK_SIZE) as [Hn' Hsz]
    by (unfold n'; destruct (Z.gtb_spec n DISK_SIZE); unfold DISK_SIZE, DISK_SECTORS, SECTOR_SIZE in *; lia).
  destruct (slice_is_Some data 0 n') as (src & Hsrc & Hsl); [lia..|].
  apply wp_bind. eapply wp_chk; [exact Hsrc|].
  unfold ram_ok in Hok.
  destruct (splice_is_Some z 0 src) as (r & Hr & Hrl); [lia|lia|].
  apply wp_bind. eapply wp_chk; [exact Hr|]. apply wp_put. cbn [disk].
  split; [unfold ram_ok; cbn; lia|]. intros i Hi.
  rewrite (at_splice _ _ _ _ _ Hr), (at_splice _ _ _ _ _ Hz), (at_slice _ _ _ _ _ Hsrc).
  rewrite Hrep, Hsl, Z.sub_0_r, !Z.add_0_l, (proj2 (Z.leb_le 0 i)), (proj2 (Z.ltb_lt i DISK_SIZE)) by lia.
  cbn [andb]. destruct (Z.ltb_spec i n'), (Z.ltb_spec i n); try lia; [done|].
  rewrite at_lookup by lia. apply lookup_replicate_2. lia.
Qed.

End Ram.
