(* ===== verification/Window.v ===== *)
(** * The disk access window

    A mounted volume ([vol]) is a filesystem object and the disk it lives on.
    This file holds the access to the one-sector window [fs->win] every
    component goes through, [sync_window], [move_window], [sync_fs] and
    [clst2sect] of ff.c.

    [lview v s] is what the file system sees in sector [s]: the window where
    it stands on [s], the medium elsewhere.  [move_window_spec] says that
    moving the window never changes what is seen (a write-back cache), except
    for the second copy of the FAT, which is only written. *)

From stdpp Require Import base numbers list.
From Stdlib Require Import ZArith Lia.
From Stdlib Require Import Strings.Byte.
From S2P Require Import Prelude Types Bytes Diskio.

(** ** State *)

Record vol (D : Type) : Type := mkVol { vfs : FATFS; vdsk : D }.
Arguments mkVol {D} _ _.
Arguments vfs {D} _.
Arguments vdsk {D} _.

Section window.
Context {D : Type} `{!DiskIO D}.
Abbreviation V := (M (vol D)).

Definition get_fs : V FATFS := fun v => Done (vfs v, v).
Definition mod_fs (f : FATFS -> FATFS) : V unit := fun v => Done (tt, mkVol (f (vfs v)) (vdsk v)).
Definition on_disk {A} (m : M D A) : V A := zoom vdsk (fun d v => mkVol (vfs v) d) m.

(** *** Accesses to [fs->win] *)

Definition win_at (i : Z) : V Z := fs <- get_fs ;; b <- chk (at_ (win fs) i) ;; ret (bval b).
Definition win_word (i : Z) : V Z := fs <- get_fs ;; chk (ld_word (win fs) i).
Definition win_dword (i : Z) : V Z := fs <- get_fs ;; chk (ld_dword (win fs) i).
Definition win_slice (i n : Z) : V (list byte) := fs <- get_fs ;; chk (slice (win fs) i n).
Definition set_win_opt (f : list byte -> option (list byte)) : V unit :=
  fs <- get_fs ;; w <- chk (f (win fs)) ;; mod_fs (set_win w).
Definition win_put (i x : Z) : V unit := set_win_opt (fun w => upd w i (mkb x)).
Definition win_put_word (i x : Z) : V unit := set_win_opt (fun w => st_word w i x).
Definition win_put_dword (i x : Z) : V unit := set_win_opt (fun w => st_dword w i x).
Definition win_splice (i : Z) (src : list byte) : V unit := set_win_opt (fun w => splice w i src).
(** [memset (fs->win + i, x, n)]. *)
Definition win_memset (i x n : Z) : V unit := win_splice i (replicate (Z.to_nat n) (mkb x)).

(** ** Functions of ff.c *)

Definition sync_window : V FRESULT :=
  fs <- get_fs ;;
  if nz (wflag fs) then
    r <- on_disk (dio_write (pdrv fs) (win fs) (winsect fs) 1) ;;
    if r =d RES_OK then
      mod_fs (set_wflag 0) ;;;
      (if u32 (winsect fs - fatbase fs) <? fsize fs then
         if n_fats fs =? 2 then
           _ <- on_disk (dio_write (pdrv fs) (win fs) (u32 (winsect fs + fsize fs)) 1) ;;
           ret FR_OK
         else ret FR_OK
       else ret FR_OK)
    else ret FR_DISK_ERR
  else ret FR_OK.

(** The sector number of a window that holds no sector: [(LBA_t)0 - 1]. *)
Definition NO_SECT : Z := u32 (0 - 1).

Definition move_window (sect : Z) : V FRESULT :=
  fs <- get_fs ;;
  if negb (sect =? winsect fs) then
    res <- sync_window ;;
    if res =r FR_OK then
      fs <- get_fs ;;
      do (r, w) <- on_disk (dio_read (pdrv fs) (win fs) sect 1) ;;
      mod_fs (set_win w) ;;;
      if negb (r =d RES_OK) then
        mod_fs (set_winsect NO_SECT) ;;; ret FR_DISK_ERR
      else
        mod_fs (set_winsect sect) ;;; ret FR_OK
    else ret res
  else ret FR_OK.

Definition sync_fs : V FRESULT :=
  res <- sync_window ;;
  if res =r FR_OK then
    fs <- get_fs ;;
    (if fsi_flag fs =? 1 then
       mod_fs (set_fsi_flag 0) ;;;
       if fs_type fs =? FS_FAT32 then
         win_memset 0 0 SS ;;;
         win_put_dword FSI_LeadSig 0x41615252 ;;;
         win_put_dword FSI_StrucSig 0x61417272 ;;;
         win_put_dword FSI_Free_Count (free_clst fs) ;;;
         win_put_dword FSI_Nxt_Free (last_clst fs) ;;;
         win_put_dword FSI_TrailSig 0xAA550000 ;;;
         mod_fs (set_winsect (u32 (volbase fs + 1))) ;;;
         fs <- get_fs ;;
         _ <- on_disk (dio_write (pdrv fs) (win fs) (winsect fs) 1) ;; ret tt
       else ret tt
     else ret tt) ;;;
    fs <- get_fs ;;
    do (r, _) <- on_disk (dio_ioctl (pdrv fs) CTRL_SYNC) ;;
    if negb (r =d RES_OK) then ret FR_DISK_ERR else ret res
  else ret res.

(** A pure function of the filesystem object. *)
Definition clst2sect (fs : FATFS) (clst : Z) : Z :=
  let clst := u32 (clst - 2) in
  if clst >=? u32 (n_fatent fs - 2) then 0
  else u32 (database fs + u32 (csize fs * clst)).

End window.

(** ** Well-formed volumes *)

(** Every field of the filesystem object fits its C type. *)
Record fs_ok (fs : FATFS) : Prop := mk_fs_ok {
  ok_win : len (win fs) = SS;
  ok_winsect : 0 <= winsect fs < U32;
  ok_fs_type : 0 <= fs_type fs < 256;
  ok_pdrv : 0 <= pdrv fs < 256;
  ok_n_fats : 0 <= n_fats fs < 256;
  ok_wflag : 0 <= wflag fs < 256;
  ok_fsi_flag : 0 <= fsi_flag fs < 256;
  ok_fs_id : 0 <= fs_id fs < 65536;
  ok_n_rootdir : 0 <= n_rootdir fs < 65536;
  ok_csize : 0 <= csize fs < 65536;
  ok_last_clst : 0 <= last_clst fs < U32;
  ok_free_clst : 0 <= free_clst fs < U32;
  ok_n_fatent : 0 <= n_fatent fs < U32;
  ok_fsize : 0 <= fsize fs < U32;
  ok_volbase : 0 <= volbase fs < U32;
  ok_fatbase : 0 <= fatbase fs < U32;
  ok_dirbase : 0 <= dirbase fs < U32;
  ok_database : 0 <= database fs < U32
}.

Lemma fs_ok_iff fs : fs_ok fs <->
  len (win fs) = SS /\
  Forall (fun p => 0 <= p.1 < p.2)
    [(winsect fs, U32); (fs_type fs, 256); (pdrv fs, 256); (n_fats fs, 256); (wflag fs, 256);
     (fsi_flag fs, 256); (fs_id fs, 65536); (n_rootdir fs, 65536); (csize fs, 65536);
     (last_clst fs, U32); (free_clst fs, U32); (n_fatent fs, U32); (fsize fs, U32);
     (volbase fs, U32); (fatbase fs, U32); (dirbase fs, U32); (database fs, U32)].
Proof.
  split.
  - intros []. split; [done|]. repeat (constructor; [done|]). constructor.
  - intros [? H]. repeat (apply Forall_cons in H as [? H]). by constructor.
Qed.

#[global] Instance fs_ok_dec fs : Decision (fs_ok fs).
Proof.
  refine (cast_if (decide (len (win fs) = SS /\ Forall (fun p => 0 <= p.1 < p.2)
    [(winsect fs, U32); (fs_type fs, 256); (pdrv fs, 256); (n_fats fs, 256); (wflag fs, 256);
     (fsi_flag fs, 256); (fs_id fs, 65536); (n_rootdir fs, 65536); (csize fs, 65536);
     (last_clst fs, U32); (free_clst fs, U32); (n_fatent fs, U32); (fsize fs, U32);
     (volbase fs, U32); (fatbase fs, U32); (dirbase fs, U32); (database fs, U32)])));
  by rewrite fs_ok_iff.
Defined.

(** The fields that only mounting sets. *)
Definition geom (fs : FATFS) : list Z :=
  [fs_type fs; pdrv fs; n_fats fs; fs_id fs; n_rootdir fs; csize fs; n_fatent fs;
   fsize fs; volbase fs; fatbase fs; dirbase fs; database fs].

(** The allocation information. *)
Definition alloc_info (fs : FATFS) : list Z := [last_clst fs; free_clst fs; fsi_flag fs].

Lemma geom_fields a b : geom a = geom b ->
  fs_type a = fs_type b /\ pdrv a = pdrv b /\ n_fats a = n_fats b /\ fs_id a = fs_id b /\
  n_rootdir a = n_rootdir b /\ csize a = csize b /\ n_fatent a = n_fatent b /\
  fsize a = fsize b /\ volbase a = volbase b /\ fatbase a = fatbase b /\
  dirbase a = dirbase b /\ database a = database b.
Proof. unfold geom. intros H. by simplify_eq. Qed.

(** A field can be replaced by a value of its width. *)
Section setters.
Context (fs : FATFS) (Hok : fs_ok fs).
Lemma fs_ok_set_win w : len w = SS -> fs_ok (set_win w fs).
Proof using Hok. destruct Hok. by constructor. Qed.
Lemma fs_ok_set_winsect x : 0 <= x < U32 -> fs_ok (set_winsect x fs).
Proof using Hok. destruct Hok. by constructor. Qed.
Lemma fs_ok_set_wflag x : 0 <= x < 256 -> fs_ok (set_wflag x fs).
Proof using Hok. destruct Hok. by constructor. Qed.
Lemma fs_ok_set_fsi_flag x : 0 <= x < 256 -> fs_ok (set_fsi_flag x fs).
Proof using Hok. destruct Hok. by constructor. Qed.
Lemma fs_ok_set_last_clst x : 0 <= x < U32 -> fs_ok (set_last_clst x fs).
Proof using Hok. destruct Hok. by constructor. Qed.
Lemma fs_ok_set_free_clst x : 0 <= x < U32 -> fs_ok (set_free_clst x fs).
Proof using Hok. destruct Hok. by constructor. Qed.
End setters.

#[export] Hint Resolve fs_ok_set_win fs_ok_set_winsect fs_ok_set_wflag fs_ok_set_fsi_flag
  fs_ok_set_last_clst fs_ok_set_free_clst : ff.
#[export] Hint Resolve ok_winsect ok_fs_type ok_pdrv ok_n_fats ok_wflag ok_fsi_flag ok_n_rootdir
  ok_csize ok_last_clst ok_free_clst ok_n_fatent ok_fsize ok_volbase ok_fatbase ok_dirbase
  ok_database : ff.

Section theory.
Context {D : Type} `{!DiskIO D} `{!DiskIOLaws D}.
Implicit Types (v : vol D) (fs : FATFS).
Abbreviation V := (M (vol D)).

Definition vol_ok v : Prop := fs_ok (vfs v) /\ dok (vdsk v).

(** [v] is well formed and its geometry is [g]. *)
Definition sv (g : list Z) v : Prop := vol_ok v /\ geom (vfs v) = g.

Lemma sv_refl v : vol_ok v -> sv (geom (vfs v)) v.
Proof. done. Qed.

(** ** Rules for the primitives *)

Lemma wp_get_fs t (Q : FATFS -> vol D -> Prop) v : Q (vfs v) v -> wpt t get_fs Q v.
Proof. done. Qed.

Lemma wp_mod_fs t f (Q : unit -> vol D -> Prop) v :
  Q tt (mkVol (f (vfs v)) (vdsk v)) -> wpt t (mod_fs f) Q v.
Proof. done. Qed.

Lemma wp_on_disk {A} t (m : M D A) (Q : A -> vol D -> Prop) v :
  wpt t m (fun a d => Q a (mkVol (vfs v) d)) (vdsk v) -> wpt t (on_disk m) Q v.
Proof. intros H. unfold on_disk. apply wp_zoom. exact H. Qed.

Lemma wp_win_at t i (Q : Z -> vol D -> Prop) v :
  vol_ok v -> 0 <= i < SS ->
  (forall b, at_ (win (vfs v)) i = Some b -> Q (bval b) v) -> wpt t (win_at i) Q v.
Proof.
  intros [Hf _] Hi HQ. destruct (at_is_Some (win (vfs v)) i) as [b Hb].
  { rewrite (ok_win _ Hf). done. }
  apply wp_bind, wp_get_fs, wp_bind. eapply wp_chk; [done|]. apply wp_ret. eauto.
Qed.

Lemma wp_win_word t i (Q : Z -> vol D -> Prop) v :
  vol_ok v -> 0 <= i -> i + 2 <= SS ->
  (forall x, ld_word (win (vfs v)) i = Some x -> 0 <= x < 65536 -> Q x v) ->
  wpt t (win_word i) Q v.
Proof.
  intros [Hf _] Hi Hi2 HQ. destruct (ld_word_is_Some (win (vfs v)) i) as (w & Hw & Hr);
    [done|by rewrite (ok_win _ Hf)|].
  apply wp_bind, wp_get_fs. eapply wp_chk; eauto.
Qed.

Lemma wp_win_dword t i (Q : Z -> vol D -> Prop) v :
  vol_ok v -> 0 <= i -> i + 4 <= SS ->
  (forall x, ld_dword (win (vfs v)) i = Some x -> 0 <= x < U32 -> Q x v) ->
  wpt t (win_dword i) Q v.
Proof.
  intros [Hf _] Hi Hi2 HQ. destruct (ld_dword_is_Some (win (vfs v)) i) as (w & Hw & Hr);
    [done|by rewrite (ok_win _ Hf)|].
  apply wp_bind, wp_get_fs. eapply wp_chk; eauto.
Qed.

Lemma wp_win_slice t i n (Q : list byte -> vol D -> Prop) v :
  vol_ok v -> 0 <= i -> 0 <= n -> i + n <= SS ->
  (forall x, slice (win (vfs v)) i n = Some x -> len x = n -> Q x v) ->
  wpt t (win_slice i n) Q v.
Proof.
  intros [Hf _] Hi Hn Hi2 HQ. destruct (slice_is_Some (win (vfs v)) i n) as (w & Hw & Hr);
    [done|done|by rewrite (ok_win _ Hf)|].
  apply wp_bind, wp_get_fs. eapply wp_chk; eauto.
Qed.

Lemma wp_set_win_opt t f (Q : unit -> vol D -> Prop) v w :
  f (win (vfs v)) = Some w ->
  Q tt (mkVol (set_win w (vfs v)) (vdsk v)) -> wpt t (set_win_opt f) Q v.
Proof.
  intros Hw HQ. apply wp_bind, wp_get_fs, wp_bind. eapply wp_chk; [done|]. by apply wp_mod_fs.
Qed.

(** ** Safety triples

    [safe t g m P]: started in a well-formed volume of geometry [g], [m]
    makes no access outside an object, ends (when [t]), leaves such a volume
    and returns a result that satisfies [P]. *)
Definition safe {A} (t : bool) (g : list Z) (m : V A) (P : A -> Prop) : Prop :=
  forall v, sv g v -> wpt t m (fun a v' => sv g v' /\ P a) v.

Lemma safe_ret {A} t g (a : A) (P : A -> Prop) : P a -> safe t g (ret a) P.
Proof. intros HP v Hv. by apply wp_ret. Qed.

Lemma safe_bind {A B} t g (m : V A) (k : A -> V B) P Q :
  safe t g m P -> (forall a, P a -> safe t g (k a) Q) -> safe t g (bind m k) Q.
Proof.
  intros Hm Hk v Hv. apply wp_bind. eapply wp_mono; [by apply Hm|].
  intros a v' [Hv' HP]. by apply Hk.
Qed.

Lemma safe_runs {A} t g (m : V A) P : runs m P -> safe t g m P.
Proof.
  intros H v Hv. apply wp_total. eapply wp_mono; [apply H|]. by intros a v' [-> ?].
Qed.

(** A safe first step of a triple. *)
Lemma wp_safe {A B} t g (m : V A) (k : A -> V B) P Q v :
  safe t g m P -> sv g v -> (forall a v', sv g v' -> P a -> wpt t (k a) Q v') ->
  wpt t (bind m k) Q v.
Proof. intros Hm Hv Hk. apply wp_bind. eapply wp_mono; [by apply Hm|]. intros a v' []. auto. Qed.

Lemma safe_mono {A} t g (m : V A) (P Q : A -> Prop) :
  safe t g m P -> (forall a, P a -> Q a) -> safe t g m Q.
Proof. intros Hm HPQ v Hv. eapply wp_mono; [by apply Hm|]. intros a v' []. eauto. Qed.

(** Checked accesses to objects outside the volume. *)
Lemma safe_chk {A} t g (o : option A) (P : A -> Prop) :
  (exists a, o = Some a /\ P a) -> safe t g (chk o) P.
Proof. intros (a & -> & Ha). by apply safe_ret. Qed.

Lemma safe_chk_slice {A} t g (l : list A) o n :
  0 <= o -> 0 <= n -> o + n <= len l -> safe t g (chk (slice l o n)) (fun r => len r = n).
Proof. intros. apply safe_chk. by apply slice_is_Some. Qed.

Lemma safe_chk_splice {A} t g (l : list A) o src :
  0 <= o -> o + len src <= len l -> safe t g (chk (splice l o src)) (fun r => len r = len l).
Proof. intros. apply safe_chk. by apply splice_is_Some. Qed.

Lemma safe_chk_upd {A} t g (l : list A) i x :
  0 <= i < len l -> safe t g (chk (upd l i x)) (fun r => len r = len l).
Proof. intros. apply safe_chk. by apply upd_is_Some. Qed.

Lemma safe_chk_at {A} t g (l : list A) i :
  0 <= i < len l -> safe t g (chk (at_ l i)) (fun _ => True).
Proof. intros Hi. destruct (at_is_Some l i Hi) as [x ->]. by apply safe_ret. Qed.

Lemma safe_get_fs t g : safe t g get_fs (fun fs => fs_ok fs /\ geom fs = g).
Proof. intros v Hv. apply wp_get_fs. split; [done|]. destruct Hv as [[? ?] ?]. done. Qed.

Lemma safe_mod_fs t g f :
  (forall fs, fs_ok fs -> fs_ok (f fs)) -> (forall fs, geom (f fs) = geom fs) ->
  safe t g (mod_fs f) (fun _ => True).
Proof.
  intros H1 H2 v [[Hf Hd] Hg]. apply wp_mod_fs. split; [|done]. split; [split; [|done]|].
  - apply H1, Hf.
  - cbn. rewrite H2. exact Hg.
Qed.

Lemma safe_on_disk {A} t g (m : M D A) P :
  (forall d, dok d -> wpt t m (fun a d' => dok d' /\ P a) d) -> safe t g (on_disk m) P.
Proof.
  intros H v [[Hf Hd] Hg]. apply wp_on_disk. eapply wp_mono; [by apply H|].
  intros a d' []. done.
Qed.

Lemma safe_win_at t g i : 0 <= i < SS -> safe t g (win_at i) (fun x => 0 <= x < 256).
Proof.
  intros Hi v Hv. apply wp_win_at; [apply Hv|done|]. intros b _.
  split; [done|apply bval_range].
Qed.

Lemma safe_win_word t g i : 0 <= i -> i + 2 <= SS -> safe t g (win_word i) (fun x => 0 <= x < 65536).
Proof. intros ? ? v Hv. by apply wp_win_word; [apply Hv|..]. Qed.

Lemma safe_win_dword t g i : 0 <= i -> i + 4 <= SS -> safe t g (win_dword i) (fun x => 0 <= x < U32).
Proof. intros ? ? v Hv. by apply wp_win_dword; [apply Hv|..]. Qed.

Lemma safe_win_slice t g i n :
  0 <= i -> 0 <= n -> i + n <= SS -> safe t g (win_slice i n) (fun x => len x = n).
Proof. intros ? ? ? v Hv. by apply wp_win_slice; [apply Hv|..]. Qed.

Lemma safe_set_win_opt t g f :
  (forall w, len w = SS -> exists w', f w = Some w' /\ len w' = len w) ->
  safe t g (set_win_opt f) (fun _ => True).
Proof.
  intros H v [[Hf Hd] Hg]. destruct (H (win (vfs v))) as (w & Hw & Hl); [apply ok_win, Hf|].
  eapply wp_set_win_opt; [done|]. split; [|done]. split; [split; [|done]|done].
  apply fs_ok_set_win; [done|]. rewrite Hl. apply ok_win, Hf.
Qed.

Lemma safe_win_put t g i x : 0 <= i < SS -> safe t g (win_put i x) (fun _ => True).
Proof. intros Hi. apply safe_set_win_opt. intros w Hw. apply upd_is_Some. lia. Qed.

Lemma safe_win_put_word t g i x : 0 <= i -> i + 2 <= SS -> safe t g (win_put_word i x) (fun _ => True).
Proof. intros ? ?. apply safe_set_win_opt. intros w Hw. apply st_word_is_Some; lia. Qed.

Lemma safe_win_put_dword t g i x : 0 <= i -> i + 4 <= SS -> safe t g (win_put_dword i x) (fun _ => True).
Proof. intros ? ?. apply safe_set_win_opt. intros w Hw. apply st_dword_is_Some; lia. Qed.

Lemma safe_win_splice t g i src :
  0 <= i -> i + len src <= SS -> safe t g (win_splice i src) (fun _ => True).
Proof. intros ? ?. apply safe_set_win_opt. intros w Hw. apply splice_is_Some; lia. Qed.

Lemma safe_win_memset t g i x n :
  0 <= i -> 0 <= n -> i + n <= SS -> safe t g (win_memset i x n) (fun _ => True).
Proof. intros ? ? ?. apply safe_win_splice; [done|]. by rewrite len_replicate. Qed.

(** A loop whose invariant and measure speak of its variables only. *)
Lemma safe_loop {A B} t g (I : A -> Prop) (mu : A -> Z) (P : B -> Prop) (body : A -> V (A + B)) a :
  (forall a, I a -> safe t g (body a)
     (fun r => match r with inl a' => I a' /\ 0 <= mu a' < mu a | inr b => P b end)) ->
  I a -> mu a < Zpos LOOP_FUEL -> safe t g (loop body a) P.
Proof.
  intros Hb HI Hmu v Hv.
  apply (wp_loop t (fun a v => sv g v /\ I a) (fun a _ => mu a)); [|done|done].
  intros a1 v1 [Hv1 HI1]. eapply wp_mono; [by apply Hb|].
  intros [a2|b] v2 [Hv2 H2]; [by destruct H2|done].
Qed.

Lemma safe_loop_partial {A B} g (I : A -> Prop) (P : B -> Prop) (body : A -> V (A + B)) a :
  (forall a, I a -> safe false g (body a)
     (fun r => match r with inl a' => I a' | inr b => P b end)) ->
  I a -> safe false g (loop body a) P.
Proof.
  intros Hb HI v Hv.
  apply (wp_loop_partial (fun a v => sv g v /\ I a)); [|done].
  intros a1 v1 [Hv1 HI1]. eapply wp_mono; [by apply Hb|].
  by intros [a2|b] v2 [Hv2 H2].
Qed.

(** ** What the file system sees *)

Definition lview v (s : Z) : option (list byte) :=
  if s =? winsect (vfs v) then Some (win (vfs v))
  else media (vdsk v) (pdrv (vfs v)) s.

(** A clean window holds the content of its sector. *)
Definition coherent v : Prop :=
  wflag (vfs v) = 0 -> winsect (vfs v) <> NO_SECT ->
  media (vdsk v) (pdrv (vfs v)) (winsect (vfs v)) = Some (win (vfs v)).

(** [s] belongs to the second copy of the FAT, as far as [sync_window] can
    tell with its 32-bit arithmetic. *)
Definition mirror fs (s : Z) : Prop :=
  n_fats fs = 2 /\ u32 (s - fsize fs - fatbase fs) < fsize fs.

(** The sectors whose content no write-back changes. *)
Definition plain fs (s : Z) : Prop := 0 <= s < U32 /\ s <> NO_SECT /\ ~ mirror fs s.

Lemma plain_geom a b s : geom a = geom b -> plain a s -> plain b s.
Proof.
  intros H. apply geom_fields in H as (_&_&H1&_&_&_&_&H2&_&H3&_&_).
  unfold plain, mirror. by rewrite H1, H2, H3.
Qed.

Lemma lview_win v : lview v (winsect (vfs v)) = Some (win (vfs v)).
Proof. unfold lview. by rewrite Z.eqb_refl. Qed.

Lemma lview_ne v s : s <> winsect (vfs v) -> lview v s = media (vdsk v) (pdrv (vfs v)) s.
Proof. intros H. unfold lview. by rewrite (proj2 (Z.eqb_neq _ _) H). Qed.

Lemma lview_len v s b : vol_ok v -> lview v s = Some b -> len b = SS.
Proof.
  intros [Hf Hd]. unfold lview. destruct (_ =? _).
  - intros [= <-]. apply ok_win, Hf.
  - by apply media_len.
Qed.

Lemma set_wflag_id fs : set_wflag (wflag fs) fs = fs.
Proof. by destruct fs. Qed.

Lemma slice_sector (b : list byte) : len b = SS -> slice b (0 * SS) SS = Some b.
Proof. intros H. rewrite <- H at 2. apply slice_all. Qed.

(** One sector written. *)
Lemma wp_write_sector t d p b s (Q : DRESULT -> D -> Prop) :
  dok d -> 0 <= s -> len b = SS ->
  (forall r d', dok d' -> (forall x, x <> s -> media d' p x = media d p x) ->
     (r = RES_OK -> media d' p s = Some b) -> Q r d') ->
  wpt t (dio_write p b s 1) Q d.
Proof.
  intros Hd Hs Hb HQ. apply wp_total.
  eapply wp_mono; [apply dio_write_law; [done|done|lia|by rewrite Z.mul_1_l]|].
  intros r d' (Hd' & Hf & Hw & _). apply HQ; [done| |].
  - intros x Hx. apply Hf. lia.
  - intros ->. specialize (Hw eq_refl 0 ltac:(lia)).
    rewrite Z.add_0_r, slice_sector in Hw by done. done.
Qed.

Lemma wp_read_sector t d p b s (Q : DRESULT * list byte -> D -> Prop) :
  dok d -> 0 <= s -> len b = SS ->
  (forall r b', len b' = SS -> (r = RES_OK -> media d p s = Some b') -> Q (r, b') d) ->
  wpt t (dio_read p b s 1) Q d.
Proof.
  intros Hd Hs Hb HQ. apply wp_total.
  eapply wp_mono; [apply dio_read_law; [done|done|lia|by rewrite Z.mul_1_l]|].
  intros [r b'] d' (-> & Hl & Hm & _). cbn [fst snd] in *. apply HQ; [lia|].
  intros ->. specialize (Hm eq_refl 0 ltac:(lia)).
  rewrite Z.add_0_r, slice_sector in Hm by lia. done.
Qed.

(** ** [sync_window] and [move_window] *)

Lemma sync_window_spec t v :
  vol_ok v ->
  wpt t sync_window (fun r v' =>
    sv (geom (vfs v)) v' /\
    (forall s, plain (vfs v) s -> lview v' s = lview v s) /\
    (r = FR_OK -> vfs v' = set_wflag 0 (vfs v) /\ (wflag (vfs v) <> 0 \/ coherent v -> coherent v')) /\
    (r <> FR_OK -> r = FR_DISK_ERR /\ vfs v' = vfs v /\ wflag (vfs v) <> 0)) v.
Proof.
  intros [Hf Hd]. unfold sync_window. apply wp_bind, wp_get_fs.
  unfold nz. destruct (Z.eqb_spec (wflag (vfs v)) 0) as [Hw|Hw]; cbn [negb].
  { apply wp_ret. split; [done|]. split; [done|]. split; [|done]. intros _. split.
    - rewrite <- Hw. by rewrite set_wflag_id.
    - by intros [?|?]. }
  apply wp_bind, wp_on_disk.
  apply wp_write_sector; [done|apply (ok_winsect _ Hf)|apply (ok_win _ Hf)|].
  intros r d1 Hd1 Hfr Hok.
  assert (forall s, s <> winsect (vfs v) -> lview v s = media d1 (pdrv (vfs v)) s) as Hlv.
  { intros s Hs. rewrite lview_ne by done. symmetry. by apply Hfr. }
  destruct (dr_eqb_spec r RES_OK) as [->|Hr].
  2:{ apply wp_ret. split; [done|]. split; [|done].
      intros s _. destruct (Z.eq_dec s (winsect (vfs v))) as [->|Hs].
      - unfold lview. cbn. by rewrite Z.eqb_refl.
      - rewrite Hlv by done. by rewrite lview_ne. }
  specialize (Hok eq_refl). apply wp_bind, wp_mod_fs. cbn [vfs vdsk].
  assert (fs_ok (set_wflag 0 (vfs v))) as Hf' by (by apply fs_ok_set_wflag).
  destruct (Z.ltb_spec (u32 (winsect (vfs v) - fatbase (vfs v))) (fsize (vfs v))) as [Hin|Hin];
    [destruct (Z.eqb_spec (n_fats (vfs v)) 2) as [Hn|Hn]|].
  2,3: apply wp_ret; split; [done|]; split; [|split; [intros _; split; [done|]|done]];
    [intros s _; destruct (Z.eq_dec s (winsect (vfs v))) as [->|Hs];
       [by rewrite lview_win; unfold lview; cbn; rewrite Z.eqb_refl
       |rewrite Hlv by done; by rewrite lview_ne]
    |by intros _ _ _].
  apply wp_bind, wp_on_disk. cbn [vfs vdsk].
  apply wp_write_sector; [done|apply u32_range|apply (ok_win _ Hf)|].
  intros r2 d2 Hd2 Hfr2 _.
  assert (u32 (winsect (vfs v) + fsize (vfs v)) <> winsect (vfs v)) as Hne.
  { pose proof (ok_winsect _ Hf). pose proof (ok_fsize _ Hf).
    unfold u32, U32 in *. Z.to_euclidean_division_equations. lia. }
  apply wp_ret. split; [done|]. split; [|split; [intros _; split; [done|]|done]].
  - intros s (Hr & _ & Hm). destruct (Z.eq_dec s (winsect (vfs v))) as [->|Hs].
    { rewrite lview_win. unfold lview. cbn. by rewrite Z.eqb_refl. }
    rewrite Hlv by done. rewrite lview_ne by done. cbn. apply Hfr2.
    intros ->. apply Hm. split; [done|].
    replace (u32 (u32 (winsect (vfs v) + fsize (vfs v)) - fsize (vfs v) - fatbase (vfs v)))
      with (u32 (winsect (vfs v) - fatbase (vfs v))); [done|].
    unfold u32. rewrite <- Z.sub_add_distr, Zminus_mod_idemp_l. f_equal. lia.
  - intros _ _ _. cbn. rewrite Hfr2 by done. done.
Qed.

Lemma move_window_spec t v sect :
  vol_ok v -> 0 <= sect < U32 ->
  wpt t (move_window sect) (fun r v' =>
    sv (geom (vfs v)) v' /\
    alloc_info (vfs v') = alloc_info (vfs v) /\
    (r = FR_OK -> winsect (vfs v') = sect) /\
    (r <> FR_OK -> r = FR_DISK_ERR) /\
    (coherent v -> coherent v' /\ forall s, plain (vfs v) s -> lview v' s = lview v s)) v.
Proof.
  intros Hv Hs. unfold move_window. apply wp_bind, wp_get_fs.
  destruct (Z.eqb_spec sect (winsect (vfs v))) as [->|Hne]; cbn [negb].
  { apply wp_ret. split; [by apply sv_refl|]. by split_and!. }
  apply wp_bind. eapply wp_mono; [by apply sync_window_spec|].
  intros res v1 ([[Hf1 Hd1] Hg1] & Hlv & Hok & Hko).
  destruct (fr_eqb_spec res FR_OK) as [->|Hr].
  2:{ apply wp_ret. destruct (Hko Hr) as (-> & He & Hw). split; [done|].
      split_and!; [by rewrite He|done|done|]. intros Hc. split; [|done].
      unfold coherent. by rewrite He. }
  destruct (Hok eq_refl) as [He1 Hc1]. clear Hok Hko.
  apply wp_bind, wp_get_fs, wp_bind, wp_on_disk.
  apply wp_read_sector; [done|lia|apply (ok_win _ Hf1)|]. intros r w Hwl Hw.
  apply wp_bind, wp_mod_fs. cbn [vfs vdsk].
  assert (alloc_info (vfs v1) = alloc_info (vfs v)) as Ha1 by (by rewrite He1).
  assert (forall x, coherent v -> plain (vfs v) x -> lview v x = media (vdsk v1) (pdrv (vfs v1)) x) as Hm.
  { intros x Hc Hp. rewrite <- Hlv by done. unfold lview.
    destruct (Z.eqb_spec x (winsect (vfs v1))) as [->|]; [|done]. symmetry.
    apply Hc1; [by right|by rewrite He1|apply Hp]. }
  destruct (dr_eqb_spec r RES_OK) as [->|Hr]; cbn [negb]; apply wp_bind, wp_mod_fs, wp_ret.
  - specialize (Hw eq_refl). 
    split; [split; [split; [|done]|done]|].
    { apply fs_ok_set_winsect; [by apply fs_ok_set_win|done]. }
    split_and!; [done|done|done|]. intros Hc. split.
    + intros _ _. exact Hw.
    + intros x Hp. rewrite Hm by done. unfold lview. cbn.
      destruct (Z.eqb_spec x sect) as [->|]; [|done]. by rewrite Hw.
  - split; [split; [split; [|done]|done]|].
    { apply fs_ok_set_winsect; [by apply fs_ok_set_win|done]. }
    split_and!; [done|done|done|]. intros Hc. split.
    + by intros _ ?.
    + intros x Hp. rewrite Hm by done. unfold lview. cbn.
      destruct (Z.eqb_spec x NO_SECT) as [->|]; [|done]. by destruct Hp as (_ & ? & _).
Qed.

Lemma sync_window_safe t g : safe t g sync_window (fun r => r = FR_OK \/ r = FR_DISK_ERR).
Proof.
  intros v [Hv <-]. eapply wp_mono; [by apply sync_window_spec|].
  intros r v' (Hsv & _ & _ & Hko). split; [done|].
  destruct (decide (r = FR_OK)); [by left|right; by apply Hko].
Qed.

Lemma move_window_safe t g sect :
  0 <= sect < U32 -> safe t g (move_window sect) (fun r => r = FR_OK \/ r = FR_DISK_ERR).
Proof.
  intros Hs v [Hv <-]. eapply wp_mono; [by apply move_window_spec|].
  intros r v' (Hsv & _ & _ & Hko & _). split; [done|].
  destruct (decide (r = FR_OK)); [by left|right; by apply Hko].
Qed.

Lemma safe_write_sector t g p b s :
  0 <= s -> len b = SS -> safe t g (on_disk (dio_write p b s 1)) (fun _ => True).
Proof.
  intros Hs Hb. apply safe_on_disk. intros d Hd. by apply wp_write_sector.
Qed.

Lemma safe_ioctl t g p cmd : safe t g (on_disk (dio_ioctl p cmd)) (fun _ => True).
Proof.
  apply safe_on_disk. intros d Hd. apply wp_total.
  eapply wp_mono; [by apply dio_ioctl_law|]. by intros r d' [? _].
Qed.

End theory.

(** ** Automation for safety triples *)

Create HintDb safe.
#[export] Hint Extern 4 (_ <= _ < _) => unfold U32 in *; lia : ff.
#[export] Hint Resolve safe_get_fs safe_win_at safe_win_word safe_win_dword safe_win_slice
  safe_win_put safe_win_put_word safe_win_put_dword safe_win_splice safe_win_memset
  sync_window_safe move_window_safe safe_write_sector safe_ioctl : safe.

(** Side conditions: ranges of offsets, sectors and field values. *)
Ltac side :=
  first [ done
        | apply u32_range | apply u16_range | apply u8_range
        | solve [eauto with ff]
        | unfold_consts; unfold NO_SECT, U32, u32, u16, u8 in *; lia
        | repeat match goal with H : fs_ok _ |- _ => destruct H end;
          unfold_consts; unfold NO_SECT, U32, u32, u16, u8 in *; lia
        | unfold_consts; unfold NO_SECT, U32, u32, u16, u8 in *;
          Z.to_euclidean_division_equations; lia ].

#[export] Hint Extern 3 (_ <= _ < _) => side : safe.
#[export] Hint Extern 3 (_ <= _) => side : safe.
#[export] Hint Extern 3 (_ < _) => side : safe.
#[export] Hint Extern 3 (len _ = SS) => solve [eauto using ok_win] : safe.
#[export] Hint Extern 1 (safe _ _ (mod_fs _) _) =>
  apply safe_mod_fs; [intros; solve [side | auto with ff] | done] : safe.

(** One step of a safety proof. *)
Ltac safe_step :=
  lazymatch goal with
  | |- safe _ _ (ret _) _ => apply safe_ret; cbv beta iota
  | |- safe _ _ (bind (if _ then _ else _) _) _ =>
      apply (safe_bind _ _ _ _ (fun _ => True)); [|intros ? _]
  | |- safe _ _ (bind (bind _ _) _) _ =>
      apply (safe_bind _ _ _ _ (fun _ => True)); [|intros ? _]
  | |- safe _ _ (bind (mod_fs _) _) _ =>
      eapply safe_bind; [solve [eauto with safe]|intros _ _]
  | |- safe _ _ (bind get_fs _) _ =>
      eapply safe_bind; [apply safe_get_fs|intros ? [? ?]]
  | |- safe _ _ (bind _ _) _ =>
      eapply safe_bind; [solve [eauto with safe]|let H := fresh "H" in intros ? H; cbv beta in H]
  | |- safe _ _ (if ?b then _ else _) _ => destruct b eqn:?
  | |- safe _ _ (match ?x with (_, _) => _ end) _ => destruct x
  | |- safe _ _ (let _ := _ in _) _ => cbv zeta
  | |- safe _ _ _ (fun _ => True) => eapply safe_mono; [solve [eauto with safe]|done]
  | |- safe _ _ _ _ => solve [eauto with safe]
  end.
Ltac safe_auto := repeat safe_step.

Section theory2.
Context {D : Type} `{!DiskIO D} `{!DiskIOLaws D}.

Lemma sync_fs_safe t g : safe t g sync_fs (fun r => r = FR_OK \/ r = FR_DISK_ERR).
Proof.
  unfold sync_fs. safe_auto; auto.
Qed.

End theory2.

#[export] Hint Resolve sync_fs_safe : safe.
