(* ===== verification/Fat.v ===== *)
(** * The file allocation table

    [get_fat] and [put_fat] of ff.c for FAT12, FAT16 and FAT32, on the
    window.  The reference is [fat_entry]: the value of an entry as a
    function of the bytes of the table seen through [lview], with no window,
    no cache and no nibble bookkeeping.  [get_fat_spec] says that [get_fat]
    returns that value, [put_fat_spec] that [put_fat] changes that value of
    one entry and of no other, including the neighbour that shares a byte
    with it on FAT12. *)

From stdpp Require Import base numbers list option.
From Stdlib Require Import ZArith Lia.
From Stdlib Require Import Strings.Byte.
From S2P Require Import Prelude Types Bytes Diskio Window.

Section fat.
Context {D : Type} `{!DiskIO D}.
Abbreviation V := (M (vol D)).

(** ** Functions of ff.c *)

(** The three cases of the [switch] of [get_fat], for an entry in range. *)
Definition get_fat12 (fs : FATFS) (clst : Z) : V Z :=
  let bc := clst in
  let bc := u32 (bc + bc / 2) in
  r <- move_window (u32 (fatbase fs + bc / SS)) ;;
  if negb (r =r FR_OK) then ret 0xFFFFFFFF else
  wc <- win_at (bc mod SS) ;;
  let bc := u32 (bc + 1) in
  r <- move_window (u32 (fatbase fs + bc / SS)) ;;
  if negb (r =r FR_OK) then ret 0xFFFFFFFF else
  b <- win_at (bc mod SS) ;;
  let wc := Z.lor wc (Z.shiftl b 8) in
  ret (if nz (Z.land clst 1) then Z.shiftr wc 4 else Z.land wc 0xFFF).

Definition get_fat16 (fs : FATFS) (clst : Z) : V Z :=
  r <- move_window (u32 (fatbase fs + clst / (SS / 2))) ;;
  if negb (r =r FR_OK) then ret 0xFFFFFFFF else
  win_word (u32 (clst * 2) mod SS).

Definition get_fat32 (fs : FATFS) (clst : Z) : V Z :=
  r <- move_window (u32 (fatbase fs + clst / (SS / 4))) ;;
  if negb (r =r FR_OK) then ret 0xFFFFFFFF else
  x <- win_dword (u32 (clst * 4) mod SS) ;;
  ret (Z.land x 0x0FFFFFFF).

(** The object argument of [get_fat] only names the volume. *)
Definition get_fat (clst : Z) : V Z :=
  fs <- get_fs ;;
  if (clst <? 2) || (clst >=? n_fatent fs) then ret 1
  else if fs_type fs =? FS_FAT12 then get_fat12 fs clst
  else if fs_type fs =? FS_FAT16 then get_fat16 fs clst
  else if fs_type fs =? FS_FAT32 then get_fat32 fs clst
  else ret 1.

(** The three cases of the [switch] of [put_fat]. *)
Definition put_fat12 (fs : FATFS) (clst val : Z) : V FRESULT :=
  let bc := clst in
  let bc := u32 (bc + bc / 2) in
  res <- move_window (u32 (fatbase fs + bc / SS)) ;;
  if negb (res =r FR_OK) then ret res else
  let p := bc mod SS in
  let bc := u32 (bc + 1) in
  x <- win_at p ;;
  win_put p (if nz (Z.land clst 1) then Z.lor (Z.land x 0x0F) (Z.shiftl (u8 val) 4)
             else u8 val) ;;;
  mod_fs (set_wflag 1) ;;;
  res <- move_window (u32 (fatbase fs + bc / SS)) ;;
  if negb (res =r FR_OK) then ret res else
  let p := bc mod SS in
  x <- win_at p ;;
  win_put p (if nz (Z.land clst 1) then u8 (Z.shiftr val 4)
             else Z.lor (Z.land x 0xF0) (Z.land (u8 (Z.shiftr val 8)) 0x0F)) ;;;
  mod_fs (set_wflag 1) ;;;
  ret res.

Definition put_fat16 (fs : FATFS) (clst val : Z) : V FRESULT :=
  res <- move_window (u32 (fatbase fs + clst / (SS / 2))) ;;
  if negb (res =r FR_OK) then ret res else
  win_put_word (u32 (clst * 2) mod SS) (u16 val) ;;;
  mod_fs (set_wflag 1) ;;;
  ret res.

Definition put_fat32 (fs : FATFS) (clst val : Z) : V FRESULT :=
  res <- move_window (u32 (fatbase fs + clst / (SS / 4))) ;;
  if negb (res =r FR_OK) then ret res else
  x <- win_dword (u32 (clst * 4) mod SS) ;;
  let val := Z.lor (Z.land val 0x0FFFFFFF) (Z.land x 0xF0000000) in
  win_put_dword (u32 (clst * 4) mod SS) val ;;;
  mod_fs (set_wflag 1) ;;;
  ret res.

Definition put_fat (clst val : Z) : V FRESULT :=
  fs <- get_fs ;;
  if (clst >=? 2) && (clst <? n_fatent fs) then
    if fs_type fs =? FS_FAT12 then put_fat12 fs clst val
    else if fs_type fs =? FS_FAT16 then put_fat16 fs clst val
    else if fs_type fs =? FS_FAT32 then put_fat32 fs clst val
    else ret FR_INT_ERR
  else ret FR_INT_ERR.

End fat.

(** ** The reference table *)

(** The table fits its sectors, its two copies do not overlap, and no sector
    number of it wraps around. *)
Record fat_layout (fs : FATFS) : Prop := mk_fat_layout {
  fl_type : fs_type fs = FS_FAT12 \/ fs_type fs = FS_FAT16 \/ fs_type fs = FS_FAT32;
  fl_max : n_fatent fs <= MAX_FAT32 + 2;
  fl_max12 : fs_type fs = FS_FAT12 -> n_fatent fs <= MAX_FAT12 + 2;
  fl_max16 : fs_type fs = FS_FAT16 -> n_fatent fs <= MAX_FAT16 + 2;
  fl_wrap : fatbase fs + fsize fs < U32;
  fl_copies : n_fats fs = 2 -> 2 * fsize fs <= U32;
  fl_size12 : fs_type fs = FS_FAT12 ->
              n_fatent fs * 3 / 2 + n_fatent fs mod 2 <= fsize fs * SS;
  fl_size16 : fs_type fs = FS_FAT16 -> n_fatent fs * 2 <= fsize fs * SS;
  fl_size32 : fs_type fs = FS_FAT32 -> n_fatent fs * 4 <= fsize fs * SS
}.

(** A cluster of the data area. *)
Definition valid_clst (fs : FATFS) (c : Z) : Prop := 2 <= c < n_fatent fs.
#[global] Instance valid_clst_dec fs c : Decision (valid_clst fs c).
Proof. unfold valid_clst. apply _. Defined.

(** Offset of the first byte of an entry, and number of bytes it touches. *)
Definition ent_ofs (ty c : Z) : Z :=
  if ty =? FS_FAT12 then c + c / 2 else if ty =? FS_FAT16 then c * 2 else c * 4.
Definition ent_len (ty : Z) : Z :=
  if ty =? FS_FAT12 then 2 else if ty =? FS_FAT16 then 2 else 4.

Section theory.
Context {D : Type} `{!DiskIO D} `{!DiskIOLaws D}.
Implicit Types (v : vol D) (fs : FATFS).

Definition fat_sect fs (o : Z) : Z := u32 (fatbase fs + o / SS).

(** Byte [o] of the table. *)
Definition fat_byte v (o : Z) : option byte :=
  b ← lview v (fat_sect (vfs v) o); at_ b (o mod SS).

(** [n] bytes of the table from offset [o], little-endian. *)
Fixpoint fat_le v (o : Z) (n : nat) : option Z :=
  match n with
  | O => Some 0
  | S n => b ← fat_byte v o; x ← fat_le v (o + 1) n; Some (bval b + 256 * x)
  end.

(** The value of entry [c]. *)
Definition fat_entry v (c : Z) : option Z :=
  let ty := fs_type (vfs v) in
  if ty =? FS_FAT12 then
    x ← fat_le v (c + c / 2) 2; Some (if Z.odd c then x / 16 else x mod 4096)
  else if ty =? FS_FAT16 then fat_le v (c * 2) 2
  else x ← fat_le v (c * 4) 4; Some (x mod 268435456).

(** [v'] shows the same as [v] in every plain sector. *)
Definition same_view v v' : Prop :=
  coherent v' /\ forall s, plain (vfs v) s -> lview v' s = lview v s.

(** ** Offsets and sectors of the table *)

Lemma u32_mod_SS x : u32 x mod SS = x mod SS.
Proof. unfold u32, SS. Z.to_euclidean_division_equations. lia. Qed.

Lemma fat_sect_geom a b o : geom a = geom b -> fat_sect a o = fat_sect b o.
Proof. intros H. apply geom_fields in H as (_&_&_&_&_&_&_&_&_&H&_). unfold fat_sect. by rewrite H. Qed.

Lemma fat_layout_geom a b : geom a = geom b -> fat_layout a -> fat_layout b.
Proof.
  intros H []. apply geom_fields in H as (H1&_&H2&_&_&_&H3&H4&_&H5&_).
  rewrite H1, H2, H3, H4, H5 in *. by constructor.
Qed.

Lemma fat_sect_val fs o :
  fs_ok fs -> fat_layout fs -> 0 <= o < fsize fs * SS -> fat_sect fs o = fatbase fs + o / SS.
Proof.
  intros Hok Hl Ho. unfold fat_sect. apply u32_small. pose proof (fl_wrap _ Hl).
  pose proof (ok_fatbase _ Hok). unfold U32, SS in *. Z.to_euclidean_division_equations. lia.
Qed.

(** No sector of the table is written behind the file system's back. *)
Lemma fat_sect_plain fs o :
  fs_ok fs -> fat_layout fs -> 0 <= o < fsize fs * SS -> plain fs (fat_sect fs o).
Proof.
  intros Hok Hl Ho. rewrite (fat_sect_val fs o Hok Hl Ho).
  pose proof (fl_wrap _ Hl). pose proof (ok_fatbase _ Hok). pose proof (ok_fsize _ Hok).
  assert (0 <= o / SS < fsize fs) as Hk by (unfold SS in *; Z.to_euclidean_division_equations; lia).
  unfold plain, NO_SECT, mirror. change (u32 (0 - 1)) with (U32 - 1).
  split; [lia|]. split; [lia|]. intros [Hn Hm]. pose proof (fl_copies _ Hl Hn).
  replace (fatbase fs + o / SS - fsize fs - fatbase fs) with (o / SS - fsize fs) in Hm by lia.
  unfold u32, U32 in *.
  replace ((o / SS - fsize fs) mod 4294967296) with (o / SS - fsize fs + 4294967296) in Hm.
  { lia. }
  rewrite <- (Z.mod_small (o / SS - fsize fs + 4294967296) 4294967296) by lia.
  by rewrite <- (Z_mod_plus_full (o / SS - fsize fs) 1), Z.mul_1_l.
Qed.

Lemma ent_bounds fs c :
  fat_layout fs -> valid_clst fs c ->
  0 <= ent_ofs (fs_type fs) c /\ ent_ofs (fs_type fs) c + ent_len (fs_type fs) <= fsize fs * SS /\
  ent_ofs (fs_type fs) c + 4 < U32.
Proof.
  intros [[Ht|[Ht|Ht]] Hm _ _ Hw Hc H12 H16 H32] [H1 H2]; rewrite Ht; unfold ent_ofs, ent_len, U32;
    unfold_consts; cbn [Z.eqb Pos.eqb].
  - specialize (H12 Ht). clear H16 H32. Z.to_euclidean_division_equations. lia.
  - specialize (H16 Ht). lia.
  - specialize (H32 Ht). lia.
Qed.

(** An aligned entry does not cross a sector boundary. *)
Lemma aligned_fits k n : 0 < n -> SS mod n = 0 -> k mod n = 0 -> k mod SS + n <= SS.
Proof.
  intros Hn Hd Hk. pose proof (Z.mod_pos_bound k SS ltac:(done)).
  assert ((k mod SS) mod n = 0) as Hm.
  { rewrite Z.mod_mod_divide; [done|]. by apply Z.mod_divide; [lia|]. }
  apply Z.mod_divide in Hm as [a Ha]; [|lia]. apply Z.mod_divide in Hd as [b Hb]; [|lia].
  rewrite Ha, Hb in *. assert (a < b) by nia. nia.
Qed.

Lemma sect_of_entry fs c n :
  0 < n -> SS mod n = 0 -> u32 (fatbase fs + c / (SS / n)) = fat_sect fs (c * n).
Proof.
  intros Hn Hd. unfold fat_sect. f_equal. f_equal. apply Z.mod_divide in Hd as [b Hb]; [|lia].
  rewrite Hb, Z.div_mul, Z.div_mul_cancel_r by (unfold SS in *; lia). done.
Qed.

(** The window stands on the sector of byte [o] and shows its bytes. *)
Definition shows v w o : Prop :=
  len w = SS /\ forall k, k / SS = o / SS -> fat_byte v k = at_ w (k mod SS).

Lemma fat_le_shows v w o n :
  shows v w o -> 0 <= o -> o mod SS + Z.of_nat n <= SS ->
  fat_le v o n = le_combine <$> slice w (o mod SS) (Z.of_nat n).
Proof.
  intros [Hw Hs]. revert o Hs. induction n as [|n IH]; intros o Hs Ho Hn.
  - cbn [fat_le]. change (Z.of_nat 0) with 0. rewrite slice_0; [done|].
    rewrite Hw. unfold SS in *. Z.to_euclidean_division_equations. lia.
  - cbn [fat_le]. rewrite Hs by done. rewrite at_slice_cons by lia.
    destruct (at_ w (o mod SS)) as [b|]; [|done]. cbn [mbind option_bind].
    destruct n as [|n].
    { cbn [fat_le]. change (Z.of_nat 1 - 1) with 0. rewrite slice_0; [done|].
      rewrite Hw. unfold SS in *. Z.to_euclidean_division_equations. lia. }
    rewrite IH.
    + replace ((o + 1) mod SS) with (o mod SS + 1)
        by (unfold SS in *; Z.to_euclidean_division_equations; lia).
      replace (Z.of_nat (S (S n)) - 1) with (Z.of_nat (S n)) by lia.
      by destruct (slice w (o mod SS + 1) (Z.of_nat (S n))).
    + intros k Hk. apply Hs. rewrite Hk. unfold SS in *. Z.to_euclidean_division_equations. lia.
    + lia.
    + unfold SS in *; Z.to_euclidean_division_equations; lia.
Qed.

Lemma fat_byte_same v v' o :
  vol_ok v -> fat_layout (vfs v) -> geom (vfs v') = geom (vfs v) -> same_view v v' ->
  0 <= o < fsize (vfs v) * SS -> fat_byte v' o = fat_byte v o.
Proof.
  intros [Hf _] Hl Hg [_ Hv] Ho. unfold fat_byte.
  rewrite (fat_sect_geom _ _ o Hg), Hv; [done|]. by apply fat_sect_plain.
Qed.

Lemma fat_le_ext v v' o n :
  (forall k, o <= k < o + Z.of_nat n -> fat_byte v' k = fat_byte v k) -> fat_le v' o n = fat_le v o n.
Proof.
  revert o. induction n as [|n IH]; intros o H; [done|]. cbn [fat_le].
  rewrite H by lia. rewrite IH; [done|]. intros k Hk. apply H. lia.
Qed.

(** An entry only depends on its own bytes. *)
Lemma fat_entry_ext v v' c :
  geom (vfs v') = geom (vfs v) ->
  (forall k, ent_ofs (fs_type (vfs v)) c <= k < ent_ofs (fs_type (vfs v)) c + ent_len (fs_type (vfs v)) ->
     fat_byte v' k = fat_byte v k) ->
  fat_entry v' c = fat_entry v c.
Proof.
  intros Hg H. apply geom_fields in Hg as (Ht&_). unfold fat_entry. rewrite Ht.
  unfold ent_ofs, ent_len in H.
  destruct (fs_type (vfs v) =? FS_FAT12); [by rewrite (fat_le_ext v v')|].
  destruct (fs_type (vfs v) =? FS_FAT16); by rewrite (fat_le_ext v v').
Qed.

(** ** [get_fat] *)

(** Nothing but the position of the window differs. *)
Definition unchanged v v' : Prop :=
  sv (geom (vfs v)) v' /\ alloc_info (vfs v') = alloc_info (vfs v) /\ same_view v v'.

Lemma unchanged_refl v : vol_ok v -> coherent v -> unchanged v v.
Proof. intros Hv Hc. split; [by apply sv_refl|]. split; [done|]. by split. Qed.

Lemma unchanged_trans v1 v2 v3 : unchanged v1 v2 -> unchanged v2 v3 -> unchanged v1 v3.
Proof.
  intros ([H1 Hg1] & Ha1 & _ & Hs1) ([H2 Hg2] & Ha2 & Hc2 & Hs2).
  split; [by split; [|congruence]|]. split; [congruence|]. split; [done|].
  intros s Hp. rewrite Hs2 by (exact (plain_geom _ _ _ (eq_sym Hg1) Hp)). by apply Hs1.
Qed.

Lemma unchanged_entry v v' c :
  vol_ok v -> fat_layout (vfs v) -> unchanged v v' -> valid_clst (vfs v) c ->
  fat_entry v' c = fat_entry v c.
Proof.
  intros Hv Hl ([_ Hg] & _ & Hs) Hc. apply fat_entry_ext; [done|]. intros k Hk.
  pose proof (ent_bounds _ _ Hl Hc). apply fat_byte_same; [done..|]. lia.
Qed.

Lemma move_window_unchanged t v s :
  vol_ok v -> coherent v -> 0 <= s < U32 ->
  wpt t (move_window s) (fun r v' =>
    unchanged v v' /\ (r = FR_OK -> winsect (vfs v') = s) /\ (r <> FR_OK -> r = FR_DISK_ERR)) v.
Proof.
  intros Hv Hc Hs. eapply wp_mono; [by apply move_window_spec|].
  intros r v' (H1 & H2 & H3 & H4 & H5). split; [|done]. split; [done|]. split; [done|]. by apply H5.
Qed.

Lemma shows_win v o : vol_ok v -> winsect (vfs v) = fat_sect (vfs v) o -> shows v (win (vfs v)) o.
Proof.
  intros [Hf _] Hw. split; [apply ok_win, Hf|]. intros k Hk. unfold fat_byte.
  replace (fat_sect (vfs v) k) with (winsect (vfs v)) by (rewrite Hw; unfold fat_sect; by rewrite Hk).
  by rewrite lview_win.
Qed.

Lemma fat_move t v o :
  vol_ok v -> coherent v ->
  wpt t (move_window (fat_sect (vfs v) o)) (fun r v' =>
    unchanged v v' /\
    (r = FR_OK -> winsect (vfs v') = fat_sect (vfs v) o /\ shows v' (win (vfs v')) o) /\
    (r <> FR_OK -> r = FR_DISK_ERR)) v.
Proof.
  intros Hv Hc. eapply wp_mono; [apply move_window_unchanged; [done|done|apply u32_range]|].
  intros r v' (Hu & Hok & Hko). split; [done|]. split; [|done]. intros Hr.
  destruct Hu as ([Hv' Hg] & _). split; [auto|]. apply shows_win; [done|].
  rewrite (fat_sect_geom _ _ o Hg). auto.
Qed.

Lemma fat_le_2 v o b0 b1 :
  fat_byte v o = Some b0 -> fat_byte v (o + 1) = Some b1 ->
  fat_le v o 2 = Some (bval b0 + 256 * bval b1).
Proof. intros H0 H1. cbn [fat_le]. rewrite H0. simpl. rewrite H1. simpl. f_equal. lia. Qed.

Lemma odd_land c : nz (Z.land c 1) = Z.odd c.
Proof.
  unfold nz. change 1 with (Z.ones 1). rewrite Z.land_ones by lia. change (2 ^ 1) with 2.
  rewrite Zmod_odd. by destruct (Z.odd c).
Qed.

Lemma nibbles (b0 b1 : byte) :
  Z.lor (bval b0) (Z.shiftl (bval b1) 8) = bval b0 + 256 * bval b1.
Proof.
  pose proof (bval_range b0). rewrite Z.lor_comm, lor_shiftl_add by (change (2 ^ 8) with 256; lia).
  change (2 ^ 8) with 256. lia.
Qed.

(** What a read of entry [c] may return. *)
Definition entry_read v c x : Prop := x = 0xFFFFFFFF \/ fat_entry v c = Some x.

Section get.
Context (t : bool) (v : vol D) (c : Z).
Context (Hv : vol_ok v) (Hc : coherent v) (Hl : fat_layout (vfs v)) (Hcl : valid_clst (vfs v) c).

Lemma get_fat12_spec :
  fs_type (vfs v) = FS_FAT12 ->
  wpt t (get_fat12 (vfs v) c) (fun x v' => unchanged v v' /\ entry_read v c x) v.
Proof using All.
  intros Ht. destruct (ent_bounds _ _ Hl Hcl) as (He0 & He1 & He2).
  rewrite Ht in *. unfold ent_ofs, ent_len in *. cbn [Z.eqb] in *.
  change (FS_FAT12 =? FS_FAT12) with true in *. cbv iota in *.
  unfold get_fat12. rewrite (u32_small (c + c / 2)), (u32_small (c + c / 2 + 1)) by lia.
  apply wp_bind. eapply wp_mono; [by apply (fat_move t v (c + c / 2))|].
  intros r v1 (Hu1 & Hok1 & _). destruct (fr_eqb_spec r FR_OK) as [->|]; cbn [negb];
    [|by apply wp_ret; split; [|left]].
  destruct (Hok1 eq_refl) as [_ Hs1]. pose proof Hu1 as ([Hv1 Hg1] & _ & Hc1 & _).
  apply wp_bind, wp_win_at; [done|unfold SS; apply Z.mod_pos_bound; lia|]. intros b0 Hb0.
  change (u32 (fatbase (vfs v) + (c + c / 2 + 1) / SS)) with (fat_sect (vfs v) (c + c / 2 + 1)).
  rewrite <- (fat_sect_geom _ _ (c + c / 2 + 1) Hg1).
  apply wp_bind. eapply wp_mono; [by apply (fat_move t v1 (c + c / 2 + 1))|].
  intros r v2 (Hu2 & Hok2 & _). pose proof (unchanged_trans _ _ _ Hu1 Hu2) as Hu.
  destruct (fr_eqb_spec r FR_OK) as [->|]; cbn [negb]; [|by apply wp_ret; split; [|left]].
  destruct (Hok2 eq_refl) as [_ Hs2]. pose proof Hu2 as ([Hv2 Hg2] & _ & Hc2 & _).
  apply wp_bind, wp_win_at; [done|unfold SS; apply Z.mod_pos_bound; lia|]. intros b1 Hb1.
  apply wp_ret. split; [done|]. right. unfold fat_entry. rewrite Ht.
  change (FS_FAT12 =? FS_FAT12) with true. cbv iota.
  destruct Hu as ([_ Hg] & _ & Hsv). pose proof Hu1 as (_ & _ & Hsv1).
  erewrite fat_le_2; cycle 1.
  { rewrite <- (fat_byte_same v v1) by (done || lia). rewrite (proj2 Hs1) by done. exact Hb0. }
  { rewrite <- (fat_byte_same v v2) by (done || lia). rewrite (proj2 Hs2) by done. exact Hb1. }
  cbn [mbind option_bind]. f_equal. rewrite odd_land, nibbles. destruct (Z.odd c).
  - by rewrite Z.shiftr_div_pow2 by lia.
  - change 4095 with (Z.ones 12). by rewrite Z.land_ones by lia.
Qed.

(** An aligned entry of [n] bytes is read in one sector. *)
Lemma fat_le_aligned v1 n w k :
  unchanged v v1 -> shows v1 w k -> (0 < n)%nat -> SS mod Z.of_nat n = 0 -> k mod Z.of_nat n = 0 ->
  0 <= k -> k + Z.of_nat n <= fsize (vfs v) * SS ->
  fat_le v k n = le_combine <$> slice w (k mod SS) (Z.of_nat n).
Proof using Hv Hl.
  intros ([_ Hg] & _ & Hsv) Hsh Hn Hd Hm Hk Hk2. rewrite <- (fat_le_ext v v1).
  - apply (fat_le_shows v1 w k n); [done|done|].
    apply aligned_fits; [lia|done|done].
  - intros j Hj. apply fat_byte_same; (done || lia).
Qed.

Lemma get_fat16_spec :
  fs_type (vfs v) = FS_FAT16 ->
  wpt t (get_fat16 (vfs v) c) (fun x v' => unchanged v v' /\ entry_read v c x) v.
Proof using All.
  intros Ht. destruct (ent_bounds _ _ Hl Hcl) as (He0 & He1 & He2). rewrite Ht in *.
  change (ent_ofs FS_FAT16 c) with (c * 2) in *. change (ent_len FS_FAT16) with 2 in *.
  unfold get_fat16. rewrite u32_mod_SS, (sect_of_entry _ _ 2) by done.
  apply wp_bind. eapply wp_mono; [by apply (fat_move t v (c * 2))|].
  intros r v1 (Hu1 & Hok1 & _). destruct (fr_eqb_spec r FR_OK) as [->|]; cbn [negb];
    [|by apply wp_ret; split; [|left]].
  destruct (Hok1 eq_refl) as [_ Hs1]. pose proof Hu1 as ([Hv1 Hg1] & _).
  pose proof (aligned_fits (c * 2) 2 ltac:(lia) eq_refl (Z_mod_mult c 2)).
  apply wp_win_word; [done|apply Z.mod_pos_bound; done|done|].
  intros x Hx _. split; [done|]. right. unfold fat_entry. rewrite Ht.
  change (FS_FAT16 =? FS_FAT12) with false. change (FS_FAT16 =? FS_FAT16) with true. cbv iota.
  rewrite (fat_le_aligned _ 2 _ _ Hu1 Hs1) by (lia || done || apply Z_mod_mult).
  by rewrite <- ld_word_slice.
Qed.

Lemma get_fat32_spec :
  fs_type (vfs v) = FS_FAT32 ->
  wpt t (get_fat32 (vfs v) c) (fun x v' => unchanged v v' /\ entry_read v c x) v.
Proof using All.
  intros Ht. destruct (ent_bounds _ _ Hl Hcl) as (He0 & He1 & He2). rewrite Ht in *.
  change (ent_ofs FS_FAT32 c) with (c * 4) in *. change (ent_len FS_FAT32) with 4 in *.
  unfold get_fat32. rewrite u32_mod_SS, (sect_of_entry _ _ 4) by done.
  apply wp_bind. eapply wp_mono; [by apply (fat_move t v (c * 4))|].
  intros r v1 (Hu1 & Hok1 & _). destruct (fr_eqb_spec r FR_OK) as [->|]; cbn [negb];
    [|by apply wp_ret; split; [|left]].
  destruct (Hok1 eq_refl) as [_ Hs1]. pose proof Hu1 as ([Hv1 Hg1] & _).
  pose proof (aligned_fits (c * 4) 4 ltac:(lia) eq_refl (Z_mod_mult c 4)).
  apply wp_bind, wp_win_dword; [done|apply Z.mod_pos_bound; done|done|].
  intros x Hx _. apply wp_ret. split; [done|]. right. unfold fat_entry. rewrite Ht.
  change (FS_FAT32 =? FS_FAT12) with false. change (FS_FAT32 =? FS_FAT16) with false. cbv iota.
  rewrite (fat_le_aligned _ 4 _ _ Hu1 Hs1) by (lia || done || apply Z_mod_mult).
  change (Z.of_nat 4) with 4. rewrite <- ld_dword_slice, Hx. cbn [mbind option_bind]. f_equal.
  change 268435455 with (Z.ones 28). by rewrite Z.land_ones by lia.
Qed.

End get.

Lemma get_fat_spec t v c :
  vol_ok v -> coherent v -> fat_layout (vfs v) ->
  wpt t (get_fat c) (fun x v' =>
    unchanged v v' /\
    (valid_clst (vfs v) c -> entry_read v c x) /\ (~ valid_clst (vfs v) c -> x = 1)) v.
Proof.
  intros Hv Hc Hl. unfold get_fat. apply wp_bind, wp_get_fs.
  destruct (decide (valid_clst (vfs v) c)) as [Hcl|Hcl]; cycle 1.
  { assert ((c <? 2) || (c >=? n_fatent (vfs v)) = true) as ->.
    { unfold valid_clst in Hcl. destruct (Z.ltb_spec c 2), (Z.geb_spec c (n_fatent (vfs v))); try done. lia. }
    apply wp_ret. split; [by apply unchanged_refl|]. by split. }
  assert ((c <? 2) || (c >=? n_fatent (vfs v)) = false) as ->.
  { destruct Hcl. destruct (Z.ltb_spec c 2), (Z.geb_spec c (n_fatent (vfs v))); try done; lia. }
  destruct (fl_type _ Hl) as [Ht|[Ht|Ht]]; rewrite Ht; eapply wp_mono;
    [by apply get_fat12_spec| |by apply get_fat16_spec| |by apply get_fat32_spec|];
    by intros x v' [Hu He]; split.
Qed.

(** ** [put_fat] *)

(** The part of a value an entry can hold. *)
Definition ent_mask (ty val : Z) : Z :=
  if ty =? FS_FAT12 then val mod 4096 else if ty =? FS_FAT16 then val mod 65536
  else val mod 268435456.

(** [s] holds no byte of the table. *)
Definition off_fat fs s : Prop := forall o, 0 <= o < fsize fs * SS -> s <> fat_sect fs o.

(** The volume with new window contents, marked dirty. *)
Definition dirty v w : vol D := mkVol (set_wflag 1 (set_win w (vfs v))) (vdsk v).

(** [src] replaces the bytes of the table from offset [o]. *)
Definition poked v v' o src : Prop :=
  sv (geom (vfs v)) v' /\ coherent v' /\ alloc_info (vfs v') = alloc_info (vfs v) /\
  (forall k, 0 <= k < fsize (vfs v) * SS ->
     fat_byte v' k = if (o <=? k) && (k <? o + len src) then at_ src (k - o) else fat_byte v k) /\
  (forall s, plain (vfs v) s -> off_fat (vfs v) s -> lview v' s = lview v s).

Lemma poke v o src w :
  vol_ok v -> fat_layout (vfs v) -> winsect (vfs v) = fat_sect (vfs v) o ->
  0 <= o < fsize (vfs v) * SS -> o mod SS + len src <= SS ->
  splice (win (vfs v)) (o mod SS) src = Some w -> poked v (dirty v w) o src.
Proof.
  intros [Hf Hd] Hl Hw Ho Hin Hs.
  split; [split; [split; [|done]|done]|].
  { apply fs_ok_set_wflag; [|lia]. apply fs_ok_set_win; [done|].
    rewrite (splice_len _ _ _ _ Hs). apply ok_win, Hf. }
  split; [done|]. split; [done|]. split.
  - intros k Hk. unfold fat_byte at 1. unfold lview. cbn [vfs dirty].
    change (fat_sect (set_wflag 1 (set_win w (vfs v))) k) with (fat_sect (vfs v) k).
    change (winsect (set_wflag 1 (set_win w (vfs v)))) with (winsect (vfs v)). rewrite Hw.
    rewrite (fat_sect_val _ o), (fat_sect_val _ k) by done.
    destruct (Z.eqb_spec (fatbase (vfs v) + k / SS) (fatbase (vfs v) + o / SS)) as [E|E].
    + cbn [mbind option_bind win set_win set_wflag]. rewrite (at_splice _ _ _ _ _ Hs).
      rewrite (proj2 (shows_win v o (conj Hf Hd) Hw)) by lia.
      assert (k = k / SS * SS + k mod SS) by (unfold SS; Z.to_euclidean_division_equations; lia).
      assert (o = o / SS * SS + o mod SS) by (unfold SS; Z.to_euclidean_division_equations; lia).
      assert (k / SS = o / SS) as E' by lia. rewrite E' in *.
      replace (k - o) with (k mod SS - o mod SS) by lia.
      destruct (Z.leb_spec (o mod SS) (k mod SS)), (Z.ltb_spec (k mod SS) (o mod SS + len src)),
        (Z.leb_spec o k), (Z.ltb_spec k (o + len src)); try lia; done.
    + unfold fat_byte. rewrite (fat_sect_val _ k) by done. rewrite lview_ne.
      2:{ rewrite Hw, (fat_sect_val _ o) by done. done. }
      destruct (Z.leb_spec o k), (Z.ltb_spec k (o + len src)); try done.
      exfalso. apply E. f_equal. unfold SS in *. Z.to_euclidean_division_equations. lia.
  - intros s _ Hoff. unfold lview. cbn. destruct (Z.eqb_spec s (winsect (vfs v))) as [->|]; [|done].
    rewrite Hw in Hoff. by destruct (Hoff o Ho).
Qed.

(** The effect of [put_fat] on the table and on the rest of the volume. *)
Definition put_effect v c v' : Prop :=
  sv (geom (vfs v)) v' /\ coherent v' /\ alloc_info (vfs v') = alloc_info (vfs v) /\
  (forall c', valid_clst (vfs v) c' -> c' <> c -> fat_entry v' c' = fat_entry v c') /\
  (forall s, plain (vfs v) s -> off_fat (vfs v) s -> lview v' s = lview v s).

Lemma off_fat_geom a b s : geom a = geom b -> off_fat a s -> off_fat b s.
Proof.
  intros H Hs o Ho. rewrite <- (fat_sect_geom _ _ o H). apply Hs.
  apply geom_fields in H as (_&_&_&_&_&_&_&H&_). by rewrite H.
Qed.

(** An entry that shares no byte with the stored ones keeps its value. *)
Lemma poked_entry v v' o src c :
  fat_layout (vfs v) -> poked v v' o src -> valid_clst (vfs v) c ->
  ent_ofs (fs_type (vfs v)) c + ent_len (fs_type (vfs v)) <= o \/
    o + len src <= ent_ofs (fs_type (vfs v)) c ->
  fat_entry v' c = fat_entry v c.
Proof.
  intros Hl ([_ Hg] & _ & _ & Hb & _) Hc Hd. apply fat_entry_ext; [done|]. intros k Hk.
  pose proof (ent_bounds _ _ Hl Hc). rewrite Hb by lia.
  destruct (Z.leb_spec o k), (Z.ltb_spec k (o + len src)); try done. lia.
Qed.

(** After a move of the window and a store of an aligned entry. *)
Lemma put_aligned v v1 v2 c n src :
  vol_ok v -> fat_layout (vfs v) -> valid_clst (vfs v) c ->
  (forall x, ent_ofs (fs_type (vfs v)) x = x * n) -> ent_len (fs_type (vfs v)) = n -> len src = n ->
  unchanged v v1 -> poked v1 v2 (c * n) src -> put_effect v c v2.
Proof.
  intros Hv Hl Hc Ho Hn Hs Hu Hp.
  pose proof Hu as ([Hv1 Hg1] & Ha1 & Hc1 & Hs1). pose proof Hp as ([Hv2 Hg2] & Hc2 & Ha2 & _ & Hs2).
  pose proof (fat_layout_geom _ _ (eq_sym Hg1) Hl) as Hl1.
  assert (fs_type (vfs v1) = fs_type (vfs v) /\ n_fatent (vfs v1) = n_fatent (vfs v)) as [Ht Hnf].
  { apply geom_fields in Hg1. tauto. }
  split; [by split; [|congruence]|]. split; [done|]. split; [congruence|]. split.
  - intros c' Hc' Hne. rewrite <- (unchanged_entry v v1) by done.
    eapply poked_entry; [done|done|unfold valid_clst in *; lia|].
    assert (0 <= n) by (rewrite <- Hs; apply len_nonneg).
    rewrite Ht, Hn, Ho, Hs. destruct (Z.lt_ge_cases c' c); [left|right]; nia.
  - intros s Hpl Hoff. rewrite Hs2, Hs1; [done|done| |].
    + exact (plain_geom _ _ _ (eq_sym Hg1) Hpl).
    + exact (off_fat_geom _ _ _ (eq_sym Hg1) Hoff).
Qed.

Lemma poked_le v v' o src n :
  poked v v' o src -> length src = n -> 0 <= o -> o + len src <= fsize (vfs v) * SS ->
  fat_le v' o n = Some (le_combine src).
Proof.
  intros (_ & _ & _ & Hb & _) <- Ho Hr.
  assert (forall k l, (forall i, 0 <= i < len l -> at_ src (k - o + i) = at_ l i) ->
    o <= k -> k + len l <= o + len src -> fat_le v' k (length l) = Some (le_combine l)) as H.
  { intros k l. revert k. induction l as [|b l IH]; intros k Hl Hk Hk2; [done|].
    assert (len (b :: l) = 1 + len l) as Hc by (unfold len; simpl; lia).
    pose proof (len_nonneg l). cbn [fat_le length le_combine].
    rewrite Hb by lia. rewrite (proj2 (Z.leb_le o k)), (proj2 (Z.ltb_lt k (o + len src))) by lia.
    cbn [andb]. specialize (Hl 0 ltac:(lia)) as Hl0. rewrite Z.add_0_r in Hl0. rewrite Hl0.
    cbn [at_ Z.leb mbind option_bind]. change (at_ (b :: l) 0) with (Some b). cbn [mbind option_bind].
    rewrite IH; [done| |lia|lia]. intros i Hi.
    replace (k + 1 - o + i) with (k - o + (i + 1)) by lia. rewrite Hl by lia.
    rewrite !at_lookup by lia. by replace (Z.to_nat (i + 1)) with (S (Z.to_nat i)) by lia. }
  apply H; [|lia|lia]. intros i _. f_equal. lia.
Qed.

Lemma unchanged_put_effect v v' c :
  vol_ok v -> fat_layout (vfs v) -> unchanged v v' -> put_effect v c v'.
Proof.
  intros Hv Hl Hu. pose proof Hu as (Hsv & Ha & Hc & Hs). repeat (split; [done|]). split.
  - intros c' Hc' _. by apply unchanged_entry.
  - intros s Hp _. by apply Hs.
Qed.

Lemma mask28 val x :
  Z.lor (Z.land val 268435455) (Z.land x 4026531840) mod 268435456 = val mod 268435456.
Proof.
  change 268435456 with (2 ^ 28). rewrite <- !Z.land_ones by lia. change (Z.ones 28) with 268435455.
  rewrite Z.land_lor_distr_l, <- !Z.land_assoc. change (Z.land 4026531840 268435455) with 0.
  change (Z.land 268435455 268435455) with 268435455. by rewrite Z.land_0_r, Z.lor_0_r.
Qed.

(** What [put_fat] promises. *)
Definition put_post v c val (r : FRESULT) v' : Prop :=
  put_effect v c v' /\
  (r = FR_OK -> fat_entry v' c = Some (ent_mask (fs_type (vfs v)) val)) /\
  (r <> FR_OK -> r = FR_DISK_ERR).

(** A FAT12 entry in terms of the halves of its two bytes. *)
Lemma fat_entry12 v c :
  fs_type (vfs v) = FS_FAT12 ->
  fat_entry v c =
    if Z.odd c then
      h ← (fun b => bval b / 16) <$> fat_byte v (c + c / 2);
      x ← fat_byte v (c + c / 2 + 1); Some (h + 16 * bval x)
    else
      x ← fat_byte v (c + c / 2);
      l ← (fun b => bval b mod 16) <$> fat_byte v (c + c / 2 + 1); Some (bval x + 256 * l).
Proof.
  intros Ht. unfold fat_entry. rewrite Ht. change (FS_FAT12 =? FS_FAT12) with true. cbv iota.
  destruct (fat_byte v (c + c / 2)) as [b0|] eqn:E0.
  2:{ cbn [fat_le]. rewrite E0. by destruct (Z.odd c). }
  destruct (fat_byte v (c + c / 2 + 1)) as [b1|] eqn:E1.
  2:{ cbn [fat_le]. rewrite E0. cbn [mbind option_bind]. rewrite E1. by destruct (Z.odd c). }
  rewrite (fat_le_2 _ _ _ _ E0 E1). cbn [mbind option_bind fmap option_fmap option_map].
  pose proof (bval_range b0). pose proof (bval_range b1).
  destruct (Z.odd c); f_equal; Z.to_euclidean_division_equations; lia.
Qed.

(** Only the two bytes of entry [c] differ, and the half byte that belongs to
    its neighbour does not. *)
Definition nib v v' c : Prop :=
  (forall k, 0 <= k < fsize (vfs v) * SS -> k <> c + c / 2 -> k <> c + c / 2 + 1 ->
     fat_byte v' k = fat_byte v k) /\
  (Z.odd c = true ->
     (fun b => bval b mod 16) <$> fat_byte v' (c + c / 2) =
     (fun b => bval b mod 16) <$> fat_byte v (c + c / 2)) /\
  (Z.odd c = false ->
     (fun b => bval b / 16) <$> fat_byte v' (c + c / 2 + 1) =
     (fun b => bval b / 16) <$> fat_byte v (c + c / 2 + 1)).

Lemma odd_half c : c = 2 * (c / 2) + (if Z.odd c then 1 else 0).
Proof. rewrite (Z.div_mod c 2) at 1 by lia. by rewrite Zmod_odd. Qed.

Lemma nib_other v v' c c' :
  fs_type (vfs v) = FS_FAT12 -> fat_layout (vfs v) -> geom (vfs v') = geom (vfs v) ->
  nib v v' c -> valid_clst (vfs v) c' -> c' <> c -> fat_entry v' c' = fat_entry v c'.
Proof.
  intros Ht Hl Hg (Hb & Ho & He) Hc' Hne.
  assert (fs_type (vfs v') = FS_FAT12) as Ht' by (apply geom_fields in Hg as [-> _]; done).
  rewrite !fat_entry12 by done.
  destruct (ent_bounds _ _ Hl Hc') as (H0 & H1 & _). rewrite Ht in H0, H1.
  change (ent_ofs FS_FAT12 c') with (c' + c' / 2) in *. change (ent_len FS_FAT12) with 2 in *.
  pose proof (odd_half c) as Hc1. pose proof (odd_half c') as Hc2.
  destruct (Z.odd c') eqn:Ec'.
  - rewrite (Hb (c' + c' / 2 + 1)) by (destruct (Z.odd c); lia).
    destruct (Z.odd c) eqn:Ec.
    + by rewrite (Hb (c' + c' / 2)) by lia.
    + destruct (Z.eq_dec c' (c + 1)).
      * replace (c' + c' / 2) with (c + c / 2 + 1) by lia. by rewrite (He eq_refl).
      * by rewrite (Hb (c' + c' / 2)) by lia.
  - rewrite (Hb (c' + c' / 2)) by (destruct (Z.odd c); lia).
    destruct (Z.odd c) eqn:Ec.
    + destruct (Z.eq_dec c' (c - 1)).
      * replace (c' + c' / 2 + 1) with (c + c / 2) by lia. by rewrite (Ho eq_refl).
      * by rewrite (Hb (c' + c' / 2 + 1)) by lia.
    + by rewrite (Hb (c' + c' / 2 + 1)) by lia.
Qed.

(** The bytes [put_fat] stores. *)
Lemma byte12_lo b val :
  bval (mkb (Z.lor (Z.land (bval b) 15) (Z.shiftl (u8 val) 4))) = bval b mod 16 + 16 * (val mod 16).
Proof.
  rewrite bval_mkb. change 15 with (Z.ones 4). rewrite Z.land_ones by lia.
  change (2 ^ 4) with 16. pose proof (Z.mod_pos_bound (bval b) 16 ltac:(lia)).
  rewrite Z.lor_comm, lor_shiftl_add by (change (2 ^ 4) with 16; lia). change (2 ^ 4) with 16.
  unfold u8. Z.to_euclidean_division_equations. lia.
Qed.

Lemma land_f0 b : Z.land (bval b) 240 = Z.shiftl (bval b / 16) 4.
Proof. by destruct b. Qed.

Lemma byte12_hi b val :
  bval (mkb (Z.lor (Z.land (bval b) 240) (Z.land (u8 (Z.shiftr val 8)) 15))) =
  16 * (bval b / 16) + (val / 256) mod 16.
Proof.
  rewrite bval_mkb, land_f0. change 15 with (Z.ones 4). rewrite Z.land_ones by lia.
  change (2 ^ 4) with 16. unfold u8. rewrite Z.shiftr_div_pow2 by lia. change (2 ^ 8) with 256.
  rewrite Z.mod_mod_divide by (by exists 16).
  pose proof (Z.mod_pos_bound (val / 256) 16 ltac:(lia)).
  rewrite lor_shiftl_add by (change (2 ^ 4) with 16; lia). change (2 ^ 4) with 16.
  pose proof (bval_range b). Z.to_euclidean_division_equations. lia.
Qed.

(** Byte [o] of the table is [b], the rest of the volume is as in [v]. *)
Definition one_byte v v' o b : Prop :=
  sv (geom (vfs v)) v' /\ coherent v' /\ alloc_info (vfs v') = alloc_info (vfs v) /\
  (forall k, 0 <= k < fsize (vfs v) * SS ->
     fat_byte v' k = if k =? o then Some b else fat_byte v k) /\
  (forall s, plain (vfs v) s -> off_fat (vfs v) s -> lview v' s = lview v s).

(** The idiom of [put_fat] on FAT12: bring a byte into the window, replace it,
    mark the window dirty. *)
Lemma wp_poke_byte t v s p o f (K : FRESULT -> M (vol D) FRESULT) Q :
  vol_ok v -> coherent v -> fat_layout (vfs v) -> 0 <= o < fsize (vfs v) * SS ->
  s = fat_sect (vfs v) o -> p = o mod SS ->
  (forall v1, unchanged v v1 -> Q FR_DISK_ERR v1) ->
  (forall v1 b, fat_byte v o = Some b -> one_byte v v1 o (mkb (f (bval b))) -> wpt t (K FR_OK) Q v1) ->
  wpt t (res <- move_window s ;;
         if negb (res =r FR_OK) then ret res else
         x <- win_at p ;; win_put p (f x) ;;; mod_fs (set_wflag 1) ;;; K res) Q v.
Proof.
  intros Hv Hc Hl Ho -> -> Hko Hok.
  apply wp_bind. eapply wp_mono; [by apply fat_move|]. intros r v1 (Hu & H1 & H2).
  destruct (fr_eqb_spec r FR_OK) as [->|Hr]; cbn [negb].
  2:{ apply wp_ret. rewrite (H2 Hr). by apply Hko. }
  destruct (H1 eq_refl) as [Hw Hsh]. pose proof Hu as ([Hv1 Hg] & Ha & Hsv).
  assert (fsize (vfs v1) = fsize (vfs v)) as Hfs by (apply geom_fields in Hg; tauto).
  pose proof (Z.mod_pos_bound o SS ltac:(done)).
  apply wp_bind, wp_win_at; [done|done|]. intros b Hb.
  destruct (upd_is_Some (win (vfs v1)) (o mod SS) (mkb (f (bval b)))) as (w & Hupd & _);
    [by rewrite (ok_win _ (proj1 Hv1))|].
  apply wp_bind. eapply wp_set_win_opt; [exact Hupd|]. apply wp_bind, wp_mod_fs.
  apply (Hok (dirty v1 w) b).
  { rewrite <- (fat_byte_same v v1) by done. by rewrite (proj2 Hsh). }
  destruct (poke v1 o [mkb (f (bval b))] w) as ([Hv2 Hg2] & Hc2 & Ha2 & Hb2 & Hs2);
    [done|by eapply fat_layout_geom|by rewrite Hw, (fat_sect_geom _ _ _ Hg)|by rewrite Hfs
    |change (len [_]) with 1; lia|done|].
  split; [by split; [|congruence]|]. split; [done|]. split; [congruence|]. split.
  - intros k Hk. rewrite Hb2 by (by rewrite Hfs). change (len [_]) with 1.
    rewrite (fat_byte_same v v1) by done.
    destruct (Z.leb_spec o k), (Z.ltb_spec k (o + 1)), (Z.eqb_spec k o); try lia; try done.
    subst k. by rewrite Z.sub_diag.
  - intros s Hp Hoff. rewrite Hs2.
    + by apply Hsv.
    + exact (plain_geom _ _ _ (eq_sym Hg) Hp).
    + exact (off_fat_geom _ _ _ (eq_sym Hg) Hoff).
Qed.

Lemma nib_effect v v' c :
  fs_type (vfs v) = FS_FAT12 -> fat_layout (vfs v) -> sv (geom (vfs v)) v' -> coherent v' ->
  alloc_info (vfs v') = alloc_info (vfs v) -> nib v v' c ->
  (forall s, plain (vfs v) s -> off_fat (vfs v) s -> lview v' s = lview v s) -> put_effect v c v'.
Proof.
  intros Ht Hl [Hv' Hg] Hc Ha Hn Hs. repeat (split; [done|]). split; [|done].
  intros c' Hc' Hne. by eapply nib_other.
Qed.

Section put.
Context (t : bool) (v : vol D) (c val : Z).
Context (Hv : vol_ok v) (Hc : coherent v) (Hl : fat_layout (vfs v)) (Hcl : valid_clst (vfs v) c).

Lemma put_fat16_spec :
  fs_type (vfs v) = FS_FAT16 -> wpt t (put_fat16 (vfs v) c val) (put_post v c val) v.
Proof using All.
  intros Ht. destruct (ent_bounds _ _ Hl Hcl) as (He0 & He1 & He2). rewrite Ht in *.
  change (ent_ofs FS_FAT16 c) with (c * 2) in *. change (ent_len FS_FAT16) with 2 in *.
  unfold put_fat16. rewrite u32_mod_SS, (sect_of_entry _ _ 2) by done.
  apply wp_bind. eapply wp_mono; [by apply (fat_move t v (c * 2))|].
  intros r v1 (Hu1 & Hok1 & Hko1). destruct (fr_eqb_spec r FR_OK) as [->|]; cbn [negb].
  2:{ apply wp_ret. split; [by apply unchanged_put_effect|]. by split; [|auto]. }
  destruct (Hok1 eq_refl) as [Hw1 _]. pose proof Hu1 as ([Hv1 Hg1] & _).
  pose proof (aligned_fits (c * 2) 2 ltac:(lia) eq_refl (Z_mod_mult c 2)) as Hfit.
  pose proof (Z.mod_pos_bound (c * 2) SS ltac:(done)) as Hmod.
  destruct (st_word_is_Some (win (vfs v1)) ((c * 2) mod SS) (u16 val)) as (w & Hw & _);
    [lia|by rewrite (ok_win _ (proj1 Hv1))|].
  apply wp_bind. eapply wp_set_win_opt; [exact Hw|]. apply wp_bind, wp_mod_fs, wp_ret.
  rewrite st_word_splice in Hw.
  pose proof (fat_layout_geom _ _ (eq_sym Hg1) Hl) as Hl1.
  assert (fsize (vfs v1) = fsize (vfs v) /\ fs_type (vfs v1) = FS_FAT16) as [Hfs Ht1].
  { apply geom_fields in Hg1. rewrite <- Ht. tauto. }
  assert (poked v1 (dirty v1 w) (c * 2) (le_split 2 (u16 val))) as Hp.
  { apply poke; [done|done|by rewrite Hw1, (fat_sect_geom _ _ _ Hg1)|rewrite Hfs; lia|rewrite len_le_split; lia|done]. }
  change (put_post v c val FR_OK (dirty v1 w)). split; [|split; [|done]].
  - apply (put_aligned v v1 (dirty v1 w) c 2 (le_split 2 (u16 val))); [done..| | |rewrite len_le_split; lia|done|done]; by rewrite Ht.
  - intros _. unfold fat_entry. change (fs_type (vfs (dirty v1 w))) with (fs_type (vfs v1)).
    rewrite Ht, Ht1. change (FS_FAT16 =? FS_FAT12) with false.
    change (FS_FAT16 =? FS_FAT16) with true. cbv iota.
    rewrite (poked_le _ _ _ _ 2 Hp) by (done || rewrite ?len_le_split, ?Hfs; lia).
    rewrite le_combine_split. change (256 ^ Z.of_nat 2) with 65536. unfold u16.
    by rewrite Z.mod_mod.
Qed.

Lemma put_fat32_spec :
  fs_type (vfs v) = FS_FAT32 -> wpt t (put_fat32 (vfs v) c val) (put_post v c val) v.
Proof using All.
  intros Ht. destruct (ent_bounds _ _ Hl Hcl) as (He0 & He1 & He2). rewrite Ht in *.
  change (ent_ofs FS_FAT32 c) with (c * 4) in *. change (ent_len FS_FAT32) with 4 in *.
  unfold put_fat32. rewrite !u32_mod_SS, (sect_of_entry _ _ 4) by done.
  apply wp_bind. eapply wp_mono; [by apply (fat_move t v (c * 4))|].
  intros r v1 (Hu1 & Hok1 & Hko1). destruct (fr_eqb_spec r FR_OK) as [->|]; cbn [negb].
  2:{ apply wp_ret. split; [by apply unchanged_put_effect|]. by split; [|auto]. }
  destruct (Hok1 eq_refl) as [Hw1 _]. pose proof Hu1 as ([Hv1 Hg1] & _).
  pose proof (aligned_fits (c * 4) 4 ltac:(lia) eq_refl (Z_mod_mult c 4)) as Hfit.
  pose proof (Z.mod_pos_bound (c * 4) SS ltac:(done)) as Hmod.
  apply wp_bind, wp_win_dword; [done|lia|done|]. intros x _ _.
  set (val' := Z.lor (Z.land val 268435455) (Z.land x 4026531840)).
  destruct (st_dword_is_Some (win (vfs v1)) ((c * 4) mod SS) val') as (w & Hw & _);
    [lia|by rewrite (ok_win _ (proj1 Hv1))|].
  apply wp_bind. eapply wp_set_win_opt; [exact Hw|]. apply wp_bind, wp_mod_fs, wp_ret.
  rewrite st_dword_splice in Hw.
  pose proof (fat_layout_geom _ _ (eq_sym Hg1) Hl) as Hl1.
  assert (fsize (vfs v1) = fsize (vfs v) /\ fs_type (vfs v1) = FS_FAT32) as [Hfs Ht1].
  { apply geom_fields in Hg1. rewrite <- Ht. tauto. }
  assert (poked v1 (dirty v1 w) (c * 4) (le_split 4 val')) as Hp.
  { apply poke; [done|done|by rewrite Hw1, (fat_sect_geom _ _ _ Hg1)|rewrite Hfs; lia|rewrite len_le_split; lia|done]. }
  change (put_post v c val FR_OK (dirty v1 w)). split; [|split; [|done]].
  - apply (put_aligned v v1 (dirty v1 w) c 4 (le_split 4 val')); [done..| | |rewrite len_le_split; lia|done|done]; by rewrite Ht.
  - intros _. unfold fat_entry. change (fs_type (vfs (dirty v1 w))) with (fs_type (vfs v1)).
    rewrite Ht, Ht1. change (FS_FAT32 =? FS_FAT12) with false.
    change (FS_FAT32 =? FS_FAT16) with false. cbv iota.
    rewrite (poked_le _ _ _ _ 4 Hp) by (done || rewrite ?len_le_split, ?Hfs; lia).
    rewrite le_combine_split. cbn [mbind option_bind]. f_equal.
    change (256 ^ Z.of_nat 4) with 4294967296. rewrite Z.mod_mod_divide by (by exists 16).
    apply mask28.
Qed.

Lemma put_fat12_spec :
  fs_type (vfs v) = FS_FAT12 -> wpt t (put_fat12 (vfs v) c val) (put_post v c val) v.
Proof using All.
  intros Ht. destruct (ent_bounds _ _ Hl Hcl) as (He0 & He1 & He2). rewrite Ht in *.
  change (ent_ofs FS_FAT12 c) with (c + c / 2) in *. change (ent_len FS_FAT12) with 2 in *.
  unfold put_fat12. rewrite (u32_small (c + c / 2)), (u32_small (c + c / 2 + 1)) by lia.
  apply wp_poke_byte with (o := c + c / 2)
    (f := fun x => if nz (Z.land c 1) then Z.lor (Z.land x 15) (Z.shiftl (u8 val) 4) else u8 val);
    [done..|lia|done|done| |].
  { intros v1 Hu. split; [by apply unchanged_put_effect|done]. }
  rewrite odd_land. intros v1 b0 Hb0 ([Hv1 Hg1] & Hc1 & Ha1 & Hb1 & Hs1).
  assert (fsize (vfs v1) = fsize (vfs v)) as Hfs by (apply geom_fields in Hg1; tauto).
  pose proof (fat_layout_geom _ _ (eq_sym Hg1) Hl) as Hl1.
  set (n0 := mkb (if Z.odd c then _ else _)) in Hb1.
  assert (Z.odd c = true -> bval n0 mod 16 = bval b0 mod 16 /\ bval n0 / 16 = val mod 16) as Hn0.
  { intros E. unfold n0. rewrite E, byte12_lo. Z.to_euclidean_division_equations. lia. }
  assert (Z.odd c = false -> bval n0 = val mod 256) as Hn0'.
  { intros E. unfold n0. rewrite E, bval_mkb. unfold u8. by rewrite Z.mod_mod. }
  assert (forall v2, (forall k, 0 <= k < fsize (vfs v) * SS -> k <> c + c / 2 + 1 ->
            fat_byte v2 k = fat_byte v1 k) ->
          (Z.odd c = false -> (fun b => bval b / 16) <$> fat_byte v2 (c + c / 2 + 1) =
             (fun b => bval b / 16) <$> fat_byte v (c + c / 2 + 1)) -> nib v v2 c) as Hnib.
  { intros v2 Hk Hhi. split; [|split; [|done]].
    - intros k Hk1 Hk2 Hk3. rewrite Hk, Hb1 by done. by rewrite (proj2 (Z.eqb_neq _ _) Hk2).
    - intros E. rewrite Hk, Hb1, Z.eqb_refl, Hb0 by lia. cbn. f_equal. by apply Hn0. }
  apply wp_poke_byte with (o := c + c / 2 + 1)
    (f := fun x => if Z.odd c then u8 (Z.shiftr val 4)
                   else Z.lor (Z.land x 240) (Z.land (u8 (Z.shiftr val 8)) 15));
    [done..|rewrite Hfs; lia| |done| |].
  { symmetry. apply (fat_sect_geom _ _ _ Hg1). }
  { intros v2 ([Hv2 Hg2] & Ha2 & Hc2 & Hsv2). split; [|done].
    apply nib_effect; [done|done|split; [done|congruence]|done|congruence| |].
    - apply Hnib.
      + intros k Hk _. apply fat_byte_same; [done..|by rewrite Hfs].
      + intros _. rewrite (fat_byte_same v1 v2) by (done || rewrite ?Hfs; lia).
        rewrite Hb1, (proj2 (Z.eqb_neq _ _)) by lia. done.
    - intros s Hp Hoff. rewrite Hsv2 by (exact (plain_geom _ _ _ (eq_sym Hg1) Hp)). by apply Hs1. }
  intros v2 b1 Hb1' ([Hv2 Hg2] & Hc2 & Ha2 & Hb2 & Hs2). apply wp_ret.
  rewrite Hb1, (proj2 (Z.eqb_neq _ _)) in Hb1' by lia.
  set (n1 := mkb (if Z.odd c then _ else _)) in Hb2. rewrite Hfs in Hb2.
  assert (Z.odd c = true -> bval n1 = (val / 16) mod 256) as Hn1.
  { intros E. unfold n1. rewrite E, bval_mkb. unfold u8.
    rewrite Z.shiftr_div_pow2, Z.mod_mod by lia. done. }
  assert (Z.odd c = false -> bval n1 / 16 = bval b1 / 16 /\ bval n1 mod 16 = (val / 256) mod 16) as Hn1'.
  { intros E. unfold n1. rewrite E, byte12_hi. Z.to_euclidean_division_equations. lia. }
  split; [|split; [|done]].
  - apply nib_effect; [done|done|split; [done|congruence]|done|congruence| |].
    + apply Hnib.
      * intros k Hk Hne. rewrite Hb2 by done. by rewrite (proj2 (Z.eqb_neq _ _) Hne).
      * intros E. rewrite Hb2, Z.eqb_refl, Hb1' by lia. cbn. f_equal. by apply Hn1'.
    + intros s Hp Hoff. rewrite Hs2; [by apply Hs1|..].
      * exact (plain_geom _ _ _ (eq_sym Hg1) Hp).
      * exact (off_fat_geom _ _ _ (eq_sym Hg1) Hoff).
  - intros _. rewrite fat_entry12.
    2:{ rewrite <- Ht. apply geom_fields in Hg1, Hg2. destruct Hg1, Hg2. congruence. }
    rewrite !Hb2, Z.eqb_refl, (proj2 (Z.eqb_neq (c + c / 2) (c + c / 2 + 1))) by lia.
    rewrite Hb1, Z.eqb_refl by lia. cbn [fmap option_fmap option_map mbind option_bind].
    rewrite Ht. change (ent_mask FS_FAT12 val) with (val mod 4096).
    destruct (Z.odd c); f_equal.
    + rewrite (proj2 (Hn0 eq_refl)), (Hn1 eq_refl). Z.to_euclidean_division_equations. lia.
    + rewrite (proj2 (Hn1' eq_refl)), (Hn0' eq_refl). Z.to_euclidean_division_equations. lia.
Qed.

End put.

Lemma put_fat_spec t v c val :
  vol_ok v -> coherent v -> fat_layout (vfs v) -> valid_clst (vfs v) c ->
  wpt t (put_fat c val) (put_post v c val) v.
Proof.
  intros Hv Hc Hl Hcl. unfold put_fat. apply wp_bind, wp_get_fs.
  assert ((c >=? 2) && (c <? n_fatent (vfs v)) = true) as ->.
  { destruct Hcl. destruct (Z.geb_spec c 2), (Z.ltb_spec c (n_fatent (vfs v))); try done; lia. }
  destruct (fl_type _ Hl) as [Ht|[Ht|Ht]]; rewrite Ht;
    [by apply put_fat12_spec|by apply put_fat16_spec|by apply put_fat32_spec].
Qed.


(** ** Safety on any volume, coherent or not *)

Lemma wc_range b0 b1 : 0 <= b0 < 256 -> 0 <= b1 < 256 -> 0 <= Z.lor b0 (Z.shiftl b1 8) < 65536.
Proof.
  intros. rewrite Z.lor_comm, lor_shiftl_add by (change (2 ^ 8) with 256; lia).
  change (2 ^ 8) with 256. lia.
Qed.

Lemma land_range x n : 0 <= n -> 0 <= Z.land x (Z.ones n) < 2 ^ n.
Proof. intros. rewrite Z.land_ones by done. by apply Z.mod_pos_bound, Z.pow_pos_nonneg. Qed.

Lemma get_fat_safe t g c : safe t g (get_fat c) (fun x => 0 <= x < U32).
Proof.
  unfold get_fat, get_fat12, get_fat16, get_fat32. safe_auto; try done.
  - pose proof (wc_range _ _ H2 H4). unfold U32. destruct (nz _).
    + rewrite Z.shiftr_div_pow2 by lia. change (2 ^ 4) with 16.
      Z.to_euclidean_division_equations. lia.
    + pose proof (land_range (Z.lor a1 (Z.shiftl a3 8)) 12 ltac:(lia)) as Hr.
      change (Z.ones 12) with 4095 in Hr. lia.
  - eapply safe_mono; [apply safe_win_word; side|]. unfold U32. simpl. lia.
  - pose proof (land_range a1 28 ltac:(lia)) as Hr. change (Z.ones 28) with 268435455 in Hr.
    unfold U32. lia.
Qed.

Lemma put_fat_safe t g c val :
  safe t g (put_fat c val) (fun r => r = FR_OK \/ r = FR_DISK_ERR \/ r = FR_INT_ERR).
Proof. unfold put_fat, put_fat12, put_fat16, put_fat32. safe_auto; tauto. Qed.

End theory.

#[export] Hint Resolve get_fat_safe put_fat_safe : safe.
