(* ===== verification/Chain.v ===== *)
(** * Cluster chains

    [remove_chain] and [create_chain] of ff.c.  The theorems speak of the
    reference table [fat_entry]: removing a chain frees its clusters and no
    other, and ends on every table, cyclic ones included; creating or
    stretching a chain takes a cluster that was free, marks it as the end of
    the chain and links it, or reports that no cluster is free. *)

From stdpp Require Import base numbers list option sets.
From Stdlib Require Import ZArith Lia.
From Stdlib Require Import Strings.Byte.
From S2P Require Import Prelude Types Bytes Diskio Window Fat.

Section chain.
Context {D : Type} `{!DiskIO D}.
Abbreviation V := (M (vol D)).

(** ** Functions of ff.c *)

(** One turn of the loop of [remove_chain]. *)
Definition remove_chain_body (clst : Z) : V (Z + FRESULT) :=
  nxt <- get_fat clst ;;
  if nxt =? 0 then ret (inr FR_OK)
  else if nxt =? 1 then ret (inr FR_INT_ERR)
  else if nxt =? 0xFFFFFFFF then ret (inr FR_DISK_ERR)
  else
    res <- put_fat clst 0 ;;
    if negb (res =r FR_OK) then ret (inr res) else
    fs <- get_fs ;;
    (if free_clst fs <? u32 (n_fatent fs - 2) then
       mod_fs (set_free_clst (u32 (free_clst fs + 1))) ;;;
       mod_fs (set_fsi_flag (Z.lor (fsi_flag fs) 1))
     else ret tt) ;;;
    if nxt <? n_fatent fs then ret (inl nxt) else ret (inr FR_OK).

Definition remove_chain (clst pclst : Z) : V FRESULT :=
  fs <- get_fs ;;
  if (clst <? 2) || (clst >=? n_fatent fs) then ret FR_INT_ERR else
  if nz pclst then
    res <- put_fat pclst 0xFFFFFFFF ;;
    if negb (res =r FR_OK) then ret res else loop remove_chain_body clst
  else loop remove_chain_body clst.

(** The search of [create_chain] for a free cluster, from the one after
    [scl]: [inl x] when [create_chain] is to return [x], [inr c] when the
    free cluster [c] is found. *)
Definition find_free_body (n scl : Z) (ncl : Z) : V (Z + (Z + Z)) :=
  let ncl := u32 (ncl + 1) in
  let wrap := ncl >=? n in
  let ncl := if wrap then 2 else ncl in
  if wrap && (ncl >? scl) then ret (inr (inl 0)) else
  cs <- get_fat ncl ;;
  if cs =? 0 then ret (inr (inr ncl))
  else if (cs =? 1) || (cs =? 0xFFFFFFFF) then ret (inr (inl cs))
  else if ncl =? scl then ret (inr (inl 0))
  else ret (inl ncl).

Definition find_free (n scl : Z) : V (Z + Z) := loop (find_free_body n scl) scl.

(** Where [create_chain] starts to look: [inl x] to return [x] at once. *)
Definition chain_start (fs : FATFS) (clst : Z) : V (Z + Z) :=
  if clst =? 0 then
    let scl := last_clst fs in
    ret (inr (if (scl =? 0) || (scl >=? n_fatent fs) then 1 else scl))
  else
    cs <- get_fat clst ;;
    if cs <? 2 then ret (inl 1)
    else if cs =? 0xFFFFFFFF then ret (inl cs)
    else if cs <? n_fatent fs then ret (inl cs)
    else ret (inr clst).

(** The test of the cluster that follows a chain to be stretched. *)
Definition try_next (fs : FATFS) (clst scl : Z) : V (Z + Z * Z) :=
  if scl =? clst then
    let ncl := u32 (scl + 1) in
    let ncl := if ncl >=? n_fatent fs then 2 else ncl in
    cs <- get_fat ncl ;;
    if (cs =? 1) || (cs =? 0xFFFFFFFF) then ret (inl cs)
    else if nz cs then
      let cs := last_clst fs in
      ret (inr (if (cs >=? 2) && (cs <? n_fatent fs) then cs else scl, 0))
    else ret (inr (scl, ncl))
  else ret (inr (scl, 0)).

(** Mark the new cluster, link it, and update the allocation information. *)
Definition link_new (clst ncl : Z) : V Z :=
  res <- put_fat ncl 0xFFFFFFFF ;;
  res <- (if (res =r FR_OK) && nz clst then put_fat clst ncl else ret res) ;;
  if res =r FR_OK then
    mod_fs (set_last_clst ncl) ;;;
    fs <- get_fs ;;
    (if (free_clst fs >? 0) && (free_clst fs <=? u32 (n_fatent fs - 2)) then
       mod_fs (set_free_clst (u32 (free_clst fs - 1))) ;;;
       mod_fs (set_fsi_flag (Z.lor (fsi_flag fs) 1))
     else ret tt) ;;;
    ret ncl
  else ret (if res =r FR_DISK_ERR then 0xFFFFFFFF else 1).

Definition create_chain (clst : Z) : V Z :=
  fs <- get_fs ;;
  r <- chain_start fs clst ;;
  match r with
  | inl x => ret x
  | inr scl =>
    if free_clst fs =? 0 then ret 0 else
    r <- try_next fs clst scl ;;
    match r with
    | inl x => ret x
    | inr (scl, ncl) =>
      r <- (if ncl =? 0 then find_free (n_fatent fs) scl else ret (inr ncl)) ;;
      match r with
      | inl x => ret x
      | inr ncl => link_new clst ncl
      end
    end
  end.

End chain.

(** ** Chains of the reference table *)

(** The geometry [g] describes a well-placed table. *)
Definition layout_of (g : list Z) : Prop := forall fs, geom fs = g -> fat_layout fs.

Lemma layout_of_geom fs : fat_layout fs -> layout_of (geom fs).
Proof. intros H fs' He. by eapply fat_layout_geom. Qed.

Section theory.
Context {D : Type} `{!DiskIO D} `{!DiskIOLaws D}.
Implicit Types (v : vol D) (fs : FATFS) (l : list Z).

#[global] Instance coherent_dec v : Decision (coherent v).
Proof. unfold coherent. apply _. Defined.

(** [chain v c l]: from [c], the table links the clusters [l] up to an end
    mark. *)
Inductive chain v : Z -> list Z -> Prop :=
| chain_end c e :
    valid_clst (vfs v) c -> fat_entry v c = Some e -> n_fatent (vfs v) <= e -> chain v c [c]
| chain_link c e l :
    valid_clst (vfs v) c -> fat_entry v c = Some e -> valid_clst (vfs v) e ->
    chain v e l -> chain v c (c :: l).

(** The table of [v'] is [f], its geometry and everything outside its table
    are those of [v]. *)
Definition table_is v (f : Z -> option Z) v' : Prop :=
  sv (geom (vfs v)) v' /\ coherent v' /\
  (forall c, valid_clst (vfs v) c -> fat_entry v' c = f c) /\
  (forall s, plain (vfs v) s -> off_fat (vfs v) s -> lview v' s = lview v s).

(** The table [f] with entry [c] replaced. *)
Definition fset (c x : Z) (f : Z -> option Z) : Z -> option Z :=
  fun c' => if c' =? c then Some x else f c'.

Lemma chain_valid v c l : chain v c l -> valid_clst (vfs v) c.
Proof. by destruct 1. Qed.

Lemma chain_det v c l l' : chain v c l -> chain v c l' -> l = l'.
Proof.
  intros H. revert l'. induction H as [c e Hc He Hn|c e l Hc He Hv Hch IH]; intros l' H'.
  - destruct H' as [|? e' l' _ He' Hv' _]; [done|]. destruct Hv'. simplify_eq. lia.
  - destruct H' as [? e' _ He' Hn'|? e' l' _ He' _ Hch']; simplify_eq.
    + destruct Hv. lia.
    + f_equal. by apply IH.
Qed.

Lemma chain_suffix v c l x :
  chain v c l -> x ∈ l -> exists l1 l2, l = l1 ++ l2 /\ chain v x l2.
Proof.
  intros H. induction H as [c e Hc He Hn|c e l Hc He Hv Hch IH]; intros Hx.
  - apply list_elem_of_singleton in Hx as ->. exists [], [c]. split; [done|]. by eapply chain_end.
  - apply elem_of_cons in Hx as [->|Hx].
    + exists [], (c :: l). split; [done|]. by eapply chain_link.
    + destruct (IH Hx) as (l1 & l2 & -> & H2). by exists (c :: l1), l2.
Qed.

Lemma chain_NoDup v c l : chain v c l -> NoDup l.
Proof.
  intros H. induction H as [c e Hc He Hn|c e l Hc He Hv Hch IH]; [apply NoDup_singleton|].
  apply NoDup_cons_2; [|done]. intros Hin.
  destruct (chain_suffix _ _ _ _ Hch Hin) as (l1 & l2 & -> & H2).
  assert (chain v c (c :: l1 ++ l2)) as H1 by (by eapply chain_link).
  pose proof (chain_det _ _ _ _ H1 H2) as E. apply (f_equal length) in E.
  simpl in E. rewrite length_app in E. lia.
Qed.

Lemma chain_all_valid v c l x : chain v c l -> x ∈ l -> valid_clst (vfs v) x.
Proof. intros H Hx. destruct (chain_suffix _ _ _ _ H Hx) as (_ & l2 & _ & H2). by eapply chain_valid. Qed.

(** A chain survives changes to entries outside it. *)
Lemma chain_ext v v' c l :
  chain v c l -> geom (vfs v') = geom (vfs v) ->
  (forall x, x ∈ l -> fat_entry v' x = fat_entry v x) -> chain v' c l.
Proof.
  intros H Hg. apply geom_fields in Hg as (_&_&_&_&_&_&Hn&_).
  induction H as [c e Hc He Hne|c e l Hc He Hv Hch IH]; intros Hx.
  - eapply chain_end; [by unfold valid_clst in *; rewrite Hn|rewrite Hx by set_solver; done|lia].
  - eapply chain_link; [by unfold valid_clst in *; rewrite Hn|rewrite Hx by set_solver; done
      |by unfold valid_clst in *; rewrite Hn|]. apply IH. set_solver.
Qed.

(** ** Steps on the reference table *)

Lemma fat_entry_lview v v' c :
  geom (vfs v') = geom (vfs v) -> (forall s, lview v' s = lview v s) ->
  fat_entry v' c = fat_entry v c.
Proof.
  intros Hg Hl. apply fat_entry_ext; [done|]. intros k _. unfold fat_byte.
  by rewrite (fat_sect_geom _ _ k Hg), Hl.
Qed.

Lemma table_is_refl v : vol_ok v -> coherent v -> table_is v (fat_entry v) v.
Proof. intros. by split; [apply sv_refl|]. Qed.

Lemma table_is_ext v f f' v' :
  table_is v f v' -> (forall c, valid_clst (vfs v) c -> f' c = f c) -> table_is v f' v'.
Proof. intros (H1 & H2 & H3 & H4) Hf. split_and!; [done|done| |done]. intros c Hc. rewrite Hf by done. auto. Qed.

Lemma table_is_unchanged v f v1 v2 :
  fat_layout (vfs v) -> table_is v f v1 -> unchanged v1 v2 -> table_is v f v2.
Proof.
  intros Hl ([Hv1 Hg1] & Hc1 & Hf & Hs) Hu. pose proof Hu as ([Hv2 Hg2] & _ & Hc2 & Hs2).
  assert (n_fatent (vfs v1) = n_fatent (vfs v)) as Hn by (apply geom_fields in Hg1; tauto).
  split_and!; [split; [done|congruence]|done| |].
  - intros c Hc. rewrite (unchanged_entry v1 v2); [auto|done| |done|by unfold valid_clst; rewrite Hn].
    exact (fat_layout_geom _ _ (eq_sym Hg1) Hl).
  - intros s Hp Ho. rewrite Hs2; [auto|]. exact (plain_geom _ _ _ (eq_sym Hg1) Hp).
Qed.

(** The allocation information is no part of the table. *)
Lemma table_is_alloc v f v1 v2 :
  table_is v f v1 -> vol_ok v2 -> geom (vfs v2) = geom (vfs v1) -> vdsk v2 = vdsk v1 ->
  win (vfs v2) = win (vfs v1) -> winsect (vfs v2) = winsect (vfs v1) ->
  wflag (vfs v2) = wflag (vfs v1) -> table_is v f v2.
Proof.
  intros ([Hv1 Hg1] & Hc1 & Hf & Hs) Hv2 Hg Hd Hw Hws Hwf.
  assert (pdrv (vfs v2) = pdrv (vfs v1)) as Hp by (apply geom_fields in Hg; tauto).
  assert (forall s, lview v2 s = lview v1 s) as Hlv.
  { intros s. unfold lview. by rewrite Hws, Hw, Hd, Hp. }
  split_and!.
  - split; [done|congruence].
  - unfold coherent. by rewrite Hws, Hw, Hd, Hp, Hwf.
  - intros c Hc. rewrite <- (Hf c Hc). by apply fat_entry_lview.
  - intros s Hps Ho. rewrite Hlv. auto.
Qed.

Lemma get_fat_table t v f v1 c :
  fat_layout (vfs v) -> table_is v f v1 ->
  wpt t (get_fat c) (fun x v2 =>
    table_is v f v2 /\ alloc_info (vfs v2) = alloc_info (vfs v1) /\
    (valid_clst (vfs v) c -> x = 0xFFFFFFFF \/ f c = Some x) /\ (~ valid_clst (vfs v) c -> x = 1)) v1.
Proof.
  intros Hl Ht. pose proof Ht as ([Hv1 Hg1] & Hc1 & Hf & Hs).
  assert (n_fatent (vfs v1) = n_fatent (vfs v)) as Hn by (apply geom_fields in Hg1; tauto).
  eapply wp_mono; [apply get_fat_spec; [done|done|exact (fat_layout_geom _ _ (eq_sym Hg1) Hl)]|].
  intros x v2 (Hu & H1 & H2). unfold valid_clst in *. rewrite Hn in *.
  split; [by eapply table_is_unchanged|]. split; [apply Hu|]. split; [|done].
  intros Hc. destruct (H1 Hc) as [->|He]; [by left|right]. by rewrite <- Hf.
Qed.

Lemma put_fat_table t v f v1 c val :
  fat_layout (vfs v) -> table_is v f v1 -> valid_clst (vfs v) c ->
  wpt t (put_fat c val) (fun r v2 =>
    alloc_info (vfs v2) = alloc_info (vfs v1) /\ sv (geom (vfs v)) v2 /\ coherent v2 /\
    (r = FR_OK -> table_is v (fset c (ent_mask (fs_type (vfs v)) val) f) v2) /\
    (r <> FR_OK -> r = FR_DISK_ERR)) v1.
Proof.
  intros Hl Ht Hc. pose proof Ht as ([Hv1 Hg1] & Hc1 & Hf & Hs).
  pose proof (geom_fields _ _ Hg1) as (Hty&_&_&_&_&_&Hn&_).
  eapply wp_mono; [apply put_fat_spec; [done|done|exact (fat_layout_geom _ _ (eq_sym Hg1) Hl)|by unfold valid_clst in *; rewrite Hn]|].
  intros r v2 (([Hv2 Hg2] & Hc2 & Ha & Ho & Hsv) & Hok & Hko). rewrite Hty in Hok.
  split; [done|]. split; [split; [done|congruence]|]. split; [done|]. split; [|done].
  intros Hr. split; [split; [done|congruence]|]. split; [done|]. split.
  - intros c' Hc'. unfold fset. destruct (Z.eqb_spec c' c) as [->|Hne]; [auto|].
    rewrite Ho by (unfold valid_clst in *; rewrite ?Hn; done). auto.
  - intros s Hp Hoff. rewrite Hsv; [auto|exact (plain_geom _ _ _ (eq_sym Hg1) Hp)
      |exact (off_fat_geom _ _ _ (eq_sym Hg1) Hoff)].
Qed.

(** ** [remove_chain] *)

(** The number of free clusters after [k] of them were given back: the count
    is only kept while it is below the number of clusters. *)
Definition count_freed (n free k : Z) : Z :=
  if free <=? n - 2 then Z.min (n - 2) (free + k) else free.

Lemma wp_count_freed t v f v1 nxt (Q : Z + FRESULT -> vol D -> Prop) :
  table_is v f v1 ->
  (forall v2, table_is v f v2 ->
     free_clst (vfs v2) =
       (if free_clst (vfs v1) <? u32 (n_fatent (vfs v) - 2) then u32 (free_clst (vfs v1) + 1)
        else free_clst (vfs v1)) ->
     Q (if nxt <? n_fatent (vfs v) then inl nxt else inr FR_OK) v2) ->
  wpt t (fs <- get_fs ;;
    (if free_clst fs <? u32 (n_fatent fs - 2) then
       mod_fs (set_free_clst (u32 (free_clst fs + 1))) ;;;
       mod_fs (set_fsi_flag (Z.lor (fsi_flag fs) 1))
     else ret tt) ;;;
    if nxt <? n_fatent fs then ret (inl nxt) else ret (inr FR_OK)) Q v1.
Proof.
  intros Ht HQ. pose proof Ht as ([[Hf1 Hd1] Hg1] & _).
  assert (n_fatent (vfs v1) = n_fatent (vfs v)) as Hn by (apply geom_fields in Hg1; tauto).
  apply wp_bind, wp_get_fs. rewrite Hn.
  set (b := free_clst (vfs v1) <? u32 (n_fatent (vfs v) - 2)) in *.
  assert (0 <= Z.lor (fsi_flag (vfs v1)) 1 < 256) as Hfl.
  { pose proof (ok_fsi_flag _ Hf1). by apply (lor_range _ _ 8). }
  destruct b; apply wp_bind; [apply wp_bind, wp_mod_fs, wp_mod_fs|apply wp_ret];
    destruct (nxt <? n_fatent (vfs v)); apply wp_ret; apply HQ; try done;
    (apply (table_is_alloc v f v1); try done; split; [|done];
     apply fs_ok_set_fsi_flag; [apply fs_ok_set_free_clst; [done|apply u32_range]|done]).
Qed.

(** [f] with the clusters of [l] freed. *)
Definition freed l (f : Z -> option Z) : Z -> option Z :=
  fun c => if decide (c ∈ l) then Some 0 else f c.

Lemma fset_freed l c f : c ∉ l -> forall x, freed (l ++ [c]) f x = fset c 0 (freed l f) x.
Proof.
  intros Hc x. unfold freed, fset. destruct (Z.eqb_spec x c) as [->|Hne].
  - rewrite decide_True by set_solver. done.
  - apply decide_ext. rewrite elem_of_app, list_elem_of_singleton. tauto.
Qed.

Lemma ent_mask_0 ty : ent_mask ty 0 = 0.
Proof. unfold ent_mask. by destruct (ty =? FS_FAT12), (ty =? FS_FAT16). Qed.

(** The loop gives the clusters of a chain back, in order. *)
Lemma remove_loop_spec t v v0 c l :
  vol_ok v -> fat_layout (vfs v) -> coherent v0 -> table_is v (fat_entry v0) v0 -> chain v0 c l ->
  wpt t (loop remove_chain_body c) (fun r v' =>
    (r = FR_OK \/ r = FR_DISK_ERR) /\
    (r = FR_OK -> table_is v (freed l (fat_entry v0)) v' /\
       free_clst (vfs v') = count_freed (n_fatent (vfs v)) (free_clst (vfs v0)) (len l))) v0.
Proof.
  intros Hv Hl Hc0 Ht0 Hch.
  assert (geom (vfs v0) = geom (vfs v)) as Hg0 by apply Ht0.
  pose proof (geom_fields _ _ Hg0) as (Hty&_&_&_&_&_&Hn&_).
  pose proof (chain_NoDup _ _ _ Hch) as Hnd.
  pose proof (ok_n_fatent _ (proj1 Hv)) as Hnr. pose proof (fl_max _ Hl) as Hmx.
  assert (2 < n_fatent (vfs v)) as Hn2.
  { pose proof (chain_valid _ _ _ Hch) as [? ?]. lia. }
  apply (wp_loop_ix t (fun k x v1 => exists l1 l2, l = l1 ++ l2 /\ chain v0 x l2 /\ k = len l2 /\
    table_is v (freed l1 (fat_entry v0)) v1 /\
    free_clst (vfs v1) = count_freed (n_fatent (vfs v)) (free_clst (vfs v0)) (len l1))) with (k := len l).
  3:{ assert (len l <= n_fatent (vfs v) - 2); [|unfold LOOP_FUEL; unfold_consts; lia].
      apply (nodup_len l 2); [done|lia|]. intros x Hx.
      pose proof (chain_all_valid _ _ _ _ Hch Hx) as [? ?]. lia. }
  2:{ exists [], l. split_and!; [done..| |].
      - eapply table_is_ext; [done|]. intros x _. unfold freed. by rewrite decide_False by set_solver.
      - unfold count_freed. change (len []) with 0. destruct (Z.leb_spec (free_clst (vfs v0)) (n_fatent (vfs v) - 2)); lia. }
  intros k x v1 (l1 & l2 & -> & Hx & -> & Ht1 & Hfr).
  assert (x ∉ l1) as Hx1.
  { apply NoDup_app in Hnd as (_ & Hd & _). intros Hin. apply (Hd x Hin). destruct Hx; left. }
  assert (valid_clst (vfs v) x) as Hxv.
  { pose proof (chain_valid _ _ _ Hx) as []. split; lia. }
  unfold remove_chain_body. apply wp_bind. eapply wp_mono; [by apply get_fat_table|].
  intros e v2 (Ht2 & Ha2 & He & _). specialize (He Hxv).
  assert (free_clst (vfs v2) = free_clst (vfs v1)) as Hfr2 by (unfold alloc_info in Ha2; congruence).
  destruct (Z.eqb_spec e 0xFFFFFFFF) as [->|Hne].
  { apply wp_ret. split; [by right|done]. }
  destruct He as [?|He]; [done|]. unfold freed in He. rewrite decide_False in He by done.
  assert (e <> 0 /\ e <> 1) as [He0 He1].
  { inversion Hx; simplify_eq; unfold valid_clst in *; lia. }
  rewrite (proj2 (Z.eqb_neq e 0) He0), (proj2 (Z.eqb_neq e 1) He1).
  apply wp_bind. eapply wp_mono; [by apply put_fat_table|].
  intros r v3 (Ha3 & _ & _ & Hok & Hko).
  destruct (fr_eqb_spec r FR_OK) as [->|Hr]; cbn [negb].
  2:{ apply wp_ret. rewrite (Hko Hr). split; [by right|done]. }
  specialize (Hok eq_refl). rewrite ent_mask_0 in Hok.
  assert (free_clst (vfs v3) = free_clst (vfs v1)) as Hfr3 by (unfold alloc_info in Ha3; congruence).
  eapply wp_count_freed; [exact Hok|]. intros v4 Ht4 Hfr4.
  apply (table_is_ext _ _ (freed (l1 ++ [x]) (fat_entry v0))) in Ht4;
    [|intros y _; by apply fset_freed].
  assert (free_clst (vfs v4) = count_freed (n_fatent (vfs v)) (free_clst (vfs v0)) (len (l1 ++ [x]))) as Hc4.
  { rewrite Hfr4, Hfr3, Hfr, len_app. change (len [x]) with 1. pose proof (len_nonneg l1).
    pose proof (ok_free_clst _ (proj1 (proj1 (proj1 Ht0)))).
    rewrite (u32_small (n_fatent (vfs v) - 2)) by lia. unfold count_freed.
    destruct (Z.leb_spec (free_clst (vfs v0)) (n_fatent (vfs v) - 2));
      destruct (Z.ltb_spec (Z.min (n_fatent (vfs v) - 2) (free_clst (vfs v0) + len l1)) (n_fatent (vfs v) - 2));
      destruct (Z.ltb_spec (free_clst (vfs v0)) (n_fatent (vfs v) - 2));
      rewrite ?u32_small by (clear Hv; unfold U32 in *; lia); lia. }
  inversion Hx as [? e' _ He' Hend|? e' l2' _ He' Hval Hrest]; simplify_eq.
  - rewrite (proj2 (Z.ltb_ge e (n_fatent (vfs v)))) by lia. split; [by left|done].
  - destruct Hval. rewrite (proj2 (Z.ltb_lt e (n_fatent (vfs v)))) by lia.
    exists (len l2'). split; [pose proof (len_nonneg l2'); unfold len; simpl; lia|].
    exists (l1 ++ [x]), l2'. rewrite <- app_assoc. by split_and!.
Qed.

(** What [remove_chain] leaves: the clusters of [l] free, [pclst] the new end
    of the chain before them, every other entry as it was. *)
Definition cut_table v (pclst : Z) l : Z -> option Z :=
  fun c => if decide (c ∈ l) then Some 0
           else if nz pclst && (c =? pclst) then Some (ent_mask (fs_type (vfs v)) 0xFFFFFFFF)
           else fat_entry v c.

Lemma remove_chain_spec t v c pclst l :
  vol_ok v -> coherent v -> fat_layout (vfs v) -> chain v c l ->
  pclst = 0 \/ (valid_clst (vfs v) pclst /\ pclst ∉ l) ->
  wpt t (remove_chain c pclst) (fun r v' =>
    (r = FR_OK \/ r = FR_DISK_ERR) /\
    (r = FR_OK -> table_is v (cut_table v pclst l) v' /\
       free_clst (vfs v') = count_freed (n_fatent (vfs v)) (free_clst (vfs v)) (len l))) v.
Proof.
  intros Hv Hc Hl Hch Hp. unfold remove_chain. apply wp_bind, wp_get_fs.
  pose proof (chain_valid _ _ _ Hch) as [Hc1 Hc2].
  rewrite (proj2 (Z.ltb_ge c 2)) by done. rewrite Z.geb_leb, (proj2 (Z.leb_gt _ _)) by done.
  cbn [orb]. pose proof (table_is_refl _ Hv Hc) as Ht0. destruct Hp as [->|[Hpv Hpl]].
  - change (nz 0) with false. cbv iota. eapply wp_mono; [by apply remove_loop_spec|].
    intros r v' [Hr Hok]. split; [done|]. intros ->. destruct (Hok eq_refl) as [Ht Hf].
    split; [|done]. eapply table_is_ext; [done|]. intros x _. done.
  - assert (nz pclst = true) as Hnz by (unfold nz; destruct Hpv; rewrite (proj2 (Z.eqb_neq pclst 0)) by lia; done).
    rewrite Hnz. apply wp_bind. eapply wp_mono; [by apply put_fat_table|].
    intros r v1 (Ha1 & [Hv1 Hg1] & Hco1 & Hok & Hko). destruct (fr_eqb_spec r FR_OK) as [->|Hr]; cbn [negb].
    2:{ apply wp_ret. rewrite (Hko Hr). split; [by right|done]. }
    specialize (Hok eq_refl). pose proof Hok as (_ & _ & Hf1 & Hs1).
    assert (table_is v (fat_entry v1) v1) as Ht1 by (by split_and!).
    assert (free_clst (vfs v1) = free_clst (vfs v)) as Hfr by (unfold alloc_info in Ha1; congruence).
    eapply wp_mono; [apply (remove_loop_spec t v v1 c l); [done..|]|].
    { apply (chain_ext v); [done|done|]. intros x Hx.
      rewrite Hf1 by (by eapply chain_all_valid). unfold fset.
      destruct (Z.eqb_spec x pclst) as [->|]; done. }
    intros r v' [Hr Hok']. split; [done|]. intros ->. destruct (Hok' eq_refl) as [Ht Hf].
    split; [|by rewrite Hf, Hfr]. eapply table_is_ext; [done|]. intros x Hx.
    unfold cut_table, freed. rewrite Hnz. case_decide; [done|]. cbn [andb]. by rewrite Hf1.
Qed.

(** *** It ends on every table, chains with cycles included *)

Definition valid_list fs : list Z := seqZ 2 (n_fatent fs - 2).

(** The number of entries in use, which every turn of the loop lowers. *)
Definition in_use v : Z :=
  len (filter (fun c => fat_entry v c <> Some 0) (valid_list (vfs v))).

Lemma in_use_bound v : fs_ok (vfs v) -> 0 <= in_use v < U32.
Proof.
  intros Hf. unfold in_use, len, valid_list. pose proof (ok_n_fatent _ Hf).
  pose proof (length_filter (fun c => fat_entry v c <> Some 0) (seqZ 2 (n_fatent (vfs v) - 2))) as H1.
  rewrite length_seqZ in H1. unfold U32 in *. lia.
Qed.

Lemma in_use_drop v v' c x :
  geom (vfs v') = geom (vfs v) -> valid_clst (vfs v) c -> fat_entry v c = Some x -> x <> 0 ->
  (forall c', valid_clst (vfs v) c' -> c' <> c -> fat_entry v' c' = fat_entry v c') ->
  fat_entry v' c = Some 0 -> in_use v' < in_use v.
Proof.
  intros Hg Hc Hx Hx0 Ho Hz. apply geom_fields in Hg as (_&_&_&_&_&_&Hn&_).
  unfold in_use, valid_list, len. rewrite Hn. apply inj_lt.
  set (L := seqZ 2 (n_fatent (vfs v) - 2)).
  assert (c ∈ L) as Hin by (apply elem_of_seqZ; destruct Hc; lia).
  assert (filter (fun c => fat_entry v' c <> Some 0) L ⊆+
          filter (fun c' => c' <> c) (filter (fun c => fat_entry v c <> Some 0) L)) as Hs.
  { apply NoDup_submseteq; [apply NoDup_filter, NoDup_seqZ|]. intros y Hy.
    apply list_elem_of_filter in Hy as [Hy1 Hy2].
    assert (y <> c) by (intros ->; done). apply list_elem_of_filter. split; [done|].
    apply list_elem_of_filter. split; [|done]. rewrite <- Ho; [done| |done].
    apply elem_of_seqZ in Hy2. split; lia. }
  apply submseteq_length in Hs. eapply Nat.le_lt_trans; [exact Hs|].
  apply (length_filter_lt _ _ c); [|tauto]. apply list_elem_of_filter. split; [|done].
  rewrite Hx. congruence.
Qed.

(** A successful [put_fat] leaves the window dirty. *)
Definition dirty_on_ok g (r : FRESULT) v' : Prop :=
  sv g v' /\ (r = FR_OK -> wflag (vfs v') = 1) /\ (r = FR_OK \/ r = FR_DISK_ERR \/ r = FR_INT_ERR).

Lemma put_fat_dirty t g v c val : sv g v -> wpt t (put_fat c val) (dirty_on_ok g) v.
Proof.
  intros Hv. unfold put_fat, put_fat12, put_fat16, put_fat32. apply wp_bind, wp_get_fs.
  pose proof (proj1 (proj1 Hv)) as Hf.
  repeat (cbv zeta; match goal with
  | |- wpt _ (if ?b then _ else _) _ _ => destruct b eqn:?
  | |- wpt _ (ret FR_INT_ERR) _ _ => apply wp_ret; split_and!; [done|done|tauto]
  | |- wpt _ (ret _) _ _ => apply wp_ret; split_and!; [done| |tauto]; intros ->; done
  | |- wpt _ (bind (mod_fs _) (fun _ => ret _)) _ _ =>
      apply wp_bind, wp_mod_fs, wp_ret; split_and!; [|done|tauto];
      match goal with H : sv g ?v |- sv g (mkVol _ (vdsk ?v)) =>
        destruct H as [[? ?] ?]; split; [split; [by apply fs_ok_set_wflag|done]|done] end
  | |- wpt _ (bind _ _) _ _ =>
      eapply wp_safe; [solve [eauto with safe]|eassumption|intros ? ? ? ?; cbv beta in *]
  end).
Qed.

(** A bound on the turns left: one turn makes the window coherent, every
    further one frees an entry. *)
Definition rank v : Z := if decide (coherent v) then in_use v else U32.

Lemma rank_bound v : fs_ok (vfs v) -> 0 <= rank v <= U32.
Proof. intros Hf. unfold rank. pose proof (in_use_bound _ Hf). case_decide; unfold U32 in *; lia. Qed.

Lemma remove_chain_body_ranked g v c :
  layout_of g -> sv g v ->
  wp (remove_chain_body c) (fun r v' => sv g v' /\
    match r with
    | inl _ => 0 <= rank v' < rank v
    | inr r => r = FR_OK \/ r = FR_DISK_ERR \/ r = FR_INT_ERR
    end) v.
Proof.
  intros Hlay Hv. pose proof Hv as [Hok Hg]. pose proof (Hlay _ Hg) as Hl.
  unfold remove_chain_body. destruct (decide (coherent v)) as [Hc|Hc].
  - apply wp_bind. eapply wp_mono; [apply (get_fat_table _ v (fat_entry v)); [done|by apply table_is_refl]|].
    intros x v1 (Ht1 & _ & Hx & Hx'). pose proof Ht1 as ([Hv1 Hg1] & _).
    assert (sv g v1) as Hsv1 by (split; [done|congruence]).
    destruct (Z.eqb_spec x 0) as [->|H0]; [apply wp_ret; tauto|].
    destruct (Z.eqb_spec x 1) as [->|H1]; [apply wp_ret; tauto|].
    destruct (Z.eqb_spec x 0xFFFFFFFF) as [->|Hm]; [apply wp_ret; tauto|].
    destruct (decide (valid_clst (vfs v) c)) as [Hcv|Hcv]; [|by destruct H1; auto].
    destruct (Hx Hcv) as [?|He]; [done|].
    apply wp_bind. eapply wp_mono; [by apply put_fat_table|].
    intros r v2 (_ & [Hv2 Hg2] & _ & Hput & Hko).
    assert (sv g v2) as Hsv2 by (split; [done|congruence]).
    destruct (fr_eqb_spec r FR_OK) as [->|Hr]; cbn [negb].
    2:{ apply wp_ret. split; [done|]. rewrite (Hko Hr). tauto. }
    specialize (Hput eq_refl). rewrite ent_mask_0 in Hput.
    eapply wp_count_freed; [exact Hput|].
    intros v3 ([Hv3 Hg3] & Hc3 & Hf3 & _) _.
    split; [split; [done|congruence]|]. destruct (_ <? _); [|by left].
    unfold rank. rewrite !decide_True by done. split; [apply in_use_bound, Hv3|].
    eapply (in_use_drop v v3 c x); [done|done|done|done| |].
    + intros c' Hc' Hne. rewrite Hf3 by done. unfold fset. by rewrite (proj2 (Z.eqb_neq _ _) Hne).
    + rewrite Hf3 by done. unfold fset. by rewrite Z.eqb_refl.
  - eapply wp_safe; [eauto with safe|done|]. intros x v1 Hv1 Hx. cbv beta in Hx.
    destruct (Z.eqb_spec x 0) as [->|H0]; [apply wp_ret; tauto|].
    destruct (Z.eqb_spec x 1) as [->|H1]; [apply wp_ret; tauto|].
    destruct (Z.eqb_spec x 0xFFFFFFFF) as [->|Hm]; [apply wp_ret; tauto|].
    apply wp_bind. eapply wp_mono; [by apply (put_fat_dirty _ g)|].
    intros r v2 (Hsv2 & Hd & Hr). destruct (fr_eqb_spec r FR_OK) as [->|Hne]; cbn [negb].
    2:{ apply wp_ret. split; [done|]. tauto. }
    specialize (Hd eq_refl). assert (coherent v2) as Hc2 by (unfold coherent; lia).
    pose proof Hsv2 as [Hv2 Hg2].
    eapply (wp_count_freed _ v2 (fat_entry v2)); [by apply table_is_refl|].
    intros v3 ([Hv3 Hg3] & Hc3 & _) _. split; [split; [done|congruence]|].
    destruct (_ <? _); [|by left]. unfold rank. rewrite (decide_True _ _ Hc3), decide_False by done.
    apply in_use_bound, Hv3.
Qed.

(** [remove_chain] makes no bad access on any volume; on a well-placed table
    it ends, whatever the entries hold. *)
Lemma remove_chain_safe t g c pclst :
  (t = true -> layout_of g) ->
  safe t g (remove_chain c pclst) (fun r => r = FR_OK \/ r = FR_DISK_ERR \/ r = FR_INT_ERR).
Proof.
  intros Hlay.
  assert (safe t g (loop remove_chain_body c)
    (fun r => r = FR_OK \/ r = FR_DISK_ERR \/ r = FR_INT_ERR)) as Hloop.
  { destruct t.
    - intros v Hv. apply (wp_loop _ (fun _ v => sv g v) (fun _ v => rank v)); [|done|].
      + intros a s Hs. eapply wp_mono; [by apply (remove_chain_body_ranked g); auto|].
        by intros [?|?] v' [? ?].
      + pose proof (rank_bound v (proj1 (proj1 Hv))). unfold LOOP_FUEL, U32 in *. lia.
    - apply (safe_loop_partial g (fun _ => True)); [|done]. intros a _.
      unfold remove_chain_body. safe_auto; tauto. }
  unfold remove_chain. safe_auto; try tauto.
Qed.

(** ** [create_chain] *)

Lemma fat_le_nonneg v o n x : fat_le v o n = Some x -> 0 <= x.
Proof.
  revert o x. induction n as [|n IH]; intros o x; cbn [fat_le]; [intros [= <-]; lia|].
  destruct (fat_byte v o) as [b|]; [|done]. cbn [mbind option_bind].
  destruct (fat_le v (o + 1) n) as [y|] eqn:E; [|done]. intros [= <-].
  pose proof (bval_range b). pose proof (IH _ _ E). lia.
Qed.

Lemma fat_entry_nonneg v c x : fat_entry v c = Some x -> 0 <= x.
Proof.
  unfold fat_entry. destruct (_ =? FS_FAT12); [|destruct (_ =? FS_FAT16); [apply fat_le_nonneg|]];
    (destruct (fat_le _ _ _) as [y|] eqn:E; [|done]); pose proof (fat_le_nonneg _ _ _ _ E) as Hy; intros [= <-].
  - destruct (Z.odd c); [apply Z.div_pos; lia|apply Z.mod_pos_bound; lia].
  - apply Z.mod_pos_bound; lia.
Qed.

Lemma get_fat_valid t fs c :
  safe t (geom fs) (get_fat c) (fun x => 0 <= x < U32 /\ (x = 1 \/ valid_clst fs c)).
Proof.
  destruct (decide (valid_clst fs c)) as [Hc|Hc].
  { eapply safe_mono; [apply get_fat_safe|]. simpl. tauto. }
  intros v Hsv. pose proof (proj2 Hsv) as Hg. unfold get_fat. apply wp_bind, wp_get_fs.
  apply geom_fields in Hg as (_&_&_&_&_&_&Hn&_).
  assert ((c <? 2) || (c >=? n_fatent (vfs v)) = true) as ->.
  { unfold valid_clst in Hc. destruct (Z.ltb_spec c 2), (Z.geb_spec c (n_fatent (vfs v))); try done. lia. }
  apply wp_ret. split; [done|]. unfold U32. split; [lia|by left].
Qed.

(** The positions the search goes through: up to the end of the table, then
    from its start. *)
Definition ring (n scl ncl : Z) : Prop :=
  ncl = scl \/ scl < ncl < n \/ (2 <= ncl < scl /\ scl < n).
Definition ring_left (n scl ncl : Z) : Z :=
  if scl <=? ncl then n - ncl + scl else scl - ncl.

(** The next position. *)
Definition ring_next (n ncl : Z) : Z := if u32 (ncl + 1) >=? n then 2 else u32 (ncl + 1).

Lemma ring_step n scl ncl :
  0 <= n < U32 -> scl = 1 \/ 2 <= scl < n -> ring n scl ncl ->
  (ring_next n ncl = 2 /\ (u32 (ncl + 1) >=? n) = true /\ scl = 1) \/
  (2 <= ring_next n ncl < n /\
   ((u32 (ncl + 1) >=? n) = true -> ring_next n ncl <= scl) /\
   (ring_next n ncl <> scl ->
      ring n scl (ring_next n ncl) /\ 0 <= ring_left n scl (ring_next n ncl) < ring_left n scl ncl)).
Proof.
  intros Hn Hs Hr. unfold ring_next, ring, ring_left in *.
  rewrite (u32_small (ncl + 1)) by (unfold U32 in *; lia).
  destruct (Z.geb_spec (ncl + 1) n), (Z.leb_spec scl ncl), (Z.leb_spec scl 2), (Z.leb_spec scl (ncl + 1)); lia.
Qed.

(** One turn of the search, with the position written as [ring_next]. *)
Lemma find_free_body_eq n scl ncl :
  find_free_body n scl ncl =
    (if (u32 (ncl + 1) >=? n) && (ring_next n ncl >? scl) then ret (inr (inl 0)) else
     cs <- get_fat (ring_next n ncl) ;;
     if cs =? 0 then ret (inr (inr (ring_next n ncl)))
     else if (cs =? 1) || (cs =? 0xFFFFFFFF) then ret (inr (inl cs))
     else if ring_next n ncl =? scl then ret (inr (inl 0))
     else ret (inl (ring_next n ncl))).
Proof. done. Qed.

Lemma ring_fuel n scl : 0 <= n < U32 -> scl = 1 \/ 2 <= scl < n -> ring_left n scl scl < Zpos LOOP_FUEL.
Proof. intros. unfold ring_left, LOOP_FUEL, U32 in *. rewrite Z.leb_refl. lia. Qed.

Lemma find_free_safe t fs scl :
  fs_ok fs -> scl = 1 \/ 2 <= scl < n_fatent fs ->
  safe t (geom fs) (find_free (n_fatent fs) scl) (fun r =>
    match r with inl x => x = 0 \/ x = 1 \/ x = 0xFFFFFFFF | inr c => valid_clst fs c end).
Proof.
  intros Hf Hs. pose proof (ok_n_fatent _ Hf) as Hn. unfold find_free.
  apply (safe_loop _ _ (ring (n_fatent fs) scl) (ring_left (n_fatent fs) scl));
    [|by left|by apply ring_fuel].
  intros ncl Hr. rewrite find_free_body_eq.
  destruct (ring_step _ _ _ Hn Hs Hr) as [(H1 & H2 & ->)|(H1 & H2 & H3)].
  { rewrite H1, H2. apply safe_ret. by left. }
  destruct (_ && _); [apply safe_ret; by left|].
  eapply safe_bind; [apply get_fat_valid|]. intros cs [Hcs Hv].
  destruct (Z.eqb_spec cs 0) as [->|]; [by apply safe_ret|].
  destruct (Z.eqb_spec cs 1) as [->|]; [by apply safe_ret; right; left|].
  destruct (Z.eqb_spec cs 0xFFFFFFFF) as [->|]; [by apply safe_ret; right; right|].
  cbn [orb]. destruct (Z.eqb_spec (ring_next (n_fatent fs) ncl) scl); [by apply safe_ret; left|].
  apply safe_ret. auto.
Qed.

(** An entry that points to cluster 1, which no entry may do. *)
Definition bad_entry v : Prop := exists c, valid_clst (vfs v) c /\ fat_entry v c = Some 1.

Lemma bad_entry_read v c : valid_clst (vfs v) c -> entry_read v c 1 -> bad_entry v.
Proof. intros Hc [?|?]; [done|]. by exists c. Qed.

(** The search visits every cluster: it reports a full table only when no
    entry is zero. *)
Lemma find_free_spec t v v1 scl :
  vol_ok v -> fat_layout (vfs v) -> scl = 1 \/ 2 <= scl < n_fatent (vfs v) ->
  table_is v (fat_entry v) v1 ->
  wpt t (find_free (n_fatent (vfs v)) scl) (fun r v' =>
    table_is v (fat_entry v) v' /\ alloc_info (vfs v') = alloc_info (vfs v1) /\
    match r with
    | inl x => (x = 1 /\ bad_entry v) \/ x = 0xFFFFFFFF \/
               (x = 0 /\ forall c, valid_clst (vfs v) c -> fat_entry v c <> Some 0)
    | inr c => valid_clst (vfs v) c /\ fat_entry v c = Some 0
    end) v1.
Proof.
  intros Hv Hl Hs Ht1. set (n := n_fatent (vfs v)) in *. unfold find_free.
  pose proof (ok_n_fatent _ (proj1 Hv)) as Hn. fold n in Hn.
  set (used := fun c => fat_entry v c <> Some 0).
  apply (wp_loop_ix t (fun k ncl v2 => k = ring_left n scl ncl /\ ring n scl ncl /\
    table_is v (fat_entry v) v2 /\ alloc_info (vfs v2) = alloc_info (vfs v1) /\
    (if scl <=? ncl then forall c, scl < c <= ncl -> used c
     else forall c, scl < c < n \/ 2 <= c <= ncl -> used c))) with (k := ring_left n scl scl).
  3: by apply ring_fuel.
  2:{ split_and!; [done|by left|done|done|]. rewrite Z.leb_refl. lia. }
  intros k ncl v2 (-> & Hr & Ht2 & Ha2 & Hu). rewrite find_free_body_eq.
  assert (ncl = scl \/ scl < ncl < n \/ 2 <= ncl < scl) as Hpos by (unfold ring in Hr; lia).
  assert (u32 (ncl + 1) = ncl + 1) as Hinc by (apply u32_small; unfold U32 in *; lia).
  destruct (ring_step _ _ _ Hn Hs Hr) as [(H1 & H2 & ->)|(H1 & H2 & H3)].
  { rewrite H1, H2. apply wp_ret. split; [done|]. split; [done|]. right; right. split; [done|].
    intros c [Hc1 Hc2]. fold n in Hc2. rewrite Hinc, Z.geb_le in H2.
    rewrite (proj2 (Z.leb_le 1 ncl)) in Hu by lia. apply Hu. lia. }
  destruct (_ && _) eqn:E.
  { apply andb_prop in E as [E1 E2]. apply H2 in E1. rewrite Z.gtb_lt in E2. lia. }
  apply wp_bind. eapply wp_mono; [by apply get_fat_table|].
  intros cs v3 (Ht3 & Ha3 & Hcs & _). specialize (Hcs H1).
  assert (alloc_info (vfs v3) = alloc_info (vfs v1)) as Ha by congruence.
  destruct (Z.eqb_spec cs 0) as [->|H0].
  { apply wp_ret. destruct Hcs as [?|Hcs]; [done|]. by split_and!. }
  destruct (Z.eqb_spec cs 1) as [->|].
  { apply wp_ret. split_and!; [done|done|]. left. split; [done|]. eapply bad_entry_read; [exact H1|done]. }
  destruct (Z.eqb_spec cs 0xFFFFFFFF) as [->|]; [apply wp_ret; by split_and!; [done|done|right; left]|].
  cbn [orb]. destruct Hcs as [?|Hcs]; [done|].
  assert (used (ring_next n ncl)) as Hnew by (unfold used; rewrite Hcs; congruence).
  assert (forall c, 2 <= c < n -> ring_next n ncl = scl -> used c) as Hall.
  { intros c Hc Heq. destruct (Z.eq_dec c (ring_next n ncl)) as [->|Hne]; [done|].
    unfold ring_next in *. rewrite Hinc in *.
    destruct (Z.geb_spec (ncl + 1) n), (Z.leb_spec scl ncl); apply Hu; unfold ring in *; lia. }
  destruct (Z.eqb_spec (ring_next n ncl) scl) as [Heq|Hne]; apply wp_ret.
  { split_and!; [done|done|]. right; right. split; [done|]. intros c Hc. by apply Hall. }
  destruct (H3 Hne) as [Hr' Hk]. exists (ring_left n scl (ring_next n ncl)).
  split; [done|]. split_and!; [done|done|done|done|].
  destruct (Z.leb_spec scl (ring_next n ncl)) as [Hle|Hlt]; intros c Hc;
    (destruct (Z.eq_dec c (ring_next n ncl)) as [->|Hne']; [done|]);
    unfold ring_next in *; rewrite Hinc in *;
    destruct (Z.geb_spec (ncl + 1) n), (Z.leb_spec scl ncl); apply Hu; unfold ring in *; lia.
Qed.

Lemma ent_mask_valid fs c : fat_layout fs -> valid_clst fs c -> ent_mask (fs_type fs) c = c.
Proof.
  intros Hl [H1 H2]. pose proof (fl_max _ Hl) as Hm. pose proof (fl_max12 _ Hl) as H12.
  pose proof (fl_max16 _ Hl) as H16. unfold ent_mask. unfold_consts.
  destruct (Z.eqb_spec (fs_type fs) 1); [rewrite Z.mod_small by lia; done|].
  destruct (Z.eqb_spec (fs_type fs) 2); rewrite Z.mod_small by lia; done.
Qed.

(** The table after cluster [c] was appended to the chain that ends in
    [clst], or started a new one when [clst] is zero. *)
Definition linked_table v (clst c : Z) : Z -> option Z :=
  let f := fset c (ent_mask (fs_type (vfs v)) 0xFFFFFFFF) (fat_entry v) in
  if nz clst then fset clst c f else f.

(** The free count after an allocation: only kept while it makes sense. *)
Definition count_taken (n free : Z) : Z :=
  if (0 <? free) && (free <=? n - 2) then free - 1 else free.

Lemma link_new_spec t v v1 clst ncl :
  vol_ok v -> fat_layout (vfs v) -> table_is v (fat_entry v) v1 ->
  alloc_info (vfs v1) = alloc_info (vfs v) ->
  valid_clst (vfs v) ncl -> clst = 0 \/ valid_clst (vfs v) clst ->
  wpt t (link_new clst ncl) (fun x v' =>
    x = 0xFFFFFFFF \/
    (x = ncl /\ table_is v (linked_table v clst ncl) v' /\ last_clst (vfs v') = ncl /\
     free_clst (vfs v') = count_taken (n_fatent (vfs v)) (free_clst (vfs v)))) v1.
Proof.
  intros Hv Hl Ht1 Ha1 Hn Hc. unfold link_new.
  apply wp_bind. eapply wp_mono; [by apply put_fat_table|].
  intros r v2 (Ha2 & Hsv2 & _ & Hok & Hko).
  destruct (fr_eqb_spec r FR_OK) as [->|Hr]; cbn [andb].
  2:{ apply wp_bind, wp_ret. rewrite (Hko Hr). apply wp_ret. by left. }
  specialize (Hok eq_refl).
  assert (wpt t (if nz clst then put_fat clst ncl else ret FR_OK) (fun r v' =>
    alloc_info (vfs v') = alloc_info (vfs v) /\ (r <> FR_OK -> r = FR_DISK_ERR) /\
    (r = FR_OK -> table_is v (linked_table v clst ncl) v')) v2) as Hlink.
  { unfold linked_table. destruct Hc as [->|Hc]; [apply wp_ret; split_and!; [congruence|done|done]|].
    assert (nz clst = true) as -> by (unfold nz; destruct Hc; rewrite (proj2 (Z.eqb_neq clst 0)) by lia; done).
    eapply wp_mono; [by apply put_fat_table|]. intros r v3 (Ha3 & _ & _ & Hok3 & Hko3).
    rewrite (ent_mask_valid _ _ Hl Hn) in Hok3. split_and!; [congruence|done|done]. }
  apply wp_bind. eapply wp_mono; [exact Hlink|]. clear Hlink.
  intros r v3 (Ha3 & Hko3 & Hok3). destruct (fr_eqb_spec r FR_OK) as [->|Hr].
  2:{ rewrite (Hko3 Hr). apply wp_ret. by left. }
  specialize (Hok3 eq_refl). pose proof Hok3 as ([[Hf3 Hd3] Hg3] & _).
  assert (n_fatent (vfs v3) = n_fatent (vfs v) /\ free_clst (vfs v3) = free_clst (vfs v)) as [Hnf Hfr].
  { apply geom_fields in Hg3. unfold alloc_info in Ha3. split; [tauto|congruence]. }
  pose proof (ok_n_fatent _ (proj1 Hv)). pose proof (ok_free_clst _ (proj1 Hv)).
  apply wp_bind, wp_mod_fs, wp_bind, wp_get_fs. cbn [vfs set_last_clst free_clst n_fatent fsi_flag].
  rewrite Hnf, Hfr. rewrite (u32_small (n_fatent (vfs v) - 2)) by (destruct Hn; lia).
  assert (0 <= ncl < U32) as Hncl by (destruct Hn; lia).
  rewrite Z.gtb_ltb.
  destruct ((0 <? free_clst (vfs v)) && (free_clst (vfs v) <=? n_fatent (vfs v) - 2)) eqn:E;
    apply wp_bind; [apply wp_bind, wp_mod_fs, wp_mod_fs|apply wp_ret];
    apply wp_ret; right; unfold count_taken; rewrite E; (split_and!; [done| |done|]).
  - apply (table_is_alloc v _ v3); try done. split; [|done]. cbn [vfs].
    apply fs_ok_set_fsi_flag; [|apply lor_u8; [apply (ok_fsi_flag _ Hf3)|done]].
    apply fs_ok_set_free_clst; [by apply fs_ok_set_last_clst|apply u32_range].
  - cbn. apply andb_prop in E as [E1%Z.ltb_lt E2%Z.leb_le]. apply u32_small. lia.
  - apply (table_is_alloc v _ v3); try done. split; [|done]. by apply fs_ok_set_last_clst.
  - done.
Qed.

(** Why [create_chain] reports an internal error: an entry points to cluster
    1, or the cluster to be stretched is not one of a chain. *)
Definition bad_link v (clst : Z) : Prop :=
  bad_entry v \/ (clst <> 0 /\ (~ valid_clst (vfs v) clst \/ fat_entry v clst = Some 0)).

(** What [create_chain] promises. *)
Definition create_post v (clst x : Z) v' : Prop :=
  (x = 1 /\ bad_link v clst) \/ x = 0xFFFFFFFF \/
  (x = 0 /\ table_is v (fat_entry v) v' /\ alloc_info (vfs v') = alloc_info (vfs v) /\
     (clst <> 0 -> exists e, fat_entry v clst = Some e /\ n_fatent (vfs v) <= e) /\
     (free_clst (vfs v) = 0 \/ forall c, valid_clst (vfs v) c -> fat_entry v c <> Some 0)) \/
  (valid_clst (vfs v) x /\ clst <> 0 /\ fat_entry v clst = Some x /\ table_is v (fat_entry v) v') \/
  (valid_clst (vfs v) x /\ fat_entry v x = Some 0 /\
     (clst <> 0 -> exists e, fat_entry v clst = Some e /\ n_fatent (vfs v) <= e) /\
     table_is v (linked_table v clst x) v' /\ last_clst (vfs v') = x /\
     free_clst (vfs v') = count_taken (n_fatent (vfs v)) (free_clst (vfs v))).

(** Where the search starts: at the end of the chain, or at the last
    allocated cluster. *)
Lemma chain_start_spec t v clst :
  vol_ok v -> coherent v -> fat_layout (vfs v) -> 0 <= clst ->
  wpt t (chain_start (vfs v) clst) (fun r v' =>
    table_is v (fat_entry v) v' /\ alloc_info (vfs v') = alloc_info (vfs v) /\
    match r with
    | inl x => (x = 1 /\ bad_link v clst) \/ x = 0xFFFFFFFF \/
               (valid_clst (vfs v) x /\ clst <> 0 /\ fat_entry v clst = Some x)
    | inr scl =>
        (clst = 0 /\ (scl = 1 \/ 1 <= scl < n_fatent (vfs v))) \/
        (scl = clst /\ valid_clst (vfs v) clst /\
           exists e, fat_entry v clst = Some e /\ n_fatent (vfs v) <= e)
    end) v.
Proof.
  intros Hv Hc Hl Hcl. pose proof (table_is_refl _ Hv Hc) as Ht. unfold chain_start.
  pose proof (ok_last_clst _ (proj1 Hv)).
  destruct (Z.eqb_spec clst 0) as [->|Hne].
  { apply wp_ret. split_and!; [done|done|]. left. split; [done|].
    destruct (Z.eqb_spec (last_clst (vfs v)) 0), (Z.geb_spec (last_clst (vfs v)) (n_fatent (vfs v)));
      cbn [orb]; lia. }
  apply wp_bind. eapply wp_mono; [by apply get_fat_table|].
  intros cs v1 (Ht1 & Ha1 & Hin & Hout).
  destruct (decide (valid_clst (vfs v) clst)) as [Hval|Hval].
  2:{ rewrite (Hout Hval). apply wp_ret. split_and!; [done|done|]. left. split; [done|]. right. auto. }
  specialize (Hin Hval).
  destruct (Z.ltb_spec cs 2).
  { apply wp_ret. split_and!; [done|done|]. left. split; [done|].
    destruct Hin as [?|Hin]; [lia|]. pose proof (fat_entry_nonneg _ _ _ Hin).
    assert (cs = 0 \/ cs = 1) as [->| ->] by lia; [right; auto|left; by exists clst]. }
  destruct (Z.eqb_spec cs 0xFFFFFFFF) as [->|]; [apply wp_ret; by split_and!; [done|done|right; left]|].
  destruct Hin as [?|Hin]; [done|].
  destruct (Z.ltb_spec cs (n_fatent (vfs v))); apply wp_ret; (split_and!; [done|done|]).
  - right; right. by split.
  - right. split_and!; [done|done|]. by exists cs.
Qed.

(** The test of the next cluster: it may find a free one at once. *)
Lemma try_next_spec t v v1 clst scl :
  vol_ok v -> fat_layout (vfs v) -> table_is v (fat_entry v) v1 ->
  alloc_info (vfs v1) = alloc_info (vfs v) -> 0 <= scl < n_fatent (vfs v) \/ scl = 1 ->
  (scl = clst -> valid_clst (vfs v) scl) ->
  wpt t (try_next (vfs v) clst scl) (fun r v' =>
    table_is v (fat_entry v) v' /\ alloc_info (vfs v') = alloc_info (vfs v) /\
    match r with
    | inl x => (x = 1 /\ bad_entry v) \/ x = 0xFFFFFFFF
    | inr (s, c) =>
        (s = scl \/ 2 <= s < n_fatent (vfs v)) /\
        (c = 0 \/ (valid_clst (vfs v) c /\ fat_entry v c = Some 0))
    end) v1.
Proof.
  intros Hv Hl Ht1 Ha1 Hs Hsc. unfold try_next. pose proof (ok_n_fatent _ (proj1 Hv)).
  destruct (Z.eqb_spec scl clst) as [Heq|]; [|apply wp_ret; split_and!; [done..|by left|by left]].
  rewrite (u32_small (scl + 1)) by (unfold U32 in *; lia).
  set (c := if scl + 1 >=? n_fatent (vfs v) then 2 else scl + 1).
  assert (valid_clst (vfs v) c) as Hcv.
  { destruct (Hsc Heq). subst c. unfold valid_clst. destruct (Z.geb_spec (scl + 1) (n_fatent (vfs v))); lia. }
  apply wp_bind. eapply wp_mono; [by apply get_fat_table|].
  intros cs v2 (Ht2 & Ha2 & Hin & Hout).
  assert (alloc_info (vfs v2) = alloc_info (vfs v)) as Ha by congruence.
  destruct (Z.eqb_spec cs 1) as [->|H1].
  { apply wp_ret. split_and!; [done|done|]. left. split; [done|]. apply (bad_entry_read v c); [exact Hcv|exact (Hin Hcv)]. }
  destruct (Z.eqb_spec cs 0xFFFFFFFF) as [->|H2]; [apply wp_ret; by split_and!; [done|done|right]|].
  cbn [orb]. unfold nz. destruct (Z.eqb_spec cs 0) as [->|H0]; cbn [negb]; apply wp_ret;
    (split_and!; [done|done| |]); [by left| | |by left].
  - right. destruct (decide (valid_clst (vfs v) c)) as [Hval|Hval]; [|by destruct H1; auto].
    split; [done|]. by destruct (Hin Hval).
  - destruct (Z.geb_spec (last_clst (vfs v)) 2), (Z.ltb_spec (last_clst (vfs v)) (n_fatent (vfs v)));
      cbn [andb]; lia.
Qed.

Lemma create_chain_spec t v clst :
  vol_ok v -> coherent v -> fat_layout (vfs v) -> 0 <= clst ->
  wpt t (create_chain clst) (create_post v clst) v.
Proof.
  intros Hv Hc Hl Hcl. unfold create_chain, create_post. apply wp_bind, wp_get_fs, wp_bind.
  eapply wp_mono; [by apply chain_start_spec|]. intros [x|scl] v1 (Ht1 & Ha1 & Hr).
  { apply wp_ret. destruct Hr as [Hr|[->|(H1 & H2 & H3)]]; [by left|by right; left|].
    right; right; right; left. by split_and!. }
  assert (clst = 0 \/ valid_clst (vfs v) clst) as Hclst by tauto.
  assert (clst <> 0 -> exists e, fat_entry v clst = Some e /\ n_fatent (vfs v) <= e) as Hend.
  { intros Hne. destruct Hr as [[? _]|(_ & _ & He)]; done. }
  destruct (Z.eqb_spec (free_clst (vfs v)) 0) as [Hfz|Hfz].
  { apply wp_ret. right; right; left. split_and!; [done|done|done|done|by left]. }
  assert (scl = 1 \/ 2 <= scl < n_fatent (vfs v)) as Hscl.
  { destruct Hr as [[_ ?]|(-> & [? ?] & _)]; lia. }
  apply wp_bind. eapply wp_mono; [apply (try_next_spec t v v1 clst scl); [done..|lia|]|].
  { intros ->. destruct Hr as [[-> Hr]|(_ & ? & _)]; [lia|done]. }
  intros [x|[s c]] v2 (Ht2 & Ha2 & Hr2).
  { apply wp_ret. destruct Hr2 as [[-> Hb]| ->]; [left; split; [done|by left]|by right; left]. }
  destruct Hr2 as [Hs Hcc].
  assert (wpt t (if c =? 0 then find_free (n_fatent (vfs v)) s else ret (inr c)) (fun r v' =>
    table_is v (fat_entry v) v' /\ alloc_info (vfs v') = alloc_info (vfs v) /\
    match r with
    | inl x => (x = 1 /\ bad_entry v) \/ x = 0xFFFFFFFF \/
               (x = 0 /\ forall c, valid_clst (vfs v) c -> fat_entry v c <> Some 0)
    | inr c => valid_clst (vfs v) c /\ fat_entry v c = Some 0
    end) v2) as Hfind.
  { destruct (Z.eqb_spec c 0) as [->|Hne].
    - rewrite <- Ha2. apply find_free_spec; [done|done|lia|done].
    - apply wp_ret. split_and!; [done|done|..]; destruct Hcc as [?|[]]; done. }
  apply wp_bind. eapply wp_mono; [exact Hfind|]. intros [x|ncl] v3 (Ht3 & Ha3 & Hr3).
  { apply wp_ret. destruct Hr3 as [[-> Hb]|[->|[-> Hall]]]; [left; split; [done|by left]|by right; left|].
    right; right; left. split_and!; [done|done|congruence|done|by right]. }
  destruct Hr3 as [Hncl Hz]. eapply wp_mono; [by apply (link_new_spec t v)|].
  intros x v4 [->|(-> & Ht4 & Hlast & Hfree)]; [by right; left|].
  right; right; right; right. by split_and!.
Qed.

(** [create_chain] on any volume. *)
Lemma create_chain_safe t g clst :
  0 <= clst < U32 -> safe t g (create_chain clst) (fun x => 0 <= x < U32).
Proof.
  intros Hcl. unfold create_chain. eapply safe_bind; [apply safe_get_fs|]. intros fs [Hf <-].
  pose proof (ok_n_fatent _ Hf) as Hn. pose proof (ok_last_clst _ Hf) as Hla.
  apply (safe_bind _ _ _ _ (fun r => match r with
    | inl x => 0 <= x < U32 | inr scl => scl = 1 \/ 1 <= scl < n_fatent fs end)).
  { unfold chain_start. destruct (Z.eqb_spec clst 0) as [->|Hne].
    - apply safe_ret. destruct (Z.eqb_spec (last_clst fs) 0), (Z.geb_spec (last_clst fs) (n_fatent fs));
        cbn [orb]; lia.
    - eapply safe_bind; [apply get_fat_valid|]. intros cs [Hcs Hval].
      destruct (Z.ltb_spec cs 2); [by apply safe_ret|].
      destruct (cs =? _); [by apply safe_ret|]. destruct (cs <? _); [by apply safe_ret|].
      apply safe_ret. destruct Hval as [->|[? ?]]; lia. }
  intros [x|scl] Hscl; [by apply safe_ret|]. destruct (free_clst fs =? 0); [by apply safe_ret|].
  apply (safe_bind _ _ _ _ (fun r => match r with
    | inl x => 0 <= x < U32
    | inr (s, c) => (s = 1 \/ 1 <= s < n_fatent fs) /\ 0 <= c < U32 end)).
  { unfold try_next. destruct (scl =? clst); [|by apply safe_ret; split].
    eapply safe_bind; [apply get_fat_safe|]. intros cs Hcs. cbv beta in Hcs.
    destruct (_ || _); [by apply safe_ret|]. destruct (nz cs); apply safe_ret.
    - split; [|done]. destruct (Z.geb_spec (last_clst fs) 2), (Z.ltb_spec (last_clst fs) (n_fatent fs));
        cbn [andb]; lia.
    - split; [done|]. destruct (_ >=? _); [done|apply u32_range]. }
  intros [x|[s c]] Hs; [by apply safe_ret|]. destruct Hs as [Hs Hc].
  apply (safe_bind _ _ _ _ (fun r => match r with inl x => 0 <= x < U32 | inr c => 0 <= c < U32 end)).
  { destruct (c =? 0); [|by apply safe_ret].
    eapply safe_mono; [apply find_free_safe; [done|lia]|].
    intros [x|c'] Hx; [destruct Hx as [->|[->| ->]]; done|destruct Hx; lia]. }
  intros [x|ncl] Hx; [by apply safe_ret|]. unfold link_new. safe_auto; try done.
  destruct (a0 =r FR_DISK_ERR); unfold U32; lia.
Qed.

End theory.

#[export] Hint Resolve create_chain_safe : safe.
