(* ===== verification/Live.v ===== *)
(** * Reliable media

    On a medium whose FAT sectors can be read and written, the FAT routines
    report no disk error.  Together with their functional specifications this
    gives their exact results. *)

From stdpp Require Import base numbers list option.
From Stdlib Require Import ZArith Lia.
From Stdlib Require Import Strings.Byte.
From S2P Require Import Prelude Types Bytes Diskio Window Fat Chain.

Lemma wp_conj_partial {S A} t (m : M S A) (P Q : A -> S -> Prop) s :
  wpt t m P s -> wpt false m Q s -> wpt t m (fun a s' => P a s' /\ Q a s') s.
Proof. unfold wpt. by destruct (m s) as [[a s']| |]. Qed.

Section live.
Context {D : Type} `{!DiskIO D} `{!DiskIOLaws D}.
Implicit Types (v : vol D) (fs : FATFS) (g : list Z).
Abbreviation V := (M (vol D)).

(** [G] is a set of sectors of the volume's drive. *)
Context (G : Z -> Prop).

(** The sectors [G] are good, and the sector of the window and those of the
    table are among them. *)
Definition alive v : Prop :=
  (forall x, G x -> dgood (vdsk v) (pdrv (vfs v)) x) /\ G (winsect (vfs v)) /\
  forall o, 0 <= o < fsize (vfs v) * SS -> G (fat_sect (vfs v) o).

(** [live g m P]: on such a volume of geometry [g], if [m] ends, it made no
    bad access, the volume still is one, and the result satisfies [P]. *)
Definition live {A} g (m : V A) (P : A -> Prop) : Prop :=
  forall v, sv g v -> alive v -> wpt false m (fun a v' => (sv g v' /\ alive v') /\ P a) v.

Lemma live_ret {A} g (a : A) (P : A -> Prop) : P a -> live g (ret a) P.
Proof. intros HP v Hv Ha. by apply wp_ret. Qed.

Lemma live_bind {A B} g (m : V A) (k : A -> V B) P Q :
  live g m P -> (forall a, P a -> live g (k a) Q) -> live g (bind m k) Q.
Proof.
  intros Hm Hk v Hv Ha. apply wp_bind. eapply wp_mono; [by apply Hm|].
  intros a v' [[Hv' Ha'] HP]. by apply Hk.
Qed.

Lemma live_mono {A} g (m : V A) (P Q : A -> Prop) :
  live g m P -> (forall a, P a -> Q a) -> live g m Q.
Proof. intros Hm HPQ v Hv Ha. eapply wp_mono; [by apply Hm|]. intros a v' []. auto. Qed.

Lemma live_loop {A B} g (I : A -> Prop) (P : B -> Prop) (body : A -> V (A + B)) a :
  (forall a, I a -> live g (body a) (fun r => match r with inl a' => I a' | inr b => P b end)) ->
  I a -> live g (loop body a) P.
Proof.
  intros Hb HI v Hv Ha.
  apply (wp_loop_partial (fun a v => (sv g v /\ alive v) /\ I a)); [|done].
  intros a1 v1 [[Hv1 Ha1] HI1]. eapply wp_mono; [by apply Hb|]. by intros [a2|b] v2 [H1 H2].
Qed.

(** Computations on the filesystem object that leave window position and
    disk alone. *)
Definition in_place {A} (m : V A) : Prop :=
  forall v, match m v with
            | Done (_, v') => vdsk v' = vdsk v /\ winsect (vfs v') = winsect (vfs v)
            | _ => True
            end.

Lemma alive_geom v v' :
  geom (vfs v') = geom (vfs v) -> vdsk v' = vdsk v -> winsect (vfs v') = winsect (vfs v) ->
  alive v -> alive v'.
Proof.
  intros Hg Hd Hw (H1 & H2 & H3). pose proof (geom_fields _ _ Hg) as (_&Hp&_&_&_&_&_&Hf&_&Hb&_&_).
  split; [by rewrite Hd, Hp|]. split; [by rewrite Hw|]. intros o Ho. rewrite (fat_sect_geom _ _ o Hg).
  apply H3. by rewrite <- Hf.
Qed.

Lemma live_in_place {A} g (m : V A) P : safe false g m P -> in_place m -> live g m P.
Proof.
  intros Hs Hi v Hv Ha. specialize (Hs v Hv). specialize (Hi v). unfold wpt in *.
  destruct (m v) as [[a v']| |]; try done. destruct Hi as [Hd Hw]. destruct Hs as [Hv' HP].
  split; [|done]. split; [done|]. eapply alive_geom; [|exact Hd|exact Hw|done].
  destruct Hv as [_ ->], Hv' as [_ ->]. done.
Qed.

Lemma live_get g : live g get_fs (fun fs => fs_ok fs /\ geom fs = g).
Proof. apply live_in_place; [apply safe_get_fs|]. by intros v. Qed.

(** Reads and stores of the window. *)
Ltac in_place_tac :=
  intros v; unfold win_at, win_word, win_dword, win_put, win_put_word, win_put_dword, set_win_opt,
    mod_fs, bind, get_fs, chk, ret, fault; cbn;
  repeat case_match; simplify_eq; try done.

Lemma live_win_at g i : 0 <= i < SS -> live g (win_at i) (fun x => 0 <= x < 256).
Proof. intros. apply live_in_place; [by apply safe_win_at|]. in_place_tac. Qed.
Lemma live_win_word g i : 0 <= i -> i + 2 <= SS -> live g (win_word i) (fun x => 0 <= x < 65536).
Proof. intros. apply live_in_place; [by apply safe_win_word|]. in_place_tac. Qed.
Lemma live_win_dword g i : 0 <= i -> i + 4 <= SS -> live g (win_dword i) (fun x => 0 <= x < U32).
Proof. intros. apply live_in_place; [by apply safe_win_dword|]. in_place_tac. Qed.
Lemma live_win_put g i x : 0 <= i < SS -> live g (win_put i x) (fun _ => True).
Proof. intros. apply live_in_place; [by apply safe_win_put|]. in_place_tac. Qed.
Lemma live_win_put_word g i x : 0 <= i -> i + 2 <= SS -> live g (win_put_word i x) (fun _ => True).
Proof. intros. apply live_in_place; [by apply safe_win_put_word|]. in_place_tac. Qed.
Lemma live_win_put_dword g i x : 0 <= i -> i + 4 <= SS -> live g (win_put_dword i x) (fun _ => True).
Proof. intros. apply live_in_place; [by apply safe_win_put_dword|]. in_place_tac. Qed.
Lemma live_mod_fs g f :
  (forall fs, fs_ok fs -> fs_ok (f fs)) -> (forall fs, geom (f fs) = geom fs) ->
  (forall fs, winsect (f fs) = winsect fs) -> live g (mod_fs f) (fun _ => True).
Proof. intros H1 H2 H3. apply live_in_place; [by apply safe_mod_fs|]. intros v. cbn. auto. Qed.

(** One good sector is written or read. *)
Lemma good_write d p b s :
  dok d -> 0 <= s -> len b = SS -> dgood d p s ->
  wp (dio_write p b s 1) (fun r d' => r = RES_OK /\ forall q x, dgood d q x -> dgood d' q x) d.
Proof.
  intros Hd Hs Hb Hg. eapply wp_mono; [apply dio_write_law; [done|done|lia|lia]|].
  intros r d' (_ & _ & _ & Hok & Hp). split; [|done]. apply Hok; [lia|]. intros i Hi.
  by replace (s + i) with s by lia.
Qed.

Lemma any_write d p b s :
  dok d -> 0 <= s -> len b = SS ->
  wp (dio_write p b s 1) (fun _ d' => forall q x, dgood d q x -> dgood d' q x) d.
Proof.
  intros Hd Hs Hb. eapply wp_mono; [apply dio_write_law; [done|done|lia|lia]|].
  by intros r d' (_ & _ & _ & _ & Hp).
Qed.

Lemma good_read d p b s :
  dok d -> 0 <= s -> len b = SS -> dgood d p s ->
  wp (dio_read p b s 1) (fun r d' => r.1 = RES_OK /\ d' = d) d.
Proof.
  intros Hd Hs Hb Hg. eapply wp_mono; [apply dio_read_law; [done|done|lia|lia]|].
  intros r d' (-> & _ & _ & Hok). split; [|done]. apply Hok; [lia|]. intros i Hi.
  by replace (s + i) with s by lia.
Qed.

(** The volume after its disk and its window changed. *)
Lemma alive_disk v fs' d' :
  alive v -> geom fs' = geom (vfs v) -> G (winsect fs') ->
  (forall q x, dgood (vdsk v) q x -> dgood d' q x) -> alive (mkVol fs' d').
Proof.
  intros (H1 & _ & H2) Hg Hw Hd. pose proof (geom_fields _ _ Hg) as (_&Hp&_&_&_&_&_&Hf&_&Hb&_&_).
  split; cbn [vfs vdsk]; [rewrite Hp; auto|]. split; [done|]. intros o Ho. rewrite (fat_sect_geom _ _ o Hg).
  apply H2. by rewrite <- Hf.
Qed.

Lemma sync_window_good v :
  vol_ok v -> alive v ->
  wpt false sync_window (fun r v' => r = FR_OK /\ alive v' /\ winsect (vfs v') = winsect (vfs v) /\
    forall q x, dgood (vdsk v) q x -> dgood (vdsk v') q x) v.
Proof.
  intros [Hf Hd] Ha. pose proof (ok_winsect _ Hf) as Hw. pose proof (ok_win _ Hf) as Hwl.
  unfold sync_window. apply wp_bind, wp_get_fs. destruct (nz _); [|by apply wp_ret].
  apply wp_bind, wp_on_disk, wp_total. pose proof Ha as (HG & Hwin & _).
  pose proof (HG _ Hwin) as Hgw.
  eapply wp_mono; [apply wp_conj;
    [apply good_write; [done|lia|done|done]|apply dio_write_law; [done|lia|lia|lia]]|].
  intros r d1 [[-> Hg1] (Hd1 & _)]. cbn [vfs vdsk].
  change (RES_OK =d RES_OK) with true. cbv iota. apply wp_bind, wp_mod_fs. cbn [vfs vdsk].
  assert (alive (mkVol (set_wflag 0 (vfs v)) d1)) as Ha1.
  { by apply (alive_disk v). }
  destruct (_ <? _); [|by apply wp_ret]. destruct (_ =? 2); [|by apply wp_ret].
  apply wp_bind, wp_on_disk, wp_total. eapply wp_mono; [apply any_write; [done|apply u32_range|done]|].
  intros r2 d2 Hg2. apply wp_ret. split_and!; [done| |done|cbn; auto].
  by apply (alive_disk (mkVol (set_wflag 0 (vfs v)) d1)).
Qed.

Lemma move_window_good v sect :
  vol_ok v -> alive v -> 0 <= sect < U32 -> G sect ->
  wpt false (move_window sect) (fun r v' => r = FR_OK /\ alive v') v.
Proof.
  intros Hv Ha Hs Hg. unfold move_window. apply wp_bind, wp_get_fs.
  destruct (negb _); [|by apply wp_ret]. apply wp_bind.
  eapply wp_mono; [apply (wp_conj _ _ _ _ _ (sync_window_good v Hv Ha) (sync_window_spec false v Hv))|].
  intros r v1 [(-> & Ha1 & _ & Hg1) ([[Hf1 Hd1] He1] & _)].
  change (FR_OK =r FR_OK) with true. cbv iota.
  assert (pdrv (vfs v1) = pdrv (vfs v)) as Hp by (by apply geom_fields in He1 as (_ & -> & _)).
  apply wp_bind, wp_get_fs, wp_bind, wp_on_disk, wp_total.
  eapply wp_mono; [apply good_read; [done|lia|apply (ok_win _ Hf1)|rewrite Hp; by apply Hg1, Ha]|].
  intros [r w] d2 [Hr ->]. cbn [fst] in Hr. subst r. apply wp_bind, wp_mod_fs.
  change (negb (RES_OK =d RES_OK)) with false. cbv iota. apply wp_bind, wp_mod_fs, wp_ret. cbn [vfs vdsk].
  split; [done|]. by apply (alive_disk v1).
Qed.

Lemma live_move g fs o :
  fs_ok fs -> geom fs = g -> fat_layout fs -> 0 <= o < fsize fs * SS ->
  live g (move_window (fat_sect fs o)) (fun r => r = FR_OK).
Proof.
  intros Hok Hg Hl Ho v Hv Ha.
  assert (geom (vfs v) = geom fs) as Hgv by (destruct Hv; congruence).
  pose proof (geom_fields _ _ Hgv) as (_&Hp&_&_&_&_&_&Hf&_&Hb&_&_).
  eapply wp_mono; [apply wp_conj|].
  - apply (move_window_safe false g (fat_sect fs o)); [apply u32_range|done].
  - apply move_window_good; [apply Hv|done|apply u32_range|].
    rewrite <- (fat_sect_geom _ _ o Hgv). apply Ha. by rewrite Hf.
  - by intros r v' [[? _] [? ?]].
Qed.

(** ** The FAT routines *)

Lemma live_if {A} g (b : bool) (m1 m2 : V A) P : live g m1 P -> live g m2 P -> live g (if b then m1 else m2) P.
Proof. by destruct b. Qed.

Section fat.
Context (fs0 : FATFS) (c : Z) (Hok : fs_ok fs0) (Hl : fat_layout fs0) (Hc : valid_clst fs0 c).
Abbreviation g := (geom fs0).

Lemma same_layout fs : geom fs = g -> fat_layout fs.
Proof using Hl. intros H. by apply (fat_layout_geom fs0). Qed.

Lemma same_valid fs : geom fs = g -> valid_clst fs c.
Proof using Hc. intros H. apply geom_fields in H as (_&_&_&_&_&_&H&_). unfold valid_clst. by rewrite H. Qed.

(** The sectors of an entry. *)
Lemma live_move_entry fs o :
  fs_ok fs -> geom fs = g -> ent_ofs (fs_type fs) c <= o < ent_ofs (fs_type fs) c + ent_len (fs_type fs) ->
  live g (move_window (fat_sect fs o)) (fun r => r = FR_OK).
Proof using Hl Hc.
  intros Hf Hg Ho. destruct (ent_bounds fs c) as (H1 & H2 & _); [by apply same_layout|by apply same_valid|].
  apply live_move; [done|done|by apply same_layout|lia].
Qed.

Lemma live_get_fat : live g (get_fat c) (fun x => x <> 0xFFFFFFFF).
Proof using Hl Hc.
  unfold get_fat. eapply live_bind; [apply live_get|]. intros fs [Hf Hg].
  pose proof (same_valid fs Hg) as Hv. destruct (ent_bounds fs c (same_layout fs Hg) Hv) as (He0 & He1 & He2).
  destruct Hv. destruct (_ || _); [by apply live_ret|].
  pose proof (live_move_entry fs) as Hmv. unfold ent_ofs, ent_len in *. assert (SS = 512) as HSS by done.
  destruct (_ =? FS_FAT12).
  { unfold get_fat12. rewrite (u32_small (c + c / 2)) by lia. rewrite (u32_small (c + c / 2 + 1)) by lia.
    eapply live_bind; [apply (Hmv (c + c / 2)); [done|done|lia]|]. intros r ->. cbn [negb fr_eqb].
    change (negb (FR_OK =r FR_OK)) with false. cbv iota.
    eapply live_bind; [apply live_win_at, Z.mod_pos_bound; done|]. intros b0 Hb0.
    eapply live_bind; [apply (Hmv (c + c / 2 + 1)); [done|done|lia]|]. intros r ->.
    change (negb (FR_OK =r FR_OK)) with false. cbv iota.
    eapply live_bind; [apply live_win_at, Z.mod_pos_bound; done|]. intros b1 Hb1. cbv beta in Hb0, Hb1.
    apply live_ret. pose proof (wc_range b0 b1 Hb0 Hb1).
    destruct (nz _); [rewrite Z.shiftr_div_pow2 by lia; change (2 ^ 4) with 16; Z.to_euclidean_division_equations; lia|].
    pose proof (land_range (Z.lor b0 (Z.shiftl b1 8)) 12 ltac:(lia)).
    change (Z.ones 12) with 4095 in *. lia. }
  destruct (_ =? FS_FAT16).
  { unfold get_fat16. rewrite (sect_of_entry fs c 2) by done.
    eapply live_bind; [apply (Hmv (c * 2)); [done|done|lia]|]. intros r ->.
    change (negb (FR_OK =r FR_OK)) with false. cbv iota.
    eapply live_mono; [apply live_win_word|].
    - apply Z.mod_pos_bound; done.
    - rewrite u32_mod_SS. apply aligned_fits; [lia|done|apply Z.mod_mul; lia].
    - cbn. lia. }
  destruct (_ =? FS_FAT32); [|by apply live_ret].
  unfold get_fat32. rewrite (sect_of_entry fs c 4) by done.
  eapply live_bind; [apply (Hmv (c * 4)); [done|done|lia]|]. intros r ->.
  change (negb (FR_OK =r FR_OK)) with false. cbv iota. eapply live_bind; [apply live_win_dword|].
  - apply Z.mod_pos_bound; done.
  - rewrite u32_mod_SS. apply aligned_fits; [lia|done|apply Z.mod_mul; lia].
  - intros x _. apply live_ret. pose proof (land_range x 28 ltac:(lia)).
    change (Z.ones 28) with 0x0FFFFFFF in *. lia.
Qed.

Lemma live_set_wflag : live g (mod_fs (set_wflag 1)) (fun _ => True).
Proof using Type. apply live_mod_fs; [|done|done]. intros fs Hf. by apply fs_ok_set_wflag. Qed.

(** The last steps of [put_fat]. *)
Lemma live_put_end : live g (mod_fs (set_wflag 1) ;;; ret FR_OK) (fun r => r = FR_OK).
Proof using Type. eapply live_bind; [apply live_set_wflag|]. intros _ _. by apply live_ret. Qed.

Lemma live_put_fat val : live g (put_fat c val) (fun r => r = FR_OK).
Proof using Hl Hc.
  unfold put_fat. eapply live_bind; [apply live_get|]. intros fs [Hf Hg].
  pose proof (same_valid fs Hg) as Hv. pose proof (same_layout fs Hg) as Hly.
  destruct (ent_bounds fs c Hly Hv) as (He0 & He1 & He2).
  destruct Hv as [Hv1 Hv2]. rewrite Z.geb_leb, (proj2 (Z.leb_le 2 c) Hv1), (proj2 (Z.ltb_lt c _) Hv2). cbn [andb].
  pose proof (live_move_entry fs) as Hmv. unfold ent_ofs, ent_len in *. assert (SS = 512) as HSS by done.
  assert (forall o, o mod SS < SS /\ 0 <= o mod SS) as Hmod by (intros o; pose proof (Z.mod_pos_bound o SS); lia).
  destruct (Z.eqb_spec (fs_type fs) FS_FAT12).
  { unfold put_fat12. rewrite (u32_small (c + c / 2)) by lia. rewrite (u32_small (c + c / 2 + 1)) by lia.
    eapply live_bind; [apply (Hmv (c + c / 2)); [done|done|lia]|]. intros r ->.
    change (negb (FR_OK =r FR_OK)) with false. cbv iota.
    eapply live_bind; [apply live_win_at; split; apply Hmod|]. intros b0 _.
    eapply live_bind; [apply live_win_put; split; apply Hmod|]. intros _ _.
    eapply live_bind; [apply live_set_wflag|]. intros _ _.
    eapply live_bind; [apply (Hmv (c + c / 2 + 1)); [done|done|lia]|]. intros r ->.
    change (negb (FR_OK =r FR_OK)) with false. cbv iota.
    eapply live_bind; [apply live_win_at; split; apply Hmod|]. intros b1 _.
    eapply live_bind; [apply live_win_put; split; apply Hmod|]. intros _ _. apply live_put_end. }
  destruct (Z.eqb_spec (fs_type fs) FS_FAT16).
  { unfold put_fat16. rewrite (sect_of_entry fs c 2) by done.
    eapply live_bind; [apply (Hmv (c * 2)); [done|done|lia]|]. intros r ->.
    change (negb (FR_OK =r FR_OK)) with false. cbv iota. eapply live_bind; [apply live_win_put_word|].
    - apply Hmod.
    - rewrite u32_mod_SS. apply aligned_fits; [lia|done|apply Z.mod_mul; lia].
    - intros _ _. apply live_put_end. }
  destruct (Z.eqb_spec (fs_type fs) FS_FAT32); [|by destruct (fl_type _ Hly) as [|[|]]].
  unfold put_fat32. rewrite (sect_of_entry fs c 4) by done.
  assert (u32 (c * 4) mod SS + 4 <= SS) as Hfit.
  { rewrite u32_mod_SS. apply aligned_fits; [lia|done|apply Z.mod_mul; lia]. }
  eapply live_bind; [apply (Hmv (c * 4)); [done|done|lia]|]. intros r ->.
  change (negb (FR_OK =r FR_OK)) with false. cbv iota.
  eapply live_bind; [apply live_win_dword; [apply Hmod|done]|]. intros x _.
  eapply live_bind; [apply live_win_put_dword; [apply Hmod|done]|]. intros _ _. apply live_put_end.
Qed.

End fat.

(** ** Chains *)

Lemma live_conj {A} g (m : V A) P Q : live g m P -> safe false g m Q -> live g m (fun a => P a /\ Q a).
Proof.
  intros Hl Hs v Hv Ha. eapply wp_mono; [apply (wp_conj _ _ _ _ _ (Hl v Hv Ha) (Hs v Hv))|].
  by intros a v' [[? ?] [? ?]].
Qed.

Section chains.
Context (fs0 : FATFS) (Hok : fs_ok fs0) (Hl : fat_layout fs0).
Abbreviation g := (geom fs0).

Lemma live_get_fat_any c : live g (get_fat c) (fun x => x <> 0xFFFFFFFF /\ 0 <= x < U32).
Proof using Hl.
  apply live_conj; [|apply get_fat_safe].
  destruct (decide (valid_clst fs0 c)) as [Hc|Hc]; [by apply live_get_fat|].
  unfold get_fat. eapply live_bind; [apply live_get|]. intros fs [Hf Hg].
  apply geom_fields in Hg as (_&_&_&_&_&_&Hn&_). unfold valid_clst in Hc.
  destruct (Z.ltb_spec c 2); cbn [orb]; [by apply live_ret|].
  destruct (Z.geb_spec c (n_fatent fs)); [by apply live_ret|lia].
Qed.

Lemma live_put_fat_any c val : live g (put_fat c val) (fun r => r <> FR_DISK_ERR).
Proof using Hl.
  destruct (decide (valid_clst fs0 c)) as [Hc|Hc].
  { eapply live_mono; [by apply live_put_fat|]. by intros r ->. }
  unfold put_fat. eapply live_bind; [apply live_get|]. intros fs [Hf Hg].
  apply geom_fields in Hg as (_&_&_&_&_&_&Hn&_). unfold valid_clst in Hc.
  destruct (Z.geb_spec c 2); cbn [andb]; [|by apply live_ret].
  destruct (Z.ltb_spec c (n_fatent fs)); [lia|by apply live_ret].
Qed.

Lemma live_count (b : bool) x y :
  0 <= x < U32 -> 0 <= y < 256 ->
  live g (if b then mod_fs (set_free_clst x) ;;; mod_fs (set_fsi_flag y) else ret tt) (fun _ => True).
Proof using Type.
  intros Hx Hy. destruct b; [|by apply live_ret].
  eapply live_bind; [apply live_mod_fs; [|done|done]; intros fs Hf; by apply fs_ok_set_free_clst|].
  intros _ _. apply live_mod_fs; [|done|done]. intros fs Hf. by apply fs_ok_set_fsi_flag.
Qed.

Lemma live_remove_chain c pclst : live g (remove_chain c pclst) (fun r => r <> FR_DISK_ERR).
Proof using Hl.
  assert (live g (loop remove_chain_body c) (fun r => r <> FR_DISK_ERR)) as Hloop.
  { apply (live_loop _ (fun _ => True)); [|done]. intros x _. unfold remove_chain_body.
    eapply live_bind; [apply live_get_fat_any|]. intros nxt [Hn _].
    destruct (nxt =? 0); [by apply live_ret|]. destruct (nxt =? 1); [by apply live_ret|].
    destruct (Z.eqb_spec nxt 0xFFFFFFFF); [done|]. eapply live_bind; [apply live_put_fat_any|].
    intros r Hr. destruct (negb _); [by apply live_ret|].
    eapply live_bind; [apply live_get|]. intros fs [Hf _].
    eapply live_bind; [apply live_count; [apply u32_range|apply lor_u8; [apply (ok_fsi_flag _ Hf)|done]]|].
    intros _ _. by destruct (_ <? _); apply live_ret. }
  unfold remove_chain. eapply live_bind; [apply live_get|]. intros fs [Hf Hg].
  destruct (_ || _); [by apply live_ret|]. destruct (nz _); [|done].
  eapply live_bind; [apply live_put_fat_any|]. intros r Hr. by destruct (negb _); [apply live_ret|].
Qed.

Lemma live_link_new clst ncl :
  0 <= ncl < U32 -> ncl <> 0xFFFFFFFF -> live g (link_new clst ncl) (fun x => x <> 0xFFFFFFFF).
Proof using Hl.
  intros Hr Hn. unfold link_new. eapply live_bind; [apply live_put_fat_any|]. intros r1 Hr1.
  apply (live_bind _ _ _ (fun r => r <> FR_DISK_ERR)).
  { destruct (_ && _); [apply live_put_fat_any|by apply live_ret]. }
  intros r2 Hr2. destruct (_ =r FR_OK).
  - eapply live_bind; [apply live_mod_fs; [|done|done]; intros fs Hf; by apply fs_ok_set_last_clst|].
    intros _ _. eapply live_bind; [apply live_get|]. intros fs [Hf _].
    eapply live_bind; [apply live_count; [apply u32_range|apply lor_u8; [apply (ok_fsi_flag _ Hf)|done]]|].
    intros _ _. by apply live_ret.
  - apply live_ret. by destruct (fr_eqb_spec r2 FR_DISK_ERR).
Qed.

Lemma live_find_free scl :
  live g (find_free (n_fatent fs0) scl) (fun r => match r with inl x => x <> 0xFFFFFFFF | inr _ => True end).
Proof using Hl.
  apply (live_loop _ (fun _ => True)); [|done]. intros ncl _. rewrite find_free_body_eq.
  destruct (_ && _); [by apply live_ret|]. eapply live_bind; [apply live_get_fat_any|]. intros cs [Hcs _].
  destruct (_ =? 0); [by apply live_ret|]. destruct (_ || _); [by apply live_ret|].
  by destruct (_ =? scl); apply live_ret.
Qed.

Lemma live_chain_start fs clst :
  fs_ok fs -> geom fs = g -> 0 <= clst < U32 ->
  live g (chain_start fs clst) (fun r => match r with
    | inl x => x <> 0xFFFFFFFF | inr scl => scl = 1 \/ 1 <= scl < n_fatent fs end).
Proof using Hl.
  intros Hf Hg Hcl. pose proof (ok_last_clst _ Hf). unfold chain_start. destruct (Z.eqb_spec clst 0) as [->|Hne].
  { apply live_ret. destruct (Z.eqb_spec (last_clst fs) 0), (Z.geb_spec (last_clst fs) (n_fatent fs)); cbn [orb]; lia. }
  eapply live_bind; [apply live_conj; [apply live_get_fat_any|rewrite <- Hg; apply get_fat_valid]|].
  intros cs [[Hcs _] [_ Hval]]. destruct (Z.ltb_spec cs 2); [by apply live_ret|].
  destruct (cs =? _); [by apply live_ret|]. destruct (cs <? _); [by apply live_ret|].
  apply live_ret. destruct Hval as [->|[? ?]]; lia.
Qed.

Lemma live_try_next fs clst scl :
  fs_ok fs -> geom fs = g -> scl = 1 \/ 1 <= scl < n_fatent fs ->
  live g (try_next fs clst scl) (fun r => match r with
    | inl x => x <> 0xFFFFFFFF
    | inr (s, c) => (s = 1 \/ 1 <= s < n_fatent fs) /\ 0 <= c <= Z.max 2 (n_fatent fs) end).
Proof using Hl.
  intros Hf Hg Hs. pose proof (ok_n_fatent _ Hf) as Hn. unfold try_next.
  destruct (scl =? clst); [|apply live_ret; split; [done|lia]].
  eapply live_bind; [apply live_get_fat_any|]. intros cs [Hcs _].
  destruct (_ || _); [by apply live_ret|]. destruct (nz cs); apply live_ret.
  - split; [|lia]. destruct (Z.geb_spec (last_clst fs) 2), (Z.ltb_spec (last_clst fs) (n_fatent fs)); cbn [andb]; lia.
  - split; [done|]. pose proof (u32_range (scl + 1)). destruct (Z.geb_spec (u32 (scl + 1)) (n_fatent fs)); lia.
Qed.

Lemma live_create_chain clst : 0 <= clst < U32 -> live g (create_chain clst) (fun x => x <> 0xFFFFFFFF).
Proof using Hok Hl.
  intros Hcl. unfold create_chain. eapply live_bind; [apply live_get|]. intros fs [Hf Hg].
  assert (n_fatent fs = n_fatent fs0) as Hn by (by apply geom_fields in Hg as (_&_&_&_&_&_&->&_)).
  pose proof (fl_max _ Hl) as Hmax. unfold MAX_FAT32 in Hmax.
  eapply live_bind; [by apply live_chain_start|].
  intros [x|scl] Hscl; [by apply live_ret|]. destruct (free_clst fs =? 0); [by apply live_ret|].
  eapply live_bind; [by apply live_try_next|]. intros [x|[s c]] Hs; [by apply live_ret|]. destruct Hs as [Hs Hc].
  apply (live_bind _ _ _ (fun r => match r with inl x => x <> 0xFFFFFFFF | inr c => 0 <= c < 0xFFFFFFFF end)).
  { destruct (c =? 0); [|apply live_ret; lia]. rewrite Hn.
    eapply live_mono; [apply live_conj; [apply live_find_free|apply find_free_safe; [done|lia]]|].
    intros [x|c'] [Hx Hv]; [done|]. destruct Hv. lia. }
  intros [x|ncl] Hx; [by apply live_ret|]. apply live_link_new; unfold U32; lia.
Qed.

End chains.

(** ** Exact results on a reliable medium *)

Lemma alive_run {A} t v (m : V A) P Q :
  sv (geom (vfs v)) v -> alive v -> wpt t m Q v -> live (geom (vfs v)) m P ->
  wpt t m (fun a v' => Q a v' /\ alive v' /\ P a) v.
Proof.
  intros Hv Ha Hm Hl. eapply wp_mono; [apply (wp_conj_partial _ _ _ _ _ Hm (Hl v Hv Ha))|].
  by intros a v' [? [[_ ?] ?]].
Qed.

End live.
