(* ===== verification/Dir.v ===== *)
(** * Directories

    The directory functions of ff.c on a mounted volume: positioning
    ([dir_sdi], [dir_next]), allocation ([dir_clear], [dir_alloc]), the
    cluster fields of an entry ([ld_clust], [st_clust]), [dir_read],
    [dir_find], [dir_register], [dir_remove] and [get_fileinfo].

    A function that updates the directory object [dp] returns its new value
    beside the result code, also on the error paths. *)

From stdpp Require Import base numbers list option.
From Stdlib Require Import ZArith Lia.
From Stdlib Require Import Strings.Byte.
From S2P Require Import Prelude Types Bytes Diskio Window Fat Chain.

Section dir.
Context {D : Type} `{!DiskIO D}.
Abbreviation V := (M (vol D)).

(** ** Functions of ff.c *)

(** The [for] loop of [dir_clear]: fill the cluster with the window. *)
Definition dir_clear_body (sect n : Z) : V (Z + Z) :=
  fs <- get_fs ;;
  if n <? csize fs then
    r <- on_disk (dio_write (pdrv fs) (win fs) (u32 (sect + n)) 1) ;;
    if r =d RES_OK then ret (inl (u32 (n + 1))) else ret (inr n)
  else ret (inr n).

Definition dir_clear (clst : Z) : V FRESULT :=
  r <- sync_window ;;
  if negb (r =r FR_OK) then ret FR_DISK_ERR else
  fs <- get_fs ;;
  let sect := clst2sect fs clst in
  mod_fs (set_winsect sect) ;;;
  win_memset 0 0 SS ;;;
  n <- loop (dir_clear_body sect) 0 ;;
  ret (if n =? csize fs then FR_OK else FR_DISK_ERR).

(** The [while] loop of [dir_sdi]: follow the chain to the cluster of [ofs]. *)
Definition dir_sdi_body (fs : FATFS) (csz : Z) (a : Z * Z) : V (Z * Z + (FRESULT + Z * Z)) :=
  let '(clst, ofs) := a in
  if ofs >=? csz then
    clst <- get_fat clst ;;
    if clst =? 0xFFFFFFFF then ret (inr (inl FR_DISK_ERR))
    else if (clst <? 2) || (clst >=? n_fatent fs) then ret (inr (inl FR_INT_ERR))
    else ret (inl (clst, u32 (ofs - csz)))
  else ret (inr (inr (clst, ofs))).

(** The end of [dir_sdi]. *)
Definition dir_sdi_set (dp : DIR) (clst sect ofs : Z) : FRESULT * DIR :=
  let dp := set_dp_sect sect dp in
  let dp := set_dp_clust clst dp in
  if dp_sect dp =? 0 then (FR_INT_ERR, dp)
  else
    let dp := set_dp_sect (u32 (dp_sect dp + ofs / SS)) dp in
    let dp := set_dp_dir (ofs mod SS) dp in
    (FR_OK, dp).

Definition dir_sdi (dp : DIR) (ofs : Z) : V (FRESULT * DIR) :=
  fs <- get_fs ;;
  if (ofs >=? MAX_DIR) || nz (ofs mod SZDIRE) then ret (FR_INT_ERR, dp) else
  let dp := set_dp_dptr ofs dp in
  let clst := obj_sclust (dp_obj dp) in
  let clst := if (clst =? 0) && (fs_type fs >=? FS_FAT32) then dirbase fs else clst in
  if clst =? 0 then
    if ofs / SZDIRE >=? n_rootdir fs then ret (FR_INT_ERR, dp)
    else ret (dir_sdi_set dp clst (dirbase fs) ofs)
  else
    let csz := u32 (csize fs * SS) in
    r <- loop (dir_sdi_body fs csz) (clst, ofs) ;;
    match r with
    | inl res => ret (res, dp)
    | inr (clst, ofs) => ret (dir_sdi_set dp clst (clst2sect fs clst) ofs)
    end.

(** The cluster that follows the current one, in [dir_next]: [inl] an error. *)
Definition dir_next_clst (dp : DIR) (stretch : bool) : V ((FRESULT * DIR) + Z) :=
  fs <- get_fs ;;
  clst <- get_fat (dp_clust dp) ;;
  if clst <=? 1 then ret (inl (FR_INT_ERR, dp))
  else if clst =? 0xFFFFFFFF then ret (inl (FR_DISK_ERR, dp))
  else if clst >=? n_fatent fs then
    if negb stretch then ret (inl (FR_NO_FILE, set_dp_sect 0 dp))
    else
      clst <- create_chain (dp_clust dp) ;;
      if clst =? 0 then ret (inl (FR_DENIED, dp))
      else if clst =? 1 then ret (inl (FR_INT_ERR, dp))
      else if clst =? 0xFFFFFFFF then ret (inl (FR_DISK_ERR, dp))
      else
        r <- dir_clear clst ;;
        if negb (r =r FR_OK) then ret (inl (FR_DISK_ERR, dp))
        else ret (inr clst)
  else ret (inr clst).

Definition dir_next (dp : DIR) (stretch : bool) : V (FRESULT * DIR) :=
  fs <- get_fs ;;
  let ofs := u32 (dp_dptr dp + SZDIRE) in
  let dp := if ofs >=? MAX_DIR then set_dp_sect 0 dp else dp in
  if dp_sect dp =? 0 then ret (FR_NO_FILE, dp) else
  let fin dp := (FR_OK, set_dp_dir (ofs mod SS) (set_dp_dptr ofs dp)) in
  if ofs mod SS =? 0 then
    let dp := set_dp_sect (u32 (dp_sect dp + 1)) dp in
    if dp_clust dp =? 0 then
      if ofs / SZDIRE >=? n_rootdir fs then ret (FR_NO_FILE, set_dp_sect 0 dp)
      else ret (fin dp)
    else if Z.land (ofs / SS) (csize fs - 1) =? 0 then
      r <- dir_next_clst dp stretch ;;
      match r with
      | inl e => ret e
      | inr clst => ret (fin (set_dp_sect (clst2sect fs clst) (set_dp_clust clst dp)))
      end
    else ret (fin dp)
  else ret (fin dp).

(** One turn of the loop of [dir_alloc]: [n] free entries in a row so far. *)
Definition dir_alloc_body (n_ent : Z) (a : DIR * Z) : V (DIR * Z + FRESULT * DIR) :=
  let '(dp, n) := a in
  res <- move_window (dp_sect dp) ;;
  if negb (res =r FR_OK) then ret (inr (res, dp)) else
  b <- win_at (dp_dir dp + DIR_Name) ;;
  let n' := if (b =? DDEM) || (b =? 0) then u32 (n + 1) else 0 in
  if ((b =? DDEM) || (b =? 0)) && (n' =? n_ent) then ret (inr (res, dp)) else
  do (res, dp) <- dir_next dp true ;;
  if res =r FR_OK then ret (inl (dp, n')) else ret (inr (res, dp)).

Definition dir_alloc (dp : DIR) (n_ent : Z) : V (FRESULT * DIR) :=
  do (res, dp) <- dir_sdi dp 0 ;;
  do (res, dp) <- (if res =r FR_OK then loop (dir_alloc_body n_ent) (dp, 0) else ret (res, dp)) ;;
  ret (if res =r FR_NO_FILE then FR_DENIED else res, dp).

(** [dir] is the offset of an entry in the window. *)
Definition ld_clust (dir : Z) : V Z :=
  fs <- get_fs ;;
  cl <- win_word (dir + DIR_FstClusLO) ;;
  if fs_type fs =? FS_FAT32 then
    hi <- win_word (dir + DIR_FstClusHI) ;;
    ret (Z.lor cl (u32 (Z.shiftl hi 16)))
  else ret cl.

Definition st_clust (dir cl : Z) : V unit :=
  fs <- get_fs ;;
  win_put_word (dir + DIR_FstClusLO) (u16 cl) ;;;
  if fs_type fs =? FS_FAT32 then win_put_word (dir + DIR_FstClusHI) (u16 (Z.shiftr cl 16))
  else ret tt.

(** Is this an entry [dir_read] reports?  [b] is its first byte. *)
Definition read_match (vol : bool) (b attr : Z) : bool :=
  negb (b =? DDEM) && negb (b =? 0x2E) && negb (attr =? AM_LFN)
  && Bool.eqb (Z.land attr (Z.lnot AM_ARC) =? AM_VOL) vol.

Definition set_attr (a : Z) (dp : DIR) : DIR := set_dp_obj (set_obj_attr a (dp_obj dp)) dp.

Definition dir_read_body (vol : bool) (a : FRESULT * DIR) : V (FRESULT * DIR + FRESULT * DIR) :=
  let '(res, dp) := a in
  if nz (dp_sect dp) then
    res <- move_window (dp_sect dp) ;;
    if negb (res =r FR_OK) then ret (inr (res, dp)) else
    b <- win_at (dp_dir dp + DIR_Name) ;;
    if b =? 0 then ret (inr (FR_NO_FILE, dp)) else
    a <- win_at (dp_dir dp + DIR_Attr) ;;
    let attr := Z.land a AM_MASK in
    let dp := set_attr attr dp in
    if read_match vol b attr then ret (inr (res, dp)) else
    do (res, dp) <- dir_next dp false ;;
    if negb (res =r FR_OK) then ret (inr (res, dp)) else ret (inl (res, dp))
  else ret (inr (res, dp)).

Definition dir_read (dp : DIR) (vol : bool) : V (FRESULT * DIR) :=
  do (res, dp) <- loop (dir_read_body vol) (FR_NO_FILE, dp) ;;
  ret (res, if negb (res =r FR_OK) then set_dp_sect 0 dp else dp).

Definition dir_find_body (dp : DIR) : V (DIR + FRESULT * DIR) :=
  res <- move_window (dp_sect dp) ;;
  if negb (res =r FR_OK) then ret (inr (res, dp)) else
  c <- win_at (dp_dir dp + DIR_Name) ;;
  if c =? 0 then ret (inr (FR_NO_FILE, dp)) else
  a <- win_at (dp_dir dp + DIR_Attr) ;;
  let dp := set_attr (Z.land a AM_MASK) dp in
  name <- win_slice (dp_dir dp) 11 ;;
  fn <- chk (slice (dp_fn dp) 0 11) ;;
  if negb (nz (Z.land a AM_VOL)) && bool_decide (name = fn) then ret (inr (res, dp)) else
  do (res, dp) <- dir_next dp false ;;
  if res =r FR_OK then ret (inl dp) else ret (inr (res, dp)).

Definition dir_find (dp : DIR) : V (FRESULT * DIR) :=
  do (res, dp) <- dir_sdi dp 0 ;;
  if negb (res =r FR_OK) then ret (res, dp) else loop dir_find_body dp.

Definition dir_register (dp : DIR) : V (FRESULT * DIR) :=
  do (res, dp) <- dir_alloc dp 1 ;;
  if res =r FR_OK then
    res <- move_window (dp_sect dp) ;;
    if res =r FR_OK then
      win_memset (dp_dir dp) 0 SZDIRE ;;;
      fn <- chk (slice (dp_fn dp) 0 11) ;;
      win_splice (dp_dir dp + DIR_Name) fn ;;;
      mod_fs (set_wflag 1) ;;;
      ret (res, dp)
    else ret (res, dp)
  else ret (res, dp).

Definition dir_remove (dp : DIR) : V FRESULT :=
  res <- move_window (dp_sect dp) ;;
  if res =r FR_OK then
    win_put (dp_dir dp + DIR_Name) DDEM ;;;
    mod_fs (set_wflag 1) ;;;
    ret res
  else ret res.

(** The loop of [get_fileinfo] that copies the name: [k] turns are left. *)
Fixpoint get_fileinfo_name (k : nat) (dir si di : Z) (fname : list byte) : V (Z * list byte) :=
  match k with
  | O => ret (di, fname)
  | S k =>
    c <- win_at (dir + si) ;;
    let si := si + 1 in
    if c =? 0x20 then get_fileinfo_name k dir si di fname else
    let c := if c =? RDDEM then DDEM else c in
    do (di, fname) <- (if si =? 9 then
                         fname <- chk (upd fname di (mkb 0x2E)) ;; ret (di + 1, fname)
                       else ret (di, fname)) ;;
    fname <- chk (upd fname di (mkb c)) ;;
    get_fileinfo_name k dir si (di + 1) fname
  end.

Definition get_fileinfo (dp : DIR) (fno : FILINFO) : V FILINFO :=
  fname <- chk (upd (fi_fname fno) 0 x00) ;;
  let fno := set_fi_fname fname fno in
  if dp_sect dp =? 0 then ret fno else
  do (di, fname) <- get_fileinfo_name 11 (dp_dir dp) 0 0 (fi_fname fno) ;;
  fname <- chk (upd fname di x00) ;;
  let fno := set_fi_fname fname fno in
  a <- win_at (dp_dir dp + DIR_Attr) ;;
  size <- win_dword (dp_dir dp + DIR_FileSize) ;;
  time <- win_word (dp_dir dp + DIR_ModTime + 0) ;;
  date <- win_word (dp_dir dp + DIR_ModTime + 2) ;;
  ret (set_fi_fdate date (set_fi_ftime time (set_fi_fsize size
        (set_fi_fattrib (Z.land a AM_MASK) fno)))).

End dir.

(** ** Directory objects *)

(** The fields of a directory object fit their C types. *)
Record dir_w (dp : DIR) : Prop := mk_dir_w {
  dw_dptr : 0 <= dp_dptr dp < U32;
  dw_clust : 0 <= dp_clust dp < U32;
  dw_sect : 0 <= dp_sect dp < U32;
  dw_sclust : 0 <= obj_sclust (dp_obj dp) < U32;
  dw_fn : len (dp_fn dp) = 12
}.

(** The read offset is that of an entry, and the pointer is to an entry in the
    window; the two part ways when [dir_sdi] fails. *)
Definition dir_pos (dp : DIR) : Prop :=
  0 <= dp_dptr dp < MAX_DIR /\ dp_dptr dp mod SZDIRE = 0 /\ 0 <= dp_dir dp <= SS - SZDIRE.

Lemma dir_pos_bounds dp : dir_pos dp -> 0 <= dp_dir dp <= SS - SZDIRE.
Proof. by intros (_ & _ & H). Qed.

(** An offset that is a multiple of the size of an entry. *)
Lemma entry_bounds o : o mod SZDIRE = 0 -> 0 <= o mod SS <= SS - SZDIRE.
Proof.
  intros H. pose proof (aligned_fits o SZDIRE ltac:(done) eq_refl H). pose proof (Z.mod_pos_bound o SS ltac:(done)). lia.
Qed.

(** What safety needs of the geometry: clusters are not empty, and the table
    is well placed where termination is claimed. *)
Record vol_geo (t : bool) (g : list Z) : Prop := mk_vol_geo {
  geo_csize : forall fs, geom fs = g -> 1 <= csize fs;
  geo_layout : t = true -> layout_of g
}.

(** What the functions below leave of a directory object. *)
Definition dir_keeps (dp dp' : DIR) : Prop :=
  dir_w dp' /\ obj_fs (dp_obj dp') = obj_fs (dp_obj dp) /\ dp_fn dp' = dp_fn dp.

Lemma dir_keeps_refl dp : dir_w dp -> dir_keeps dp dp.
Proof. done. Qed.
Lemma dir_keeps_trans a b c : dir_keeps a b -> dir_keeps b c -> dir_keeps a c.
Proof. intros (? & ? & ?) (? & ? & ?). split_and!; [done|congruence|congruence]. Qed.

Lemma dir_w_set_sect x dp : dir_w dp -> 0 <= x < U32 -> dir_w (set_dp_sect x dp).
Proof. intros [] ?. by constructor. Qed.
Lemma dir_w_set_clust x dp : dir_w dp -> 0 <= x < U32 -> dir_w (set_dp_clust x dp).
Proof. intros [] ?. by constructor. Qed.
Lemma dir_w_set_dptr x dp : dir_w dp -> 0 <= x < U32 -> dir_w (set_dp_dptr x dp).
Proof. intros [] ?. by constructor. Qed.
Lemma dir_w_set_dir x dp : dir_w dp -> dir_w (set_dp_dir x dp).
Proof. intros []. by constructor. Qed.
Lemma dir_w_set_attr x dp : dir_w dp -> dir_w (set_attr x dp).
Proof. intros []. by constructor. Qed.

Lemma clst2sect_range fs c : 0 <= clst2sect fs c < U32.
Proof. unfold clst2sect. destruct (_ >=? _); [done|apply u32_range]. Qed.

#[export] Hint Resolve dir_w_set_sect dir_w_set_clust dir_w_set_dptr dir_w_set_dir dir_w_set_attr
  clst2sect_range dw_sect dw_clust dw_sclust dw_dptr : ff.

Section safety.
Context {D : Type} `{!DiskIO D} `{!DiskIOLaws D} (t : bool) (g : list Z) (Hgeo : vol_geo t g).
Abbreviation safe := (safe (D := D) t g).

Lemma dir_clear_safe clst : safe (dir_clear clst) (fun r => r = FR_OK \/ r = FR_DISK_ERR).
Proof using Type.
  unfold dir_clear. safe_step. safe_step; [safe_step; auto|].
  safe_step. safe_step. safe_step. eapply safe_bind.
  - apply (safe_loop _ _ (fun n => 0 <= n < 65536) (fun n => 65536 - n) (fun _ => True)); [|done|done].
    intros n Hn. unfold dir_clear_body. safe_auto; try done.
    match goal with H : fs_ok ?fs |- _ => pose proof (ok_csize _ H) end.
    rewrite u32_small by (unfold U32; lia). lia.
  - intros n _. apply safe_ret. destruct (_ =? _); auto.
Qed.

Lemma dir_sdi_set_safe dp clst sect ofs :
  dir_w dp -> 0 <= clst < U32 -> 0 <= sect < U32 -> dp_dptr dp mod SZDIRE = 0 ->
  0 <= dp_dptr dp < MAX_DIR -> ofs mod SS = dp_dptr dp mod SS ->
  dir_keeps dp (dir_sdi_set dp clst sect ofs).2 /\
  (forall d, dp_dir dp = d -> (dir_sdi_set dp clst sect ofs).1 = FR_OK \/ 0 <= d <= SS - SZDIRE ->
     dir_pos (dir_sdi_set dp clst sect ofs).2) /\
  ((dir_sdi_set dp clst sect ofs).1 = FR_OK \/ (dir_sdi_set dp clst sect ofs).1 = FR_INT_ERR).
Proof using Type.
  intros Hw Hc Hs Hd Hr Ho. unfold dir_sdi_set. rec_simpl.
  destruct (Z.eqb_spec sect 0); cbn [fst snd].
  - split; [|split; [|by right]]; [split; [|done]; destruct Hw; by constructor|].
    intros d <- [?|Hb]; [done|]. by split; [|split].
  - split; [|split; [|by left]].
    + split; [|done]. destruct Hw; constructor; rec_simpl; try done. apply u32_range.
    + intros d _ _. split; [exact Hr|split; [exact Hd|]]. rec_simpl. rewrite Ho. by apply entry_bounds.
Qed.

(** The result codes of positioning. *)
Definition sdi_codes (r : FRESULT) : Prop := r = FR_OK \/ r = FR_INT_ERR \/ r = FR_DISK_ERR.

Lemma sdi_error dp dp' r :
  dir_keeps dp dp' -> (dir_pos dp -> dir_pos dp') -> r = FR_INT_ERR \/ r = FR_DISK_ERR ->
  dir_keeps dp dp' /\ (r = FR_OK \/ dir_pos dp -> dir_pos dp') /\ sdi_codes r.
Proof using Type.
  intros H Hp Hr. split; [done|]. split; [intros [->|?]; [by destruct Hr|auto]|]. unfold sdi_codes. tauto.
Qed.

(** Positioning: the object stands on an entry when it succeeds, or when it did
    so before. *)
Lemma dir_sdi_moves dp ofs :
  dir_w dp -> 0 <= ofs -> safe (dir_sdi dp ofs) (fun r =>
    dir_keeps dp r.2 /\ (r.1 = FR_OK \/ dir_pos dp -> dir_pos r.2) /\ sdi_codes r.1).
Proof using Hgeo.
  intros Hw Hofs. unfold dir_sdi. safe_step.
  assert (1 <= csize a) as Hcs by (by apply (geo_csize _ _ Hgeo)).
  pose proof (ok_csize _ H) as Hcs'.
  safe_step; [apply safe_ret, sdi_error; [by apply dir_keeps_refl|done|auto]|].
  apply orb_false_elim in Heqb as [E1 E2]. rewrite Z.geb_leb, Z.leb_gt in E1.
  unfold nz in E2. rewrite negb_false_iff, Z.eqb_eq in E2.
  assert (dir_w (set_dp_dptr ofs dp)) as Hw1.
  { apply dir_w_set_dptr; [done|]. unfold U32. unfold_consts. lia. }
  cbv zeta. set (dp1 := set_dp_dptr ofs dp) in *.
  assert (dir_pos dp -> dir_pos dp1) as Hp1 by (intros (_ & _ & Hb); by split; [cbn; lia|split]).
  set (clst := if (obj_sclust (dp_obj dp1) =? 0) && (fs_type a >=? FS_FAT32)
               then dirbase a else obj_sclust (dp_obj dp1)).
  assert (0 <= clst < U32) as Hcl.
  { unfold clst. destruct (_ && _); [apply (ok_dirbase _ H)|apply (dw_sclust _ Hw1)]. }
  assert (forall s o, 0 <= s < U32 -> o mod SS = ofs mod SS -> forall c, 0 <= c < U32 ->
    let r := dir_sdi_set dp1 c s o in
    dir_keeps dp r.2 /\ (r.1 = FR_OK \/ dir_pos dp -> dir_pos r.2) /\ sdi_codes r.1) as Hset.
  { intros s o Hs Ho c Hc. destruct (dir_sdi_set_safe dp1 c s o) as (H1 & H2 & H3);
      [done..|]. split; [exact H1|]. split; [|unfold sdi_codes; tauto].
    intros [Hr|Hp]; apply (H2 _ eq_refl); [by left|right; by apply Hp1]. }
  safe_step.
  - safe_step; apply safe_ret; [apply sdi_error; [by split|done|auto]|].
    apply Hset; [side|done|done].
  - eapply safe_bind.
    + rewrite u32_small by (unfold U32, SS; lia).
      apply (safe_loop _ _ (fun x : Z * Z => 0 <= x.1 < U32 /\ 0 <= x.2 <= ofs /\ x.2 mod SS = ofs mod SS)
        (fun x => x.2) (fun r => match r with
          | inl r => r = FR_INT_ERR \/ r = FR_DISK_ERR
          | inr x => 0 <= x.1 < U32 /\ x.2 mod SS = ofs mod SS end)).
      * intros [c o] (Hc & Ho & Hm). cbn [fst snd] in *. unfold dir_sdi_body.
        safe_step; [|apply safe_ret; by cbn].
        safe_step. safe_step; [apply safe_ret; auto|].
        safe_step; [apply safe_ret; auto|]. apply safe_ret. cbn [fst snd].
        rewrite Z.geb_leb, Z.leb_le in Heqb0.
        rewrite u32_small by (unfold U32; unfold_consts; lia).
        split; [|unfold SS in *; lia]. split; [done|]. split; [unfold SS in *; lia|].
        rewrite <- Hm. rewrite <- (Z_mod_plus_full (o - csize a * SS) (csize a) SS). f_equal. lia.
      * cbn. lia.
      * cbn. unfold LOOP_FUEL. unfold_consts. lia.
    + intros [r|[c o]] Hr; apply safe_ret.
      * apply sdi_error; [by split|done|done].
      * destruct Hr. by apply Hset; [apply clst2sect_range|..].
Qed.

Lemma dir_sdi_safe dp ofs :
  dir_w dp -> 0 <= ofs -> safe (dir_sdi dp ofs) (fun r =>
    dir_keeps dp r.2 /\ (r.1 = FR_OK -> dir_pos r.2) /\ sdi_codes r.1).
Proof using Hgeo.
  intros Hw Ho. eapply safe_mono; [by apply dir_sdi_moves|]. intros r (H1 & H2 & H3). auto.
Qed.

(** A step forward: the position stays that of an entry, and a successful one
    moves to the next entry. *)
Definition next_ok (dp : DIR) (r : FRESULT * DIR) : Prop :=
  dir_keeps dp r.2 /\ dir_pos r.2 /\ (r.1 = FR_OK -> dp_dptr r.2 = dp_dptr dp + SZDIRE).

Lemma next_ok_fail dp dp' r :
  r <> FR_OK -> dir_keeps dp dp' -> dp_dptr dp' = dp_dptr dp -> dp_dir dp' = dp_dir dp ->
  dir_pos dp -> next_ok dp (r, dp').
Proof using Type.
  intros Hr Hk H1 H2 Hp. split; [done|]. split; [|done]. unfold dir_pos. cbn. by rewrite H1, H2.
Qed.

Lemma dir_next_clst_safe dp st :
  dir_w dp -> safe (dir_next_clst dp st) (fun r => match r with
    | inl (r, dp') => r <> FR_OK /\ (dp' = dp \/ dp' = set_dp_sect 0 dp)
    | inr c => 0 <= c < U32 end).
Proof using Type.
  intros Hw. unfold dir_next_clst. pose proof (dw_clust _ Hw). pose proof (dir_clear_safe).
  safe_auto; try tauto; try (split; [done|auto]).
Qed.

Lemma dir_next_safe dp st :
  dir_w dp -> dir_pos dp -> safe (dir_next dp st) (next_ok dp).
Proof using Type.
  intros Hw Hp. unfold dir_next. safe_step.
  pose proof Hp as (Hr & Hm & Hd).
  set (ofs := u32 (dp_dptr dp + SZDIRE)).
  assert (ofs = dp_dptr dp + SZDIRE) as Hofs.
  { apply u32_small. unfold U32. unfold_consts. lia. }
  cbv zeta. destruct (Z.geb_spec ofs MAX_DIR) as [Hmax|Hmax].
  { cbn [dp_sect set_dp_sect]. rewrite Z.eqb_refl. apply safe_ret.
    apply next_ok_fail; try done. split; [|done]. by apply dir_w_set_sect. }
  destruct (Z.eqb_spec (dp_sect dp) 0) as [Hz|Hz].
  { apply safe_ret. by apply next_ok_fail. }
  assert (forall dp', dir_keeps dp dp' ->
    next_ok dp (FR_OK, set_dp_dir (ofs mod SS) (set_dp_dptr ofs dp'))) as Hfin.
  { intros dp' [Hw' Hf']. split; [|split].
    - split; [|done]. apply dir_w_set_dir, dir_w_set_dptr; [done|]. unfold U32. unfold_consts. lia.
    - assert (ofs mod SZDIRE = 0) as Hom by (rewrite Hofs; unfold SZDIRE in *; rewrite Z.add_mod, Hm by done; done).
      split; [cbn; unfold_consts; lia|]. split; [done|]. cbn. by apply entry_bounds.
    - intros _. exact Hofs. }
  assert (dir_keeps dp (set_dp_sect (u32 (dp_sect dp + 1)) dp)) as Hk1.
  { split; [|done]. apply dir_w_set_sect; [done|apply u32_range]. }
  safe_step; [|apply safe_ret, Hfin; by apply dir_keeps_refl].
  safe_step.
  - safe_step; apply safe_ret; [|by apply Hfin].
    apply next_ok_fail; try done. split; [|done]. by do 2 (apply dir_w_set_sect; [|done || apply u32_range]).
  - safe_step; [|by apply safe_ret, Hfin].
    eapply safe_bind; [apply dir_next_clst_safe, Hk1|]. intros [[r dp']|c] Hr'; apply safe_ret.
    + destruct Hr' as [Hne [->| ->]]; apply next_ok_fail; try done.
      split; [|done]. by apply dir_w_set_sect; [apply Hk1|].
    + apply Hfin. split; [|done]. apply dir_w_set_sect; [|apply clst2sect_range].
      by apply dir_w_set_clust; [apply Hk1|].
Qed.

Lemma ld_clust_safe dir : 0 <= dir <= SS - SZDIRE -> safe (ld_clust dir) (fun c => 0 <= c < U32).
Proof using Type.
  intros Hd. unfold ld_clust. safe_step. eapply safe_bind; [apply safe_win_word; unfold_consts; lia|].
  intros lo Hlo. cbv beta in Hlo. safe_step; [|apply safe_ret; unfold U32; lia].
  eapply safe_bind; [apply safe_win_word; unfold_consts; lia|]. intros hi Hhi. cbv beta in Hhi.
  apply safe_ret. apply (lor_range _ _ 32); [lia|change (2 ^ 32) with U32; unfold U32; lia|apply u32_range].
Qed.

Lemma st_clust_safe dir c : 0 <= dir <= SS - SZDIRE -> safe (st_clust dir c) (fun _ => True).
Proof using Type.
  intros Hd. unfold st_clust. safe_step. eapply safe_bind; [apply safe_win_put_word; unfold_consts; lia|].
  intros _ _. safe_step; [apply safe_win_put_word; unfold_consts; lia|by apply safe_ret].
Qed.

(** The turns a loop over the entries has left. *)
Definition entries_left (dp : DIR) : Z := MAX_DIR - dp_dptr dp.

Lemma next_left dp r :
  next_ok dp r -> dir_pos dp -> r.1 = FR_OK -> 0 <= entries_left r.2 < entries_left dp.
Proof using Type.
  intros (_ & (Hp & _) & Hd) _ Hr. specialize (Hd Hr). unfold entries_left. unfold_consts. lia.
Qed.

Lemma entries_fuel dp : dir_pos dp -> entries_left dp < Zpos LOOP_FUEL.
Proof using Type. intros (H & _). unfold entries_left, LOOP_FUEL. unfold_consts. lia. Qed.

(** An entry that was found or allocated: the object stands on it. *)
Definition found_ok (dp : DIR) (r : FRESULT * DIR) : Prop :=
  dir_keeps dp r.2 /\ (r.1 = FR_OK -> dir_pos r.2).

Lemma found_ok_trans a b r : dir_keeps a b -> found_ok b r -> found_ok a r.
Proof using Type. intros H [H1 H2]. split; [by eapply dir_keeps_trans|done]. Qed.

Lemma dir_alloc_safe dp n : dir_w dp -> safe (dir_alloc dp n) (found_ok dp).
Proof using Hgeo.
  intros Hw. unfold dir_alloc. eapply safe_bind; [by apply dir_sdi_safe|].
  intros [r dp1] (Hk1 & Hp1 & _). cbn [fst snd] in *.
  apply (safe_bind _ _ _ _ (found_ok dp)).
  - destruct (fr_eqb_spec r FR_OK) as [->|Hr]; [|by apply safe_ret].
    apply (safe_loop _ _ (fun a => dir_keeps dp a.1 /\ dir_pos a.1) (fun a => entries_left a.1));
      [|by auto|by apply entries_fuel, Hp1].
    intros [dp2 k] [Hk2 Hp2]. cbn [fst snd] in *. unfold dir_alloc_body.
    pose proof (dir_pos_bounds _ Hp2) as Hb. pose proof (dw_sect _ (proj1 Hk2)).
    safe_step. safe_step; [by apply safe_ret|].
    eapply safe_bind; [apply safe_win_at; unfold_consts; lia|]. intros b _. cbv zeta.
    safe_step; [by apply safe_ret|].
    eapply safe_bind; [apply dir_next_safe; [apply Hk2|done]|]. intros [r3 dp3] Hn.
    pose proof (dir_keeps_trans _ _ _ Hk2 (proj1 Hn)) as Hk3.
    destruct (fr_eqb_spec r3 FR_OK) as [->|]; apply safe_ret; [|by split].
    pose proof (next_left _ _ Hn Hp2 eq_refl). split; [|done]. split; [done|apply Hn].
  - intros [r2 dp2] [Hk2 Hp2]. apply safe_ret. split; [done|]. cbn [fst snd] in *.
    destruct (fr_eqb_spec r2 FR_NO_FILE); done.
Qed.

Lemma dir_read_safe dp vol : dir_w dp -> dir_pos dp ->
  safe (dir_read dp vol) (fun r => dir_keeps dp r.2 /\ dir_pos r.2).
Proof using Type.
  intros Hw Hp. unfold dir_read. eapply safe_bind.
  - apply (safe_loop _ _ (fun a => dir_keeps dp a.2 /\ dir_pos a.2) (fun a => entries_left a.2)
      (fun a => dir_keeps dp a.2 /\ dir_pos a.2)); [|done|by apply entries_fuel].
    intros [r2 dp2] [Hk2 Hp2]. cbn [fst snd] in *. unfold dir_read_body.
    pose proof (dir_pos_bounds _ Hp2) as Hb. pose proof (dw_sect _ (proj1 Hk2)).
    safe_step; [|by apply safe_ret]. safe_step. safe_step; [by apply safe_ret|].
    eapply safe_bind; [apply safe_win_at; unfold_consts; lia|]. intros b _.
    safe_step; [by apply safe_ret|].
    eapply safe_bind; [apply safe_win_at; unfold_consts; lia|]. intros at' _. cbv zeta.
    set (dp3 := set_attr (Z.land at' AM_MASK) dp2).
    assert (dir_keeps dp dp3 /\ dir_pos dp3) as [Hk3 Hp3].
    { split; [|exact Hp2]. split; [apply dir_w_set_attr, Hk2|apply Hk2]. }
    safe_step; [by apply safe_ret|].
    eapply safe_bind; [apply dir_next_safe; [apply Hk3|done]|]. intros [r4 dp4] Hn.
    pose proof (dir_keeps_trans _ _ _ Hk3 (proj1 Hn)) as Hk4.
    destruct (fr_eqb_spec r4 FR_OK) as [->|]; apply safe_ret; [|split; [done|apply Hn]].
    pose proof (next_left _ _ Hn Hp3 eq_refl). split; [|done]. split; [done|apply Hn].
  - intros [r dp1] [Hk1 Hp1]. apply safe_ret. cbn [fst snd] in *.
    destruct (r =r FR_OK); cbn [negb]; [done|]. split; [|exact Hp1].
    split; [apply dir_w_set_sect; [apply Hk1|done]|apply Hk1].
Qed.

Lemma dir_find_safe dp : dir_w dp -> safe (dir_find dp) (found_ok dp).
Proof using Hgeo.
  intros Hw. unfold dir_find. eapply safe_bind; [by apply dir_sdi_safe|].
  intros [r dp1] (Hk1 & Hp1 & _). cbn [fst snd] in *.
  destruct (fr_eqb_spec r FR_OK) as [->|Hr]; cbn [negb]; [|by apply safe_ret].
  apply (safe_loop _ _ (fun a => dir_keeps dp a /\ dir_pos a) entries_left);
    [|by auto|by apply entries_fuel, Hp1].
  intros dp2 [Hk2 Hp2]. unfold dir_find_body.
  pose proof (dir_pos_bounds _ Hp2) as Hb. pose proof (dw_sect _ (proj1 Hk2)).
  safe_step. safe_step; [by apply safe_ret|].
  eapply safe_bind; [apply safe_win_at; unfold_consts; lia|]. intros b _.
  safe_step; [by apply safe_ret|].
  eapply safe_bind; [apply safe_win_at; unfold_consts; lia|]. intros at' _. cbv zeta.
  set (dp3 := set_attr (Z.land at' AM_MASK) dp2).
  assert (dir_keeps dp dp3 /\ dir_pos dp3) as [Hk3 Hp3].
  { split; [|exact Hp2]. split; [apply dir_w_set_attr, Hk2|apply Hk2]. }
  eapply safe_bind; [apply safe_win_slice; [apply Hb|done|change (dp_dir dp3) with (dp_dir dp2); unfold_consts; lia]|].
  intros name _. eapply safe_bind; [apply safe_chk_slice; [done|done|]|].
  { rewrite (dw_fn _ (proj1 Hk3)). done. }
  intros fn _. safe_step; [by apply safe_ret|].
  eapply safe_bind; [apply dir_next_safe; [apply Hk3|done]|]. intros [r4 dp4] Hn.
  pose proof (dir_keeps_trans _ _ _ Hk3 (proj1 Hn)) as Hk4.
  destruct (fr_eqb_spec r4 FR_OK) as [->|]; apply safe_ret; [|by split].
  pose proof (next_left _ _ Hn Hp3 eq_refl). split; [|done]. split; [done|apply Hn].
Qed.

Lemma dir_register_safe dp : dir_w dp -> safe (dir_register dp) (found_ok dp).
Proof using Hgeo.
  intros Hw. unfold dir_register. eapply safe_bind; [by apply dir_alloc_safe|].
  intros [r dp1] [Hk1 Hp1]. cbn [fst snd] in *.
  destruct (fr_eqb_spec r FR_OK) as [->|]; [|by apply safe_ret].
  specialize (Hp1 eq_refl). pose proof (dir_pos_bounds _ Hp1) as Hb.
  pose proof (dw_sect _ (proj1 Hk1)). safe_step. safe_step; [|by apply safe_ret].
  eapply safe_bind; [apply safe_win_memset; unfold_consts; lia|]. intros _ _.
  eapply safe_bind; [apply safe_chk_slice; [done|done|]|].
  { rewrite (dw_fn _ (proj1 Hk1)). done. }
  intros fn Hfn. cbv beta in Hfn.
  eapply safe_bind; [apply safe_win_splice; unfold_consts; lia|]. intros _ _.
  safe_step. by apply safe_ret.
Qed.

Lemma dir_remove_safe dp : dir_w dp -> dir_pos dp -> safe (dir_remove dp) (fun _ => True).
Proof using Type.
  intros Hw Hp. unfold dir_remove. pose proof (dir_pos_bounds _ Hp) as Hb.
  pose proof (dw_sect _ Hw). safe_step. safe_step; [|by apply safe_ret].
  eapply safe_bind; [apply safe_win_put; unfold_consts; lia|]. intros _ _.
  safe_step. by apply safe_ret.
Qed.

(** The name buffer of 13 bytes holds 8 + 3 characters, the dot and the zero. *)
Lemma get_fileinfo_name_safe k dir si di fname :
  0 <= dir <= SS - SZDIRE -> 0 <= si -> si + Z.of_nat k = 11 -> 0 <= di ->
  di <= si + (if si >=? 9 then 1 else 0) -> len fname = 13 ->
  safe (get_fileinfo_name k dir si di fname) (fun r => 0 <= r.1 <= 12 /\ len r.2 = 13).
Proof using Type.
  intros Hd. revert si di fname. induction k as [|k IH]; intros si di fname Hsi Hk Hdi Hle Hf;
    cbn [get_fileinfo_name].
  { apply safe_ret. cbn. destruct (Z.geb_spec si 9); lia. }
  eapply safe_bind; [apply safe_win_at; unfold_consts; lia|]. intros c _. cbv zeta.
  safe_step; [apply IH; try lia; destruct (Z.geb_spec si 9), (Z.geb_spec (si + 1) 9); lia|].
  apply (safe_bind _ _ _ _ (fun x => 0 <= x.1 <= si + (if si + 1 >=? 9 then 1 else 0) /\ len x.2 = 13)).
  - destruct (Z.eqb_spec (si + 1) 9) as [E|E].
    + eapply safe_bind; [apply safe_chk_upd; destruct (Z.geb_spec si 9); lia|]. intros f1 Hf1.
      cbv beta in Hf1. apply safe_ret. cbn. split; [|lia].
      destruct (Z.geb_spec si 9), (Z.geb_spec (si + 1) 9); lia.
    + apply safe_ret. cbn. split; [|lia].
      destruct (Z.geb_spec si 9), (Z.geb_spec (si + 1) 9); lia.
  - intros [di1 f1] [Hd1 Hf1]. cbn [fst snd] in *.
    eapply safe_bind; [apply safe_chk_upd; destruct (Z.geb_spec (si + 1) 9); lia|]. intros f2 Hf2.
    cbv beta in Hf2. apply IH; try lia; destruct (Z.geb_spec (si + 1) 9); lia.
Qed.

(** The name field of a FILINFO: 13 bytes that hold a C string. *)
Definition name_ok (l : list byte) : Prop := len l = 13 /\ x00 ∈ l.

Lemma safe_end_name (f : list byte) i :
  len f = 13 -> 0 <= i < 13 -> safe (chk (upd f i x00)) name_ok.
Proof using Type.
  intros Hl Hi. destruct (upd_is_Some f i x00) as (r & Hr & Hrl); [lia|]. rewrite Hr.
  apply safe_ret. split; [lia|]. pose proof (at_upd _ _ _ _ i Hr) as Ha. rewrite Z.eqb_refl in Ha.
  rewrite at_lookup in Ha by lia. by eapply list_elem_of_lookup_2.
Qed.

Lemma get_fileinfo_safe dp fno :
  dir_pos dp -> len (fi_fname fno) = 13 ->
  safe (get_fileinfo dp fno) (fun i => name_ok (fi_fname i)).
Proof using Type.
  intros Hp Hf. unfold get_fileinfo. pose proof (dir_pos_bounds _ Hp) as Hb.
  eapply safe_bind; [apply safe_end_name; lia|]. intros f1 Hf1. cbv beta in Hf1. cbv zeta.
  safe_step; [by apply safe_ret|]. destruct Hf1 as [Hf1 _].
  eapply safe_bind; [apply get_fileinfo_name_safe; cbn; lia|].
  intros [di f2] [Hdi Hf2]. cbn [fst snd] in *.
  eapply safe_bind; [apply safe_end_name; lia|]. intros f3 Hf3. cbv beta in Hf3.
  eapply safe_bind; [apply safe_win_at; unfold_consts; lia|]. intros a _.
  eapply safe_bind; [apply safe_win_dword; unfold_consts; lia|]. intros sz _.
  eapply safe_bind; [apply safe_win_word; unfold_consts; lia|]. intros tm _.
  eapply safe_bind; [apply safe_win_word; unfold_consts; lia|]. intros dt _.
  by apply safe_ret.
Qed.

End safety.
