(* ===== verification/Path.v ===== *)
(** * Path names

    [create_name], [follow_path] and [get_ldnumber] of ff.c.  A path is a C
    string inside an object [p] of bytes, read with checked accesses from an
    offset; a pointer into it is that offset.

    Whether a plain [char] is signed is left to the C implementation; the
    class [Platform] carries it, as [create_name] compares such a value. *)

From stdpp Require Import base numbers list option sets.
From Stdlib Require Import ZArith Lia.
From Stdlib Require Import Strings.Byte.
From S2P Require Import Prelude Types Bytes Diskio Window Fat Chain Dir.

(** What C leaves to the implementation: the signedness of [char] (signed on
    x86, unsigned on RISC-V and ARM) and the content of a [DIR] on the stack
    before it is initialised. *)
Class Platform : Type := { char_signed : bool; uninit_dir : DIR }.

(** ** Character classes of ff.c *)

Definition IsLower (c : Z) : bool := (c >=? 0x61) && (c <=? 0x7A).
Definition IsDigit (c : Z) : bool := (c >=? 0x30) && (c <=? 0x39).
Definition IsSeparator (c : Z) : bool := (c =? 0x2F) || (c =? 0x5C).
(** [(UINT)c < '!']: a negative [char] becomes a large number. *)
Definition IsTerminator (c : Z) : bool := c <? 0x21.

(** Code page 437 has no double-byte characters. *)
Definition dbc_1st (c : Z) : bool := if nz c then false else false.
Definition dbc_2nd (c : Z) : bool := if nz c then false else false.

(** The up-case table of code page 437. *)
Definition ExCvt : list Z :=
  [0x80;0x9A;0x45;0x41;0x8E;0x41;0x8F;0x80;0x45;0x45;0x45;0x49;0x49;0x49;0x8E;0x8F;
   0x90;0x92;0x92;0x4F;0x99;0x4F;0x55;0x55;0x59;0x99;0x9A;0x9B;0x9C;0x9D;0x9E;0x9F;
   0x41;0x49;0x4F;0x55;0xA5;0xA5;0xA6;0xA7;0xA8;0xA9;0xAA;0xAB;0xAC;0xAD;0xAE;0xAF;
   0xB0;0xB1;0xB2;0xB3;0xB4;0xB5;0xB6;0xB7;0xB8;0xB9;0xBA;0xBB;0xBC;0xBD;0xBE;0xBF;
   0xC0;0xC1;0xC2;0xC3;0xC4;0xC5;0xC6;0xC7;0xC8;0xC9;0xCA;0xCB;0xCC;0xCD;0xCE;0xCF;
   0xD0;0xD1;0xD2;0xD3;0xD4;0xD5;0xD6;0xD7;0xD8;0xD9;0xDA;0xDB;0xDC;0xDD;0xDE;0xDF;
   0xE0;0xE1;0xE2;0xE3;0xE4;0xE5;0xE6;0xE7;0xE8;0xE9;0xEA;0xEB;0xEC;0xED;0xEE;0xEF;
   0xF0;0xF1;0xF2;0xF3;0xF4;0xF5;0xF6;0xF7;0xF8;0xF9;0xFA;0xFB;0xFC;0xFD;0xFE;0xFF].

(** The characters [strchr] looks for in [create_name]. *)
Definition sfn_illegal : list Z :=
  [0x2A; 0x2B; 0x2C; 0x3A; 0x3B; 0x3C; 0x3D; 0x3E; 0x5B; 0x5D; 0x7C; 0x22; 0x3F; 0x7F].

(** The volume names: one, RAM. *)
Definition VolumeStr : list (list byte) := [[x52; x41; x4d; x00]].

Section path.
Context {Pf : Platform} {St : Type}.

(** [p\[i\]] as a number from 0 to 255. *)
Definition ch (p : list byte) (i : Z) : M St Z := b <- chk (at_ p i) ;; ret (bval b).

(** The test [c <= ' '] on a plain [char]. *)
Definition char_le_space (c : Z) : bool := (c <=? 0x20) || (char_signed && (c >=? 0x80)).

(** [while (IsSeparator (p\[i\])) i++]. *)
Definition skip_sep (p : list byte) (i : Z) : M St Z :=
  loop (fun i => c <- ch p i ;; ret (if IsSeparator c then inl (i + 1) else inr i)) i.

(** The state of the loop of [create_name]: [si], [i], [ni] and [sfn]; it is
    left with [inl sfn] for an invalid name, or with the last character. *)
Definition create_name_body (p : list byte) (a : Z * Z * Z * list byte) :
    M St (Z * Z * Z * list byte + (list byte + Z * Z * Z * list byte)) :=
  let '(si, i, ni, sfn) := a in
  c <- ch p si ;;
  let si := si + 1 in
  if c <=? 0x20 then ret (inr (inr (c, si, i, sfn)))
  else if IsSeparator c then
    si <- skip_sep p si ;; ret (inr (inr (c, si, i, sfn)))
  else if (c =? 0x2E) || (i >=? ni) then
    if (ni =? 11) || negb (c =? 0x2E) then ret (inr (inl sfn))
    else ret (inl (si, 8, 11, sfn))
  else
    c <- (if c >=? 0x80 then chk (at_ ExCvt (Z.land c 0x7F)) else ret c) ;;
    if dbc_1st c then
      d <- ch p si ;;
      let si := si + 1 in
      if negb (dbc_2nd d) || (i >=? ni - 1) then ret (inr (inl sfn)) else
      sfn <- chk (upd sfn i (mkb c)) ;;
      sfn <- chk (upd sfn (i + 1) (mkb d)) ;;
      ret (inl (si, i + 2, ni, sfn))
    else
      if bool_decide (c ∈ sfn_illegal) then ret (inr (inl sfn)) else
      let c := if IsLower c then c - 0x20 else c in
      sfn <- chk (upd sfn i (mkb c)) ;;
      ret (inl (si, i + 1, ni, sfn)).

(** The result code, the directory object with the new name, and the new
    value of the path pointer. *)
Definition create_name (dp : DIR) (p : list byte) (path : Z) : M St (FRESULT * DIR * Z) :=
  sfn <- chk (splice (dp_fn dp) 0 (replicate 11 x20)) ;;
  r <- loop (create_name_body p) (path, 0, 8, sfn) ;;
  match r with
  | inl sfn => ret (FR_INVALID_NAME, set_dp_fn sfn dp, path)
  | inr (c, si, i, sfn) =>
    let path := si in
    if i =? 0 then ret (FR_INVALID_NAME, set_dp_fn sfn dp, path) else
    b <- ch sfn 0 ;;
    sfn <- (if b =? DDEM then chk (upd sfn 0 (mkb RDDEM)) else ret sfn) ;;
    last <- (if c <=? 0x20 then ret true
             else c <- ch p si ;; ret (char_le_space c)) ;;
    sfn <- chk (upd sfn NSFLAG (mkb (if last then NS_LAST else 0))) ;;
    ret (FR_OK, set_dp_fn sfn dp, path)
  end.

(** *** Drive numbers *)

(** [do chr = *tt++; while (!IsTerminator (chr) && chr != ':')]: the last
    character read and the offset after it. *)
Definition find_colon (p : list byte) (te : Z) : M St (Z * Z) :=
  loop (fun te => chr <- ch p te ;;
          ret (if negb (IsTerminator chr) && negb (chr =? 0x3A) then inl (te + 1)
               else inr (chr, te + 1))) te.

(** Compare a volume name with the path, case-insensitively: the last
    character of the name that was read and the offset after the last one of
    the path. *)
Definition cmp_volume (vs p : list byte) (tp : Z) : M St (Z * Z) :=
  loop (fun a : Z * Z => let '(j, tp) := a in
          vchr <- ch vs j ;; chr <- ch p tp ;;
          let vchr := if IsLower vchr then vchr - 0x20 else vchr in
          let chr := if IsLower chr then chr - 0x20 else chr in
          ret (if nz vchr && (vchr =? chr) then inl (j + 1, tp + 1) else inr (vchr, tp + 1)))
       (0, tp).

Fixpoint find_volume_id (vols : list (list byte)) (p : list byte) (path te i : Z) : M St Z :=
  match vols with
  | [] => ret i
  | vs :: vols =>
    do (vchr, tp) <- cmp_volume vs p path ;;
    if nz vchr || negb (tp =? te) then find_volume_id vols p path te (i + 1) else ret i
  end.

(** The logical drive number and the new value of the path pointer; -1 for an
    invalid drive or a null path. *)
Definition get_ldnumber (path : option (list byte)) : M St (Z * Z) :=
  match path with
  | None => ret (-1, 0)
  | Some p =>
    do (chr, te) <- find_colon p 0 ;;
    if chr =? 0x3A then
      c0 <- ch p 0 ;;
      i <- (if IsDigit c0 && (2 =? te) then ret (c0 - 0x30)
            else find_volume_id VolumeStr p 0 te 0) ;;
      if i >=? FF_VOLUMES then ret (-1, 0) else ret (i, te)
    else ret (0, 0)
  end.

End path.

(** ** Following a path *)

Section follow.
Context {Pf : Platform} {D : Type} `{!DiskIO D}.
Abbreviation V := (M (vol D)).

Definition set_sclust (c : Z) (dp : DIR) : DIR := set_dp_obj (set_obj_sclust c (dp_obj dp)) dp.

Definition follow_path_body (p : list byte) (a : DIR * Z) : V (DIR * Z + FRESULT * DIR) :=
  let '(dp, path) := a in
  do (res, dp, path) <- create_name dp p path ;;
  if negb (res =r FR_OK) then ret (inr (res, dp)) else
  do (res, dp) <- dir_find dp ;;
  ns <- ch (dp_fn dp) NSFLAG ;;
  if negb (res =r FR_OK) then
    ret (inr (if (res =r FR_NO_FILE) && negb (nz (Z.land ns NS_LAST)) then FR_NO_PATH else res, dp))
  else if nz (Z.land ns NS_LAST) then ret (inr (res, dp))
  else if negb (nz (Z.land (obj_attr (dp_obj dp)) AM_DIR)) then ret (inr (FR_NO_PATH, dp))
  else
    c <- ld_clust (dp_dptr dp mod SS) ;;
    ret (inl (set_sclust c dp, path)).

Definition follow_path (dp : DIR) (p : list byte) (path : Z) : V (FRESULT * DIR) :=
  path <- skip_sep p path ;;
  let dp := set_sclust 0 dp in
  c <- ch p path ;;
  if c <? 0x20 then
    fn <- chk (upd (dp_fn dp) NSFLAG (mkb NS_NONAME)) ;;
    dir_sdi (set_dp_fn fn dp) 0
  else loop (follow_path_body p) (dp, path).

End follow.

(** ** Strings *)

(** A C string from offset [i] of the object [p]: a zero byte follows. *)
Definition cstr (p : list byte) (i : Z) : Prop :=
  0 <= i /\ len p < U32 /\ exists k, i <= k /\ at_ p k = Some x00.

Lemma cstr_at p i : cstr p i -> exists b, at_ p i = Some b /\ 0 <= i < len p.
Proof.
  intros (Hi & Hp & k & Hk & Hz). apply at_Some_range in Hz.
  destruct (at_is_Some p i) as [b Hb]; [lia|]. exists b. split; [done|lia].
Qed.

Lemma bval_zero : bval x00 = 0.
Proof. done. Qed.

(** The character after one that is not zero still belongs to the string. *)
Lemma cstr_next p i b : cstr p i -> at_ p i = Some b -> bval b <> 0 -> cstr p (i + 1).
Proof.
  intros (Hi & Hp & k & Hk & Hz) Hb Hne. split_and!; [lia|done|]. exists k. split; [|done].
  destruct (Z.eq_dec k i) as [->|]; [|lia]. rewrite Hb in Hz. injection Hz as ->. done.
Qed.

Section strings.
Context {Pf : Platform} {St : Type}.

Lemma ch_runs p i : 0 <= i < len p ->
  runs (S := St) (ch p i) (fun c => exists b, at_ p i = Some b /\ c = bval b).
Proof using Type.
  intros Hi. destruct (at_is_Some p i Hi) as [b Hb]. apply (runs_bind _ _ (eq b)).
  - apply runs_chk. eauto.
  - intros a <-. apply runs_ret. eauto.
Qed.

Lemma cstr_ch p i : cstr p i ->
  runs (S := St) (ch p i) (fun c => exists b, at_ p i = Some b /\ c = bval b).
Proof using Type. intros H. apply ch_runs. by destruct (cstr_at _ _ H) as (b & _ & ?). Qed.

Lemma str_fuel (p : list byte) i : 0 <= i -> len p < U32 -> len p - i < Zpos LOOP_FUEL.
Proof using Type. unfold LOOP_FUEL, U32. lia. Qed.

Lemma skip_sep_runs p i : cstr p i -> runs (S := St) (skip_sep p i) (fun j =>
  i <= j /\ cstr p j /\ (forall k, i <= k < j -> exists b, at_ p k = Some b /\ IsSeparator (bval b) = true) /\
  exists b, at_ p j = Some b /\ IsSeparator (bval b) = false).
Proof using Type.
  intros Hc. unfold skip_sep.
  apply (runs_loop (fun j => i <= j /\ cstr p j /\
    forall k, i <= k < j -> exists b, at_ p k = Some b /\ IsSeparator (bval b) = true) (fun j => len p - j)).
  - intros j (Hj & Hs & Hall). eapply runs_bind; [by apply cstr_ch|]. intros c (b & Hb & ->).
    apply runs_ret. destruct (IsSeparator (bval b)) eqn:E; [|by eauto 10].
    pose proof (at_Some_range _ _ _ Hb). split; [|lia]. split; [lia|]. split.
    + eapply cstr_next; [done|done|]. intros E0. by rewrite E0 in E.
    + intros k Hk. destruct (Z.eq_dec k j) as [->|]; [by eauto|]. apply Hall. lia.
  - split_and!; [lia|done|]. intros k Hk. lia.
  - destruct Hc as (? & ? & _). by apply str_fuel.
Qed.

(** *** Characters of a name *)

(** A character of a name as it is stored, if it is legal: capital letters,
    code page 437. *)
Definition sfn_char (c : Z) : option Z :=
  let c := if c >=? 0x80 then default 0 (at_ ExCvt (Z.land c 0x7F)) else c in
  if bool_decide (c ∈ sfn_illegal) then None
  else Some (if IsLower c then c - 0x20 else c).

Lemma excvt_some c : 0x80 <= c < 256 -> exists x, at_ ExCvt (Z.land c 0x7F) = Some x /\ 0x41 <= x < 256.
Proof using Type.
  intros Hc. assert (0 <= Z.land c 127 < 128) as Hr.
  { change 127 with (Z.ones 7). rewrite Z.land_ones by lia. apply Z.mod_pos_bound. lia. }
  destruct (at_is_Some ExCvt (Z.land c 127)) as [x Hx]; [done|]. exists x. split; [done|].
  assert (Forall (fun x => 0x41 <= x < 256) ExCvt) as Hall by (by apply (bool_decide_unpack _); vm_compute).
  rewrite at_lookup in Hx by lia. exact (Forall_lookup_1 _ _ _ _ Hall Hx).
Qed.

(** *** The reference: a path segment as an 8.3 name *)

Definition seg_end (c : Z) : bool := (c <=? 0x20) || IsSeparator c.

(** The characters of the first segment. *)
Fixpoint seg_of (l : list byte) : list Z :=
  match l with
  | [] => []
  | b :: l => if seg_end (bval b) then [] else bval b :: seg_of l
  end.

(** Split at the first dot. *)
Fixpoint split_dot (l : list Z) : list Z * option (list Z) :=
  match l with
  | [] => ([], None)
  | c :: l => if c =? 0x2E then ([], Some l)
              else let '(a, e) := split_dot l in (c :: a, e)
  end.

Definition pad (n : Z) (l : list Z) : list byte :=
  map mkb l ++ replicate (Z.to_nat (n - len l)) x20.

(** The eleven bytes of a name: at most 8 characters, then at most 3 after the
    only dot; [None] for anything else. *)
Definition sfn_of (seg : list Z) : option (list byte) :=
  let '(base, ext) := split_dot seg in
  let e := default [] ext in
  if bool_decide (0x2E ∈ e) || bool_decide (seg = []) || (8 <? len base) || (3 <? len e) then None
  else b ← mapM sfn_char base; e ← mapM sfn_char e; Some (pad 8 b ++ pad 3 e).

Lemma split_dot_app a l :
  0x2E ∉ a -> split_dot (a ++ l) = (a ++ (split_dot l).1, (split_dot l).2).
Proof using Type.
  induction a as [|c a IH]; intros Ha; cbn [app split_dot]; [by destruct (split_dot l)|].
  rewrite (proj2 (Z.eqb_neq c 0x2E)) by set_solver. rewrite IH by set_solver. done.
Qed.

Lemma len_map_mkb (l : list Z) : len (map mkb l) = len l.
Proof using Type. unfold len. by rewrite length_map. Qed.

Lemma len_pad n l : len l <= n -> len (pad n l) = n.
Proof using Type.
  intros H. unfold pad. rewrite len_app, len_map_mkb, len_replicate by lia. lia.
Qed.

(** Storing the next character of a field. *)
Lemma upd_pad pre n l x post :
  len l < n -> upd (pre ++ pad n l ++ post) (len pre + len l) (mkb x) = Some (pre ++ pad n (l ++ [x]) ++ post).
Proof using Type.
  intros Hl. destruct (upd_is_Some (pre ++ pad n l ++ post) (len pre + len l) (mkb x)) as (r & Hr & _).
  { rewrite !len_app, len_pad by lia. pose proof (len_nonneg pre). pose proof (len_nonneg l).
    pose proof (len_nonneg post). lia. }
  rewrite Hr. f_equal. unfold upd in Hr. apply splice_Some_inv in Hr as (_ & _ & _ & ->).
  change (len [mkb x]) with 1. unfold pad. rewrite map_app, len_app. change (len [x]) with 1.
  assert (replicate (Z.to_nat (n - len l)) x20 = x20 :: replicate (Z.to_nat (n - (len l + 1))) x20) as ->.
  { replace (Z.to_nat (n - len l)) with (S (Z.to_nat (n - (len l + 1)))) by lia. done. }
  pose proof (len_nonneg pre). pose proof (len_nonneg l).
  replace (Z.to_nat (len pre + len l)) with (length (pre ++ map mkb l))
    by (rewrite length_app, length_map; unfold len; lia).
  replace (Z.to_nat (len pre + len l + 1)) with (length (pre ++ map mkb l ++ [x20]))
    by (rewrite !length_app, length_map; unfold len; simpl; lia).
  replace (pre ++ (map mkb l ++ x20 :: replicate (Z.to_nat (n - (len l + 1))) x20) ++ post)
    with ((pre ++ map mkb l) ++ x20 :: replicate (Z.to_nat (n - (len l + 1))) x20 ++ post) at 1
    by (by rewrite <- !app_assoc).
  rewrite take_app_length.
  replace (pre ++ (map mkb l ++ x20 :: replicate (Z.to_nat (n - (len l + 1))) x20) ++ post)
    with ((pre ++ map mkb l ++ [x20]) ++ replicate (Z.to_nat (n - (len l + 1))) x20 ++ post)
    by (by rewrite <- !app_assoc).
  rewrite drop_app_length. by rewrite <- !app_assoc.
Qed.

Lemma seg_of_list (l : list byte) :
  (exists k, l !! k = Some x00) ->
  (forall dn c rest, seg_of l = dn ++ c :: rest ->
     exists b, l !! length dn = Some b /\ bval b = c /\ seg_end c = false) /\
  (exists b, l !! length (seg_of l) = Some b /\ seg_end (bval b) = true) /\
  (exists k, (length (seg_of l) <= k)%nat /\ l !! k = Some x00).
Proof using Type.
  induction l as [|b l IH]; intros [k Hk]; [done|]. cbn [seg_of].
  destruct (seg_end (bval b)) eqn:E.
  - split; [by intros [|? ?] c rest|]. split; [by exists b|]. exists k. split; [simpl; lia|done].
  - destruct k as [|k]; [cbn in Hk; injection Hk as ->; done|].
    destruct IH as (H1 & H2 & k' & Hk' & Hz); [by exists k|]. split_and!.
    + intros [|c' dn] c rest; cbn; intros Heq; simplify_eq; [by exists b|]. by eapply H1.
    + exact H2.
    + exists (S k'). split; [simpl; lia|done].
Qed.

(** The characters read so far: the body, and what follows a dot. *)
Definition read_so_far (b : list Z) (oe : option (list Z)) : list Z :=
  b ++ match oe with None => [] | Some e => 0x2E :: e end.

Lemma mapM_len (l l' : list Z) : mapM sfn_char l = Some l' -> len l' = len l.
Proof using Type. intros H. apply mapM_Some, Forall2_length in H. unfold len. lia. Qed.

Lemma split_so_far b oe rest :
  0x2E ∉ b ->
  split_dot (read_so_far b oe ++ rest) =
    match oe with
    | None => (b ++ (split_dot rest).1, (split_dot rest).2)
    | Some e => (b, Some (e ++ rest))
    end.
Proof using Type.
  intros Hb. unfold read_so_far. destruct oe as [e|]; rewrite <- app_assoc, split_dot_app by done; [|done].
  cbn. by rewrite app_nil_r.
Qed.

(** When a character makes the name invalid, whatever follows it. *)
Definition stuck (b : list Z) (oe : option (list Z)) (c : Z) : Prop :=
  (c = 0x2E /\ is_Some oe) \/
  (c <> 0x2E /\ (8 <= len b /\ oe = None \/ 3 <= len (default [] oe) /\ is_Some oe \/ sfn_char c = None)).

Lemma sfn_of_stuck b oe c rest :
  0x2E ∉ b -> stuck b oe c -> sfn_of (read_so_far b oe ++ c :: rest) = None.
Proof using Type.
  intros Hb Hs. unfold sfn_of. rewrite split_so_far by done.
  destruct oe as [e|].
  - change (default [] (Some (e ++ c :: rest))) with (e ++ c :: rest).
    destruct (_ || _) eqn:E; [done|].
    apply orb_false_elim in E as [[[Ed _]%orb_false_elim _]%orb_false_elim Hlen%Z.ltb_ge].
    destruct (mapM sfn_char b); [|done]. cbn [mbind option_bind].
    rewrite (proj2 (mapM_None _ _)); [done|].
    apply bool_decide_eq_false in Ed. rewrite len_app in Hlen.
    assert (len (c :: rest) = 1 + len rest) as Hcons by (unfold len; simpl; lia).
    pose proof (len_nonneg rest).
    destruct Hs as [[-> _]|[Hne [[_ ?]|[[He _]|Hn]]]]; [set_solver|done|cbn in He; lia|].
    apply Exists_app. right. by constructor.
  - destruct Hs as [[_ [? ?]]|[Hne Hs]]; [done|].
    cbn [split_dot]. rewrite (proj2 (Z.eqb_neq c 0x2E)) by done.
    destruct (split_dot rest) as [a o]; cbn [fst snd].
    destruct (_ || _) eqn:E; [done|].
    apply orb_false_elim in E as [[_ Hlen%Z.ltb_ge]%orb_false_elim _].
    assert (mapM sfn_char (b ++ c :: a) = None) as ->; [|done]. apply mapM_None.
    rewrite len_app in Hlen. assert (len (c :: a) = 1 + len a) as Hcons by (unfold len; simpl; lia).
    pose proof (len_nonneg a).
    destruct Hs as [[He _]|[[_ [? ?]]|Hn]]; [lia|done|]. apply Exists_app. right. by constructor.
Qed.

Lemma sfn_of_end b oe b' e' :
  0x2E ∉ b -> 0x2E ∉ default [] oe -> mapM sfn_char b = Some b' ->
  mapM sfn_char (default [] oe) = Some e' -> len b <= 8 -> len (default [] oe) <= 3 ->
  read_so_far b oe <> [] -> sfn_of (read_so_far b oe) = Some (pad 8 b' ++ pad 3 e').
Proof using Type.
  intros Hb He Hmb Hme Hlb Hle Hne. unfold sfn_of.
  rewrite <- (app_nil_r (read_so_far b oe)) at 1. rewrite split_so_far by done.
  rewrite (bool_decide_eq_false_2 (read_so_far b oe = [])) by done.
  destruct oe as [e|]; cbn [split_dot fst snd] in *; rewrite app_nil_r;
    rewrite bool_decide_eq_false_2 by done; cbn [orb];
    rewrite (proj2 (Z.ltb_ge 8 (len b))) by done.
  - change (default [] (Some e)) with e in *. rewrite (proj2 (Z.ltb_ge 3 (len e))) by done. rewrite Hmb, Hme. done.
  - rewrite (proj2 (Z.ltb_ge 3 (len []))) by done. rewrite Hmb.
    change (Some [] = Some e') in Hme. injection Hme as <-. done.
Qed.

Lemma read_so_far_snoc b oe c :
  read_so_far b oe ++ [c] =
    match oe with None => read_so_far (b ++ [c]) None | Some e => read_so_far b (Some (e ++ [c])) end.
Proof using Type.
  unfold read_so_far. destruct oe as [e|]; rewrite <- !app_assoc; [done|]. by rewrite app_nil_r.
Qed.

Section segment.
Context (p : list byte) (path : Z) (Hstr : cstr p path).
Let seg := seg_of (drop (Z.to_nat path) p).

Lemma seg_facts :
  (forall dn c rest, seg = dn ++ c :: rest ->
     exists b, at_ p (path + len dn) = Some b /\ bval b = c /\ seg_end c = false) /\
  (exists b, at_ p (path + len seg) = Some b /\ seg_end (bval b) = true) /\
  cstr p (path + len seg).
Proof using Hstr.
  pose proof Hstr as (Hp & Hl & k & Hk & Hz).
  rewrite at_lookup in Hz by lia.
  destruct (seg_of_list (drop (Z.to_nat path) p)) as (H1 & H2 & k' & Hk' & Hz').
  { exists (Z.to_nat (k - path)). rewrite lookup_drop. rewrite <- Hz. f_equal. lia. }
  assert (forall m, at_ p (path + Z.of_nat m) = drop (Z.to_nat path) p !! m) as Hat.
  { intros m. rewrite at_lookup, lookup_drop by lia. f_equal. lia. }
  split_and!.
  - intros dn c rest Heq. unfold len. rewrite Hat. by eapply H1.
  - unfold len. rewrite Hat. exact H2.
  - unfold len. split_and!; [lia|done|]. exists (path + Z.of_nat k'). rewrite Hat.
    split; [unfold seg; lia|done].
Qed.

(** Where the segment ends: its last character and the offset after it and
    the separators. *)
Definition seg_stop (c si : Z) : Prop :=
  exists b, at_ p (path + len seg) = Some b /\ c = bval b /\
    ((c <= 0x20 /\ si = path + len seg + 1) \/
     (0x20 < c /\ IsSeparator c = true /\ path + len seg < si /\ cstr p si /\
      (forall k, path + len seg < k < si -> exists b', at_ p k = Some b' /\ IsSeparator (bval b') = true) /\
      exists b', at_ p si = Some b' /\ IsSeparator (bval b') = false)).

Definition name_loop_post (z : byte) (r : list byte + Z * Z * Z * list byte) : Prop :=
  match r with
  | inl sfn => sfn_of seg = None /\ len sfn = 12
  | inr (c, si, i, sfn) =>
      seg_stop c si /\ len sfn = 12 /\ (i = 0 -> sfn_of seg = None) /\
      (i <> 0 -> exists name, sfn_of seg = Some name /\ sfn = name ++ [z])
  end.

Record name_inv (z : byte) (si i ni : Z) (sfn : list byte) (b : list Z) (oe : option (list Z))
    (b' e' rest : list Z) : Prop := {
  ni_seg : seg = read_so_far b oe ++ rest;
  ni_si : si = path + len (read_so_far b oe);
  ni_b : 0x2E ∉ b; ni_e : 0x2E ∉ default [] oe;
  ni_mb : mapM sfn_char b = Some b'; ni_me : mapM sfn_char (default [] oe) = Some e';
  ni_lb : len b <= 8; ni_le : len (default [] oe) <= 3;
  ni_i : i = match oe with None => len b | Some e => 8 + len e end;
  ni_ni : ni = match oe with None => 8 | Some _ => 11 end;
  ni_sfn : sfn = pad 8 b' ++ pad 3 e' ++ [z]
}.

Lemma excvt_char c :
  0x20 < c < 256 -> runs (S := St) (if c >=? 0x80 then chk (at_ ExCvt (Z.land c 0x7F)) else ret c)
    (fun x => x = (if c >=? 0x80 then default 0 (at_ ExCvt (Z.land c 0x7F)) else c) /\ 0x20 < x < 256).
Proof using Type.
  intros Hr. destruct (Z.geb_spec c 0x80); [|by apply runs_ret].
  destruct (excvt_some c) as (x & Hx & Hxr); [lia|]. apply runs_chk. exists x. rewrite Hx.
  split; [done|]. split; [done|lia].
Qed.

Lemma dbc_1st_false c : dbc_1st c = false.
Proof using Type. unfold dbc_1st. by destruct (nz c). Qed.

Lemma notin_snoc (x c : Z) l : x ∉ l -> c <> x -> x ∉ l ++ [c].
Proof using Type. intros Hl Hne [?|?%list_elem_of_singleton]%elem_of_app; [done|congruence]. Qed.

(** A character that is neither a dot nor one too many: it is stored, or it
    makes the name invalid. *)
Lemma name_inv_store z si i ni sfn b oe b' e' c rest x :
  name_inv z si i ni sfn b oe b' e' (c :: rest) -> c <> 0x2E -> i < ni -> sfn_char c = Some x ->
  exists sfn', upd sfn i (mkb x) = Some sfn' /\
    match oe with
    | None => name_inv z (si + 1) (i + 1) ni sfn' (b ++ [c]) None (b' ++ [x]) e' rest
    | Some e => name_inv z (si + 1) (i + 1) ni sfn' b (Some (e ++ [c])) b' (e' ++ [x]) rest
    end.
Proof using Type.
  intros [Hseg Hsi Hb He Hmb Hme Hlb Hle Hi Hni Hsfn] Hc Hlt Hx.
  pose proof (mapM_len _ _ Hmb) as Lb. pose proof (mapM_len _ _ Hme) as Le.
  assert (forall l l', mapM sfn_char l = Some l' -> mapM sfn_char (l ++ [c]) = Some (l' ++ [x])) as Hsnoc.
  { intros l l' Hl. apply mapM_Some. apply mapM_Some in Hl. apply Forall2_app; [done|]. by constructor. }
  assert (forall l : list Z, len (l ++ [c]) = len l + 1) as Hlen by (intros l; by rewrite len_app).
  destruct oe as [e|]; cbn [default from_option] in *; unfold id in *; subst i ni sfn.
  - exists (pad 8 b' ++ pad 3 (e' ++ [x]) ++ [z]). split.
    { pose proof (upd_pad (pad 8 b') 3 e' x [z]) as Hu. rewrite len_pad, Le in Hu by lia. apply Hu. lia. }
    pose proof (read_so_far_snoc b (Some e) c) as Es. cbv iota in Es.
    constructor; try done; cbn [default from_option]; unfold id.
    + rewrite <- Es, <- app_assoc. done.
    + rewrite <- Es, Hlen. lia.
    + by apply notin_snoc.
    + by apply Hsnoc.
    + rewrite Hlen. lia.
    + rewrite Hlen. lia.
  - exists (pad 8 (b' ++ [x]) ++ pad 3 e' ++ [z]). split.
    { pose proof (upd_pad [] 8 b' x (pad 3 e' ++ [z])) as Hu. change (len []) with 0 in Hu.
      rewrite Lb in Hu. apply Hu. lia. }
    pose proof (read_so_far_snoc b None c) as Es. cbv iota in Es.
    constructor; try done; cbn [default from_option]; unfold id.
    + rewrite <- Es, <- app_assoc. done.
    + rewrite <- Es, Hlen. lia.
    + by apply notin_snoc.
    + by apply Hsnoc.
    + rewrite Hlen. lia.
Qed.

Lemma name_inv_len z si i ni sfn b oe b' e' rest :
  name_inv z si i ni sfn b oe b' e' rest -> len sfn = 12.
Proof using Type.
  intros [Hseg Hsi Hb He Hmb Hme Hlb Hle Hi Hni Hsfn].
  pose proof (mapM_len _ _ Hmb). pose proof (mapM_len _ _ Hme).
  rewrite Hsfn, !len_app, !len_pad by lia. done.
Qed.

(** One turn of the loop on a character of the segment. *)
Lemma name_turn z si i ni sfn b oe b' e' c rest :
  name_inv z si i ni sfn b oe b' e' (c :: rest) ->
  runs (S := St) (create_name_body p (si, i, ni, sfn)) (fun r => match r with
    | inl (si', i', ni', sfn') =>
        si' = si + 1 /\ exists b1 oe1 b1' e1', name_inv z si' i' ni' sfn' b1 oe1 b1' e1' rest
    | inr r => name_loop_post z r
    end).
Proof using Hstr.
  intros Hinv. pose proof Hinv as [Hseg Hsi Hb He Hmb Hme Hlb Hle Hi Hni Hsfn].
  destruct (proj1 seg_facts _ _ _ Hseg) as (bc & Hbc & Hcv & Hend). rewrite <- Hsi in Hbc.
  assert (stuck b oe c -> name_loop_post z (inl sfn)) as Hstuck.
  { intros Hst. split; [|by eapply name_inv_len]. rewrite Hseg. by apply sfn_of_stuck. }
  unfold create_name_body. eapply runs_bind.
  { apply ch_runs. by apply at_Some_range in Hbc. }
  intros c1 (b1 & Hb1 & ->). rewrite Hbc in Hb1. injection Hb1 as <-. rewrite Hcv.
  unfold seg_end in Hend. apply orb_false_elim in Hend as [Hsp Hsep]. rewrite Hsp, Hsep.
  rewrite Z.leb_gt in Hsp. pose proof (bval_range bc) as Hrng. rewrite Hcv in Hrng.
  destruct (Z.eqb_spec c 0x2E) as [->|Hdot]; cbn [orb negb].
  { rewrite orb_false_r. destruct oe as [e|]; rewrite Hni.
    - rewrite Z.eqb_refl. apply runs_ret, Hstuck. left. by split.
    - change (8 =? 11) with false. apply runs_ret. split; [done|].
      exists b, (Some []), b', e'. constructor; try done.
      + rewrite Hseg. unfold read_so_far. by rewrite app_nil_r, <- app_assoc.
      + unfold read_so_far in *. rewrite Hsi, app_nil_r, len_app. change (len [46]) with 1. lia. }
  destruct (Z.geb_spec i ni) as [Hge|Hlt].
  { rewrite orb_true_r. apply runs_ret, Hstuck. right. split; [done|].
    destruct oe as [e|]; subst i ni; [right; left|left]; split; try done; cbn; lia. }
  eapply runs_bind; [apply excvt_char; lia|]. intros c2 [Hc2 Hr2]. rewrite dbc_1st_false.
  destruct (bool_decide (c2 ∈ sfn_illegal)) eqn:Eill.
  { apply runs_ret, Hstuck. right. split; [done|]. right; right. unfold sfn_char.
    rewrite <- Hc2, Eill. done. }
  destruct (name_inv_store z si i ni sfn b oe b' e' c rest (if IsLower c2 then c2 - 0x20 else c2))
    as (sfn' & Hupd & Hnew); [done|done|lia|unfold sfn_char; by rewrite <- Hc2, Eill|].
  eapply (runs_bind _ _ (eq sfn')); [apply runs_chk; eauto|]. intros ? <-. apply runs_ret.
  split; [done|]. destruct oe; eauto 10.
Qed.

Lemma name_loop_spec z sfn :
  sfn = replicate 11 x20 ++ [z] ->
  runs (S := St) (loop (create_name_body p) (path, 0, 8, sfn)) (name_loop_post z).
Proof using Hstr.
  intros Hsfn. destruct seg_facts as (_ & (bt & Hbt & Hend) & Hcs).
  apply (runs_loop (fun a => let '(si, i, ni, sfn) := a in
    exists b oe b' e' rest, name_inv z si i ni sfn b oe b' e' rest)
    (fun a => let '(si, _, _, _) := a in len p - si)).
  - intros [[[si i] ni] sfn1] (b & oe & b' & e' & rest & Hinv). destruct rest as [|c rest].
    + pose proof Hinv as [Hseg Hsi Hb He Hmb Hme Hlb Hle Hi Hni Hsfn1]. rewrite app_nil_r in Hseg.
      assert (si = path + len seg) as Hsi' by (by rewrite Hseg).
      assert (forall c si', seg_stop c si' -> name_loop_post z (inr (c, si', i, sfn1))) as Hpost.
      { intros c si' Hstop. split; [done|]. split; [by eapply name_inv_len|]. split.
        - intros Hi0. assert (seg = []) as ->; [|done]. rewrite Hseg.
          assert (len b = 0 /\ oe = None) as [Hl0 ->].
          { destruct oe as [e|]; [pose proof (len_nonneg e); lia|]. split; [lia|done]. }
          unfold read_so_far. destruct b; [done|]. unfold len in Hl0. simpl in Hl0. lia.
        - intros Hi0. exists (pad 8 b' ++ pad 3 e'). split; [|by rewrite Hsfn1, <- app_assoc].
          rewrite Hseg. apply sfn_of_end; try done. intros E. unfold read_so_far in E.
          destruct oe; [by destruct b|]. destruct b; [|done]. by subst i. }
      unfold create_name_body. eapply runs_bind.
      { apply ch_runs. rewrite Hsi'. by apply at_Some_range in Hbt. }
      intros c (b1 & Hb1 & ->). rewrite Hsi', Hbt in Hb1. injection Hb1 as <-.
      destruct (Z.leb_spec (bval bt) 0x20) as [Hle'|Hgt].
      { apply runs_ret, Hpost. exists bt. split; [done|]. split; [done|]. left. split; [done|lia]. }
      unfold seg_end in Hend. rewrite (proj2 (Z.leb_gt _ _) Hgt) in Hend. cbn [orb] in Hend.
      rewrite Hend. eapply runs_bind; [apply skip_sep_runs; eapply cstr_next|].
      * rewrite Hsi'. exact Hcs.
      * rewrite Hsi'. exact Hbt.
      * lia.
      * intros j (Hj & Hcj & Hsk & Hnb). apply runs_ret, Hpost. exists bt. split; [done|]. split; [done|].
        right. split_and!; [done|done|lia|done| |done]. intros k Hk. apply Hsk. lia.
    + eapply runs_mono; [by eapply name_turn|]. intros [[[[si' i'] ni'] sfn']|r]; [|done].
      intros (-> & b1 & oe1 & b1' & e1' & Hinv').
      split; [by eauto 10|]. destruct (proj1 seg_facts _ _ _ (ni_seg _ _ _ _ _ _ _ _ _ _ Hinv)) as (bc & Hbc & _).
      rewrite <- (ni_si _ _ _ _ _ _ _ _ _ _ Hinv) in Hbc. apply at_Some_range in Hbc. lia.
  - exists [], None, [], [], seg. constructor; try done; cbn; [unfold len; simpl; lia|..];
      apply not_elem_of_nil.
  - destruct Hstr as (? & ? & _). by apply str_fuel.
Qed.

End segment.

End strings.

(** ** [create_name] against the reference *)

Section create_name.
Context {Pf : Platform} {St : Type}.

(** The first byte of an entry must not read as the mark of a free one. *)
Definition fix_ddem (name : list byte) : list byte :=
  match name with
  | b :: l => (if bval b =? DDEM then mkb RDDEM else b) :: l
  | [] => []
  end.

(** What [create_name] promises for the segment at [path]. *)
Definition create_name_post (dp : DIR) (p : list byte) (path : Z) (r : FRESULT * DIR * Z) : Prop :=
  let '(res, dp', j) := r in
  match sfn_of (seg_of (drop (Z.to_nat path) p)) with
  | None => res = FR_INVALID_NAME /\ exists fn, len fn = 12 /\ dp' = set_dp_fn fn dp
  | Some name =>
      res = FR_OK /\ exists c, seg_stop p path c j /\
        dp' = set_dp_fn (fix_ddem name ++
                [mkb (if c <=? 0x20 then NS_LAST
                      else match at_ p j with
                           | Some b => if char_le_space (bval b) then NS_LAST else 0
                           | None => 0 end)]) dp
  end.

Lemma upd_last (l : list byte) z x : upd (l ++ [z]) (len l) x = Some (l ++ [x]).
Proof using Type.
  destruct (upd_is_Some (l ++ [z]) (len l) x) as (r & Hr & _).
  { rewrite len_app. change (len [z]) with 1. pose proof (len_nonneg l). lia. }
  rewrite Hr. f_equal. apply at_ext. intros i. rewrite (at_upd _ _ _ _ _ Hr), !at_app.
  destruct (Z.eqb_spec i (len l)) as [->|Hne].
  - rewrite Z.ltb_irrefl, Z.sub_diag. done.
  - destruct (Z.ltb_spec i (len l)); [done|]. rewrite !at_None; [done|change (len [x]) with 1; lia|change (len [z]) with 1; lia].
Qed.

Lemma sfn_of_len seg name : sfn_of seg = Some name -> len name = 11.
Proof using Type.
  unfold sfn_of. destruct (split_dot seg) as [base ext]. destruct (_ || _) eqn:E; [done|].
  apply orb_false_elim in E as [[_ E1%Z.ltb_ge]%orb_false_elim E2%Z.ltb_ge].
  destruct (mapM sfn_char base) as [b|] eqn:Eb; [|done].
  destruct (mapM sfn_char (default [] ext)) as [e|] eqn:Ee; [|done]. intros [= <-].
  pose proof (mapM_len _ _ Eb). pose proof (mapM_len _ _ Ee).
  rewrite len_app, !len_pad by lia. done.
Qed.

Lemma create_name_spec dp p path :
  cstr p path -> len (dp_fn dp) = 12 ->
  runs (S := St) (create_name dp p path) (create_name_post dp p path).
Proof using Type.
  intros Hs Hfn. unfold create_name.
  assert (exists z, splice (dp_fn dp) 0 (replicate 11 x20) = Some (replicate 11 x20 ++ [z])) as [z Hz].
  { destruct (splice_is_Some (dp_fn dp) 0 (replicate 11 x20)) as (r & Hr & Hrl); [done|by rewrite Hfn|].
    rewrite Hr. apply splice_Some_inv in Hr as (_ & _ & _ & ->). cbn [take Z.to_nat].
    change (Z.to_nat (0 + len (replicate 11 x20))) with 11%nat.
    assert (length (drop 11 (dp_fn dp)) = 1%nat) as Hd
      by (rewrite length_drop; unfold len in Hfn; lia).
    destruct (drop 11 (dp_fn dp)) as [|z [|? ?]]; try done. by exists z. }
  eapply (runs_bind _ _ (eq (replicate 11 x20 ++ [z]))); [apply runs_chk; eauto|]. intros ? <-.
  eapply runs_bind; [by apply (name_loop_spec p path Hs z)|].
  intros [sfn|[[[c si] i] sfn]].
  { intros [Hn Hl]. apply runs_ret. unfold create_name_post. rewrite Hn. eauto. }
  intros (Hstop & Hl & Hi0 & Hin). destruct (Z.eqb_spec i 0) as [->|Hne].
  { apply runs_ret. unfold create_name_post. rewrite Hi0 by done. eauto. }
  destruct (Hin Hne) as (name & Hname & ->). pose proof (sfn_of_len _ _ Hname) as Hlen.
  eapply runs_bind; [apply ch_runs; rewrite Hl; done|]. intros b0 (b & Hb & ->).
  destruct name as [|b1 name]; [done|]. cbn in Hb. injection Hb as <-.
  eapply (runs_bind _ _ (eq (fix_ddem (b1 :: name) ++ [z]))).
  { cbn [fix_ddem]. destruct (bval b1 =? DDEM); [apply runs_chk|by apply runs_ret].
    eexists. split; [|done]. unfold upd, splice. rewrite Hl. done. }
  intros ? <-. assert (len (fix_ddem (b1 :: name)) = 11) as Hlen2 by done.
  eapply (runs_bind _ _ (eq (if c <=? 0x20 then true else
    match at_ p si with Some b => char_le_space (bval b) | None => false end))).
  { destruct Hstop as (bt & Hbt & -> & [[Hle ->]|(Hgt & Hsep & Hlt & Hcs & b' & Hb' & _)]).
    - rewrite (proj2 (Z.leb_le _ _) Hle). by apply runs_ret.
    - rewrite (proj2 (Z.leb_gt _ _) Hgt). eapply runs_bind; [by apply cstr_ch|].
      intros x (b2 & Hb2 & ->). rewrite Hb2. by apply runs_ret. }
  intros ? <-. eapply (runs_bind _ _ (eq _)).
  { apply runs_chk. eexists. split; [|done].
    change NSFLAG with 11. rewrite <- Hlen2. apply upd_last. }
  intros ? <-. apply runs_ret. unfold create_name_post. rewrite Hname. split; [done|].
  exists c. split; [done|]. f_equal. f_equal. f_equal. f_equal.
  destruct (c <=? 0x20); [done|]. by destruct (at_ p si).
Qed.

End create_name.

(** ** Drive prefixes *)

Section ldnumber.
Context {Pf : Platform} {St : Type}.

Lemma find_colon_runs p i : cstr p i -> runs (S := St) (find_colon p i) (fun r =>
  i < r.2 /\ (r.1 = 0x3A -> cstr p r.2)).
Proof using Type.
  intros Hc. unfold find_colon.
  apply (runs_loop (fun j => i <= j /\ cstr p j) (fun j => len p - j)).
  - intros j [Hj Hs]. eapply runs_bind; [by apply cstr_ch|]. intros c (b & Hb & ->). apply runs_ret.
    pose proof (at_Some_range _ _ _ Hb).
    assert (bval b <> 0 -> cstr p (j + 1)) as Hnext by (intros; by eapply cstr_next).
    unfold IsTerminator. destruct (Z.ltb_spec (bval b) 0x21), (Z.eqb_spec (bval b) 0x3A); cbn [negb andb fst snd].
    + lia.
    + split; [lia|lia].
    + split; [lia|]. intros _. apply Hnext. lia.
    + split; [|lia]. split; [lia|]. apply Hnext. lia.
  - split; [lia|done].
  - destruct Hc as (? & ? & _). by apply str_fuel.
Qed.

Lemma upper_zero c : 0 <= c -> (if IsLower c then c - 0x20 else c) = 0 -> c = 0.
Proof using Type.
  unfold IsLower. intros Hc. destruct (Z.geb_spec c 0x61), (Z.leb_spec c 0x7A); cbn [andb]; lia.
Qed.

Lemma cmp_volume_runs vs p i : cstr vs 0 -> cstr p i -> runs (S := St) (cmp_volume vs p i) (fun _ => True).
Proof using Type.
  intros Hv Hp. unfold cmp_volume.
  apply (runs_loop (fun a => cstr vs a.1 /\ cstr p a.2) (fun a => len p - a.2)).
  - intros [j k] [Hj Hk]. cbn [fst snd] in *. eapply runs_bind; [by apply cstr_ch|].
    intros x (bx & Hbx & ->). eapply runs_bind; [by apply cstr_ch|]. intros y (bY & Hby & ->).
    apply runs_ret. pose proof (at_Some_range _ _ _ Hby).
    pose proof (bval_range bx) as Hrx. pose proof (bval_range bY) as Hry.
    set (ux := if IsLower (bval bx) then bval bx - 0x20 else bval bx).
    set (uy := if IsLower (bval bY) then bval bY - 0x20 else bval bY).
    unfold nz. destruct (Z.eqb_spec ux 0) as [E|E]; cbn [negb andb]; [done|].
    destruct (Z.eqb_spec ux uy) as [E'|E']; [|done]. cbn [fst snd]. split; [|lia]. split.
    + eapply cstr_next; [done|done|]. intros E0. apply E. unfold ux. by rewrite E0.
    + eapply cstr_next; [done|done|]. intros E0. apply E. rewrite E'. unfold uy. by rewrite E0.
  - done.
  - destruct Hp as (? & ? & _). by apply str_fuel.
Qed.

Lemma find_volume_id_runs vols p i te n :
  Forall (fun vs => cstr vs 0) vols -> cstr p i -> 0 <= n ->
  runs (S := St) (find_volume_id vols p i te n) (fun v => n <= v).
Proof using Type.
  intros Hv Hp. revert n. induction Hv as [|vs vols Hvs Hv IH]; intros n Hn; cbn [find_volume_id].
  - apply runs_ret. lia.
  - eapply runs_bind; [by apply cmp_volume_runs|]. intros [vchr tp] _.
    destruct (_ || _); [|apply runs_ret; lia].
    eapply runs_mono; [apply IH; lia|]. cbn. lia.
Qed.

(** A path argument: null or a string. *)
Definition path_arg (path : option (list byte)) : Prop :=
  match path with None => True | Some p => cstr p 0 end.

Lemma volume_strs_ok : Forall (fun vs => cstr vs 0) VolumeStr.
Proof using Type. repeat constructor; try done. by exists 3. Qed.

Lemma get_ldnumber_runs path : path_arg path -> runs (S := St) (get_ldnumber path) (fun r =>
  r.1 < FF_VOLUMES /\ (0 <= r.1 -> exists p, path = Some p /\ cstr p r.2) /\
  (forall p, path = Some p -> cstr p r.2)).
Proof using Type.
  intros Hp. unfold get_ldnumber. destruct path as [p|]; [|by apply runs_ret].
  cbn in Hp. assert (exists q, Some p = Some q /\ cstr q 0) as Hex by eauto.
  eapply runs_bind; [by apply find_colon_runs|]. intros [chr te] [Hte Hcs]. cbn [fst snd] in *.
  destruct (Z.eqb_spec chr 0x3A) as [->|Hne].
  2:{ apply runs_ret. split; [done|]. split; [done|]. intros q [= <-]. done. }
  specialize (Hcs eq_refl). eapply runs_bind; [by apply cstr_ch|]. intros c0 (b0 & Hb0 & ->).
  eapply (runs_bind _ _ (fun v => 0 <= v)).
  - destruct (IsDigit (bval b0) && (2 =? te)) eqn:E.
    + apply runs_ret. apply andb_prop in E as [E _]. unfold IsDigit in E.
      apply andb_prop in E as [E _]. rewrite Z.geb_leb, Z.leb_le in E. lia.
    + eapply runs_mono; [apply find_volume_id_runs; [apply volume_strs_ok|done|done]|]. done.
  - intros v Hv. destruct (Z.geb_spec v FF_VOLUMES) as [|Hlt]; apply runs_ret; cbn [fst snd].
    + split; [done|]. split; [done|]. intros q [= <-]. done.
    + split; [done|]. split; [by eauto|]. intros q [= <-]. done.
Qed.

End ldnumber.

(** ** [follow_path] on any volume *)

Section follow_safety.
Context {Pf : Platform} {D : Type} `{!DiskIO D} `{!DiskIOLaws D} (t : bool) (g : list Z).
Context (Hgeo : vol_geo t g).
Abbreviation safe := (safe (D := D) t g).

(** A directory object for the same volume. *)
Definition dir_same (dp dp' : DIR) : Prop :=
  dir_w dp' /\ obj_fs (dp_obj dp') = obj_fs (dp_obj dp).

Lemma dir_same_trans a b c : dir_same a b -> dir_same b c -> dir_same a c.
Proof using Type. intros [? ?] [? ?]. split; [done|congruence]. Qed.

Lemma dir_same_keeps a b c : dir_same a b -> dir_keeps b c -> dir_same a c.
Proof using Type. intros [? ?] (? & ? & _). split; [done|congruence]. Qed.

Lemma dir_w_set_fn fn dp : dir_w dp -> len fn = 12 -> dir_w (set_dp_fn fn dp).
Proof using Type. intros [] ?. by constructor. Qed.

Lemma dir_w_set_sclust c dp : dir_w dp -> 0 <= c < U32 -> dir_w (set_sclust c dp).
Proof using Type. intros [] ?. by constructor. Qed.

Lemma len_fix_ddem name : len (fix_ddem name) = len name.
Proof using Type. by destruct name. Qed.

(** A successful [create_name] goes forward; unless it sets the flag of the
    last segment, the path goes on. *)
Lemma create_name_safe dp p path :
  dir_w dp -> cstr p path -> safe (create_name dp p path) (fun r =>
    dir_same dp r.1.2 /\
    (r.1.1 = FR_OK -> path < r.2 /\
       exists b, at_ (dp_fn r.1.2) NSFLAG = Some b /\ (Z.land (bval b) NS_LAST = 0 -> cstr p r.2))).
Proof using Type.
  intros Hw Hp. apply safe_runs. eapply runs_mono; [by apply create_name_spec; [|apply dw_fn]|].
  intros [[res dp'] j]. unfold create_name_post. destruct (sfn_of _) as [name|] eqn:En; cbn [fst snd].
  2:{ intros [-> (fn & Hl & ->)]. split; [|done]. split; [by apply dir_w_set_fn|done]. }
  pose proof (sfn_of_len _ _ En) as Hl. intros (-> & c & (bt & Hbt & -> & Hstop) & ->). split.
  - split; [|done]. apply dir_w_set_fn; [done|]. rewrite len_app, len_fix_ddem, Hl. done.
  - intros _. pose proof (len_nonneg (seg_of (drop (Z.to_nat path) p))).
    split; [destruct Hstop as [[_ ->]|(_ & _ & ? & _)]; lia|].
    eexists. split.
    { cbn [dp_fn set_dp_fn]. rewrite at_app, len_fix_ddem, Hl. done. }
    rewrite bval_mkb. destruct Hstop as [[Hle _]|(Hgt & _ & _ & Hcs & _)]; [|done].
    rewrite (proj2 (Z.leb_le _ _) Hle). done.
Qed.

Lemma follow_path_safe dp p path :
  dir_w dp -> cstr p path -> safe (follow_path dp p path) (fun r =>
    dir_same dp r.2 /\ (r.1 = FR_OK -> dir_pos r.2)).
Proof using Hgeo.
  intros Hw Hp. unfold follow_path. eapply safe_bind; [apply safe_runs; by apply skip_sep_runs|].
  intros j (Hj & Hcj & _ & _). cbv zeta.
  assert (dir_same dp (set_sclust 0 dp)) as Hs0 by (split; [by apply dir_w_set_sclust|done]).
  eapply safe_bind; [apply safe_runs; by apply cstr_ch|]. intros c _.
  destruct (c <? 0x20).
  - eapply safe_bind; [apply safe_chk_upd|].
    { rewrite (dw_fn _ (proj1 Hs0)). done. }
    intros fn Hfn. cbv beta in Hfn. rewrite (dw_fn _ (proj1 Hs0)) in Hfn.
    eapply safe_mono; [apply (dir_sdi_safe t g Hgeo); [by apply dir_w_set_fn; [apply Hs0|]|done]|].
    intros [r dp'] (Hk & Hpos & _). split; [|done].
    eapply (dir_same_keeps _ (set_dp_fn fn (set_sclust 0 dp))); [|done]. by split; [apply dir_w_set_fn; [apply Hs0|]|].
  - apply (safe_loop _ _ (fun a => dir_same dp a.1 /\ cstr p a.2) (fun a => len p - a.2)); [|done|].
    2:{ destruct Hcj as (? & ? & _). by apply str_fuel. }
    intros [dp1 path1] [Hs1 Hc1]. cbn [fst snd] in *. unfold follow_path_body.
    eapply safe_bind; [by apply create_name_safe; [apply Hs1|]|].
    intros [[r2 dp2] j2] [Hs2 Hok2]. cbn [fst snd] in *.
    pose proof (dir_same_trans _ _ _ Hs1 Hs2) as Hs02.
    destruct (fr_eqb_spec r2 FR_OK) as [->|]; cbn [negb]; [|by apply safe_ret].
    destruct (Hok2 eq_refl) as (Hlt & bf & Hbf & Hns).
    eapply safe_bind; [apply (dir_find_safe t g Hgeo), Hs02|]. intros [r3 dp3] [Hk3 Hp3]. cbn [fst snd] in *.
    pose proof (dir_same_keeps _ _ _ Hs02 Hk3) as Hs03.
    assert (dp_fn dp3 = dp_fn dp2) as Hfn by apply Hk3.
    eapply safe_bind; [apply safe_runs, ch_runs; rewrite (dw_fn _ (proj1 Hs03)); done|].
    intros ns (bn & Hbn & ->). rewrite Hfn, Hbf in Hbn. injection Hbn as <-.
    destruct (fr_eqb_spec r3 FR_OK) as [->|Hne]; cbn [negb].
    2:{ apply safe_ret. cbn. split; [done|]. destruct (_ && _); done. }
    specialize (Hp3 eq_refl). destruct (nz (Z.land (bval bf) NS_LAST)) eqn:Elast; [by apply safe_ret|].
    destruct (nz (Z.land (obj_attr (dp_obj dp3)) AM_DIR)); cbn [negb]; [|by apply safe_ret].
    eapply safe_bind; [apply ld_clust_safe|].
    { destruct Hp3 as (_ & Hm & _). by apply entry_bounds. }
    intros cl Hcl. apply safe_ret. cbn [fst snd].
    unfold nz in Elast. rewrite negb_false_iff, Z.eqb_eq in Elast. specialize (Hns Elast).
    split; [|destruct Hns as (? & ? & k & ? & Hk%at_Some_range); lia].
    split; [|done]. split; [by apply dir_w_set_sclust; [apply Hs03|]|apply Hs03].
Qed.

End follow_safety.
