(* ===== verification/Mount.v ===== *)
(** * Volumes and objects

    [check_fs], [find_volume] and [mount_volume] of ff.c, [validate] and
    [f_mount].  The [world] holds what they share: the filesystem objects the
    application has allocated, by address, the table [FatFs] of the mounted
    ones, the mount counter [Fsid] and the disk.  [on_fs] runs a computation
    on one volume of the world. *)

From stdpp Require Import base numbers list option gmap.
From Stdlib Require Import ZArith Lia.
From Stdlib Require Import Strings.Byte.
From S2P Require Import Prelude Types Bytes Diskio Window Fat Chain Dir Path.

Section mount.
Context {Pf : Platform} {D : Type} `{!DiskIO D}.
Abbreviation V := (M (vol D)).

(** ** Finding a volume on the drive *)

(** The plausibility tests of [check_fs] on the BIOS parameter block. *)
Definition check_bpb : V bool :=
  w <- win_word BPB_BytsPerSec ;;
  b <- win_at BPB_SecPerClus ;;
  rsv <- win_word BPB_RsvdSecCnt ;;
  nf <- win_at BPB_NumFATs ;;
  root <- win_word BPB_RootEntCnt ;;
  t16 <- win_word BPB_TotSec16 ;;
  t32 <- win_dword BPB_TotSec32 ;;
  fsz <- win_word BPB_FATSz16 ;;
  ret ((Z.land w (w - 1) =? 0) && (w >=? 512) && (w <=? 512)
       && nz b && (Z.land b (b - 1) =? 0)
       && nz rsv
       && (u32 (nf - 1) <=? 1)
       && nz root
       && ((t16 >=? 128) || (t32 >=? 0x10000))
       && nz fsz).

(** "FAT32   " *)
Definition FAT32_NAME : list byte := [x46; x41; x54; x33; x32; x20; x20; x20].

(** 0: FAT boot record, 2: valid boot sector, 3: no boot sector, 4: disk error. *)
Definition check_fs (sect : Z) : V Z :=
  mod_fs (set_wflag 0) ;;;
  mod_fs (set_winsect NO_SECT) ;;;
  r <- move_window sect ;;
  if negb (r =r FR_OK) then ret 4 else
  sign <- win_word BS_55AA ;;
  b <- win_at BS_JmpBoot ;;
  vbr <- (if (b =? 0xEB) || (b =? 0xE9) || (b =? 0xE8) then
            name <- win_slice BS_FilSysType32 8 ;;
            if (sign =? 0xAA55) && bool_decide (name = FAT32_NAME) then ret true
            else check_bpb
          else ret false) ;;
  ret (if vbr : bool then 0 else if sign =? 0xAA55 then 2 else 3).

(** The partition offsets of the master boot record. *)
Fixpoint load_mbr (k : nat) (i : Z) : V (list Z) :=
  match k with
  | O => ret []
  | S k =>
    x <- win_dword (MBR_Table + i * SZ_PTE + PTE_StLba) ;;
    l <- load_mbr k (i + 1) ;;
    ret (x :: l)
  end.

Fixpoint find_partition (mbr_pt : list Z) (part fmt : Z) : V Z :=
  match mbr_pt with
  | [] => ret fmt
  | x :: mbr_pt =>
    fmt <- (if nz x then check_fs x else ret 3) ;;
    if (part =? 0) && (fmt >=? 2) then find_partition mbr_pt part fmt else ret fmt
  end.

Definition find_volume (part : Z) : V Z :=
  fmt <- check_fs 0 ;;
  if negb (fmt =? 2) && ((fmt >=? 3) || (part =? 0)) then ret fmt else
  mbr_pt <- load_mbr 4 0 ;;
  let i := if nz part then part - 1 else 0 in
  find_partition (drop (Z.to_nat i) mbr_pt) part fmt.

(** ** Mounting *)

(** Size of the FAT a volume of [nclst] clusters needs, in bytes. *)
Definition fat_bytes (fmt n_fatent : Z) : Z :=
  if fmt =? FS_FAT32 then u32 (n_fatent * 4)
  else if fmt =? FS_FAT16 then u32 (n_fatent * 2)
  else u32 (u32 (n_fatent * 3) / 2 + Z.land n_fatent 1).

(** The FAT sub-type from the number of clusters. *)
Definition fat_type (nclst : Z) : Z :=
  let fmt := 0 in
  let fmt := if nclst <=? MAX_FAT32 then FS_FAT32 else fmt in
  let fmt := if nclst <=? MAX_FAT16 then FS_FAT16 else fmt in
  if nclst <=? MAX_FAT12 then FS_FAT12 else fmt.

(** The allocation information of the FSInfo sector. *)
Definition load_fsinfo (fmt bsect : Z) : V unit :=
  mod_fs (set_free_clst 0xFFFFFFFF) ;;;
  mod_fs (set_last_clst 0xFFFFFFFF) ;;;
  mod_fs (set_fsi_flag 0x80) ;;;
  if negb (fmt =? FS_FAT32) then ret tt else
  i <- win_word BPB_FSInfo32 ;;
  if negb (i =? 1) then ret tt else
  r <- move_window (u32 (bsect + 1)) ;;
  if negb (r =r FR_OK) then ret tt else
  mod_fs (set_fsi_flag 0) ;;;
  lead <- win_dword FSI_LeadSig ;;
  struc <- win_dword FSI_StrucSig ;;
  trail <- win_dword FSI_TrailSig ;;
  if (lead =? 0x41615252) && (struc =? 0x61417272) && (trail =? 0xAA550000) then
    free <- win_dword FSI_Free_Count ;;
    mod_fs (set_free_clst free) ;;;
    nxt <- win_dword FSI_Nxt_Free ;;
    mod_fs (set_last_clst nxt)
  else ret tt.

(** Volume geometry: number of clusters and its fields. *)
Definition mount_geometry (bsect fasize tsect nrsv : Z) : V (FRESULT + Z) :=
  fs <- get_fs ;;
  let sysect := u32 (nrsv + fasize + n_rootdir fs / (SS / SZDIRE)) in
  if tsect <? sysect then ret (inl FR_NO_FILESYSTEM) else
  let nclst := (tsect - sysect) / csize fs in
  if nclst =? 0 then ret (inl FR_NO_FILESYSTEM) else
  let fmt := fat_type nclst in
  if fmt =? 0 then ret (inl FR_NO_FILESYSTEM) else
  mod_fs (set_n_fatent (u32 (nclst + 2))) ;;;
  mod_fs (set_volbase bsect) ;;;
  mod_fs (set_fatbase (u32 (bsect + nrsv))) ;;;
  mod_fs (set_database (u32 (bsect + sysect))) ;;;
  e <- (if fmt =? FS_FAT32 then
          ver <- win_word BPB_FSVer32 ;;
          if nz ver then ret true else
          if nz (n_rootdir fs) then ret true else
          root <- win_dword BPB_RootClus32 ;;
          mod_fs (set_dirbase root) ;;;
          ret false
        else
          if n_rootdir fs =? 0 then ret true else
          mod_fs (set_dirbase (u32 (u32 (bsect + nrsv) + fasize))) ;;;
          ret false) ;;
  if e : bool then ret (inl FR_NO_FILESYSTEM) else
  let szbfat := fat_bytes fmt (u32 (nclst + 2)) in
  if fsize fs <? u32 (szbfat + (SS - 1)) / SS then ret (inl FR_NO_FILESYSTEM)
  else ret (inr fmt).

(** The part of [mount_volume] that reads the boot sector at [bsect]: the
    sub-type, or an error. *)
Definition mount_bpb (bsect : Z) : V (FRESULT + Z) :=
  w <- win_word BPB_BytsPerSec ;;
  if negb (w =? SS) then ret (inl FR_NO_FILESYSTEM) else
  fasize <- win_word BPB_FATSz16 ;;
  fasize <- (if fasize =? 0 then win_dword BPB_FATSz32 else ret fasize) ;;
  mod_fs (set_fsize fasize) ;;;
  nf <- win_at BPB_NumFATs ;;
  mod_fs (set_n_fats nf) ;;;
  if negb (nf =? 1) && negb (nf =? 2) then ret (inl FR_NO_FILESYSTEM) else
  let fasize := u32 (fasize * nf) in
  cs <- win_at BPB_SecPerClus ;;
  mod_fs (set_csize cs) ;;;
  if (cs =? 0) || nz (Z.land cs (cs - 1)) then ret (inl FR_NO_FILESYSTEM) else
  nr <- win_word BPB_RootEntCnt ;;
  mod_fs (set_n_rootdir nr) ;;;
  if nz (nr mod (SS / SZDIRE)) then ret (inl FR_NO_FILESYSTEM) else
  tsect <- win_word BPB_TotSec16 ;;
  tsect <- (if tsect =? 0 then win_dword BPB_TotSec32 else ret tsect) ;;
  nrsv <- win_word BPB_RsvdSecCnt ;;
  if nrsv =? 0 then ret (inl FR_NO_FILESYSTEM) else
  r <- mount_geometry bsect fasize tsect nrsv ;;
  match r with
  | inl e => ret (inl e)
  | inr fmt => load_fsinfo fmt bsect ;;; ret (inr fmt)
  end.

(** Mount the volume: everything [mount_volume] does once the filesystem
    object is known not to be valid, up to its mount ID. *)
Definition mount_fs (mode : Z) : V (FRESULT + Z) :=
  mod_fs (set_fs_type 0) ;;;
  fs <- get_fs ;;
  stat <- on_disk (dio_initialize (pdrv fs)) ;;
  if nz (Z.land stat STA_NOINIT) then ret (inl FR_NOT_READY) else
  if nz mode && nz (Z.land stat STA_PROTECT) then ret (inl FR_WRITE_PROTECTED) else
  fmt <- find_volume 0 ;;
  if fmt =? 4 then ret (inl FR_DISK_ERR) else
  if fmt >=? 2 then ret (inl FR_NO_FILESYSTEM) else
  fs <- get_fs ;;
  mount_bpb (winsect fs).

End mount.

(** ** The world *)

Record world (D : Type) : Type := mkWorld {
  heap : gmap Z FATFS;
  FatFs : list (option Z);
  Fsid : Z;
  wdisk : D
}.
Arguments mkWorld {D} _ _ _ _.
Arguments heap {D} _.
Arguments FatFs {D} _.
Arguments Fsid {D} _.
Arguments wdisk {D} _.

Section world.
Context {Pf : Platform} {D : Type} `{!DiskIO D}.
Abbreviation V := (M (vol D)).
Abbreviation W := (M (world D)).

Definition set_heap (h : gmap Z FATFS) (w : world D) : world D :=
  mkWorld h (FatFs w) (Fsid w) (wdisk w).
Definition set_FatFs (l : list (option Z)) (w : world D) : world D :=
  mkWorld (heap w) l (Fsid w) (wdisk w).
Definition set_Fsid (x : Z) (w : world D) : world D :=
  mkWorld (heap w) (FatFs w) x (wdisk w).

(** Run a computation on the filesystem object at address [p]. *)
Definition on_fs {A} (p : Z) (m : V A) : W A := fun w =>
  match heap w !! p with
  | None => Fault
  | Some fs =>
    match m (mkVol fs (wdisk w)) with
    | Done (a, v) => Done (a, mkWorld (<[p := vfs v]> (heap w)) (FatFs w) (Fsid w) (vdsk v))
    | Fault => Fault
    | OutOfFuel => OutOfFuel
    end
  end.

Definition on_wdisk {A} (m : M D A) : W A :=
  zoom wdisk (fun d w => mkWorld (heap w) (FatFs w) (Fsid w) d) m.

(** [FatFs\[vol\]] *)
Definition get_FatFs (vol : Z) : W (option Z) := w <- get ;; chk (at_ (FatFs w) vol).
Definition put_FatFs (vol : Z) (p : option Z) : W unit :=
  w <- get ;; l <- chk (upd (FatFs w) vol p) ;; put (set_FatFs l w).

(** The result code, the filesystem object, and the path after the drive
    prefix. *)
Definition mount_volume (path : option (list byte)) (mode : Z) : W (FRESULT * option Z * Z) :=
  do (vol, rp) <- get_ldnumber path ;;
  if vol <? 0 then ret (FR_INVALID_DRIVE, None, rp) else
  ofs <- get_FatFs vol ;;
  match ofs with
  | None => ret (FR_NOT_ENABLED, None, rp)
  | Some p =>
    let mode := Z.land mode (u8 (Z.lnot FA_READ)) in
    fs <- on_fs p get_fs ;;
    stat <- (if nz (fs_type fs) then on_wdisk (dio_status (pdrv fs)) else ret STA_NOINIT) ;;
    if negb (nz (Z.land stat STA_NOINIT)) then
      if nz mode && nz (Z.land stat STA_PROTECT) then ret (FR_WRITE_PROTECTED, Some p, rp)
      else ret (FR_OK, Some p, rp)
    else
      r <- on_fs p (mount_fs mode) ;;
      match r with
      | inl e => ret (e, Some p, rp)
      | inr fmt =>
        on_fs p (mod_fs (set_fs_type (u8 fmt))) ;;;
        w <- get ;;
        let id := u16 (Fsid w + 1) in
        put (set_Fsid id w) ;;;
        on_fs p (mod_fs (set_fs_id id)) ;;;
        ret (FR_OK, Some p, rp)
      end
  end.

(** The object is never null: it is part of a file or directory object. *)
Definition validate (obj : FFOBJID) : W (FRESULT * option Z) :=
  match obj_fs obj with
  | None => ret (FR_INVALID_OBJECT, None)
  | Some p =>
    fs <- on_fs p get_fs ;;
    if nz (fs_type fs) && (obj_id obj =? fs_id fs) then
      stat <- on_wdisk (dio_status (pdrv fs)) ;;
      if negb (nz (Z.land stat STA_NOINIT)) then ret (FR_OK, Some p)
      else ret (FR_INVALID_OBJECT, None)
    else ret (FR_INVALID_OBJECT, None)
  end.

Definition f_mount (fs : option Z) (path : option (list byte)) (opt : Z) : W FRESULT :=
  do (vol, _) <- get_ldnumber path ;;
  if vol <? 0 then ret FR_INVALID_DRIVE else
  cfs <- get_FatFs vol ;;
  (match cfs with
   | Some c => put_FatFs vol None ;;; on_fs c (mod_fs (set_fs_type 0))
   | None => ret tt
   end) ;;;
  (match fs with
   | Some p =>
     on_fs p (mod_fs (set_pdrv (u8 vol)) ;;; mod_fs (set_fs_type 0)) ;;;
     put_FatFs vol (Some p)
   | None => ret tt
   end) ;;;
  if opt =? 0 then ret FR_OK else
  do (res, _, _) <- mount_volume path 0 ;;
  ret res.

End world.

(** ** What mounting establishes *)

(** The geometry of a mounted volume. *)
Record mounted (fs : FATFS) : Prop := mk_mounted {
  mo_type : fs_type fs = FS_FAT12 \/ fs_type fs = FS_FAT16 \/ fs_type fs = FS_FAT32;
  mo_fats : n_fats fs = 1 \/ n_fats fs = 2;
  mo_csize : 1 <= csize fs < 256 /\ Z.land (csize fs) (csize fs - 1) = 0;
  mo_few : 3 <= n_fatent fs <= MAX_FAT32 + 2;
  mo_12 : fs_type fs = FS_FAT12 <-> n_fatent fs <= MAX_FAT12 + 2;
  mo_32 : fs_type fs = FS_FAT32 <-> MAX_FAT16 + 2 < n_fatent fs;
  mo_root : fs_type fs = FS_FAT32 -> n_rootdir fs = 0;
  mo_static : fs_type fs <> FS_FAT32 -> 0 < n_rootdir fs /\ n_rootdir fs mod (SS / SZDIRE) = 0;
  mo_size : fat_bytes (fs_type fs) (n_fatent fs) <= fsize fs * SS
}.

(** With no wrap-around of a sector number, this is a well-placed table. *)
Lemma mounted_layout fs :
  mounted fs -> fatbase fs + fsize fs < U32 -> (n_fats fs = 2 -> 2 * fsize fs <= U32) -> fat_layout fs.
Proof.
  intros [Ht Hf Hc Hn H12 H32 Hr Hs Hsz] Hw Hcp. unfold fat_bytes in Hsz.
  assert (0 <= n_fatent fs <= 268435447) as Hn' by (revert Hn; unfold_consts; lia).
  rewrite (u32_small (n_fatent fs * 4)), (u32_small (n_fatent fs * 2)),
    (u32_small (n_fatent fs * 3)) in Hsz by (unfold U32; lia).
  constructor; try done.
  - lia.
  - intros E. by apply H12.
  - intros E. destruct (Z.lt_ge_cases (MAX_FAT16 + 2) (n_fatent fs)) as [Hlt|]; [|done].
    apply H32 in Hlt. rewrite E in Hlt. done.
  - intros E. rewrite E in Hsz. change (FS_FAT12 =? FS_FAT32) with false in Hsz.
    change (FS_FAT12 =? FS_FAT16) with false in Hsz. cbv iota in Hsz.
    rewrite (u32_small (_ / 2 + _)) in Hsz.
    + change 1 with (Z.ones 1) in Hsz. rewrite Z.land_ones in Hsz by lia. exact Hsz.
    + change 1 with (Z.ones 1). rewrite Z.land_ones by lia. change (2 ^ 1) with 2. unfold U32.
      clear -Hn'. pose proof (Z.mod_pos_bound (n_fatent fs) 2 ltac:(lia)).
      pose proof (Z.div_pos (n_fatent fs * 3) 2). pose proof (Z.div_le_upper_bound (n_fatent fs * 3) 2 805306341). lia.
  - intros E. rewrite E in Hsz. change (FS_FAT16 =? FS_FAT32) with false in Hsz.
    change (FS_FAT16 =? FS_FAT16) with true in Hsz. cbv iota in Hsz. lia.
  - intros E. rewrite E in Hsz. change (FS_FAT32 =? FS_FAT32) with true in Hsz. cbv iota in Hsz. lia.
Qed.

(** The cluster size is a power of two. *)
Lemma mounted_csize_pow2 fs : mounted fs -> exists k, 0 <= k <= 7 /\ csize fs = 2 ^ k.
Proof.
  intros Hm. destruct (mo_csize _ Hm) as [Hr Hl].
  assert (Forall (fun c => Z.land c (c - 1) = 0 -> c ∈ [1; 2; 4; 8; 16; 32; 64; 128]) (seqZ 1 255)) as Hall.
  { by apply (bool_decide_unpack _); vm_compute. }
  rewrite Forall_forall in Hall. specialize (Hall (csize fs)).
  assert (csize fs ∈ [1; 2; 4; 8; 16; 32; 64; 128]) as Hin by (apply Hall; [apply elem_of_seqZ; lia|done]).
  repeat (apply elem_of_cons in Hin as [->|Hin]; [|]);
    [by exists 0|by exists 1|by exists 2|by exists 3|by exists 4|by exists 5|by exists 6|by exists 7|].
  by apply elem_of_nil in Hin.
Qed.

(** *** Triples that do not fix the geometry *)

Section vsafe.
Context {Pf : Platform} {D : Type} `{!DiskIO D} `{!DiskIOLaws D} (t : bool).
Abbreviation V := (M (vol D)).

Definition vsafe {A} (m : V A) (P : A -> vol D -> Prop) : Prop :=
  forall v, vol_ok v -> wpt t m (fun a v' => vol_ok v' /\ P a v') v.

Lemma vsafe_of_safe {A} (m : V A) (P : A -> Prop) :
  (forall g, safe t g m P) -> vsafe m (fun a _ => P a).
Proof using Type.
  intros H v Hv. eapply wp_mono; [apply (H (geom (vfs v))); by split|]. by intros a v' [[? _] ?].
Qed.

(** A step that keeps the geometry, in a triple about the final one. *)
Lemma wp_geom {A B} (m : V A) (k : A -> V B) P Q v :
  (forall g, safe t g m P) -> vol_ok v ->
  (forall a v', vol_ok v' -> geom (vfs v') = geom (vfs v) -> P a -> wpt t (k a) Q v') ->
  wpt t (bind m k) Q v.
Proof using Type.
  intros Hm Hv Hk. eapply (wp_safe _ (geom (vfs v))); [apply Hm|by split|].
  intros a v' [Hv' Hg] HP. by apply Hk.
Qed.

End vsafe.

Section mount_setters.
Context (fs : FATFS) (Hok : fs_ok fs).
Lemma fs_ok_set_fs_type x : 0 <= x < 256 -> fs_ok (set_fs_type x fs).
Proof using Hok. destruct Hok. by constructor. Qed.
Lemma fs_ok_set_fs_id x : 0 <= x < 65536 -> fs_ok (set_fs_id x fs).
Proof using Hok. destruct Hok. by constructor. Qed.
Lemma fs_ok_set_pdrv x : 0 <= x < 256 -> fs_ok (set_pdrv x fs).
Proof using Hok. destruct Hok. by constructor. Qed.
Lemma fs_ok_set_n_fats x : 0 <= x < 256 -> fs_ok (set_n_fats x fs).
Proof using Hok. destruct Hok. by constructor. Qed.
Lemma fs_ok_set_fsize x : 0 <= x < U32 -> fs_ok (set_fsize x fs).
Proof using Hok. destruct Hok. by constructor. Qed.
Lemma fs_ok_set_csize x : 0 <= x < 65536 -> fs_ok (set_csize x fs).
Proof using Hok. destruct Hok. by constructor. Qed.
Lemma fs_ok_set_n_rootdir x : 0 <= x < 65536 -> fs_ok (set_n_rootdir x fs).
Proof using Hok. destruct Hok. by constructor. Qed.
Lemma fs_ok_set_n_fatent x : 0 <= x < U32 -> fs_ok (set_n_fatent x fs).
Proof using Hok. destruct Hok. by constructor. Qed.
Lemma fs_ok_set_volbase x : 0 <= x < U32 -> fs_ok (set_volbase x fs).
Proof using Hok. destruct Hok. by constructor. Qed.
Lemma fs_ok_set_fatbase x : 0 <= x < U32 -> fs_ok (set_fatbase x fs).
Proof using Hok. destruct Hok. by constructor. Qed.
Lemma fs_ok_set_database x : 0 <= x < U32 -> fs_ok (set_database x fs).
Proof using Hok. destruct Hok. by constructor. Qed.
Lemma fs_ok_set_dirbase x : 0 <= x < U32 -> fs_ok (set_dirbase x fs).
Proof using Hok. destruct Hok. by constructor. Qed.
End mount_setters.

#[export] Hint Resolve fs_ok_set_fs_type fs_ok_set_fs_id fs_ok_set_pdrv fs_ok_set_n_fats fs_ok_set_fsize
  fs_ok_set_csize fs_ok_set_n_rootdir fs_ok_set_n_fatent fs_ok_set_volbase fs_ok_set_fatbase
  fs_ok_set_database fs_ok_set_dirbase : ff.

Section mount_spec.
Context {Pf : Platform} {D : Type} `{!DiskIO D} `{!DiskIOLaws D} (t : bool).
Abbreviation V := (M (vol D)).

(** *** Searching the drive *)

Lemma check_bpb_safe g : safe (D := D) t g check_bpb (fun _ => True).
Proof using Type. unfold check_bpb. safe_auto; done. Qed.

Lemma check_fs_safe g sect : 0 <= sect < U32 -> safe (D := D) t g (check_fs sect) (fun _ => True).
Proof using Type.
  intros Hs. unfold check_fs. pose proof (check_bpb_safe g). safe_auto; done.
Qed.

Lemma load_mbr_safe g k i : 0 <= i -> i + Z.of_nat k <= 4 ->
  safe (D := D) t g (load_mbr k i) (Forall (fun x => 0 <= x < U32)).
Proof using Type.
  revert i. induction k as [|k IH]; intros i Hi Hk; cbn [load_mbr]; [by apply safe_ret|].
  eapply safe_bind; [apply safe_win_dword; unfold_consts; lia|]. intros x Hx.
  eapply safe_bind; [apply IH; lia|]. intros l Hl. apply safe_ret. by constructor.
Qed.

Lemma find_partition_safe g l part fmt :
  Forall (fun x => 0 <= x < U32) l -> safe (D := D) t g (find_partition l part fmt) (fun _ => True).
Proof using Type.
  intros Hl. revert fmt. induction Hl as [|x l Hx Hl IH]; intros fmt; cbn [find_partition];
    [by apply safe_ret|].
  apply (safe_bind _ _ _ _ (fun _ => True)).
  { destruct (nz x); [by apply check_fs_safe|by apply safe_ret]. }
  intros f _. destruct (_ && _); [apply IH|by apply safe_ret].
Qed.

Lemma find_volume_safe g part : safe (D := D) t g (find_volume part) (fun _ => True).
Proof using Type.
  unfold find_volume. eapply safe_bind; [by apply check_fs_safe|]. intros f _.
  destruct (_ && _); [by apply safe_ret|].
  eapply safe_bind; [by apply load_mbr_safe|]. intros l Hl. cbv zeta.
  apply find_partition_safe. by apply Forall_drop.
Qed.

(** *** The geometry *)

Lemma fat_type_spec n :
  0 < n -> fat_type n <> 0 ->
  (fat_type n = FS_FAT12 \/ fat_type n = FS_FAT16 \/ fat_type n = FS_FAT32) /\ n <= MAX_FAT32 /\
  (fat_type n = FS_FAT12 <-> n <= MAX_FAT12) /\ (fat_type n = FS_FAT32 <-> MAX_FAT16 < n).
Proof using Type.
  unfold fat_type. unfold_consts.
  destruct (Z.leb_spec n 4085), (Z.leb_spec n 65525), (Z.leb_spec n 268435445); lia.
Qed.

Lemma fat_bytes_small ty n : 0 <= n <= MAX_FAT32 + 2 -> 0 <= fat_bytes ty n <= U32 - SS.
Proof using Type.
  unfold fat_bytes. unfold_consts. intros Hn. change 1 with (Z.ones 1). rewrite Z.land_ones by lia.
  change (2 ^ 1) with 2. pose proof (Z.mod_pos_bound n 2 ltac:(lia)).
  rewrite (u32_small (n * 4)), (u32_small (n * 2)), (u32_small (n * 3)) by (unfold U32; lia).
  pose proof (Z.div_pos (n * 3) 2). pose proof (Z.div_le_upper_bound (n * 3) 2 (n * 3)).
  unfold U32 in *. destruct (ty =? 3), (ty =? 2); try lia. rewrite u32_small by (unfold U32; lia). lia.
Qed.

(** What [mount_volume] knows of the filesystem object when it has read the
    sizes of the FAT, of the clusters and of the root directory. *)
Definition bpb_read (fs : FATFS) : Prop :=
  fs_ok fs /\ fs_type fs = 0 /\ (n_fats fs = 1 \/ n_fats fs = 2) /\
  (1 <= csize fs < 256 /\ Z.land (csize fs) (csize fs - 1) = 0) /\ n_rootdir fs mod (SS / SZDIRE) = 0.

(** Outcome of the last steps: an error leaves the object invalid. *)
Definition mount_out (r : FRESULT + Z) (v' : vol D) : Prop :=
  vol_ok v' /\ fs_type (vfs v') = 0 /\
  match r with inl e => e <> FR_OK | inr fmt => mounted (set_fs_type fmt (vfs v')) /\ 0 <= fmt < 256 end.

Lemma mount_geometry_spec v bsect fasize tsect nrsv :
  bpb_read (vfs v) -> dok (vdsk v) -> 0 <= bsect < U32 -> 0 <= tsect < U32 ->
  wpt t (mount_geometry bsect fasize tsect nrsv) mount_out v.
Proof using Type.
  intros (Hf & Ht & Hnf & Hcs & Hrd) Hd Hb Hts. unfold mount_geometry. apply wp_bind, wp_get_fs.
  set (fs := vfs v) in *. set (sysect := u32 (nrsv + fasize + n_rootdir fs / (SS / SZDIRE))).
  assert (0 <= sysect < U32) as Hsys by apply u32_range.
  assert (forall v' e, e <> FR_OK -> vol_ok v' -> fs_type (vfs v') = 0 -> mount_out (inl e) v') as Herr by (by intros; split_and!).
  assert (vol_ok v) as Hv by done.
  destruct (Z.ltb_spec tsect sysect); [by apply wp_ret, Herr|].
  set (nclst := (tsect - sysect) / csize fs).
  assert (0 <= nclst < U32) as Hnc.
  { split; [apply Z.div_pos; lia|]. apply Z.div_lt_upper_bound; [lia|]. unfold U32 in *. nia. }
  destruct (Z.eqb_spec nclst 0); [by apply wp_ret, Herr|].
  destruct (Z.eqb_spec (fat_type nclst) 0); [by apply wp_ret, Herr|].
  destruct (fat_type_spec nclst) as (Hty & Hmax & H12 & H32); [lia|done|].
  assert (u32 (nclst + 2) = nclst + 2) as Hent by (apply u32_small; revert Hmax; unfold_consts; unfold U32; lia).
  rewrite Hent. do 4 apply wp_bind, wp_mod_fs. cbn [vfs vdsk].
  set (fs4 := set_database _ _).
  assert (fs_ok fs4) as Hf4.
  { unfold fs4. apply fs_ok_set_database; [|apply u32_range]. apply fs_ok_set_fatbase; [|apply u32_range].
    apply fs_ok_set_volbase; [|done]. apply fs_ok_set_n_fatent; [done|]. rewrite <- Hent. apply u32_range. }
  assert (forall x, vol_ok (mkVol (set_dirbase (u32 x) fs4) (vdsk v))) as Hf5.
  { intros x. split; [|done]. apply fs_ok_set_dirbase; [done|apply u32_range]. }
  set (need := u32 (fat_bytes (fat_type nclst) (nclst + 2) + (SS - 1)) / SS).
  assert (need <= fsize fs -> fat_bytes (fat_type nclst) (nclst + 2) <= fsize fs * SS) as Hneed.
  { pose proof (fat_bytes_small (fat_type nclst) (nclst + 2) ltac:(lia)) as Hfb.
    unfold need. rewrite u32_small by (unfold U32, SS in *; lia). clear -Hfb. intros Hle.
    pose proof (Z.mul_succ_div_gt (fat_bytes (fat_type nclst) (nclst + 2) + (SS - 1)) SS).
    unfold SS in *. lia. }
  assert (forall x, fs_ok (set_dirbase x fs4) -> (fat_type nclst = FS_FAT32 -> n_rootdir fs = 0) ->
    (fat_type nclst <> FS_FAT32 -> n_rootdir fs <> 0) ->
    wpt t (if fsize fs <? need then ret (inl FR_NO_FILESYSTEM) else ret (inr (fat_type nclst)))
      mount_out (mkVol (set_dirbase x fs4) (vdsk v))) as Hfin.
  { intros x Hokx Hr0 Hr1. destruct (Z.ltb_spec (fsize fs) need) as [|Hfit]; apply wp_ret; [by apply Herr|].
    split; [done|]. split; [done|]. split; [|destruct Hty as [->|[->| ->]]; done].
    constructor; cbn; try done.
    - revert Hmax. unfold_consts. lia.
    - rewrite H12. lia.
    - rewrite H32. lia.
    - intros Hne. pose proof (ok_n_rootdir _ Hf). specialize (Hr1 Hne). unfold fs in *. split; [lia|done].
    - by apply Hneed. }
  clearbody need. destruct (Z.eqb_spec (fat_type nclst) FS_FAT32) as [E|E].
  - apply wp_bind, wp_bind, wp_win_word; [done|done|done|]. intros ver _ _.
    destruct (nz ver); [apply wp_ret; cbv iota; by apply wp_ret, Herr|].
    unfold nz. destruct (Z.eqb_spec (n_rootdir fs) 0) as [Hr|Hr]; cbn [negb];
      [|apply wp_ret; cbv iota; by apply wp_ret, Herr].
    apply wp_bind, wp_win_dword; [done|done|done|]. intros root _ Hroot.
    apply wp_bind, wp_mod_fs, wp_ret. cbv iota. apply Hfin; [|done|done].
    by apply fs_ok_set_dirbase.
  - apply wp_bind. destruct (Z.eqb_spec (n_rootdir fs) 0) as [Hr|Hr];
      [apply wp_ret; cbv iota; by apply wp_ret, Herr|].
    apply wp_bind, wp_mod_fs, wp_ret. cbv iota. apply Hfin; [|done|done].
    apply fs_ok_set_dirbase; [done|apply u32_range].
Qed.

(** Reading the FSInfo sector keeps the geometry. *)
Lemma load_fsinfo_safe g fmt bsect : safe (D := D) t g (load_fsinfo fmt bsect) (fun _ => True).
Proof using Type. unfold load_fsinfo. safe_auto; done. Qed.

Lemma mounted_geom a b : geom a = geom b -> mounted a -> mounted b.
Proof using Type.
  intros H []. apply geom_fields in H as (H1&_&H2&_&H3&H4&H5&H6&_).
  rewrite H1, H2, H3, H4, H5, H6 in *. by constructor.
Qed.

(** A 16-bit field of the boot record, or the 32-bit one in its place. *)
Lemma wp_word_or_dword x (b : bool) i (Q : Z -> vol D -> Prop) v :
  vol_ok v -> 0 <= i -> i + 4 <= SS -> 0 <= x < 65536 ->
  (forall y, 0 <= y < U32 -> Q y v) -> wpt t (if b then win_dword i else ret x) Q v.
Proof using Type.
  intros Hv Hi Hi' Hx HQ. destruct b; [|apply wp_ret, HQ; unfold U32; lia].
  apply wp_win_dword; [done..|]. auto.
Qed.

Lemma mount_bpb_spec v bsect :
  vol_ok v -> fs_type (vfs v) = 0 -> 0 <= bsect < U32 -> wpt t (mount_bpb bsect) mount_out v.
Proof using Type.
  destruct v as [fs d]. intros [Hf Hd] Ht Hb. cbn [vfs vdsk] in *. unfold mount_bpb.
  assert (forall fs e, e <> FR_OK -> fs_ok fs -> fs_type fs = 0 -> wpt t (ret (inl e)) mount_out (mkVol fs d)) as Herr.
  { intros fs' e He Hfs Ht0. by apply wp_ret. }
  apply wp_bind, wp_win_word; [done|done|done|]. intros w _ _.
  destruct (w =? SS); cbn [negb]; [|by apply Herr].
  apply wp_bind, wp_win_word; [done|done|done|]. intros fz16 _ Hfz16.
  apply wp_bind, wp_word_or_dword; [done|done|done|done|]. intros fz Hfz.
  apply wp_bind, wp_mod_fs. cbn [vfs vdsk].
  assert (fs_ok (set_fsize fz fs)) as Hf1 by (by apply fs_ok_set_fsize).
  apply wp_bind, wp_win_at; [done|done|]. intros nf _. pose proof (bval_range nf) as Hnf.
  apply wp_bind, wp_mod_fs. cbn [vfs vdsk].
  assert (fs_ok (set_n_fats (bval nf) (set_fsize fz fs))) as Hf2 by (by apply fs_ok_set_n_fats).
  assert (negb (bval nf =? 1) && negb (bval nf =? 2) = false -> bval nf = 1 \/ bval nf = 2) as Hnf2.
  { destruct (Z.eqb_spec (bval nf) 1), (Z.eqb_spec (bval nf) 2); cbn [negb andb]; auto. done. }
  destruct (negb (bval nf =? 1) && negb (bval nf =? 2)); [by apply Herr|]. specialize (Hnf2 eq_refl).
  apply wp_bind, wp_win_at; [done|done|]. intros cs _. pose proof (bval_range cs) as Hcs.
  apply wp_bind, wp_mod_fs. cbn [vfs vdsk].
  assert (fs_ok (set_csize (bval cs) (set_n_fats (bval nf) (set_fsize fz fs)))) as Hf3
    by (apply fs_ok_set_csize; [done|lia]).
  destruct (Z.eqb_spec (bval cs) 0) as [E0|E0]; cbn [orb]; [by apply Herr|].
  unfold nz at 1. destruct (Z.eqb_spec (Z.land (bval cs) (bval cs - 1)) 0) as [Ep|Ep]; cbn [negb]; [|by apply Herr].
  apply wp_bind, wp_win_word; [done|done|done|]. intros nr _ Hnr.
  apply wp_bind, wp_mod_fs. cbn [vfs vdsk].
  assert (fs_ok (set_n_rootdir nr (set_csize (bval cs) (set_n_fats (bval nf) (set_fsize fz fs))))) as Hf4
    by (by apply fs_ok_set_n_rootdir).
  unfold nz at 1. destruct (Z.eqb_spec (nr mod (SS / SZDIRE)) 0) as [Er|Er]; cbn [negb]; [|by apply Herr].
  apply wp_bind, wp_win_word; [done|done|done|]. intros ts16 _ Hts16.
  apply wp_bind, wp_word_or_dword; [done|done|done|done|]. intros ts Hts.
  apply wp_bind, wp_win_word; [done|done|done|]. intros nrsv _ Hnrsv.
  destruct (nrsv =? 0); [by apply Herr|].
  apply wp_bind. eapply wp_mono.
  { apply mount_geometry_spec; [|done|done|done]. split; [done|]. split; [done|].
    cbn. split; [done|]. split; [split; [lia|done]|done]. }
  intros [e|fmt] v' (Hv' & Ht' & Hm); [by apply wp_ret|].
  apply wp_bind. eapply wp_mono; [apply (load_fsinfo_safe (geom (vfs v'))); by split|].
  intros _ v2 [[Hv2 Hg2] _]. apply wp_ret. split; [done|].
  split; [apply geom_fields in Hg2; destruct Hg2; congruence|]. split; [|apply Hm].
  apply (mounted_geom (set_fs_type fmt (vfs v'))); [|apply Hm].
  apply geom_fields in Hg2 as (_&?&?&?&?&?&?&?&?&?&?&?). unfold geom. cbn. congruence.
Qed.

(** A mount either fails and leaves the filesystem object invalid, or finds a
    sub-type for which the object describes a consistent volume. *)
Lemma mount_fs_spec v mode :
  vol_ok v -> wpt t (mount_fs mode) mount_out v.
Proof using Type.
  intros [Hf Hd]. unfold mount_fs. apply wp_bind, wp_mod_fs, wp_bind, wp_get_fs. cbn [vfs vdsk].
  set (fs0 := set_fs_type 0 (vfs v)).
  assert (fs_ok fs0) as Hf0 by (by apply fs_ok_set_fs_type).
  assert (forall v' e, e <> FR_OK -> vol_ok v' -> fs_type (vfs v') = 0 -> wpt t (ret (inl e)) mount_out v') as Herr.
  { intros v' e He Hv' Ht'. by apply wp_ret. }
  apply wp_bind, wp_on_disk, wp_total. eapply wp_mono; [by apply dio_initialize_law|].
  intros stat d' [Hd' _]. destruct (nz (Z.land stat STA_NOINIT)); [by apply Herr|].
  destruct (_ && _); [by apply Herr|].
  eapply wp_geom; [intros g; apply find_volume_safe|done|]. intros fmt v1 Hv1 Hg1 _.
  assert (fs_type (vfs v1) = 0) as Ht1 by (apply geom_fields in Hg1 as [-> _]; done).
  destruct (fmt =? 4); [by apply Herr|]. destruct (fmt >=? 2); [by apply Herr|].
  apply wp_bind, wp_get_fs. apply mount_bpb_spec; [done|done|]. apply ok_winsect, Hv1.
Qed.

End mount_spec.

(** ** The invariant of the world *)

Section world_inv.
Context {Pf : Platform} {D : Type} `{!DiskIO D} `{!DiskIOLaws D}.
Abbreviation V := (M (vol D)).
Abbreviation W := (M (world D)).

(** A filesystem object is well formed, and describes a consistent volume
    once it is valid; its table is well placed where termination is claimed. *)
Definition fs_inv (t : bool) (fs : FATFS) : Prop :=
  fs_ok fs /\ (fs_type fs <> 0 -> mounted fs /\ (t = true -> fat_layout fs)).

(** [h] is the set of the addresses of filesystem objects. *)
Record winv (t : bool) (h : gset Z) (w : world D) : Prop := mk_winv {
  wi_dom : dom (heap w) = h;
  wi_disk : dok (wdisk w);
  wi_heap : forall p fs, heap w !! p = Some fs -> fs_inv t fs;
  wi_vols : len (FatFs w) = FF_VOLUMES;
  wi_reg : forall i p, at_ (FatFs w) i = Some (Some p) -> p ∈ h;
  wi_fsid : 0 <= Fsid w < 65536;
  wi_ready : t = true -> forall i p fs, at_ (FatFs w) i = Some (Some p) ->
             heap w !! p = Some fs -> fs_type fs <> 0
}.

(** [wsafe t h m P]: from such a world, [m] makes no bad access, ends (when
    [t]), leaves such a world, and its result satisfies [P]. *)
Definition wsafe {A} (t : bool) (h : gset Z) (m : W A) (P : A -> Prop) : Prop :=
  forall w, winv t h w -> wpt t m (fun a w' => winv t h w' /\ P a) w.

Lemma wsafe_ret {A} t h (a : A) (P : A -> Prop) : P a -> wsafe t h (ret a) P.
Proof. intros HP w Hw. by apply wp_ret. Qed.

Lemma wsafe_bind {A B} t h (m : W A) (k : A -> W B) P Q :
  wsafe t h m P -> (forall a, P a -> wsafe t h (k a) Q) -> wsafe t h (bind m k) Q.
Proof.
  intros Hm Hk w Hw. apply wp_bind. eapply wp_mono; [by apply Hm|]. intros a w' []. by apply Hk.
Qed.

Lemma wsafe_mono {A} t h (m : W A) (P Q : A -> Prop) :
  wsafe t h m P -> (forall a, P a -> Q a) -> wsafe t h m Q.
Proof. intros Hm HPQ w Hw. eapply wp_mono; [by apply Hm|]. intros a w' []. auto. Qed.

Lemma wsafe_runs {A} t h (m : W A) P : runs m P -> wsafe t h m P.
Proof. intros H w Hw. apply wp_total. eapply wp_mono; [apply H|]. by intros a w' [-> ?]. Qed.

Lemma wsafe_chk {A} t h (o : option A) (P : A -> Prop) :
  (exists a, o = Some a /\ P a) -> wsafe t h (chk o) P.
Proof. intros (a & -> & Ha). by apply wsafe_ret. Qed.

Lemma heap_at t h w p : winv t h w -> p ∈ h -> exists fs, heap w !! p = Some fs.
Proof. intros Hw Hp. rewrite <- (wi_dom _ _ _ Hw) in Hp. by apply elem_of_dom in Hp. Qed.

(** The world with a new filesystem object at [p]. *)
Lemma winv_insert t h w p fs' d :
  winv t h w -> p ∈ h -> fs_inv t fs' -> dok d ->
  (t = true -> forall i, at_ (FatFs w) i = Some (Some p) -> fs_type fs' <> 0) ->
  winv t h (mkWorld (<[p := fs']> (heap w)) (FatFs w) (Fsid w) d).
Proof.
  intros Hw Hp Hf Hd Ht. destruct Hw as [H1 H2 H3 H4 H5 H6 H7]. constructor; cbn; try done.
  - rewrite dom_insert_L, H1. apply subseteq_union_1_L. by apply singleton_subseteq_l.
  - intros q fs. destruct (decide (q = p)) as [->|Hne].
    + rewrite lookup_insert_eq. by intros [= <-].
    + rewrite lookup_insert_ne by done. apply H3.
  - intros E i q fs Hi. destruct (decide (q = p)) as [->|Hne].
    + rewrite lookup_insert_eq. intros [= <-]. by eapply Ht.
    + rewrite lookup_insert_ne by done. by eapply H7.
Qed.

Lemma fs_inv_geom t a b : geom a = geom b -> fs_ok b -> fs_inv t a -> fs_inv t b.
Proof.
  intros Hg Hb [_ Ha]. split; [done|]. intros Ht.
  destruct Ha as [H1 H2]; [pose proof (geom_fields _ _ Hg) as [-> _]; done|].
  split; [by eapply mounted_geom|]. intros E. eapply fat_layout_geom; [done|auto].
Qed.

Lemma fs_inv_geo t fs : fs_inv t fs -> fs_type fs <> 0 -> vol_geo t (geom fs).
Proof.
  intros [_ H] Hne. destruct (H Hne) as [H1 H2]. constructor.
  - intros fs' Hg. apply geom_fields in Hg as (_&_&_&_&_&->&_). apply (mo_csize _ H1).
  - intros E. by apply layout_of_geom, H2.
Qed.

(** A computation on a valid volume, safe for its geometry. *)
Lemma wsafe_on_fs {A} t h p (m : V A) P w :
  winv t h w -> p ∈ h -> (forall fs, heap w !! p = Some fs -> fs_type fs <> 0) ->
  (forall g, vol_geo t g -> safe t g m P) ->
  wpt t (on_fs p m) (fun a w' => winv t h w' /\ P a) w.
Proof.
  intros Hw Hp Hval Hm. destruct (heap_at _ _ _ _ Hw Hp) as [fs Hfs]. unfold wpt, on_fs. rewrite Hfs.
  pose proof (wi_heap _ _ _ Hw _ _ Hfs) as Hinv. specialize (Hval _ Hfs).
  assert (sv (geom fs) (mkVol fs (wdisk w))) as Hsv.
  { split; [|done]. split; [apply Hinv|apply (wi_disk _ _ _ Hw)]. }
  specialize (Hm (geom fs) (fs_inv_geo _ _ Hinv Hval) _ Hsv). unfold wpt in Hm.
  destruct (m _) as [[a v]| |]; [|done|done]. destruct Hm as [[[Hvf Hvd] Hg] HP]. split; [|done].
  cbn in Hg. apply winv_insert; [done|done|by eapply fs_inv_geom|done|].
  intros _ i _. apply geom_fields in Hg as [-> _]. done.
Qed.

(** *** [mount_volume] and [validate] in the world *)

(** The drives stay initialised, where termination is claimed. *)
Definition drive_ready (t : bool) : Prop :=
  t = true -> forall d p, dok d -> wp (dio_status p) (fun s _ => Z.land s STA_NOINIT = 0) d.

(** [p] is the address of a valid filesystem object. *)
Definition valid_fs (h : gset Z) (w : world D) (p : Z) : Prop :=
  p ∈ h /\ forall fs, heap w !! p = Some fs -> fs_type fs <> 0.

(** What [mount_volume] returns. *)
Definition mount_post (h : gset Z) (path : option (list byte)) (r : FRESULT * option Z * Z) (w' : world D) : Prop :=
  let '(res, rfs, rp) := r in
  res = FR_OK -> exists p s, rfs = Some p /\ path = Some s /\ cstr s rp /\ valid_fs h w' p.

Lemma wp_get_FatFs t t' h w i (Q : option Z -> world D -> Prop) :
  winv t' h w -> 0 <= i < FF_VOLUMES ->
  (forall o, at_ (FatFs w) i = Some o -> (forall p, o = Some p -> p ∈ h) -> Q o w) ->
  wpt t (get_FatFs i) Q w.
Proof.
  intros Hw Hi HQ. destruct (at_is_Some (FatFs w) i) as [o Ho]; [by rewrite (wi_vols _ _ _ Hw)|].
  apply wp_bind, wp_get. eapply wp_chk; [exact Ho|]. apply HQ; [done|]. intros p ->. by eapply (wi_reg _ _ _ Hw).
Qed.

Lemma wp_on_get_fs t h w p (Q : FATFS -> world D -> Prop) :
  winv t h w -> p ∈ h ->
  (forall fs, heap w !! p = Some fs -> fs_inv t fs -> Q fs w) -> wpt t (on_fs p get_fs) Q w.
Proof.
  intros Hw Hp HQ. destruct (heap_at _ _ _ _ Hw Hp) as [fs Hfs]. unfold wpt, on_fs, get_fs. rewrite Hfs. cbn.
  rewrite insert_id by done. destruct w as [hp ff fsid dk].
  apply (HQ fs); [done|]. by apply (wi_heap _ _ _ Hw p).
Qed.

Lemma wp_status t h w p (Q : Z -> world D -> Prop) :
  winv t h w -> (forall s, (t = true -> drive_ready t -> Z.land s STA_NOINIT = 0) -> Q s w) ->
  wpt t (on_wdisk (dio_status p)) Q w.
Proof.
  intros Hw HQ. apply wp_zoom, wp_total. pose proof (wi_disk _ _ _ Hw) as Hd.
  destruct (wp_run _ _ _ (dio_status_law _ p Hd)) as (s & d' & Hrun & ->).
  eapply wp_of_run; [exact Hrun|]. destruct w. apply HQ. intros Et Hr.
  specialize (Hr Et _ p Hd). unfold wpt in Hr. cbn in *. by rewrite Hrun in Hr.
Qed.

(** Overwrite the filesystem object at [p]. *)
Lemma wp_on_vol {A} t w p (m : V A) (Q : A -> world D -> Prop) fs :
  heap w !! p = Some fs ->
  wpt t m (fun a v => Q a (mkWorld (<[p := vfs v]> (heap w)) (FatFs w) (Fsid w) (vdsk v))) (mkVol fs (wdisk w)) ->
  wpt t (on_fs p m) Q w.
Proof. intros Hfs Hm. unfold wpt, on_fs in *. rewrite Hfs. by destruct (m _) as [[a v]| |]. Qed.

Lemma winv_Fsid t h w id : winv t h w -> 0 <= id < 65536 -> winv t h (set_Fsid id w).
Proof. intros [] Hid. by constructor. Qed.

(** The part of [mount_volume] that analyses the drive again. *)
Definition remount (p mode rp : Z) : W (FRESULT * option Z * Z) :=
  r <- on_fs p (mount_fs mode) ;;
  match r with
  | inl e => ret (e, Some p, rp)
  | inr fmt =>
    on_fs p (mod_fs (set_fs_type (u8 fmt))) ;;;
    w <- get ;;
    let id := u16 (Fsid w + 1) in
    put (set_Fsid id w) ;;;
    on_fs p (mod_fs (set_fs_id id)) ;;;
    ret (FR_OK, Some p, rp)
  end.

Lemma mounted_ne fs : mounted fs -> fs_type fs <> 0.
Proof. intros Hm. pose proof (mo_type _ Hm). unfold FS_FAT12, FS_FAT16, FS_FAT32 in *. lia. Qed.

Lemma wp_remount h w s p mode rp (Q : FRESULT * option Z * Z -> world D -> Prop) :
  winv false h w -> p ∈ h -> cstr s rp ->
  (forall r w', winv false h w' -> mount_post h (Some s) r w' -> Q r w') ->
  wpt false (remount p mode rp) Q w.
Proof.
  intros Hw Hin Hcs HQ. destruct (heap_at _ _ _ _ Hw Hin) as [fs Hfs].
  assert (fs_ok fs) as Hok by apply (wi_heap _ _ _ Hw _ _ Hfs).
  apply wp_bind. eapply wp_on_vol; [done|].
  eapply wp_mono; [apply (mount_fs_spec false); split; [done|apply (wi_disk _ _ _ Hw)]|].
  intros [e|fmt] v (Hv & Ht & Hm).
  { apply wp_ret, HQ; [|by intros E].
    apply winv_insert; [done|done| |apply Hv|done]. split; [apply Hv|]. congruence. }
  destruct Hm as [Hm Hfmt]. set (w1 := mkWorld _ _ _ _).
  assert (winv false h w1) as Hw1.
  { apply winv_insert; [done|done| |apply Hv|done]. split; [apply Hv|]. congruence. }
  assert (heap w1 !! p = Some (vfs v)) as Hp1 by apply lookup_insert_eq.
  rewrite (u8_small fmt) by done.
  apply wp_bind. eapply wp_on_vol; [done|]. apply wp_mod_fs. cbn [vfs vdsk].
  set (w2 := mkWorld _ _ _ _).
  assert (winv false h w2) as Hw2.
  { apply winv_insert; [done|done| |apply Hw1|done]. split; [apply fs_ok_set_fs_type; [apply Hv|done]|].
    intros _. by split. }
  apply wp_bind, wp_get, wp_bind, wp_put. assert (0 <= u16 (Fsid w2 + 1) < 65536) as Hid by apply u16_range.
  set (id := u16 _) in *.
  assert (heap (set_Fsid id w2) !! p = Some (set_fs_type fmt (vfs v))) as Hp2 by apply lookup_insert_eq.
  apply wp_bind. eapply wp_on_vol; [exact Hp2|].
  apply wp_mod_fs, wp_ret. cbn [vfs vdsk]. apply HQ.
  - apply winv_insert; [by apply winv_Fsid|done| |apply Hw2|done].
    split; [apply fs_ok_set_fs_id; [apply fs_ok_set_fs_type; [apply Hv|done]|done]|].
    intros _. split; [|done]. by destruct Hm; constructor.
  - intros _. exists p, s. split_and!; [done|done|done|]. split; [done|].
    intros fs2. cbn. rewrite lookup_insert_eq. intros [= <-]. by apply mounted_ne in Hm.
Qed.

(** [mount_volume] keeps the world well formed; on success it yields a
    registered, valid filesystem object and the path past the volume ID. *)
Lemma wp_mount {A} t h w path mode (K : FRESULT * option Z * Z -> W A) Q :
  drive_ready t -> winv t h w -> path_arg path ->
  (forall r w', winv t h w' -> mount_post h path r w' -> wpt t (K r) Q w') ->
  wpt t (bind (mount_volume path mode) K) Q w.
Proof.
  intros Hrdy Hw Hp HK. apply wp_bind. unfold mount_volume. apply wp_bind, wp_total.
  eapply wp_mono; [apply (get_ldnumber_runs path Hp)|]. intros [vol rp] w' (-> & Hv & Hs & _).
  cbn [fst snd] in *. destruct (Z.ltb_spec vol 0); [by apply wp_ret, HK|].
  destruct (Hs ltac:(lia)) as (s & Hpath & Hcs). apply wp_bind.
  eapply wp_get_FatFs; [done|lia|]. intros [p|] Ho Hin; [|by apply wp_ret, HK].
  specialize (Hin p eq_refl). apply wp_bind. eapply wp_on_get_fs; [done|done|].
  intros fs Hfs Hinv. rewrite Hpath in *. unfold nz at 1.
  destruct (Z.eqb_spec (fs_type fs) 0) as [Ht|Ht]; cbn [negb].
  - destruct t; [by destruct (wi_ready _ _ _ Hw eq_refl _ _ _ Ho Hfs)|].
    apply wp_bind, wp_ret. change (negb (nz (Z.land STA_NOINIT STA_NOINIT))) with false. cbv iota.
    by eapply (wp_remount h w s p).
  - apply wp_bind. eapply wp_status; [done|]. intros st Hst.
    destruct (nz (Z.land st STA_NOINIT)) eqn:Est; cbn [negb].
    + destruct t; [by rewrite Hst in Est by done|]. by eapply (wp_remount h w s p).
    + assert (mount_post h (Some s) (FR_OK, Some p, rp) w) as Hpost.
      { intros _. exists p, s. split_and!; [done|done|done|]. split; [done|]. congruence. }
      destruct (_ && _); apply wp_ret, HK; done.
Qed.

(** *** [validate] *)

Definition obj_ok (h : gset Z) (o : FFOBJID) : Prop := forall p, obj_fs o = Some p -> p ∈ h.

Lemma wp_validate {A} t h w o (K : FRESULT * option Z -> W A) Q :
  winv t h w -> obj_ok h o ->
  (forall res, res <> FR_OK -> wpt t (K (res, None)) Q w) ->
  (forall p, obj_fs o = Some p -> valid_fs h w p -> wpt t (K (FR_OK, Some p)) Q w) ->
  wpt t (bind (validate o) K) Q w.
Proof.
  intros Hw Ho Hbad Hok. apply wp_bind. unfold validate.
  destruct (obj_fs o) as [p|] eqn:Ep; [|by apply wp_ret, Hbad].
  apply wp_bind. eapply wp_on_get_fs; [done|by apply Ho|]. intros fs Hfs Hinv.
  destruct (nz (fs_type fs)) eqn:Et; cbn [andb]; [|by apply wp_ret, Hbad].
  destruct (obj_id o =? fs_id fs); [|by apply wp_ret, Hbad].
  apply wp_bind. eapply wp_status; [done|]. intros st _.
  destruct (negb _); apply wp_ret; [|by apply Hbad]. apply Hok; [done|].
  split; [by apply Ho|]. intros fs'. rewrite Hfs. intros [= <-] E. by rewrite E in Et.
Qed.

(** *** [f_mount] *)

Lemma wp_put_FatFs t h w i o (Q : unit -> world D -> Prop) :
  winv false h w -> 0 <= i < FF_VOLUMES -> (forall p, o = Some p -> p ∈ h) ->
  (forall w', winv false h w' -> heap w' = heap w -> wdisk w' = wdisk w -> at_ (FatFs w') i = Some o -> Q tt w') -> wpt t (put_FatFs i o) Q w.
Proof.
  intros Hw Hi Ho HQ. destruct (upd_is_Some (FatFs w) i o) as (l & Hl & Hlen); [by rewrite (wi_vols _ _ _ Hw)|].
  apply wp_bind, wp_get, wp_bind. eapply wp_chk; [exact Hl|]. apply wp_put, HQ; [|done|done|].
  - destruct Hw as [H1 H2 H3 H4 H5 H6 H7]. constructor; try done; [by rewrite <- H4|].
    intros j p. cbn. rewrite (at_upd _ _ _ _ j Hl). destruct (j =? i); [intros [= ->]; by apply Ho|apply H5].
  - change (at_ l i = Some o). by rewrite (at_upd _ _ _ _ i Hl), Z.eqb_refl.
Qed.

(** An object is changed and made invalid. *)
Lemma wp_invalidate t h w p f (Q : unit -> world D -> Prop) :
  winv false h w -> p ∈ h -> (forall fs, fs_ok fs -> fs_ok (f fs) /\ fs_type (f fs) = 0) ->
  (forall w' fs, winv false h w' -> heap w !! p = Some fs -> heap w' = <[p := f fs]> (heap w) -> FatFs w' = FatFs w -> wdisk w' = wdisk w -> Q tt w') ->
  wpt t (on_fs p (mod_fs f)) Q w.
Proof.
  intros Hw Hp Hf HQ. destruct (heap_at _ _ _ _ Hw Hp) as [fs Hfs].
  eapply wp_on_vol; [done|]. apply wp_mod_fs, (HQ _ fs); try done. cbn [vfs vdsk].
  destruct (Hf fs) as [H1 H2]; [apply (wi_heap _ _ _ Hw _ _ Hfs)|].
  apply winv_insert; [done|done|by split|apply (wi_disk _ _ _ Hw)|done].
Qed.

Lemma f_mount_safe h fs path opt :
  (forall p, fs = Some p -> p ∈ h) -> path_arg path ->
  wsafe false h (f_mount fs path opt) (fun _ => True).
Proof.
  intros Hfs Hp w Hw. unfold f_mount. apply wp_bind, wp_total.
  eapply wp_mono; [apply (get_ldnumber_runs path Hp)|]. intros [vol rp] w' (-> & Hv & Hs & _).
  cbn [fst snd] in *. destruct (Z.ltb_spec vol 0); [by apply wp_ret|].
  apply wp_bind. eapply wp_get_FatFs; [done|lia|]. intros o Ho Hin.
  apply wp_bind. assert (forall w (Q : unit -> world D -> Prop), winv false h w -> (forall w', winv false h w' -> Q tt w') ->
    wpt false (match o with Some c => put_FatFs vol None ;;; on_fs c (mod_fs (set_fs_type 0)) | None => ret tt end) Q w) as H1.
  { intros w1 Q Hw1 HQ. destruct o as [c|]; [|by apply wp_ret, HQ]. apply wp_bind.
    eapply wp_put_FatFs; [done|lia|done|]. intros w2 Hw2 _ _ _. apply (wp_invalidate _ h w2 c); [done|by apply Hin| |by intros; apply HQ].
    intros x Hx. split; [by apply fs_ok_set_fs_type|done]. }
  apply H1; [done|]. clear w Hw Ho. intros w Hw. apply wp_bind.
  assert (forall w (Q : unit -> world D -> Prop), winv false h w -> (forall w', winv false h w' -> Q tt w') ->
    wpt false (match fs with
      Some p => on_fs p (mod_fs (set_pdrv (u8 vol)) ;;; mod_fs (set_fs_type 0)) ;;; put_FatFs vol (Some p)
      | None => ret tt end) Q w) as H2.
  { intros w1 Q Hw1 HQ. destruct fs as [p|]; [|by apply wp_ret, HQ]. apply wp_bind.
    apply (wp_invalidate _ h w1 p (fun fs => set_fs_type 0 (set_pdrv (u8 vol) fs))); [done|by apply Hfs| |].
    - intros x Hx. split; [|done]. apply fs_ok_set_fs_type; [|done]. apply fs_ok_set_pdrv; [done|apply u8_range].
    - intros w2 _ Hw2 _ _ _ _. eapply wp_put_FatFs; [done|lia|by intros ? [= <-]; apply Hfs|by intros; apply HQ]. }
  apply H2; [done|]. clear w Hw. intros w Hw. destruct (opt =? 0); [by apply wp_ret|].
  apply wp_mount with (h := h); [done|done|done|]. intros [[res rfs] rp'] w' Hw' _. by apply wp_ret.
Qed.

End world_inv.
