(* ===== verification/File.v ===== *)
(** * Files

    The file functions of the FatFs API: [f_open], [f_read], [f_write],
    [f_sync], [f_close], [f_lseek] and [f_truncate] of ff.c.  Each one
    validates its object or mounts the volume in the [world] and then runs on
    that volume.  A file object and a data buffer are passed in and returned;
    all accesses to a buffer are checked against its size. *)

From stdpp Require Import base numbers list option gmap.
From Stdlib Require Import ZArith Lia.
From Stdlib Require Import Strings.Byte.
From S2P Require Import Prelude Types Bytes Diskio Window Fat Chain Dir Path Mount.

Section file.
Context {Pf : Platform} {D : Type} `{!DiskIO D}.
Abbreviation V := (M (vol D)).
Abbreviation W := (M (world D)).

(** Fields of the embedded object. *)
Definition fp_fs (fp : FIL) : option Z := obj_fs (fp_obj fp).
Definition fp_sclust (fp : FIL) : Z := obj_sclust (fp_obj fp).
Definition fp_objsize (fp : FIL) : Z := obj_objsize (fp_obj fp).
Definition set_fp_fs (x : option Z) (fp : FIL) : FIL := set_fp_obj (set_obj_fs x (fp_obj fp)) fp.
Definition set_fp_sclust (x : Z) (fp : FIL) : FIL := set_fp_obj (set_obj_sclust x (fp_obj fp)) fp.
Definition set_fp_objsize (x : Z) (fp : FIL) : FIL := set_fp_obj (set_obj_objsize x (fp_obj fp)) fp.

(** ** [f_open] *)

(** Overwrite mode: reset the entry and give its clusters back. *)
Definition open_truncate (dj : DIR) : V FRESULT :=
  let dir := dp_dir dj in
  let tm := GET_FATTIME in
  win_put_dword (dir + DIR_CrtTime) tm ;;;
  win_put_dword (dir + DIR_ModTime) tm ;;;
  cl <- ld_clust dir ;;
  win_put (dir + DIR_Attr) AM_ARC ;;;
  st_clust dir 0 ;;;
  win_put_dword (dir + DIR_FileSize) 0 ;;;
  mod_fs (set_wflag 1) ;;;
  if nz cl then
    fs <- get_fs ;;
    let sc := winsect fs in
    res <- remove_chain cl 0 ;;
    if res =r FR_OK then
      res <- move_window sc ;;
      mod_fs (set_last_clst (u32 (cl - 1))) ;;;
      ret res
    else ret res
  else ret FR_OK.

(** Find or create the entry: the result, the directory object and the mode
    with what was done to the file. *)
Definition open_entry (p : list byte) (path mode : Z) (vp : Z) : V (FRESULT * DIR * Z) :=
  let dj := set_dp_obj (set_obj_fs (Some vp) (dp_obj uninit_dir)) uninit_dir in
  do (res, dj) <- follow_path dj p path ;;
  ns <- ch (dp_fn dj) NSFLAG ;;
  let res := if (res =r FR_OK) && nz (Z.land ns NS_NONAME) then FR_INVALID_NAME else res in
  let attr := obj_attr (dp_obj dj) in
  if nz (Z.land mode (Z.lor FA_CREATE_ALWAYS (Z.lor FA_OPEN_ALWAYS FA_CREATE_NEW))) then
    do (res, dj, mode) <-
      (if negb (res =r FR_OK) then
         do (res, dj) <- (if res =r FR_NO_FILE then dir_register dj else ret (res, dj)) ;;
         ret (res, dj, Z.lor mode FA_CREATE_ALWAYS)
       else
         let res := if nz (Z.land attr (Z.lor AM_RDO AM_DIR)) then FR_DENIED
                    else if nz (Z.land mode FA_CREATE_NEW) then FR_EXIST else res in
         ret (res, dj, mode)) ;;
    res <- (if (res =r FR_OK) && nz (Z.land mode FA_CREATE_ALWAYS) then open_truncate dj
            else ret res) ;;
    ret (res, dj, mode)
  else
    let res := if res =r FR_OK then
                 if nz (Z.land attr AM_DIR) then FR_NO_FILE
                 else if nz (Z.land mode FA_WRITE) && nz (Z.land attr AM_RDO) then FR_DENIED
                 else res
               else res in
    ret (res, dj, mode).

(** The [for] loop that follows the chain to the end of the file. *)
Definition seek_end_body (bcs : Z) (a : FRESULT * Z * Z) : V (FRESULT * Z * Z + FRESULT * Z * Z) :=
  let '(res, clst, ofs) := a in
  if (res =r FR_OK) && (ofs >? bcs) then
    clst <- get_fat clst ;;
    let res := if clst <=? 1 then FR_INT_ERR else res in
    let res := if clst =? 0xFFFFFFFF then FR_DISK_ERR else res in
    ret (inl (res, clst, u32 (ofs - bcs)))
  else ret (inr (res, clst, ofs)).

(** FA_OPEN_APPEND: move the file pointer to the end of the file. *)
Definition open_append (fp : FIL) : V (FRESULT * FIL) :=
  fs <- get_fs ;;
  let fp := set_fp_fptr (fp_objsize fp) fp in
  let bcs := u32 (csize fs * SS) in
  do (res, clst, ofs) <- loop (seek_end_body bcs) (FR_OK, fp_sclust fp, fp_objsize fp) ;;
  let fp := set_fp_clust clst fp in
  if (res =r FR_OK) && nz (ofs mod SS) then
    let sc := clst2sect fs clst in
    if sc =? 0 then ret (FR_INT_ERR, fp)
    else ret (res, set_fp_sect (u32 (sc + ofs / SS)) fp)
  else ret (res, fp).

(** [f_open] on the volume [vp] that [mount_volume] found. *)
Definition open_vol (fp : FIL) (p : list byte) (path mode : Z) (vp : Z) : V (FRESULT * FIL) :=
  do (res, dj, mode) <- open_entry p path mode vp ;;
  if negb (res =r FR_OK) then ret (res, fp) else
  let mode := if nz (Z.land mode FA_CREATE_ALWAYS) then Z.lor mode FA_MODIFIED else mode in
  fs <- get_fs ;;
  let fp := set_fp_dir_ptr (dp_dir dj) (set_fp_dir_sect (winsect fs) fp) in
  cl <- ld_clust (dp_dir dj) ;;
  size <- win_dword (dp_dir dj + DIR_FileSize) ;;
  let fp := set_fp_objsize size (set_fp_sclust cl fp) in
  let fp := set_fp_obj (set_obj_id (fs_id fs) (set_obj_fs (Some vp) (fp_obj fp))) fp in
  let fp := set_fp_fptr 0 (set_fp_sect 0 (set_fp_err FR_OK (set_fp_flag mode fp))) in
  if nz (Z.land mode FA_SEEKEND) && (fp_objsize fp >? 0) then open_append fp
  else ret (FR_OK, fp).

Definition f_open (fp : FIL) (path : option (list byte)) (mode : Z) : W (FRESULT * FIL) :=
  let mode := Z.land mode (Z.lor FA_READ (Z.lor FA_WRITE (Z.lor FA_CREATE_ALWAYS
                (Z.lor FA_CREATE_NEW (Z.lor FA_OPEN_ALWAYS FA_OPEN_APPEND))))) in
  do (res, rfs, rp) <- mount_volume path mode ;;
  do (res, fp) <- (if res =r FR_OK then
                     vp <- chk rfs ;; p <- chk path ;; on_fs vp (open_vol fp p rp mode vp)
                   else ret (res, fp)) ;;
  ret (res, if negb (res =r FR_OK) then set_fp_fs None fp else fp).

(** ** [f_read] *)

(** The cluster of the file pointer, at a cluster boundary. *)
Definition read_clst (fp : FIL) : V (FRESULT + FIL) :=
  clst <- (if fp_fptr fp =? 0 then ret (fp_sclust fp) else get_fat (fp_clust fp)) ;;
  if clst <? 2 then ret (inl FR_INT_ERR)
  else if clst =? 0xFFFFFFFF then ret (inl FR_DISK_ERR)
  else ret (inr (set_fp_clust clst fp)).

(** The loop variables: file object, buffer, bytes left, bytes read.  The
    pointer [rbuff] is always [br] bytes into the buffer. *)
Definition rd_state : Type := FIL * list byte * Z * Z.
Definition rd_result : Type := FRESULT * FIL * list byte * Z.

Definition rd_next (fp : FIL) (buff : list byte) (btr br rcnt : Z) : rd_state + rd_result :=
  inl (set_fp_fptr (u32 (fp_fptr fp + rcnt)) fp, buff, u32 (btr - rcnt), u32 (br + rcnt)).

Definition rd_abort (fp : FIL) (buff : list byte) (br : Z) (res : FRESULT) : rd_state + rd_result :=
  inr (res, set_fp_err res fp, buff, br).

(** Copy from the window. *)
Definition read_part (fp : FIL) (buff : list byte) (btr br : Z) : V (rd_state + rd_result) :=
  let rcnt := SS - fp_fptr fp mod SS in
  let rcnt := if rcnt >? btr then btr else rcnt in
  r <- move_window (fp_sect fp) ;;
  if negb (r =r FR_OK) then ret (rd_abort fp buff br FR_DISK_ERR) else
  src <- win_slice (fp_fptr fp mod SS) rcnt ;;
  buff <- chk (splice buff br src) ;;
  ret (rd_next fp buff btr br rcnt).

(** Read [cc] sectors straight into the buffer. *)
Definition read_direct (fp : FIL) (buff : list byte) (btr br sect cc : Z) : V (rd_state + rd_result) :=
  fs <- get_fs ;;
  dst <- chk (slice buff br (cc * SS)) ;;
  do (r, dst) <- on_disk (dio_read (pdrv fs) dst sect cc) ;;
  buff <- chk (splice buff br dst) ;;
  if negb (r =d RES_OK) then ret (rd_abort fp buff br FR_DISK_ERR) else
  buff <- (if nz (wflag fs) && (u32 (winsect fs - sect) <? cc)
           then chk (splice buff (br + u32 (winsect fs - sect) * SS) (win fs))
           else ret buff) ;;
  ret (rd_next fp buff btr br (SS * cc)).

Definition f_read_body (a : rd_state) : V (rd_state + rd_result) :=
  let '(fp, buff, btr, br) := a in
  if btr >? 0 then
    fs <- get_fs ;;
    if fp_fptr fp mod SS =? 0 then
      let csect := Z.land (fp_fptr fp / SS) (csize fs - 1) in
      r <- (if csect =? 0 then read_clst fp else ret (inr fp)) ;;
      match r with
      | inl e => ret (rd_abort fp buff br e)
      | inr fp =>
        let sect := clst2sect fs (fp_clust fp) in
        if sect =? 0 then ret (rd_abort fp buff br FR_INT_ERR) else
        let sect := u32 (sect + csect) in
        let cc := btr / SS in
        if cc >? 0 then
          let cc := if csect + cc >? csize fs then csize fs - csect else cc in
          read_direct fp buff btr br sect cc
        else read_part (set_fp_sect sect fp) buff btr br
      end
    else read_part fp buff btr br
  else ret (inr (FR_OK, fp, buff, br)).

(** The result code, the file object, the buffer and the bytes read. *)
Definition f_read (fp : FIL) (buff : list byte) (btr : Z) : W rd_result :=
  do (res, rfs) <- validate (fp_obj fp) ;;
  if negb (res =r FR_OK) then ret (res, fp, buff, 0) else
  if negb (fp_err fp =r FR_OK) then ret (fp_err fp, fp, buff, 0) else
  if negb (nz (Z.land (fp_flag fp) FA_READ)) then ret (FR_DENIED, fp, buff, 0) else
  let remain := u32 (fp_objsize fp - fp_fptr fp) in
  let btr := if btr >? remain then remain else btr in
  vp <- chk rfs ;;
  on_fs vp (loop f_read_body (fp, buff, btr, 0)).

(** ** [f_write] *)

(** The cluster of the file pointer, allocated if needed: [inr None] when the
    volume is full. *)
Definition write_clst (fp : FIL) : V (FRESULT + option FIL) :=
  clst <- (if fp_fptr fp =? 0 then
             if fp_sclust fp =? 0 then create_chain 0 else ret (fp_sclust fp)
           else create_chain (fp_clust fp)) ;;
  if clst =? 0 then ret (inr None)
  else if clst =? 1 then ret (inl FR_INT_ERR)
  else if clst =? 0xFFFFFFFF then ret (inl FR_DISK_ERR)
  else
    let fp := set_fp_clust clst fp in
    ret (inr (Some (if fp_sclust fp =? 0 then set_fp_sclust clst fp else fp))).

(** The loop variables: file object, bytes left, bytes written; the pointer
    [wbuff] is always [bw] bytes into the buffer. *)
Definition wr_state : Type := FIL * Z * Z.
Definition wr_result : Type := FRESULT * FIL * Z.

Definition wr_next (fp : FIL) (btw bw wcnt : Z) : wr_state + wr_result :=
  let fp := set_fp_fptr (u32 (fp_fptr fp + wcnt)) fp in
  let fp := set_fp_objsize (if fp_fptr fp >? fp_objsize fp then fp_fptr fp else fp_objsize fp) fp in
  inl (fp, u32 (btw - wcnt), u32 (bw + wcnt)).

Definition wr_abort (fp : FIL) (bw : Z) (res : FRESULT) : wr_state + wr_result :=
  inr (res, set_fp_err res fp, bw).

(** The end of the function: the loop is over or the volume is full. *)
Definition wr_end (fp : FIL) (bw : Z) : wr_state + wr_result :=
  inr (FR_OK, set_fp_flag (Z.lor (fp_flag fp) FA_MODIFIED) fp, bw).

Definition write_part (fp : FIL) (buff : list byte) (btw bw : Z) : V (wr_state + wr_result) :=
  let wcnt := SS - fp_fptr fp mod SS in
  let wcnt := if wcnt >? btw then btw else wcnt in
  r <- move_window (fp_sect fp) ;;
  if negb (r =r FR_OK) then ret (wr_abort fp bw FR_DISK_ERR) else
  src <- chk (slice buff bw wcnt) ;;
  win_splice (fp_fptr fp mod SS) src ;;;
  mod_fs (set_wflag 1) ;;;
  ret (wr_next fp btw bw wcnt).

Definition write_direct (fp : FIL) (buff : list byte) (btw bw sect cc : Z) : V (wr_state + wr_result) :=
  fs <- get_fs ;;
  src <- chk (slice buff bw (cc * SS)) ;;
  r <- on_disk (dio_write (pdrv fs) src sect cc) ;;
  if negb (r =d RES_OK) then ret (wr_abort fp bw FR_DISK_ERR) else
  (if u32 (winsect fs - sect) <? cc then
     src <- chk (slice buff (bw + u32 (winsect fs - sect) * SS) SS) ;;
     win_splice 0 src ;;;
     mod_fs (set_wflag 0)
   else ret tt) ;;;
  ret (wr_next fp btw bw (SS * cc)).

(** Write at a sector boundary, [csect] sectors into the cluster. *)
Definition write_sect (fp : FIL) (buff : list byte) (btw bw csect : Z) : V (wr_state + wr_result) :=
  fs <- get_fs ;;
  r <- (if winsect fs =? fp_sect fp then sync_window else ret FR_OK) ;;
  if negb (r =r FR_OK) then ret (wr_abort fp bw FR_DISK_ERR) else
  let sect := clst2sect fs (fp_clust fp) in
  if sect =? 0 then ret (wr_abort fp bw FR_INT_ERR) else
  let sect := u32 (sect + csect) in
  let cc := btw / SS in
  if cc >? 0 then
    let cc := if csect + cc >? csize fs then csize fs - csect else cc in
    write_direct fp buff btw bw sect cc
  else
    r <- (if fp_fptr fp >=? fp_objsize fp then
            r <- sync_window ;;
            if r =r FR_OK then mod_fs (set_winsect sect) ;;; ret r else ret r
          else ret FR_OK) ;;
    if negb (r =r FR_OK) then ret (wr_abort fp bw FR_DISK_ERR) else
    write_part (set_fp_sect sect fp) buff btw bw.

Definition f_write_body (buff : list byte) (a : wr_state) : V (wr_state + wr_result) :=
  let '(fp, btw, bw) := a in
  if btw >? 0 then
    fs <- get_fs ;;
    if fp_fptr fp mod SS =? 0 then
      let csect := Z.land (fp_fptr fp / SS) (csize fs - 1) in
      r <- (if csect =? 0 then write_clst fp else ret (inr (Some fp))) ;;
      match r with
      | inl e => ret (wr_abort fp bw e)
      | inr None => ret (wr_end fp bw)
      | inr (Some fp) => write_sect fp buff btw bw csect
      end
    else write_part fp buff btw bw
  else ret (wr_end fp bw).

Definition f_write (fp : FIL) (buff : list byte) (btw : Z) : W wr_result :=
  do (res, rfs) <- validate (fp_obj fp) ;;
  if negb (res =r FR_OK) then ret (res, fp, 0) else
  if negb (fp_err fp =r FR_OK) then ret (fp_err fp, fp, 0) else
  if negb (nz (Z.land (fp_flag fp) FA_WRITE)) then ret (FR_DENIED, fp, 0) else
  let btw := if u32 (fp_fptr fp + btw) <? fp_fptr fp then u32 (0xFFFFFFFF - fp_fptr fp) else btw in
  vp <- chk rfs ;;
  on_fs vp (loop (f_write_body buff) (fp, btw, 0)).

(** ** [f_sync] and [f_close] *)

Definition sync_vol (fp : FIL) : V (FRESULT * FIL) :=
  let tm := GET_FATTIME in
  res <- move_window (fp_dir_sect fp) ;;
  if res =r FR_OK then
    let dir := fp_dir_ptr fp in
    a <- win_at (dir + DIR_Attr) ;;
    win_put (dir + DIR_Attr) (Z.lor a AM_ARC) ;;;
    st_clust dir (fp_sclust fp) ;;;
    win_put_dword (dir + DIR_FileSize) (fp_objsize fp) ;;;
    win_put_dword (dir + DIR_ModTime) tm ;;;
    win_put_word (dir + DIR_LstAccDate) 0 ;;;
    mod_fs (set_wflag 1) ;;;
    res <- sync_fs ;;
    ret (res, set_fp_flag (Z.land (fp_flag fp) (u8 (Z.lnot FA_MODIFIED))) fp)
  else ret (res, fp).

Definition f_sync (fp : FIL) : W (FRESULT * FIL) :=
  do (res, rfs) <- validate (fp_obj fp) ;;
  if (res =r FR_OK) && nz (Z.land (fp_flag fp) FA_MODIFIED) then
    vp <- chk rfs ;; on_fs vp (sync_vol fp)
  else ret (res, fp).

Definition f_close (fp : FIL) : W (FRESULT * FIL) :=
  do (res, fp) <- f_sync fp ;;
  if res =r FR_OK then
    do (res, _) <- validate (fp_obj fp) ;;
    ret (res, if res =r FR_OK then set_fp_fs None fp else fp)
  else ret (res, fp).

(** ** [f_lseek] *)

(** The cluster following loop: file object, cluster and offset left; it is
    left with [inl] an error or [inr] the same. *)
Definition lseek_body (bcs : Z) (a : FIL * Z * Z) : V (FIL * Z * Z + (FRESULT * FIL + FIL * Z * Z)) :=
  let '(fp, clst, ofs) := a in
  if ofs >? bcs then
    fs <- get_fs ;;
    let ofs := u32 (ofs - bcs) in
    let fp := set_fp_fptr (u32 (fp_fptr fp + bcs)) fp in
    let wr := nz (Z.land (fp_flag fp) FA_WRITE) in
    clst <- (if wr then create_chain clst else get_fat clst) ;;
    if wr && (clst =? 0) then ret (inr (inr (fp, clst, 0)))
    else if clst =? 0xFFFFFFFF then ret (inr (inl (FR_DISK_ERR, fp)))
    else if (clst <=? 1) || (clst >=? n_fatent fs) then ret (inr (inl (FR_INT_ERR, fp)))
    else ret (inl (set_fp_clust clst fp, clst, ofs))
  else ret (inr (inr (fp, clst, ofs))).

(** Where the search starts: the file object, the cluster, and the offset
    from there. *)
Definition lseek_start (fp : FIL) (ifptr ofs bcs : Z) : V (FRESULT * FIL + FIL * Z * Z) :=
  if (ifptr >? 0) && (bcs =? 0) then fault else
  if (ifptr >? 0) && ((ofs - 1) / bcs >=? (ifptr - 1) / bcs) then
    let fp := set_fp_fptr (Z.land (ifptr - 1) (u32 (Z.lnot (bcs - 1)))) fp in
    ret (inr (fp, fp_clust fp, u32 (ofs - fp_fptr fp)))
  else
    let clst := fp_sclust fp in
    if clst =? 0 then
      clst <- create_chain 0 ;;
      if clst =? 1 then ret (inl (FR_INT_ERR, fp))
      else if clst =? 0xFFFFFFFF then ret (inl (FR_DISK_ERR, fp))
      else ret (inr (set_fp_clust clst (set_fp_sclust clst fp), clst, ofs))
    else ret (inr (set_fp_clust clst fp, clst, ofs)).

(** Follow the chain to [ofs]: the file object and the new sector. *)
Definition lseek_follow (fp : FIL) (ifptr ofs : Z) : V (FRESULT * FIL + FIL * Z) :=
  fs <- get_fs ;;
  let bcs := u32 (csize fs * SS) in
  r <- lseek_start fp ifptr ofs bcs ;;
  match r with
  | inl e => ret (inl e)
  | inr (fp, clst, ofs) =>
    if negb (nz clst) then ret (inr (fp, 0)) else
    r <- loop (lseek_body bcs) (fp, clst, ofs) ;;
    match r with
    | inl e => ret (inl e)
    | inr (fp, clst, ofs) =>
      let fp := set_fp_fptr (u32 (fp_fptr fp + ofs)) fp in
      if nz (ofs mod SS) then
        let nsect := clst2sect fs clst in
        if nsect =? 0 then ret (inl (FR_INT_ERR, fp))
        else ret (inr (fp, u32 (nsect + ofs / SS)))
      else ret (inr (fp, 0))
    end
  end.

Definition lseek_vol (fp : FIL) (ofs : Z) : V (FRESULT * FIL) :=
  let ofs := if (ofs >? fp_objsize fp) && negb (nz (Z.land (fp_flag fp) FA_WRITE))
             then fp_objsize fp else ofs in
  let ifptr := fp_fptr fp in
  let fp := set_fp_fptr 0 fp in
  r <- (if ofs >? 0 then lseek_follow fp ifptr ofs else ret (inr (fp, 0))) ;;
  match r with
  | inl (e, fp) => ret (e, set_fp_err e fp)
  | inr (fp, nsect) =>
    let fp := if fp_fptr fp >? fp_objsize fp
              then set_fp_flag (Z.lor (fp_flag fp) FA_MODIFIED) (set_fp_objsize (fp_fptr fp) fp)
              else fp in
    let fp := if nz (fp_fptr fp mod SS) && negb (nsect =? fp_sect fp) then set_fp_sect nsect fp
              else fp in
    ret (FR_OK, fp)
  end.

Definition f_lseek (fp : FIL) (ofs : Z) : W (FRESULT * FIL) :=
  do (res, rfs) <- validate (fp_obj fp) ;;
  let res := if res =r FR_OK then fp_err fp else res in
  if negb (res =r FR_OK) then ret (res, fp) else
  vp <- chk rfs ;; on_fs vp (lseek_vol fp ofs).

(** ** [f_truncate] *)

Definition truncate_vol (fp : FIL) : V (FRESULT * FIL) :=
  if fp_fptr fp <? fp_objsize fp then
    do (res, fp) <-
      (if fp_fptr fp =? 0 then
         res <- remove_chain (fp_sclust fp) 0 ;; ret (res, set_fp_sclust 0 fp)
       else
         fs <- get_fs ;;
         ncl <- get_fat (fp_clust fp) ;;
         let res := FR_OK in
         let res := if ncl =? 0xFFFFFFFF then FR_DISK_ERR else res in
         let res := if ncl =? 1 then FR_INT_ERR else res in
         res <- (if (res =r FR_OK) && (ncl <? n_fatent fs) then remove_chain ncl (fp_clust fp)
                 else ret res) ;;
         ret (res, fp)) ;;
    let fp := set_fp_objsize (fp_fptr fp) fp in
    let fp := set_fp_flag (Z.lor (fp_flag fp) FA_MODIFIED) fp in
    if negb (res =r FR_OK) then ret (res, set_fp_err res fp) else ret (res, fp)
  else ret (FR_OK, fp).

Definition f_truncate (fp : FIL) : W (FRESULT * FIL) :=
  do (res, rfs) <- validate (fp_obj fp) ;;
  if negb (res =r FR_OK) then ret (res, fp) else
  if negb (fp_err fp =r FR_OK) then ret (fp_err fp, fp) else
  if negb (nz (Z.land (fp_flag fp) FA_WRITE)) then ret (FR_DENIED, fp) else
  vp <- chk rfs ;; on_fs vp (truncate_vol fp).

End file.

(** ** Safety

    Every function of this file makes no access outside an object, ends, and
    keeps the volume and the file object well formed, whatever the medium
    holds. *)

(** The fields of a file object are within their widths, and the pointer to
    its directory entry is that of an entry of the window. *)
Record fil_w (fp : FIL) : Prop := mk_fil_w {
  fw_fptr : 0 <= fp_fptr fp < U32;
  fw_clust : 0 <= fp_clust fp < U32;
  fw_sect : 0 <= fp_sect fp < U32;
  fw_dir_sect : 0 <= fp_dir_sect fp < U32;
  fw_dir_ptr : 0 <= fp_dir_ptr fp <= SS - SZDIRE;
  fw_sclust : 0 <= fp_sclust fp < U32;
  fw_objsize : 0 <= fp_objsize fp < U32
}.

(** Well formed, and still attached to the same filesystem object. *)
Definition fil_keeps (fp fp' : FIL) : Prop := fil_w fp' /\ obj_fs (fp_obj fp') = obj_fs (fp_obj fp).

Lemma fil_keeps_refl fp : fil_w fp -> fil_keeps fp fp.
Proof. done. Qed.
Lemma fil_keeps_trans a b c : fil_keeps a b -> fil_keeps b c -> fil_keeps a c.
Proof. intros [? ?] [? ?]. split; [done|congruence]. Qed.

(** A file object with some fields replaced by values of their widths. *)
Ltac fil_solve :=
  lazymatch goal with
  | H : fil_keeps ?a ?b |- fil_keeps ?a _ =>
      apply (fil_keeps_trans a b); [exact H|]; destruct H as [[] _]; split; [constructor; cbn; side|done]
  | H : fil_w ?a |- fil_keeps ?a _ => destruct H; split; [constructor; cbn; side|done]
  | H : fil_w _ |- fil_w _ => destruct H; constructor; cbn; side
  end.

Lemma land_le_l x y : 0 <= x -> 0 <= y -> 0 <= Z.land x y <= x.
Proof.
  intros Hx Hy. rewrite <- (Z2N.id x), <- (Z2N.id y), <- N2Z.inj_land by lia.
  pose proof (N.land_le_l (Z.to_N x) (Z.to_N y)). lia.
Qed.

Section file_safe.
Context {Pf : Platform} {D : Type} `{!DiskIO D} `{!DiskIOLaws D}.
Context (t : bool) (g : list Z) (Hgeo : vol_geo t g).
Abbreviation V := (M (vol D)).
Abbreviation safe := (safe t g).

(** A position in a cluster leaves at least one sector of it. *)
Lemma csect_bound x cs : 0 <= x -> 1 <= cs -> 0 <= Z.land x (cs - 1) < cs.
Proof using Type. intros Hx Hcs. rewrite Z.land_comm. pose proof (land_le_l (cs - 1) x). lia. Qed.

(** *** [f_read] *)

Definition rd_ok (fp : FIL) (size : Z) (total : Z) (a : rd_state) : Prop :=
  let '(fp', buff, btr, br) := a in
  fil_keeps fp fp' /\ len buff = size /\ 0 <= btr /\ 0 <= br /\ br + btr = total.

Definition rd_done (fp : FIL) (size total : Z) (r : rd_result) : Prop :=
  let '(res, fp', buff, br) := r in fil_keeps fp fp' /\ len buff = size /\ 0 <= br <= total.

Definition rd_step (fp : FIL) (size total btr : Z) (r : rd_state + rd_result) : Prop :=
  match r with
  | inl a => rd_ok fp size total a /\ a.1.2 < btr
  | inr b => rd_done fp size total b
  end.

Lemma rd_next_ok fp0 fp size total buff btr br rcnt :
  rd_ok fp0 size total (fp, buff, btr, br) -> total < U32 -> 0 < rcnt <= btr ->
  rd_step fp0 size total btr (rd_next fp buff btr br rcnt).
Proof using Type.
  intros (Hk & Hl & Hb & Hr & Ht) HU Hc. unfold rd_step, rd_next, rd_ok.
  rewrite (u32_small (btr - rcnt)), (u32_small (br + rcnt)) by lia. cbn [fst snd].
  split_and!; [fil_solve|lia..].
Qed.

Lemma rd_abort_ok fp0 fp size total buff btr br e :
  rd_ok fp0 size total (fp, buff, btr, br) -> rd_step fp0 size total btr (rd_abort fp buff br e).
Proof using Type.
  intros (Hk & Hl & Hb & Hr & Ht). split_and!; [fil_solve|done|lia|lia].
Qed.

Lemma read_clst_safe fp : fil_w fp ->
  safe (read_clst fp) (fun r => match r with inl _ => True | inr fp' => fil_keeps fp fp' /\ fp_fptr fp' = fp_fptr fp end).
Proof using Type.
  intros Hf. unfold read_clst.
  apply (safe_bind _ _ _ _ (fun c => 0 <= c < U32)); [destruct Hf; safe_auto; done|].
  intros c Hc. safe_auto; [done..|]. split; [fil_solve|done].
Qed.

Lemma read_part_safe fp0 fp size total buff btr br :
  rd_ok fp0 size total (fp, buff, btr, br) -> total < U32 -> total <= size -> 0 < btr ->
  safe (read_part fp buff btr br) (rd_step fp0 size total btr).
Proof using Type.
  intros Hok HU Hsz Hb. pose proof Hok as ([Hw Hfs] & Hl & _ & Hr & Ht). unfold read_part.
  pose proof (Z.mod_pos_bound (fp_fptr fp) SS ltac:(done)) as Hm.
  set (rc := if _ >? btr then _ else _).
  assert (0 < rc <= btr /\ fp_fptr fp mod SS + rc <= SS) as [Hrc Hrc2].
  { subst rc. destruct (Z.gtb_spec (SS - fp_fptr fp mod SS) btr); lia. }
  destruct Hw. safe_step. safe_step; [apply safe_ret; by eapply rd_abort_ok|].
  eapply safe_bind; [apply safe_win_slice; lia|]. intros src Hsrc. cbv beta in Hsrc.
  eapply safe_bind; [apply safe_chk_splice; lia|]. intros buff' Hb'. cbv beta in Hb'.
  apply safe_ret, rd_next_ok; [|done|lia]. destruct Hok as (? & ? & ?). split_and!; try done; lia.
Qed.

Lemma read_direct_safe fp0 fp size total buff btr br sect cc :
  rd_ok fp0 size total (fp, buff, btr, br) -> total < U32 -> total <= size ->
  0 < cc -> cc * SS <= btr -> 0 <= sect ->
  safe (read_direct fp buff btr br sect cc) (rd_step fp0 size total btr).
Proof using Type.
  intros Hok HU Hsz Hcc Hb Hs. pose proof Hok as (Hk & Hl & _ & Hr & Ht). unfold read_direct.
  assert (SS = 512) as HSS by done.
  safe_step. eapply safe_bind; [apply safe_chk_slice; lia|]. intros dst Hd. cbv beta in Hd.
  eapply safe_bind.
  { apply safe_on_disk. intros d Hdk. apply wp_total. eapply wp_mono; [apply dio_read_law; [done|lia|lia|done]|].
    intros r d' (-> & Hlr & _). split; [done|]. exact Hlr. }
  intros [r dst'] Hd'. cbn [fst snd] in Hd'.
  eapply safe_bind; [apply safe_chk_splice; lia|]. intros buff1 Hb1. cbv beta in Hb1.
  assert (rd_ok fp0 size total (fp, buff1, btr, br)) as Hok1 by (split_and!; try done; lia).
  destruct (negb _); [apply safe_ret; by eapply rd_abort_ok|].
  apply (safe_bind _ _ _ _ (fun b => len b = size)).
  - destruct (nz _); cbn [andb]; [|by apply safe_ret; lia].
    pose proof (u32_range (winsect a - sect)) as Hu.
    destruct (Z.ltb_spec (u32 (winsect a - sect)) cc); [|by apply safe_ret; lia].
    eapply safe_mono; [apply safe_chk_splice|]; [lia|rewrite (ok_win a) by done; lia|]. cbn. lia.
  - intros buff2 Hb2. apply safe_ret, rd_next_ok; [|done|lia]. split_and!; try done; lia.
Qed.

Lemma f_read_body_safe fp0 size total a :
  total < U32 -> total <= size -> rd_ok fp0 size total a ->
  safe (f_read_body a) (rd_step fp0 size total a.1.2).
Proof using Hgeo.
  intros HU Hsz. destruct a as [[[fp buff] btr] br]. intros Hok. cbn [fst snd]. unfold f_read_body.
  pose proof Hok as ([Hw _] & Hl & _ & Hr & Ht).
  destruct (Z.gtb_spec btr 0); [|apply safe_ret; cbn; destruct Hok as (? & ? & ?); split_and!; try done; lia].
  safe_step. destruct (fp_fptr fp mod SS =? 0); [|by apply read_part_safe].
  assert (1 <= csize a) as Hcs by (by apply (geo_csize _ _ Hgeo)). pose proof (fw_fptr _ Hw) as Hfp.
  pose proof (csect_bound (fp_fptr fp / SS) (csize a) ltac:(apply Z.div_pos; [lia|done]) Hcs) as Hc.
  set (cs := Z.land _ _) in *.
  apply (safe_bind _ _ _ _ (fun r => match r with inl _ => True | inr fp' => fil_keeps fp fp' end)).
  { destruct (cs =? 0); [|by apply safe_ret]. eapply safe_mono; [by apply read_clst_safe|].
    intros [|]; [done|]. by intros []. }
  intros [e|fp1]; intros Hk1; [apply safe_ret; by eapply rd_abort_ok|].
  assert (rd_ok fp0 size total (fp1, buff, btr, br)) as Hok1.
  { destruct Hok as (? & ? & ?). split_and!; try done; try lia. by eapply fil_keeps_trans. }
  destruct (_ =? 0); [apply safe_ret; by eapply rd_abort_ok|].
  assert (SS = 512) as HSS by done.
  destruct (Z.gtb_spec (btr / SS) 0).
  - assert (btr / SS * SS <= btr) by (Z.to_euclidean_division_equations; lia).
    destruct (Z.gtb_spec (cs + btr / SS) (csize a));
      apply read_direct_safe; try done; try lia; apply u32_range.
  - apply read_part_safe; try done. destruct Hok1 as (Hka & Hkb). split; [fil_solve|done].
Qed.

Lemma f_read_loop_safe fp buff btr :
  fil_w fp -> 0 <= btr < U32 -> btr <= len buff ->
  safe (loop f_read_body (fp, buff, btr, 0)) (rd_done fp (len buff) btr).
Proof using Hgeo.
  intros Hw Hb Hl.
  apply (safe_loop _ _ (rd_ok fp (len buff) btr) (fun a => a.1.2)).
  - intros a Ha. eapply safe_mono; [apply (f_read_body_safe fp (len buff) btr); [lia|lia|done]|].
    intros [a'|b]; [|done]. intros [Ha' Hlt]. split; [done|]. split; [|done].
    destruct a' as [[[? ?] ?] ?]. apply Ha'.
  - split_and!; try done; lia.
  - cbn. unfold LOOP_FUEL, U32 in *. lia.
Qed.

(** *** [f_write] *)

Definition wr_ok (fp : FIL) (total : Z) (a : wr_state) : Prop :=
  let '(fp', btw, bw) := a in fil_keeps fp fp' /\ 0 <= btw /\ 0 <= bw /\ bw + btw = total.

Definition wr_done (fp : FIL) (total : Z) (r : wr_result) : Prop :=
  let '(res, fp', bw) := r in fil_keeps fp fp' /\ 0 <= bw <= total.

Definition wr_step (fp : FIL) (total btw : Z) (r : wr_state + wr_result) : Prop :=
  match r with
  | inl a => wr_ok fp total a /\ a.1.2 < btw
  | inr b => wr_done fp total b
  end.

Lemma wr_next_ok fp0 fp total btw bw wcnt :
  wr_ok fp0 total (fp, btw, bw) -> total < U32 -> 0 < wcnt <= btw ->
  wr_step fp0 total btw (wr_next fp btw bw wcnt).
Proof using Type.
  intros (Hk & Hb & Hr & Ht) HU Hc. unfold wr_step, wr_next, wr_ok.
  rewrite (u32_small (btw - wcnt)), (u32_small (bw + wcnt)) by lia. cbn [fst snd].
  split_and!; [|lia..]. destruct (_ >? _); fil_solve.
Qed.

Lemma wr_abort_ok fp0 fp total btw bw e :
  wr_ok fp0 total (fp, btw, bw) -> wr_step fp0 total btw (wr_abort fp bw e).
Proof using Type. intros (Hk & Hb & Hr & Ht). split_and!; [fil_solve|lia|lia]. Qed.

Lemma wr_end_ok fp0 fp total btw bw :
  wr_ok fp0 total (fp, btw, bw) -> wr_step fp0 total btw (wr_end fp bw).
Proof using Type. intros (Hk & Hb & Hr & Ht). split_and!; [fil_solve|lia|lia]. Qed.

Lemma wr_ok_set fp0 fp fp' total btw bw :
  wr_ok fp0 total (fp, btw, bw) -> fil_keeps fp fp' -> wr_ok fp0 total (fp', btw, bw).
Proof using Type. intros (Hk & H) Hk'. split; [by eapply fil_keeps_trans|done]. Qed.

Lemma write_clst_safe fp : fil_w fp ->
  safe (write_clst fp) (fun r => match r with inr (Some fp') => fil_keeps fp fp' | _ => True end).
Proof using Type.
  intros Hf. unfold write_clst.
  apply (safe_bind _ _ _ _ (fun c => 0 <= c < U32)); [destruct Hf; safe_auto; done|].
  intros c Hc. safe_auto; try done. cbn. destruct (fp_sclust _ =? 0); fil_solve.
Qed.

Lemma write_part_safe fp0 fp total buff btw bw :
  wr_ok fp0 total (fp, btw, bw) -> total < U32 -> total <= len buff -> 0 < btw ->
  safe (write_part fp buff btw bw) (wr_step fp0 total btw).
Proof using Type.
  intros Hok HU Hsz Hb. pose proof Hok as ([Hw Hfs] & _ & Hr & Ht). unfold write_part.
  pose proof (Z.mod_pos_bound (fp_fptr fp) SS ltac:(done)) as Hm.
  set (wc := if _ >? btw then _ else _).
  assert (0 < wc <= btw /\ fp_fptr fp mod SS + wc <= SS) as [Hwc Hwc2].
  { subst wc. destruct (Z.gtb_spec (SS - fp_fptr fp mod SS) btw); lia. }
  pose proof (fw_sect _ Hw) as Hsec. safe_step. safe_step; [apply safe_ret; by eapply wr_abort_ok|].
  eapply safe_bind; [apply safe_chk_slice; lia|]. intros src Hsrc. cbv beta in Hsrc.
  eapply safe_bind; [apply safe_win_splice; lia|]. intros _ _. safe_step.
  apply safe_ret. by apply wr_next_ok.
Qed.

Lemma safe_write_sectors p b s n :
  0 <= s -> 0 <= n -> len b = n * SS -> safe (on_disk (dio_write p b s n)) (fun _ => True).
Proof using Type.
  intros Hs Hn Hb. apply safe_on_disk. intros d Hd. apply wp_total.
  eapply wp_mono; [by apply dio_write_law|]. by intros r d' (? & _).
Qed.

Lemma write_direct_safe fp0 fp total buff btw bw sect cc :
  wr_ok fp0 total (fp, btw, bw) -> total < U32 -> total <= len buff ->
  0 < cc -> cc * SS <= btw -> 0 <= sect ->
  safe (write_direct fp buff btw bw sect cc) (wr_step fp0 total btw).
Proof using Type.
  intros Hok HU Hsz Hcc Hb Hs. pose proof Hok as (Hk & _ & Hr & Ht). unfold write_direct.
  assert (SS = 512) as HSS by done.
  safe_step. eapply safe_bind; [apply safe_chk_slice; lia|]. intros src Hd. cbv beta in Hd.
  eapply safe_bind; [by apply safe_write_sectors; [|lia|]|]. intros r _.
  destruct (negb _); [apply safe_ret; by eapply wr_abort_ok|].
  apply (safe_bind _ _ _ _ (fun _ => True)).
  - pose proof (u32_range (winsect a - sect)) as Hu.
    destruct (Z.ltb_spec (u32 (winsect a - sect)) cc); [|by apply safe_ret].
    eapply safe_bind; [apply safe_chk_slice; lia|]. intros src' Hs'. cbv beta in Hs'.
    eapply safe_bind; [apply safe_win_splice; lia|]. intros _ _. eauto with safe.
  - intros _ _. apply safe_ret, wr_next_ok; [done|done|lia].
Qed.

Lemma write_sect_safe fp0 fp total buff btw bw csect :
  wr_ok fp0 total (fp, btw, bw) -> total < U32 -> total <= len buff -> 0 < btw -> 0 <= csect ->
  (forall fs, geom fs = g -> csect < csize fs) ->
  safe (write_sect fp buff btw bw csect) (wr_step fp0 total btw).
Proof using Type.
  intros Hok HU Hsz Hb Hc0 Hc. unfold write_sect. safe_step. assert (csect < csize a) as Hcs by (by apply Hc).
  safe_step; [safe_auto; done|]. destruct (negb _); [apply safe_ret; by eapply wr_abort_ok|].
  destruct (_ =? 0); [apply safe_ret; by eapply wr_abort_ok|].
  assert (SS = 512) as HSS by done. destruct (Z.gtb_spec (btw / SS) 0).
  - assert (btw / SS * SS <= btw) by (Z.to_euclidean_division_equations; lia).
    destruct (Z.gtb_spec (csect + btw / SS) (csize a));
      apply write_direct_safe; try done; try lia; apply u32_range.
  - set (sect := u32 (clst2sect _ _ + csect)). assert (0 <= sect < U32) as Hsect by apply u32_range.
    safe_step; [safe_auto; done|]. destruct (negb _); [apply safe_ret; by eapply wr_abort_ok|].
    apply write_part_safe; try done. eapply wr_ok_set; [done|]. destruct Hok as ([Hw _] & _). fil_solve.
Qed.

Lemma f_write_body_safe fp0 buff total a :
  total < U32 -> total <= len buff -> wr_ok fp0 total a ->
  safe (f_write_body buff a) (wr_step fp0 total a.1.2).
Proof using Hgeo.
  intros HU Hsz. destruct a as [[fp btw] bw]. intros Hok. cbn [fst snd]. unfold f_write_body.
  pose proof Hok as ([Hw _] & _ & Hr & Ht).
  destruct (Z.gtb_spec btw 0); [|apply safe_ret; by apply wr_end_ok].
  safe_step. destruct (fp_fptr fp mod SS =? 0); [|by apply write_part_safe].
  pose proof (fw_fptr _ Hw) as Hfp.
  assert (forall fs, geom fs = geom a -> 0 <= Z.land (fp_fptr fp / SS) (csize a - 1) < csize fs) as Hcs.
  { intros fs Hg. pose proof (geom_fields _ _ Hg) as (_&_&_&_&_&->&_).
    apply csect_bound; [apply Z.div_pos; [lia|done]|by apply (geo_csize _ _ Hgeo)]. }
  destruct (Hcs a eq_refl) as [Hc _]. set (cs := Z.land _ _) in *.
  apply (safe_bind _ _ _ _ (fun r => match r with inr (Some fp') => fil_keeps fp fp' | _ => True end)).
  { destruct (cs =? 0); [by apply write_clst_safe|by apply safe_ret]. }
  intros [e|[fp1|]] Hk1; [apply safe_ret; by eapply wr_abort_ok| |apply safe_ret; by apply wr_end_ok].
  apply write_sect_safe; try done; [by eapply wr_ok_set|]. intros fs Hg. apply Hcs. congruence.
Qed.

Lemma f_write_loop_safe fp buff btw :
  fil_w fp -> 0 <= btw < U32 -> btw <= len buff ->
  safe (loop (f_write_body buff) (fp, btw, 0)) (wr_done fp btw).
Proof using Hgeo.
  intros Hw Hb Hl. apply (safe_loop _ _ (wr_ok fp btw) (fun a => a.1.2)).
  - intros a Ha. eapply safe_mono; [apply (f_write_body_safe fp buff btw); [lia|lia|done]|].
    intros [a'|b]; [|done]. intros [Ha' Hlt]. split; [done|]. split; [|done].
    destruct a' as [[? ?] ?]. apply Ha'.
  - split_and!; try done; lia.
  - cbn. unfold LOOP_FUEL, U32 in *. lia.
Qed.

(** *** [f_sync], [f_lseek] and [f_truncate] *)

Lemma sync_vol_safe fp : fil_w fp -> safe (sync_vol fp) (fun r => fil_keeps fp r.2).
Proof using Type.
  intros Hw. pose proof (fw_dir_ptr _ Hw) as Hp. pose proof (fw_dir_sect _ Hw) as Hs.
  pose proof (st_clust_safe t g (fp_dir_ptr fp) (fp_sclust fp) Hp) as Hst.
  unfold sync_vol. safe_auto; [fil_solve|done].
Qed.

Definition seek_ok (fp : FIL) (r : FRESULT * FIL + FIL * Z * Z) : Prop :=
  match r with
  | inl (_, fp') => fil_keeps fp fp'
  | inr (fp', clst, ofs) => fil_keeps fp fp' /\ 0 <= clst < U32 /\ 0 <= ofs < U32
  end.

Lemma lseek_start_safe fp ifptr ofs bcs :
  fil_w fp -> 0 <= ifptr < U32 -> 0 <= ofs < U32 -> 0 < bcs ->
  safe (lseek_start fp ifptr ofs bcs) (seek_ok fp).
Proof using Type.
  intros Hw Hi Ho Hb. unfold lseek_start. pose proof (fw_sclust _ Hw) as Hs. pose proof (fw_clust _ Hw) as Hc.
  destruct (Z.eqb_spec bcs 0) as [|_]; [lia|]. rewrite andb_false_r.
  destruct (Z.gtb_spec ifptr 0); cbn [andb].
  - destruct (_ >=? _).
    + pose proof (land_le_l (ifptr - 1) (u32 (Z.lnot (bcs - 1))) ltac:(lia) (proj1 (u32_range _))).
      apply safe_ret. split; [fil_solve|]. split; [done|apply u32_range].
    + safe_auto; unfold seek_ok; first [done|fil_solve|split; [fil_solve|done]].
  - safe_auto; unfold seek_ok; first [done|fil_solve|split; [fil_solve|done]].
Qed.

Lemma lseek_body_safe bcs fp0 a :
  0 < bcs -> seek_ok fp0 (inr a) ->
  safe (lseek_body bcs a) (fun r => match r with
    | inl a' => seek_ok fp0 (inr a') /\ 0 <= a'.2 < a.2
    | inr b => seek_ok fp0 b end).
Proof using Type.
  intros Hb. destruct a as [[fp clst] ofs]. intros (Hk & Hc & Ho). unfold lseek_body. cbn [snd].
  destruct (Z.gtb_spec ofs bcs); [|by apply safe_ret].
  assert (0 <= ofs - bcs < U32) by lia. rewrite (u32_small (ofs - bcs)) by done. safe_step.
  apply (safe_bind _ _ _ _ (fun c => 0 <= c < U32)); [safe_auto; done|]. intros c Hc'.
  destruct (_ && _); [apply safe_ret; split; [fil_solve|done]|].
  destruct (c =? _); [apply safe_ret; cbn; fil_solve|].
  destruct (_ || _); [apply safe_ret; cbn; fil_solve|].
  apply safe_ret. cbn [snd]. split; [|lia]. split; [fil_solve|done].
Qed.

Lemma lseek_follow_safe fp ifptr ofs :
  fil_w fp -> 0 <= ifptr < U32 -> 0 <= ofs < U32 ->
  safe (lseek_follow fp ifptr ofs) (fun r => match r with
    | inl (_, fp') => fil_keeps fp fp' | inr (fp', ns) => fil_keeps fp fp' /\ 0 <= ns < U32 end).
Proof using Hgeo.
  intros Hw Hi Ho. unfold lseek_follow. safe_step.
  assert (1 <= csize a) as Hcs by (by apply (geo_csize _ _ Hgeo)). pose proof (ok_csize _ H) as Hcs2.
  assert (0 < u32 (csize a * SS)) as Hb by (rewrite u32_small by (unfold U32, SS; lia); unfold SS; lia).
  set (bcs := u32 _) in *. eapply safe_bind; [by apply lseek_start_safe|].
  intros [[e fp1]|[[fp1 clst] ofs1]]; [by intros; apply safe_ret|]. intros (Hk1 & Hc1 & Ho1).
  destruct (negb _); [by apply safe_ret|]. apply (safe_bind _ _ _ _ (seek_ok fp)).
  - apply (safe_loop _ _ (fun x => seek_ok fp (inr x)) (fun x => x.2)); [|done|].
    + intros x Hx. by apply lseek_body_safe.
    + cbn. unfold LOOP_FUEL, U32 in *. lia.
  - intros [[e fp2]|[[fp2 c2] ofs2]]; [by intros; apply safe_ret|]. intros (Hk2 & Hc2 & Ho2).
    safe_auto; first [fil_solve|split; [fil_solve|side]].
Qed.

Lemma lseek_vol_safe fp ofs :
  fil_w fp -> 0 <= ofs < U32 -> safe (lseek_vol fp ofs) (fun r => fil_keeps fp r.2).
Proof using Hgeo.
  intros Hw Ho. unfold lseek_vol. set (o := if _ && _ then fp_objsize fp else ofs).
  assert (0 <= o < U32) as Ho' by (subst o; destruct (_ && _); [apply Hw|done]).
  set (fp0 := set_fp_fptr 0 fp). assert (fil_keeps fp fp0) as Hk0 by (subst fp0; fil_solve).
  apply (safe_bind _ _ _ _ (fun r => match r with
    | inl (_, fp') => fil_keeps fp fp' | inr (fp', ns) => fil_keeps fp fp' /\ 0 <= ns < U32 end)).
  - destruct (o >? 0); [|by apply safe_ret]. eapply safe_mono; [apply lseek_follow_safe; [apply Hk0|apply Hw|done]|].
    intros [[e fp1]|[fp1 ns]]; [|intros [? ?]; split; [|done]]; by apply (fil_keeps_trans fp fp0).
  - intros [[e fp1]|[fp1 ns]]; [intros Hk; apply safe_ret; cbn; fil_solve|]. intros [Hk Hns].
    apply safe_ret. cbn [snd]. destruct (fp_fptr fp1 >? fp_objsize fp1); (destruct (nz (_ mod _) && _); fil_solve).
Qed.

Lemma truncate_vol_safe fp : fil_w fp -> safe (truncate_vol fp) (fun r => fil_keeps fp r.2).
Proof using Hgeo.
  intros Hw. unfold truncate_vol. pose proof (fun c p => remove_chain_safe t g c p (geo_layout _ _ Hgeo)) as Hrm.
  destruct (_ <? _); [|by apply safe_ret].
  apply (safe_bind _ _ _ _ (fun r => fil_keeps fp r.2)).
  - safe_step; [|safe_step]; safe_auto; try done. fil_solve.
  - intros [r fp1] Hk. cbn [snd] in Hk. destruct (negb _); apply safe_ret; cbn [snd]; fil_solve.
Qed.

(** *** [f_open] *)

Lemma open_truncate_safe dj : dir_pos dj -> safe (open_truncate dj) (fun _ => True).
Proof using Hgeo.
  intros Hp. pose proof (dir_pos_bounds _ Hp) as Hb. unfold open_truncate.
  pose proof (fun c p => remove_chain_safe t g c p (geo_layout _ _ Hgeo)) as Hrm.
  pose proof (ld_clust_safe t g (dp_dir dj) Hb) as Hld. pose proof (st_clust_safe t g (dp_dir dj) 0 Hb) as Hst.
  safe_auto; done.
Qed.

Lemma open_entry_safe p path mode vp :
  dir_w uninit_dir -> cstr p path ->
  safe (open_entry p path mode vp) (fun r => r.1.1 = FR_OK -> dir_pos r.1.2).
Proof using Hgeo.
  intros Hu Hp. unfold open_entry. set (dj := set_dp_obj _ _).
  assert (dir_w dj) as Hw by (destruct Hu; by constructor).
  eapply safe_bind; [by apply follow_path_safe|]. intros [res dj1] [[Hw1 _] Hp1]. cbn [fst snd] in *.
  eapply safe_bind; [apply safe_runs, ch_runs; by rewrite (dw_fn _ Hw1)|]. intros ns _.
  set (res' := if _ && _ then FR_INVALID_NAME else res).
  assert (res' = FR_OK -> dir_pos dj1) as Hp2.
  { subst res'. destruct (fr_eqb_spec res FR_OK); cbn [andb]; [|done]. by destruct (nz _). }
  clearbody res'. destruct (nz (Z.land mode _)).
  - apply (safe_bind _ _ _ _ (fun r => r.1.1 = FR_OK -> dir_pos r.1.2)).
    + destruct (fr_eqb_spec res' FR_OK) as [E|E]; cbn [negb].
      * apply safe_ret. cbn [fst snd]. auto.
      * apply (safe_bind _ _ _ _ (fun r => r.1 = FR_OK -> dir_pos r.2)).
        -- destruct (_ =r _); [|by apply safe_ret].
           eapply safe_mono; [by apply dir_register_safe|]. by intros r [_ ?].
        -- intros [r dj2] Hr. by apply safe_ret.
    + intros [[r dj2] m] Hr. cbn [fst snd] in Hr.
      apply (safe_bind _ _ _ _ (fun r' => r' = FR_OK -> dir_pos dj2)).
      * destruct (fr_eqb_spec r FR_OK) as [->|]; cbn [andb]; [|by apply safe_ret].
        destruct (nz _); [|by apply safe_ret]. eapply safe_mono; [by apply open_truncate_safe, Hr|]. auto.
      * intros r' Hr'. by apply safe_ret.
  - apply safe_ret. cbn [fst snd]. destruct (fr_eqb_spec res' FR_OK); auto.
Qed.

Lemma open_append_safe fp : fil_w fp -> safe (open_append fp) (fun r => fil_keeps fp r.2).
Proof using Hgeo.
  intros Hw. unfold open_append. safe_step. pose proof (fw_objsize _ Hw) as Hsz. pose proof (fw_sclust _ Hw) as Hsc.
  assert (1 <= csize a) as Hcs by (by apply (geo_csize _ _ Hgeo)). pose proof (ok_csize _ H) as Hcs2.
  assert (0 < u32 (csize a * SS)) as Hb by (rewrite u32_small by (unfold U32, SS; lia); unfold SS; lia).
  set (bcs := u32 _) in *.
  apply (safe_bind _ _ _ _ (fun x => 0 <= x.1.2 < U32 /\ 0 <= x.2 < U32)).
  - apply (safe_loop _ _ (fun x => 0 <= x.1.2 < U32 /\ 0 <= x.2 < U32) (fun x => x.2)); [|done|].
    + intros [[r c] ofs] [Hc Ho]. cbn [fst snd] in *. unfold seek_end_body.
      destruct (fr_eqb_spec r FR_OK); cbn [andb]; [|by apply safe_ret].
      destruct (Z.gtb_spec ofs bcs); [|by apply safe_ret].
      safe_step. apply safe_ret. cbn [fst snd]. rewrite u32_small by lia. lia.
    + unfold fp_objsize in *. cbn. unfold LOOP_FUEL, U32 in *. lia.
  - intros [[r c] ofs] [Hc Ho]. cbn [fst snd] in *. safe_auto; cbn [snd]; fil_solve.
Qed.

(** An opened file is attached to the volume. *)
Lemma open_vol_safe fp p path mode vp :
  dir_w uninit_dir -> 0 <= fp_clust fp < U32 -> cstr p path ->
  safe (open_vol fp p path mode vp) (fun r =>
    0 <= fp_clust r.2 < U32 /\ (r.1 = FR_OK -> fil_w r.2 /\ obj_fs (fp_obj r.2) = Some vp)).
Proof using Hgeo.
  intros Hu Hc Hp. unfold open_vol. eapply safe_bind; [by apply open_entry_safe|].
  intros [[res dj] m] Hr. cbn [fst snd] in Hr. destruct (fr_eqb_spec res FR_OK) as [->|]; cbn [negb].
  2:{ by apply safe_ret. }
  pose proof (dir_pos_bounds _ (Hr eq_refl)) as Hb. safe_step.
  eapply safe_bind; [by apply ld_clust_safe|]. intros cl Hcl.
  eapply safe_bind; [apply safe_win_dword; unfold_consts; lia|]. intros sz Hsz. cbv beta in Hcl, Hsz.
  set (fp' := set_fp_fptr 0 _). pose proof (ok_winsect _ H) as Hws.
  assert (fil_w fp') as Hw' by (by constructor).
  destruct (_ && _).
  - eapply safe_mono; [by apply open_append_safe|]. intros r [Hk Hf]. split; [apply Hk|by split].
  - by apply safe_ret.
Qed.

End file_safe.

(** ** The API functions in the world *)

Section file_api.
Context {Pf : Platform} {D : Type} `{!DiskIO D} `{!DiskIOLaws D}.
Context (t : bool) (h : gset Z) (Hrdy : drive_ready (D := D) t).

(** A well-formed file object that points to a known filesystem object. *)
Definition file_ok (fp : FIL) : Prop := fil_w fp /\ obj_ok h (fp_obj fp).

Lemma file_ok_keeps fp fp' : file_ok fp -> fil_keeps fp fp' -> file_ok fp'.
Proof using Type. intros [_ H] [Hw Hf]. split; [done|]. intros p. rewrite Hf. apply H. Qed.

(** A volume function on a validated volume. *)
Lemma wsafe_file {A} p (m : M (vol D) A) (P : A -> Prop) w :
  winv t h w -> valid_fs h w p -> (forall g, vol_geo t g -> safe t g m P) ->
  wpt t (vp <- chk (Some p) ;; on_fs vp m) (fun a w' => winv t h w' /\ P a) w.
Proof using Type.
  intros Hw [Hp Hv] Hm. apply wp_bind. eapply wp_chk; [done|]. by apply wsafe_on_fs.
Qed.

Lemma f_open_safe fp path mode :
  dir_w uninit_dir -> 0 <= fp_clust fp < U32 -> path_arg path ->
  wsafe t h (f_open fp path mode) (fun r =>
    0 <= fp_clust r.2 < U32 /\
    (r.1 = FR_OK -> file_ok r.2) /\ (r.1 <> FR_OK -> obj_fs (fp_obj r.2) = None)).
Proof using Hrdy.
  intros Hu Hc Hp w Hw. unfold f_open. cbv zeta. eapply wp_mount; [done|done|done|].
  intros [[res rfs] rp] w1 Hw1 Hm. apply wp_bind.
  destruct (fr_eqb_spec res FR_OK) as [->|Hr].
  - destruct (Hm eq_refl) as (vp & s & -> & -> & Hcs & Hin & Hv). apply wp_bind. eapply wp_chk; [done|].
    apply wp_bind. eapply wp_chk; [done|]. eapply wp_mono.
    { eapply wsafe_on_fs; [done|done|done|]. intros g Hg. by apply open_vol_safe. }
    intros [r fp1] w2 (Hw2 & Hcl & Hok). cbn [fst snd] in *. apply wp_ret. split; [done|]. cbn [fst snd].
    destruct (fr_eqb_spec r FR_OK) as [->|]; cbn [negb]; [|done]. split; [done|]. split; [|done]. intros _.
    destruct (Hok eq_refl) as [Hf Ho]. split; [done|]. intros q. rewrite Ho. by intros [= <-].
  - do 2 apply wp_ret. split; [done|]. cbn [fst snd]. by destruct (fr_eqb_spec res FR_OK).
Qed.

(** An early return: the world and the object are unchanged. *)
Ltac early := apply wp_ret; cbn [fst snd]; split_and!; solve [done | lia].

Lemma f_read_safe fp buff btr :
  file_ok fp -> 0 <= btr < U32 -> btr <= len buff ->
  wsafe t h (f_read fp buff btr) (fun r =>
    file_ok r.1.1.2 /\ len r.1.2 = len buff /\ 0 <= r.2 <= btr).
Proof using Type.
  intros Hf Hb Hl w Hw. unfold f_read. eapply wp_validate; [done|apply Hf| |].
  - intros res Hr. destruct (fr_eqb_spec res FR_OK); [done|]. early.
  - intros p Hp Hv. cbn [negb]. change (FR_OK =r FR_OK) with true. cbn [negb].
    destruct (negb _); [early|]. destruct (negb _); [early|].
    set (n := if _ >? _ then _ else btr).
    assert (0 <= n <= btr) as Hn.
    { pose proof (u32_range (fp_objsize fp - fp_fptr fp)). subst n. destruct (Z.gtb_spec btr (u32 (fp_objsize fp - fp_fptr fp))); lia. }
    eapply wp_mono; [eapply (wsafe_file _ _ _ _ Hw Hv)|].
    + intros g Hg. apply f_read_loop_safe; [done|apply Hf|lia|lia].
    + intros [[[res fp1] b1] br] w1 (Hw1 & Hk & Hb1 & Hbr). split; [done|]. cbn [fst snd].
      split; [by eapply file_ok_keeps|]. split; [done|lia].
Qed.

Lemma f_write_safe fp buff btw :
  file_ok fp -> 0 <= btw < U32 -> btw <= len buff ->
  wsafe t h (f_write fp buff btw) (fun r => file_ok r.1.2 /\ 0 <= r.2 <= btw).
Proof using Type.
  intros Hf Hb Hl w Hw. unfold f_write. eapply wp_validate; [done|apply Hf| |].
  - intros res Hr. destruct (fr_eqb_spec res FR_OK); [done|]. early.
  - intros p Hp Hv. change (FR_OK =r FR_OK) with true. cbn [negb].
    destruct (negb _); [early|]. destruct (negb _); [early|].
    pose proof (fw_fptr _ (proj1 Hf)) as Hfp. set (n := if _ <? _ then _ else btw).
    assert (0 <= n <= btw) as Hn.
    { subst n. destruct (Z.ltb_spec (u32 (fp_fptr fp + btw)) (fp_fptr fp)); [|lia].
      assert (U32 <= fp_fptr fp + btw).
      { destruct (Z.lt_ge_cases (fp_fptr fp + btw) U32); [|done]. rewrite u32_small in * by lia. lia. }
      rewrite u32_small; unfold U32 in *; lia. }
    eapply wp_mono; [eapply (wsafe_file _ _ _ _ Hw Hv)|].
    + intros g Hg. apply f_write_loop_safe; [done|apply Hf|lia|lia].
    + intros [[res fp1] bw] w1 (Hw1 & Hk & Hbw). split; [done|]. cbn [fst snd].
      split; [by eapply file_ok_keeps|lia].
Qed.

Lemma f_sync_safe fp : file_ok fp -> wsafe t h (f_sync fp) (fun r => file_ok r.2).
Proof using Type.
  intros Hf w Hw. unfold f_sync. eapply wp_validate; [done|apply Hf| |].
  - intros res Hr. destruct (fr_eqb_spec res FR_OK); [done|]. by apply wp_ret.
  - intros p Hp Hv. destruct (_ && _); [|by apply wp_ret].
    eapply wp_mono; [eapply (wsafe_file _ _ _ _ Hw Hv)|].
    + intros g Hg. apply sync_vol_safe, Hf.
    + intros r w1 [Hw1 Hk]. split; [done|]. by eapply file_ok_keeps.
Qed.

Lemma f_close_safe fp :
  file_ok fp -> wsafe t h (f_close fp) (fun r => file_ok r.2 /\ (r.1 = FR_OK -> obj_fs (fp_obj r.2) = None)).
Proof using Type.
  intros Hf. unfold f_close. eapply wsafe_bind; [by apply f_sync_safe|]. intros [r fp1] Hf1. cbn [snd] in Hf1.
  destruct (fr_eqb_spec r FR_OK); [|by apply wsafe_ret]. intros w Hw.
  eapply wp_validate; [done|apply Hf1| |].
  - intros res Hr. apply wp_ret. cbn [fst snd]. by destruct (fr_eqb_spec res FR_OK).
  - intros p Hp Hv. apply wp_ret. change (FR_OK =r FR_OK) with true. split; [done|]. split; [|done].
    destruct Hf1 as [[] _]. by split.
Qed.

Lemma f_lseek_safe fp ofs :
  file_ok fp -> 0 <= ofs < U32 -> wsafe t h (f_lseek fp ofs) (fun r => file_ok r.2).
Proof using Type.
  intros Hf Ho w Hw. unfold f_lseek. eapply wp_validate; [done|apply Hf| |].
  - intros res Hr. destruct (fr_eqb_spec res FR_OK) as [|E]; [done|].
    destruct (fr_eqb_spec res FR_OK); [done|]. by apply wp_ret.
  - intros p Hp Hv. change (FR_OK =r FR_OK) with true. cbv iota zeta.
    destruct (negb _); [by apply wp_ret|].
    eapply wp_mono; [eapply (wsafe_file _ _ _ _ Hw Hv)|].
    + intros g Hg. apply lseek_vol_safe; [done|apply Hf|done].
    + intros r w1 [Hw1 Hk]. split; [done|]. by eapply file_ok_keeps.
Qed.

Lemma f_truncate_safe fp : file_ok fp -> wsafe t h (f_truncate fp) (fun r => file_ok r.2).
Proof using Type.
  intros Hf w Hw. unfold f_truncate. eapply wp_validate; [done|apply Hf| |].
  - intros res Hr. destruct (fr_eqb_spec res FR_OK); [done|]. by apply wp_ret.
  - intros p Hp Hv. change (FR_OK =r FR_OK) with true. cbn [negb].
    destruct (negb _); [by apply wp_ret|]. destruct (negb _); [by apply wp_ret|].
    eapply wp_mono; [eapply (wsafe_file _ _ _ _ Hw Hv)|].
    + intros g Hg. apply truncate_vol_safe; [done|apply Hf].
    + intros r w1 [Hw1 Hk]. split; [done|]. by eapply file_ok_keeps.
Qed.

End file_api.
