(* ===== verification/DirApi.v ===== *)
(** * Directories and metadata: the API

    [f_opendir], [f_closedir], [f_readdir], [f_stat], [f_getfree], [f_unlink],
    [f_mkdir] and [f_rename] of ff.c. *)

From stdpp Require Import base numbers list option gmap.
From Stdlib Require Import ZArith Lia.
From Stdlib Require Import Strings.Byte.
From S2P Require Import Prelude Types Bytes Diskio Window Fat Chain Dir Path Mount.

Section dirapi.
Context {Pf : Platform} {D : Type} `{!DiskIO D}.
Abbreviation V := (M (vol D)).
Abbreviation W := (M (world D)).

Definition set_dp_fs (x : option Z) (dp : DIR) : DIR := set_dp_obj (set_obj_fs x (dp_obj dp)) dp.

(** Is the object found by [follow_path] the origin directory itself? *)
Definition no_name (dp : DIR) : V bool :=
  ns <- ch (dp_fn dp) NSFLAG ;; ret (nz (Z.land ns NS_NONAME)).

(** ** [f_opendir], [f_closedir], [f_readdir] *)

Definition opendir_vol (dp : DIR) (p : list byte) (path : Z) : V (FRESULT * DIR) :=
  do (res, dp) <- follow_path dp p path ;;
  do (res, dp) <-
    (if res =r FR_OK then
       noname <- no_name dp ;;
       do (res, dp) <-
         (if negb noname then
            if nz (Z.land (obj_attr (dp_obj dp)) AM_DIR) then
              cl <- ld_clust (dp_dir dp) ;; ret (res, set_sclust cl dp)
            else ret (FR_NO_PATH, dp)
          else ret (res, dp)) ;;
       if res =r FR_OK then
         fs <- get_fs ;;
         dir_sdi (set_dp_obj (set_obj_id (fs_id fs) (dp_obj dp)) dp) 0
       else ret (res, dp)
     else ret (res, dp)) ;;
  ret (if res =r FR_NO_FILE then FR_NO_PATH else res, dp).

Definition f_opendir (dp : DIR) (path : option (list byte)) : W (FRESULT * DIR) :=
  do (res, rfs, rp) <- mount_volume path 0 ;;
  do (res, dp) <-
    (if res =r FR_OK then
       vp <- chk rfs ;; p <- chk path ;;
       on_fs vp (opendir_vol (set_dp_fs (Some vp) dp) p rp)
     else ret (res, dp)) ;;
  ret (res, if negb (res =r FR_OK) then set_dp_fs None dp else dp).

Definition f_closedir (dp : DIR) : W (FRESULT * DIR) :=
  do (res, _) <- validate (dp_obj dp) ;;
  ret (res, if res =r FR_OK then set_dp_fs None dp else dp).

Definition readdir_vol (dp : DIR) (fno : FILINFO) : V (FRESULT * DIR * FILINFO) :=
  do (res, dp) <- dir_read dp false ;;
  let res := if res =r FR_NO_FILE then FR_OK else res in
  if res =r FR_OK then
    fno <- get_fileinfo dp fno ;;
    do (res, dp) <- dir_next dp false ;;
    ret (if res =r FR_NO_FILE then FR_OK else res, dp, fno)
  else ret (res, dp, fno).

(** A null [fno] rewinds the directory. *)
Definition f_readdir (dp : DIR) (fno : option FILINFO) : W (FRESULT * DIR * option FILINFO) :=
  do (res, rfs) <- validate (dp_obj dp) ;;
  if res =r FR_OK then
    vp <- chk rfs ;;
    match fno with
    | None => do (res, dp) <- on_fs vp (dir_sdi dp 0) ;; ret (res, dp, None)
    | Some i =>
      do (res, dp, i) <- on_fs vp (readdir_vol dp i) ;; ret (res, dp, Some i)
    end
  else ret (res, dp, fno).

(** ** [f_stat] *)

Definition stat_vol (vp : Z) (p : list byte) (path : Z) (fno : option FILINFO) :
    V (FRESULT * option FILINFO) :=
  do (res, dj) <- follow_path (set_dp_fs (Some vp) uninit_dir) p path ;;
  if res =r FR_OK then
    noname <- no_name dj ;;
    if noname then ret (FR_INVALID_NAME, fno)
    else match fno with
         | Some i => i <- get_fileinfo dj i ;; ret (res, Some i)
         | None => ret (res, None)
         end
  else ret (res, fno).

Definition f_stat (path : option (list byte)) (fno : option FILINFO) : W (FRESULT * option FILINFO) :=
  do (res, rfs, rp) <- mount_volume path 0 ;;
  if res =r FR_OK then
    vp <- chk rfs ;; p <- chk path ;; on_fs vp (stat_vol vp p rp fno)
  else ret (res, fno).

(** ** [f_getfree] *)

(** The scan of a FAT12: next cluster and free clusters so far. *)
Definition getfree12_body (a : Z * Z) : V (Z * Z + FRESULT * Z) :=
  let '(clst, nfree) := a in
  fs <- get_fs ;;
  stat <- get_fat clst ;;
  if stat =? 0xFFFFFFFF then ret (inr (FR_DISK_ERR, nfree))
  else if stat =? 1 then ret (inr (FR_INT_ERR, nfree))
  else
    let nfree := if stat =? 0 then u32 (nfree + 1) else nfree in
    let clst := u32 (clst + 1) in
    if clst <? n_fatent fs then ret (inl (clst, nfree)) else ret (inr (FR_OK, nfree)).

(** The scan of a FAT16 or FAT32: entries left, sector, offset in it, and
    free clusters so far. *)
Definition getfree_body (a : Z * Z * Z * Z) : V (Z * Z * Z * Z + FRESULT * Z) :=
  let '(clst, sect, i, nfree) := a in
  fs <- get_fs ;;
  do (res, sect) <- (if i =? 0 then res <- move_window sect ;; ret (res, u32 (sect + 1))
                     else ret (FR_OK, sect)) ;;
  if negb (res =r FR_OK) then ret (inr (res, nfree)) else
  do (nfree, i) <-
    (if fs_type fs =? FS_FAT16 then
       x <- win_word i ;; ret (if x =? 0 then u32 (nfree + 1) else nfree, i + 2)
     else
       x <- win_dword i ;;
       ret (if Z.land x 0x0FFFFFFF =? 0 then u32 (nfree + 1) else nfree, i + 4)) ;;
  let i := i mod SS in
  let clst := u32 (clst - 1) in
  if nz clst then ret (inl (clst, sect, i, nfree)) else ret (inr (res, nfree)).

(** The result code and the number of free clusters, if it is returned. *)
Definition getfree_vol : V (FRESULT * option Z) :=
  fs <- get_fs ;;
  if free_clst fs <=? u32 (n_fatent fs - 2) then ret (FR_OK, Some (free_clst fs)) else
  do (res, nfree) <-
    (if fs_type fs =? FS_FAT12 then loop getfree12_body (2, 0)
     else loop getfree_body (n_fatent fs, fatbase fs, 0, 0)) ;;
  if res =r FR_OK then
    mod_fs (set_free_clst nfree) ;;;
    fs <- get_fs ;;
    mod_fs (set_fsi_flag (Z.lor (fsi_flag fs) 1)) ;;;
    ret (res, Some nfree)
  else ret (res, None).

Definition f_getfree (path : option (list byte)) : W (FRESULT * option Z * option Z) :=
  do (res, rfs, _) <- mount_volume path 0 ;;
  if res =r FR_OK then
    vp <- chk rfs ;;
    do (res, nclst) <- on_fs vp getfree_vol ;;
    ret (res, nclst, Some vp)
  else ret (res, None, None).

(** ** [f_unlink] *)

(** Is the sub-directory at [dclst] empty?  [FR_DENIED] if not. *)
Definition test_empty (vp dclst : Z) : V FRESULT :=
  do (res, sdj) <- dir_sdi (set_sclust dclst (set_dp_fs (Some vp) uninit_dir)) 0 ;;
  if res =r FR_OK then
    do (res, _) <- dir_read sdj false ;;
    let res := if res =r FR_OK then FR_DENIED else res in
    ret (if res =r FR_NO_FILE then FR_OK else res)
  else ret res.

Definition unlink_vol (vp : Z) (p : list byte) (path : Z) : V FRESULT :=
  do (res, dj) <- follow_path (set_dp_fs (Some vp) uninit_dir) p path ;;
  if negb (res =r FR_OK) then ret res else
  noname <- no_name dj ;;
  let attr := obj_attr (dp_obj dj) in
  if noname then ret FR_INVALID_NAME
  else if nz (Z.land attr AM_RDO) then ret FR_DENIED
  else
    dclst <- ld_clust (dp_dir dj) ;;
    res <- (if nz (Z.land attr AM_DIR) then test_empty vp dclst else ret res) ;;
    if negb (res =r FR_OK) then ret res else
    res <- dir_remove dj ;;
    res <- (if (res =r FR_OK) && nz dclst then remove_chain dclst 0 else ret res) ;;
    if res =r FR_OK then sync_fs else ret res.

Definition f_unlink (path : option (list byte)) : W FRESULT :=
  do (res, rfs, rp) <- mount_volume path FA_WRITE ;;
  if res =r FR_OK then
    vp <- chk rfs ;; p <- chk path ;; on_fs vp (unlink_vol vp p rp)
  else ret res.

(** ** [f_mkdir] *)

(** Fill the first entries of the new table with the dot entries. *)
Definition make_dots (dcl pcl : Z) : V unit :=
  win_memset DIR_Name 0x20 11 ;;;
  win_put DIR_Name 0x2E ;;;
  win_put DIR_Attr AM_DIR ;;;
  win_put_dword DIR_ModTime GET_FATTIME ;;;
  st_clust 0 dcl ;;;
  e <- win_slice 0 SZDIRE ;;
  win_splice SZDIRE e ;;;
  win_put (SZDIRE + 1) 0x2E ;;;
  st_clust SZDIRE pcl ;;;
  mod_fs (set_wflag 1).

Definition mkdir_vol (vp : Z) (p : list byte) (path : Z) : V FRESULT :=
  do (res, dj) <- follow_path (set_dp_fs (Some vp) uninit_dir) p path ;;
  let res := if res =r FR_OK then FR_EXIST else res in
  if negb (res =r FR_NO_FILE) then ret res else
  dcl <- create_chain 0 ;;
  let res := FR_OK in
  let res := if dcl =? 0 then FR_DENIED else res in
  let res := if dcl =? 1 then FR_INT_ERR else res in
  let res := if dcl =? 0xFFFFFFFF then FR_DISK_ERR else res in
  do (res, dj) <-
    (if res =r FR_OK then
       res <- dir_clear dcl ;;
       if res =r FR_OK then
         make_dots dcl (obj_sclust (dp_obj dj)) ;;;
         dir_register dj
       else ret (res, dj)
     else ret (res, dj)) ;;
  if res =r FR_OK then
    win_put_dword (dp_dir dj + DIR_ModTime) GET_FATTIME ;;;
    st_clust (dp_dir dj) dcl ;;;
    win_put (dp_dir dj + DIR_Attr) AM_DIR ;;;
    mod_fs (set_wflag 1) ;;;
    sync_fs
  else
    _ <- remove_chain dcl 0 ;; ret res.

Definition f_mkdir (path : option (list byte)) : W FRESULT :=
  do (res, rfs, rp) <- mount_volume path FA_WRITE ;;
  if res =r FR_OK then
    vp <- chk rfs ;; p <- chk path ;; on_fs vp (mkdir_vol vp p rp)
  else ret res.

(** ** [f_rename] *)

(** Update the ".." entry of a directory that got a new parent. *)
Definition update_dotdot (dir pcl : Z) : V FRESULT :=
  fs <- get_fs ;;
  cl <- ld_clust dir ;;
  let sect := clst2sect fs cl in
  if sect =? 0 then ret FR_INT_ERR else
  res <- move_window sect ;;
  if res =r FR_OK then
    b <- win_at (SZDIRE * 1 + 1) ;;
    if b =? 0x2E then
      st_clust (SZDIRE * 1) pcl ;;; mod_fs (set_wflag 1) ;;; ret res
    else ret res
  else ret res.

(** Register the new name and copy the entry [buf] of the object to it. *)
Definition rename_register (djo djn : DIR) (buf : list byte) : V FRESULT :=
  do (res, djn) <- dir_register djn ;;
  if negb (res =r FR_OK) then ret res else
  let dir := dp_dir djn in
  src <- chk (slice buf 13 (SZDIRE - 13)) ;;
  win_splice (dir + 13) src ;;;
  b <- chk (at_ buf DIR_Attr) ;;
  let attr := bval b in
  let attr := if negb (nz (Z.land attr AM_DIR)) then Z.lor attr AM_ARC else attr in
  win_put (dir + DIR_Attr) attr ;;;
  mod_fs (set_wflag 1) ;;;
  if nz (Z.land attr AM_DIR) &&
     negb (obj_sclust (dp_obj djo) =? obj_sclust (dp_obj djn))
  then update_dotdot dir (obj_sclust (dp_obj djn))
  else ret res.

Definition rename_vol (vp : Z) (po : list byte) (path_old : Z) (pn : option (list byte)) (path_new : Z) :
    V FRESULT :=
  do (res, djo) <- follow_path (set_dp_fs (Some vp) uninit_dir) po path_old ;;
  ns <- ch (dp_fn djo) NSFLAG ;;
  let res := if (res =r FR_OK) && nz (Z.land ns (Z.lor NS_DOT NS_NONAME)) then FR_INVALID_NAME
             else res in
  if negb (res =r FR_OK) then ret res else
  buf <- win_slice (dp_dir djo) SZDIRE ;;
  pn <- chk pn ;;
  do (res, djn) <- follow_path djo pn path_new ;;
  let res := if res =r FR_OK then
               if (obj_sclust (dp_obj djn) =? obj_sclust (dp_obj djo)) && (dp_dptr djn =? dp_dptr djo)
               then FR_NO_FILE else FR_EXIST
             else res in
  res <- (if res =r FR_NO_FILE then rename_register djo djn buf else ret res) ;;
  if res =r FR_OK then
    res <- dir_remove djo ;;
    if res =r FR_OK then sync_fs else ret res
  else ret res.

Definition f_rename (path_old path_new : option (list byte)) : W FRESULT :=
  do (_, rpn) <- get_ldnumber path_new ;;
  do (res, rfs, rpo) <- mount_volume path_old FA_WRITE ;;
  if res =r FR_OK then
    vp <- chk rfs ;; po <- chk path_old ;; on_fs vp (rename_vol vp po rpo path_new rpn)
  else ret res.

End dirapi.

(** ** Safety *)

Section dirapi_safe.
Context {Pf : Platform} {D : Type} `{!DiskIO D} `{!DiskIOLaws D}.
Context (t : bool) (g : list Z) (Hgeo : vol_geo t g) (Hun : dir_w uninit_dir).
Abbreviation V := (M (vol D)).
Abbreviation safe := (safe t g).

Lemma dir_w_set_obj o dp : dir_w dp -> obj_sclust o = obj_sclust (dp_obj dp) -> dir_w (set_dp_obj o dp).
Proof using Type. intros [] E. constructor; cbn; try done. by rewrite E. Qed.

Lemma no_name_safe dp : dir_w dp -> safe (no_name dp) (fun _ => True).
Proof using Type.
  intros Hw. unfold no_name. eapply safe_bind; [apply safe_runs, ch_runs; by rewrite (dw_fn _ Hw)|].
  intros ns _. by apply safe_ret.
Qed.

(** Follow a path from a fresh directory object. *)
Lemma follow_new_safe vp p path :
  cstr p path -> safe (follow_path (set_dp_fs (Some vp) uninit_dir) p path)
    (fun r => dir_w r.2 /\ (r.1 = FR_OK -> dir_pos r.2)).
Proof using Hgeo Hun.
  intros Hp. eapply safe_mono; [apply follow_path_safe; [done|by apply dir_w_set_obj|done]|].
  intros r [[? _] ?]. done.
Qed.

Lemma opendir_vol_safe dp p path :
  dir_w dp -> cstr p path ->
  safe (opendir_vol dp p path) (fun r => r.1 = FR_OK ->
    dir_w r.2 /\ dir_pos r.2 /\ obj_fs (dp_obj r.2) = obj_fs (dp_obj dp)).
Proof using Hgeo.
  intros Hw Hp. unfold opendir_vol. eapply safe_bind; [by apply follow_path_safe|].
  intros [res dp1] [[Hw1 Hf1] Hp1]. cbn [fst snd] in *.
  apply (safe_bind _ _ _ _ (fun r => r.1 = FR_OK ->
    dir_w r.2 /\ dir_pos r.2 /\ obj_fs (dp_obj r.2) = obj_fs (dp_obj dp))).
  - destruct (fr_eqb_spec res FR_OK) as [->|]; [|by apply safe_ret]. specialize (Hp1 eq_refl).
    eapply safe_bind; [by apply no_name_safe|]. intros nn _.
    apply (safe_bind _ _ _ _ (fun r => dir_w r.2 /\ obj_fs (dp_obj r.2) = obj_fs (dp_obj dp))).
    + destruct (negb nn); [|by apply safe_ret]. destruct (nz _); [|by apply safe_ret].
      eapply safe_bind; [by apply ld_clust_safe, dir_pos_bounds|]. intros cl Hcl. apply safe_ret.
      split; [by apply dir_w_set_sclust|done].
    + intros [r dp2] [Hw2 Hf2]. cbn [fst snd] in *. destruct (r =r FR_OK) eqn:E.
      2:{ apply safe_ret. intros E'. cbn in E'. by rewrite E' in E. }
      safe_step. eapply safe_mono; [apply dir_sdi_safe; [done|by apply dir_w_set_obj|done]|].
      intros r' ((Hk & Hkf & _) & Hpos & _) Hok. split_and!; [done|by apply Hpos|]. by rewrite Hkf.
  - intros [r dp2] Hr. apply safe_ret. cbn [fst snd] in *. by destruct (fr_eqb_spec r FR_NO_FILE).
Qed.

Lemma readdir_vol_safe dp fno :
  dir_w dp -> dir_pos dp -> len (fi_fname fno) = 13 ->
  safe (readdir_vol dp fno) (fun r => dir_w r.1.2 /\ dir_pos r.1.2 /\
    obj_fs (dp_obj r.1.2) = obj_fs (dp_obj dp) /\ len (fi_fname r.2) = 13 /\
    (r.1.1 = FR_OK -> name_ok (fi_fname r.2))).
Proof using Type.
  intros Hw Hp Hf. unfold readdir_vol. eapply safe_bind; [by apply dir_read_safe|].
  intros [res dp1] [(Hw1 & Hf1 & _) Hp1]. cbn [fst snd] in *. cbv zeta.
  destruct (fr_eqb_spec (if res =r FR_NO_FILE then FR_OK else res) FR_OK); [|by apply safe_ret].
  eapply safe_bind; [by apply get_fileinfo_safe|]. intros fno1 Hi1. cbv beta in Hi1.
  eapply safe_bind; [by apply dir_next_safe|]. intros [r2 dp2] ((Hw2 & Hf2 & _) & Hp2 & _).
  apply safe_ret. cbn [fst snd] in *. split_and!; try done; [congruence|apply Hi1].
Qed.

Lemma stat_vol_safe vp p path fno :
  cstr p path -> (forall i, fno = Some i -> len (fi_fname i) = 13) ->
  safe (stat_vol vp p path fno) (fun r => (is_Some fno -> is_Some r.2) /\ forall i, r.2 = Some i ->
    len (fi_fname i) = 13 /\ (r.1 = FR_OK -> name_ok (fi_fname i))).
Proof using Hgeo Hun.
  intros Hp Hf. unfold stat_vol. eapply safe_bind; [by apply follow_new_safe|].
  intros [res dj] [Hw Hpos]. cbn [fst snd] in *.
  destruct (fr_eqb_spec res FR_OK) as [->|]; [|apply safe_ret; cbn; split; [done|]; split; [by apply Hf|done]].
  eapply safe_bind; [by apply no_name_safe|]. intros nn _.
  destruct nn; [apply safe_ret; cbn; split; [done|]; split; [by apply Hf|done]|].
  destruct fno as [i|]; [|by apply safe_ret].
  eapply safe_bind; [apply get_fileinfo_safe; [by apply Hpos|by apply Hf]|].
  intros i1 Hi1. apply safe_ret. split; [done|]. intros ? [= <-]. split; [apply Hi1|done].
Qed.

(** The offset in a sector stays that of an entry of [es] bytes. *)
Definition scan_ok (es : Z) (x : Z * Z * Z * Z) : Prop :=
  0 <= x.1.1.1 < U32 /\ 0 <= x.1.1.2 < U32 /\ (0 <= x.1.2 <= SS - es /\ x.1.2 mod es = 0) /\ 0 <= x.2 < U32.

Lemma scan_next es i : es = 2 \/ es = 4 -> 0 <= i <= SS - es -> i mod es = 0 ->
  0 <= (i + es) mod SS <= SS - es /\ ((i + es) mod SS) mod es = 0.
Proof using Type. unfold SS. intros [-> | ->] H1 H2; Z.to_euclidean_division_equations; lia. Qed.

Lemma getfree_body_safe fs x :
  geom fs = g -> scan_ok (if fs_type fs =? FS_FAT16 then 2 else 4) x ->
  safe (getfree_body x) (fun r => match r with
    | inl x' => scan_ok (if fs_type fs =? FS_FAT16 then 2 else 4) x' /\
                0 <= (if x'.1.1.1 =? 0 then U32 else x'.1.1.1) < (if x.1.1.1 =? 0 then U32 else x.1.1.1)
    | inr b => 0 <= b.2 < U32 end).
Proof using Type.
  intros Hfs. destruct x as [[[c s] i] n]. intros (Hc & Hs & Hi & Hn). cbn [fst snd] in *. unfold getfree_body.
  safe_step. assert (fs_type a = fs_type fs) as -> by (apply geom_fields; congruence).
  set (es := if _ =? _ then _ else _) in *. assert (es = 2 \/ es = 4) as Hes by (subst es; destruct (_ =? _); auto).
  apply (safe_bind _ _ _ _ (fun r => 0 <= r.2 < U32)).
  { destruct (i =? 0); [|by apply safe_ret]. safe_step. apply safe_ret. apply u32_range. }
  intros [r s1] Hs1. cbn [snd] in Hs1. destruct (negb _); [by apply safe_ret|].
  assert (forall b : bool, 0 <= (if b then u32 (n + 1) else n) < U32) as Hcnt
    by (intros []; [apply u32_range|done]).
  apply (safe_bind _ _ _ _ (fun q => 0 <= q.1 < U32 /\ q.2 = i + es)).
  { subst es. destruct (_ =? FS_FAT16).
    - eapply safe_bind; [apply safe_win_word; lia|]. intros y _. apply safe_ret; split; [apply Hcnt|done].
    - eapply safe_bind; [apply safe_win_dword; lia|]. intros y _. apply safe_ret; split; [apply Hcnt|done]. }
  intros [n1 i1] [Hn1 Hi1]. cbn [fst snd] in Hn1, Hi1. subst i1. destruct (nz (u32 (c - 1))) eqn:E; apply safe_ret; [|done].
  cbn [fst snd]. unfold nz in E. destruct (u32 (c - 1) =? 0) eqn:E'; [done|].
  split; [split; [apply u32_range|split; [done|split; [apply scan_next; [done|lia|lia]|done]]]|].
  destruct (Z.eqb_spec c 0) as [->|]; [done|]. rewrite u32_small by lia. lia.
Qed.

Lemma getfree_loop_safe fs :
  fs_ok fs -> geom fs = g -> safe (loop getfree_body (n_fatent fs, fatbase fs, 0, 0)) (fun r => 0 <= r.2 < U32).
Proof using Type.
  intros Hok Hg. pose proof (ok_n_fatent _ Hok). pose proof (ok_fatbase _ Hok).
  apply (safe_loop _ _ (scan_ok (if fs_type fs =? FS_FAT16 then 2 else 4))
           (fun x => if x.1.1.1 =? 0 then U32 else x.1.1.1)).
  - intros x Hx. by apply getfree_body_safe.
  - unfold scan_ok. cbn [fst snd]. split_and!; try done; try lia; by destruct (_ =? _).
  - cbn [fst snd]. destruct (_ =? 0); unfold LOOP_FUEL, U32 in *; lia.
Qed.

Lemma getfree_vol_safe :
  safe getfree_vol (fun r => forall n, r.2 = Some n -> 0 <= n < U32).
Proof using Type.
  unfold getfree_vol. safe_step. pose proof (ok_n_fatent _ H) as Hn. pose proof (ok_fatbase _ H) as Hfb.
  destruct (_ <=? _).
  { apply safe_ret. intros n [= <-]. apply (ok_free_clst _ H). }
  apply (safe_bind _ _ _ _ (fun r => 0 <= r.2 < U32)).
  - destruct (_ =? FS_FAT12).
    + apply (safe_loop _ _ (fun x => 0 <= x.1 <= U32 - 2 /\ 0 <= x.2 < U32) (fun x => U32 - x.1)); [|done|done].
      intros [c n] [Hc Hn']. cbn [fst snd] in *. unfold getfree12_body. safe_step.
      assert (n_fatent a0 < U32) as Hna by (by apply (ok_n_fatent _)).
      safe_step. safe_step; [by apply safe_ret|]. safe_step; [by apply safe_ret|].
      assert (0 <= (if a1 =? 0 then u32 (n + 1) else n) < U32) by (destruct (a1 =? 0); [apply u32_range|done]).
      rewrite (u32_small (c + 1)) by lia.
      destruct (Z.ltb_spec (c + 1) (n_fatent a0)); apply safe_ret; cbn [fst snd]; [lia|done].
    + by apply getfree_loop_safe.
  - intros [r n] Hr. cbn [snd] in Hr. safe_auto; cbn; try done. by intros ? [= <-].
Qed.

Lemma test_empty_safe vp dclst : 0 <= dclst < U32 -> safe (test_empty vp dclst) (fun _ => True).
Proof using Hgeo Hun.
  intros Hd. unfold test_empty. eapply safe_bind.
  { apply dir_sdi_safe; [done| |done]. apply dir_w_set_sclust; [by apply dir_w_set_obj|done]. }
  intros [r sdj] ((Hw & _) & Hp & _). cbn [fst snd] in *.
  destruct (fr_eqb_spec r FR_OK) as [->|]; [|by apply safe_ret].
  eapply safe_bind; [apply dir_read_safe; [done|by apply Hp]|]. intros [r2 ?] _. by apply safe_ret.
Qed.

Lemma remove_safe c p : safe (remove_chain c p) (fun r => r = FR_OK \/ r = FR_DISK_ERR \/ r = FR_INT_ERR).
Proof using Hgeo. apply remove_chain_safe, (geo_layout _ _ Hgeo). Qed.

Lemma unlink_vol_safe vp p path : cstr p path -> safe (unlink_vol vp p path) (fun _ => True).
Proof using Hgeo Hun.
  intros Hp. unfold unlink_vol. eapply safe_bind; [by apply follow_new_safe|].
  intros [res dj] [Hw Hpos]. cbn [fst snd] in *.
  destruct (fr_eqb_spec res FR_OK) as [->|]; cbn [negb]; [|by apply safe_ret]. specialize (Hpos eq_refl).
  eapply safe_bind; [by apply no_name_safe|]. intros nn _. destruct nn; [by apply safe_ret|].
  destruct (nz _); [by apply safe_ret|].
  eapply safe_bind; [by apply ld_clust_safe, dir_pos_bounds|]. intros dcl Hdcl. cbv beta in Hdcl.
  pose proof (test_empty_safe vp dcl Hdcl) as Hte. pose proof (dir_remove_safe t g dj Hw Hpos) as Hrm.
  pose proof (fun c p => remove_safe c p) as Hrc. safe_auto; done.
Qed.

Lemma make_dots_safe dcl pcl : safe (make_dots dcl pcl) (fun _ => True).
Proof using Type.
  unfold make_dots. pose proof (st_clust_safe t g 0 dcl ltac:(done)) as H0.
  pose proof (st_clust_safe t g SZDIRE pcl ltac:(done)) as H1.
  do 5 (safe_step; try done). eapply safe_bind; [by apply safe_win_slice|]. intros e He. cbv beta in He.
  eapply safe_bind; [apply safe_win_splice; [done|by rewrite He]|].
  intros _ _. safe_auto; done.
Qed.

Lemma mkdir_vol_safe vp p path : cstr p path -> safe (mkdir_vol vp p path) (fun _ => True).
Proof using Hgeo Hun.
  intros Hp. unfold mkdir_vol. eapply safe_bind; [by apply follow_new_safe|].
  intros [res dj] [Hw _]. cbn [fst snd] in *. safe_step; [by apply safe_ret|].
  safe_step. set (res1 := if a =? 0xFFFFFFFF then _ else _).
  apply (safe_bind _ _ _ _ (fun r => dir_w r.2 /\ (r.1 = FR_OK -> dir_pos r.2 \/ r.1 <> FR_OK))).
  - destruct (fr_eqb_spec res1 FR_OK); [|by apply safe_ret; auto].
    eapply safe_bind; [apply dir_clear_safe|]. intros r _.
    destruct (fr_eqb_spec r FR_OK); [|by apply safe_ret; auto].
    eapply safe_bind; [apply make_dots_safe|]. intros _ _.
    eapply safe_mono; [by apply dir_register_safe|]. intros r' [[? _] Hr']. split; [done|]. auto.
  - intros [r dj2] [Hw2 Hp2]. cbn [fst snd] in *. destruct (fr_eqb_spec r FR_OK).
    + destruct (Hp2 ltac:(done)) as [Hp3|]; [|done]. pose proof (dir_pos_bounds _ Hp3) as Hb.
      pose proof (st_clust_safe t g (dp_dir dj2) a Hb) as Hst. safe_auto; done.
    + eapply safe_bind; [apply remove_safe|]. intros ? _. by apply safe_ret.
Qed.

Lemma update_dotdot_safe dir pcl : 0 <= dir <= SS - SZDIRE -> safe (update_dotdot dir pcl) (fun _ => True).
Proof using Type.
  intros Hd. unfold update_dotdot. pose proof (ld_clust_safe t g dir Hd) as Hld.
  pose proof (st_clust_safe t g (SZDIRE * 1) pcl ltac:(done)) as Hst. safe_auto; done.
Qed.

Lemma rename_register_safe djo djn buf :
  dir_w djn -> len buf = SZDIRE -> safe (rename_register djo djn buf) (fun _ => True).
Proof using Hgeo.
  intros Hw Hb. unfold rename_register. eapply safe_bind; [by apply dir_register_safe|].
  intros [r dj] [_ Hp]. cbn [fst snd] in *. destruct (fr_eqb_spec r FR_OK) as [->|]; cbn [negb]; [|by apply safe_ret].
  pose proof (dir_pos_bounds _ (Hp eq_refl)) as Hd. cbv zeta.
  eapply safe_bind; [apply safe_chk_slice; [done|done|by rewrite Hb]|]. intros src Hsrc. cbv beta in Hsrc.
  eapply safe_bind; [apply safe_win_splice; [lia|rewrite Hsrc; lia]|]. intros _ _.
  eapply safe_bind; [apply safe_chk_at; by rewrite Hb|]. intros b _.
  eapply safe_bind; [apply safe_win_put; unfold_consts; lia|]. intros _ _. safe_step.
  destruct (_ && _); [by apply update_dotdot_safe|by apply safe_ret].
Qed.

Lemma rename_vol_safe vp po path_old pn path_new :
  cstr po path_old -> cstr pn path_new ->
  safe (rename_vol vp po path_old (Some pn) path_new) (fun _ => True).
Proof using Hgeo Hun.
  intros Ho Hn. unfold rename_vol. eapply safe_bind; [by apply follow_new_safe|].
  intros [res djo] [Hw Hpos]. cbn [fst snd] in *.
  eapply safe_bind; [apply safe_runs, ch_runs; by rewrite (dw_fn _ Hw)|]. intros ns _.
  destruct (fr_eqb_spec res FR_OK) as [->|Hr]; cbn [andb].
  2:{ destruct (fr_eqb_spec res FR_OK); [done|]. by apply safe_ret. }
  destruct (nz _); cbv iota; [by apply safe_ret|]. change (negb (FR_OK =r FR_OK)) with false. cbv iota.
  specialize (Hpos eq_refl). pose proof (dir_pos_bounds _ Hpos) as Hb.
  eapply safe_bind; [apply safe_win_slice; unfold_consts; lia|]. intros buf Hbuf. cbv beta in Hbuf.
  eapply safe_bind; [apply (safe_chk _ _ _ (eq pn)); eauto|]. intros pn' <-.
  eapply safe_bind; [by apply follow_path_safe|]. intros [r djn] [[Hwn _] _]. cbn [fst snd] in *.
  apply (safe_bind _ _ _ _ (fun _ => True)).
  { safe_step; [by apply rename_register_safe|by apply safe_ret]. }
  intros r2 _. pose proof (dir_remove_safe t g djo Hw Hpos) as Hrm. safe_auto; done.
Qed.

End dirapi_safe.

(** ** The API functions in the world *)

Section dirapi_world.
Context {Pf : Platform} {D : Type} `{!DiskIO D} `{!DiskIOLaws D}.
Context (t : bool) (h : gset Z) (Hrdy : drive_ready (D := D) t) (Hun : dir_w uninit_dir).

(** An open directory: well formed, at an entry, on a known volume. *)
Definition dir_ok (dp : DIR) : Prop := dir_w dp /\ dir_pos dp /\ obj_ok h (dp_obj dp).

(** A function that mounts the volume and runs on it. *)
Lemma wsafe_mounted {A} path mode (m : Z -> list byte -> Z -> M (vol D) A) (e : FRESULT -> A) (P : A -> Prop) :
  path_arg path -> (forall r, r <> FR_OK -> P (e r)) ->
  (forall g vp p rp, vol_geo t g -> vp ∈ h -> cstr p rp -> safe t g (m vp p rp) P) ->
  wsafe t h (do (res, rfs, rp) <- mount_volume path mode ;;
             if res =r FR_OK then vp <- chk rfs ;; p <- chk path ;; on_fs vp (m vp p rp)
             else ret (e res)) P.
Proof using Hrdy.
  intros Hp He Hm w Hw. eapply wp_mount; [done|done|done|]. intros [[res rfs] rp] w1 Hw1 Hpost.
  destruct (fr_eqb_spec res FR_OK) as [->|Hr]; [|apply wp_ret; auto].
  destruct (Hpost eq_refl) as (vp & s & -> & -> & Hcs & Hin & Hv). apply wp_bind. eapply wp_chk; [done|].
  apply wp_bind. eapply wp_chk; [done|]. eapply wsafe_on_fs; [done|done|done|]. auto.
Qed.

Lemma f_stat_safe path fno :
  path_arg path -> (forall i, fno = Some i -> len (fi_fname i) = 13) ->
  wsafe t h (f_stat path fno) (fun r => (is_Some fno -> is_Some r.2) /\ forall i, r.2 = Some i ->
    len (fi_fname i) = 13 /\ (r.1 = FR_OK -> name_ok (fi_fname i))).
Proof using Hrdy Hun.
  intros Hp Hf. unfold f_stat.
  apply (wsafe_mounted path 0 (fun vp p rp => stat_vol vp p rp fno) (fun r => (r, fno)));
    [done|intros r Hr; split; [done|]; intros i Hi; split; [by apply Hf|done]|].
  intros. by apply stat_vol_safe.
Qed.

Lemma f_unlink_safe path : path_arg path -> wsafe t h (f_unlink path) (fun _ => True).
Proof using Hrdy Hun.
  intros Hp. unfold f_unlink. apply (wsafe_mounted path FA_WRITE unlink_vol (fun r => r)); [done|done|].
  intros. by apply unlink_vol_safe.
Qed.

Lemma f_mkdir_safe path : path_arg path -> wsafe t h (f_mkdir path) (fun _ => True).
Proof using Hrdy Hun.
  intros Hp. unfold f_mkdir. apply (wsafe_mounted path FA_WRITE mkdir_vol (fun r => r)); [done|done|].
  intros. by apply mkdir_vol_safe.
Qed.

Lemma f_rename_safe path_old pn :
  path_arg path_old -> path_arg (Some pn) -> wsafe t h (f_rename path_old (Some pn)) (fun _ => True).
Proof using Hrdy Hun.
  intros Ho Hn. unfold f_rename. eapply wsafe_bind; [apply wsafe_runs, (get_ldnumber_runs (Some pn) Hn)|].
  intros [v rpn] (_ & _ & Hrp). cbn [fst snd] in *. specialize (Hrp pn eq_refl).
  apply (wsafe_mounted path_old FA_WRITE (fun vp po rpo => rename_vol vp po rpo (Some pn) rpn) (fun r => r));
    [done|done|]. intros. by apply rename_vol_safe.
Qed.

Lemma f_getfree_safe path :
  path_arg path -> wsafe t h (f_getfree path) (fun r => forall n, r.1.2 = Some n -> 0 <= n < U32).
Proof using Hrdy.
  intros Hp w Hw. unfold f_getfree. eapply wp_mount; [done|done|done|]. intros [[res rfs] rp] w1 Hw1 Hpost.
  destruct (fr_eqb_spec res FR_OK) as [->|Hr]; [|by apply wp_ret].
  destruct (Hpost eq_refl) as (vp & s & -> & -> & Hcs & Hin & Hv). apply wp_bind. eapply wp_chk; [done|].
  apply wp_bind. eapply wp_mono.
  { eapply wsafe_on_fs; [done|done|done|]. intros. apply getfree_vol_safe. }
  intros [r n] w2 [Hw2 Hn]. by apply wp_ret.
Qed.

Lemma f_opendir_safe dp path :
  dir_w dp -> path_arg path ->
  wsafe t h (f_opendir dp path) (fun r =>
    (r.1 = FR_OK -> dir_ok r.2) /\ (r.1 <> FR_OK -> obj_fs (dp_obj r.2) = None)).
Proof using Hrdy.
  intros Hd Hp. unfold f_opendir. intros w Hw. eapply wp_mount; [done|done|done|].
  intros [[res rfs] rp] w1 Hw1 Hpost. apply wp_bind. destruct (fr_eqb_spec res FR_OK) as [->|Hr].
  2:{ do 2 apply wp_ret. cbn [fst snd]. by destruct (fr_eqb_spec res FR_OK). }
  destruct (Hpost eq_refl) as (vp & s & -> & -> & Hcs & Hin & Hv). apply wp_bind. eapply wp_chk; [done|].
  apply wp_bind. eapply wp_chk; [done|]. eapply wp_mono.
  { eapply wsafe_on_fs; [done|done|done|]. intros g Hg. apply opendir_vol_safe; [done|by apply dir_w_set_obj|done]. }
  intros [r dp1] w2 [Hw2 Hok]. apply wp_ret. split; [done|]. cbn [fst snd] in *.
  destruct (fr_eqb_spec r FR_OK) as [->|]; cbn [negb]; [|done]. split; [|done]. intros _.
  destruct (Hok eq_refl) as (H1 & H2 & H3). split_and!; [done|done|]. intros q. rewrite H3. by intros [= <-].
Qed.

Lemma f_closedir_safe dp :
  obj_ok h (dp_obj dp) -> wsafe t h (f_closedir dp) (fun r => r.1 = FR_OK -> obj_fs (dp_obj r.2) = None).
Proof using Type.
  intros Ho w Hw. unfold f_closedir. eapply wp_validate; [done|done| |].
  - intros res Hr. apply wp_ret. by destruct (fr_eqb_spec res FR_OK).
  - intros p Hp Hv. by apply wp_ret.
Qed.

Lemma f_readdir_safe dp fno :
  dir_ok dp -> (forall i, fno = Some i -> len (fi_fname i) = 13) ->
  wsafe t h (f_readdir dp fno) (fun r =>
    dir_ok r.1.2 /\ (is_Some fno -> is_Some r.2) /\
    (forall i, r.2 = Some i -> len (fi_fname i) = 13 /\ (r.1.1 = FR_OK -> name_ok (fi_fname i)))).
Proof using Type.
  intros (Hw0 & Hp0 & Ho) Hf w Hw. unfold f_readdir. eapply wp_validate; [done|done| |].
  - intros res Hr. destruct (fr_eqb_spec res FR_OK); [done|]. apply wp_ret. split; [done|].
    split; [done|]. split; [done|]. intros i Hi. split; [by apply Hf|done].
  - intros p Hp [Hin Hv]. change (FR_OK =r FR_OK) with true. cbv iota. apply wp_bind. eapply wp_chk; [done|].
    destruct fno as [i|]; apply wp_bind; eapply wp_mono.
    + eapply wsafe_on_fs; [done|done|done|]. intros g Hg. apply readdir_vol_safe; [done|done|by apply Hf].
    + intros [[r dp1] i1] w1 (Hw1 & Hdw & Hdp & Hdf & Hl). cbn [fst snd] in *. apply wp_ret.
      split; [done|]. cbn [fst snd]. split; [|split; [done|by intros ? [= <-]]]. split_and!; [done|done|].
      intros q. rewrite Hdf. apply Ho.
    + eapply wsafe_on_fs; [done|done|done|]. intros g Hg. by apply dir_sdi_moves.
    + intros [r dp1] w1 (Hw1 & (Hdw & Hdf & _) & Hdp & _). cbn [fst snd] in *. apply wp_ret.
      split; [done|]. cbn [fst snd]. split; [|done]. split_and!; [done|apply Hdp; by right|].
      intros q. rewrite Hdf. apply Ho.
Qed.

End dirapi_world.
