(* ===== verification/Content.v ===== *)
(** * File contents

    The abstract view of an open file: a list of clusters [cs] and, through
    what the volume shows of their sectors, a byte at every offset ([fbyte]).
    [cursor] says that a file object stands at an offset of that file.  The
    loop of [f_read] is proved to deliver exactly these bytes, by whole
    sectors or through the window, and on a reliable medium to succeed. *)

From stdpp Require Import base numbers list option gmap.
From Stdlib Require Import ZArith Lia.
From Stdlib Require Import Strings.Byte.
From S2P Require Import Prelude Types Bytes Diskio Window Fat Chain Live Dir Path Mount File.

(** ** The data area *)

(** Bytes per cluster. *)
Definition bcs (fs : FATFS) : Z := csize fs * SS.

(** The data area follows the table, and no sector number of it wraps
    around. *)
Record data_layout (fs : FATFS) : Prop := mk_data_layout {
  dl_csize : exists k, 0 <= k <= 7 /\ csize fs = 2 ^ k;
  dl_fats : 1 <= n_fats fs <= 2;
  dl_base : fatbase fs + n_fats fs * fsize fs <= database fs;
  dl_pos : 0 < database fs;
  dl_wrap : database fs + csize fs * (n_fatent fs - 2) < U32
}.

(** The first sector of cluster [c]. *)
Definition clst_sect (fs : FATFS) (c : Z) : Z := database fs + csize fs * (c - 2).

(** The sector and the byte at offset [i] of the file with clusters [cs]. *)
Definition fsect (fs : FATFS) (cs : list Z) (i : Z) : option Z :=
  c ← cs !! Z.to_nat (i / bcs fs); Some (clst_sect fs c + i mod bcs fs / SS).

Lemma div_add_aligned a j : a mod SS = 0 -> (a + j) / SS = a / SS + j / SS.
Proof.
  intros E. rewrite (Z.div_mod a SS ltac:(done)) at 1. rewrite E, Z.add_0_r, Z.mul_comm. by rewrite Z.div_add_l.
Qed.

Lemma sector_end p n : p mod SS + n <= SS -> (p + n) mod SS <> 0 -> p mod SS + n < SS.
Proof.
  intros Hn Hmod. destruct (Z.eq_dec (p mod SS + n) SS) as [E|]; [|lia]. exfalso. apply Hmod.
  pose proof (Z.div_mod p SS ltac:(done)). symmetry. apply (Z.mod_unique _ _ (p / SS + 1)); [left; done|]. lia.
Qed.

Section geometry.
Context (fs : FATFS) (Hdl : data_layout fs).

Lemma csize_pos : 1 <= csize fs <= 128.
Proof using Hdl.
  destruct (dl_csize _ Hdl) as (k & Hk & ->). split.
  - apply (Z.pow_le_mono_r 2 0 k); lia.
  - apply (Z.pow_le_mono_r 2 k 7); lia.
Qed.

Lemma bcs_pos : 512 <= bcs fs <= 65536.
Proof using Hdl. pose proof csize_pos. unfold bcs, SS. lia. Qed.

Lemma u32_bcs : u32 (csize fs * SS) = bcs fs.
Proof using Hdl. pose proof bcs_pos. apply u32_small. unfold U32. unfold bcs in *. lia. Qed.

(** The sector offset in a cluster, as the code computes it. *)
Lemma csect_mod p : 0 <= p -> Z.land (p / SS) (csize fs - 1) = p mod bcs fs / SS.
Proof using Hdl.
  intros Hp. destruct (dl_csize _ Hdl) as (k & Hk & E). unfold bcs. rewrite E.
  replace (2 ^ k - 1) with (Z.ones k) by (rewrite Z.ones_equiv; lia).
  rewrite Z.land_ones by lia. rewrite (Z.mul_comm (2 ^ k) SS), Z.rem_mul_r by (unfold SS; lia).
  rewrite (Z.mul_comm SS (_ mod _)), Z.div_add by (unfold SS; lia).
  rewrite (Z.div_small (p mod SS)); [done|]. apply Z.mod_pos_bound. done.
Qed.

Lemma clst2sect_data c : fs_ok fs -> valid_clst fs c -> clst2sect fs c = clst_sect fs c.
Proof using Hdl.
  intros Hok [H1 H2]. pose proof (ok_n_fatent _ Hok) as Hn. pose proof csize_pos. pose proof (dl_wrap _ Hdl) as Hw.
  pose proof (dl_pos _ Hdl). unfold clst2sect, clst_sect.
  rewrite (u32_small (c - 2)), (u32_small (n_fatent fs - 2)) by lia.
  destruct (Z.geb_spec (c - 2) (n_fatent fs - 2)); [lia|].
  assert (0 <= csize fs * (c - 2) < csize fs * (n_fatent fs - 2)) by nia.
  rewrite (u32_small (csize fs * (c - 2))) by lia. apply u32_small. lia.
Qed.

(** The sectors of the data area. *)
Definition data_sect s : Prop := database fs <= s < database fs + csize fs * (n_fatent fs - 2).

Lemma clst_data c k : valid_clst fs c -> 0 <= k < csize fs -> data_sect (clst_sect fs c + k).
Proof using Type. intros [H1 H2] Hk. unfold data_sect, clst_sect. nia. Qed.

Lemma data_range s : data_sect s -> 0 < s < U32 /\ s <> NO_SECT.
Proof using Hdl.
  intros [H1 H2]. pose proof (dl_wrap _ Hdl). pose proof (dl_pos _ Hdl). unfold NO_SECT, u32, U32 in *.
  split; [lia|]. change ((0 - 1) mod 4294967296) with 4294967295. lia.
Qed.

Lemma data_plain s : fs_ok fs -> data_sect s -> plain fs s.
Proof using Hdl.
  intros Hok Hs. destruct (data_range s Hs) as [Hr Hn]. split; [lia|]. split; [done|].
  intros [Hf Hm]. pose proof (dl_base _ Hdl). destruct Hs as [H1 _]. pose proof (ok_fsize _ Hok).
  pose proof (ok_fatbase _ Hok). rewrite u32_small in Hm by nia. nia.
Qed.

Lemma data_off_fat s : fs_ok fs -> fat_layout fs -> data_sect s -> off_fat fs s.
Proof using Hdl.
  intros Hok Hl [H1 _] o Ho. rewrite (fat_sect_val fs o Hok Hl Ho). pose proof (dl_base _ Hdl).
  pose proof (dl_fats _ Hdl). pose proof (ok_fsize _ Hok).
  assert (o / SS < fsize fs) by (apply Z.div_lt_upper_bound; [done|lia]). nia.
Qed.

(** Inside a cluster offsets and sectors go together. *)
Lemma fsect_run cs p j c :
  0 <= p -> cs !! Z.to_nat (p / bcs fs) = Some c -> 0 <= j -> p mod bcs fs + j < bcs fs ->
  fsect fs cs (p + j) = Some (clst_sect fs c + (p mod bcs fs + j) / SS).
Proof using Hdl.
  intros Hp Hc Hj Hlt. pose proof bcs_pos as Hb. pose proof (Z.mod_pos_bound p (bcs fs) ltac:(lia)) as Hm.
  assert ((p + j) / bcs fs = p / bcs fs) as E.
  { symmetry. apply (Z.div_unique _ _ _ (p mod bcs fs + j)); [lia|].
    pose proof (Z.div_mod p (bcs fs) ltac:(lia)). lia. }
  unfold fsect. rewrite E, Hc. cbn. f_equal. f_equal. f_equal.
  symmetry. apply (Z.mod_unique _ _ (p / bcs fs)); [lia|]. pose proof (Z.div_mod p (bcs fs) ltac:(lia)). lia.
Qed.

Lemma mod_bcs_SS p : (p mod bcs fs) mod SS = p mod SS.
Proof using Hdl.
  pose proof csize_pos. unfold bcs. rewrite (Z.mul_comm (csize fs)), Z.rem_mul_r by (unfold SS; lia).
  rewrite (Z.mul_comm SS (_ mod _)), Z.mod_add by (unfold SS; lia). apply Z.mod_mod. done.
Qed.

(** From a sector boundary on. *)
Lemma aligned_run cs p j c :
  0 <= p -> cs !! Z.to_nat (p / bcs fs) = Some c -> p mod SS = 0 -> 0 <= j -> p mod bcs fs + j < bcs fs ->
  fsect fs cs (p + j) = Some (clst_sect fs c + p mod bcs fs / SS + j / SS) /\ (p + j) mod SS = j mod SS.
Proof using Hdl.
  intros Hp Hc Hm Hj Hlt. rewrite (fsect_run cs p j c) by done. split.
  - pose proof (mod_bcs_SS p) as E. rewrite Hm in E. rewrite (div_add_aligned _ j E). f_equal. lia.
  - rewrite Z.add_mod, Hm by done. rewrite Z.add_0_l. by apply Z.mod_mod.
Qed.

(** The offset before a position is in the same cluster, or in the one before
    at a cluster boundary. *)
Lemma prev_same p : 0 < p -> p mod bcs fs <> 0 -> (p - 1) / bcs fs = p / bcs fs.
Proof using Hdl.
  intros Hp Hm. pose proof bcs_pos as Hb. pose proof (Z.mod_pos_bound p (bcs fs) ltac:(lia)) as Hr.
  symmetry. apply (Z.div_unique _ _ _ (p mod bcs fs - 1)); [lia|]. pose proof (Z.div_mod p (bcs fs) ltac:(lia)). lia.
Qed.

Lemma prev_other p : 0 < p -> p mod bcs fs = 0 -> (p - 1) / bcs fs = p / bcs fs - 1 /\ 1 <= p / bcs fs.
Proof using Hdl.
  intros Hp Hm. pose proof bcs_pos as Hb. pose proof (Z.div_mod p (bcs fs) ltac:(lia)) as Hd.
  assert (1 <= p / bcs fs) by nia. split; [|done].
  symmetry. apply (Z.div_unique _ _ _ (bcs fs - 1)); [lia|]. lia.
Qed.

Lemma index_lt (cs : list Z) p : 0 <= p < len cs * bcs fs -> exists c, cs !! Z.to_nat (p / bcs fs) = Some c.
Proof using Hdl.
  intros Hp. pose proof bcs_pos as Hb. apply lookup_lt_is_Some. unfold len in Hp.
  assert (0 <= p / bcs fs) by (apply Z.div_pos; lia).
  assert (p / bcs fs < Z.of_nat (length cs)) by (apply Z.div_lt_upper_bound; lia). lia.
Qed.

End geometry.

Lemma data_layout_geom a b : geom a = geom b -> data_layout a -> data_layout b.
Proof.
  intros H [H1 H2 H3 H4 H5]. apply geom_fields in H as (_&_&E1&_&_&E2&E3&E4&_&E5&_&E6).
  constructor; rewrite <- ?E1, <- ?E2, <- ?E3, <- ?E4, <- ?E5, <- ?E6; done.
Qed.

Lemma fsect_geom a b cs i : geom a = geom b -> fsect a cs i = fsect b cs i.
Proof.
  intros H. apply geom_fields in H as (_&_&_&_&_&E2&_&_&_&_&_&E6). unfold fsect, bcs, clst_sect. by rewrite E2, E6.
Qed.

(** A position that is ready to be read or written: its cluster and its
    sector are known. *)
Record at_pos (fs : FATFS) (cs : list Z) (fp : FIL) : Prop := mk_at_pos {
  ap_clust : cs !! Z.to_nat (fp_fptr fp / bcs fs) = Some (fp_clust fp);
  ap_sect : fsect fs cs (fp_fptr fp) = Some (fp_sect fp)
}.

(** Positions in one sector. *)
Lemma sector_run fs cs fp j :
  data_layout fs -> 0 <= fp_fptr fp -> at_pos fs cs fp -> 0 <= j -> fp_fptr fp mod SS + j < SS ->
  fsect fs cs (fp_fptr fp + j) = Some (fp_sect fp) /\ (fp_fptr fp + j) mod SS = fp_fptr fp mod SS + j /\
  fp_fptr fp mod bcs fs + j < bcs fs.
Proof.
  intros Hdl Hp [Hc Hs] Hj Hlt. pose proof (bcs_pos _ Hdl) as Hb. pose proof (mod_bcs_SS _ Hdl (fp_fptr fp)) as E.
  pose proof (Z.mod_pos_bound (fp_fptr fp) (bcs fs) ltac:(lia)) as Hr.
  assert (fp_fptr fp mod bcs fs + j < bcs fs) as Hin.
  { unfold bcs in *. set (q := fp_fptr fp mod (csize fs * SS)) in *.
    pose proof (Z.div_mod q SS ltac:(done)). assert (q / SS < csize fs) by (apply Z.div_lt_upper_bound; [done|lia]).
    pose proof (Z.mod_pos_bound q SS ltac:(done)). unfold SS in *. lia. }
  pose proof (fsect_run _ Hdl cs _ 0 _ Hp Hc ltac:(lia) ltac:(lia)) as H0. rewrite !Z.add_0_r, Hs in H0.
  rewrite (fsect_run _ Hdl cs _ j _ Hp Hc Hj Hin). injection H0 as ->. split_and!; [|..|done].
  - f_equal. f_equal. pose proof (Z.div_mod (fp_fptr fp mod bcs fs) SS ltac:(done)).
    symmetry. apply (Z.div_unique _ _ _ (fp_fptr fp mod SS + j)); [|lia]. left.
    pose proof (Z.mod_pos_bound (fp_fptr fp) SS ltac:(done)). lia.
  - symmetry. apply (Z.mod_unique _ _ (fp_fptr fp / SS)); [|pose proof (Z.div_mod (fp_fptr fp) SS ltac:(done)); lia].
    pose proof (Z.mod_pos_bound (fp_fptr fp) SS ltac:(done)). lia.
Qed.

(** ** The contents of a file *)

Section content.
Context {D : Type} `{!DiskIO D} `{!DiskIOLaws D}.
Implicit Types (v : vol D) (cs : list Z) (fp : FIL).

Definition fbyte v cs (i : Z) : option byte :=
  s ← fsect (vfs v) cs i; b ← lview v s; at_ b (i mod SS).

(** The clusters [cs] are those of the file that starts at [sclust]. *)
Definition clusters v (sclust : Z) cs : Prop :=
  match cs with [] => sclust = 0 | _ => chain v sclust cs end.

(** The file object stands in the file with clusters [cs]: they cover the
    file, and the current cluster and sector are those of the position. *)
Record cursor (fs : FATFS) cs fp : Prop := mk_cursor {
  cu_fptr : 0 <= fp_fptr fp <= fp_objsize fp;
  cu_size : fp_objsize fp < U32;
  cu_cover : fp_objsize fp <= len cs * bcs fs;
  cu_clust : 0 < fp_fptr fp -> cs !! Z.to_nat ((fp_fptr fp - 1) / bcs fs) = Some (fp_clust fp);
  cu_sect : fp_fptr fp mod SS <> 0 -> fsect fs cs (fp_fptr fp) = Some (fp_sect fp)
}.

Lemma cursor_geom a b cs fp : geom a = geom b -> cursor a cs fp -> cursor b cs fp.
Proof using Type.
  intros H [H1 H2 H3 H4 H5]. pose proof H as Hg. apply geom_fields in H as (_&_&_&_&_&E2&_&_&_&_&_&E6).
  assert (bcs a = bcs b) as E by (unfold bcs; by rewrite E2).
  constructor; [done|done|by rewrite <- E|by rewrite <- E|by rewrite <- (fsect_geom _ _ _ _ Hg)].
Qed.

(** Nothing of the file object changes but the position. *)
Definition same_file fp fp' : Prop :=
  fp_obj fp' = fp_obj fp /\ fp_flag fp' = fp_flag fp /\ fp_err fp' = fp_err fp /\
  fp_dir_sect fp' = fp_dir_sect fp /\ fp_dir_ptr fp' = fp_dir_ptr fp.

Lemma same_file_trans a b c : same_file a b -> same_file b c -> same_file a c.
Proof using Type. unfold same_file. intuition congruence. Qed.

(** A link of the chain. *)
Lemma chain_nth v c l k a b :
  chain v c l -> l !! k = Some a -> l !! S k = Some b -> fat_entry v a = Some b.
Proof using Type.
  intros H. revert k. induction H as [c e H1 H2 H3|c e l H1 H2 H3 H IH]; intros k Ha Hb; [by destruct k|].
  destruct k as [|k]; cbn in Ha, Hb.
  - injection Ha as <-. by inversion H; subst; simplify_eq/=.
  - by apply (IH k).
Qed.

Lemma chain_head v c l : chain v c l -> l !! 0%nat = Some c.
Proof using Type. by inversion 1. Qed.

Lemma clusters_valid v sc cs k c : clusters v sc cs -> cs !! k = Some c -> valid_clst (vfs v) c.
Proof using Type.
  intros H Hk. destruct cs as [|a l]; [done|]. eapply chain_all_valid; [exact H|]. by eapply list_elem_of_lookup_2.
Qed.

Lemma clusters_head v sc cs : clusters v sc cs -> 0 < len cs -> cs !! 0%nat = Some sc.
Proof using Type. destruct cs; [done|]. intros H _. by apply (chain_head v). Qed.

Lemma clusters_nth v sc cs k a b :
  clusters v sc cs -> cs !! k = Some a -> cs !! S k = Some b -> fat_entry v a = Some b.
Proof using Type. destruct cs; [done|]. intros H. by apply (chain_nth v sc). Qed.

Lemma clusters_unchanged v v' sc cs :
  vol_ok v -> fat_layout (vfs v) -> unchanged v v' -> clusters v sc cs -> clusters v' sc cs.
Proof using Type.
  intros Hv Hl Hu H. destruct cs as [|a l]; [done|].
  eapply chain_ext; [exact H|by destruct Hu as [[_ ->] _]|]. intros x Hx.
  apply unchanged_entry; [done|done|done|]. by eapply chain_all_valid.
Qed.

Lemma vol_eta v : mkVol (vfs v) (vdsk v) = v.
Proof using Type. by destruct v. Qed.

(** A byte of a buffer whose sectors are known. *)
Lemma at_sectors (f : Z -> option (list byte)) n (b : list byte) j :
  len b = n * SS -> (forall i, 0 <= i < n -> f i = slice b (i * SS) SS) -> 0 <= j < n * SS ->
  at_ b j = (x ← f (j / SS); at_ x (j mod SS)).
Proof using Type.
  intros Hb Hf Hj. pose proof (Z.div_mod j SS ltac:(done)) as E.
  pose proof (Z.mod_pos_bound j SS ltac:(done)) as Hm.
  assert (0 <= j / SS < n) as Hi by (split; [apply Z.div_pos; [lia|done]|apply Z.div_lt_upper_bound; [done|lia]]).
  destruct (slice_is_Some b (j / SS * SS) SS) as (x & Hx & _); [unfold SS in *; lia..|].
  rewrite Hf, Hx by done. cbn. rewrite (at_slice _ _ _ _ _ Hx).
  rewrite (proj2 (Z.leb_le 0 _)), (proj2 (Z.ltb_lt _ SS)) by lia. cbn. f_equal. lia.
Qed.

(** What a window move keeps, on a reliable medium. *)
Lemma move_window_alive G v0 v s :
  vol_ok v0 -> unchanged v0 v -> alive G v -> 0 <= s < U32 -> G s ->
  wp (move_window s) (fun r v' => r = FR_OK /\ unchanged v0 v' /\ alive G v' /\ winsect (vfs v') = s) v.
Proof using Type.
  intros Hv0 Hu Ha Hs Hg. pose proof Hu as ([Hv _] & _ & Hc & _).
  eapply wp_mono; [apply (wp_conj_partial _ _ _ _ _ (move_window_unchanged true v s Hv Hc Hs) (move_window_good G v s Hv Ha Hs Hg))|].
  intros r v' [(Hu' & Hw & _) [-> Ha']]. split; [done|]. split; [by eapply unchanged_trans|]. auto.
Qed.

Lemma get_fat_alive G v0 v c :
  vol_ok v0 -> fat_layout (vfs v0) -> unchanged v0 v -> alive G v -> valid_clst (vfs v0) c ->
  wp (get_fat c) (fun x v' => fat_entry v0 c = Some x /\ x <> 0xFFFFFFFF /\ unchanged v0 v' /\ alive G v') v.
Proof using Type.
  intros Hv0 Hl Hu Ha Hc. pose proof Hu as (Hsv & _ & Hco & _). pose proof Hsv as [Hv Hg].
  assert (fat_layout (vfs v)) as Hlv by (by apply (fat_layout_geom (vfs v0))).
  assert (valid_clst (vfs v) c) as Hcv.
  { apply geom_fields in Hg as (_&_&_&_&_&_&E&_). unfold valid_clst. by rewrite E. }
  eapply wp_mono; [apply (alive_run G true v (get_fat c)); [by apply sv_refl|done|by apply get_fat_spec|by apply live_get_fat_any]|].
  intros x v' ((Hu' & Hin & _) & Ha' & Hne & _). destruct (Hin Hcv) as [->|He]; [done|].
  split; [by rewrite <- (unchanged_entry v0 v c)|]. split; [done|]. split; [by eapply unchanged_trans|done].
Qed.

(** ** Reading *)

Section read.
Context (G : Z -> Prop) (v0 : vol D) (cs : list Z) (fp0 : FIL) (buff0 : list byte) (total : Z).
Context (Hv0 : vol_ok v0) (Hl : fat_layout (vfs v0)) (Hdl : data_layout (vfs v0)).
Context (Hcl : clusters v0 (fp_sclust fp0) cs).
Context (HG : forall i s, fsect (vfs v0) cs i = Some s -> G s).
Context (Ht : 0 <= total <= len buff0) (Htot : 0 <= fp_fptr fp0 /\ fp_fptr fp0 + total <= fp_objsize fp0).

(** The loop: [br] bytes of the file are in the buffer. *)
Definition rd_inv (a : rd_state) v : Prop :=
  let '(fp, buff, btr, br) := a in
  unchanged v0 v /\ alive G v /\ cursor (vfs v0) cs fp /\ same_file fp0 fp /\
  fp_fptr fp = fp_fptr fp0 + br /\ 0 <= btr /\ 0 <= br /\ btr + br = total /\ len buff = len buff0 /\
  forall i, at_ buff i = if (0 <=? i) && (i <? br) then fbyte v0 cs (fp_fptr fp0 + i) else at_ buff0 i.

Lemma read_clst_spec fp v :
  unchanged v0 v -> alive G v -> cursor (vfs v0) cs fp -> fp_sclust fp = fp_sclust fp0 ->
  fp_fptr fp < fp_objsize fp -> fp_fptr fp mod bcs (vfs v0) = 0 ->
  wp (read_clst fp) (fun r v' => unchanged v0 v' /\ alive G v' /\
    exists c, r = inr (set_fp_clust c fp) /\ cs !! Z.to_nat (fp_fptr fp / bcs (vfs v0)) = Some c) v.
Proof using Hv0 Hl Hdl Hcl.
  intros Hu Ha Hcu Hsc Hlt Hm. unfold read_clst. pose proof (bcs_pos _ Hdl) as Hb.
  destruct (index_lt _ Hdl cs (fp_fptr fp)) as [c Hc]; [destruct Hcu; lia|].
  pose proof (clusters_valid _ _ _ _ _ Hcl Hc) as [Hc2 Hcn]. pose proof (ok_n_fatent _ (proj1 Hv0)) as Hn.
  pose proof (fl_max _ Hl) as Hmax.
  assert (forall x v', x = c -> unchanged v0 v' -> alive G v' ->
    wp (if x <? 2 then ret (inl FR_INT_ERR) else if x =? 0xFFFFFFFF then ret (inl FR_DISK_ERR)
        else ret (inr (set_fp_clust x fp))) (fun r v' => unchanged v0 v' /\ alive G v' /\
    exists c, r = inr (set_fp_clust c fp) /\ cs !! Z.to_nat (fp_fptr fp / bcs (vfs v0)) = Some c) v') as Hend.
  { intros x v' -> Hu' Ha'. destruct (Z.ltb_spec c 2); [lia|].
    destruct (Z.eqb_spec c 0xFFFFFFFF); [unfold_consts; lia|]. apply wp_ret. eauto. }
  destruct (Z.eqb_spec (fp_fptr fp) 0) as [E|E].
  - apply wp_bind, wp_ret. apply Hend; [|done|done]. rewrite E, Z.div_0_l in Hc by lia.
    change (Z.to_nat 0) with 0%nat in Hc.
    rewrite (clusters_head _ _ _ Hcl) in Hc; [congruence|]. apply lookup_lt_Some in Hc. unfold len. lia.
  - destruct Hcu as [H1 H2 H3 H4 H5]. destruct (prev_other _ Hdl (fp_fptr fp)) as [Hp Hge]; [lia|done|].
    specialize (H4 ltac:(lia)). rewrite Hp in H4. apply wp_bind.
    eapply wp_mono; [apply (get_fat_alive G v0); [done|done|done|done|by eapply clusters_valid]|].
    intros x v' (He & _ & Hu' & Ha'). apply Hend; [|done|done].
    rewrite (clusters_nth _ _ _ (Z.to_nat (fp_fptr fp / bcs (vfs v0) - 1)) _ c Hcl H4) in He; [congruence|].
    by replace (S (Z.to_nat (fp_fptr fp / bcs (vfs v0) - 1))) with (Z.to_nat (fp_fptr fp / bcs (vfs v0))) by lia.
Qed.

(** What one turn of the loop promises. *)
Definition rd_turn (btr : Z) (r : rd_state + rd_result) v' : Prop :=
  match r with
  | inl a' => rd_inv a' v' /\ 0 <= a'.1.2 < btr
  | inr _ => False
  end.

(** [n] more bytes, all in one cluster. *)
Lemma rd_advance fp fp' buff buff' btr br v v' n :
  rd_inv (fp, buff, btr, br) v -> unchanged v0 v' -> alive G v' -> 0 < n <= btr ->
  fp_fptr fp' = fp_fptr fp -> same_file fp fp' ->
  cs !! Z.to_nat (fp_fptr fp' / bcs (vfs v0)) = Some (fp_clust fp') ->
  fp_fptr fp' mod bcs (vfs v0) + n <= bcs (vfs v0) ->
  ((fp_fptr fp' + n) mod SS <> 0 -> fsect (vfs v0) cs (fp_fptr fp' + n) = Some (fp_sect fp')) ->
  len buff' = len buff ->
  (forall i, at_ buff' i = if (br <=? i) && (i <? br + n) then fbyte v0 cs (fp_fptr fp' + (i - br)) else at_ buff i) ->
  rd_turn btr (rd_next fp' buff' btr br n) v'.
Proof using Hdl Ht Htot.
  intros (_ & _ & Hcu & Hsf & Hp & Hbtr & Hbr & Hsum & Hlen & Hat) Hu' Ha' Hn Hfp Hs' Hc Hin Hsec Hl' Hat'.
  rewrite Hfp in *.
  destruct Hcu as [H1 H2 H3 H4 H5]. pose proof (same_file_trans _ _ _ Hsf Hs') as Hs0.
  assert (fp_objsize fp = fp_objsize fp0 /\ fp_objsize fp' = fp_objsize fp0) as [Eo Eo'].
  { unfold fp_objsize. destruct Hsf as [-> _], Hs0 as [-> _]. done. }
  assert (0 <= total < U32) as HtU by lia. pose proof (bcs_pos _ Hdl) as Hb.
  pose proof (Z.mod_pos_bound (fp_fptr fp) (bcs (vfs v0)) ltac:(lia)) as Hmb. unfold rd_next. unfold rd_turn. rewrite !u32_small by lia. rewrite Hfp. split; [|cbn [fst snd]; lia].
  split; [done|]. split; [done|]. split.
  { constructor; cbn [fp_fptr fp_clust fp_sect set_fp_fptr]; unfold fp_objsize in *; cbn [fp_obj set_fp_fptr];
      rewrite ?Eo'; [lia|lia|lia| |done].
    intros _. replace ((fp_fptr fp + n - 1) / bcs (vfs v0)) with (fp_fptr fp / bcs (vfs v0)); [done|].
    apply (Z.div_unique _ _ _ (fp_fptr fp mod bcs (vfs v0) + n - 1)); [lia|].
    pose proof (Z.div_mod (fp_fptr fp) (bcs (vfs v0)) ltac:(lia)). lia. }
  split; [exact Hs0|]. cbn [fp_fptr set_fp_fptr]. split; [lia|]. split; [lia|]. split; [lia|]. split; [lia|].
  split; [lia|]. intros i. rewrite Hat', Hat. rewrite Hp.
  destruct (Z.leb_spec br i), (Z.ltb_spec i (br + n)), (Z.leb_spec 0 i), (Z.ltb_spec i br); cbn [andb]; try lia; try done.
  f_equal. lia.
Qed.

(** The sectors of the file are sectors of the data area. *)
Lemma fsect_data i s : 0 <= i -> fsect (vfs v0) cs i = Some s -> data_sect (vfs v0) s.
Proof using Hdl Hcl.
  intros Hi Hs. unfold fsect in Hs. apply bind_Some in Hs as (c & Hc & [= <-]). apply clst_data.
  - by eapply clusters_valid.
  - pose proof (bcs_pos _ Hdl). pose proof (Z.mod_pos_bound i (bcs (vfs v0)) ltac:(lia)).
    split; [apply Z.div_pos; [lia|done]|]. apply Z.div_lt_upper_bound; [done|]. unfold bcs in *. lia.
Qed.

(** What the volume shows of a data sector does not change. *)
Lemma data_same v s : unchanged v0 v -> data_sect (vfs v0) s -> lview v s = lview v0 s.
Proof using Hv0 Hdl. intros (_ & _ & _ & Hs) Hd. apply Hs, data_plain; [done|apply Hv0|done]. Qed.

Lemma read_part_spec fp fp1 buff btr br v v1 :
  rd_inv (fp, buff, btr, br) v -> unchanged v0 v1 -> alive G v1 -> 0 < btr ->
  fp_fptr fp1 = fp_fptr fp -> same_file fp fp1 -> at_pos (vfs v0) cs fp1 ->
  wp (read_part fp1 buff btr br) (rd_turn btr) v1.
Proof using Hv0 Hl Hdl Hcl HG Ht Htot.
  intros Hinv Hu1 Ha1 Hbtr Hfp Hs Hpos. unfold read_part. cbv zeta.
  pose proof Hinv as (_ & _ & [Hcf Hsz Hcov _ _] & Hsf & Hp & _ & Hbr & Hsum & Hlen & Hat).
  pose proof (Z.mod_pos_bound (fp_fptr fp1) SS ltac:(done)) as Hm.
  set (n := if _ >? btr then btr else _).
  assert (0 < n <= btr /\ fp_fptr fp1 mod SS + n <= SS) as [Hn Hns].
  { subst n. destruct (Z.gtb_spec (SS - fp_fptr fp1 mod SS) btr); lia. }
  assert (0 <= fp_fptr fp1) as Hnn by lia.
  pose proof (fsect_data _ _ Hnn (ap_sect _ _ _ Hpos)) as Hds. destruct (data_range _ Hdl _ Hds) as [Hsr _].
  apply wp_bind. eapply wp_mono.
  { apply (move_window_alive G v0); [done|done|done|lia|]. exact (HG _ _ (ap_sect _ _ _ Hpos)). }
  intros r v2 (-> & Hu2 & Ha2 & Hw). change (negb (FR_OK =r FR_OK)) with false. cbv iota. apply wp_bind.
  apply wp_win_slice; [apply Hu2|lia|lia|done|]. intros src Hsrc Hsl.
  destruct (splice_is_Some buff br src) as (b' & Hb' & Hbl); [lia|lia|].
  apply wp_bind. eapply wp_chk; [done|]. apply wp_ret.
  destruct (sector_run _ _ fp1 (n - 1) Hdl Hnn Hpos) as (_ & _ & Hin); [lia|lia|].
  apply (rd_advance fp fp1 buff b' btr br v v2 n Hinv Hu2 Ha2 Hn Hfp Hs (ap_clust _ _ _ Hpos)); [lia| |done|].
  - intros Hmod. apply sector_run; [done|done|done|lia|]. by apply sector_end.
  - intros i. rewrite (at_splice _ _ _ _ _ Hb'), Hsl.
    destruct (Z.leb_spec br i), (Z.ltb_spec i (br + n)); cbn [andb]; try done.
    destruct (sector_run _ _ fp1 (i - br) Hdl Hnn Hpos) as (Hs1 & Hm1 & _); [lia|lia|].
    rewrite (at_slice _ _ _ _ _ Hsrc). rewrite (proj2 (Z.leb_le 0 (i - br))), (proj2 (Z.ltb_lt (i - br) n)) by lia.
    unfold fbyte. rewrite Hs1, Hm1. cbn. rewrite <- (data_same v2) by done. by rewrite <- Hw, lview_win.
Qed.


(** Whole sectors: what the medium delivers, patched with a dirty window, is
    what the volume shows. *)
Lemma read_direct_spec fp fp1 buff btr br v v1 sect cc :
  rd_inv (fp, buff, btr, br) v -> unchanged v0 v1 -> alive G v1 ->
  fp_fptr fp1 = fp_fptr fp -> same_file fp fp1 ->
  cs !! Z.to_nat (fp_fptr fp1 / bcs (vfs v0)) = Some (fp_clust fp1) -> fp_fptr fp1 mod SS = 0 ->
  sect = clst_sect (vfs v0) (fp_clust fp1) + fp_fptr fp1 mod bcs (vfs v0) / SS ->
  0 < cc -> cc * SS <= btr -> fp_fptr fp1 mod bcs (vfs v0) + cc * SS <= bcs (vfs v0) ->
  wp (read_direct fp1 buff btr br sect cc) (rd_turn btr) v1.
Proof using Hv0 Hl Hdl Hcl HG Ht Htot.
  intros Hinv Hu1 Ha1 Hfp Hs Hc Hm0 Hsect Hcc Hbtr Hin. unfold read_direct. apply wp_bind, wp_get_fs.
  pose proof Hinv as (_ & _ & [Hcf Hsz Hcov _ _] & Hsf & Hp & _ & Hbr & Hsum & Hlen & _).
  pose proof Hu1 as ([Hv1 Hg1] & _ & Hco1 & _). pose proof Hv1 as [Hf1 Hd1].
  pose proof (bcs_pos _ Hdl) as Hb. assert (0 <= fp_fptr fp1) as Hnn by lia.
  pose proof (Z.mod_pos_bound (fp_fptr fp1) (bcs (vfs v0)) ltac:(lia)) as Hmb.
  assert (pdrv (vfs v1) = pdrv (vfs v0)) as Epd by (by apply geom_fields in Hg1 as (_ & -> & _)).
  (* the offsets of the transfer and their sectors *)
  assert (forall j, 0 <= j < cc * SS -> fsect (vfs v0) cs (fp_fptr fp1 + j) = Some (sect + j / SS) /\
            (fp_fptr fp1 + j) mod SS = j mod SS) as Hrun.
  { intros j Hj. rewrite Hsect. apply aligned_run; try done; lia. }
  assert (forall i, 0 <= i < cc -> data_sect (vfs v0) (sect + i) /\ G (sect + i)) as Hsec.
  { intros i Hi. destruct (Hrun (i * SS)) as [E _]; [unfold SS in *; lia|]. rewrite Z.div_mul in E by done.
    split; [eapply fsect_data; [|exact E]; unfold SS in *; lia|by eapply HG]. }
  destruct (Hsec 0 ltac:(lia)) as [Hd0 _]. rewrite Z.add_0_r in Hd0.
  destruct (data_range _ Hdl _ Hd0) as [Hsr _].
  destruct (slice_is_Some buff br (cc * SS)) as (dst & Hdst & Hdl'); [lia|unfold SS in *; lia|lia|].
  apply wp_bind. eapply wp_chk; [done|]. apply wp_bind, wp_on_disk.
  eapply wp_mono; [apply dio_read_law; [done|lia|lia|done]|].
  intros [r d2] dd (-> & Hl2 & Hmed & Hgood). cbn [fst snd] in *.
  assert (r = RES_OK) as ->.
  { apply Hgood; [done|]. intros i Hi. apply Ha1, Hsec, Hi. }
  specialize (Hmed eq_refl). change (negb (RES_OK =d RES_OK)) with false. cbv iota.
  destruct (splice_is_Some buff br d2) as (b1 & Hb1 & Hbl1); [lia|lia|].
  apply wp_bind. eapply wp_chk; [done|]. rewrite (vol_eta v1).
  (* the sectors, with the window in place of its own *)
  assert (forall b2, len b2 = len buff ->
    (forall i, at_ b2 i = if (br <=? i) && (i <? br + cc * SS)
       then x ← lview v1 (sect + (i - br) / SS); at_ x ((i - br) mod SS) else at_ buff i) ->
    rd_turn btr (rd_next fp1 b2 btr br (SS * cc)) v1) as Hfin.
  { intros b2 Hbl2 Hat2. rewrite (Z.mul_comm SS cc).
    apply (rd_advance fp fp1 buff b2 btr br v v1 (cc * SS) Hinv Hu1 Ha1); [unfold SS in *; lia|done|done|done|done| |done|].
    - intros Hmod. exfalso. apply Hmod. by rewrite Z.mod_add.
    - intros i. rewrite Hat2. destruct (Z.leb_spec br i), (Z.ltb_spec i (br + cc * SS)); cbn [andb]; try done.
      destruct (Hrun (i - br)) as [E1 E2]; [lia|]. unfold fbyte. rewrite E1, E2. cbn.
      rewrite (data_same v1); [done|done|]. apply Hsec. split; [apply Z.div_pos; [lia|done]|].
      apply Z.div_lt_upper_bound; [done|lia]. }
  assert (forall j, 0 <= j < cc * SS -> at_ d2 j = x ← media (vdsk v1) (pdrv (vfs v1)) (sect + j / SS); at_ x (j mod SS)) as Hbytes.
  { intros j Hj. by apply (at_sectors (fun i => media (vdsk v1) (pdrv (vfs v1)) (sect + i)) cc); [lia|..]. }
  pose proof (ok_winsect _ Hf1) as Hws. pose proof (ok_win _ Hf1) as Hwl.
  destruct (Hsec (cc - 1) ltac:(lia)) as [Hdn _]. destruct (data_range _ Hdl _ Hdn) as [Hlast _].
  assert (u32 (winsect (vfs v1) - sect) < cc <-> sect <= winsect (vfs v1) < sect + cc) as Hwin.
  { unfold u32, U32 in *. Z.to_euclidean_division_equations. lia. }
  unfold nz. destruct (Z.eqb_spec (wflag (vfs v1)) 0) as [Hwf|Hwf]; cbn [negb andb];
    [|destruct (Z.ltb_spec (u32 (winsect (vfs v1) - sect)) cc) as [Hpa|Hpa]].
  1,3: apply wp_bind, wp_ret, wp_ret, Hfin; [done|]; intros i; rewrite (at_splice _ _ _ _ _ Hb1), Hl2, Hdl';
    destruct (Z.leb_spec br i), (Z.ltb_spec i (br + cc * SS)); cbn [andb]; try done;
    rewrite Hbytes by lia; f_equal; unfold lview;
    destruct (Z.eqb_spec (sect + (i - br) / SS) (winsect (vfs v1))) as [E|]; [|done].
  - rewrite E. apply Hco1; [done|]. rewrite <- E. eapply data_range; [done|]. apply Hsec.
    split; [apply Z.div_pos; [lia|done]|]. apply Z.div_lt_upper_bound; [done|lia].
  - exfalso. assert (0 <= (i - br) / SS < cc) as Hq
      by (split; [apply Z.div_pos; [lia|done]|apply Z.div_lt_upper_bound; [done|lia]]).
    destruct Hwin as [_ Hwin]. specialize (Hwin ltac:(lia)). lia.
  - apply Hwin in Hpa. rewrite u32_small by (unfold U32 in *; lia). set (k := winsect (vfs v1) - sect) in *.
    assert (0 <= k < cc) as Hk by lia.
    destruct (splice_is_Some b1 (br + k * SS) (win (vfs v1))) as (b2 & Hb2 & Hbl2); [unfold SS in *; lia..|].
    apply wp_bind. eapply wp_chk; [done|]. apply wp_ret, Hfin; [lia|]. intros i.
    rewrite (at_splice _ _ _ _ _ Hb2), (at_splice _ _ _ _ _ Hb1), Hl2, Hdl', Hwl.
    destruct (Z.leb_spec br i), (Z.ltb_spec i (br + cc * SS)); cbn [andb].
    2-4: destruct (Z.leb_spec (br + k * SS) i), (Z.ltb_spec i (br + k * SS + SS)); cbn [andb]; try done; unfold SS in *; lia.
    unfold lview. pose proof (Z.div_mod (i - br) SS ltac:(done)) as Hdm.
    pose proof (Z.mod_pos_bound (i - br) SS ltac:(done)) as Hmm.
    destruct (Z.eqb_spec (sect + (i - br) / SS) (winsect (vfs v1))) as [E|E];
      destruct (Z.leb_spec (br + k * SS) i), (Z.ltb_spec i (br + k * SS + SS)); cbn [andb];
      try (unfold SS in *; lia); try (rewrite Hbytes by lia; done).
    cbn. f_equal. unfold SS in *; lia.
Qed.

Lemma f_read_body_spec a v :
  rd_inv a v ->
  wp (f_read_body a) (fun r v' => match r with
    | inl a' => rd_inv a' v' /\ 0 <= a'.1.2 < a.1.2
    | inr (res, fp, buff, br) => res = FR_OK /\ br = total /\ rd_inv (fp, buff, 0, br) v'
    end) v.
Proof using Hv0 Hl Hdl Hcl HG Ht Htot.
  destruct a as [[[fp buff] btr] br]. intros Hinv. cbn [fst snd]. unfold f_read_body.
  pose proof Hinv as (Hu & Ha & Hcu & Hsf & Hp & Hbtr & Hbr & Hsum & Hlen & Hat).
  destruct (Z.gtb_spec btr 0) as [Hpos|Hz].
  2:{ apply wp_ret. split; [done|]. split; [lia|]. by assert (btr = 0) as -> by lia. }
  assert (forall m v1, wp m (rd_turn btr) v1 -> wp m (fun r v' => match r with
    | inl a' => rd_inv a' v' /\ 0 <= a'.1.2 < btr
    | inr (res, fp, buff, br) => res = FR_OK /\ br = total /\ rd_inv (fp, buff, 0, br) v'
    end) v1) as Hw.
  { intros m v1 H. eapply wp_mono; [exact H|]. by intros [a'|[[[res f] b] n]] v'. }
  pose proof Hu as ([[Hf _] Hg] & _). pose proof (bcs_pos _ Hdl) as Hb.
  assert (fp_objsize fp = fp_objsize fp0) as Eo by (unfold fp_objsize; by destruct Hsf as [-> _]).
  assert (fp_sclust fp = fp_sclust fp0) as Es by (unfold fp_sclust; by destruct Hsf as [-> _]).
  pose proof (Z.mod_pos_bound (fp_fptr fp) (bcs (vfs v0)) ltac:(lia)) as Hmb.
  assert (data_layout (vfs v)) as Hdlv by (by apply (data_layout_geom (vfs v0))).
  assert (bcs (vfs v) = bcs (vfs v0)) as Ebc.
  { apply geom_fields in Hg as (_&_&_&_&_&E&_). unfold bcs. by rewrite E. }
  pose proof (cu_fptr _ _ _ Hcu) as Hfr.
  apply wp_bind, wp_get_fs. destruct (Z.eqb_spec (fp_fptr fp mod SS) 0) as [Hms|Hms].
  2:{ apply Hw. eapply read_part_spec; try done. constructor; [|by apply Hcu].
      assert (fp_fptr fp mod bcs (vfs v0) <> 0) as Hne.
      { intros E. apply Hms. rewrite <- (mod_bcs_SS _ Hdl), E. done. }
      assert (fp_fptr fp <> 0) as Hnz by (intros E; by rewrite E in Hms).
      rewrite <- (prev_same _ Hdl) by lia. apply Hcu. lia. }
  cbv zeta. rewrite (csect_mod _ Hdlv) by lia. rewrite Ebc. set (cse := fp_fptr fp mod bcs (vfs v0) / SS).
  assert (fp_fptr fp mod bcs (vfs v0) = cse * SS) as Ecs.
  { pose proof (mod_bcs_SS _ Hdl (fp_fptr fp)) as E. rewrite Hms in E. unfold cse.
    pose proof (Z.div_mod (fp_fptr fp mod bcs (vfs v0)) SS ltac:(done)). lia. }
  apply wp_bind. apply (wp_mono _ _ (fun r v' => unchanged v0 v' /\ alive G v' /\
    exists c, r = inr (set_fp_clust c fp) /\ cs !! Z.to_nat (fp_fptr fp / bcs (vfs v0)) = Some c)).
  { destruct (Z.eqb_spec cse 0) as [E0|E0].
    - apply read_clst_spec; try done; [lia|]. by rewrite Ecs, E0.
    - apply wp_ret. split; [done|]. split; [done|]. exists (fp_clust fp). split; [by destruct fp|].
      assert (fp_fptr fp <> 0) as Hnz by (intros E; apply E0; unfold cse; by rewrite E, Z.mod_0_l by lia).
      rewrite <- (prev_same _ Hdl) by (unfold SS in *; lia). apply Hcu. lia. }
  intros r v1 (Hu1 & Ha1 & c & -> & Hc).
  assert (valid_clst (vfs v0) c) as Hvc by (by eapply clusters_valid).
  assert (clst2sect (vfs v) c = clst_sect (vfs v0) c) as Ec2.
  { rewrite clst2sect_data; [|done|done|]; apply geom_fields in Hg as (_&_&_&_&_&E1&E2&_&_&_&_&E3).
    - unfold clst_sect. by rewrite E1, E3.
    - unfold valid_clst. by rewrite E2. }
  cbn [fp_clust set_fp_clust]. rewrite Ec2.
  assert (csize (vfs v) = csize (vfs v0)) as Ecz by (by apply geom_fields in Hg as (_&_&_&_&_&E&_)).
  assert (0 <= cse < csize (vfs v0)) as Hcse.
  { split; [apply Z.div_pos; [lia|done]|]. apply Z.div_lt_upper_bound; [done|]. unfold bcs in *; lia. }
  destruct (data_range _ Hdl _ (clst_data _ c 0 Hvc ltac:(lia))) as [Hs0 _]. rewrite Z.add_0_r in Hs0.
  destruct (data_range _ Hdl _ (clst_data _ c cse Hvc Hcse)) as [Hs1 _].
  destruct (Z.eqb_spec (clst_sect (vfs v0) c) 0); [lia|]. rewrite u32_small by lia. rewrite Ecz.
  destruct (Z.gtb_spec (btr / SS) 0) as [Hcc|Hcc].
  - apply Hw. set (cc := if _ >? _ then _ else _).
    assert (btr / SS * SS <= btr) by (pose proof (Z.div_mod btr SS ltac:(done)); pose proof (Z.mod_pos_bound btr SS ltac:(done)); lia).
    assert (0 < cc /\ cc <= btr / SS /\ cse + cc <= csize (vfs v0)) as (Hc1 & Hc2 & Hc3).
    { subst cc. destruct (Z.gtb_spec (cse + btr / SS) (csize (vfs v0))); lia. }
    eapply read_direct_spec; try done; cbn [fp_fptr set_fp_clust]; [|rewrite Ecs]; unfold bcs, SS in *; lia.
  - apply Hw. eapply read_part_spec; try done. constructor; [done|]. cbn [fp_fptr fp_sect set_fp_sect set_fp_clust].
    pose proof (fsect_run _ Hdl cs _ 0 c (proj1 Hfr) Hc ltac:(lia) ltac:(lia)) as E.
    rewrite !Z.add_0_r in E. exact E.
Qed.

(** The loop of [f_read] delivers the bytes of the file. *)
Lemma f_read_loop_spec :
  coherent v0 -> alive G v0 -> cursor (vfs v0) cs fp0 ->
  wp (loop f_read_body (fp0, buff0, total, 0)) (fun r v' =>
    let '(res, fp, buff, br) := r in
    res = FR_OK /\ br = total /\ rd_inv (fp, buff, 0, br) v') v0.
Proof using Hv0 Hl Hdl Hcl HG Ht Htot.
  intros Hc Ha Hcu. apply (wp_loop true rd_inv (fun a _ => a.1.2)).
  - intros a v Hinv. eapply wp_mono; [by apply f_read_body_spec|].
    intros [a'|[[[res f] b] n]] v'; [|done]. by intros [? ?].
  - split; [by apply unchanged_refl|]. split; [done|]. split; [done|]. split; [done|]. cbn.
    split; [lia|]. split; [lia|]. split; [lia|]. split; [lia|]. split; [done|].
    intros i. destruct (Z.leb_spec 0 i), (Z.ltb_spec i 0); cbn; try done; lia.
  - cbn. destruct Hcu. unfold LOOP_FUEL, U32 in *. lia.
Qed.

End read.

End content.
