(* ===== verification/Writing.v ===== *)
(** * Writing to a file

    The loop of [f_write] against the contents of a file: the bytes of the
    caller's buffer take their place, every other byte of the file stays, the
    clusters the file grows by were free, and nothing else on the volume
    changes: no other entry of the table and no other sector. *)

From stdpp Require Import base numbers list option gmap.
From Stdlib Require Import ZArith Lia.
From Stdlib Require Import Strings.Byte.
From S2P Require Import Prelude Types Bytes Diskio Window Fat Chain Live Dir Path Mount File Content.

(** ** Sectors of a file are distinct *)

Section inj.
Context (fs : FATFS) (Hdl : data_layout fs).

Lemma clst_sect_inj c c' k k' :
  0 <= k < csize fs -> 0 <= k' < csize fs -> clst_sect fs c + k = clst_sect fs c' + k' -> c = c' /\ k = k'.
Proof using Type. intros Hk Hk' E. unfold clst_sect in E. assert (c = c') as -> by nia. split; [done|nia]. Qed.

Lemma sect_index i : 0 <= i -> i / SS = i / bcs fs * csize fs + i mod bcs fs / SS.
Proof using Hdl.
  intros Hi. pose proof (csize_pos _ Hdl). pose proof (bcs_pos _ Hdl).
  pose proof (Z.div_mod i (bcs fs) ltac:(lia)) as E. rewrite E at 1. unfold bcs at 1.
  replace (csize fs * SS * (i / bcs fs) + i mod bcs fs) with (i / bcs fs * csize fs * SS + i mod bcs fs) by lia.
  by rewrite Z.div_add_l.
Qed.

Lemma in_cluster i : 0 <= i -> 0 <= i mod bcs fs / SS < csize fs.
Proof using Hdl.
  intros Hi. pose proof (bcs_pos _ Hdl). pose proof (Z.mod_pos_bound i (bcs fs) ltac:(lia)).
  split; [apply Z.div_pos; [lia|done]|]. apply Z.div_lt_upper_bound; [done|]. unfold bcs in *; lia.
Qed.

Lemma fsect_inj cs i j s :
  NoDup cs -> 0 <= i -> 0 <= j -> fsect fs cs i = Some s -> fsect fs cs j = Some s -> i / SS = j / SS.
Proof using Hdl.
  intros Hnd Hi Hj Hsi Hsj. unfold fsect in *.
  apply bind_Some in Hsi as (c & Hc & [= E1]). apply bind_Some in Hsj as (c' & Hc' & [= E2]).
  destruct (clst_sect_inj c c' (i mod bcs fs / SS) (j mod bcs fs / SS)) as [<- Ek];
    [by apply in_cluster|by apply in_cluster|lia|].
  pose proof (NoDup_lookup _ _ _ _ Hnd Hc Hc') as En. pose proof (bcs_pos _ Hdl).
  assert (0 <= i / bcs fs /\ 0 <= j / bcs fs) as [? ?] by (split; apply Z.div_pos; lia).
  rewrite (sect_index i), (sect_index j), Ek by done. by replace (j / bcs fs) with (i / bcs fs) by lia.
Qed.

Lemma fsect_SS cs i : 0 <= i -> fsect fs cs i = fsect fs cs (i / SS * SS).
Proof using Hdl.
  intros Hi. pose proof (Z.mod_pos_bound i SS ltac:(done)) as Hm. pose proof (Z.div_mod i SS ltac:(done)) as E.
  pose proof (bcs_pos _ Hdl) as Hb. pose proof (in_cluster i Hi).
  assert (i mod bcs fs = i mod bcs fs / SS * SS + i mod SS) as Eb.
  { rewrite <- (mod_bcs_SS _ Hdl i). pose proof (Z.div_mod (i mod bcs fs) SS ltac:(done)). lia. }
  assert ((i / SS * SS) / bcs fs = i / bcs fs) as E1.
  { symmetry. apply (Z.div_unique _ _ _ (i mod bcs fs / SS * SS)); [unfold bcs, SS in *; lia|].
    pose proof (Z.div_mod i (bcs fs) ltac:(lia)). lia. }
  assert ((i / SS * SS) mod bcs fs = i mod bcs fs / SS * SS) as E2.
  { symmetry. apply (Z.mod_unique _ _ (i / bcs fs)); [unfold bcs, SS in *; lia|].
    pose proof (Z.div_mod i (bcs fs) ltac:(lia)). lia. }
  unfold fsect. rewrite E1, E2. by rewrite Z.div_mul.
Qed.

End inj.

(** ** Changes to data sectors *)

Section writing.
Context {D : Type} `{!DiskIO D} `{!DiskIOLaws D}.
Context (G : Z -> Prop) (fs0 : FATFS) (Hok0 : fs_ok fs0) (Hl : fat_layout fs0) (Hdl : data_layout fs0).
Implicit Types (v : vol D) (cs : list Z) (fp : FIL) (X : Z -> Prop).

(** Only the sectors [X] show something else. *)
Definition touched X v v' : Prop :=
  sv (geom fs0) v' /\ alive G v' /\ alloc_info (vfs v') = alloc_info (vfs v) /\
  forall s, plain fs0 s -> ~ X s -> lview v' s = lview v s.

Lemma touched_trans X v1 v2 v3 : touched X v1 v2 -> touched X v2 v3 -> touched X v1 v3.
Proof using Type.
  intros (_ & _ & E1 & H1) (H2 & H3 & E4 & H4). split; [done|]. split; [done|]. split; [congruence|].
  intros s Hp Hx. rewrite H4 by done. auto.
Qed.

Lemma touched_mono X Y v v' : (forall s, X s -> Y s) -> touched X v v' -> touched Y v v'.
Proof using Type. intros HXY (H1 & H2 & H3 & H4). split; [done|]. split; [done|]. split; [done|]. auto. Qed.

Lemma unchanged_touched X v v' : sv (geom fs0) v -> unchanged v v' -> alive G v' -> touched X v v'.
Proof using Type.
  intros [Hv Hg] ([Hv' Hg'] & Ha & _ & Hs) Hal. split; [split; [done|congruence]|]. split; [done|]. split; [done|].
  intros s Hp _. apply Hs. by apply (plain_geom fs0).
Qed.

(** The table does not change with other sectors, such as the data. *)
Lemma touched_off_fat X v v' c :
  sv (geom fs0) v -> touched X v v' -> (forall s, X s -> off_fat fs0 s) -> valid_clst fs0 c ->
  fat_entry v' c = fat_entry v c.
Proof using Hok0 Hl.
  intros [Hv Hg] ([Hv' Hg'] & _ & _ & Hs) HX Hc. apply fat_entry_ext; [congruence|].
  intros k Hk. apply geom_fields in Hg as Hgf. destruct Hgf as (Hty&_).
  rewrite Hty in Hk. destruct (ent_bounds fs0 c Hl Hc) as (H1 & H2 & _).
  unfold fat_byte. rewrite (fat_sect_geom _ _ k Hg'), (fat_sect_geom _ _ k Hg). rewrite Hs; [done| |].
  - apply fat_sect_plain; [done|done|lia].
  - intros Hx. apply (HX _ Hx k); [lia|done].
Qed.

Lemma touched_entry X v v' c :
  sv (geom fs0) v -> touched X v v' -> (forall s, X s -> data_sect fs0 s) -> valid_clst fs0 c ->
  fat_entry v' c = fat_entry v c.
Proof using Hok0 Hl Hdl.
  intros Hv Ht HX. apply (touched_off_fat X); [done|done|]. intros s Hs. apply data_off_fat; auto.
Qed.

Lemma touched_clusters X v v' sc cs :
  sv (geom fs0) v -> touched X v v' -> (forall s, X s -> data_sect fs0 s) ->
  clusters v sc cs -> clusters v' sc cs.
Proof using Hok0 Hl Hdl.
  intros Hv Ht HX Hc. destruct cs as [|a l]; [done|].
  assert (geom (vfs v') = geom (vfs v)) as Hg by (destruct Ht as [[_ ->] _], Hv as [_ ->]; done).
  eapply chain_ext; [exact Hc|done|]. intros x Hx. eapply touched_entry; [done|done|done|].
  eapply chain_all_valid in Hx; [|exact Hc]. destruct Hv as [_ Hg0]. apply geom_fields in Hg0 as (_&_&_&_&_&_&E&_).
  unfold valid_clst in *. by rewrite <- E.
Qed.

Lemma sync_touched X v :
  sv (geom fs0) v -> coherent v -> alive G v ->
  wp sync_window (fun r v' => r = FR_OK /\ touched X v v' /\ coherent v' /\ wflag (vfs v') = 0 /\
    winsect (vfs v') = winsect (vfs v)) v.
Proof using Type.
  intros [Hv Hg] Hc Ha.
  eapply wp_mono; [apply (wp_conj_partial _ _ _ _ _ (sync_window_spec true v Hv) (sync_window_good G v Hv Ha))|].
  intros r v' [([Hv' Hg'] & Hs & Hok & _) (-> & Ha' & Hw & _)]. destruct (Hok eq_refl) as [E Hco].
  split; [done|]. split_and!; [| |by rewrite E|done].
  - split; [split; [done|congruence]|]. split; [done|]. split; [by rewrite E|]. intros s Hp _. apply Hs.
    by apply (plain_geom fs0).
  - apply Hco. by right.
Qed.

Lemma move_touched X v s :
  sv (geom fs0) v -> coherent v -> alive G v -> 0 <= s < U32 -> G s ->
  wp (move_window s) (fun r v' => r = FR_OK /\ touched X v v' /\ coherent v' /\ winsect (vfs v') = s) v.
Proof using Type.
  intros Hsv Hc Ha Hs Hg. destruct Hsv as [Hv Hgm].
  eapply wp_mono; [apply (move_window_alive G v v s Hv); [by apply unchanged_refl|done|done|done]|].
  intros r v' (-> & Hu & Ha' & Hw). split; [done|]. split_and!; [|apply Hu|done].
  by apply unchanged_touched.
Qed.

(** ** The loop *)

(** [s] is a sector of one of the clusters [cs]. *)
Definition in_file cs s : Prop := exists c k, c ∈ cs /\ 0 <= k < csize fs0 /\ s = clst_sect fs0 c + k.

Lemma fsect_in_file cs i s : 0 <= i -> fsect fs0 cs i = Some s -> in_file cs s.
Proof using Hdl.
  intros Hi Hs. unfold fsect in Hs. apply bind_Some in Hs as (c & Hc & [= <-]).
  exists c, (i mod bcs fs0 / SS). split; [by eapply list_elem_of_lookup_2|]. split; [|done]. by apply (in_cluster _ Hdl).
Qed.

(** The volume [v] came from [v0] by writes to the file with clusters [cs0],
    which has the clusters [cs] now. *)
Record grown v0 cs0 v cs : Prop := mk_grown {
  gr_sv : sv (geom fs0) v;
  gr_co : coherent v;
  gr_alive : alive G v;
  gr_new : exists new, cs = cs0 ++ new /\ Forall (fun c => fat_entry v0 c = Some 0) new;
  gr_fat : forall c, valid_clst fs0 c -> c ∉ cs -> fat_entry v c = fat_entry v0 c;
  gr_bad : ~ bad_entry v;
  gr_view : forall s, plain fs0 s -> off_fat fs0 s -> ~ in_file cs s -> lview v s = lview v0 s
}.

(** The volume is full, as [create_chain] decides it: the filesystem object
    counts no free cluster, whatever the table holds, or no entry is zero. *)
Definition full v : Prop :=
  free_clst (vfs v) = 0 \/ forall c, valid_clst fs0 c -> fat_entry v c <> Some 0.

(** Nothing of the file object changes but the position, the first cluster
    and the size. *)
Definition same_meta fp fp' : Prop :=
  obj_fs (fp_obj fp') = obj_fs (fp_obj fp) /\ obj_id (fp_obj fp') = obj_id (fp_obj fp) /\
  obj_attr (fp_obj fp') = obj_attr (fp_obj fp) /\ obj_stat (fp_obj fp') = obj_stat (fp_obj fp) /\
  fp_flag fp' = fp_flag fp /\ fp_err fp' = fp_err fp /\
  fp_dir_sect fp' = fp_dir_sect fp /\ fp_dir_ptr fp' = fp_dir_ptr fp.

Section loop.
Context (v0 : vol D) (cs0 : list Z) (fp0 : FIL) (buff : list byte) (total : Z).
Context (Hg0 : geom (vfs v0) = geom fs0) (HG : forall s, data_sect fs0 s -> G s).
Context (Ht : 0 <= total <= len buff).
Context (Hp0 : 0 <= fp_fptr fp0 <= fp_objsize fp0) (Hend : fp_fptr fp0 + total < U32).

(** [bw] bytes of the buffer are in the file. *)
Record wstate fp cs v bw : Prop := mk_wstate {
  ws_grown : grown v0 cs0 v cs;
  ws_clusters : clusters v (fp_sclust fp) cs;
  ws_cursor : cursor fs0 cs fp;
  ws_meta : same_meta fp0 fp;
  ws_fptr : fp_fptr fp = fp_fptr fp0 + bw;
  ws_size : fp_objsize fp = Z.max (fp_objsize fp0) (fp_fptr fp);
  ws_bytes : forall i, 0 <= i < fp_objsize fp ->
    fbyte v cs i = if (fp_fptr fp0 <=? i) && (i <? fp_fptr fp0 + bw) then at_ buff (i - fp_fptr fp0)
                   else fbyte v0 cs0 i
}.

Definition wr_inv (a : wr_state) v : Prop :=
  let '(fp, btw, bw) := a in
  0 <= btw /\ 0 <= bw /\ bw + btw = total /\ exists cs, wstate fp cs v bw.

Lemma valid_geom v c : sv (geom fs0) v -> valid_clst (vfs v) c <-> valid_clst fs0 c.
Proof using Type. intros [_ Hg]. apply geom_fields in Hg as (_&_&_&_&_&_&E&_). unfold valid_clst. by rewrite E. Qed.

Lemma file_valid v sc cs c : sv (geom fs0) v -> clusters v sc cs -> c ∈ cs -> valid_clst fs0 c.
Proof using Type.
  intros Hv Hcl Hc. apply list_elem_of_lookup in Hc as [k Hk]. apply (valid_geom v); [done|]. by eapply clusters_valid.
Qed.

Lemma file_data v sc cs i s :
  sv (geom fs0) v -> clusters v sc cs -> 0 <= i -> fsect fs0 cs i = Some s -> data_sect fs0 s.
Proof using Hdl.
  intros Hv Hcl Hi Hs. destruct (fsect_in_file _ _ _ Hi Hs) as (c & k & Hc & Hk & ->).
  apply clst_data; [|done]. by eapply file_valid.
Qed.

(** The sectors of [n] bytes of the file from offset [p]. *)
Definition run_sects cs p n s : Prop := exists j, 0 <= j < n /\ fsect fs0 cs (p + j) = Some s.

Lemma fbyte_touched X v v' cs i :
  sv (geom fs0) v -> touched X v v' ->
  (forall s, fsect fs0 cs i = Some s -> plain fs0 s /\ ~ X s) -> fbyte v' cs i = fbyte v cs i.
Proof using Type.
  intros [_ Hg] ([_ Hg'] & _ & _ & Hs) HX. unfold fbyte.
  rewrite (fsect_geom _ _ _ _ Hg), (fsect_geom _ _ _ _ Hg'). destruct (fsect fs0 cs i) as [s|]; [|done]. cbn.
  destruct (HX s eq_refl). by rewrite Hs.
Qed.

(** [n] more bytes are in the file, all in one cluster. *)
Lemma wr_advance fp fp1 cs v v' bw btw n :
  wstate fp cs v bw -> 0 <= bw -> bw + btw = total -> 0 < n <= btw ->
  touched (run_sects cs (fp_fptr fp1) n) v v' -> coherent v' ->
  fp_fptr fp1 = fp_fptr fp -> fp_obj fp1 = fp_obj fp -> same_meta fp fp1 ->
  cs !! Z.to_nat (fp_fptr fp1 / bcs fs0) = Some (fp_clust fp1) ->
  fp_fptr fp1 mod bcs fs0 + n <= bcs fs0 ->
  ((fp_fptr fp1 + n) mod SS <> 0 -> fsect fs0 cs (fp_fptr fp1 + n) = Some (fp_sect fp1)) ->
  (forall j, 0 <= j < n -> fbyte v' cs (fp_fptr fp1 + j) = at_ buff (bw + j)) ->
  (forall i, 0 <= i < fp_objsize fp -> ~ (fp_fptr fp1 <= i < fp_fptr fp1 + n) -> fbyte v' cs i = fbyte v cs i) ->
  match wr_next fp1 btw bw n with
  | inl a' => wr_inv a' v' /\ 0 <= a'.1.2 < btw
  | inr _ => False
  end.
Proof using Hok0 Hl Hdl HG Ht Hp0 Hend.
  intros [Hgr Hcl Hcu Hme Hp Hsz Hby] Hbw Hsum Hn Htc Hco Hfp Hob Hm1 Hc Hin Hsec Hnew Hold.
  destruct Hgr as [Hsv Hco0 Hal Hnw Hfat Hbad Hvw]. pose proof (bcs_pos _ Hdl) as Hb.
  pose proof (cu_fptr _ _ _ Hcu) as Hcf. pose proof (cu_size _ _ _ Hcu) as Hcs. pose proof (cu_cover _ _ _ Hcu) as Hcv.
  assert (forall s, run_sects cs (fp_fptr fp1) n s -> data_sect fs0 s /\ in_file cs s) as HX.
  { intros s (j & Hj & Hs). split; [eapply (file_data v); [done|done| |exact Hs]; lia|eapply fsect_in_file; [|exact Hs]; lia]. }
  pose proof (Z.mod_pos_bound (fp_fptr fp1) (bcs fs0) ltac:(lia)) as Hmb.
  unfold wr_next. rewrite !u32_small by lia. cbv zeta. split; [|cbn [fst snd]; lia].
  split; [lia|]. split; [lia|]. split; [lia|]. exists cs.
  assert (fp_objsize fp1 = fp_objsize fp) as Eo by (unfold fp_objsize; by rewrite Hob).
  assert (fp_objsize (set_fp_fptr (fp_fptr fp1 + n) fp1) = fp_objsize fp) as Eo' by (rewrite <- Eo; done).
  set (sz := if _ >? _ then _ else _).
  assert (sz = Z.max (fp_objsize fp0) (fp_fptr fp1 + n)) as Esz.
  { subst sz. rewrite Eo'. cbn [fp_fptr set_fp_fptr]. destruct (Z.gtb_spec (fp_fptr fp1 + n) (fp_objsize fp)); lia. }
  assert (fp_fptr fp1 + n <= len cs * bcs fs0) as Hcov.
  { apply lookup_lt_Some in Hc. pose proof (Z.div_mod (fp_fptr fp1) (bcs fs0) ltac:(lia)) as E.
    assert (0 <= fp_fptr fp1 / bcs fs0) by (apply Z.div_pos; lia).
    assert (fp_fptr fp1 / bcs fs0 + 1 <= len cs) by (unfold len; lia). nia. }
  split.
  - split; [apply Htc|done|apply Htc|done| | |].
    + intros c Hv Hnc. rewrite <- (Hfat c) by done. eapply touched_entry; [done|exact Htc| |done]. intros s Hs. by apply HX.
    + intros (c & Hvc & He). apply Hbad. apply (valid_geom v') in Hvc; [|apply Htc]. exists c.
      split; [by apply (valid_geom v)|]. rewrite <- He. symmetry. eapply touched_entry; [done|exact Htc| |done].
      intros s Hs. by apply HX.
    + intros s Hpl Hof Hnf. rewrite <- Hvw by done. apply Htc; [done|]. intros Hs. by apply Hnf, HX.
  - eapply touched_clusters; [done|exact Htc| |]; [intros s Hs; by apply HX|].
    unfold fp_sclust. cbn. change (clusters v (obj_sclust (fp_obj fp1)) cs). by rewrite Hob.
  - constructor; unfold fp_objsize; cbn [fp_fptr fp_obj fp_clust fp_sect set_fp_objsize set_fp_obj set_obj_objsize obj_objsize set_fp_fptr];
      rewrite ?Esz; [lia|lia|lia| |done].
    intros _. replace ((fp_fptr fp1 + n - 1) / bcs fs0) with (fp_fptr fp1 / bcs fs0); [done|].
    apply (Z.div_unique _ _ _ (fp_fptr fp1 mod bcs fs0 + n - 1)); [lia|].
    pose proof (Z.div_mod (fp_fptr fp1) (bcs fs0) ltac:(lia)). lia.
  - clear -Hme Hm1. unfold same_meta in *. cbn. intuition congruence.
  - cbn. lia.
  - unfold fp_objsize. cbn. exact Esz.
  - unfold fp_objsize. cbn [fp_obj set_fp_objsize set_fp_obj set_obj_objsize obj_objsize].
    intros i Hi. rewrite Esz in Hi. destruct (Z_le_gt_dec (fp_fptr fp1) i) as [H1|H1];
      [destruct (Z_lt_ge_dec i (fp_fptr fp1 + n)) as [H2|H2]|].
    + replace i with (fp_fptr fp1 + (i - fp_fptr fp1)) at 1 by lia. rewrite Hnew by lia.
      rewrite (proj2 (Z.leb_le _ _)), (proj2 (Z.ltb_lt _ _)) by lia. cbn. f_equal. lia.
    + rewrite Hold, Hby by lia. rewrite !(proj2 (Z.ltb_ge _ _)) by lia. by rewrite !andb_false_r.
    + rewrite Hold, Hby by lia. destruct (Z.leb_spec (fp_fptr fp0) i); cbn; [|done].
      by rewrite !(proj2 (Z.ltb_lt _ _)) by lia.
Qed.

(** *** The next cluster *)

Lemma table_view v f v' s :
  sv (geom fs0) v -> table_is v f v' -> data_sect fs0 s -> lview v' s = lview v s.
Proof using Hok0 Hl Hdl.
  intros [_ Hg] (_ & _ & _ & Hs) Hd. apply Hs.
  - apply (plain_geom fs0); [done|]. by apply data_plain.
  - apply (off_fat_geom fs0); [done|]. by apply data_off_fat.
Qed.

(** Bytes of the file, when it may have got longer. *)
Lemma fbyte_grow v f v' sc cs new i :
  sv (geom fs0) v -> table_is v f v' -> clusters v sc cs -> 0 <= i < len cs * bcs fs0 ->
  fbyte v' (cs ++ new) i = fbyte v cs i.
Proof using Hok0 Hl Hdl.
  intros Hsv Ht1 Hcl Hi. destruct (index_lt _ Hdl cs i Hi) as [c Hc].
  assert (fsect fs0 (cs ++ new) i = fsect fs0 cs i) as Ef.
  { unfold fsect. rewrite Hc. by rewrite (lookup_app_l_Some _ _ _ _ Hc). }
  pose proof Ht1 as ([_ Hg'] & _). destruct Hsv as [Hv Hg]. unfold fbyte.
  rewrite (fsect_geom (vfs v') fs0), (fsect_geom (vfs v) fs0), Ef by congruence.
  destruct (fsect fs0 cs i) as [s|] eqn:Es; [|done]. cbn.
  rewrite (table_view v f v' s); [done|done|done|]. by eapply (file_data v sc cs i); [|exact Hcl|lia|].
Qed.

Lemma cursor_grow cs new fp : cursor fs0 cs fp -> cursor fs0 (cs ++ new) fp.
Proof using Hdl.
  intros [H1 H2 H3 H4 H5]. pose proof (bcs_pos _ Hdl). constructor; [done|done| | |].
  - rewrite len_app. pose proof (len_nonneg new). nia.
  - intros Hp. by apply lookup_app_l_Some, H4.
  - intros Hm. specialize (H5 Hm). unfold fsect in *. apply bind_Some in H5 as (c & Hc & E).
    rewrite (lookup_app_l_Some _ _ _ _ Hc). exact E.
Qed.

(** The same table: nothing happened to the file. *)
Lemma wstate_same fp cs v v' bw :
  wstate fp cs v bw -> table_is v (fat_entry v) v' -> alive G v' -> wstate fp cs v' bw.
Proof using Hok0 Hl Hdl.
  intros [Hgr Hcl Hcu Hme Hp Hsz Hby] Ht1 Ha. destruct Hgr as [Hsv Hco0 Hal Hnw Hfat Hbad Hvw].
  pose proof Ht1 as ([Hv' Hg'] & Hco' & He & Hs). pose proof Hsv as [Hv Hg].
  assert (sv (geom fs0) v') as Hsv' by (split; [done|congruence]).
  split; try done.
  - split; try done.
    + intros c Hc Hnc. rewrite He by (by apply (valid_geom v)). auto.
    + intros (c & Hc & E). apply (valid_geom v') in Hc; [|done]. apply Hbad. exists c.
      assert (valid_clst (vfs v) c) by (by apply (valid_geom v)). split; [done|]. by rewrite <- He.
    + intros s Hpl Hof Hnf. rewrite <- Hvw by done. apply Hs; [by apply (plain_geom fs0)|by apply (off_fat_geom fs0)].
  - destruct cs as [|a l]; [done|]. eapply chain_ext; [exact Hcl|done|]. intros x Hx. apply He.
    by eapply chain_all_valid.
  - intros i Hi. rewrite <- Hby by done. rewrite <- (app_nil_r cs) at 1.
    eapply fbyte_grow; [done|exact Ht1|exact Hcl|]. destruct Hcu. lia.
Qed.

Lemma create_chain_alive v clst :
  sv (geom fs0) v -> coherent v -> alive G v -> 0 <= clst < U32 ->
  wp (create_chain clst) (fun x v' => create_post v clst x v' /\ alive G v' /\ x <> 0xFFFFFFFF) v.
Proof using Hl.
  intros [Hv Hg] Hc Ha Hcl. assert (fat_layout (vfs v)) as Hlv by (by apply (fat_layout_geom fs0)).
  apply alive_run; [by apply sv_refl|done| |].
  - apply create_chain_spec; [done|done|done|lia].
  - apply live_create_chain; [apply Hv|done|done].
Qed.

(** The mark of the end of a chain is no cluster number. *)
Lemma end_mark : n_fatent fs0 <= ent_mask (fs_type fs0) 0xFFFFFFFF /\ ent_mask (fs_type fs0) 0xFFFFFFFF <> 1.
Proof using Hl.
  pose proof (fl_max _ Hl) as Hm. pose proof (fl_max12 _ Hl) as H12. pose proof (fl_max16 _ Hl) as H16.
  unfold ent_mask. unfold_consts. destruct (Z.eqb_spec (fs_type fs0) 1) as [E|].
  { specialize (H12 E). change (0xFFFFFFFF mod 4096) with 4095. lia. }
  destruct (Z.eqb_spec (fs_type fs0) 2) as [E|].
  { specialize (H16 E). change (0xFFFFFFFF mod 65536) with 65535. lia. }
  change (0xFFFFFFFF mod 268435456) with 268435455. lia.
Qed.

Lemma chain_nonzero v c l x : chain v c l -> x ∈ l -> fat_entry v x <> Some 0.
Proof using Type.
  intros H Hx. destruct (chain_suffix _ _ _ _ H Hx) as (l1 & l2 & _ & H2).
  inversion H2 as [c' e Hv He Hn|c' e l' Hv He Hv' Hch]; subst; rewrite He; intros [= ->]; unfold valid_clst in *; lia.
Qed.

(** A chain that a cluster was appended to. *)
Lemma chain_snoc v v' c l x y e :
  chain v c l -> geom (vfs v') = geom (vfs v) -> last l = Some y ->
  (forall z, z ∈ l -> z <> y -> fat_entry v' z = fat_entry v z) ->
  fat_entry v' y = Some x -> valid_clst (vfs v) x -> fat_entry v' x = Some e -> n_fatent (vfs v) <= e ->
  chain v' c (l ++ [x]).
Proof using Type.
  intros H Hg Hy Hz Hyx Hx Hxe He. apply geom_fields in Hg as (_&_&_&_&_&_&Hn&_). unfold valid_clst in *.
  induction H as [c e' Hc He' Hne|c e' l Hc He' Hv Hch IH].
  - cbn in Hy. injection Hy as ->. eapply chain_link; unfold valid_clst in *; rewrite ?Hn; [done|done|done|].
    eapply chain_end; unfold valid_clst in *; rewrite ?Hn; done.
  - assert (c ∉ l) as Hcl.
    { pose proof (chain_NoDup _ _ _ (chain_link _ _ _ _ Hc He' Hv Hch)) as Hnd.
      by apply NoDup_cons in Hnd as [? _]. }
    destruct l as [|a l]; [by inversion Hch|]. rewrite last_cons_cons in Hy.
    cbn. apply (chain_link v' c e'); unfold valid_clst in *; rewrite ?Hn; [done| |done|].
    + rewrite Hz; [done|by left|]. intros ->. apply Hcl. by apply last_Some_elem_of.
    + apply IH; [done|]. intros z Hzl. apply Hz. by right.
Qed.

(** The file grew by the free cluster [x]. *)
Lemma wstate_grow fp cs v v' bw clst x :
  wstate fp cs v bw -> alive G v' -> clst = default 0 (last cs) ->
  valid_clst (vfs v) x -> fat_entry v x = Some 0 -> table_is v (linked_table v clst x) v' ->
  wstate (if fp_sclust fp =? 0 then set_fp_sclust x fp else fp) (cs ++ [x]) v' bw.
Proof using Hok0 Hl Hdl.
  intros [Hgr Hcl Hcu Hme Hp Hsz Hby] Ha Hclst Hx Hx0 Ht1. destruct Hgr as [Hsv Hco0 Hal Hnw Hfat Hbad Hvw].
  pose proof Ht1 as ([Hv' Hg'] & Hco' & He & Hs). pose proof Hsv as [Hv Hg].
  assert (sv (geom fs0) v') as Hsv' by (split; [done|congruence]).
  assert (fs_type (vfs v) = fs_type fs0) as Ety by (by apply geom_fields in Hg as [-> _]).
  assert (n_fatent (vfs v) = n_fatent fs0) as Enf by (by apply geom_fields in Hg as (_&_&_&_&_&_&->&_)).
  destruct end_mark as [Hm1 Hm2].
  assert (x ∉ cs) as Hxn.
  { intros Hin. destruct cs as [|a l]; [by apply elem_of_nil in Hin|]. by eapply (chain_nonzero v) in Hin. }
  assert (cs <> [] -> clst ∈ cs /\ clst <> 0 /\ last cs = Some clst) as Hlast.
  { intros Hne. destruct (last cs) as [y|] eqn:Ey; [|by apply last_None in Ey]. cbn in Hclst. subst y.
    assert (clst ∈ cs) as Hin by (by apply last_Some_elem_of). split; [done|]. split; [|done].
    destruct (file_valid _ _ _ _ Hsv Hcl Hin). lia. }
  assert (cs = [] -> clst = 0) as Hempty by (by intros ->).
  assert (forall z, valid_clst (vfs v) z -> fat_entry v' z =
    if nz clst && (z =? clst) then Some x else if z =? x then Some (ent_mask (fs_type fs0) 0xFFFFFFFF) else fat_entry v z) as Hent.
  { intros z Hz. rewrite He by done. unfold linked_table, fset. rewrite Ety. by destruct (nz clst), (z =? clst). }
  assert (clst <> x) as Hcx by (intros ->; destruct cs; [destruct Hx; specialize (Hempty eq_refl); lia|by apply Hxn, Hlast]).
  assert (fat_entry v' x = Some (ent_mask (fs_type fs0) 0xFFFFFFFF)) as Hxe.
  { rewrite Hent by done. rewrite (proj2 (Z.eqb_neq x clst)), Z.eqb_refl by done. by rewrite andb_false_r. }
  assert (clusters v' (fp_sclust (if fp_sclust fp =? 0 then set_fp_sclust x fp else fp)) (cs ++ [x])) as Hcl'.
  { destruct cs as [|a l].
    - cbn in Hcl. rewrite Hcl. cbn. eapply chain_end; [|exact Hxe|].
      + apply (valid_geom v'); [done|]. by apply (valid_geom v) in Hx.
      + apply geom_fields in Hg' as (_&_&_&_&_&_&->&_). lia.
    - destruct (Hlast ltac:(done)) as (Hin & Hnz & Hla).
      assert (fp_sclust fp <> 0) as Hsc by (destruct (chain_valid _ _ _ Hcl); lia).
      rewrite (proj2 (Z.eqb_neq _ _) Hsc). change (chain v' (fp_sclust fp) ((a :: l) ++ [x])).
      eapply chain_snoc; [exact Hcl|done|exact Hla| | |done|exact Hxe|lia].
      + intros z Hz Hzc. rewrite Hent by (by eapply chain_all_valid). rewrite (proj2 (Z.eqb_neq z clst)) by done.
        rewrite andb_false_r. destruct (Z.eqb_spec z x) as [->|]; done.
      + rewrite Hent by (by eapply chain_all_valid). rewrite Z.eqb_refl. unfold nz. by rewrite (proj2 (Z.eqb_neq clst 0)). }
  assert (forall P : FIL -> Prop, (P fp <-> P (set_fp_sclust x fp)) -> P fp ->
    P (if fp_sclust fp =? 0 then set_fp_sclust x fp else fp)) as Hif.
  { intros P HP Hfp. destruct (fp_sclust fp =? 0); [by apply HP|done]. }
  split; [|done| | | | |].
  - split; [done|done|done| | | |].
    + destruct Hnw as (new & -> & Hnew). exists (new ++ [x]). split; [by rewrite app_assoc|].
      apply Forall_app. split; [done|]. apply Forall_singleton. rewrite <- Hfat; [done|by apply (valid_geom v)|done].
    + intros c Hc Hnc. apply not_elem_of_app in Hnc as [Hnc Hcx']. rewrite list_elem_of_singleton in Hcx'.
      rewrite Hent by (by apply (valid_geom v)). rewrite (proj2 (Z.eqb_neq c x)) by done.
      destruct (Z.eqb_spec c clst) as [->|]; [|rewrite andb_false_r; auto].
      destruct cs; [rewrite (Hempty eq_refl) in *; destruct Hc; lia|]. exfalso. by apply Hnc, Hlast.
    + intros (c & Hc & E). apply (valid_geom v') in Hc; [|done]. apply (valid_geom v) in Hc; [|done].
      rewrite Hent in E by done. destruct (nz clst && (c =? clst)); [injection E as ->; destruct Hx; lia|].
      destruct (c =? x); [by injection E|]. apply Hbad. by exists c.
    + intros s Hpl Hof Hnf. rewrite <- Hvw; [|done|done|].
      * apply Hs; [by apply (plain_geom fs0)|by apply (off_fat_geom fs0)].
      * intros (c & k & Hc & Hk). apply Hnf. exists c, k. split; [|done]. apply elem_of_app. by left.
  - apply Hif; [|by apply cursor_grow]. split; intros []; by constructor.
  - apply Hif; [|done]. done.
  - apply (Hif (fun f => fp_fptr f = fp_fptr fp0 + bw)); done.
  - apply (Hif (fun f => fp_objsize f = Z.max (fp_objsize fp0) (fp_fptr f))); done.
  - apply (Hif (fun f => forall i, 0 <= i < fp_objsize f -> fbyte v' (cs ++ [x]) i = _)); [done|].
    intros i Hi. rewrite <- Hby by done. eapply fbyte_grow; [done|exact Ht1|exact Hcl|]. destruct Hcu. lia.
Qed.

(** What [write_clst] promises at a cluster boundary. *)
Definition clst_post fp cs bw (r : FRESULT + option FIL) v' : Prop :=
  match r with
  | inl _ => False
  | inr None => full v' /\ wstate fp cs v' bw
  | inr (Some fp1) => exists cs' fp' c, wstate fp' cs' v' bw /\ fp1 = set_fp_clust c fp' /\
      fp_fptr fp' = fp_fptr fp /\ cs' !! Z.to_nat (fp_fptr fp / bcs fs0) = Some c
  end.

(** The end of [write_clst], when the cluster number is known. *)
Definition clst_tail fp (clst : Z) : M (vol D) (FRESULT + option FIL) :=
  if clst =? 0 then ret (inr None)
  else if clst =? 1 then ret (inl FR_INT_ERR)
  else if clst =? 0xFFFFFFFF then ret (inl FR_DISK_ERR)
  else
    let fp := set_fp_clust clst fp in
    ret (inr (Some (if fp_sclust fp =? 0 then set_fp_sclust clst fp else fp))).

Lemma clst_tail_spec fp cs cs' bw x v' :
  valid_clst fs0 x -> cs' !! Z.to_nat (fp_fptr fp / bcs fs0) = Some x ->
  wstate (if fp_sclust fp =? 0 then set_fp_sclust x fp else fp) cs' v' bw ->
  wp (clst_tail fp x) (clst_post fp cs bw) v'.
Proof using Hok0 Hl.
  pose proof (ok_n_fatent _ Hok0) as Hnf. pose proof (fl_max _ Hl) as Hmax. intros [H1 H2] Hx Hw. unfold clst_tail.
  destruct (Z.eqb_spec x 0); [lia|]. destruct (Z.eqb_spec x 1); [lia|].
  destruct (Z.eqb_spec x 0xFFFFFFFF); [unfold_consts; lia|]. cbv zeta. apply wp_ret. red.
  exists cs', (if fp_sclust fp =? 0 then set_fp_sclust x fp else fp), x.
  change (fp_sclust (set_fp_clust x fp)) with (fp_sclust fp). by destruct (fp_sclust fp =? 0).
Qed.

Lemma chain_last v c l y :
  chain v c l -> last l = Some y -> exists e, fat_entry v y = Some e /\ n_fatent (vfs v) <= e.
Proof using Type.
  induction 1 as [c e Hc He Hne|c e l Hc He Hv Hch IH]; intros Hy; [cbn in Hy; injection Hy as <-; eauto|].
  destruct l as [|a l]; [by inversion Hch|]. rewrite last_cons_cons in Hy. auto.
Qed.

(** At the end of the file a new cluster is appended, or the volume is full. *)
Lemma append_raw fp cs v bw :
  wstate fp cs v bw ->
  wp (create_chain (default 0 (last cs))) (fun x v' =>
    (x = 0 /\ full v' /\ wstate fp cs v' bw) \/
    (valid_clst fs0 x /\ wstate (if fp_sclust fp =? 0 then set_fp_sclust x fp else fp) (cs ++ [x]) v' bw)) v.
Proof using Hok0 Hl Hdl.
  intros Hws. pose proof Hws as [Hgr Hcl _ _ _ _ _]. pose proof (gr_sv _ _ _ _ Hgr) as Hsv.
  pose proof (ok_n_fatent _ Hok0) as Hnf. set (clst := default 0 (last cs)).
  assert (clst <> 0 -> last cs = Some clst /\ clst ∈ cs /\ exists a l, cs = a :: l) as Hla.
  { subst clst. destruct (last cs) as [y|] eqn:E; [|done]. intros _. split; [done|].
    split; [by apply last_Some_elem_of|]. destruct cs as [|a l]; [done|]. eauto. }
  assert (0 <= clst < U32) as Hcr.
  { destruct (Z.eq_dec clst 0) as [->|Hnz]; [done|]. destruct (Hla Hnz) as (_ & Hin & _).
    destruct (file_valid _ _ _ _ Hsv Hcl Hin). lia. }
  eapply wp_mono; [apply create_chain_alive; [done|apply Hgr|apply Hgr|done]|].
  intros x v' (Hpost & Ha & Hx).
  destruct Hpost as [[-> Hbl]|[?|[(-> & Ht1 & Hal & _ & Hfull)|[(Hv1 & Hnz & He & Ht1)|(Hv1 & He & _ & Ht1 & _)]]]].
  - exfalso. destruct Hbl as [Hbl|[Hnz Hbl]]; [by apply (gr_bad _ _ _ _ Hgr)|].
    destruct (Hla Hnz) as (_ & Hin & a & l & ->). destruct Hbl as [Hbl|Hbl].
    + apply Hbl. apply (valid_geom v); [done|]. by eapply file_valid.
    + by eapply chain_nonzero.
  - done.
  - left. split; [done|]. split; [|by apply (wstate_same fp cs v v' bw)].
    destruct Hfull as [Hf|Hf]; [left; unfold alloc_info in Hal; congruence|right].
    intros c Hc. destruct Ht1 as (_ & _ & Hte & _). apply (valid_geom v) in Hc; [|done]. rewrite Hte by done. by apply Hf.
  - exfalso. destruct (Hla Hnz) as (Hl1 & _ & a & l & ->). destruct (chain_last _ _ _ _ Hcl Hl1) as (e & He' & Hne).
    rewrite He in He'. injection He' as <-. destruct Hv1. lia.
  - right. split; [by apply (valid_geom v)|by eapply wstate_grow].
Qed.

(** Inside the file the next cluster is the one of the table. *)
Lemma next_raw fp cs v bw k c n :
  wstate fp cs v bw -> cs !! k = Some c -> cs !! S k = Some n ->
  wp (create_chain c) (fun x v' => x = n /\ wstate fp cs v' bw) v.
Proof using Hok0 Hl Hdl.
  intros Hws Hc Hn. pose proof Hws as [Hgr Hcl _ _ _ _ _]. pose proof (gr_sv _ _ _ _ Hgr) as Hsv.
  pose proof (ok_n_fatent _ Hok0) as Hnf.
  assert (valid_clst fs0 c) as Hvc by (by eapply file_valid, list_elem_of_lookup_2).
  assert (valid_clst fs0 n) as Hvn by (by eapply file_valid, list_elem_of_lookup_2).
  pose proof (clusters_nth _ _ _ _ _ _ Hcl Hc Hn) as He.
  assert (n_fatent (vfs v) = n_fatent fs0) as Enf by (by destruct Hsv as [_ (_&_&_&_&_&_&->&_)%geom_fields]).
  eapply wp_mono; [apply create_chain_alive; [done|apply Hgr|apply Hgr|destruct Hvc; lia]|].
  intros x v' (Hpost & Ha & Hx). destruct Hvc as [Hc2 Hcn], Hvn as [Hn2 Hnn].
  destruct Hpost as [[-> Hbl]|[?|[(-> & _ & _ & He' & _)|[(Hv1 & Hnz & He' & Ht1)|(Hv1 & _ & He' & _)]]]]; [|done|..].
  - exfalso. destruct Hbl as [Hbl|[Hnz [Hbl|Hbl]]]; [by apply (gr_bad _ _ _ _ Hgr)| |].
    + apply Hbl. by apply (valid_geom v).
    + rewrite He in Hbl. injection Hbl as ->. lia.
  - destruct (He' ltac:(lia)) as (e & E & Hne). rewrite He in E. injection E as <-. lia.
  - rewrite He in He'. injection He' as <-. split; [done|]. by apply (wstate_same fp cs v v' bw).
  - destruct (He' ltac:(lia)) as (e & E & Hne). rewrite He in E. injection E as <-. lia.
Qed.

Lemma sclust_nonzero v sc cs : clusters v sc cs -> 0 < len cs -> sc <> 0.
Proof using Type.
  intros Hcl Hpos ->. destruct cs as [|a l]; [done|]. destruct (chain_valid _ _ _ Hcl). lia.
Qed.

Lemma last_at cs k c : cs !! k = Some c -> S k = length cs -> default 0 (last cs) = c.
Proof using Type. intros Hc Hk. rewrite last_lookup, <- Hk. cbn. by rewrite Hc. Qed.

(** The cluster after the one at index [k], appended if there is none. *)
Lemma stretch fp cs v bw k c :
  wstate fp cs v bw -> cs !! k = Some c ->
  wp (create_chain c) (fun x v' =>
    (x = 0 /\ full v' /\ S k = length cs /\ wstate fp cs v' bw) \/
    (exists cs', cs' !! S k = Some x /\ valid_clst fs0 x /\ wstate fp cs' v' bw)) v.
Proof using Hok0 Hl Hdl.
  intros Hws Hc. pose proof (ws_clusters _ _ _ _ Hws) as Hcl.
  assert (fp_sclust fp <> 0) as S0.
  { eapply sclust_nonzero; [exact Hcl|]. apply lookup_lt_Some in Hc. unfold len. lia. }
  destruct (cs !! S k) as [n|] eqn:En.
  - eapply wp_mono; [by eapply next_raw|]. intros x v' [-> Hw]. right. exists cs. split; [done|]. split; [|done].
    eapply file_valid; [exact (gr_sv _ _ _ _ (ws_grown _ _ _ _ Hw))|exact (ws_clusters _ _ _ _ Hw)|].
    by eapply list_elem_of_lookup_2.
  - apply lookup_ge_None in En. apply lookup_lt_Some in Hc as Hlt. assert (S k = length cs) as Ek by lia.
    rewrite <- (last_at cs k c Hc Ek). eapply wp_mono; [by apply append_raw|].
    intros x v' [(-> & Hf & Hw)|[Hx Hw]]; [by left|right]. rewrite (proj2 (Z.eqb_neq _ _) S0) in Hw.
    exists (cs ++ [x]). split; [|done]. rewrite Ek. by apply list_lookup_middle.
Qed.

Lemma write_clst_spec fp cs v bw :
  wstate fp cs v bw -> fp_fptr fp mod bcs fs0 = 0 -> wp (write_clst fp) (clst_post fp cs bw) v.
Proof using Hok0 Hl Hdl.
  intros Hws Hm. pose proof Hws as [Hgr Hcl Hcu Hme Hp Hsz Hby]. pose proof (gr_sv _ _ _ _ Hgr) as Hsv.
  pose proof (bcs_pos _ Hdl) as Hb. pose proof (cu_fptr _ _ _ Hcu) as Hcf. pose proof (cu_cover _ _ _ Hcu) as Hcov.
  set (k := fp_fptr fp / bcs fs0) in *.
  assert (fp_fptr fp = k * bcs fs0) as Ek by (subst k; pose proof (Z.div_mod (fp_fptr fp) (bcs fs0) ltac:(lia)); lia).
  assert (0 <= k <= len cs) as Hk by (split; [apply Z.div_pos; lia|nia]).
  unfold write_clst. apply wp_bind. fold (clst_tail fp).
  destruct (Z.eqb_spec (fp_fptr fp) 0) as [E0|E0].
  - assert (k = 0) as K0 by nia. destruct (Z.eqb_spec (fp_sclust fp) 0) as [S0|S0].
    + assert (cs = []) as ->.
      { destruct cs as [|a l]; [done|]. by exfalso; eapply sclust_nonzero; [exact Hcl| |exact S0]. }
      eapply wp_mono; [apply (append_raw fp [] v bw Hws)|].
      intros x v' [(-> & Hf & Hw)|[Hx Hw]]; [by apply wp_ret|].
      apply (clst_tail_spec fp [] [x]); [done|fold k; by rewrite K0|done].
    + assert (cs !! 0%nat = Some (fp_sclust fp)) as H0 by (by destruct cs; [|apply (chain_head v)]).
      apply wp_ret. apply (clst_tail_spec fp cs cs); [by eapply file_valid, list_elem_of_lookup_2|..].
      * fold k. by rewrite K0.
      * by rewrite (proj2 (Z.eqb_neq _ _) S0).
  - assert (1 <= k) as K1 by nia. destruct (prev_other _ Hdl (fp_fptr fp)) as [Epv _]; [lia|done|].
    pose proof (cu_clust _ _ _ Hcu ltac:(lia)) as Hc. rewrite Epv in Hc. fold k in Hc.
    assert (fp_sclust fp <> 0) as S0 by (eapply sclust_nonzero; [exact Hcl|lia]).
    eapply wp_mono; [by apply (stretch fp cs v bw _ _ Hws Hc)|].
    intros x v' [(-> & Hf & _ & Hw)|(cs' & Hx & Hvx & Hw)]; [by apply wp_ret|].
    apply (clst_tail_spec fp cs cs'); [done| |by rewrite (proj2 (Z.eqb_neq _ _) S0)].
    fold k. by replace (S (Z.to_nat (k - 1))) with (Z.to_nat k) in Hx by lia.
Qed.

(** *** The bytes of one turn *)

(** What one turn of the loop promises. *)
Definition wr_turn (btw : Z) (r : wr_state + wr_result) v' : Prop :=
  match r with
  | inl a' => wr_inv a' v' /\ 0 <= a'.1.2 < btw
  | inr _ => False
  end.

(** The window stands on the sector [s], all else is as in [v]; it shows what
    [v] shows, unless the sector is past the end of the file. *)
Definition at_sector fp v v2 s : Prop :=
  touched (eq s) v v2 /\ winsect (vfs v2) = s /\
  (lview v2 s = lview v s \/ (fp_fptr fp mod SS = 0 /\ fp_objsize fp <= fp_fptr fp)).

(** A store to the window. *)
Lemma touched_dirty v v2 w :
  touched (eq (winsect (vfs v2))) v v2 -> len w = SS ->
  touched (eq (winsect (vfs v2))) v (mkVol (set_wflag 1 (set_win w (vfs v2))) (vdsk v2)).
Proof using Type.
  intros ([[Hf Hd] Hg] & Ha & Hi & Hs) Hw. split.
  { split; [split; [|done]|done]. apply fs_ok_set_wflag; [by apply fs_ok_set_win|done]. }
  split; [by eapply alive_geom; [..|exact Ha]|]. split; [done|]. intros s Hp Hne. rewrite <- Hs by done.
  unfold lview. cbn. rewrite (proj2 (Z.eqb_neq s (winsect (vfs v2)))) by congruence. done.
Qed.

Lemma write_window fp fp1 cs v v2 bw btw n src w :
  wstate fp cs v bw -> 0 <= bw -> bw + btw = total -> 0 < n <= btw ->
  fp_fptr fp1 = fp_fptr fp -> fp_obj fp1 = fp_obj fp -> same_meta fp fp1 -> at_pos fs0 cs fp1 ->
  fp_fptr fp1 mod SS + n <= SS -> at_sector fp v v2 (fp_sect fp1) ->
  slice buff bw n = Some src -> splice (win (vfs v2)) (fp_fptr fp1 mod SS) src = Some w ->
  wr_turn btw (wr_next fp1 btw bw n) (mkVol (set_wflag 1 (set_win w (vfs v2))) (vdsk v2)).
Proof using Hok0 Hl Hdl HG Ht Hp0 Hend.
  intros Hws Hbw Hsum Hn Hfp Hob Hme Hpos Hns (Htc & Hw & Hold) Hsrc Hsp.
  pose proof Hws as [Hgr Hcl Hcu _ _ _ _]. pose proof (cu_fptr _ _ _ Hcu) as Hcf. pose proof (gr_sv _ _ _ _ Hgr) as Hsv.
  assert (0 <= fp_fptr fp1) as Hnn by lia. pose proof (slice_len _ _ _ _ Hsrc) as Hsl.
  pose proof Htc as ([[Hf2 Hd2] Hg2] & _).
  pose proof (splice_len _ _ _ _ Hsp) as Hwl. rewrite (ok_win _ Hf2) in Hwl.
  set (v3 := mkVol _ _). rewrite <- Hw in Htc. pose proof (touched_dirty v v2 w Htc Hwl) as Htc3. fold v3 in Htc3.
  rewrite Hw in Htc3. destruct (sector_run _ _ fp1 (n - 1) Hdl Hnn Hpos) as (_ & _ & Hin); [lia|lia|].
  assert (lview v3 (fp_sect fp1) = Some w) as Hv3 by (unfold lview, v3; cbn; by rewrite Hw, Z.eqb_refl).
  assert (geom (vfs v3) = geom fs0) as Hg3 by exact Hg2.
  assert (NoDup cs) as Hnd by (destruct cs; [constructor|by eapply chain_NoDup]).
  pose proof (Z.mod_pos_bound (fp_fptr fp1) SS ltac:(done)) as Hm.
  apply (wr_advance fp fp1 cs v v3 bw btw n); try done.
  - eapply touched_mono; [|exact Htc3]. intros s <-. exists 0. split; [lia|]. rewrite Z.add_0_r. apply Hpos.
  - apply Hpos.
  - lia.
  - intros Hmod. apply sector_run; [done|done|done|lia|]. by apply sector_end.
  - intros j Hj. destruct (sector_run _ _ fp1 j Hdl Hnn Hpos) as (Hs1 & Hm1 & _); [lia|lia|].
    unfold fbyte. rewrite (fsect_geom _ _ _ _ Hg3), Hs1. cbn. rewrite Hv3. cbn. rewrite Hm1.
    rewrite (at_splice _ _ _ _ _ Hsp), Hsl. rewrite (proj2 (Z.leb_le _ _)), (proj2 (Z.ltb_lt _ _)) by lia. cbn.
    rewrite (at_slice _ _ _ _ _ Hsrc). rewrite (proj2 (Z.leb_le _ _)), (proj2 (Z.ltb_lt _ _)) by lia. cbn. f_equal. lia.
  - intros i Hi Hni. destruct (decide (fsect fs0 cs i = Some (fp_sect fp1))) as [Es|Es].
    2:{ eapply fbyte_touched; [exact Hsv|exact Htc3|]. intros s Hs. split; [|congruence].
        apply data_plain; [done|done|]. eapply (file_data v); [done|exact Hcl|exact (proj1 Hi)|exact Hs]. }
    pose proof (fsect_inj _ Hdl cs i (fp_fptr fp1) _ Hnd (proj1 Hi) Hnn Es (ap_sect _ _ _ Hpos)) as Eq.
    pose proof (Z.div_mod i SS ltac:(done)) as Ei. pose proof (Z.div_mod (fp_fptr fp1) SS ltac:(done)) as Ep.
    rewrite Eq in Ei. pose proof (Z.mod_pos_bound i SS ltac:(done)) as Hmi.
    destruct Hold as [Hold|[Hal Hof]]; [|rewrite <- Hfp in *; lia].
    destruct Hsv as [Hvv Hgv]. unfold fbyte. rewrite (fsect_geom _ _ _ _ Hg3), (fsect_geom _ _ _ _ Hgv), Es. cbn.
    rewrite Hv3, <- Hold, <- Hw, lview_win. cbn. rewrite (at_splice _ _ _ _ _ Hsp), Hsl.
    destruct (Z.leb_spec (fp_fptr fp1 mod SS) (i mod SS)), (Z.ltb_spec (i mod SS) (fp_fptr fp1 mod SS + n)); cbn; try done. lia.
Qed.

(** Through the window: [v1] is the volume when the sector is known. *)
Lemma write_part_spec fp fp1 cs v v1 bw btw :
  wstate fp cs v bw -> 0 <= bw -> bw + btw = total -> 0 < btw ->
  fp_fptr fp1 = fp_fptr fp -> fp_obj fp1 = fp_obj fp -> same_meta fp fp1 -> at_pos fs0 cs fp1 ->
  touched (fun _ => False) v v1 /\ coherent v1 \/ at_sector fp v v1 (fp_sect fp1) ->
  wp (write_part fp1 buff btw bw) (wr_turn btw) v1.
Proof using Hok0 Hl Hdl HG Ht Hp0 Hend.
  intros Hws Hbw Hsum Hbtw Hfp Hob Hme Hpos Hv1. unfold write_part. cbv zeta.
  pose proof Hws as [Hgr Hcl Hcu _ _ _ _]. pose proof (gr_sv _ _ _ _ Hgr) as Hsv.
  assert (0 <= fp_fptr fp1) as Hnn by (destruct Hcu; lia).
  pose proof (file_data _ _ _ _ _ Hsv Hcl Hnn (ap_sect _ _ _ Hpos)) as Hds. destruct (data_range _ Hdl _ Hds) as [Hsr Hns].
  pose proof (Z.mod_pos_bound (fp_fptr fp1) SS ltac:(done)) as Hm.
  set (n := if _ >? btw then btw else _).
  assert (0 < n <= btw /\ fp_fptr fp1 mod SS + n <= SS) as [Hn Hn2].
  { subst n. destruct (Z.gtb_spec (SS - fp_fptr fp1 mod SS) btw); lia. }
  apply wp_bind. apply (wp_mono _ _ (fun r v2 => r = FR_OK /\ at_sector fp v v2 (fp_sect fp1))).
  { destruct Hv1 as [[Htc Hco]|Has].
    - eapply wp_mono; [apply (move_touched (fun _ => False)); [apply Htc|done|apply Htc|lia|by apply HG]|].
      intros r v2 (-> & Htc2 & _ & Hw). split; [done|]. pose proof (touched_trans _ _ _ _ Htc Htc2) as Ht2.
      split; [by eapply touched_mono; [|exact Ht2]|]. split; [done|]. left. apply Ht2; [by apply data_plain|by intros []].
    - unfold move_window. apply wp_bind, wp_get_fs. pose proof Has as (_ & Hw & _).
      rewrite Hw, Z.eqb_refl. by apply wp_ret. }
  intros r v2 [-> Has]. change (negb (FR_OK =r FR_OK)) with false. cbv iota.
  destruct (slice_is_Some buff bw n) as (src & Hsrc & Hsl); [lia..|]. apply wp_bind. eapply wp_chk; [done|].
  pose proof Has as ([[[Hf2 Hd2] Hg2] _] & _).
  destruct (splice_is_Some (win (vfs v2)) (fp_fptr fp1 mod SS) src) as (w & Hw & Hwl); [lia|rewrite (ok_win _ Hf2); lia|].
  apply wp_bind. eapply wp_set_win_opt; [exact Hw|]. apply wp_bind, wp_mod_fs, wp_ret. cbn [vfs vdsk].
  by eapply write_window.
Qed.

(** Whole sectors: the medium gets the data, and the window too when it
    stands on one of them. *)
Lemma direct_view v1 d' sect cc src fs' :
  sv (geom fs0) v1 -> coherent v1 -> alive G v1 -> 0 < sect -> sect + cc < U32 -> dok d' ->
  len src = cc * SS ->
  (forall x, x < sect \/ sect + cc <= x -> media d' (pdrv (vfs v1)) x = media (vdsk v1) (pdrv (vfs v1)) x) ->
  (forall i, 0 <= i < cc -> media d' (pdrv (vfs v1)) (sect + i) = slice src (i * SS) SS) ->
  (forall q x, dgood (vdsk v1) q x -> dgood d' q x) ->
  (exists w, fs' = set_wflag 0 (set_win w (vfs v1)) /\ sect <= winsect (vfs v1) < sect + cc /\
     slice src ((winsect (vfs v1) - sect) * SS) SS = Some w) \/
  (fs' = vfs v1 /\ ~ (sect <= winsect (vfs v1) < sect + cc)) ->
  touched (fun s => sect <= s < sect + cc) v1 (mkVol fs' d') /\ coherent (mkVol fs' d') /\
  forall i, 0 <= i < cc -> lview (mkVol fs' d') (sect + i) = slice src (i * SS) SS.
Proof using Type.
  intros [[Hf Hd] Hg] Hco Ha Hs0 Hs1 Hd' Hlen Hout Hin Hgood Hfs.
  destruct Hfs as [(w & -> & Hr & Hw)|[-> Hr]].
  - pose proof (slice_len _ _ _ _ Hw) as Hwl.
    assert (media d' (pdrv (vfs v1)) (winsect (vfs v1)) = Some w) as Hmw.
    { rewrite <- Hw. rewrite <- Hin by lia. f_equal. lia. }
    split; [split|split].
    + split; [split; [|done]|done]. apply fs_ok_set_wflag; [by apply fs_ok_set_win|done].
    + split; [by apply (alive_disk G v1); [..|apply Ha|]|]. split; [done|]. intros s _ Hx. unfold lview. cbn.
      destruct (Z.eqb_spec s (winsect (vfs v1))); [lia|]. apply Hout. lia.
    + intros _ _. exact Hmw.
    + intros i Hi. unfold lview. cbn. destruct (Z.eqb_spec (sect + i) (winsect (vfs v1))) as [E|]; [|auto].
      rewrite <- Hw. f_equal. lia.
  - split; [split|split].
    + split; [split; done|done].
    + split; [by apply (alive_disk G v1); [..|apply Ha|]|]. split; [done|]. intros s _ Hx. unfold lview. cbn.
      destruct (s =? _); [done|]. apply Hout. lia.
    + intros Hwf Hns. cbn in *. rewrite Hout by lia. by apply Hco.
    + intros i Hi. unfold lview. cbn. destruct (Z.eqb_spec (sect + i) (winsect (vfs v1))) as [E|]; [lia|auto].
Qed.

Lemma direct_advance fp fp1 cs v v1 v3 bw btw sect cc src :
  wstate fp cs v bw -> 0 <= bw -> bw + btw = total ->
  fp_fptr fp1 = fp_fptr fp -> fp_obj fp1 = fp_obj fp -> same_meta fp fp1 ->
  cs !! Z.to_nat (fp_fptr fp1 / bcs fs0) = Some (fp_clust fp1) -> fp_fptr fp1 mod SS = 0 -> NoDup cs ->
  0 < cc -> cc * SS <= btw -> fp_fptr fp1 mod bcs fs0 + cc * SS <= bcs fs0 ->
  (forall j, 0 <= j < cc * SS -> fsect fs0 cs (fp_fptr fp1 + j) = Some (sect + j / SS) /\
            (fp_fptr fp1 + j) mod SS = j mod SS) ->
  slice buff bw (cc * SS) = Some src ->
  touched (fun _ => False) v v1 -> touched (fun s => sect <= s < sect + cc) v1 v3 -> coherent v3 ->
  (forall i, 0 <= i < cc -> lview v3 (sect + i) = slice src (i * SS) SS) ->
  wr_turn btw (wr_next fp1 btw bw (cc * SS)) v3.
Proof using Hok0 Hl Hdl HG Ht Hp0 Hend.
  intros Hws Hbw Hsum Hfp Hob Hme Hc Hm0 Hnd Hcc Hbtw Hin Hrun Hsrc Htc Htc3 Hco3 Hlv.
  pose proof Hws as [Hgr Hcl Hcu _ _ _ _]. pose proof (gr_sv _ _ _ _ Hgr) as Hsv.
  assert (0 <= fp_fptr fp1) as Hnn by (destruct Hcu; lia). pose proof (slice_len _ _ _ _ Hsrc) as Hsl.
  assert (touched (fun s => sect <= s < sect + cc) v v3) as Ht3.
  { eapply touched_trans; [|exact Htc3]. by eapply touched_mono; [|exact Htc]. }
  pose proof Htc3 as ([_ Hg3] & _).
  apply (wr_advance fp fp1 cs v v3 bw btw (cc * SS)); try done.
  - unfold SS in *. lia.
  - eapply touched_mono; [|exact Ht3]. intros s Hs. exists ((s - sect) * SS). split; [unfold SS in *; lia|].
    destruct (Hrun ((s - sect) * SS)) as [-> _]; [unfold SS in *; lia|]. rewrite Z.div_mul by done. f_equal. lia.
  - intros Hmod. exfalso. apply Hmod. by rewrite Z.mod_add.
  - intros j Hj. destruct (Hrun j Hj) as [E1 E2]. unfold fbyte. rewrite (fsect_geom _ _ _ _ Hg3), E1, E2. cbn.
    rewrite <- (at_sectors (fun i => lview v3 (sect + i)) cc src j) by done.
    rewrite (at_slice _ _ _ _ _ Hsrc). by rewrite (proj2 (Z.leb_le _ _)), (proj2 (Z.ltb_lt _ _)) by lia.
  - intros i Hi Hni. eapply fbyte_touched; [exact Hsv|exact Ht3|]. intros s Hs.
    split; [apply data_plain; [done|done|]; by eapply (file_data v); [done|exact Hcl|exact (proj1 Hi)|]|].
    intros Hr. destruct (Hrun ((s - sect) * SS)) as [E1 _]; [unfold SS in *; lia|]. rewrite Z.div_mul in E1 by done.
    replace (sect + (s - sect)) with s in E1 by lia.
    assert (0 <= fp_fptr fp1 + (s - sect) * SS) as Hpj by (unfold SS in *; lia).
    pose proof (fsect_inj _ Hdl cs i _ s Hnd (proj1 Hi) Hpj Hs E1) as Eq.
    rewrite (div_add_aligned _ _ Hm0), Z.div_mul in Eq by done.
    pose proof (Z.div_mod i SS ltac:(done)). pose proof (Z.mod_pos_bound i SS ltac:(done)).
    pose proof (Z.div_mod (fp_fptr fp1) SS ltac:(done)). unfold SS in *. lia.
Qed.

Lemma write_direct_spec fp fp1 cs v v1 bw btw sect cc :
  wstate fp cs v bw -> 0 <= bw -> bw + btw = total ->
  fp_fptr fp1 = fp_fptr fp -> fp_obj fp1 = fp_obj fp -> same_meta fp fp1 ->
  cs !! Z.to_nat (fp_fptr fp1 / bcs fs0) = Some (fp_clust fp1) -> fp_fptr fp1 mod SS = 0 ->
  sect = clst_sect fs0 (fp_clust fp1) + fp_fptr fp1 mod bcs fs0 / SS ->
  0 < cc -> cc * SS <= btw -> fp_fptr fp1 mod bcs fs0 + cc * SS <= bcs fs0 ->
  touched (fun _ => False) v v1 -> coherent v1 ->
  wp (write_direct fp1 buff btw bw sect cc) (wr_turn btw) v1.
Proof using Hok0 Hl Hdl HG Ht Hp0 Hend.
  intros Hws Hbw Hsum Hfp Hob Hme Hc Hm0 Hsect Hcc Hbtw Hin Htc Hco. unfold write_direct. apply wp_bind, wp_get_fs.
  pose proof Hws as [Hgr Hcl Hcu _ _ _ _]. pose proof (gr_sv _ _ _ _ Hgr) as Hsv.
  assert (0 <= fp_fptr fp1) as Hnn by (destruct Hcu; lia).
  pose proof (bcs_pos _ Hdl) as Hb. pose proof (Z.mod_pos_bound (fp_fptr fp1) (bcs fs0) ltac:(lia)) as Hmb.
  pose proof Htc as ([[Hf1 Hd1] Hg1] & Ha1 & _).
  assert (NoDup cs) as Hnd by (destruct cs; [constructor|by eapply chain_NoDup]).
  assert (forall j, 0 <= j < cc * SS -> fsect fs0 cs (fp_fptr fp1 + j) = Some (sect + j / SS) /\
            (fp_fptr fp1 + j) mod SS = j mod SS) as Hrun.
  { intros j Hj. rewrite Hsect. apply aligned_run; try done; lia. }
  assert (forall i, 0 <= i < cc -> data_sect fs0 (sect + i)) as Hsec.
  { intros i Hi. destruct (Hrun (i * SS)) as [E _]; [unfold SS in *; lia|]. rewrite Z.div_mul in E by done.
    eapply (file_data v); [done|exact Hcl| |exact E]. unfold SS in *; lia. }
  destruct (data_range _ Hdl _ (Hsec 0 ltac:(lia))) as [Hs0 _].
  destruct (data_range _ Hdl _ (Hsec (cc - 1) ltac:(lia))) as [Hs1 _].
  assert (sect + cc < U32) as Hs2.
  { destruct (Hsec (cc - 1) ltac:(lia)) as [_ Hlt]. pose proof (dl_wrap _ Hdl). lia. }
  destruct (slice_is_Some buff bw (cc * SS)) as (src & Hsrc & Hsl); [lia|unfold SS in *; lia|lia|].
  apply wp_bind. eapply wp_chk; [done|]. apply wp_bind, wp_on_disk.
  eapply wp_mono; [apply dio_write_law; [done|lia|lia|done]|].
  intros r d' (Hd' & Hout & Hok & Hgd & Hgood).
  assert (r = RES_OK) as -> by (apply Hgd; [done|]; intros i Hi; by apply Ha1, HG, Hsec).
  specialize (Hok eq_refl). change (negb (RES_OK =d RES_OK)) with false. cbv iota.
  pose proof (ok_winsect _ Hf1) as Hws1. pose proof (ok_win _ Hf1) as Hwl.
  assert (u32 (winsect (vfs v1) - sect) < cc <-> sect <= winsect (vfs v1) < sect + cc) as Hwin.
  { unfold u32, U32 in *. Z.to_euclidean_division_equations. lia. }
  assert (forall fs', (exists w, fs' = set_wflag 0 (set_win w (vfs v1)) /\ sect <= winsect (vfs v1) < sect + cc /\
     slice src ((winsect (vfs v1) - sect) * SS) SS = Some w) \/
     (fs' = vfs v1 /\ ~ (sect <= winsect (vfs v1) < sect + cc)) ->
     wr_turn btw (wr_next fp1 btw bw (SS * cc)) (mkVol fs' d')) as Hfin.
  { intros fs' Hfs. destruct (direct_view v1 d' sect cc src fs') as (Htc3 & Hco3 & Hlv); try done; [lia|].
    rewrite (Z.mul_comm SS cc). eapply (direct_advance fp fp1 cs v v1 (mkVol fs' d') bw btw sect cc src); done. }
  apply wp_bind. destruct (Z.ltb_spec (u32 (winsect (vfs v1) - sect)) cc) as [Hpa|Hpa].
  - apply Hwin in Hpa. rewrite u32_small by (unfold U32 in *; lia). set (k := winsect (vfs v1) - sect) in *.
    destruct (slice_is_Some src (k * SS) SS) as (w & Hw & Hwl2); [unfold SS in *; lia..|].
    pose proof (slice_slice _ _ _ _ (k * SS) SS Hsrc ltac:(unfold SS in *; lia) ltac:(done) ltac:(unfold SS in *; lia)) as E.
    rewrite Hw in E. apply wp_bind. eapply wp_chk; [by symmetry|].
    apply wp_bind. eapply (wp_set_win_opt _ _ _ _ w).
    { cbn [vfs]. destruct (splice_is_Some (win (vfs v1)) 0 w) as (w' & Hsp & Hl'); [lia|lia|]. rewrite Hsp. f_equal.
      apply slice_splice_same in Hsp. rewrite Hwl2, <- Hwl, <- Hl', slice_all in Hsp. congruence. }
    apply wp_mod_fs, wp_ret. cbn [vfs vdsk]. apply Hfin. left. exists w. split; [done|]. split; [lia|done].
  - apply wp_ret, wp_ret. apply Hfin. right. split; [done|]. intros ?. apply Hwin in H. lia.
Qed.

(** A sector past the end of the file is not read: the window is set on it. *)
Lemma fresh_window fp v v1 s :
  touched (fun _ => False) v v1 -> coherent v1 -> data_sect fs0 s ->
  fp_fptr fp mod SS = 0 -> fp_objsize fp <= fp_fptr fp ->
  wp (r <- sync_window ;; if r =r FR_OK then mod_fs (set_winsect s) ;;; ret r else ret r)
     (fun r v2 => r = FR_OK /\ at_sector fp v v2 s) v1.
Proof using Hdl HG.
  intros Htc Hco Hs Hm Hle. apply wp_bind.
  eapply wp_mono; [apply (sync_touched (fun _ => False)); [apply Htc|done|apply Htc]|].
  intros r v2 (-> & Htc2 & Hco2 & Hwf & Hw). change (FR_OK =r FR_OK) with true. cbv iota.
  apply wp_bind, wp_mod_fs, wp_ret. split; [done|].
  pose proof (touched_trans _ _ _ _ Htc Htc2) as ([[Hf Hd] Hg] & Ha & Hi & Hv).
  destruct (data_range _ Hdl _ Hs) as [Hsr _].
  split; [|split; [done|by right]]. split; [split; [split; [|done]|done]|].
  - apply fs_ok_set_winsect; [done|lia].
  - split; [by apply (alive_disk G v2); [..|apply HG|]|]. split; [done|]. intros x Hx Hne.
    rewrite <- Hv; [|done|by intros []]. unfold lview. cbn. destruct (Z.eqb_spec x s); [congruence|].
    destruct (Z.eqb_spec x (winsect (vfs v2))) as [->|]; [|done]. apply Hco2; [done|apply Hx].
Qed.

Lemma write_sect_spec fp fp1 cs v bw btw :
  wstate fp cs v bw -> 0 <= bw -> bw + btw = total -> 0 < btw ->
  fp_fptr fp1 = fp_fptr fp -> fp_obj fp1 = fp_obj fp -> same_meta fp fp1 ->
  cs !! Z.to_nat (fp_fptr fp1 / bcs fs0) = Some (fp_clust fp1) -> fp_fptr fp1 mod SS = 0 ->
  wp (write_sect fp1 buff btw bw (fp_fptr fp1 mod bcs fs0 / SS)) (wr_turn btw) v.
Proof using Hok0 Hl Hdl HG Ht Hp0 Hend.
  intros Hws Hbw Hsum Hbtw Hfp Hob Hme Hc Hm0. unfold write_sect. apply wp_bind, wp_get_fs.
  pose proof Hws as [Hgr Hcl Hcu _ _ _ _]. pose proof (gr_sv _ _ _ _ Hgr) as Hsv. pose proof Hsv as [Hv Hg].
  assert (0 <= fp_fptr fp1) as Hnn by (destruct Hcu; lia). pose proof (bcs_pos _ Hdl) as Hb.
  pose proof (Z.mod_pos_bound (fp_fptr fp1) (bcs fs0) ltac:(lia)) as Hmb.
  apply wp_bind. apply (wp_mono _ _ (fun r v1 => r = FR_OK /\ touched (fun _ => False) v v1 /\ coherent v1)).
  { destruct (_ =? _).
    - eapply wp_mono; [apply (sync_touched (fun _ => False)); [done|apply Hgr|apply Hgr]|].
      by intros r v1 (? & ? & ? & _).
    - apply wp_ret. split; [done|]. split; [|apply Hgr]. split; [done|]. split; [apply Hgr|]. by split. }
  intros r v1 (-> & Htc & Hco). change (negb (FR_OK =r FR_OK)) with false. cbv iota.
  assert (valid_clst fs0 (fp_clust fp1)) as Hvc by (by eapply file_valid, list_elem_of_lookup_2).
  apply geom_fields in Hg as Hgf. destruct Hgf as (_&_&_&_&_&Ecz&Enf&_&_&_&_&Edb).
  assert (clst2sect (vfs v) (fp_clust fp1) = clst_sect fs0 (fp_clust fp1)) as Ec2.
  { rewrite clst2sect_data; [|by apply (data_layout_geom fs0)|apply Hv|by apply (valid_geom v)].
    unfold clst_sect. by rewrite Ecz, Edb. }
  rewrite Ec2, Ecz. set (cse := fp_fptr fp1 mod bcs fs0 / SS).
  pose proof (in_cluster _ Hdl _ Hnn) as Hcse. fold cse in Hcse.
  assert (fp_fptr fp1 mod bcs fs0 = cse * SS) as Ecs.
  { pose proof (mod_bcs_SS _ Hdl (fp_fptr fp1)) as E. rewrite Hm0 in E. unfold cse.
    pose proof (Z.div_mod (fp_fptr fp1 mod bcs fs0) SS ltac:(done)). lia. }
  pose proof (clst_data _ _ cse Hvc Hcse) as Hds. destruct (data_range _ Hdl _ Hds) as [Hs1 _].
  destruct (data_range _ Hdl _ (clst_data _ _ 0 Hvc ltac:(lia))) as [Hs0 _]. rewrite Z.add_0_r in Hs0.
  destruct (Z.eqb_spec (clst_sect fs0 (fp_clust fp1)) 0); [lia|]. rewrite u32_small by lia. cbv zeta.
  destruct (Z.gtb_spec (btw / SS) 0) as [Hcc|Hcc].
  - set (cc := if _ >? _ then _ else _).
    assert (btw / SS * SS <= btw) by (pose proof (Z.div_mod btw SS ltac:(done)); pose proof (Z.mod_pos_bound btw SS ltac:(done)); lia).
    assert (0 < cc /\ cc <= btw / SS /\ cse + cc <= csize fs0) as (Hc1 & Hc2 & Hc3).
    { subst cc. destruct (Z.gtb_spec (cse + btw / SS) (csize fs0)); lia. }
    eapply (write_direct_spec fp fp1); try done; [|rewrite Ecs]; unfold bcs, SS in *; lia.
  - assert (at_pos fs0 cs (set_fp_sect (clst_sect fs0 (fp_clust fp1) + cse) fp1)) as Hpos.
    { constructor; [done|]. cbn [fp_fptr fp_sect set_fp_sect].
      destruct (aligned_run _ Hdl cs _ 0 _ Hnn Hc Hm0 ltac:(lia) ltac:(lia)) as [E _]. by rewrite !Z.add_0_r in E. }
    assert (fp_objsize fp1 = fp_objsize fp) as Eo by (unfold fp_objsize; by rewrite Hob).
    apply wp_bind. apply (wp_mono _ _ (fun r v2 => r = FR_OK /\ (touched (fun _ => False) v v2 /\ coherent v2 \/
      at_sector fp v v2 (clst_sect fs0 (fp_clust fp1) + cse)))).
    { rewrite Eo. destruct (Z.geb_spec (fp_fptr fp1) (fp_objsize fp)).
      - rewrite Hfp in *. eapply wp_mono; [by apply (fresh_window fp v v1)|]. intros r v2 [? ?]. auto.
      - apply wp_ret. auto. }
    intros r v2 (-> & Hv2). change (negb (FR_OK =r FR_OK)) with false. cbv iota.
    by eapply (write_part_spec fp).
Qed.

Lemma f_write_body_spec a v :
  wr_inv a v ->
  wp (f_write_body buff a) (fun r v' => match r with
    | inl a' => wr_inv a' v' /\ 0 <= a'.1.2 < a.1.2
    | inr (res, fp, bw) => res = FR_OK /\ exists fp', fp = set_fp_flag (Z.lor (fp_flag fp') FA_MODIFIED) fp' /\
        (exists cs, wstate fp' cs v' bw) /\ 0 <= bw <= total /\ (bw = total \/ full v')
    end) v.
Proof using Hok0 Hl Hdl HG Ht Hp0 Hend.
  destruct a as [[fp btw] bw]. intros (Hbtw & Hbw & Hsum & cs & Hws). cbn [fst snd]. unfold f_write_body.
  destruct (Z.gtb_spec btw 0) as [Hpos|Hz].
  2:{ apply wp_ret. split; [done|]. exists fp. split; [done|]. split; [eauto|]. split; [lia|]. left. lia. }
  assert (forall m v1, wp m (wr_turn btw) v1 -> wp m (fun r v' => match r with
    | inl a' => wr_inv a' v' /\ 0 <= a'.1.2 < btw
    | inr (res, fp, bw) => res = FR_OK /\ exists fp', fp = set_fp_flag (Z.lor (fp_flag fp') FA_MODIFIED) fp' /\
        (exists cs, wstate fp' cs v' bw) /\ 0 <= bw <= total /\ (bw = total \/ full v')
    end) v1) as Hw.
  { intros m v1 H. eapply wp_mono; [exact H|]. by intros [a'|[[res f] n]] v'. }
  pose proof Hws as [Hgr Hcl Hcu _ _ _ _]. pose proof (gr_sv _ _ _ _ Hgr) as Hsv. pose proof Hsv as [Hv Hg].
  pose proof (cu_fptr _ _ _ Hcu) as Hcf. pose proof (bcs_pos _ Hdl) as Hb.
  assert (same_meta fp fp) as Hmr by (unfold same_meta; tauto).
  apply wp_bind, wp_get_fs. destruct (Z.eqb_spec (fp_fptr fp mod SS) 0) as [Hms|Hms].
  2:{ apply Hw. eapply write_part_spec; try done.
      - assert (fp_fptr fp mod bcs fs0 <> 0) as Hne by (intros E; apply Hms; by rewrite <- (mod_bcs_SS _ Hdl), E).
        assert (fp_fptr fp <> 0) as Hnz by (intros E; by rewrite E in Hms).
        constructor; [|by apply Hcu]. rewrite <- (prev_same _ Hdl) by lia. apply Hcu. lia.
      - left. split; [|apply Hgr]. split; [done|]. split; [apply Hgr|]. by split. }
  cbv zeta. rewrite (csect_mod (vfs v)) by (lia || by apply (data_layout_geom fs0)).
  replace (bcs (vfs v)) with (bcs fs0) by (apply geom_fields in Hg as (_&_&_&_&_&E&_); unfold bcs; by rewrite E).
  set (cse := fp_fptr fp mod bcs fs0 / SS).
  assert (fp_fptr fp mod bcs fs0 = cse * SS) as Ecs.
  { pose proof (mod_bcs_SS _ Hdl (fp_fptr fp)) as E. rewrite Hms in E. unfold cse.
    pose proof (Z.div_mod (fp_fptr fp mod bcs fs0) SS ltac:(done)). lia. }
  apply wp_bind. apply (wp_mono _ _ (clst_post fp cs bw)).
  { destruct (Z.eqb_spec cse 0) as [E0|E0]; [by apply write_clst_spec; [|rewrite Ecs, E0]|].
    apply wp_ret. exists cs, fp, (fp_clust fp). split; [done|]. split; [by destruct fp|]. split; [done|].
    assert (fp_fptr fp <> 0) as Hnz by (intros E; apply E0; unfold cse; by rewrite E, Z.mod_0_l by lia).
    rewrite <- (prev_same _ Hdl) by (unfold SS in *; lia). apply Hcu. lia. }
  intros [e|[fp1|]] v1 Hpost; [done|..].
  - destruct Hpost as (cs' & fp' & c & Hws' & -> & Efp & Hc). apply Hw.
    subst cse. rewrite <- Efp in *. eapply (write_sect_spec fp' (set_fp_clust c fp')); done.
  - destruct Hpost as [Hfull Hws']. apply wp_ret. split; [done|]. exists fp. split; [done|]. split; [eauto|].
    split; [lia|]. by right.
Qed.

(** The loop of [f_write] puts the buffer into the file. *)
Lemma f_write_loop_spec :
  vol_ok v0 -> coherent v0 -> alive G v0 -> ~ bad_entry v0 -> clusters v0 (fp_sclust fp0) cs0 -> cursor fs0 cs0 fp0 ->
  wp (loop (f_write_body buff) (fp0, total, 0)) (fun r v' =>
    let '(res, fp, bw) := r in
    res = FR_OK /\ exists fp', fp = set_fp_flag (Z.lor (fp_flag fp') FA_MODIFIED) fp' /\
      (exists cs, wstate fp' cs v' bw) /\ 0 <= bw <= total /\ (bw = total \/ full v')) v0.
Proof using Hok0 Hl Hdl Hg0 HG Ht Hp0 Hend.
  intros Hv Hc Ha Hb Hcl Hcu. apply (wp_loop true wr_inv (fun a _ => a.1.2)).
  - intros a v Hinv. eapply wp_mono; [by apply f_write_body_spec|].
    intros [a'|[[res f] n]] v'; [|done]. by intros [? ?].
  - split; [lia|]. split; [lia|]. split; [lia|]. exists cs0. split; try done.
    + split; try done. exists []. by rewrite app_nil_r.
    + lia.
    + lia.
    + intros i Hi. destruct (Z.leb_spec (fp_fptr fp0) i), (Z.ltb_spec i (fp_fptr fp0 + 0)); cbn; try done. lia.
  - cbn. unfold LOOP_FUEL, U32 in *. lia.
Qed.

End loop.

End writing.
