(* ===== verification/Seeking.v ===== *)
(** * Seeking in a file and cutting it

    [f_lseek] against the contents of a file: the position is the one asked
    for, from the current cluster or from the first one; in write mode the
    file is stretched, and the position is clipped only when the volume is
    full.  [f_truncate] cuts the file at the position and frees the clusters
    behind it. *)

From stdpp Require Import base numbers list option gmap.
From Stdlib Require Import ZArith Lia.
From Stdlib Require Import Strings.Byte.
From S2P Require Import Prelude Types Bytes Diskio Window Fat Chain Live Dir Path Mount File Content Writing.

(** The start of a cluster, as the code computes it. *)
Lemma clst_start fs x : data_layout fs -> 0 <= x < U32 ->
  Z.land x (u32 (Z.lnot (bcs fs - 1))) = x / bcs fs * bcs fs.
Proof.
  intros Hdl Hx. destruct (dl_csize _ Hdl) as (k & Hk & E).
  assert (bcs fs = 2 ^ (k + 9)) as ->.
  { unfold bcs. rewrite E, Z.pow_add_r by lia. done. }
  unfold u32. change 4294967296 with (2 ^ 32). change U32 with (2 ^ 32) in Hx. rewrite <- Z.land_ones, (Z.land_comm (Z.lnot _)), Z.land_assoc by lia.
  rewrite Z.land_ones, (Z.mod_small x) by lia. rewrite <- Z.ldiff_land.
  replace (2 ^ (k + 9) - 1) with (Z.ones (k + 9)) by (rewrite Z.ones_equiv; lia).
  rewrite Z.ldiff_ones_r, Z.shiftr_div_pow2, Z.shiftl_mul_pow2 by lia. done.
Qed.

Section seeking.
Context {D : Type} `{!DiskIO D} `{!DiskIOLaws D}.
Context (G : Z -> Prop) (fs0 : FATFS) (Hok0 : fs_ok fs0) (Hl : fat_layout fs0) (Hdl : data_layout fs0).
Implicit Types (v : vol D) (cs : list Z) (fp : FIL).
Context (v0 : vol D) (cs0 : list Z) (fp0 : FIL) (Hg0 : geom (vfs v0) = geom fs0).

(** The file, whatever the position. *)
Definition park fp : FIL := set_fp_fptr 0 fp.
Abbreviation kept fp cs v := (wstate G fs0 v0 cs0 (park fp0) [] (park fp) cs v 0).

(** Only the file and the things that do not move count. *)
Lemma kept_obj fp fp' cs v :
  kept fp cs v -> fp_obj fp' = fp_obj fp -> same_meta fp fp' -> kept fp' cs v.
Proof using Type.
  intros [Hgr Hcl Hcu Hme Hp Hsz Hby] Ho Hm. destruct fp as [ob fl er pt cl se ds dp], fp' as [ob' fl' er' pt' cl' se' ds' dp'].
  cbn in Ho. subst ob'. split; [done|done| | |done|done|done].
  - destruct Hcu as [H1 H2 H3 H4 H5]. constructor; [done|done|done|cbn; lia|cbn; done].
  - unfold same_meta in *. cbn in *. intuition congruence.
Qed.

Section lseek.
Context (tgt : Z) (Htgt : 0 < tgt < U32) (Hro : Z.land (fp_flag fp0) FA_WRITE = 0 -> tgt <= fp_objsize fp0).

(** On the way: at the start of the cluster at index [k]. *)
Definition on_way fp clst ofs cs k v : Prop :=
  kept fp cs v /\ fp_fptr fp = Z.of_nat k * bcs fs0 /\ cs !! k = Some clst /\ fp_clust fp = clst /\
  0 < ofs /\ fp_fptr fp + ofs = tgt.

(** The volume is full: at the end of the last cluster. *)
Definition at_full fp cs v : Prop :=
  kept fp cs v /\ full fs0 v /\ fp_fptr fp = len cs * bcs fs0 /\ fp_fptr fp < tgt /\
  last cs = Some (fp_clust fp).

(** The search ended. *)
Definition arrived (r : FRESULT * FIL + FIL * Z * Z) v : Prop :=
  match r with
  | inl _ => False
  | inr (fp, clst, ofs) => exists cs,
      (ofs <= bcs fs0 /\ exists k, on_way fp clst ofs cs k v) \/ (ofs = 0 /\ at_full fp cs v)
  end.

Lemma kept_fat fp cs v c : kept fp cs v -> c ∈ cs ->
  wp (get_fat c) (fun x v' => fat_entry v c = Some x /\ kept fp cs v') v.
Proof using Hok0 Hl Hdl Hg0.
  intros Hk Hc. pose proof (gr_sv _ _ _ _ _ _ (ws_grown _ _ _ _ _ _ _ _ _ _ Hk)) as Hsv.
  pose proof (gr_alive _ _ _ _ _ _ (ws_grown _ _ _ _ _ _ _ _ _ _ Hk)) as Ha.
  pose proof (gr_co _ _ _ _ _ _ (ws_grown _ _ _ _ _ _ _ _ _ _ Hk)) as Hco.
  assert (fat_layout (vfs v)) as Hlv by (apply (fat_layout_geom fs0); [symmetry; apply Hsv|done]).
  assert (valid_clst (vfs v) c) as Hvc.
  { apply (valid_geom fs0); [done|]. eapply file_valid; [done|exact (ws_clusters _ _ _ _ _ _ _ _ _ _ Hk)|done]. }
  eapply wp_mono; [apply (get_fat_alive G v v c); [apply Hsv|done|apply unchanged_refl; [apply Hsv|done]|done|done]|].
  intros x v' (He & _ & Hu & Ha'). split; [done|]. eapply wstate_same; [done|done|done|exact Hk| |done].
  eapply table_is_unchanged; [done|apply table_is_refl; [apply Hsv|done]|done].
Qed.

(** One turn of the cluster following loop. *)
Lemma lseek_body_spec fp clst ofs cs k v :
  on_way fp clst ofs cs k v ->
  wp (lseek_body (bcs fs0) (fp, clst, ofs)) (fun r v' => match r with
    | inl a' => (exists cs' k', on_way a'.1.1 a'.1.2 a'.2 cs' k' v') /\ 0 <= a'.2 < ofs
    | inr r => arrived r v'
    end) v.
Proof using Hok0 Hl Hdl Hg0 Htgt Hro.
  intros Hw. pose proof Hw as (Hk & Hp & Hc & Hcl & Ho & Hsum). pose proof (bcs_pos _ Hdl) as Hb.
  unfold lseek_body. destruct (Z.gtb_spec ofs (bcs fs0)) as [Hgt|Hle]; [|apply wp_ret; exists cs; left; eauto].
  apply wp_bind, wp_get_fs. cbv zeta. cbn [fp_flag set_fp_fptr].
  rewrite (u32_small (ofs - bcs fs0)), (u32_small (fp_fptr fp + bcs fs0)) by lia.
  set (fp1 := set_fp_fptr (fp_fptr fp + bcs fs0) fp).
  assert (n_fatent (vfs v) = n_fatent fs0) as En.
  { pose proof (gr_sv _ _ _ _ _ _ (ws_grown _ _ _ _ _ _ _ _ _ _ Hk)) as [_ Hg]. by apply geom_fields in Hg as (_&_&_&_&_&_&->&_). }
  pose proof (ok_n_fatent _ Hok0) as Hnf. pose proof (fl_max _ Hl) as Hmax.
  assert (forall x cs' v', cs' !! S k = Some x -> valid_clst fs0 x -> kept fp cs' v' ->
    wp (if nz (Z.land (fp_flag fp) FA_WRITE) && (x =? 0) then ret (inr (inr (fp1, x, 0)))
        else if x =? 0xFFFFFFFF then ret (inr (inl (FR_DISK_ERR, fp1)))
        else if (x <=? 1) || (x >=? n_fatent (vfs v)) then ret (inr (inl (FR_INT_ERR, fp1)))
        else ret (inl (set_fp_clust x fp1, x, ofs - bcs fs0))) (fun r v' => match r with
    | inl a' => (exists cs' k', on_way a'.1.1 a'.1.2 a'.2 cs' k' v') /\ 0 <= a'.2 < ofs
    | inr r => arrived r v'
    end) v') as Hnext.
  { intros x cs' v' Hx [H1 H2] Hk'. rewrite En, (proj2 (Z.eqb_neq x 0)), andb_false_r by lia.
    rewrite (proj2 (Z.eqb_neq x 0xFFFFFFFF)) by (unfold_consts; lia).
    rewrite (proj2 (Z.leb_gt x 1)), Z.geb_leb, (proj2 (Z.leb_gt _ x)) by lia. apply wp_ret. cbn [fst snd].
    split; [|lia]. exists cs', (S k). split; [by apply (kept_obj fp)|].
    cbn [fp_fptr fp_clust set_fp_clust set_fp_fptr fp1]. split; [lia|]. split; [done|]. split; [done|]. lia. }
  apply wp_bind. destruct (nz (Z.land (fp_flag fp) FA_WRITE)) eqn:Ewr.
  - eapply wp_mono; [by apply (stretch G fs0 Hok0 Hl Hdl v0 cs0 (park fp0) [] (park fp) cs v 0 k clst)|].
    intros x v' [(-> & Hf & Ek & Hk')|(cs' & Hx & Hvx & Hk')]; [|by eapply Hnext].
    apply wp_ret. exists cs. right. split; [done|]. split; [by apply (kept_obj fp)|]. split; [done|].
    cbn [fp_fptr fp_clust set_fp_fptr fp1]. unfold len. split; [lia|]. split; [lia|].
    rewrite last_lookup, <- Ek. cbn. by rewrite Hc, Hcl.
  - assert (exists n, cs !! S k = Some n) as [n Hn].
    { apply lookup_lt_is_Some. pose proof (cu_cover _ _ _ (ws_cursor _ _ _ _ _ _ _ _ _ _ Hk)) as Hcov.
      pose proof (ws_size _ _ _ _ _ _ _ _ _ _ Hk) as Hsz. cbn in Hsz, Hcov.
      assert (fp_flag fp = fp_flag fp0) as Efl by (by destruct (ws_meta _ _ _ _ _ _ _ _ _ _ Hk) as (_&_&_&_&?&_)).
      rewrite Efl in Ewr. unfold nz in Ewr. apply negb_false_iff, Z.eqb_eq, Hro in Ewr.
      unfold fp_objsize in *. cbn in *. unfold len in Hcov. nia. }
    eapply wp_mono; [apply (kept_fat fp cs v clst); [done|by eapply list_elem_of_lookup_2]|].
    intros x v' [He Hk']. pose proof (ws_clusters _ _ _ _ _ _ _ _ _ _ Hk) as Hcs.
    rewrite (clusters_nth _ _ _ _ _ _ Hcs Hc Hn) in He. injection He as <-.
    apply (Hnext n cs v'); [done| |done]. eapply file_valid; [|exact Hcs|by eapply list_elem_of_lookup_2].
    exact (gr_sv _ _ _ _ _ _ (ws_grown _ _ _ _ _ _ _ _ _ _ Hk)).
Qed.

(** Where the search starts, unless the volume is full. *)
Definition started (r : FRESULT * FIL + FIL * Z * Z) v : Prop :=
  match r with
  | inl _ => False
  | inr (fp, clst, ofs) =>
      (clst = 0 /\ full fs0 v /\ fp_fptr fp = 0 /\ fp_objsize fp0 = 0 /\ kept fp [] v) \/
      exists cs k, on_way fp clst ofs cs k v
  end.

Lemma start_first :
  kept fp0 cs0 v0 ->
  wp (let clst := fp_sclust (park fp0) in
      if clst =? 0 then
        clst <- create_chain 0 ;;
        if clst =? 1 then ret (inl (FR_INT_ERR, park fp0))
        else if clst =? 0xFFFFFFFF then ret (inl (FR_DISK_ERR, park fp0))
        else ret (inr (set_fp_clust clst (set_fp_sclust clst (park fp0)), clst, tgt))
      else ret (inr (set_fp_clust clst (park fp0), clst, tgt))) started v0.
Proof using Hok0 Hl Hdl Htgt.
  clear Hro. intros Hk. pose proof (ws_clusters _ _ _ _ _ _ _ _ _ _ Hk) as Hcl. cbn in Hcl.
  pose proof (ok_n_fatent _ Hok0) as Hnf. pose proof (fl_max _ Hl) as Hmax. pose proof (bcs_pos _ Hdl) as Hb.
  cbv zeta. cbn [fp_sclust park]. destruct (Z.eqb_spec (fp_sclust (park fp0)) 0) as [S0|S0].
  - assert (cs0 = []) as Ecs.
    { destruct cs0 as [|a l]; [done|]. by exfalso; eapply sclust_nonzero; [exact Hcl| |exact S0]. }
    apply wp_bind. replace (create_chain 0) with (create_chain (D := D) (default 0 (last cs0))) by (by rewrite Ecs).
    eapply wp_mono; [by apply (append_raw G fs0 Hok0 Hl Hdl v0 cs0 (park fp0) [] (park fp0) cs0 v0 0)|].
    rewrite S0. intros x v' [(-> & Hf & Hk')|[Hx Hk']].
    + apply wp_ret. left. split; [done|]. split; [done|]. split; [done|].
      rewrite Ecs in Hk' at 2. pose proof (ws_cursor _ _ _ _ _ _ _ _ _ _ Hk') as Hcu'.
      split.
      { destruct (cu_fptr _ _ _ Hcu') as [_ H1]. pose proof (cu_cover _ _ _ Hcu') as H2.
        change (len []) with 0 in H2. unfold fp_objsize in *. cbn in *. lia. }
      apply (kept_obj fp0); [done| |done]. unfold fp_sclust in S0. cbn in *. by destruct fp0 as [[] ?]; cbn in *; subst.
    + destruct Hx as [Hx1 Hx2]. rewrite (proj2 (Z.eqb_neq x 1)), (proj2 (Z.eqb_neq x 0xFFFFFFFF)) by (unfold_consts; lia).
      rewrite Ecs in Hk' at 2.
      apply wp_ret. right. exists [x], 0%nat. split; [by apply (kept_obj (set_fp_sclust x (park fp0)))|].
      split; [done|]. split; [done|]. split; [done|]. cbn. lia.
  - apply wp_ret. right. exists cs0, 0%nat. split; [by apply (kept_obj fp0)|]. split; [done|].
    split; [by destruct cs0; [|apply (chain_head v0)]|]. split; [done|]. cbn. lia.
Qed.

Lemma lseek_start_spec :
  kept fp0 cs0 v0 -> cursor fs0 cs0 fp0 ->
  wp (lseek_start (park fp0) (fp_fptr fp0) tgt (bcs fs0)) started v0.
Proof using Hok0 Hl Hdl Htgt.
  clear Hro. intros Hk Hcu. pose proof (bcs_pos _ Hdl) as Hb. pose proof (cu_fptr _ _ _ Hcu) as Hfr.
  pose proof (cu_size _ _ _ Hcu) as Hsz. pose proof (ws_clusters _ _ _ _ _ _ _ _ _ _ Hk) as Hcl. cbn in Hcl.
  unfold lseek_start. rewrite (proj2 (Z.eqb_neq (bcs fs0) 0)), andb_false_r by lia.
  destruct (Z.gtb_spec (fp_fptr fp0) 0) as [Hpos|Hz]; cbn [andb].
  - destruct (Z.geb_spec ((tgt - 1) / bcs fs0) ((fp_fptr fp0 - 1) / bcs fs0)) as [Hge|_].
    + apply wp_ret. right. rewrite clst_start by (done || lia). set (q := (fp_fptr fp0 - 1) / bcs fs0) in *.
      assert (0 <= q) by (apply Z.div_pos; lia).
      assert (q * bcs fs0 <= tgt - 1).
      { pose proof (Z.mul_div_le (tgt - 1) (bcs fs0) ltac:(lia)). nia. }
      exists cs0, (Z.to_nat q). cbn [fp_fptr set_fp_fptr fp_clust park]. rewrite u32_small by nia.
      split; [by apply (kept_obj fp0)|]. split; [rewrite Z2Nat.id by lia; done|].
      split; [by apply Hcu|]. split; [done|]. cbn [fp_fptr set_fp_fptr]. lia.
    + by apply start_first.
  - by apply start_first.
Qed.

(** The position after the search: the one asked for, or the end of what the
    full volume could give. *)
Definition sought fp v (nsect : Z) : Prop := exists cs,
  kept fp cs v /\ 0 <= fp_fptr fp <= tgt /\
  (fp_fptr fp = tgt \/ (full fs0 v /\ fp_objsize fp0 <= fp_fptr fp)) /\
  fp_fptr fp <= len cs * bcs fs0 /\
  (0 < fp_fptr fp -> cs !! Z.to_nat ((fp_fptr fp - 1) / bcs fs0) = Some (fp_clust fp)) /\
  (fp_fptr fp mod SS <> 0 -> fsect fs0 cs (fp_fptr fp) = Some nsect).

Lemma mult_SS k : (k * bcs fs0) mod SS = 0.
Proof using Type.
  unfold bcs. rewrite Z.mul_assoc. apply Z.mod_mul. done.
Qed.

(** Inside the cluster at index [k]. *)
Lemma in_clst k ofs : 0 <= k -> 0 < ofs <= bcs fs0 -> (k * bcs fs0 + ofs - 1) / bcs fs0 = k.
Proof using Type. intros Hk Ho. symmetry. apply (Z.div_unique _ _ _ (ofs - 1)); lia. Qed.

Lemma arrived_sought fs fp clst ofs v :
  fs_ok fs -> geom fs = geom fs0 -> arrived (inr (fp, clst, ofs)) v ->
  wp (let fp := set_fp_fptr (u32 (fp_fptr fp + ofs)) fp in
      if nz (ofs mod SS) then
        let nsect := clst2sect fs clst in
        if nsect =? 0 then ret (inl (FR_INT_ERR, fp)) else ret (inr (fp, u32 (nsect + ofs / SS)))
      else ret (inr (fp, 0)))
    (fun (r : FRESULT * FIL + FIL * Z) v' => match r with inl _ => False | inr (fp, nsect) => sought fp v' nsect end) v.
Proof using Hok0 Hl Hdl Hg0 Htgt.
  clear Hro. intros Hfv Hgv (cs & [(Hob & k & Hk & Hp & Hc & Hcl & Ho & Hsum)|(-> & Hk & Hf & Hp & Hlt & Hla)]); pose proof (bcs_pos _ Hdl) as Hb.
  2:{ change (nz (0 mod SS)) with false. cbv iota zeta. apply wp_ret. pose proof (len_nonneg cs).
      rewrite Z.add_0_r, u32_small by nia. exists cs. cbn [fp_fptr fp_clust set_fp_fptr].
      assert (0 < len cs) as Hlen by (destruct cs; [done|]; unfold len; cbn; lia).
      split; [by apply (kept_obj fp)|]. split; [nia|]. split.
      { right. split; [done|]. pose proof (cu_cover _ _ _ (ws_cursor _ _ _ _ _ _ _ _ _ _ Hk)) as Hcov.
        pose proof (ws_size _ _ _ _ _ _ _ _ _ _ Hk) as Hsz. unfold fp_objsize in *. cbn in *. lia. }
      split; [lia|]. rewrite Hp. split; [|by rewrite mult_SS]. intros _.
      replace (len cs * bcs fs0 - 1) with ((len cs - 1) * bcs fs0 + bcs fs0 - 1) by lia. rewrite in_clst by lia.
      rewrite last_lookup in Hla. by replace (Z.to_nat (len cs - 1)) with (pred (length cs)) by (unfold len in *; lia). }
  cbv zeta. rewrite u32_small by lia. apply lookup_lt_Some in Hc as Hkl.
  set (fp1 := set_fp_fptr (fp_fptr fp + ofs) fp).
  assert (forall nsect, (ofs mod SS <> 0 -> nsect = clst_sect fs0 clst + ofs / SS) -> sought fp1 v nsect) as Hsought.
  { intros nsect Hns. exists cs. cbn [fp_fptr fp_clust set_fp_fptr fp1]. split; [by apply (kept_obj fp)|].
    split; [lia|]. split; [by left|]. split; [unfold len; nia|]. rewrite Hp. split.
    - intros _. rewrite in_clst by lia. rewrite Nat2Z.id. by rewrite Hc, Hcl.
    - rewrite Z.add_mod, mult_SS, Z.add_0_l, Z.mod_mod by done. intros Hm. rewrite (Hns Hm).
      assert (ofs < bcs fs0).
      { destruct (Z.eq_dec ofs (bcs fs0)) as [->|]; [|lia]. exfalso. apply Hm. pose proof (mult_SS 1) as E.
        by rewrite Z.mul_1_l in E. }
      assert ((Z.of_nat k * bcs fs0) mod bcs fs0 = 0) as E0 by (apply Z.mod_mul; lia).
      rewrite (fsect_run fs0 Hdl cs (Z.of_nat k * bcs fs0) ofs clst); rewrite ?E0, ?Z.div_mul, ?Nat2Z.id by lia; try done; lia. }
  destruct (nz (ofs mod SS)) eqn:En.
  - assert (valid_clst fs0 clst) as Hvc.
    { eapply file_valid; [exact (gr_sv _ _ _ _ _ _ (ws_grown _ _ _ _ _ _ _ _ _ _ Hk))|
        exact (ws_clusters _ _ _ _ _ _ _ _ _ _ Hk)|by eapply list_elem_of_lookup_2]. }
    assert (clst2sect fs clst = clst_sect fs0 clst) as ->.
    { rewrite clst2sect_data; [|by apply (data_layout_geom fs0)|done|]; apply geom_fields in Hgv as (_&_&_&_&_&E1&E2&_&_&_&_&E3).
      - unfold clst_sect. by rewrite E1, E3.
      - unfold valid_clst. by rewrite E2. }
    pose proof (csize_pos _ Hdl) as Hcs.
    destruct (data_range _ Hdl _ (clst_data _ clst 0 Hvc ltac:(lia))) as [Hs0 _]. rewrite Z.add_0_r in Hs0.
    rewrite (proj2 (Z.eqb_neq _ 0)) by lia. apply wp_ret, Hsought. intros Hm.
    assert (0 <= ofs / SS < csize fs0) as Hq.
    { split; [apply Z.div_pos; [lia|done]|]. apply Z.div_lt_upper_bound; [done|].
      destruct (Z.eq_dec ofs (bcs fs0)) as [->|]; [|unfold bcs in *; lia]. exfalso. apply Hm. pose proof (mult_SS 1) as E.
      by rewrite Z.mul_1_l in E. }
    destruct (data_range _ Hdl _ (clst_data _ clst (ofs / SS) Hvc Hq)) as [Hs1 _]. apply u32_small. lia.
  - apply wp_ret, Hsought. intros Hm. exfalso. apply Hm. unfold nz in En. by apply negb_false_iff, Z.eqb_eq in En.
Qed.

Lemma lseek_follow_spec :
  fs_ok (vfs v0) -> kept fp0 cs0 v0 -> cursor fs0 cs0 fp0 ->
  wp (lseek_follow (park fp0) (fp_fptr fp0) tgt) (fun r v' =>
    match r with inl _ => False | inr (fp, nsect) => sought fp v' nsect end) v0.
Proof using Hok0 Hl Hdl Hg0 Htgt Hro.
  intros Hf0 Hk Hcu. unfold lseek_follow. apply wp_bind, wp_get_fs. cbv zeta.
  assert (data_layout (vfs v0)) as Hdl0 by (by apply (data_layout_geom fs0)).
  rewrite (u32_bcs _ Hdl0). assert (bcs (vfs v0) = bcs fs0) as ->.
  { pose proof Hg0 as Hg. apply geom_fields in Hg as (_&_&_&_&_&E&_). unfold bcs. by rewrite E. }
  apply wp_bind. eapply wp_mono; [by apply lseek_start_spec|].
  intros [e|[[fp clst] ofs]] v1; [done|]. intros [(-> & Hf & Hp & Hz & Hk1)|(cs & k & Hw)].
  { apply wp_ret. exists []. rewrite Hp. split; [done|]. split; [lia|]. split; [right; split; [done|lia]|].
    split; [done|]. split; [lia|done]. }
  assert (nz clst = true) as ->.
  { destruct Hw as (Hk1 & _ & Hc & _). assert (valid_clst fs0 clst) as [H1 _].
    { eapply file_valid; [exact (gr_sv _ _ _ _ _ _ (ws_grown _ _ _ _ _ _ _ _ _ _ Hk1))|
        exact (ws_clusters _ _ _ _ _ _ _ _ _ _ Hk1)|by eapply list_elem_of_lookup_2]. }
    unfold nz. by rewrite (proj2 (Z.eqb_neq clst 0)) by lia. }
  cbn [negb]. apply wp_bind.
  eapply wp_mono; [apply (wp_loop true (fun a v => exists cs k, on_way a.1.1 a.1.2 a.2 cs k v) (fun a _ => a.2) arrived)|].
  - intros [[fp' c'] o'] v' (cs' & k' & Hw'). eapply wp_mono; [by eapply lseek_body_spec|].
    intros [a'|r] v2; [done|]. done.
  - eauto.
  - cbn. destruct Hw as (_ & Hp & _ & _ & Ho & Hs). pose proof (bcs_pos _ Hdl). unfold LOOP_FUEL, U32 in *. lia.
  - intros [e|[[fp1 c1] o1]] v2 Ha; [done|]. by apply (arrived_sought (vfs v0)).
Qed.

End lseek.

(** What [f_lseek] promises: the file is the same up to its old size, the
    clusters it grows by were free, nothing else changes, and the position is
    the one asked for, clipped to the size in read mode and to the space of the
    volume otherwise. *)
Record seek_post (ofs : Z) (fp : FIL) cs v : Prop := mk_seek_post {
  sk_grown : grown G fs0 v0 cs0 v cs;
  sk_clusters : clusters v (fp_sclust fp) cs;
  sk_cursor : cursor fs0 cs fp;
  sk_meta : same_meta fp0 (set_fp_flag (fp_flag fp0) fp);
  sk_flag : fp_flag fp = if fp_objsize fp0 <? fp_objsize fp then Z.lor (fp_flag fp0) FA_MODIFIED else fp_flag fp0;
  sk_size : fp_objsize fp = Z.max (fp_objsize fp0) (fp_fptr fp);
  sk_fptr : let tgt := if nz (Z.land (fp_flag fp0) FA_WRITE) then ofs else Z.min ofs (fp_objsize fp0) in
            fp_fptr fp = tgt \/ (full fs0 v /\ fp_objsize fp0 <= fp_fptr fp < tgt);
  sk_bytes : forall i, 0 <= i < fp_objsize fp0 -> fbyte v cs i = fbyte v0 cs0 i
}.

(** The end of [f_lseek]: the size and the sector. *)
Lemma seek_end tgt fp nsect v :
  sought tgt fp v nsect -> tgt < U32 -> 0 <= fp_objsize fp0 < U32 ->
  exists cs, let fp1 := if fp_fptr fp >? fp_objsize fp
              then set_fp_flag (Z.lor (fp_flag fp) FA_MODIFIED) (set_fp_objsize (fp_fptr fp) fp) else fp in
    let fp2 := if nz (fp_fptr fp1 mod SS) && negb (nsect =? fp_sect fp1) then set_fp_sect nsect fp1 else fp1 in
    grown G fs0 v0 cs0 v cs /\ clusters v (fp_sclust fp2) cs /\ cursor fs0 cs fp2 /\
    same_meta fp0 (set_fp_flag (fp_flag fp0) fp2) /\
    fp_flag fp2 = (if fp_objsize fp0 <? fp_objsize fp2 then Z.lor (fp_flag fp0) FA_MODIFIED else fp_flag fp0) /\
    fp_objsize fp2 = Z.max (fp_objsize fp0) (fp_fptr fp) /\ fp_fptr fp2 = fp_fptr fp /\
    (forall i, 0 <= i < fp_objsize fp0 -> fbyte v cs i = fbyte v0 cs0 i).
Proof using Type.
  intros (cs & Hk & Hr & Hp & Hcov & Hcl & Hse) Ht Hsz. exists cs. cbv zeta.
  destruct Hk as [Hgr Hclu Hcu Hme Hpt Hsize Hby].
  assert (fp_objsize fp = fp_objsize fp0) as Eo.
  { unfold fp_objsize in *. cbn in Hsize, Hcu. pose proof (cu_fptr _ _ _ Hcu) as H1. unfold fp_objsize in H1. cbn in H1. lia. }
  assert (forall i, 0 <= i < fp_objsize fp0 -> fbyte v cs i = fbyte v0 cs0 i) as Hb.
  { intros i Hi. rewrite Hby by (change (fp_objsize (park fp)) with (fp_objsize fp); lia).
    cbn [fp_fptr park set_fp_fptr]. rewrite Z.add_0_r.
    by rewrite (proj2 (Z.ltb_ge i 0)), andb_false_r by lia. }
  pose proof (cu_cover _ _ _ Hcu) as Hcv. unfold fp_objsize in Hcv. cbn in Hcv.
  unfold same_meta in Hme. destruct Hme as (M1 & M2 & M3 & M4 & M5 & M6 & M7 & M8). cbn in M1, M2, M3, M4, M5, M6, M7, M8.
  set (fp1 := if fp_fptr fp >? fp_objsize fp then _ else fp).
  assert (fp_fptr fp1 = fp_fptr fp /\ fp_clust fp1 = fp_clust fp /\ fp_sect fp1 = fp_sect fp /\ fp_sclust fp1 = fp_sclust fp /\
    fp_objsize fp1 = Z.max (fp_objsize fp0) (fp_fptr fp) /\ same_meta fp0 (set_fp_flag (fp_flag fp0) fp1) /\
    fp_flag fp1 = if fp_objsize fp0 <? fp_objsize fp1 then Z.lor (fp_flag fp0) FA_MODIFIED else fp_flag fp0)
    as (F1 & F2 & F3 & F4 & F5 & F6 & F7).
  { subst fp1. rewrite Eo. destruct (Z.gtb_spec (fp_fptr fp) (fp_objsize fp0)) as [Hgt|Hle].
    - split_and!; try done; [change (fp_fptr fp = Z.max (fp_objsize fp0) (fp_fptr fp)); lia|].
      change (Z.lor (fp_flag fp) FA_MODIFIED = if fp_objsize fp0 <? fp_fptr fp then Z.lor (fp_flag fp0) FA_MODIFIED else fp_flag fp0).
      by rewrite (proj2 (Z.ltb_lt _ _) Hgt), M5.
    - split_and!; try done; [lia|]. by rewrite Eo, Z.ltb_irrefl. }
  clearbody fp1. set (fp2 := if _ && _ then _ else fp1).
  assert (fp2 = fp1 \/ fp2 = set_fp_sect nsect fp1) as Hfp2 by (subst fp2; destruct (_ && _); auto).
  assert (fp_fptr fp mod SS <> 0 -> fp_sect fp2 = nsect) as Hs2.
  { intros Hm. subst fp2. rewrite F1. unfold nz. rewrite (proj2 (Z.eqb_neq _ _) Hm). cbn [negb andb].
    destruct (Z.eqb_spec nsect (fp_sect fp1)) as [->|]; done. }
  assert (fp_fptr fp2 = fp_fptr fp /\ fp_clust fp2 = fp_clust fp /\ fp_objsize fp2 = fp_objsize fp1 /\ fp_sclust fp2 = fp_sclust fp)
    as (P1 & P2 & P3 & P4) by (destruct Hfp2 as [E2|E2]; rewrite E2; split_and!; done).
  split; [done|]. split; [by rewrite P4|]. split.
  { constructor.
    - rewrite P1, P3, F5. lia.
    - rewrite P3, F5. lia.
    - rewrite P3, F5. unfold fp_objsize in *. lia.
    - rewrite P1, P2. done.
    - rewrite P1. intros Hm. rewrite (Hs2 Hm). auto. }
  split; [by destruct Hfp2 as [E2|E2]; rewrite E2|]. split; [by destruct Hfp2 as [E2|E2]; rewrite E2|]. split; [congruence|]. done.
Qed.

Lemma lseek_vol_spec ofs :
  vol_ok v0 -> coherent v0 -> alive G v0 -> ~ bad_entry v0 -> clusters v0 (fp_sclust fp0) cs0 -> cursor fs0 cs0 fp0 ->
  0 <= ofs < U32 ->
  wp (lseek_vol fp0 ofs) (fun r v' => r.1 = FR_OK /\ exists cs, seek_post ofs r.2 cs v') v0.
Proof using Hok0 Hl Hdl Hg0.
  intros Hv Hc Ha Hb Hcl Hcu Ho. pose proof (cu_fptr _ _ _ Hcu) as Hfr. pose proof (cu_size _ _ _ Hcu) as Hsz.
  assert (kept fp0 cs0 v0) as Hk.
  { split; [|done| |done|done|change (fp_objsize fp0 = Z.max (fp_objsize fp0) 0); lia|].
    - split; try done. exists []. by rewrite app_nil_r.
    - destruct Hcu as [H1 H2 H3 H4 H5]. constructor; [change (0 <= 0 <= fp_objsize fp0); lia|done|done|cbn; lia|done].
    - intros i Hi. cbn [fp_fptr park set_fp_fptr]. by rewrite (proj2 (Z.ltb_ge i (0 + 0))), andb_false_r by lia. }
  unfold lseek_vol. cbv zeta. set (tgt := if _ && _ then _ else ofs).
  assert (tgt = (if nz (Z.land (fp_flag fp0) FA_WRITE) then ofs else Z.min ofs (fp_objsize fp0))) as Et.
  { subst tgt. destruct (Z.gtb_spec ofs (fp_objsize fp0)), (nz _); cbn; lia. }
  assert (0 <= tgt <= ofs) as Htr by (rewrite Et; destruct (nz _); lia).
  apply wp_bind. fold (park fp0).
  eapply (wp_mono _ _ (fun r v' => match r with inl _ => False | inr (fp, nsect) => sought tgt fp v' nsect end)).
  - destruct (Z.gtb_spec tgt 0) as [Hpos|Hz].
    + apply lseek_follow_spec; [lia| |apply Hv|done|done]. intros E. rewrite Et, E. cbn. lia.
    + apply wp_ret. exists cs0. cbn. split; [done|]. split; [lia|]. split; [left; lia|]. pose proof (bcs_pos _ Hdl).
      pose proof (len_nonneg cs0). split; [nia|]. split; [lia|done].
  - intros [e|[fp nsect]] v' Hs; [done|]. destruct (seek_end tgt fp nsect v' Hs) as (cs & H); [lia|lia|]. cbv zeta in H.
    destruct H as (H1 & H2 & H3 & H4 & H5 & H6 & H7 & H8). apply wp_ret. split; [done|]. exists cs. cbn [snd].
    destruct Hs as (_ & _ & Hr & Hp & _). split; try done; [congruence|]. cbv zeta. rewrite H7, <- Et.
    destruct Hp as [->|[Hf Hge]]; [by left|]. destruct (Z.eq_dec (fp_fptr fp) tgt) as [->|Hne]; [by left|]. right. split; [done|lia].
Qed.

(** ** [f_truncate] *)

(** A chain that is cut behind [y]. *)
Lemma chain_cut v v' c l1 y l2 e :
  chain v c (l1 ++ y :: l2) -> geom (vfs v') = geom (vfs v) ->
  (forall z, z ∈ l1 -> fat_entry v' z = fat_entry v z) ->
  fat_entry v' y = Some e -> n_fatent (vfs v) <= e -> chain v' c (l1 ++ [y]).
Proof using Type.
  intros H Hg Hz Hy He. apply geom_fields in Hg as (_&_&_&_&_&_&Hn&_).
  revert c H Hz. induction l1 as [|a l1 IH]; intros c H Hz; cbn in *.
  - assert (c = y) as -> by (by inversion H). eapply chain_end; [|exact Hy|lia].
    apply chain_valid in H. unfold valid_clst in *. by rewrite Hn.
  - inversion H as [? e' Hc He' Hne E1 E2|? e' l Hc He' Hv Hch E1 E2]; subst; [by destruct l1|].
    eapply chain_link; [by unfold valid_clst in *; rewrite Hn|rewrite Hz by (by left); exact He'|by unfold valid_clst in *; rewrite Hn|].
    apply IH; [done|]. intros z Hin. apply Hz. by right.
Qed.

Lemma chain_tail v c l1 y x l2 : chain v c (l1 ++ y :: x :: l2) -> chain v x (x :: l2).
Proof using Type.
  revert c. induction l1 as [|a l1 IH]; intros c H; cbn in H; inversion H as [|? e l Hc He Hv Hch]; subst.
  - by assert (e = x) as <- by (by inversion Hch).
  - by destruct l1.
  - by apply (IH e).
Qed.

Lemma remove_alive v c p l :
  sv (geom fs0) v -> coherent v -> alive G v -> chain v c l -> p = 0 \/ (valid_clst (vfs v) p /\ p ∉ l) ->
  wp (remove_chain c p) (fun r v' => r = FR_OK /\ table_is v (cut_table v p l) v' /\ alive G v') v.
Proof using Hl.
  intros [Hv Hg] Hc Ha Hch Hp. assert (fat_layout (vfs v)) as Hlv by (by apply (fat_layout_geom fs0)).
  eapply wp_mono; [apply (alive_run G true v); [by apply sv_refl|done|by apply remove_chain_spec|by apply live_remove_chain]|].
  intros r v' ([Hr Hok] & Ha' & Hne). assert (r = FR_OK) as -> by (by destruct Hr). split; [done|]. split; [by apply Hok|done].
Qed.

(** The volume after the clusters [rest] were cut off the file. *)
Record cut cs rest v : Prop := mk_cut {
  ct_sv : sv (geom fs0) v;
  ct_co : coherent v;
  ct_alive : alive G v;
  ct_rest : cs0 = cs ++ rest;
  ct_freed : forall c, c ∈ rest -> fat_entry v c = Some 0;
  ct_fat : forall c, valid_clst fs0 c -> c ∉ cs0 -> fat_entry v c = fat_entry v0 c;
  ct_bad : ~ bad_entry v;
  ct_view : forall s, plain fs0 s -> off_fat fs0 s -> lview v s = lview v0 s
}.

Lemma cut_table_cut cs rest v :
  vol_ok v0 -> ~ bad_entry v0 -> clusters v0 (fp_sclust fp0) cs0 -> cs0 = cs ++ rest ->
  alive G v -> table_is v0 (cut_table v0 (default 0 (last cs)) rest) v -> cut cs rest v.
Proof using Hok0 Hl Hdl Hg0.
  intros Hv0 Hb Hcl E Ha (Hsv & Hco & He & Hs).
  assert (forall c, valid_clst (vfs v0) c <-> valid_clst fs0 c) as Hvg by (intros c; by apply valid_geom).
  assert (sv (geom fs0) v) as Hsv' by (by rewrite <- Hg0).
  assert (fs_type (vfs v0) = fs_type fs0) as Ety by (by pose proof Hg0 as [-> _]%geom_fields).
  split; try done.
  - intros c Hc. rewrite He; [|apply Hvg; eapply (file_valid fs0 v0); [done|exact Hcl|rewrite E; apply elem_of_app; by right]].
    unfold cut_table. by rewrite decide_True.
  - intros c Hc Hn. rewrite He by (by apply Hvg). unfold cut_table. rewrite decide_False by (rewrite E, elem_of_app in Hn; tauto).
    destruct (nz (default 0 (last cs)) && (c =? default 0 (last cs))) eqn:Ec; [|done]. exfalso.
    apply andb_true_iff in Ec as [_ Ec%Z.eqb_eq]. destruct (last cs) as [y|] eqn:Ey; cbn in Ec; [|destruct Hc; lia].
    subst y. apply Hn. rewrite E. apply elem_of_app. left. by apply last_Some_elem_of.
  - intros (c & Hc & E1). apply (valid_geom fs0) in Hc; [|done]. apply Hvg in Hc. rewrite He in E1 by done.
    unfold cut_table in E1. destruct (decide (c ∈ rest)); [done|]. rewrite Ety in E1.
    destruct (nz _ && _); [injection E1; by destruct (end_mark fs0 Hl)|]. apply Hb. by exists c.
  - intros s Hp Ho. apply Hs; [by apply (plain_geom fs0)|by apply (off_fat_geom fs0)].
Qed.

Lemma cut_clusters cs rest v :
  vol_ok v0 -> clusters v0 (fp_sclust fp0) cs0 -> cs0 = cs ++ rest -> cs <> [] ->
  table_is v0 (cut_table v0 (default 0 (last cs)) rest) v -> clusters v (fp_sclust fp0) cs.
Proof using Hl Hg0.
  intros Hv0 Hcl E Hne (Hsv & Hco & He & Hs). destruct (exists_last Hne) as (l1 & y & E1). rewrite E1 in *.
  rewrite last_snoc in He. change (default 0 (Some y)) with y in He. rewrite <- app_assoc in E. cbn in E.
  assert (chain v0 (fp_sclust fp0) (l1 ++ y :: rest)) as Hch by (rewrite <- E; destruct cs0; [by destruct l1|done]).
  pose proof (chain_NoDup _ _ _ Hch) as Hnd. apply NoDup_app in Hnd as (Hnd1 & Hd & Hnd2). apply NoDup_cons in Hnd2 as [Hyr _].
  assert (fs_type (vfs v0) = fs_type fs0) as Ety by (by pose proof Hg0 as [-> _]%geom_fields).
  assert (n_fatent (vfs v0) = n_fatent fs0) as Enf by (by pose proof Hg0 as (_&_&_&_&_&_&->&_)%geom_fields).
  assert (valid_clst (vfs v0) y) as Hvy by (eapply chain_all_valid; [exact Hch|apply elem_of_app; right; left]).
  assert (chain v (fp_sclust fp0) (l1 ++ [y])) as Hch'.
  { eapply chain_cut; [exact Hch|by destruct Hsv as [_ ->]| | |].
    - intros z Hz. rewrite He by (eapply chain_all_valid; [exact Hch|apply elem_of_app; by left]). unfold cut_table.
      rewrite decide_False by (intros Hin; apply (Hd z Hz); by right).
      rewrite (proj2 (Z.eqb_neq z y)), andb_false_r; [done|]. intros ->. apply (Hd y Hz). by left.
    - rewrite He by done. unfold cut_table. rewrite decide_False by done. rewrite Z.eqb_refl.
      unfold nz. rewrite (proj2 (Z.eqb_neq y 0)) by (destruct Hvy; lia). cbn. by rewrite Ety.
    - rewrite Enf. by destruct (end_mark fs0 Hl). }
  by destruct l1.
Qed.

Lemma cut_after v1 v2 p l :
  vol_ok v0 -> unchanged v0 v1 -> table_is v1 (cut_table v1 p l) v2 -> table_is v0 (cut_table v0 p l) v2.
Proof using Hl Hg0.
  intros Hv0 Hu (Hsv & Hco & He & Hs). pose proof Hu as ([Hv1 Hg1] & _ & _ & Hvw).
  assert (fat_layout (vfs v0)) as Hl0 by (by apply (fat_layout_geom fs0)).
  pose proof Hg1 as (Et&_&_&_&_&_&En&_)%geom_fields.
  split; [by rewrite <- Hg1|]. split; [done|]. split.
  - intros c Hc. rewrite He by (unfold valid_clst in *; by rewrite En). unfold cut_table. rewrite Et.
    by rewrite (unchanged_entry v0 v1 c).
  - intros s Hp Ho. rewrite Hs; [by apply Hvw|by apply (plain_geom (vfs v0))|by apply (off_fat_geom (vfs v0))].
Qed.

(** What [f_truncate] promises: the file ends at the position, and the
    clusters behind it are free. *)
Record trunc_post (fp : FIL) cs v : Prop := mk_trunc_post {
  tr_cut : exists rest, cut cs rest v;
  tr_clusters : clusters v (fp_sclust fp) cs;
  tr_cursor : cursor fs0 cs fp;
  tr_meta : same_meta fp0 (set_fp_flag (fp_flag fp0) fp);
  tr_flag : fp_flag fp = if fp_fptr fp0 <? fp_objsize fp0 then Z.lor (fp_flag fp0) FA_MODIFIED else fp_flag fp0;
  tr_fptr : fp_fptr fp = fp_fptr fp0;
  tr_size : fp_objsize fp = fp_fptr fp0;
  tr_bytes : forall i, 0 <= i < fp_fptr fp0 -> fbyte v cs i = fbyte v0 cs0 i;
  tr_freed : fp_fptr fp0 < fp_objsize fp0 -> forall k c, cs0 !! k = Some c -> fp_fptr fp0 <= Z.of_nat k * bcs fs0 ->
    fat_entry v c = Some 0
}.

Lemma cut_bytes cs rest v i :
  cut cs rest v -> clusters v0 (fp_sclust fp0) cs0 -> 0 <= i < len cs * bcs fs0 -> vol_ok v0 -> fbyte v cs i = fbyte v0 cs0 i.
Proof using Hok0 Hl Hdl Hg0.
  intros Hc Hcl Hi Hv0. destruct (index_lt _ Hdl cs i Hi) as [c Ec]. unfold fbyte.
  destruct (ct_sv _ _ _ Hc) as [_ Hg]. rewrite (fsect_geom (vfs v) fs0), (fsect_geom (vfs v0) fs0) by done.
  assert (fsect fs0 cs0 i = fsect fs0 cs i) as E.
  { unfold fsect. rewrite Ec, (ct_rest _ _ _ Hc). by rewrite (lookup_app_l_Some _ _ _ _ Ec). }
  rewrite <- E. destruct (fsect fs0 cs0 i) as [s|] eqn:Es; [|done]. cbn.
  assert (data_sect fs0 s) as Hd by (eapply (file_data fs0 Hdl v0); [done|exact Hcl| |exact Es]; lia).
  rewrite (ct_view _ _ _ Hc); [done|by apply data_plain|by apply data_off_fat].
Qed.

(** The file object after the cut. *)
Lemma trunc_end sc cs rest v :
  let fp := set_fp_flag (Z.lor (fp_flag fp0) FA_MODIFIED) (set_fp_objsize (fp_fptr fp0) (set_fp_sclust sc fp0)) in
  vol_ok v0 -> clusters v0 (fp_sclust fp0) cs0 -> cursor fs0 cs0 fp0 -> fp_fptr fp0 < fp_objsize fp0 ->
  cut cs rest v -> clusters v sc cs -> (len cs - 1) * bcs fs0 < fp_fptr fp0 <= len cs * bcs fs0 \/ (cs = [] /\ fp_fptr fp0 = 0) ->
  trunc_post fp cs v.
Proof using Hok0 Hl Hdl Hg0.
  intros fp Hv0 Hcl Hcu Hlt Hc Hcl' Hlen. pose proof (bcs_pos _ Hdl) as Hb.
  assert (fp_fptr fp0 <= len cs * bcs fs0) as Hcov by (destruct Hlen as [?|[-> ->]]; [lia|done]). destruct Hcu as [H1 H2 H3 H4 H5].
  assert (forall i c, 0 <= i < len cs * bcs fs0 -> cs0 !! Z.to_nat (i / bcs fs0) = Some c -> cs !! Z.to_nat (i / bcs fs0) = Some c) as Hin.
  { intros i c Hi E. destruct (index_lt _ Hdl cs i Hi) as [c' Ec]. rewrite (ct_rest _ _ _ Hc) in E.
    rewrite (lookup_app_l_Some _ _ _ _ Ec) in E. congruence. }
  split; [by exists rest|done| |done| |done|done| |].
  - constructor.
    + change (0 <= fp_fptr fp0 <= fp_fptr fp0). lia.
    + change (fp_fptr fp0 < U32). lia.
    + done.
    + change (0 < fp_fptr fp0 -> cs !! Z.to_nat ((fp_fptr fp0 - 1) / bcs fs0) = Some (fp_clust fp0)). intros Hp.
      apply Hin; [lia|auto].
    + change (fp_fptr fp0 mod SS <> 0 -> fsect fs0 cs (fp_fptr fp0) = Some (fp_sect fp0)). intros Hm.
      assert (fp_fptr fp0 <> len cs * bcs fs0) by (intros E; apply Hm; rewrite E; apply mult_SS).
      specialize (H5 Hm). unfold fsect in *. apply bind_Some in H5 as (c & Hcc & E). rewrite (Hin _ c); [done|lia|done].
  - change (fp_flag fp) with (Z.lor (fp_flag fp0) FA_MODIFIED). by rewrite (proj2 (Z.ltb_lt _ _) Hlt).
  - intros i Hi. eapply cut_bytes; [exact Hc|done|lia|done].
  - intros _ k c Hk Hge. apply (ct_freed _ _ _ Hc). rewrite (ct_rest _ _ _ Hc) in Hk.
    apply lookup_app_Some in Hk as [Hk|[_ Hk]]; [|by eapply list_elem_of_lookup_2]. exfalso. apply lookup_lt_Some in Hk.
    destruct Hlen as [Hlen|[-> _]]; [|cbn in Hk; lia]. unfold len in Hlen. nia.
Qed.

Lemma cut_nothing v : vol_ok v0 -> ~ bad_entry v0 -> clusters v0 (fp_sclust fp0) cs0 -> unchanged v0 v -> alive G v ->
  cut cs0 [] v /\ clusters v (fp_sclust fp0) cs0.
Proof using Hl Hg0.
  intros Hv0 Hb Hcl Hu Ha. assert (fat_layout (vfs v0)) as Hl0 by (by apply (fat_layout_geom fs0)).
  split; [|by eapply clusters_unchanged]. pose proof Hu as (Hsv & _ & Hco & Hvw).
  assert (forall c, valid_clst (vfs v0) c <-> valid_clst fs0 c) as Hvg by (intros c; by apply valid_geom).
  assert (sv (geom fs0) v) as Hsv' by (by rewrite <- Hg0).
  split; try done.
  - by rewrite app_nil_r.
  - intros c Hc. by apply elem_of_nil in Hc.
  - intros c Hc _. apply unchanged_entry; [done|done|done|by apply Hvg].
  - intros (c & Hc & E). apply (valid_geom fs0) in Hc; [|done]. apply Hb. exists c.
    rewrite (unchanged_entry v0 v c) in E; [|done|done|done|by apply Hvg]. split; [by apply Hvg|done].
  - intros s Hp _. apply Hvw. by apply (plain_geom fs0).
Qed.

(** Cutting behind the cluster of the position. *)
Lemma truncate_behind k :
  vol_ok v0 -> coherent v0 -> alive G v0 -> ~ bad_entry v0 -> clusters v0 (fp_sclust fp0) cs0 ->
  cs0 !! k = Some (fp_clust fp0) ->
  wp (fs <- get_fs ;;
      ncl <- get_fat (fp_clust fp0) ;;
      let res := FR_OK in
      let res := if ncl =? 0xFFFFFFFF then FR_DISK_ERR else res in
      let res := if ncl =? 1 then FR_INT_ERR else res in
      res <- (if (res =r FR_OK) && (ncl <? n_fatent fs) then remove_chain ncl (fp_clust fp0) else ret res) ;;
      ret (res, fp0))
     (fun r v => r = (FR_OK, fp0) /\ cut (take (S k) cs0) (drop (S k) cs0) v /\
        clusters v (fp_sclust fp0) (take (S k) cs0)) v0.
Proof using Hok0 Hl Hdl Hg0.
  intros Hv0 Hco Ha Hb Hcl Hk. apply wp_bind, wp_get_fs.
  assert (fat_layout (vfs v0)) as Hl0 by (by apply (fat_layout_geom fs0)).
  assert (valid_clst (vfs v0) (fp_clust fp0)) as Hvc by (by eapply clusters_valid).
  assert (chain v0 (fp_sclust fp0) cs0) as Hch by (destruct cs0; [done|exact Hcl]).
  apply wp_bind. eapply wp_mono; [apply (get_fat_alive G v0 v0); [done|done|by apply unchanged_refl|done|done]|].
  intros x v1 (Hx & Hxf & Hu & Ha1). cbv zeta. rewrite (proj2 (Z.eqb_neq _ _) Hxf).
  assert (x <> 1) as Hx1 by (intros ->; apply Hb; by exists (fp_clust fp0)). rewrite (proj2 (Z.eqb_neq _ _) Hx1).
  change (FR_OK =r FR_OK) with true. cbn [andb].
  pose proof (take_drop_middle cs0 k _ Hk) as Emid.
  apply wp_bind. destruct (drop (S k) cs0) as [|y l2] eqn:Ed.
  - assert (n_fatent (vfs v0) <= x) as Hge.
    { destruct (chain_last v0 _ _ (fp_clust fp0) Hch) as (e & E & Hn); [|congruence].
      rewrite <- Emid, last_snoc. done. }
    rewrite (proj2 (Z.ltb_ge _ _) Hge). apply wp_ret, wp_ret. split; [done|].
    assert (take (S k) cs0 = cs0) as ->.
    { apply take_ge. apply (f_equal length) in Ed. rewrite length_drop in Ed. cbn in Ed. lia. }
    by apply cut_nothing.
  - assert (x = y) as ->.
    { eapply clusters_nth in Hcl; [|exact Hk|]; [rewrite Hx in Hcl; by injection Hcl|].
      replace (S k) with (S k + 0)%nat by lia. rewrite <- lookup_drop, Ed. done. }
    assert (chain v0 y (y :: l2)) as Hch2 by (eapply chain_tail; rewrite Emid; exact Hch).
    destruct (chain_valid _ _ _ Hch2) as [Hy1 Hy2]. rewrite (proj2 (Z.ltb_lt _ _) Hy2).
    pose proof Hu as (Hsv1 & _ & Hco1 & _).
    assert (fp_clust fp0 ∉ y :: l2) as Hni.
    { pose proof (chain_NoDup _ _ _ Hch) as Hnd. rewrite <- Emid in Hnd. apply NoDup_app in Hnd as (_ & _ & Hnd).
      by apply NoDup_cons in Hnd as [? _]. }
    assert (valid_clst (vfs v1) (fp_clust fp0)) as Hvc1.
    { destruct Hsv1 as [_ (_&_&_&_&_&_&En&_)%geom_fields]. unfold valid_clst in *. by rewrite En. }
    assert (chain v1 y (y :: l2)) as Hch3 by (apply (clusters_unchanged v0 v1 y (y :: l2) Hv0 Hl0 Hu Hch2)).
    eapply wp_mono; [apply (remove_alive v1 y (fp_clust fp0) (y :: l2)); [by rewrite <- Hg0|done|done|done|by right]|].
    intros r v2 (-> & Ht & Ha2). apply wp_ret. split; [done|].
    apply (cut_after v1) in Ht; [|done|done].
    assert (cs0 = take (S k) cs0 ++ y :: l2) as E by (rewrite <- Ed; by rewrite take_drop).
    assert (fp_clust fp0 = default 0 (last (take (S k) cs0))) as El.
    { rewrite (take_S_r _ _ _ Hk), last_snoc. done. }
    rewrite El in Ht. split; [by apply cut_table_cut|]. eapply cut_clusters; [done|done|exact E| |exact Ht].
    rewrite (take_S_r _ _ _ Hk). by destruct (take k cs0).
Qed.

Lemma truncate_vol_spec :
  vol_ok v0 -> coherent v0 -> alive G v0 -> ~ bad_entry v0 -> clusters v0 (fp_sclust fp0) cs0 -> cursor fs0 cs0 fp0 ->
  wp (truncate_vol fp0) (fun r v' => r.1 = FR_OK /\ exists cs, trunc_post r.2 cs v') v0.
Proof using Hok0 Hl Hdl Hg0.
  intros Hv Hc Ha Hb Hcl Hcu. pose proof (cu_fptr _ _ _ Hcu) as Hfr. pose proof (bcs_pos _ Hdl) as Hbc.
  pose proof (cu_cover _ _ _ Hcu) as Hcov.
  unfold truncate_vol. destruct (Z.ltb_spec (fp_fptr fp0) (fp_objsize fp0)) as [Hlt|Hge].
  2:{ apply wp_ret. split; [done|]. exists cs0. destruct (cut_nothing v0) as [H1 H2]; [done..|by apply unchanged_refl|done|].
      split; try done; [eauto| |cbn; lia|cbn; lia]. cbn [snd]. by rewrite (proj2 (Z.ltb_ge _ _)). }
  assert (chain v0 (fp_sclust fp0) cs0) as Hch by (destruct cs0; [change (len []) with 0 in Hcov; lia|exact Hcl]).
  apply wp_bind. destruct (Z.eqb_spec (fp_fptr fp0) 0) as [E0|E0].
  - apply wp_bind. eapply wp_mono; [apply (remove_alive v0 _ 0 cs0); [done|done|done|exact Hch|by left]|].
    intros r v1 (-> & Ht & Ha1). apply wp_ret, wp_ret. split; [done|]. exists [].
    apply (trunc_end 0 [] cs0); try done; [by apply cut_table_cut|]. by right.
  - set (k := Z.to_nat ((fp_fptr fp0 - 1) / bcs fs0)).
    assert (0 <= (fp_fptr fp0 - 1) / bcs fs0) as Hq by (apply Z.div_pos; lia).
    pose proof (cu_clust _ _ _ Hcu ltac:(lia)) as Hk. fold k in Hk.
    eapply wp_mono; [by apply (truncate_behind k)|]. intros r v1 (-> & Hcut & Hcl1). apply wp_ret.
    split; [done|]. exists (take (S k) cs0). cbn [snd].
    replace (set_fp_objsize (fp_fptr fp0) fp0) with (set_fp_objsize (fp_fptr fp0) (set_fp_sclust (fp_sclust fp0) fp0))
      by (by destruct fp0 as [[]]).
    eapply trunc_end; try done. left. apply lookup_lt_Some in Hk. unfold len. rewrite length_take.
    replace (Z.of_nat (S k `min` length cs0)) with ((fp_fptr fp0 - 1) / bcs fs0 + 1) by lia.
    pose proof (Z.mul_succ_div_gt (fp_fptr fp0 - 1) (bcs fs0) ltac:(lia)).
    pose proof (Z.mul_div_le (fp_fptr fp0 - 1) (bcs fs0) ltac:(lia)). lia.
Qed.

End seeking.
