(* ===== verification/Refine.v ===== *)
(** * Open files as byte strings

    The abstract specification of an open file: its bytes, a position and the
    access rights, with the operations read, write, seek and truncate
    ([astep]).  The functions of ff.c are proved to implement it, also when
    several files of a volume are open and the operations on them are
    interleaved: what is done to one file does not show in another. *)

From stdpp Require Import base numbers list option gmap.
From Stdlib Require Import ZArith Lia.
From Stdlib Require Import Strings.Byte.
From S2P Require Import Prelude Types Bytes Diskio Window Fat Chain Live Dir Path Mount File Content Writing Seeking.

(** ** The specification *)

Record afile : Type := mkAfile {
  af_data : list byte;
  af_pos : Z;
  af_rd : bool;
  af_wr : bool
}.

Inductive fop : Type :=
| OpRead (buff : list byte)
| OpWrite (buff : list byte)
| OpSeek (ofs : Z)
| OpTruncate.

(** What the caller gets: the result code and the bytes read, or their
    number. *)
Inductive reply : Type :=
| Got (res : FRESULT) (data : list byte)
| Put (res : FRESULT) (n : Z)
| Did (res : FRESULT).

Definition ztake {A} (n : Z) (l : list A) : list A := take (Z.to_nat n) l.
Definition zdrop {A} (n : Z) (l : list A) : list A := drop (Z.to_nat n) l.

(** Bytes [b] placed at offset [p]. *)
Definition overwrite (d : list byte) (p : Z) (b : list byte) : list byte :=
  ztake p d ++ b ++ zdrop (p + len b) d.

(** One operation.  [lim] holds when the volume has no space left: a write
    or a stretch may then stop early. *)
Inductive astep (lim : Prop) (a : afile) : fop -> reply -> afile -> Prop :=
| as_read buff :
    af_rd a = true ->
    let n := Z.min (len buff) (len (af_data a) - af_pos a) in
    astep lim a (OpRead buff) (Got FR_OK (ztake n (zdrop (af_pos a) (af_data a))))
      (mkAfile (af_data a) (af_pos a + n) (af_rd a) (af_wr a))
| as_no_read buff :
    af_rd a = false -> astep lim a (OpRead buff) (Got FR_DENIED []) a
| as_write buff n :
    af_wr a = true -> 0 <= n <= Z.min (len buff) (0xFFFFFFFF - af_pos a) ->
    n = Z.min (len buff) (0xFFFFFFFF - af_pos a) \/ lim ->
    astep lim a (OpWrite buff) (Put FR_OK n)
      (mkAfile (overwrite (af_data a) (af_pos a) (ztake n buff)) (af_pos a + n) (af_rd a) (af_wr a))
| as_no_write buff :
    af_wr a = false -> astep lim a (OpWrite buff) (Put FR_DENIED 0) a
| as_seek ofs pos ext :
    let tgt := if af_wr a then ofs else Z.min ofs (len (af_data a)) in
    pos = tgt \/ (lim /\ len (af_data a) <= pos < tgt) ->
    len (af_data a ++ ext) = Z.max (len (af_data a)) pos ->
    astep lim a (OpSeek ofs) (Did FR_OK) (mkAfile (af_data a ++ ext) pos (af_rd a) (af_wr a))
| as_truncate :
    af_wr a = true ->
    astep lim a OpTruncate (Did FR_OK) (mkAfile (ztake (af_pos a) (af_data a)) (af_pos a) (af_rd a) (af_wr a))
| as_no_truncate :
    af_wr a = false -> astep lim a OpTruncate (Did FR_DENIED) a.

(** A sequence of operations, each on one of the open files. *)
Inductive asteps : list afile -> list (nat * fop) -> list reply -> list afile -> Prop :=
| ass_nil A : asteps A [] [] A
| ass_cons A i a op o a' ops outs A' :
    A !! i = Some a -> astep True a op o a' -> asteps (<[i := a']> A) ops outs A' ->
    asteps A ((i, op) :: ops) (o :: outs) A'.

Lemma astep_mono (P Q : Prop) a op o a' : (P -> Q) -> astep P a op o a' -> astep Q a op o a'.
Proof.
  intros HPQ []; [by apply as_read|by apply as_no_read|apply as_write; tauto|by apply as_no_write|
    apply as_seek; [subst tgt; tauto|done]|by apply as_truncate|by apply as_no_truncate].
Qed.

(** ** Lists *)

Section lists.
Context {A : Type}.
Implicit Types l : list A.

Lemma len_ztake n l : 0 <= n <= len l -> len (ztake n l) = n.
Proof. unfold len, ztake. intros H. rewrite length_take. lia. Qed.

Lemma len_zdrop n l : 0 <= n <= len l -> len (zdrop n l) = len l - n.
Proof. unfold len, zdrop. intros H. rewrite length_drop. lia. Qed.

Lemma at_ztake n l i : at_ (ztake n l) i = if i <? n then at_ l i else None.
Proof.
  unfold at_, ztake. destruct (Z.leb_spec 0 i), (Z.ltb_spec i n); try done.
  - apply lookup_take_lt. lia.
  - apply lookup_take_ge. lia.
Qed.

Lemma at_zdrop n l i : 0 <= n -> 0 <= i -> at_ (zdrop n l) i = at_ l (n + i).
Proof. intros Hn Hi. rewrite !at_lookup by lia. unfold zdrop. rewrite lookup_drop. f_equal. lia. Qed.

(** A list of known elements. *)
Lemma tabulate (f : Z -> option A) n :
  0 <= n -> (forall i, 0 <= i < n -> exists b, f i = Some b) ->
  exists l, len l = n /\ forall i, 0 <= i < n -> at_ l i = f i.
Proof.
  intros Hn. pattern n. revert n Hn. apply natlike_ind; [|intros n Hn IH]; intros Hf.
  - exists []. split; [done|]. lia.
  - destruct IH as (l & Hl & Hi); [intros i Hi; apply Hf; lia|]. destruct (Hf n) as [b Hb]; [lia|].
    exists (l ++ [b]). split; [rewrite len_app, Hl; unfold len; cbn; lia|]. intros i Hi'. rewrite at_app, Hl.
    destruct (Z.ltb_spec i n); [apply Hi; lia|]. assert (i = n) as -> by lia. by rewrite Z.sub_diag, Hb.
Qed.

End lists.

Lemma len_overwrite d p b : 0 <= p <= len d -> len (overwrite d p b) = Z.max (len d) (p + len b).
Proof.
  intros Hp. unfold overwrite. rewrite !len_app, len_ztake by done. pose proof (len_nonneg b).
  unfold zdrop, len in *. rewrite length_drop. lia.
Qed.

Lemma at_overwrite d p b i : 0 <= p <= len d ->
  at_ (overwrite d p b) i = if (p <=? i) && (i <? p + len b) then at_ b (i - p) else at_ d i.
Proof.
  intros Hp. pose proof (len_nonneg b). destruct (Z.lt_ge_cases i 0).
  { rewrite !(at_neg _ i) by done. by rewrite (proj2 (Z.leb_gt p i)) by lia. }
  unfold overwrite. rewrite at_app, len_ztake, at_app by done.
  destruct (Z.ltb_spec i p) as [H1|H1].
  - rewrite at_ztake, (proj2 (Z.ltb_lt i p)), (proj2 (Z.leb_gt p i)) by done. done.
  - rewrite (proj2 (Z.leb_le p i)) by done. cbn [andb].
    destruct (Z.ltb_spec (i - p) (len b)), (Z.ltb_spec i (p + len b)); try lia; [done|].
    rewrite at_zdrop by lia. f_equal. lia.
Qed.

(** ** The representation *)

Section repr.
Context {D : Type} `{!DiskIO D} `{!DiskIOLaws D} (G : Z -> Prop).
Implicit Types (v : vol D) (cs : list Z) (fp : FIL) (a : afile).

(** A volume in order: the table and the data area are well placed and apart,
    no entry of the table is 1, and the sectors [G], which hold table and
    data, can be read and written. *)
Record sound v : Prop := mk_sound {
  so_ok : vol_ok v;
  so_fat : fat_layout (vfs v);
  so_data : data_layout (vfs v);
  so_co : coherent v;
  so_alive : alive G v;
  so_bad : ~ bad_entry v;
  so_good : forall s, data_sect (vfs v) s -> G s
}.

(** The file object [fp] is the file [a], which occupies the clusters [cs]. *)
Record file_is v fp cs a : Prop := mk_file_is {
  fi_clusters : clusters v (fp_sclust fp) cs;
  fi_cursor : cursor (vfs v) cs fp;
  fi_err : fp_err fp = FR_OK;
  fi_pos : fp_fptr fp = af_pos a;
  fi_len : fp_objsize fp = len (af_data a);
  fi_bytes : forall i, 0 <= i < len (af_data a) -> fbyte v cs i = at_ (af_data a) i;
  fi_rd : nz (Z.land (fp_flag fp) FA_READ) = af_rd a;
  fi_wr : nz (Z.land (fp_flag fp) FA_WRITE) = af_wr a
}.

(** Where the file had the clusters [cs] and has [cs'], the new ones were
    free, and nothing else of the volume has changed: no other entry of the
    table and no sector outside the file. *)
Record frame v cs v' cs' : Prop := mk_frame {
  fr_geom : geom (vfs v') = geom (vfs v);
  fr_new : forall c, c ∈ cs' -> c ∈ cs \/ fat_entry v c = Some 0;
  fr_fat : forall c, valid_clst (vfs v) c -> c ∉ cs -> c ∉ cs' -> fat_entry v' c = fat_entry v c;
  fr_view : forall s, plain (vfs v) s -> off_fat (vfs v) s -> ~ in_file (vfs v) cs' s -> lview v' s = lview v s
}.

(** What every operation promises. *)
Record vstep v fp cs v' fp' cs' a' : Prop := mk_vstep {
  vs_sound : sound v';
  vs_geom : geom (vfs v') = geom (vfs v);
  vs_file : file_is v' fp' cs' a';
  vs_obj : obj_fs (fp_obj fp') = obj_fs (fp_obj fp) /\ obj_id (fp_obj fp') = obj_id (fp_obj fp);
  vs_dir : fp_dir_sect fp' = fp_dir_sect fp /\ fp_dir_ptr fp' = fp_dir_ptr fp;
  vs_frame : frame v cs v' cs'
}.

Lemma file_is_frame v v' fp cs a :
  sound v -> geom (vfs v') = geom (vfs v) -> file_is v fp cs a ->
  (forall c, c ∈ cs -> fat_entry v' c = fat_entry v c) ->
  (forall s, in_file (vfs v) cs s -> lview v' s = lview v s) -> file_is v' fp cs a.
Proof using Type.
  intros Hs Hg [H1 H2 H3 H4 H5 H6 H7 H8] He Hvw. split; try done.
  - destruct cs as [|c l]; [done|]. by apply (chain_ext v).
  - by apply (cursor_geom (vfs v)).
  - intros i Hi. rewrite <- H6 by done. unfold fbyte. rewrite (fsect_geom _ _ _ _ Hg).
    destruct (fsect (vfs v) cs i) as [s|] eqn:E; [|done]. cbn. rewrite Hvw; [done|].
    apply (fsect_in_file _ (so_data _ Hs) cs i); [lia|done].
Qed.

Lemma file_sects v fp cs a s : sound v -> file_is v fp cs a -> in_file (vfs v) cs s ->
  plain (vfs v) s /\ off_fat (vfs v) s.
Proof using Type.
  intros Hs Hf (c & k & Hc & Hk & ->). apply list_elem_of_lookup in Hc as [j Hc].
  pose proof (clst_data (vfs v) c k (clusters_valid _ _ _ _ _ (fi_clusters _ _ _ _ Hf) Hc) Hk) as Hd.
  split; [apply data_plain|apply data_off_fat]; try done; apply Hs.
Qed.

(** Clusters of different files hold different sectors. *)
Lemma disjoint_sects fs cs cs2 s : cs ## cs2 -> in_file fs cs2 s -> ~ in_file fs cs s.
Proof using Type.
  intros Hd (c & k & Hc & Hk & ->) (c' & k' & Hc' & Hk' & E).
  apply clst_sect_inj in E as [<- _]; [|done|done]. by apply (Hd c).
Qed.

Lemma sound_next v v' :
  sound v -> sv (geom (vfs v)) v' -> coherent v' -> alive G v' -> ~ bad_entry v' -> sound v'.
Proof using Type.
  intros Hs [Hv' Hg'] Hc Ha Hb.
  split; try done; [by apply (fat_layout_geom (vfs v)); [|apply Hs]|by apply (data_layout_geom (vfs v)); [|apply Hs]|].
  intros s Hd. apply (so_good _ Hs). apply geom_fields in Hg' as (_&_&_&_&_&E1&E2&_&_&_&_&E3).
  unfold data_sect in *. by rewrite <- E1, <- E2, <- E3.
Qed.

(** Another file of the volume stays as it is. *)
Lemma frame_file v cs v' cs' fp2 cs2 a2 :
  sound v -> frame v cs v' cs' -> file_is v fp2 cs2 a2 -> cs ## cs2 -> file_is v' fp2 cs2 a2 /\ cs' ## cs2.
Proof using Type.
  intros Hs [Hg Hnew Hfat Hvw] Hf2 Hd.
  assert (cs' ## cs2) as Hd'.
  { intros c Hc Hc2. destruct (Hnew c Hc) as [Hin|H0]; [by apply (Hd c)|].
    pose proof (fi_clusters _ _ _ _ Hf2) as Hcl. destruct cs2 as [|x l]; [by apply elem_of_nil in Hc2|].
    by apply (chain_nonzero v (fp_sclust fp2) (x :: l) c). }
  split; [|done]. apply (file_is_frame v); [done|done|done|..].
  - intros c Hc. apply Hfat; [|intros Hin; by apply (Hd c)|intros Hin; by apply (Hd' c)].
    apply list_elem_of_lookup in Hc as [j Hc]. by eapply clusters_valid; [apply (fi_clusters _ _ _ _ Hf2)|].
  - intros s Hin. destruct (file_sects _ _ _ _ _ Hs Hf2 Hin). apply Hvw; [done|done|]. by apply (disjoint_sects _ _ cs2).
Qed.

Lemma grown_frame v cs v' cs' :
  sound v -> grown G (vfs v) v cs v' cs' -> sound v' /\ frame v cs v' cs'.
Proof using Type.
  intros Hs [Hsv Hco Hal (new & -> & Hnew) Hfat Hbad Hvw]. split; [by apply (sound_next v)|]. split; [apply Hsv| | |done].
  - intros c [Hc|Hc]%elem_of_app; [by left|right]. rewrite Forall_forall in Hnew. auto.
  - intros c Hc _ Hn. auto.
Qed.

Lemma cut_frame v cs v' cs' rest :
  sound v -> cut G (vfs v) v cs cs' rest v' -> sound v' /\ frame v cs v' cs'.
Proof using Type.
  intros Hs [Hsv Hco Hal Hr Hfreed Hfat Hbad Hvw]. split; [by apply (sound_next v)|]. split; [apply Hsv| |auto|auto].
  intros c Hc. left. rewrite Hr. apply elem_of_app. by left.
Qed.

Lemma unchanged_frame v cs v' :
  sound v -> unchanged v v' -> alive G v' -> sound v' /\ frame v cs v' cs.
Proof using Type.
  intros Hs Hu Ha. pose proof Hu as ([Hv' Hg'] & _ & Hco & Hvw). pose proof (so_ok _ Hs) as Hv. pose proof (so_fat _ Hs) as Hl.
  split.
  - apply (sound_next v); try done. intros (c & Hc & E). apply (so_bad _ Hs). exists c.
    apply geom_fields in Hg' as (_&_&_&_&_&_&E2&_). assert (valid_clst (vfs v) c) by (unfold valid_clst in *; by rewrite <- E2).
    split; [done|]. by rewrite <- (unchanged_entry v v' c).
  - split; [done|auto|intros c Hc _ _; by apply unchanged_entry|auto].
Qed.

(** A sector that can be read has a content. *)
Lemma good_media d p s : dok d -> 0 <= s -> dgood d p s -> exists b, media d p s = Some b.
Proof using Type.
  intros Hd Hs Hg. set (b0 := replicate (Z.to_nat SS) x00).
  assert (len b0 = 1 * SS) as Hb by (unfold b0; by rewrite len_replicate).
  destruct (wp_run _ _ _ (dio_read_law d p b0 s 1 Hd Hs ltac:(done) Hb)) as ([r b] & d' & _ & _ & Hl & Hm & Hr).
  cbn [fst snd] in *. assert (r = RES_OK) as E.
  { apply Hr; [done|]. intros i Hi. by replace (s + i) with s by lia. }
  specialize (Hm E 0 ltac:(done)). rewrite Z.add_0_r in Hm. rewrite Hm.
  destruct (slice_is_Some b (0 * SS) SS) as (x & Hx & _); [done|done|rewrite Hl, Hb; done|]. eauto.
Qed.

Lemma fbyte_some v sc cs i :
  sound v -> clusters v sc cs -> 0 <= i < len cs * bcs (vfs v) -> exists b, fbyte v cs i = Some b.
Proof using Type.
  intros Hs Hcl Hi. pose proof (so_data _ Hs) as Hdl. destruct (index_lt _ Hdl cs i Hi) as [c Hc]. unfold fbyte.
  assert (exists s, fsect (vfs v) cs i = Some s) as [s Es] by (unfold fsect; rewrite Hc; cbn; eauto).
  rewrite Es. cbn. pose proof (file_data (vfs v) Hdl v sc cs i s (sv_refl _ (so_ok _ Hs)) Hcl (proj1 Hi) Es) as Hd.
  assert (exists b, lview v s = Some b) as [b Eb].
  { unfold lview. destruct (s =? winsect (vfs v)); [eauto|]. destruct (data_range _ Hdl _ Hd) as [Hr _].
    apply good_media; [apply (so_ok _ Hs)|lia|]. apply (so_alive _ Hs), (so_good _ Hs), Hd. }
  rewrite Eb. cbn. apply at_is_Some. rewrite (lview_len _ _ _ (so_ok _ Hs) Eb). apply Z.mod_pos_bound. done.
Qed.

(** *** Reading *)

Lemma read_vol v fp cs a buff btr :
  sound v -> file_is v fp cs a -> 0 <= btr <= len buff ->
  let n := Z.min btr (len (af_data a) - af_pos a) in
  wp (loop f_read_body (fp, buff, n, 0)) (fun r v' =>
    let '(res, fp', b, br) := r in
    res = FR_OK /\ br = n /\ ztake n b = ztake n (zdrop (af_pos a) (af_data a)) /\ zdrop n b = zdrop n buff /\
    vstep v fp cs v' fp' cs (mkAfile (af_data a) (af_pos a + n) (af_rd a) (af_wr a))) v.
Proof using Type.
  intros Hs [H1 H2 H3 H4 H5 H6 H7 H8] Hlen n. pose proof (cu_fptr _ _ _ H2) as Hfr. pose proof (so_data _ Hs) as Hdl.
  pose proof (len_nonneg buff).
  assert (file_is v fp cs a) as Hfi by done.
  eapply wp_mono; [apply (f_read_loop_spec G v cs fp buff n); try apply Hs; try done|].
  - intros i s Hfs. destruct (Z.lt_ge_cases i 0) as [Hneg|Hpos].
    + unfold fsect in Hfs. apply bind_Some in Hfs as (c & Hc & [= <-]). apply (so_good _ Hs).
      apply clst_data; [by eapply clusters_valid|]. pose proof (csize_pos _ Hdl). pose proof (bcs_pos _ Hdl) as Hb.
      pose proof (Z.mod_pos_bound i (bcs (vfs v)) ltac:(lia)). split; [apply Z.div_pos; [lia|done]|].
      apply Z.div_lt_upper_bound; [done|]. unfold bcs in *. lia.
    + apply (so_good _ Hs). by eapply (file_data (vfs v) Hdl v _ cs i s (sv_refl _ (so_ok _ Hs)) H1).
  - lia.
  - lia.
  - intros [[[res fp'] b] br] v' (-> & -> & Hu & Ha & Hcu & Hsf & Hp & _ & Hn & _ & Hlb & Hat).
    split; [done|]. split; [done|].
    assert (ztake n b = ztake n (zdrop (af_pos a) (af_data a))) as Hr.
    { apply at_ext. intros i. rewrite !at_ztake. destruct (Z.ltb_spec i n); [|done]. rewrite Hat.
      destruct (Z.leb_spec 0 i); [|by rewrite !at_neg by lia].
      rewrite (proj2 (Z.ltb_lt i n)) by done. cbn [andb]. rewrite at_zdrop by lia. rewrite H6 by lia. f_equal. lia. }
    split; [done|]. split.
    { apply at_ext. intros i. destruct (Z.lt_ge_cases i 0); [by rewrite !at_neg by lia|].
      rewrite !at_zdrop by lia. rewrite Hat. by rewrite (proj2 (Z.ltb_ge (n + i) n)), andb_false_r by lia. }
    destruct (unchanged_frame v cs v' Hs Hu Ha) as [Hs' Hfr'].
    destruct Hu as ([Hv' Hg'] & Hu2). destruct Hsf as (S1 & S2 & S3 & S4 & S5).
    assert (unchanged v v') as Hu by (split; [split; done|done]).
    split; [done|done| |by rewrite S1|done|done].
    assert (fp_sclust fp' = fp_sclust fp /\ fp_objsize fp' = fp_objsize fp) as [E1 E2] by (unfold fp_sclust, fp_objsize; by rewrite S1).
    split; cbn [af_data af_pos af_rd af_wr]; try congruence; try done.
    + rewrite E1. eapply clusters_unchanged; [apply Hs|apply Hs|done|done].
    + by apply (cursor_geom (vfs v)).
    + intros i Hi. rewrite <- H6 by done. unfold fbyte. rewrite (fsect_geom _ _ _ _ Hg').
      destruct (fsect (vfs v) cs i) as [s|] eqn:E; [|done]. cbn. destruct Hu as (_ & _ & _ & Hvw). rewrite Hvw; [done|].
      apply (file_sects v fp cs a); [done|done|]. apply (fsect_in_file _ Hdl cs i); [lia|done].
Qed.

(** *** Writing *)

(** The access rights are not in the flag that a change sets. *)
Lemma modified_rights f : Z.land (Z.lor f FA_MODIFIED) FA_READ = Z.land f FA_READ /\
  Z.land (Z.lor f FA_MODIFIED) FA_WRITE = Z.land f FA_WRITE.
Proof using Type. by rewrite !Z.land_lor_distr_l, !Z.lor_0_r. Qed.

Lemma modified_flag f : nz (Z.land (Z.lor f FA_MODIFIED) FA_MODIFIED) = true.
Proof using Type.
  unfold nz. rewrite negb_true_iff, Z.eqb_neq. intros E. apply (f_equal (fun x => Z.testbit x 6)) in E.
  by rewrite Z.land_spec, Z.lor_spec, orb_true_r in E.
Qed.

Lemma write_vol v fp cs a buff btw :
  sound v -> file_is v fp cs a -> 0 <= btw <= len buff ->
  let total := Z.min btw (0xFFFFFFFF - af_pos a) in
  wp (loop (f_write_body buff) (fp, total, 0)) (fun r v' =>
    let '(res, fp', n) := r in
    res = FR_OK /\ 0 <= n <= total /\ (n = total \/ full (vfs v) v') /\
    nz (Z.land (fp_flag fp') FA_MODIFIED) = true /\
    exists cs', vstep v fp cs v' fp' cs'
      (mkAfile (overwrite (af_data a) (af_pos a) (ztake n buff)) (af_pos a + n) (af_rd a) (af_wr a))) v.
Proof using Type.
  intros Hs Hfi Hlen total. pose proof Hfi as [H1 H2 H3 H4 H5 H6 H7 H8]. pose proof (cu_fptr _ _ _ H2) as Hfr.
  pose proof (cu_size _ _ _ H2) as Hsz. pose proof (len_nonneg buff).
  assert (0 <= total <= len buff /\ fp_fptr fp + total < U32) as [Ht He] by (subst total; unfold U32 in *; lia).
  eapply wp_mono; [apply (f_write_loop_spec G (vfs v) (proj1 (so_ok _ Hs)) (so_fat _ Hs) (so_data _ Hs) v cs fp buff total);
    try done; apply Hs|].
  intros [[res fp1] n] v' (-> & fp' & -> & (cs' & Hw) & Hn & Hfull). destruct Hw as [Hgr Hcl Hcu Hme Hp Hsize Hby].
  split; [done|]. split; [done|]. split; [done|]. split; [apply modified_flag|]. exists cs'.
  destruct (grown_frame v cs v' cs' Hs Hgr) as [Hs' Hframe].
  pose proof (gr_sv _ _ _ _ _ _ Hgr) as [_ Hg']. destruct Hme as (M1 & M2 & M3 & M4 & M5 & M6 & M7 & M8).
  assert (len (ztake n buff) = n) as Ln by (apply len_ztake; lia).
  assert (len (overwrite (af_data a) (af_pos a) (ztake n buff)) = fp_objsize fp') as Lo.
  { rewrite len_overwrite, Ln by lia. lia. }
  split; [done|done| |done|done|done]. destruct (modified_rights (fp_flag fp')) as [R1 R2].
  split; cbn [af_data af_pos af_rd af_wr].
  - done.
  - apply (cursor_geom (vfs v)); [done|]. by destruct Hcu.
  - by rewrite <- H3, <- M6.
  - change (fp_fptr fp' = af_pos a + n). lia.
  - by rewrite Lo.
  - intros i Hi. rewrite Lo in Hi. rewrite Hby by done. rewrite at_overwrite, Ln by lia. rewrite H4.
    destruct (Z.leb_spec (af_pos a) i), (Z.ltb_spec i (af_pos a + n)); cbn [andb]; [|apply H6; lia..].
    rewrite at_ztake. by rewrite (proj2 (Z.ltb_lt _ n)) by lia.
  - change (nz (Z.land (Z.lor (fp_flag fp') FA_MODIFIED) FA_READ) = af_rd a). by rewrite R1, M5.
  - change (nz (Z.land (Z.lor (fp_flag fp') FA_MODIFIED) FA_WRITE) = af_wr a). by rewrite R2, M5.
Qed.

(** *** Seeking *)

Lemma seek_vol v fp cs a ofs :
  sound v -> file_is v fp cs a -> 0 <= ofs < U32 ->
  wp (lseek_vol fp ofs) (fun r v' => r.1 = FR_OK /\ exists cs' ext pos,
    let tgt := if af_wr a then ofs else Z.min ofs (len (af_data a)) in
    (pos = tgt \/ (full (vfs v) v' /\ len (af_data a) <= pos < tgt)) /\
    len (af_data a ++ ext) = Z.max (len (af_data a)) pos /\
    vstep v fp cs v' r.2 cs' (mkAfile (af_data a ++ ext) pos (af_rd a) (af_wr a))) v.
Proof using Type.
  intros Hs Hfi Ho. pose proof Hfi as [H1 H2 H3 H4 H5 H6 H7 H8]. pose proof (cu_fptr _ _ _ H2) as Hfr.
  pose proof (cu_size _ _ _ H2) as Hsz.
  eapply wp_mono; [apply (lseek_vol_spec G (vfs v) (proj1 (so_ok _ Hs)) (so_fat _ Hs) (so_data _ Hs) v cs fp);
    try done; apply Hs|].
  intros [res fp'] v' [Hr (cs' & [Hgr Hcl Hcu Hme Hfl Hsize Hp Hby])]. cbn [fst snd] in *. split; [done|].
  destruct (grown_frame v cs v' cs' Hs Hgr) as [Hs' Hframe].
  pose proof (gr_sv _ _ _ _ _ _ Hgr) as [_ Hg']. destruct Hme as (M1 & M2 & M3 & M4 & M5 & M6 & M7 & M8).
  destruct (tabulate (fun i => fbyte v' cs' (len (af_data a) + i)) (fp_objsize fp' - len (af_data a))) as (ext & Hle & Hat).
  { lia. }
  { intros i Hi. eapply fbyte_some; [done|exact Hcl|]. pose proof (cu_cover _ _ _ Hcu). pose proof (len_nonneg (af_data a)).
    replace (bcs (vfs v')) with (bcs (vfs v)); [lia|]. apply geom_fields in Hg' as (_&_&_&_&_&E&_). unfold bcs. by rewrite E. }
  exists cs', ext, (fp_fptr fp'). cbv zeta. rewrite H8, H5 in Hp.
  assert (len (af_data a ++ ext) = fp_objsize fp') as Le by (rewrite len_app, Hle; lia).
  split; [done|]. split; [lia|].
  assert (Z.land (fp_flag fp') FA_READ = Z.land (fp_flag fp) FA_READ /\ Z.land (fp_flag fp') FA_WRITE = Z.land (fp_flag fp) FA_WRITE)
    as [R1 R2] by (rewrite Hfl; destruct (_ <? _); [apply modified_rights|done]).
  split; [done|done| |done|done|done].
  split; cbn [af_data af_pos af_rd af_wr]; try done.
  - by apply (cursor_geom (vfs v)).
  - by rewrite <- H3, <- M6.
  - intros i Hi. rewrite at_app. destruct (Z.ltb_spec i (len (af_data a))).
    + rewrite Hby by lia. apply H6. lia.
    + rewrite Hat by lia. f_equal. lia.
  - by rewrite R1.
  - by rewrite R2.
Qed.

(** *** Cutting *)

(** The clusters behind the position are free. *)
Definition cut_off cs a v v' : Prop := af_pos a < len (af_data a) ->
  forall k c, cs !! k = Some c -> af_pos a <= Z.of_nat k * bcs (vfs v) -> fat_entry v' c = Some 0.

Lemma truncate_file v fp cs a :
  sound v -> file_is v fp cs a ->
  wp (truncate_vol fp) (fun r v' => r.1 = FR_OK /\ cut_off cs a v v' /\ exists cs',
    vstep v fp cs v' r.2 cs' (mkAfile (ztake (af_pos a) (af_data a)) (af_pos a) (af_rd a) (af_wr a))) v.
Proof using Type.
  intros Hs Hfi. pose proof Hfi as [H1 H2 H3 H4 H5 H6 H7 H8]. pose proof (cu_fptr _ _ _ H2) as Hfr.
  eapply wp_mono; [apply (truncate_vol_spec G (vfs v) (proj1 (so_ok _ Hs)) (so_fat _ Hs) (so_data _ Hs) v cs fp);
    try done; apply Hs|].
  intros [res fp'] v' [Hr (cs' & [[rest Hcut] Hcl Hcu Hme Hfl Hp Hsize Hby Hfree])]. cbn [fst snd] in *. split; [done|].
  split; [unfold cut_off; rewrite <- H4, <- H5; exact Hfree|].
  destruct (cut_frame v cs v' cs' rest Hs Hcut) as [Hs' Hframe]. exists cs'.
  pose proof (ct_sv _ _ _ _ _ _ _ Hcut) as [_ Hg']. destruct Hme as (M1 & M2 & M3 & M4 & M5 & M6 & M7 & M8).
  assert (Z.land (fp_flag fp') FA_READ = Z.land (fp_flag fp) FA_READ /\ Z.land (fp_flag fp') FA_WRITE = Z.land (fp_flag fp) FA_WRITE)
    as [R1 R2] by (rewrite Hfl; destruct (_ <? _); [apply modified_rights|done]).
  assert (len (ztake (af_pos a) (af_data a)) = af_pos a) as Le by (apply len_ztake; lia).
  split; [done|done| |done|done|done].
  split; cbn [af_data af_pos af_rd af_wr]; try done.
  - by apply (cursor_geom (vfs v)).
  - by rewrite <- H3, <- M6.
  - lia.
  - lia.
  - intros i Hi. rewrite at_ztake, (proj2 (Z.ltb_lt i (af_pos a))) by lia. rewrite Hby by lia. apply H6. lia.
  - by rewrite R1.
  - by rewrite R2.
Qed.

(** ** In the world *)

(** The filesystem object at [p] and the disk make the volume [v]. *)
Record hosts (w : world D) (p : Z) v : Prop := mk_hosts {
  ho_fs : heap w !! p = Some (vfs v);
  ho_dsk : wdisk w = vdsk v;
  ho_valid : fs_type (vfs v) <> 0
}.

(** The handle [fp] belongs to the volume. *)
Definition handle (p : Z) v fp : Prop := obj_fs (fp_obj fp) = Some p /\ obj_id (fp_obj fp) = fs_id (vfs v).

Lemma handle_next p v fp cs v' fp' cs' a' :
  vstep v fp cs v' fp' cs' a' -> handle p v fp -> handle p v' fp'.
Proof using Type.
  intros [_ Hg _ [H1 H2] _ _] [H3 H4]. apply geom_fields in Hg as (_&_&_&E&_). split; congruence.
Qed.

Context (Hrdy : drive_ready (D := D) true).

Lemma wp_on_volume {A} w p v (m : M (vol D) A) (Q : A -> world D -> Prop) :
  hosts w p v ->
  wp m (fun (x : A) v' => geom (vfs v') = geom (vfs v) /\ forall w', hosts w' p v' -> Q x w') v -> wp (on_fs p m) Q w.
Proof using Type.
  intros [H1 H2 H3] Hm. unfold wpt, on_fs in *. rewrite H1, H2, vol_eta. destruct (m v) as [[a v']| |]; [|done|done].
  destruct Hm as [Hg Hm]. apply Hm. split; cbn; [by rewrite lookup_insert_eq|done|].
  apply geom_fields in Hg as [-> _]. done.
Qed.

(** A handle of a volume in use passes the check. *)
Lemma validate_hosts {A} w p v fp (K : FRESULT * option Z -> M (world D) A) Q :
  hosts w p v -> handle p v fp -> dok (vdsk v) ->
  wp (K (FR_OK, Some p)) Q w -> wp (bind (validate (fp_obj fp)) K) Q w.
Proof using Hrdy.
  intros Hh [Ho Hi] Hd HK. pose proof Hh as [H1 H2 H3]. apply wp_bind. unfold validate. rewrite Ho.
  apply wp_bind. unfold wpt, on_fs. rewrite H1. cbn.
  assert (mkWorld (<[p:=vfs v]> (heap w)) (FatFs w) (Fsid w) (wdisk w) = w) as ->.
  { rewrite insert_id by done. by destruct w. }
  rewrite Hi, Z.eqb_refl. unfold nz. rewrite (proj2 (Z.eqb_neq _ _) H3). cbn [negb andb].
  change (wp (bind (on_wdisk (dio_status (pdrv (vfs v)))) (fun stat : Z => if negb (nz (Z.land stat STA_NOINIT)) then ret (FR_OK, Some p)
    else ret (FR_INVALID_OBJECT, None))) (fun x w' => wp (K x) Q w') w).
  apply wp_bind, wp_zoom. rewrite <- H2 in Hd.
  destruct (wp_run _ _ _ (dio_status_law (wdisk w) (pdrv (vfs v)) Hd)) as (st & d' & Hrun & ->).
  eapply wp_of_run; [exact Hrun|]. assert (mkWorld (heap w) (FatFs w) (Fsid w) (wdisk w) = w) as -> by (by destruct w).
  destruct (wp_run _ _ _ (Hrdy eq_refl (wdisk w) (pdrv (vfs v)) Hd)) as (st' & d' & Hrun' & Hst).
  rewrite Hrun in Hrun'. injection Hrun' as <- <-. rewrite Hst. by apply wp_ret.
Qed.

(** What an operation on the handle promises of the world. *)
Definition wstep p v fp cs (w' : world D) fp' a' (P : vol D -> Prop) : Prop :=
  exists v' cs', hosts w' p v' /\ vstep v fp cs v' fp' cs' a' /\ P v'.

(** Nothing happened. *)
Lemma wstep_refl w p v fp cs a (P : vol D -> Prop) :
  hosts w p v -> sound v -> file_is v fp cs a -> P v -> wstep p v fp cs w fp a P.
Proof using Type.
  intros Hh Hs Hf HP. exists v, cs. split; [done|]. split; [|done]. split; try done. split; auto.
Qed.

Lemma f_read_file w p v fp cs a buff btr :
  hosts w p v -> handle p v fp -> sound v -> file_is v fp cs a -> 0 <= btr <= len buff -> btr < U32 ->
  wp (f_read fp buff btr) (fun r w' =>
    let '(res, fp', b, n) := r in
    if af_rd a then
      res = FR_OK /\ n = Z.min btr (len (af_data a) - af_pos a) /\
      b = ztake n (zdrop (af_pos a) (af_data a)) ++ zdrop n buff /\
      wstep p v fp cs w' fp' (mkAfile (af_data a) (af_pos a + n) (af_rd a) (af_wr a)) (fun _ => True)
    else res = FR_DENIED /\ n = 0 /\ b = buff /\ wstep p v fp cs w' fp' a (fun _ => True)) w.
Proof using Hrdy.
  intros Hh Hha Hs Hf Hb Hl. pose proof (fi_err _ _ _ _ Hf) as He. pose proof (cu_fptr _ _ _ (fi_cursor _ _ _ _ Hf)) as Hp.
  pose proof (cu_size _ _ _ (fi_cursor _ _ _ _ Hf)) as Hsz.
  unfold f_read. eapply validate_hosts; [done|done|apply (so_ok _ Hs)|]. change (FR_OK =r FR_OK) with true. cbn [negb].
  rewrite He. change (FR_OK =r FR_OK) with true. cbn [negb]. rewrite (fi_rd _ _ _ _ Hf).
  destruct (af_rd a) eqn:Er; cbn [negb].
  2:{ apply wp_ret. split; [done|]. split; [done|]. split; [done|]. by apply (wstep_refl w p v fp cs a). }
  cbv zeta. apply wp_bind. eapply wp_chk; [done|].
  assert ((if btr >? u32 (fp_objsize fp - fp_fptr fp) then u32 (fp_objsize fp - fp_fptr fp) else btr) =
    Z.min btr (len (af_data a) - af_pos a)) as ->.
  { rewrite u32_small by lia. rewrite (fi_len _ _ _ _ Hf), (fi_pos _ _ _ _ Hf). destruct (Z.gtb_spec btr (len (af_data a) - af_pos a)); lia. }
  eapply wp_on_volume; [done|]. eapply wp_mono; [by apply (read_vol v fp cs a buff btr)|].
  intros [[[res fp'] b] n] v' (-> & -> & Hr & Hd & Hv). split; [by apply Hv|]. intros w' Hh'.
  split; [done|]. split; [done|]. rewrite Er in Hv. split; [|by exists v', cs].
  rewrite <- Hr, <- Hd. unfold ztake, zdrop. by rewrite take_drop.
Qed.

Lemma f_write_file w p v fp cs a buff btw :
  hosts w p v -> handle p v fp -> sound v -> file_is v fp cs a -> 0 <= btw <= len buff -> btw < U32 ->
  wp (f_write fp buff btw) (fun r w' =>
    let '(res, fp', n) := r in
    if af_wr a then
      res = FR_OK /\ 0 <= n <= Z.min btw (0xFFFFFFFF - af_pos a) /\
      nz (Z.land (fp_flag fp') FA_MODIFIED) = true /\
      wstep p v fp cs w' fp'
        (mkAfile (overwrite (af_data a) (af_pos a) (ztake n buff)) (af_pos a + n) (af_rd a) (af_wr a))
        (fun v' => n = Z.min btw (0xFFFFFFFF - af_pos a) \/ full (vfs v) v')
    else res = FR_DENIED /\ n = 0 /\ wstep p v fp cs w' fp' a (fun _ => True)) w.
Proof using Hrdy.
  intros Hh Hha Hs Hf Hb Hl. pose proof (fi_err _ _ _ _ Hf) as He. pose proof (cu_fptr _ _ _ (fi_cursor _ _ _ _ Hf)) as Hp.
  pose proof (cu_size _ _ _ (fi_cursor _ _ _ _ Hf)) as Hsz. pose proof (len_nonneg buff).
  unfold f_write. eapply validate_hosts; [done|done|apply (so_ok _ Hs)|]. change (FR_OK =r FR_OK) with true. cbn [negb].
  rewrite He. change (FR_OK =r FR_OK) with true. cbn [negb]. rewrite (fi_wr _ _ _ _ Hf).
  destruct (af_wr a) eqn:Er; cbn [negb].
  2:{ apply wp_ret. split; [done|]. split; [done|]. by apply (wstep_refl w p v fp cs a). }
  cbv zeta. apply wp_bind. eapply wp_chk; [done|].
  assert ((if u32 (fp_fptr fp + btw) <? fp_fptr fp then u32 (0xFFFFFFFF - fp_fptr fp) else btw) =
    Z.min btw (0xFFFFFFFF - af_pos a)) as ->.
  { rewrite <- (fi_pos _ _ _ _ Hf). rewrite (u32_small (_ - _)) by (unfold U32 in *; lia).
    unfold u32, U32 in *. destruct (Z.ltb_spec ((fp_fptr fp + btw) mod 4294967296) (fp_fptr fp)) as [Hw|Hw];
      Z.to_euclidean_division_equations; lia. }
  eapply wp_on_volume; [done|]. eapply wp_mono; [by apply (write_vol v fp cs a buff btw)|].
  intros [[res fp'] n] v' (-> & Hn & Hfull & Hmod & cs' & Hv). split; [by apply Hv|]. intros w' Hh'.
  split; [done|]. split; [done|]. split; [done|]. rewrite Er in Hv. by exists v', cs'.
Qed.

Lemma f_lseek_file w p v fp cs a ofs :
  hosts w p v -> handle p v fp -> sound v -> file_is v fp cs a -> 0 <= ofs < U32 ->
  wp (f_lseek fp ofs) (fun r w' => r.1 = FR_OK /\ exists ext pos,
    let tgt := if af_wr a then ofs else Z.min ofs (len (af_data a)) in
    len (af_data a ++ ext) = Z.max (len (af_data a)) pos /\
    wstep p v fp cs w' r.2 (mkAfile (af_data a ++ ext) pos (af_rd a) (af_wr a))
      (fun v' => pos = tgt \/ (full (vfs v) v' /\ len (af_data a) <= pos < tgt))) w.
Proof using Hrdy.
  intros Hh Hha Hs Hf Ho. pose proof (fi_err _ _ _ _ Hf) as He.
  unfold f_lseek. eapply validate_hosts; [done|done|apply (so_ok _ Hs)|]. change (FR_OK =r FR_OK) with true. cbv iota.
  rewrite He. change (FR_OK =r FR_OK) with true. cbn [negb]. apply wp_bind. eapply wp_chk; [done|].
  eapply wp_on_volume; [done|]. eapply wp_mono; [by apply (seek_vol v fp cs a ofs)|].
  intros [res fp'] v' (Hr & cs' & ext & pos & Hpos & Hle & Hv). split; [by apply Hv|]. intros w' Hh'.
  split; [done|]. exists ext, pos. split; [done|]. by exists v', cs'.
Qed.

Lemma f_truncate_file w p v fp cs a :
  hosts w p v -> handle p v fp -> sound v -> file_is v fp cs a ->
  wp (f_truncate fp) (fun r w' =>
    if af_wr a then
      r.1 = FR_OK /\ wstep p v fp cs w' r.2
        (mkAfile (ztake (af_pos a) (af_data a)) (af_pos a) (af_rd a) (af_wr a)) (cut_off cs a v)
    else r.1 = FR_DENIED /\ wstep p v fp cs w' r.2 a (fun _ => True)) w.
Proof using Hrdy.
  intros Hh Hha Hs Hf. pose proof (fi_err _ _ _ _ Hf) as He.
  unfold f_truncate. eapply validate_hosts; [done|done|apply (so_ok _ Hs)|]. change (FR_OK =r FR_OK) with true. cbn [negb].
  rewrite He. change (FR_OK =r FR_OK) with true. cbn [negb]. rewrite (fi_wr _ _ _ _ Hf).
  destruct (af_wr a) eqn:Er; cbn [negb].
  2:{ apply wp_ret. split; [done|]. by apply (wstep_refl w p v fp cs a). }
  apply wp_bind. eapply wp_chk; [done|].
  eapply wp_on_volume; [done|]. eapply wp_mono; [by apply (truncate_file v fp cs a)|].
  intros [res fp'] v' (Hr & Hoff & cs' & Hv). split; [by apply Hv|]. intros w' Hh'. rewrite Er in Hv.
  split; [done|]. by exists v', cs'.
Qed.

(** ** Operations on several open files *)

Definition run_op (op : fop) (fp : FIL) : M (world D) (FIL * reply) :=
  match op with
  | OpRead buff => do (res, fp, b, br) <- f_read fp buff (len buff) ;; ret (fp, Got res (ztake br b))
  | OpWrite buff => do (res, fp, bw) <- f_write fp buff (len buff) ;; ret (fp, Put res bw)
  | OpSeek ofs => do (res, fp) <- f_lseek fp ofs ;; ret (fp, Did res)
  | OpTruncate => do (res, fp) <- f_truncate fp ;; ret (fp, Did res)
  end.

(** The arguments fit their C types. *)
Definition op_fits (op : fop) : Prop :=
  match op with
  | OpRead buff | OpWrite buff => len buff < U32
  | OpSeek ofs => 0 <= ofs < U32
  | OpTruncate => True
  end.

Lemma run_op_refines w p v fp cs a op :
  hosts w p v -> handle p v fp -> sound v -> file_is v fp cs a -> op_fits op ->
  wp (run_op op fp) (fun r w' => exists v' cs' a',
    hosts w' p v' /\ vstep v fp cs v' r.1 cs' a' /\ astep (full (vfs v) v') a op r.2 a') w.
Proof using Hrdy.
  intros Hh Hha Hs Hf Hop. pose proof (cu_fptr _ _ _ (fi_cursor _ _ _ _ Hf)) as Hp.
  rewrite (fi_len _ _ _ _ Hf), (fi_pos _ _ _ _ Hf) in Hp.
  destruct op as [buff|buff|ofs|]; unfold run_op; cbn in Hop; apply wp_bind.
  - pose proof (len_nonneg buff) as Hnn. eapply wp_mono; [eapply f_read_file; (done || lia)|]. intros [[[res fp'] b] n] w' H. apply wp_ret. cbn [fst snd].
    pose proof (len_nonneg buff). destruct (af_rd a) eqn:Er.
    + destruct H as (-> & -> & -> & v' & cs' & Hh' & Hv & _). set (n := Z.min _ _) in *.
      assert (ztake n (ztake n (zdrop (af_pos a) (af_data a)) ++ zdrop n buff) = ztake n (zdrop (af_pos a) (af_data a))) as ->.
      { unfold ztake at 1. rewrite take_app_le by (unfold ztake, zdrop, len in *; rewrite length_take, length_drop; lia).
        rewrite take_ge; [done|]. unfold ztake. rewrite length_take. lia. }
      exists v', cs', (mkAfile (af_data a) (af_pos a + n) true (af_wr a)). split; [done|]. split; [done|].
      rewrite <- Er. by apply as_read.
    + destruct H as (-> & -> & -> & v' & cs' & Hh' & Hv & _). exists v', cs', a. split; [done|]. split; [done|].
      by apply as_no_read.
  - pose proof (len_nonneg buff) as Hnn. eapply wp_mono; [eapply f_write_file; (done || lia)|]. intros [[res fp'] n] w' H. apply wp_ret. cbn [fst snd].
    destruct (af_wr a) eqn:Er.
    + destruct H as (-> & Hn & _ & v' & cs' & Hh' & Hv & Hfull). rewrite <- Er in Hv. eexists v', cs', _. split; [done|].
      split; [exact Hv|]. by apply as_write.
    + destruct H as (-> & -> & v' & cs' & Hh' & Hv & _). exists v', cs', a. split; [done|]. split; [done|]. by apply as_no_write.
  - eapply wp_mono; [by eapply f_lseek_file|]. intros [res fp'] w' (Hr & ext & pos & Hle & v' & cs' & Hh' & Hv & Hpos).
    apply wp_ret. cbn [fst snd] in *. subst res. eexists v', cs', _. split; [done|]. split; [exact Hv|]. by apply as_seek.
  - eapply wp_mono; [by eapply f_truncate_file|]. intros [res fp'] w' H. apply wp_ret. cbn [fst snd] in *.
    destruct (af_wr a) eqn:Er; destruct H as (-> & v' & cs' & Hh' & Hv & _).
    + rewrite <- Er in Hv. eexists v', cs', _. split; [done|]. split; [exact Hv|]. by apply as_truncate.
    + exists v', cs', a. split; [done|]. split; [done|]. by apply as_no_truncate.
Qed.

Fixpoint run_ops (ops : list (nat * fop)) (fils : list FIL) : M (world D) (list FIL * list reply) :=
  match ops with
  | [] => ret (fils, [])
  | (i, op) :: ops =>
    fp <- chk (fils !! i) ;;
    do (fp, o) <- run_op op fp ;;
    do (fils, outs) <- run_ops ops (<[i := fp]> fils) ;;
    ret (fils, o :: outs)
  end.

(** The files of the volume that are open, each on clusters of its own. *)
Record files_are p v (fils : list FIL) (A : list afile) : Prop := mk_files_are {
  fa_len : length fils = length A;
  fa_css : exists css : list (list Z), length css = length A /\
    (forall i fp cs a, fils !! i = Some fp -> css !! i = Some cs -> A !! i = Some a -> handle p v fp /\ file_is v fp cs a) /\
    (forall i j ci cj, i <> j -> css !! i = Some ci -> css !! j = Some cj -> ci ## cj)
}.

(** One operation, seen from all the files. *)
Lemma files_step p v fils A i fp :
  sound v -> files_are p v fils A -> fils !! i = Some fp ->
  exists cs a, A !! i = Some a /\ handle p v fp /\ file_is v fp cs a /\
    forall v' fp' cs' a', vstep v fp cs v' fp' cs' a' -> files_are p v' (<[i := fp']> fils) (<[i := a']> A).
Proof using Type.
  intros Hs [Hlen (css & Hcl & Hf & Hd)] Hi. apply lookup_lt_Some in Hi as Hlt.
  destruct (lookup_lt_is_Some_2 A i) as [a Ha]; [lia|]. destruct (lookup_lt_is_Some_2 css i) as [cs Hcs]; [lia|].
  destruct (Hf i fp cs a Hi Hcs Ha) as [Hha Hfi]. exists cs, a. split; [done|]. split; [done|]. split; [done|].
  intros v' fp' cs' a' [Hs' Hg Hfi' [Ho1 Ho2] _ Hfr]. split; [by rewrite !length_insert|].
  assert (fs_id (vfs v') = fs_id (vfs v)) as Eid by (by apply geom_fields in Hg as (_&_&_&->&_)).
  assert (forall j cj, j <> i -> css !! j = Some cj -> exists fpj aj, fils !! j = Some fpj /\ A !! j = Some aj /\
    handle p v' fpj /\ file_is v' fpj cj aj /\ cs' ## cj) as Hother.
  { intros j cj Hne Hj. apply lookup_lt_Some in Hj as Hjl. destruct (lookup_lt_is_Some_2 A j) as [aj Haj]; [lia|].
    destruct (lookup_lt_is_Some_2 fils j) as [fpj Hfj]; [lia|]. destruct (Hf j fpj cj aj Hfj Hj Haj) as [[Hh1 Hh2] Hfij].
    exists fpj, aj. split; [done|]. split; [done|]. split; [split; congruence|]. apply (frame_file v cs v' cs' fpj cj aj Hs Hfr Hfij). by apply (Hd i j). }
  exists (<[i := cs']> css). split; [by rewrite !length_insert|]. split.
  - intros j fpj cj aj. destruct (decide (j = i)) as [->|Hne].
    + rewrite !list_lookup_insert_eq by lia. intros [= <-] [= <-] [= <-]. split; [|done]. destruct Hha. split; congruence.
    + rewrite !list_lookup_insert_ne by done. intros Hfj Hcj Haj.
      destruct (Hother j cj Hne Hcj) as (fpj' & aj' & E1 & E2 & H1 & H2 & _). simplify_eq. done.
  - intros j k cj ck Hjk. destruct (decide (j = i)) as [->|Hj], (decide (k = i)) as [->|Hk]; [done|..].
    + rewrite list_lookup_insert_eq, list_lookup_insert_ne by (done || lia). intros [= <-] Hck.
      by destruct (Hother k ck Hk Hck) as (? & ? & _ & _ & _ & _ & ?).
    + rewrite list_lookup_insert_eq, list_lookup_insert_ne by (done || lia). intros Hcj [= <-] c H1 H2.
      destruct (Hother j cj Hj Hcj) as (? & ? & _ & _ & _ & _ & Hdj). by apply (Hdj c).
    + rewrite !list_lookup_insert_ne by done. by apply Hd.
Qed.

(** Any sequence of operations on the open files implements the abstract
    one. *)
Lemma run_ops_refines ops : forall w p v fils A,
  hosts w p v -> sound v -> files_are p v fils A ->
  (forall i op, (i, op) ∈ ops -> (i < length fils)%nat /\ op_fits op) ->
  wp (run_ops ops fils) (fun r w' => exists v' A',
    hosts w' p v' /\ sound v' /\ files_are p v' r.1 A' /\ asteps A ops r.2 A') w.
Proof using Hrdy.
  induction ops as [|[i op] ops IH]; intros w p v fils A Hh Hs Hf Hops; cbn [run_ops].
  { apply wp_ret. exists v, A. split; [done|]. split; [done|]. split; [done|]. apply ass_nil. }
  destruct (Hops i op) as [Hi Hop]; [by left|]. destruct (lookup_lt_is_Some_2 fils i Hi) as [fp Hfp].
  apply wp_bind. eapply wp_chk; [exact Hfp|]. apply wp_bind.
  destruct (files_step p v fils A i fp Hs Hf Hfp) as (cs & a & Ha & Hha & Hfi & Hnext).
  eapply wp_mono; [by apply (run_op_refines w p v fp cs a op)|].
  intros [fp' o] w1 (v1 & cs1 & a1 & Hh1 & Hv1 & Hst). cbn [fst snd] in *.
  pose proof (Hnext v1 fp' cs1 a1 Hv1) as Hf1.
  apply wp_bind. eapply wp_mono; [apply (IH w1 p v1 _ _ Hh1 (vs_sound _ _ _ _ _ _ _ Hv1) Hf1)|].
  - intros j op' Hin. rewrite length_insert. apply Hops. by right.
  - intros [fils' outs] w2 (v2 & A2 & Hh2 & Hs2 & Hf2 & Hss). apply wp_ret. exists v2, A2. cbn [fst snd] in *.
    split; [done|]. split; [done|]. split; [done|]. eapply ass_cons; [done| |done]. by eapply astep_mono; [|exact Hst].
Qed.

End repr.
