(* ===== verification/Listing.v ===== *)
(** * Directories as tables of entries

    The abstract view of a directory: the space it lies in (the root area of
    FAT12 and FAT16, or a chain of clusters) holds a sequence of 32-byte
    entries ([dir_holds]).  [dir_sdi] and [dir_next] walk along it, [dir_find]
    is proved to find the first entry of a name before the end mark, and
    [dir_read] the next one that is to be reported. *)

From stdpp Require Import base numbers list option gmap.
From Stdlib Require Import ZArith Lia.
From Stdlib Require Import Strings.Byte.
From S2P Require Import Prelude Types Bytes Diskio Window Fat Chain Live Dir Path Mount File Content Writing Seeking Refine.

(** The front of a list. *)
Lemma slice_app_l (l l' : list byte) n : len l = n -> slice (l ++ l') 0 n = Some l.
Proof.
  intros <-. pose proof (len_nonneg l). pose proof (len_nonneg l').
  destruct (slice_is_Some (l ++ l') 0 (len l)) as (x & Hx & Lx); [done|done|rewrite len_app; lia|].
  rewrite Hx. f_equal. apply at_ext. intros i. rewrite (at_slice _ _ _ _ _ Hx), at_app.
  destruct (Z.leb_spec 0 i), (Z.ltb_spec i (len l)); cbn [andb]; [by rewrite (proj2 (Z.ltb_lt _ _)) by lia|..].
  - destruct (at_ l i) eqn:E; [apply at_Some_range in E; lia|done].
  - by rewrite at_neg by lia.
  - by rewrite at_neg by lia.
Qed.

(** ** Entries *)

(** A byte of an entry. *)
Definition ent_byte (e : list byte) (o : Z) : Z := match at_ e o with Some b => bval b | None => 0 end.

(** The entry has the name [fn] and is not a volume label. *)
Definition ent_is (fn e : list byte) : bool :=
  negb (nz (Z.land (ent_byte e DIR_Attr) AM_VOL)) && bool_decide (slice e 0 11 = Some fn).

(** The first entry with a property, in a table that ends at a zero mark. *)
Fixpoint scan (P : list byte -> bool) (es : list (list byte)) : option nat :=
  match es with
  | [] => None
  | e :: es => if ent_byte e DIR_Name =? 0 then None else if P e then Some 0%nat else S <$> scan P es
  end.

(** Where the name [fn] is. *)
Definition lookup_name (fn : list byte) : list (list byte) -> option nat := scan (ent_is fn).

(** The attribute of an entry as the code keeps it, and the next entry that
    is reported to a reader. *)
Definition ent_attr (e : list byte) : Z := Z.land (ent_byte e DIR_Attr) AM_MASK.
Definition reported (vol : bool) (e : list byte) : bool := read_match vol (ent_byte e DIR_Name) (ent_attr e).

(** The search from index [k] on. *)
Definition scan_from P (es : list (list byte)) (k : nat) : option nat := Nat.add k <$> scan P (drop k es).

Lemma scan_from_step P es k e : es !! k = Some e ->
  scan_from P es k = if ent_byte e DIR_Name =? 0 then None else if P e then Some k else scan_from P es (S k).
Proof.
  intros He. unfold scan_from. rewrite (drop_S _ _ _ He). cbn [scan].
  destruct (_ =? 0); [done|]. destruct (P e); cbn; [by rewrite Nat.add_0_r|].
  destruct (scan P _); cbn; [|done]. f_equal. lia.
Qed.

Lemma scan_from_end P es k : (length es <= k)%nat -> scan_from P es k = None.
Proof. intros Hk. unfold scan_from. by rewrite drop_ge. Qed.

Lemma scan_from_0 P es : scan_from P es 0 = scan P es.
Proof. unfold scan_from. rewrite drop_0. by destruct (scan P es). Qed.

Lemma scan_some P es k : scan P es = Some k -> exists e, es !! k = Some e /\ P e = true /\ ent_byte e DIR_Name <> 0.
Proof.
  revert k. induction es as [|e es IH]; intros k; [done|]. cbn. destruct (Z.eqb_spec (ent_byte e DIR_Name) 0); [done|].
  destruct (P e) eqn:E; [intros [= <-]; eauto|]. destruct (scan P es) as [j|]; [|done]. intros [= <-]. by apply IH.
Qed.

(** ** The space of a directory *)

Inductive dspace : Type := Root | Clst (cs : list Z).

(** Where the root area lies on FAT12 and FAT16 volumes. *)
Record root_layout (fs : FATFS) : Prop := mk_root_layout {
  rl_some : 0 < n_rootdir fs;
  rl_align : n_rootdir fs mod 16 = 0;
  rl_base : fatbase fs + n_fats fs * fsize fs <= dirbase fs;
  rl_pos : 0 < dirbase fs;
  rl_end : dirbase fs + n_rootdir fs / 16 <= database fs
}.

Definition root_sect (fs : FATFS) (s : Z) : Prop := dirbase fs <= s < dirbase fs + n_rootdir fs / 16.

(** The number of entries; a directory is read up to [MAX_DIR]. *)
Definition dsize (fs : FATFS) (sp : dspace) : Z :=
  match sp with
  | Root => n_rootdir fs
  | Clst cs => Z.min (MAX_DIR / SZDIRE) (len cs * (bcs fs / SZDIRE))
  end.

(** The sector of offset [o]. *)
Definition dsect (fs : FATFS) (sp : dspace) (o : Z) : option Z :=
  match sp with
  | Root => if o / SZDIRE <? n_rootdir fs then Some (dirbase fs + o / SS) else None
  | Clst cs => fsect fs cs o
  end.

(** The first cluster, as [dir_sdi] takes it. *)
Definition dir_start (fs : FATFS) (sc : Z) : Z :=
  if (sc =? 0) && (fs_type fs >=? FS_FAT32) then dirbase fs else sc.

Lemma dsect_geom a b sp o : geom a = geom b -> dsect a sp o = dsect b sp o.
Proof.
  intros H. destruct sp; cbn; [|by apply fsect_geom].
  apply geom_fields in H as (_&_&_&_&E1&_&_&_&_&_&E2&_). by rewrite E1, E2.
Qed.

Lemma dsize_geom a b sp : geom a = geom b -> dsize a sp = dsize b sp.
Proof. intros H. apply geom_fields in H as (_&_&_&_&E1&E2&_). destruct sp; cbn; [done|]. unfold bcs. by rewrite E2. Qed.

Lemma root_layout_geom a b : geom a = geom b -> root_layout a -> root_layout b.
Proof.
  intros H [H1 H2 H3 H4 H5]. apply geom_fields in H as (_&_&E1&_&E2&_&_&E3&_&E4&E5&E6).
  constructor; rewrite <- ?E1, <- ?E2, <- ?E3, <- ?E4, <- ?E5, <- ?E6; done.
Qed.

(** *** Offsets of entries *)

Lemma ent_off k : (k * SZDIRE) mod SS = k mod 16 * SZDIRE.
Proof. change SS with (16 * SZDIRE). by rewrite Z.mul_mod_distr_r. Qed.

Lemma ent_div k : k * SZDIRE / SS = k / 16.
Proof. change SS with (16 * SZDIRE). by rewrite Z.div_mul_cancel_r. Qed.

Lemma ent_room k : 0 <= (k * SZDIRE) mod SS <= SS - SZDIRE.
Proof. rewrite ent_off. pose proof (Z.mod_pos_bound k 16 ltac:(lia)). unfold_consts. lia. Qed.

(** The [q]-th sector of a directory in clusters. *)
Lemma fsect_ent fs cs k : 1 <= csize fs ->
  fsect fs cs (k * SZDIRE) = (c ← cs !! Z.to_nat (k / 16 / csize fs); Some (clst_sect fs c + (k / 16) mod csize fs)) /\
  k * SZDIRE / bcs fs = k / 16 / csize fs /\ (k * SZDIRE) mod bcs fs / SS = (k / 16) mod csize fs.
Proof.
  intros Hc. assert (k * SZDIRE / bcs fs = k / 16 / csize fs) as E.
  { unfold bcs. rewrite Z.mul_comm with (n := csize fs). rewrite <- Z.div_div by (unfold_consts; lia). by rewrite ent_div. }
  assert ((k * SZDIRE) mod bcs fs / SS = (k / 16) mod csize fs) as E2; [|split; [|done]; unfold fsect; by rewrite E, E2].
  unfold bcs. rewrite (Z.mul_comm (csize fs)), Z.rem_mul_r by (unfold_consts; lia). rewrite ent_div.
  rewrite (Z.mul_comm SS (_ mod _)), Z.div_add by done. rewrite (Z.div_small (_ mod SS)); [done|]. by apply Z.mod_pos_bound.
Qed.

Lemma div_succ q c : 0 < c ->
  if (q + 1) mod c =? 0 then (q + 1) / c = q / c + 1 /\ q mod c = c - 1
  else (q + 1) / c = q / c /\ (q + 1) mod c = q mod c + 1.
Proof.
  intros Hc. pose proof (Z.div_mod q c ltac:(lia)). pose proof (Z.mod_pos_bound q c Hc).
  destruct (Z.eq_dec (q mod c + 1) c) as [E|E].
  - assert ((q + 1) mod c = 0) as -> by (symmetry; apply (Z.mod_unique _ _ (q / c + 1)); lia).
    split; [|lia]. symmetry. apply (Z.div_unique _ _ _ 0); lia.
  - assert ((q + 1) mod c = q mod c + 1) as -> by (symmetry; apply (Z.mod_unique _ _ (q / c)); lia).
    rewrite (proj2 (Z.eqb_neq _ 0)) by lia. split; [|done]. symmetry. apply (Z.div_unique _ _ _ (q mod c + 1)); lia.
Qed.

Section listing.
Context {D : Type} `{!DiskIO D} `{!DiskIOLaws D} (G : Z -> Prop).
Implicit Types (v : vol D) (cs : list Z) (dp : DIR) (sp : dspace) (es : list (list byte)).

(** The directory that starts at [sc] lies in the space [sp]. *)
Definition dir_space v (sc : Z) sp : Prop :=
  match sp with
  | Root => sc = 0 /\ fs_type (vfs v) < FS_FAT32 /\ root_layout (vfs v) /\ forall s, root_sect (vfs v) s -> G s
  | Clst cs => chain v (dir_start (vfs v) sc) cs
  end.

Definition dentry v sp (k : Z) : option (list byte) :=
  s ← dsect (vfs v) sp (k * SZDIRE); b ← lview v s; slice b ((k * SZDIRE) mod SS) SZDIRE.

(** The contents of a directory. *)
Definition dir_holds v sp es : Prop :=
  len es = dsize (vfs v) sp /\ forall k, 0 <= k < len es -> dentry v sp k = at_ es k.

(** The directory object stands on entry [k]. *)
Record dir_at (fs : FATFS) sp (k : Z) dp : Prop := mk_dir_at {
  da_range : 0 <= k < dsize fs sp;
  da_dptr : dp_dptr dp = k * SZDIRE;
  da_dir : dp_dir dp = (k * SZDIRE) mod SS;
  da_sect : dsect fs sp (k * SZDIRE) = Some (dp_sect dp);
  da_clust : match sp with
             | Root => dp_clust dp = 0
             | Clst cs => cs !! Z.to_nat (k * SZDIRE / bcs fs) = Some (dp_clust dp)
             end
}.

(** The object is the one of the same directory and name. *)
Definition same_dir dp dp' : Prop :=
  dp_fn dp' = dp_fn dp /\ obj_fs (dp_obj dp') = obj_fs (dp_obj dp) /\ obj_id (dp_obj dp') = obj_id (dp_obj dp) /\
  obj_sclust (dp_obj dp') = obj_sclust (dp_obj dp).

Lemma same_dir_refl dp : same_dir dp dp.
Proof using Type. done. Qed.

Lemma same_dir_trans a b c : same_dir a b -> same_dir b c -> same_dir a c.
Proof using Type. unfold same_dir. intuition congruence. Qed.


(** ** Walking along a directory *)

Section walk.
Context (v0 : vol D) (sc : Z) (sp : dspace) (Hs : sound G v0) (Hsp : dir_space v0 sc sp).

Lemma ents_per_clst : bcs (vfs v0) = bcs (vfs v0) / SZDIRE * SZDIRE /\ bcs (vfs v0) / SZDIRE = csize (vfs v0) * 16.
Proof using Type.
  unfold bcs. change SS with (16 * SZDIRE). rewrite Z.mul_assoc, Z.div_mul by done. done.
Qed.

Lemma dsize_range : 0 < dsize (vfs v0) sp <= MAX_DIR / SZDIRE.
Proof using Hs Hsp.
  destruct sp as [|cs]; cbn in *.
  - destruct Hsp as (_ & _ & Hr & _). pose proof (rl_some _ Hr). pose proof (ok_n_rootdir _ (proj1 (so_ok _ _ Hs))).
    unfold_consts. change (0x200000 / 32) with 65536. lia.
  - destruct ents_per_clst as [_ E]. pose proof (csize_pos _ (so_data _ _ Hs)). pose proof (chain_head _ _ _ Hsp) as Hh.
    apply lookup_lt_Some in Hh. unfold len. unfold_consts. change (0x200000 / 32) with 65536. nia.
Qed.

Lemma dsize_max k : 0 <= k < dsize (vfs v0) sp -> 0 <= k * SZDIRE < MAX_DIR.
Proof using Hs Hsp. pose proof dsize_range as H. revert H. unfold_consts. change (0x200000 / 32) with 65536. lia. Qed.

(** The sectors of the directory. *)
Definition dir_sect_ok s : Prop :=
  0 < s < U32 /\ plain (vfs v0) s /\ off_fat (vfs v0) s /\ G s.

Lemma root_sect_ok s : root_layout (vfs v0) -> root_sect (vfs v0) s -> G s -> dir_sect_ok s.
Proof using Hs.
  intros [H1 H2 H3 H4 H5] [Hr1 Hr2] Hg. pose proof (so_data _ _ Hs) as Hdl. pose proof (dl_wrap _ Hdl). pose proof (csize_pos _ Hdl).
  pose proof (proj1 (so_ok _ _ Hs)) as Hok. pose proof (ok_n_fatent _ Hok). pose proof (ok_fsize _ Hok) as Hfz.
  pose proof (ok_fatbase _ Hok). pose proof (dl_fats _ Hdl) as Hnf. pose proof (ok_database _ Hok).
  assert (0 < s < U32) as Hsr by lia. split; [done|]. split; [|split; [|done]].
  - split; [lia|]. split; [unfold NO_SECT, u32; unfold U32 in *; change ((0 - 1) mod 4294967296) with 4294967295; lia|].
    intros [Hf Hm]. rewrite u32_small in Hm by nia. nia.
  - intros o Ho. rewrite (fat_sect_val _ o Hok (so_fat _ _ Hs) Ho).
    assert (o / SS < fsize (vfs v0)) by (apply Z.div_lt_upper_bound; [done|lia]). nia.
Qed.

Lemma data_sect_ok s : data_sect (vfs v0) s -> dir_sect_ok s.
Proof using Hs.
  intros Hd. pose proof (so_data _ _ Hs) as Hdl. destruct (data_range _ Hdl _ Hd).
  split; [done|]. split; [by apply data_plain; [..|apply Hs|]|]. split; [apply data_off_fat; [done|apply Hs|apply Hs|done]|].
  by apply (so_good _ _ Hs).
Qed.

Lemma dsect_ok o s : 0 <= o -> dsect (vfs v0) sp o = Some s -> dir_sect_ok s.
Proof using Hs Hsp.
  intros Ho. destruct sp as [|cs]; cbn.
  - destruct Hsp as (_ & _ & Hr & Hg). destruct (Z.ltb_spec (o / SZDIRE) (n_rootdir (vfs v0))) as [Hlt|]; [|done].
    intros [= <-]. assert (root_sect (vfs v0) (dirbase (vfs v0) + o / SS)) as Hin; [|by apply root_sect_ok; [..|apply Hg]].
    change SS with (SZDIRE * 16). rewrite <- Z.div_div by done. pose proof (rl_align _ Hr).
    assert (0 <= o / SZDIRE) by (apply Z.div_pos; done). assert (0 <= o / SZDIRE / 16) by (apply Z.div_pos; done).
    assert (o / SZDIRE / 16 < n_rootdir (vfs v0) / 16); [|unfold root_sect; lia].
    apply Z.div_lt_upper_bound; [done|]. pose proof (Z.div_mod (n_rootdir (vfs v0)) 16 ltac:(done)). lia.
  - intros E. apply data_sect_ok. apply (file_data (vfs v0) (so_data _ _ Hs) v0 (dir_start (vfs v0) sc) cs o);
      [apply sv_refl, Hs| |done|done]. by destruct cs; [inversion Hsp|].
Qed.

Lemma dsect_some k : 0 <= k < dsize (vfs v0) sp -> exists s, dsect (vfs v0) sp (k * SZDIRE) = Some s.
Proof using Hs Hsp.
  intros Hk. destruct sp as [|cs]; cbn in *.
  - rewrite Z.div_mul by done. rewrite (proj2 (Z.ltb_lt _ _)) by lia. eauto.
  - destruct (index_lt _ (so_data _ _ Hs) cs (k * SZDIRE)) as [c Hc].
    + destruct ents_per_clst as [E _]. rewrite E. unfold_consts. lia.
    + unfold fsect. rewrite Hc. cbn. eauto.
Qed.

(** The volume shows the same, and answers. *)
Definition calm v : Prop := unchanged v0 v /\ alive G v.

Lemma calm_start : calm v0.
Proof using Hs. split; [apply unchanged_refl; apply Hs|apply Hs]. Qed.

Lemma calm_geom v : calm v -> geom (vfs v) = geom (vfs v0).
Proof using Type. by intros [([_ ?] & _) _]. Qed.

Lemma chain_clst cs i c : sp = Clst cs -> cs !! i = Some c -> valid_clst (vfs v0) c.
Proof using Hsp. intros -> Hc. eapply chain_all_valid; [exact Hsp|]. by eapply list_elem_of_lookup_2. Qed.

Lemma space_cases :
  (sp = Root /\ sc = 0 /\ fs_type (vfs v0) < FS_FAT32 /\ root_layout (vfs v0)) \/
  exists cs, sp = Clst cs /\ chain v0 (dir_start (vfs v0) sc) cs.
Proof using Hsp. destruct sp; [left|right; eauto]. by destruct Hsp as (? & ? & ? & _). Qed.

(** The entry at the beginning of cluster [i], [o] bytes further. *)
Lemma dir_sdi_set_at dp k cs i c o :
  sp = Clst cs -> 0 <= k < dsize (vfs v0) sp -> dp_dptr dp = k * SZDIRE -> cs !! i = Some c ->
  0 <= o < bcs (vfs v0) -> k * SZDIRE = Z.of_nat i * bcs (vfs v0) + o ->
  let r := dir_sdi_set dp c (clst2sect (vfs v0) c) o in
  r.1 = FR_OK /\ dir_at (vfs v0) sp k r.2 /\ same_dir dp r.2.
Proof using Hs Hsp.
  intros Esp Hk Hdp Hc Ho Eo. pose proof (chain_clst cs i c Esp Hc) as Hv. pose proof (so_data _ _ Hs) as Hdl.
  assert (k * SZDIRE / bcs (vfs v0) = Z.of_nat i /\ (k * SZDIRE) mod bcs (vfs v0) = o) as [Ed Em].
  { split; symmetry; [apply (Z.div_unique _ _ _ o)|apply (Z.mod_unique _ _ (Z.of_nat i))]; lia. }
  assert (dsect (vfs v0) sp (k * SZDIRE) = Some (clst_sect (vfs v0) c + o / SS)) as Es.
  { rewrite Esp. cbn. unfold fsect. rewrite Ed, Nat2Z.id, Hc. cbn. by rewrite Em. }
  assert (0 < clst_sect (vfs v0) c) as Hpos.
  { rewrite <- (Z.add_0_r (clst_sect _ _)). pose proof (csize_pos _ Hdl). apply (data_range (vfs v0) Hdl), clst_data; [done|lia]. }
  pose proof (proj1 (dsect_ok (k * SZDIRE) _ ltac:(apply dsize_max; done) Es)) as Hsr.
  unfold dir_sdi_set. rewrite clst2sect_data by (try apply Hs; done). rec_simpl.
  rewrite (proj2 (Z.eqb_neq _ 0)) by lia. rewrite u32_small by lia. cbn [fst snd]. split; [done|]. split; [|done].
  split; rec_simpl; [done|done| |done|].
  - rewrite <- Em. by rewrite mod_bcs_SS.
  - rewrite Esp. by rewrite Ed, Nat2Z.id.
Qed.

(** Positioning on any entry. *)
Lemma dir_sdi_spec dp k v :
  calm v -> obj_sclust (dp_obj dp) = sc -> 0 <= k < dsize (vfs v0) sp ->
  wp (dir_sdi dp (k * SZDIRE)) (fun r v' => calm v' /\ r.1 = FR_OK /\ dir_at (vfs v0) sp k r.2 /\ same_dir dp r.2) v.
Proof using Hs Hsp.
  intros Hc Hsc Hk. unfold dir_sdi. apply wp_bind, wp_get_fs. pose proof (dsize_max k Hk) as Hmax.
  pose proof (so_data _ _ Hs) as Hdl. pose proof (calm_geom _ Hc) as Hg.
  unfold nz. rewrite Z.mod_mul by done. cbn [Z.eqb negb].
  destruct (Z.geb_spec (k * SZDIRE) MAX_DIR); [lia|]. cbn [orb]. cbv zeta. cbn [dp_obj set_dp_dptr]. rewrite Hsc.
  pose proof Hg as (Ety&_&_&_&Enr&Ecs&Enf&_&_&_&Edb&Eda)%geom_fields.
  change (if (sc =? 0) && _ then _ else _) with (dir_start (vfs v) sc).
  assert (dir_start (vfs v) sc = dir_start (vfs v0) sc) as -> by (unfold dir_start; by rewrite Ety, Edb).
  destruct (dsect_some k Hk) as [s Es]. pose proof (proj1 (dsect_ok _ _ (proj1 Hmax) Es)) as Hsr.
  rewrite Ecs, Enr, Edb. destruct space_cases as [(Esp & -> & Hty & Hr)|(cs & Esp & Hch)].
  - unfold dir_start. rewrite Z.eqb_refl. rewrite Esp in Hk, Es |- *. cbn in Hk, Es.
    destruct (Z.geb_spec (fs_type (vfs v0)) FS_FAT32); [lia|]. cbn [Z.eqb andb].
    rewrite Z.div_mul in Es |- * by done. destruct (Z.geb_spec k (n_rootdir (vfs v0))); [lia|]. apply wp_ret.
    rewrite (proj2 (Z.ltb_lt _ _)) in Es by lia. injection Es as <-.
    pose proof (rl_pos _ Hr). unfold dir_sdi_set. rec_simpl.
    rewrite (proj2 (Z.eqb_neq (dirbase (vfs v0)) 0)) by lia. rewrite u32_small by lia. split; [done|]. split; [done|]. split; [|done].
    split; rec_simpl; [done|done|done| |done]. cbn. by rewrite Z.div_mul, (proj2 (Z.ltb_lt _ _)) by (done || lia).
  - pose proof (chain_valid _ _ _ Hch) as Hv1. rewrite (proj2 (Z.eqb_neq (dir_start _ _) 0)) by (destruct Hv1; lia).
    rewrite (u32_bcs _ Hdl). apply wp_bind. pose proof (bcs_pos _ Hdl) as Hb.
    eapply wp_mono; [apply (wp_loop true (fun a v' => calm v' /\ exists i, cs !! i = Some a.1 /\
        k * SZDIRE = Z.of_nat i * bcs (vfs v0) + a.2 /\ 0 <= a.2) (fun a _ => a.2)
        (fun r v' => calm v' /\ exists c o i, r = inr (c, o) /\ cs !! i = Some c /\
           k * SZDIRE = Z.of_nat i * bcs (vfs v0) + o /\ 0 <= o < bcs (vfs v0)))|].
    + intros [c o] v1 (Hc1 & i & Hi & Eo & Hge). cbn [fst snd] in *. unfold dir_sdi_body.
      destruct (Z.geb_spec o (bcs (vfs v0))) as [Hov|Hov]; [|apply wp_ret; split; [done|]; exists c, o, i; split_and!; try done; lia].
      destruct (index_lt _ Hdl cs (k * SZDIRE)) as [n Hn].
      { rewrite Esp in Hk. cbn in Hk. destruct ents_per_clst as [E _]. rewrite E. unfold_consts. lia. }
      assert (exists n, cs !! S i = Some n) as [n' Hn'].
      { apply lookup_lt_is_Some. apply lookup_lt_Some in Hn.
        assert (Z.of_nat (S i) <= k * SZDIRE / bcs (vfs v0)) by (apply Z.div_le_lower_bound; lia). lia. }
      assert (valid_clst (vfs v0) n') as [V1 V2] by (by apply (chain_clst cs (S i))).
      apply wp_bind. eapply wp_mono; [apply (get_fat_alive G v0); [apply Hs|apply Hs|apply Hc1|apply Hc1|by apply (chain_clst cs i)]|].
      intros x v' (He & Hne & Hc'). rewrite (chain_nth _ _ _ _ _ _ Hch Hi Hn') in He. injection He as <-.
      rewrite (proj2 (Z.eqb_neq n' _)), (proj2 (Z.ltb_ge n' 2)) by done. rewrite Enf.
      destruct (Z.geb_spec n' (n_fatent (vfs v0))); [lia|]. cbn [orb]. apply wp_ret. cbn [fst snd].
      rewrite u32_small by (unfold U32; revert Hmax; unfold_consts; lia). split; [|lia]. split; [done|]. exists (S i).
      split; [done|]. split; lia.
    + split; [done|]. exists 0%nat. cbn [fst snd]. split; [by apply (chain_head v0)|]. lia.
    + cbn [snd]. revert Hmax. unfold LOOP_FUEL. unfold_consts. lia.
    + intros r v' (Hc' & c & o & i & -> & Hi & Eo & Ho). apply wp_ret. split; [done|].
      assert (clst2sect (vfs v) c = clst2sect (vfs v0) c) as -> by (unfold clst2sect; by rewrite Enf, Ecs, Eda).
      apply (dir_sdi_set_at (set_dp_dptr (k * SZDIRE) dp) k cs i c o); try done.
Qed.


Lemma dsize_sectors : dsize (vfs v0) sp mod 16 = 0.
Proof using Hsp.
  destruct space_cases as [(-> & _ & _ & Hr)|(cs & -> & _)]; cbn; [apply (rl_align _ Hr)|].
  destruct ents_per_clst as [_ ->]. unfold_consts. change (0x200000 / 32) with (4096 * 16). rewrite Z.mul_assoc, Z.mul_min_distr_nonneg_r by done.
  by apply Z.mod_mul.
Qed.

(** The cluster of entry [k]. *)
Definition at_clst (k c : Z) : Prop :=
  match sp with Root => c = 0 | Clst cs => cs !! Z.to_nat (k / 16 / csize (vfs v0)) = Some c end.

Lemma dir_at_clst k dp : dir_at (vfs v0) sp k dp -> at_clst k (dp_clust dp).
Proof using Hs Hsp.
  intros [_ _ _ _ Hc]. unfold at_clst. destruct sp as [|cs]; [done|].
  by rewrite (proj1 (proj2 (fsect_ent _ cs k (proj1 (csize_pos _ (so_data _ _ Hs)))))) in Hc.
Qed.

Lemma dir_at_set k dp :
  0 <= k < dsize (vfs v0) sp -> dsect (vfs v0) sp (k * SZDIRE) = Some (dp_sect dp) -> at_clst k (dp_clust dp) ->
  dir_at (vfs v0) sp k (set_dp_dir (k mod 16 * SZDIRE) (set_dp_dptr (k * SZDIRE) dp)).
Proof using Hs Hsp.
  intros Hk Hs' Hc'. split; rec_simpl; [done|done|by rewrite ent_off|done|]. unfold at_clst in Hc'.
  destruct sp as [|cs]; [done|]. by rewrite (proj1 (proj2 (fsect_ent _ cs k (proj1 (csize_pos _ (so_data _ _ Hs)))))).
Qed.

(** The next entry in the same sector. *)
Lemma dsect_same k : (k + 1) mod 16 <> 0 -> dsect (vfs v0) sp (k * SZDIRE) = dsect (vfs v0) sp ((k + 1) * SZDIRE) \/
  dsize (vfs v0) sp <= k + 1.
Proof using Hs Hsp.
  intros Hm. pose proof (csize_pos _ (so_data _ _ Hs)) as Hcs. pose proof (div_succ k 16 ltac:(done)) as Hq.
  rewrite (proj2 (Z.eqb_neq _ 0)) in Hq by done. destruct Hq as [Eq _].
  destruct (Z.lt_ge_cases (k + 1) (dsize (vfs v0) sp)) as [Hlt|]; [left|by right].
  unfold dsect. destruct sp as [|cs]; [|by rewrite !(proj1 (fsect_ent _ _ _ (proj1 Hcs))), Eq].
  cbn in Hlt. rewrite !Z.div_mul by done. rewrite !(proj2 (Z.ltb_lt _ _)) by lia. by rewrite !ent_div, Eq.
Qed.

(** The end of the directory. *)
Definition at_end dp (r : FRESULT * DIR) : Prop :=
  r.1 = FR_NO_FILE /\ dp_sect r.2 = 0 /\ dp_obj r.2 = dp_obj dp /\ dp_fn r.2 = dp_fn dp.

(** A cluster of the directory holds the entries up to its end. *)
Lemma clst_dsize cs k i c :
  sp = Clst cs -> 0 <= k < MAX_DIR / SZDIRE -> k / 16 / csize (vfs v0) = Z.of_nat i -> cs !! i = Some c ->
  k < dsize (vfs v0) sp.
Proof using Hs Hsp.
  intros -> Hk Ei Hi. apply lookup_lt_Some in Hi. pose proof (csize_pos _ (so_data _ _ Hs)) as Hcs. cbn.
  destruct ents_per_clst as [_ ->]. unfold len.
  pose proof (Z.div_mod k 16 ltac:(done)). pose proof (Z.mod_pos_bound k 16 ltac:(done)).
  pose proof (Z.div_mod (k / 16) (csize (vfs v0)) ltac:(lia)) as E. pose proof (Z.mod_pos_bound (k / 16) (csize (vfs v0)) ltac:(lia)).
  assert (k / 16 < csize (vfs v0) * (Z.of_nat i + 1)) by nia.
  assert (csize (vfs v0) * (Z.of_nat i + 1) <= csize (vfs v0) * Z.of_nat (length cs)) by nia. lia.
Qed.

Lemma dsize_clst cs k i :
  sp = Clst cs -> 0 <= k < dsize (vfs v0) sp -> k / 16 / csize (vfs v0) = Z.of_nat i -> is_Some (cs !! i).
Proof using Hs Hsp.
  intros -> Hk Ei. cbn in Hk. destruct (index_lt _ (so_data _ _ Hs) cs (k * SZDIRE)) as [n Hn].
  - destruct ents_per_clst as [E _]. rewrite E. unfold_consts. lia.
  - rewrite (proj1 (proj2 (fsect_ent _ cs k (proj1 (csize_pos _ (so_data _ _ Hs)))))), Ei, Nat2Z.id in Hn. eauto.
Qed.

(** The cluster after the last sector of cluster [i]. *)
Lemma dir_next_clst_spec dp cs i st v :
  sp = Clst cs -> calm v -> cs !! i = Some (dp_clust dp) -> (st = true -> is_Some (cs !! S i)) ->
  wp (dir_next_clst dp st) (fun r v' => calm v' /\
    match cs !! S i with Some c => r = inr c | None => exists e, r = inl e /\ at_end dp e end) v.
Proof using Hs Hsp.
  intros Esp Hc Hi Hst. unfold dir_next_clst. apply wp_bind, wp_get_fs. apply wp_bind.
  eapply wp_mono; [apply (get_fat_alive G v0); [apply Hs|apply Hs|apply Hc|apply Hc|by apply (chain_clst cs i)]|].
  intros x v' (He & Hne & Hc'). pose proof (calm_geom _ Hc) as (_&_&_&_&_&_&->&_)%geom_fields.
  destruct space_cases as [(E & _)|(cs' & E & Hch)]; [congruence|]. rewrite Esp in E. injection E as <-.
  destruct (cs !! S i) as [n|] eqn:En.
  - rewrite (chain_nth _ _ _ _ _ _ Hch Hi En) in He. injection He as <-. destruct (chain_clst cs (S i) n Esp En) as [V1 V2].
    rewrite (proj2 (Z.leb_gt n 1)), (proj2 (Z.eqb_neq n _)) by (done || lia).
    destruct (Z.geb_spec n (n_fatent (vfs v0))); [lia|]. by apply wp_ret.
  - assert (st = false) as -> by (destruct st; [by destruct (Hst eq_refl)|done]).
    destruct (chain_last v0 _ cs (dp_clust dp) Hch) as (e & He' & Hge).
    { rewrite last_lookup. apply lookup_ge_None in En. apply lookup_lt_Some in Hi as Hlt.
      by replace (pred (length cs)) with i by lia. }
    rewrite He in He'. injection He' as <-. destruct (chain_valid _ _ _ Hch) as [V1 V2].
    rewrite (proj2 (Z.leb_gt x 1)), (proj2 (Z.eqb_neq x _)) by (done || lia).
    destruct (Z.geb_spec x (n_fatent (vfs v0))); [|lia]. cbn [negb]. apply wp_ret. split; [done|]. eexists. by split.
Qed.

(** The rest of [dir_next], from entry [k] on, in terms of entries. *)
Definition next_ent (k : Z) dp : FRESULT * DIR :=
  (FR_OK, set_dp_dir (k mod 16 * SZDIRE) (set_dp_dptr (k * SZDIRE) dp)).

Definition next_from (k : Z) dp (st : bool) : M (vol D) (FRESULT * DIR) :=
  if k mod 16 =? 0 then
    let dp := set_dp_sect (u32 (dp_sect dp + 1)) dp in
    if dp_clust dp =? 0 then ret (if k >=? n_rootdir (vfs v0) then (FR_NO_FILE, set_dp_sect 0 dp) else next_ent k dp)
    else if (k / 16) mod csize (vfs v0) =? 0 then
      r <- dir_next_clst dp st ;;
      ret match r with
          | inl e => e
          | inr clst => next_ent k (set_dp_sect (clst2sect (vfs v0) clst) (set_dp_clust clst dp))
          end
    else ret (next_ent k dp)
  else ret (next_ent k dp).

Lemma dir_next_unfold dp k st v (Q : FRESULT * DIR -> vol D -> Prop) :
  calm v -> dir_at (vfs v0) sp k dp ->
  (MAX_DIR / SZDIRE <= k + 1 -> Q (FR_NO_FILE, set_dp_sect 0 dp) v) ->
  (k + 1 < MAX_DIR / SZDIRE -> wp (next_from (k + 1) dp st) Q v) -> wp (dir_next dp st) Q v.
Proof using Hs Hsp.
  intros Hc Hat Hmx Hgo. unfold dir_next. apply wp_bind, wp_get_fs. pose proof Hat as [Hk Hp Hd Hsec Hcl].
  pose proof (dsize_max k Hk) as Hmax. pose proof (proj1 (dsect_ok _ _ (proj1 Hmax) Hsec)) as Hsr.
  rewrite Hp. replace (k * SZDIRE + SZDIRE) with ((k + 1) * SZDIRE) by lia.
  rewrite u32_small by (revert Hmax; unfold U32; unfold_consts; lia). cbv zeta.
  destruct (Z.geb_spec ((k + 1) * SZDIRE) MAX_DIR) as [Hm|Hm].
  { rec_simpl. rewrite Z.eqb_refl. apply wp_ret. apply Hmx. apply Z.div_le_upper_bound; [done|lia]. }
  rewrite (proj2 (Z.eqb_neq (dp_sect dp) 0)) by lia. specialize (Hgo ltac:(revert Hm; unfold_consts; change (0x200000 / 32) with 65536; lia)).
  pose proof (calm_geom _ Hc) as (_&_&_&_&Enr&Ecs&Enf&_&_&_&_&Eda)%geom_fields.
  assert (forall c, clst2sect (vfs v) c = clst2sect (vfs v0) c) as Ec by (intros c; unfold clst2sect; by rewrite Enf, Ecs, Eda).
  pose proof (so_data _ _ Hs) as Hdl. destruct (fsect_ent (vfs v0) [] (k + 1) (proj1 (csize_pos _ Hdl))) as (_ & _ & F3).
  rewrite Enr, Ecs, ent_off, Z.div_mul, (csect_mod _ Hdl), F3 by (done || unfold_consts; lia). unfold next_from, next_ent in Hgo.
  destruct (Z.eqb_spec ((k + 1) mod 16) 0) as [E0|E0].
  - rewrite E0 in Hgo |- *. change (0 * SZDIRE =? 0) with true. cbv iota zeta in Hgo |- *. rec_simpl.
    destruct (dp_clust dp =? 0); [by destruct (k + 1 >=? _)|]. destruct (_ =? 0); [|done].
    apply wp_bind_inv in Hgo. apply wp_bind. eapply wp_mono; [exact Hgo|]. intros [e|c] v'; rewrite ?Ec; done.
  - by rewrite (proj2 (Z.eqb_neq (_ * SZDIRE) 0)) by (unfold_consts; lia).
Qed.

(** What a step promises. *)
Definition moved (k : Z) dp (r : FRESULT * DIR) v : Prop :=
  calm v /\
  if k + 1 <? dsize (vfs v0) sp
  then r.1 = FR_OK /\ dir_at (vfs v0) sp (k + 1) r.2 /\ dp_obj r.2 = dp_obj dp /\ dp_fn r.2 = dp_fn dp
  else at_end dp r.

Lemma moved_ent k dp dp' v :
  calm v -> 0 <= k -> k + 1 < dsize (vfs v0) sp -> dsect (vfs v0) sp ((k + 1) * SZDIRE) = Some (dp_sect dp') ->
  at_clst (k + 1) (dp_clust dp') -> dp_obj dp' = dp_obj dp -> dp_fn dp' = dp_fn dp -> moved k dp (next_ent (k + 1) dp') v.
Proof using Hs Hsp.
  intros Hc Hk Hlt Hs' Hcl Ho Hf. split; [done|]. rewrite (proj2 (Z.ltb_lt _ _)) by done.
  split; [done|]. split; [apply dir_at_set; [lia|done|done]|done].
Qed.

(** Within the sector, the root area, and from sector to sector in the
    clusters. *)
Lemma next_in_sector dp k st v :
  calm v -> dir_at (vfs v0) sp k dp -> (k + 1) mod 16 <> 0 -> wp (next_from (k + 1) dp st) (moved k dp) v.
Proof using Hs Hsp.
  intros Hc Hat E0. unfold next_from. rewrite (proj2 (Z.eqb_neq _ 0)) by done. apply wp_ret.
  pose proof Hat as [Hk _ _ Hsec _]. pose proof dsize_sectors as H16.
  assert (k + 1 <> dsize (vfs v0) sp) by congruence. destruct (dsect_same k E0) as [E|]; [|lia].
  pose proof (div_succ k 16 ltac:(done)) as Hq. rewrite (proj2 (Z.eqb_neq _ 0)) in Hq by done.
  apply moved_ent; [done|lia|lia|congruence| |done|done]. apply dir_at_clst in Hat. unfold at_clst in *.
  destruct sp; [done|]. by rewrite (proj1 Hq).
Qed.

Lemma next_sector_sect k dp s :
  dir_at (vfs v0) sp k dp -> k + 1 < dsize (vfs v0) sp -> dsect (vfs v0) sp ((k + 1) * SZDIRE) = Some s ->
  s = dp_sect dp + 1 -> dsect (vfs v0) sp ((k + 1) * SZDIRE) = Some (u32 (dp_sect dp + 1)).
Proof using Hs Hsp.
  intros Hat Hlt Es ->. destruct Hat as [Hk _ _ _ _]. apply dsect_ok in Es as Hr; [|unfold_consts; lia].
  rewrite Es. f_equal. rewrite u32_small; [done|]. destruct Hr. lia.
Qed.

Lemma next_in_root dp k st v :
  sp = Root -> root_layout (vfs v0) -> calm v -> dir_at (vfs v0) sp k dp -> (k + 1) mod 16 = 0 -> wp (next_from (k + 1) dp st) (moved k dp) v.
Proof using Hs Hsp.
  intros Esp Hr Hc Hat E0. unfold next_from. rewrite E0. cbn [Z.eqb]. cbv iota zeta. rec_simpl.
  pose proof (dir_at_clst _ _ Hat) as Hcl. pose proof (div_succ k 16 ltac:(done)) as Hq. rewrite E0 in Hq. destruct Hq as [Hq _].
  unfold at_clst in Hcl. rewrite Esp in Hcl. rewrite Hcl. cbn [Z.eqb]. apply wp_ret.
  assert (dsize (vfs v0) sp = n_rootdir (vfs v0)) as Ed by (by rewrite Esp).
  destruct (Z.geb_spec (k + 1) (n_rootdir (vfs v0))).
  - split; [done|]. by rewrite (proj2 (Z.ltb_ge _ _)) by lia.
  - pose proof (da_range _ _ _ _ Hat) as Hk. pose proof (da_sect _ _ _ _ Hat) as Hsec.
    apply moved_ent; [done|lia|lia| |unfold at_clst; by rewrite Esp|done|done]. rec_simpl.
    apply (next_sector_sect k dp (dirbase (vfs v0) + (k + 1) / 16)); [done|lia| |].
    + rewrite Esp. cbn. by rewrite Z.div_mul, (proj2 (Z.ltb_lt _ _)), ent_div by (done || lia).
    + rewrite Esp in Hsec. cbn in Hsec. rewrite Z.div_mul, (proj2 (Z.ltb_lt _ _)), ent_div in Hsec by (done || lia).
      injection Hsec as <-. rewrite Hq. lia.
Qed.

Lemma next_in_clusters dp k cs st v :
  sp = Clst cs -> calm v -> dir_at (vfs v0) sp k dp -> (k + 1) mod 16 = 0 -> k + 1 < MAX_DIR / SZDIRE ->
  (st = true -> k + 1 < dsize (vfs v0) sp) -> wp (next_from (k + 1) dp st) (moved k dp) v.
Proof using Hs Hsp.
  intros Esp Hc Hat E0 Hm Hst. unfold next_from. rewrite E0. cbn [Z.eqb]. cbv iota zeta. rec_simpl.
  pose proof (dir_at_clst _ _ Hat) as Hcl. pose proof (div_succ k 16 ltac:(done)) as Hq. rewrite E0 in Hq. destruct Hq as [Hq _].
  pose proof (da_range _ _ _ _ Hat) as Hk. pose proof (da_sect _ _ _ _ Hat) as Hsec.
  pose proof (so_data _ _ Hs) as Hdl. pose proof (csize_pos _ Hdl) as Hcs.
  unfold at_clst in Hcl. rewrite Esp in Hcl. set (i := Z.to_nat (k / 16 / csize (vfs v0))) in *.
  assert (k / 16 / csize (vfs v0) = Z.of_nat i) as Ei.
  { subst i. rewrite Z2Nat.id; [done|]. apply Z.div_pos; [apply Z.div_pos|]; lia. }
  destruct (chain_clst cs i _ Esp Hcl) as [V1 V2]. rewrite (proj2 (Z.eqb_neq (dp_clust dp) 0)) by lia.
  destruct (fsect_ent (vfs v0) cs (k + 1) (proj1 Hcs)) as (F1 & _). pose proof (div_succ (k / 16) (csize (vfs v0)) ltac:(lia)) as Hq2.
  assert (dsect (vfs v0) sp ((k + 1) * SZDIRE) = fsect (vfs v0) cs ((k + 1) * SZDIRE)) as F4 by (by rewrite Esp).
  rewrite F1, Hq in F4. rewrite Hq. destruct (Z.eqb_spec ((k / 16 + 1) mod csize (vfs v0)) 0) as [Em|Em]; destruct Hq2 as [Hd1 Hd2].
  - assert ((k + 1) / 16 / csize (vfs v0) = Z.of_nat (S i)) as Ei' by (rewrite Hq, Hd1; lia). apply wp_bind.
    eapply wp_mono; [apply (dir_next_clst_spec _ cs i); [done|done|done|]|].
    { intros ->. apply (dsize_clst cs (k + 1)); [done| |done]. specialize (Hst eq_refl). lia. }
    intros r v' [Hc' Hr]. apply wp_ret. destruct (cs !! S i) as [c|] eqn:Ec.
    + rewrite Hr. assert (k + 1 < dsize (vfs v0) sp) as Hlt by (by apply (clst_dsize cs (k + 1) (S i) c); [|lia|..]).
      rewrite <- Hq, Ei', Nat2Z.id, Ec, Hq, Em in F4. cbn in F4.
      apply moved_ent; [done|lia|done| |by unfold at_clst; rewrite Esp, Ei', Nat2Z.id|done|done].
      rewrite F4. rec_simpl. rewrite (clst2sect_data _ Hdl) by (apply Hs || by apply (chain_clst cs (S i))). f_equal. lia.
    + destruct Hr as ([e d] & -> & He). split; [done|]. rewrite (proj2 (Z.ltb_ge _ _)); [by destruct He as (? & ? & ? & ?)|].
      apply Z.nlt_ge. intros Hlt. destruct (dsize_clst cs (k + 1) (S i) Esp) as [c Ec']; [lia|done|congruence].
  - assert ((k + 1) / 16 / csize (vfs v0) = Z.of_nat i) as Ei' by (rewrite Hq, Hd1; lia).
    assert (k + 1 < dsize (vfs v0) sp) as Hlt by (by apply (clst_dsize cs (k + 1) i (dp_clust dp)); [|lia|..]).
    apply wp_ret. apply moved_ent; [done|lia|done| |by unfold at_clst; rewrite Esp, Ei', Nat2Z.id|done|done].
    rewrite Hd1, Ei, Nat2Z.id, Hcl, Hd2 in F4. cbn in F4. rec_simpl. apply (next_sector_sect k dp _ Hat Hlt F4).
    destruct (fsect_ent (vfs v0) cs k (proj1 Hcs)) as (F5 & _). rewrite Esp in Hsec. cbn in Hsec.
    rewrite F5, Ei, Nat2Z.id, Hcl in Hsec. cbn in Hsec. injection Hsec as <-. lia.
Qed.

Lemma dir_next_spec dp k st v :
  calm v -> dir_at (vfs v0) sp k dp ->
  (st = true -> sp = Root \/ k + 1 < dsize (vfs v0) sp \/ MAX_DIR / SZDIRE <= k + 1) ->
  wp (dir_next dp st) (moved k dp) v.
Proof using Hs Hsp.
  intros Hc Hat Hst. pose proof dsize_range as Hdr. apply (dir_next_unfold dp k st v); [done|done|..].
  - intros Hm. split; [done|]. by rewrite (proj2 (Z.ltb_ge _ _)) by lia.
  - intros Hm. destruct (Z.eq_dec ((k + 1) mod 16) 0) as [E0|E0]; [|by apply next_in_sector].
    destruct space_cases as [(Esp & _ & _ & Hr)|(cs & Esp & _)]; [by apply next_in_root|].
    apply (next_in_clusters dp k cs); try done. intros ->. destruct (Hst eq_refl) as [?|[?|?]]; [congruence|done|lia].
Qed.

(** *** The entry in the window *)

Context (es : list (list byte)) (Hes : dir_holds v0 sp es).

Lemma es_dentry k : 0 <= k < dsize (vfs v0) sp -> exists e, es !! Z.to_nat k = Some e /\ dentry v0 sp k = Some e.
Proof using Hes.
  intros Hk. destruct Hes as [Hl He]. destruct (at_is_Some es k) as [e E]; [lia|].
  exists e. split; [by rewrite <- at_lookup by lia|]. rewrite He by lia. done.
Qed.

(** The window stands on the sector [s], where the entry at [d] is [e]. *)
Record on_entry v (s d : Z) (e : list byte) : Prop := mk_on_entry {
  oe_calm : calm v;
  oe_sect : winsect (vfs v) = s;
  oe_dir : 0 <= d <= SS - SZDIRE;
  oe_bytes : slice (win (vfs v)) d SZDIRE = Some e
}.

(** Sector and offset of entry [k]. *)
Record ent_pos (k : nat) (s d : Z) : Prop := mk_ent_pos {
  ep_range : Z.of_nat k < dsize (vfs v0) sp;
  ep_sect : dsect (vfs v0) sp (Z.of_nat k * SZDIRE) = Some s;
  ep_dir : d = (Z.of_nat k * SZDIRE) mod SS
}.

Lemma dir_at_pos k dp : dir_at (vfs v0) sp (Z.of_nat k) dp -> ent_pos k (dp_sect dp) (dp_dir dp).
Proof using Type. intros [H1 H2 H3 H4 _]. split; [lia|done|done]. Qed.

Lemma ent_pos_ok k s d : ent_pos k s d -> dir_sect_ok s.
Proof using Hs Hsp. intros [H1 H2 _]. eapply dsect_ok; [|exact H2]. unfold_consts. lia. Qed.

Lemma look k s d v :
  calm v -> ent_pos k s d ->
  wp (move_window s) (fun r v' => r = FR_OK /\ exists e, es !! k = Some e /\ on_entry v' s d e) v.
Proof using Hs Hsp Hes.
  intros [Hu Ha] Hep. destruct (ent_pos_ok _ _ _ Hep) as (Hr & Hpl & _ & Hg). destruct Hep as [Hk Hsec Hd].
  eapply wp_mono; [apply (move_window_alive G v0); [apply Hs|done|done|lia|done]|].
  intros r v' (-> & Hu' & Ha' & Hw). split; [done|]. destruct (es_dentry (Z.of_nat k)) as (e & He & Hde); [lia|].
  rewrite Nat2Z.id in He. exists e. split; [done|]. split; [done|done|rewrite Hd; apply ent_room|].
  unfold dentry in Hde. rewrite Hsec in Hde. cbn in Hde.
  destruct Hu' as (_ & _ & _ & Hvw). rewrite <- (Hvw _ Hpl), <- Hw, lview_win in Hde. cbn in Hde. by rewrite Hd.
Qed.

Lemma on_entry_len v s d e : on_entry v s d e -> len e = SZDIRE.
Proof using Type. intros [_ _ _ H]. by apply slice_len in H. Qed.

Lemma at_entry v s d e o : on_entry v s d e -> 0 <= o < SZDIRE -> at_ (win (vfs v)) (d + o) = at_ e o.
Proof using Type.
  intros [_ _ Hd H] Ho. rewrite (at_slice _ _ _ _ _ H). by rewrite (proj2 (Z.leb_le 0 o)), (proj2 (Z.ltb_lt o _)) by lia.
Qed.

Lemma wp_ent_byte t v s d e o (Q : Z -> vol D -> Prop) :
  on_entry v s d e -> 0 <= o < SZDIRE -> Q (ent_byte e o) v -> wpt t (win_at (d + o)) Q v.
Proof using Type.
  intros He Ho HQ. pose proof He as [Hc _ Hd _]. apply wp_win_at; [apply Hc|revert Ho Hd; unfold_consts; lia|].
  intros b Hb. rewrite (at_entry _ _ _ _ _ He Ho) in Hb. unfold ent_byte in HQ. by rewrite Hb in HQ.
Qed.

Lemma wp_ent_name t v s d e (Q : list byte -> vol D -> Prop) :
  on_entry v s d e -> (forall x, slice e 0 11 = Some x -> Q x v) -> wpt t (win_slice (d) 11) Q v.
Proof using Type.
  intros He HQ. pose proof He as [Hc _ Hd H]. apply wp_win_slice; [apply Hc|lia|done|revert Hd; unfold_consts; lia|].
  intros x Hx _. apply HQ. rewrite <- Hx, <- (Z.add_0_r (d)). apply (slice_slice _ _ _ _ _ _ H); done.
Qed.

(** *** Searching *)

(** The object stands on entry [k], with its attribute. *)
Record stands (k : nat) v dp : Prop := mk_stands {
  st_at : dir_at (vfs v0) sp (Z.of_nat k) dp;
  st_entry : exists e, es !! k = Some e /\ on_entry v (dp_sect dp) (dp_dir dp) e /\ obj_attr (dp_obj dp) = ent_attr e
}.

Definition found dp (o : option nat) (r : FRESULT * DIR) v : Prop :=
  same_dir dp r.2 /\
  match o with
  | Some k => r.1 = FR_OK /\ stands k v r.2
  | None => r.1 = FR_NO_FILE /\ calm v
  end.

Lemma stands_calm k v dp : stands k v dp -> calm v.
Proof using Type. by intros [_ (e & _ & [] & _)]. Qed.

Lemma length_es : Z.of_nat (length es) = dsize (vfs v0) sp.
Proof using Hes. apply Hes. Qed.

(** What the loops of this section keep: they look for [P] from entry [k] on
    and will find [o]. *)
Definition scanning P (o : option nat) dp0 dp v : Prop :=
  calm v /\ same_dir dp0 dp /\
  exists k : nat, dir_at (vfs v0) sp (Z.of_nat k) dp /\ o = scan_from P es k.

Lemma scan_turn P o dp0 dp k e v :
  calm v -> same_dir dp0 dp -> dir_at (vfs v0) sp (Z.of_nat k) dp -> es !! k = Some e ->
  ent_byte e DIR_Name <> 0 -> P e = false -> o = scan_from P es k ->
  wp (dir_next dp false) (fun r v' =>
    if r.1 =r FR_OK then scanning P o dp0 r.2 v' /\ 0 <= entries_left r.2 < entries_left dp
    else o = None /\ r.1 = FR_NO_FILE /\ same_dir dp0 r.2 /\ calm v' /\ dp_sect r.2 = 0) v.
Proof using Hs Hsp Hes.
  intros Hc Hsd Hat He Hnz HP Hscan. rewrite (scan_from_step _ _ _ _ He), (proj2 (Z.eqb_neq _ 0)), HP in Hscan by done.
  eapply wp_mono; [by apply dir_next_spec|]. intros [r dp'] v' [Hc' Hr]. cbn [fst snd] in *.
  destruct (Z.ltb_spec (Z.of_nat k + 1) (dsize (vfs v0) sp)) as [Hlt|Hge].
  - destruct Hr as (-> & Hat' & Ho & Hf). change (FR_OK =r FR_OK) with true. cbv iota. split.
    + split; [done|]. split; [eapply same_dir_trans; [done|]; split; [done|by rewrite Ho]|]. exists (S k).
      split; [|done]. by replace (Z.of_nat (S k)) with (Z.of_nat k + 1) by lia.
    + unfold entries_left. rewrite (da_dptr _ _ _ _ Hat), (da_dptr _ _ _ _ Hat').
      pose proof (dsize_max (Z.of_nat k + 1) ltac:(lia)). revert H. unfold_consts. lia.
  - destruct Hr as (Hr & Hz & Ho & Hf). cbn [fst snd] in *. subst r. change (FR_NO_FILE =r FR_OK) with false. cbv iota.
    split; [rewrite Hscan; apply scan_from_end; pose proof length_es; lia|]. split; [done|].
    split; [eapply same_dir_trans; [done|]; split; [done|by rewrite Ho]|done].
Qed.

Lemma dir_at_attr k dp a : dir_at (vfs v0) sp k dp -> dir_at (vfs v0) sp k (set_attr a dp).
Proof using Type. by intros []. Qed.

Lemma scanning_fuel P o dp0 dp v : scanning P o dp0 dp v -> entries_left dp < Zpos LOOP_FUEL.
Proof using Hs Hsp.
  intros (_ & _ & k & Hat & _). pose proof (dsize_max _ (da_range _ _ _ _ Hat)). unfold entries_left.
  rewrite (da_dptr _ _ _ _ Hat). unfold LOOP_FUEL. unfold_consts. lia.
Qed.

(** [dir_find] finds the first entry of the name. *)
Lemma dir_find_spec dp fn v :
  calm v -> obj_sclust (dp_obj dp) = sc -> slice (dp_fn dp) 0 11 = Some fn ->
  wp (dir_find dp) (found dp (lookup_name fn es)) v.
Proof using Hs Hsp Hes.
  intros Hc Hsc Hfn. unfold dir_find. apply wp_bind. pose proof dsize_range as Hdr.
  eapply wp_mono; [apply (dir_sdi_spec dp 0 v Hc Hsc); lia|]. intros [r dp1] v1 (Hc1 & Hr & Hat1 & Hsd1). cbn [fst snd] in *. subst r.
  change (negb (FR_OK =r FR_OK)) with false. cbv iota.
  apply (wp_loop true (scanning (ent_is fn) (lookup_name fn es) dp) (fun a _ => entries_left a)).
  - clear v Hc v1 Hc1 dp1 Hat1 Hsd1. intros dp1 v (Hc & Hsd & k & Hat & Hscan). unfold dir_find_body. apply wp_bind.
    eapply wp_mono; [by apply (look k), dir_at_pos|]. intros r v1 (-> & e & He & Hon).
    change (negb (FR_OK =r FR_OK)) with false. cbv iota. apply wp_bind. eapply wp_ent_byte; [done|done|].
    destruct (Z.eqb_spec (ent_byte e DIR_Name) 0) as [E0|E0].
    { apply wp_ret. rewrite Hscan, (scan_from_step _ _ _ _ He), E0. cbn. split; [done|]. split; [done|apply Hon]. }
    apply wp_bind. eapply wp_ent_byte; [done|done|]. cbv zeta.
    change (Z.land (ent_byte e DIR_Attr) AM_MASK) with (ent_attr e). set (dp2 := set_attr (ent_attr e) dp1).
    apply wp_bind. eapply (wp_ent_name _ v1 (dp_sect dp2) (dp_dir dp2) e); [exact Hon|]. intros name Hname.
    apply wp_bind. eapply wp_chk; [rewrite (proj1 (Hsd : same_dir dp dp2)); exact Hfn|].
    assert (negb (nz (Z.land (ent_byte e DIR_Attr) AM_VOL)) && bool_decide (name = fn) = ent_is fn e) as ->.
    { unfold ent_is. rewrite Hname. f_equal. apply bool_decide_ext. split; [by intros ->|by intros [= ->]]. }
    destruct (ent_is fn e) eqn:Em.
    + apply wp_ret. rewrite Hscan, (scan_from_step _ _ _ _ He), Em, (proj2 (Z.eqb_neq _ 0)) by done. split; [exact Hsd|].
      split; [done|]. split; [by apply dir_at_attr|]. exists e. split; [done|]. done.
    + apply wp_bind. eapply wp_mono; [apply (scan_turn (ent_is fn) (lookup_name fn es) dp dp2 k e v1); try done; [apply Hon|by apply dir_at_attr]|].
      intros [r dp3] v3 Hr. cbn [fst snd] in Hr. destruct (fr_eqb_spec r FR_OK) as [->|Hne]; apply wp_ret; [exact Hr|].
      destruct Hr as (-> & -> & Hsd3 & Hc3 & _). by split.
  - split; [done|]. split; [done|]. exists 0%nat. split; [done|]. by rewrite scan_from_0.
  - apply (scanning_fuel (ent_is fn) (lookup_name fn es) dp dp1 v1). split; [done|]. split; [done|]. exists 0%nat. split; [done|]. by rewrite scan_from_0.
Qed.

(** *** Reading *)

(** A reader has [k] entries behind it. *)
Definition reader (k : nat) dp : Prop :=
  dir_at (vfs v0) sp (Z.of_nat k) dp \/ (dp_sect dp = 0 /\ forall P, scan_from P es k = None).

(** [dir_read] goes to the next entry that is reported. *)
Lemma dir_read_spec dp vol k v :
  calm v -> reader k dp ->
  wp (dir_read dp vol) (fun r v' => found dp (scan_from (reported vol) es k) r v' /\ (r.1 <> FR_OK -> dp_sect r.2 = 0)) v.
Proof using Hs Hsp Hes.
  intros Hc Hrd. unfold dir_read. apply wp_bind. set (o := scan_from (reported vol) es k).
  eapply wp_mono; [apply (wp_loop true
    (fun a v => scanning (reported vol) o dp a.2 v \/
       (a.1 = FR_NO_FILE /\ dp_sect a.2 = 0 /\ o = None /\ same_dir dp a.2 /\ calm v))
    (fun a _ => if dp_sect a.2 =? 0 then 0 else entries_left a.2) (found dp o))|].
  - clear v Hc Hrd. intros [r dp1] v [(Hc & Hsd & j & Hat & Ho)|(Er & Hz & Ho & Hsd & Hc)]; cbn [fst snd] in *; unfold dir_read_body.
    2: { subst r. unfold nz. rewrite Hz. cbn [Z.eqb negb]. apply wp_ret. rewrite Ho. by split. }
    destruct (dsect_ok _ _ (proj1 (dsize_max _ (da_range _ _ _ _ Hat))) (da_sect _ _ _ _ Hat)) as [Hr _].
    unfold nz. rewrite (proj2 (Z.eqb_neq (dp_sect dp1) 0)) by lia. cbn [negb]. apply wp_bind.
    eapply wp_mono; [by apply (look j), dir_at_pos|]. intros r1 v1 (-> & e & He & Hon).
    change (negb (FR_OK =r FR_OK)) with false. cbv iota. apply wp_bind. eapply wp_ent_byte; [done|done|].
    destruct (Z.eqb_spec (ent_byte e DIR_Name) 0) as [E0|E0].
    { apply wp_ret. rewrite Ho, (scan_from_step _ _ _ _ He), E0. split; [done|]. split; [done|apply Hon]. }
    apply wp_bind. eapply wp_ent_byte; [done|done|]. cbv zeta.
    change (Z.land (ent_byte e DIR_Attr) AM_MASK) with (ent_attr e). set (dp2 := set_attr (ent_attr e) dp1).
    change (read_match vol (ent_byte e DIR_Name) (ent_attr e)) with (reported vol e). destruct (reported vol e) eqn:Em.
    + apply wp_ret. rewrite Ho, (scan_from_step _ _ _ _ He), Em, (proj2 (Z.eqb_neq _ 0)) by done. split; [exact Hsd|].
      split; [done|]. split; [by apply dir_at_attr|]. exists e. split; [done|]. done.
    + apply wp_bind. eapply wp_mono; [apply (scan_turn (reported vol) o dp dp2 j e v1); try done; [apply Hon|by apply dir_at_attr]|].
      intros [r3 dp3] v3 Hr3. cbn [fst snd] in Hr3. destruct (fr_eqb_spec r3 FR_OK) as [->|Hne]; apply wp_ret; cbn [fst snd].
      * destruct Hr3 as [Hsc Hm]. change (entries_left dp2) with (entries_left dp1) in Hm. split; [by left|]. destruct (_ =? 0); lia.
      * destruct Hr3 as (-> & -> & Hsd3 & Hc3 & _). by split.
  - cbn [fst snd]. destruct Hrd as [Hat|[Hz Hnone]]; [left; split; [done|]; split; [done|]; by exists k|].
    right. split_and!; [done|done|apply Hnone|done|done].
  - cbn [snd]. destruct (Z.eqb_spec (dp_sect dp) 0); [done|]. destruct Hrd as [Hat|[Hz _]]; [|done].
    apply (scanning_fuel (reported vol) o dp dp v). split; [done|]. split; [done|]. by exists k.
  - intros [r dp1] v1 [Hsd Hf]. apply wp_ret. cbn [fst snd] in *. destruct o as [j|].
    + destruct Hf as [-> Hst]. change (negb (FR_OK =r FR_OK)) with false. cbv iota. split; [by split|done].
    + destruct Hf as [-> Hc1]. change (negb (FR_NO_FILE =r FR_OK)) with true. cbv iota. split; [by split|done].
Qed.


End walk.
End listing.
