(* ===== verification/Entries.v ===== *)
(** * Changing the entries of a directory

    Edits of the 32 bytes of an entry through the window, and what they mean
    for the volume: the table of the directory has one new entry, every other
    sector and the allocation table are as they were.  With it the
    specifications of [dir_remove] and [dir_register], which takes the first
    free entry or lengthens the directory by a cleared cluster. *)

From stdpp Require Import base numbers list option gmap.
From Stdlib Require Import ZArith Lia.
From Stdlib Require Import Strings.Byte.
From S2P Require Import Prelude Types Bytes Diskio Window Fat Chain Live Dir Path Mount File Content Writing Seeking Refine Listing.

(** Bytes put into an entry that lies in a window. *)
Lemma splice_splice (w w1 e e1 src : list byte) d o :
  splice w d e = Some w1 -> splice e o src = Some e1 -> splice w1 (d + o) src = splice w d e1.
Proof.
  intros H1 H2. pose proof (splice_Some_inv _ _ _ _ H1) as (A1 & A2 & A3 & _).
  pose proof (splice_Some_inv _ _ _ _ H2) as (B1 & B2 & B3 & _). pose proof (len_nonneg src).
  destruct (splice_is_Some w1 (d + o) src) as (x & Hx & Lx); [lia|lia|].
  destruct (splice_is_Some w d e1) as (y & Hy & Ly); [lia|lia|]. rewrite Hx, Hy. f_equal. apply at_ext. intros i.
  rewrite (at_splice _ _ _ _ _ Hx), (at_splice _ _ _ _ _ Hy), (at_splice _ _ _ _ _ H1), (at_splice _ _ _ _ _ H2), B3.
  destruct (Z.leb_spec (d + o) i), (Z.ltb_spec i (d + o + len src)), (Z.leb_spec d i), (Z.ltb_spec i (d + len e)),
    (Z.leb_spec o (i - d)), (Z.ltb_spec (i - d) (o + len src)); cbn [andb]; try lia; try done.
  f_equal. lia.
Qed.

(** *** Entries as bytes *)

(** A free entry, and where the first one is. *)
Definition ent_free (e : list byte) : bool := (ent_byte e DIR_Name =? DDEM) || (ent_byte e DIR_Name =? 0).
Definition first_free (es : list (list byte)) : option nat := fst <$> list_find (fun e => ent_free e = true) es.

(** An entry that has been removed, and a new one with the name [fn]. *)
Definition removed (e : list byte) : list byte := mkb DDEM :: drop 1 e.
Definition fresh (fn : list byte) : list byte := fn ++ replicate 21 x00.
Definition zero_entry : list byte := replicate (Z.to_nat SZDIRE) x00.

Lemma ent_byte_fresh fn o : len fn = 11 -> ent_byte (fresh fn) o = if o <? 11 then ent_byte fn o else 0.
Proof.
  intros Hl. unfold ent_byte, fresh. rewrite at_app, Hl. destruct (o <? 11) eqn:E; [done|].
  destruct (at_ (replicate 21 x00) (o - 11)) as [b|] eqn:Eb; [|done]. apply Z.ltb_ge in E. rewrite at_lookup in Eb by lia.
  by apply lookup_replicate in Eb as [-> _].
Qed.

Lemma ent_is_fresh fn : len fn = 11 -> ent_is fn (fresh fn) = true.
Proof.
  intros Hl. unfold ent_is. rewrite ent_byte_fresh by done. cbn. apply bool_decide_eq_true. by apply slice_app_l.
Qed.

(** A name that is nowhere is not in the new, empty entries either. *)
Lemma lookup_name_zeros fn es n : lookup_name fn es = None -> lookup_name fn (es ++ replicate n zero_entry) = None.
Proof.
  unfold lookup_name. induction es as [|e es IH]; cbn [app scan]; [by destruct n|].
  destruct (ent_byte e DIR_Name =? 0); [done|]. destruct (ent_is fn e); [done|]. destruct (scan (ent_is fn) es); [done|].
  intros _. by rewrite IH.
Qed.

(** A registered name is found where it was put, as long as no entry in use
    before has it. *)
Lemma lookup_registered fn es k :
  len fn = 11 -> ent_byte fn DIR_Name <> 0 -> lookup_name fn es = None -> (k < length es)%nat ->
  (forall j e, es !! j = Some e -> (j < k)%nat -> ent_free e = false) -> lookup_name fn (<[k := fresh fn]> es) = Some k.
Proof.
  intros Hl Hnz. revert k. induction es as [|e es IH]; intros k Hno Hk Hbef; [cbn in Hk; lia|].
  destruct k as [|k]; unfold lookup_name in *; cbn [insert list_insert scan] in *.
  - rewrite ent_byte_fresh by done. change (if DIR_Name <? 11 then _ else _) with (ent_byte fn DIR_Name).
    by rewrite (proj2 (Z.eqb_neq _ 0)), ent_is_fresh.
  - pose proof (Hbef 0%nat e eq_refl ltac:(lia)) as Hu. unfold ent_free in Hu. apply orb_false_elim in Hu as [_ Hu].
    rewrite Hu in Hno |- *. destruct (ent_is fn e); [done|]. cbn in Hk. rewrite IH; [done| |lia|].
    + by destruct (scan (ent_is fn) es).
    + intros j e' Hj Hlt. apply (Hbef (S j) e'); [done|lia].
Qed.

(** A removed entry is not found again: the search goes on behind it. *)
Lemma lookup_removed fn es k e :
  es !! k = Some e -> ent_byte fn DIR_Name <> DDEM -> len fn = 11 -> lookup_name fn es = Some k ->
  lookup_name fn (<[k := removed e]> es) = scan_from (ent_is fn) es (S k).
Proof.
  intros He Hd Hl. unfold lookup_name, scan_from. revert k He.
  assert (ent_is fn (removed e) = false) as Hr.
  { unfold ent_is. apply andb_false_intro2, bool_decide_eq_false. intros Hs. apply Hd. unfold ent_byte.
    change (at_ fn DIR_Name) with (at_ fn 0). rewrite (at_slice _ _ _ _ 0 Hs). done. }
  induction es as [|e' es IH]; intros k He Hk; [done|]. destruct k as [|k]; cbn [insert list_insert scan] in *.
  - change (ent_byte (removed e) DIR_Name =? 0) with false. rewrite Hr. done.
  - destruct (ent_byte e' DIR_Name =? 0); [done|]. destruct (ent_is fn e'); [done|].
    destruct (scan (ent_is fn) es) as [j|] eqn:Ej; [|done]. injection Hk as ->.
    etrans; [exact (f_equal (fmap S) (IH k He eq_refl))|]. cbn [drop]. by destruct (scan (ent_is fn) (drop (S k) es)).
Qed.

(** All bytes replaced. *)
Lemma splice_whole (w w' : list byte) : len w = len w' -> splice w 0 w' = Some w'.
Proof.
  intros H. destruct (splice_is_Some w 0 w') as (r & Hr & Hl); [done|lia|]. rewrite Hr. f_equal. apply at_ext. intros i.
  rewrite (at_splice _ _ _ _ _ Hr). destruct (Z.leb_spec 0 i), (Z.ltb_spec i (0 + len w')); cbn [andb]; [f_equal; lia|..].
  - destruct (at_ w' i) as [b|] eqn:E; [apply at_Some_range in E; lia|]. destruct (at_ w i) eqn:E2; [apply at_Some_range in E2; lia|done].
  - by rewrite !at_neg by lia.
  - by rewrite !at_neg by lia.
Qed.

Lemma list_find_none {A} (P : A -> Prop) `{!forall x, Decision (P x)} (l : list A) k :
  (forall j x, l !! j = Some x -> (j < k)%nat -> ~ P x) -> (length l <= k)%nat -> list_find P l = None.
Proof.
  intros Hl Hk. apply list_find_None, Forall_lookup. intros j x Hj. apply (Hl j x Hj). apply lookup_lt_Some in Hj. lia.
Qed.

Section entries.
Context {D : Type} `{!DiskIO D} `{!DiskIOLaws D} (G : Z -> Prop).
Implicit Types (v : vol D) (cs : list Z) (dp : DIR) (sp : dspace) (es : list (list byte)).

(** ** Edits in the window *)

(** [v] is [v1] but for the entry [e] at offset [d] of the window. *)
Definition editing v1 (d : Z) (e : list byte) v : Prop :=
  len e = SZDIRE /\ exists w f, splice (win (vfs v1)) d e = Some w /\ 0 <= f < 256 /\
    v = mkVol (set_wflag f (set_win w (vfs v1))) (vdsk v1).

Lemma editing_start v d e :
  vol_ok v -> slice (win (vfs v)) d SZDIRE = Some e -> editing v d e v.
Proof using Type.
  intros [Hf _] He. split; [by apply slice_len in He|]. exists (win (vfs v)), (wflag (vfs v)). split; [|split; [apply (ok_wflag _ Hf)|by destruct v as [[] ]]].
  pose proof (slice_Some_inv _ _ _ _ He) as (H1 & H2 & H3 & _). apply slice_len in He as Hl.
  destruct (splice_is_Some (win (vfs v)) d e) as (w & Hw & Hwl); [lia|lia|]. rewrite Hw. f_equal. apply at_ext. intros i.
  rewrite (at_splice _ _ _ _ _ Hw). destruct (Z.leb_spec d i), (Z.ltb_spec i (d + len e)); cbn [andb]; try done.
  rewrite (at_slice _ _ _ _ _ He). rewrite (proj2 (Z.leb_le 0 _)), (proj2 (Z.ltb_lt _ SZDIRE)) by lia. cbn. f_equal. lia.
Qed.

Lemma wp_edit t v1 d e v o src e' (Q : unit -> vol D -> Prop) :
  editing v1 d e v -> splice e o src = Some e' -> (forall v', editing v1 d e' v' -> Q tt v') ->
  wpt t (set_win_opt (fun w => splice w (d + o) src)) Q v.
Proof using Type.
  intros (Hl & w & f & Hw & Hf & ->) He HQ. destruct (splice_Some_inv _ _ _ _ He) as (H1 & H2 & H3 & _).
  pose proof (splice_Some_inv _ _ _ _ Hw) as (W1 & W2 & W3 & _).
  destruct (splice_is_Some (win (vfs v1)) d e') as (w' & Hw' & _); [lia|lia|].
  eapply wp_set_win_opt.
  - cbn [win vfs set_wflag set_win]. rewrite (splice_splice _ _ _ _ _ _ _ Hw He). exact Hw'.
  - apply HQ. split; [lia|]. exists w', f. done.
Qed.

Lemma wp_edit_from t v1 d e v src e' (Q : unit -> vol D -> Prop) :
  editing v1 d e v -> splice e 0 src = Some e' -> (forall v', editing v1 d e' v' -> Q tt v') -> wpt t (win_splice d src) Q v.
Proof using Type.
  intros He Hsp HQ. pose proof (wp_edit t v1 d e v 0 src e' Q He Hsp HQ) as H. by rewrite Z.add_0_r in H.
Qed.

Lemma wp_edit_word t v1 d e v o x e' (Q : unit -> vol D -> Prop) :
  editing v1 d e v -> st_word e o x = Some e' -> (forall v', editing v1 d e' v' -> Q tt v') -> wpt t (win_put_word (d + o) x) Q v.
Proof using Type.
  intros He Hst HQ. rewrite st_word_splice in Hst. unfold win_put_word, set_win_opt.
  apply wp_bind, wp_get_fs. rewrite st_word_splice.
  exact (wp_edit t v1 d e v o (le_split 2 x) e' Q He Hst HQ).
Qed.

Lemma wp_edit_dword t v1 d e v o x e' (Q : unit -> vol D -> Prop) :
  editing v1 d e v -> st_dword e o x = Some e' -> (forall v', editing v1 d e' v' -> Q tt v') -> wpt t (win_put_dword (d + o) x) Q v.
Proof using Type.
  intros He Hst HQ. rewrite st_dword_splice in Hst. unfold win_put_dword, set_win_opt.
  apply wp_bind, wp_get_fs. rewrite st_dword_splice.
  exact (wp_edit t v1 d e v o (le_split 4 x) e' Q He Hst HQ).
Qed.

Lemma wp_edit_byte t v1 d e v o x e' (Q : unit -> vol D -> Prop) :
  editing v1 d e v -> upd e o (mkb x) = Some e' -> (forall v', editing v1 d e' v' -> Q tt v') -> wpt t (win_put (d + o) x) Q v.
Proof using Type. intros He Hst HQ. by apply (wp_edit t v1 d e v o [mkb x] e' Q). Qed.

Lemma wp_edit_flag t v1 d e v (Q : unit -> vol D -> Prop) :
  editing v1 d e v ->
  (forall v', editing v1 d e v' -> wflag (vfs v') = 1 -> Q tt v') -> wpt t (mod_fs (set_wflag 1)) Q v.
Proof using Type.
  intros (Hl & w & f & Hw & Hf & ->) HQ. apply wp_mod_fs. apply HQ; [|done]. split; [done|]. exists w, 1. split; [done|]. done.
Qed.


(** ** One entry of a directory is changed *)

Lemma touched_sound X v v' :
  sound G v -> touched G (vfs v) X v v' -> coherent v' -> (forall s, X s -> off_fat (vfs v) s) ->
  sound G v' /\ forall c, valid_clst (vfs v) c -> fat_entry v' c = fat_entry v c.
Proof using Type.
  intros Hs Ht Hc HX. pose proof (sv_refl _ (so_ok _ _ Hs)) as Hsv.
  assert (forall c, valid_clst (vfs v) c -> fat_entry v' c = fat_entry v c) as He.
  { intros c Hv. by apply (touched_off_fat G (vfs v) (proj1 (so_ok _ _ Hs)) (so_fat _ _ Hs) X). }
  split; [|done]. pose proof Ht as ([Hv' Hg'] & Ha' & _). apply (sound_next G v); [done|done|done|done|].
  intros (c & Hv & E). apply (so_bad _ _ Hs). exists c. apply geom_fields in Hg' as (_&_&_&_&_&_&En&_).
  assert (valid_clst (vfs v) c) by (unfold valid_clst in *; by rewrite <- En). split; [done|]. by rewrite <- He.
Qed.

Lemma dir_space_next v v' sc sp :
  geom (vfs v') = geom (vfs v) -> (forall c, valid_clst (vfs v) c -> fat_entry v' c = fat_entry v c) ->
  dir_space G v sc sp -> dir_space G v' sc sp.
Proof using Type.
  intros Hg He. pose proof Hg as (Ety&_&_&_&Enr&_&_&_&_&_&Edb&_)%geom_fields. destruct sp as [|cs]; cbn.
  - intros (-> & Ht & Hr & Hgd). split; [done|]. split; [by rewrite Ety|]. split; [by apply (root_layout_geom (vfs v))|].
    unfold root_sect in *. by rewrite Edb, Enr.
  - intros Hch. assert (dir_start (vfs v') sc = dir_start (vfs v) sc) as -> by (unfold dir_start; by rewrite Ety, Edb).
    apply (chain_ext v); [done|done|]. intros x Hx. apply He. by eapply chain_all_valid.
Qed.

Section edit.
Context (v0 : vol D) (sc : Z) (sp : dspace) (Hs : sound G v0) (Hsp : dir_space G v0 sc sp).
Context (es : list (list byte)) (Hes : dir_holds v0 sp es).

(** Entry [k], in the sector [s] at [d], has become [e]. *)
Record rewritten (k : nat) (s d : Z) (e : list byte) v : Prop := mk_rewritten {
  rw_sound : sound G v;
  rw_geom : geom (vfs v) = geom (vfs v0);
  rw_alloc : alloc_info (vfs v) = alloc_info (vfs v0);
  rw_view : forall x, plain (vfs v0) x -> x <> s -> lview v x = lview v0 x;
  rw_fat : forall c, valid_clst (vfs v0) c -> fat_entry v c = fat_entry v0 c;
  rw_space : dir_space G v sc sp;
  rw_holds : dir_holds v sp (<[k := e]> es);
  rw_entry : on_entry G v v s d e
}.

(** Entries of one directory lie apart. *)
Lemma dentry_other k j s d :
  ent_pos v0 sp k s d -> (j < length es)%nat -> j <> k -> dsect (vfs v0) sp (Z.of_nat j * SZDIRE) = Some s ->
  (Z.of_nat j * SZDIRE) mod SS + SZDIRE <= d \/ d + SZDIRE <= (Z.of_nat j * SZDIRE) mod SS.
Proof using Hs Hsp Hes.
  intros [Hk Hsk ->] Hj Hne Hsj. pose proof (length_es _ _ _ Hes) as Hlen. rewrite !ent_off.
  assert (Z.of_nat j / 16 = Z.of_nat k / 16) as E.
  { destruct sp as [|cs].
    - cbn in Hsk, Hsj. rewrite !Z.div_mul in Hsk, Hsj by done. rewrite (proj2 (Z.ltb_lt _ _)), ent_div in Hsk by done.
      rewrite (proj2 (Z.ltb_lt _ _)), ent_div in Hsj by (cbn in Hlen; lia). injection Hsk. injection Hsj. lia.
    - rewrite <- !ent_div. cbn in Hsk, Hsj. apply (fsect_inj _ (so_data _ _ Hs) cs _ _ s); try done; [by eapply chain_NoDup|unfold_consts; lia..]. }
  pose proof (Z.div_mod (Z.of_nat j) 16 ltac:(done)). pose proof (Z.div_mod (Z.of_nat k) 16 ltac:(done)). unfold_consts. lia.
Qed.

Lemma rewrite_entry k s d e e' v1 v' :
  ent_pos v0 sp k s d -> on_entry G v0 v1 s d e -> editing v1 d e' v' -> wflag (vfs v') = 1 -> rewritten k s d e' v'.
Proof using Hs Hsp Hes.
  intros Hep [[Hu Ha] Hw Hd He] (Hl & w & f & Hspl & _ & ->) Hf. cbn in Hf. subst f.
  destruct (ent_pos_ok G v0 sc sp Hs Hsp k s d Hep) as (Hr & Hpl & Hoff & _).
  pose proof Hu as ([Hv1 Hg1] & Hal & Hco & Hvw). set (v' := mkVol _ _).
  pose proof (slice_splice_same _ _ _ _ Hspl) as Hse. rewrite Hl in Hse.
  pose proof (splice_len _ _ _ _ Hspl) as Hwl. rewrite (ok_win _ (proj1 Hv1)) in Hwl.
  assert (touched G (vfs v0) (eq s) v0 v') as Ht.
  { rewrite <- Hw. apply touched_dirty; [|done]. apply unchanged_touched; [apply sv_refl, Hs|done|done]. }
  assert (coherent v') as Hc by done.
  assert (lview v' s = Some w) as Hvs by (rewrite <- Hw; apply (lview_win v')).
  destruct (touched_sound (eq s) v0 v' Hs Ht Hc) as [Hs' Hfat]; [by intros ? <-|].
  pose proof Ht as ([Hv' Hg'] & _ & _ & Hvw').
  split; try done.
  - intros x Hp Hne. apply Hvw'; [done|congruence].
  - by apply (dir_space_next v0).
  - split; [rewrite (dsize_geom _ _ _ Hg'); unfold len; rewrite length_insert; apply Hes|].
    intros j Hj. unfold len in Hj. rewrite length_insert in Hj. rewrite at_lookup by lia. unfold dentry. rewrite (dsect_geom _ _ _ _ Hg').
    destruct (decide (Z.to_nat j = k)) as [Ejk|Ejk].
    + subst k. rewrite list_lookup_insert_eq by lia. destruct Hep as [_ Hsk ->]. rewrite Z2Nat.id in * by lia. rewrite Hsk. cbn. by rewrite Hvs.
    + rewrite list_lookup_insert_ne by done. rewrite <- at_lookup by lia. rewrite <- (proj2 Hes) by (unfold len; lia). unfold dentry.
      destruct (dsect (vfs v0) sp (j * SZDIRE)) as [x|] eqn:Ex; [|done]. cbn.
      destruct (Z.eq_dec x s) as [->|Hne].
      * rewrite Hvs. cbn. pose proof (dentry_other k (Z.to_nat j) s d Hep ltac:(lia) Ejk) as Hdis. rewrite Z2Nat.id in Hdis by lia.
        specialize (Hdis Ex). rewrite (slice_splice_disjoint _ _ _ _ _ _ Hspl) by (rewrite Hl; tauto).
        rewrite <- (Hvw _ Hpl), <- Hw. by rewrite lview_win.
      * rewrite Hvw'; [done| |congruence]. eapply dsect_ok in Ex; [apply Ex|done|done|unfold_consts; lia].
Qed.

(** [dir_remove] marks the entry it stands on. *)
Lemma dir_remove_spec dp k v :
  calm G v0 v -> ent_pos v0 sp k (dp_sect dp) (dp_dir dp) ->
  wp (dir_remove dp) (fun r v' => r = FR_OK /\ exists e, es !! k = Some e /\
    rewritten k (dp_sect dp) (dp_dir dp) (removed e) v') v.
Proof using Hs Hsp Hes.
  intros Hc Hep. unfold dir_remove. apply wp_bind.
  eapply wp_mono; [by apply (look G v0 sc sp Hs Hsp es Hes k)|]. intros r v1 (-> & e & He & Hon).
  change (FR_OK =r FR_OK) with true. cbv iota. pose proof (on_entry_len _ _ _ _ _ _ Hon) as Hl.
  assert (upd e DIR_Name (mkb DDEM) = Some (removed e)) as Hupd.
  { destruct e as [|b e]; [done|]. unfold upd, splice. rewrite (proj2 (Z.leb_le _ _)), (proj2 (Z.leb_le _ _)); [done| |done].
    rewrite Hl. done. }
  apply wp_bind. eapply wp_edit_byte; [apply editing_start; [apply Hon|apply Hon]|exact Hupd|]. intros v2 Hed.
  apply wp_bind. eapply wp_edit_flag; [exact Hed|]. intros v3 Hed3 Hf. apply wp_ret. split; [done|]. exists e.
  split; [done|]. by eapply rewrite_entry.
Qed.

End edit.


(** ** A cleared cluster *)

Definition zero_sector : list byte := replicate (Z.to_nat SS) x00.

Lemma len_zero_sector : len zero_sector = SS.
Proof using Type. unfold zero_sector. by rewrite len_replicate. Qed.

Lemma zero_sector_entry k : slice zero_sector ((k * SZDIRE) mod SS) SZDIRE = Some zero_entry.
Proof using Type.
  pose proof (ent_room k) as Hro. destruct (slice_is_Some zero_sector ((k * SZDIRE) mod SS) SZDIRE) as (z & Hzs & Hzl);
    [apply ent_room|done|rewrite len_zero_sector; lia|]. rewrite Hzs. f_equal. apply at_ext. intros i.
  rewrite (at_slice _ _ _ _ _ Hzs). unfold zero_entry, zero_sector.
  destruct (Z.leb_spec 0 i), (Z.ltb_spec i SZDIRE); cbn [andb].
  - rewrite !at_lookup by lia. by rewrite !lookup_replicate_2 by (revert Hro; unfold_consts; lia).
  - rewrite at_lookup by lia. symmetry. apply lookup_ge_None. rewrite length_replicate. lia.
  - by rewrite at_neg by lia.
  - by rewrite at_neg by lia.
Qed.

(** [dir_clear] fills cluster [c] with zeros. *)
Lemma dir_clear_spec v c :
  vol_ok v -> coherent v -> alive G v -> data_layout (vfs v) -> valid_clst (vfs v) c ->
  (forall s, data_sect (vfs v) s -> G s) ->
  wp (dir_clear c) (fun r v' => r = FR_OK /\ touched G (vfs v) (in_file (vfs v) [c]) v v' /\ coherent v' /\
    (forall s, in_file (vfs v) [c] s -> lview v' s = Some zero_sector) /\ winsect (vfs v') = clst_sect (vfs v) c) v.
Proof using Type.
  intros Hv Hc Ha Hdl Hvc HG. unfold dir_clear. pose proof (csize_pos _ Hdl) as Hcs. apply wp_bind.
  eapply wp_mono; [apply (sync_touched G (vfs v) (in_file (vfs v) [c])); [by apply sv_refl|done|done]|].
  intros r v1 (-> & Ht1 & Hc1 & Hwf & Hws). change (negb (FR_OK =r FR_OK)) with false. cbv iota.
  apply wp_bind, wp_get_fs. pose proof Ht1 as ([Hv1 Hg1] & Ha1 & Hal1 & Hvw1).
  pose proof Hg1 as (_&Epd&_&_&_&Ecs&Enf&_&_&_&_&Eda)%geom_fields.
  assert (clst2sect (vfs v1) c = clst_sect (vfs v) c) as ->.
  { rewrite <- (clst2sect_data _ Hdl) by (done || apply Hv). unfold clst2sect. by rewrite Enf, Ecs, Eda. }
  cbv zeta. set (s0 := clst_sect (vfs v) c). rewrite Ecs.
  assert (forall n, 0 <= n < csize (vfs v) -> 0 < s0 + n < U32 /\ plain (vfs v) (s0 + n) /\ G (s0 + n)) as Hin.
  { intros n Hn. pose proof (clst_data _ c n Hvc Hn) as Hd. split; [by apply (data_range (vfs v) Hdl)|].
    split; [apply data_plain; [done|apply Hv|done]|by apply HG]. }
  destruct (Hin 0 ltac:(lia)) as (Hr0 & _ & Hg0). rewrite Z.add_0_r in Hr0, Hg0.
  apply wp_bind, wp_mod_fs, wp_bind. unfold win_memset. eapply wp_set_win_opt.
  { cbn [vfs win set_winsect]. change (replicate _ _) with zero_sector. exact (splice_whole _ _ (eq_trans (ok_win _ (proj1 Hv1)) (eq_sym len_zero_sector))). }
  set (fs2 := set_win zero_sector (set_winsect s0 (vfs v1))).
  set (J := fun n w => vfs w = fs2 /\ dok (vdsk w) /\ (forall q x, dgood (vdsk v1) q x -> dgood (vdsk w) q x) /\
    0 <= n <= csize (vfs v) /\ forall x, media (vdsk w) (pdrv (vfs v)) x =
      if (s0 <=? x) && (x <? s0 + n) then Some zero_sector else media (vdsk v1) (pdrv (vfs v)) x).
  apply wp_bind. eapply wp_mono; [apply (wp_loop true J (fun n _ => csize (vfs v) - n) (fun n w => n = csize (vfs v) /\ J n w))|].
  - intros n w (Ew & Hd & Hgd & Hn & Hm). unfold dir_clear_body. apply wp_bind, wp_get_fs. rewrite Ew.
    change (csize fs2) with (csize (vfs v1)). rewrite Ecs. destruct (Z.ltb_spec n (csize (vfs v))) as [Hlt|]; [|apply wp_ret; split; [lia|]; split; done].
    destruct (Hin n ltac:(lia)) as (Hr & Hp & Hg). rewrite u32_small by lia. change (pdrv fs2) with (pdrv (vfs v1)). rewrite Epd.
    change (win fs2) with zero_sector. apply wp_bind, wp_on_disk.
    eapply wp_mono; [apply wp_conj; [apply (good_write (vdsk w) _ zero_sector); [done|lia|apply len_zero_sector|]|
      apply (wp_write_sector true (vdsk w) _ zero_sector (s0 + n) (fun r d' => dok d' /\ (forall x, x <> s0 + n -> media d' (pdrv (vfs v)) x = media (vdsk w) (pdrv (vfs v)) x) /\
     (r = RES_OK -> media d' (pdrv (vfs v)) (s0 + n) = Some zero_sector))); [done|lia|apply len_zero_sector|done]]|].
    { apply Hgd. rewrite <- Epd. by apply Ha1. }
    intros r d' [(-> & Hgd') (Hd' & Hm' & Hw')]. change (RES_OK =d RES_OK) with true. cbv iota. apply wp_ret.
    rewrite u32_small by (pose proof (csize_pos _ Hdl); unfold U32; lia). split; [|lia]. split; [exact Ew|]. split; [done|]. split; [auto|].
    split; [lia|]. cbn [vdsk]. intros x. destruct (Z.eq_dec x (s0 + n)) as [->|Hne].
    + rewrite Hw' by done. by rewrite (proj2 (Z.leb_le _ _)), (proj2 (Z.ltb_lt _ _)) by lia.
    + rewrite Hm', Hm by done. destruct (Z.leb_spec s0 x), (Z.ltb_spec x (s0 + n)), (Z.ltb_spec x (s0 + (n + 1))); cbn [andb]; try done; lia.
  - split; [done|]. split; [apply Hv1|]. split; [done|]. split; [lia|]. intros x. cbn [vdsk].
    destruct (Z.leb_spec s0 x), (Z.ltb_spec x (s0 + 0)); cbn [andb]; try done; lia.
  - unfold LOOP_FUEL. lia.
  - intros n w [-> (Ew & Hd & Hgd & _ & Hm)]. apply wp_ret. rewrite Z.eqb_refl. split; [done|].
    assert (forall s, in_file (vfs v) [c] s <-> s0 <= s < s0 + csize (vfs v)) as Hif.
    { intros s. split; [intros (c' & k & Hin' & Hk & ->); apply list_elem_of_singleton in Hin' as ->; unfold s0; lia|].
      intros Hs. exists c, (s - s0). split; [by apply list_elem_of_singleton|]. unfold s0 in *. lia. }
    assert (vol_ok w) as Hvw.
    { split; [|done]. rewrite Ew. apply fs_ok_set_win; [apply fs_ok_set_winsect; [apply Hv1|lia]|apply len_zero_sector]. }
    assert (forall s, lview w s = if (s0 <=? s) && (s <? s0 + csize (vfs v)) then Some zero_sector else media (vdsk v1) (pdrv (vfs v)) s) as Hlv.
    { intros s. unfold lview. rewrite Ew. cbn. rewrite Epd, Hm. destruct (Z.eqb_spec s s0) as [->|]; [|done].
      by rewrite (proj2 (Z.leb_le _ _)), (proj2 (Z.ltb_lt _ _)) by lia. }
    split; [|split; [|split; [|by rewrite Ew]]].
    + split; [split; [done|by rewrite Ew]|]. split.
      { rewrite <- (vol_eta w), Ew. apply (alive_disk G v1); [done|done|done|done]. }
      split; [by rewrite Ew|]. intros s Hp Hns. rewrite Hlv. rewrite Hif in Hns.
      rewrite <- (Hvw1 s Hp) by (by rewrite Hif). unfold lview. rewrite <- Epd.
      destruct (Z.eqb_spec s (winsect (vfs v1))) as [->|].
      * rewrite (Hc1 Hwf); [|]. 1: { destruct (Z.leb_spec s0 (winsect (vfs v1))), (Z.ltb_spec (winsect (vfs v1)) (s0 + csize (vfs v))); done || lia. }
        apply Hp.
      * destruct (Z.leb_spec s0 s), (Z.ltb_spec s (s0 + csize (vfs v))); done || lia.
    + intros Hf0 Hnn. rewrite Ew in *. cbn in *. rewrite Epd, Hm. by rewrite (proj2 (Z.leb_le _ _)), (proj2 (Z.ltb_lt _ _)) by lia.
    + intros s Hin'. rewrite Hif in Hin'. rewrite Hlv. by rewrite (proj2 (Z.leb_le _ _)), (proj2 (Z.ltb_lt _ _)) by lia.
Qed.



(** ** A directory grows *)

(** The volume may have been looked at and its window written back, no more. *)
Record kept v v' : Prop := mk_kept {
  kp_sound : sound G v';
  kp_geom : geom (vfs v') = geom (vfs v);
  kp_fat : forall c, valid_clst (vfs v) c -> fat_entry v' c = fat_entry v c;
  kp_view : forall s, plain (vfs v) s -> off_fat (vfs v) s -> lview v' s = lview v s
}.

Lemma calm_kept v v' : sound G v -> calm G v v' -> kept v v'.
Proof using Type.
  intros Hs [Hu Ha]. destruct (unchanged_frame G v [] v' Hs Hu Ha) as [Hs' _].
  assert (forall c, valid_clst (vfs v) c -> fat_entry v' c = fat_entry v c) as Hf.
  { intros c Hc. apply unchanged_entry; [apply Hs|apply Hs|done|done]. }
  destruct Hu as ([_ Hg] & _ & _ & Hvw). split; [done|done|done|]. intros s Hp _. by apply Hvw.
Qed.

Section grow.
Context (v0 : vol D) (sc : Z) (cs : list Z) (Hs : sound G v0) (Hsp : dir_space G v0 sc (Clst cs)).
Context (es : list (list byte)) (Hes : dir_holds v0 (Clst cs) es).

(** The directory has got the cluster [x], full of free entries. *)
Record lengthened (x : Z) v : Prop := mk_lengthened {
  ln_sound : sound G v;
  ln_geom : geom (vfs v) = geom (vfs v0);
  ln_free : valid_clst (vfs v0) x /\ fat_entry v0 x = Some 0;
  ln_fat : forall c, valid_clst (vfs v0) c -> c <> x -> c ∉ cs -> fat_entry v c = fat_entry v0 c;
  ln_view : forall s, plain (vfs v0) s -> off_fat (vfs v0) s -> ~ in_file (vfs v0) [x] s -> lview v s = lview v0 s;
  ln_space : dir_space G v sc (Clst (cs ++ [x]));
  ln_holds : dir_holds v (Clst (cs ++ [x])) (es ++ replicate (Z.to_nat (csize (vfs v0) * 16)) zero_entry)
}.

(** The directory is not at its limit, so it has room for another cluster. *)
Lemma dsize_grown x :
  dsize (vfs v0) (Clst cs) < MAX_DIR / SZDIRE ->
  dsize (vfs v0) (Clst cs) = len cs * (csize (vfs v0) * 16) /\
  dsize (vfs v0) (Clst (cs ++ [x])) = len cs * (csize (vfs v0) * 16) + csize (vfs v0) * 16.
Proof using Hs.
  intros Hlt. cbn in *. destruct (ents_per_clst v0) as [_ E]. rewrite E in *. rewrite len_app. change (len [x]) with 1.
  destruct (dl_csize _ (so_data _ _ Hs)) as (k & Hk & Ec).
  assert (MAX_DIR / SZDIRE = 2 ^ (12 - k) * (csize (vfs v0) * 16)) as Em.
  { rewrite Ec, Z.mul_assoc, <- Z.pow_add_r by lia. replace (12 - k + k) with 12 by lia. done. }
  rewrite Em in *. assert (0 < csize (vfs v0) * 16) by (rewrite Ec; pose proof (Z.pow_pos_nonneg 2 k ltac:(done) ltac:(lia)); lia).
  split; [lia|]. assert (len cs < 2 ^ (12 - k)) by nia. nia.
Qed.

(** The chain with a new end. *)
Lemma linked_space x y v1 :
  last cs = Some y -> valid_clst (vfs v0) x -> fat_entry v0 x = Some 0 -> table_is v0 (linked_table v0 y x) v1 ->
  chain v1 (dir_start (vfs v1) sc) (cs ++ [x]) /\ ~ bad_entry v1.
Proof using Hs Hsp.
  intros Hy Hx Hx0 ([Hv1 Hg1] & _ & Hte & _). pose proof Hg1 as (Ety&_&_&_&_&_&Enf&_&_&_&Edb&_)%geom_fields.
  assert (y ∈ cs) as Hyc by (by apply last_Some_elem_of). cbn in Hsp.
  pose proof (chain_all_valid _ _ _ _ Hsp Hyc) as Hvy. assert (x ∉ cs) as Hxn by (intros Hin; by eapply (chain_nonzero v0) in Hin).
  assert (nz y = true) as Hnz by (unfold nz; destruct Hvy; by rewrite (proj2 (Z.eqb_neq y 0)) by lia).
  destruct (end_mark (vfs v0) (so_fat _ _ Hs)) as [Hm1 Hm2]. unfold linked_table in Hte. rewrite Hnz in Hte. unfold fset in Hte.
  assert (x <> y) as Hxy by (intros ->; done). split.
  - assert (dir_start (vfs v1) sc = dir_start (vfs v0) sc) as -> by (unfold dir_start; by rewrite Ety, Edb).
    apply (chain_snoc v0 v1 _ cs x y (ent_mask (fs_type (vfs v0)) 0xFFFFFFFF)); try done.
    + intros z Hz Hzy. rewrite Hte by (by eapply chain_all_valid). rewrite (proj2 (Z.eqb_neq z y)), (proj2 (Z.eqb_neq z x)); congruence.
    + rewrite Hte by done. by rewrite Z.eqb_refl.
    + rewrite Hte by done. by rewrite (proj2 (Z.eqb_neq x y)), Z.eqb_refl.
  - intros (c & Hc & E). assert (valid_clst (vfs v0) c) as Hc0 by (unfold valid_clst in *; by rewrite <- Enf).
    rewrite Hte in E by done. destruct (Z.eqb_spec c y); [destruct Hx; simplify_eq; lia|].
    destruct (Z.eqb_spec c x); [simplify_eq; lia|]. apply (so_bad _ _ Hs). by exists c.
Qed.

(** What a link in the table keeps of the volume. *)
Lemma linked_sound x y v1 :
  last cs = Some y -> valid_clst (vfs v0) x -> fat_entry v0 x = Some 0 -> table_is v0 (linked_table v0 y x) v1 -> alive G v1 ->
  sound G v1.
Proof using Hs Hsp.
  intros Hy Hx Hx0 Ht Ha. destruct (linked_space x y v1 Hy Hx Hx0 Ht) as [_ Hb]. destruct Ht as (Hsv & Hc & _).
  by apply (sound_next G v0).
Qed.

(** The entries of the longer directory. *)
Lemma cleared_holds x y v1 v2 :
  last cs = Some y -> valid_clst (vfs v0) x -> fat_entry v0 x = Some 0 -> table_is v0 (linked_table v0 y x) v1 ->
  touched G (vfs v1) (in_file (vfs v1) [x]) v1 v2 ->
  (forall s, in_file (vfs v1) [x] s -> lview v2 s = Some zero_sector) -> dsize (vfs v0) (Clst cs) < MAX_DIR / SZDIRE ->
  dir_holds v2 (Clst (cs ++ [x])) (es ++ replicate (Z.to_nat (csize (vfs v0) * 16)) zero_entry).
Proof using Hs Hsp Hes.
  intros Hy Hx Hx0 Ht Htc Hz Hlt. pose proof Ht as ([Hv1 Hg1] & Hc1 & Hte & Hvw1). pose proof Htc as ([Hv2 Hg2] & _ & _ & Hvw2).
  assert (geom (vfs v2) = geom (vfs v0)) as Hg20 by congruence. pose proof (so_data _ _ Hs) as Hdl. pose proof (csize_pos _ Hdl) as Hcs.
  destruct (dsize_grown x Hlt) as [Ed Ed']. pose proof (length_es _ _ _ Hes) as Hlen. unfold dir_holds.
  rewrite (dsize_geom _ _ _ Hg20), Ed', len_app, len_replicate by lia. unfold len at 1. split; [lia|].
  intros k Hk. rewrite at_app. unfold dentry. rewrite (dsect_geom _ _ _ _ Hg20).
  assert (forall s, in_file (vfs v1) [x] s <-> in_file (vfs v0) [x] s) as Hif.
  { intros s. unfold in_file, clst_sect. pose proof Hg1 as (_&_&_&_&_&->&_&_&_&_&_&->)%geom_fields. done. }
  cbn [dsect]. destruct (fsect_ent (vfs v0) (cs ++ [x]) k ltac:(lia)) as (-> & _).
  assert (0 <= k / 16 / csize (vfs v0)) as Hq0 by (apply Z.div_pos; [apply Z.div_pos|]; lia).
  pose proof (Z.mod_pos_bound (k / 16) (csize (vfs v0)) ltac:(lia)) as Hm.
  unfold len in Hk |- *. destruct (Z.ltb_spec k (Z.of_nat (length es))) as [Hin|Hout].
  - rewrite <- (proj2 Hes) by (unfold len; lia). unfold dentry. cbn [dsect].
    destruct (fsect_ent (vfs v0) cs k ltac:(lia)) as (E2 & _ & _). rewrite E2.
    destruct (dsize_clst G v0 sc (Clst cs) Hs Hsp cs k (Z.to_nat (k / 16 / csize (vfs v0))) eq_refl) as [c Hc]; [lia|lia|].
    rewrite lookup_app_l by (by eapply lookup_lt_Some). rewrite Hc in *. cbn in *. set (s := clst_sect _ _ + _) in *.
    assert (c ∈ cs) as Hcc by (by eapply list_elem_of_lookup_2).
    assert (data_sect (vfs v0) s) as Hds by (apply clst_data; [by eapply chain_all_valid|done]).
    rewrite Hvw2, Hvw1; [done|by apply data_plain; [|apply Hs|]|apply data_off_fat; [done|apply Hs|apply Hs|done]| |].
    + apply (plain_geom (vfs v0)); [done|]. by apply data_plain; [|apply Hs|].
    + rewrite Hif. intros (c' & j & Hc' & Hj & Es). apply list_elem_of_singleton in Hc' as ->.
      apply clst_sect_inj in Es as [-> _]; [|done|done]. by eapply (chain_nonzero v0) in Hx0.
  - assert (k / 16 / csize (vfs v0) = len cs) as Eq.
    { rewrite Z.div_div by lia. symmetry. apply (Z.div_unique _ _ _ (k - 16 * csize (vfs v0) * len cs)); unfold len in *; lia. }
    rewrite Eq. unfold len. rewrite Nat2Z.id, list_lookup_middle by done. cbn. set (s := clst_sect _ _ + _).
    rewrite Hz; [|rewrite Hif; exists x; eexists; split; [by apply list_elem_of_singleton|]; split; [exact Hm|done]]. cbn.
    rewrite at_lookup by lia. rewrite lookup_replicate_2 by lia.
    apply zero_sector_entry.
Qed.

Lemma grown_dir x y v1 v2 :
  last cs = Some y -> valid_clst (vfs v0) x -> fat_entry v0 x = Some 0 -> table_is v0 (linked_table v0 y x) v1 -> alive G v1 ->
  touched G (vfs v1) (in_file (vfs v1) [x]) v1 v2 -> coherent v2 ->
  (forall s, in_file (vfs v1) [x] s -> lview v2 s = Some zero_sector) -> dsize (vfs v0) (Clst cs) < MAX_DIR / SZDIRE ->
  lengthened x v2.
Proof using Hs Hsp Hes.
  intros Hy Hx Hx0 Ht Ha Htc Hc2 Hz Hlt. pose proof (linked_sound x y v1 Hy Hx Hx0 Ht Ha) as Hs1.
  destruct (linked_space x y v1 Hy Hx Hx0 Ht) as [Hch _]. pose proof Ht as ([Hv1 Hg1] & Hc1 & Hte & Hvw1).
  pose proof Htc as ([Hv2 Hg2] & _ & _ & Hvw2). pose proof Hg1 as (_&_&_&_&_&Ecs&Enf&_&_&_&_&Eda)%geom_fields.
  assert (forall c, valid_clst (vfs v1) c <-> valid_clst (vfs v0) c) as Hvc by (intros c; unfold valid_clst; by rewrite Enf).
  assert (forall s, in_file (vfs v1) [x] s <-> in_file (vfs v0) [x] s) as Hif.
  { intros s. unfold in_file, clst_sect. by rewrite Ecs, Eda. }
  destruct (touched_sound (in_file (vfs v1) [x]) v1 v2 Hs1 Htc Hc2) as [Hs2 Hf2].
  { intros s (c & j & Hc & Hj & ->). apply list_elem_of_singleton in Hc as ->.
    apply data_off_fat; [apply Hs1|apply Hs1|apply Hs1|]. apply clst_data; [by apply Hvc|done]. }
  assert (dir_space G v1 sc (Clst (cs ++ [x]))) as Hsp1 by exact Hch.
  split; [done|congruence|done| | | |by apply (cleared_holds x y v1)].
  - intros c Hc Hcx Hcc. rewrite Hf2, Hte by (done || by apply Hvc). unfold linked_table, fset.
    assert (c <> y) by (intros ->; apply Hcc; by apply last_Some_elem_of).
    destruct (nz y); rewrite ?(proj2 (Z.eqb_neq c y)), (proj2 (Z.eqb_neq c x)) by done; done.
  - intros s Hp Ho Hni. rewrite Hvw2, Hvw1 by (done || (by apply (plain_geom (vfs v0))) || by rewrite Hif). done.
  - by apply (dir_space_next v1).
Qed.

Lemma calm_table v1 f f' v2 :
  calm G v0 v1 -> table_is v1 f v2 -> (forall c, valid_clst (vfs v0) c -> f' c = f c) -> table_is v0 f' v2.
Proof using Type.
  intros [([_ Hg] & _ & _ & Hvw) _] ([Hv2 Hg2] & Hc2 & Hf & Hs2) Hff.
  assert (forall c, valid_clst (vfs v0) c -> valid_clst (vfs v1) c) as Hvc.
  { intros c. unfold valid_clst. by apply geom_fields in Hg as (_&_&_&_&_&_&->&_). }
  split; [split; [done|congruence]|]. split; [done|]. split; [intros c Hc; rewrite Hff by done; auto|].
  intros s Hp Ho. rewrite Hs2; [by apply Hvw|by apply (plain_geom (vfs v0))|by apply (off_fat_geom (vfs v0))].
Qed.

Lemma table_kept v : table_is v0 (fat_entry v0) v -> alive G v -> kept v0 v.
Proof using Hs.
  intros (Hsv & Hc & Hf & Hvw) Ha. pose proof Hsv as [_ Hg]. split; [|done|done|done].
  apply (sound_next G v0); try done. intros (c & Hc' & E). apply (so_bad _ _ Hs). exists c.
  apply geom_fields in Hg as (_&_&_&_&_&_&En&_). assert (valid_clst (vfs v0) c) by (unfold valid_clst in *; by rewrite <- En).
  split; [done|]. by rewrite <- Hf.
Qed.

(** The chain is at its end: [create_chain] finds the volume full or links a
    new cluster. *)
Lemma create_chain_end y v :
  calm G v0 v -> last cs = Some y ->
  wp (create_chain y) (fun x v' => alive G v' /\
    ((x = 0 /\ kept v0 v' /\ full (vfs v0) v') \/
     (valid_clst (vfs v0) x /\ fat_entry v0 x = Some 0 /\ table_is v0 (linked_table v0 y x) v'))) v.
Proof using Hs Hsp.
  intros Hc Hy. pose proof Hc as [Hu Ha]. pose proof Hu as ([Hv Hg] & _ & Hco & _).
  assert (y ∈ cs) as Hyc by (by apply last_Some_elem_of). pose proof (chain_all_valid _ _ _ _ Hsp Hyc) as [Vy1 Vy2].
  pose proof (ok_n_fatent _ (proj1 (so_ok _ _ Hs))) as Hn. pose proof Hg as (Ety&_&_&_&_&_&Enf&_)%geom_fields.
  destruct (chain_last _ _ _ _ Hsp Hy) as (e & He & Hge).
  pose proof (calm_kept v0 v Hs Hc) as [Hsv _ Hfe _].
  assert (forall c, valid_clst (vfs v) c <-> valid_clst (vfs v0) c) as Hvc by (intros c; unfold valid_clst; by rewrite Enf).
  eapply wp_mono; [apply (create_chain_alive G (vfs v0) (so_fat _ _ Hs)); [by split|done|done|lia]|].
  intros x v' (Hpost & Ha' & Hx). split; [done|].
  destruct Hpost as [[-> Hbl]|[?|[(-> & Ht1 & Hal & _ & Hfull)|[(Hv1 & _ & He' & _)|(Hv1 & Hx0 & _ & Ht1 & _)]]]].
  - exfalso. destruct Hbl as [Hbl|(_ & [Hbl|Hbl])]; [by apply (so_bad _ _ Hsv)|by apply Hbl, Hvc|].
    rewrite Hfe, He in Hbl by done. simplify_eq. lia.
  - done.
  - left. assert (table_is v0 (fat_entry v0) v') as Ht0 by (apply (calm_table v (fat_entry v)); [done|done|intros c Hcv; by rewrite Hfe]).
    split; [done|]. split; [by apply table_kept|]. destruct Hfull as [Hf|Hf]; [left; unfold alloc_info in Hal; congruence|right].
    intros c Hcv. destruct Ht0 as (_ & _ & -> & _); [|done]. rewrite <- Hfe by done. by apply Hf, Hvc.
  - exfalso. rewrite Hfe, He in He' by done. simplify_eq. destruct Hv1. lia.
  - right. apply Hvc in Hv1 as Hv0. split; [done|]. split; [by rewrite <- Hfe|]. apply (calm_table v (linked_table v y x)); [done|done|].
    intros c Hcv. unfold linked_table, fset. rewrite Ety. destruct (nz y); repeat destruct (_ =? _); try done; by rewrite Hfe.
Qed.

Lemma dir_next_clst_grow dp v :
  calm G v0 v -> last cs = Some (dp_clust dp) -> dsize (vfs v0) (Clst cs) < MAX_DIR / SZDIRE ->
  wp (dir_next_clst dp true) (fun r v' =>
    (r = inl (FR_DENIED, dp) /\ kept v0 v' /\ full (vfs v0) v') \/ exists x, r = inr x /\ lengthened x v') v.
Proof using Hs Hsp Hes.
  intros Hc Hy Hlt. unfold dir_next_clst. apply wp_bind, wp_get_fs, wp_bind.
  assert (dp_clust dp ∈ cs) as Hyc by (by apply last_Some_elem_of). pose proof (chain_all_valid _ _ _ _ Hsp Hyc) as Hvy.
  destruct (chain_last _ _ _ _ Hsp Hy) as (e & He & Hge).
  pose proof (calm_geom _ _ _ Hc) as (_&_&_&_&_&_&->&_)%geom_fields. destruct Hvy as [V1 V2].
  eapply wp_mono; [apply (get_fat_alive G v0); [apply Hs|apply Hs|apply Hc|apply Hc|done]|].
  intros x1 v1 (He1 & Hne & Hc1). rewrite He in He1. injection He1 as <-.
  rewrite (proj2 (Z.leb_gt e 1)), (proj2 (Z.eqb_neq e _)) by (done || lia).
  destruct (Z.geb_spec e (n_fatent (vfs v0))); [|lia]. cbn [negb]. apply wp_bind.
  eapply wp_mono; [by apply create_chain_end|].
  intros x v2 [Ha2 [(-> & Hk & Hf)|(Hx & Hx0 & Ht)]]; [cbn [Z.eqb]; apply wp_ret; by left|].
  pose proof (linked_sound x _ v2 Hy Hx Hx0 Ht Ha2) as Hs2. pose proof Ht as ([_ Hg2] & _).
  pose proof (fl_max _ (so_fat _ _ Hs)) as Hmx. pose proof Hx as [X1 X2].
  rewrite (proj2 (Z.eqb_neq x 0)), (proj2 (Z.eqb_neq x 1)), (proj2 (Z.eqb_neq x _)) by (revert Hmx; unfold_consts; lia).
  apply wp_bind. eapply wp_mono; [apply dir_clear_spec; [apply Hs2|apply Hs2|apply Hs2|apply Hs2| |apply Hs2]|].
  { unfold valid_clst. by apply geom_fields in Hg2 as (_&_&_&_&_&_&->&_). }
  intros r v3 (-> & Htc & Hc3 & Hz & _). change (negb (FR_OK =r FR_OK)) with false. cbv iota. apply wp_ret. right. exists x.
  split; [done|]. by eapply grown_dir.
Qed.

(** [dir_next] at the end of the directory, with permission to stretch it. *)
Lemma dir_next_grow dp k v :
  calm G v0 v -> dir_at (vfs v0) (Clst cs) k dp -> k + 1 = dsize (vfs v0) (Clst cs) -> k + 1 < MAX_DIR / SZDIRE ->
  wp (dir_next dp true) (fun r v' => dp_obj r.2 = dp_obj dp /\ dp_fn r.2 = dp_fn dp /\
    ((r.1 = FR_DENIED /\ kept v0 v' /\ full (vfs v0) v') \/
     exists x, r.1 = FR_OK /\ lengthened x v' /\ dir_at (vfs v') (Clst (cs ++ [x])) (k + 1) r.2)) v.
Proof using Hs Hsp Hes.
  intros Hc Hat Hend Hm. apply (dir_next_unfold G v0 sc (Clst cs) Hs Hsp dp k true v); [done|done|lia|]. intros _.
  pose proof (so_data _ _ Hs) as Hdl. pose proof (csize_pos _ Hdl) as Hcs. destruct (dsize_grown 0) as [Ed _]; [lia|].
  rewrite Ed in Hend.
  assert ((k + 1) / 16 = len cs * csize (vfs v0) /\ (k + 1) mod 16 = 0) as [E1 E2].
  { rewrite Hend, Z.mul_assoc. split; [by apply Z.div_mul|by apply Z.mod_mul]. }
  unfold next_from. rewrite E1, E2. rewrite Z.mod_mul by lia. cbn [Z.eqb]. cbv iota zeta. rec_simpl.
  pose proof (dir_at_clst G v0 sc _ Hs Hsp k dp Hat) as Hcl. cbn in Hcl.
  assert (last cs = Some (dp_clust dp)) as Hla.
  { rewrite last_lookup, <- Hcl. f_equal. pose proof (div_succ k 16 ltac:(done)) as Hq. rewrite E2 in Hq. destruct Hq as [Hq _].
    pose proof (div_succ (k / 16) (csize (vfs v0)) ltac:(lia)) as Hq2. rewrite <- Hq, E1, Z.mod_mul, Z.div_mul in Hq2 by lia.
    destruct Hq2 as [Hq2 _]. unfold len in Hq2. lia. }
  assert (valid_clst (vfs v0) (dp_clust dp)) as [V1 _] by (eapply chain_all_valid; [exact Hsp|by apply last_Some_elem_of]).
  rewrite (proj2 (Z.eqb_neq (dp_clust dp) 0)) by lia. apply wp_bind.
  eapply wp_mono; [apply (dir_next_clst_grow (set_dp_sect (u32 (dp_sect dp + 1)) dp) v Hc Hla); lia|].
  intros r v' [(-> & Hk & Hf)|(x & -> & Hln)]; apply wp_ret; unfold next_ent; cbn [fst snd]; rec_simpl;
    (split; [done|]; split; [done|]); [by left|right]. exists x. split; [done|]. split; [done|].
  pose proof (ln_geom _ _ Hln) as Hg. pose proof (ln_free _ _ Hln) as [Hx _].
  destruct (fsect_ent (vfs v0) (cs ++ [x]) (k + 1) ltac:(lia)) as (F1 & F2 & _). rewrite E1 in F1, F2.
  rewrite Z.div_mul in F1, F2 by lia. rewrite Z.mod_mul in F1 by lia. unfold len in F1, F2. rewrite Nat2Z.id, list_lookup_middle in F1 by done.
  split; rec_simpl.
  - rewrite (dsize_geom _ _ _ Hg). destruct (dsize_grown x) as [_ ->]; [lia|]. pose proof (da_range _ _ _ _ Hat). lia.
  - done.
  - rewrite E2. symmetry. rewrite ent_off, E2. done.
  - rewrite (dsect_geom _ _ _ _ Hg). cbn [dsect]. rewrite F1. cbn. rewrite (clst2sect_data _ Hdl) by (done || apply Hs). f_equal. lia.
  - assert (bcs (vfs v') = bcs (vfs v0)) as -> by (unfold bcs; by apply geom_fields in Hg as (_&_&_&_&_&->&_)).
    rewrite F2, Nat2Z.id. by rewrite list_lookup_middle.
Qed.


End grow.


(** ** A new entry *)

Lemma first_free_some es k : first_free es = Some k ->
  exists e, es !! k = Some e /\ ent_free e = true /\ forall j e', es !! j = Some e' -> (j < k)%nat -> ent_free e' = false.
Proof using Type.
  unfold first_free. destruct (list_find _ es) as [[i e]|] eqn:E; [|done]. cbn. intros [= ->].
  apply list_find_Some in E as (He & Hf & Hb). exists e. split; [done|]. split; [done|]. intros j e' Hj Hlt.
  specialize (Hb j e' Hj Hlt). by destruct (ent_free e').
Qed.

Lemma first_free_at es k e : es !! k = Some e -> ent_free e = true ->
  (forall j e', es !! j = Some e' -> (j < k)%nat -> ent_free e' = false) -> first_free es = Some k.
Proof using Type.
  intros He Hf Hb. unfold first_free. rewrite (proj2 (list_find_Some _ es k e)); [done|]. split; [done|]. split; [done|].
  intros j e' Hj Hlt. rewrite (Hb j e' Hj Hlt). done.
Qed.

Lemma first_free_none es k :
  (forall j e', es !! j = Some e' -> (j < k)%nat -> ent_free e' = false) -> (length es <= k)%nat -> first_free es = None.
Proof using Type.
  intros Hb Hk. unfold first_free. rewrite (list_find_none _ es k); [done| |done]. intros j e' Hj Hlt. rewrite (Hb j e' Hj Hlt). done.
Qed.

Section register.
Context (v0 : vol D) (sc : Z) (sp : dspace) (Hs : sound G v0) (Hsp : dir_space G v0 sc sp).
Context (es : list (list byte)) (Hes : dir_holds v0 sp es).

(** The directory as it is, or with another cluster if it was full. *)
Inductive room : vol D -> dspace -> list (list byte) -> Prop :=
| room_same : room v0 sp es
| room_more cs x v1 :
    sp = Clst cs -> first_free es = None -> lengthened v0 sc cs es x v1 ->
    room v1 (Clst (cs ++ [x])) (es ++ replicate (Z.to_nat (csize (vfs v0) * 16)) zero_entry).

Lemma room_ok v1 sp1 es1 : room v1 sp1 es1 ->
  sound G v1 /\ dir_space G v1 sc sp1 /\ dir_holds v1 sp1 es1 /\ geom (vfs v1) = geom (vfs v0).
Proof using Hs Hsp Hes. intros [|cs x v2 Esp _ []]; done. Qed.

(** The object stands on the first free entry. *)
Definition on_free dp v : Prop := exists v1 sp1 es1 k,
  room v1 sp1 es1 /\ calm G v1 v /\ dir_at (vfs v1) sp1 (Z.of_nat k) dp /\ first_free es1 = Some k.

(** No entry can be had. *)
Definition no_room v : Prop :=
  first_free es = None /\ kept v0 v /\ (sp = Root \/ dsize (vfs v0) sp = MAX_DIR / SZDIRE \/ full (vfs v0) v).

Lemma zero_entry_free : ent_free zero_entry = true.
Proof using Type. done. Qed.

(** The loop: the object stands on the first free entry, or all entries before
    it are in use. *)
Definition alloc_inv dp0 (a : DIR * Z) v : Prop := same_dir dp0 a.1 /\ a.2 = 0 /\
  (on_free a.1 v \/ (calm G v0 v /\ exists k : nat,
    dir_at (vfs v0) sp (Z.of_nat k) a.1 /\ forall j e', es !! j = Some e' -> (j < k)%nat -> ent_free e' = false)).

Definition alloc_end dp0 (r : FRESULT * DIR) v : Prop := same_dir dp0 r.2 /\
  ((r.1 = FR_OK /\ on_free r.2 v) \/ (r.1 = FR_DENIED \/ r.1 = FR_NO_FILE) /\ no_room v).

Lemma alloc_free dp v : on_free dp v -> wp (dir_alloc_body 1 (dp, 0)) (fun r v' => r = inr (FR_OK, dp) /\ on_free dp v') v.
Proof using Hs Hsp Hes.
  intros (v1 & sp1 & es1 & k & Hroom & Hc & Hat & Hff). destruct (room_ok _ _ _ Hroom) as (Hs1 & Hsp1 & Hes1 & _).
  destruct (first_free_some _ _ Hff) as (e & He & Hfr & _). unfold dir_alloc_body. apply wp_bind.
  eapply wp_mono; [by eapply (look G v1 sc sp1 Hs1 Hsp1 es1 Hes1 k), dir_at_pos|].
  intros r v2 (-> & e' & He' & Hon). rewrite He in He'. injection He' as <-. change (negb (FR_OK =r FR_OK)) with false. cbv iota.
  apply wp_bind. eapply wp_ent_byte; [exact Hon|done|]. cbv zeta. fold (ent_free e). rewrite Hfr. cbn. apply wp_ret.
  split; [done|]. exists v1, sp1, es1, k. split; [done|]. split; [apply Hon|done].
Qed.

(** Behind the last entry. *)
Lemma alloc_at_end dp0 dp v :
  calm G v0 v -> same_dir dp0 dp -> dir_at (vfs v0) sp (dsize (vfs v0) sp - 1) dp -> first_free es = None ->
  wp (dir_next dp true) (fun r v' => if r.1 =r FR_OK then alloc_inv dp0 (r.2, 0) v' /\ 0 <= entries_left r.2 < entries_left dp
    else alloc_end dp0 r v') v.
Proof using Hs Hsp Hes.
  intros Hc Hsd Hat Hff. pose proof (dsize_range G v0 sc sp Hs Hsp) as Hdr. set (k := dsize (vfs v0) sp - 1) in *.
  assert (forall r v', moved G v0 sp k dp r v' -> k + 1 = dsize (vfs v0) sp -> (sp = Root \/ dsize (vfs v0) sp = MAX_DIR / SZDIRE) ->
    if r.1 =r FR_OK then alloc_inv dp0 (r.2, 0) v' /\ 0 <= entries_left r.2 < entries_left dp else alloc_end dp0 r v') as Hno.
  { intros [r dp'] v' [Hc' Hr] Ek Hlim. rewrite Ek, Z.ltb_irrefl in Hr. destruct Hr as (Hr & Hz & Ho & Hf). cbn [fst snd] in *. subst r.
    change (FR_NO_FILE =r FR_OK) with false. cbv iota. split; cbn [fst snd].
    - eapply same_dir_trans; [exact Hsd|]. split; [done|by rewrite Ho].
    - right. split; [by right|]. split; [done|]. split; [by apply calm_kept|tauto]. }
  destruct (space_cases G v0 sc sp Hsp) as [(Esp & _)|(cs & Esp & Hch)].
  { eapply wp_mono; [apply (dir_next_spec G v0 sc sp Hs Hsp dp k true v Hc Hat); by left|]. intros r v' Hm. apply Hno; [done|lia|by left]. }
  destruct (Z.eq_dec (dsize (vfs v0) sp) (MAX_DIR / SZDIRE)) as [E|E].
  { eapply wp_mono; [apply (dir_next_spec G v0 sc sp Hs Hsp dp k true v Hc Hat); right; right; lia|].
    intros r v' Hm. apply Hno; [done|lia|by right]. }
  assert (dir_space G v0 sc (Clst cs)) as Hsp' by (by rewrite <- Esp). assert (dir_holds v0 (Clst cs) es) as Hes' by (by rewrite <- Esp).
  assert (dir_at (vfs v0) (Clst cs) k dp) as Hat' by (by rewrite <- Esp).
  assert (k + 1 = dsize (vfs v0) (Clst cs)) as Ek by (rewrite <- Esp; lia).
  eapply wp_mono; [apply (dir_next_grow v0 sc cs Hs Hsp' es Hes' dp k v Hc Hat' Ek); lia|].
  intros [r dp'] v' (Ho & Hf & Hr). cbn [fst snd] in *.
  assert (same_dir dp0 dp') as Hsd' by (eapply same_dir_trans; [exact Hsd|]; split; [done|by rewrite Ho]).
  destruct Hr as [(-> & Hk & Hfu)|(x & -> & Hln & Hatx)].
  - change (FR_DENIED =r FR_OK) with false. cbv iota. split; [done|]. right. split; [by left|]. split; [done|]. split; [done|]. auto.
  - change (FR_OK =r FR_OK) with true. cbv iota. pose proof (length_es _ _ _ Hes') as Hlen. split.
    + split; [done|]. split; [done|]. left. exists v', (Clst (cs ++ [x])), (es ++ replicate (Z.to_nat (csize (vfs v0) * 16)) zero_entry), (length es).
      split; [by apply (room_more cs x)|]. split; [apply calm_start; apply Hln|]. split; [by rewrite Hlen, <- Ek|].
      pose proof (csize_pos _ (so_data _ _ Hs)). apply (first_free_at _ _ zero_entry); [|done|].
      * rewrite lookup_app_r, Nat.sub_diag by done. apply lookup_replicate_2. lia.
      * intros j e' Hj Hlt. rewrite lookup_app_l in Hj by done. destruct (ent_free e') eqn:Efr; [|done].
        unfold first_free in Hff. destruct (list_find _ es) as [[]|] eqn:El; [done|]. apply list_find_None in El.
        rewrite Forall_lookup in El. by apply El in Hj.
    + unfold entries_left. rewrite (da_dptr _ _ _ _ Hatx), (da_dptr _ _ _ _ Hat). revert Ek E. rewrite <- Esp. revert Hdr. unfold_consts. change (0x200000 / 32) with 65536. lia.
Qed.

Lemma dir_alloc_spec dp v :
  calm G v0 v -> obj_sclust (dp_obj dp) = sc ->
  wp (dir_alloc dp 1) (fun r v' => same_dir dp r.2 /\
    ((r.1 = FR_OK /\ on_free r.2 v') \/ (r.1 = FR_DENIED /\ no_room v'))) v.
Proof using Hs Hsp Hes.
  intros Hc Hsc. unfold dir_alloc. apply wp_bind. pose proof (dsize_range G v0 sc sp Hs Hsp) as Hdr.
  eapply wp_mono; [apply (dir_sdi_spec G v0 sc sp Hs Hsp dp 0 v Hc Hsc); lia|].
  intros [r dp1] v1 (Hc1 & Hr & Hat1 & Hsd1). cbn [fst snd] in *. subst r. change (FR_OK =r FR_OK) with true. cbv iota. apply wp_bind.
  eapply wp_mono; [apply (wp_loop true (alloc_inv dp) (fun a _ => entries_left a.1) (alloc_end dp))|].
  - clear v Hc v1 Hc1 dp1 Hat1 Hsd1. intros [dp1 n] v (Hsd & En & [Hfr|(Hc & k & Hat & Hbef)]); cbn [fst snd] in *; subst n.
    { eapply wp_mono; [by apply alloc_free|]. intros r v' [-> Hf]. split; [done|]. by left. }
    unfold dir_alloc_body. apply wp_bind. eapply wp_mono; [by eapply (look G v0 sc sp Hs Hsp es Hes k), dir_at_pos|].
    intros r v1 (-> & e & He & Hon). change (negb (FR_OK =r FR_OK)) with false. cbv iota.
    apply wp_bind. eapply wp_ent_byte; [exact Hon|done|]. cbv zeta. fold (ent_free e). destruct (ent_free e) eqn:Efr.
    { cbn. apply wp_ret. split; [done|]. left. split; [done|]. exists v0, sp, es, k. split; [constructor|]. split; [apply Hon|].
      split; [done|]. by eapply first_free_at. }
    cbn [andb]. apply wp_bind. pose proof (length_es _ _ _ Hes) as Hlen. pose proof (da_range _ _ _ _ Hat) as Hk.
    assert (forall j e', es !! j = Some e' -> (j < S k)%nat -> ent_free e' = false) as Hbef'.
    { intros j e' Hj Hlt. destruct (decide (j = k)) as [->|]; [congruence|]. apply (Hbef j e' Hj). lia. }
    destruct (Z.eq_dec (Z.of_nat k + 1) (dsize (vfs v0) sp)) as [Ek|Ek].
    + eapply wp_mono; [apply (alloc_at_end dp dp1 v1); [apply Hon|done|by rewrite <- Ek, Z.add_simpl_r|apply (first_free_none es (S k)); [done|lia]]|].
      intros [r dp2] v2 Hr. cbn [fst snd] in Hr. destruct (fr_eqb_spec r FR_OK) as [->|]; by apply wp_ret.
    + eapply wp_mono; [apply (dir_next_spec G v0 sc sp Hs Hsp dp1 (Z.of_nat k) true v1); [apply Hon|done|right; left; lia]|].
      intros [r dp2] v2 [Hc2 Hr]. rewrite (proj2 (Z.ltb_lt _ _)) in Hr by lia. cbn [fst snd] in Hr. destruct Hr as (-> & Hat2 & Ho & Hf).
      change (FR_OK =r FR_OK) with true. cbv iota. apply wp_ret. cbn [fst snd]. split.
      * split; [eapply same_dir_trans; [exact Hsd|]; split; cbn [fst]; [done|by rewrite Ho]|]. split; [done|]. right. split; [done|].
        exists (S k). split; [|done]. by replace (Z.of_nat (S k)) with (Z.of_nat k + 1) by lia.
      * unfold entries_left. rewrite (da_dptr _ _ _ _ Hat2), (da_dptr _ _ _ _ Hat).
        pose proof (dsize_max G v0 sc sp Hs Hsp (Z.of_nat k + 1) ltac:(lia)) as Hmx. revert Hmx. unfold_consts. lia.
  - split; [done|]. split; [done|]. right. split; [done|]. exists 0%nat. split; [done|]. lia.
  - cbn [fst]. unfold entries_left. rewrite (da_dptr _ _ _ _ Hat1). unfold LOOP_FUEL. unfold_consts. lia.
  - intros [r dp2] v2 [Hsd2 Hr]. apply wp_ret. cbn [fst snd] in *. split; [done|].
    destruct Hr as [[-> Hf]|[[-> | ->] Hn]]; [by left|by right..].
Qed.

(** The entry [dir_register] writes. *)
Lemma fresh_edit (e fn e1 : list byte) :
  len e = SZDIRE -> len fn = 11 -> splice e 0 (replicate (Z.to_nat SZDIRE) (mkb 0)) = Some e1 ->
  splice e1 DIR_Name fn = Some (fresh fn).
Proof using Type.
  intros Hl Hf H1. pose proof (splice_len _ _ _ _ H1) as L1.
  destruct (splice_is_Some e1 DIR_Name fn) as (e2 & H2 & L2); [done|unfold_consts; lia|]. rewrite H2. f_equal.
  destruct (splice_Some_inv _ _ _ _ H2) as (_ & _ & _ & ->). destruct (splice_Some_inv _ _ _ _ H1) as (_ & _ & _ & ->).
  unfold fresh. rewrite Hf. rewrite len_replicate by done. unfold len in Hl, Hf. unfold_consts.
  change (Z.to_nat 0) with 0%nat. cbn [take app]. change (Z.to_nat (0 + 11)) with 11%nat. change (Z.to_nat (0 + 32)) with 32%nat.
  rewrite (drop_ge e 32) by (unfold SZDIRE in Hl; lia). by rewrite app_nil_r, !take_0, !app_nil_l, drop_replicate.
Qed.

(** [dir_register] puts the new entry in the first free place, or reports
    that there is none. *)
Lemma dir_register_spec dp fn v :
  calm G v0 v -> obj_sclust (dp_obj dp) = sc -> slice (dp_fn dp) 0 11 = Some fn ->
  wp (dir_register dp) (fun r v' => same_dir dp r.2 /\
    ((r.1 = FR_DENIED /\ no_room v') \/
     (r.1 = FR_OK /\ exists v1 sp1 es1 k, room v1 sp1 es1 /\ first_free es1 = Some k /\
        dir_at (vfs v1) sp1 (Z.of_nat k) r.2 /\
        rewritten v1 sc sp1 es1 k (dp_sect r.2) (dp_dir r.2) (fresh fn) v'))) v.
Proof using Hs Hsp Hes.
  intros Hc Hsc Hfn. unfold dir_register. apply wp_bind. eapply wp_mono; [by apply dir_alloc_spec|].
  intros [r dp1] v1 [Hsd Hr]. cbn [fst snd] in *. destruct Hr as [[-> Hfr]|[-> Hno]].
  2: { change (FR_DENIED =r FR_OK) with false. cbv iota. apply wp_ret. split; [done|]. by left. }
  change (FR_OK =r FR_OK) with true. cbv iota. destruct Hfr as (v2 & sp1 & es1 & k & Hroom & Hc1 & Hat & Hff).
  destruct (room_ok _ _ _ Hroom) as (Hs1 & Hsp1 & Hes1 & _). apply dir_at_pos in Hat as Hep. apply wp_bind.
  eapply wp_mono; [by apply (look G v2 sc sp1 Hs1 Hsp1 es1 Hes1 k)|]. intros r v3 (-> & e & He & Hon).
  change (FR_OK =r FR_OK) with true. cbv iota. pose proof (on_entry_len _ _ _ _ _ _ Hon) as Hl.
  destruct (splice_is_Some e 0 (replicate (Z.to_nat SZDIRE) (mkb 0))) as (e1 & H1 & L1); [done|rewrite len_replicate by done; lia|].
  apply wp_bind. unfold win_memset.
  eapply wp_edit_from; [apply editing_start; [apply Hon|apply Hon]|exact H1|]. intros v4 Hed. apply wp_bind.
  eapply wp_chk; [rewrite (proj1 Hsd); exact Hfn|]. apply wp_bind.
  eapply wp_edit; [exact Hed|apply (fresh_edit e); [done|by apply slice_len in Hfn|done]|]. intros v5 Hed5. apply wp_bind.
  eapply wp_edit_flag; [exact Hed5|]. intros v6 Hed6 Hf. apply wp_ret. split; [done|]. right. split; [done|].
  exists v2, sp1, es1, k. split; [done|]. split; [done|]. split; [done|]. by eapply rewrite_entry.
Qed.

End register.

End entries.
