(* ===== verification/Tree.v ===== *)
(** * Paths in a tree of directories

    The directories of a volume as a map from their first cluster to their
    entries, and a path as a list of 8.3 names.  [walk] says where a path
    leads; [follow_path] of ff.c is proved to go there. *)

From stdpp Require Import base numbers list option gmap.
From Stdlib Require Import ZArith Lia.
From Stdlib Require Import Strings.Byte.
From S2P Require Import Prelude Types Bytes Diskio Window Fat Chain Live Dir Path Mount File Content Writing Seeking Refine Listing Entries.

(** ** Fields of an entry *)

Definition ent_word (e : list byte) (o : Z) : Z := default 0 (ld_word e o).
Definition ent_dword (e : list byte) (o : Z) : Z := default 0 (ld_dword e o).

(** The first cluster, of which the upper half counts on FAT32 only. *)
Definition ent_clust (ty : Z) (e : list byte) : Z :=
  let cl := ent_word e DIR_FstClusLO in
  if ty =? FS_FAT32 then Z.lor cl (u32 (Z.shiftl (ent_word e DIR_FstClusHI) 16)) else cl.

Lemma ent_clust_range ty e : 0 <= ent_clust ty e < U32.
Proof.
  assert (forall o, 0 <= ent_word e o < 65536) as Hw.
  { intros o. unfold ent_word. rewrite ld_word_slice. destruct (slice e o 2) as [l|] eqn:E; [|done]. cbn.
    pose proof (le_combine_range l) as Hr. apply slice_len in E. rewrite E in Hr. exact Hr. }
  unfold ent_clust. pose proof (Hw DIR_FstClusLO). destruct (_ =? _); [|unfold U32; lia].
  apply (lor_range _ _ 32); [lia|change (2 ^ 32) with U32; unfold U32; lia|apply u32_range].
Qed.

(** ** Paths *)

Section paths.
Context {Pf : Platform}.

(** The segment ends the path: a blank or the end follows it, or separators
    and then one of them. *)
Definition last_seg (p : list byte) (c j : Z) : bool :=
  (c <=? 0x20) || match at_ p j with Some b => char_le_space (bval b) | None => false end.

(** The names of a path, from an offset on. *)
Inductive path_names (p : list byte) : Z -> list (list byte) -> Prop :=
| pn_last path name c j :
    sfn_of (seg_of (drop (Z.to_nat path) p)) = Some name -> seg_stop p path c j -> last_seg p c j = true ->
    path_names p path [fix_ddem name]
| pn_more path name c j names :
    sfn_of (seg_of (drop (Z.to_nat path) p)) = Some name -> seg_stop p path c j -> last_seg p c j = false ->
    path_names p j names -> path_names p path (fix_ddem name :: names).

Lemma seg_stop_det p path c j c' j' : seg_stop p path c j -> seg_stop p path c' j' -> c = c' /\ j = j'.
Proof using Type.
  intros (b & Hb & -> & H1) (b' & Hb' & -> & H2). rewrite Hb in Hb'. injection Hb' as <-. split; [done|].
  destruct H1 as [[? ->]|(? & Hsep & Hlt & _ & Hall & x & Hx & Hnx)], H2 as [[? ->]|(? & Hsep' & Hlt' & _ & Hall' & x' & Hx' & Hnx')];
    [done|lia|lia|].
  destruct (Z.lt_trichotomy j j') as [Hj|[->|Hj]]; [|done|].
  - destruct (Hall' j) as (y & Hy & E); [lia|]. congruence.
  - destruct (Hall j') as (y & Hy & E); [lia|]. congruence.
Qed.

End paths.

(** ** Trees *)

(** The known directories, by first cluster; the root has 0. *)
Abbreviation tree := (gmap Z (dspace * list (list byte))).

Inductive verdict : Type :=
| Found (sc : Z) (k : nat)
| Missing (sc : Z) (fn : list byte)
| NoPath.

(** Where the names lead from the directory [sc]. *)
Fixpoint walk (ty : Z) (T : tree) (sc : Z) (names : list (list byte)) : option verdict :=
  match names with
  | [] => None
  | fn :: rest =>
    d ← T !! sc;
    match lookup_name fn d.2, rest with
    | Some k, [] => Some (Found sc k)
    | None, [] => Some (Missing sc fn)
    | None, _ => Some NoPath
    | Some k, _ => e ← d.2 !! k;
                   if nz (Z.land (ent_attr e) AM_DIR) then walk ty T (ent_clust ty e) rest else Some NoPath
    end
  end.

Section follow.
Context {Pf : Platform} {D : Type} `{!DiskIO D} `{!DiskIOLaws D} (G : Z -> Prop).
Implicit Types (v : vol D) (dp : DIR) (T : tree).

Definition tree_in v T : Prop :=
  forall sc sp es, T !! sc = Some (sp, es) -> dir_space G v sc sp /\ dir_holds v sp es.

Section fields.
Context (v0 : vol D).

Lemma ent_load v s d e o n : on_entry G v0 v s d e -> 0 <= o -> 0 <= n -> o + n <= SZDIRE ->
  slice (win (vfs v)) (d + o) n = slice e o n.
Proof using Type. intros [_ _ _ H] Ho Hn Hle. symmetry. by apply (slice_slice _ _ _ _ _ _ H). Qed.

Lemma wp_ent_word t v s d e o (Q : Z -> vol D -> Prop) :
  on_entry G v0 v s d e -> 0 <= o -> o + 2 <= SZDIRE -> Q (ent_word e o) v -> wpt t (win_word (d + o)) Q v.
Proof using Type.
  intros He Ho Hl HQ. pose proof He as [Hc _ Hd _]. apply wp_win_word; [apply Hc|lia|revert Hl Hd; unfold_consts; lia|].
  intros x Hx _. unfold ent_word in HQ. rewrite ld_word_slice in Hx, HQ. rewrite (ent_load _ _ _ _ _ _ He) in Hx by lia.
  by rewrite Hx in HQ.
Qed.

Lemma wp_ent_dword t v s d e o (Q : Z -> vol D -> Prop) :
  on_entry G v0 v s d e -> 0 <= o -> o + 4 <= SZDIRE -> Q (ent_dword e o) v -> wpt t (win_dword (d + o)) Q v.
Proof using Type.
  intros He Ho Hl HQ. pose proof He as [Hc _ Hd _]. apply wp_win_dword; [apply Hc|lia|revert Hl Hd; unfold_consts; lia|].
  intros x Hx _. unfold ent_dword in HQ. rewrite ld_dword_slice in Hx, HQ. rewrite (ent_load _ _ _ _ _ _ He) in Hx by lia.
  by rewrite Hx in HQ.
Qed.

Lemma wp_ent_clust t v s d e (Q : Z -> vol D -> Prop) :
  on_entry G v0 v s d e -> Q (ent_clust (fs_type (vfs v0)) e) v -> wpt t (ld_clust d) Q v.
Proof using Type.
  intros He HQ. unfold ld_clust. apply wp_bind, wp_get_fs, wp_bind. eapply wp_ent_word; [exact He|done|done|].
  pose proof (calm_geom _ _ _ (oe_calm _ _ _ _ _ _ He)) as (Ety & _)%geom_fields. rewrite Ety. unfold ent_clust in HQ.
  destruct (_ =? _); [|by apply wp_ret]. apply wp_bind. eapply wp_ent_word; [exact He|done|done|]. by apply wp_ret.
Qed.

End fields.

Section walking.
Context (v0 : vol D) (T : tree) (Hs : sound G v0) (HT : tree_in v0 T).
Abbreviation ty := (fs_type (vfs v0)).

(** Where [follow_path] has got to, for a verdict. *)
Definition reached (dp0 : DIR) (w : verdict) (r : FRESULT * DIR) v : Prop :=
  obj_fs (dp_obj r.2) = obj_fs (dp_obj dp0) /\
  match w with
  | Found sc k => r.1 = FR_OK /\ obj_sclust (dp_obj r.2) = sc /\ (exists fn, dp_fn r.2 = fn ++ [mkb NS_LAST] /\ len fn = 11) /\
                  exists sp es, T !! sc = Some (sp, es) /\ stands G v0 sp es k v r.2
  | Missing sc fn => r.1 = FR_NO_FILE /\ calm G v0 v /\ obj_sclust (dp_obj r.2) = sc /\ dp_fn r.2 = fn ++ [mkb NS_LAST] /\ len fn = 11
  | NoPath => r.1 = FR_NO_PATH /\ calm G v0 v
  end.

(** What the loop keeps: the names that are left lead to the verdict. *)
Definition walking (p : list byte) (dp0 : DIR) (w : verdict) (a : DIR * Z) v : Prop :=
  calm G v0 v /\ cstr p a.2 /\ len (dp_fn a.1) = 12 /\ obj_fs (dp_obj a.1) = obj_fs (dp_obj dp0) /\
  exists names, path_names p a.2 names /\ walk ty T (obj_sclust (dp_obj a.1)) names = Some w.

Lemma seg_stop_next p path c j : cstr p path -> seg_stop p path c j -> path < j /\ (0x20 < c -> cstr p j /\ j < len p).
Proof using Type.
  intros Hc (b & Hb & -> & H). pose proof (len_nonneg (seg_of (drop (Z.to_nat path) p))).
  destruct H as [[Hle ->]|(Hlt & _ & Hj & Hcj & _)]; [split; lia|]. split; [lia|]. intros _. split; [done|].
  destruct (cstr_at _ _ Hcj) as (? & _ & ?). lia.
Qed.

Lemma len_fix_ddem_name name : len (fix_ddem name) = len name.
Proof using Type. by destruct name. Qed.

(** One segment. *)
Lemma follow_turn p dp0 w dp path v :
  walking p dp0 w (dp, path) v ->
  wp (follow_path_body p (dp, path)) (fun r v' => match r with
    | inl a' => walking p dp0 w a' v' /\ 0 <= len p - a'.2 < len p - path
    | inr r => reached dp0 w r v'
    end) v.
Proof using Hs HT.
  intros (Hc & Hcs & Hfn & Hfs & names & Hpn & Hw). cbn [fst snd] in *. unfold follow_path_body. apply wp_bind.
  eapply wp_mono; [by apply (create_name_spec dp p path)|]. intros [[res dp1] j] v1 [-> Hpost]. unfold create_name_post in Hpost.
  assert (exists name c names', sfn_of (seg_of (drop (Z.to_nat path) p)) = Some name /\ seg_stop p path c j /\
    names = fix_ddem name :: names' /\ (last_seg p c j = true /\ names' = [] \/ last_seg p c j = false /\ path_names p j names')) as
    (name & c & names' & Hsfn & Hst & -> & Hl).
  { inversion Hpn as [path' name c j' Hsfn Hst Hl|path' name c j' names' Hsfn Hst Hl Hn]; subst; rewrite Hsfn in Hpost;
      destruct Hpost as (_ & c' & Hst' & _); destruct (seg_stop_det _ _ _ _ _ _ Hst Hst') as [<- <-]; eauto 10. }
  rewrite Hsfn in Hpost. destruct Hpost as (-> & c' & Hst' & ->). destruct (seg_stop_det _ _ _ _ _ _ Hst Hst') as [<- _].
  set (fn := fix_ddem name) in *. set (ns := if c <=? 0x20 then NS_LAST else _).
  assert (len fn = 11) as Hfl by (unfold fn; rewrite len_fix_ddem_name; by eapply sfn_of_len).
  assert (ns = if last_seg p c j then NS_LAST else 0) as Ens.
  { unfold ns, last_seg. destruct (c <=? 0x20); [done|]. cbn [orb]. destruct (at_ p j) as [b|]; [|done]. by destruct (char_le_space _). }
  change (negb (FR_OK =r FR_OK)) with false. cbv iota. set (dp1 := set_dp_fn (fn ++ [mkb ns]) dp).
  cbn [walk] in Hw. destruct (T !! obj_sclust (dp_obj dp)) as [[sp es]|] eqn:ET; [|done]. cbn [snd] in Hw. cbn in Hw.
  destruct (HT _ _ _ ET) as [Hsp Hes].
  assert (slice (dp_fn dp1) 0 11 = Some fn) as Hsl.
  { by apply slice_app_l. }
  apply wp_bind. eapply wp_mono; [by apply (dir_find_spec G v0 _ sp Hs Hsp es Hes dp1 fn v)|].
  intros [r dp2] v2 [Hsd Hr]. cbn [fst snd] in *. apply wp_bind.
  assert (dp_fn dp2 = fn ++ [mkb ns]) as Efn by apply Hsd. assert (obj_fs (dp_obj dp2) = obj_fs (dp_obj dp0)) as Efs by (rewrite (proj1 (proj2 Hsd)); exact Hfs).
  assert (obj_sclust (dp_obj dp2) = obj_sclust (dp_obj dp)) as Esc by apply Hsd.
  assert (forall (Q : Z -> vol D -> Prop), Q ns v2 -> wp (ch (dp_fn dp2) NSFLAG) Q v2) as Hch.
  { intros Q HQ. unfold ch. apply wp_bind. eapply wp_chk.
    - rewrite Efn, at_app, Hfl. change (NSFLAG <? 11) with false. change (NSFLAG - 11) with 0. reflexivity.
    - apply wp_ret. rewrite bval_mkb. rewrite Ens in HQ |- *. by destruct (last_seg p c j). }
  apply Hch. destruct (lookup_name fn es) as [k|].
  - destruct Hr as [-> Hst2]. change (negb (FR_OK =r FR_OK)) with false. cbv iota.
    destruct Hl as [[El ->]|[El Hpn']]; rewrite El in Ens; rewrite Ens in Efn |- *.
    + change (nz (Z.land NS_LAST NS_LAST)) with true. cbv iota. apply wp_ret. injection Hw as <-. split; [done|]. split; [done|].
      split; [done|]. split; [by exists fn|]. by exists sp, es.
    + change (nz (Z.land 0 NS_LAST)) with false. cbv iota. pose proof (stands_calm _ _ _ _ _ _ _ Hst2) as Hc2.
      destruct Hst2 as [Hat2 (e & He & Hon & Hattr)]. cbn [fst snd] in *. rewrite Hattr.
      assert (names' <> []) as Hne by (by inversion Hpn').
      destruct names' as [|n2 ns2]; [done|]. rewrite He in Hw. cbn in Hw.
      destruct (nz (Z.land (ent_attr e) AM_DIR)); cbn [negb].
      * replace (dp_dptr dp2 mod SS) with (dp_dir dp2) by (rewrite (da_dptr _ _ _ _ Hat2); apply (da_dir _ _ _ _ Hat2)).
        apply wp_bind. eapply wp_ent_clust; [exact Hon|]. apply wp_ret. cbn [fst snd].
        assert (0x20 < c) as Hgt by (unfold last_seg in El; apply orb_false_elim in El as [El _]; by apply Z.leb_gt in El).
        destruct (seg_stop_next _ _ _ _ Hcs Hst) as [Hlt Hcj]. destruct (Hcj Hgt) as [Hcj' Hjl]. split; [|lia].
        split; [done|]. split; [done|]. split; [|split; [done|]]; cbn.
        -- rewrite Efn, len_app, Hfl. done.
        -- by exists (n2 :: ns2).
      * apply wp_ret. injection Hw as <-. by split.
  - destruct Hr as [-> Hc2]. change (negb (FR_NO_FILE =r FR_OK)) with true. cbv iota. apply wp_ret.
    destruct Hl as [[El ->]|[El Hpn']]; rewrite El in Ens; rewrite Ens in Efn |- *.
    + injection Hw as <-. split; [done|]. cbn. done.
    + assert (names' <> []) by (by inversion Hpn'). destruct names'; [done|]. injection Hw as <-. by split.
Qed.

(** The separators in front of a path. *)
Definition skips (p : list byte) (i j : Z) : Prop :=
  i <= j /\ (forall k, i <= k < j -> exists b, at_ p k = Some b /\ IsSeparator (bval b) = true) /\
  exists b, at_ p j = Some b /\ IsSeparator (bval b) = false.

Lemma skips_det p i j j' : skips p i j -> skips p i j' -> j = j'.
Proof using Type.
  intros (H1 & H2 & b & H3 & H4) (H1' & H2' & b' & H3' & H4'). destruct (Z.lt_trichotomy j j') as [Hj|[->|Hj]]; [|done|].
  - destruct (H2' j) as (y & Hy & E); [lia|]. congruence.
  - destruct (H2 j') as (y & Hy & E); [lia|]. congruence.
Qed.

(** A path with a name starts with a character that is not blank. *)
Lemma path_names_start p i names : 0 <= i -> path_names p i names -> exists b, at_ p i = Some b /\ 0x20 < bval b.
Proof using Type.
  intros Hi Hn. assert (exists name, sfn_of (seg_of (drop (Z.to_nat i) p)) = Some name) as [name Hs'] by (inversion Hn; eauto).
  destruct (drop (Z.to_nat i) p) as [|b l] eqn:Ed; [done|]. cbn in Hs'. destruct (seg_end (bval b)) eqn:Es; [done|].
  exists b. split.
  - rewrite at_lookup by done. rewrite <- (Nat.add_0_r (Z.to_nat i)), <- lookup_drop, Ed. done.
  - unfold seg_end in Es. apply orb_false_elim in Es as [Es _]. by apply Z.leb_gt in Es.
Qed.

(** [follow_path] arrives where the names of the path lead. *)
Lemma follow_path_spec dp p path j names w v :
  calm G v0 v -> len (dp_fn dp) = 12 -> cstr p path -> skips p path j -> path_names p j names -> walk ty T 0 names = Some w ->
  wp (follow_path dp p path) (reached dp w) v.
Proof using Hs HT.
  intros Hc Hfn Hp Hsk Hn Hw. unfold follow_path. apply wp_bind. eapply wp_mono; [by apply (skip_sep_runs p path)|].
  intros j' v' (-> & H1 & Hcj & H2 & H3). assert (j' = j) as -> by (eapply skips_det; [|exact Hsk]; done). cbv zeta.
  destruct (path_names_start p j names) as (b & Hb & Hgt); [destruct Hcj; lia|done|]. apply wp_bind. unfold ch. apply wp_bind.
  eapply wp_chk; [exact Hb|]. apply wp_ret. destruct (Z.ltb_spec (bval b) 0x20); [lia|].
  apply (wp_loop true (walking p dp w) (fun a _ => len p - a.2)).
  - intros [dp1 path1] v1 Hwk. by apply follow_turn.
  - split; [done|]. split; [done|]. split; [done|]. split; [done|]. by exists names.
  - cbn [snd]. destruct Hcj as (? & ? & _). by apply str_fuel.
Qed.

End walking.
End follow.
