(* ===== verification/Persist.v ===== *)
(** * Files by name

    [sync_fs] flushes the volume without changing what it shows;
    [sync_vol], the body of [f_sync] and [f_close], records the size and the
    first cluster of a file in its directory entry, and [open_vol], the body
    of [f_open], finds the file again by its path: with the entry, the file
    object stands for the same byte string. *)

From stdpp Require Import base numbers list option gmap.
From Stdlib Require Import ZArith Lia.
From Stdlib Require Import Strings.Byte.
From S2P Require Import Prelude Types Bytes Diskio Window Fat Chain Live Dir Path Mount File Content Writing Seeking Refine Listing Entries Tree.

(** ** Fields of an entry *)

(** Bytes stored in an entry. *)
Definition put_field (e : list byte) (o : Z) (src : list byte) : list byte := default e (splice e o src).

(** The first cluster, as [st_clust] stores it. *)
Definition set_clust (ty cl : Z) (e : list byte) : list byte :=
  let e := put_field e DIR_FstClusLO (le_split 2 (u16 cl)) in
  if ty =? FS_FAT32 then put_field e DIR_FstClusHI (le_split 2 (u16 (Z.shiftr cl 16))) else e.

(** The entry of a file that has been flushed. *)
Definition stamp (ty cl size : Z) (e : list byte) : list byte :=
  let e := put_field e DIR_Attr [mkb (Z.lor (ent_byte e DIR_Attr) AM_ARC)] in
  let e := set_clust ty cl e in
  let e := put_field e DIR_FileSize (le_split 4 size) in
  let e := put_field e DIR_ModTime (le_split 4 GET_FATTIME) in
  put_field e DIR_LstAccDate (le_split 2 0).

Section fields.
Implicit Types e src : list byte.

Lemma put_field_splice e o src : len e = SZDIRE -> 0 <= o -> o + len src <= SZDIRE -> splice e o src = Some (put_field e o src).
Proof. intros He Ho Hl. unfold put_field. destruct (splice_is_Some e o src) as (r & -> & _); [lia|lia|done]. Qed.

Lemma len_put_field e o src : len (put_field e o src) = len e.
Proof. unfold put_field. destruct (splice e o src) eqn:E; [by apply splice_len in E|done]. Qed.

Lemma len_set_clust ty cl e : len (set_clust ty cl e) = len e.
Proof. unfold set_clust. destruct (_ =? _); by rewrite !len_put_field. Qed.

Lemma len_stamp ty cl size e : len (stamp ty cl size e) = len e.
Proof. unfold stamp. by rewrite !len_put_field, len_set_clust, len_put_field. Qed.

Lemma slice_put_other e o src o' n : o' + n <= o \/ o + len src <= o' -> slice (put_field e o src) o' n = slice e o' n.
Proof. intros H. unfold put_field. destruct (splice e o src) eqn:E; [|done]. by apply (slice_splice_disjoint _ _ _ _ _ _ E). Qed.

Lemma slice_put_same e o src n : len e = SZDIRE -> 0 <= o -> o + n <= SZDIRE -> len src = n -> slice (put_field e o src) o n = Some src.
Proof. intros He Ho Hl <-. apply (slice_splice_same e). by apply put_field_splice. Qed.

Lemma slice_set_clust ty cl e o n :
  o + n <= DIR_FstClusHI \/ (DIR_FstClusHI + 2 <= o /\ o + n <= DIR_FstClusLO) \/ DIR_FstClusLO + 2 <= o ->
  slice (set_clust ty cl e) o n = slice e o n.
Proof.
  intros H. unfold set_clust.
  destruct (_ =? _); rewrite ?slice_put_other; try done; rewrite len_le_split; revert H; unfold_consts; lia.
Qed.

(** The cluster that was stored is the one that is loaded. *)
Lemma ent_clust_set ty cl e :
  len e = SZDIRE -> 0 <= cl < U32 -> (ty <> FS_FAT32 -> cl < 65536) -> ent_clust ty (set_clust ty cl e) = cl.
Proof.
  intros He Hc Hs. unfold ent_clust, ent_word, set_clust. rewrite !ld_word_slice.
  destruct (Z.eqb_spec ty FS_FAT32) as [->|Hne].
  - rewrite slice_put_other by (rewrite len_le_split; unfold_consts; lia).
    rewrite !slice_put_same; try (rewrite ?len_put_field; done). cbn [fmap option_fmap option_map default id from_option].
    rewrite !le_combine_split. change (256 ^ Z.of_nat 2) with 65536. unfold u16. rewrite !Z.mod_mod by done.
    rewrite Z.shiftr_div_pow2 by done. change (2 ^ 16) with 65536. rewrite (Z.mod_small (cl / 65536)).
    2: { split; [apply Z.div_pos; lia|]. apply Z.div_lt_upper_bound; [done|]. unfold U32 in Hc. lia. }
    rewrite Z.shiftl_mul_pow2 by done. change (2 ^ 16) with 65536.
    rewrite u32_small by (pose proof (Z.div_mod cl 65536 ltac:(done)); pose proof (Z.mod_pos_bound cl 65536 ltac:(done)); unfold U32 in *; lia).
    rewrite Z.lor_comm. pose proof (lor_shiftl_add (cl mod 65536) (cl / 65536) 16) as Hl. rewrite Z.shiftl_mul_pow2 in Hl by done.
    change (2 ^ 16) with 65536 in Hl. rewrite Hl; [|done|by apply Z.mod_pos_bound]. pose proof (Z.div_mod cl 65536 ltac:(done)). lia.
  - rewrite slice_put_same by done. cbn [fmap option_fmap option_map default id from_option]. rewrite le_combine_split.
    change (256 ^ Z.of_nat 2) with 65536. unfold u16. rewrite Z.mod_mod by done. apply Z.mod_small. specialize (Hs Hne). lia.
Qed.

Lemma ent_byte_slice e o : ent_byte e o = match slice e o 1 with Some (b :: _) => bval b | _ => 0 end.
Proof.
  unfold ent_byte. destruct (slice e o 1) as [l|] eqn:E.
  - pose proof (at_slice _ _ _ _ 0 E) as Ha. cbn in Ha. rewrite Z.add_0_r in Ha. rewrite <- Ha. apply slice_len in E. by destruct l.
  - destruct (at_ e o) as [b|] eqn:Ea; [|done]. apply at_Some_range in Ea.
    destruct (slice_is_Some e o 1) as (x & Hx & _); [lia..|]. congruence.
Qed.

(** What of an entry a flush changes: attribute, cluster, size and times. *)
Record stamped (ty cl size : Z) e e' : Prop := mk_stamped {
  sd_name : slice e' 0 11 = slice e 0 11;
  sd_attr : ent_byte e' DIR_Attr = Z.lor (ent_byte e DIR_Attr) AM_ARC;
  sd_clust : ent_clust ty e' = cl;
  sd_size : ent_dword e' DIR_FileSize = size
}.

Lemma stamp_stamped ty cl size e :
  len e = SZDIRE -> 0 <= cl < U32 -> (ty <> FS_FAT32 -> cl < 65536) -> 0 <= size < U32 ->
  stamped ty cl size e (stamp ty cl size e).
Proof.
  intros He Hcl Hty Hsz. unfold stamp. set (e1 := put_field e DIR_Attr _). set (e2 := set_clust ty cl e1).
  assert (len e1 = SZDIRE) as L1 by (unfold e1; by rewrite len_put_field).
  assert (len e2 = SZDIRE) as L2 by (unfold e2; by rewrite len_set_clust).
  assert (forall o n, o + n <= DIR_LstAccDate \/ DIR_LstAccDate + 2 <= o -> o + n <= DIR_ModTime \/ DIR_ModTime + 4 <= o ->
    o + n <= DIR_FileSize \/ DIR_FileSize + 4 <= o ->
    slice (put_field (put_field (put_field e2 DIR_FileSize (le_split 4 size)) DIR_ModTime (le_split 4 GET_FATTIME)) DIR_LstAccDate (le_split 2 0)) o n
    = slice e2 o n) as Hfr.
  { intros o n H1 H2 H3. by rewrite !slice_put_other by (rewrite len_le_split; done). }
  split.
  - rewrite Hfr by (unfold_consts; lia). unfold e2. rewrite slice_set_clust by (unfold_consts; lia). unfold e1.
    apply slice_put_other. unfold_consts. change (len [_]) with 1. lia.
  - rewrite ent_byte_slice, Hfr by (unfold_consts; lia). unfold e2. rewrite slice_set_clust by (unfold_consts; lia). unfold e1.
    rewrite slice_put_same by done. rewrite bval_mkb. apply Z.mod_small. apply (lor_range _ _ 8); [lia| |done].
    unfold ent_byte. destruct (at_ e DIR_Attr); [apply bval_range|done].
  - unfold ent_clust, ent_word. rewrite !ld_word_slice, !Hfr by (unfold_consts; lia). rewrite <- !ld_word_slice. by apply ent_clust_set.
  - unfold ent_dword. rewrite ld_dword_slice. rewrite !slice_put_other by (rewrite len_le_split; unfold_consts; lia).
    rewrite slice_put_same by done. cbn [fmap option_fmap option_map default id from_option]. rewrite le_combine_split. apply Z.mod_small.
    exact Hsz.
Qed.

Lemma stamped_first ty cl size e e' : stamped ty cl size e e' -> len e = SZDIRE -> len e' = SZDIRE -> ent_byte e' DIR_Name = ent_byte e DIR_Name.
Proof.
  intros [Hn _ _ _] He He'. rewrite !ent_byte_slice. destruct (slice_is_Some e 0 11) as (x & Hx & _); [done|done|unfold SZDIRE in He; lia|].
  rewrite Hx in Hn. change DIR_Name with (0 + 0). rewrite <- (slice_slice _ _ _ _ 0 1 Hx), <- (slice_slice _ _ _ _ 0 1 Hn) by lia. done.
Qed.

Lemma stamped_is ty cl size e e' fn : stamped ty cl size e e' -> ent_is fn e' = ent_is fn e.
Proof.
  intros [Hn Ha _ _]. unfold ent_is. rewrite Hn, Ha. f_equal. rewrite Z.land_lor_distr_l. change (Z.land AM_ARC AM_VOL) with 0.
  by rewrite Z.lor_0_r.
Qed.

(** Names are found where they were. *)
Lemma scan_insert P es k e e' :
  es !! k = Some e -> P e' = P e -> (ent_byte e' DIR_Name =? 0) = (ent_byte e DIR_Name =? 0) -> scan P (<[k := e']> es) = scan P es.
Proof.
  revert k. induction es as [|x es IH]; intros k He HP Hz; [done|]. destruct k as [|k].
  - cbn in He. injection He as ->. cbn [insert list_insert scan]. by rewrite HP, Hz.
  - change (<[S k := e']> (x :: es)) with (x :: <[k := e']> es). cbn [scan].
    destruct (ent_byte x DIR_Name =? 0); [done|]. destruct (P x); [done|]. f_equal. by apply IH.
Qed.

End fields.

Section persist.
Context {D : Type} `{!DiskIO D} `{!DiskIOLaws D} (G : Z -> Prop).
Implicit Types (v : vol D) (fp : FIL) (es : list (list byte)).

(** ** Flushing the volume *)

(** The FSInfo sector of a FAT32 volume lies before its tables. *)
Definition fsi_apart (fs : FATFS) : Prop :=
  fs_type fs = FS_FAT32 -> volbase fs + 1 < fatbase fs /\ G (volbase fs + 1).

(** Only the FSInfo sector may show something else. *)
Record synced v v' : Prop := mk_synced {
  sy_sound : sound G v';
  sy_geom : geom (vfs v') = geom (vfs v);
  sy_fat : forall c, valid_clst (vfs v) c -> fat_entry v' c = fat_entry v c;
  sy_view : forall s, plain (vfs v) s -> fatbase (vfs v) <= s -> lview v' s = lview v s
}.

(** [v] is [v1] with other window contents. *)
Definition reworked v1 v : Prop := exists w, len w = SS /\ v = mkVol (set_win w (vfs v1)) (vdsk v1).

Lemma wp_rework t v1 v f (Q : unit -> vol D -> Prop) :
  reworked v1 v -> (forall w, len w = SS -> exists w', f w = Some w' /\ len w' = SS) ->
  (forall v', reworked v1 v' -> Q tt v') -> wpt t (set_win_opt f) Q v.
Proof using Type.
  intros (w & Hw & ->) Hf HQ. destruct (Hf w Hw) as (w' & Hw' & Hl). eapply wp_set_win_opt; [exact Hw'|].
  apply HQ. by exists w'.
Qed.

Lemma wp_rework_dword t v1 v o x (Q : unit -> vol D -> Prop) :
  reworked v1 v -> 0 <= o -> o + 4 <= SS -> (forall v', reworked v1 v' -> Q tt v') -> wpt t (win_put_dword o x) Q v.
Proof using Type.
  intros Hr Ho Hl HQ. eapply wp_rework; [exact Hr| |exact HQ]. intros w Hw.
  destruct (st_dword_is_Some w o x) as (w' & Hw' & L); [lia|lia|]. exists w'. split; [done|lia].
Qed.

(** The FSInfo sector is written. *)
Lemma fsi_write_spec v :
  sound G v -> wflag (vfs v) = 0 -> 0 <= volbase (vfs v) -> volbase (vfs v) + 1 < fatbase (vfs v) -> G (volbase (vfs v) + 1) ->
  wp (win_memset 0 0 SS ;;; win_put_dword FSI_LeadSig 0x41615252 ;;; win_put_dword FSI_StrucSig 0x61417272 ;;;
      win_put_dword FSI_Free_Count (free_clst (vfs v)) ;;; win_put_dword FSI_Nxt_Free (last_clst (vfs v)) ;;;
      win_put_dword FSI_TrailSig 0xAA550000 ;;; mod_fs (set_winsect (u32 (volbase (vfs v) + 1))) ;;;
      fs <- get_fs ;; _ <- on_disk (dio_write (pdrv fs) (win fs) (winsect fs) 1) ;; ret tt)
    (fun _ v' => synced v v') v.
Proof using Type.
  intros Hs Hwf Hvb Hlt Hg. pose proof (so_ok _ _ Hs) as [Hf Hd].
  assert (reworked v v) as H0.
  { exists (win (vfs v)). split; [apply (ok_win _ Hf)|]. by destruct v as [[] ]. }
  apply wp_bind. unfold win_memset. eapply wp_rework; [exact H0| |].
  { intros w Hw. exists (replicate (Z.to_nat SS) (mkb 0)). split; [|by rewrite len_replicate].
    apply splice_whole. rewrite Hw. by rewrite len_replicate. }
  intros v1 H1. apply wp_bind. eapply wp_rework_dword; [exact H1|done|done|]. intros v2 H2.
  apply wp_bind. eapply wp_rework_dword; [exact H2|done|done|]. intros v3 H3.
  apply wp_bind. eapply wp_rework_dword; [exact H3|done|done|]. intros v4 H4.
  apply wp_bind. eapply wp_rework_dword; [exact H4|done|done|]. intros v5 H5.
  apply wp_bind. eapply wp_rework_dword; [exact H5|done|done|]. intros v6 (w & Hw & ->).
  pose proof (ok_fatbase _ Hf) as Hfb. rewrite u32_small by (unfold U32 in *; lia). set (s0 := volbase (vfs v) + 1).
  apply wp_bind, wp_mod_fs, wp_bind, wp_get_fs, wp_bind, wp_on_disk. cbn [vfs vdsk pdrv win winsect set_winsect set_win].
  eapply wp_mono; [apply wp_conj; [apply (good_write (vdsk v) _ w s0); [done|unfold s0; lia|done|by apply (so_alive _ _ Hs)]|
    apply (wp_write_sector true (vdsk v) (pdrv (vfs v)) w s0 (fun r d' => dok d' /\
      (forall x, x <> s0 -> media d' (pdrv (vfs v)) x = media (vdsk v) (pdrv (vfs v)) x) /\
      (r = RES_OK -> media d' (pdrv (vfs v)) s0 = Some w))); [done|unfold s0; lia|done|done]]|].
  intros r d' [(-> & Hgd) (Hd' & Hm & Hw')]. specialize (Hw' eq_refl). apply wp_ret.
  set (fs' := set_winsect s0 (set_win w (vfs v))). set (v' := mkVol fs' d').
  assert (touched G (vfs v) (eq s0) v v') as Ht.
  { split; [split; [split; [|done]|done]|].
    - apply fs_ok_set_winsect; [by apply fs_ok_set_win|unfold s0, U32 in *; lia].
    - split; [apply (alive_disk G v); [apply Hs|done|done|done]|]. split; [done|]. intros s Hp Hne.
      unfold lview. cbn. rewrite (proj2 (Z.eqb_neq s s0)) by congruence. rewrite Hm by congruence.
      destruct (Z.eqb_spec s (winsect (vfs v))) as [->|]; [|done]. apply (so_co _ _ Hs Hwf). apply Hp. }
  assert (coherent v') as Hc by (intros _ _; exact Hw').
  destruct (touched_sound G (eq s0) v v' Hs Ht Hc) as [Hs' Hfat].
  { intros s <- o Ho. rewrite (fat_sect_val _ o Hf (so_fat _ _ Hs) Ho). assert (0 <= o / SS) by (apply Z.div_pos; [lia|done]). unfold s0; lia. }
  split; [done|done|done|]. intros s Hp Hge. apply Ht; [done|unfold s0; lia].
Qed.

Lemma synced_trans v1 v2 v3 : synced v1 v2 -> synced v2 v3 -> synced v1 v3.
Proof using Type.
  intros [_ Hg1 Hf1 Hv1] [H2 Hg2 Hf2 Hv2]. split; [done|congruence|..].
  - intros c Hc. rewrite Hf2; [auto|]. unfold valid_clst. by apply geom_fields in Hg1 as (_&_&_&_&_&_&->&_).
  - intros s Hp Hge. rewrite Hv2; [auto|by apply (plain_geom (vfs v1))|]. by apply geom_fields in Hg1 as (_&_&_&_&_&_&_&_&_&->&_).
Qed.

Lemma sync_fs_spec v :
  sound G v -> fsi_apart (vfs v) -> wp sync_fs (fun r v' => r = FR_OK /\ synced v v') v.
Proof using Type.
  intros Hs Hfsi. unfold sync_fs. pose proof (so_ok _ _ Hs) as Hv. apply wp_bind.
  eapply wp_mono; [apply (sync_touched G (vfs v) (fun _ => False)); [by apply sv_refl|apply Hs|apply Hs]|].
  intros r v1 (-> & Ht & Hc1 & Hwf & _). change (FR_OK =r FR_OK) with true. cbv iota.
  destruct (touched_sound G _ v v1 Hs Ht Hc1) as [Hs1 Hf1]; [done|]. pose proof Ht as ([_ Hg1] & _ & _ & Hvw).
  assert (synced v v1) as Hy1 by (split; [done|done|done|]; intros s Hp _; apply Hvw; auto).
  apply wp_bind, wp_get_fs, wp_bind.
  assert (forall v2, synced v v2 -> wp (fs <- get_fs ;; do (r, _) <- on_disk (dio_ioctl (pdrv fs) CTRL_SYNC) ;;
    if negb (r =d RES_OK) then ret FR_DISK_ERR else ret FR_OK) (fun r v' => r = FR_OK /\ synced v v') v2) as Hend.
  { intros v2 Hy. apply wp_bind, wp_get_fs, wp_bind, wp_on_disk. pose proof (sy_sound _ _ Hy) as Hs2.
    pose proof (so_ok _ _ Hs2) as [Hf2 Hd2]. pose proof (so_alive _ _ Hs2) as Ha2.
    eapply wp_mono; [by apply dio_ioctl_law|]. intros [r o] d' (Hd' & Hm & _ & Hgd & Hok). cbn [fst snd] in *.
    rewrite (Hok eq_refl) by (exists (winsect (vfs v2)); apply Ha2, Ha2). change (negb (RES_OK =d RES_OK)) with false. cbv iota. apply wp_ret.
    split; [done|]. assert (forall s, lview (mkVol (vfs v2) d') s = lview v2 s) as Hlv by (intros s; unfold lview; cbn; by rewrite Hm).
    apply (synced_trans v v2); [done|]. assert (forall c, fat_entry (mkVol (vfs v2) d') c = fat_entry v2 c) as Hfe
      by (intros c; by apply fat_entry_lview).
    split; [|done|done|done]. apply (sound_next G v2); [done|by split; [split|]|..].
    - intros Hw Hn. cbn in *. rewrite Hm. by apply (so_co _ _ Hs2).
    - apply (alive_disk G v2); [done|done|apply Ha2|done].
    - intros (c & Hc & E). apply (so_bad _ _ Hs2). exists c. by rewrite <- Hfe. }
  destruct (fsi_flag (vfs v1) =? 1); [|apply wp_ret; by apply Hend]. apply wp_bind, wp_mod_fs.
  set (v2 := mkVol (set_fsi_flag 0 (vfs v1)) (vdsk v1)).
  assert (synced v1 v2) as Hy2.
  { assert (forall s, lview v2 s = lview v1 s) as Hlv by done.
    assert (forall c, fat_entry v2 c = fat_entry v1 c) as Hfe by (intros c; by apply fat_entry_lview).
    split; [|done|done|done]. pose proof (so_ok _ _ Hs1) as [Hf Hd]. apply (sound_next G v1); [done| |apply Hs1|apply Hs1|].
    - split; [split; [by apply fs_ok_set_fsi_flag|done]|done].
    - intros (c & Hc & E). apply (so_bad _ _ Hs1). exists c. by rewrite <- Hfe. }
  destruct (Z.eqb_spec (fs_type (vfs v1)) FS_FAT32) as [E|E]; [|apply wp_ret, Hend; by eapply synced_trans].
  pose proof Hg1 as (Ety&_&_&_&_&_&_&_&Evb&Efb&_)%geom_fields. destruct Hfsi as [H1 H2]; [congruence|].
  eapply wp_mono; [apply (fsi_write_spec v2)|].
  - apply Hy2.
  - done.
  - cbn. rewrite Evb. apply (ok_volbase _ (proj1 Hv)).
  - cbn. by rewrite Evb, Efb.
  - cbn. by rewrite Evb.
  - intros [] v3 Hy3. apply Hend. eapply synced_trans; [exact Hy1|]. by eapply synced_trans.
Qed.

(** ** Recording a file in its entry *)

Lemma wp_edit_clust t v1 d e v cl (Q : unit -> vol D -> Prop) :
  editing v1 d e v -> (forall v', editing v1 d (set_clust (fs_type (vfs v1)) cl e) v' -> Q tt v') -> wpt t (st_clust d cl) Q v.
Proof using Type.
  intros Hed HQ. unfold st_clust. apply wp_bind, wp_get_fs.
  assert (fs_type (vfs v) = fs_type (vfs v1)) as -> by (destruct Hed as (_ & w & f & _ & _ & ->); done).
  pose proof (proj1 Hed) as Hl. apply wp_bind. eapply wp_edit_word; [exact Hed|rewrite st_word_splice; by apply put_field_splice|].
  intros v2 Hed2. unfold set_clust in HQ. destruct (_ =? FS_FAT32); [|apply wp_ret; by apply HQ].
  eapply wp_edit_word; [exact Hed2|rewrite st_word_splice; apply put_field_splice; [by rewrite len_put_field|done|done]|exact HQ].
Qed.

Section sync.
Context (v0 : vol D) (sc : Z) (sp : dspace) (Hs : sound G v0) (Hsp : dir_space G v0 sc sp).
Context (es : list (list byte)) (Hes : dir_holds v0 sp es) (Hfsi : fsi_apart (vfs v0)).

Lemma sync_vol_spec fp k :
  ent_pos v0 sp k (fp_dir_sect fp) (fp_dir_ptr fp) ->
  wp (sync_vol fp) (fun r v' => r = (FR_OK, set_fp_flag (Z.land (fp_flag fp) (u8 (Z.lnot FA_MODIFIED))) fp) /\
    exists e v1, es !! k = Some e /\ len e = SZDIRE /\
      rewritten G v0 sc sp es k (fp_dir_sect fp) (fp_dir_ptr fp) (stamp (fs_type (vfs v0)) (fp_sclust fp) (fp_objsize fp) e) v1 /\
      synced v1 v') v0.
Proof using Hs Hsp Hes Hfsi.
  intros Hep. unfold sync_vol. cbv zeta. apply wp_bind.
  eapply wp_mono; [apply (look G v0 sc sp Hs Hsp es Hes k _ (fp_dir_ptr fp)); [by apply calm_start|done]|].
  intros r v1 (-> & e & He & Hon). change (FR_OK =r FR_OK) with true. cbv iota. pose proof (on_entry_len _ _ _ _ _ _ Hon) as Hl.
  pose proof (oe_calm _ _ _ _ _ _ Hon) as Hc. pose proof (calm_geom _ _ _ Hc) as (Ety & _)%geom_fields.
  apply wp_bind. eapply wp_ent_byte; [exact Hon|done|]. set (e1 := put_field e DIR_Attr [mkb (Z.lor (ent_byte e DIR_Attr) AM_ARC)]).
  assert (len e1 = SZDIRE) as L1 by (unfold e1; by rewrite len_put_field).
  set (e2 := set_clust (fs_type (vfs v0)) (fp_sclust fp) e1). assert (len e2 = SZDIRE) as L2 by (unfold e2; by rewrite len_set_clust).
  apply wp_bind. eapply wp_edit_byte; [apply editing_start; [apply Hon|apply Hon]|by apply put_field_splice|]. intros v2 Hed2.
  apply wp_bind. eapply wp_edit_clust; [exact Hed2|]. rewrite Ety. fold e1. fold e2. intros v3 Hed3.
  apply wp_bind. eapply wp_edit_dword; [exact Hed3|rewrite st_dword_splice; by apply put_field_splice|]. intros v4 Hed4.
  apply wp_bind. eapply wp_edit_dword; [exact Hed4|rewrite st_dword_splice; apply put_field_splice; [by rewrite len_put_field|done|done]|].
  intros v5 Hed5. apply wp_bind.
  eapply wp_edit_word; [exact Hed5|rewrite st_word_splice; apply put_field_splice; [by rewrite !len_put_field|done|done]|].
  intros v6 Hed6. apply wp_bind. eapply wp_edit_flag; [exact Hed6|]. intros v7 Hed7 Hf7.
  pose proof (rewrite_entry G v0 sc sp Hs Hsp es Hes k _ _ _ _ _ _ Hep Hon Hed7 Hf7) as Hrw.
  apply wp_bind. eapply wp_mono; [apply sync_fs_spec; [apply Hrw|]|].
  { intros E. pose proof (rw_geom _ _ _ _ _ _ _ _ _ _ Hrw) as (Ety7&_&_&_&_&_&_&_&Evb&Efb&_)%geom_fields. rewrite Evb, Efb. apply Hfsi. congruence. }
  intros r v8 [-> Hy]. apply wp_ret. split; [done|]. by exists e, v7.
Qed.

End sync.

(** ** Opening a file by its path *)

Section open.
Context {Pf : Platform} (Hun : len (dp_fn uninit_dir) = 12).
Context (v0 : vol D) (T : tree) (Hs : sound G v0) (HT : tree_in G v0 T).
Abbreviation ty := (fs_type (vfs v0)).

(** The path [p], from [path] on, leads to the verdict [w]. *)
Definition leads (p : list byte) (path : Z) (w : verdict) : Prop :=
  cstr p path /\ exists j names, skips p path j /\ path_names p j names /\ walk ty T 0 names = Some w.

(** The file object that [f_open] makes of the entry [e]. *)
Record opened (e : list byte) (sp : dspace) (k : nat) (mode vp : Z) fp : Prop := mk_opened {
  op_obj : obj_fs (fp_obj fp) = Some vp /\ obj_id (fp_obj fp) = fs_id (vfs v0);
  op_sclust : fp_sclust fp = ent_clust ty e;
  op_size : fp_objsize fp = ent_dword e DIR_FileSize;
  op_flag : fp_flag fp = mode;
  op_err : fp_err fp = FR_OK;
  op_fptr : fp_fptr fp = 0;
  op_dir : ent_pos v0 sp k (fp_dir_sect fp) (fp_dir_ptr fp)
}.

(** What [f_open] answers for an existing entry. *)
Definition open_result (e : list byte) (mode : Z) : FRESULT :=
  if nz (Z.land (ent_attr e) AM_DIR) then FR_NO_FILE
  else if nz (Z.land mode FA_WRITE) && nz (Z.land (ent_attr e) AM_RDO) then FR_DENIED
  else FR_OK.

(** Modes that open an existing file at its start. *)
Definition plain_mode (mode : Z) : Prop :=
  Z.land mode (Z.lor FA_CREATE_ALWAYS (Z.lor FA_OPEN_ALWAYS FA_CREATE_NEW)) = 0 /\ Z.land mode FA_SEEKEND = 0.

Lemma plain_mode_create mode : plain_mode mode -> Z.land mode FA_CREATE_ALWAYS = 0.
Proof using Type.
  intros [H _]. apply Z.bits_inj'. intros n Hn. apply (f_equal (fun x => Z.testbit x n)) in H.
  rewrite !Z.land_spec, !Z.lor_spec, Z.bits_0 in *. by destruct (Z.testbit mode n), (Z.testbit FA_CREATE_ALWAYS n).
Qed.

Lemma open_vol_spec fp p path mode vp sc sp es k e :
  leads p path (Found sc k) -> T !! sc = Some (sp, es) -> es !! k = Some e -> plain_mode mode ->
  wp (open_vol fp p path mode vp) (fun r v' => calm G v0 v' /\ r.1 = open_result e mode /\
    (r.1 = FR_OK -> opened e sp k mode vp r.2)) v0.
Proof using Hun Hs HT.
  intros (Hp & j & names & Hsk & Hpn & Hw) HTs He Hm. unfold open_vol, open_entry. apply wp_bind, wp_bind.
  eapply wp_mono; [eapply (follow_path_spec G v0 T Hs HT); [by apply calm_start|exact Hun|done|done|done|done]|].
  intros [r dj] v1 [_ (Hr & Hsc & (fn & Hfn & Hfl) & sp' & es' & HTs' & Hst)]. cbn [fst snd] in *. subst r.
  rewrite HTs in HTs'. injection HTs' as <- <-. destruct Hst as [Hat (e' & He' & Hon & Hattr)]. rewrite He in He'. injection He' as <-.
  pose proof (oe_calm _ _ _ _ _ _ Hon) as Hc. apply wp_bind. unfold ch. apply wp_bind. eapply wp_chk.
  { rewrite Hfn, at_app, Hfl. change (NSFLAG <? 11) with false. change (NSFLAG - 11) with 0. reflexivity. }
  apply wp_ret. rewrite bval_mkb. change (nz (Z.land (NS_LAST mod 256) NS_NONAME)) with false. cbn [andb]. rewrite andb_false_r. rewrite Hattr.
  destruct Hm as [Hm1 Hm2]. unfold nz at 1. rewrite Hm1. cbn [Z.eqb negb]. cbv zeta. apply wp_ret.
  change (FR_OK =r FR_OK) with true. cbv iota. change (if nz (Z.land (ent_attr e) AM_DIR) then _ else _) with (open_result e mode).
  destruct (fr_eqb_spec (open_result e mode) FR_OK) as [Eo|Eo]; cbn [negb].
  2: { apply wp_ret. split; [done|]. split; [done|]. by intros ?. }
  assert (nz (Z.land mode FA_CREATE_ALWAYS) = false) as Ec by (unfold nz; by rewrite (plain_mode_create mode)).
  rewrite Ec. apply wp_bind, wp_get_fs. apply wp_bind. eapply wp_ent_clust; [exact Hon|]. apply wp_bind.
  eapply wp_ent_dword; [exact Hon|done|done|]. unfold nz at 1. rewrite Hm2. cbn [Z.eqb negb andb]. apply wp_ret. split; [done|]. split; [done|].
  intros _. split; try done.
  - cbn. split; [done|]. by apply calm_geom in Hc as (_&_&_&->&_)%geom_fields.
  - cbn. rewrite (oe_sect _ _ _ _ _ _ Hon). by apply dir_at_pos.
Qed.

(** The entry [e] stands for the bytes [data], in the clusters [cs]. *)
Record entry_file v (e : list byte) (cs : list Z) (data : list byte) : Prop := mk_entry_file {
  ef_clusters : clusters v (ent_clust (fs_type (vfs v)) e) cs;
  ef_size : ent_dword e DIR_FileSize = len data;
  ef_limit : len data < U32;
  ef_cover : len data <= len cs * bcs (vfs v);
  ef_bytes : forall i, 0 <= i < len data -> fbyte v cs i = at_ data i
}.

Lemma opened_file e sp k mode vp fp cs data :
  opened e sp k mode vp fp -> entry_file v0 e cs data ->
  file_is v0 fp cs (mkAfile data 0 (nz (Z.land mode FA_READ)) (nz (Z.land mode FA_WRITE))).
Proof using Type.
  intros [_ H1 H2 H3 H4 H5 _] [E1 E2 E3 E4 E5]. pose proof (len_nonneg data). split; cbn [af_data af_pos af_rd af_wr]; try congruence; try done.
  - split; rewrite ?H5, ?H2, ?E2; try lia. by intros ?.
Qed.

End open.

(** ** From one session to the next *)

(** Directories do not share sectors. *)
Definition tree_apart (fs : FATFS) (T : tree) : Prop :=
  forall sc1 sp1 es1 sc2 sp2 es2 o1 o2 s, T !! sc1 = Some (sp1, es1) -> T !! sc2 = Some (sp2, es2) -> 0 <= o1 -> 0 <= o2 ->
    dsect fs sp1 o1 = Some s -> dsect fs sp2 o2 = Some s -> sc1 = sc2.

(** One entry of the tree replaced. *)
Definition tree_set (T : tree) (sc : Z) (sp : dspace) (es : list (list byte)) (k : nat) (e : list byte) : tree :=
  <[sc := (sp, <[k := e]> es)]> T.

(** A path leads to the same place when an entry that is no directory has
    been replaced by one of the same name. *)
Lemma walk_renewed ty T sc sp es k e e' names s w :
  T !! sc = Some (sp, es) -> es !! k = Some e -> (forall fn, ent_is fn e' = ent_is fn e) -> ent_byte e' DIR_Name = ent_byte e DIR_Name ->
  nz (Z.land (ent_attr e) AM_DIR) = false -> nz (Z.land (ent_attr e') AM_DIR) = false ->
  walk ty T s names = Some w -> walk ty (tree_set T sc sp es k e') s names = Some w.
Proof using Type.
  intros HT He His Hfi Hnd Hnd'.
  assert (forall fn, lookup_name fn (<[k := e']> es) = lookup_name fn es) as Hlk.
  { intros fn. unfold lookup_name. apply (scan_insert _ es k e); [done|done|by rewrite Hfi]. }
  revert s. induction names as [|fn rest IH]; intros s; [done|]. cbn [walk]. unfold tree_set.
  destruct (Z.eq_dec s sc) as [->|Hne].
  - rewrite lookup_insert_eq, HT. cbn. rewrite Hlk. destruct (lookup_name fn es) as [j|]; [|done]. destruct rest as [|fn2 rest]; [done|].
    destruct (decide (j = k)) as [->|Hj].
    + rewrite list_lookup_insert_eq by (by eapply lookup_lt_Some). rewrite He. cbn. by rewrite Hnd, Hnd'.
    + rewrite list_lookup_insert_ne by done. destruct (es !! j) as [x|]; [|done]. cbn.
      destruct (nz (Z.land (ent_attr x) AM_DIR)); [|done]. apply IH.
  - rewrite lookup_insert_ne by done. destruct (T !! s) as [[sp2 es2]|]; [|done]. cbn.
    destruct (lookup_name fn es2) as [j|]; [|done]. destruct rest as [|fn2 rest]; [done|].
    destruct (es2 !! j) as [x|]; [|done]. cbn. destruct (nz (Z.land (ent_attr x) AM_DIR)); [|done]. apply IH.
Qed.

Lemma walk_stamped ty T sc sp es k e e' cl size names s w :
  T !! sc = Some (sp, es) -> es !! k = Some e -> stamped ty cl size e e' -> len e = SZDIRE -> len e' = SZDIRE ->
  nz (Z.land (ent_attr e) AM_DIR) = false ->
  walk ty T s names = Some w -> walk ty (tree_set T sc sp es k e') s names = Some w.
Proof using Type.
  intros HT He Hst Le Le' Hnd. apply (walk_renewed ty T sc sp es k e); try done; [by intros fn; apply (stamped_is ty cl size)|by eapply stamped_first|].
  unfold ent_attr in *. rewrite (sd_attr _ _ _ _ _ Hst). rewrite Z.land_lor_distr_l, Z.land_lor_distr_l.
  change (Z.land (Z.land AM_ARC AM_MASK) AM_DIR) with 0. by rewrite Z.lor_0_r.
Qed.

Lemma dsect_above v sc sp o s :
  sound G v -> dir_space G v sc sp -> 0 <= o -> dsect (vfs v) sp o = Some s -> fatbase (vfs v) <= s.
Proof using Type.
  intros Hs Hsp Ho. pose proof (proj1 (so_ok _ _ Hs)) as Hok. pose proof (ok_fsize _ Hok). pose proof (ok_n_fats _ Hok).
  destruct sp as [|cs]; cbn.
  - destruct Hsp as (_ & _ & Hr & _). destruct (_ <? _); [|done]. intros [= <-]. pose proof (rl_base _ Hr).
    assert (0 <= o / SS) by (apply Z.div_pos; done). nia.
  - intros E. pose proof (so_data _ _ Hs) as Hdl. pose proof (dl_base _ Hdl).
    assert (data_sect (vfs v) s) as [Hd _]; [|nia].
    apply (file_data (vfs v) Hdl v (dir_start (vfs v) sc) cs o); [apply sv_refl, Hs|by destruct cs; [inversion Hsp|]|done|done].
Qed.

(** What a flushed volume shows. *)
Lemma synced_holds v v' sc sp es :
  sound G v -> synced v v' -> dir_space G v sc sp -> dir_holds v sp es -> dir_space G v' sc sp /\ dir_holds v' sp es.
Proof using Type.
  intros Hs [Hs' Hg Hf Hv] Hsp [Hl Hk]. split; [by apply (dir_space_next G v)|].
  split; [by rewrite (dsize_geom _ _ _ Hg)|]. intros j Hj. rewrite <- Hk by done. unfold dentry. rewrite (dsect_geom _ _ _ _ Hg).
  destruct (dsect (vfs v) sp (j * SZDIRE)) as [s|] eqn:E; [|done]. cbn. rewrite Hv; [done|..].
  - eapply dsect_ok in E; [apply E|done|done|unfold_consts; lia].
  - eapply dsect_above; [exact Hs|exact Hsp| |exact E]. unfold_consts; lia.
Qed.

Section record.
Context (v0 : vol D) (T : tree) (Hs : sound G v0) (HT : tree_in G v0 T) (Hta : tree_apart (vfs v0) T) (Hfsi : fsi_apart (vfs v0)).
Context (sc : Z) (sp : dspace) (es : list (list byte)) (k : nat) (e : list byte).
Context (HTs : T !! sc = Some (sp, es)) (He : es !! k = Some e) (Hnd : nz (Z.land (ent_attr e) AM_DIR) = false).
Abbreviation ty := (fs_type (vfs v0)).

(** The file has been recorded: its entry stands for its bytes, every path
    leads where it led, and the other open files are as they were. *)
Record recorded (T' : tree) (e' : list byte) (cs : list Z) (data : list byte) (s : Z) v : Prop := mk_recorded {
  rc_sound : sound G v;
  rc_geom : geom (vfs v) = geom (vfs v0);
  rc_tree : tree_in G v T' /\ T' !! sc = Some (sp, <[k := e']> es) /\ (<[k := e']> es) !! k = Some e';
  rc_walk : forall names c w, walk ty T c names = Some w -> walk ty T' c names = Some w;
  rc_attr : ent_byte e' DIR_Attr = Z.lor (ent_byte e DIR_Attr) AM_ARC;
  rc_file : entry_file v e' cs data;
  rc_frame : forall fp2 cs2 a2, file_is v0 fp2 cs2 a2 -> ~ in_file (vfs v0) cs2 s -> file_is v fp2 cs2 a2
}.

(** Cluster numbers fit the field of the entry. *)
Lemma sclust_fits c cs : clusters v0 c cs -> 0 <= c < U32 /\ (ty <> FS_FAT32 -> c < 65536).
Proof using Hs.
  intros Hcl. destruct cs as [|x l]; [cbn in Hcl; subst; done|]. destruct (chain_valid _ _ _ Hcl) as [V1 V2].
  pose proof (ok_n_fatent _ (proj1 (so_ok _ _ Hs))). pose proof (so_fat _ _ Hs) as Hl. split; [lia|]. intros Hne.
  destruct (fl_type _ Hl) as [E|[E|E]]; [pose proof (fl_max12 _ Hl E) as Hm|pose proof (fl_max16 _ Hl E) as Hm|done];
    revert Hm; unfold_consts; lia.
Qed.

Lemma rewritten_tree e' s d v1 :
  rewritten G v0 sc sp es k s d e' v1 -> ent_pos v0 sp k s d -> tree_in G v1 (tree_set T sc sp es k e').
Proof using Hs HT Hta HTs.
  intros Hrw Hep c sp2 es2. unfold tree_set. destruct (Z.eq_dec c sc) as [->|Hne].
  - rewrite lookup_insert_eq. intros [= <- <-]. split; apply Hrw.
  - rewrite lookup_insert_ne by done. intros Hc. destruct (HT _ _ _ Hc) as [Hsp2 Hes2]. pose proof (rw_geom _ _ _ _ _ _ _ _ _ _ Hrw) as Hg.
    split; [apply (dir_space_next G v0); [done|apply Hrw|done]|]. destruct Hes2 as [Hl Hk2].
    split; [by rewrite (dsize_geom _ _ _ Hg)|]. intros j Hj. rewrite <- Hk2 by done. unfold dentry. rewrite (dsect_geom _ _ _ _ Hg).
    destruct (dsect (vfs v0) sp2 (j * SZDIRE)) as [x|] eqn:E; [|done]. cbn. rewrite (rw_view _ _ _ _ _ _ _ _ _ _ Hrw); [done|..].
    + eapply dsect_ok in E; [apply E|done|done|unfold_consts; lia].
    + intros ->. apply Hne. eapply (Hta c sp2 es2 sc sp es); [done|done| | |exact E|exact (ep_sect _ _ _ _ _ Hep)]; unfold_consts; lia.
Qed.

Lemma recorded_frame e' s d v1 v' fp2 cs2 a2 :
  rewritten G v0 sc sp es k s d e' v1 -> synced v1 v' -> file_is v0 fp2 cs2 a2 -> ~ in_file (vfs v0) cs2 s -> file_is v' fp2 cs2 a2.
Proof using Hs.
  intros Hrw Hy Hf Hni. pose proof (rw_geom _ _ _ _ _ _ _ _ _ _ Hrw) as Hg1. pose proof (sy_geom _ _ Hy) as Hg2.
  apply (file_is_frame G v0); [done|congruence|done|..].
  - intros c Hc. assert (valid_clst (vfs v0) c) as Hv.
    { apply list_elem_of_lookup in Hc as [j Hj]. by eapply clusters_valid; [apply (fi_clusters _ _ _ _ Hf)|]. }
    rewrite (sy_fat _ _ Hy), (rw_fat _ _ _ _ _ _ _ _ _ _ Hrw); [done|done|].
    unfold valid_clst. by apply geom_fields in Hg1 as (_&_&_&_&_&_&->&_).
  - intros x Hin. destruct (file_sects G v0 fp2 cs2 a2 x Hs Hf Hin) as [Hp _].
    rewrite (sy_view _ _ Hy), (rw_view _ _ _ _ _ _ _ _ _ _ Hrw); [done|done|by intros ->|by apply (plain_geom (vfs v0))|].
    apply geom_fields in Hg1 as (_&_&_&_&_&_&_&_&_&->&_). destruct Hin as (c & j & Hc & Hj & ->).
    apply list_elem_of_lookup in Hc as [i Hi]. pose proof (clusters_valid _ _ _ _ _ (fi_clusters _ _ _ _ Hf) Hi) as [V1 V2].
    pose proof (proj1 (so_ok _ _ Hs)) as Hok. pose proof (dl_base _ (so_data _ _ Hs)). pose proof (ok_fsize _ Hok). pose proof (ok_n_fats _ Hok).
    pose proof (ok_csize _ Hok). unfold clst_sect. nia.
Qed.

(** [sync_vol] records the file. *)
Lemma sync_vol_records fp cs a :
  file_is v0 fp cs a -> ent_pos v0 sp k (fp_dir_sect fp) (fp_dir_ptr fp) -> ~ in_file (vfs v0) cs (fp_dir_sect fp) ->
  wp (sync_vol fp) (fun r v' => r = (FR_OK, set_fp_flag (Z.land (fp_flag fp) (u8 (Z.lnot FA_MODIFIED))) fp) /\
    exists T' e', recorded T' e' cs (af_data a) (fp_dir_sect fp) v') v0.
Proof using Hs HT Hta Hfsi HTs He Hnd.
  intros Hf Hep Hni. destruct (HT _ _ _ HTs) as [Hsp Hes].
  eapply wp_mono; [by apply (sync_vol_spec v0 sc sp Hs Hsp es Hes Hfsi fp k)|].
  intros r v' (-> & e1 & v1 & He1 & Hl & Hrw & Hy). split; [done|]. rewrite He in He1. injection He1 as <-.
  set (e' := stamp _ _ _ _) in *. pose proof (sclust_fits _ _ (fi_clusters _ _ _ _ Hf)) as [Hc1 Hc2].
  pose proof (fi_cursor _ _ _ _ Hf) as Hcu. pose proof (cu_fptr _ _ _ Hcu). pose proof (cu_size _ _ _ Hcu).
  assert (stamped ty (fp_sclust fp) (fp_objsize fp) e e') as Hst by (apply stamp_stamped; [done|done|done|lia]).
  assert (len e' = SZDIRE) as Hl' by (unfold e'; by rewrite len_stamp).
  pose proof (rw_geom _ _ _ _ _ _ _ _ _ _ Hrw) as Hg1. pose proof (sy_geom _ _ Hy) as Hg2.
  assert (geom (vfs v') = geom (vfs v0)) as Hg by congruence.
  pose proof (recorded_frame e' _ _ v1 v' fp cs a Hrw Hy Hf Hni) as Hf'.
  exists (tree_set T sc sp es k e'), e'. split.
  - apply Hy.
  - done.
  - split; [|split; [apply lookup_insert_eq|apply list_lookup_insert_eq; by eapply lookup_lt_Some]].
    intros c sp2 es2 Hc. destruct (rewritten_tree e' _ _ v1 Hrw Hep c sp2 es2 Hc) as [A B].
    apply (synced_holds v1); [apply Hrw|done|done|done].
  - intros names c w Hw. by eapply walk_stamped.
  - apply Hst.
  - destruct Hf' as [F1 F2 _ _ F5 F6 _ _]. assert (fs_type (vfs v') = ty) as Ety by (by apply geom_fields in Hg as [-> _]).
    split.
    + rewrite Ety, (sd_clust _ _ _ _ _ Hst). done.
    + by rewrite (sd_size _ _ _ _ _ Hst).
    + rewrite <- F5. lia.
    + rewrite <- F5. apply F2.
    + done.
  - intros fp2 cs2 a2 Hf2 Hni2. by eapply recorded_frame.
Qed.

End record.

(** ** Directories beside open files *)

(** The directory shares no cluster with the file. *)
Definition dir_off (sp : dspace) (cs : list Z) : Prop := match sp with Root => True | Clst dcs => dcs ## cs end.

Lemma dsect_off v sc sp cs o s :
  sound G v -> dir_space G v sc sp -> dir_off sp cs -> (forall c, c ∈ cs -> valid_clst (vfs v) c) -> 0 <= o ->
  dsect (vfs v) sp o = Some s -> ~ in_file (vfs v) cs s.
Proof using Type.
  intros Hs Hsp Hoff Hval Ho E (c & k & Hc & Hk & ->). pose proof (csize_pos _ (so_data _ _ Hs)) as Hcs. destruct sp as [|dcs]; cbn in *.
  - destruct Hsp as (_ & _ & Hr & _). destruct (Z.ltb_spec (o / SZDIRE) (n_rootdir (vfs v))) as [Hlt|]; [|done]. injection E as E.
    destruct (Hval c Hc) as [V1 _]. pose proof (rl_end _ Hr). pose proof (rl_align _ Hr).
    assert (o / SS < n_rootdir (vfs v) / 16).
    { change SS with (SZDIRE * 16). rewrite <- Z.div_div by done. apply Z.div_lt_upper_bound; [done|].
      pose proof (Z.div_mod (n_rootdir (vfs v)) 16 ltac:(done)). lia. }
    unfold clst_sect in E. nia.
  - apply (disjoint_sects (vfs v) cs dcs (clst_sect (vfs v) c + k)); [by intros x H1 H2; apply (Hoff x)|by eapply fsect_in_file; [apply Hs| |]|].
    by exists c, k.
Qed.

Lemma dir_framed v cs v' cs' sc sp es :
  sound G v -> frame v cs v' cs' -> (forall c, c ∈ cs' -> valid_clst (vfs v) c) -> dir_off sp cs ->
  dir_space G v sc sp -> dir_holds v sp es -> dir_space G v' sc sp /\ dir_holds v' sp es /\ dir_off sp cs'.
Proof using Type.
  intros Hs [Hg Hnew Hfat Hvw] Hval Hoff Hsp [Hl Hk].
  assert (dir_off sp cs') as Hoff'.
  { destruct sp as [|dcs]; [done|]. intros c Hc1 Hc2. destruct (Hnew c Hc2) as [Hin|H0]; [by apply (Hoff c)|]. by eapply (chain_nonzero v) in H0. }
  split; [|split; [|done]].
  - destruct sp as [|dcs]; cbn in *.
    + destruct Hsp as (-> & Ht & Hr & Hgd). pose proof Hg as (Ety&_&_&_&Enr&_&_&_&_&_&Edb&_)%geom_fields. split; [done|].
      split; [by rewrite Ety|]. split; [by apply (root_layout_geom (vfs v))|]. unfold root_sect in *. by rewrite Edb, Enr.
    + pose proof Hg as (Ety&_&_&_&_&_&_&_&_&_&Edb&_)%geom_fields.
      assert (dir_start (vfs v') sc = dir_start (vfs v) sc) as -> by (unfold dir_start; by rewrite Ety, Edb).
      apply (chain_ext v); [done|done|]. intros x Hx. apply Hfat; [by eapply chain_all_valid|intros H1; by apply (Hoff x)|intros H1; by apply (Hoff' x)].
  - split; [by rewrite (dsize_geom _ _ _ Hg)|]. intros j Hj. rewrite <- Hk by done. unfold dentry. rewrite (dsect_geom _ _ _ _ Hg).
    destruct (dsect (vfs v) sp (j * SZDIRE)) as [s|] eqn:E; [|done]. cbn.
    assert (0 <= j * SZDIRE) as Hjo by (unfold_consts; lia).
    destruct (dsect_ok G v sc sp Hs Hsp _ _ Hjo E) as (_ & Hp & Ho & _).
    rewrite Hvw; [done|done|done|]. by eapply dsect_off.
Qed.

(** Files keep their clusters valid. *)
Lemma file_clusters_valid v fp cs a c : file_is v fp cs a -> c ∈ cs -> valid_clst (vfs v) c.
Proof using Type.
  intros Hf Hc. apply list_elem_of_lookup in Hc as [j Hj]. by eapply clusters_valid; [apply (fi_clusters _ _ _ _ Hf)|].
Qed.

Lemma tree_framed v fp cs v' fp' cs' a' T :
  sound G v -> vstep G v fp cs v' fp' cs' a' -> tree_in G v T -> (forall sc sp es, T !! sc = Some (sp, es) -> dir_off sp cs) ->
  tree_in G v' T /\ forall sc sp es, T !! sc = Some (sp, es) -> dir_off sp cs'.
Proof using Type.
  intros Hs [Hs' Hg Hf _ _ Hfr] HT Hoff.
  assert (forall c, c ∈ cs' -> valid_clst (vfs v) c) as Hval.
  { intros c Hc. pose proof (file_clusters_valid _ _ _ _ _ Hf Hc) as Hv. unfold valid_clst in *. by apply geom_fields in Hg as (_&_&_&_&_&_&<-&_). }
  assert (forall sc sp es, T !! sc = Some (sp, es) -> dir_space G v' sc sp /\ dir_holds v' sp es /\ dir_off sp cs') as H.
  { intros sc sp es Hsc. destruct (HT _ _ _ Hsc). apply (dir_framed v cs v' cs'); try done. by eapply Hoff. }
  split; [intros sc sp es Hsc; by destruct (H _ _ _ Hsc) as (? & ? & _)|]. intros sc sp es Hsc. by apply (H sc sp es).
Qed.

(** ** In the world *)

(** The table of mounted volumes is not touched. *)
Definition table_kept_by {A} (m : M (world D) A) : Prop :=
  forall w, match m w with Done (_, w') => FatFs w' = FatFs w | _ => True end.

Lemma tk_ret {A} (a : A) : table_kept_by (ret a).
Proof using Type. by intros w. Qed.

Lemma tk_bind {A B} (m : M (world D) A) (k : A -> M (world D) B) :
  table_kept_by m -> (forall a, table_kept_by (k a)) -> table_kept_by (bind m k).
Proof using Type.
  intros Hm Hk w. specialize (Hm w). unfold bind. destruct (m w) as [[a w1]| |]; [|done|done]. specialize (Hk a w1).
  destruct (k a w1) as [[b w2]| |]; [|done|done]. congruence.
Qed.

Lemma tk_chk {A} (o : option A) : table_kept_by (chk o).
Proof using Type. by destruct o. Qed.

Lemma tk_on_fs {A} p (m : M (vol D) A) : table_kept_by (on_fs p m).
Proof using Type. intros w. unfold on_fs. destruct (heap w !! p); [|done]. by destruct (m _) as [[]| |]. Qed.

Lemma tk_on_wdisk {A} (m : M D A) : table_kept_by (on_wdisk m).
Proof using Type. intros w. unfold on_wdisk, zoom. by destruct (m _) as [[]| |]. Qed.

Ltac tk := repeat first [apply tk_ret|apply tk_chk|apply tk_on_fs|apply tk_on_wdisk|apply tk_bind; intros|case_match].

Lemma tk_validate obj : table_kept_by (validate obj).
Proof using Type. unfold validate. tk. Qed.

Lemma tk_f_write fp buff btw : table_kept_by (f_write fp buff btw).
Proof using Type. unfold f_write. apply tk_bind; [apply tk_validate|intros]. tk. Qed.

Lemma tk_f_close fp : table_kept_by (f_close fp).
Proof using Type.
  unfold f_close, f_sync. apply tk_bind; [apply tk_bind; [apply tk_validate|intros]; tk|intros]. tk. apply tk_validate.
Qed.

Lemma wp_tk {A} (m : M (world D) A) Q w :
  table_kept_by m -> wp m Q w -> wp m (fun a w' => Q a w' /\ FatFs w' = FatFs w) w.
Proof using Type. intros Hm H. specialize (Hm w). unfold wpt in *. by destruct (m w) as [[a w']| |]. Qed.

Section world.
Context {Pf : Platform} (Hun : len (dp_fn uninit_dir) = 12) (Hrdy : drive_ready (D := D) true).

(** [f_close] of a file that has been changed records it. *)
Lemma f_close_file w p v T sc sp es k e fp cs a :
  hosts w p v -> handle p v fp -> sound G v -> tree_in G v T -> tree_apart (vfs v) T -> fsi_apart (vfs v) ->
  T !! sc = Some (sp, es) -> es !! k = Some e -> nz (Z.land (ent_attr e) AM_DIR) = false ->
  file_is v fp cs a -> nz (Z.land (fp_flag fp) FA_MODIFIED) = true ->
  ent_pos v sp k (fp_dir_sect fp) (fp_dir_ptr fp) -> ~ in_file (vfs v) cs (fp_dir_sect fp) ->
  wp (f_close fp) (fun r w' => r.1 = FR_OK /\ exists v' T' e', hosts w' p v' /\
    recorded v T sc sp es k e T' e' cs (af_data a) (fp_dir_sect fp) v') w.
Proof using Hrdy.
  intros Hh Hha Hs HT Hta Hfsi HTs He Hnd Hf Hmod Hep Hni. unfold f_close, f_sync. apply wp_bind.
  eapply validate_hosts; [done|exact Hh|done|apply (so_ok _ _ Hs)|]. change (FR_OK =r FR_OK) with true. rewrite Hmod. cbn [andb].
  apply wp_bind. eapply wp_chk; [done|]. eapply wp_on_volume; [exact Hh|].
  eapply wp_mono; [by apply (sync_vol_records v T Hs HT Hta Hfsi sc sp es k e HTs He Hnd fp cs a)|].
  intros r v' (-> & T' & e' & Hrc). split; [apply Hrc|]. intros w' Hh'. change (FR_OK =r FR_OK) with true. cbv iota.
  eapply validate_hosts; [done|exact Hh'| |apply (so_ok _ _ (rc_sound _ _ _ _ _ _ _ _ _ _ _ _ _ Hrc))|].
  - destruct Hha as [H1 H2]. split; [done|]. cbn. pose proof (rc_geom _ _ _ _ _ _ _ _ _ _ _ _ _ Hrc) as (_&_&_&->&_)%geom_fields. done.
  - change (FR_OK =r FR_OK) with true. cbv iota. apply wp_ret. split; [done|]. exists v', T', e'. done.
Qed.

(** The drive is not write-protected. *)
Definition drive_writable : Prop := forall (d : D) p, dok d -> wp (dio_status p) (fun s _ => Z.land s STA_PROTECT = 0) d.

(** The volume of a path: it is mounted, and nothing is written. *)
Lemma mount_volume_hosts {A} w p v pth rp mode (K : FRESULT * option Z * Z -> M (world D) A) Q :
  hosts w p v -> at_ (FatFs w) 0 = Some (Some p) -> dok (vdsk v) ->
  (forall s : world D, get_ldnumber (Some pth) s = Done ((0, rp), s)) -> Z.land mode (u8 (Z.lnot FA_READ)) = 0 \/ drive_writable ->
  wp (K (FR_OK, Some p, rp)) Q w -> wp (bind (mount_volume (Some pth) mode) K) Q w.
Proof using Hrdy.
  intros Hh Hreg Hd Hld Hm HK. pose proof Hh as [H1 H2 H3]. apply wp_bind. unfold mount_volume. apply wp_bind.
  eapply wp_of_run; [apply Hld|]. cbn [Z.ltb Z.compare]. apply wp_bind. unfold get_FatFs. apply wp_bind, wp_get.
  eapply wp_chk; [exact Hreg|]. apply wp_bind. unfold wpt at 1, on_fs. rewrite H1. cbn.
  assert (mkWorld (<[p:=vfs v]> (heap w)) (FatFs w) (Fsid w) (wdisk w) = w) as -> by (rewrite insert_id by done; by destruct w).
  unfold nz at 1. rewrite (proj2 (Z.eqb_neq _ _) H3). cbn [negb].
  change (wp (bind (on_wdisk (dio_status (pdrv (vfs v)))) (fun stat : Z => if negb (nz (Z.land stat STA_NOINIT)) then
    if nz (Z.land mode (u8 (Z.lnot FA_READ))) && nz (Z.land stat STA_PROTECT) then ret (FR_WRITE_PROTECTED, Some p, rp) else ret (FR_OK, Some p, rp)
    else r <- on_fs p (mount_fs (Z.land mode (u8 (Z.lnot FA_READ)))) ;;
      match r with
      | inl e => ret (e, Some p, rp)
      | inr fmt => on_fs p (mod_fs (set_fs_type (u8 fmt))) ;;; w <- get ;; let id := u16 (Fsid w + 1) in
                   put (set_Fsid id w) ;;; on_fs p (mod_fs (set_fs_id id)) ;;; ret (FR_OK, Some p, rp)
      end)) (fun x w' => wp (K x) Q w') w).
  apply wp_bind, wp_zoom. rewrite <- H2 in Hd.
  destruct (wp_run _ _ _ (dio_status_law (wdisk w) (pdrv (vfs v)) Hd)) as (st & d' & Hrun & ->).
  eapply wp_of_run; [exact Hrun|]. assert (mkWorld (heap w) (FatFs w) (Fsid w) (wdisk w) = w) as -> by (by destruct w).
  destruct (wp_run _ _ _ (Hrdy eq_refl (wdisk w) (pdrv (vfs v)) Hd)) as (st' & d' & Hrun' & Hst).
  rewrite Hrun in Hrun'. injection Hrun' as <- <-. rewrite Hst. change (negb (nz 0)) with true. cbv iota.
  destruct Hm as [->|Hm]; [by apply wp_ret|]. specialize (Hm (wdisk w) (pdrv (vfs v)) Hd). unfold wpt in Hm. rewrite Hrun in Hm. cbn in Hm.
  rewrite Hm, andb_false_r. by apply wp_ret.
Qed.

(** A computation on the volume that was found. *)
Lemma wp_at_volume {A} w p v (pth : list byte) (m : Z -> list byte -> M (vol D) A) Q :
  hosts w p v ->
  wp (m p pth) (fun x v' => geom (vfs v') = geom (vfs v) /\ forall w', hosts w' p v' -> FatFs w' = FatFs w -> Q x w') v ->
  wp (vp <- chk (Some p) ;; q <- chk (Some pth) ;; on_fs vp (m vp q)) Q w.
Proof using Type.
  intros Hh Hm. apply wp_bind. eapply wp_chk; [done|]. apply wp_bind. eapply wp_chk; [done|].
  assert (wp (on_fs p (m p pth)) (fun x w' => FatFs w' = FatFs w -> Q x w') w) as H.
  { eapply wp_on_volume; [exact Hh|]. eapply wp_mono; [exact Hm|]. intros x v' [Hg HQ]. split; [done|]. intros w' Hh' Ht. by apply HQ. }
  eapply wp_mono; [apply wp_tk; [apply tk_on_fs|exact H]|]. intros x w' [HQ Ht]. by apply HQ.
Qed.

(** [f_open] for reading. *)
Lemma f_open_file w p v T pth rp sc sp es k e cs data fp0 :
  hosts w p v -> at_ (FatFs w) 0 = Some (Some p) -> sound G v -> tree_in G v T ->
  (forall s : world D, get_ldnumber (Some pth) s = Done ((0, rp), s)) ->
  leads v T pth rp (Found sc k) -> T !! sc = Some (sp, es) -> es !! k = Some e ->
  nz (Z.land (ent_attr e) AM_DIR) = false -> entry_file v e cs data ->
  wp (f_open fp0 (Some pth) FA_READ) (fun r w' => r.1 = FR_OK /\ exists v', hosts w' p v' /\ sound G v' /\
    handle p v' r.2 /\ file_is v' r.2 cs (mkAfile data 0 true false)) w.
Proof using Hun Hrdy.
  intros Hh Hreg Hs HT Hld Hpath HTs He Hnd Hef. unfold f_open. change (Z.land FA_READ _) with FA_READ.
  eapply mount_volume_hosts; [exact Hh|exact Hreg|apply (so_ok _ _ Hs)|exact Hld|by left|].
  change (FR_OK =r FR_OK) with true. cbv iota. apply wp_bind. eapply wp_at_volume; [exact Hh|].
  eapply wp_mono; [by apply (open_vol_spec Hun v T Hs HT fp0 pth rp FA_READ p sc sp es k e)|].
  intros [r fp] v' (Hc & Hr & Hop). cbn [fst snd] in *. assert (r = FR_OK) as -> by (rewrite Hr; unfold open_result; by rewrite Hnd). specialize (Hop eq_refl).
  split; [by apply (calm_geom _ _ _ Hc)|]. intros w' Hh' _. apply wp_ret. cbn [fst snd]. change (negb (FR_OK =r FR_OK)) with false. cbv iota.
  split; [done|]. exists v'. destruct Hc as [Hu Ha]. destruct (unchanged_frame G v [] v' Hs Hu Ha) as [Hs' Hfr].
  split; [done|]. split; [done|]. split.
  - destruct (op_obj _ _ _ _ _ _ _ Hop) as [H1 H2]. split; [done|]. rewrite H2. pose proof (fr_geom _ _ _ _ Hfr) as (_&_&_&->&_)%geom_fields. done.
  - pose proof (opened_file v e sp k FA_READ p fp cs data Hop Hef) as Hfi. cbn in Hfi.
    eapply (frame_file G v [] v' []); [done|exact Hfr|exact Hfi|]. intros c Hc. by apply elem_of_nil in Hc.
Qed.

End world.

End persist.
