(* ===== verification/Change.v ===== *)
(** * What an operation may change

    Operations on directories change a few entries of the allocation table
    and a few sectors.  [changed X Y v v'] says that, from the
    allocation table on, the clusters [X] and the sectors [Y] are all that
    differs; directories and files that keep clear of them are as they were.
    Nothing is said of the sectors before the table, the boot record and the
    FSInfo sector, which [sync_fs] writes. *)

From stdpp Require Import base numbers list option gmap.
From Stdlib Require Import ZArith Lia.
From Stdlib Require Import Strings.Byte.
From S2P Require Import Prelude Types Bytes Diskio Window Fat Chain Live Dir Path Mount File Content Writing Seeking Refine Listing Entries Tree Persist.

Section change.
Context {D : Type} `{!DiskIO D} `{!DiskIOLaws D} (G : Z -> Prop).
Implicit Types (v : vol D) (X Y : Z -> Prop) (T : tree).

Record changed X Y v v' : Prop := mk_changed {
  cg_sound : sound G v';
  cg_geom : geom (vfs v') = geom (vfs v);
  cg_fat : forall c, valid_clst (vfs v) c -> ~ X c -> fat_entry v' c = fat_entry v c;
  cg_view : forall s, plain (vfs v) s -> off_fat (vfs v) s -> fatbase (vfs v) <= s -> ~ Y s -> lview v' s = lview v s
}.

Lemma changed_refl X Y v : sound G v -> changed X Y v v.
Proof using Type. by split. Qed.

Lemma valid_clst_geom (a b : FATFS) c : geom a = geom b -> valid_clst a c -> valid_clst b c.
Proof using Type. intros (_&_&_&_&_&_&E&_)%geom_fields. unfold valid_clst. by rewrite E. Qed.

Lemma in_file_geom (a b : FATFS) cs s : geom a = geom b -> in_file a cs s <-> in_file b cs s.
Proof using Type. intros (_&_&_&_&_&E1&_&_&_&_&_&E2)%geom_fields. unfold in_file, clst_sect. by rewrite E1, E2. Qed.

Lemma entry_len v sp es k e : dir_holds v sp es -> es !! k = Some e -> len e = SZDIRE.
Proof using Type.
  intros [_ Hk] He. pose proof (lookup_lt_Some _ _ _ He) as Hlt. specialize (Hk (Z.of_nat k)). rewrite at_lookup, Nat2Z.id, He in Hk by lia.
  unfold dentry in Hk. destruct (dsect _ _ _) as [s|]; [|specialize (Hk ltac:(unfold len; lia)); done]. cbn in Hk.
  destruct (lview v s); [|specialize (Hk ltac:(unfold len; lia)); done]. cbn in Hk. eapply slice_len, Hk. unfold len. lia.
Qed.

Lemma ent_pos_geom v v' sp k s d : geom (vfs v') = geom (vfs v) -> ent_pos v sp k s d -> ent_pos v' sp k s d.
Proof using Type. intros Hg [H1 H2 H3]. split; [by rewrite (dsize_geom _ _ _ Hg)|by rewrite (dsect_geom _ _ _ _ Hg)|done]. Qed.

Lemma changed_trans X Y v1 v2 v3 : changed X Y v1 v2 -> changed X Y v2 v3 -> changed X Y v1 v3.
Proof using Type.
  intros [_ Hg1 Hf1 Hv1] [H2 Hg2 Hf2 Hv2]. split; [done|congruence|..].
  - intros c Hc Hn. rewrite Hf2, Hf1; [done|done|done|by apply (valid_clst_geom (vfs v1))|done].
  - intros s Hp Ho Hge Hn.
    rewrite Hv2, Hv1; [done|done|done|done|done|by apply (plain_geom (vfs v1))|by apply (off_fat_geom (vfs v1))| |done].
    by apply geom_fields in Hg1 as (_&_&_&_&_&_&_&_&_&->&_).
Qed.

Lemma changed_weaken X Y X' Y' v v' :
  changed X Y v v' -> (forall c, X c -> X' c) -> (forall s, Y s -> Y' s) -> changed X' Y' v v'.
Proof using Type. intros [H1 H2 H3 H4] HX HY. split; [done|done|..]; intros; [apply H3|apply H4]; auto. Qed.

(** *** The steps that the operations are made of *)

Lemma kept_changed X Y v v' : kept G v v' -> changed X Y v v'.
Proof using Type. intros [H1 H2 H3 H4]. split; auto. Qed.

Lemma calm_changed X Y v v' : sound G v -> calm G v v' -> changed X Y v v'.
Proof using Type. intros Hs Hc. by apply kept_changed, calm_kept. Qed.

Lemma synced_changed X Y v v' : synced G v v' -> changed X Y v v'.
Proof using Type. intros [H1 H2 H3 H4]. split; auto. Qed.

Lemma rewritten_changed X Y v sc sp es k s d e v' : rewritten G v sc sp es k s d e v' -> Y s -> changed X Y v v'.
Proof using Type. intros [H1 H2 _ H3 H4 _ _ _] HY. split; auto. intros x Hp _ _ Hn. apply H3; [done|]. by intros ->. Qed.

Lemma lengthened_changed X Y v sc cs es x v' :
  lengthened G v sc cs es x v' -> X x -> (forall c, c ∈ cs -> X c) -> (forall s, in_file (vfs v) [x] s -> Y s) -> changed X Y v v'.
Proof using Type.
  intros [H1 H2 _ H3 H4 _ _] Hx Hcs HY. split; [done|done|..].
  - intros c Hv Hn. apply H3; [done|by intros ->|auto].
  - intros s Hp Ho _ Hn. apply H4; auto.
Qed.

(** Fields of the filesystem object that say nothing of the volume. *)
Lemma tweak v fs :
  sound G v -> fs_ok fs -> geom fs = geom (vfs v) -> win fs = win (vfs v) -> winsect fs = winsect (vfs v) ->
  wflag fs = wflag (vfs v) -> let v' := mkVol fs (vdsk v) in sound G v' /\ (forall s, lview v' s = lview v s) /\ forall c, fat_entry v' c = fat_entry v c.
Proof using Type.
  intros Hs Hf Hg Hw Hws Hwf v'. assert (pdrv fs = pdrv (vfs v)) as Hp by (by apply geom_fields in Hg as (_&->&_)). assert (forall s, lview v' s = lview v s) as Hlv by (intros s; unfold lview; cbn; by rewrite Hws, Hw, Hp).
  assert (forall c, fat_entry v' c = fat_entry v c) as Hfe by (intros c; by apply fat_entry_lview). split; [|done].
  apply (sound_next G v); [done|split; [by split; [|apply Hs]|done]|..].
  - intros H1 H2. cbn in *. rewrite Hws, Hw, Hp. apply (so_co _ _ Hs); congruence.
  - destruct (so_alive _ _ Hs) as (A1 & A2 & A3). split; [cbn; by rewrite Hp|]. split; [cbn; by rewrite Hws|]. cbn.
    intros o Ho. rewrite (fat_sect_geom _ _ _ Hg). apply A3. by apply geom_fields in Hg as (_&_&_&_&_&_&_&<-&_).
  - intros (c & Hc & E). apply (so_bad _ _ Hs). exists c. rewrite <- Hfe. split; [|done]. by apply (valid_clst_geom fs).
Qed.

Lemma tweak_changed X Y v fs :
  sound G v -> fs_ok fs -> geom fs = geom (vfs v) -> win fs = win (vfs v) -> winsect fs = winsect (vfs v) ->
  wflag fs = wflag (vfs v) -> changed X Y v (mkVol fs (vdsk v)).
Proof using Type. intros Hs Hf Hg Hw Hws Hwf. by destruct (tweak v fs Hs Hf Hg Hw Hws Hwf) as (H1 & H2 & H3). Qed.

(** Freeing a chain. *)
Lemma remove_changed Y v c l :
  sound G v -> chain v c l ->
  wp (remove_chain c 0) (fun r v' => r = FR_OK /\ changed (fun x => x ∈ l) Y v v' /\ forall x, x ∈ l -> fat_entry v' x = Some 0) v.
Proof using Type.
  intros Hs Hch. eapply wp_mono; [apply (remove_alive G (vfs v) (so_fat _ _ Hs) v c 0 l);
    [apply sv_refl, Hs|apply Hs|apply Hs|done|by left]|].
  intros r v' (-> & (Hsv & Hco & Hf & Hvw) & Ha). split; [done|].
  assert (forall x, x ∈ l -> fat_entry v' x = Some 0) as H0.
  { intros x Hx. rewrite Hf by (by eapply chain_all_valid). unfold cut_table. by rewrite decide_True. }
  split; [|done]. assert (forall x, valid_clst (vfs v) x -> x ∉ l -> fat_entry v' x = fat_entry v x) as H1.
  { intros x Hx Hn. rewrite Hf by done. unfold cut_table. by rewrite decide_False. }
  pose proof Hsv as [_ Hg]. split; [|done|done|auto]. apply (sound_next G v); try done.
  intros (x & Hx & E). apply (valid_clst_geom _ (vfs v)) in Hx; [|done]. destruct (decide (x ∈ l)) as [Hin|Hin].
  - rewrite H0 in E by done. done.
  - apply (so_bad _ _ Hs). exists x. by rewrite <- H1.
Qed.

(** ** Directories and files beside it *)

(** The directory keeps clear of the clusters [X] and the sectors [Y]. *)
Definition dir_beside (fs : FATFS) X Y (sp : dspace) : Prop :=
  match sp with Root => True | Clst cs => forall c, c ∈ cs -> ~ X c end /\
  forall o s, 0 <= o -> dsect fs sp o = Some s -> ~ Y s.

Lemma changed_dir X Y v v' sc sp es :
  sound G v -> changed X Y v v' -> dir_beside (vfs v) X Y sp -> dir_space G v sc sp -> dir_holds v sp es ->
  dir_space G v' sc sp /\ dir_holds v' sp es.
Proof using Type.
  intros Hs [Hs' Hg Hf Hv] [Hb1 Hb2] Hsp [Hl Hk]. split.
  - pose proof Hg as (Ety&_&_&_&Enr&_&_&_&_&_&Edb&_)%geom_fields. destruct sp as [|cs]; cbn in *.
    + destruct Hsp as (-> & Ht & Hr & Hgd). split; [done|]. split; [by rewrite Ety|]. split; [by apply (root_layout_geom (vfs v))|].
      unfold root_sect in *. by rewrite Edb, Enr.
    + assert (dir_start (vfs v') sc = dir_start (vfs v) sc) as -> by (unfold dir_start; by rewrite Ety, Edb).
      apply (chain_ext v); [done|done|]. intros x Hx. apply Hf; [by eapply chain_all_valid|auto].
  - split; [by rewrite (dsize_geom _ _ _ Hg)|]. intros j Hj. rewrite <- Hk by done. unfold dentry. rewrite (dsect_geom _ _ _ _ Hg).
    destruct (dsect (vfs v) sp (j * SZDIRE)) as [s|] eqn:E; [|done]. cbn. assert (0 <= j * SZDIRE) as Hj0 by (unfold_consts; lia).
    destruct (dsect_ok G v sc sp Hs Hsp _ _ Hj0 E) as (_ & Hp & Ho & _). rewrite Hv; [done|done|done|by eapply dsect_above|by eapply Hb2].
Qed.

Definition tree_beside (fs : FATFS) X Y T : Prop := forall sc sp es, T !! sc = Some (sp, es) -> dir_beside fs X Y sp.

Lemma changed_tree X Y v v' T :
  sound G v -> changed X Y v v' -> tree_beside (vfs v) X Y T -> tree_in G v T -> tree_in G v' T.
Proof using Type. intros Hs Hc Hb HT sc sp es Hsc. destruct (HT _ _ _ Hsc). eapply changed_dir; [done|done|by eapply Hb|done|done]. Qed.

Lemma tree_beside_geom (a b : FATFS) X Y T : geom a = geom b -> tree_beside a X Y T -> tree_beside b X Y T.
Proof using Type.
  intros Hg H sc sp es Hsc. destruct (H _ _ _ Hsc) as [H1 H2]. split; [done|]. intros o s Ho. rewrite <- (dsect_geom _ _ _ _ Hg). by apply H2.
Qed.

Lemma data_above v s : sound G v -> data_sect (vfs v) s -> fatbase (vfs v) <= s.
Proof using Type.
  intros Hs [Hd _]. pose proof (proj1 (so_ok _ _ Hs)) as Hok. pose proof (dl_base _ (so_data _ _ Hs)).
  pose proof (ok_fsize _ Hok). pose proof (ok_n_fats _ Hok). nia.
Qed.

Lemma changed_file X Y v v' fp cs a :
  sound G v -> changed X Y v v' -> file_is v fp cs a -> (forall c, c ∈ cs -> ~ X c) -> (forall s, in_file (vfs v) cs s -> ~ Y s) ->
  file_is v' fp cs a.
Proof using Type.
  intros Hs [Hs' Hg Hf Hv] Hfi HX HY. apply (file_is_frame G v); [done|done|done|..].
  - intros c Hc. apply Hf; [by eapply file_clusters_valid|auto].
  - intros s Hin. destruct (file_sects G v fp cs a s Hs Hfi Hin) as [Hp Ho]. apply Hv; [done|done| |auto].
    destruct Hin as (c & j & Hc & Hj & ->). apply data_above; [done|]. by apply clst_data; [eapply file_clusters_valid|].
Qed.

(** An open file of a changed volume. *)
Lemma entry_file_changed X Y v v' e cs data :
  sound G v -> changed X Y v v' -> entry_file v e cs data -> (forall c, c ∈ cs -> ~ X c) -> (forall s, in_file (vfs v) cs s -> ~ Y s) ->
  entry_file v' e cs data.
Proof using Type.
  intros Hs Hc He HX HY. pose proof (cg_geom _ _ _ _ Hc) as Hg.
  assert (file_is v (mkFIL (mkFFOBJID None 0 0 0 (ent_clust (fs_type (vfs v)) e) (len data)) 0 FR_OK 0 0 0 0 0) cs (mkAfile data 0 false false)) as Hf.
  { destruct He as [E1 E2 E3 E4 E5]. pose proof (len_nonneg data). by split. }
  apply (changed_file X Y v v') in Hf; [|done|done|done|done]. destruct Hf as [F1 F2 _ _ _ F6 _ _], He as [E1 E2 E3 E4 E5].
  apply geom_fields in Hg as (Ety&_&_&_&_&Ecs&_). split; [by rewrite Ety|done|done| |done]. unfold bcs in *. by rewrite Ecs.
Qed.

End change.
