(* ===== verification/Unlink.v ===== *)
(** * Removing files and directories

    [unlink_vol], the body of [f_unlink], against the tree of directories: an
    entry that may be removed disappears from its directory and its clusters
    become free; a read-only entry and a directory with entries are refused,
    and then nothing changes. *)

From stdpp Require Import base numbers list option gmap.
From Stdlib Require Import ZArith Lia.
From Stdlib Require Import Strings.Byte.
From S2P Require Import Prelude Types Bytes Diskio Window Fat Chain Live Dir Path Mount File DirApi Content Writing Seeking Refine Listing Entries Tree Persist Change.

(** A directory with an entry to report, by its table. *)
Definition in_use (es : list (list byte)) : bool := if scan (reported false) es then true else false.

Definition is_dir (e : list byte) : bool := nz (Z.land (ent_attr e) AM_DIR).
Definition read_only (e : list byte) : bool := nz (Z.land (ent_attr e) AM_RDO).

(** What [f_unlink] answers for an existing entry. *)
Definition unlink_result (ty : Z) (T : tree) (e : list byte) : FRESULT :=
  if read_only e then FR_DENIED
  else if is_dir e then match T !! ent_clust ty e with Some (_, es) => if in_use es then FR_DENIED else FR_OK | None => FR_OK end
  else FR_OK.

(** The tree without the entry, and without the directory it stood for. *)
Definition tree_unlink (ty : Z) (T : tree) (sc : Z) (sp : dspace) (es : list (list byte)) (k : nat) (e : list byte) : tree :=
  let T' := tree_set T sc sp es k (removed e) in
  if is_dir e then delete (ent_clust ty e) T' else T'.

Section unlink.
Context {Pf : Platform} {D : Type} `{!DiskIO D} `{!DiskIOLaws D} (G : Z -> Prop).
Context (Hun : len (dp_fn uninit_dir) = 12).
Context (v0 : vol D) (T : tree) (Hs : sound G v0) (HT : tree_in G v0 T).
Abbreviation ty := (fs_type (vfs v0)).

(** The object that [follow_path] leaves on an entry. *)
Record located (sc : Z) (k : nat) (sp : dspace) (es : list (list byte)) (e : list byte) (dj : DIR) v : Prop := mk_located {
  lo_calm : calm G v0 v;
  lo_at : dir_at (vfs v0) sp (Z.of_nat k) dj;
  lo_entry : on_entry G v0 v (dp_sect dj) (dp_dir dj) e;
  lo_attr : obj_attr (dp_obj dj) = ent_attr e;
  lo_sclust : obj_sclust (dp_obj dj) = sc;
  lo_name : exists fn, dp_fn dj = fn ++ [mkb NS_LAST] /\ len fn = 11
}.

Lemma follow_found dp p path sc k sp es e v :
  calm G v0 v -> len (dp_fn dp) = 12 -> leads v0 T p path (Found sc k) -> T !! sc = Some (sp, es) -> es !! k = Some e ->
  wp (follow_path dp p path) (fun r v' => r.1 = FR_OK /\ located sc k sp es e r.2 v' /\ obj_fs (dp_obj r.2) = obj_fs (dp_obj dp)) v.
Proof using Hs HT.
  intros Hc Hl (Hp & j & names & Hsk & Hpn & Hw) HTs He.
  eapply wp_mono; [by eapply (follow_path_spec G v0 T Hs HT)|].
  intros [r dj] v' [Hfs (Hr & Hsc & Hfn & sp' & es' & HTs' & [Hat (e' & He' & Hon & Ha)])]. cbn [fst snd] in *.
  rewrite HTs in HTs'. injection HTs' as <- <-. rewrite He in He'. injection He' as <-. split; [done|]. split; [|done].
  split; try done. apply Hon.
Qed.

(** Such an object has a name. *)
Lemma located_flag {A} sc k sp es e dj v (K : Z -> M (vol D) A) Q :
  located sc k sp es e dj v -> wp (K NS_LAST) Q v -> wp (bind (ch (dp_fn dj) NSFLAG) K) Q v.
Proof using Type.
  intros [_ _ _ _ _ (fn & Hfn & Hl)] HK. apply wp_bind. unfold ch. apply wp_bind. eapply wp_chk.
  { rewrite Hfn, at_app, Hl. change (NSFLAG <? 11) with false. change (NSFLAG - 11) with 0. reflexivity. }
  apply wp_ret. by rewrite bval_mkb.
Qed.

Lemma located_named {A} sc k sp es e dj v (K : bool -> M (vol D) A) Q :
  located sc k sp es e dj v -> wp (K false) Q v -> wp (bind (no_name dj) K) Q v.
Proof using Type. intros Hlo HK. apply wp_bind. unfold no_name. eapply located_flag; [exact Hlo|]. by apply wp_ret. Qed.

(** ** Is a directory empty? *)

Lemma test_empty_spec vp cl cs es v :
  calm G v0 v -> T !! cl = Some (Clst cs, es) ->
  wp (test_empty vp cl) (fun r v' => r = (if in_use es then FR_DENIED else FR_OK) /\ calm G v0 v') v.
Proof using Hs HT.
  intros Hc Hcl. destruct (HT _ _ _ Hcl) as [Hsp Hes]. unfold test_empty. apply wp_bind.
  set (dp := set_sclust cl _). change 0 with (0 * SZDIRE). pose proof (dsize_range G v0 cl (Clst cs) Hs Hsp).
  eapply wp_mono; [apply (dir_sdi_spec G v0 cl (Clst cs) Hs Hsp dp 0 v); [done|done|lia]|].
  intros [r dp1] v1 (Hc1 & Hr & Hat & Hsd). cbn [fst snd] in *. subst r. change (FR_OK =r FR_OK) with true. cbv iota. apply wp_bind.
  eapply wp_mono; [apply (dir_read_spec G v0 cl (Clst cs) Hs Hsp es Hes dp1 false 0 v1); [done|by left]|].
  intros [r dp2] v2 [[_ Hf] _]. rewrite scan_from_0 in Hf. unfold in_use. cbn [fst snd] in *. apply wp_ret.
  destruct (scan (reported false) es) as [j|]; destruct Hf as [-> Hf]; [|done]. split; [done|]. by eapply stands_calm.
Qed.

(** ** Removing *)

(** The clusters that go with the entry. *)
Definition occupies (e : list byte) (cs : list Z) : Prop :=
  if is_dir e then ent_clust ty e <> 0 /\ exists es, T !! ent_clust ty e = Some (Clst cs, es)
  else clusters v0 (ent_clust ty e) cs.

Lemma occupied_chain e cs : occupies e cs -> match cs with [] => ent_clust ty e = 0 | _ => chain v0 (ent_clust ty e) cs end.
Proof using HT.
  unfold occupies. intros Hocc. destruct (is_dir e); [|done]. destruct Hocc as (Hnz & es2 & Hcl). destruct (HT _ _ _ Hcl) as [Hsp _].
  cbn in Hsp. unfold dir_start in Hsp. rewrite (proj2 (Z.eqb_neq _ 0)) in Hsp by done. cbn [andb] in Hsp. destruct cs; [by inversion Hsp|done].
Qed.

Context (Hta : tree_apart (vfs v0) T) (Hfsi : fsi_apart G (vfs v0)).
Context (sc : Z) (sp : dspace) (es : list (list byte)) (k : nat) (e : list byte) (cs : list Z).
Context (HTs : T !! sc = Some (sp, es)) (He : es !! k = Some e) (Hocc : occupies e cs).
Context (Hoff : forall sc' sp' es', tree_unlink ty T sc sp es k e !! sc' = Some (sp', es') -> dir_off sp' cs).

Record unlinked (s : Z) v : Prop := mk_unlinked {
  ul_changed : changed G (fun c => c ∈ cs) (eq s) v0 v;
  ul_tree : tree_in G v (tree_unlink ty T sc sp es k e);
  ul_free : forall c, c ∈ cs -> fat_entry v c = Some 0
}.

Lemma tree_unlink_in v : tree_in G v (tree_set T sc sp es k (removed e)) -> tree_in G v (tree_unlink ty T sc sp es k e).
Proof using Type.
  intros H. unfold tree_unlink. destruct (is_dir e); [|done]. intros c sp' es'. rewrite lookup_delete_Some. intros [_ Hc]. by apply H.
Qed.

(** The clusters are given back, and the volume is flushed. *)
Lemma release s d v1 :
  rewritten G v0 sc sp es k s d (removed e) v1 -> ent_pos v0 sp k s d ->
  wp (res <- (if true && nz (ent_clust ty e) then remove_chain (ent_clust ty e) 0 else ret FR_OK) ;;
      if res =r FR_OK then sync_fs else ret res) (fun r v' => r = FR_OK /\ unlinked s v') v1.
Proof using Hs HT Hta Hfsi HTs Hocc Hoff.
  intros Hrw Hep. pose proof (rw_sound _ _ _ _ _ _ _ _ _ _ Hrw) as Hs1. pose proof (rw_geom _ _ _ _ _ _ _ _ _ _ Hrw) as Hg1.
  assert (tree_in G v1 (tree_unlink ty T sc sp es k e)) as HT1 by (apply tree_unlink_in; by apply (rewritten_tree G v0 T Hs HT Hta sc sp es k HTs _ s d)).
  assert (changed G (fun c => c ∈ cs) (eq s) v0 v1) as Hc1 by (by eapply rewritten_changed).
  assert (forall v2, changed G (fun c => c ∈ cs) (fun _ => False) v1 v2 -> (forall c, c ∈ cs -> fat_entry v2 c = Some 0) ->
    wp (if FR_OK =r FR_OK then sync_fs else ret FR_OK) (fun r v' => r = FR_OK /\ unlinked s v') v2) as Hend.
  { intros v2 Hc2 H0. change (FR_OK =r FR_OK) with true. cbv iota. pose proof (cg_geom _ _ _ _ _ Hc2) as Hg2.
    assert (tree_in G v2 (tree_unlink ty T sc sp es k e)) as HT2.
    { eapply changed_tree; [exact Hs1|exact Hc2| |exact HT1]. intros sc' sp' es' Hsc. split; [|by intros o s0 _ _ []].
      specialize (Hoff _ _ _ Hsc). destruct sp'; [done|]. intros c Hc1' Hc2'. by apply (Hoff c). }
    eapply wp_mono; [apply (sync_fs_spec G v2); [apply Hc2|]|].
    - intros E. pose proof (eq_trans Hg2 Hg1) as (Et&_&_&_&_&_&_&_&Evb&Efb&_)%geom_fields. rewrite Evb, Efb. apply Hfsi. congruence.
    - intros r v3 [-> Hy]. split; [done|]. split.
      + eapply changed_trans; [exact Hc1|]. eapply changed_trans; [|by apply synced_changed]. by apply (changed_weaken G _ _ _ _ v1 v2 Hc2).
      + intros sc' sp' es' Hsc. destruct (HT2 _ _ _ Hsc). eapply synced_holds; [apply Hc2|done|done|done].
      + intros c Hc. rewrite (sy_fat _ _ _ Hy); [by apply H0|]. apply (valid_clst_geom (vfs v0)); [congruence|].
        pose proof (occupied_chain e cs Hocc) as Hch. destruct cs as [|x l]; [by apply elem_of_nil in Hc|]. by eapply chain_all_valid. }
  pose proof (occupied_chain e cs Hocc) as Hch. apply wp_bind. unfold nz. destruct cs as [|x l] eqn:Ecs.
  - rewrite Hch. cbn [Z.eqb negb andb]. apply wp_ret. apply Hend; [by apply changed_refl|]. intros c Hc. by apply elem_of_nil in Hc.
  - pose proof (chain_valid _ _ _ Hch) as [V1 _]. rewrite (proj2 (Z.eqb_neq _ 0)) by lia. cbn [negb andb].
    eapply wp_mono; [apply (remove_changed G (fun _ => False) v1 (ent_clust ty e) (x :: l)); [done|]|].
    + apply (chain_ext v0); [done|done|]. intros y Hy. apply (rw_fat _ _ _ _ _ _ _ _ _ _ Hrw). by eapply chain_all_valid.
    + intros r v2 (-> & Hc2 & H0). by apply Hend.
Qed.

(** [unlink_vol] on an existing entry. *)
Lemma unlink_vol_spec vp p path :
  leads v0 T p path (Found sc k) ->
  wp (unlink_vol vp p path) (fun r v' => r = unlink_result ty T e /\
    if r =r FR_OK then exists s d, ent_pos v0 sp k s d /\ unlinked s v' else calm G v0 v') v0.
Proof using All.
  intros Hle. unfold unlink_vol. apply wp_bind.
  eapply wp_mono; [apply (follow_found (set_dp_fs (Some vp) uninit_dir) p path sc k sp es e); try done; by apply calm_start|].
  intros [r dj] v1 (Hr & Hlo & _). cbn [fst snd] in *. subst r. change (negb (FR_OK =r FR_OK)) with false. cbv iota.
  eapply located_named; [exact Hlo|]. cbv zeta. pose proof Hlo as [Hc Hat Hon Ha _ _]. rewrite Ha. unfold unlink_result.
  fold (read_only e). destruct (read_only e); [by apply wp_ret|]. fold (is_dir e). apply wp_bind. eapply wp_ent_clust; [exact Hon|].
  apply wp_bind. set (res := if is_dir e then match T !! ent_clust ty e with Some (_, es2) => if in_use es2 then FR_DENIED else FR_OK | None => FR_OK end else FR_OK).
  assert (wp (if is_dir e then test_empty vp (ent_clust ty e) else ret FR_OK) (fun r v' => r = res /\ calm G v0 v') v1) as Ht.
  { unfold res. unfold occupies in Hocc. destruct (is_dir e); [|by apply wp_ret]. destruct Hocc as (_ & es2 & Hcl). rewrite Hcl. by eapply test_empty_spec. }
  eapply wp_mono; [exact Ht|]. clearbody res. clear Ht. intros r v2 [-> Hc2]. destruct (fr_eqb_spec res FR_OK) as [->|Hne]; cbn [negb].
  2: { apply wp_ret. split; [done|]. by destruct (fr_eqb_spec res FR_OK). }
  destruct (HT _ _ _ HTs) as [Hsp Hes]. apply wp_bind. eapply wp_mono; [apply (dir_remove_spec G v0 sc sp Hs Hsp es Hes dj k v2 Hc2 (dir_at_pos _ _ _ _ Hat))|].
  intros r v3 (-> & e' & He' & Hrw). rewrite He in He'. injection He' as <-. change (FR_OK =r FR_OK) with true.
  pose proof (dir_at_pos _ _ _ _ Hat) as Hep. eapply wp_mono; [by apply (release (dp_sect dj) (dp_dir dj))|]. intros r v4 [-> Hu]. split; [done|]. by exists (dp_sect dj), (dp_dir dj).
Qed.

(** ** In the world *)

Lemma f_unlink_file w vp pth rp :
  drive_ready (D := D) true -> drive_writable (D := D) -> hosts w vp v0 -> at_ (FatFs w) 0 = Some (Some vp) ->
  (forall s : world D, get_ldnumber (Some pth) s = Done ((0, rp), s)) -> leads v0 T pth rp (Found sc k) ->
  wp (f_unlink (Some pth)) (fun r w' => r = unlink_result ty T e /\ exists v', hosts w' vp v' /\
    if r =r FR_OK then exists s d, ent_pos v0 sp k s d /\ unlinked s v' else calm G v0 v') w.
Proof using All.
  intros Hrdy Hwr Hh Hreg Hld Hle. unfold f_unlink.
  eapply mount_volume_hosts; [done|exact Hh|exact Hreg|apply (so_ok _ _ Hs)|exact Hld|by right|].
  change (FR_OK =r FR_OK) with true. cbv iota. eapply wp_at_volume; [exact Hh|]. eapply wp_mono; [by apply unlink_vol_spec|]. intros r v' [-> H]. split.
  - destruct (unlink_result ty T e =r FR_OK); [destruct H as (s & d & _ & [Hc _ _]); apply Hc|by apply calm_geom in H].
  - intros w' Hh' _. split; [done|]. by exists v'.
Qed.

End unlink.
