(* ===== verification/Readdir.v ===== *)
(** * Reading directories

    [get_fileinfo] as a function of the entry, and [f_readdir], which called
    again and again reports the entries of a directory that are files or
    directories, in their order, and then an empty name. *)

From stdpp Require Import base numbers list option gmap.
From Stdlib Require Import ZArith Lia.
From Stdlib Require Import Strings.Byte.
From S2P Require Import Prelude Types Bytes Diskio Window Fat Chain Live Dir Path Mount File DirApi Content Writing Seeking Refine Listing Entries Tree Persist Change Unlink.

(** ** The text of a name *)

(** The first byte of a name may stand for the mark of a free entry. *)
Definition restore (b : byte) : byte := if bval b =? RDDEM then mkb DDEM else b.

(** The characters of a field without the padding. *)
Definition field_text (l : list byte) : list byte := restore <$> filter (fun b => bval b <> 0x20) l.

(** Body and extension; the dot is there if the extension does not begin with
    a space. *)
Definition name_text (name : list byte) : list byte :=
  field_text (take 8 name) ++
  (if bval (default x20 (name !! 8%nat)) =? 0x20 then [] else [mkb 0x2E]) ++ field_text (drop 8 name).

(** From the character [i] on. *)
Definition text_from (i : Z) (l : list byte) : list byte :=
  field_text (take (Z.to_nat (8 - i)) l) ++
  (if i <=? 8 then if bval (default x20 (l !! Z.to_nat (8 - i))) =? 0x20 then [] else [mkb 0x2E] else []) ++
  field_text (drop (Z.to_nat (8 - i)) l).

Lemma field_text_cons b l : field_text (b :: l) = if bval b =? 0x20 then field_text l else restore b :: field_text l.
Proof.
  unfold field_text. rewrite filter_cons. destruct (Z.eqb_spec (bval b) 0x20); [rewrite decide_False by tauto|rewrite decide_True by done]; done.
Qed.

(** The next character. *)
Lemma text_from_cons i b l : 0 <= i ->
  text_from i (b :: l) = (if bval b =? 0x20 then [] else (if i =? 8 then [mkb 0x2E] else []) ++ [restore b]) ++ text_from (i + 1) l.
Proof.
  intros Hi. unfold text_from. destruct (Z.lt_trichotomy i 8) as [Hlt|[->|Hgt]].
  - replace (Z.to_nat (8 - i)) with (S (Z.to_nat (8 - (i + 1)))) by lia. cbn [take drop lookup list_lookup]. rewrite field_text_cons.
    rewrite (proj2 (Z.leb_le i 8)), (proj2 (Z.leb_le (i + 1) 8)), (proj2 (Z.eqb_neq i 8)) by lia.
    by destruct (bval b =? 0x20).
  - change (Z.to_nat (8 - 8)) with 0%nat. change (Z.to_nat (8 - (8 + 1))) with 0%nat. cbn [take drop lookup list_lookup default].
    change (8 <=? 8) with true. change (8 + 1 <=? 8) with false. cbn [from_option id Z.eqb].
    change (8 =? 8) with true. cbv iota. rewrite field_text_cons. destruct (bval b =? 0x20); [done|]. reflexivity.
  - replace (Z.to_nat (8 - i)) with 0%nat by lia. replace (Z.to_nat (8 - (i + 1))) with 0%nat by lia. cbn [take drop lookup list_lookup].
    rewrite (proj2 (Z.leb_gt i 8)), (proj2 (Z.leb_gt (i + 1) 8)), (proj2 (Z.eqb_neq i 8)) by lia. rewrite field_text_cons.
    by destruct (bval b =? 0x20).
Qed.

Lemma text_from_0 name : text_from 0 name = name_text name.
Proof. done. Qed.

Lemma text_from_len i l : 0 <= i -> len (text_from i l) <= len l + (if i <=? 8 then 1 else 0).
Proof.
  revert i. induction l as [|b l IH]; intros i Hi.
  - unfold text_from. rewrite take_nil, drop_nil, lookup_nil. change (bval (default x20 None) =? 0x20) with true. destruct (i <=? 8); done.
  - rewrite text_from_cons by done. rewrite len_app. specialize (IH (i + 1) ltac:(lia)). unfold len in *. cbn [length].
    destruct (Z.leb_spec i 8), (Z.leb_spec (i + 1) 8), (Z.eqb_spec i 8), (bval b =? 0x20); cbn; lia.
Qed.

(** ** What is reported of an entry *)

Record entry_info (e : list byte) (i : FILINFO) : Prop := mk_entry_info {
  ei_name : exists name rest, slice e 0 11 = Some name /\ fi_fname i = name_text name ++ x00 :: rest;
  ei_attr : fi_fattrib i = ent_attr e;
  ei_size : fi_fsize i = ent_dword e DIR_FileSize;
  ei_time : fi_ftime i = ent_word e DIR_ModTime;
  ei_date : fi_fdate i = ent_word e (DIR_ModTime + 2);
  ei_len : len (fi_fname i) = 13
}.

(** The entries that are reported, up to the end mark. *)
Fixpoint listed (es : list (list byte)) : list (list byte) :=
  match es with
  | [] => []
  | e :: es => if ent_byte e DIR_Name =? 0 then [] else if reported false e then e :: listed es else listed es
  end.

Lemma listed_scan es :
  match scan (reported false) es with
  | Some j => exists e, es !! j = Some e /\ listed es = e :: listed (drop (S j) es)
  | None => listed es = []
  end.
Proof.
  induction es as [|e es IH]; [done|]. cbn [scan listed]. destruct (ent_byte e DIR_Name =? 0); [done|].
  destruct (reported false e) eqn:E; [by exists e|]. destruct (scan (reported false) es) as [j|]; cbn; done.
Qed.

Lemma listed_from es k :
  match scan_from (reported false) es k with
  | Some j => (k <= j)%nat /\ exists e, es !! j = Some e /\ listed (drop k es) = e :: listed (drop (S j) es)
  | None => listed (drop k es) = []
  end.
Proof.
  unfold scan_from. pose proof (listed_scan (drop k es)) as H. destruct (scan (reported false) (drop k es)) as [j|]; cbn; [|done].
  destruct H as (e & He & Hl). split; [lia|]. exists e. rewrite lookup_drop in He. split; [done|]. rewrite Hl, drop_drop. do 3 f_equal. lia.
Qed.

Section info.
Context {Pf : Platform} {D : Type} `{!DiskIO D} `{!DiskIOLaws D} (G : Z -> Prop).
Context (v0 : vol D).

Lemma upd_mid (pre : list byte) x y rest : upd (pre ++ x :: rest) (len pre) y = Some (pre ++ y :: rest).
Proof using Type.
  destruct (upd_is_Some (pre ++ x :: rest) (len pre) y) as (r & Hr & _).
  { rewrite len_app. pose proof (len_nonneg pre). change (len (x :: rest)) with (Z.of_nat (S (length rest))). lia. }
  rewrite Hr. f_equal. apply at_ext. intros i. rewrite (at_upd _ _ _ _ _ Hr), !at_app.
  destruct (Z.eqb_spec i (len pre)) as [->|Hne]; [by rewrite Z.ltb_irrefl, Z.sub_diag|].
  destruct (Z.ltb_spec i (len pre)); [done|]. rewrite !at_lookup by lia.
  destruct (Z.to_nat (i - len pre)) eqn:E; [lia|done].
Qed.

Lemma snoc_mid (pre : list byte) x rest : pre ++ x :: rest = (pre ++ [x]) ++ rest.
Proof using Type. by rewrite <- app_assoc. Qed.

Lemma len_snoc (pre : list byte) x : len (pre ++ [x]) = len pre + 1.
Proof using Type. apply len_app. Qed.

Lemma zdrop_cons {A} n (x : A) l : 0 < n -> zdrop n (x :: l) = zdrop (n - 1) l.
Proof using Type. intros Hn. unfold zdrop. by replace (Z.to_nat n) with (S (Z.to_nat (n - 1))) by lia. Qed.

(** The loop that copies the name. *)
Lemma get_fileinfo_name_spec t v s d e k si pre rest l :
  on_entry G v0 v s d e -> 0 <= si -> si + Z.of_nat k = 11 -> drop (Z.to_nat si) (take 11 e) = l ->
  len (text_from si l) < len rest ->
  wpt t (get_fileinfo_name k d si (len pre) (pre ++ rest)) (fun r v' => v' = v /\
    r = (len (pre ++ text_from si l), pre ++ text_from si l ++ zdrop (len (text_from si l)) rest)) v.
Proof using Type.
  intros Hon. revert si pre rest l. induction k as [|k IH]; intros si pre rest l Hsi Hk Hl Hr; cbn [get_fileinfo_name].
  { assert (l = []) as ->.
    { subst l. apply drop_ge. rewrite length_take. lia. }
    apply wp_ret. split; [done|]. unfold text_from. rewrite take_nil, drop_nil. rewrite (proj2 (Z.leb_gt si 8)) by lia.
    cbn. by rewrite app_nil_r. }
  pose proof (on_entry_len _ _ _ _ _ _ Hon) as Hle.
  destruct (lookup_lt_is_Some_2 (take 11 e) (Z.to_nat si)) as [b Hb].
  { rewrite length_take. unfold len in Hle. unfold_consts. lia. }
  rewrite (drop_S _ _ _ Hb) in Hl. set (l' := drop (S (Z.to_nat si)) (take 11 e)) in *. subst l. rewrite text_from_cons in Hr |- * by done.
  assert (drop (Z.to_nat (si + 1)) (take 11 e) = l') as Hl' by (unfold l'; f_equal; lia). clearbody l'.
  apply wp_bind. eapply wp_ent_byte; [exact Hon|unfold_consts; lia|].
  assert (ent_byte e si = bval b) as ->.
  { unfold ent_byte. rewrite at_lookup by done. rewrite lookup_take_lt in Hb by lia. by rewrite Hb. }
  cbv zeta. destruct (bval b =? 0x20).
  { cbn [app] in Hr |- *. by apply IH; [lia|lia|..]. }
  assert (mkb (if bval b =? RDDEM then DDEM else bval b) = restore b) as ->.
  { unfold restore. destruct (bval b =? RDDEM); [done|apply mkb_bval]. }
  replace (si + 1 =? 9) with (si =? 8) by (destruct (Z.eqb_spec si 8), (Z.eqb_spec (si + 1) 9); lia || done).
  rewrite !len_app in Hr. pose proof (len_nonneg (text_from (si + 1) l')). destruct (Z.eqb_spec si 8) as [E|E].
  - destruct rest as [|x [|y rest]]; [exfalso; revert Hr; unfold len; cbn; lia..|]. apply wp_bind, wp_bind. eapply wp_chk; [apply upd_mid|].
    apply wp_ret. rewrite (snoc_mid pre). replace (len pre + 1) with (len (pre ++ [mkb 0x2E])) by apply len_snoc.
    apply wp_bind. eapply wp_chk; [apply upd_mid|]. rewrite (snoc_mid (pre ++ _)), <- len_snoc with (x := restore b).
    eapply wp_mono; [apply (IH (si + 1) _ rest l'); [lia|lia|done|revert Hr; unfold len; cbn; lia]|].
    intros r v' [-> ->]. split; [done|]. rewrite <- !app_assoc. cbn [app]. do 5 f_equal.
    rewrite zdrop_cons, zdrop_cons by (unfold len; cbn; lia). f_equal. unfold len. cbn. lia.
  - destruct rest as [|x rest]; [exfalso; revert Hr; unfold len; cbn; lia|]. apply wp_bind, wp_ret.
    apply wp_bind. eapply wp_chk; [apply upd_mid|]. rewrite (snoc_mid pre), <- len_snoc with (x := restore b).
    eapply wp_mono; [apply (IH (si + 1) _ rest l'); [lia|lia|done|revert Hr; unfold len; cbn; lia]|].
    intros r v' [-> ->]. split; [done|]. rewrite <- !app_assoc. cbn [app]. do 4 f_equal.
    rewrite zdrop_cons by (unfold len; cbn; lia). f_equal. unfold len. cbn. lia.
Qed.
Lemma name_text_len name : len name = 11 -> len (name_text name) <= 12.
Proof using Type. intros Hn. rewrite <- text_from_0. pose proof (text_from_len 0 name ltac:(done)) as H. cbn in H. lia. Qed.

(** The object stands on an entry. *)
Lemma get_fileinfo_spec v dp e fno :
  on_entry G v0 v (dp_sect dp) (dp_dir dp) e -> dp_sect dp <> 0 -> len (fi_fname fno) = 13 ->
  wp (get_fileinfo dp fno) (fun i v' => v' = v /\ entry_info e i) v.
Proof using Type.
  intros Hon Hsec Hl. unfold get_fileinfo. destruct (upd_is_Some (fi_fname fno) 0 x00) as (f0 & Hf0 & L0); [lia|].
  apply wp_bind. eapply wp_chk; [exact Hf0|]. cbv zeta. rewrite (proj2 (Z.eqb_neq _ 0)) by done.
  pose proof (on_entry_len _ _ _ _ _ _ Hon) as Hle. destruct (slice_is_Some e 0 11) as (name & Hn & Ln); [done|done|unfold SZDIRE in Hle; lia|].
  assert (take 11 e = name) as Et.
  { by destruct (slice_Some_inv _ _ _ _ Hn) as (_ & _ & _ & _ & E). }
  pose proof (name_text_len name Ln) as Hnt. apply wp_bind.
  eapply wp_mono; [apply (get_fileinfo_name_spec true v (dp_sect dp) (dp_dir dp) e 11 0 [] f0 name); [exact Hon|done|done|by rewrite Et|rewrite text_from_0; lia]|].
  intros [di f1] v' [-> [= -> ->]]. rewrite text_from_0. cbn [app]. set (tx := name_text name) in *. pose proof (len_nonneg tx).
  assert (exists y r, zdrop (len tx) f0 = y :: r /\ len r = 12 - len tx) as (y & r & -> & Lr).
  { assert (len (zdrop (len tx) f0) = 13 - len tx) as L by (rewrite len_zdrop; lia). destruct (zdrop (len tx) f0) as [|y r].
    - unfold len at 1 in L. cbn in L. lia.
    - exists y, r. split; [done|]. unfold len in L at 1. cbn [length] in L. unfold len at 1. lia. }
  apply wp_bind. eapply wp_chk; [apply upd_mid|]. apply wp_bind. eapply wp_ent_byte; [exact Hon|done|].
  apply wp_bind. eapply wp_ent_dword; [exact Hon|done|done|].
  apply wp_bind. rewrite <- Z.add_assoc. eapply wp_ent_word; [exact Hon|done|done|].
  apply wp_bind. rewrite <- Z.add_assoc. eapply wp_ent_word; [exact Hon|done|done|]. apply wp_ret. split; [done|].
  split; try done; cbn [fi_fname set_fi_fdate set_fi_ftime set_fi_fsize set_fi_fattrib set_fi_fname].
  - by exists name, r.
  - rewrite len_app. unfold len at 2. cbn [length]. unfold len at 1 in Lr. lia.
Qed.

(** There is no entry: the name is empty. *)
Lemma get_fileinfo_end (v : vol D) dp fno :
  dp_sect dp = 0 -> len (fi_fname fno) = 13 ->
  wp (get_fileinfo dp fno) (fun i v' => v' = v /\ at_ (fi_fname i) 0 = Some x00 /\ len (fi_fname i) = 13) v.
Proof using Type.
  intros Hz Hl. unfold get_fileinfo. destruct (upd_is_Some (fi_fname fno) 0 x00) as (f0 & Hf0 & L0); [lia|].
  apply wp_bind. eapply wp_chk; [exact Hf0|]. cbv zeta. rewrite Hz. cbn [Z.eqb]. apply wp_ret. split; [done|].
  cbn [fi_fname set_fi_fname]. split; [|lia]. by rewrite (at_upd _ _ _ _ 0 Hf0).
Qed.

Context (sc : Z) (sp : dspace) (Hs : sound G v0) (Hsp : dir_space G v0 sc sp).
Context (es : list (list byte)) (Hes : dir_holds v0 sp es).

(** A turn of a reader that has [k] entries behind it. *)
Definition read_turn (k : nat) (r : FRESULT * DIR * FILINFO) v : Prop :=
  calm G v0 v /\ r.1.1 = FR_OK /\ len (fi_fname r.2) = 13 /\
  match scan_from (reported false) es k with
  | Some j => reader v0 sp es (S j) r.1.2 /\ exists e, es !! j = Some e /\ entry_info e r.2
  | None => at_ (fi_fname r.2) 0 = Some x00
  end.

Lemma readdir_vol_spec dp fno k v :
  calm G v0 v -> reader v0 sp es k dp -> len (fi_fname fno) = 13 ->
  wp (readdir_vol dp fno) (fun r v' => read_turn k r v' /\ obj_fs (dp_obj r.1.2) = obj_fs (dp_obj dp) /\ obj_id (dp_obj r.1.2) = obj_id (dp_obj dp)) v.
Proof using Hs Hsp Hes.
  intros Hc Hrd Hl. unfold readdir_vol. apply wp_bind.
  eapply wp_mono; [by apply (dir_read_spec G v0 sc sp Hs Hsp es Hes dp false k v)|]. unfold read_turn.
  intros [r dp1] v1 [[Hsd Hf] Hz]. cbn [fst snd] in *. destruct (scan_from (reported false) es k) as [j|] eqn:Ej.
  - destruct Hf as [-> Hst]. change (FR_OK =r FR_NO_FILE) with false. change (FR_OK =r FR_OK) with true. cbv iota.
    pose proof (stands_calm _ _ _ _ _ _ _ Hst) as Hc1. destruct Hst as [Hat (e & He & Hon & _)].
    apply wp_bind. eapply wp_mono; [apply (get_fileinfo_spec v1 dp1 e fno); [done| |done]|].
    { destruct (dsect_ok G v0 sc sp Hs Hsp _ _ (proj1 (dsize_max G v0 sc sp Hs Hsp _ (da_range _ _ _ _ Hat))) (da_sect _ _ _ _ Hat)) as [? _]. lia. }
    intros i v2 [-> Hi]. apply wp_bind. eapply wp_mono; [apply (dir_next_spec G v0 sc sp Hs Hsp dp1 (Z.of_nat j) false v1 Hc1 Hat); done|].
    intros [r dp2] v2 [Hc2 Hr]. apply wp_ret. cbn [fst snd] in *. pose proof (length_es v0 sp es Hes) as Hle.
    destruct Hsd as (_ & S1 & S2 & _). destruct (Z.ltb_spec (Z.of_nat j + 1) (dsize (vfs v0) sp)).
    + destruct Hr as (-> & Hat2 & Ho & _). rewrite Ho. split; [|done]. split; [done|]. split; [done|]. split; [apply Hi|]. split; [|by exists e].
      left. by replace (Z.of_nat (S j)) with (Z.of_nat j + 1) by lia.
    + destruct Hr as (Hr & Hz2 & Ho & _). cbn [fst snd] in *. rewrite Hr, Ho. split; [|done]. split; [done|]. split; [done|]. split; [apply Hi|].
      split; [|by exists e]. right. split; [done|]. intros P. apply scan_from_end. lia.
  - destruct Hf as [-> Hc1]. change (FR_NO_FILE =r FR_NO_FILE) with true. change (FR_OK =r FR_OK) with true. cbv iota.
    specialize (Hz ltac:(done)). apply wp_bind. eapply wp_mono; [by apply (get_fileinfo_end v1 dp1 fno)|].
    intros i v2 (-> & Hi & Li). apply wp_bind. unfold dir_next. apply wp_bind, wp_get_fs. cbv zeta.
    assert (dp_sect (if u32 (dp_dptr dp1 + SZDIRE) >=? MAX_DIR then set_dp_sect 0 dp1 else dp1) = 0) as ->.
    { by destruct (_ >=? _). }
    cbn [Z.eqb]. apply wp_ret. apply wp_ret. cbn [fst snd]. destruct Hsd as (_ & S1 & S2 & _).
    split; [done|]. by destruct (_ >=? _).
Qed.

(** ** In the world *)

Context (Hrdy : drive_ready (D := D) true) (p : Z).

(** The directory object belongs to the volume. *)
Definition dhandle dp : Prop := obj_fs (dp_obj dp) = Some p /\ obj_id (dp_obj dp) = fs_id (vfs v0).

Lemma f_readdir_turn w v dp fno k :
  hosts w p v -> calm G v0 v -> dhandle dp -> reader v0 sp es k dp -> len (fi_fname fno) = 13 ->
  wp (f_readdir dp (Some fno)) (fun r w' => exists v' i, hosts w' p v' /\ r.2 = Some i /\
    read_turn k (r.1.1, r.1.2, i) v' /\ dhandle r.1.2) w.
Proof using Hs Hsp Hes Hrdy.
  intros Hh Hc [H1 H2] Hrd Hl. pose proof (calm_geom _ _ _ Hc) as Hg. unfold f_readdir. change (dp_obj dp) with (fp_obj (mkFIL (dp_obj dp) 0 FR_OK 0 0 0 0 0)).
  eapply validate_hosts; [done|exact Hh| |apply Hc|].
  { split; [done|]. cbn. by apply geom_fields in Hg as (_&_&_&->&_). }
  change (FR_OK =r FR_OK) with true. cbv iota. apply wp_bind. eapply wp_chk; [done|]. apply wp_bind.
  eapply wp_on_volume; [exact Hh|]. eapply wp_mono; [by apply (readdir_vol_spec dp fno k v)|].
  intros [[r dp1] i] v1 (Ht & E1 & E2). cbn [fst snd] in *. pose proof Ht as [Hc1 _]. split; [by rewrite (calm_geom _ _ _ Hc1)|].
  intros w1 Hh1. apply wp_ret. exists v1, i. cbn [fst snd]. split; [done|]. split; [done|]. split; [done|]. split; congruence.
Qed.

End info.

(** Reading a directory to its end, at most [n] entries of it. *)
Fixpoint list_dir {Pf : Platform} {D : Type} `{!DiskIO D} (n : nat) (dp : DIR) (fno : FILINFO) : M (world D) (FRESULT * list FILINFO) :=
  match n with
  | O => ret (FR_OK, [])
  | S n =>
    do (res, dp, oi) <- f_readdir dp (Some fno) ;;
    i <- chk oi ;;
    c <- chk (at_ (fi_fname i) 0) ;;
    if negb (res =r FR_OK) || (bval c =? 0) then ret (res, [])
    else do (res, l) <- list_dir n dp i ;; ret (res, i :: l)
  end.

Lemma tk_list_dir {Pf : Platform} {D : Type} `{!DiskIO D} n dp fno : table_kept_by (D := D) (list_dir n dp fno).
Proof.
  revert dp fno. induction n as [|n IH]; intros dp fno; cbn [list_dir]; [apply tk_ret|].
  assert (table_kept_by (D := D) (f_readdir dp (Some fno))) as Hr.
  { unfold f_readdir. apply tk_bind; [apply tk_validate|intros]. repeat first [apply tk_chk|apply tk_on_fs|apply tk_ret|apply tk_bind; intros|case_match]. }
  apply tk_bind; [done|]. intros [[r dp1] oi]. apply tk_bind; [apply tk_chk|]. intros i. apply tk_bind; [apply tk_chk|]. intros c.
  case_match; [apply tk_ret|]. apply tk_bind; [apply IH|]. intros [? ?]. apply tk_ret.
Qed.

(** No name begins with a space. *)
Definition plain_names (es : list (list byte)) : Prop := Forall (fun e => ent_byte e DIR_Name <> 0x20) (listed es).

Lemma restore_nonzero b : bval b <> 0 -> bval (restore b) <> 0.
Proof. unfold restore. destruct (bval b =? RDDEM); [done|done]. Qed.

(** The text of a name in use is not empty. *)
Lemma entry_info_name e i : entry_info e i -> ent_byte e DIR_Name <> 0x20 -> ent_byte e DIR_Name <> 0 ->
  exists c, at_ (fi_fname i) 0 = Some c /\ bval c <> 0.
Proof.
  intros [(name & rest & Hn & ->) _ _ _ _ _] H1 H2. assert (at_ name 0 = at_ e 0) as Ha by (by rewrite (at_slice _ _ _ _ 0 Hn)).
  unfold ent_byte in H1, H2. change DIR_Name with 0 in *. rewrite <- Ha in H1, H2. destruct name as [|b name]; [done|]. cbn in H1, H2.
  exists (restore b). split; [|by apply restore_nonzero]. unfold name_text. cbn [take]. rewrite field_text_cons.
  rewrite (proj2 (Z.eqb_neq _ _) H1). done.
Qed.

Lemma listed_in_use es e : e ∈ listed es -> ent_byte e DIR_Name <> 0.
Proof.
  induction es as [|x es IH]; cbn; [by intros ?%elem_of_nil|]. destruct (Z.eqb_spec (ent_byte x DIR_Name) 0); [by intros ?%elem_of_nil|].
  destruct (reported false x); [|done]. intros [->|Hin]%elem_of_cons; auto.
Qed.

Section list.
Context {Pf : Platform} {D : Type} `{!DiskIO D} `{!DiskIOLaws D} (G : Z -> Prop).
Context (v0 : vol D) (sc : Z) (sp : dspace) (Hs : sound G v0) (Hsp : dir_space G v0 sc sp).
Context (es : list (list byte)) (Hes : dir_holds v0 sp es) (Hpl : plain_names es).
Context (Hrdy : drive_ready (D := D) true) (p : Z).

Lemma list_dir_from n w v dp fno k :
  hosts w p v -> calm G v0 v -> dhandle v0 p dp -> reader v0 sp es k dp -> len (fi_fname fno) = 13 -> listed (drop k es) ⊆ listed es ->
  wp (list_dir n dp fno) (fun r w' => r.1 = FR_OK /\ Forall2 entry_info (take n (listed (drop k es))) r.2 /\
    exists v', hosts w' p v' /\ calm G v0 v') w.
Proof using Hs Hsp Hes Hpl Hrdy.
  revert w v dp fno k. induction n as [|n IH]; intros w v dp fno k Hh Hc Hd Hrd Hl Hsub; cbn [list_dir].
  { apply wp_ret. split; [done|]. split; [constructor|]. by exists v. }
  apply wp_bind. eapply wp_mono; [by apply (f_readdir_turn G v0 sc sp Hs Hsp es Hes Hrdy p w v dp fno k)|].
  intros [[r dp1] oi] w1 (v1 & i & Hh1 & Hoi & (Hc1 & Hr & Li & Hm) & Hd1). cbn [fst snd] in *. subst r oi.
  apply wp_bind. eapply wp_chk; [done|]. pose proof (listed_from es k) as Hlf.
  destruct (scan_from (reported false) es k) as [j|].
  - destruct Hm as (Hrd1 & e & He & Hi). destruct Hlf as (_ & e' & He' & El). rewrite He in He'. injection He' as <-. rewrite El in Hsub |- *.
    assert (e ∈ listed es) as Hin by (apply Hsub; by left).
    destruct (entry_info_name e i Hi) as (c & Hc0 & Hcz); [by eapply (proj1 (list.Forall_forall _ _) Hpl)|by eapply listed_in_use|].
    apply wp_bind. eapply wp_chk; [exact Hc0|]. rewrite (proj2 (Z.eqb_neq _ _) Hcz). change (negb (FR_OK =r FR_OK) || false) with false. cbv iota.
    apply wp_bind. eapply wp_mono; [apply (IH w1 v1 dp1 i (S j)); try done|].
    + intros x Hx. apply Hsub. by right.
    + intros [r l] w2 (Hr & Hf & Hv). cbn [fst snd] in *. subst r. apply wp_ret. split; [done|]. split; [by constructor|done].
  - apply wp_bind. eapply wp_chk; [exact Hm|]. change (bval x00 =? 0) with true. rewrite orb_true_r. apply wp_ret. rewrite Hlf, take_nil.
    split; [done|]. split; [constructor|]. by exists v1.
Qed.

End list.

(** ** Opening a directory *)

Section opendir.
Context {Pf : Platform} {D : Type} `{!DiskIO D} `{!DiskIOLaws D} (G : Z -> Prop).
Context (v0 : vol D) (T : tree) (Hs : sound G v0) (HT : tree_in G v0 T).
Abbreviation ty := (fs_type (vfs v0)).

(** The path stands for the directory that starts at [cl]: it is empty but for
    separators, or leads to the entry of a directory. *)
Inductive names_dir (p : list byte) (path : Z) : Z -> Prop :=
| names_root j b : cstr p path -> skips p path j -> at_ p j = Some b -> bval b < 0x20 -> names_dir p path 0
| names_sub sc k sp es e :
    leads v0 T p path (Found sc k) -> T !! sc = Some (sp, es) -> es !! k = Some e -> is_dir e = true ->
    names_dir p path (ent_clust ty e).

(** The first entry. *)
Lemma rewind dp cl sp es v :
  calm G v0 v -> T !! cl = Some (sp, es) -> obj_sclust (dp_obj dp) = cl ->
  wp (dir_sdi dp 0) (fun r v' => calm G v0 v' /\ r.1 = FR_OK /\ dir_at (vfs v0) sp 0 r.2 /\ same_dir dp r.2) v.
Proof using Hs HT.
  intros Hc Hcl Ho. destruct (HT _ _ _ Hcl) as [Hsp Hes]. pose proof (dsize_range G v0 cl sp Hs Hsp). change 0 with (0 * SZDIRE) at 1.
  by apply (dir_sdi_spec G v0 cl sp Hs Hsp dp 0 v); [..|lia].
Qed.

Lemma opendir_vol_spec dp p path cl sp es v :
  calm G v0 v -> len (dp_fn dp) = 12 -> names_dir p path cl -> T !! cl = Some (sp, es) ->
  wp (opendir_vol dp p path) (fun r v' => calm G v0 v' /\ r.1 = FR_OK /\ reader v0 sp es 0 r.2 /\
    obj_fs (dp_obj r.2) = obj_fs (dp_obj dp) /\ obj_id (dp_obj r.2) = fs_id (vfs v0)) v.
Proof using Hs HT.
  intros Hc Hl Hn Hcl. unfold opendir_vol.
  assert (forall dp1 v1, calm G v0 v1 -> obj_sclust (dp_obj dp1) = cl -> obj_fs (dp_obj dp1) = obj_fs (dp_obj dp) ->
    wp (bind (fs <- get_fs ;; dir_sdi (set_dp_obj (set_obj_id (fs_id fs) (dp_obj dp1)) dp1) 0)
      (fun '(res, dp) => ret (if res =r FR_NO_FILE then FR_NO_PATH else res, dp)))
    (fun r v' => calm G v0 v' /\ r.1 = FR_OK /\ reader v0 sp es 0 r.2 /\
      obj_fs (dp_obj r.2) = obj_fs (dp_obj dp) /\ obj_id (dp_obj r.2) = fs_id (vfs v0)) v1) as Hend.
  { intros dp1 v1 Hc1 Ho Hf. apply wp_bind, wp_bind, wp_get_fs. eapply wp_mono; [eapply rewind; [exact Hc1|exact Hcl|exact Ho]|].
    intros [r dp2] v2 (Hc2 & Hr & Hat & (_ & S1 & S2 & _)). cbn [fst snd] in *. subst r. apply wp_ret. cbn [fst snd]. split; [done|]. split; [done|].
    split; [by left|]. split; [rewrite S1; exact Hf|]. rewrite S2. cbn. by pose proof (calm_geom _ _ _ Hc1) as (_&_&_&->&_)%geom_fields. }
  apply wp_bind. destruct Hn as [j b Hp Hsk Hj Hb|sc k spk esk e Hle HTk He Hdir].
  - unfold follow_path. apply wp_bind. eapply wp_mono; [by apply (skip_sep_runs p path)|].
    intros j' v' (-> & H1 & Hcj & H2 & H3). assert (j' = j) as -> by (eapply skips_det; [|exact Hsk]; done). cbv zeta.
    apply wp_bind. unfold ch. apply wp_bind. eapply wp_chk; [exact Hj|]. apply wp_ret. rewrite (proj2 (Z.ltb_lt _ _) Hb).
    destruct (upd_is_Some (dp_fn dp) NSFLAG (mkb NS_NONAME)) as (fn & Hfn & Lfn); [rewrite Hl; done|].
    apply wp_bind. eapply wp_chk; [exact Hfn|]. eapply wp_mono; [eapply rewind; [exact Hc|exact Hcl|done]|].
    intros [r dp1] v1 (Hc1 & Hr & _ & (S0 & S1 & S2 & S3)). cbn [fst snd] in *. subst r. change (FR_OK =r FR_OK) with true. cbv iota.
    apply wp_bind, wp_bind. unfold no_name. apply wp_bind. unfold ch. apply wp_bind. eapply wp_chk.
    { rewrite S0. cbn [dp_fn set_dp_fn]. rewrite (at_upd _ _ _ _ NSFLAG Hfn), Z.eqb_refl. reflexivity. }
    apply wp_ret. apply wp_ret. rewrite bval_mkb. change (negb (nz (Z.land (NS_NONAME mod 256) NS_NONAME))) with false. cbv iota.
    apply wp_bind, wp_ret. change (FR_OK =r FR_OK) with true. cbv iota. apply wp_bind_inv. by apply Hend.
  - eapply wp_mono; [by apply (follow_found G v0 T Hs HT dp p path sc k spk esk e)|].
    intros [r dp1] v1 (Hr & Hlo & Hfs). cbn [fst snd] in *. subst r. change (FR_OK =r FR_OK) with true. cbv iota.
    apply wp_bind. eapply located_named; [exact Hlo|]. pose proof Hlo as [Hc1 _ Hon Ha _ _]. cbn [negb]. rewrite Ha. fold (is_dir e). rewrite Hdir.
    apply wp_bind, wp_bind. eapply wp_ent_clust; [exact Hon|]. apply wp_ret. change (FR_OK =r FR_OK) with true. cbv iota. apply wp_bind_inv.
    by apply Hend.
Qed.

(** ** In the world *)

Lemma f_opendir_file w vp pth rp dp cl sp es :
  drive_ready (D := D) true -> hosts w vp v0 -> at_ (FatFs w) 0 = Some (Some vp) ->
  (forall s : world D, get_ldnumber (Some pth) s = Done ((0, rp), s)) ->
  len (dp_fn dp) = 12 -> names_dir pth rp cl -> T !! cl = Some (sp, es) ->
  wp (f_opendir dp (Some pth)) (fun r w' => FatFs w' = FatFs w /\ r.1 = FR_OK /\ exists v', hosts w' vp v' /\ calm G v0 v' /\
    reader v0 sp es 0 r.2 /\ dhandle v0 vp r.2) w.
Proof using Hs HT.
  intros Hrdy Hh Hreg Hld Hl Hn Hcl. unfold f_opendir.
  eapply mount_volume_hosts; [done|exact Hh|exact Hreg|apply (so_ok _ _ Hs)|exact Hld|by left|].
  change (FR_OK =r FR_OK) with true. cbv iota. apply wp_bind. eapply wp_at_volume; [exact Hh|]. eapply wp_mono; [by apply (opendir_vol_spec (set_dp_fs (Some vp) dp) pth rp cl sp es); [apply calm_start|..]|].
  intros [r dp1] v1 (Hc & Hr & Hrd & H1 & H2). cbn [fst snd] in *. subst r. split; [by apply calm_geom in Hc|]. intros w' Hh' Ht. apply wp_ret.
  change (negb (FR_OK =r FR_OK)) with false. split; [done|]. split; [done|]. by exists v1.
Qed.

End opendir.
