(* ===== verification/Text.v ===== *)
(** * Names, printed and read again

    [get_fileinfo] turns the 11 bytes of a name into text, [create_name] reads
    a path segment into 11 bytes.  A name that came from a segment is printed
    to a text that gives the same name again, so what [f_readdir] reports can
    be used as a path. *)

From stdpp Require Import base numbers list option gmap.
From Stdlib Require Import ZArith Lia.
From Stdlib Require Import Strings.Byte.
From S2P Require Import Prelude Types Bytes Diskio Window Fat Chain Live Dir Path Mount File DirApi Content Writing Seeking Refine Listing Entries Tree Persist Change Unlink Readdir.

(** Characters that are stored as they are. *)
Definition stored_char (c : Z) : bool :=
  (0x20 <? c) && (c <? 256) && negb (c =? 0x2E) && negb (IsSeparator c) && bool_decide (sfn_char c = Some c).

(** A character of a segment is stored as such a one. *)
Lemma sfn_char_stored c c' : 0x20 < c < 256 -> IsSeparator c = false -> c <> 0x2E -> sfn_char c = Some c' -> stored_char c' = true.
Proof.
  intros Hc Hs Hd Hc'.
  assert (forallb (fun c => match sfn_char c with Some c' => IsSeparator c || (c =? 0x2E) || stored_char c' | None => true end) (seqZ 0x21 223) = true)
    as H by (vm_compute; reflexivity).
  rewrite forallb_forall in H. specialize (H c). rewrite Hc', Hs, (proj2 (Z.eqb_neq _ _) Hd) in H. apply H, list_elem_of_In, elem_of_seqZ. lia.
Qed.

Lemma stored_char_facts c : stored_char c = true -> 0x20 < c < 256 /\ c <> 0x2E /\ IsSeparator c = false /\ sfn_char c = Some c.
Proof.
  unfold stored_char. rewrite !andb_true_iff, !negb_true_iff, !Z.ltb_lt, Z.eqb_neq, bool_decide_eq_true. tauto.
Qed.

Lemma mapM_stored l l' :
  Forall (fun c => 0x20 < c < 256 /\ IsSeparator c = false /\ c <> 0x2E) l -> mapM sfn_char l = Some l' -> Forall (fun c => stored_char c = true) l'.
Proof.
  revert l'. induction l as [|c l IH]; intros l' Hl; [intros [= <-]; constructor|]. cbn. inversion_clear Hl as [|? ? (H1 & H2 & H3) Hl'].
  destruct (sfn_char c) as [c'|] eqn:E; [|done]. cbn. destruct (mapM sfn_char l) as [r|]; [|done]. intros [= <-]. constructor; [|by apply IH].
  by apply (sfn_char_stored c).
Qed.

Lemma mapM_same l : Forall (fun c => stored_char c = true) l -> mapM sfn_char l = Some l.
Proof.
  induction 1 as [|c l H Hl IH]; [done|]. cbn. apply stored_char_facts in H as (_ & _ & _ & ->). cbn. by rewrite IH.
Qed.

(** ** Printing *)

Lemma mkb_bval_small c : 0 <= c < 256 -> bval (mkb c) = c.
Proof. intros H. rewrite bval_mkb. by apply Z.mod_small. Qed.

Lemma field_text_padded l m : Forall (fun c => stored_char c = true) l -> field_text (map mkb l ++ replicate m x20) = map mkb l.
Proof.
  induction 1 as [|c l H Hl IH]; cbn [map app].
  - induction m as [|m IH]; [done|]. cbn [replicate]. by rewrite field_text_cons.
  - apply stored_char_facts in H as (H & _). rewrite field_text_cons, mkb_bval_small, (proj2 (Z.eqb_neq c _)), IH by lia. f_equal.
    unfold restore. rewrite mkb_bval_small, (proj2 (Z.eqb_neq c _)) by (unfold_consts; lia). done.
Qed.

(** The text of a name with the fields [b] and [e]. *)
Definition print_name (b e : list Z) : list Z := b ++ match e with [] => [] | _ => 0x2E :: e end.

Lemma name_text_fields b e :
  Forall (fun c => stored_char c = true) b -> Forall (fun c => stored_char c = true) e -> len b <= 8 ->
  name_text (pad 8 b ++ pad 3 e) = map mkb (print_name b e).
Proof.
  intros Hb He Lb. assert (length (pad 8 b) = 8%nat) as Lp by (pose proof (len_pad 8 b Lb) as L; unfold len in L; lia).
  unfold name_text. rewrite take_app_length' by done. rewrite drop_app_length' by done. rewrite lookup_app_r by lia. rewrite Lp, Nat.sub_diag.
  unfold pad. rewrite !field_text_padded by done. unfold print_name. rewrite map_app. f_equal. destruct e as [|c e].
  - cbn [map app]. change (bval (default x20 (replicate (Z.to_nat (3 - len [])) x20 !! 0%nat)) =? 0x20) with true. done.
  - inversion_clear He as [|? ? H _]. apply stored_char_facts in H as (H & _). cbn [map app lookup list_lookup default from_option id].
    rewrite mkb_bval_small, (proj2 (Z.eqb_neq c _)) by lia. done.
Qed.

(** The mark that stands for the first byte makes no difference. *)
Lemma name_text_fix name : (forall b, head name = Some b -> bval b <> RDDEM) -> name_text (fix_ddem name) = name_text name.
Proof.
  intros H. destruct name as [|b l]; [done|]. cbn [fix_ddem]. destruct (Z.eqb_spec (bval b) DDEM) as [E|E]; [|done].
  unfold name_text. cbn [take drop]. rewrite !field_text_cons. change (bval (mkb RDDEM) =? 0x20) with false. rewrite E.
  change (DDEM =? 0x20) with false. cbv iota. do 2 f_equal. unfold restore. rewrite E. change (DDEM =? RDDEM) with false. cbv iota.
  change (bval (mkb RDDEM) =? RDDEM) with true. cbv iota. rewrite <- E. apply mkb_bval.
Qed.

(** ** Reading *)

Lemma split_dot_print b e : 0x2E ∉ b -> split_dot (print_name b e) = (b, match e with [] => None | _ => Some e end).
Proof.
  intros Hb. unfold print_name. rewrite split_dot_app by done. destruct e; cbn; by rewrite ?app_nil_r.
Qed.

Lemma stored_no_dot l : Forall (fun c => stored_char c = true) l -> 0x2E ∉ l.
Proof. intros H Hin. by apply (proj1 (list.Forall_forall _ _) H) in Hin. Qed.

Lemma sfn_of_print b e :
  Forall (fun c => stored_char c = true) b -> Forall (fun c => stored_char c = true) e -> len b <= 8 -> len e <= 3 ->
  b <> [] \/ e <> [] -> sfn_of (print_name b e) = Some (pad 8 b ++ pad 3 e).
Proof.
  intros Hb He Lb Le Hn. unfold sfn_of. rewrite split_dot_print by (by apply stored_no_dot).
  assert (default [] (match e with [] => None | _ => Some e end) = e) as -> by (by destruct e).
  rewrite (bool_decide_eq_false_2 (0x2E ∈ e)) by (by apply stored_no_dot).
  rewrite (bool_decide_eq_false_2 (print_name b e = [])) by (unfold print_name; intros E; destruct b, e; [by destruct Hn|discriminate..]).
  rewrite (proj2 (Z.ltb_ge _ _) Lb), (proj2 (Z.ltb_ge _ _) Le). cbn [orb]. rewrite !mapM_same by done. done.
Qed.

(** The fields of a name that came from a segment. *)
Lemma sfn_of_fields l name :
  sfn_of (seg_of l) = Some name -> exists b e, name = pad 8 b ++ pad 3 e /\ len b <= 8 /\ len e <= 3 /\
    Forall (fun c => stored_char c = true) b /\ Forall (fun c => stored_char c = true) e.
Proof.
  assert (Forall (fun c => 0x20 < c < 256 /\ IsSeparator c = false) (seg_of l)) as Hseg.
  { induction l as [|b l IH]; cbn; [constructor|]. destruct (seg_end (bval b)) eqn:E; [constructor|]. constructor; [|done].
    unfold seg_end in E. apply orb_false_elim in E as [E1 E2]. apply Z.leb_gt in E1. pose proof (bval_range b). split; [lia|done]. }
  assert (forall s base ext, split_dot s = (base, ext) -> Forall (fun c => 0x20 < c < 256 /\ IsSeparator c = false) s ->
    Forall (fun c => 0x20 < c < 256 /\ IsSeparator c = false /\ c <> 0x2E) base /\
    Forall (fun c => 0x20 < c < 256 /\ IsSeparator c = false) (default [] ext)) as Hsp.
  { clear. induction s as [|c s IH]; intros base ext; cbn; [intros [= <- <-]; by split|]. intros E Hs. inversion_clear Hs as [|? ? [H1 H2] Hs'].
    destruct (Z.eqb_spec c 0x2E); [injection E as <- <-; by split|]. destruct (split_dot s) as [a0 oe]. injection E as <- <-.
    destruct (IH a0 oe eq_refl Hs'). split; [by constructor|done]. }
  unfold sfn_of. destruct (split_dot (seg_of l)) as [base ext] eqn:Es. destruct (Hsp _ _ _ Es Hseg) as [Hb He].
  destruct (_ || _) eqn:E; [done|]. apply orb_false_elim in E as [[[E0 _]%orb_false_elim E1%Z.ltb_ge]%orb_false_elim E2%Z.ltb_ge].
  apply bool_decide_eq_false in E0. destruct (mapM sfn_char base) as [b|] eqn:Eb; [|done].
  destruct (mapM sfn_char (default [] ext)) as [e|] eqn:Ee; [|done]. intros [= <-]. exists b, e.
  pose proof (mapM_len _ _ Eb). pose proof (mapM_len _ _ Ee). split; [done|]. split; [lia|]. split; [lia|].
  split; [by eapply mapM_stored|]. eapply mapM_stored; [|exact Ee]. apply list.Forall_forall. intros c Hc.
  destruct (proj1 (list.Forall_forall _ _) He c Hc) as [H1 H2]. split; [done|]. split; [done|]. by intros ->.
Qed.

(** The printed name is a segment of its own. *)
Lemma seg_of_printed b e rest :
  Forall (fun c => stored_char c = true) b -> Forall (fun c => stored_char c = true) e ->
  seg_of (map mkb (print_name b e) ++ x00 :: rest) = print_name b e.
Proof.
  intros Hb He. assert (Forall (fun c => 0x20 < c < 256 /\ IsSeparator c = false) (print_name b e)) as H.
  { assert (forall l, Forall (fun c => stored_char c = true) l -> Forall (fun c => 0x20 < c < 256 /\ IsSeparator c = false) l) as Hf.
    { intros l Hl. eapply Forall_impl; [exact Hl|]. intros c Hc. apply stored_char_facts in Hc. tauto. }
    unfold print_name. apply Forall_app. split; [by apply Hf|]. destruct e; [constructor|]. constructor; [done|]. by apply Hf. }
  induction H as [|c l [H1 H2] Hl IH]; [done|]. cbn [map app seg_of]. rewrite mkb_bval_small by lia. unfold seg_end.
  rewrite (proj2 (Z.leb_gt c _)), H2 by lia. cbn [orb]. by rewrite IH.
Qed.

(** A name that a path segment gives, other than the empty one. *)
Definition proper_name (fn : list byte) : Prop :=
  exists l name, sfn_of (seg_of l) = Some name /\ name <> replicate 11 x20 /\ fn = fix_ddem name.

(** Its text has the characters of the fields. *)
Lemma proper_text fn : proper_name fn -> exists b e,
  (fn = fix_ddem (pad 8 b ++ pad 3 e) /\ name_text fn = map mkb (print_name b e) /\ len b <= 8 /\ len e <= 3 /\ (b <> [] \/ e <> [])) /\
  Forall (fun c => stored_char c = true) b /\ Forall (fun c => stored_char c = true) e.
Proof.
  intros (l & name & Hn & Hne & ->). destruct (sfn_of_fields l name Hn) as (b & e & -> & Lb & Le & Hb & He). exists b, e. split; [|done].
  assert (b <> [] \/ e <> []) as Hbe by (destruct b, e; [by destruct Hne|right|left|left]; done). split; [done|]. split; [|done].
  rewrite name_text_fix; [by apply name_text_fields|]. intros x Hx. destruct b as [|c b].
  - assert (x = x20) as -> by (by injection Hx). done.
  - assert (x = mkb c) as -> by (by injection Hx). inversion_clear Hb as [|? ? H _]. apply stored_char_facts in H as (H & _).
    rewrite mkb_bval_small by lia. unfold_consts. lia.
Qed.

(** What is printed reads as the same name. *)
Lemma printed_path {Pf : Platform} fn rest : proper_name fn -> path_names (name_text fn ++ x00 :: rest) 0 [fn].
Proof.
  intros Hp. destruct (proper_text fn Hp) as (b & e & (-> & -> & Lb & Le & Hbe) & Hb & He). set (p := map mkb (print_name b e) ++ x00 :: rest).
  assert (seg_of (drop (Z.to_nat 0) p) = print_name b e) as Hseg by (by apply seg_of_printed).
  eapply (pn_last p 0 _ 0 (len (print_name b e) + 1)); [rewrite Hseg; by apply sfn_of_print| |done].
  exists x00. rewrite Hseg. split; [|split; [done|by left]]. unfold p. rewrite at_app.
  rewrite len_map_mkb. cbn [Z.add]. rewrite Z.ltb_irrefl, Z.sub_diag. done.
Qed.

(** No character of it ends a path, separates segments or names a drive. *)
Definition name_char (b : byte) : Prop := 0x20 < bval b /\ bval b <> 0x3A /\ IsSeparator (bval b) = false.

Lemma proper_chars fn : proper_name fn -> name_text fn <> [] /\ Forall (fun b => bval b = 0x2E \/ name_char b) (name_text fn).
Proof.
  intros Hp. destruct (proper_text fn Hp) as (b & e & (_ & -> & _ & _ & Hbe) & Hb & He).
  assert (forall l, Forall (fun c => stored_char c = true) l -> Forall (fun b => bval b = 0x2E \/ name_char b) (map mkb l)) as Hf.
  { intros l Hl. apply Forall_map. eapply Forall_impl; [exact Hl|]. intros c Hc. right. pose proof Hc as (H1 & _ & H2 & H3)%stored_char_facts.
    unfold name_char. rewrite mkb_bval_small by lia. split; [lia|]. split; [|done]. intros ->. by vm_compute in Hc. }
  unfold print_name. rewrite map_app. split; [destruct b, e; by destruct Hbe|]. apply Forall_app. split; [by apply Hf|].
  destruct e; [constructor|]. cbn [map]. constructor; [by left|]. by apply (Hf (_ :: _)).
Qed.

(** A path without a colon has no drive prefix. *)
Lemma get_ldnumber_plain {St} (l rest : list byte) (s : St) :
  Forall (fun b => bval b <> 0x3A) l -> len (l ++ x00 :: rest) < U32 -> get_ldnumber (Some (l ++ x00 :: rest)) s = Done ((0, 0), s).
Proof.
  intros Hl Hlen. set (p := l ++ x00 :: rest) in *. pose proof (len_nonneg l) as H0.
  assert (at_ p (len l) = Some x00) as Hz by (unfold p; rewrite at_app, Z.ltb_irrefl, Z.sub_diag; done).
  assert (runs (S := St) (find_colon p 0) (fun r => r.1 <> 0x3A)) as Hr.
  { unfold find_colon. apply (runs_loop (fun j => 0 <= j <= len l) (fun j => len p - j)); [|lia|apply str_fuel; [lia|done]].
    intros j Hj. eapply runs_bind; [apply cstr_ch; split_and!; [lia|done|exists (len l); split; [lia|done]]|]. intros c (b & Hb & ->). apply runs_ret.
    destruct (Z.eq_dec j (len l)) as [->|Hne]; [rewrite Hz in Hb; by injection Hb as <-|].
    assert (bval b <> 0x3A) as Hbc.
    { apply (proj1 (list.Forall_forall _ _) Hl). unfold p in Hb. rewrite at_app in Hb. rewrite (proj2 (Z.ltb_lt j _)) in Hb by lia.
      unfold at_ in Hb. destruct (0 <=? j); [|done]. by eapply list_elem_of_lookup_2. }
    pose proof (at_Some_range _ _ _ Hb). rewrite (proj2 (Z.eqb_neq _ _) Hbc). destruct (negb (IsTerminator (bval b))); cbn; [lia|done]. }
  unfold get_ldnumber. destruct (runs_done _ _ s Hr) as ([c te] & E & Hc). rewrite (bind_done _ _ _ _ _ E). cbn [fst] in Hc.
  by rewrite (proj2 (Z.eqb_neq _ _) Hc).
Qed.

(** What [f_readdir] reports of an entry of the root directory leads to this
    entry, and has no drive prefix. *)
Lemma reported_leads {Pf : Platform} {D : Type} (v : vol D) T sp es k e fn i :
  T !! 0 = Some (sp, es) -> lookup_name fn es = Some k -> es !! k = Some e -> slice e 0 11 = Some fn -> proper_name fn -> entry_info e i ->
  leads v T (fi_fname i) 0 (Found 0 k) /\ forall St (s : St), get_ldnumber (Some (fi_fname i)) s = Done ((0, 0), s).
Proof.
  intros HT Hk He Hfn Hp [(name & rest & Hn & Hi) _ _ _ _ Hl]. rewrite Hfn in Hn. injection Hn as <-. destruct (proper_chars fn Hp) as [Hne Hch].
  rewrite Hi in Hl |- *. assert (at_ (name_text fn ++ x00 :: rest) (len (name_text fn)) = Some x00) as Hz.
  { rewrite at_app, Z.ltb_irrefl, Z.sub_diag. done. }
  assert (13 < U32) as H13 by done. split.
  - split; [split; [done|]; split; [lia|]; exists (len (name_text fn)); split; [apply len_nonneg|done]|].
    exists 0, [fn]. split; [|split; [by apply printed_path|cbn; by rewrite HT; cbn; rewrite Hk]].
    split; [done|]. split; [intros; lia|]. destruct (name_text fn) as [|b l]; [done|]. exists b. split; [done|]. inversion_clear Hch as [|? ? H _].
    destruct H as [->|(_ & _ & H)]; [done|exact H].
  - intros St s. apply get_ldnumber_plain; [|lia]. eapply Forall_impl; [exact Hch|]. intros b [->|(_ & H & _)]; [done|exact H].
Qed.
