(* ===== verification/Space.v ===== *)
(** * Free space

    The number of free clusters of a volume, what [create_chain] and
    [remove_chain] do to it and to the count that the filesystem object keeps,
    and [getfree_vol], the body of [f_getfree], which counts them in the table
    when the count is not known. *)

From stdpp Require Import base numbers list option gmap.
From Stdlib Require Import ZArith Lia.
From Stdlib Require Import Strings.Byte.
From S2P Require Import Prelude Types Bytes Diskio Window Fat Chain Live Dir Path Mount File DirApi Content Writing Seeking Refine Listing Entries Tree Persist Change.

(** ** Counting *)

(** The zero entries of a table from [lo] on, [n] of them looked at. *)
Definition zeros (f : Z -> option Z) (lo n : Z) : Z := len (filter (fun c => f c = Some 0) (seqZ lo n)).

Lemma zeros_0 f lo : zeros f lo 0 = 0.
Proof. done. Qed.

Lemma zeros_succ f lo n : 0 <= n -> zeros f lo (n + 1) = zeros f lo n + (if bool_decide (f (lo + n) = Some 0) then 1 else 0).
Proof.
  intros Hn. unfold zeros. rewrite seqZ_app by lia. rewrite filter_app, len_app. f_equal. rewrite (seqZ_cons _ 1) by lia.
  rewrite (seqZ_nil _ (Z.pred 1)) by lia. rewrite filter_cons. case_bool_decide; [by rewrite decide_True|by rewrite decide_False].
Qed.

Lemma zeros_range f lo n : 0 <= n -> 0 <= zeros f lo n <= n.
Proof. intros Hn. revert n Hn. apply natlike_ind; [done|]. intros n Hn IH. unfold Z.succ. rewrite zeros_succ by done. case_bool_decide; lia. Qed.

Lemma zeros_neg f lo n : n <= 0 -> zeros f lo n = 0.
Proof. intros Hn. unfold zeros. by rewrite seqZ_nil. Qed.

Lemma zeros_ext f g lo n : (forall c, lo <= c < lo + n -> f c = g c) -> zeros f lo n = zeros g lo n.
Proof.
  destruct (Z.le_gt_cases 0 n) as [Hn|Hn]; [|by rewrite !zeros_neg by lia].
  revert n Hn. apply (natlike_ind (fun n => _ -> _)); [done|]. intros n Hn IH H. unfold Z.succ in *. rewrite !zeros_succ by done. rewrite IH, H by (intros; try apply H; lia). done.
Qed.

(** The first [k] entries, and the rest. *)
Lemma zeros_split f lo n k : 0 <= k -> 0 <= n -> zeros f lo (k + n) = zeros f lo k + zeros f (lo + k) n.
Proof. intros Hk Hn. unfold zeros. by rewrite seqZ_app, filter_app, len_app by lia. Qed.

(** One entry is changed. *)
Lemma zeros_insert f g lo n c : lo <= c < lo + n -> (forall x, lo <= x < lo + n -> x <> c -> g x = f x) ->
  zeros g lo n = zeros f lo n - (if bool_decide (f c = Some 0) then 1 else 0) + (if bool_decide (g c = Some 0) then 1 else 0).
Proof.
  intros Hc. assert (0 <= n) as Hn by lia. revert n Hn Hc. apply (natlike_ind (fun n => _ -> _ -> _)); [lia|]. intros n Hn IH Hc H.
  unfold Z.succ in *. rewrite !zeros_succ by done. destruct (Z.eq_dec c (lo + n)) as [->|Hne].
  - rewrite (zeros_ext g f) by (intros; try apply H; lia). repeat case_bool_decide; lia.
  - rewrite IH by (intros; try apply H; lia). rewrite (H (lo + n)) by lia. lia.
Qed.

Lemma fset_at c x f : fset c x f c = Some x.
Proof. unfold fset. by rewrite Z.eqb_refl. Qed.

Lemma fset_other c x f y : y <> c -> fset c x f y = f y.
Proof. intros H. unfold fset. by rewrite (proj2 (Z.eqb_neq _ _) H). Qed.

(** The entries of [l] become free. *)
Lemma zeros_free f lo n l : NoDup l -> 0 <= n -> (forall c, c ∈ l -> lo <= c < lo + n /\ f c <> Some 0) ->
  zeros (freed l f) lo n = zeros f lo n + len l.
Proof.
  intros Hnd Hn. induction Hnd as [|c l Hc Hnd IH]; intros H.
  - rewrite (zeros_ext _ f) by done. unfold len. cbn. lia.
  - rewrite (zeros_insert (freed l f) _ lo n c).
    + rewrite IH by (intros; apply H; by right). 
      assert (freed l f c = f c) as -> by (unfold freed; by rewrite decide_False).
      assert (freed (c :: l) f c = Some 0) as -> by (unfold freed; rewrite decide_True; [done|by left]).
      rewrite bool_decide_eq_false_2, bool_decide_eq_true_2; [|done|apply H; by left]. unfold len. cbn. lia.
    + apply H. by left.
    + intros x Hx Hne. unfold freed. apply decide_ext. rewrite elem_of_cons. tauto.
Qed.

Section space.
Context {Pf : Platform} {D : Type} `{!DiskIO D} `{!DiskIOLaws D} (G : Z -> Prop).
Implicit Types v : vol D.

(** The free clusters of a volume. *)
Definition free_count v : Z := zeros (fat_entry v) 2 (n_fatent (vfs v) - 2).

(** The count that the filesystem object keeps is right, or not known.  This is
    a property of the volume, not of every mounted one: on a FAT32 volume
    [mount_volume] takes the count of the FSInfo sector as it is. *)
Definition count_right v : Prop := free_clst (vfs v) <= n_fatent (vfs v) - 2 -> free_clst (vfs v) = free_count v.

Lemma free_count_geom v v' f :
  geom (vfs v') = geom (vfs v) -> (forall c, valid_clst (vfs v) c -> fat_entry v' c = f c) ->
  free_count v' = zeros f 2 (n_fatent (vfs v) - 2).
Proof using Type.
  intros (_&_&_&_&_&_&E&_)%geom_fields H. unfold free_count. rewrite E. apply zeros_ext. intros c Hc. apply H. unfold valid_clst. lia.
Qed.

Lemma free_count_same v v' :
  geom (vfs v') = geom (vfs v) -> (forall c, valid_clst (vfs v) c -> fat_entry v' c = fat_entry v c) ->
  free_count v' = free_count v.
Proof using Type. intros. by apply free_count_geom. Qed.

(** ** Allocation *)

(** A cluster is taken: one free cluster less. *)
Lemma linked_count v clst x v' :
  sound G v -> table_is v (linked_table v clst x) v' -> valid_clst (vfs v) x -> fat_entry v x = Some 0 ->
  clst = 0 \/ (valid_clst (vfs v) clst /\ fat_entry v clst <> Some 0) -> free_count v' = free_count v - 1.
Proof using Type.
  intros Hs ([_ Hg] & _ & Hf & _) Hx Hx0 Hcl. rewrite (free_count_geom v v' _ Hg Hf). unfold free_count.
  set (n := n_fatent (vfs v) - 2). set (m := ent_mask (fs_type (vfs v)) 0xFFFFFFFF).
  assert (m <> 0) as Hm by (destruct (fl_type _ (so_fat _ _ Hs)) as [E|[E|E]]; subst m; by rewrite E).
  assert (zeros (fset x m (fat_entry v)) 2 n = zeros (fat_entry v) 2 n - 1) as H1.
  { rewrite (zeros_insert (fat_entry v) _ 2 n x); [|unfold valid_clst in Hx; lia|].
    - rewrite Hx0, fset_at, bool_decide_eq_true_2, bool_decide_eq_false_2 by congruence. lia.
    - intros y _ Hy. by apply fset_other. }
  unfold linked_table. fold m. unfold nz. destruct Hcl as [->|[Hv Hc0]]; [done|]. rewrite (proj2 (Z.eqb_neq clst 0)) by (destruct Hv; lia). cbn [negb].
  assert (clst <> x) as Hne by congruence.
  rewrite (zeros_insert (fset x m (fat_entry v)) _ 2 n clst); [|unfold valid_clst in Hv; lia|].
  - rewrite H1, fset_at, fset_other, !bool_decide_eq_false_2; [lia| |done|done]. destruct Hx. intros [= E]. lia.
  - intros y _ Hy. by apply fset_other.
Qed.

(** A chain is given back. *)
Lemma cut_count v p c l v' :
  sound G v -> chain v c l -> table_is v (cut_table v p l) v' ->
  p = 0 \/ (valid_clst (vfs v) p /\ (p ∉ l) /\ fat_entry v p <> Some 0) ->
  free_count v' = free_count v + len l.
Proof using Type.
  intros Hs Hch ([_ Hg] & _ & Hf & _) Hp. rewrite (free_count_geom v v' _ Hg Hf). unfold free_count.
  set (n := n_fatent (vfs v) - 2). rewrite <- (zeros_free (fat_entry v) 2 n l); [|by eapply chain_NoDup|pose proof (chain_valid _ _ _ Hch) as [? ?]; lia|].
  2: { intros x Hx. pose proof (chain_all_valid _ _ _ _ Hch Hx) as [V1 V2]. split; [lia|]. by eapply chain_nonzero. }
  destruct Hp as [->|(Hv & Hpl & Hp0)].
  - by apply zeros_ext.
  - rewrite (zeros_insert (freed l (fat_entry v)) _ 2 n p); [|unfold valid_clst in Hv; lia|].
    + assert (freed l (fat_entry v) p = fat_entry v p) as -> by (unfold freed; by rewrite decide_False).
      unfold cut_table. rewrite decide_False, Z.eqb_refl by done. unfold nz. rewrite (proj2 (Z.eqb_neq p 0)) by (destruct Hv; lia). cbn [negb andb].
      rewrite !bool_decide_eq_false_2; [lia| |done]. destruct (fl_type _ (so_fat _ _ Hs)) as [E|[E|E]]; by rewrite E.
    + intros x _ Hx. unfold cut_table, freed. by rewrite (proj2 (Z.eqb_neq _ _) Hx), andb_false_r.
Qed.

(** Both keep the count right. *)
Lemma count_taken_right v v' x :
  count_right v -> geom (vfs v') = geom (vfs v) -> free_count v' = free_count v - 1 -> valid_clst (vfs v) x -> fat_entry v x = Some 0 ->
  free_clst (vfs v') = count_taken (n_fatent (vfs v)) (free_clst (vfs v)) -> count_right v'.
Proof using Type.
  intros Hr Hg Hc Hx Hx0 Hf. pose proof Hg as (_&_&_&_&_&_&En&_)%geom_fields. unfold count_right in *. rewrite Hf, En, Hc. unfold count_taken.
  assert (1 <= free_count v) as H1.
  { pose proof (zeros_insert (fat_entry v) (fset x 1 (fat_entry v)) 2 (n_fatent (vfs v) - 2) x) as H. rewrite Hx0 in H.
    pose proof (zeros_range (fset x 1 (fat_entry v)) 2 (n_fatent (vfs v) - 2)) as Hz. unfold free_count, valid_clst in *.
    rewrite fset_at, bool_decide_eq_true_2, bool_decide_eq_false_2 in H by done.
    rewrite H in Hz; [lia|lia|]. intros y _ Hy. by apply fset_other. }
  destruct (Z.ltb_spec 0 (free_clst (vfs v))), (Z.leb_spec (free_clst (vfs v)) (n_fatent (vfs v) - 2)); cbn [andb]; intros Hle;
    try (rewrite Hr by lia); try lia. all: specialize (Hr ltac:(lia)); lia.
Qed.

Lemma count_freed_right v v' k :
  2 <= n_fatent (vfs v) -> count_right v -> geom (vfs v') = geom (vfs v) -> free_count v' = free_count v + k ->
  free_clst (vfs v') = count_freed (n_fatent (vfs v)) (free_clst (vfs v)) k -> count_right v'.
Proof using Type.
  intros Hn Hr Hg Hc Hf. pose proof Hg as (_&_&_&_&_&_&En&_)%geom_fields. unfold count_right in *. rewrite Hf, En, Hc. unfold count_freed.
  pose proof (zeros_range (fat_entry v') 2 (n_fatent (vfs v') - 2)) as Hz. unfold free_count in *. rewrite En in *.
  destruct (Z.leb_spec (free_clst (vfs v)) (n_fatent (vfs v) - 2)) as [Hle|Hgt]; [|lia]. rewrite (Hr Hle). lia.
Qed.

(** ** [f_getfree] *)

Section getfree.
Context (v0 : vol D) (Hs : sound G v0).
Abbreviation N := (n_fatent (vfs v0)).

Lemma calm_nfat v : calm G v0 v -> n_fatent (vfs v) = N /\ fs_type (vfs v) = fs_type (vfs v0).
Proof using Type. intros Hc. apply calm_geom in Hc as (E1&_&_&_&_&_&E2&_)%geom_fields. done. Qed.

Lemma n_fatent_limit : N < U32 - 1.
Proof using Hs. pose proof (fl_max _ (so_fat _ _ Hs)) as H. unfold U32. revert H. unfold_consts. lia. Qed.

Lemma scan12 v :
  calm G v0 v -> 2 < N ->
  wp (loop getfree12_body (2, 0)) (fun r v' => r = (FR_OK, free_count v0) /\ calm G v0 v') v.
Proof using Hs.
  intros Hc Hn. pose proof n_fatent_limit as Hlim.
  apply (wp_loop true (fun a v => calm G v0 v /\ valid_clst (vfs v0) a.1 /\ a.2 = zeros (fat_entry v0) 2 (a.1 - 2)) (fun a _ => N - a.1)).
  - clear v Hc. intros [c k] v (Hc & Hv & Hk). cbn [fst snd] in *. unfold getfree12_body. apply wp_bind, wp_get_fs. apply wp_bind.
    eapply wp_mono; [apply (get_fat_alive G v0 v c); [apply Hs|apply Hs|apply Hc|apply Hc|done]|].
    intros x v' (Hx & Hne & Hu & Ha). rewrite (proj2 (Z.eqb_neq _ _) Hne).
    destruct (Z.eqb_spec x 1) as [->|H1]; [by destruct (so_bad _ _ Hs); exists c|]. cbv zeta.
    pose proof Hv as [V1 V2]. pose proof (zeros_range (fat_entry v0) 2 (c - 2) ltac:(lia)) as Hz.
    assert ((if x =? 0 then u32 (k + 1) else k) = zeros (fat_entry v0) 2 (c + 1 - 2)) as ->.
    { replace (c + 1 - 2) with (c - 2 + 1) by lia. rewrite zeros_succ by lia. replace (2 + (c - 2)) with c by lia. rewrite Hx, <- Hk.
      destruct (Z.eqb_spec x 0) as [->|Hx0]; [rewrite bool_decide_eq_true_2 by done; apply u32_small; lia|].
      rewrite bool_decide_eq_false_2 by congruence. lia. }
    rewrite u32_small by lia. rewrite (proj1 (calm_nfat v Hc)). destruct (Z.ltb_spec (c + 1) N); apply wp_ret.
    + split; [|cbn; lia]. split; [done|]. split; [unfold valid_clst; cbn; lia|done].
    + split; [|done]. f_equal. unfold free_count. f_equal. lia.
  - split; [done|]. split; [unfold valid_clst; cbn; lia|done].
  - cbn. unfold U32 in Hlim. unfold LOOP_FUEL. lia.
Qed.

(** The window stands on the sector of the table with offset [o]. *)
Lemma shows_window v o : winsect (vfs v) = fat_sect (vfs v) o -> len (win (vfs v)) = SS -> shows v (win (vfs v)) o.
Proof using Type.
  intros Hw Hl. split; [done|]. intros k Hk. unfold fat_byte. assert (fat_sect (vfs v) k = winsect (vfs v)) as ->.
  { rewrite Hw. unfold fat_sect. by rewrite Hk. }
  by rewrite lview_win.
Qed.

(** The entry of the table under the window. *)
Definition width : Z := if fs_type (vfs v0) =? FS_FAT16 then 2 else 4.

Lemma scan_entry v c k :
  calm G v0 v -> fs_type (vfs v0) <> FS_FAT12 -> 0 <= c < N -> winsect (vfs v) = fat_sect (vfs v) (c * width) -> 0 <= k < U32 - 1 ->
  wp (if fs_type (vfs v) =? FS_FAT16 then
        x <- win_word ((c * width) mod SS) ;; ret (if x =? 0 then u32 (k + 1) else k, (c * width) mod SS + 2)
      else
        x <- win_dword ((c * width) mod SS) ;;
        ret (if Z.land x 0x0FFFFFFF =? 0 then u32 (k + 1) else k, (c * width) mod SS + 4))
    (fun r v' => v' = v /\ r = (k + (if bool_decide (fat_entry v0 c = Some 0) then 1 else 0), (c * width) mod SS + width)) v.
Proof using Hs.
  intros Hc Hty Hr Hw Hk. pose proof Hc as [Hu _]. pose proof Hu as ([Hv Hg] & _). rewrite (proj2 (calm_nfat v Hc)).
  pose proof (shows_window v (c * width) Hw (ok_win _ (proj1 Hv))) as Hsh. unfold width in *. unfold fat_entry.
  rewrite (proj2 (Z.eqb_neq _ _) Hty). pose proof (so_ok _ _ Hs) as Hv0. pose proof (so_fat _ _ Hs) as Hl0.
  destruct (Z.eqb_spec (fs_type (vfs v0)) FS_FAT16) as [E|E].
  - pose proof (fl_size16 _ Hl0 E). pose proof (aligned_fits (c * 2) 2 ltac:(lia) eq_refl (Z_mod_mult c 2)).
    rewrite (fat_le_aligned v0 Hv0 Hl0 v 2 _ _ Hu Hsh) by (lia || done || apply Z_mod_mult).
    apply wp_bind, wp_win_word; [done|apply Z.mod_pos_bound; done|done|]. intros x Hx _. apply wp_ret. split; [done|].
    change (Z.of_nat 2) with 2. rewrite <- ld_word_slice, Hx. f_equal. destruct (Z.eqb_spec x 0) as [->|Hne].
    + rewrite bool_decide_eq_true_2 by done. apply u32_small. lia.
    + rewrite bool_decide_eq_false_2 by congruence. lia.
  - assert (fs_type (vfs v0) = FS_FAT32) as E32 by (destruct (fl_type _ Hl0) as [?|[?|?]]; congruence).
    pose proof (fl_size32 _ Hl0 E32). pose proof (aligned_fits (c * 4) 4 ltac:(lia) eq_refl (Z_mod_mult c 4)).
    rewrite (fat_le_aligned v0 Hv0 Hl0 v 4 _ _ Hu Hsh) by (lia || done || apply Z_mod_mult).
    apply wp_bind, wp_win_dword; [done|apply Z.mod_pos_bound; done|done|]. intros x Hx _. apply wp_ret. split; [done|].
    change (Z.of_nat 4) with 4. rewrite <- ld_dword_slice, Hx. cbn [mbind option_bind]. f_equal.
    change 0x0FFFFFFF with (Z.ones 28). rewrite Z.land_ones by lia. change (2 ^ 28) with 268435456.
    destruct (Z.eqb_spec (x mod 268435456) 0) as [->|Hne].
    + rewrite bool_decide_eq_true_2 by done. apply u32_small. lia.
    + rewrite bool_decide_eq_false_2 by congruence. lia.
Qed.

(** The next entry: in the same sector, or at the start of the next one. *)
Lemma next_offset c w : w = 2 \/ w = 4 -> 0 <= c ->
  ((c * w) mod SS + w) mod SS = ((c + 1) * w) mod SS /\
  (c + 1) * w / SS = c * w / SS + (if ((c + 1) * w) mod SS =? 0 then 1 else 0).
Proof using Type.
  intros Hw Hc. unfold SS. destruct (Z.eqb_spec (((c + 1) * w) mod 512) 0); destruct Hw as [-> | ->]; Z.to_euclidean_division_equations; lia.
Qed.

Record scanning_table (a : Z * Z * Z * Z) v : Prop := mk_scanning {
  sc_calm : calm G v0 v;
  sc_left : 0 < a.1.1.1 <= N;
  sc_ofs : a.1.2 = ((N - a.1.1.1) * width) mod SS;
  sc_sect : a.1.1.2 = fatbase (vfs v0) + (N - a.1.1.1) * width / SS + (if a.1.2 =? 0 then 0 else 1);
  sc_win : a.1.2 <> 0 -> winsect (vfs v) = fatbase (vfs v0) + (N - a.1.1.1) * width / SS;
  sc_count : a.2 = zeros (fat_entry v0) 0 (N - a.1.1.1)
}.

Lemma width_cases : width = 2 \/ width = 4.
Proof using Type. unfold width. destruct (_ =? _); auto. Qed.

Lemma scan_bound c : fs_type (vfs v0) <> FS_FAT12 -> 0 <= c < N ->
  0 <= c * width < fsize (vfs v0) * SS /\ fat_sect (vfs v0) (c * width) = fatbase (vfs v0) + c * width / SS /\
  0 <= fatbase (vfs v0) + c * width / SS < U32 - 1.
Proof using Hs.
  intros Hty Hc. pose proof (so_fat _ _ Hs) as Hl. pose proof (proj1 (so_ok _ _ Hs)) as Hok. pose proof (fl_wrap _ Hl). pose proof (ok_fatbase _ Hok).
  assert (c * width + width <= fsize (vfs v0) * SS) as Hb.
  { unfold width. destruct (Z.eqb_spec (fs_type (vfs v0)) FS_FAT16) as [E|E]; [pose proof (fl_size16 _ Hl E); lia|].
    assert (fs_type (vfs v0) = FS_FAT32) as E32 by (destruct (fl_type _ Hl) as [?|[?|?]]; congruence). pose proof (fl_size32 _ Hl E32). lia. }
  pose proof width_cases as Hw. assert (0 <= c * width < fsize (vfs v0) * SS) as Hr by nia. split; [done|]. split; [by apply fat_sect_val|].
  assert (0 <= c * width / SS < fsize (vfs v0)) by (split; [apply Z.div_pos; [lia|done]|apply Z.div_lt_upper_bound; [done|lia]]). lia.
Qed.

Lemma scan_turn_table a v :
  fs_type (vfs v0) <> FS_FAT12 -> scanning_table a v ->
  wp (getfree_body a) (fun r v' => match r with
    | inl a' => scanning_table a' v' /\ 0 <= a'.1.1.1 < a.1.1.1
    | inr r => r = (FR_OK, zeros (fat_entry v0) 0 N) /\ calm G v0 v'
    end) v.
Proof using Hs.
  intros Hty [Hc Hl Ho Hsec Hwin Hk]. destruct a as [[[clst sect] i] k]. cbn [fst snd] in *. set (c := N - clst) in *.
  assert (0 <= c < N) as Hcr by lia. destruct (scan_bound c Hty Hcr) as (Hb1 & Hb2 & Hb3). pose proof n_fatent_limit as Hlim.
  unfold getfree_body. apply wp_bind, wp_get_fs. apply wp_bind.
  apply (wp_mono true _ (fun r v' => r = (FR_OK, fatbase (vfs v0) + c * width / SS + 1) /\ calm G v0 v' /\
    winsect (vfs v') = fatbase (vfs v0) + c * width / SS)).
  { destruct (Z.eqb_spec i 0) as [E|E].
    - apply wp_bind. rewrite Z.add_0_r in Hsec. rewrite Hsec. eapply wp_mono; [apply (move_window_alive G v0); [apply Hs|apply Hc|apply Hc|lia|]|].
      + rewrite <- Hb2. by apply (so_alive _ _ Hs).
      + intros r v' (-> & Hu & Ha & Hw). apply wp_ret. split; [by rewrite u32_small by lia|]. by split.
    - apply wp_ret. split; [by rewrite Hsec|]. split; [done|auto]. }
  intros [r sect'] v1 ([= -> ->] & Hc1 & Hw1). change (negb (FR_OK =r FR_OK)) with false. cbv iota. pose proof (calm_geom _ _ _ Hc1) as Hg1.
  apply wp_bind. pose proof (zeros_range (fat_entry v0) 0 c ltac:(lia)) as Hz. assert (fs_type (vfs v) = fs_type (vfs v1)) as ->.
  { by rewrite (proj2 (calm_nfat v Hc)), (proj2 (calm_nfat v1 Hc1)). }
  rewrite Ho. eapply wp_mono; [apply (scan_entry v1 c k); [done|done|done|by rewrite (fat_sect_geom _ _ _ Hg1), Hb2|lia]|].
  intros [k' i'] v2 [-> [= -> ->]]. cbv zeta. destruct (next_offset c width width_cases ltac:(lia)) as [E1 E2]. rewrite E1.
  rewrite u32_small by lia. rewrite Hk. replace (zeros (fat_entry v0) 0 c + _) with (zeros (fat_entry v0) 0 (c + 1)) by (rewrite zeros_succ by lia; done).
  assert (N - (clst - 1) = c + 1) as Ec by lia. unfold nz. destruct (Z.eqb_spec (clst - 1) 0) as [E0|E0]; cbn [negb]; apply wp_ret.
  - split; [|done]. f_equal. f_equal. lia.
  - split; [|cbn; lia]. split; cbn [fst snd]; rewrite ?Ec; [done|lia|done| | |done].
    + rewrite E2. destruct (((c + 1) * width) mod SS =? 0); lia.
    + intros Hne. rewrite E2, (proj2 (Z.eqb_neq _ _) Hne). lia.
Qed.

Lemma scan_table v :
  calm G v0 v -> fs_type (vfs v0) <> FS_FAT12 -> 0 < N ->
  wp (loop getfree_body (N, fatbase (vfs v0), 0, 0)) (fun r v' => r = (FR_OK, zeros (fat_entry v0) 0 N) /\ calm G v0 v') v.
Proof using Hs.
  intros Hc Hty Hn. pose proof n_fatent_limit as Hlim. apply (wp_loop true scanning_table (fun a _ => a.1.1.1)).
  - intros a v1 Ha. by apply scan_turn_table.
  - split; cbn [fst snd]; rewrite ?Z.sub_diag; [done|lia|done| |done|done]. rewrite Z.mul_0_l, Zdiv_0_l, Z.eqb_refl. lia.
  - cbn. unfold U32 in Hlim. unfold LOOP_FUEL. lia.
Qed.

(** The reserved entries are not zero. *)
Definition reserved_used : Prop := fs_type (vfs v0) <> FS_FAT12 -> fat_entry v0 0 <> Some 0 /\ fat_entry v0 1 <> Some 0.

(** What is reported: the count of the filesystem object, when it can be one;
    else the number of zero entries, where the scan of a FAT16 or FAT32 starts
    at the two reserved entries and the one of a FAT12 behind them. *)
Definition free_space : Z :=
  if free_clst (vfs v0) <=? N - 2 then free_clst (vfs v0)
  else free_count v0 + (if fs_type (vfs v0) =? FS_FAT12 then 0 else zeros (fat_entry v0) 0 2).

Lemma free_space_right : count_right v0 -> reserved_used -> free_space = free_count v0.
Proof using Type.
  intros Hc Hr. unfold free_space. destruct (Z.leb_spec (free_clst (vfs v0)) (N - 2)); [by apply Hc|].
  destruct (Z.eqb_spec (fs_type (vfs v0)) FS_FAT12) as [E|E]; [lia|]. destruct (Hr E) as [R0 R1].
  change 2 with (0 + 1 + 1) at 1. rewrite !zeros_succ, zeros_0, !bool_decide_eq_false_2; [lia|done|done|lia|lia].
Qed.

Lemma getfree_vol_spec :
  2 < N ->
  wp getfree_vol (fun r v' => r = (FR_OK, Some free_space) /\ geom (vfs v') = geom (vfs v0) /\
    free_clst (vfs v') = free_space /\ (forall c, valid_clst (vfs v0) c -> fat_entry v' c = fat_entry v0 c) /\
    (forall s, plain (vfs v0) s -> lview v' s = lview v0 s) /\ sound G v') v0.
Proof using Hs.
  intros Hn. unfold getfree_vol, free_space. pose proof n_fatent_limit as Hlim. apply wp_bind, wp_get_fs. rewrite u32_small by lia.
  destruct (Z.leb_spec (free_clst (vfs v0)) (N - 2)); [by apply wp_ret|]. apply wp_bind.
  pose proof (zeros_range (fat_entry v0) 2 (N - 2) ltac:(lia)) as Hz. pose proof (zeros_range (fat_entry v0) 0 2 ltac:(lia)) as Hz2.
  set (k := free_count v0 + _).
  assert (0 <= k <= N) as Hk by (subst k; unfold free_count; destruct (_ =? _); lia).
  apply (wp_mono true _ (fun r v' => r = (FR_OK, k) /\ calm G v0 v')).
  { subst k. destruct (Z.eqb_spec (fs_type (vfs v0)) FS_FAT12) as [E|E].
    - rewrite Z.add_0_r. apply scan12; [by apply calm_start|done].
    - eapply wp_mono; [apply scan_table; [by apply calm_start|done|lia]|]. intros r v' [-> Hc]. split; [|done]. f_equal. unfold free_count.
      replace N with (2 + (N - 2)) at 1 by lia. rewrite zeros_split by lia. apply Z.add_comm. }
  intros [r k'] v1 [[= -> ->] Hc]. change (FR_OK =r FR_OK) with true. cbv iota. apply wp_bind, wp_mod_fs, wp_bind, wp_get_fs, wp_bind, wp_mod_fs, wp_ret.
  split; [done|]. pose proof (calm_kept G v0 v1 Hs Hc) as [K1 K2 K3 _]. set (v2 := mkVol _ _).
  pose proof (so_ok _ _ K1) as [Hf Hd].
  destruct (tweak G v1 (vfs v2) K1) as (Hs2 & Hlv & Hfe); [|done..|].
  { apply fs_ok_set_fsi_flag; [apply fs_ok_set_free_clst; [done|lia]|]. apply lor_u8; [apply (ok_fsi_flag _ Hf)|done]. }
  split; [done|]. split; [done|]. split; [intros c Hv; rewrite Hfe; auto|]. split; [intros s Hp; rewrite Hlv; by apply Hc|done].
Qed.

(** In the world. *)
Lemma f_getfree_counts w vp pth rp :
  drive_ready (D := D) true -> hosts w vp v0 -> at_ (FatFs w) 0 = Some (Some vp) ->
  (forall s : world D, get_ldnumber (Some pth) s = Done ((0, rp), s)) -> 2 < N ->
  wp (f_getfree (Some pth)) (fun r w' => r = (FR_OK, Some free_space, Some vp) /\ exists v', hosts w' vp v' /\ sound G v' /\
    free_clst (vfs v') = free_space /\ free_count v' = free_count v0 /\ (forall s, plain (vfs v0) s -> lview v' s = lview v0 s)) w.
Proof using Hs.
  intros Hrdy Hh Hreg Hld Hn. unfold f_getfree.
  eapply mount_volume_hosts; [done|exact Hh|exact Hreg|apply (so_ok _ _ Hs)|exact Hld|by left|].
  change (FR_OK =r FR_OK) with true. cbv iota. apply wp_bind. eapply wp_chk; [done|]. apply wp_bind.
  eapply wp_on_volume; [exact Hh|]. eapply wp_mono; [by apply getfree_vol_spec|].
  intros [r n] v1 ([= -> ->] & Hg & Hf & Hfe & Hlv & Hs1). split; [done|]. intros w' Hh'. apply wp_ret. split; [done|]. exists v1.
  split; [done|]. split; [done|]. split; [done|]. split; [by apply free_count_same|done].
Qed.

End getfree.

End space.
