(* ===== verification/Create.v ===== *)
(** * New and overwritten files

    [dir_register] in a tree of directories, [open_truncate], which resets an
    entry and frees its clusters, and [open_vol] in the modes that create or
    overwrite a file: the new file object is an empty file whose entry the
    path now leads to. *)

From stdpp Require Import base numbers list option gmap.
From Stdlib Require Import ZArith Lia.
From Stdlib Require Import Strings.Byte.
From S2P Require Import Prelude Types Bytes Diskio Window Fat Chain Live Dir Path Mount File DirApi Content Writing Seeking Refine Listing Entries Tree Persist Change Unlink Readdir Text.

(** ** The entry of an empty file *)

Definition born (ty : Z) (e : list byte) : list byte :=
  let e := put_field e DIR_CrtTime (le_split 4 GET_FATTIME) in
  let e := put_field e DIR_ModTime (le_split 4 GET_FATTIME) in
  let e := put_field e DIR_Attr [mkb AM_ARC] in
  let e := set_clust ty 0 e in
  put_field e DIR_FileSize (le_split 4 0).

Record reborn (ty : Z) (e e' : list byte) : Prop := mk_reborn {
  rb_len : len e' = SZDIRE;
  rb_name : slice e' 0 11 = slice e 0 11;
  rb_attr : ent_byte e' DIR_Attr = AM_ARC;
  rb_clust : ent_clust ty e' = 0;
  rb_size : ent_dword e' DIR_FileSize = 0
}.

Lemma born_reborn ty e : len e = SZDIRE -> reborn ty e (born ty e).
Proof.
  intros He. unfold born. set (e1 := put_field e _ _). set (e2 := put_field e1 _ _). set (e3 := put_field e2 _ _). set (e4 := set_clust ty 0 e3).
  assert (len e3 = SZDIRE) as L3 by (unfold e3, e2, e1; by rewrite !len_put_field).
  assert (len e4 = SZDIRE) as L4 by (unfold e4; by rewrite len_set_clust).
  split.
  - by rewrite len_put_field.
  - rewrite slice_put_other by (rewrite ?len_le_split; unfold_consts; lia). unfold e4. rewrite slice_set_clust by (unfold_consts; lia).
    unfold e3, e2, e1. by rewrite !slice_put_other by (rewrite ?len_le_split; unfold_consts; change (len [_]) with 1; lia).
  - rewrite ent_byte_slice. rewrite slice_put_other by (rewrite len_le_split; unfold_consts; lia).
    unfold e4. rewrite slice_set_clust by (unfold_consts; lia). unfold e3. rewrite slice_put_same; [done| |done|done|done].
    unfold e2, e1. by rewrite !len_put_field.
  - unfold ent_clust, ent_word. rewrite !ld_word_slice, !slice_put_other by (rewrite len_le_split; unfold_consts; lia).
    rewrite <- !ld_word_slice. by apply ent_clust_set.
  - unfold ent_dword. rewrite ld_dword_slice, slice_put_same by done. done.
Qed.

Lemma reborn_first ty e e' : reborn ty e e' -> len e = SZDIRE -> ent_byte e' DIR_Name = ent_byte e DIR_Name.
Proof.
  intros [Hl Hn _ _ _] He. rewrite !ent_byte_slice. destruct (slice_is_Some e 0 11) as (x & Hx & _); [done|done|unfold SZDIRE in He; lia|].
  rewrite Hx in Hn. change DIR_Name with (0 + 0). by rewrite <- (slice_slice _ _ _ _ 0 1 Hx), <- (slice_slice _ _ _ _ 0 1 Hn) by lia.
Qed.

(** An entry that is no volume label keeps its name. *)
Lemma reborn_is ty e e' fn : reborn ty e e' -> nz (Z.land (ent_byte e DIR_Attr) AM_VOL) = false -> ent_is fn e' = ent_is fn e.
Proof. intros [_ Hn Ha _ _] Hv. unfold ent_is. by rewrite Hn, Ha, Hv. Qed.

Lemma reborn_file ty e e' : reborn ty e e' -> nz (Z.land (ent_attr e') AM_DIR) = false.
Proof. intros [_ _ Ha _ _]. unfold ent_attr. by rewrite Ha. Qed.

(** ** Names in a directory with a new entry *)

Lemma scan_app P es l j : scan P es = Some j -> scan P (es ++ l) = Some j.
Proof.
  revert j. induction es as [|e es IH]; intros j; [done|]. cbn [scan app]. destruct (ent_byte e DIR_Name =? 0); [done|]. destruct (P e); [done|].
  destruct (scan P es) as [i|]; [|done]. intros [= <-]. by rewrite (IH i).
Qed.

(** Other names are found where they were. *)
Lemma lookup_kept fn es k e e' j :
  lookup_name fn es = Some j -> es !! k = Some e -> ent_free e = true -> ent_byte fn DIR_Name <> DDEM ->
  ent_is fn e' = false -> ent_byte e' DIR_Name <> 0 -> lookup_name fn (<[k := e']> es) = Some j /\ j <> k.
Proof.
  intros Hj He Hfr Hdd His He'. unfold lookup_name in *.
  assert (forall x, ent_is fn x = true -> ent_byte x DIR_Name = ent_byte fn DIR_Name) as Hfirst.
  { intros x Hx. unfold ent_is in Hx. apply andb_true_iff in Hx as [_ Hx%bool_decide_eq_true]. unfold ent_byte.
    change (at_ fn DIR_Name) with (at_ fn 0). by rewrite (at_slice _ _ _ _ 0 Hx). }
  revert k j Hj He. induction es as [|x es IH]; intros k j Hj He; [done|]. cbn [scan] in Hj. destruct (Z.eqb_spec (ent_byte x DIR_Name) 0) as [|Hx0]; [done|].
  destruct k as [|k].
  - injection He as ->. assert (ent_is fn e = false) as Hef.
    { destruct (ent_is fn e) eqn:E; [|done]. apply Hfirst in E. unfold ent_free in Hfr. rewrite E in Hfr, Hx0.
      rewrite (proj2 (Z.eqb_neq _ _) Hdd), (proj2 (Z.eqb_neq _ _) Hx0) in Hfr. done. }
    rewrite Hef in Hj. cbn [insert list_insert scan]. rewrite (proj2 (Z.eqb_neq _ _) He'), His. destruct (scan (ent_is fn) es); [|done].
    injection Hj as <-. done.
  - change (<[S k := e']> (x :: es)) with (x :: <[k := e']> es). cbn [scan]. rewrite (proj2 (Z.eqb_neq _ _) Hx0).
    destruct (ent_is fn x); [injection Hj as <-; done|]. destruct (scan (ent_is fn) es) as [i|] eqn:Ei; [|done]. injection Hj as <-.
    destruct (IH k i eq_refl He) as [IH1 IH2]. cbn in He. split; [|lia]. by rewrite IH1.
Qed.

(** The names of a path do not begin with the mark of a free entry. *)
Lemma path_names_ddem {Pf : Platform} p i names : path_names p i names -> Forall (fun fn => ent_byte fn DIR_Name <> DDEM) names.
Proof.
  assert (forall name, ent_byte (fix_ddem name) DIR_Name <> DDEM) as Hf.
  { intros [|b l]; [done|]. cbn [fix_ddem]. unfold ent_byte. cbn. destruct (Z.eqb_spec (bval b) DDEM); [done|done]. }
  induction 1; constructor; auto.
Qed.

Lemma path_names_nonzero {Pf : Platform} p i names : path_names p i names -> Forall (fun fn => ent_byte fn DIR_Name <> 0) names.
Proof.
  assert (forall l name, sfn_of (seg_of l) = Some name -> ent_byte (fix_ddem name) DIR_Name <> 0) as Hf.
  { intros l name Hn. destruct (sfn_of_fields l name Hn) as (b & e & -> & _ & _ & Hb & _). destruct b as [|c b]; [done|].
    inversion_clear Hb as [|? ? H _]. apply stored_char_facts in H as (H & _). unfold pad. cbn [map app fix_ddem].
    assert (forall x l, ent_byte (x :: l) DIR_Name = bval x) as -> by done.
    destruct (bval (mkb c) =? DDEM); [done|]. rewrite mkb_bval_small by lia. lia. }
  induction 1; constructor; eauto.
Qed.

(** What is known of a missing file. *)
Lemma walk_missing ty T s names sc fn :
  walk ty T s names = Some (Missing sc fn) -> fn ∈ names /\ exists sp es, T !! sc = Some (sp, es) /\ lookup_name fn es = None.
Proof.
  revert s. induction names as [|fn1 rest IH]; intros s; [done|]. cbn [walk]. destruct (T !! s) as [[sp es]|] eqn:ET; [|done]. cbn.
  destruct (lookup_name fn1 es) as [j|] eqn:Ej; destruct rest as [|fn2 rest]; try done.
  - destruct (es !! j) as [x|]; [|done]. cbn. destruct (nz _); [|done]. intros H. destruct (IH _ H) as [Hin Hex]. split; [by right|done].
  - intros [= -> ->]. split; [by left|]. eauto.
Qed.

(** A new entry of the name is the one that is found. *)
Lemma lookup_entered fn es k e :
  len fn = 11 -> ent_byte fn DIR_Name <> 0 -> lookup_name fn es = None -> first_free es = Some k ->
  slice e 0 11 = Some fn -> nz (Z.land (ent_byte e DIR_Attr) AM_VOL) = false ->
  lookup_name fn (<[k := e]> es) = Some k /\ (forall fn', fn' <> fn -> ent_is fn' e = false) /\ ent_byte e DIR_Name = ent_byte fn DIR_Name.
Proof.
  intros Hl Hnz Hno Hff Hnm Hvl. destruct (first_free_some _ _ Hff) as (e0 & He0 & Hfr & Hbef).
  assert (forall fn', ent_is fn' e = ent_is fn' (fresh fn)) as His.
  { intros fn'. unfold ent_is. rewrite Hnm, Hvl, ent_byte_fresh by done. unfold fresh. by rewrite slice_app_l. }
  assert (ent_byte e DIR_Name = ent_byte fn DIR_Name) as Hfi.
  { unfold ent_byte. change (at_ fn DIR_Name) with (at_ fn 0). by rewrite (at_slice _ _ _ _ 0 Hnm). }
  split; [|split; [|done]].
  - rewrite <- (lookup_registered fn es k); [|done|done|done|by eapply lookup_lt_Some|done].
    rewrite <- (list_insert_insert_eq es k e (fresh fn)). unfold lookup_name. apply (scan_insert _ _ k (fresh fn)).
    + apply list_lookup_insert_eq. by eapply lookup_lt_Some.
    + apply His.
    + rewrite Hfi. by rewrite ent_byte_fresh.
  - intros fn' Hne. rewrite His. unfold ent_is. apply andb_false_intro2, bool_decide_eq_false. unfold fresh. rewrite slice_app_l by done. congruence.
Qed.

(** The path of a missing file leads to the entry that was made for it. *)
Lemma walk_created ty T sc sp es sp1 es1 l k e0 e' fn names s :
  T !! sc = Some (sp, es) -> es1 = es ++ l -> es1 !! k = Some e0 -> ent_free e0 = true ->
  lookup_name fn es = None -> lookup_name fn (<[k := e']> es1) = Some k ->
  (forall fn', fn' <> fn -> ent_is fn' e' = false) -> ent_byte e' DIR_Name <> 0 ->
  Forall (fun fn => ent_byte fn DIR_Name <> DDEM) names ->
  walk ty T s names = Some (Missing sc fn) -> walk ty (<[sc := (sp1, <[k := e']> es1)]> T) s names = Some (Found sc k).
Proof.
  intros HT Ees He0 Hfr Hno Hlk Hoth Hz Hdd. revert s. induction Hdd as [|fn1 rest Hd1 Hdd IH]; intros s; [done|]. cbn [walk].
  destruct (Z.eq_dec s sc) as [->|Hne].
  - rewrite lookup_insert_eq, HT. cbn. destruct (lookup_name fn1 es) as [j|] eqn:Ej.
    + assert (fn1 <> fn) as Hfn by congruence. destruct rest as [|fn2 rest]; [done|].
      pose proof (scan_app (ent_is fn1) es l j Ej) as Ej1. rewrite <- Ees in Ej1.
      destruct (lookup_kept fn1 es1 k e0 e' j Ej1 He0 Hfr Hd1 (Hoth _ Hfn) Hz) as [-> Hjk]. rewrite list_lookup_insert_ne by done.
      destruct (es !! j) as [x|] eqn:Ex; [|done].
      assert (es1 !! j = Some x) as -> by (rewrite Ees, lookup_app_l; [done|by eapply lookup_lt_Some]). cbn.
      destruct (nz (Z.land (ent_attr x) AM_DIR)); [|done]. apply IH.
    + destruct rest; [|done]. intros [= <-]. by rewrite Hlk.
  - rewrite lookup_insert_ne by done. destruct (T !! s) as [[sp2 es2]|]; [|done]. cbn.
    destruct (lookup_name fn1 es2) as [j|]; destruct rest as [|fn2 rest]; try done; [|by intros [= ->]].
    destruct (es2 !! j) as [x|]; [|done]. cbn. destruct (nz (Z.land (ent_attr x) AM_DIR)); [|done]. apply IH.
Qed.

Section create.
Context {Pf : Platform} {D : Type} `{!DiskIO D} `{!DiskIOLaws D} (G : Z -> Prop).
Implicit Types v : vol D.

(** ** Edits in a row *)

Lemma rewritten_trans v1 sc sp es k s d e1 e2 v2 v3 :
  rewritten G v1 sc sp es k s d e1 v2 -> rewritten G v2 sc sp (<[k := e1]> es) k s d e2 v3 -> rewritten G v1 sc sp es k s d e2 v3.
Proof using Type.
  intros [A1 A2 A3 A4 A5 _ _ _] [B1 B2 B3 B4 B5 B6 B7 B8]. split; try done; try congruence.
  - intros x Hp Hne. rewrite B4, A4; try done. by apply (plain_geom (vfs v1)).
  - intros c Hc. rewrite B5, A5; try done. by apply (valid_clst_geom (vfs v1)).
  - by rewrite list_insert_insert_eq in B7.
Qed.

(** The cluster of an entry that is being edited. *)
Lemma wp_edit_ld_clust t v1 d e v (Q : Z -> vol D -> Prop) :
  vol_ok v1 -> editing v1 d e v -> 0 <= d <= SS - SZDIRE -> Q (ent_clust (fs_type (vfs v1)) e) v -> wpt t (ld_clust d) Q v.
Proof using Type.
  intros [Hf Hd] (Hl & w & f & Hsp & Hfl & ->) Hdr HQ.
  pose proof (splice_len _ _ _ _ Hsp) as Hwl. rewrite (ok_win _ Hf) in Hwl.
  assert (vol_ok (mkVol (set_wflag f (set_win w (vfs v1))) (vdsk v1))) as Hv by (split; [by apply fs_ok_set_wflag; [apply fs_ok_set_win|]|done]).
  pose proof (slice_splice_same _ _ _ _ Hsp) as Hse. rewrite Hl in Hse.
  assert (forall o (Q : Z -> vol D -> Prop), 0 <= o -> o + 2 <= SZDIRE -> Q (ent_word e o) (mkVol (set_wflag f (set_win w (vfs v1))) (vdsk v1)) ->
    wpt t (win_word (d + o)) Q (mkVol (set_wflag f (set_win w (vfs v1))) (vdsk v1))) as Hword.
  { intros o Q' Ho Hle HQ'. apply wp_win_word; [done|lia|revert Hdr Hle; unfold_consts; lia|]. intros x Hx _. unfold ent_word in HQ'.
    rewrite ld_word_slice in Hx, HQ'. cbn in Hx. rewrite <- (slice_slice _ _ _ _ o 2 Hse) in Hx by lia. by rewrite Hx in HQ'. }
  unfold ld_clust. apply wp_bind, wp_get_fs, wp_bind. apply Hword; [done|done|]. unfold ent_clust in HQ. cbn [fs_type vfs set_wflag set_win].
  destruct (_ =? _); [|by apply wp_ret]. apply wp_bind. apply Hword; [done|done|]. by apply wp_ret.
Qed.

(** ** Resetting an entry *)

Section reset.
Context (v0 : vol D) (sc : Z) (sp : dspace) (Hs : sound G v0) (Hsp : dir_space G v0 sc sp).
Context (es : list (list byte)) (Hes : dir_holds v0 sp es).
Abbreviation ty := (fs_type (vfs v0)).

(** The entry [k] is that of an empty file, and the clusters it had are
    free. *)
Record emptied (k : nat) (s d : Z) (e : list byte) (cs : list Z) v : Prop := mk_emptied {
  em_changed : changed G (fun c => c ∈ cs) (eq s) v0 v;
  em_space : dir_space G v sc sp;
  em_holds : dir_holds v sp (<[k := born ty e]> es);
  em_entry : on_entry G v v s d (born ty e);
  em_free : forall c, c ∈ cs -> fat_entry v c = Some 0
}.

Lemma on_entry_self v v' s d e : sound G v' -> on_entry G v v' s d e -> on_entry G v' v' s d e.
Proof using Type. intros Hs' [_ H1 H2 H3]. split; [by apply calm_start|done|done|done]. Qed.

(** The clusters are given back, and the window returns to the entry. *)
Lemma reset_free k s d e cs v1 cl :
  ent_pos v0 sp k s d -> rewritten G v0 sc sp es k s d (born ty e) v1 -> clusters v0 cl cs -> dir_off sp cs ->
  wp (if nz cl then
        fs <- get_fs ;;
        let sc := winsect fs in
        res <- remove_chain cl 0 ;;
        if res =r FR_OK then
          res <- move_window sc ;;
          mod_fs (set_last_clst (u32 (cl - 1))) ;;;
          ret res
        else ret res
      else ret FR_OK) (fun r v' => r = FR_OK /\ emptied k s d e cs v') v1.
Proof using Hs Hsp Hes.
  intros Hep Hrw Hcl Hoff. pose proof (rw_sound _ _ _ _ _ _ _ _ _ _ Hrw) as Hs1. pose proof (rw_geom _ _ _ _ _ _ _ _ _ _ Hrw) as Hg1.
  pose proof (rewritten_changed G (fun c => c ∈ cs) (eq s) _ _ _ _ _ _ _ _ _ Hrw eq_refl) as Hc1. unfold nz. destruct cs as [|x l].
  { rewrite Hcl. cbn [Z.eqb negb]. apply wp_ret. split; [done|]. destruct Hrw. split; try done. intros c Hc. by apply elem_of_nil in Hc. }
  pose proof (chain_valid _ _ _ Hcl) as [V1 V2]. rewrite (proj2 (Z.eqb_neq cl 0)) by lia. cbn [negb]. apply wp_bind, wp_get_fs. cbv zeta.
  rewrite (oe_sect _ _ _ _ _ _ (rw_entry _ _ _ _ _ _ _ _ _ _ Hrw)). apply wp_bind.
  eapply wp_mono; [apply (remove_changed G (fun _ => False) v1 cl (x :: l)); [done|]|].
  { apply (chain_ext v0); [done|done|]. intros y Hy. apply (rw_fat _ _ _ _ _ _ _ _ _ _ Hrw). by eapply chain_all_valid. }
  intros r v2 (-> & Hc2 & H0). change (FR_OK =r FR_OK) with true. cbv iota. pose proof (cg_sound _ _ _ _ _ Hc2) as Hs2.
  pose proof (cg_geom _ _ _ _ _ Hc2) as Hg2.
  destruct (changed_dir G _ _ v1 v2 sc sp (<[k := born ty e]> es) Hs1 Hc2) as [Hsp2 Hes2]; [|apply Hrw|apply Hrw|].
  { split; [|by intros o s0 _ _ []]. destruct sp; [done|]. intros c H1 H2. by apply (Hoff c). }
  assert (ent_pos v2 sp k s d) as Hep2.
  { destruct Hep as [P1 P2 P3]. assert (geom (vfs v2) = geom (vfs v0)) as Hg by congruence.
    split; [by rewrite (dsize_geom _ _ _ Hg)|by rewrite (dsect_geom _ _ _ _ Hg)|done]. }
  apply wp_bind. eapply wp_mono; [apply (look G v2 sc sp Hs2 Hsp2 _ Hes2 k s d); [by apply calm_start|done]|].
  intros r v3 (-> & e3 & He3 & Hon3). apply wp_bind, wp_mod_fs, wp_ret. split; [done|].
  assert (e3 = born ty e) as ->.
  { rewrite list_lookup_insert_eq in He3; [by injection He3|]. destruct Hep as [P1 _ _]. pose proof (length_es v0 sp es Hes). lia. }
  pose proof (oe_calm _ _ _ _ _ _ Hon3) as Hca3. pose proof (calm_kept G v2 v3 Hs2 Hca3) as [Hs3 Hg3 Hf3 _].
  set (v4 := mkVol _ _). destruct (tweak G v3 (vfs v4) Hs3) as (Hs4 & Hlv4 & Hfe4); [|done..|].
  { apply fs_ok_set_last_clst; [apply Hs3|apply u32_range]. }
  assert (changed G (fun _ => False) (fun _ => False) v2 v4) as Hc24.
  { eapply changed_trans; [by apply calm_changed|]. split; [done|done|by intros|by intros]. }
  destruct (changed_dir G _ _ v2 v4 sc sp (<[k := born ty e]> es) Hs2 Hc24) as [Hsp4 Hes4]; [|done|done|].
  { split; [|by intros o s0 _ _ []]. destruct sp; [done|]. by intros c _ []. }
  split; [|done|done| |].
  - eapply changed_trans; [exact Hc1|]. eapply changed_trans; [by apply (changed_weaken G _ _ _ _ v1 v2 Hc2)|by apply (changed_weaken G _ _ _ _ v2 v4 Hc24)].
  - destruct Hon3 as [_ O1 O2 O3]. split; [by apply calm_start|done|done|done].
  - intros c Hc. rewrite Hfe4, Hf3; [auto|]. apply (valid_clst_geom (vfs v0)); [congruence|]. by eapply chain_all_valid.
Qed.

Lemma open_truncate_spec dj v k s e cs :
  ent_pos v0 sp k s (dp_dir dj) -> on_entry G v0 v s (dp_dir dj) e -> clusters v0 (ent_clust ty e) cs -> dir_off sp cs ->
  wp (open_truncate dj) (fun r v' => r = FR_OK /\ emptied k s (dp_dir dj) e cs v') v.
Proof using Hs Hsp Hes.
  intros Hep Hon Hcl Hoff. unfold open_truncate. cbv zeta. pose proof (on_entry_len _ _ _ _ _ _ Hon) as Hl.
  pose proof (oe_calm _ _ _ _ _ _ Hon) as Hc. pose proof (calm_geom _ _ _ Hc) as (Ety & _)%geom_fields. pose proof Hc as [([Hv _] & _) _].
  apply wp_bind. eapply wp_edit_dword; [apply editing_start; [done|apply Hon]|rewrite st_dword_splice; by apply put_field_splice|]. intros v1 Hed1.
  apply wp_bind. eapply wp_edit_dword; [exact Hed1|rewrite st_dword_splice; apply put_field_splice; [by rewrite len_put_field|done|done]|].
  intros v2 Hed2. apply wp_bind. eapply wp_edit_ld_clust; [exact Hv|exact Hed2|apply Hon|]. rewrite Ety.
  assert (ent_clust ty (put_field (put_field e DIR_CrtTime (le_split 4 GET_FATTIME)) DIR_ModTime (le_split 4 GET_FATTIME)) = ent_clust ty e) as ->.
  { unfold ent_clust, ent_word. rewrite !ld_word_slice, !slice_put_other by (rewrite len_le_split; unfold_consts; lia). done. }
  apply wp_bind. eapply wp_edit_byte; [exact Hed2|apply put_field_splice; [by rewrite !len_put_field|done|done]|]. intros v3 Hed3.
  apply wp_bind. eapply wp_edit_clust; [exact Hed3|]. rewrite Ety. intros v4 Hed4.
  apply wp_bind. eapply wp_edit_dword; [exact Hed4|rewrite st_dword_splice; apply put_field_splice; [by rewrite len_set_clust, !len_put_field|done|done]|].
  intros v5 Hed5. apply wp_bind. eapply wp_edit_flag; [exact Hed5|]. intros v6 Hed6 Hf6.
  pose proof (rewrite_entry G v0 sc sp Hs Hsp es Hes k _ _ _ _ _ _ Hep Hon Hed6 Hf6) as Hrw. by apply reset_free.
Qed.

End reset.

(** ** A new entry in a tree *)

Definition dir_clsts (sp : dspace) : list Z := match sp with Root => [] | Clst cs => cs end.

(** The clusters and sectors that a new entry in the directory may change:
    its own, and those of one free cluster. *)
Definition grow_clst v (sp : dspace) (c : Z) : Prop := c ∈ dir_clsts sp \/ fat_entry v c = Some 0.
Definition grow_sect v (sp : dspace) (s : Z) : Prop :=
  (exists o, 0 <= o /\ dsect (vfs v) sp o = Some s) \/ (exists x, valid_clst (vfs v) x /\ fat_entry v x = Some 0 /\ in_file (vfs v) [x] s).

Lemma ent_clust_fresh ty fn : len fn = 11 -> ent_clust ty (fresh fn) = 0.
Proof using Type.
  intros Hl. unfold len in Hl. do 11 (destruct fn as [|? fn]; [done|]). destruct fn; [|cbn in Hl; lia]. unfold ent_clust. by destruct (ty =? FS_FAT32).
Qed.

Section register.
Context (v0 : vol D) (T : tree) (Hs : sound G v0) (HT : tree_in G v0 T) (Hta : tree_apart (vfs v0) T).
Context (sc : Z) (sp : dspace) (es : list (list byte)) (HTs : T !! sc = Some (sp, es)).
Abbreviation ty := (fs_type (vfs v0)).

Lemma room_changed v1 sp1 es1 :
  room G v0 sc sp es v1 sp1 es1 -> changed G (grow_clst v0 sp) (grow_sect v0 sp) v0 v1 /\
    (forall o s, 0 <= o -> dsect (vfs v0) sp1 o = Some s -> grow_sect v0 sp s) /\ exists l, es1 = es ++ l.
Proof using Hs.
  intros [|cs x v2 Esp _ Hln].
  - split; [by apply changed_refl|]. split; [intros o s Ho E; left; eauto|]. exists []. by rewrite app_nil_r.
  - destruct (ln_free _ _ _ _ _ _ _ Hln) as [Hv H0]. split; [|split; [|by eexists]].
    + eapply lengthened_changed; [exact Hln|by right|intros c Hc; left; by rewrite Esp|]. intros s Hin. right. eauto.
    + intros o s Ho E. cbn in E. unfold fsect in E. destruct (decide ((Z.to_nat (o / bcs (vfs v0)) < length cs)%nat)) as [Hlt|Hge].
      * left. exists o. split; [done|]. rewrite Esp. cbn. unfold fsect. by rewrite lookup_app_l in E.
      * right. exists x. split; [done|]. split; [done|]. rewrite lookup_app_r in E by lia. destruct (Z.to_nat (o / bcs (vfs v0)) - length cs)%nat; [|done].
        cbn in E. injection E as <-. exists x, (o mod bcs (vfs v0) / SS). split; [by left|]. split; [|done]. by apply (in_cluster _ (so_data _ _ Hs)).
Qed.

(** Directories in clusters have no cluster in common. *)
Lemma apart_clsts sc2 sp2 es2 c : T !! sc2 = Some (sp2, es2) -> sc2 <> sc -> c ∈ dir_clsts sp -> c ∈ dir_clsts sp2 -> False.
Proof using Hs Hta HTs.
  intros H2 Hne Hc Hc2. destruct sp as [|cs] eqn:Esp; [by apply elem_of_nil in Hc|]. destruct sp2 as [|cs2]; [by apply elem_of_nil in Hc2|].
  apply list_elem_of_lookup in Hc as [i Hi]. apply list_elem_of_lookup in Hc2 as [j Hj]. pose proof (bcs_pos _ (so_data _ _ Hs)) as Hb.
  assert (forall l n, l !! n = Some c -> fsect (vfs v0) l (Z.of_nat n * bcs (vfs v0)) = Some (clst_sect (vfs v0) c)) as Hf.
  { intros l n Hn. unfold fsect. rewrite Z.div_mul by lia. rewrite Nat2Z.id, Hn. cbn. rewrite Z.mod_mul by lia. change (0 / SS) with 0. by rewrite Z.add_0_r. }
  apply Hne. eapply (Hta sc2 (Clst cs2) es2 sc (Clst cs) es); [done|done| | |apply (Hf _ _ Hj)|apply (Hf _ _ Hi)]; lia.
Qed.

Lemma beside_new sc2 sp2 es2 : T !! sc2 = Some (sp2, es2) -> sc2 <> sc -> dir_beside (vfs v0) (grow_clst v0 sp) (grow_sect v0 sp) sp2.
Proof using Hs HT Hta HTs.
  intros H2 Hne. destruct (HT _ _ _ H2) as [Hsp2 _].
  assert (forall c, c ∈ dir_clsts sp2 -> fat_entry v0 c <> Some 0) as Hnz.
  { intros c Hc. destruct sp2 as [|cs2]; [by apply elem_of_nil in Hc|]. by eapply (chain_nonzero v0). }
  split.
  - destruct sp2 as [|cs2] eqn:E2; [done|]. intros c Hc [Hin|H0]; [|by apply (Hnz c)]. eapply apart_clsts; [exact H2|done|exact Hin|done].
  - intros o s Ho E [(o1 & Ho1 & E1)|(x & Hv & H0 & Hin)].
    + apply Hne. by apply (Hta sc2 sp2 es2 sc sp es o o1 s).
    + apply (dsect_off G v0 sc2 sp2 [x] o s Hs Hsp2) in E; [done| |intros c Hc; by apply list_elem_of_singleton in Hc as ->|done].
      destruct sp2 as [|cs2]; [done|]. intros c Hc Hc'. apply list_elem_of_singleton in Hc' as ->. by apply (Hnz x).
Qed.

(** Files lie beside what a new entry may change. *)
Lemma file_beside_new cl cs :
  clusters v0 cl cs -> dir_off sp cs -> (forall c, c ∈ cs -> ~ grow_clst v0 sp c) /\ forall s, in_file (vfs v0) cs s -> ~ grow_sect v0 sp s.
Proof using Hs HT HTs.
  intros Hcl Hoff. destruct (HT _ _ _ HTs) as [Hsp _].
  assert (forall c, c ∈ cs -> valid_clst (vfs v0) c /\ fat_entry v0 c <> Some 0) as Hu.
  { intros c Hc. destruct cs as [|a l]; [by apply elem_of_nil in Hc|]. split; [by eapply chain_all_valid|by eapply chain_nonzero]. }
  split.
  - intros c Hc [Hin|E]; [|by apply (Hu c)]. destruct sp as [|dcs]; [by apply elem_of_nil in Hin|]. by apply (Hoff c).
  - intros s Hin [(o & Ho & E)|(x & Hv & E & Hx)]; [eapply (dsect_off G v0 sc sp cs o s); try done; intros c Hc; by apply Hu|].
    apply (disjoint_sects (vfs v0) cs [x] s); [|done|done]. intros c Hc Hc'. apply list_elem_of_singleton in Hc' as ->. by apply (Hu x).
Qed.

(** The tree with the directory [sc] replaced by a changed one. *)
Lemma grown_tree sp1 es' v :
  changed G (grow_clst v0 sp) (grow_sect v0 sp) v0 v -> dir_space G v sc sp1 -> dir_holds v sp1 es' ->
  (forall o s, 0 <= o -> dsect (vfs v0) sp1 o = Some s -> grow_sect v0 sp s) ->
  tree_in G v (<[sc := (sp1, es')]> T) /\ tree_apart (vfs v) (<[sc := (sp1, es')]> T).
Proof using Hs HT Hta HTs.
  intros Hc Hsp1 Hes1 Hgs. split.
  - intros c sp2 es2. destruct (Z.eq_dec c sc) as [->|Hne]; [rewrite lookup_insert_eq; by intros [= <- <-]|].
    rewrite lookup_insert_ne by done. intros H2. destruct (HT _ _ _ H2). eapply changed_dir; [exact Hs|exact Hc|by eapply beside_new|done|done].
  - intros sc1 spa esa sc2 spb esb o1 o2 s. rewrite !(dsect_geom _ _ _ _ (cg_geom _ _ _ _ _ Hc)).
    destruct (Z.eq_dec sc1 sc) as [->|N1], (Z.eq_dec sc2 sc) as [->|N2]; rewrite ?lookup_insert_eq, ?(lookup_insert_ne T) by done; intros A B Ho1 Ho2 E1 E2.
    + done.
    + injection A as <- <-. destruct (beside_new _ _ _ B N2) as [_ H]. destruct (H _ _ Ho2 E2). by apply (Hgs o1).
    + injection B as <- <-. destruct (beside_new _ _ _ A N1) as [_ H]. destruct (H _ _ Ho1 E1). by apply (Hgs o2).
    + by apply (Hta sc1 spa esa sc2 spb esb o1 o2 s).
Qed.

(** ** Creating a file *)

Context (Hun : len (dp_fn uninit_dir) = 12).

(** A file object of the volume [vp], with the entry [k] of the directory. *)
Record fil_at v (vp mode : Z) (sp1 : dspace) (k : nat) (fp : FIL) : Prop := mk_fil_at {
  fa_obj : obj_fs (fp_obj fp) = Some vp /\ obj_id (fp_obj fp) = fs_id (vfs v0);
  fa_flag : fp_flag fp = mode;
  fa_dir : ent_pos v sp1 k (fp_dir_sect fp) (fp_dir_ptr fp);
  fa_empty : file_is v fp [] (mkAfile [] 0 (nz (Z.land mode FA_READ)) (nz (Z.land mode FA_WRITE)))
}.

(** The directory has a new entry [e] for the path. *)
Record created (p : list byte) (path : Z) (sp1 : dspace) (es' : list (list byte)) (k : nat) (e : list byte) v : Prop := mk_created {
  cd_changed : changed G (grow_clst v0 sp) (grow_sect v0 sp) v0 v;
  cd_tree : tree_in G v (<[sc := (sp1, es')]> T);
  cd_apart : tree_apart (vfs v) (<[sc := (sp1, es')]> T);
  cd_leads : leads v (<[sc := (sp1, es')]> T) p path (Found sc k);
  cd_entry : es' !! k = Some e;
  cd_file : is_dir e = false
}.

(** The modes that make a file where there is none. *)
Definition creating (mode : Z) : Prop := nz (Z.land mode (Z.lor FA_CREATE_ALWAYS (Z.lor FA_OPEN_ALWAYS FA_CREATE_NEW))) = true.
Definition new_mode (mode : Z) : Z := Z.lor (Z.lor mode FA_CREATE_ALWAYS) FA_MODIFIED.

(** The directory has a new entry [e] for the path: it keeps the name that
    [dir_register] gave it, and is no volume label. *)
Lemma entered p path fn v1 sp1 es1 k s d e v :
  leads v0 T p path (Missing sc fn) -> len fn = 11 ->
  room G v0 sc sp es v1 sp1 es1 -> first_free es1 = Some k -> ent_pos v1 sp1 k s d ->
  slice e 0 11 = Some fn -> nz (Z.land (ent_byte e DIR_Attr) AM_VOL) = false ->
  changed G (fun _ => False) (eq s) v1 v -> dir_space G v sc sp1 -> dir_holds v sp1 (<[k := e]> es1) ->
  changed G (grow_clst v0 sp) (grow_sect v0 sp) v0 v /\ leads v (<[sc := (sp1, <[k := e]> es1)]> T) p path (Found sc k) /\
  tree_in G v (<[sc := (sp1, <[k := e]> es1)]> T) /\ tree_apart (vfs v) (<[sc := (sp1, <[k := e]> es1)]> T) /\ <[k := e]> es1 !! k = Some e.
Proof using Hs HT Hta HTs.
  intros (Hp & j & names & Hsk & Hn & Hw) Hl Hroom Hff Hep Hnm Hvl Hcv Hsp1 Hes1.
  destruct (room_changed v1 sp1 es1 Hroom) as (Hc1 & Hgs & l & El). pose proof (cg_geom _ _ _ _ _ Hc1) as Hg1.
  destruct (first_free_some _ _ Hff) as (e0 & He0 & Hfr & Hbef).
  destruct (walk_missing _ _ _ _ _ _ Hw) as (Hin & sp' & es0 & HTs' & Hno). rewrite HTs in HTs'. injection HTs' as <- <-.
  pose proof (proj1 (list.Forall_forall _ _) (path_names_nonzero _ _ _ Hn) fn Hin) as Hnz. cbv beta in Hnz.
  assert (grow_sect v0 sp s) as Hgss.
  { destruct Hep as [_ P2 _]. rewrite (dsect_geom _ _ _ _ Hg1) in P2. eapply Hgs; [|exact P2]. unfold_consts. lia. }
  assert (changed G (grow_clst v0 sp) (grow_sect v0 sp) v0 v) as Hc.
  { eapply changed_trans; [exact Hc1|]. eapply changed_weaken; [exact Hcv|by intros c []|by intros x <-]. }
  assert (lookup_name fn es1 = None) as Hno1 by (destruct Hroom; [done|by apply lookup_name_zeros]).
  destruct (lookup_entered fn es1 k e Hl Hnz Hno1 Hff Hnm Hvl) as (Hlk & His & Hfi).
  destruct (grown_tree sp1 (<[k := e]> es1) v Hc Hsp1 Hes1 Hgs) as [HT' Hta']. split; [done|]. split; [|split; [done|split; [done|]]].
  - split; [done|]. exists j, names. split; [done|]. split; [done|].
    assert (fs_type (vfs v) = ty) as -> by (by pose proof (cg_geom _ _ _ _ _ Hc) as [-> _]%geom_fields).
    eapply (walk_created ty T sc sp es sp1 es1 l k e0); try done.
    + by rewrite Hfi.
    + by eapply path_names_ddem.
  - apply list_lookup_insert_eq. by eapply lookup_lt_Some.
Qed.

Lemma fresh_len fn : len fn = 11 -> len (fresh fn) = SZDIRE.
Proof using Type. intros Hl. unfold fresh. rewrite len_app, Hl. done. Qed.

Lemma fresh_name fn : len fn = 11 -> slice (fresh fn) 0 11 = Some fn.
Proof using Type. intros Hl. unfold fresh. by apply slice_app_l. Qed.

(** The entry that [dir_register] made, once it is reset. *)
Lemma created_entry p path fn v1 sp1 es1 k s d v2 v3 :
  leads v0 T p path (Missing sc fn) -> len fn = 11 ->
  room G v0 sc sp es v1 sp1 es1 -> first_free es1 = Some k -> ent_pos v1 sp1 k s d ->
  rewritten G v1 sc sp1 es1 k s d (fresh fn) v2 -> emptied v2 sc sp1 (<[k := fresh fn]> es1) k s d (fresh fn) [] v3 ->
  created p path sp1 (<[k := born ty (fresh fn)]> es1) k (born ty (fresh fn)) v3.
Proof using Hs HT Hta HTs.
  intros Hle Hl Hroom Hff Hep Hrw [E1 E2 E3 E4 _]. destruct (room_changed v1 sp1 es1 Hroom) as (Hc1 & _).
  assert (fs_type (vfs v2) = ty) as Ety.
  { pose proof (rw_geom _ _ _ _ _ _ _ _ _ _ Hrw) as [-> _]%geom_fields. by pose proof (cg_geom _ _ _ _ _ Hc1) as [-> _]%geom_fields. }
  rewrite Ety in *. rewrite list_insert_insert_eq in E3. pose proof (born_reborn ty (fresh fn) (fresh_len fn Hl)) as Hrb.
  destruct (entered p path fn v1 sp1 es1 k s d (born ty (fresh fn)) v3) as (H1 & H2 & H3 & H4 & H5); try done.
  - rewrite (rb_name _ _ _ Hrb). by apply fresh_name.
  - by rewrite (rb_attr _ _ _ Hrb).
  - eapply changed_trans; [by eapply rewritten_changed|]. eapply changed_weaken; [exact E1| |done]. intros c Hc. by apply elem_of_nil in Hc.
  - split; try done. by eapply reborn_file.
Qed.

Lemma or_bit m b : nz b = true -> nz (Z.land (Z.lor m b) b) = true.
Proof using Type.
  unfold nz. rewrite !negb_true_iff, !Z.eqb_neq. intros Hb E. apply Hb. apply Z.bits_inj'. intros n Hn.
  apply (f_equal (fun x => Z.testbit x n)) in E. rewrite Z.land_spec, Z.lor_spec, Z.bits_0 in *. by destruct (Z.testbit m n), (Z.testbit b n).
Qed.

(** The second half of [open_vol], on an entry that has been reset. *)
Lemma open_reset fp dj vp mode v1 sp1 es1 k s e cs v2 (Q : FRESULT * FIL -> vol D -> Prop) :
  geom (vfs v1) = geom (vfs v0) -> len e = SZDIRE -> sound G v2 -> ent_pos v1 sp1 k s (dp_dir dj) ->
  emptied v1 sc sp1 es1 k s (dp_dir dj) e cs v2 ->
  (forall fp', fil_at v2 vp mode sp1 k fp' -> Q (FR_OK, fp') v2) ->
  wp (fs <- get_fs ;;
      let fp := set_fp_dir_ptr (dp_dir dj) (set_fp_dir_sect (winsect fs) fp) in
      cl <- ld_clust (dp_dir dj) ;;
      size <- win_dword (dp_dir dj + DIR_FileSize) ;;
      let fp := set_fp_objsize size (set_fp_sclust cl fp) in
      let fp := set_fp_obj (set_obj_id (fs_id fs) (set_obj_fs (Some vp) (fp_obj fp))) fp in
      let fp := set_fp_fptr 0 (set_fp_sect 0 (set_fp_err FR_OK (set_fp_flag mode fp))) in
      if nz (Z.land mode FA_SEEKEND) && (fp_objsize fp >? 0) then open_append fp
      else ret (FR_OK, fp)) Q v2.
Proof using Type.
  intros Hg Hl Hs2 Hep [E1 _ _ E4 _] HK. pose proof (cg_geom _ _ _ _ _ E1) as Hg2. assert (geom (vfs v2) = geom (vfs v0)) as Hg20 by congruence.
  destruct (born_reborn (fs_type (vfs v1)) e Hl) as [_ _ _ B4 B5]. assert (fs_type (vfs v1) = fs_type (vfs v2)) as Ety by (by apply geom_fields in Hg2 as [-> _]).
  apply wp_bind, wp_get_fs. cbv zeta. apply wp_bind. eapply wp_ent_clust; [exact E4|]. rewrite <- Ety, B4.
  apply wp_bind. eapply wp_ent_dword; [exact E4|done|done|]. rewrite B5. cbn [fp_objsize fp_obj set_fp_objsize set_fp_obj obj_objsize set_obj_objsize].
  set (fp' := set_fp_fptr _ _). change (fp_objsize fp') with 0. change (0 >? 0) with false. rewrite andb_false_r. apply wp_ret. apply HK.
  split.
  - split; [done|]. cbn. by apply geom_fields in Hg20 as (_&_&_&->&_).
  - done.
  - cbn. rewrite (oe_sect _ _ _ _ _ _ E4). destruct Hep as [P1 P2 P3]. split; [by rewrite (dsize_geom _ _ _ Hg2)|by rewrite (dsect_geom _ _ _ _ Hg2)|done].
  - split; [done|by constructor|done|done|done| |done|done]. intros i Hi. change (len (af_data _)) with 0 in Hi. lia.
Qed.

Lemma open_new_spec fp p path mode vp fn :
  leads v0 T p path (Missing sc fn) -> creating mode ->
  wp (open_vol fp p path mode vp) (fun r v' =>
    (r.1 = FR_DENIED /\ no_room G v0 sp es v') \/
    (r.1 = FR_OK /\ exists sp1 es' k e, created p path sp1 es' k e v' /\ fil_at v' vp (new_mode mode) sp1 k r.2)) v0.
Proof using Hun Hs HT Hta HTs.
  intros Hle Hcr. pose proof Hle as (Hp & j & names & Hsk & Hn & Hw). unfold open_vol, open_entry. apply wp_bind, wp_bind.
  eapply wp_mono; [eapply (follow_path_spec G v0 T Hs HT); [by apply calm_start|exact Hun|done|done|done|done]|].
  intros [r dj] v1 [_ (Hr & Hc & Hsc & Hfn & Hl)]. cbn [fst snd] in *. subst r. apply wp_bind. unfold ch. apply wp_bind. eapply wp_chk.
  { rewrite Hfn, at_app, Hl. change (NSFLAG <? 11) with false. change (NSFLAG - 11) with 0. reflexivity. }
  apply wp_ret. change (FR_NO_FILE =r FR_OK) with false. cbn [andb]. cbv zeta. unfold creating in Hcr. rewrite Hcr.
  change (FR_NO_FILE =r FR_OK) with false. change (FR_NO_FILE =r FR_NO_FILE) with true. cbn [negb]. cbv iota.
  destruct (HT _ _ _ HTs) as [Hsp Hes]. apply wp_bind, wp_bind.
  eapply wp_mono; [apply (dir_register_spec G v0 sc sp Hs Hsp es Hes dj fn v1 Hc Hsc); rewrite Hfn; by apply slice_app_l|].
  intros [r dj1] v2 [_ Hreg]. cbn [fst snd] in *. apply wp_ret. destruct Hreg as [[-> Hno]|(-> & va & sp1 & es1 & k & Hroom & Hff & Hat & Hrw)].
  { change (FR_DENIED =r FR_OK) with false. cbn [andb]. apply wp_bind, wp_ret, wp_ret. change (negb (FR_DENIED =r FR_OK)) with true. cbv iota. apply wp_ret. by left. }
  change (FR_OK =r FR_OK) with true. rewrite or_bit by done. cbn [andb]. apply wp_bind.
  pose proof (dir_at_pos _ _ _ _ Hat) as Hepa. destruct (room_changed va sp1 es1 Hroom) as (Hca & _).
  pose proof (rw_geom _ _ _ _ _ _ _ _ _ _ Hrw) as Hg2. pose proof (cg_geom _ _ _ _ _ Hca) as Hga.
  assert (ent_pos v2 sp1 k (dp_sect dj1) (dp_dir dj1)) as Hep2.
  { destruct Hepa as [P1 P2 P3]. split; [by rewrite (dsize_geom _ _ _ Hg2)|by rewrite (dsect_geom _ _ _ _ Hg2)|done]. }
  eapply wp_mono; [apply (open_truncate_spec v2 sc sp1 (rw_sound _ _ _ _ _ _ _ _ _ _ Hrw) (rw_space _ _ _ _ _ _ _ _ _ _ Hrw) _
    (rw_holds _ _ _ _ _ _ _ _ _ _ Hrw) dj1 v2 k (dp_sect dj1) (fresh fn) []); [done|apply Hrw|by apply ent_clust_fresh|]|].
  { destruct sp1; [done|]. intros c _ Hc2. by apply elem_of_nil in Hc2. }
  intros r v3 [-> Hem]. pose proof (created_entry p path fn va sp1 es1 k _ _ v2 v3 Hle Hl Hroom Hff Hepa Hrw Hem) as Hcd.
  apply wp_ret. change (negb (FR_OK =r FR_OK)) with false. cbv iota.
  rewrite (or_bit mode FA_CREATE_ALWAYS eq_refl). fold (new_mode mode).
  eapply (open_reset fp dj1 vp (new_mode mode) v2 sp1 _ k (dp_sect dj1) (fresh fn) []); [congruence|by apply fresh_len|apply Hcd|done|exact Hem|].
  intros fp' Hfa. right. split; [done|]. by exists sp1, (<[k := born ty (fresh fn)]> es1), k, (born ty (fresh fn)).
Qed.

(** ** In the world *)

Lemma f_open_new w vp pth rp mode fn fp0 :
  drive_ready (D := D) true -> drive_writable (D := D) -> hosts w vp v0 -> at_ (FatFs w) 0 = Some (Some vp) ->
  (forall s : world D, get_ldnumber (Some pth) s = Done ((0, rp), s)) -> leads v0 T pth rp (Missing sc fn) ->
  creating mode -> Z.land mode 0x3F = mode ->
  wp (f_open fp0 (Some pth) mode) (fun r w' => FatFs w' = FatFs w /\ exists v', hosts w' vp v' /\
    ((r.1 = FR_DENIED /\ no_room G v0 sp es v') \/
     (r.1 = FR_OK /\ exists sp1 es' k e, created pth rp sp1 es' k e v' /\ fil_at v' vp (new_mode mode) sp1 k r.2))) w.
Proof using Hun Hs HT Hta HTs.
  intros Hrdy Hwr Hh Hreg Hld Hle Hcr Hm. unfold f_open.
  assert (Z.lor FA_READ (Z.lor FA_WRITE (Z.lor FA_CREATE_ALWAYS (Z.lor FA_CREATE_NEW (Z.lor FA_OPEN_ALWAYS FA_OPEN_APPEND)))) = 0x3F) as -> by reflexivity.
  rewrite Hm. cbv zeta.
  eapply mount_volume_hosts; [done|exact Hh|exact Hreg|apply (so_ok _ _ Hs)|exact Hld|by right|].
  change (FR_OK =r FR_OK) with true. cbv iota. apply wp_bind. eapply wp_at_volume; [exact Hh|]. eapply wp_mono; [apply (open_new_spec fp0 pth rp mode vp fn Hle Hcr)|]. intros [r fp] v' H. cbn [fst snd] in *. split.
  - destruct H as [[_ (_ & [] & _)]|(_ & sp1 & es' & k & e & Hcd & _)]; [done|apply Hcd].
  - intros w' Hh' Ht. apply wp_ret. cbn [fst snd]. split; [done|]. exists v'. split; [done|].
    destruct H as [[-> Hno]|(-> & Hex)]; [by left|]. right. split; [done|]. exact Hex.
Qed.

End register.

End create.
