(* ===== verification/Mkdir.v ===== *)
(** * New directories

    [mkdir_vol], the body of [f_mkdir]: a free cluster becomes a directory with
    the dot entries, and an entry for it is put into the directory of the
    path; when there is no room for the entry, the cluster is given back. *)

From stdpp Require Import base numbers list option gmap.
From Stdlib Require Import ZArith Lia.
From Stdlib Require Import Strings.Byte.
From S2P Require Import Prelude Types Bytes Diskio Window Fat Chain Live Dir Path Mount File DirApi Content Writing Seeking Refine Listing Entries Tree Persist Change Unlink Readdir Text Create.

(** ** The dot entries *)

Definition dot_entry (ty cl : Z) : list byte :=
  let e := put_field zero_entry DIR_Name (replicate 11 (mkb 0x20)) in
  let e := put_field e DIR_Name [mkb 0x2E] in
  let e := put_field e DIR_Attr [mkb AM_DIR] in
  let e := put_field e DIR_ModTime (le_split 4 GET_FATTIME) in
  set_clust ty cl e.

Definition dotdot_entry (ty cl pcl : Z) : list byte := set_clust ty pcl (put_field (dot_entry ty cl) 1 [mkb 0x2E]).

(** The table of a new directory of [n] entries. *)
Definition dots (ty cl pcl n : Z) : list (list byte) :=
  <[1%nat := dotdot_entry ty cl pcl]> (<[0%nat := dot_entry ty cl]> (replicate (Z.to_nat n) zero_entry)).

Lemma len_dot_entry ty cl : len (dot_entry ty cl) = SZDIRE.
Proof. unfold dot_entry. by rewrite len_set_clust, !len_put_field. Qed.

Section mkdir.
Context {Pf : Platform} {D : Type} `{!DiskIO D} `{!DiskIOLaws D} (G : Z -> Prop).
Implicit Types v : vol D.

(** ** A new cluster *)

Lemma create_chain_first v0 v :
  sound G v0 -> calm G v0 v ->
  wp (create_chain 0) (fun x v' => alive G v' /\
    ((x = 0 /\ kept G v0 v' /\ full (vfs v0) v') \/
     (valid_clst (vfs v0) x /\ fat_entry v0 x = Some 0 /\ table_is v0 (linked_table v0 0 x) v'))) v.
Proof using Type.
  intros Hs Hc. pose proof Hc as [Hu Ha]. pose proof Hu as ([Hv Hg] & _ & Hco & _). pose proof Hg as (Ety&_&_&_&_&_&Enf&_)%geom_fields.
  pose proof (calm_kept G v0 v Hs Hc) as [Hsv _ Hfe _].
  assert (forall c, valid_clst (vfs v) c <-> valid_clst (vfs v0) c) as Hvc by (intros c; unfold valid_clst; by rewrite Enf).
  eapply wp_mono; [apply (create_chain_alive G (vfs v0) (so_fat _ _ Hs)); [by split|done|done|done]|].
  intros x v' (Hpost & Ha' & Hx). split; [done|].
  destruct Hpost as [[-> Hbl]|[?|[(-> & Ht1 & Hal & _ & Hfull)|[(Hv1 & ? & _)|(Hv1 & Hx0 & _ & Ht1 & _)]]]]; try done.
  - exfalso. destruct Hbl as [Hbl|(? & _)]; [by apply (so_bad _ _ Hsv)|done].
  - left. assert (table_is v0 (fat_entry v0) v') as Ht0 by (apply (calm_table G v0 v (fat_entry v)); [done|done|intros c Hcv; by rewrite Hfe]).
    split; [done|]. split; [by apply table_kept|]. destruct Hfull as [Hf|Hf]; [left; unfold alloc_info in Hal; congruence|right].
    intros c Hcv. destruct Ht0 as (_ & _ & -> & _); [|done]. rewrite <- Hfe by done. by apply Hf, Hvc.
  - right. apply Hvc in Hv1 as Hv0. split; [done|]. split; [by rewrite <- Hfe|]. apply (calm_table G v0 v (linked_table v 0 x)); [done|done|].
    intros c Hcv. unfold linked_table, fset. rewrite Ety. cbn [nz Z.eqb negb]. destruct (c =? x); [done|]. by rewrite Hfe.
Qed.

(** It is a chain of its own. *)
Lemma first_linked v0 x v :
  sound G v0 -> valid_clst (vfs v0) x -> fat_entry v0 x = Some 0 -> table_is v0 (linked_table v0 0 x) v -> alive G v ->
  changed G (eq x) (fun _ => False) v0 v /\ chain v x [x].
Proof using Type.
  intros Hs Hx Hx0 (Hsv & Hco & Hf & Hvw) Ha. pose proof Hsv as [_ Hg]. destruct (end_mark (vfs v0) (so_fat _ _ Hs)) as [Hm1 Hm2].
  unfold linked_table in Hf. cbn [nz Z.eqb negb] in Hf. pose proof Hg as (Ety&_&_&_&_&_&Enf&_)%geom_fields.
  assert (fat_entry v x = Some (ent_mask (fs_type (vfs v0)) 0xFFFFFFFF)) as Hex by (rewrite Hf by done; unfold fset; by rewrite Z.eqb_refl).
  split; [|by apply (chain_end _ _ (ent_mask (fs_type (vfs v0)) 0xFFFFFFFF)); [apply (valid_clst_geom (vfs v0))| |rewrite Enf]].
  split; [|done| |auto].
  - apply (sound_next G v0); try done. intros (c & Hc & E). apply (valid_clst_geom _ (vfs v0)) in Hc; [|done]. rewrite Hf in E by done. unfold fset in E.
    destruct (Z.eqb_spec c x); [injection E as E; congruence|]. apply (so_bad _ _ Hs). by exists c.
  - intros c Hc Hne. rewrite Hf by done. unfold fset. by rewrite (proj2 (Z.eqb_neq c x)) by congruence.
Qed.

(** It is cleared. *)
Lemma new_cluster_holds x v :
  sound G v -> chain v x [x] -> (forall s, in_file (vfs v) [x] s -> lview v s = Some zero_sector) ->
  dir_holds v (Clst [x]) (replicate (Z.to_nat (csize (vfs v) * 16)) zero_entry).
Proof using Type.
  intros Hs Hch Hz. pose proof (csize_pos _ (so_data _ _ Hs)) as Hcs.
  assert (dsize (vfs v) (Clst [x]) = csize (vfs v) * 16) as Ed.
  { cbn. unfold bcs. change SS with (16 * SZDIRE). rewrite Z.mul_assoc, Z.div_mul by done. change (len [x]) with 1. unfold_consts.
    change (0x200000 / 32) with 65536. lia. }
  split; [by rewrite Ed, len_replicate by lia|]. intros k Hk. rewrite len_replicate in Hk by lia. rewrite at_lookup, lookup_replicate_2 by lia.
  unfold dentry. cbn [dsect]. destruct (fsect_ent (vfs v) [x] k ltac:(lia)) as (-> & _).
  assert (k / 16 / csize (vfs v) = 0) as -> by (rewrite Z.div_div by lia; apply Z.div_small; lia). change (Z.to_nat 0) with 0%nat. cbn.
  rewrite Hz; [cbn; apply zero_sector_entry|]. exists x, ((k / 16) mod csize (vfs v)). split; [by left|]. split; [|done]. apply Z.mod_pos_bound. lia.
Qed.

(** The new table: a cleared cluster that no directory of the tree uses. *)
Record new_table v0 (x : Z) v : Prop := mk_new_table {
  nt_free : valid_clst (vfs v0) x /\ fat_entry v0 x = Some 0;
  nt_changed : changed G (eq x) (in_file (vfs v0) [x]) v0 v;
  nt_chain : chain v x [x];
  nt_space : dir_space G v x (Clst [x])
}.

Lemma new_space v x : chain v x [x] -> dir_space G v x (Clst [x]).
Proof using Type.
  intros Hch. cbn. unfold dir_start. pose proof (chain_valid _ _ _ Hch) as [V1 _]. by rewrite (proj2 (Z.eqb_neq x 0)) by lia.
Qed.

Lemma clear_new v0 x v1 :
  sound G v0 -> valid_clst (vfs v0) x -> fat_entry v0 x = Some 0 -> table_is v0 (linked_table v0 0 x) v1 -> alive G v1 ->
  wp (dir_clear x) (fun r v => r = FR_OK /\ new_table v0 x v /\
    dir_holds v (Clst [x]) (replicate (Z.to_nat (csize (vfs v0) * 16)) zero_entry) /\ winsect (vfs v) = clst_sect (vfs v0) x) v1.
Proof using Type.
  intros Hs Hx Hx0 Ht Ha. destruct (first_linked v0 x v1 Hs Hx Hx0 Ht Ha) as [Hc1 Hch1]. pose proof (cg_sound _ _ _ _ _ Hc1) as Hs1.
  pose proof (cg_geom _ _ _ _ _ Hc1) as Hg1. assert (valid_clst (vfs v1) x) as Hx1 by (by apply (valid_clst_geom (vfs v0))).
  eapply wp_mono; [apply (dir_clear_spec G v1 x); [apply Hs1|apply Hs1|apply Hs1|apply Hs1|done|apply Hs1]|].
  intros r v2 (-> & Htc & Hc2 & Hz & Hw). pose proof Htc as ([_ Hg2] & _ & _ & Hvw).
  destruct (touched_sound G (in_file (vfs v1) [x]) v1 v2 Hs1 Htc Hc2) as [Hs2 Hf2].
  { intros s (c & j & Hc & Hj & ->). apply list_elem_of_singleton in Hc as ->.
    apply data_off_fat; [apply Hs1|apply Hs1|apply Hs1|]. by apply clst_data. }
  assert (chain v2 x [x]) as Hch2.
  { apply (chain_ext v1); [done|done|]. intros y Hy. apply Hf2. by eapply chain_all_valid. }
  pose proof Hg1 as (_&_&_&_&_&Ecs&_&_&_&_&_&Edb)%geom_fields. split; [done|]. split; [|split].
  - split; [done| |done|by apply new_space]. eapply changed_trans; [by apply (changed_weaken G _ _ _ _ v0 v1 Hc1)|].
    split; [done|done|by intros; apply Hf2|]. intros s Hp _ _ Hn. apply Hvw; [done|]. by rewrite (in_file_geom _ (vfs v0)).
  - rewrite <- Ecs. pose proof Hg2 as (_&_&_&_&_&<-&_)%geom_fields. apply new_cluster_holds; [done|done|]. intros s Hin. apply Hz.
    by rewrite <- (in_file_geom (vfs v2)).
  - rewrite Hw. unfold clst_sect. by rewrite Ecs, Edb.
Qed.

(** ** The dot entries *)

(** An entry of the sector in the window is under the pointer. *)
Lemma entry_here v sp es k s d e :
  sound G v -> dir_holds v sp es -> ent_pos v sp k s d -> es !! k = Some e -> winsect (vfs v) = s -> on_entry G v v s d e.
Proof using Type.
  intros Hs [Hl Hk] Hep He Hw. destruct Hep as [P1 P2 P3].
  split; [by apply calm_start|done|rewrite P3, ent_off; pose proof (Z.mod_pos_bound (Z.of_nat k) 16); unfold_consts; lia|]. specialize (Hk (Z.of_nat k)). rewrite at_lookup, Nat2Z.id, He in Hk by lia.
  unfold dentry in Hk. rewrite P2, <- P3 in Hk. cbn in Hk. rewrite <- Hw, lview_win in Hk. apply Hk. lia.
Qed.

(** The window with the dot entry in place is the start of the next edit. *)
Lemma editing_next v1 d e v d' e' :
  editing v1 d e v -> let vA := mkVol (set_wflag 1 (set_win (win (vfs v)) (vfs v1))) (vdsk v1) in
  editing v1 d e vA /\ wflag (vfs vA) = 1 /\ (vol_ok vA -> slice (win (vfs vA)) d' SZDIRE = Some e' -> editing vA d' e' v).
Proof using Type.
  intros (Hl & w & f & Hw & Hf & ->) vA. split; [split; [done|]; exists w, 1; by split_and!|]. split; [done|].
  intros HvA He. pose proof (editing_start vA d' e' HvA He) as (Hl' & w' & f' & Hw' & _ & E). split; [done|]. exists w', f.
  split; [done|]. split; [done|]. apply (f_equal (fun v => win (vfs v))) in E. cbn in E. subst w'. done.
Qed.

Lemma dots_edited v x pcl es :
  sound G v -> dir_space G v x (Clst [x]) -> chain v x [x] ->
  es = replicate (Z.to_nat (csize (vfs v) * 16)) zero_entry -> dir_holds v (Clst [x]) es -> winsect (vfs v) = clst_sect (vfs v) x ->
  wp (make_dots x pcl) (fun _ v' => changed G (fun _ => False) (in_file (vfs v) [x]) v v' /\ dir_space G v' x (Clst [x]) /\
    dir_holds v' (Clst [x]) (dots (fs_type (vfs v)) x pcl (csize (vfs v) * 16))) v.
Proof using Type.
  intros Hs Hsp Hch Ees Hes Hw. pose proof (csize_pos _ (so_data _ _ Hs)) as Hcs. pose proof (length_es v (Clst [x]) es Hes) as Hlen.
  assert (len es = csize (vfs v) * 16) as Hn by (rewrite Ees; apply len_replicate; lia). unfold len in Hn.
  assert (forall k, 0 <= Z.of_nat k < 16 -> ent_pos v (Clst [x]) k (clst_sect (vfs v) x) (Z.of_nat k * SZDIRE)) as Hpos.
  { intros k Hk. split; [lia| |].
    - cbn [dsect]. destruct (fsect_ent (vfs v) [x] (Z.of_nat k) ltac:(lia)) as (-> & _). rewrite (Z.div_small _ 16) by lia.
      rewrite Z.div_small, Z.mod_small by lia. change (Z.to_nat 0) with 0%nat. cbn. by rewrite Z.add_0_r.
    - rewrite ent_off, Z.mod_small by lia. done. }
  set (s := clst_sect (vfs v) x) in *. pose proof (Hpos 0%nat ltac:(lia)) as Hp0. pose proof (Hpos 1%nat ltac:(lia)) as Hp1.
  change (Z.of_nat 0 * SZDIRE) with 0 in Hp0. change (Z.of_nat 1 * SZDIRE) with SZDIRE in Hp1.
  assert (es !! 0%nat = Some zero_entry /\ es !! 1%nat = Some zero_entry) as [He0 He1] by (rewrite Ees; by rewrite !lookup_replicate_2 by lia).
  pose proof (entry_here v (Clst [x]) es 0 s 0 zero_entry Hs Hes Hp0 He0 Hw) as Hon0.
  assert (forall e o src, len e = SZDIRE -> 0 <= o -> o + len src <= SZDIRE -> splice e o src = Some (put_field e o src)) as Hpf by apply put_field_splice.
  unfold make_dots. apply wp_bind. eapply (wp_edit true v 0 _ _ DIR_Name); [apply editing_start; [apply Hs|apply Hon0]|by apply Hpf|]. intros v1 Hd1.
  apply wp_bind. eapply (wp_edit_byte true v 0 _ _ DIR_Name); [exact Hd1|apply Hpf; [by rewrite len_put_field|done|done]|]. intros v2 Hd2.
  apply wp_bind. eapply (wp_edit_byte true v 0 _ _ DIR_Attr); [exact Hd2|apply Hpf; [by rewrite !len_put_field|done|done]|]. intros v3 Hd3.
  apply wp_bind. eapply (wp_edit_dword true v 0 _ _ DIR_ModTime); [exact Hd3|rewrite st_dword_splice; apply Hpf; [by rewrite !len_put_field|done|done]|].
  intros v4 Hd4. apply wp_bind. eapply (wp_edit_clust true v 0); [exact Hd4|]. intros v5 Hd5.
  set (ty := fs_type (vfs v)) in *. change (set_clust ty x _) with (dot_entry ty x) in Hd5.
  destruct (editing_next v 0 (dot_entry ty x) v5 SZDIRE zero_entry Hd5) as (HdA & HfA & HeA).
  set (vA := mkVol _ _) in *.
  pose proof (rewrite_entry G v x (Clst [x]) Hs Hsp es Hes 0 s 0 zero_entry (dot_entry ty x) v vA Hp0 Hon0 HdA HfA) as Hrw.
  pose proof (rw_sound _ _ _ _ _ _ _ _ _ _ Hrw) as HsA. pose proof (rw_geom _ _ _ _ _ _ _ _ _ _ Hrw) as HgA.
  assert (ent_pos vA (Clst [x]) 1 s SZDIRE) as HpA by (by apply (ent_pos_geom v)).
  assert (on_entry G vA vA s SZDIRE zero_entry) as HonA.
  { apply (entry_here vA (Clst [x]) (<[0%nat := dot_entry ty x]> es) 1 s SZDIRE zero_entry HsA); [apply Hrw|done|by rewrite list_lookup_insert_ne|done]. }
  specialize (HeA (so_ok _ _ HsA) (oe_bytes _ _ _ _ _ _ HonA)). assert (win (vfs v5) = win (vfs vA)) as E5 by done.
  apply wp_bind. unfold win_slice. apply wp_bind, wp_get_fs. eapply wp_chk; [rewrite E5; apply (rw_entry _ _ _ _ _ _ _ _ _ _ Hrw)|].
  apply wp_bind. eapply wp_edit_from; [exact HeA|apply splice_whole; by rewrite len_dot_entry|]. intros v6 Hd6.
  apply wp_bind. eapply wp_edit_byte; [exact Hd6|apply Hpf; [by rewrite len_dot_entry|done|done]|]. intros v7 Hd7.
  apply wp_bind. eapply wp_edit_clust; [exact Hd7|]. intros v8 Hd8. eapply wp_edit_flag; [exact Hd8|]. intros v9 Hd9 Hf9.
  change (fs_type (vfs vA)) with ty in Hd9. change (set_clust ty pcl _) with (dotdot_entry ty x pcl) in Hd9.
  pose proof (rewrite_entry G vA x (Clst [x]) HsA (rw_space _ _ _ _ _ _ _ _ _ _ Hrw) _ (rw_holds _ _ _ _ _ _ _ _ _ _ Hrw)
    1 s SZDIRE zero_entry (dotdot_entry ty x pcl) vA v9 HpA HonA Hd9 Hf9) as Hrw2.
  assert (in_file (vfs v) [x] s) as Hin by (exists x, 0; split; [by left|]; split; [lia|]; unfold s; lia).
  split; [|split; [apply Hrw2|]].
  - eapply changed_trans; [by apply (rewritten_changed G _ _ _ _ _ _ _ _ _ _ _ Hrw)|by apply (rewritten_changed G _ _ _ _ _ _ _ _ _ _ _ Hrw2)].
  - pose proof (rw_holds _ _ _ _ _ _ _ _ _ _ Hrw2) as H2. unfold dots. by rewrite <- Ees.
Qed.

(** ** A new directory in the tree *)

(** A larger tree leads the same way. *)
Lemma walk_more ty T T' s names w : T ⊆ T' -> walk ty T s names = Some w -> walk ty T' s names = Some w.
Proof using Type.
  intros Hsub. revert s. induction names as [|fn rest IH]; intros s; [done|]. cbn [walk]. destruct (T !! s) as [[sp es]|] eqn:E; [|done].
  rewrite (lookup_weaken _ _ _ _ E Hsub). cbn. destruct (lookup_name fn es) as [k|], rest; try done.
  destruct (es !! k) as [e|]; [|done]. cbn. destruct (nz _); [apply IH|done].
Qed.

Section tree.
Context (v0 : vol D) (T : tree) (Hs : sound G v0) (HT : tree_in G v0 T) (Hta : tree_apart (vfs v0) T).
Context (x : Z) (Hx : valid_clst (vfs v0) x) (Hx0 : fat_entry v0 x = Some 0).

Lemma free_unused sc sp es : T !! sc = Some (sp, es) -> x ∉ dir_clsts sp.
Proof using HT Hx0.
  intros Hsc Hin. destruct (HT _ _ _ Hsc) as [Hsp _]. destruct sp as [|cs]; [by apply elem_of_nil in Hin|]. by eapply (chain_nonzero v0).
Qed.

Lemma free_no_dir : T !! x = None.
Proof using HT Hx Hx0.
  destruct (T !! x) as [[sp es]|] eqn:E; [|done]. exfalso. apply (free_unused x sp es E). destruct (HT _ _ _ E) as [Hsp _]. destruct Hx as [V1 _].
  destruct sp as [|cs]; cbn in Hsp; [lia|]. unfold dir_start in Hsp. rewrite (proj2 (Z.eqb_neq x 0)) in Hsp by lia. cbn in Hsp. by inversion Hsp; left.
Qed.

Lemma beside_free : tree_beside (vfs v0) (eq x) (in_file (vfs v0) [x]) T.
Proof using Hs HT Hx Hx0.
  intros sc sp es Hsc. pose proof (free_unused sc sp es Hsc) as Hn. destruct (HT _ _ _ Hsc) as [Hsp _]. split.
  - destruct sp as [|cs]; [done|]. by intros c Hc <-.
  - intros o s Ho E Hin. apply (dsect_off G v0 sc sp [x] o s Hs Hsp) in E; [done| |intros c Hc; by apply list_elem_of_singleton in Hc as ->|done].
    destruct sp as [|cs]; [done|]. intros c Hc Hc'. by apply list_elem_of_singleton in Hc' as ->.
Qed.

Lemma new_tree v es :
  changed G (eq x) (in_file (vfs v0) [x]) v0 v -> dir_space G v x (Clst [x]) -> dir_holds v (Clst [x]) es ->
  tree_in G v (<[x := (Clst [x], es)]> T) /\ tree_apart (vfs v) (<[x := (Clst [x], es)]> T).
Proof using Hs HT Hta Hx Hx0.
  intros Hc Hsp Hes. pose proof (changed_tree G _ _ v0 v T Hs Hc beside_free HT) as HT1. pose proof (cg_geom _ _ _ _ _ Hc) as Hg. split.
  - intros sc sp' es'. destruct (Z.eq_dec sc x) as [->|Hne]; [rewrite lookup_insert_eq; by intros [= <- <-]|]. rewrite lookup_insert_ne by done. apply HT1.
  - assert (forall sc sp' es' o o' s, T !! sc = Some (sp', es') -> 0 <= o -> 0 <= o' -> dsect (vfs v0) sp' o = Some s ->
      dsect (vfs v0) (Clst [x]) o' = Some s -> False) as Hdis.
    { intros sc sp' es' o o' s Hsc Ho Ho' E E'. destruct (beside_free _ _ _ Hsc) as [_ H]. apply (H _ _ Ho E).
      cbn in E'. by apply (fsect_in_file _ (so_data _ _ Hs) [x] o'). }
    intros sc1 spa esa sc2 spb esb o1 o2 s. rewrite !(dsect_geom _ _ _ _ Hg).
    destruct (Z.eq_dec sc1 x) as [->|N1], (Z.eq_dec sc2 x) as [->|N2]; rewrite ?lookup_insert_eq, ?(lookup_insert_ne T) by done; intros A B Ho1 Ho2 E1 E2.
    + done.
    + injection A as <- <-. by destruct (Hdis sc2 spb esb o2 o1 s).
    + injection B as <- <-. by destruct (Hdis sc1 spa esa o1 o2 s).
    + by apply (Hta sc1 spa esa sc2 spb esb o1 o2 s).
Qed.

End tree.

(** ** The entry of the directory *)

Definition dir_entry (ty cl : Z) (fn : list byte) : list byte :=
  put_field (set_clust ty cl (put_field (fresh fn) DIR_ModTime (le_split 4 GET_FATTIME))) DIR_Attr [mkb AM_DIR].

Lemma dir_entry_facts ty cl fn :
  len fn = 11 -> 0 <= cl < U32 -> (ty <> FS_FAT32 -> cl < 65536) ->
  slice (dir_entry ty cl fn) 0 11 = Some fn /\ ent_byte (dir_entry ty cl fn) DIR_Attr = AM_DIR /\ ent_clust ty (dir_entry ty cl fn) = cl.
Proof using Type.
  intros Hl Hc Hs. pose proof (fresh_len fn Hl) as Lf. unfold dir_entry. set (e1 := put_field (fresh fn) _ _). set (e2 := set_clust ty cl e1).
  assert (len e1 = SZDIRE) as L1 by (unfold e1; by rewrite len_put_field). assert (len e2 = SZDIRE) as L2 by (unfold e2; by rewrite len_set_clust).
  split; [|split].
  - rewrite slice_put_other by (unfold_consts; change (len [_]) with 1; lia). unfold e2. rewrite slice_set_clust by (unfold_consts; lia).
    unfold e1. rewrite slice_put_other by (rewrite ?len_le_split; unfold_consts; lia). by apply fresh_name.
  - rewrite ent_byte_slice, slice_put_same by done. done.
  - unfold ent_clust, ent_word. rewrite !ld_word_slice, !slice_put_other by (unfold_consts; change (len [_]) with 1; lia).
    rewrite <- !ld_word_slice. by apply ent_clust_set.
Qed.

Lemma finish_entry va sc sp1 es1 k s dj fn x v :
  sound G va -> dir_space G va sc sp1 -> dir_holds va sp1 es1 -> fsi_apart G (vfs va) -> len fn = 11 ->
  ent_pos va sp1 k s (dp_dir dj) -> rewritten G va sc sp1 es1 k s (dp_dir dj) (fresh fn) v ->
  wp (win_put_dword (dp_dir dj + DIR_ModTime) GET_FATTIME ;;;
      st_clust (dp_dir dj) x ;;;
      win_put (dp_dir dj + DIR_Attr) AM_DIR ;;;
      mod_fs (set_wflag 1) ;;;
      sync_fs) (fun r v' => r = FR_OK /\ changed G (fun _ => False) (eq s) va v' /\ dir_space G v' sc sp1 /\
        dir_holds v' sp1 (<[k := dir_entry (fs_type (vfs va)) x fn]> es1)) v.
Proof using Type.
  intros Hs Hsp Hes Hfsi Hl Hep Hrw. pose proof (rw_sound _ _ _ _ _ _ _ _ _ _ Hrw) as Hs1. pose proof (rw_geom _ _ _ _ _ _ _ _ _ _ Hrw) as Hg1.
  pose proof (rw_entry _ _ _ _ _ _ _ _ _ _ Hrw) as Hon. pose proof (fresh_len fn Hl) as Lf. set (d := dp_dir dj) in *.
  apply wp_bind. eapply wp_edit_dword; [apply editing_start; [apply Hs1|apply Hon]|rewrite st_dword_splice; by apply put_field_splice|]. intros v1 Hd1.
  apply wp_bind. eapply wp_edit_clust; [exact Hd1|]. intros v2 Hd2.
  apply wp_bind. eapply wp_edit_byte; [exact Hd2|apply put_field_splice; [by rewrite len_set_clust, len_put_field|done|done]|]. intros v3 Hd3.
  apply wp_bind. eapply wp_edit_flag; [exact Hd3|]. intros v4 Hd4 Hf4.
  assert (fs_type (vfs v) = fs_type (vfs va)) as Ety by (by apply geom_fields in Hg1 as [-> _]). rewrite Ety in Hd4. fold (dir_entry (fs_type (vfs va)) x fn) in Hd4.
  pose proof (rewrite_entry G v sc sp1 Hs1 (rw_space _ _ _ _ _ _ _ _ _ _ Hrw) _ (rw_holds _ _ _ _ _ _ _ _ _ _ Hrw) k s d (fresh fn) _ v v4
    (ent_pos_geom va v sp1 k s d Hg1 Hep) Hon Hd4 Hf4) as Hrw2.
  pose proof (rewritten_trans G _ _ _ _ _ _ _ _ _ _ _ Hrw Hrw2) as Hrw3. pose proof (rw_sound _ _ _ _ _ _ _ _ _ _ Hrw3) as Hs4.
  eapply wp_mono; [apply (sync_fs_spec G v4 Hs4)|].
  - unfold fsi_apart in *. pose proof (rw_geom _ _ _ _ _ _ _ _ _ _ Hrw3) as (->&_&_&_&_&_&_&_&->&->&_)%geom_fields. done.
  - intros r v5 [-> Hy]. split; [done|]. split; [eapply changed_trans; [by eapply rewritten_changed|by apply synced_changed]|].
    eapply synced_holds; [exact Hs4|done|apply Hrw3|apply Hrw3].
Qed.

(** ** [mkdir_vol] *)

Section make.
Context (Hun : len (dp_fn uninit_dir) = 12).
Context (v0 : vol D) (T : tree) (Hs : sound G v0) (HT : tree_in G v0 T) (Hta : tree_apart (vfs v0) T) (Hfsi : fsi_apart G (vfs v0)).
Context (sc : Z) (sp : dspace) (es : list (list byte)) (HTs : T !! sc = Some (sp, es)).
Abbreviation ty := (fs_type (vfs v0)).
Abbreviation new_dots x := (dots ty x sc (csize (vfs v0) * 16)).

(** The tree with the directory [x], entered as [k] into [sc]. *)
Record made (p : list byte) (path x : Z) (sp1 : dspace) (es' : list (list byte)) (k : nat) v : Prop := mk_made {
  md_free : valid_clst (vfs v0) x /\ fat_entry v0 x = Some 0;
  md_changed : changed G (grow_clst v0 sp) (grow_sect v0 sp) v0 v;
  md_tree : tree_in G v (<[sc := (sp1, es')]> (<[x := (Clst [x], new_dots x)]> T));
  md_apart : tree_apart (vfs v) (<[sc := (sp1, es')]> (<[x := (Clst [x], new_dots x)]> T));
  md_leads : leads v (<[sc := (sp1, es')]> (<[x := (Clst [x], new_dots x)]> T)) p path (Found sc k);
  md_entry : exists e, es' !! k = Some e /\ is_dir e = true /\ ent_clust ty e = x
}.

(** Sectors of free clusters. *)
Definition free_sect (s : Z) : Prop := exists x, valid_clst (vfs v0) x /\ fat_entry v0 x = Some 0 /\ in_file (vfs v0) [x] s.

(** There is no room: nothing but free clusters has changed. *)
Record crowded v : Prop := mk_crowded {
  cr_changed : changed G (fun _ => False) free_sect v0 v;
  cr_tree : tree_in G v T;
  cr_why : full (vfs v0) v \/ first_free es = None
}.

Lemma changed_crowded v : changed G (fun _ => False) free_sect v0 v -> full (vfs v0) v \/ first_free es = None -> crowded v.
Proof using Hs HT.
  intros Hc Hw. split; [done| |done]. eapply changed_tree; [exact Hs|exact Hc| |exact HT]. intros sc' sp' es' Hsc. split; [destruct sp'; [done|by intros ? _ []]|].
  intros o s Ho E (x & Hx & Hx0 & Hin). by destruct (beside_free v0 T Hs HT x Hx Hx0 _ _ _ Hsc) as [_ H]; apply (H o s).
Qed.

(** The new cluster is given back. *)
Lemma give_back x v3 v :
  valid_clst (vfs v0) x -> fat_entry v0 x = Some 0 -> changed G (eq x) (in_file (vfs v0) [x]) v0 v3 -> chain v3 x [x] ->
  no_room G v3 sp es v -> wp (remove_chain x 0) (fun _ v' => crowded v') v.
Proof using Hs HT.
  intros Hx Hx0 Hc3 Hch (Hff & Hk & _). pose proof (cg_geom _ _ _ _ _ Hc3) as Hg3.
  pose proof (kept_changed G (fun _ => False) (fun _ => False) v3 v Hk) as Hc. pose proof (cg_geom _ _ _ _ _ Hc) as Hg.
  eapply wp_mono; [apply (remove_changed G (fun _ => False) v x [x]); [apply Hk|]|].
  { apply (chain_ext v3); [done|done|]. intros y Hy. apply Hk. by eapply chain_all_valid. }
  intros r v' (_ & Hc' & H0). assert (changed G (eq x) (in_file (vfs v0) [x]) v0 v') as Hall.
  { eapply changed_trans; [exact Hc3|]. eapply changed_trans; [by eapply changed_weaken|].
    eapply changed_weaken; [exact Hc'|intros c Hc2; by apply list_elem_of_singleton in Hc2|by intros ? []]. }
  apply changed_crowded; [|by right]. destruct Hall as [A1 A2 A3 A4]. split; [done|done|..].
  - intros c Hv _. destruct (Z.eq_dec x c) as [<-|Hne]; [rewrite Hx0; apply H0; by left|by apply A3].
  - intros s Hp Ho Hge Hn. apply A4; try done. intros Hin. apply Hn. by exists x.
Qed.

(** What the second step changes is what the whole may change. *)
Lemma grow_twice x v3 v :
  valid_clst (vfs v0) x -> fat_entry v0 x = Some 0 -> changed G (eq x) (in_file (vfs v0) [x]) v0 v3 -> fat_entry v3 x <> Some 0 ->
  changed G (grow_clst v3 sp) (grow_sect v3 sp) v3 v -> changed G (grow_clst v0 sp) (grow_sect v0 sp) v0 v.
Proof using Type.
  intros Hx Hx0 Hc3 Hx3 Hc. pose proof (cg_geom _ _ _ _ _ Hc3) as Hg3.
  assert (forall c, valid_clst (vfs v0) c -> fat_entry v3 c = Some 0 -> fat_entry v0 c = Some 0) as Hfr.
  { intros c Hv E. rewrite <- (cg_fat _ _ _ _ _ Hc3 c Hv); [done|]. by intros <-. }
  eapply changed_trans; [eapply changed_weaken; [exact Hc3|intros c <-; by right|intros s Hin; right; by exists x]|].
  destruct Hc as [A1 A2 A3 A4]. split; [done|done|..].
  - intros c Hv Hn. apply A3; [done|]. intros [Hin|E]; [apply Hn; by left|]. apply Hn. right. apply Hfr; [by apply (valid_clst_geom (vfs v3))|done].
  - intros s Hp Ho Hge Hn. apply A4; try done. intros [(o & Ho' & E)|(y & Hv & E & Hin)]; apply Hn.
    + left. exists o. by rewrite <- (dsect_geom _ _ _ _ Hg3).
    + right. apply (valid_clst_geom (vfs v3) (vfs v0)) in Hv; [|done]. exists y. split; [done|]. split; [by apply Hfr|]. by rewrite <- (in_file_geom (vfs v3)).
Qed.

(** The new table, with its dot entries. *)
Lemma table_made x v1 :
  valid_clst (vfs v0) x -> fat_entry v0 x = Some 0 -> table_is v0 (linked_table v0 0 x) v1 -> alive G v1 ->
  wp (dir_clear x) (fun r v => r = FR_OK /\ wp (make_dots x sc) (fun _ v3 =>
    changed G (eq x) (in_file (vfs v0) [x]) v0 v3 /\ chain v3 x [x] /\ dir_space G v3 x (Clst [x]) /\ dir_holds v3 (Clst [x]) (new_dots x)) v) v1.
Proof using Hs.
  intros Hx Hx0 Ht Ha. eapply wp_mono; [by apply (clear_new v0 x v1)|]. intros r v2 (-> & [_ Hc2 Hch2 Hsp2] & Hes2 & Hw2). split; [done|].
  pose proof (cg_geom _ _ _ _ _ Hc2) as Hg2. pose proof Hg2 as (Ety&_&_&_&_&Ecs&_&_&_&_&_&Edb)%geom_fields. rewrite <- Ecs in Hes2.
  eapply wp_mono; [eapply (dots_edited v2 x sc _ (cg_sound _ _ _ _ _ Hc2) Hsp2 Hch2 eq_refl Hes2)|].
  - rewrite Hw2. unfold clst_sect. by rewrite Ecs, Edb.
  - intros _ v3 (Hc3 & Hsp3 & Hes3). rewrite Ety, Ecs in Hes3. split; [|split; [|done]].
    + eapply changed_trans; [exact Hc2|]. eapply changed_weaken; [exact Hc3|by intros ? []|]. intros s. apply (in_file_geom (vfs v2) (vfs v0) _ _ Hg2).
    + apply (chain_ext v2); [done|apply Hc3|]. intros y Hy. apply Hc3; [by eapply chain_all_valid|by intros []].
Qed.

(** The new entry leads to the new table. *)
Lemma entry_made p path fn x v3 dj v :
  leads v0 T p path (Missing sc fn) -> len fn = 11 -> valid_clst (vfs v0) x -> fat_entry v0 x = Some 0 ->
  changed G (eq x) (in_file (vfs v0) [x]) v0 v3 -> chain v3 x [x] -> dir_space G v3 x (Clst [x]) -> dir_holds v3 (Clst [x]) (new_dots x) ->
  (exists va sp1 es1 k, room G v3 sc sp es va sp1 es1 /\ first_free es1 = Some k /\ dir_at (vfs va) sp1 (Z.of_nat k) dj /\
     rewritten G va sc sp1 es1 k (dp_sect dj) (dp_dir dj) (fresh fn) v) ->
  wp (win_put_dword (dp_dir dj + DIR_ModTime) GET_FATTIME ;;;
      st_clust (dp_dir dj) x ;;;
      win_put (dp_dir dj + DIR_Attr) AM_DIR ;;;
      mod_fs (set_wflag 1) ;;;
      sync_fs) (fun r v' => r = FR_OK /\ exists sp1 es' k, made p path x sp1 es' k v') v.
Proof using Hs HT Hta Hfsi HTs.
  intros (Hp & j & names & Hsk & Hn & Hwk) Hl Hx Hx0 Hc3 Hch3 Hsp3 Hes3 (va & sp1 & es1 & k & Hroom & Hff & Hat & Hrw).
  pose proof (cg_sound _ _ _ _ _ Hc3) as Hs3. pose proof (cg_geom _ _ _ _ _ Hc3) as Hg3. destruct (new_tree v0 T Hs HT Hta x Hx Hx0 v3 _ Hc3 Hsp3 Hes3) as [HT3 Hta3].
  set (T3 := <[x := _]> T) in *. pose proof (free_no_dir v0 T HT x Hx Hx0) as Hnx. assert (sc <> x) as Hscx by congruence.
  assert (T3 !! sc = Some (sp, es)) as HTs3 by (unfold T3; by rewrite lookup_insert_ne).
  assert (leads v3 T3 p path (Missing sc fn)) as Hle3.
  { split; [done|]. exists j, names. split; [done|]. split; [done|]. assert (fs_type (vfs v3) = ty) as -> by (by apply geom_fields in Hg3 as [-> _]).
    eapply walk_more; [|exact Hwk]. by apply insert_subseteq. }
  destruct (HT3 _ _ _ HTs3) as [Hsp Hes]. destruct (room_ok G v3 sc sp Hs3 Hsp es Hes va sp1 es1 Hroom) as (Hsa & Hspa & Hesa & Hga).
  assert (fsi_apart G (vfs va)) as Hfa.
  { unfold fsi_apart in *. pose proof (eq_trans Hga Hg3) as (->&_&_&_&_&_&_&_&->&->&_)%geom_fields. done. }
  assert (fs_type (vfs va) = ty) as Ety by (pose proof (eq_trans Hga Hg3) as [-> _]%geom_fields; done).
  pose proof (dir_at_pos _ _ _ _ Hat) as Hep. pose proof Hx as [X1 X2]. pose proof (so_fat _ _ Hs) as Hfl.
  assert (0 <= x < U32 /\ (ty <> FS_FAT32 -> x < 65536)) as [Hxr Hxs].
  { pose proof (fl_max _ Hfl). pose proof (fl_max12 _ Hfl) as M12. pose proof (fl_max16 _ Hfl) as M16. pose proof (fl_type _ Hfl) as Ht.
    unfold MAX_FAT32, MAX_FAT12, MAX_FAT16, U32 in *. split; [lia|]. intros Hne. destruct Ht as [E|[E|E]]; [specialize (M12 E)|specialize (M16 E)|done]; lia. }
  destruct (dir_entry_facts ty x fn Hl Hxr Hxs) as (F1 & F2 & F3).
  eapply wp_mono; [by apply (finish_entry va sc sp1 es1 k (dp_sect dj) dj fn x v)|]. intros r v' (-> & Hcv & Hspv & Hesv). split; [done|]. rewrite Ety in Hesv.
  destruct (entered G v3 T3 Hs3 HT3 Hta3 sc sp es HTs3 p path fn va sp1 es1 k (dp_sect dj) (dp_dir dj) (dir_entry ty x fn) v') as (E1 & E2 & E3 & E4 & E5); try done.
  { by rewrite F2. }
  exists sp1, (<[k := dir_entry ty x fn]> es1), k. split; try done.
  - eapply (grow_twice x v3); try done. eapply chain_nonzero; [exact Hch3|by left].
  - exists (dir_entry ty x fn). split; [done|]. split; [|done]. unfold is_dir, ent_attr. by rewrite F2.
Qed.

Lemma mkdir_missing vp p path fn :
  leads v0 T p path (Missing sc fn) ->
  wp (mkdir_vol vp p path) (fun r v' => (r = FR_DENIED /\ crowded v') \/ (r = FR_OK /\ exists x sp1 es' k, made p path x sp1 es' k v')) v0.
Proof using All.
  intros Hle. pose proof Hle as (Hp & j & names & Hsk & Hn & Hw). unfold mkdir_vol. apply wp_bind.
  eapply wp_mono; [eapply (follow_path_spec G v0 T Hs HT); [by apply calm_start|exact Hun|done|done|done|done]|].
  intros [r dj] v1 [_ (Hr & Hc & Hsc & Hfn & Hl)]. cbn [fst snd] in *. subst r. cbv zeta.
  change (FR_NO_FILE =r FR_OK) with false. cbv iota. change (negb (FR_NO_FILE =r FR_NO_FILE)) with false. cbv iota.
  apply wp_bind. eapply wp_mono; [by apply (create_chain_first v0 v1)|]. intros x v2 [Ha2 [(-> & Hk & Hf)|(Hx & Hx0 & Ht)]].
  - cbn [Z.eqb]. cbv iota. change (FR_DENIED =r FR_OK) with false. cbv iota. apply wp_bind, wp_ret. cbv iota. change (FR_DENIED =r FR_OK) with false. cbv iota.
    apply wp_bind. unfold remove_chain. apply wp_bind, wp_get_fs. change (0 <? 2) with true. cbn [orb]. apply wp_ret, wp_ret. left. split; [done|].
    apply changed_crowded; [by apply kept_changed|by left].
  - pose proof Hx as [X1 X2]. pose proof (fl_max _ (so_fat _ _ Hs)) as Hmx.
    rewrite (proj2 (Z.eqb_neq x 0)), (proj2 (Z.eqb_neq x 1)), (proj2 (Z.eqb_neq x _)) by (revert Hmx; unfold_consts; lia).
    change (FR_OK =r FR_OK) with true. cbv iota. apply wp_bind, wp_bind. eapply wp_mono; [by apply (table_made x v2)|].
    intros r v3 [-> Hdots]. change (FR_OK =r FR_OK) with true. cbv iota. apply wp_bind. rewrite Hsc. eapply wp_mono; [exact Hdots|].
    intros [] v4 (Hc4 & Hch4 & Hsp4 & Hes4). destruct (new_tree v0 T Hs HT Hta x Hx Hx0 v4 _ Hc4 Hsp4 Hes4) as [HT4 _].
    pose proof (free_no_dir v0 T HT x Hx Hx0) as Hnx.
    destruct (HT4 sc sp es) as [Hsp Hes]; [rewrite lookup_insert_ne by congruence; done|].
    eapply wp_mono; [apply (dir_register_spec G v4 sc sp (cg_sound _ _ _ _ _ Hc4) Hsp es Hes dj fn v4); [apply calm_start, Hc4|done|]|].
    { rewrite Hfn. by apply slice_app_l. }
    intros [r dj1] v5 [_ Hreg]. cbn [fst snd] in *. destruct Hreg as [[-> Hno]|(-> & Hex)].
    + change (FR_DENIED =r FR_OK) with false. cbv iota. apply wp_bind. eapply wp_mono; [by apply (give_back x v4 v5)|].
      intros r v6 Hcr. apply wp_ret. by left.
    + change (FR_OK =r FR_OK) with true. cbv iota. eapply wp_mono; [by apply (entry_made p path fn x v4 dj1 v5)|].
      intros r v6 (-> & Hm). right. split; [done|]. by exists x.
Qed.

End make.

(** A name that is there, or a directory on the way that is not. *)
Lemma mkdir_other v0 T vp p path x :
  len (dp_fn uninit_dir) = 12 -> sound G v0 -> tree_in G v0 T -> leads v0 T p path x -> (forall sc fn, x <> Missing sc fn) ->
  wp (mkdir_vol vp p path) (fun r v' => r = match x with Found _ _ => FR_EXIST | _ => FR_NO_PATH end /\ calm G v0 v') v0.
Proof using Type.
  intros Hun Hs HT (Hp & j & names & Hsk & Hn & Hw) Hx. unfold mkdir_vol. apply wp_bind.
  eapply wp_mono; [eapply (follow_path_spec G v0 T Hs HT); [by apply calm_start|exact Hun|done|done|done|done]|].
  intros [r dj] v1 [_ H]. cbn [fst snd] in *. cbv zeta. destruct x as [sc k|sc fn|]; [|by destruct (Hx sc fn)|].
  - destruct H as (-> & _ & _ & sp & es & _ & Hst). change (FR_OK =r FR_OK) with true. cbv iota.
    change (negb (FR_EXIST =r FR_NO_FILE)) with true. cbv iota. apply wp_ret. split; [done|]. by eapply stands_calm.
  - destruct H as (-> & Hc). change (FR_NO_PATH =r FR_OK) with false. cbv iota. change (negb (FR_NO_PATH =r FR_NO_FILE)) with true. cbv iota. by apply wp_ret.
Qed.

(** ** In the world *)

(** What [f_mkdir] answers and leaves, by where the path leads. *)
Definition mkdir_post v0 T (p : list byte) (path : Z) (x : verdict) (r : FRESULT) v : Prop :=
  match x with
  | Found _ _ => r = FR_EXIST /\ calm G v0 v
  | NoPath => r = FR_NO_PATH /\ calm G v0 v
  | Missing sc fn => exists sp es, T !! sc = Some (sp, es) /\
      ((r = FR_DENIED /\ crowded v0 T es v) \/ (r = FR_OK /\ exists c sp1 es' k, made v0 T sc sp p path c sp1 es' k v))
  end.

Lemma f_mkdir_file v0 T w vp pth rp x :
  len (dp_fn uninit_dir) = 12 -> sound G v0 -> tree_in G v0 T -> tree_apart (vfs v0) T -> fsi_apart G (vfs v0) ->
  drive_ready (D := D) true -> drive_writable (D := D) -> hosts w vp v0 -> at_ (FatFs w) 0 = Some (Some vp) ->
  (forall s : world D, get_ldnumber (Some pth) s = Done ((0, rp), s)) -> leads v0 T pth rp x ->
  wp (f_mkdir (Some pth)) (fun r w' => FatFs w' = FatFs w /\ exists v', hosts w' vp v' /\ mkdir_post v0 T pth rp x r v') w.
Proof using Type.
  intros Hun Hs HT Hta Hfsi Hrdy Hwr Hh Hreg Hld Hle. unfold f_mkdir.
  eapply mount_volume_hosts; [done|exact Hh|exact Hreg|apply (so_ok _ _ Hs)|exact Hld|by right|].
  change (FR_OK =r FR_OK) with true. cbv iota. eapply wp_at_volume; [exact Hh|].
  assert (wp (mkdir_vol vp pth rp) (fun r v' => mkdir_post v0 T pth rp x r v' /\ geom (vfs v') = geom (vfs v0)) v0) as Hm.
  { destruct x as [sc k|sc fn|].
    - eapply wp_mono; [by apply (mkdir_other v0 T vp pth rp (Found sc k))|]. intros r v' [-> Hc]. split; [done|by apply calm_geom in Hc].
    - destruct Hle as (? & j & names & ? & ? & Hwk). destruct (walk_missing _ _ _ _ _ _ Hwk) as (_ & sp & es & HTs & _).
      eapply wp_mono; [eapply (mkdir_missing Hun v0 T Hs HT Hta Hfsi sc sp es HTs vp pth rp fn); split; eauto|].
      intros r v' H'. split; [exists sp, es; by split|]. destruct H' as [[_ [[] _ _]]|(_ & c & sp1 & es' & k & [_ [] _ _ _ _])]; done.
    - eapply wp_mono; [by apply (mkdir_other v0 T vp pth rp NoPath)|]. intros r v' [-> Hc]. split; [done|by apply calm_geom in Hc]. }
  eapply wp_mono; [exact Hm|]. intros r v' [Hpost Hg]. split; [done|]. intros w' Hh' Ht. split; [done|]. by exists v'.
Qed.

End mkdir.

(** The new directory is empty: [f_readdir] does not report the dot entries,
    and [f_unlink] may remove it. *)
Lemma dots_unused ty cl pcl n : 2 <= n -> in_use (dots ty cl pcl n) = false.
Proof.
  intros Hn. assert (forall o s, o <> 0 -> 0 <= o -> forall e, slice (put_field e o s) 0 1 = slice e 0 1) as Hput.
  { intros o s H1 H2 e. apply slice_put_other. lia. }
  assert (forall c e, slice (set_clust ty c e) 0 1 = slice e 0 1) as Hset by (intros c e; apply slice_set_clust; unfold_consts; lia).
  assert (ent_byte (dot_entry ty cl) DIR_Name = 0x2E /\ ent_byte (dotdot_entry ty cl pcl) DIR_Name = 0x2E) as [E1 E2].
  { assert (slice (dot_entry ty cl) 0 1 = Some [mkb 0x2E]) as H1.
    { unfold dot_entry. cbv zeta. rewrite Hset, !Hput by done. by rewrite slice_put_same by (rewrite ?len_put_field; done). }
    rewrite !ent_byte_slice. unfold dotdot_entry. change DIR_Name with 0. by rewrite Hset, Hput, !H1 by done. }
  unfold in_use, dots. assert (exists m, Z.to_nat n = S (S m)) as [m ->] by (exists (Z.to_nat (n - 2)); lia).
  cbn [replicate insert list_insert scan]. rewrite E1, E2. change (0x2E =? 0) with false. cbv iota.
  assert (forall e, ent_byte e DIR_Name = 0x2E -> reported false e = false) as Hr by (intros e E; unfold reported; by rewrite E).
  rewrite !Hr by done. assert (scan (reported false) (replicate m zero_entry) = None) as ->; [|done].
  destruct m; [done|]. cbn [replicate scan]. by change (ent_byte zero_entry DIR_Name =? 0) with true.
Qed.

Lemma dots_unlisted ty cl pcl n : 2 <= n -> listed (dots ty cl pcl n) = [].
Proof.
  intros Hn. pose proof (dots_unused ty cl pcl n Hn) as H. unfold in_use in H. pose proof (listed_scan (dots ty cl pcl n)) as Hl.
  by destruct (scan (reported false) (dots ty cl pcl n)).
Qed.
