(* ===== verification/Rename.v ===== *)
(** * Renaming files

    [rename_vol], the body of [f_rename]: the entry gets a second place, under
    the new name and in the directory of the new path, and then the old one is
    marked as removed.  This file treats the two steps, and files; directories,
    whose ".." entry is updated in between, are left to [Move]. *)

From stdpp Require Import base numbers list option gmap.
From Stdlib Require Import ZArith Lia.
From Stdlib Require Import Strings.Byte.
From S2P Require Import Prelude Types Bytes Diskio Window Fat Chain Live Dir Path Mount File DirApi Content Writing Seeking Refine Listing Entries Tree Persist Change Unlink Readdir Text Create.

(** ** The entry under its new name *)

Definition moved_attr (e : list byte) : Z := if is_dir e then ent_byte e DIR_Attr else Z.lor (ent_byte e DIR_Attr) AM_ARC.
Definition moved (fn e : list byte) : list byte :=
  put_field (put_field (fresh fn) 13 (drop 13 e)) DIR_Attr [mkb (moved_attr e)].

Record same_file (ty : Z) (e e' : list byte) : Prop := mk_same_file {
  sf_clust : ent_clust ty e' = ent_clust ty e;
  sf_size : ent_dword e' DIR_FileSize = ent_dword e DIR_FileSize;
  sf_attr : ent_byte e' DIR_Attr = moved_attr e
}.

Lemma slice_rest (e : list byte) o : 0 <= o <= len e -> slice e o (len e - o) = Some (drop (Z.to_nat o) e).
Proof.
  intros Ho. unfold slice. rewrite (proj2 (Z.leb_le 0 o)), (proj2 (Z.leb_le 0 (len e - o))), (proj2 (Z.leb_le (o + _) _)) by lia. cbn [andb].
  f_equal. apply take_ge. rewrite length_drop. unfold len in *. lia.
Qed.

Lemma moved_attr_range e : 0 <= moved_attr e < 256.
Proof.
  assert (0 <= ent_byte e DIR_Attr < 256) as H by (unfold ent_byte; destruct (at_ e DIR_Attr); [apply bval_range|lia]).
  unfold moved_attr. destruct (is_dir e); [done|]. by apply lor_u8.
Qed.

Lemma moved_facts ty fn e : len fn = 11 -> len e = SZDIRE -> slice (moved fn e) 0 11 = Some fn /\ same_file ty e (moved fn e).
Proof.
  intros Hl He. pose proof (fresh_len fn Hl) as Lf. unfold moved. set (e1 := put_field (fresh fn) _ _).
  assert (len (drop 13 e) = 19) as Ld by (unfold len in *; rewrite length_drop; unfold SZDIRE in He; lia).
  assert (len e1 = SZDIRE) as L1 by (unfold e1; by rewrite len_put_field).
  assert (forall o n, 13 <= o -> 0 <= n -> o + n <= SZDIRE -> slice (put_field e1 DIR_Attr [mkb (moved_attr e)]) o n = slice e o n) as Hsl.
  { intros o n H1 H2 H3. rewrite slice_put_other by (unfold_consts; change (len [_]) with 1; lia). unfold e1.
    assert (slice (put_field (fresh fn) 13 (drop 13 e)) 13 19 = Some (drop 13 e)) as H13 by (by apply slice_put_same).
    replace o with (13 + (o - 13)) by lia. rewrite <- (slice_slice _ _ _ _ (o - 13) n H13) by (unfold SZDIRE in H3; lia).
    assert (slice e 13 19 = Some (drop 13 e)) as He13.
    { replace 19 with (len e - 13) by (unfold SZDIRE in He; lia). apply slice_rest. unfold SZDIRE in He. lia. }
    rewrite <- (slice_slice _ _ _ _ (o - 13) n He13) by (unfold SZDIRE in H3; lia). done. }
  split; [|split].
  - rewrite slice_put_other by (unfold_consts; change (len [_]) with 1; lia). unfold e1. rewrite slice_put_other by lia.
    unfold fresh. by apply slice_app_l.
  - unfold ent_clust, ent_word. rewrite !ld_word_slice, !Hsl by (unfold_consts; lia). done.
  - unfold ent_dword. rewrite !ld_dword_slice, !Hsl by (unfold_consts; lia). done.
  - rewrite ent_byte_slice, slice_put_same by done. cbn. rewrite bval_mkb.
    apply Z.mod_small, moved_attr_range.
Qed.

Lemma moved_bit e b : Z.land AM_ARC b = 0 -> Z.land (moved_attr e) b = Z.land (ent_byte e DIR_Attr) b.
Proof. intros Hb. unfold moved_attr. destruct (is_dir e); [done|]. by rewrite Z.land_lor_distr_l, Hb, Z.lor_0_r. Qed.

Lemma is_dir_attr e : is_dir e = nz (Z.land (ent_byte e DIR_Attr) AM_DIR).
Proof. unfold is_dir, ent_attr. by rewrite <- Z.land_assoc. Qed.

Lemma same_file_dir ty e e' : same_file ty e e' -> is_dir e' = is_dir e.
Proof. intros Hsf. by rewrite !is_dir_attr, (sf_attr _ _ _ Hsf), moved_bit. Qed.

(** ** Names beside a removed entry *)

Lemma lookup_beside fn es k e j :
  lookup_name fn es = Some j -> j <> k -> es !! k = Some e -> ent_byte fn DIR_Name <> DDEM ->
  lookup_name fn (<[k := removed e]> es) = Some j.
Proof.
  intros Hj Hne He Hd. assert (ent_is fn (removed e) = false) as Hr.
  { unfold ent_is. apply andb_false_intro2, bool_decide_eq_false. intros Hs. apply Hd. unfold ent_byte.
    change (at_ fn DIR_Name) with (at_ fn 0). by rewrite (at_slice _ _ _ _ 0 Hs). }
  unfold lookup_name in *. revert k j Hj Hne He. induction es as [|x es IH]; intros k j Hj Hne He; [done|]. cbn [scan] in Hj.
  destruct (ent_byte x DIR_Name =? 0) eqn:Ex; [done|]. destruct k as [|k].
  - injection He as ->. change (<[0%nat := removed e]> (e :: es)) with (removed e :: es). cbn [scan].
    change (ent_byte (removed e) DIR_Name =? 0) with false. cbv iota. rewrite Hr. destruct (ent_is fn e); [by injection Hj as <-|done].
  - change (<[S k := removed e]> (x :: es)) with (x :: <[k := removed e]> es). cbn [scan]. rewrite Ex. destruct (ent_is fn x); [done|].
    destruct (scan (ent_is fn) es) as [i|]; [|done]. injection Hj as <-. by rewrite (IH k i) by (done || lia).
Qed.

(** A path to another entry leads there still. *)
Lemma walk_beside ty T sc sp es k e names s sc2 k2 :
  T !! sc = Some (sp, es) -> es !! k = Some e -> nz (Z.land (ent_attr e) AM_DIR) = false -> sc2 <> sc \/ k2 <> k ->
  Forall (fun fn => ent_byte fn DIR_Name <> DDEM) names -> walk ty T s names = Some (Found sc2 k2) ->
  walk ty (tree_set T sc sp es k (removed e)) s names = Some (Found sc2 k2).
Proof.
  intros HT He Hnd Hoth Hdd. revert s. induction Hdd as [|fn rest Hd Hdd IH]; intros s; [done|]. cbn [walk]. unfold tree_set in *.
  destruct (Z.eq_dec s sc) as [->|Hne].
  - rewrite lookup_insert_eq, HT. cbn. destruct (lookup_name fn es) as [j|] eqn:Ej; [|by destruct rest]. destruct rest as [|fn2 rest].
    + intros [= -> ->]. by rewrite (lookup_beside fn es k e k2) by (done || by destruct Hoth).
    + destruct (decide (j = k)) as [->|Hj]; [rewrite He; cbn; by rewrite Hnd|]. rewrite (lookup_beside fn es k e j) by done.
      rewrite list_lookup_insert_ne by done. destruct (es !! j) as [x|]; [|done]. cbn. destruct (nz (Z.land (ent_attr x) AM_DIR)); [apply IH|done].
  - rewrite lookup_insert_ne by done. destruct (T !! s) as [[sp2 es2]|]; [|done]. cbn. destruct (lookup_name fn es2) as [j|], rest; try done.
    destruct (es2 !! j) as [x|]; [|done]. cbn. destruct (nz (Z.land (ent_attr x) AM_DIR)); [apply IH|done].
Qed.

Section rename.
Context {Pf : Platform} {D : Type} `{!DiskIO D} `{!DiskIOLaws D} (G : Z -> Prop).
Context (Hun : len (dp_fn uninit_dir) = 12).
Context (v0 : vol D) (T : tree) (Hs : sound G v0) (HT : tree_in G v0 T) (Hta : tree_apart (vfs v0) T) (Hfsi : fsi_apart G (vfs v0)).
Abbreviation ty := (fs_type (vfs v0)).

(** The entries of a directory stay where they are when it grows. *)
Lemma room_pos sc sp es v1 sp1 es1 k s d :
  dir_space G v0 sc sp -> dir_holds v0 sp es -> room G v0 sc sp es v1 sp1 es1 -> ent_pos v0 sp k s d -> ent_pos v1 sp1 k s d.
Proof using Hs.
  intros Hsp Hes Hroom [P1 P2 P3]. destruct (room_ok G v0 sc sp Hs Hsp es Hes v1 sp1 es1 Hroom) as (_ & _ & [Hl1 _] & Hg). split; [|rewrite (dsect_geom _ _ _ _ Hg)|done].
  - rewrite <- Hl1. pose proof (proj1 Hes) as Hl. destruct Hroom; [lia|]. rewrite len_app. pose proof (len_nonneg (replicate (Z.to_nat (csize (vfs v0) * 16)) zero_entry)). lia.
  - destruct Hroom as [|cs x v1 Esp _ _]; [done|]. rewrite Esp in P2. cbn in *. unfold fsect in *.
    destruct (cs !! Z.to_nat (Z.of_nat k * SZDIRE / bcs (vfs v0))) as [c|] eqn:E; [|done]. by rewrite (lookup_app_l_Some _ _ _ _ E).
Qed.

(** ** The new entry *)

Lemma rename_copy_spec djo djn e sc2 sp2 es2 fn v (Q : FRESULT -> vol D -> Prop) :
  calm G v0 v -> len e = SZDIRE -> T !! sc2 = Some (sp2, es2) ->
  obj_sclust (dp_obj djn) = sc2 -> slice (dp_fn djn) 0 11 = Some fn -> len fn = 11 ->
  (forall v', no_room G v0 sp2 es2 v' -> Q FR_DENIED v') ->
  (forall va sp1 es1 k s d v', room G v0 sc2 sp2 es2 va sp1 es1 -> first_free es1 = Some k -> ent_pos va sp1 k s d ->
     rewritten G va sc2 sp1 es1 k s d (moved fn e) v' ->
     wp (if is_dir e && negb (obj_sclust (dp_obj djo) =? sc2) then update_dotdot d sc2 else ret FR_OK) Q v') ->
  wp (rename_register djo djn e) Q v.
Proof using Pf Hs HT.
  intros Hc Hle HTs Hsc Hfn Hl Hden HQ. destruct (HT _ _ _ HTs) as [Hsp Hes]. unfold rename_register. apply wp_bind.
  eapply wp_mono; [by apply (dir_register_spec G v0 sc2 sp2 Hs Hsp es2 Hes djn fn v)|]. intros [r dj] v1 [Hsd Hreg]. cbn [fst snd] in *.
  destruct Hreg as [[-> Hno]|(-> & va & sp1 & es1 & k & Hroom & Hff & Hat & Hrw)].
  { change (negb (FR_DENIED =r FR_OK)) with true. cbv iota. apply wp_ret. by apply Hden. }
  change (negb (FR_OK =r FR_OK)) with false. cbv iota zeta. pose proof (rw_entry _ _ _ _ _ _ _ _ _ _ Hrw) as Hon.
  pose proof (rw_sound _ _ _ _ _ _ _ _ _ _ Hrw) as Hs1. pose proof (fresh_len fn Hl) as Lf. pose proof (dir_at_pos _ _ _ _ Hat) as Hep.
  assert (len (drop 13 e) = 19) as Ld by (unfold len in *; rewrite length_drop; unfold SZDIRE in Hle; lia).
  apply wp_bind. eapply wp_chk; [change (SZDIRE - 13) with 19; replace 19 with (len e - 13) by (unfold SZDIRE in Hle; lia); apply slice_rest; unfold SZDIRE in Hle; lia|].
  change (Z.to_nat 13) with 13%nat. apply wp_bind. unfold win_splice.
  eapply wp_edit; [apply editing_start; [apply Hs1|apply Hon]|apply put_field_splice; [done|done|rewrite Ld; done]|]. intros v2 Hd2.
  destruct (at_is_Some e DIR_Attr) as [b Hb]; [rewrite Hle; done|]. apply wp_bind. eapply wp_chk; [exact Hb|].
  assert (bval b = ent_byte e DIR_Attr) as Eb by (unfold ent_byte; by rewrite Hb). rewrite Eb.
  assert ((if negb (nz (Z.land (ent_byte e DIR_Attr) AM_DIR)) then Z.lor (ent_byte e DIR_Attr) AM_ARC else ent_byte e DIR_Attr) = moved_attr e) as ->.
  { unfold moved_attr. rewrite is_dir_attr. by destruct (nz _). }
  apply wp_bind. eapply wp_edit_byte; [exact Hd2|apply put_field_splice; [by rewrite len_put_field|done|done]|]. intros v3 Hd3. fold (moved fn e) in Hd3.
  apply wp_bind. eapply wp_edit_flag; [exact Hd3|]. intros v4 Hd4 Hf4.
  rewrite moved_bit, <- is_dir_attr by done. destruct Hsd as (_ & _ & _ & ->). rewrite Hsc.
  apply (HQ va sp1 es1 k (dp_sect dj) (dp_dir dj) v4); [done|done|done|]. eapply rewritten_trans; [exact Hrw|].
  apply (rewrite_entry G v1 sc2 sp1 Hs1 (rw_space _ _ _ _ _ _ _ _ _ _ Hrw) _ (rw_holds _ _ _ _ _ _ _ _ _ _ Hrw) k _ _ (fresh fn) _ v1 v4); try done.
  apply (ent_pos_geom va); [apply Hrw|done].
Qed.

(** ** The old entry *)

Context (sc : Z) (sp : dspace) (es : list (list byte)) (k : nat) (e : list byte).
Context (HTs : T !! sc = Some (sp, es)) (He : es !! k = Some e).

(** What an entry that a path leads to is. *)
Lemma found_entry p path : leads v0 T p path (Found sc k) -> ent_free e = false /\ nz (Z.land (ent_byte e DIR_Attr) AM_VOL) = false.
Proof using HTs He.
  intros (_ & j & names & _ & Hn & Hw). pose proof (path_names_ddem _ _ _ Hn) as Hdd. clear j Hn.
  assert (forall s names, Forall (fun fn => ent_byte fn DIR_Name <> DDEM) names -> walk ty T s names = Some (Found sc k) ->
    exists fn, ent_byte fn DIR_Name <> DDEM /\ lookup_name fn es = Some k) as Hx.
  { clear names Hw Hdd. intros s names Hdd. revert s. induction Hdd as [|fn rest Hd Hdd IH]; intros s; [done|]. cbn [walk]. destruct (T !! s) as [[sp1 es1]|] eqn:E; [|done].
    cbn. destruct (lookup_name fn es1) as [j|] eqn:Ej, rest as [|fn2 rest]; try done.
    - intros [= -> ->]. rewrite HTs in E. injection E as <- <-. by exists fn.
    - destruct (es1 !! j) as [x|]; [|done]. cbn. destruct (nz (Z.land (ent_attr x) AM_DIR)); [apply IH|done]. }
  destruct (Hx 0 names Hdd Hw) as (fn & Hd & Hk). destruct (scan_some _ _ _ Hk) as (e' & He' & His & Hz). rewrite He in He'. injection He' as <-.
  unfold ent_is in His. apply andb_true_iff in His as [Hv%negb_true_iff Hn%bool_decide_eq_true]. split; [|done]. unfold ent_free.
  assert (ent_byte e DIR_Name = ent_byte fn DIR_Name) as E by (unfold ent_byte; change (at_ fn DIR_Name) with (at_ fn 0); by rewrite (at_slice _ _ _ _ 0 Hn)).
  apply orb_false_intro; apply Z.eqb_neq; congruence.
Qed.

(** The file has a new entry [e2], number [k2] of the directory [sc2], and the
    old one, in sector [s0], is gone. *)
Record renamed (pn : list byte) (path_new sc2 : Z) (sp2 : dspace) (s0 : Z) (T' : tree) (k2 : nat) (e2 : list byte) v : Prop := mk_renamed {
  rn_changed : changed G (grow_clst v0 sp2) (fun s => s = s0 \/ grow_sect v0 sp2 s) v0 v;
  rn_tree : tree_in G v T';
  rn_apart : tree_apart (vfs v) T';
  rn_leads : leads v T' pn path_new (Found sc2 k2);
  rn_new : exists sp' es', T' !! sc2 = Some (sp', es') /\ es' !! k2 = Some e2;
  rn_gone : exists sp' es', T' !! sc = Some (sp', es') /\ es' !! k = Some (removed e);
  rn_dirs : forall c, c <> sc -> c <> sc2 -> T' !! c = T !! c;
  rn_same : same_file ty e e2
}.

(** A table of the same directory with other entries. *)
Lemma apart_set fs T1 c spc esc es' : T1 !! c = Some (spc, esc) -> tree_apart fs T1 -> tree_apart fs (<[c := (spc, es')]> T1).
Proof using Type.
  intros Hc Ha sc1 spa esa sc2 spb esb o1 o2 s A B. assert (forall c1 x y, <[c := (spc, es')]> T1 !! c1 = Some (x, y) -> exists z, T1 !! c1 = Some (x, z)) as Hf.
  { intros c1 x y. destruct (Z.eq_dec c1 c) as [->|Hne]; [rewrite lookup_insert_eq; intros [= <- <-]; eauto|rewrite lookup_insert_ne by done; eauto]. }
  apply Hf in A as [? A]. apply Hf in B as [? B]. by apply (Ha _ _ _ _ _ _ o1 o2 s A B).
Qed.

(** The entry is in its place in the tree with the new entry. *)
Lemma old_place sc2 sp2 es2 va sp1 es1 k2 e2 s d :
  T !! sc2 = Some (sp2, es2) -> room G v0 sc2 sp2 es2 va sp1 es1 -> first_free es1 = Some k2 -> ent_free e = false -> ent_pos v0 sp k s d ->
  (sc2 <> sc \/ k2 <> k) /\ exists sp' es', <[sc2 := (sp1, <[k2 := e2]> es1)]> T !! sc = Some (sp', es') /\ es' !! k = Some e /\ ent_pos va sp' k s d.
Proof using Hs HT HTs He.
  intros HT2 Hroom Hff Hfr Hep. destruct (HT _ _ _ HT2) as [Hsp2 Hes2]. destruct (first_free_some _ _ Hff) as (e0 & He0 & Hfr0 & _).
  destruct (Z.eq_dec sc2 sc) as [->|Hne].
  - rewrite HTs in HT2. injection HT2 as <- <-. assert (es1 !! k = Some e) as He1 by (destruct Hroom; [done|by apply lookup_app_l_Some]).
    assert (k2 <> k) as Hk by (intros ->; rewrite He0 in He1; injection He1 as ->; by rewrite Hfr in Hfr0). split; [by right|]. exists sp1, (<[k2 := e2]> es1). split; [by rewrite lookup_insert_eq|].
    split; [by rewrite list_lookup_insert_ne|]. by apply (room_pos sc sp es va sp1 es1).
  - split; [by left|]. exists sp, es. split; [by rewrite lookup_insert_ne|]. split; [done|]. apply (ent_pos_geom v0); [|done].
    by destruct (room_ok G v0 sc2 sp2 Hs Hsp2 es2 Hes2 va sp1 es1 Hroom) as (_ & _ & _ & ?).
Qed.

(** The entry is marked in the tree [Tn] of a later state, and the volume is
    flushed. *)
Lemma remove_entry Tn sp' (es' : list (list byte)) djo (v : vol D) :
  sound G v -> geom (vfs v) = geom (vfs v0) -> tree_in G v Tn -> tree_apart (vfs v) Tn -> Tn !! sc = Some (sp', es') -> es' !! k = Some e ->
  ent_pos v sp' k (dp_sect djo) (dp_dir djo) ->
  wp (res <- dir_remove djo ;; if res =r FR_OK then sync_fs else ret res) (fun r v' => r = FR_OK /\
    changed G (fun _ => False) (eq (dp_sect djo)) v v' /\ tree_in G v' (tree_set Tn sc sp' es' k (removed e)) /\
    tree_apart (vfs v') (tree_set Tn sc sp' es' k (removed e))) v.
Proof using Hfsi.
  intros Hsv Hg HTn Htan HTs' He' Hepv. destruct (HTn _ _ _ HTs') as [Hsp' Hes'].
  apply wp_bind. eapply wp_mono; [apply (dir_remove_spec G v sc sp' Hsv Hsp' es' Hes' djo k v); [by apply calm_start|done]|].
  intros r v1 (-> & e' & Ee & Hrw1). rewrite He' in Ee. injection Ee as <-. change (FR_OK =r FR_OK) with true. cbv iota.
  pose proof (rw_sound _ _ _ _ _ _ _ _ _ _ Hrw1) as Hs1. pose proof (rw_geom _ _ _ _ _ _ _ _ _ _ Hrw1) as Hg1.
  eapply wp_mono; [apply (sync_fs_spec G v1 Hs1)|].
  { unfold fsi_apart in *. pose proof (eq_trans Hg1 Hg) as (->&_&_&_&_&_&_&_&->&->&_)%geom_fields. done. }
  intros r v2 [-> Hy]. split; [done|].
  pose proof (rewritten_tree G v Tn Hsv HTn Htan sc sp' es' k HTs' (removed e) _ _ v1 Hrw1 Hepv) as HT1. pose proof (sy_geom _ _ _ Hy) as Hg3.
  split; [|split].
  - eapply changed_trans; [by eapply rewritten_changed|by apply synced_changed].
  - intros c spc esc Hc. destruct (HT1 _ _ _ Hc). by eapply synced_holds.
  - unfold tree_set. eapply apart_set; [exact HTs'|]. intros sc1 spa esa sc3 spb esb o1 o2 x. rewrite !(dsect_geom _ _ _ _ (eq_trans Hg3 Hg1)). apply Htan.
Qed.

(** ** [rename_vol] *)

(** The rest of the code after the entry has been copied: the ".." entry of a
    directory that gets another parent, and the old entry. *)
Definition rename_rest (djo : DIR) (d sc2 : Z) (Q : vol D -> Prop) : vol D -> Prop :=
  wp (if is_dir e && negb (obj_sclust (dp_obj djo) =? sc2) then update_dotdot d sc2 else ret FR_OK) (fun r =>
    wp (if r =r FR_OK then res <- dir_remove djo ;; if res =r FR_OK then sync_fs else ret res else ret r) (fun r v' => r = FR_OK /\ Q v')).

(** What it answers and leaves, by where the new path leads; [Q] tells what
    has been done when there was room for the name. *)
Definition rename_cases (Q : Z -> list byte -> dspace -> vol D -> Prop) (x : verdict) (r : FRESULT) v : Prop :=
  match x with
  | Found _ _ => r = FR_EXIST /\ calm G v0 v
  | NoPath => r = FR_NO_PATH /\ calm G v0 v
  | Missing sc2 fn => exists sp2 es2, T !! sc2 = Some (sp2, es2) /\ ((r = FR_DENIED /\ no_room G v0 sp2 es2 v) \/ (r = FR_OK /\ Q sc2 fn sp2 v))
  end.

(** The new entry of a file or directory. *)
Record copied (sc2 : Z) (fn : list byte) (sp2 : dspace) (es2 : list (list byte)) (djo : DIR) (va : vol D) (sp1 : dspace) (es1 : list (list byte)) (k2 : nat) (s d : Z) v : Prop := mk_copied {
  cp_dir : T !! sc2 = Some (sp2, es2);
  cp_name : len fn = 11;
  cp_len : len e = SZDIRE;
  cp_used : ent_free e = false;
  cp_label : nz (Z.land (ent_byte e DIR_Attr) AM_VOL) = false;
  cp_old : obj_sclust (dp_obj djo) = sc /\ ent_pos v0 sp k (dp_sect djo) (dp_dir djo);
  cp_room : room G v0 sc2 sp2 es2 va sp1 es1;
  cp_free : first_free es1 = Some k2;
  cp_pos : ent_pos va sp1 k2 s d;
  cp_entry : rewritten G va sc2 sp1 es1 k2 s d (moved fn e) v
}.

Lemma rename_vol_cases vp po path_old pn path_new x (Q : Z -> list byte -> dspace -> vol D -> Prop) :
  leads v0 T po path_old (Found sc k) -> leads v0 T pn path_new x -> x <> Found sc k ->
  (forall sc2 fn sp2 es2 djo va sp1 es1 k2 s d v, x = Missing sc2 fn -> copied sc2 fn sp2 es2 djo va sp1 es1 k2 s d v -> rename_rest djo d sc2 (Q sc2 fn sp2) v) ->
  wp (rename_vol vp po path_old (Some pn) path_new) (rename_cases Q x) v0.
Proof using Hun Hs HT HTs He.
  intros Hlo Hle Hx HQ. destruct (found_entry _ _ Hlo) as [Hfr Hvl]. pose proof Hle as (Hp & j & names & Hsk & Hn & Hw).
  unfold rename_vol. apply wp_bind.
  eapply wp_mono; [by apply (follow_found G v0 T Hs HT (set_dp_fs (Some vp) uninit_dir) po path_old sc k sp es e v0); [apply calm_start|..]|].
  intros [r djo] v1 (Hr & Hl & _). cbn [fst snd] in *. subst r. eapply located_flag; [exact Hl|]. cbv zeta.
  change ((FR_OK =r FR_OK) && nz (Z.land NS_LAST (Z.lor NS_DOT NS_NONAME))) with false. cbv iota. change (negb (FR_OK =r FR_OK)) with false. cbv iota.
  pose proof Hl as [Hc1 Hat1 Hon1 _ Hsc1 (fno & Hfno & Lfno)]. pose proof (on_entry_len _ _ _ _ _ _ Hon1) as Hlen.
  apply wp_bind. unfold win_slice. apply wp_bind, wp_get_fs. eapply wp_chk; [apply Hon1|]. apply wp_bind. eapply wp_chk; [done|]. apply wp_bind.
  eapply wp_mono; [eapply (follow_path_spec G v0 T Hs HT djo pn path_new j names x v1 Hc1); try done|].
  { rewrite Hfno, len_app, Lfno. done. }
  intros [r djn] v2 [_ H]. cbn [fst snd] in *. unfold rename_cases. destruct x as [sc' k'|sc2 fn|].
  - destruct H as (-> & Hsc2 & _ & sp' & es' & _ & Hst). change (FR_OK =r FR_OK) with true. cbv iota.
    assert ((obj_sclust (dp_obj djn) =? obj_sclust (dp_obj djo)) && (dp_dptr djn =? dp_dptr djo) = false) as ->.
    { rewrite Hsc1, Hsc2. destruct Hst as [Hat2 _]. rewrite (da_dptr _ _ _ _ Hat1), (da_dptr _ _ _ _ Hat2).
      destruct (Z.eqb_spec sc' sc) as [->|]; [|done]. cbn [andb]. apply Z.eqb_neq. intros E. apply Hx. f_equal. unfold SZDIRE in E. lia. }
    change (FR_EXIST =r FR_NO_FILE) with false. cbv iota. apply wp_bind, wp_ret. change (FR_EXIST =r FR_OK) with false. cbv iota. apply wp_ret.
    split; [done|]. by eapply stands_calm.
  - destruct H as (-> & Hc2 & Hsc2 & Hfn & Lfn). change (FR_NO_FILE =r FR_OK) with false. cbv iota. change (FR_NO_FILE =r FR_NO_FILE) with true. cbv iota.
    destruct (walk_missing _ _ _ _ _ _ Hw) as (_ & sp2 & es2 & HT2 & _). apply wp_bind.
    apply (rename_copy_spec djo djn e sc2 sp2 es2 fn v2); try done; [rewrite Hfn; by apply slice_app_l|..].
    + intros v3 Hno. change (FR_DENIED =r FR_OK) with false. cbv iota. apply wp_ret. exists sp2, es2. split; [done|]. by left.
    + intros va sp1 es1 k2 s d v3 Hroom Hff Hep Hrw.
      assert (copied sc2 fn sp2 es2 djo va sp1 es1 k2 s d v3) as Hcp by (split; try done; split; [done|by apply (dir_at_pos _ _ _ _ Hat1)]).
      eapply wp_mono; [exact (HQ _ _ _ _ _ _ _ _ _ _ _ _ eq_refl Hcp)|]. intros r v4 H4. eapply wp_mono; [exact H4|].
      intros r' v5 [-> H5]. exists sp2, es2. split; [done|]. by right.
  - destruct H as (-> & Hc2). change (FR_NO_PATH =r FR_OK) with false. cbv iota. change (FR_NO_PATH =r FR_NO_FILE) with false. cbv iota.
    apply wp_bind, wp_ret. change (FR_NO_PATH =r FR_OK) with false. cbv iota. by apply wp_ret.
Qed.

(** In the world. *)
Lemma f_rename_cases w vp po rpo pn nd rpn x (Q : Z -> list byte -> dspace -> vol D -> Prop) :
  drive_ready (D := D) true -> drive_writable (D := D) -> hosts w vp v0 -> at_ (FatFs w) 0 = Some (Some vp) ->
  (forall s : world D, get_ldnumber (Some po) s = Done ((0, rpo), s)) -> (forall s : world D, get_ldnumber (Some pn) s = Done ((nd, rpn), s)) ->
  (forall r v', rename_cases Q x r v' -> geom (vfs v') = geom (vfs v0)) ->
  wp (rename_vol vp po rpo (Some pn) rpn) (rename_cases Q x) v0 ->
  wp (f_rename (Some po) (Some pn)) (fun r w' => FatFs w' = FatFs w /\ exists v', hosts w' vp v' /\ rename_cases Q x r v') w.
Proof using Hs.
  intros Hrdy Hwr Hh Hreg Hldo Hldn Hg Hrun. unfold f_rename. apply wp_bind. eapply wp_of_run; [apply Hldn|]. cbv beta iota.
  eapply mount_volume_hosts; [done|exact Hh|exact Hreg|apply (so_ok _ _ Hs)|exact Hldo|by right|].
  change (FR_OK =r FR_OK) with true. cbv iota. eapply wp_at_volume; [exact Hh|].
  eapply wp_mono; [exact Hrun|]. intros r v' H. split; [by eapply Hg|intros w' Hh' Ht; split; [done|by exists v']].
Qed.

Lemma rename_cases_geom Q x r v :
  (forall sc2 fn sp2 v', Q sc2 fn sp2 v' -> geom (vfs v') = geom (vfs v0)) -> rename_cases Q x r v -> geom (vfs v) = geom (vfs v0).
Proof using Type.
  intros HQ H. destruct x as [sc' k'|sc2 fn|]; cbn in H; [by destruct H as [_ ?%calm_geom]| |by destruct H as [_ ?%calm_geom]].
  destruct H as (sp2 & es2 & _ & [[_ (_ & [] & _)]|(_ & H)]); [done|by eapply HQ].
Qed.

(** ** Files *)

Context (Hnd : is_dir e = false).

Lemma remove_old pn path_new sc2 sp2 es2 fn djo va sp1 es1 k2 s d v :
  leads v0 T pn path_new (Missing sc2 fn) -> copied sc2 fn sp2 es2 djo va sp1 es1 k2 s d v ->
  wp (res <- dir_remove djo ;; if res =r FR_OK then sync_fs else ret res) (fun r v' => r = FR_OK /\
    exists T', renamed pn path_new sc2 sp2 (dp_sect djo) T' k2 (moved fn e) v') v.
Proof using Hs HT Hta Hfsi HTs He Hnd.
  intros Hle [HT2 Hl Hlen Hfr Hvl [_ Hep] Hroom Hff Hepn Hrw]. destruct (moved_facts ty fn e Hl Hlen) as [Hnm Hsf].
  assert (nz (Z.land (ent_byte (moved fn e) DIR_Attr) AM_VOL) = false) as Hvl2 by (by rewrite (sf_attr _ _ _ Hsf), moved_bit).
  destruct (entered G v0 T Hs HT Hta sc2 sp2 es2 HT2 pn path_new fn va sp1 es1 k2 s d (moved fn e) v Hle Hl Hroom Hff Hepn Hnm Hvl2
    (rewritten_changed G _ _ _ _ _ _ _ _ _ _ _ Hrw eq_refl) (rw_space _ _ _ _ _ _ _ _ _ _ Hrw) (rw_holds _ _ _ _ _ _ _ _ _ _ Hrw)) as (Hc2 & Hle2 & HTn & Htan & Hk2).
  destruct (old_place sc2 sp2 es2 va sp1 es1 k2 (moved fn e) _ _ HT2 Hroom Hff Hfr Hep) as (Hoth & sp' & es' & HTs' & He' & Hep').
  set (T2 := <[sc2 := _]> T) in *. pose proof (rw_sound _ _ _ _ _ _ _ _ _ _ Hrw) as Hsv. pose proof (cg_geom _ _ _ _ _ Hc2) as Hg2.
  eapply wp_mono; [apply (remove_entry T2 sp' es' djo v Hsv Hg2 HTn Htan HTs' He'); apply (ent_pos_geom va); [apply Hrw|done]|].
  intros r v2 (-> & Hc3 & HT3 & Ha3). split; [done|]. exists (tree_set T2 sc sp' es' k (removed e)). pose proof (cg_geom _ _ _ _ _ Hc3) as Hg3. split.
  - eapply changed_trans; [eapply changed_weaken; [exact Hc2|done|by right]|eapply changed_weaken; [exact Hc3|done|intros x <-; by left]].
  - done.
  - done.
  - destruct Hle2 as (Hp & j & names & Hsk & Hn & Hw). split; [done|]. exists j, names. split; [done|]. split; [done|].
    assert (fs_type (vfs v2) = fs_type (vfs v)) as -> by (by pose proof Hg3 as [-> _]%geom_fields).
    eapply walk_beside; [exact HTs'|exact He'|exact Hnd|done|by eapply path_names_ddem|done].
  - unfold tree_set. destruct (Z.eq_dec sc2 sc) as [Esc|Hne].
    + rewrite <- Esc in HTs'. unfold T2 in HTs'. rewrite lookup_insert_eq in HTs'. injection HTs' as <- <-. rewrite <- Esc, lookup_insert_eq.
      eexists _, _. split; [done|]. rewrite list_lookup_insert_ne by (by destruct Hoth as [?|?]; congruence). done.
    + rewrite lookup_insert_ne by done. unfold T2. rewrite lookup_insert_eq. eauto.
  - unfold tree_set. rewrite lookup_insert_eq. eexists _, _. split; [done|]. apply list_lookup_insert_eq. by eapply lookup_lt_Some.
  - intros c H1 H2. unfold tree_set, T2. by rewrite !lookup_insert_ne.
  - done.
Qed.

(** What [f_rename] of a file answers and leaves. *)
Definition rename_post (pn : list byte) (path_new : Z) : verdict -> FRESULT -> vol D -> Prop :=
  rename_cases (fun sc2 fn sp2 v => exists s0 d0 T' k2, ent_pos v0 sp k s0 d0 /\ renamed pn path_new sc2 sp2 s0 T' k2 (moved fn e) v).

Lemma f_rename_file w vp po rpo pn nd rpn x :
  drive_ready (D := D) true -> drive_writable (D := D) -> hosts w vp v0 -> at_ (FatFs w) 0 = Some (Some vp) ->
  (forall s : world D, get_ldnumber (Some po) s = Done ((0, rpo), s)) -> (forall s : world D, get_ldnumber (Some pn) s = Done ((nd, rpn), s)) ->
  leads v0 T po rpo (Found sc k) -> leads v0 T pn rpn x -> x <> Found sc k ->
  wp (f_rename (Some po) (Some pn)) (fun r w' => FatFs w' = FatFs w /\ exists v', hosts w' vp v' /\ rename_post pn rpn x r v') w.
Proof using All.
  intros Hrdy Hwr Hh Hreg Hldo Hldn Hlo Hle Hx. apply (f_rename_cases w vp po rpo pn nd rpn x); try done.
  { intros r v'. apply rename_cases_geom. by intros sc2 fn sp2 v1 (s0 & d0 & T' & k2 & _ & [[] _ _ _ _ _ _ _]). }
  apply rename_vol_cases; [done|done|done|]. intros sc2 fn sp2 es2 djo va sp1 es1 k2 s d v -> Hcp. unfold rename_rest. rewrite Hnd. cbn [andb].
  apply wp_ret. change (FR_OK =r FR_OK) with true. cbv iota. eapply wp_mono; [by apply (remove_old pn rpn sc2 sp2 es2 fn djo va sp1 es1 k2 s d v)|].
  intros r v4 (-> & T' & Hrn). split; [done|]. exists (dp_sect djo), (dp_dir djo), T', k2. split; [apply Hcp|done].
Qed.

End rename.
