(* ===== verification/Move.v ===== *)
(** * Renaming directories

    A directory keeps its clusters when it is renamed.  If it gets another
    parent, its ".." entry, which is in its first sector, is made to point
    there.  The new path must not lead through the directory itself, which
    [f_rename] does not check. *)

From stdpp Require Import base numbers list option gmap.
From Stdlib Require Import ZArith Lia.
From Stdlib Require Import Strings.Byte.
From S2P Require Import Prelude Types Bytes Diskio Window Fat Chain Live Dir Path Mount File DirApi Content Writing Seeking Refine Listing Entries Tree Persist Change Unlink Readdir Text Create Rename.

(** ** The entries of a directory with a new parent *)

Definition rehomed (ty pcl : Z) (es : list (list byte)) : list (list byte) :=
  match es !! 1%nat with
  | Some e => if ent_byte e 1 =? 0x2E then <[1%nat := set_clust ty pcl e]> es else es
  | None => es
  end.

Lemma set_clust_byte ty cl e o : 0 <= o < DIR_FstClusHI -> ent_byte (set_clust ty cl e) o = ent_byte e o.
Proof. intros Ho. rewrite !ent_byte_slice, slice_set_clust; [done|]. revert Ho. unfold_consts. lia. Qed.

Lemma set_clust_is ty cl e fn : ent_is fn (set_clust ty cl e) = ent_is fn e.
Proof. unfold ent_is. rewrite slice_set_clust, set_clust_byte by (unfold_consts; lia). done. Qed.

(** It lists the same entries: ".." is not among them. *)
Lemma listed_rehomed ty pcl es e : es !! 1%nat = Some e -> ent_byte e DIR_Name = 0x2E -> listed (rehomed ty pcl es) = listed es.
Proof.
  intros He Hd. unfold rehomed. rewrite He. destruct (ent_byte e 1 =? 0x2E); [|done].
  destruct es as [|x [|y es]]; [done|done|]. injection He as ->. cbn [insert list_insert listed].
  assert (forall z, ent_byte z DIR_Name = 0x2E -> reported false z = false) as Hr by (intros z Hz; unfold reported, read_match; by rewrite Hz).
  rewrite (Hr e Hd), (Hr (set_clust ty pcl e)), set_clust_byte by (by rewrite ?set_clust_byte by done). done.
Qed.

(** No name of a path has a dot. *)
Lemma path_names_dot {Pf : Platform} p i names : path_names p i names -> Forall (fun fn => ent_byte fn 1 <> 0x2E) names.
Proof.
  assert (forall n b, Forall (fun c => stored_char c = true) b -> Forall (fun x => bval x <> 0x2E) (pad n b)) as Hp.
  { intros n b Hb. unfold pad. apply Forall_app. split; [|apply Forall_replicate; done]. apply Forall_map. eapply Forall_impl; [exact Hb|].
    intros c (H & H2 & _)%stored_char_facts. cbn. by rewrite mkb_bval_small by lia. }
  assert (forall l name, sfn_of (seg_of l) = Some name -> ent_byte (fix_ddem name) 1 <> 0x2E) as Hf.
  { intros l name Hn. destruct (sfn_of_fields l name Hn) as (b & e & -> & _ & _ & Hb & He). pose proof (Forall_app_2 _ _ _ (Hp 8 b Hb) (Hp 3 e He)) as Ha.
    destruct (pad 8 b ++ pad 3 e) as [|x [|y r]]; [done|done|]. by inversion_clear Ha as [|? ? _ Hy]; inversion_clear Hy. }
  induction 1; constructor; eauto.
Qed.

Lemma lookup_name_byte fn es k e o : lookup_name fn es = Some k -> es !! k = Some e -> 0 <= o < 11 -> ent_byte fn o = ent_byte e o.
Proof.
  intros Hk He Ho. destruct (scan_some _ _ _ Hk) as (e' & He' & His & _). rewrite He in He'. injection He' as <-.
  unfold ent_is in His. apply andb_true_iff in His as [_ Hn%bool_decide_eq_true]. unfold ent_byte.
  rewrite (at_slice _ _ _ _ o Hn). by rewrite (proj2 (Z.leb_le 0 o)), (proj2 (Z.ltb_lt o 11)) by lia.
Qed.

(** Paths lead where they led. *)
Lemma walk_rehomed ty pcl T c sp es names s :
  T !! c = Some (sp, es) -> Forall (fun fn => ent_byte fn 1 <> 0x2E) names ->
  walk ty (<[c := (sp, rehomed ty pcl es)]> T) s names = walk ty T s names.
Proof.
  intros Hc Hn. unfold rehomed. destruct (es !! 1%nat) as [e|] eqn:He; [|by rewrite insert_id]. destruct (Z.eqb_spec (ent_byte e 1) 0x2E) as [Hd|]; [|by rewrite insert_id].
  assert (forall fn, lookup_name fn (<[1%nat := set_clust ty pcl e]> es) = lookup_name fn es) as Hlk.
  { intros fn. unfold lookup_name. apply (scan_insert _ es 1 e); [done|apply set_clust_is|by rewrite set_clust_byte]. }
  revert s. induction Hn as [|fn rest Hfn Hn IH]; intros s; [done|]. cbn [walk]. destruct (Z.eq_dec s c) as [->|Hne].
  - rewrite lookup_insert_eq, Hc. cbn. rewrite Hlk. destruct (lookup_name fn es) as [j|] eqn:Ej; [|done]. destruct rest as [|fn2 rest]; [done|].
    assert (1%nat <> j) as Hj by (intros <-; apply Hfn; by rewrite (lookup_name_byte fn es 1 e 1)).
    rewrite list_lookup_insert_ne by done. destruct (es !! j) as [x|]; [|done]. cbn. destruct (nz _); [apply IH|done].
  - rewrite lookup_insert_ne by done. destruct (T !! s) as [[sp2 es2]|]; [|done]. cbn. destruct (lookup_name fn es2) as [j|]; [|done].
    destruct rest as [|fn2 rest]; [done|]. destruct (es2 !! j) as [x|]; [|done]. cbn. destruct (nz _); [apply IH|done].
Qed.

(** ** The path of the new entry

    The tree has a new entry [e2] of the name [fn] and the old entry is
    removed; the path that led to the missing [fn] without the old entry leads
    to the new one. *)
Lemma walk_moved ty T sc sp es k e sc2 sp2 es2 l sp1 k2 e0 e2 fn sp' es' names s :
  T !! sc = Some (sp, es) -> es !! k = Some e -> T !! sc2 = Some (sp2, es2) -> (es2 ++ l) !! k2 = Some e0 -> ent_free e0 = true -> sc2 <> sc \/ k2 <> k ->
  lookup_name fn (<[k2 := e2]> (es2 ++ l)) = Some k2 -> (forall fn', fn' <> fn -> ent_is fn' e2 = false) -> ent_byte e2 DIR_Name = ent_byte fn DIR_Name ->
  ent_byte fn DIR_Name <> 0 -> Forall (fun fn => ent_byte fn DIR_Name <> DDEM) names ->
  walk ty (tree_set T sc sp es k (removed e)) s names = Some (Missing sc2 fn) ->
  <[sc2 := (sp1, <[k2 := e2]> (es2 ++ l))]> T !! sc = Some (sp', es') ->
  walk ty (tree_set (<[sc2 := (sp1, <[k2 := e2]> (es2 ++ l))]> T) sc sp' es' k (removed e)) s names = Some (Found sc2 k2).
Proof.
  intros HT He HT2 He0 Hfr Hoth Hlk His Hfi Hnz Hdd Hw HT'. pose proof (proj1 (walk_missing _ _ _ _ _ _ Hw)) as Hin.
  pose proof (proj1 (list.Forall_forall _ _) Hdd fn Hin) as Hd. cbv beta in Hd.
  destruct (walk_missing _ _ _ _ _ _ Hw) as (_ & spx & esx & HTx & Hnox). unfold tree_set in *. destruct (Z.eq_dec sc2 sc) as [->|Hne].
  - rewrite HT in HT2. injection HT2 as <- <-. destruct Hoth as [?|Hk]; [done|]. rewrite lookup_insert_eq in HT', HTx. injection HT' as <- <-. injection HTx as <- <-.
    assert ((es ++ l) !! k = Some e) as Hke by (by apply lookup_app_l_Some).
    rewrite insert_insert_eq, list_insert_insert_ne by done. rewrite <- (insert_insert_eq T sc _ (sp, <[k := removed e]> es)).
    apply (walk_created ty _ sc sp (<[k := removed e]> es) sp1 (<[k := removed e]> (es ++ l)) l k2 e0 e2 fn); try done.
    + by rewrite lookup_insert_eq.
    + rewrite insert_app_l; [done|]. by eapply lookup_lt_Some.
    + by rewrite list_lookup_insert_ne.
    + rewrite <- list_insert_insert_ne by done. apply (lookup_beside fn _ k e k2); [done|done|by rewrite list_lookup_insert_ne|done].
    + by rewrite Hfi.
  - rewrite lookup_insert_ne in HT', HTx by done. rewrite HT in HT'. injection HT' as <- <-. rewrite HT2 in HTx. injection HTx as <- <-. rewrite insert_insert_ne by done.
    apply (walk_created ty _ sc2 sp2 es2 sp1 (es2 ++ l) l k2 e0 e2 fn); try done.
    + by rewrite lookup_insert_ne.
    + by rewrite Hfi.
Qed.

Section move.
Context {Pf : Platform} {D : Type} `{!DiskIO D} `{!DiskIOLaws D} (G : Z -> Prop).

(** ** The ".." entry *)

(** The place of the second entry of a directory in clusters. *)
Lemma second_pos (v : vol D) c cs :
  sound G v -> c <> 0 -> dir_space G v c (Clst cs) -> valid_clst (vfs v) c /\ ent_pos v (Clst cs) 1 (clst_sect (vfs v) c) SZDIRE.
Proof using Type.
  intros Hs Hc0 Hsp. cbn in Hsp. unfold dir_start in Hsp. rewrite (proj2 (Z.eqb_neq c 0) Hc0) in Hsp. cbn [andb] in Hsp.
  pose proof (chain_valid _ _ _ Hsp) as Hv. split; [done|]. pose proof (csize_pos _ (so_data _ _ Hs)) as Hcs.
  pose proof (chain_head _ _ _ Hsp) as Hh. destruct cs as [|x l]; [done|]. injection Hh as ->. split; [| |done].
  - cbn. unfold bcs. change SS with (16 * SZDIRE). rewrite Z.mul_assoc, Z.div_mul by done. pose proof (len_nonneg l). assert (len (c :: l) = len l + 1) as -> by (unfold len; cbn; lia). unfold_consts.
    change (0x200000 / 32) with 65536. nia.
  - cbn [dsect]. change (Z.of_nat 1 * SZDIRE) with 32. assert (0 <= 32 < bcs (vfs v)) as Hb by (unfold bcs, SS; lia).
    unfold fsect. rewrite (Z.div_small 32) by lia. change (Z.to_nat 0) with 0%nat. cbn. rewrite (Z.mod_small 32) by lia. change (32 / SS) with 0. by rewrite Z.add_0_r.
Qed.

Lemma update_dotdot_spec (v : vol D) T s d e c cs es pcl :
  sound G v -> tree_in G v T -> tree_apart (vfs v) T -> on_entry G v v s d e -> ent_clust (fs_type (vfs v)) e = c -> c <> 0 -> T !! c = Some (Clst cs, es) ->
  wp (update_dotdot d pcl) (fun r v' => r = FR_OK /\ changed G (fun _ => False) (eq (clst_sect (vfs v) c)) v v' /\
    tree_in G v' (<[c := (Clst cs, rehomed (fs_type (vfs v)) pcl es)]> T) /\ tree_apart (vfs v') (<[c := (Clst cs, rehomed (fs_type (vfs v)) pcl es)]> T)) v.
Proof using Type.
  intros Hs HT Hta Hon Hec Hc0 HTc. destruct (HT _ _ _ HTc) as [Hsp Hes]. destruct (second_pos v c cs Hs Hc0 Hsp) as [Hv Hep].
  unfold update_dotdot. apply wp_bind, wp_get_fs, wp_bind. eapply wp_ent_clust; [exact Hon|]. rewrite Hec. cbv zeta.
  rewrite (clst2sect_data _ (so_data _ _ Hs)) by (done || apply (so_ok _ _ Hs)).
  assert (clst_sect (vfs v) c <> 0) as Hnz.
  { destruct (ent_pos_ok G v c (Clst cs) Hs Hsp 1 _ _ Hep) as (Hr & _). lia. }
  rewrite (proj2 (Z.eqb_neq _ _) Hnz). apply wp_bind.
  eapply wp_mono; [apply (look G v c (Clst cs) Hs Hsp es Hes 1 (clst_sect (vfs v) c) SZDIRE v); [by apply calm_start|exact Hep]|].
  intros r v1 (-> & e1 & He1 & Hon1). change (FR_OK =r FR_OK) with true. cbv iota. change (SZDIRE * 1 + 1) with (SZDIRE + 1). change (SZDIRE * 1) with SZDIRE.
  apply wp_bind. eapply wp_ent_byte; [exact Hon1|done|]. unfold rehomed. rewrite He1. pose proof (oe_calm _ _ _ _ _ _ Hon1) as Hca.
  destruct (ent_byte e1 1 =? 0x2E).
  - pose proof Hca as [([Hv1 Hg1] & _) _]. pose proof Hg1 as (Ety & _)%geom_fields. apply wp_bind.
    eapply wp_edit_clust; [apply editing_start; [done|apply Hon1]|]. rewrite Ety. intros v2 Hd2.
    apply wp_bind. eapply wp_edit_flag; [exact Hd2|]. intros v3 Hd3 Hf3. apply wp_ret.
    pose proof (rewrite_entry G v c (Clst cs) Hs Hsp es Hes 1 _ _ _ _ _ _ Hep Hon1 Hd3 Hf3) as Hrw.
    split; [done|]. split; [by eapply rewritten_changed|]. split; [by apply (rewritten_tree G v T Hs HT Hta c (Clst cs) es 1 HTc _ _ _ v3 Hrw)|].
    eapply apart_set; [exact HTc|]. intros sc1 spa esa sc3 spb esb o1 o2 x. rewrite !(dsect_geom _ _ _ _ (rw_geom _ _ _ _ _ _ _ _ _ _ Hrw)). apply Hta.
  - apply wp_ret. split; [done|]. pose proof (calm_changed G (fun _ => False) (eq (clst_sect (vfs v) c)) v v1 Hs Hca) as Hch. split; [done|]. rewrite insert_id by done.
    split.
    + eapply changed_tree; [exact Hs|apply (calm_changed G (fun _ => False) (fun _ => False)); [done|exact Hca]| |done].
      intros sc1 sp1 es1 H1. split; [|by intros o x _ _ []]. destruct sp1; [done|]. by intros x _ [].
    + intros sc1 spa esa sc3 spb esb o1 o2 x. rewrite !(dsect_geom _ _ _ _ (calm_geom _ _ _ Hca)). apply Hta.
Qed.

(** ** A directory and its new entry *)

Context (Hun : len (dp_fn uninit_dir) = 12).
Context (v0 : vol D) (T : tree) (Hs : sound G v0) (HT : tree_in G v0 T) (Hta : tree_apart (vfs v0) T) (Hfsi : fsi_apart G (vfs v0)).
Context (sc : Z) (sp : dspace) (es : list (list byte)) (k : nat) (e : list byte).
Context (HTs : T !! sc = Some (sp, es)) (He : es !! k = Some e) (Hdir : is_dir e = true).
Context (cs : list Z) (esc : list (list byte)).
Abbreviation ty := (fs_type (vfs v0)).
Abbreviation own := (ent_clust ty e).
Context (Hown : T !! own = Some (Clst cs, esc)) (Hown0 : own <> 0) (Hself : own <> sc).

(** What the directory holds when its entry is in [sc2]. *)
Definition own_entries (sc2 : Z) : list (list byte) := if sc =? sc2 then esc else rehomed ty sc2 esc.

Record dir_moved (pn : list byte) (path_new sc2 : Z) (sp2 : dspace) (s0 : Z) (T' : tree) (k2 : nat) (e2 : list byte) v : Prop := mk_dir_moved {
  dm_changed : changed G (grow_clst v0 sp2) (fun s => s = s0 \/ s = clst_sect (vfs v0) own \/ grow_sect v0 sp2 s) v0 v;
  dm_tree : tree_in G v T';
  dm_apart : tree_apart (vfs v) T';
  dm_leads : leads v T' pn path_new (Found sc2 k2);
  dm_new : exists sp' es', T' !! sc2 = Some (sp', es') /\ es' !! k2 = Some e2;
  dm_gone : exists sp' es', T' !! sc = Some (sp', es') /\ es' !! k = Some (removed e);
  dm_own : T' !! own = Some (Clst cs, own_entries sc2);
  dm_dirs : forall c, c <> sc -> c <> sc2 -> c <> own -> T' !! c = T !! c;
  dm_same : same_file ty e e2
}.

(** The new parent is noted. *)
Lemma dotdot_step T2 sc2 s d e2 v :
  sound G v -> geom (vfs v) = geom (vfs v0) -> tree_in G v T2 -> tree_apart (vfs v) T2 -> on_entry G v v s d e2 -> same_file ty e e2 -> T2 !! own = Some (Clst cs, esc) ->
  wp (if is_dir e && negb (sc =? sc2) then update_dotdot d sc2 else ret FR_OK) (fun r v' => r = FR_OK /\
    changed G (fun _ => False) (eq (clst_sect (vfs v0) own)) v v' /\
    tree_in G v' (<[own := (Clst cs, own_entries sc2)]> T2) /\ tree_apart (vfs v') (<[own := (Clst cs, own_entries sc2)]> T2)) v.
Proof using Hdir Hown0.
  intros Hsv Hg HT2 Hta2 Hon Hsf H2. rewrite Hdir. cbn [andb]. unfold own_entries. destruct (sc =? sc2); cbn [negb].
  - apply wp_ret. split; [done|]. split; [by apply changed_refl|]. by rewrite insert_id.
  - pose proof Hg as (Ety&_&_&_&_&Ecs&_&_&_&_&_&Edb)%geom_fields.
    eapply wp_mono; [apply (update_dotdot_spec v T2 s d e2 own cs esc sc2); try done; by rewrite Ety, (sf_clust _ _ _ Hsf)|].
    intros r v' (-> & Hc & H3 & H4). rewrite Ety in H3, H4. split; [done|]. split; [|done].
    assert (clst_sect (vfs v0) own = clst_sect (vfs v) own) as -> by (unfold clst_sect; by rewrite Ecs, Edb). done.
Qed.

(** The new path leads to the new entry. *)
Lemma moved_leads pn path_new sc2 sp2 es2 fn djo va sp1 es1 k2 s d v sp' es' (v2 : vol D) :
  leads v0 T pn path_new (Missing sc2 fn) -> leads v0 (tree_set T sc sp es k (removed e)) pn path_new (Missing sc2 fn) ->
  copied G v0 T sc sp k e sc2 fn sp2 es2 djo va sp1 es1 k2 s d v -> own <> sc2 -> sc2 <> sc \/ k2 <> k -> geom (vfs v2) = geom (vfs v0) ->
  <[sc2 := (sp1, <[k2 := moved fn e]> es1)]> T !! sc = Some (sp', es') ->
  leads v2 (tree_set (<[own := (Clst cs, own_entries sc2)]> (<[sc2 := (sp1, <[k2 := moved fn e]> es1)]> T)) sc sp' es' k (removed e)) pn path_new (Found sc2 k2).
Proof using Hs HTs He Hown Hself.
  intros Hle Hler [HT2 Hl Hlen Hfr Hvl _ Hroom Hff _ _] Ho2 Hoth Hg HTs'. destruct (moved_facts ty fn e Hl Hlen) as [Hnm Hsf].
  assert (nz (Z.land (ent_byte (moved fn e) DIR_Attr) AM_VOL) = false) as Hvl2 by (by rewrite (sf_attr _ _ _ Hsf), moved_bit).
  destruct Hler as (Hp & j & names & Hsk & Hn & Hwr). split; [done|]. exists j, names. split; [done|]. split; [done|]. pose proof Hg as (-> & _)%geom_fields.
  destruct Hle as (_ & j' & names' & _ & _ & Hw'). destruct (walk_missing _ _ _ _ _ _ Hw') as (_ & spx & esx & HTx & Hno). rewrite HT2 in HTx. injection HTx as <- <-.
  destruct (walk_missing _ _ _ _ _ _ Hwr) as (Hin & _). pose proof (proj1 (list.Forall_forall _ _) (path_names_nonzero _ _ _ Hn) fn Hin) as Hnz. cbv beta in Hnz.
  destruct (room_changed G v0 Hs sc2 sp2 es2 va sp1 es1 Hroom) as (_ & _ & l & El). destruct (first_free_some _ _ Hff) as (e0 & He0 & Hfr0 & _).
  destruct (lookup_entered fn es1 k2 (moved fn e) Hl Hnz) as (Hlk & His & Hfi); [by destruct Hroom; [|apply lookup_name_zeros]|done|done|done|].
  set (T2 := <[sc2 := _]> T) in *. assert (walk ty (tree_set T2 sc sp' es' k (removed e)) 0 names = Some (Found sc2 k2)) as Hwm.
  { unfold T2 in *. rewrite El in *. eapply (walk_moved ty T sc sp es k e sc2 sp2 es2 l sp1 k2 e0); try done. by eapply path_names_ddem. }
  assert (T2 !! own = Some (Clst cs, esc)) as H2 by (unfold T2; by rewrite lookup_insert_ne).
  unfold tree_set in *. rewrite insert_insert_ne by done. unfold own_entries. destruct (sc =? sc2).
  - rewrite insert_id; [done|]. by rewrite lookup_insert_ne.
  - rewrite walk_rehomed; [done|by rewrite lookup_insert_ne|by eapply path_names_dot].
Qed.

Lemma move_old pn path_new sc2 sp2 es2 fn djo va sp1 es1 k2 s d v :
  leads v0 T pn path_new (Missing sc2 fn) -> leads v0 (tree_set T sc sp es k (removed e)) pn path_new (Missing sc2 fn) ->
  copied G v0 T sc sp k e sc2 fn sp2 es2 djo va sp1 es1 k2 s d v -> own <> sc2 ->
  rename_rest e djo d sc2 (fun v' => exists T', dir_moved pn path_new sc2 sp2 (dp_sect djo) T' k2 (moved fn e) v') v.
Proof using Hs HT Hta Hfsi HTs He Hdir Hown Hown0 Hself.
  intros Hle Hler Hcp Ho2. pose proof Hcp as [HT2 Hl Hlen Hfr Hvl [Hdj Hep] Hroom Hff Hepn Hrw]. destruct (moved_facts ty fn e Hl Hlen) as [Hnm Hsf].
  assert (nz (Z.land (ent_byte (moved fn e) DIR_Attr) AM_VOL) = false) as Hvl2 by (by rewrite (sf_attr _ _ _ Hsf), moved_bit).
  destruct (entered G v0 T Hs HT Hta sc2 sp2 es2 HT2 pn path_new fn va sp1 es1 k2 s d (moved fn e) v Hle Hl Hroom Hff Hepn Hnm Hvl2
    (rewritten_changed G _ _ _ _ _ _ _ _ _ _ _ Hrw eq_refl) (rw_space _ _ _ _ _ _ _ _ _ _ Hrw) (rw_holds _ _ _ _ _ _ _ _ _ _ Hrw)) as (Hc2 & _ & HTn & Htan & Hk2).
  destruct (old_place G v0 T Hs HT sc sp es k e HTs He sc2 sp2 es2 va sp1 es1 k2 (moved fn e) _ _ HT2 Hroom Hff Hfr Hep) as (Hoth & sp' & es' & HTs' & He' & Hep').
  pose proof (fun v2 => moved_leads pn path_new sc2 sp2 es2 fn djo va sp1 es1 k2 s d v sp' es' v2 Hle Hler Hcp Ho2 Hoth) as Hml.
  set (T2 := <[sc2 := _]> T) in *. pose proof (rw_sound _ _ _ _ _ _ _ _ _ _ Hrw) as Hsv. pose proof (cg_geom _ _ _ _ _ Hc2) as Hg2.
  assert (T2 !! own = Some (Clst cs, esc)) as H2 by (unfold T2; by rewrite lookup_insert_ne). unfold rename_rest.
  rewrite Hdj. eapply wp_mono; [apply (dotdot_step T2 sc2 s d (moved fn e) v Hsv Hg2 HTn Htan (rw_entry _ _ _ _ _ _ _ _ _ _ Hrw) Hsf H2)|].
  intros r v1 (-> & Hc3 & HT3 & Hta3). change (FR_OK =r FR_OK) with true. cbv iota. pose proof (cg_geom _ _ _ _ _ Hc3) as Hg3.
  set (T3 := <[own := _]> T2) in *. assert (T3 !! sc = Some (sp', es')) as HTs3 by (unfold T3; by rewrite lookup_insert_ne).
  eapply wp_mono; [apply (remove_entry G v0 Hfsi sc k e T3 sp' es' djo v1 (cg_sound _ _ _ _ _ Hc3) (eq_trans Hg3 Hg2) HT3 Hta3 HTs3 He')|].
  { apply (ent_pos_geom v); [done|]. apply (ent_pos_geom va); [apply Hrw|done]. }
  intros r v2 (-> & Hc4 & HT4 & Ha4). split; [done|]. exists (tree_set T3 sc sp' es' k (removed e)). split; [|done|done|..].
  - eapply changed_trans; [eapply changed_weaken; [exact Hc2|done|auto]|]. eapply changed_trans; [eapply changed_weaken; [exact Hc3|done|intros x <-; auto]|].
    eapply changed_weaken; [exact Hc4|done|intros x <-; auto].
  - apply Hml; [|done]. exact (eq_trans (cg_geom _ _ _ _ _ Hc4) (eq_trans Hg3 Hg2)).
  - unfold tree_set. destruct (Z.eq_dec sc2 sc) as [Esc|Hne].
    + rewrite <- Esc in HTs'. unfold T2 in HTs'. rewrite lookup_insert_eq in HTs'. injection HTs' as <- <-. rewrite <- Esc, lookup_insert_eq.
      eexists _, _. split; [done|]. rewrite list_lookup_insert_ne by (by destruct Hoth as [?|?]; congruence). done.
    + rewrite lookup_insert_ne by done. unfold T3. rewrite lookup_insert_ne by done. unfold T2. rewrite lookup_insert_eq. eauto.
  - unfold tree_set. rewrite lookup_insert_eq. eexists _, _. split; [done|]. apply list_lookup_insert_eq. by eapply lookup_lt_Some.
  - unfold tree_set, T3. by rewrite lookup_insert_ne, lookup_insert_eq.
  - intros c H3 H4 H5. unfold tree_set, T3, T2. by rewrite !lookup_insert_ne.
  - done.
Qed.

(** ** [f_rename] *)

(** The new path neither names the directory itself as parent nor leads
    through it. *)
Definition not_inside (pn : list byte) (path_new : Z) (x : verdict) : Prop :=
  match x with
  | Missing sc2 _ => own <> sc2 /\ leads v0 (tree_set T sc sp es k (removed e)) pn path_new x
  | _ => True
  end.

(** What [f_rename] of a directory answers and leaves. *)
Definition move_post (pn : list byte) (path_new : Z) : verdict -> FRESULT -> vol D -> Prop :=
  rename_cases G v0 T (fun sc2 fn sp2 v => exists s0 d0 T' k2, ent_pos v0 sp k s0 d0 /\ dir_moved pn path_new sc2 sp2 s0 T' k2 (moved fn e) v).

Lemma f_rename_dir w vp po rpo pn nd rpn x :
  drive_ready (D := D) true -> drive_writable (D := D) -> hosts w vp v0 -> at_ (FatFs w) 0 = Some (Some vp) ->
  (forall s : world D, get_ldnumber (Some po) s = Done ((0, rpo), s)) -> (forall s : world D, get_ldnumber (Some pn) s = Done ((nd, rpn), s)) ->
  leads v0 T po rpo (Found sc k) -> leads v0 T pn rpn x -> x <> Found sc k -> not_inside pn rpn x ->
  wp (f_rename (Some po) (Some pn)) (fun r w' => FatFs w' = FatFs w /\ exists v', hosts w' vp v' /\ move_post pn rpn x r v') w.
Proof using All.
  intros Hrdy Hwr Hh Hreg Hldo Hldn Hlo Hle Hx Hni. apply (f_rename_cases G v0 T Hs w vp po rpo pn nd rpn x); try done.
  { intros r v'. apply rename_cases_geom. by intros sc2 fn sp2 v1 (s0 & d0 & T' & k2 & _ & [[] _ _ _ _ _ _ _ _]). }
  apply (rename_vol_cases G Hun v0 T Hs HT sc sp es k e HTs He); [done|done|done|]. intros sc2 fn sp2 es2 djo va sp1 es1 k2 s d v -> Hcp. destruct Hni as [Ho2 Hler].
  pose proof (move_old pn rpn sc2 sp2 es2 fn djo va sp1 es1 k2 s d v Hle Hler Hcp Ho2) as Hmv. unfold rename_rest in *.
  eapply wp_mono; [exact Hmv|]. intros r v1 H1. eapply wp_mono; [exact H1|]. intros r' v2 (-> & T' & Hd). split; [done|].
  exists (dp_sect djo), (dp_dir djo), T', k2. split; [apply (cp_old _ _ _ _ _ _ _ _ _ _ _ _ _ _ _ _ _ _ _ Hcp)|done].
Qed.

End move.
