(* ===== verification/Overwrite.v ===== *)
(** * Overwritten files

    [open_vol] with FA_CREATE_ALWAYS on the path of a file that exists: its
    entry becomes that of an empty file and its clusters become free. *)

From stdpp Require Import base numbers list option gmap.
From Stdlib Require Import ZArith Lia.
From Stdlib Require Import Strings.Byte.
From S2P Require Import Prelude Types Bytes Diskio Window Fat Chain Live Dir Path Mount File DirApi Content Writing Seeking Refine Listing Entries Tree Persist Change Unlink Readdir Text Create Rename.

Section overwrite.
Context {Pf : Platform} {D : Type} `{!DiskIO D} `{!DiskIOLaws D} (G : Z -> Prop).
Context (Hun : len (dp_fn uninit_dir) = 12).
Context (v0 : vol D) (T : tree) (Hs : sound G v0) (HT : tree_in G v0 T) (Hta : tree_apart (vfs v0) T).
Context (sc : Z) (sp : dspace) (es : list (list byte)) (k : nat) (e : list byte) (cs : list Z).
Context (HTs : T !! sc = Some (sp, es)) (He : es !! k = Some e) (Hcl : clusters v0 (ent_clust (fs_type (vfs v0)) e) cs).
Context (Hoff : forall sc' sp' es', T !! sc' = Some (sp', es') -> dir_off sp' cs).
Abbreviation ty := (fs_type (vfs v0)).

(** What [f_open] answers in a mode that creates. *)
Definition over_result (mode : Z) : FRESULT :=
  if nz (Z.land (ent_attr e) (Z.lor AM_RDO AM_DIR)) then FR_DENIED else if nz (Z.land mode FA_CREATE_NEW) then FR_EXIST else FR_OK.

Record overwritten (p : list byte) (path s : Z) v : Prop := mk_overwritten {
  ow_changed : changed G (fun c => c ∈ cs) (eq s) v0 v;
  ow_tree : tree_in G v (tree_set T sc sp es k (born ty e));
  ow_apart : tree_apart (vfs v) (tree_set T sc sp es k (born ty e));
  ow_leads : leads v (tree_set T sc sp es k (born ty e)) p path (Found sc k);
  ow_free : forall c, c ∈ cs -> fat_entry v c = Some 0
}.

Lemma emptied_tree p path s d v :
  leads v0 T p path (Found sc k) -> len e = SZDIRE -> nz (Z.land (ent_attr e) AM_DIR) = false -> ent_pos v0 sp k s d ->
  emptied G v0 sc sp es k s d e cs v -> overwritten p path s v.
Proof using Hs HT Hta HTs He Hcl Hoff.
  intros Hle Hlen Hnd Hep [E1 E2 E3 E4 E5]. pose proof (born_reborn ty e Hlen) as Hrb. pose proof (cg_geom _ _ _ _ _ E1) as Hg.
  destruct (found_entry v0 T sc sp es k e HTs He p path Hle) as [_ Hvl].
  assert (forall c sp2 es2, T !! c = Some (sp2, es2) -> c <> sc -> dir_beside (vfs v0) (fun c => c ∈ cs) (eq s) sp2) as Hb.
  { intros c sp2 es2 Hc Hne. split.
    - pose proof (Hoff _ _ _ Hc) as Ho. destruct sp2 as [|dcs]; [done|]. intros x H1 H2. by apply (Ho x).
    - intros o x Ho E <-. apply Hne. destruct Hep as [_ P2 _]. eapply (Hta c sp2 es2 sc sp es); [done|done|exact Ho| |exact E|exact P2]. unfold_consts. lia. }
  split; [done| | | |done].
  - intros c sp2 es2. unfold tree_set. destruct (Z.eq_dec c sc) as [->|Hne]; [rewrite lookup_insert_eq; by intros [= <- <-]|].
    rewrite lookup_insert_ne by done. intros Hc. destruct (HT _ _ _ Hc). eapply changed_dir; [exact Hs|exact E1|by eapply Hb|done|done].
  - unfold tree_set. eapply apart_set; [exact HTs|]. intros sc1 spa esa sc3 spb esb o1 o2 x. rewrite !(dsect_geom _ _ _ _ Hg). apply Hta.
  - destruct Hle as (Hp & j & names & Hsk & Hn & Hw). split; [done|]. exists j, names. split; [done|]. split; [done|].
    assert (fs_type (vfs v) = ty) as -> by (by apply geom_fields in Hg as [-> _]).
    apply (walk_renewed ty T sc sp es k e); try done; [by intros fn; apply (reborn_is ty)|by apply (reborn_first ty)|by eapply reborn_file].
Qed.

Lemma open_over_spec fp p path mode vp :
  leads v0 T p path (Found sc k) -> nz (Z.land mode FA_CREATE_ALWAYS) = true ->
  wp (open_vol fp p path mode vp) (fun r v' => r.1 = over_result mode /\
    if r.1 =r FR_OK then exists s d, ent_pos v0 sp k s d /\ overwritten p path s v' /\ fil_at v0 v' vp (Z.lor mode FA_MODIFIED) sp k r.2 else calm G v0 v') v0.
Proof using All.
  intros Hle Hcr. destruct (HT _ _ _ HTs) as [Hsp Hes]. unfold open_vol, open_entry. apply wp_bind, wp_bind.
  eapply wp_mono; [by apply (follow_found G v0 T Hs HT (set_dp_obj (set_obj_fs (Some vp) (dp_obj uninit_dir)) uninit_dir) p path sc k sp es e v0); [apply calm_start|..]|].
  intros [r dj] v1 (Hr & Hl & _). cbn [fst snd] in *. subst r. eapply located_flag; [exact Hl|]. cbv zeta.
  change ((FR_OK =r FR_OK) && nz (Z.land NS_LAST NS_NONAME)) with false. cbv iota.
  assert (nz (Z.land mode (Z.lor FA_CREATE_ALWAYS (Z.lor FA_OPEN_ALWAYS FA_CREATE_NEW))) = true) as ->.
  { unfold nz in *. rewrite negb_true_iff, Z.eqb_neq in *. intros E. apply Hcr. apply Z.bits_inj'. intros n Hn.
    apply (f_equal (fun x => Z.testbit x n)) in E. rewrite !Z.land_spec, !Z.lor_spec, Z.bits_0 in *.
    by destruct (Z.testbit mode n), (Z.testbit FA_CREATE_ALWAYS n). }
  change (negb (FR_OK =r FR_OK)) with false. cbv iota. pose proof Hl as [Hc1 Hat1 Hon1 Ha1 _ _]. rewrite Ha1. pose proof (on_entry_len _ _ _ _ _ _ Hon1) as Hlen.
  unfold over_result. destruct (nz (Z.land (ent_attr e) (Z.lor AM_RDO AM_DIR))) eqn:Eat.
  { change (FR_DENIED =r FR_OK) with false. cbn [andb]. apply wp_bind, wp_ret. cbv iota beta. apply wp_bind, wp_ret, wp_ret.
    change (negb (FR_DENIED =r FR_OK)) with true. cbv iota. by apply wp_ret. }
  destruct (nz (Z.land mode FA_CREATE_NEW)).
  { apply wp_bind, wp_ret. change ((FR_EXIST =r FR_OK) && nz (Z.land mode FA_CREATE_ALWAYS)) with false. cbv iota beta. apply wp_bind, wp_ret, wp_ret.
    change (negb (FR_EXIST =r FR_OK)) with true. cbv iota. by apply wp_ret. }
  apply wp_bind, wp_ret. rewrite Hcr. change ((FR_OK =r FR_OK) && true) with true. cbv iota beta. apply wp_bind.
  pose proof (dir_at_pos _ _ _ _ Hat1) as Hep.
  eapply wp_mono; [apply (open_truncate_spec G v0 sc sp Hs Hsp es Hes dj v1 k (dp_sect dj) e cs Hep Hon1 Hcl); by eapply Hoff|].
  intros r v2 [-> Hem]. apply wp_ret. change (negb (FR_OK =r FR_OK)) with false. cbv iota. rewrite Hcr.
  assert (nz (Z.land (ent_attr e) AM_DIR) = false) as Hnd.
  { unfold nz in *. rewrite negb_false_iff, Z.eqb_eq in *. apply Z.bits_inj'. intros n Hn. apply (f_equal (fun x => Z.testbit x n)) in Eat.
    rewrite !Z.land_spec, !Z.lor_spec, Z.bits_0 in *. by destruct (Z.testbit (ent_attr e) n), (Z.testbit AM_DIR n), (Z.testbit AM_RDO n). }
  pose proof (emptied_tree p path (dp_sect dj) (dp_dir dj) v2 Hle Hlen Hnd Hep Hem) as How.
  eapply (open_reset G v0 sc fp dj vp (Z.lor mode FA_MODIFIED) v0 sp es k (dp_sect dj) e cs v2); try done; [apply How|].
  intros fp' Hfa. split; [done|]. change (FR_OK =r FR_OK) with true. cbv iota. by exists (dp_sect dj), (dp_dir dj).
Qed.

(** ** In the world *)

Lemma f_open_over w vp pth rp mode fp0 :
  drive_ready (D := D) true -> drive_writable (D := D) -> hosts w vp v0 -> at_ (FatFs w) 0 = Some (Some vp) ->
  (forall s : world D, get_ldnumber (Some pth) s = Done ((0, rp), s)) -> leads v0 T pth rp (Found sc k) ->
  nz (Z.land mode FA_CREATE_ALWAYS) = true -> Z.land mode 0x3F = mode ->
  wp (f_open fp0 (Some pth) mode) (fun r w' => FatFs w' = FatFs w /\ r.1 = over_result mode /\ exists v', hosts w' vp v' /\
    if r.1 =r FR_OK then exists s d, ent_pos v0 sp k s d /\ overwritten pth rp s v' /\ fil_at v0 v' vp (Z.lor mode FA_MODIFIED) sp k r.2 else calm G v0 v') w.
Proof using All.
  intros Hrdy Hwr Hh Hreg Hld Hle Hcr Hm. unfold f_open.
  assert (Z.lor FA_READ (Z.lor FA_WRITE (Z.lor FA_CREATE_ALWAYS (Z.lor FA_CREATE_NEW (Z.lor FA_OPEN_ALWAYS FA_OPEN_APPEND)))) = 0x3F) as -> by reflexivity.
  rewrite Hm. cbv zeta.
  eapply mount_volume_hosts; [done|exact Hh|exact Hreg|apply (so_ok _ _ Hs)|exact Hld|by right|].
  change (FR_OK =r FR_OK) with true. cbv iota. apply wp_bind. eapply wp_at_volume; [exact Hh|]. eapply wp_mono; [apply (open_over_spec fp0 pth rp mode vp Hle Hcr)|]. intros [r fp] v' [Hr H]. cbn [fst snd] in *. split.
  - destruct (r =r FR_OK); [destruct H as (s & d & _ & [[] _ _ _ _] & _); done|by apply calm_geom in H].
  - intros w' Hh' Ht. apply wp_ret. cbn [fst snd]. split; [done|]. split; [done|]. exists v'. split; [done|]. destruct (r =r FR_OK); [|done]. exact H.
Qed.

End overwrite.
