(* ===== verification/Append.v ===== *)
(** * Appending to files, and asking for their entries

    [open_vol] with FA_OPEN_APPEND on the path of an existing file: the file
    pointer goes to the end of the file, along its chain of clusters.  And
    [f_stat], which reports the entry of a path. *)

From stdpp Require Import base numbers list option gmap.
From Stdlib Require Import ZArith Lia.
From Stdlib Require Import Strings.Byte.
From S2P Require Import Prelude Types Bytes Diskio Window Fat Chain Live Dir Path Mount File DirApi Content Writing Seeking Refine Listing Entries Tree Persist Change Unlink Readdir Create.

Section append.
Context {Pf : Platform} {D : Type} `{!DiskIO D} `{!DiskIOLaws D} (G : Z -> Prop).
Context (Hun : len (dp_fn uninit_dir) = 12).
Context (v0 : vol D) (Hs : sound G v0).
Implicit Types v : vol D.
Abbreviation ty := (fs_type (vfs v0)).

(** ** To the end of the chain *)

(** The loop stands on cluster [k] of the file, [ofs] bytes before its end. *)
Definition at_cluster (cs : list Z) (size : Z) (a : FRESULT * Z * Z) v : Prop :=
  calm G v0 v /\ a.1.1 = FR_OK /\ exists k : nat, cs !! k = Some a.1.2 /\ a.2 = size - Z.of_nat k * bcs (vfs v0) /\ 0 < a.2.

Lemma seek_end_spec cs sc size v :
  calm G v0 v -> clusters v0 sc cs -> 0 < size < U32 -> size <= len cs * bcs (vfs v0) ->
  wp (loop (seek_end_body (bcs (vfs v0))) (FR_OK, sc, size)) (fun r v' => at_cluster cs size r v' /\ r.2 <= bcs (vfs v0)) v.
Proof using Pf Hs.
  intros Hc Hcl Hsz Hcov. pose proof (bcs_pos _ (so_data _ _ Hs)) as Hb.
  apply (wp_loop true (at_cluster cs size) (fun a _ => a.2)).
  - clear v Hc. intros [[r c] o] v (Hc & Hr & k & Hk & Ho & Hp). cbn [fst snd] in *. subst r. unfold seek_end_body. change (FR_OK =r FR_OK) with true. cbn [andb].
    destruct (Z.gtb_spec o (bcs (vfs v0))) as [Hgt|Hle]; [|apply wp_ret; split; [|done]; split; [done|]; split; [done|]; by exists k].
    destruct (lookup_lt_is_Some_2 cs (S k)) as [c' Hk'].
    { assert (Z.of_nat (S k) * bcs (vfs v0) < len cs * bcs (vfs v0)) by lia. unfold len in *. nia. }
    assert (chain v0 sc cs) as Hch by (destruct cs; [done|exact Hcl]).
    assert (valid_clst (vfs v0) c /\ valid_clst (vfs v0) c') as [V V'] by (split; eapply chain_all_valid; try done; by eapply list_elem_of_lookup_2).
    apply wp_bind. eapply wp_mono; [apply (get_fat_alive G v0 v c); [apply Hs|apply Hs|apply Hc|apply Hc|done]|].
    intros x v' (Hx & Hne & Hu & Ha). rewrite (chain_nth _ _ _ _ _ _ Hch Hk Hk') in Hx. injection Hx as <-. destruct V' as [V1 _].
    rewrite (proj2 (Z.leb_gt c' 1)), (proj2 (Z.eqb_neq _ _) Hne) by lia. apply wp_ret. rewrite u32_small by lia. split; [|cbn; lia].
    split; [done|]. split; [done|]. exists (S k). cbn [fst snd]. split; [done|]. lia.
  - split; [done|]. split; [done|]. exists 0%nat. cbn [fst snd]. split; [|lia]. destruct cs; [unfold len in Hcov; cbn in Hcov; lia|]. by eapply chain_head.
  - cbn. unfold U32 in Hsz. unfold LOOP_FUEL. lia.
Qed.

(** ** [open_append] *)

Lemma open_append_spec fp cs a v :
  calm G v0 v -> file_is v0 fp cs a -> 0 < len (af_data a) ->
  wp (open_append fp) (fun r v' => calm G v0 v' /\ r.1 = FR_OK /\ file_is v0 r.2 cs (mkAfile (af_data a) (len (af_data a)) (af_rd a) (af_wr a)) /\
    fp_obj r.2 = fp_obj fp /\ fp_flag r.2 = fp_flag fp /\ fp_dir_sect r.2 = fp_dir_sect fp /\ fp_dir_ptr r.2 = fp_dir_ptr fp) v.
Proof using Pf Hs.
  intros Hc [F1 F2 F3 F4 F5 F6 F7 F8] Hpos. pose proof F2 as [C1 C2 C3 _ _]. pose proof (so_data _ _ Hs) as Hdl. pose proof (bcs_pos _ Hdl) as Hb.
  unfold open_append. apply wp_bind, wp_get_fs. cbv zeta. pose proof (calm_geom _ _ _ Hc) as Hg. pose proof Hg as (_&_&_&_&_&Ecs&_)%geom_fields.
  pose proof (csize_pos _ Hdl) as Hcs.
  assert (u32 (csize (vfs v) * SS) = bcs (vfs v0)) as -> by (rewrite Ecs; apply u32_small; unfold SS, U32; lia).
  change (fp_objsize (set_fp_fptr (fp_objsize fp) fp)) with (fp_objsize fp). change (fp_sclust (set_fp_fptr (fp_objsize fp) fp)) with (fp_sclust fp).
  apply wp_bind. eapply wp_mono; [apply (seek_end_spec cs (fp_sclust fp) (fp_objsize fp) v Hc F1); [lia|done]|].
  intros [[r c] o] v1 [(Hc1 & Hr & k & Hk & Ho & Hop) Hle]. cbn [fst snd] in *. subst r. change (FR_OK =r FR_OK) with true. cbn [andb].
  assert (valid_clst (vfs v0) c) as Hv.
  { destruct cs as [|c0 l]; [done|]. eapply chain_all_valid; [exact F1|]. by eapply list_elem_of_lookup_2. }
  assert (Z.of_nat k = (fp_objsize fp - 1) / bcs (vfs v0)) as Ek.
  { apply (Z.div_unique _ _ _ (o - 1)); [left; lia|lia]. }
  assert (forall fp', fp_obj fp' = fp_obj fp -> fp_flag fp' = fp_flag fp -> fp_err fp' = fp_err fp -> fp_fptr fp' = fp_objsize fp -> fp_clust fp' = c ->
    (o mod SS <> 0 -> fp_sect fp' = clst_sect (vfs v0) c + o / SS) -> file_is v0 fp' cs (mkAfile (af_data a) (len (af_data a)) (af_rd a) (af_wr a))) as Hfile.
  { intros fp' E1 E2 E3 E4 E5 E6. assert (fp_objsize fp' = fp_objsize fp /\ fp_sclust fp' = fp_sclust fp) as [E7 E8] by (unfold fp_objsize, fp_sclust; by rewrite E1).
    split; cbn [af_data af_pos af_rd af_wr]; rewrite ?E2, ?E3, ?E4, ?E7, ?E8; try done. split; rewrite ?E4, ?E5, ?E7; try done; try lia.
    - intros _. by rewrite <- Ek, Nat2Z.id.
    - intros Hm. assert (fp_objsize fp mod SS = o mod SS) as Em.
      { replace (fp_objsize fp) with (o + (Z.of_nat k * csize (vfs v0)) * SS) by (unfold bcs in Ho; lia). by apply Z.mod_add. }
      rewrite Em in Hm. assert (o < bcs (vfs v0)) as Hlt.
      { destruct (Z.eq_dec o (bcs (vfs v0))) as [E|]; [|lia]. exfalso. apply Hm. rewrite E. unfold bcs. by apply Z.mod_mul. }
      unfold fsect. replace (fp_objsize fp) with (o + Z.of_nat k * bcs (vfs v0)) by lia. rewrite Z.div_add, Z.mod_add by lia.
      rewrite (Z.div_small o), (Z.mod_small o) by lia. rewrite Z.add_0_l, Nat2Z.id, Hk. cbn. by rewrite E6. }
  unfold nz. destruct (Z.eqb_spec (o mod SS) 0) as [E0|E0]; cbn [negb].
  - apply wp_ret. cbn [fst snd]. split; [done|]. split; [done|]. split; [by apply Hfile|done].
  - assert (clst2sect (vfs v) c = clst_sect (vfs v0) c) as ->.
    { rewrite <- (clst2sect_data _ Hdl) by (done || apply Hs). unfold clst2sect. pose proof Hg as (_&_&_&_&_&->&->&_&_&_&_&->)%geom_fields. done. }
    pose proof (clst_data (vfs v0) c (o / SS) Hv) as Hd. assert (0 <= o / SS < csize (vfs v0)) as Hr.
    { split; [apply Z.div_pos; [lia|done]|]. apply Z.div_lt_upper_bound; [done|]. assert (o < bcs (vfs v0)); [|unfold bcs in *; lia].
      destruct (Z.eq_dec o (bcs (vfs v0))) as [E|]; [|lia]. exfalso. apply E0. rewrite E. unfold bcs. by apply Z.mod_mul. }
    pose proof (data_range (vfs v0) Hdl _ (Hd Hr)) as Hrg. pose proof (data_range (vfs v0) Hdl _ (clst_data (vfs v0) c 0 Hv ltac:(lia))) as Hrg0. rewrite Z.add_0_r in Hrg0.
    rewrite (proj2 (Z.eqb_neq _ 0)) by lia. apply wp_ret. cbn [fst snd]. split; [done|]. split; [done|]. split; [|done].
    apply Hfile; try done. intros _. cbn. apply u32_small. lia.
Qed.

(** ** [open_vol] *)

Context (T : tree) (HT : tree_in G v0 T).

Definition append_mode (mode : Z) : Prop :=
  mode = Z.lor FA_READ FA_OPEN_APPEND \/ mode = Z.lor FA_WRITE FA_OPEN_APPEND \/ mode = Z.lor FA_READ (Z.lor FA_WRITE FA_OPEN_APPEND).

(** What [f_open] answers for an existing entry in these modes. *)
Definition append_result (e : list byte) : FRESULT := if nz (Z.land (ent_attr e) (Z.lor AM_RDO AM_DIR)) then FR_DENIED else FR_OK.

(** The file object at the end of its file. *)
Record appending (vp mode : Z) (sp : dspace) (k : nat) (cs : list Z) (data : list byte) fp : Prop := mk_appending {
  ap_obj : obj_fs (fp_obj fp) = Some vp /\ obj_id (fp_obj fp) = fs_id (vfs v0);
  ap_dir : ent_pos v0 sp k (fp_dir_sect fp) (fp_dir_ptr fp);
  ap_file : file_is v0 fp cs (mkAfile data (len data) (nz (Z.land mode FA_READ)) (nz (Z.land mode FA_WRITE)))
}.

Lemma open_append_vol fp p path mode vp sc sp es k e cs data :
  leads v0 T p path (Found sc k) -> T !! sc = Some (sp, es) -> es !! k = Some e -> append_mode mode -> entry_file v0 e cs data ->
  wp (open_vol fp p path mode vp) (fun r v' => calm G v0 v' /\ r.1 = append_result e /\ (r.1 = FR_OK -> appending vp mode sp k cs data r.2)) v0.
Proof using Hun Hs HT.
  intros Hle HTs He Hm Hef. unfold open_vol, open_entry. apply wp_bind, wp_bind.
  eapply wp_mono; [by apply (follow_found G v0 T Hs HT (set_dp_obj (set_obj_fs (Some vp) (dp_obj uninit_dir)) uninit_dir) p path sc k sp es e v0); [apply calm_start|..]|].
  intros [r dj] v1 (Hr & Hl & _). cbn [fst snd] in *. subst r. eapply located_flag; [exact Hl|]. cbv zeta.
  change ((FR_OK =r FR_OK) && nz (Z.land NS_LAST NS_NONAME)) with false. cbv iota.
  assert (nz (Z.land mode (Z.lor FA_CREATE_ALWAYS (Z.lor FA_OPEN_ALWAYS FA_CREATE_NEW))) = true /\ nz (Z.land mode FA_CREATE_NEW) = false /\
    nz (Z.land mode FA_CREATE_ALWAYS) = false /\ nz (Z.land mode FA_SEEKEND) = true) as (-> & M2 & M3 & M4) by (by destruct Hm as [->|[->| ->]]).
  change (negb (FR_OK =r FR_OK)) with false. cbv iota. pose proof Hl as [Hc1 Hat1 Hon1 Ha1 _ _]. rewrite Ha1, M2. unfold append_result.
  destruct (nz (Z.land (ent_attr e) (Z.lor AM_RDO AM_DIR))).
  { change (FR_DENIED =r FR_OK) with false. cbn [andb]. apply wp_bind, wp_ret. cbv iota beta. apply wp_bind, wp_ret, wp_ret.
    change (negb (FR_DENIED =r FR_OK)) with true. cbv iota. by apply wp_ret. }
  apply wp_bind, wp_ret. rewrite M3, andb_false_r. apply wp_bind, wp_ret, wp_ret. change (negb (FR_OK =r FR_OK)) with false. cbv iota. rewrite M3, M4.
  apply wp_bind, wp_get_fs. apply wp_bind. eapply wp_ent_clust; [exact Hon1|]. apply wp_bind. eapply wp_ent_dword; [exact Hon1|done|done|].
  set (fp' := set_fp_fptr 0 _). pose proof Hc1 as Hg%calm_geom.
  assert (opened v0 e sp k mode vp fp') as Hop.
  { split; try done.
    - cbn. split; [done|]. by apply geom_fields in Hg as (_&_&_&->&_).
    - cbn. rewrite (oe_sect _ _ _ _ _ _ Hon1). by apply dir_at_pos. }
  pose proof (opened_file v0 e sp k mode vp fp' cs data Hop Hef) as Hfi. pose proof (op_size _ _ _ _ _ _ _ Hop) as Hsz. rewrite (ef_size _ _ _ _ Hef) in Hsz.
  pose proof (len_nonneg data) as Hn. cbn [andb]. rewrite Hsz. destruct (Z.gtb_spec (len data) 0) as [Hgt|Hz].
  - eapply wp_mono; [by apply (open_append_spec fp' cs _ v1 Hc1 Hfi)|].
    intros [r fp2] v2 (Hc2 & Hr & Hf2 & Ho & Hfl & Hd1 & Hd2). cbn [fst snd] in *. split; [done|]. split; [done|]. intros _. destruct Hop as [O1 _ _ _ _ _ O2].
    split; [by rewrite Ho|by rewrite Hd1, Hd2|exact Hf2].
  - apply wp_ret. split; [done|]. split; [done|]. intros _. destruct Hop as [O1 _ _ _ _ _ O2]. split; [done|done|]. cbn [snd].
    assert (len data = 0) as -> by lia. exact Hfi.
Qed.

(** ** [stat_vol] *)

Lemma stat_vol_spec vp p path x fno :
  leads v0 T p path x -> len (fi_fname fno) = 13 ->
  wp (stat_vol vp p path (Some fno)) (fun r v' => calm G v0 v' /\
    match x with
    | Found sc k => r.1 = FR_OK /\ exists sp es e i, T !! sc = Some (sp, es) /\ es !! k = Some e /\ r.2 = Some i /\ entry_info e i
    | Missing _ _ => r.1 = FR_NO_FILE
    | NoPath => r.1 = FR_NO_PATH
    end) v0.
Proof using Hun Hs HT.
  intros Hle Hl. unfold stat_vol. apply wp_bind. destruct Hle as (Hp & j & names & Hsk & Hn & Hw).
  eapply wp_mono; [eapply (follow_path_spec G v0 T Hs HT); [by apply calm_start|exact Hun|done|done|done|done]|].
  intros [r dj] v1 [_ H]. cbn [fst snd] in *. destruct x as [sc k|sc fn|].
  - destruct H as (-> & _ & (fn & Hfn & Lfn) & sp & es & HTs & Hst). change (FR_OK =r FR_OK) with true. cbv iota.
    destruct (HT _ _ _ HTs) as [Hsp Hes]. pose proof (stands_calm _ _ _ _ _ _ _ Hst) as Hc1. destruct Hst as [Hat (e & He & Hon & Ha)].
    apply wp_bind. unfold no_name. apply wp_bind. unfold ch. apply wp_bind. eapply wp_chk.
    { rewrite Hfn, at_app, Lfn. change (NSFLAG <? 11) with false. change (NSFLAG - 11) with 0. reflexivity. }
    apply wp_ret, wp_ret. change (nz (Z.land (bval (mkb NS_LAST)) NS_NONAME)) with false. cbv iota.
    apply wp_bind. eapply wp_mono; [apply (get_fileinfo_spec G v0 v1 dj e fno); [done| |done]|].
    { destruct (dsect_ok G v0 sc sp Hs Hsp _ _ (proj1 (dsize_max G v0 sc sp Hs Hsp _ (da_range _ _ _ _ Hat))) (da_sect _ _ _ _ Hat)) as [? _]. lia. }
    intros i v2 [-> Hi]. apply wp_ret. split; [done|]. split; [done|]. by exists sp, es, e, i.
  - destruct H as (-> & Hc & _). change (FR_NO_FILE =r FR_OK) with false. cbv iota. by apply wp_ret.
  - destruct H as (-> & Hc). change (FR_NO_PATH =r FR_OK) with false. cbv iota. by apply wp_ret.
Qed.

(** ** In the world *)

Lemma f_open_append w vp pth rp mode fp0 sc sp es k e cs data :
  drive_ready (D := D) true -> drive_writable (D := D) -> hosts w vp v0 -> at_ (FatFs w) 0 = Some (Some vp) ->
  (forall s : world D, get_ldnumber (Some pth) s = Done ((0, rp), s)) -> leads v0 T pth rp (Found sc k) ->
  T !! sc = Some (sp, es) -> es !! k = Some e -> append_mode mode -> entry_file v0 e cs data ->
  wp (f_open fp0 (Some pth) mode) (fun r w' => FatFs w' = FatFs w /\ r.1 = append_result e /\ exists v', hosts w' vp v' /\ calm G v0 v' /\
    (r.1 = FR_OK -> appending vp mode sp k cs data r.2)) w.
Proof using Hun Hs HT.
  intros Hrdy Hwr Hh Hreg Hld Hle HTs He Hm Hef. unfold f_open.
  assert (Z.land mode (Z.lor FA_READ (Z.lor FA_WRITE (Z.lor FA_CREATE_ALWAYS (Z.lor FA_CREATE_NEW (Z.lor FA_OPEN_ALWAYS FA_OPEN_APPEND))))) = mode) as ->
    by (by destruct Hm as [->|[->| ->]]). cbv zeta.
  eapply mount_volume_hosts; [done|exact Hh|exact Hreg|apply (so_ok _ _ Hs)|exact Hld|by right|].
  change (FR_OK =r FR_OK) with true. cbv iota. apply wp_bind. eapply wp_at_volume; [exact Hh|].
  eapply wp_mono; [by apply (open_append_vol fp0 pth rp mode vp sc sp es k e cs data)|]. intros [r fp] v' (Hc & Hr & H). cbn [fst snd] in *.
  split; [by apply calm_geom in Hc|]. intros w' Hh' Ht. apply wp_ret. cbn [fst snd]. split; [done|]. split; [done|]. exists v'. split; [done|].
  split; [done|]. intros E. rewrite E. change (negb (FR_OK =r FR_OK)) with false. cbv iota. by apply H.
Qed.

Lemma f_stat_file w vp pth rp x fno :
  drive_ready (D := D) true -> hosts w vp v0 -> at_ (FatFs w) 0 = Some (Some vp) ->
  (forall s : world D, get_ldnumber (Some pth) s = Done ((0, rp), s)) -> leads v0 T pth rp x -> len (fi_fname fno) = 13 ->
  wp (f_stat (Some pth) (Some fno)) (fun r w' => (exists v', hosts w' vp v' /\ calm G v0 v') /\
    match x with
    | Found sc k => r.1 = FR_OK /\ exists sp es e i, T !! sc = Some (sp, es) /\ es !! k = Some e /\ r.2 = Some i /\ entry_info e i
    | Missing _ _ => r.1 = FR_NO_FILE
    | NoPath => r.1 = FR_NO_PATH
    end) w.
Proof using Hun Hs HT.
  intros Hrdy Hh Hreg Hld Hle Hl. unfold f_stat.
  eapply mount_volume_hosts; [done|exact Hh|exact Hreg|apply (so_ok _ _ Hs)|exact Hld|by left|].
  change (FR_OK =r FR_OK) with true. cbv iota. eapply (wp_at_volume w vp v0 pth (fun vp p => stat_vol vp p rp (Some fno))); [exact Hh|].
  eapply wp_mono; [by apply (stat_vol_spec vp pth rp x fno)|]. intros r v' [Hc H]. split; [by apply calm_geom in Hc|]. intros w' Hh' _.
  split; [by exists v'|done].
Qed.

End append.
