(* ===== verification/Mkfs.v ===== *)
(** * Creating a volume

    [create_partition] and [f_mkfs] of ff.c: the format parameters, the
    search for a cluster size and FAT type that fit, the boot record, the
    FSInfo sector, the FAT, the root directory and the partition table.  The
    sectors are built by functions on the work buffer; the computations run
    on the disk and that buffer ([mkst]). *)

From stdpp Require Import base numbers list option gmap.
From Stdlib Require Import ZArith Lia.
From Stdlib Require Import Strings.Byte.
From S2P Require Import Prelude Types Bytes Diskio Window Fat Chain Dir Path Mount.

Definition N_SEC_TRACK : Z := 63.

(** ** Contents of the sectors *)

(** [memset (b + o, x, n)] *)
Definition memset (b : list byte) (o x n : Z) : option (list byte) :=
  splice b o (replicate (Z.to_nat n) (mkb x)).

(** "\xEB\xFE\x90" "MSDOS5.0" *)
Definition BOOT_JUMP : list byte :=
  [xeb; xfe; x90; x4d; x53; x44; x4f; x53; x35; x2e; x30].
(** "NO NAME    " *)
Definition NO_NAME : list byte :=
  [x4e; x4f; x20; x4e; x41; x4d; x45; x20; x20; x20; x20].
(** "FAT     " *)
Definition FAT_NAME : list byte := [x46; x41; x54; x20; x20; x20; x20; x20].

(** The layout of the volume to be created. *)
Record mkfs_plan : Type := mkPlan {
  pl_fsty : Z; pl_pau : Z; pl_rsv : Z; pl_fat : Z; pl_dir : Z; pl_bfat : Z; pl_nclst : Z
}.

(** The boot record. *)
Definition mkfs_vbr (b : list byte) (pl : mkfs_plan) (n_fat n_root sz_vol b_vol vsn : Z) :
    option (list byte) :=
  b ← memset b 0 0 SS;
  b ← splice b BS_JmpBoot BOOT_JUMP;
  b ← st_word b BPB_BytsPerSec SS;
  b ← upd b BPB_SecPerClus (mkb (pl_pau pl));
  b ← st_word b BPB_RsvdSecCnt (u16 (pl_rsv pl));
  b ← upd b BPB_NumFATs (mkb n_fat);
  b ← st_word b BPB_RootEntCnt (u16 (if pl_fsty pl =? FS_FAT32 then 0 else n_root));
  b ← (if sz_vol <? 0x10000 then st_word b BPB_TotSec16 (u16 sz_vol)
       else st_dword b BPB_TotSec32 sz_vol);
  b ← upd b BPB_Media (mkb 0xF8);
  b ← st_word b BPB_SecPerTrk 63;
  b ← st_word b BPB_NumHeads 255;
  b ← st_dword b BPB_HiddSec b_vol;
  b ← (if pl_fsty pl =? FS_FAT32 then
         b ← st_dword b BS_VolID32 vsn;
         b ← st_dword b BPB_FATSz32 (pl_fat pl);
         b ← st_dword b BPB_RootClus32 2;
         b ← st_word b BPB_FSInfo32 1;
         b ← st_word b BPB_BkBootSec32 6;
         b ← upd b BS_DrvNum32 (mkb 0x80);
         b ← upd b BS_BootSig32 (mkb 0x29);
         splice b BS_VolLab32 (NO_NAME ++ FAT32_NAME)
       else
         b ← st_dword b BS_VolID vsn;
         b ← st_word b BPB_FATSz16 (u16 (pl_fat pl));
         b ← upd b BS_DrvNum (mkb 0x80);
         b ← upd b BS_BootSig (mkb 0x29);
         splice b BS_VolLab (NO_NAME ++ FAT_NAME));
  st_word b BS_55AA 0xAA55.

(** The FSInfo sector of a FAT32 volume. *)
Definition mkfs_fsinfo (b : list byte) (n_clst : Z) : option (list byte) :=
  b ← memset b 0 0 SS;
  b ← st_dword b FSI_LeadSig 0x41615252;
  b ← st_dword b FSI_StrucSig 0x61417272;
  b ← st_dword b FSI_Free_Count (u32 (n_clst - 1));
  b ← st_dword b FSI_Nxt_Free 2;
  st_word b BS_55AA 0xAA55.

(** The first entries of a FAT. *)
Definition mkfs_fat_head (b : list byte) (fsty : Z) : option (list byte) :=
  if fsty =? FS_FAT32 then
    b ← st_dword b 0 0xFFFFFFF8;
    b ← st_dword b 4 0xFFFFFFFF;
    st_dword b 8 0x0FFFFFFF
  else st_dword b 0 (if fsty =? FS_FAT12 then 0xFFFFF8 else 0xFFFFFFF8).

(** The CHS bytes of a partition boundary: head, sector, cylinder at [p]. *)
Definition put_chs (b : list byte) (p lba n_sc n_hd : Z) : option (list byte) :=
  let cy := lba / n_sc / n_hd in
  let hd := u8 (lba / n_sc mod n_hd) in
  let sc := u8 (lba mod n_sc + 1) in
  b ← upd b p (mkb hd);
  b ← upd b (p + 1) (mkb (Z.lor (Z.land (Z.shiftr cy 2) 0xC0) sc));
  upd b (p + 2) (mkb cy).

(** ** Parameters and layout *)

(** The AU size from the table of size boundaries, ended by 0. *)
Fixpoint auto_au (cst : list Z) (n pau : Z) : Z :=
  match cst with
  | [] => pau
  | c :: cst => if nz c && (c <=? n) then auto_au cst n (u32 (Z.shiftl pau 1)) else pau
  end.
Definition cst : list Z := [1; 4; 16; 64; 256; 512; 0].
Definition cst32 : list Z := [1; 2; 4; 8; 16; 32; 0].

(** What one turn of the search for a layout ends in. *)
Inductive mkfs_turn : Type :=
| Stop (r : FRESULT)
| Retry (sz_au fsty : Z)
| Plan (pl : mkfs_plan).

(** The sizes of a volume of type [fsty] with clusters of [pau] sectors: the
    type, the size of the FAT, of the reserved area and of the root directory;
    [None] when the type cannot hold the clusters. *)
Definition mkfs_sizes (fsty pau sz_vol n_root : Z) : option (Z * Z * Z * Z) :=
  let n_clst := sz_vol / pau in
  if fsty =? FS_FAT32 then
    if (n_clst <=? MAX_FAT16) || (n_clst >? MAX_FAT32) then None
    else Some (fsty, u32 (u32 (n_clst * 4) + 8 + SS - 1) / SS, 32, 0)
  else
    let '(fsty, n) :=
      if n_clst >? MAX_FAT12 then (fsty, u32 (u32 (n_clst * 2) + 4))
      else (FS_FAT12, u32 (u32 (n_clst * 3 + 1) / 2 + 3)) in
    Some (fsty, u32 (n + SS - 1) / SS, 1, u32 (n_root * SZDIRE) / SS).

(** Retry with another cluster size or type, or accept [n_clst] clusters. *)
Definition mkfs_judge (fsopt sz_au : Z) (pl : mkfs_plan) : mkfs_turn :=
  let pau := pl_pau pl in
  let n_clst := pl_nclst pl in
  let fsty := pl_fsty pl in
  if fsty =? FS_FAT32 then
    if n_clst <=? MAX_FAT16 then
      if (sz_au =? 0) && nz (pau / 2) then Retry (pau / 2) fsty else Stop FR_MKFS_ABORTED
    else Plan pl
  else if fsty =? FS_FAT16 then
    if n_clst >? MAX_FAT16 then
      if (sz_au =? 0) && (u32 (pau * 2) <=? 64) then Retry (u32 (pau * 2)) fsty
      else if nz (Z.land fsopt FM_FAT32) then Retry sz_au FS_FAT32
      else if (sz_au =? 0) && (u32 (pau * 2) <=? 128) then Retry (u32 (pau * 2)) fsty
      else Stop FR_MKFS_ABORTED
    else if n_clst <=? MAX_FAT12 then
      if (sz_au =? 0) && (u32 (pau * 2) <=? 128) then Retry (u32 (pau * 2)) fsty
      else Stop FR_MKFS_ABORTED
    else Plan pl
  else if (fsty =? FS_FAT12) && (n_clst >? MAX_FAT12) then Stop FR_MKFS_ABORTED
  else Plan pl.

(** One turn of the search. *)
Definition mkfs_try (fsopt sz_vol b_vol sz_blk n_fat n_root sz_au fsty : Z) : mkfs_turn :=
  let pau := if sz_au =? 0 then
               if fsty =? FS_FAT32 then auto_au cst32 (sz_vol / 0x20000) 1
               else auto_au cst (sz_vol / 0x1000) 1
             else sz_au in
  match mkfs_sizes fsty pau sz_vol n_root with
  | None => Stop FR_MKFS_ABORTED
  | Some (fsty, sz_fat, sz_rsv, sz_dir) =>
    let b_fat := u32 (b_vol + sz_rsv) in
    let b_data := u32 (b_fat + u32 (sz_fat * n_fat) + sz_dir) in
    let n := u32 (Z.land (u32 (b_data + sz_blk - 1)) (u32 (Z.lnot (sz_blk - 1))) - b_data) in
    let '(sz_rsv, b_fat, sz_fat) :=
      if fsty =? FS_FAT32 then (u32 (sz_rsv + n), u32 (b_fat + n), sz_fat)
      else
        let '(n, sz_rsv, b_fat) :=
          if nz (n mod n_fat) then (u32 (n - 1), u32 (sz_rsv + 1), u32 (b_fat + 1))
          else (n, sz_rsv, b_fat) in
        (sz_rsv, b_fat, u32 (sz_fat + n / n_fat)) in
    if sz_vol <? u32 (b_data + u32 (pau * 16) - b_vol) then Stop FR_MKFS_ABORTED else
    let n_clst := u32 (sz_vol - sz_rsv - u32 (sz_fat * n_fat) - sz_dir) / pau in
    mkfs_judge fsopt sz_au (mkPlan fsty pau sz_rsv sz_fat sz_dir b_fat n_clst)
  end.

(** The search. *)
Definition mkfs_search {S} (fsopt sz_vol b_vol sz_blk n_fat n_root sz_au fsty : Z) :
    M S (FRESULT + mkfs_plan) :=
  loop (fun a : Z * Z => let '(sz_au, fsty) := a in
    ret (match mkfs_try fsopt sz_vol b_vol sz_blk n_fat n_root sz_au fsty with
         | Stop r => inr (inl r)
         | Retry sz_au fsty => inl (sz_au, fsty)
         | Plan pl => inr (inr pl)
         end)) (sz_au, fsty).

(** The FAT type to start with. *)
Definition mkfs_type (fsopt : Z) : FRESULT + Z :=
  if nz (Z.land fsopt FM_FAT32) && negb (nz (Z.land fsopt FM_FAT)) then inr FS_FAT32
  else if negb (nz (Z.land fsopt FM_FAT)) then inl FR_INVALID_PARAMETER
  else inr FS_FAT16.

(** The system ID of the partition. *)
Definition mkfs_sys (fsty sz_vol : Z) : Z :=
  if fsty =? FS_FAT32 then 0x0C
  else if sz_vol >=? 0x10000 then 0x06
  else if fsty =? FS_FAT16 then 0x04
  else 0x01.

(** The options of [f_mkfs] that are in range, and defaults for the others:
    flags, number of FATs, root entries, sectors per cluster (0: to be chosen). *)
Definition mkfs_options (opt : MKFS_PARM) : Z * Z * Z * Z :=
  let fsopt := Z.land (mk_fmt opt) (Z.lor FM_ANY FM_SFD) in
  let n_fat := if (mk_n_fat opt >=? 1) && (mk_n_fat opt <=? 2) then mk_n_fat opt else 1 in
  let n_root := if (mk_n_root opt >=? 1) && (mk_n_root opt <=? 32768)
                   && (mk_n_root opt mod (SS / SZDIRE) =? 0) then mk_n_root opt else 512 in
  let sz_au := if (mk_au_size opt <=? 0x1000000)
                  && (Z.land (mk_au_size opt) (u32 (mk_au_size opt - 1)) =? 0)
               then mk_au_size opt else 0 in
  (fsopt, n_fat, n_root, sz_au / SS).

Definition defopt : MKFS_PARM := mkMKFS_PARM FM_ANY 0 0 0 0.

(** ** The computations *)

Record mkst (D : Type) : Type := mkMkst { mdsk : D; mbuf : list byte }.
Arguments mkMkst {D} _ _.
Arguments mdsk {D} _.
Arguments mbuf {D} _.

Section mkfs.
Context {Pf : Platform} {D : Type} `{!DiskIO D}.
Abbreviation K := (M (mkst D)).
Abbreviation W := (M (world D)).

Definition k_disk {A} (m : M D A) : K A := zoom mdsk (fun d s => mkMkst d (mbuf s)) m.
(** Rewrite the buffer. *)
Definition k_buf (f : list byte -> option (list byte)) : K unit :=
  s <- get ;; b <- chk (f (mbuf s)) ;; put (mkMkst (mdsk s) b).
(** [disk_write (pdrv, buf, sect, n)] *)
Definition k_write (pdrv sect n : Z) : K DRESULT :=
  s <- get ;; src <- chk (slice (mbuf s) 0 (n * SS)) ;; k_disk (dio_write pdrv src sect n).
(** [disk_ioctl] for the number of sectors. *)
Definition k_count (pdrv : Z) : K (FRESULT + Z) :=
  do (r, v) <- k_disk (dio_ioctl pdrv GET_SECTOR_COUNT) ;;
  if negb (r =d RES_OK) then ret (inl FR_DISK_ERR) else n <- chk v ;; ret (inr (u32 n)).

(** *** [create_partition] *)

(** The number of heads: doubled from 8 while there are too many cylinders,
    until it does not fit a byte. *)
Fixpoint part_heads (k : nat) (sz_drv n_hd : Z) : Z :=
  match k with
  | O => n_hd
  | S k => if nz n_hd && (sz_drv / n_hd / N_SEC_TRACK >? 1024)
           then part_heads k sz_drv (u8 (n_hd * 2)) else n_hd
  end.

(** The size of a partition: a percentage or a number of sectors, clipped to
    the drive. *)
Definition part_size (sz_drv nxt sz : Z) : Z :=
  let sz := if sz <=? 100 then if sz =? 100 then sz_drv else u32 (sz_drv / 100 * sz) else sz in
  if (u32 (nxt + sz) >? sz_drv) || (u32 (nxt + sz) <? nxt) then u32 (sz_drv - nxt) else sz.

(** One entry of the partition table at [pte]. *)
Definition put_pte (b : list byte) (pte nxt sz sys n_hd : Z) : option (list byte) :=
  b ← st_dword b (pte + PTE_StLba) nxt;
  b ← st_dword b (pte + PTE_SizLba) sz;
  b ← upd b (pte + PTE_System) (mkb sys);
  b ← put_chs b (pte + PTE_StHead) nxt N_SEC_TRACK n_hd;
  put_chs b (pte + PTE_EdHead) (u32 (nxt + sz - 1)) N_SEC_TRACK n_hd.

Fixpoint part_entries (k : nat) (i nxt pte : Z) (plst : list Z) (sz_drv sys n_hd : Z) : K unit :=
  match k with
  | O => ret tt
  | S k =>
    if nz nxt && (nxt <? sz_drv) then
      sz <- chk (at_ plst i) ;;
      let sz := part_size sz_drv nxt sz in
      if sz =? 0 then ret tt else
      k_buf (fun b => put_pte b pte nxt sz sys n_hd) ;;;
      part_entries k (i + 1) (u32 (nxt + sz)) (pte + SZ_PTE) plst sz_drv sys n_hd
    else ret tt
  end.

Definition create_partition (drv : Z) (plst : list Z) (sys : Z) : K FRESULT :=
  c <- k_count drv ;;
  match c with
  | inl e => ret e
  | inr sz_drv =>
    let n_hd := part_heads 6 sz_drv 8 in
    let n_hd := if n_hd =? 0 then 255 else n_hd in
    k_buf (fun b => memset b 0 0 SS) ;;;
    part_entries 4 0 N_SEC_TRACK MBR_Table plst sz_drv sys n_hd ;;;
    k_buf (fun b => st_word b BS_55AA 0xAA55) ;;;
    r <- k_write drv 0 1 ;;
    if negb (r =d RES_OK) then ret FR_DISK_ERR else ret FR_OK
  end.

(** *** [f_mkfs] *)

(** Fill [nsect] sectors from [sect] with the buffer; [clear] clears its
    first sector after each write.  [inr] the next sector. *)
Definition mkfs_fill (pdrv sz_buf sect nsect : Z) (clear : bool) : K (FRESULT + Z) :=
  loop (fun a : Z * Z => let '(sect, nsect) := a in
    let n := if nsect >? sz_buf then sz_buf else nsect in
    r <- k_write pdrv sect n ;;
    if negb (r =d RES_OK) then ret (inr (inl FR_DISK_ERR)) else
    (if clear then k_buf (fun b => memset b 0 0 SS) else ret tt) ;;;
    let sect := u32 (sect + n) in
    let nsect := u32 (nsect - n) in
    if nz nsect then ret (inl (sect, nsect)) else ret (inr (inr sect)))
  (sect, nsect).

(** Initialize the FATs. *)
Fixpoint mkfs_fats (k : nat) (pdrv sz_buf sect sz_fat fsty : Z) : K (FRESULT + Z) :=
  match k with
  | O => ret (inr sect)
  | S k =>
    k_buf (fun b => mkfs_fat_head b fsty) ;;;
    r <- mkfs_fill pdrv sz_buf sect sz_fat true ;;
    match r with
    | inl e => ret (inl e)
    | inr sect => mkfs_fats k pdrv sz_buf sect sz_fat fsty
    end
  end.

(** Write the volume the plan describes. *)
Definition mkfs_write (pdrv sz_buf : Z) (pl : mkfs_plan) (n_fat n_root sz_vol b_vol vsn : Z) : K FRESULT :=
  k_buf (fun b => mkfs_vbr b pl n_fat n_root sz_vol b_vol vsn) ;;;
  r <- k_write pdrv b_vol 1 ;;
  if negb (r =d RES_OK) then ret FR_DISK_ERR else
  (if pl_fsty pl =? FS_FAT32 then
     _ <- k_write pdrv (u32 (b_vol + 6)) 1 ;;
     k_buf (fun b => mkfs_fsinfo b (pl_nclst pl)) ;;;
     _ <- k_write pdrv (u32 (b_vol + 7)) 1 ;;
     _ <- k_write pdrv (u32 (b_vol + 1)) 1 ;; ret tt
   else ret tt) ;;;
  k_buf (fun b => memset b 0 0 (sz_buf * SS)) ;;;
  r <- mkfs_fats (Z.to_nat n_fat) pdrv sz_buf (pl_bfat pl) (pl_fat pl) (pl_fsty pl) ;;
  match r with
  | inl e => ret e
  | inr sect =>
    let nsect := if pl_fsty pl =? FS_FAT32 then pl_pau pl else pl_dir pl in
    r <- mkfs_fill pdrv sz_buf sect nsect false ;;
    match r with inl e => ret e | inr _ => ret FR_OK end
  end.

(** Where the volume goes: its base and its size. *)
Definition mkfs_locate (pdrv fsopt : Z) : K (FRESULT + Z * Z) :=
  c <- k_count pdrv ;;
  match c with
  | inl e => ret (inl e)
  | inr sz_vol =>
    let '(b_vol, sz_vol) :=
      if negb (nz (Z.land fsopt FM_SFD)) && (sz_vol >? N_SEC_TRACK)
      then (N_SEC_TRACK, u32 (sz_vol - N_SEC_TRACK)) else (0, sz_vol) in
    if sz_vol <? 128 then ret (inl FR_MKFS_ABORTED) else ret (inr (b_vol, sz_vol))
  end.

(** The block size of the medium, from the parameter or the driver. *)
Definition mkfs_block (pdrv align : Z) : K Z :=
  sz_blk <- (if align =? 0 then
               do (_, v) <- k_disk (dio_ioctl pdrv GET_BLOCK_SIZE) ;;
               ret (match v with Some x => u32 x | None => align end)
             else ret align) ;;
  ret (if (sz_blk =? 0) || (sz_blk >? 0x8000) || nz (Z.land sz_blk (sz_blk - 1)) then 1 else sz_blk).

Definition mkfs_run (pdrv : Z) (opt : MKFS_PARM) (sz_buf : Z) : K FRESULT :=
  sz_blk <- mkfs_block pdrv (mk_align opt) ;;
  let '(fsopt, n_fat, n_root, sz_au) := mkfs_options opt in
  if sz_buf =? 0 then ret FR_NOT_ENOUGH_CORE else
  r <- mkfs_locate pdrv fsopt ;;
  match r with
  | inl e => ret e
  | inr (b_vol, sz_vol) =>
    let sz_au := if sz_au >? 128 then 128 else sz_au in
    match mkfs_type fsopt with
    | inl e => ret e
    | inr fsty =>
      let vsn := u32 (sz_vol + GET_FATTIME) in
      r <- mkfs_search fsopt sz_vol b_vol sz_blk n_fat n_root sz_au fsty ;;
      match r with
      | inl e => ret e
      | inr pl =>
        res <- mkfs_write pdrv sz_buf pl n_fat n_root sz_vol b_vol vsn ;;
        if negb (res =r FR_OK) then ret res else
        res <- (if negb (nz (Z.land fsopt FM_SFD))
                then create_partition pdrv [sz_vol; 0] (mkfs_sys (pl_fsty pl) sz_vol)
                else ret FR_OK) ;;
        if negb (res =r FR_OK) then ret res else
        do (r, _) <- k_disk (dio_ioctl pdrv CTRL_SYNC) ;;
        if negb (r =d RES_OK) then ret FR_DISK_ERR else ret FR_OK
      end
    end
  end.

(** The work buffer is [work], of which the function may use [wlen] bytes; a
    null [opt] stands for the default parameters.  Returns the result code and
    the work buffer. *)
Definition f_mkfs (path : option (list byte)) (opt : option MKFS_PARM) (work : option (list byte))
    (wlen : Z) : W (FRESULT * option (list byte)) :=
  do (vol, _) <- get_ldnumber path ;;
  if vol <? 0 then ret (FR_INVALID_DRIVE, work) else
  ofs <- get_FatFs vol ;;
  (match ofs with Some p => on_fs p (mod_fs (set_fs_type 0)) | None => ret tt end) ;;;
  let pdrv := u8 vol in
  ds <- on_wdisk (dio_initialize pdrv) ;;
  if nz (Z.land ds STA_NOINIT) then ret (FR_NOT_READY, work) else
  if nz (Z.land ds STA_PROTECT) then ret (FR_WRITE_PROTECTED, work) else
  match work with
  | None =>
    (if mk_align (default defopt opt) =? 0 then
       _ <- on_wdisk (dio_ioctl pdrv GET_BLOCK_SIZE) ;; ret tt
     else ret tt) ;;;
    ret (FR_NOT_ENOUGH_CORE, work)
  | Some b =>
    do (res, b) <- on_wdisk (fun d =>
      match mkfs_run pdrv (default defopt opt) (wlen / SS) (mkMkst d b) with
      | Done (r, s) => Done ((r, mbuf s), mdsk s)
      | Fault => Fault
      | OutOfFuel => OutOfFuel
      end) ;;
    ret (res, Some b)
  end.

End mkfs.
