(* ===== verification/Plan.v ===== *)
(** * The layout that [f_mkfs] chooses

    The search for a cluster size and a FAT type ends, and a plan that it
    accepts describes areas that lie behind each other inside the volume, with
    a FAT that is large enough for the clusters and a number of clusters from
    which [mount_volume] derives the same type. *)

From stdpp Require Import base numbers list option gmap.
From Stdlib Require Import ZArith Lia.
From Stdlib Require Import Strings.Byte.
From S2P Require Import Prelude Types Bytes Diskio Window Fat Chain Dir Path Mount Mkfs.

(** A power of two, at most [2 ^ m]. *)
Definition pow2 (m x : Z) : Prop := exists k, 0 <= k <= m /\ x = 2 ^ k.

Lemma pow2_cases x : pow2 7 x -> x ∈ [1; 2; 4; 8; 16; 32; 64; 128].
Proof.
  intros (k & Hk & ->). assert (k ∈ seqZ 0 8) as H by (apply elem_of_seqZ; lia). clear Hk. revert k H.
  apply Forall_forall. by apply (bool_decide_unpack _); vm_compute.
Qed.

Lemma pow2_range x : pow2 7 x -> 1 <= x <= 128.
Proof. intros (k & Hk & ->). change 1 with (2 ^ 0). change 128 with (2 ^ 7). split; apply Z.pow_le_mono_r; lia. Qed.

(** The sectors to the next multiple of a power of two. *)
Lemma align_up m b : pow2 15 m -> 0 <= b < U32 - 32768 ->
  let n := u32 (Z.land (u32 (b + m - 1)) (u32 (Z.lnot (m - 1))) - b) in 0 <= n < m /\ (b + n) mod m = 0.
Proof.
  intros (k & Hk & ->) Hb n. assert (1 <= 2 ^ k <= 32768) as Hp.
  { change 1 with (2 ^ 0). change 32768 with (2 ^ 15). split; apply Z.pow_le_mono_r; lia. }
  set (x := b + 2 ^ k - 1).
  assert (Z.land x (u32 (Z.lnot (2 ^ k - 1))) = x - x mod 2 ^ k) as E.
  { replace (2 ^ k - 1) with (Z.ones k) by (by rewrite Z.ones_equiv, Z.sub_1_r). unfold u32. change 4294967296 with (2 ^ 32).
    rewrite <- (Z.land_ones (Z.lnot (Z.ones k)) 32) by lia. rewrite (Z.land_comm (Z.lnot _)), Z.land_assoc, Z.land_ones by lia.
    rewrite (Z.mod_small x) by (unfold x, U32 in *; change (2 ^ 32) with 4294967296; lia).
    rewrite <- Z.ldiff_land, Z.ldiff_ones_r by lia. rewrite Z.shiftl_mul_pow2, Z.shiftr_div_pow2 by lia.
    pose proof (Z.div_mod x (2 ^ k)). lia. }
  unfold n. fold x. rewrite (u32_small x) by (unfold x, U32 in *; lia). rewrite E.
  pose proof (Z.mod_pos_bound x (2 ^ k) ltac:(lia)). rewrite u32_small by (unfold x, U32 in *; lia).
  split; [unfold x in *; lia|]. replace (b + (x - x mod 2 ^ k - b)) with (x / 2 ^ k * 2 ^ k) by (pose proof (Z.div_mod x (2 ^ k)); lia).
  apply Z.mod_mul. lia.
Qed.

(** The cluster size that is chosen for the size of the volume. *)
Lemma auto_au_pow2 fsty n : pow2 7 (if fsty =? FS_FAT32 then auto_au cst32 (n / 0x20000) 1 else auto_au cst (n / 0x1000) 1).
Proof.
  assert (forall l m x k, 0 <= k -> k + len l <= 8 -> (exists l', l = l' ++ [0]) -> x = 2 ^ k -> pow2 7 (auto_au l m x)) as H.
  { intros l m. induction l as [|c l IH]; intros x k Hk Hl [l' El] ->; [by destruct l'|]. cbn [auto_au].
    change (c :: l) with ([c] ++ l) in Hl. rewrite len_app in Hl. change (len [c]) with 1 in Hl. pose proof (len_nonneg l).
    destruct (nz c && (c <=? m)) eqn:E; [|by exists k; split; [lia|]].
    destruct l' as [|c' l']; injection El as -> ->; [done|]. rewrite len_app in *. change (len [0]) with 1 in *. pose proof (len_nonneg l').
    apply (IH _ (k + 1)); [lia|lia|by exists l'|]. rewrite Z.shiftl_mul_pow2, Z.pow_add_r by lia. apply u32_small.
    pose proof (Z.pow_pos_nonneg 2 k). pose proof (Z.pow_le_mono_r 2 k 7). change (2 ^ 7) with 128 in *. change (2 ^ 1) with 2. unfold U32. lia. }
  destruct (fsty =? FS_FAT32); (apply (H _ _ 1 0); [done|done|by eexists [_; _; _; _; _; _]|done]).
Qed.

Section plan.
Context (fsopt sz_vol b_vol sz_blk n_fat n_root : Z).

(** The parameters of the search. *)
Record plan_in : Prop := mk_plan_in {
  pi_vol : 128 <= sz_vol;
  pi_base : 0 <= b_vol <= 63;
  pi_end : b_vol + sz_vol < U32;
  pi_blk : pow2 15 sz_blk;
  pi_fats : n_fat = 1 \/ n_fat = 2;
  pi_root : 16 <= n_root <= 32768 /\ n_root mod 16 = 0
}.

(** The sectors before the data area. *)
Definition plan_sys (pl : mkfs_plan) : Z := pl_rsv pl + n_fat * pl_fat pl + pl_dir pl.

(** An accepted plan. *)
Record plan_ok (pl : mkfs_plan) : Prop := mk_plan_ok {
  pk_pau : pow2 7 (pl_pau pl);
  pk_rsv : 1 <= pl_rsv pl < 65536;
  pk_rsv32 : pl_fsty pl = FS_FAT32 -> 32 <= pl_rsv pl;
  pk_bfat : pl_bfat pl = b_vol + pl_rsv pl;
  pk_fat : 1 <= pl_fat pl;
  pk_fat16 : pl_fsty pl <> FS_FAT32 -> pl_fat pl < 65536;
  pk_dir : pl_dir pl = if pl_fsty pl =? FS_FAT32 then 0 else n_root / 16;
  pk_room : plan_sys pl <= sz_vol;
  pk_align : (b_vol + plan_sys pl) mod sz_blk = 0;
  pk_nclst : pl_nclst pl = (sz_vol - plan_sys pl) / pl_pau pl;
  pk_type : pl_fsty pl = FS_FAT12 /\ pl_nclst pl <= MAX_FAT12 \/
            pl_fsty pl = FS_FAT16 /\ MAX_FAT12 < pl_nclst pl <= MAX_FAT16 \/
            pl_fsty pl = FS_FAT32 /\ MAX_FAT16 < pl_nclst pl <= MAX_FAT32;
  pk_size : fat_bytes (pl_fsty pl) (pl_nclst pl + 2) <= pl_fat pl * SS
}.

(** The sizes before the data area is aligned. *)
Lemma mkfs_sizes_spec fsty pau :
  plan_in -> pow2 7 pau -> fsty = FS_FAT16 \/ fsty = FS_FAT32 ->
  match mkfs_sizes fsty pau sz_vol n_root with
  | None => True
  | Some (ty, fat, rsv, dir) => 0 <= fat <= 8388608 /\ (ty =? FS_FAT32) = (fsty =? FS_FAT32) /\
    (ty = FS_FAT32 /\ MAX_FAT16 < sz_vol / pau <= MAX_FAT32 /\ rsv = 32 /\ dir = 0 /\ 4 * (sz_vol / pau) + 8 <= fat * SS < 4 * (sz_vol / pau) + 8 + SS \/
     ty = FS_FAT16 /\ rsv = 1 /\ dir = n_root / 16 /\ (sz_vol / pau < 67108864 -> 2 * (sz_vol / pau) + 4 <= fat * SS < 2 * (sz_vol / pau) + 4 + SS) \/
     ty = FS_FAT12 /\ rsv = 1 /\ dir = n_root / 16 /\ (3 * (sz_vol / pau) + 1) / 2 + 3 <= fat * SS < (3 * (sz_vol / pau) + 1) / 2 + 3 + SS)
  end.
Proof using Type.
  intros [H1 H2 H3 _ _ H4] Hp Hty. unfold mkfs_sizes. set (n0 := sz_vol / pau).
  pose proof (pow2_range pau Hp) as Hpau.
  assert (0 <= n0 < U32) as Hn0.
  { split; [apply Z.div_pos; lia|]. apply Z.div_lt_upper_bound; [lia|]. unfold U32 in *. nia. }
  assert (forall n, 0 <= u32 n / SS <= 8388608) as Hdiv.
  { intros n. pose proof (u32_range n). split; [apply Z.div_pos; [lia|done]|]. apply Z.div_le_upper_bound; [done|]. unfold U32, SS in *. lia. }
  assert (forall n, 0 <= n < U32 - SS -> n <= u32 (n + SS - 1) / SS * SS < n + SS) as Hup.
  { intros n Hn. rewrite u32_small by (unfold U32, SS in *; lia). pose proof (Z.div_mod (n + SS - 1) SS ltac:(done)).
    pose proof (Z.mod_pos_bound (n + SS - 1) SS ltac:(done)). lia. }
  assert (u32 (n_root * SZDIRE) / SS = n_root / 16) as Ed.
  { rewrite u32_small by (unfold SZDIRE, U32; lia). unfold SZDIRE, SS. change 512 with (16 * 32). by rewrite Z.div_mul_cancel_r. }
  destruct (Z.eqb_spec fsty FS_FAT32) as [->|Hne].
  - destruct (Z.leb_spec n0 MAX_FAT16) as [|H5]; cbn [orb]; [done|]. destruct (Z.gtb_spec n0 MAX_FAT32) as [|H6]; [done|].
    split; [apply Hdiv|]. split; [done|]. left. split; [done|]. split; [lia|]. split; [done|]. split; [done|].
    revert H5 H6. unfold MAX_FAT16, MAX_FAT32. intros H5 H6. rewrite (u32_small (n0 * 4)) by (unfold U32; lia).
    specialize (Hup (n0 * 4 + 8) ltac:(unfold U32, SS; lia)). lia.
  - assert (fsty = FS_FAT16) as -> by (by destruct Hty). destruct (Z.gtb_spec n0 MAX_FAT12) as [H5|H5].
    + split; [apply Hdiv|]. split; [done|]. right. left. split; [done|]. split; [done|]. split; [done|]. intros H6.
      rewrite (u32_small (n0 * 2)) by (unfold U32; lia). rewrite (u32_small (n0 * 2 + 4)) by (unfold U32; lia).
      specialize (Hup (n0 * 2 + 4) ltac:(unfold U32, SS; lia)). lia.
    + split; [apply Hdiv|]. split; [done|]. right. right. split; [done|]. split; [done|]. split; [done|].
      revert H5. unfold MAX_FAT12. intros H5. rewrite (u32_small (n0 * 3 + 1)) by (unfold U32; lia). rewrite (Z.mul_comm 3).
      assert (0 <= (n0 * 3 + 1) / 2 <= 7000) as Hh by (split; [apply Z.div_pos; lia|apply Z.div_le_upper_bound; lia]).
      rewrite (u32_small (_ / 2 + 3)) by (unfold U32; lia). apply Hup. unfold U32, SS. lia.
Qed.

(** The areas after the alignment. *)
Lemma aligned_spec ty fat rsv n :
  plan_in -> 0 <= fat <= 8388608 -> 0 <= rsv <= 32 -> 0 <= n < 32768 ->
  let '(rsv', bfat', fat') :=
    if ty =? FS_FAT32 then (u32 (rsv + n), u32 (u32 (b_vol + rsv) + n), fat)
    else
      let '(n, rsv, bfat) := if nz (n mod n_fat) then (u32 (n - 1), u32 (rsv + 1), u32 (u32 (b_vol + rsv) + 1)) else (n, rsv, u32 (b_vol + rsv)) in
      (rsv, bfat, u32 (fat + n / n_fat)) in
  rsv' + n_fat * fat' = rsv + n_fat * fat + n /\ bfat' = b_vol + rsv' /\ rsv <= rsv' <= rsv + n /\ fat <= fat' <= fat + n /\
  (ty = FS_FAT32 -> fat' = fat).
Proof using Type.
  intros [_ H2 _ _ H5 _] Hf Hr Hn. unfold nz. destruct (Z.eqb_spec ty FS_FAT32) as [->|Hne].
  - rewrite !u32_small by (rewrite ?u32_small by (unfold U32; lia); unfold U32; lia). lia.
  - destruct H5 as [->| ->].
    + rewrite Z.mod_1_r. change (negb (0 =? 0)) with false. cbv iota beta. rewrite Z.div_1_r, !u32_small by (unfold U32; lia). lia.
    + pose proof (Z.div_mod n 2 ltac:(lia)) as Dn. pose proof (Z.mod_pos_bound n 2 ltac:(lia)). destruct (Z.eqb_spec (n mod 2) 0) as [E|E]; cbn [negb].
      * rewrite !u32_small by (unfold U32; lia). lia.
      * rewrite (u32_small (n - 1)) by (unfold U32; lia). assert ((n - 1) / 2 = n / 2) as -> by (symmetry; apply (Z.div_unique _ _ _ 0); lia).
        rewrite !u32_small by (rewrite ?u32_small by (unfold U32; lia); unfold U32; lia). lia.
Qed.

(** The cluster size that is asked for: 0 when it is to be chosen. *)
Definition au_ok (sz_au : Z) : Prop := sz_au = 0 \/ pow2 7 sz_au.
(** The search goes from chosen to fixed cluster sizes and from FAT16 to
    FAT32. *)
Definition mkfs_measure (sz_au fsty : Z) : Z := (if sz_au =? 0 then 1 else 0) + (if fsty =? FS_FAT32 then 0 else 2).

Lemma pow2_double x m : pow2 7 x -> u32 (x * 2) <= m -> m <= 128 -> pow2 7 (u32 (x * 2)).
Proof using Type.
  intros Hx Hm Hl. apply pow2_cases in Hx.
  repeat (apply elem_of_cons in Hx as [->|Hx]; [first [change (u32 _) with 2; by exists 1|change (u32 _) with 4; by exists 2|change (u32 _) with 8; by exists 3|
    change (u32 _) with 16; by exists 4|change (u32 _) with 32; by exists 5|change (u32 _) with 64; by exists 6|change (u32 _) with 128; by exists 7|
    change (u32 _) with 256 in Hm; lia]|]). by apply elem_of_nil in Hx.
Qed.

Lemma pow2_half x : pow2 7 x -> x / 2 <> 0 -> pow2 7 (x / 2).
Proof using Type.
  intros (k & Hk & ->) Hne. destruct (Z.eq_dec k 0) as [->|]; [done|]. exists (k - 1). split; [lia|].
  replace k with (k - 1 + 1) at 1 by lia. rewrite Z.pow_add_r by lia. apply Z.div_mul. done.
Qed.

(** Another turn, an error, or the plan. *)
Lemma mkfs_judge_spec sz_au pl :
  au_ok sz_au -> pow2 7 (pl_pau pl) -> pl_fsty pl = FS_FAT12 \/ pl_fsty pl = FS_FAT16 \/ pl_fsty pl = FS_FAT32 ->
  match mkfs_judge fsopt sz_au pl with
  | Stop r => r = FR_MKFS_ABORTED
  | Retry au ty => au_ok au /\ (ty = FS_FAT16 \/ ty = FS_FAT32) /\ 0 <= mkfs_measure au ty < mkfs_measure sz_au (pl_fsty pl)
  | Plan pl' => pl' = pl /\ (pl_fsty pl = FS_FAT12 /\ pl_nclst pl <= MAX_FAT12 \/ pl_fsty pl = FS_FAT16 /\ MAX_FAT12 < pl_nclst pl <= MAX_FAT16 \/
      pl_fsty pl = FS_FAT32 /\ MAX_FAT16 < pl_nclst pl)
  end.
Proof using Type.
  intros Ha Hp Hty. unfold mkfs_judge, mkfs_measure.
  assert (forall x, pow2 7 x -> (x =? 0) = false) as Hnz.
  { intros x (k & Hk & ->). apply Z.eqb_neq. pose proof (Z.pow_pos_nonneg 2 k). lia. }
  assert (forall m, (u32 (pl_pau pl * 2) <=? m) = true -> m <= 128 -> pow2 7 (u32 (pl_pau pl * 2))) as Hd.
  { intros m Hm%Z.leb_le Hl. by apply (pow2_double _ m). }
  destruct Hty as [->|[->| ->]].
  - change (FS_FAT12 =? FS_FAT32) with false. change (FS_FAT12 =? FS_FAT16) with false. change (FS_FAT12 =? FS_FAT12) with true. cbn [andb].
    destruct (Z.gtb_spec (pl_nclst pl) MAX_FAT12); [done|]. split; [done|]. by left.
  - change (FS_FAT16 =? FS_FAT32) with false. change (FS_FAT16 =? FS_FAT16) with true. cbv iota.
    destruct (Z.gtb_spec (pl_nclst pl) MAX_FAT16).
    + destruct (Z.eqb_spec sz_au 0) as [->|E0]; cbn [andb].
      * destruct (u32 (pl_pau pl * 2) <=? 64) eqn:E1.
        { specialize (Hd _ E1 ltac:(lia)). rewrite (Hnz _ Hd). split; [by right|]. split; [by left|]. by cbn. }
        destruct (nz _); [by split; [left|split; [right|]]|]. destruct (u32 (pl_pau pl * 2) <=? 128) eqn:E2; [|done].
        specialize (Hd _ E2 ltac:(lia)). rewrite (Hnz _ Hd). split; [by right|]. split; [by left|]. by cbn.
      * destruct (nz _); [|done]. split; [done|]. split; [by right|]. rewrite (proj2 (Z.eqb_neq _ _) E0). by cbn.
    + destruct (Z.leb_spec (pl_nclst pl) MAX_FAT12); [|split; [done|right; left; done]].
      destruct (Z.eqb_spec sz_au 0) as [->|E0]; cbn [andb]; [|done]. destruct (u32 (pl_pau pl * 2) <=? 128) eqn:E2; [|done].
      specialize (Hd _ E2 ltac:(lia)). rewrite (Hnz _ Hd). split; [by right|]. split; [by left|]. by cbn.
  - change (FS_FAT32 =? FS_FAT32) with true. cbv iota. destruct (Z.leb_spec (pl_nclst pl) MAX_FAT16); [|split; [done|by right; right]].
    destruct (Z.eqb_spec sz_au 0) as [->|E0]; cbn [andb]; [|done]. unfold nz. destruct (Z.eqb_spec (pl_pau pl / 2) 0) as [|E1]; cbn [negb]; [done|].
    pose proof (pow2_half _ Hp E1) as Hh. rewrite ?(Hnz _ Hh). split; [by right|]. split; [by right|]. by cbn.
Qed.

(** The FAT is large enough for fewer clusters than the volume has. *)
Lemma fat_enough ty n n0 fat :
  0 <= n <= n0 -> n0 <= MAX_FAT32 -> ty = FS_FAT12 \/ ty = FS_FAT16 \/ ty = FS_FAT32 ->
  (ty = FS_FAT12 -> (3 * n0 + 1) / 2 + 3 <= fat * SS) -> (ty = FS_FAT16 -> 2 * n0 + 4 <= fat * SS) -> (ty = FS_FAT32 -> 4 * n0 + 8 <= fat * SS) ->
  fat_bytes ty (n + 2) <= fat * SS.
Proof using Type.
  intros Hn Hm Hty H1 H2 H3. unfold fat_bytes. unfold MAX_FAT32 in Hm. change (Z.land (n + 2) 1) with (Z.land (n + 2) (Z.ones 1)). rewrite Z.land_ones by lia.
  change (2 ^ 1) with 2. rewrite (u32_small ((n + 2) * 4)), (u32_small ((n + 2) * 2)), (u32_small ((n + 2) * 3)) by (unfold U32; lia).
  destruct Hty as [->|[->| ->]].
  - change (FS_FAT12 =? FS_FAT32) with false. change (FS_FAT12 =? FS_FAT16) with false. cbv iota. specialize (H1 eq_refl).
    pose proof (Z.div_mod ((n + 2) * 3) 2 ltac:(lia)). pose proof (Z.mod_pos_bound ((n + 2) * 3) 2 ltac:(lia)). pose proof (Z.mod_pos_bound (n + 2) 2 ltac:(lia)).
    pose proof (Z.div_mod (n + 2) 2 ltac:(lia)). pose proof (Z.div_mod (3 * n0 + 1) 2 ltac:(lia)). pose proof (Z.mod_pos_bound (3 * n0 + 1) 2 ltac:(lia)).
    rewrite u32_small by (unfold U32; lia). lia.
  - specialize (H2 eq_refl). change (FS_FAT16 =? FS_FAT32) with false. change (FS_FAT16 =? FS_FAT16) with true. cbv iota. lia.
  - specialize (H3 eq_refl). change (FS_FAT32 =? FS_FAT32) with true. cbv iota. lia.
Qed.

(** The areas fit when the number of clusters is accepted: the subtraction has
    not wrapped around. *)
Lemma room_spec pau sys ty :
  plan_in -> pow2 7 pau -> 0 <= sys < 33554432 -> let n := u32 (sz_vol - sys) / pau in
  (ty = FS_FAT32 -> sys <= sz_vol) -> n <= MAX_FAT16 \/ ty = FS_FAT32 ->
  sys <= sz_vol /\ n = (sz_vol - sys) / pau /\ 0 <= n <= sz_vol / pau /\ (n <= MAX_FAT16 -> sz_vol / pau < 67108864) /\ sz_vol / pau <= n + sys + 1.
Proof using Type.
  intros [H1 H2 H3 _ _ _] Hp Hs n H32 Hn. assert (sys <= sz_vol) as Hle.
  { destruct Hn as [Hn|Hn]; [|auto]. destruct (Z.le_gt_cases sys sz_vol) as [|Hgt]; [done|exfalso].
    assert (u32 (sz_vol - sys) = U32 + sz_vol - sys) as E.
    { unfold u32. rewrite <- (Z.mod_add _ 1) by done. rewrite Z.mod_small by (unfold U32; lia). unfold U32. lia. }
    unfold n in Hn. rewrite E in Hn. pose proof (pow2_range pau Hp). revert Hn. unfold MAX_FAT16. intros Hn.
    pose proof (Z.mul_succ_div_gt (U32 + sz_vol - sys) pau ltac:(lia)). unfold U32 in *. nia. }
  unfold n in *. rewrite u32_small in * by (unfold U32 in *; lia).
  pose proof (pow2_range pau Hp) as Hpau.
  split; [done|]. split; [done|]. split; [split; [apply Z.div_pos; lia|apply Z.div_le_mono; lia]|].
  pose proof (Z.mul_succ_div_gt (sz_vol - sys) pau ltac:(lia)). split; [unfold MAX_FAT16; intros Hm; apply Z.div_lt_upper_bound; nia|].
  apply Z.div_le_upper_bound; nia.
Qed.

Lemma mkfs_try_spec sz_au fsty :
  plan_in -> au_ok sz_au -> fsty = FS_FAT16 \/ fsty = FS_FAT32 ->
  match mkfs_try fsopt sz_vol b_vol sz_blk n_fat n_root sz_au fsty with
  | Stop r => r = FR_MKFS_ABORTED
  | Retry au ty => au_ok au /\ (ty = FS_FAT16 \/ ty = FS_FAT32) /\ 0 <= mkfs_measure au ty < mkfs_measure sz_au fsty
  | Plan pl => plan_ok pl
  end.
Proof using Type.
  intros Hin Ha Hty. unfold mkfs_try. cbv zeta. set (pau := if sz_au =? 0 then _ else _).
  assert (pow2 7 pau) as Hp.
  { unfold pau. destruct (Z.eqb_spec sz_au 0); [apply auto_au_pow2|by destruct Ha]. }
  clearbody pau. pose proof (mkfs_sizes_spec fsty pau Hin Hp Hty) as Hsz. destruct (mkfs_sizes fsty pau sz_vol n_root) as [[[[ty fat] rsv] dir]|]; [|done].
  pose proof Hin as [V1 V2 V3 V4 V5 [V6 V7]]. assert (1 <= n_root / 16 <= 2048) as Hroot by (split; [apply Z.div_le_lower_bound; lia|apply Z.div_le_upper_bound; lia]).
  destruct Hsz as (Hf & Ety & Hsz). assert (1 <= rsv <= 32 /\ 0 <= dir <= 2048) as [Hr Hd] by lia.
  assert (u32 (fat * n_fat) = n_fat * fat) as -> by (rewrite u32_small by (unfold U32; destruct V5; subst; lia); lia).
  set (bd := u32 (u32 (b_vol + rsv) + n_fat * fat + dir)).
  assert (bd = b_vol + rsv + n_fat * fat + dir) as Ebd.
  { unfold bd. rewrite (u32_small (b_vol + rsv)) by (unfold U32; lia). apply u32_small. unfold U32. destruct V5; subst; lia. }
  set (n := u32 (Z.land _ _ - bd)). destruct (align_up sz_blk bd V4) as [Hn Hal].
  { rewrite Ebd. unfold U32. destruct V5; subst; lia. }
  fold n in Hn, Hal. assert (sz_blk <= 32768) as Hblk by (destruct V4 as (j & Hj & ->); change 32768 with (2 ^ 15); apply Z.pow_le_mono_r; lia).
  pose proof (aligned_spec ty fat rsv n Hin Hf ltac:(lia) ltac:(lia)) as Hali. clearbody n. clearbody bd. subst bd.
  destruct (if ty =? FS_FAT32 then _ else _) as [[rsv' bfat'] fat']. destruct Hali as (A1 & A2 & A3 & A4 & A5).
  destruct (sz_vol <? _); [done|].
  assert (u32 (fat' * n_fat) = n_fat * fat') as -> by (rewrite u32_small by (unfold U32; destruct V5; subst; lia); lia).
  set (sys := rsv' + n_fat * fat' + dir). replace (sz_vol - rsv' - n_fat * fat' - dir) with (sz_vol - sys) by (unfold sys; lia).
  set (nc := u32 (sz_vol - sys) / pau). set (pl := mkPlan ty pau rsv' fat' dir bfat' nc).
  assert (ty = FS_FAT12 \/ ty = FS_FAT16 \/ ty = FS_FAT32) as Hty' by (destruct Hsz as [(-> & _)|[(-> & _)|(-> & _)]]; auto).
  assert (0 <= sys < 33554432) as Hsys by (unfold sys; rewrite A1; destruct V5; subst; lia).
  assert (ty = FS_FAT32 -> sys <= sz_vol) as H32.
  { intros ->. destruct Hsz as [(_ & S1 & -> & -> & S2)|[(? & _)|(? & _)]]; [|done|done]. unfold sys. rewrite A1.
    pose proof (pow2_range pau Hp). revert S1 S2. unfold MAX_FAT16, SS. intros S1 S2. set (n0 := sz_vol / pau) in *.
    assert (n0 <= sz_vol) by (unfold n0; apply Z.div_le_upper_bound; nia).
    destruct V5 as [E|E]; rewrite E; lia. }
  pose proof (mkfs_judge_spec sz_au pl Ha Hp Hty') as Hj. destruct (mkfs_judge fsopt sz_au pl) as [r|au ty'|pl']; [done| |].
  - destruct Hj as (J1 & J2 & J3). split; [done|]. split; [done|]. change (pl_fsty pl) with ty in J3. unfold mkfs_measure in *.
    by rewrite <- Ety.
  - destruct Hj as [-> J]. destruct (room_spec pau sys ty Hin Hp Hsys H32) as (R1 & R2 & R3 & R4 & R5).
    { destruct J as [[_ J]|[[_ J]|[J _]]]; [left|left|right; done]; revert J; unfold nc; cbn; unfold MAX_FAT12, MAX_FAT16; lia. }
    fold nc in R2, R3, R4, R5. change (pl_fsty pl) with ty in J. change (pl_nclst pl) with nc in J.
    assert (sys <= 34848 + 2 * fat) as Hsl by (unfold sys; rewrite A1; destruct V5 as [E|E]; rewrite E; lia).
    assert (sz_vol / pau <= MAX_FAT32 /\ (ty = FS_FAT12 -> (3 * (sz_vol / pau) + 1) / 2 + 3 <= fat * SS) /\
      (ty = FS_FAT16 -> 2 * (sz_vol / pau) + 4 <= fat * SS) /\ (ty = FS_FAT32 -> 4 * (sz_vol / pau) + 8 <= fat * SS) /\
      0 < fat /\ (ty <> FS_FAT32 -> fat < 32768)) as (B1 & B2 & B3 & B4 & B5 & B6).
    { clear - Hsz J R3 R4 R5 Hsl. revert J Hsz R4. unfold MAX_FAT12, MAX_FAT16, MAX_FAT32, FS_FAT12, FS_FAT16, FS_FAT32, SS. set (n0 := sz_vol / pau) in *.
      intros J Hsz R4. pose proof (Z.div_mod (3 * n0 + 1) 2 ltac:(lia)). pose proof (Z.mod_pos_bound (3 * n0 + 1) 2 ltac:(lia)).
      destruct J as [[-> J]|[[-> J]|[-> J]]], Hsz as [(? & S1)|[(? & S1)|(? & S1)]]; try done; lia. }
    unfold pl. split; cbn [pl_fsty pl_pau pl_rsv pl_fat pl_dir pl_bfat pl_nclst]; try done.
    + clear -Hr A3 Hn Hblk. lia.
    + intros ->. destruct Hsz as [(_ & _ & -> & _)|[(? & _)|(? & _)]]; [clear -A3; lia|done|done].
    + clear -A4 B5. lia.
    + intros Hne. specialize (B6 Hne). clear -B6 A4 Hn Hblk. lia.
    + destruct Hsz as [(-> & _ & _ & -> & _)|[(-> & _ & -> & _)|(-> & _ & -> & _)]]; done.
    + replace (b_vol + plan_sys _) with (b_vol + rsv + n_fat * fat + dir + n) by (unfold plan_sys; cbn; clear -A1; lia). done.
    + destruct J as [J|[J|[-> J]]]; [by left|by right; left|]. right. right. split; [done|]. clear -J R3 B1. lia.
    + apply (fat_enough ty nc (sz_vol / pau)); try done; unfold SS in *; intros E; [specialize (B2 E); clear -B2 A4|specialize (B3 E); clear -B3 A4|specialize (B4 E); clear -B4 A4]; lia.
Qed.

(** Small volumes that need no alignment: the first turn is the last. *)
Definition small_in (sz_au fsty : Z) : Prop := sz_blk = 1 /\ n_root = 512 /\ sz_vol <= MAX_FAT12 /\ sz_au = 0 /\ fsty = FS_FAT16.

Lemma small_plan : plan_in -> small_in 0 FS_FAT16 -> exists pl, mkfs_try fsopt sz_vol b_vol sz_blk n_fat n_root 0 FS_FAT16 = Plan pl /\ 0 < pl_nclst pl.
Proof using Type.
  intros Hin (Hblk & Hroot & Hv & _). pose proof Hin as [V1 V2 V3 V4 V5 _]. unfold mkfs_try. change (0 =? 0) with true. change (FS_FAT16 =? FS_FAT32) with false. cbv iota.
  unfold MAX_FAT12 in Hv. assert (sz_vol / 0x1000 = 0) as -> by (apply Z.div_small; lia). change (auto_au cst 0 1) with 1.
  pose proof (mkfs_sizes_spec FS_FAT16 1 Hin ltac:(by exists 0) ltac:(by left)) as Hsz. unfold mkfs_sizes in *. change (FS_FAT16 =? FS_FAT32) with false in *. cbv iota in *.
  rewrite Z.div_1_r in *. destruct (Z.gtb_spec sz_vol MAX_FAT12) as [H|_]; [unfold MAX_FAT12 in H; lia|]. set (fat := _ / SS) in *.
  destruct Hsz as (_ & _ & [(? & _)|[(? & _)|(_ & _ & Ed & Hf)]]); [done|done|]. rewrite Ed, Hroot in *. change (512 / 16) with 32 in *.
  assert (1 <= fat <= 13 /\ n_fat * fat + 60 <= sz_vol) as [Hfat Hroom].
  { unfold SS in Hf. pose proof (Z.div_mod (3 * sz_vol + 1) 2 ltac:(done)). pose proof (Z.mod_pos_bound (3 * sz_vol + 1) 2 ltac:(done)). destruct V5 as [-> | ->]; lia. }
  assert (1 <= n_fat * fat <= 26) as Hnf by (destruct V5 as [-> | ->]; lia).
  rewrite (Z.mul_comm fat), (u32_small (n_fat * fat)), (u32_small (b_vol + 1)), (u32_small (_ + 32)) by (unfold U32; lia).
  pose proof (align_up sz_blk (b_vol + 1 + n_fat * fat + 32) V4 ltac:(unfold U32; lia)) as Hal. cbv zeta in Hal. set (n := u32 (Z.land _ _ - _)) in *.
  rewrite Hblk in Hal. assert (n = 0) as -> by lia.
  change (FS_FAT12 =? FS_FAT32) with false. cbv iota. rewrite Z.mod_0_l by (destruct V5; lia). change (nz 0) with false. cbv iota. rewrite Z.div_0_l by (destruct V5; lia).
  rewrite (u32_small (fat + 0)), Z.add_0_r, (u32_small (1 * 16)), (u32_small (_ - b_vol)) by (unfold U32; lia).
  destruct (Z.ltb_spec sz_vol (b_vol + 1 + n_fat * fat + 32 + 1 * 16 - b_vol)) as [|_]; [lia|].
  rewrite (Z.mul_comm fat), (u32_small (n_fat * fat)), (u32_small (sz_vol - _ - _ - _)), Z.div_1_r by (unfold U32; lia).
  unfold mkfs_judge. cbn [pl_fsty pl_nclst pl_pau]. change (FS_FAT12 =? FS_FAT32) with false. change (FS_FAT12 =? FS_FAT16) with false. cbv iota.
  change (FS_FAT12 =? FS_FAT12) with true. cbn [andb]. destruct (Z.gtb_spec (sz_vol - 1 - n_fat * fat - 32) MAX_FAT12) as [H|_]; [unfold MAX_FAT12 in H; lia|].
  eexists. split; [done|]. cbn. lia.
Qed.

(** The search ends with an accepted plan or gives up. *)
Lemma mkfs_search_spec {S} sz_au fsty :
  plan_in -> au_ok sz_au -> fsty = FS_FAT16 \/ fsty = FS_FAT32 ->
  runs (mkfs_search (S := S) fsopt sz_vol b_vol sz_blk n_fat n_root sz_au fsty)
    (fun r => match r with inl e => e = FR_MKFS_ABORTED /\ ~ small_in sz_au fsty | inr pl => plan_ok pl /\ (small_in sz_au fsty -> 0 < pl_nclst pl) end).
Proof using Type.
  intros Hin Ha Hty. unfold mkfs_search.
  apply (runs_loop (fun a => au_ok a.1 /\ (a.2 = FS_FAT16 \/ a.2 = FS_FAT32) /\ (small_in sz_au fsty -> a = (0, FS_FAT16))) (fun a => mkfs_measure a.1 a.2)).
  - intros [au ty] (Ha' & Hty' & Hsm). cbn [fst snd] in *. apply runs_ret. pose proof (mkfs_try_spec au ty Hin Ha' Hty') as H.
    assert (small_in sz_au fsty -> exists pl, mkfs_try fsopt sz_vol b_vol sz_blk n_fat n_root au ty = Plan pl /\ 0 < pl_nclst pl) as Hpl.
    { intros Hs. specialize (Hsm Hs). injection Hsm as -> ->. apply small_plan; [done|]. destruct Hs as (H1 & H2 & H3 & _). done. }
    destruct (mkfs_try _ _ _ _ _ _ _ _) as [r|au' ty'|pl].
    + split; [done|]. intros Hs. by destruct (Hpl Hs) as (? & ? & _).
    + destruct H as (H1 & H2 & H3). split; [|done]. split; [done|]. split; [done|]. intros Hs. by destruct (Hpl Hs) as (? & ? & _).
    + split; [done|]. intros Hs. destruct (Hpl Hs) as (pl' & E & Hp). by injection E as ->.
  - split; [done|]. split; [done|]. intros (_ & _ & _ & -> & ->). done.
  - unfold mkfs_measure, LOOP_FUEL. cbn [fst snd]. destruct (_ =? _), (_ =? _); lia.
Qed.

End plan.

(** ** The parameters *)

(** A number without a bit in common with its predecessor. *)
Lemma land_pred_pow2 a : 0 < a -> Z.land a (a - 1) = 0 -> a = 2 ^ Z.log2 a.
Proof.
  intros Ha Hl. destruct (Z.log2_spec a Ha) as [H1 H2]. destruct (Z.eq_dec a (2 ^ Z.log2 a)) as [|Hne]; [done|exfalso].
  pose proof (Z.log2_nonneg a) as Hk. assert (Z.log2 (a - 1) = Z.log2 a) as E by (apply Z.log2_unique; lia).
  pose proof (Z.pow_pos_nonneg 2 (Z.log2 a)) as Hp.
  assert (Z.testbit (Z.land a (a - 1)) (Z.log2 a) = true) as Hb; [|by rewrite Hl, Z.testbit_0_l in Hb].
  rewrite Z.land_spec, Z.bit_log2 by done. rewrite <- E. apply Z.bit_log2. lia.
Qed.

Lemma mkfs_options_spec opt :
  0 <= mk_au_size opt < U32 ->
  let '(fsopt, n_fat, n_root, sz_au) := mkfs_options opt in
  (n_fat = 1 \/ n_fat = 2) /\ (16 <= n_root <= 32768 /\ n_root mod 16 = 0) /\ au_ok (if sz_au >? 128 then 128 else sz_au).
Proof.
  intros Ha. unfold mkfs_options. split; [|split].
  - destruct (Z.geb_spec (mk_n_fat opt) 1), (Z.leb_spec (mk_n_fat opt) 2); cbn [andb]; lia.
  - change (SS / SZDIRE) with 16. destruct (Z.geb_spec (mk_n_root opt) 1), (Z.leb_spec (mk_n_root opt) 32768); cbn [andb]; try done.
    destruct (Z.eqb_spec (mk_n_root opt mod 16) 0) as [E|]; [|done]. pose proof (Z.div_mod (mk_n_root opt) 16). lia.
  - destruct (Z.leb_spec (mk_au_size opt) 0x1000000) as [Hm|]; cbn [andb]; [|by left].
    destruct (Z.eqb_spec (Z.land (mk_au_size opt) (u32 (mk_au_size opt - 1))) 0) as [E|]; [|by left].
    destruct (Z.eq_dec (mk_au_size opt) 0) as [->|Hne]; [by left|]. rewrite u32_small in E by (unfold U32 in *; lia).
    set (a := mk_au_size opt) in *. pose proof (land_pred_pow2 a ltac:(lia) E) as Ea. set (k := Z.log2 a) in *.
    assert (0 <= k) as Hk by apply Z.log2_nonneg. destruct (Z.gtb_spec (a / SS) 128) as [|Hle]; [right; by exists 7|].
    destruct (Z.lt_ge_cases k 9) as [Hlt|Hge].
    + left. rewrite Ea. apply Z.div_small. split; [lia|]. unfold SS. change 512 with (2 ^ 9). apply Z.pow_lt_mono_r; lia.
    + right. assert (a / SS = 2 ^ (k - 9)) as Eq.
      { rewrite Ea. unfold SS. change 512 with (2 ^ 9). by rewrite Z.pow_sub_r by lia. }
      exists (k - 9). split; [|done]. split; [lia|]. rewrite Eq in Hle. change 128 with (2 ^ 7) in Hle. apply Z.pow_le_mono_r_iff in Hle; lia.
Qed.
