(* ===== verification/Boot.v ===== *)
(** * The sectors that [f_mkfs] writes

    What a reader finds in the boot record, the FSInfo sector, the head of a
    FAT and the partition table: the functions of [Mkfs] change only the first
    sector of the work buffer, and the fields that [mount_volume] reads there
    are those of the plan. *)

From stdpp Require Import base numbers list option gmap.
From Stdlib Require Import ZArith Lia.
From Stdlib Require Import Strings.Byte.
From S2P Require Import Prelude Types Bytes Diskio Window Fat Chain Dir Path Mount Mkfs Plan.

(** A sector of zeros. *)
Definition zsect : list byte := replicate (Z.to_nat SS) x00.

Lemma zsect_len : len zsect = SS.
Proof. by apply len_replicate. Qed.

Lemma slice_zeros n o k : 0 <= o -> 0 <= k -> o + k <= n -> slice (replicate (Z.to_nat n) x00) o k = Some (replicate (Z.to_nat k) x00).
Proof.
  intros Ho Hk Hn. unfold slice. rewrite len_replicate by lia.
  rewrite (proj2 (Z.leb_le 0 o)), (proj2 (Z.leb_le 0 k)), (proj2 (Z.leb_le (o + k) n)) by done. cbn [andb].
  rewrite drop_replicate, take_replicate. do 2 f_equal. lia.
Qed.

(** ** Functions on the first sector *)

(** [f] never fails on a buffer of at least one sector, changes nothing behind
    the first one, and does to it what it does to a buffer of one sector. *)
Definition on_first (f : list byte -> option (list byte)) : Prop :=
  forall b b1, slice b 0 SS = Some b1 -> exists b' b1', f b = Some b' /\ f b1 = Some b1' /\ len b' = len b /\ slice b' 0 SS = Some b1' /\
    forall o n, SS <= o -> slice b' o n = slice b o n.

Lemma on_first_bind f g : on_first f -> on_first g -> on_first (fun b => b' ← f b; g b').
Proof.
  intros Hf Hg b b1 H. destruct (Hf b b1 H) as (b' & b1' & E1 & E2 & E3 & E4 & E5).
  destruct (Hg b' b1' E4) as (b2 & b2' & F1 & F2 & F3 & F4 & F5). exists b2, b2'. rewrite E1, E2. cbn.
  split_and!; try done; [lia|]. intros o n Ho. by rewrite F5, E5.
Qed.

Lemma on_first_splice o src : 0 <= o -> o + len src <= SS -> on_first (fun b => splice b o src).
Proof.
  intros Ho Hl b b1 H. pose proof (slice_Some_inv _ _ _ _ H) as (_ & _ & Hle & Hl1 & _). rewrite Z.add_0_l in Hle.
  destruct (splice_is_Some b o src) as (b' & Hb' & Lb'); [done|lia|]. destruct (splice_is_Some b1 o src) as (b1' & Hb1' & Lb1'); [done|lia|].
  exists b', b1'. split_and!; try done.
  - destruct (slice_is_Some b' 0 SS) as (x & Hx & Lx); [done|done|lia|]. rewrite Hx. f_equal. apply at_ext. intros i.
    rewrite (at_slice _ _ _ _ i Hx), (at_splice _ _ _ _ i Hb1'), (at_splice _ _ _ _ _ Hb'), (at_slice _ _ _ _ i H), Z.add_0_l. 
    destruct (Z.leb_spec 0 i), (Z.ltb_spec i SS), (Z.leb_spec o i), (Z.ltb_spec i (o + len src)); cbn; done || lia.
  - intros o' n Ho'. apply (slice_splice_disjoint _ _ _ _ _ _ Hb'). lia.
Qed.

Lemma on_first_upd o x : 0 <= o < SS -> on_first (fun b => upd b o x).
Proof. intros Ho. apply on_first_splice; [lia|]. change (len [x]) with 1. lia. Qed.

Lemma on_first_st_word o x : 0 <= o -> o + 2 <= SS -> on_first (fun b => st_word b o x).
Proof.
  intros Ho Hl b b1 H. rewrite !st_word_splice. apply on_first_splice; [done| |done]. rewrite len_le_split. lia.
Qed.

Lemma on_first_st_dword o x : 0 <= o -> o + 4 <= SS -> on_first (fun b => st_dword b o x).
Proof.
  intros Ho Hl b b1 H. rewrite !st_dword_splice. apply on_first_splice; [done| |done]. rewrite len_le_split. lia.
Qed.

Lemma on_first_memset o x n : 0 <= o -> 0 <= n -> o + n <= SS -> on_first (fun b => memset b o x n).
Proof. intros Ho Hn Hl. apply on_first_splice; [done|]. rewrite len_replicate; lia. Qed.

Lemma on_first_if (c : bool) f g : on_first f -> on_first g -> on_first (fun b => if c then f b else g b).
Proof. by destruct c. Qed.

Ltac on_first :=
  lazymatch goal with
  | |- on_first (fun b => mbind _ _) => apply on_first_bind; [on_first|on_first]
  | |- on_first (fun b => if ?c then _ else _) => apply on_first_if; [on_first|on_first]
  | |- _ => first [apply on_first_upd; done|apply on_first_st_word; done|apply on_first_st_dword; done|apply on_first_memset; done|apply on_first_splice; done]
  end.

Lemma on_first_vbr pl n_fat n_root sz_vol b_vol vsn : on_first (fun b => mkfs_vbr b pl n_fat n_root sz_vol b_vol vsn).
Proof. unfold mkfs_vbr. on_first. Qed.

Lemma on_first_fsinfo n : on_first (fun b => mkfs_fsinfo b n).
Proof. unfold mkfs_fsinfo. on_first. Qed.

Lemma on_first_head ty : on_first (fun b => mkfs_fat_head b ty).
Proof. unfold mkfs_fat_head. on_first. Qed.

Lemma on_first_pte nxt sz sys n_hd : on_first (fun b => put_pte b MBR_Table nxt sz sys n_hd).
Proof. unfold put_pte, put_chs. cbv zeta. on_first. Qed.

(** ** Fields *)

Lemma slice_splice_inside {A} (l : list A) p src r o n :
  splice l p src = Some r -> p <= o -> 0 <= n -> o + n <= p + len src -> slice r o n = slice src (o - p) n.
Proof.
  intros H Ho Hn Hl. pose proof (slice_splice_same _ _ _ _ H) as Hs.
  rewrite (slice_slice _ _ _ _ (o - p) n Hs) by lia. f_equal. lia.
Qed.

Lemma stored_len {A} (l : list A) p src r n : splice l p src = Some r -> len l = n -> len r = n.
Proof. intros H <-. by eapply splice_len. Qed.

(** A field of a buffer that has been stored into. *)
Ltac fits := unfold_consts; rewrite ?len_le_split, ?len_replicate by done; unfold len, BOOT_JUMP, NO_NAME, FAT_NAME, FAT32_NAME; cbn [length app]; lia.
Ltac field :=
  repeat match goal with
  | H : splice ?b ?p ?src = Some ?x |- slice ?x ?o ?n = _ =>
    first [rewrite (slice_splice_disjoint _ _ _ _ o n H) by fits | exact (slice_splice_same _ _ _ _ H) | rewrite (slice_splice_inside _ _ _ _ o n H) by fits; reflexivity]
  end.

(** The stores of a sector. *)
Ltac stores :=
  repeat match goal with
  | H : mbind _ _ = Some _ |- _ => apply bind_Some in H as (? & ? & H)
  | H : st_word _ _ _ = Some _ |- _ => rewrite st_word_splice in H
  | H : st_dword _ _ _ = Some _ |- _ => rewrite st_dword_splice in H
  | H : upd _ _ _ = Some _ |- _ => unfold upd in H
  | H : memset _ _ _ _ = Some _ |- _ => unfold memset in H
  end.

(** The boot record of a volume. *)
Record vbr_of (b : list byte) (pl : mkfs_plan) (n_fat n_root sz_vol : Z) : Prop := mk_vbr_of {
  vb_len : len b = SS;
  vb_jump : slice b BS_JmpBoot 1 = Some [xeb];
  vb_ss : slice b BPB_BytsPerSec 2 = Some (le_split 2 SS);
  vb_pau : slice b BPB_SecPerClus 1 = Some [mkb (pl_pau pl)];
  vb_rsv : slice b BPB_RsvdSecCnt 2 = Some (le_split 2 (u16 (pl_rsv pl)));
  vb_fats : slice b BPB_NumFATs 1 = Some [mkb n_fat];
  vb_root : slice b BPB_RootEntCnt 2 = Some (le_split 2 (u16 (if pl_fsty pl =? FS_FAT32 then 0 else n_root)));
  vb_tot16 : slice b BPB_TotSec16 2 = Some (if sz_vol <? 0x10000 then le_split 2 (u16 sz_vol) else [x00; x00]);
  vb_tot32 : slice b BPB_TotSec32 4 = Some (if sz_vol <? 0x10000 then [x00; x00; x00; x00] else le_split 4 sz_vol);
  vb_fat16 : slice b BPB_FATSz16 2 = Some (if pl_fsty pl =? FS_FAT32 then [x00; x00] else le_split 2 (u16 (pl_fat pl)));
  vb_fat32 : pl_fsty pl = FS_FAT32 -> slice b BPB_FATSz32 4 = Some (le_split 4 (pl_fat pl)) /\ slice b BPB_FSVer32 2 = Some [x00; x00] /\
    slice b BPB_RootClus32 4 = Some (le_split 4 2) /\ slice b BPB_FSInfo32 2 = Some (le_split 2 1);
  vb_name : slice b BS_FilSysType32 8 = Some (if pl_fsty pl =? FS_FAT32 then FAT32_NAME else replicate 8 x00);
  vb_sign : slice b BS_55AA 2 = Some (le_split 2 0xAA55)
}.

Lemma vbr_fields b pl n_fat n_root sz_vol b_vol vsn b' :
  len b = SS -> mkfs_vbr b pl n_fat n_root sz_vol b_vol vsn = Some b' -> vbr_of b' pl n_fat n_root sz_vol.
Proof.
  intros Hl H. unfold mkfs_vbr in H.
  destruct (sz_vol <? 65536) eqn:Es; destruct (pl_fsty pl =? FS_FAT32) eqn:Et; stores.
  all: split; rewrite ?Es, ?Et; try solve [field|repeat (eapply stored_len; [eassumption|]); done].
  all: intros E; first [by rewrite E in Et|split_and!; field].
Qed.

(** Where the trailing signature of FSInfo is looked for, [f_mkfs] leaves
    zeros. *)
Lemma fsinfo_trail b n b' : len b = SS -> mkfs_fsinfo b n = Some b' -> slice b' FSI_TrailSig 4 = Some [x00; x00; x00; x00].
Proof. intros Hl H. unfold mkfs_fsinfo in H. stores. field. Qed.

(** The partition table with one partition. *)
Record mbr_of (b : list byte) (start : Z) : Prop := mk_mbr_of {
  mb_len : len b = SS;
  mb_jump : slice b BS_JmpBoot 1 = Some [x00];
  mb_part : slice b (MBR_Table + 0 * SZ_PTE + PTE_StLba) 4 = Some (le_split 4 start);
  mb_rest : forall i, 1 <= i < 4 -> slice b (MBR_Table + i * SZ_PTE + PTE_StLba) 4 = Some [x00; x00; x00; x00];
  mb_sign : slice b BS_55AA 2 = Some (le_split 2 0xAA55)
}.

Lemma mbr_fields b start sz sys n_hd b1 b2 b' :
  len b = SS -> memset b 0 0 SS = Some b1 -> put_pte b1 MBR_Table start sz sys n_hd = Some b2 -> st_word b2 BS_55AA 0xAA55 = Some b' -> mbr_of b' start.
Proof.
  intros Hl H1 H2 H3. unfold put_pte, put_chs in H2. cbv zeta in H2. stores.
  split; try solve [field|repeat (eapply stored_len; [eassumption|]); done].
  intros i Hi. assert (i = 1 \/ i = 2 \/ i = 3) as [->|[->| ->]] by lia; field.
Qed.

(** The first sector of a FAT. *)
Definition fat_head (ty : Z) : list byte := default [] (mkfs_fat_head zsect ty).

Lemma fat_head_len ty : len (fat_head ty) = SS.
Proof.
  unfold fat_head. destruct (on_first_head ty zsect zsect (slice_sector _ zsect_len)) as (b & b1 & E1 & _ & E2 & _). by rewrite E1.
Qed.

(** Its bytes. *)
Lemma fat_head_at ty o :
  ty = FS_FAT12 \/ ty = FS_FAT16 \/ ty = FS_FAT32 -> (if ty =? FS_FAT12 then 3 else if ty =? FS_FAT16 then 4 else 12) <= o < SS ->
  at_ (fat_head ty) o = Some x00.
Proof.
  intros Hty Ho.
  assert (forall k, drop k (fat_head ty) = replicate (512 - k) x00 -> (k <= 512)%nat -> Z.of_nat k <= o -> at_ (fat_head ty) o = Some x00) as H.
  { intros k Hk Hk1 Hk2. rewrite at_lookup by lia. replace (Z.to_nat o) with (k + (Z.to_nat o - k))%nat by lia. rewrite <- lookup_drop, Hk.
    apply lookup_replicate_2. unfold SS in Ho. lia. }
  destruct Hty as [->|[->| ->]]; [apply (H 3%nat)|apply (H 4%nat)|apply (H 12%nat)]; (vm_compute; reflexivity) || lia || apply Ho.
Qed.
