(* ===== verification/Format.v ===== *)
(** * Formatting a drive

    [f_mkfs] on a drive of [N] sectors that can be read and written: it ends,
    and when it succeeds the drive holds an empty volume as the plan describes
    it. *)

From stdpp Require Import base numbers list option gmap.
From Stdlib Require Import ZArith Lia.
From Stdlib Require Import Strings.Byte.
From S2P Require Import Prelude Types Bytes Diskio Window Fat Chain Dir Path Mount Mkfs Plan Boot.

Section format.
Context {D : Type} `{!DiskIO D} `{!DiskIOLaws D} (p N : Z).
Abbreviation K := (M (mkst D)).

(** A drive of [N] good sectors. *)
Record good_drive (d : D) : Prop := mk_good_drive {
  gd_ok : dok d;
  gd_good : forall x, 0 <= x < N -> dgood d p x
}.

(** The sectors from [lo] to [hi] have been written. *)
Record filled (d d' : D) (lo hi : Z) (f : Z -> list byte) : Prop := mk_filled {
  fd_good : good_drive d';
  fd_rest : forall x, x < lo \/ hi <= x -> media d' p x = media d p x;
  fd_new : forall x, lo <= x < hi -> media d' p x = Some (f x)
}.

Lemma filled_trans d d1 d2 lo mid hi f : lo <= mid <= hi -> filled d d1 lo mid f -> filled d1 d2 mid hi f -> filled d d2 lo hi f.
Proof using Type.
  intros Hm [_ H1 H2] [H3 H4 H5]. split; [done|..].
  - intros x Hx. rewrite H4, H1; [done|lia|lia].
  - intros x Hx. destruct (Z.lt_ge_cases x mid); [rewrite H4 by lia; apply H2; lia|apply H5; lia].
Qed.

Lemma filled_ext d d' lo hi f g : (forall x, lo <= x < hi -> f x = g x) -> filled d d' lo hi f -> filled d d' lo hi g.
Proof using Type. intros Hfg [H1 H2 H3]. split; [done|done|]. intros x Hx. by rewrite <- Hfg, H3. Qed.

Lemma filled_nil d lo f : good_drive d -> filled d d lo lo f.
Proof using Type. intros H. split; [done|done|lia]. Qed.

(** ** Rules *)

Lemma wp_k_disk {A} t (m : M D A) (Q : A -> mkst D -> Prop) s :
  wpt t m (fun a d => Q a (mkMkst d (mbuf s))) (mdsk s) -> wpt t (k_disk m) Q s.
Proof using Type. intros H. apply wp_zoom. exact H. Qed.

Lemma wp_k_buf t f b (Q : unit -> mkst D -> Prop) s :
  f (mbuf s) = Some b -> Q tt (mkMkst (mdsk s) b) -> wpt t (k_buf f) Q s.
Proof using Type. intros Hf HQ. apply wp_bind, wp_get, wp_bind. eapply wp_chk; [done|]. by apply wp_put. Qed.

Lemma k_write_spec s sect n f :
  good_drive (mdsk s) -> 0 < n -> 0 <= sect -> sect + n <= N ->
  (forall i, 0 <= i < n -> slice (mbuf s) (i * SS) SS = Some (f (sect + i))) ->
  wp (k_write p sect n) (fun r s' => r = RES_OK /\ mbuf s' = mbuf s /\ filled (mdsk s) (mdsk s') sect (sect + n) f) s.
Proof using Type.
  intros [Hd Hg] Hn Hs Hle Hb. unfold k_write. apply wp_bind, wp_get, wp_bind.
  pose proof (Hb (n - 1) ltac:(lia)) as (_ & _ & Hl & _)%slice_Some_inv.
  destruct (slice_is_Some (mbuf s) 0 (n * SS)) as (src & Hsrc & Lsrc); [done|unfold SS; lia|unfold SS in *; lia|].
  eapply wp_chk; [exact Hsrc|]. apply wp_k_disk. eapply wp_mono; [apply (dio_write_law (mdsk s) p src sect n); [done|lia|lia|done]|].
  intros r d' (H1 & H2 & H3 & H4 & H5). assert (r = RES_OK) as -> by (apply H4; [done|]; intros i Hi; apply Hg; lia).
  split; [done|]. split; [done|]. cbn. split; [split; [done|auto]|exact H2|].
  intros x Hx. replace x with (sect + (x - sect)) by lia. rewrite H3 by (done || lia).
  rewrite (slice_slice _ _ _ _ _ _ Hsrc) by (unfold SS; lia). apply Hb. lia.
Qed.

(** The drive tells its size. *)
Definition counted : Prop := forall d, dok d -> wp (dio_ioctl p GET_SECTOR_COUNT) (fun r _ => r = (RES_OK, Some N)) d.

(** Commands to the drive change no sector. *)
Lemma wp_k_ioctl cmd (Q : DRESULT * option Z -> mkst D -> Prop) s :
  good_drive (mdsk s) ->
  (forall r s', mbuf s' = mbuf s -> good_drive (mdsk s') -> (forall x, media (mdsk s') p x = media (mdsk s) p x) ->
     (cmd = GET_SECTOR_COUNT -> counted -> r = (RES_OK, Some N)) -> (cmd = CTRL_SYNC -> 0 < N -> r.1 = RES_OK) -> Q r s') ->
  wp (k_disk (dio_ioctl p cmd)) Q s.
Proof using Type.
  intros [Hd Hg] HQ. apply wp_k_disk. destruct (wp_run _ _ _ (dio_ioctl_law _ p cmd Hd)) as (r & d' & E & H1 & H2 & H3 & H4 & H5).
  eapply wp_of_run; [exact E|]. apply HQ; cbn [mdsk mbuf]; [done|split; auto|done|..].
  - intros -> Hc. specialize (Hc _ Hd). unfold wpt in Hc. by rewrite E in Hc.
  - intros Hcmd HN. apply H5; [done|]. exists 0. apply Hg. lia.
Qed.

Lemma k_count_spec s :
  0 <= N < U32 -> counted -> good_drive (mdsk s) ->
  wp (k_count p) (fun r s' => r = inr N /\ mbuf s' = mbuf s /\ good_drive (mdsk s') /\ forall x, media (mdsk s') p x = media (mdsk s) p x) s.
Proof using Type.
  intros HN Hc Hg. unfold k_count. apply wp_bind. apply wp_k_ioctl; [done|]. intros r s' H1 H2 H3 H4 _. rewrite (H4 eq_refl Hc).
  change (negb (RES_OK =d RES_OK)) with false. cbv iota. apply wp_bind. eapply wp_chk; [done|]. apply wp_ret. by rewrite u32_small.
Qed.

(** The first [n] sectors of the buffer: [h] and zeros. *)
Definition buf_is (b : list byte) (n : Z) (h : list byte) : Prop :=
  slice b 0 SS = Some h /\ forall i, 1 <= i < n -> slice b (i * SS) SS = Some zsect.

Lemma buf_is_first b n h f : buf_is b n h -> on_first f ->
  exists b' h', f b = Some b' /\ f h = Some h' /\ len b' = len b /\ buf_is b' n h'.
Proof using Type.
  intros [H1 H2] Hf. destruct (Hf b h H1) as (b' & h' & E1 & E2 & E3 & E4 & E5). exists b', h'. split_and!; try done.
  split; [done|]. intros i Hi. rewrite E5 by (unfold SS; lia). by apply H2.
Qed.

Lemma memset_sector h : len h = SS -> memset h 0 0 SS = Some zsect.
Proof using Type.
  intros Hl. unfold memset. change (replicate (Z.to_nat SS) (mkb 0)) with zsect. destruct (splice_is_Some h 0 zsect) as (r & Hr & Lr); [done|by rewrite zsect_len, Hl|].
  rewrite Hr. f_equal. pose proof (slice_splice_same _ _ _ _ Hr) as E. rewrite zsect_len in E. rewrite <- Hl, <- Lr, slice_all in E. congruence.
Qed.

(** ** Filling *)

(** The sectors from [lo]: [h], then zeros. *)
Definition headed (lo : Z) (h : list byte) (x : Z) : list byte := if x =? lo then h else zsect.

Lemma mkfs_fill_spec s sz_buf sect nsect h clear :
  N < U32 -> good_drive (mdsk s) -> 1 <= sz_buf -> buf_is (mbuf s) sz_buf h -> clear = true \/ h = zsect ->
  0 <= sect -> 1 <= nsect -> sect + nsect <= N ->
  wp (mkfs_fill p sz_buf sect nsect clear) (fun r s' => r = inr (sect + nsect) /\ len (mbuf s') = len (mbuf s) /\ buf_is (mbuf s') sz_buf zsect /\
    filled (mdsk s) (mdsk s') sect (sect + nsect) (headed sect h)) s.
Proof using Type.
  intros HN Hg Hsz Hb Hcl Hs Hn Hle. unfold mkfs_fill.
  set (I := fun (a : Z * Z) (s1 : mkst D) => a.1 + a.2 = sect + nsect /\ sect <= a.1 /\ 1 <= a.2 /\ len (mbuf s1) = len (mbuf s) /\
    buf_is (mbuf s1) sz_buf (headed sect h a.1) /\ filled (mdsk s) (mdsk s1) sect a.1 (headed sect h)).
  set (Q := fun (r : FRESULT + Z) (s' : mkst D) => r = inr (sect + nsect) /\ _).
  apply (wp_loop true I (fun a _ => a.2)).
  - intros [c n] s1 (I1 & I2 & I3 & I4 & I5 & I6). cbn [fst snd] in *. cbv zeta. set (m := if n >? sz_buf then sz_buf else n).
    assert (1 <= m /\ m <= n /\ m <= sz_buf) as Hm by (unfold m; destruct (Z.gtb_spec n sz_buf); lia). clearbody m.
    apply wp_bind. eapply wp_mono; [apply (k_write_spec s1 c m (headed sect h)); [apply I6|lia|lia|lia|]|].
    { intros i Hi. destruct I5 as [B1 B2]. destruct (Z.eq_dec i 0) as [->|]; [by rewrite Z.add_0_r|]. rewrite B2 by lia.
      unfold headed. by rewrite (proj2 (Z.eqb_neq _ _)) by lia. }
    intros r s2 (-> & Eb & Hf). change (negb (RES_OK =d RES_OK)) with false. cbv iota.
    assert (forall s3, mdsk s3 = mdsk s2 -> len (mbuf s3) = len (mbuf s2) -> buf_is (mbuf s3) sz_buf zsect ->
      wp (let sect0 := u32 (c + m) in let nsect0 := u32 (n - m) in if nz nsect0 then ret (inl (sect0, nsect0)) else ret (inr (inr sect0)))
        (fun r s3 => match r with inl a' => I a' s3 /\ 0 <= a'.2 < n | inr b => Q b s3 end) s3) as Hk.
    { intros s3 D3 L3 B3. cbv zeta. rewrite !u32_small by (unfold U32 in *; lia). rewrite <- D3 in Hf.
      pose proof (filled_trans (mdsk s) (mdsk s1) (mdsk s3) sect c (c + m) _ ltac:(lia) I6 Hf) as Hf'.
      unfold nz. destruct (Z.eqb_spec (n - m) 0) as [E|E]; cbn [negb]; apply wp_ret.
      - replace (c + m) with (sect + nsect) in * by lia. split; [done|]. split; [by rewrite L3, Eb|done].
      - split; [|cbn [snd]; lia]. split; cbn [fst snd]; [lia|]. split; [lia|]. split; [lia|]. split; [by rewrite L3, Eb|]. split; [|done].
        unfold headed. by rewrite (proj2 (Z.eqb_neq _ _)) by lia. }
    destruct clear.
    + apply wp_bind. destruct (buf_is_first (mbuf s2) sz_buf (headed sect h c) (fun b => memset b 0 0 SS)) as (b' & h' & E1 & E2 & E3 & E4);
        [by rewrite Eb|by apply on_first_memset|].
      eapply wp_k_buf; [exact E1|]. apply Hk; [done|done|]. destruct I5 as [B1 _]. rewrite memset_sector in E2 by (by eapply slice_len). by injection E2 as <-.
    + destruct Hcl as [|Hcl]; [done|]. apply wp_bind, wp_ret, Hk; [done|done|]. rewrite Eb. subst h.
      assert (headed sect zsect c = zsect) as E by (unfold headed; by destruct (c =? sect)). by rewrite E in I5.
  - split; cbn [fst snd]; [done|]. split; [lia|]. split; [lia|]. split; [done|]. split; [|by apply filled_nil]. unfold headed. by rewrite Z.eqb_refl.
  - cbn. unfold LOOP_FUEL, U32 in *. lia.
Qed.

(** The sectors of the FATs from [base]. *)
Definition fats_of (base fat ty x : Z) : list byte := if (x - base) mod fat =? 0 then fat_head ty else zsect.

Lemma mkfs_fats_spec sz_buf fat ty : N < U32 -> 1 <= sz_buf -> 1 <= fat -> forall k s sect,
  good_drive (mdsk s) -> buf_is (mbuf s) sz_buf zsect -> 0 <= sect -> sect + Z.of_nat k * fat <= N ->
  wp (mkfs_fats k p sz_buf sect fat ty) (fun r s' => r = inr (sect + Z.of_nat k * fat) /\ len (mbuf s') = len (mbuf s) /\ buf_is (mbuf s') sz_buf zsect /\
    filled (mdsk s) (mdsk s') sect (sect + Z.of_nat k * fat) (fats_of sect fat ty)) s.
Proof using Type.
  intros HN Hsz Hf. induction k as [|k IH]; intros s sect Hg Hb Hs Hle; cbn [mkfs_fats].
  - change (Z.of_nat 0) with 0. rewrite Z.mul_0_l, Z.add_0_r. apply wp_ret. split; [done|]. split; [done|]. split; [done|]. by apply filled_nil.
  - rewrite Nat2Z.inj_succ in *. destruct (buf_is_first (mbuf s) sz_buf zsect (fun b => mkfs_fat_head b ty) Hb (on_first_head ty)) as (b' & h' & E1 & E2 & E3 & E4).
    assert (h' = fat_head ty) as -> by (unfold fat_head; by rewrite E2).
    apply wp_bind. eapply wp_k_buf; [exact E1|]. apply wp_bind.
    eapply wp_mono; [apply (mkfs_fill_spec _ sz_buf sect fat (fat_head ty) true); cbn [mdsk mbuf]; try done; [by left|lia]|].
    intros r s1 (-> & L1 & B1 & F1). cbn [mdsk mbuf] in *. eapply wp_mono; [apply (IH s1 (sect + fat)); [apply F1|done|lia|lia]|].
    intros r s2 (-> & L2 & B2 & F2). replace (sect + fat + Z.of_nat k * fat) with (sect + Z.succ (Z.of_nat k) * fat) in * by lia.
    split; [done|]. split; [congruence|]. split; [done|]. apply (filled_trans (mdsk s) (mdsk s1) (mdsk s2) sect (sect + fat)); [lia|..].
    + revert F1. apply filled_ext. intros x Hx. unfold headed, fats_of. rewrite Z.mod_small by lia.
      destruct (Z.eqb_spec x sect), (Z.eqb_spec (x - sect) 0); done || lia.
    + revert F2. apply filled_ext. intros x Hx. unfold fats_of. replace (x - sect) with (x - (sect + fat) + 1 * fat) by lia. by rewrite Z.mod_add by lia.
Qed.

(** ** The volume *)

Section volume.
Context (b_vol sz_vol sz_blk n_fat n_root : Z) (pl : mkfs_plan).
Context (Hin : plan_in sz_vol b_vol sz_blk n_fat n_root) (Hpl : plan_ok sz_vol b_vol sz_blk n_fat n_root pl).
Context (HN : b_vol + sz_vol = N).

(** Where the FATs end, and how many sectors of the root directory follow. *)
Definition fats_end : Z := pl_bfat pl + n_fat * pl_fat pl.
Definition root_sects : Z := if pl_fsty pl =? FS_FAT32 then pl_pau pl else pl_dir pl.

(** The empty volume on the drive. *)
Record formatted (d : D) : Prop := mk_formatted {
  fm_good : good_drive d;
  fm_vbr : exists b, media d p b_vol = Some b /\ vbr_of b pl n_fat n_root sz_vol;
  fm_fsi : pl_fsty pl = FS_FAT32 -> exists b, media d p (b_vol + 1) = Some b /\ slice b FSI_TrailSig 4 = Some [x00; x00; x00; x00];
  fm_fats : forall x, pl_bfat pl <= x < fats_end -> media d p x = Some (fats_of (pl_bfat pl) (pl_fat pl) (pl_fsty pl) x);
  fm_root : forall x, fats_end <= x < fats_end + root_sects -> media d p x = Some zsect
}.

(** Where things are. *)
Lemma places : 0 <= b_vol < pl_bfat pl /\ pl_bfat pl < fats_end /\ 1 <= root_sects /\ (0 < pl_nclst pl -> fats_end + root_sects <= N) /\
  (pl_fsty pl <> FS_FAT32 -> fats_end + root_sects <= N) /\ (pl_fsty pl = FS_FAT32 -> b_vol + 32 <= pl_bfat pl /\ 0 < pl_nclst pl).
Proof using Hin Hpl HN.
  destruct Hin as [V1 V2 V3 V4 V5 [V6 V7]], Hpl as [P1 P2 P3 P4 P5 P6 P7 P8 P9 P10 P11 P12]. unfold plan_sys in *. pose proof (pow2_range _ P1) as Hp.
  assert (1 <= n_root / 16) by (apply Z.div_le_lower_bound; lia).
  assert (0 < pl_nclst pl -> plan_sys n_fat pl + pl_pau pl <= sz_vol) as Hroom.
  { unfold plan_sys. rewrite P10. intros H0. pose proof (Z.mul_div_le (sz_vol - (pl_rsv pl + n_fat * pl_fat pl + pl_dir pl)) (pl_pau pl) ltac:(lia)). nia. }
  unfold plan_sys in Hroom. assert (n_fat * pl_fat pl >= 1) by nia. unfold fats_end, root_sects. rewrite P4.
  destruct (Z.eqb_spec (pl_fsty pl) FS_FAT32) as [E|E].
  - specialize (P3 E). assert (0 < pl_nclst pl) by (destruct P11 as [[H' _]|[[H' _]|[_ P11]]]; [by rewrite E in H'|by rewrite E in H'|revert P11; unfold MAX_FAT16; lia]).
    split_and!; lia.
  - split_and!; try lia; done.
Qed.

(** The boot record and the FSInfo sector. *)
Record booted (s s' : mkst D) : Prop := mk_booted {
  bo_good : good_drive (mdsk s');
  bo_len : len (mbuf s') = len (mbuf s);
  bo_vbr : exists b, media (mdsk s') p b_vol = Some b /\ vbr_of b pl n_fat n_root sz_vol;
  bo_fsi : pl_fsty pl = FS_FAT32 -> exists b, media (mdsk s') p (b_vol + 1) = Some b /\ slice b FSI_TrailSig 4 = Some [x00; x00; x00; x00]
}.

(** One sector of the buffer is written. *)
Lemma write_first s sect b1 (Q : DRESULT -> mkst D -> Prop) :
  good_drive (mdsk s) -> 0 <= sect < N -> slice (mbuf s) 0 SS = Some b1 ->
  (forall s', mbuf s' = mbuf s -> good_drive (mdsk s') -> media (mdsk s') p sect = Some b1 ->
     (forall x, x <> sect -> media (mdsk s') p x = media (mdsk s) p x) -> Q RES_OK s') ->
  wp (k_write p sect 1) Q s.
Proof using Type.
  intros Hg Hs Hb HQ. eapply wp_mono; [apply (k_write_spec s sect 1 (fun _ => b1)); [done|lia|lia|lia|]|].
  - intros i Hi. by assert (i = 0) as -> by lia.
  - intros r s' (-> & Eb & [F1 F2 F3]). apply HQ; [done|done|apply F3; lia|]. intros x Hx. apply F2. lia.
Qed.

Lemma fsinfo_spec s b :
  good_drive (mdsk s) -> SS <= len (mbuf s) -> media (mdsk s) p b_vol = Some b -> vbr_of b pl n_fat n_root sz_vol ->
  wp (if pl_fsty pl =? FS_FAT32 then
        _ <- k_write p (u32 (b_vol + 6)) 1 ;;
        k_buf (fun b => mkfs_fsinfo b (pl_nclst pl)) ;;;
        _ <- k_write p (u32 (b_vol + 7)) 1 ;;
        _ <- k_write p (u32 (b_vol + 1)) 1 ;; ret tt
      else ret tt) (fun _ s' => booted s s') s.
Proof using Hin Hpl HN.
  intros Hg Hl Hb Hv. destruct (Z.eqb_spec (pl_fsty pl) FS_FAT32) as [E|E]; [|apply wp_ret; split; [done|done|by exists b|done]].
  destruct places as (L1 & L2 & L3 & _ & _ & L4). destruct (L4 E) as [L5 L6]. destruct Hin as [_ V2 V3 _ _ _].
  assert (pl_bfat pl <= N) by (pose proof places as (_ & _ & _ & H & _); specialize (H L6); lia).
  rewrite !u32_small by (unfold U32 in *; lia).
  destruct (slice_is_Some (mbuf s) 0 SS) as (b1 & Hb1 & _); [done|done|lia|].
  apply wp_bind. eapply write_first; [done|lia|exact Hb1|]. intros s1 E1 G1 _ R1. cbv beta.
  rewrite <- E1 in Hb1. destruct (on_first_fsinfo (pl_nclst pl) _ _ Hb1) as (b2 & b2' & F1 & F2 & F3 & F4 & _).
  apply wp_bind. eapply wp_k_buf; [exact F1|]. apply wp_bind. eapply write_first; [exact G1|lia|exact F4|]. intros s2 E2 G2 _ R2. cbv beta. cbn [mdsk mbuf] in *.
  rewrite <- E2 in F4. apply wp_bind. eapply write_first; [exact G2|lia|exact F4|]. intros s3 E3 G3 M3 R3. apply wp_ret.
  split; [done|congruence|exists b; split; [rewrite R3, R2, R1 by lia; done|done]|].
  intros _. exists b2'. split; [done|]. eapply fsinfo_trail; [|exact F2]. by eapply slice_len.
Qed.

Lemma memset_all b n : 1 <= n -> n * SS <= len b -> exists b', memset b 0 0 (n * SS) = Some b' /\ len b' = len b /\ buf_is b' n zsect.
Proof using Type.
  intros Hn Hl. unfold memset. destruct (splice_is_Some b 0 (replicate (Z.to_nat (n * SS)) (mkb 0))) as (b' & Hb & Lb).
  { done. } { rewrite len_replicate; unfold SS in *; lia. }
  exists b'. split; [done|]. split; [done|].
  assert (forall i, 0 <= i < n -> slice b' (i * SS) SS = Some zsect) as H.
  { intros i Hi. rewrite (slice_splice_inside _ _ _ _ (i * SS) SS Hb) by (rewrite ?len_replicate; unfold SS in *; lia).
    rewrite Z.sub_0_r. apply slice_zeros; unfold SS in *; lia. }
  split; [apply (H 0); lia|]. intros i Hi. apply H. lia.
Qed.

Lemma mkfs_write_spec s sz_buf vsn :
  N < U32 -> good_drive (mdsk s) -> 1 <= sz_buf -> sz_buf * SS <= len (mbuf s) -> 0 < pl_nclst pl \/ pl_fsty pl <> FS_FAT32 ->
  wp (mkfs_write p sz_buf pl n_fat n_root sz_vol b_vol vsn) (fun r s' => r = FR_OK /\ len (mbuf s') = len (mbuf s) /\ formatted (mdsk s')) s.
Proof using Hin Hpl HN.
  intros HU Hg Hsz Hl Hnc. destruct places as (L1 & L2 & L3 & L4 & L5 & L6). assert (fats_end + root_sects <= N) as Hend by (destruct Hnc; auto).
  pose proof (pk_fat _ _ _ _ _ _ Hpl) as Hfat. unfold mkfs_write.
  destruct (slice_is_Some (mbuf s) 0 SS) as (b1 & Hb1 & Lb1); [done|done|unfold SS in *; lia|].
  destruct (on_first_vbr pl n_fat n_root sz_vol b_vol vsn _ _ Hb1) as (b2 & b2' & E1 & E2 & E3 & E4 & _).
  apply wp_bind. eapply wp_k_buf; [exact E1|]. apply wp_bind. eapply write_first; [exact Hg|lia|exact E4|]. cbn [mdsk mbuf].
  intros s1 F1 G1 M1 _. change (negb (RES_OK =d RES_OK)) with false. cbv iota. apply wp_bind.
  eapply wp_mono; [apply (fsinfo_spec s1 b2' G1); [rewrite F1; unfold SS in *; lia|done|by eapply vbr_fields]|]. intros _ s2 [G2 L7 M2 M3].
  destruct (memset_all (mbuf s2) sz_buf Hsz) as (b3 & H1 & H2 & H3); [rewrite L7, F1; lia|].
  apply wp_bind. eapply wp_k_buf; [exact H1|]. apply wp_bind.
  assert (Z.of_nat (Z.to_nat n_fat) = n_fat) as En by (destruct (pi_fats _ _ _ _ _ Hin); subst; lia).
  eapply wp_mono; [apply (mkfs_fats_spec sz_buf (pl_fat pl) (pl_fsty pl) HU Hsz Hfat (Z.to_nat n_fat)); cbn [mdsk mbuf]; [done|done|lia|]|].
  { rewrite En. change (fats_end <= N). lia. }
  cbn [mdsk mbuf]. rewrite En. fold fats_end. intros r s3 (-> & L8 & B3 & [D1 D2 D3]). apply wp_bind. fold root_sects.
  eapply wp_mono; [apply (mkfs_fill_spec s3 sz_buf fats_end root_sects zsect false); [done|done|done|done|by right|lia|lia|done]|].
  intros r s4 (-> & L9 & _ & [D4 D5 D6]). apply wp_ret. split; [done|]. split; [congruence|].
  assert (forall x, x < pl_bfat pl -> media (mdsk s4) p x = media (mdsk s2) p x) as Hlow by (intros x Hx; rewrite D5, D2 by lia; done).
  split; [done|..].
  - destruct M2 as (b & Hb & Hv). exists b. by rewrite Hlow by lia.
  - intros E. destruct (M3 E) as (b & Hb & Hv). destruct (L6 E) as [? _]. exists b. by rewrite Hlow by lia.
  - intros x Hx. rewrite D5 by lia. by apply D3.
  - intros x Hx. rewrite D6 by done. unfold headed. by destruct (x =? fats_end).
Qed.

(** What the drive holds elsewhere does not matter. *)
Lemma formatted_frame d d' : formatted d -> good_drive d' -> (forall x, b_vol <= x -> media d' p x = media d p x) -> formatted d'.
Proof using Hin Hpl HN.
  intros [F1 F2 F3 F4 F5] Hg Hm. destruct places as (L1 & L2 & L3 & _). split; [done|..].
  - by rewrite Hm by lia.
  - by rewrite Hm by lia.
  - intros x Hx. rewrite Hm by lia. auto.
  - intros x Hx. rewrite Hm by lia. auto.
Qed.

(** The partition table does not touch a volume that starts behind it. *)
Lemma partition_spec s sys :
  N < U32 -> counted -> b_vol = N_SEC_TRACK -> formatted (mdsk s) -> SS <= len (mbuf s) ->
  wp (create_partition p [sz_vol; 0] sys) (fun r s' => r = FR_OK /\ len (mbuf s') = len (mbuf s) /\ formatted (mdsk s') /\
    exists b, media (mdsk s') p 0 = Some b /\ mbr_of b b_vol) s.
Proof using Hin Hpl HN.
  intros HU Hcount Hbv Hf Hl. destruct places as (L1 & L2 & L3 & _). destruct Hin as [V1 _ _ _ _ _]. unfold N_SEC_TRACK in Hbv.
  unfold create_partition. apply wp_bind. eapply wp_mono; [apply k_count_spec; [lia|done|apply Hf]|]. intros r s1 (-> & E1 & G1 & M1). cbv zeta.
  set (n_hd := if _ =? 0 then 255 else _). destruct (slice_is_Some (mbuf s1) 0 SS) as (b1 & Hb1 & Lb1); [done|done|rewrite E1; lia|].
  destruct (on_first_memset 0 0 SS ltac:(done) ltac:(done) ltac:(done) _ _ Hb1) as (b2 & b2' & F1 & F2 & F3 & F4 & _).
  apply wp_bind. eapply wp_k_buf; [exact F1|]. cbn [part_entries].
  rewrite (proj2 (Z.ltb_lt N_SEC_TRACK N)) by (unfold N_SEC_TRACK; lia). change (nz N_SEC_TRACK && true) with true. cbv iota.
  apply wp_bind, wp_bind. eapply wp_chk; [reflexivity|]. cbv beta zeta.
  assert (part_size N N_SEC_TRACK sz_vol = sz_vol) as ->.
  { unfold part_size, N_SEC_TRACK. rewrite (proj2 (Z.leb_gt sz_vol 100)) by lia. rewrite u32_small by (unfold U32 in *; lia).
    destruct (Z.gtb_spec (63 + sz_vol) N), (Z.ltb_spec (63 + sz_vol) 63); cbn; done || lia. }
  rewrite (proj2 (Z.eqb_neq sz_vol 0)) by lia.
  destruct (on_first_pte N_SEC_TRACK sz_vol sys n_hd _ _ F4) as (b3 & b3' & H1 & H2 & H3 & H4 & _).
  apply wp_bind. eapply wp_k_buf; [exact H1|].
  assert (u32 (N_SEC_TRACK + sz_vol) = N) as -> by (unfold N_SEC_TRACK; rewrite u32_small; lia). rewrite Z.ltb_irrefl, andb_false_r. apply wp_ret.
  destruct (on_first_st_word BS_55AA 0xAA55 ltac:(done) ltac:(done) _ _ H4) as (b4 & b4' & I1 & I2 & I3 & I4 & _).
  apply wp_bind. eapply wp_k_buf; [exact I1|]. apply wp_bind. eapply write_first; [exact G1|lia|exact I4|]. cbn [mdsk mbuf].
  intros s2 E2 G2 M2 R2. change (negb (RES_OK =d RES_OK)) with false. cbv iota. apply wp_ret. split; [done|]. split; [congruence|]. split.
  - apply (formatted_frame (mdsk s)); [done|done|]. intros x Hx. by rewrite R2, M1 by lia.
  - exists b4'. split; [done|]. rewrite Hbv. by eapply mbr_fields; [exact Lb1|exact F2|exact H2|].
Qed.

End volume.

(** A drive that has been formatted: an empty volume, on the whole drive or
    behind a partition table. *)
Inductive fresh_drive (d : D) : mkfs_plan -> Prop :=
| fresh_on b_vol sz_vol sz_blk n_fat n_root pl :
    plan_in sz_vol b_vol sz_blk n_fat n_root -> plan_ok sz_vol b_vol sz_blk n_fat n_root pl -> b_vol + sz_vol = N ->
    formatted b_vol sz_vol n_fat n_root pl d -> b_vol = 0 \/ (b_vol = N_SEC_TRACK /\ exists b, media d p 0 = Some b /\ mbr_of b b_vol) ->
    fresh_drive d pl.

(** ** [mkfs_run] *)

Lemma mkfs_block_spec s align :
  good_drive (mdsk s) -> 0 <= align ->
  wp (mkfs_block p align) (fun b s' => pow2 15 b /\ (align = 1 -> b = 1) /\ mbuf s' = mbuf s /\ good_drive (mdsk s') /\ forall x, media (mdsk s') p x = media (mdsk s) p x) s.
Proof using Type.
  intros Hg Ha. unfold mkfs_block. apply wp_bind.
  assert (forall b s', 0 <= b -> (align = 1 -> b = 1) -> mbuf s' = mbuf s -> good_drive (mdsk s') -> (forall x, media (mdsk s') p x = media (mdsk s) p x) ->
    wp (ret (if (b =? 0) || (b >? 0x8000) || nz (Z.land b (b - 1)) then 1 else b)) (fun b s' => pow2 15 b /\ (align = 1 -> b = 1) /\ mbuf s' = mbuf s /\
      good_drive (mdsk s') /\ forall x, media (mdsk s') p x = media (mdsk s) p x) s') as Hk.
  { intros b s' Hb H0 H1 H2 H3. apply wp_ret. split; [|split; [by intros Ea; rewrite (H0 Ea)|done]]. unfold nz. destruct (Z.eqb_spec b 0), (Z.gtb_spec b 0x8000); cbn [orb]; try by exists 0.
    destruct (Z.eqb_spec (Z.land b (b - 1)) 0) as [E|]; cbn [negb]; [|by exists 0]. exists (Z.log2 b). pose proof (land_pred_pow2 b ltac:(lia) E) as Eb.
    split; [|done]. split; [apply Z.log2_nonneg|]. change 15 with (Z.log2 0x8000). apply Z.log2_le_mono. lia. }
  destruct (Z.eqb_spec align 0) as [->|]; [|by apply wp_ret, Hk]. apply wp_bind. apply wp_k_ioctl; [done|]. intros [r v] s' H1 H2 H3 _ _. apply wp_ret, Hk; try done.
  destruct v as [x|]; [apply u32_range|done].
Qed.

(** What [f_mkfs] asks of its arguments: they have the widths of their types,
    and the buffer has the length that is given. *)
Record mkfs_args (opt : MKFS_PARM) (sz_buf : Z) (b : list byte) : Prop := mk_mkfs_args {
  ma_au : 0 <= mk_au_size opt < U32;
  ma_align : 0 <= mk_align opt < U32;
  ma_buf : 0 <= sz_buf /\ sz_buf * SS <= len b
}.

(** A small drive that is to have the default sizes and no alignment. *)
Record small_drive (opt : MKFS_PARM) : Prop := mk_small_drive {
  sm_fmt : nz (Z.land (mk_fmt opt) FM_FAT) = true;
  sm_au : mk_au_size opt = 0;
  sm_root : mk_n_root opt = 0;
  sm_align : mk_align opt = 1;
  sm_size : 128 + (if nz (Z.land (mk_fmt opt) FM_SFD) then 0 else N_SEC_TRACK) <= N <= MAX_FAT12
}.

(** The answers. *)
Definition mkfs_post (opt : MKFS_PARM) (sz_buf : Z) (d : D) (r : FRESULT) (d' : D) : Prop :=
  good_drive d' /\
  (r = FR_OK /\ (exists pl, fresh_drive d' pl /\ (small_drive opt -> 0 < pl_nclst pl)) \/
   (forall x, media d' p x = media d p x) /\
     (r = FR_NOT_ENOUGH_CORE /\ sz_buf = 0 \/
      r = FR_INVALID_PARAMETER /\ Z.land (mk_fmt opt) (Z.lor FM_FAT FM_FAT32) = 0 \/
      r = FR_MKFS_ABORTED /\ ~ small_drive opt)).

(** The type to start with. *)
Lemma mkfs_type_spec opt fsopt n_fat n_root sz_au :
  mkfs_options opt = (fsopt, n_fat, n_root, sz_au) ->
  match mkfs_type fsopt with
  | inl e => e = FR_INVALID_PARAMETER /\ Z.land (mk_fmt opt) (Z.lor FM_FAT FM_FAT32) = 0
  | inr ty => (ty = FS_FAT16 \/ ty = FS_FAT32) /\ (nz (Z.land (mk_fmt opt) FM_FAT) = true -> ty = FS_FAT16)
  end.
Proof using Type.
  unfold mkfs_options. intros [= <- _ _ _]. unfold mkfs_type, nz. rewrite <- !Z.land_assoc.
  change (Z.land (Z.lor FM_ANY FM_SFD) FM_FAT32) with FM_FAT32. change (Z.land (Z.lor FM_ANY FM_SFD) FM_FAT) with FM_FAT.
  rewrite Z.land_lor_distr_r. destruct (Z.eqb_spec (Z.land (mk_fmt opt) FM_FAT32) 0) as [->|], (Z.eqb_spec (Z.land (mk_fmt opt) FM_FAT) 0) as [->|]; cbn; auto.
  split; [by right|done].
Qed.

(** The part after the volume has been located. *)
Lemma mkfs_rest_spec opt sz_buf fsopt b_vol sz_vol sz_blk n_fat n_root sz_au fsty s :
  0 <= N < U32 -> counted -> good_drive (mdsk s) -> 1 <= sz_buf -> sz_buf * SS <= len (mbuf s) ->
  plan_in sz_vol b_vol sz_blk n_fat n_root -> b_vol + sz_vol = N -> b_vol = (if negb (nz (Z.land fsopt FM_SFD)) then N_SEC_TRACK else 0) ->
  au_ok sz_au -> fsty = FS_FAT16 \/ fsty = FS_FAT32 -> (small_drive opt -> small_in sz_vol sz_blk n_root sz_au fsty) ->
  wp (r <- mkfs_search fsopt sz_vol b_vol sz_blk n_fat n_root sz_au fsty ;;
      match r with
      | inl e => ret e
      | inr pl =>
        res <- mkfs_write p sz_buf pl n_fat n_root sz_vol b_vol (u32 (sz_vol + GET_FATTIME)) ;;
        if negb (res =r FR_OK) then ret res else
        res <- (if negb (nz (Z.land fsopt FM_SFD)) then create_partition p [sz_vol; 0] (mkfs_sys (pl_fsty pl) sz_vol) else ret FR_OK) ;;
        if negb (res =r FR_OK) then ret res else
        do (r, _) <- k_disk (dio_ioctl p CTRL_SYNC) ;;
        if negb (r =d RES_OK) then ret FR_DISK_ERR else ret FR_OK
      end) (fun r s' => len (mbuf s') = len (mbuf s) /\ mkfs_post opt sz_buf (mdsk s) r (mdsk s')) s.
Proof using Type.
  intros HN Hc Hg Hsz Hl Hin Hend Hb Hau Hty Hsm. pose proof (pi_vol _ _ _ _ _ Hin) as V1. pose proof (pi_base _ _ _ _ _ Hin) as V2. apply wp_bind.
  eapply wp_mono; [by apply (mkfs_search_spec fsopt sz_vol b_vol sz_blk n_fat n_root sz_au fsty)|]. intros [e|pl] s' [-> [Hpl Hpos]].
  { apply wp_ret. split; [done|]. split; [done|]. right. split; [done|]. right. right. split; [done|]. auto. }
  apply wp_bind. eapply wp_mono; [apply (mkfs_write_spec b_vol sz_vol sz_blk n_fat n_root pl Hin Hpl Hend s sz_buf); [lia|done|done|done|]|].
  { destruct (Z.eq_dec (pl_fsty pl) FS_FAT32) as [E|]; [left|by right]. by apply (places b_vol sz_vol sz_blk n_fat n_root pl Hin Hpl Hend). }
  intros r s1 (-> & L1 & F1). change (negb (FR_OK =r FR_OK)) with false. cbv iota. apply wp_bind.
  assert (forall s2, len (mbuf s2) = len (mbuf s) -> formatted b_vol sz_vol n_fat n_root pl (mdsk s2) ->
    b_vol = 0 \/ (b_vol = N_SEC_TRACK /\ exists b, media (mdsk s2) p 0 = Some b /\ mbr_of b b_vol) ->
    wp (if negb (FR_OK =r FR_OK) then ret FR_OK else do (r, _) <- k_disk (dio_ioctl p CTRL_SYNC) ;; if negb (r =d RES_OK) then ret FR_DISK_ERR else ret FR_OK)
      (fun r s' => len (mbuf s') = len (mbuf s) /\ mkfs_post opt sz_buf (mdsk s) r (mdsk s')) s2) as Hk.
  { intros s2 L2 F2 M2. change (negb (FR_OK =r FR_OK)) with false. cbv iota. apply wp_bind. apply wp_k_ioctl; [apply F2|].
    intros [r v] s3 E3 G3 M3 _ R3. cbn [fst] in R3. rewrite R3 by (done || lia). change (negb (RES_OK =d RES_OK)) with false. cbv iota. apply wp_ret.
    split; [congruence|]. split; [done|]. left. split; [done|]. exists pl. split; [|auto]. apply (fresh_on _ b_vol sz_vol sz_blk n_fat n_root); try done.
    - by apply (formatted_frame b_vol sz_vol sz_blk n_fat n_root pl Hin Hpl Hend (mdsk s2)).
    - by rewrite M3. }
  destruct (negb (nz (Z.land fsopt FM_SFD))).
  - eapply wp_mono; [apply (partition_spec b_vol sz_vol sz_blk n_fat n_root pl Hin Hpl Hend s1); [lia|done|done|done|]|].
    { rewrite L1. unfold SS in *. lia. }
    intros r s2 (-> & L2 & F2 & M2). apply Hk; [congruence|done|]. right. done.
  - apply wp_ret, Hk; [done|done|]. by left.
Qed.

Lemma mkfs_run_spec opt sz_buf s :
  0 <= N < U32 -> counted -> good_drive (mdsk s) -> mkfs_args opt sz_buf (mbuf s) ->
  wp (mkfs_run p opt sz_buf) (fun r s' => len (mbuf s') = len (mbuf s) /\ mkfs_post opt sz_buf (mdsk s) r (mdsk s')) s.
Proof using Type.
  intros HN Hc Hg [A1 A2 [A3 A4]]. unfold mkfs_run. apply wp_bind. eapply wp_mono; [apply mkfs_block_spec; [done|lia]|].
  intros blk s1 (Hblk & Hblk1 & E1 & G1 & M1). pose proof (mkfs_options_spec opt A1) as Hopt. destruct (mkfs_options opt) as [[[fsopt n_fat] n_root] sz_au] eqn:Eopt.
  destruct Hopt as (O1 & O2 & O3).
  destruct (Z.eqb_spec sz_buf 0) as [->|Hsz]; [apply wp_ret; split; [by rewrite E1|]; split; [done|right; split; [done|by left]]|].
  apply wp_bind. unfold mkfs_locate. apply wp_bind. eapply wp_mono; [apply k_count_spec; [done|done|done]|]. intros r s2 (-> & E2 & G2 & M2).
  assert (forall r s', len (mbuf s') = len (mbuf s2) /\ mkfs_post opt sz_buf (mdsk s2) r (mdsk s') ->
    len (mbuf s') = len (mbuf s) /\ mkfs_post opt sz_buf (mdsk s) r (mdsk s')) as Hpost.
  { intros r s' [H1 [H2 H3]]. split; [congruence|]. split; [done|]. destruct H3 as [H3|[H3 H4]]; [by left|right]. split; [|done]. intros x. by rewrite H3, M2, M1. }
  assert (forall r, (r = FR_INVALID_PARAMETER /\ Z.land (mk_fmt opt) (Z.lor FM_FAT FM_FAT32) = 0) \/ r = FR_MKFS_ABORTED /\ ~ small_drive opt ->
    len (mbuf s2) = len (mbuf s2) /\ mkfs_post opt sz_buf (mdsk s2) r (mdsk s2)) as Herr.
  { intros r Hr. split; [done|]. split; [done|]. right. split; [done|]. by right. }
  pose proof (mkfs_type_spec _ _ _ _ _ Eopt) as Hty.
  set (loc := if _ && _ then (N_SEC_TRACK, _) else _).
  assert (loc.1 + loc.2 = N /\ (128 + (if nz (Z.land fsopt FM_SFD) then 0 else N_SEC_TRACK) <= N -> 128 <= loc.2 <= N) /\ (128 <= loc.2 -> 0 <= loc.1 <= 63 /\ loc.1 = if negb (nz (Z.land fsopt FM_SFD)) then N_SEC_TRACK else 0)) as (Hsum & Hbig & Hb).
  { unfold loc. destruct (nz (Z.land fsopt FM_SFD)); cbn [andb negb]; [unfold N_SEC_TRACK in *; cbn [fst snd]; lia|].
    destruct (Z.gtb_spec N N_SEC_TRACK); unfold N_SEC_TRACK in *; cbn [fst snd]; [rewrite u32_small; lia|lia]. }
  assert (Z.land (mk_fmt opt) FM_SFD = Z.land fsopt FM_SFD) as Esfd.
  { unfold mkfs_options in Eopt. injection Eopt as <- _ _ _. by rewrite <- Z.land_assoc. }
  assert (small_drive opt -> 128 <= loc.2 <= N) as Hsmall by (intros Hs; apply Hbig; rewrite <- Esfd; apply (sm_size _ Hs)). clear Hbig Esfd.
  clearbody loc. destruct loc as [b_vol sz_vol]. cbn [fst snd] in *.
  destruct (Z.ltb_spec sz_vol 128) as [|Hge]; [apply wp_ret, wp_ret, Hpost, Herr; right; split; [done|]; intros Hs; specialize (Hsmall Hs); lia|].
  apply wp_ret. destruct (mkfs_type fsopt) as [e|fsty]; [apply wp_ret, Hpost, Herr; auto|]. destruct (Hb Hge) as [Hb1 Hb2]. eapply wp_mono; [|exact Hpost].
  destruct Hty as [Hty Hty16]. apply (mkfs_rest_spec opt sz_buf fsopt b_vol sz_vol blk n_fat n_root _ fsty); try done; [lia|by rewrite E2, E1| |].
  - split; try done; lia.
  - intros Hs. specialize (Hsmall Hs). destruct Hs as [S1 S2 S3 S4 S5]. unfold mkfs_options in Eopt. rewrite S2, S3 in Eopt. injection Eopt as _ _ <- <-.
    split; [by apply Hblk1|]. split; [done|]. split; [lia|]. split; [done|by apply Hty16].
Qed.

End format.
