(* ===== verification/MkfsSafe.v ===== *)
(** * [f_mkfs] on any drive

    Whatever the drive answers, with whatever number of sectors it reports and
    however often it fails, [f_mkfs] ends, stays inside its work buffer, and
    leaves the world well formed: the volume it formats over is invalid until it
    is mounted again. *)

From stdpp Require Import base numbers list option gmap.
From Stdlib Require Import ZArith Lia.
From Stdlib Require Import Strings.Byte.
From S2P Require Import Prelude Types Bytes Diskio Window Fat Chain Dir Path Mount Mkfs Plan Boot Format.

Section ksafe.
Context {D : Type} `{!DiskIO D} `{!DiskIOLaws D} (size : Z) (Hsize : SS <= size).
Abbreviation K := (M (mkst D)).

(** [m] ends without a bad access and keeps the drive in order and the work
    buffer at its size. *)
Definition ksafe {A} (m : K A) (P : A -> Prop) : Prop :=
  forall s, dok (mdsk s) -> len (mbuf s) = size -> wp m (fun a s' => (dok (mdsk s') /\ len (mbuf s') = size) /\ P a) s.

Lemma ksafe_ret {A} (a : A) (P : A -> Prop) : P a -> ksafe (ret a) P.
Proof using Type. intros HP s Hd Hl. by apply wp_ret. Qed.

Lemma ksafe_bind {A B} (m : K A) (k : A -> K B) P Q :
  ksafe m P -> (forall a, P a -> ksafe (k a) Q) -> ksafe (bind m k) Q.
Proof using Type.
  intros Hm Hk s Hd Hl. apply wp_bind. eapply wp_mono; [by apply Hm|]. intros a s' [[H1 H2] H3]. by apply Hk.
Qed.

Lemma ksafe_then {A B} (m : K A) (k : K B) P Q : ksafe m P -> ksafe k Q -> ksafe (bind m (fun _ => k)) Q.
Proof using Type. intros Hm Hk. eapply ksafe_bind; [exact Hm|]. by intros _ _. Qed.

Lemma ksafe_if {A} (c : bool) (m m' : K A) P : ksafe m P -> ksafe m' P -> ksafe (if c then m else m') P.
Proof using Type. by destruct c. Qed.

Lemma ksafe_runs {A} (m : K A) P : runs m P -> ksafe m P.
Proof using Type. intros H s Hd Hl. eapply wp_mono; [apply H|]. by intros a s' [-> ?]. Qed.

(** The buffer. *)
Lemma k_buf_safe f : on_first f -> ksafe (k_buf f) (fun _ => True).
Proof using Hsize.
  intros Hf s Hd Hl. destruct (slice_is_Some (mbuf s) 0 SS) as (b1 & Hb1 & _); [done|done|lia|].
  destruct (Hf _ _ Hb1) as (b' & b1' & E & _ & El & _). eapply wp_k_buf; [exact E|]. cbn. split; [|done]. split; [done|lia].
Qed.

Lemma k_clear_safe n : 0 <= n -> n * SS <= size -> ksafe (k_buf (fun b => memset b 0 0 (n * SS))) (fun _ => True).
Proof using Type.
  intros Hn Hl s Hd Hs. destruct (splice_is_Some (mbuf s) 0 (replicate (Z.to_nat (n * SS)) (mkb 0))) as (b' & Hb & Lb).
  { done. } { rewrite len_replicate; unfold SS in *; lia. }
  eapply wp_k_buf; [exact Hb|]. cbn. split; [|done]. split; [done|lia].
Qed.

(** The drive. *)
Lemma k_write_safe p sect n : 0 <= sect -> 0 <= n -> n * SS <= size -> ksafe (k_write p sect n) (fun _ => True).
Proof using Type.
  intros Hs Hn Hl s Hd Hsz. unfold k_write. apply wp_bind, wp_get, wp_bind.
  destruct (slice_is_Some (mbuf s) 0 (n * SS)) as (src & Hsrc & Lsrc); [done|unfold SS; lia|lia|].
  eapply wp_chk; [exact Hsrc|]. apply wp_k_disk. eapply wp_mono; [by apply (dio_write_law (mdsk s) p src sect n)|].
  intros r d' [H1 _]. by split.
Qed.

Lemma k_ioctl_safe p cmd : ksafe (k_disk (dio_ioctl p cmd)) (fun r => cmd = GET_SECTOR_COUNT -> r.1 = RES_OK -> is_Some r.2).
Proof using Type.
  intros s Hd Hl. apply wp_k_disk. eapply wp_mono; [by apply (dio_ioctl_law _ p cmd)|]. intros r d' (H1 & _ & H2 & _). by split.
Qed.

Lemma k_count_safe p : ksafe (k_count p) (fun r => forall n, r = inr n -> 0 <= n < U32).
Proof using Type.
  unfold k_count. eapply ksafe_bind; [apply k_ioctl_safe|]. intros [r v] Hv. cbn [fst snd] in Hv.
  destruct r; cbn; try by apply ksafe_ret. destruct (Hv eq_refl eq_refl) as [n ->]. cbn. apply ksafe_ret. intros n' [= <-]. apply u32_range.
Qed.

Lemma mkfs_block_safe p align : 0 <= align -> ksafe (mkfs_block p align) (pow2 15).
Proof using Type.
  intros Ha. unfold mkfs_block. apply (ksafe_bind _ _ (fun b => 0 <= b)).
  - apply ksafe_if; [|by apply ksafe_ret]. eapply ksafe_bind; [apply k_ioctl_safe|]. intros [r v] _. apply ksafe_ret.
    destruct v as [x|]; [apply u32_range|done].
  - intros b Hb. apply ksafe_ret. unfold nz. destruct (Z.eqb_spec b 0), (Z.gtb_spec b 0x8000); cbn [orb]; try by exists 0.
    destruct (Z.eqb_spec (Z.land b (b - 1)) 0) as [E|]; cbn [negb]; [|by exists 0]. exists (Z.log2 b).
    pose proof (land_pred_pow2 b ltac:(lia) E) as Eb. split; [|done]. split; [apply Z.log2_nonneg|].
    change 15 with (Z.log2 0x8000). apply Z.log2_le_mono. lia.
Qed.

(** *** The volume *)

Lemma mkfs_fill_safe p sz_buf sect nsect clear :
  1 <= sz_buf -> sz_buf * SS <= size -> 0 <= sect < U32 -> 0 <= nsect < U32 ->
  ksafe (mkfs_fill p sz_buf sect nsect clear) (fun r => forall x, r = inr x -> 0 <= x < U32).
Proof using Hsize.
  intros Hb Hbl Hs Hn s Hd Hl. unfold mkfs_fill.
  apply (wp_loop true (fun a s => (dok (mdsk s) /\ len (mbuf s) = size) /\ 0 <= a.1 < U32 /\ 0 <= a.2 < U32) (fun a _ => a.2)).
  - clear s Hd Hl. intros [c n] s ((Hd & Hl) & Hc & Hr). cbn [fst snd] in *. cbv zeta. set (m := if n >? sz_buf then sz_buf else n).
    assert (0 <= m <= n /\ m <= sz_buf /\ (n <> 0 -> 1 <= m)) as Hm by (unfold m; destruct (Z.gtb_spec n sz_buf); lia). clearbody m.
    eapply wp_mono; [refine (ksafe_bind _ _ (fun _ => True) (fun r => match r with
      | inl a' => 0 <= a'.1 < U32 /\ 0 <= a'.2 < n | inr b => forall x, b = inr x -> 0 <= x < U32 end) _ _ s Hd Hl)|].
    + apply k_write_safe; unfold SS in *; lia.
    + intros r _. destruct (negb _); [by apply ksafe_ret|]. eapply ksafe_then.
      { instantiate (1 := fun _ => True). apply ksafe_if; [|by apply ksafe_ret]. by apply k_buf_safe, on_first_memset. }
      cbv zeta. rewrite (u32_small (n - m)) by lia. pose proof (u32_range (c + m)) as Hu.
      unfold nz. destruct (Z.eqb_spec (n - m) 0); cbn [negb]; apply ksafe_ret; [by intros x [= <-]|]. cbn. lia.
    + intros [a'|b] s' [H1 H2]; [|by split]. destruct H2 as [H2 H3]. split; [|lia]. split; [done|]. split; [done|lia].
  - done.
  - cbn. unfold LOOP_FUEL, U32 in *. lia.
Qed.

Lemma mkfs_fats_safe p sz_buf fat ty : 1 <= sz_buf -> sz_buf * SS <= size -> 0 <= fat < U32 -> forall k sect,
  0 <= sect < U32 -> ksafe (mkfs_fats k p sz_buf sect fat ty) (fun r => forall x, r = inr x -> 0 <= x < U32).
Proof using Hsize.
  intros Hb Hbl Hf. induction k as [|k IH]; intros sect Hs; cbn [mkfs_fats]; [apply ksafe_ret; by intros x [= <-]|].
  eapply ksafe_then; [apply k_buf_safe, on_first_head|]. eapply ksafe_bind; [by apply mkfs_fill_safe|].
  intros [e|c] Hc; [by apply ksafe_ret|]. by apply IH, Hc.
Qed.

Lemma mkfs_write_safe p sz_buf pl n_fat n_root sz_vol b_vol sz_blk vsn :
  1 <= sz_buf -> sz_buf * SS <= size -> plan_in sz_vol b_vol sz_blk n_fat n_root -> plan_ok sz_vol b_vol sz_blk n_fat n_root pl ->
  ksafe (mkfs_write p sz_buf pl n_fat n_root sz_vol b_vol vsn) (fun _ => True).
Proof using Hsize.
  intros Hb Hbl Hin Hpl. pose proof (pi_base _ _ _ _ _ Hin) as V2. pose proof (pi_end _ _ _ _ _ Hin) as V3.
  destruct (places (b_vol + sz_vol) b_vol sz_vol sz_blk n_fat n_root pl Hin Hpl eq_refl) as (L1 & L2 & L3 & _).
  destruct Hpl as [P1 P2 _ P4 P5 _ P7 P8 _ _ _ _]. unfold plan_sys in P8. pose proof (pow2_range _ P1) as Hpau.
  destruct Hin as [V1 _ _ _ V5 [V6 V7]].
  assert (0 <= n_root / 16 <= 2048) as Hroot by (split; [apply Z.div_pos; lia|apply Z.div_le_upper_bound; lia]).
  assert (0 <= pl_fat pl < U32 /\ 0 <= pl_bfat pl < U32) as [Hfat Hbf].
  { rewrite P4. assert (0 <= pl_dir pl) by (rewrite P7; destruct (_ =? _); lia). destruct V5; subst; unfold U32 in *; lia. }
  assert (SS <= size -> forall c, 0 <= c -> ksafe (k_write p c 1) (fun _ => True)) as Hone.
  { intros Hs c Hc. apply k_write_safe; unfold SS in *; lia. }
  specialize (Hone Hsize). unfold mkfs_write.
  eapply ksafe_then; [apply k_buf_safe, on_first_vbr|]. eapply ksafe_bind; [apply Hone; lia|]. intros r _.
  destruct (negb _); [by apply ksafe_ret|]. eapply ksafe_then.
  { instantiate (1 := fun _ => True). apply ksafe_if; [|by apply ksafe_ret].
    eapply ksafe_then; [apply Hone, u32_range|]. eapply ksafe_then; [apply k_buf_safe, on_first_fsinfo|].
    eapply ksafe_then; [apply Hone, u32_range|]. eapply ksafe_then; [apply Hone, u32_range|]. by apply ksafe_ret. }
  eapply ksafe_then; [by apply k_clear_safe; [lia|]|]. eapply ksafe_bind; [by apply mkfs_fats_safe|].
  intros [e|c] Hc; [by apply ksafe_ret|]. cbv zeta. eapply ksafe_bind; [apply mkfs_fill_safe; [done|done|by apply Hc|]|].
  - rewrite P7. destruct (_ =? _); unfold U32; lia.
  - intros [e|x] _; by apply ksafe_ret.
Qed.

(** *** The partition table *)

Lemma create_partition_safe p sz sys : ksafe (create_partition p [sz; 0] sys) (fun _ => True).
Proof using Hsize.
  unfold create_partition. eapply ksafe_bind; [apply k_count_safe|]. intros [e|n] Hn; [by apply ksafe_ret|]. specialize (Hn n eq_refl). cbv zeta.
  set (n_hd := if _ =? 0 then 255 else _). clearbody n_hd. eapply ksafe_then; [by apply k_buf_safe, on_first_memset|]. eapply ksafe_then.
  - instantiate (1 := fun _ => True). cbn [part_entries].
    destruct (nz N_SEC_TRACK && (N_SEC_TRACK <? n)) eqn:E0; [|by apply ksafe_ret].
    change (at_ [sz; 0] 0) with (Some sz). cbn [chk]. eapply ksafe_bind; [apply (ksafe_ret sz (fun x => x = sz)); done|]. intros x ->.
    destruct (_ =? 0); [by apply ksafe_ret|]. eapply ksafe_then; [apply k_buf_safe, on_first_pte|].
    set (nxt := u32 _). destruct (nz nxt && (nxt <? n)) eqn:E1; [|by apply ksafe_ret].
    change (at_ [sz; 0] (0 + 1)) with (Some 0). eapply ksafe_bind; [apply (ksafe_ret 0 (fun x => x = 0)); done|]. intros x ->.
    assert (part_size n nxt 0 = 0) as ->; [|by apply ksafe_ret].
    apply andb_true_iff in E1 as [_ E1%Z.ltb_lt]. unfold part_size. change (0 <=? 100) with true. change (0 =? 100) with false. cbv iota zeta.
    rewrite Z.mul_0_r. change (u32 0) with 0. rewrite Z.add_0_r, (u32_small nxt) by apply u32_range.
    rewrite Z.gtb_ltb, (proj2 (Z.ltb_ge n nxt)), Z.ltb_irrefl by lia. done.
  - eapply ksafe_then; [by apply k_buf_safe, on_first_st_word|]. eapply ksafe_bind; [apply k_write_safe; unfold SS in *; lia|].
    intros r _. by apply ksafe_if; apply ksafe_ret.
Qed.

(** *** The whole *)

Lemma mkfs_locate_safe p fsopt :
  ksafe (mkfs_locate p fsopt) (fun r => match r with inl _ => True | inr (b, v) => 128 <= v /\ 0 <= b <= 63 /\ b + v < U32 end).
Proof using Type.
  unfold mkfs_locate. eapply ksafe_bind; [apply k_count_safe|]. intros [e|n] Hn; [by apply ksafe_ret|]. specialize (Hn n eq_refl).
  destruct (negb (nz (Z.land fsopt FM_SFD))), (Z.gtb_spec n N_SEC_TRACK) as [Hgt|Hle]; cbn [andb]; unfold N_SEC_TRACK in *.
  1: rewrite (u32_small (n - 63)) by lia.
  all: match goal with |- context [?x <? 128] => destruct (Z.ltb_spec x 128) end; apply ksafe_ret; try done; lia.
Qed.

Lemma mkfs_run_safe p opt sz_buf :
  0 <= mk_au_size opt < U32 -> 0 <= mk_align opt -> 0 <= sz_buf -> sz_buf * SS <= size ->
  ksafe (mkfs_run p opt sz_buf) (fun _ => True).
Proof using Hsize.
  intros Hau Hal Hb Hbl. unfold mkfs_run. eapply ksafe_bind; [by apply mkfs_block_safe|]. intros blk Hblk.
  pose proof (mkfs_options_spec opt Hau) as Hopt. destruct (mkfs_options opt) as [[[fsopt n_fat] n_root] sz_au] eqn:Eopt.
  destruct Hopt as (O1 & O2 & O3). destruct (Z.eqb_spec sz_buf 0); [by apply ksafe_ret|].
  eapply ksafe_bind; [apply mkfs_locate_safe|]. intros [e|[b_vol sz_vol]] Hloc; [by apply ksafe_ret|]. destruct Hloc as (H1 & H2 & H3).
  pose proof (mkfs_type_spec _ _ _ _ _ Eopt) as Hty. cbv zeta. destruct (mkfs_type fsopt) as [e|fsty]; [by apply ksafe_ret|].
  assert (plan_in sz_vol b_vol blk n_fat n_root) as Hin by (by split).
  eapply ksafe_bind; [apply ksafe_runs, mkfs_search_spec; [done|done|apply Hty]|]. intros [e|pl] Hpl; [by apply ksafe_ret|]. destruct Hpl as [Hpl _].
  eapply ksafe_bind; [by apply (mkfs_write_safe p sz_buf pl n_fat n_root sz_vol b_vol blk); [lia|..]|]. intros r _.
  destruct (negb _); [by apply ksafe_ret|]. eapply ksafe_bind.
  { instantiate (1 := fun _ => True). apply ksafe_if; [apply create_partition_safe|by apply ksafe_ret]. }
  intros r2 _. destruct (negb _); [by apply ksafe_ret|]. eapply ksafe_bind; [apply k_ioctl_safe|]. intros [x v] _. by apply ksafe_if; apply ksafe_ret.
Qed.

End ksafe.

Section world.
Context {D : Type} `{!DiskIO D} `{!DiskIOLaws D} (h : gset Z).

(** The arguments have the widths of their types, and a work buffer has the
    length that is given. *)
Definition mkfs_call_ok (opt : option MKFS_PARM) (work : option (list byte)) (wlen : Z) : Prop :=
  let o := default defopt opt in
  0 <= mk_au_size o < U32 /\ 0 <= mk_align o < U32 /\ 0 <= wlen < U32 /\ (forall b, work = Some b -> wlen <= len b).

(** The work buffer comes back with its length. *)
Definition same_work (work work' : option (list byte)) : Prop := len <$> work' = len <$> work.

Lemma winv_disk (w : world D) d : winv false h w -> dok d -> winv false h (mkWorld (heap w) (FatFs w) (Fsid w) d).
Proof using Type. intros [I1 I2 I3 I4 I5 I6 I7] Hd. by constructor. Qed.

(** A computation on the drive in the world. *)
Lemma wp_wdisk {A} (m : M D A) (P : A -> Prop) (Q : A -> world D -> Prop) w :
  winv false h w -> (forall d, dok d -> wp m (fun a d' => dok d' /\ P a) d) ->
  (forall a w', winv false h w' -> P a -> Q a w') -> wp (on_wdisk m) Q w.
Proof using Type.
  intros Hw Hm HQ. apply wp_zoom. eapply wp_mono; [apply Hm, Hw|]. intros a d [Hd HP]. apply HQ; [|done]. by apply winv_disk.
Qed.

(** [f_mkfs] ends, whatever the drive does; the world stays well formed. *)
Lemma f_mkfs_ends path opt work wlen w :
  path_arg path -> mkfs_call_ok opt work wlen -> winv false h w ->
  wp (f_mkfs path opt work wlen) (fun r w' => winv false h w' /\ same_work work r.2) w.
Proof using Type.
  intros Hp (A1 & A2 & A3 & A4) Hw. unfold f_mkfs. apply wp_bind.
  eapply wp_mono; [apply (get_ldnumber_runs path Hp)|]. intros [vol rp] w' (-> & Hv & _ & _). cbn [fst snd] in *.
  destruct (Z.ltb_spec vol 0); [by apply wp_ret|]. apply wp_bind. eapply wp_get_FatFs; [exact Hw|lia|]. intros o Ho Hreg. apply wp_bind.
  apply (wp_mono _ _ (fun _ w1 => winv false h w1)).
  { destruct o as [q|]; [|by apply wp_ret]. eapply wp_invalidate; [exact Hw|by apply Hreg|intros fs Hfs; by split; [apply fs_ok_set_fs_type|]|]. done. }
  intros _ w1 Hw1. cbv zeta. apply wp_bind. apply (wp_wdisk _ (fun _ => True)); [done|intros d Hd; eapply wp_mono; [by apply dio_initialize_law|]; by intros a d' [? _]|].
  intros st w2 Hw2 _. destruct (nz _); [by apply wp_ret|]. destruct (nz _); [by apply wp_ret|]. destruct work as [b|].
  - specialize (A4 b eq_refl). apply wp_bind. apply (wp_wdisk _ (fun r => len r.2 = len b)); [done| |].
    + intros d Hd. assert (0 <= wlen / SS /\ wlen / SS * SS <= len b) as [B1 B2].
      { split; [apply Z.div_pos; [lia|done]|]. pose proof (Z.mul_div_le wlen SS ltac:(done)). lia. }
      destruct (Z.eq_dec (wlen / SS) 0) as [E|E].
      * pose proof (mkfs_block_safe (len b) (u8 vol) (mk_align (default defopt opt)) ltac:(lia)) as Hbk.
        destruct (wp_run _ _ _ (Hbk (mkMkst d b) Hd eq_refl)) as (x & s' & Er & [Hd' Hl'] & _).
        apply (wp_of_run _ _ _ _ (FR_NOT_ENOUGH_CORE, mbuf s') (mdsk s')); [|by split].
        rewrite E. unfold mkfs_run. rewrite (bind_done _ _ _ _ _ Er). by destruct (mkfs_options _) as [[[? ?] ?] ?].
      * assert (SS <= len b) as Hsz by (unfold SS in *; lia).
        destruct (wp_run _ _ _ (mkfs_run_safe (len b) Hsz (u8 vol) (default defopt opt) (wlen / SS) A1 ltac:(lia) B1 B2 (mkMkst d b) Hd eq_refl))
          as (r & s' & Er & [Hd' Hl'] & _).
        apply (wp_of_run _ _ _ _ (r, mbuf s') (mdsk s')); [by rewrite Er|by split].
    + intros [r b'] w3 Hw3 Hl. apply wp_ret. split; [done|]. unfold same_work. cbn in *. by rewrite Hl.
  - apply wp_bind. apply (wp_mono _ _ (fun _ w3 => winv false h w3)); [|by intros _ w3 Hw3; apply wp_ret].
    destruct (_ =? 0); [|by apply wp_ret]. apply wp_bind. apply (wp_wdisk _ (fun _ => True)); [done|intros d Hd; eapply wp_mono; [by apply dio_ioctl_law|]; by intros a d' [? _]|].
    intros a w3 Hw3 _. by apply wp_ret.
Qed.

End world.
