(* ===== verification/Session.v ===== *)
(** * Sessions

    A program that uses the API: it has file objects, directory objects and
    paths, and calls the functions of ff.c in any order, on open, closed and
    stale objects alike, [f_mkfs] and the rewinding [f_readdir] included.  Every
    call keeps the world and the objects well formed, whatever the medium
    holds. *)

From stdpp Require Import base numbers list option gmap.
From Stdlib Require Import ZArith Lia.
From Stdlib Require Import Strings.Byte.
From S2P Require Import Prelude Types Bytes Diskio Window Fat Chain Dir Path Mount File DirApi Mkfs Plan Boot Format MkfsSafe.

Record session := mkSession { files : list FIL; dirs : list DIR }.

(** The calls: every function of the API that is compiled in; [CRewind] is
    [f_readdir] with a null pointer for the file information.  Files and directories are named by their places in the
    session; the objects that [f_open] and [f_opendir] fill in may hold
    anything before. *)
Inductive call : Type :=
| CMount (fs : option Z) (path : option (list byte)) (opt : Z)
| COpen (i : nat) (fp : FIL) (path : option (list byte)) (mode : Z)
| CRead (i : nat) (buff : list byte) (btr : Z)
| CWrite (i : nat) (buff : list byte) (btw : Z)
| CSeek (i : nat) (ofs : Z)
| CTruncate (i : nat)
| CSync (i : nat)
| CClose (i : nat)
| COpendir (i : nat) (dp : DIR) (path : option (list byte))
| CReaddir (i : nat) (fno : FILINFO)
| CRewind (i : nat)
| CClosedir (i : nat)
| CStat (path : option (list byte)) (fno : option FILINFO)
| CUnlink (path : option (list byte))
| CMkdir (path : option (list byte))
| CRename (path_old : option (list byte)) (path_new : list byte)
| CGetfree (path : option (list byte))
| CMkfs (path : option (list byte)) (opt : option MKFS_PARM) (work : option (list byte)) (wlen : Z).

(** What a call gives back besides its result code. *)
Inductive out : Type :=
| ONone
| OData (b : list byte) (n : Z)
| OCount (n : Z)
| OInfo (fno : option FILINFO)
| OFree (n : option Z)
| OWork (work : option (list byte)).

Section run.
Context {Pf : Platform} {D : Type} `{!DiskIO D}.
Abbreviation W := (M (world D)).

Definition set_file (s : session) (i : nat) (fp : FIL) : session := mkSession (<[i := fp]> (files s)) (dirs s).
Definition set_dir (s : session) (i : nat) (dp : DIR) : session := mkSession (files s) (<[i := dp]> (dirs s)).

Definition run_call (s : session) (c : call) : W (FRESULT * out * session) :=
  match c with
  | CMount fs path opt => r <- f_mount fs path opt ;; ret (r, ONone, s)
  | COpen i fp path mode => do (r, fp) <- f_open fp path mode ;; ret (r, ONone, set_file s i fp)
  | CRead i buff btr =>
    fp <- chk (files s !! i) ;; do (r, fp, b, n) <- f_read fp buff btr ;; ret (r, OData b n, set_file s i fp)
  | CWrite i buff btw =>
    fp <- chk (files s !! i) ;; do (r, fp, n) <- f_write fp buff btw ;; ret (r, OCount n, set_file s i fp)
  | CSeek i ofs => fp <- chk (files s !! i) ;; do (r, fp) <- f_lseek fp ofs ;; ret (r, ONone, set_file s i fp)
  | CTruncate i => fp <- chk (files s !! i) ;; do (r, fp) <- f_truncate fp ;; ret (r, ONone, set_file s i fp)
  | CSync i => fp <- chk (files s !! i) ;; do (r, fp) <- f_sync fp ;; ret (r, ONone, set_file s i fp)
  | CClose i => fp <- chk (files s !! i) ;; do (r, fp) <- f_close fp ;; ret (r, ONone, set_file s i fp)
  | COpendir i dp path => do (r, dp) <- f_opendir dp path ;; ret (r, ONone, set_dir s i dp)
  | CReaddir i fno =>
    dp <- chk (dirs s !! i) ;; do (r, dp, fno) <- f_readdir dp (Some fno) ;; ret (r, OInfo fno, set_dir s i dp)
  | CRewind i =>
    dp <- chk (dirs s !! i) ;; do (r, dp, _) <- f_readdir dp None ;; ret (r, ONone, set_dir s i dp)
  | CClosedir i => dp <- chk (dirs s !! i) ;; do (r, dp) <- f_closedir dp ;; ret (r, ONone, set_dir s i dp)
  | CStat path fno => do (r, fno) <- f_stat path fno ;; ret (r, OInfo fno, s)
  | CUnlink path => r <- f_unlink path ;; ret (r, ONone, s)
  | CMkdir path => r <- f_mkdir path ;; ret (r, ONone, s)
  | CRename po pn => r <- f_rename po (Some pn) ;; ret (r, ONone, s)
  | CGetfree path => do (r, n, _) <- f_getfree path ;; ret (r, OFree n, s)
  | CMkfs path opt work wlen => do (r, work) <- f_mkfs path opt work wlen ;; ret (r, OWork work, s)
  end.

Fixpoint run_calls (s : session) (cs : list call) : W (list (FRESULT * out) * session) :=
  match cs with
  | [] => ret ([], s)
  | c :: cs => do (r, o, s) <- run_call s c ;; do (l, s) <- run_calls s cs ;; ret ((r, o) :: l, s)
  end.

End run.

(** ** What a program must not do

    Pass a place that does not exist, a filesystem object that is not in [h], a
    path that is no C string (a null pointer is refused by every function but
    for the new name of [f_rename]), or a buffer shorter than the length it
    gives.  With [t], where the calls are to end, it must not mount or format a
    volume either: the next call would mount what is then on the medium, whose
    table may be placed anywhere. *)

Section ok.
Context (t : bool) (h : gset Z) (nf nd : nat).

Definition call_ok (c : call) : Prop :=
  match c with
  | CMount fs path opt => t = false /\ (forall p, fs = Some p -> p ∈ h) /\ path_arg path
  | COpen i fp path mode => (i < nf)%nat /\ 0 <= fp_clust fp < U32 /\ path_arg path
  | CRead i buff btr => (i < nf)%nat /\ 0 <= btr < U32 /\ btr <= len buff
  | CWrite i buff btw => (i < nf)%nat /\ 0 <= btw < U32 /\ btw <= len buff
  | CSeek i ofs => (i < nf)%nat /\ 0 <= ofs < U32
  | CTruncate i | CSync i | CClose i => (i < nf)%nat
  | COpendir i dp path => (i < nd)%nat /\ dir_w dp /\ path_arg path
  | CReaddir i fno => (i < nd)%nat /\ len (fi_fname fno) = 13
  | CRewind i | CClosedir i => (i < nd)%nat
  | CStat path fno => path_arg path /\ forall i, fno = Some i -> len (fi_fname i) = 13
  | CUnlink path | CMkdir path | CGetfree path => path_arg path
  | CRename po pn => path_arg po /\ path_arg (Some pn)
  | CMkfs path opt work wlen => t = false /\ path_arg path /\ mkfs_call_ok opt work wlen
  end.

(** What is given back stays inside the caller's objects. *)
Definition out_ok (c : call) (r : FRESULT) (o : out) : Prop :=
  match c, o with
  | CRead _ buff btr, OData b n => len b = len buff /\ 0 <= n <= btr
  | CWrite _ _ btw, OCount n => 0 <= n <= btw
  | CReaddir _ _, OInfo fno | CStat _ _, OInfo fno => forall i, fno = Some i -> len (fi_fname i) = 13 /\ (r = FR_OK -> name_ok (fi_fname i))
  | CGetfree _, OFree n => forall k, n = Some k -> 0 <= k < U32
  | CMkfs _ _ work _, OWork work' => same_work work work'
  | _, ONone => True
  | _, _ => False
  end.

(** An object is detached, or well formed and of a known volume. *)
Definition file_slot (fp : FIL) : Prop := obj_fs (fp_obj fp) = None \/ file_ok h fp.
Definition dir_slot (dp : DIR) : Prop := obj_fs (dp_obj dp) = None \/ dir_ok h dp.

Record session_ok (s : session) : Prop := mk_session_ok {
  sn_files : Forall file_slot (files s);
  sn_dirs : Forall dir_slot (dirs s);
  sn_nf : length (files s) = nf;
  sn_nd : length (dirs s) = nd
}.

Lemma set_file_ok s i fp : session_ok s -> file_slot fp -> session_ok (set_file s i fp).
Proof. intros [H1 H2 H3 H4] Hf. split; cbn; [by apply Forall_insert|done|by rewrite length_insert|done]. Qed.

Lemma set_dir_ok s i dp : session_ok s -> dir_slot dp -> session_ok (set_dir s i dp).
Proof. intros [H1 H2 H3 H4] Hf. split; cbn; [done|by apply Forall_insert|done|by rewrite length_insert]. Qed.

Lemma file_at s i : session_ok s -> (i < nf)%nat -> exists fp, files s !! i = Some fp /\ file_slot fp.
Proof.
  intros [H1 _ <- _] Hi. destruct (lookup_lt_is_Some_2 _ _ Hi) as [fp Hfp]. exists fp. split; [done|]. by eapply Forall_lookup_1.
Qed.

Lemma dir_at_place s i : session_ok s -> (i < nd)%nat -> exists dp, dirs s !! i = Some dp /\ dir_slot dp.
Proof.
  intros [_ H1 _ <-] Hi. destruct (lookup_lt_is_Some_2 _ _ Hi) as [fp Hfp]. exists fp. split; [done|]. by eapply Forall_lookup_1.
Qed.

End ok.

(** ** Safety *)

Section safety.
Context {Pf : Platform} {D : Type} `{!DiskIO D} `{!DiskIOLaws D}.
Context (t : bool) (h : gset Z) (nf nd : nat) (Hrdy : drive_ready (D := D) t) (Hun : dir_w uninit_dir).

(** A detached object is refused. *)
Lemma validate_none obj (w : world D) : obj_fs obj = None -> validate obj w = Done ((FR_INVALID_OBJECT, None), w).
Proof using Type. unfold validate. by intros ->. Qed.

(** A call on a place of the session: the object is refused or well formed. *)
Lemma wsafe_slot {A B} (f : M (world D) A) (k : A -> M (world D) B) (ok : Prop) (P : A -> Prop) (Q : B -> Prop) :
  ok \/ (exists a, (forall w, f w = Done (a, w)) /\ P a) -> (ok -> wsafe t h f P) -> (forall a, P a -> wsafe t h (k a) Q) -> wsafe t h (bind f k) Q.
Proof using Type.
  intros Hs Hf Hk. eapply wsafe_bind; [|exact Hk]. destruct Hs as [?|(a & Ha & HP)]; [by apply Hf|].
  intros w Hw. eapply wp_of_run; [apply Ha|]. done.
Qed.

Abbreviation sok := (session_ok h nf nd).
Definition call_post (c : call) (r : FRESULT * out * session) : Prop := sok r.2 /\ out_ok c r.1.1 r.1.2.

(** A call that changes the file object at [i]. *)
Lemma file_call s i {A} (f : FIL -> M (world D) A) (k : A -> M (world D) (FRESULT * out * session)) (P : A -> Prop) Q :
  sok s -> (i < nf)%nat ->
  (forall fp, obj_fs (fp_obj fp) = None -> exists a, (forall w, f fp w = Done (a, w)) /\ P a) ->
  (forall fp, file_ok h fp -> wsafe t h (f fp) P) -> (forall a, P a -> wsafe t h (k a) Q) ->
  wsafe t h (fp <- chk (files s !! i) ;; x <- f fp ;; k x) Q.
Proof using Type.
  intros Hs Hi Hn Hf Hk w Hw. destruct (file_at _ _ _ s i Hs Hi) as (fp & Hfp & Hsl). apply wp_bind. eapply wp_chk; [done|].
  apply (wsafe_slot (f fp) k (file_ok h fp) P Q); [|by apply Hf|done|done]. destruct Hsl as [H|H]; [right; by apply Hn|by left].
Qed.

Lemma dir_call s i {A} (f : DIR -> M (world D) A) (k : A -> M (world D) (FRESULT * out * session)) (P : A -> Prop) Q :
  sok s -> (i < nd)%nat ->
  (forall dp, obj_fs (dp_obj dp) = None -> exists a, (forall w, f dp w = Done (a, w)) /\ P a) ->
  (forall dp, dir_ok h dp -> wsafe t h (f dp) P) -> (forall a, P a -> wsafe t h (k a) Q) ->
  wsafe t h (dp <- chk (dirs s !! i) ;; x <- f dp ;; k x) Q.
Proof using Type.
  intros Hs Hi Hn Hf Hk w Hw. destruct (dir_at_place _ _ _ s i Hs Hi) as (dp & Hdp & Hsl). apply wp_bind. eapply wp_chk; [done|].
  apply (wsafe_slot (f dp) k (dir_ok h dp) P Q); [|by apply Hf|done|done]. destruct Hsl as [H|H]; [right; by apply Hn|by left].
Qed.

(** The detached object comes back unchanged, with FR_INVALID_OBJECT. *)
Ltac refused := intros obj Hnone; eexists; split;
  [intros w; unfold f_read, f_write, f_lseek, f_truncate, f_close, f_sync, f_readdir, f_closedir, bind; rewrite (validate_none _ w Hnone); reflexivity|cbn].

Lemma run_call_safe s c : sok s -> call_ok t h nf nd c -> wsafe t h (run_call s c) (call_post c).
Proof using Hrdy Hun.
  intros Hs Hc. destruct c as [fs path opt|i fp path mode|i buff btr|i buff btw|i ofs|i|i|i|i dp path|i fno|i|i|path fno|path|path|po pn|path|path mopt work wlen]; cbn in Hc; cbn [run_call].
  - destruct Hc as (-> & Hfs & Hp). eapply wsafe_bind; [by apply f_mount_safe|]. intros r _. by apply wsafe_ret.
  - destruct Hc as (Hi & Hcl & Hp). eapply wsafe_bind; [by apply (f_open_safe t h Hrdy)|]. intros [r fp'] (_ & H1 & H2). apply wsafe_ret.
    split; [|done]. apply set_file_ok; [done|]. cbn [fst snd] in *. destruct (fr_eqb_spec r FR_OK); [right; auto|left; auto].
  - destruct Hc as (Hi & Hb & Hl).
    apply (file_call s i (fun fp => f_read fp buff btr) _ (fun r => file_slot h r.1.1.2 /\ len r.1.2 = len buff /\ 0 <= r.2 <= btr) _ Hs Hi).
    + refused. split; [by left|]. split; [done|lia].
    + intros fp Hf w Hw. eapply wp_mono; [by apply (f_read_safe t h)|]. intros r w' (? & ? & ?). split; [done|]. split; [by right|done].
    + intros [[[r fp'] b] n] (H1 & H2 & H3). apply wsafe_ret. split; [by apply set_file_ok|done].
  - destruct Hc as (Hi & Hb & Hl).
    apply (file_call s i (fun fp => f_write fp buff btw) _ (fun r => file_slot h r.1.2 /\ 0 <= r.2 <= btw) _ Hs Hi).
    + refused. split; [by left|]. lia.
    + intros fp Hf w Hw. eapply wp_mono; [by apply (f_write_safe t h)|]. intros r w' (? & ? & ?). split; [done|]. split; [by right|done].
    + intros [[r fp'] n] (H1 & H2). apply wsafe_ret. split; [by apply set_file_ok|done].
  - destruct Hc as [Hi Ho]. apply (file_call s i (fun fp => f_lseek fp ofs) _ (fun r => file_slot h r.2) _ Hs Hi).
    + refused. by left.
    + intros fp Hf w Hw. eapply wp_mono; [by apply (f_lseek_safe t h)|]. intros r w' [? ?]. split; [done|by right].
    + intros [r fp'] H1. apply wsafe_ret. split; [by apply set_file_ok|done].
  - apply (file_call s i f_truncate _ (fun r => file_slot h r.2) _ Hs Hc).
    + refused. by left.
    + intros fp Hf w Hw. eapply wp_mono; [by apply (f_truncate_safe t h)|]. intros r w' [? ?]. split; [done|by right].
    + intros [r fp'] H1. apply wsafe_ret. split; [by apply set_file_ok|done].
  - apply (file_call s i f_sync _ (fun r => file_slot h r.2) _ Hs Hc).
    + refused. by left.
    + intros fp Hf w Hw. eapply wp_mono; [by apply (f_sync_safe t h)|]. intros r w' [? ?]. split; [done|by right].
    + intros [r fp'] H1. apply wsafe_ret. split; [by apply set_file_ok|done].
  - apply (file_call s i f_close _ (fun r => file_slot h r.2) _ Hs Hc).
    + refused. by left.
    + intros fp Hf w Hw. eapply wp_mono; [by apply (f_close_safe t h)|]. intros r w' (? & ? & ?). split; [done|by right].
    + intros [r fp'] H1. apply wsafe_ret. split; [by apply set_file_ok|done].
  - destruct Hc as (Hi & Hd & Hp). eapply wsafe_bind; [by apply (f_opendir_safe t h)|]. intros [r dp'] [H1 H2]. apply wsafe_ret.
    split; [|done]. apply set_dir_ok; [done|]. cbn [fst snd] in *. destruct (fr_eqb_spec r FR_OK); [right; auto|left; auto].
  - destruct Hc as [Hi Hl]. apply (dir_call s i (fun dp => f_readdir dp (Some fno)) _ (fun r => dir_slot h r.1.2 /\
      forall i, r.2 = Some i -> len (fi_fname i) = 13 /\ (r.1.1 = FR_OK -> name_ok (fi_fname i))) _ Hs Hi).
    + refused. split; [by left|]. by intros i' [= <-].
    + intros dp Hd w Hw. eapply wp_mono; [apply (f_readdir_safe t h dp (Some fno)); [done|by intros i' [= <-]|done]|].
      intros r w' (H1 & H2 & _ & H3). split; [done|]. split; [by right|done].
    + intros [[r dp'] i'] [H1 H2]. apply wsafe_ret. split; [by apply set_dir_ok|done].
  - apply (dir_call s i (fun dp => f_readdir dp None) _ (fun r => dir_slot h r.1.2) _ Hs Hc).
    + refused. by left.
    + intros dp Hd w Hw. eapply wp_mono; [by apply (f_readdir_safe t h dp None)|]. intros r w' (H1 & H2 & _). split; [done|by right].
    + intros [[r dp'] i'] H1. apply wsafe_ret. split; [by apply set_dir_ok|done].
  - apply (dir_call s i f_closedir _ (fun r => dir_slot h r.2) _ Hs Hc).
    + refused. by left.
    + intros dp Hd w Hw. unfold f_closedir. eapply wp_validate; [done|apply Hd| |].
      * intros res Hr. apply wp_ret. split; [done|]. destruct (fr_eqb_spec res FR_OK); [done|by right].
      * intros p Hp Hv. apply wp_ret. split; [done|]. by left.
    + intros [r dp'] H1. apply wsafe_ret. split; [by apply set_dir_ok|done].
  - destruct Hc as [Hp Hf]. eapply wsafe_bind; [by apply (f_stat_safe t h)|]. intros [r fno'] [_ H]. by apply wsafe_ret.
  - eapply wsafe_bind; [by apply (f_unlink_safe t h)|]. intros r _. by apply wsafe_ret.
  - eapply wsafe_bind; [by apply (f_mkdir_safe t h)|]. intros r _. by apply wsafe_ret.
  - destruct Hc as [Ho Hn]. eapply wsafe_bind; [by apply (f_rename_safe t h)|]. intros r _. by apply wsafe_ret.
  - eapply wsafe_bind; [by apply (f_getfree_safe t h)|]. intros [[r n] x] H. by apply wsafe_ret.
  - destruct Hc as (-> & Hp & Ha). apply (wsafe_bind _ _ _ _ (fun r => same_work work r.2)).
    + intros w Hw. apply wp_total. by apply f_mkfs_ends.
    + intros [r b] H. by apply wsafe_ret.
Qed.

Lemma run_calls_safe s cs :
  sok s -> Forall (call_ok t h nf nd) cs ->
  wsafe t h (run_calls s cs) (fun r => sok r.2 /\ Forall2 (fun c x => out_ok c x.1 x.2) cs r.1).
Proof using Hrdy Hun.
  revert s. induction cs as [|c cs IH]; intros s Hs Hcs; cbn [run_calls]; [by apply wsafe_ret|]. inversion_clear Hcs.
  eapply wsafe_bind; [by apply run_call_safe|]. intros [[r o] s1] [H1 H2]. cbn [fst snd] in *.
  eapply wsafe_bind; [by apply IH|]. intros [l s2] [H3 H4]. apply wsafe_ret. split; [done|]. by constructor.
Qed.

End safety.
