(* ===== verification/Fresh.v ===== *)
(** * Mounting a fresh volume

    [mount_volume] finds the volume that [f_mkfs] has written, and the
    filesystem object describes it: a volume in order, whose root directory is
    empty and whose clusters are free. *)

From stdpp Require Import base numbers list option gmap.
From Stdlib Require Import ZArith Lia.
From Stdlib Require Import Strings.Byte.
From S2P Require Import Prelude Types Bytes Diskio Window Fat Chain Live Dir Path Mount File DirApi Content Writing Refine Listing Entries Tree Persist Space Mkfs Plan Boot Format.

Lemma at_slice_1 (b : list byte) i x : slice b i 1 = Some [x] -> at_ b i = Some x.
Proof. intros H. pose proof (at_slice _ _ _ _ 0 H) as E. cbn in E. by rewrite Z.add_0_r in E. Qed.

Lemma le_word x : 0 <= x < 65536 -> le_combine (le_split 2 (u16 x)) = x.
Proof. intros Hx. rewrite le_combine_split, u16_small by done. by apply Z.mod_small. Qed.

Lemma le_dword x : 0 <= x < U32 -> le_combine (le_split 4 x) = x.
Proof. intros Hx. rewrite le_combine_split. by apply Z.mod_small. Qed.

Lemma pow2_byte x : pow2 7 x -> x mod 256 = x /\ (Z.land x (x - 1) =? 0) = true.
Proof.
  intros H%pow2_cases. repeat (apply elem_of_cons in H as [->|H]; [done|]). by apply elem_of_nil in H.
Qed.

Section mount.
Context {D : Type} `{!DiskIO D} `{!DiskIOLaws D} (p N : Z).
Abbreviation V := (M (vol D)).

(** ** Rules *)

Lemma wp_word_is t i l (Q : Z -> vol D -> Prop) v : slice (win (vfs v)) i 2 = Some l -> Q (le_combine l) v -> wpt t (win_word i) Q v.
Proof using Type. intros H HQ. apply wp_bind, wp_get_fs. eapply wp_chk; [by rewrite ld_word_slice, H|done]. Qed.

Lemma wp_dword_is t i l (Q : Z -> vol D -> Prop) v : slice (win (vfs v)) i 4 = Some l -> Q (le_combine l) v -> wpt t (win_dword i) Q v.
Proof using Type. intros H HQ. apply wp_bind, wp_get_fs. eapply wp_chk; [by rewrite ld_dword_slice, H|done]. Qed.

Lemma wp_at_is t i x (Q : Z -> vol D -> Prop) v : slice (win (vfs v)) i 1 = Some [x] -> Q (bval x) v -> wpt t (win_at i) Q v.
Proof using Type. intros H HQ. apply wp_bind, wp_get_fs, wp_bind. eapply wp_chk; [by apply at_slice_1|]. by apply wp_ret. Qed.

Lemma wp_slice_is t i n l (Q : list byte -> vol D -> Prop) v : slice (win (vfs v)) i n = Some l -> Q l v -> wpt t (win_slice i n) Q v.
Proof using Type. intros H HQ. apply wp_bind, wp_get_fs. by eapply wp_chk. Qed.

(** A good sector is loaded into a clean window. *)
Lemma wp_load s b (Q : FRESULT -> vol D -> Prop) fs d :
  wflag fs = 0 -> winsect fs <> s -> len (win fs) = SS -> dok d -> 0 <= s -> dgood d (pdrv fs) s -> media d (pdrv fs) s = Some b ->
  Q FR_OK (mkVol (set_winsect s (set_win b fs)) d) -> wp (move_window s) Q (mkVol fs d).
Proof using Type.
  intros Hw Hs Hl Hd H0 Hg Hm HQ. unfold move_window. apply wp_bind, wp_get_fs. cbn [vfs vdsk].
  rewrite (proj2 (Z.eqb_neq s (winsect fs))) by done. cbn [negb]. unfold sync_window. apply wp_bind, wp_bind, wp_get_fs. cbn [vfs vdsk].
  rewrite Hw. change (nz 0) with false. cbv iota. apply wp_ret. change (FR_OK =r FR_OK) with true. cbv iota. apply wp_bind, wp_get_fs, wp_bind, wp_on_disk.
  eapply wp_mono; [apply dio_read_law; [done|done|lia|cbn [vfs]; lia]|]. intros [r w] d' (-> & Hlw & H1 & H2). cbn [fst snd vfs vdsk] in *.
  assert (r = RES_OK) as -> by (apply H2; [lia|]; intros i Hi; by replace (s + i) with s by lia).
  specialize (H1 eq_refl 0 ltac:(lia)). rewrite Z.add_0_r, Hm in H1.
  rewrite slice_sector in H1 by congruence. injection H1 as <-.
  apply wp_bind, wp_mod_fs. change (negb (RES_OK =d RES_OK)) with false. cbv iota. by apply wp_bind, wp_mod_fs, wp_ret.
Qed.

(** ** Finding the volume *)

(** The object with a sector in its clean window. *)
Definition holding (s : Z) (b : list byte) (fs : FATFS) : FATFS := set_winsect s (set_win b (set_wflag 0 fs)).

(** A drive of good sectors as the object sees it. *)
Definition seen (fs : FATFS) (d : D) : Prop := good_drive p N d /\ pdrv fs = p /\ len (win fs) = SS.

Lemma check_fs_spec s b (Q : Z -> vol D -> Prop) fs d :
  N < U32 -> seen fs d -> 0 <= s < N -> media d p s = Some b ->
  wp (sign <- win_word BS_55AA ;;
      b <- win_at BS_JmpBoot ;;
      vbr <- (if (b =? 0xEB) || (b =? 0xE9) || (b =? 0xE8) then
                name <- win_slice BS_FilSysType32 8 ;;
                if (sign =? 0xAA55) && bool_decide (name = FAT32_NAME) then ret true
                else check_bpb
              else ret false) ;;
      ret (if vbr : bool then 0 else if sign =? 0xAA55 then 2 else 3)) Q (mkVol (holding s b fs) d) ->
  wp (check_fs s) Q (mkVol fs d).
Proof using Type.
  intros HU [[Hd Hg] [Hp Hl]] Hs Hm HQ. unfold check_fs. do 2 apply wp_bind, wp_mod_fs. cbn [vfs vdsk]. apply wp_bind.
  apply (wp_load s b); cbn [wflag winsect win pdrv set_wflag set_winsect]; rewrite ?Hp; try done; [|lia|by apply Hg].
  unfold NO_SECT, u32, U32 in *. change ((0 - 1) mod 4294967296) with 4294967295. lia.
Qed.

Section volume.
Context (b_vol sz_vol sz_blk n_fat n_root : Z) (pl : mkfs_plan).
Context (HU : N < U32) (Hin : plan_in sz_vol b_vol sz_blk n_fat n_root) (Hpl : plan_ok sz_vol b_vol sz_blk n_fat n_root pl) (HN : b_vol + sz_vol = N).

(** The fields of the boot record are those of the plan. *)
Lemma vbr_check s b d fs (Q : Z -> vol D -> Prop) :
  vbr_of b pl n_fat n_root sz_vol -> Q 0 (mkVol (holding s b fs) d) ->
  wp (sign <- win_word BS_55AA ;;
      b <- win_at BS_JmpBoot ;;
      vbr <- (if (b =? 0xEB) || (b =? 0xE9) || (b =? 0xE8) then
                name <- win_slice BS_FilSysType32 8 ;;
                if (sign =? 0xAA55) && bool_decide (name = FAT32_NAME) then ret true
                else check_bpb
              else ret false) ;;
      ret (if vbr : bool then 0 else if sign =? 0xAA55 then 2 else 3)) Q (mkVol (holding s b fs) d).
Proof using HU Hin Hpl HN.
  intros [W1 W2 W3 W4 W5 W6 W7 W8 W9 W10 W11 W12 W13] HQ. destruct Hin as [V1 V2 V3 V4 V5 [V6 V7]], Hpl as [P1 P2 P3 P4 P5 P6 P7 P8 P9 P10 P11 P12].
  apply wp_bind. eapply wp_word_is; [exact W13|]. change (le_combine (le_split 2 43605)) with 43605.
  apply wp_bind. eapply wp_at_is; [exact W2|]. change ((bval xeb =? 235) || (bval xeb =? 233) || (bval xeb =? 232)) with true. cbv iota.
  apply wp_bind, wp_bind. eapply wp_slice_is; [exact W12|]. change (43605 =? 43605) with true. cbn [andb].
  destruct (Z.eqb_spec (pl_fsty pl) FS_FAT32) as [E|E].
  { rewrite bool_decide_eq_true_2 by done. apply wp_ret, wp_ret. done. }
  rewrite bool_decide_eq_false_2 by done. unfold check_bpb. pose proof (P6 E) as P6'.
  apply wp_bind. eapply wp_word_is; [exact W3|]. apply wp_bind. eapply wp_at_is; [exact W4|]. apply wp_bind. eapply wp_word_is; [exact W5|].
  apply wp_bind. eapply wp_at_is; [exact W6|]. apply wp_bind. eapply wp_word_is; [exact W7|]. apply wp_bind. eapply wp_word_is; [exact W8|].
  apply wp_bind. eapply wp_dword_is; [exact W9|]. apply wp_bind. eapply wp_word_is; [exact W10|]. apply wp_ret.
  change (le_combine (le_split 2 SS)) with 512. rewrite !bval_mkb, !le_word by lia. destruct (pow2_byte _ P1) as [-> Epow].
  assert (n_fat mod 256 = n_fat) as -> by (destruct V5 as [->| ->]; done). rewrite Epow. unfold nz.
  rewrite (proj2 (Z.eqb_neq (pl_pau pl) 0)), (proj2 (Z.eqb_neq (pl_rsv pl) 0)), (proj2 (Z.eqb_neq n_root 0)), (proj2 (Z.eqb_neq (pl_fat pl) 0))
    by (pose proof (pow2_range _ P1); lia).
  assert ((u32 (n_fat - 1) <=? 1) = true) as -> by (destruct V5 as [->| ->]; done).
  destruct (Z.ltb_spec sz_vol 65536) as [Hlt|Hge].
  - rewrite le_word by lia. rewrite (proj2 (Z.geb_le sz_vol 128)) by lia. by apply wp_ret.
  - rewrite le_dword by (unfold U32 in *; lia). rewrite (proj2 (Z.geb_le sz_vol 65536)) by lia. rewrite orb_true_r. by apply wp_ret.
Qed.

(** [find_volume] finds it, on the whole drive or in its partition. *)
Lemma find_volume_spec b fs d (Q : Z -> vol D -> Prop) :
  seen fs d -> media d p b_vol = Some b -> vbr_of b pl n_fat n_root sz_vol ->
  b_vol = 0 \/ (b_vol = N_SEC_TRACK /\ exists m, media d p 0 = Some m /\ mbr_of m b_vol) ->
  Q 0 (mkVol (holding b_vol b fs) d) -> wp (find_volume 0) Q (mkVol fs d).
Proof using HU Hin Hpl HN.
  intros Hsn Hm Hv Hb HQ. pose proof (pi_vol _ _ _ _ _ Hin) as V1. unfold find_volume. apply wp_bind. destruct Hb as [E0|(E0 & m & Hm0 & [B1 B2 B3 B4 B5])].
  - rewrite E0 in Hm, HQ. eapply check_fs_spec; [done|done|lia|exact Hm|]. apply (vbr_check 0 b d fs); [exact Hv|].
    change (negb (0 =? 2) && ((0 >=? 3) || (0 =? 0))) with true. cbv iota. by apply wp_ret.
  - unfold N_SEC_TRACK in E0. eapply check_fs_spec; [done|done|lia|exact Hm0|].
    apply wp_bind. eapply wp_word_is; [exact B5|]. change (le_combine (le_split 2 43605)) with 43605. apply wp_bind. eapply wp_at_is; [exact B2|].
    change ((bval x00 =? 235) || (bval x00 =? 233) || (bval x00 =? 232)) with false. cbv iota. apply wp_bind, wp_ret, wp_ret.
    change (negb ((if 43605 =? 43605 then 2 else 3) =? 2) && _) with false. cbv iota.
    cbn [load_mbr]. apply wp_bind, wp_bind. eapply wp_dword_is; [exact B3|]. rewrite le_dword by (unfold U32; lia).
    apply wp_bind, wp_bind. eapply wp_dword_is; [apply B4; lia|]. apply wp_bind, wp_bind. eapply wp_dword_is; [apply B4; lia|].
    apply wp_bind, wp_bind. eapply wp_dword_is; [apply B4; lia|]. apply wp_bind, wp_ret, wp_ret, wp_ret, wp_ret, wp_ret.
    change (Z.to_nat (if nz 0 then 0 - 1 else 0)) with 0%nat. cbn [drop find_partition].
    assert (nz b_vol = true) as -> by (unfold nz; rewrite (proj2 (Z.eqb_neq b_vol 0)); lia). apply wp_bind.
    apply (check_fs_spec b_vol b); [done| |lia|done|].
    { destruct Hsn as (H1 & H2 & _). by split; [|split]. }
    apply (vbr_check b_vol b d (holding 0 m fs)); [done|].
    change ((0 =? 0) && (0 >=? 2)) with false. cbv iota. by apply wp_ret.
Qed.

(** ** The filesystem object *)

(** What [mount_volume] has stored. *)
Record known (fs0 fs : FATFS) (d : D) : Prop := mk_known {
  kn_same : pdrv fs = p /\ fs_id fs = fs_id fs0;
  kn_fats : n_fats fs = n_fat;
  kn_csize : csize fs = pl_pau pl;
  kn_root : n_rootdir fs = if pl_fsty pl =? FS_FAT32 then 0 else n_root;
  kn_fatent : n_fatent fs = pl_nclst pl + 2;
  kn_fsize : fsize fs = pl_fat pl;
  kn_vol : volbase fs = b_vol;
  kn_fat : fatbase fs = pl_bfat pl;
  kn_data : database fs = b_vol + plan_sys n_fat pl;
  kn_dir : dirbase fs = if pl_fsty pl =? FS_FAT32 then 2 else fats_end n_fat pl;
  kn_free : free_clst fs = 0xFFFFFFFF;
  kn_clean : wflag fs = 0;
  kn_win : 0 <= winsect fs < N /\ media d p (winsect fs) = Some (win fs)
}.

Lemma load_fsinfo_spec fs0 fs d :
  known fs0 (set_free_clst 0xFFFFFFFF fs) d -> formatted p N b_vol sz_vol n_fat n_root pl d -> winsect fs = b_vol -> len (win fs) = SS ->
  (pl_fsty pl = FS_FAT32 -> slice (win fs) BPB_FSInfo32 2 = Some (le_split 2 1)) ->
  wp (load_fsinfo (pl_fsty pl) b_vol) (fun _ v' => vdsk v' = d /\ known fs0 (vfs v') d) (mkVol fs d).
Proof using HU Hin Hpl HN.
  intros [K1 K2 K3 K4 K5 K6 K7 K8 K9 K10 K11 K12 K13] Hf Hws Hl Hi. unfold load_fsinfo. do 3 apply wp_bind, wp_mod_fs. cbn [vfs vdsk] in *.
  destruct (pl_fsty pl =? FS_FAT32) eqn:Eb; cbn [negb]; [|apply wp_ret; split; [done|split; rewrite ?Eb; done]].
  pose proof (proj1 (Z.eqb_eq _ _) Eb) as E. apply wp_bind. eapply wp_word_is; [by apply Hi|]. change (le_combine (le_split 2 1)) with 1. change (negb (1 =? 1)) with false. cbv iota.
  destruct (places N b_vol sz_vol sz_blk n_fat n_root pl Hin Hpl HN) as (L1 & L2 & L3 & L4 & _ & L6). destruct (L6 E) as [L7 L8]. specialize (L4 L8).
  destruct Hf as [[G1 G2] _ F3 _ _]. destruct (F3 E) as (b & Hb & Ht). rewrite u32_small by (unfold U32 in *; lia). cbn in K1, K12.
  apply wp_bind. apply (wp_load (b_vol + 1) b); cbn [wflag winsect win pdrv set_fsi_flag set_last_clst set_free_clst]; try done.
  { rewrite Hws. lia. } { lia. } { destruct K1 as [-> _]. apply G2. lia. } { by destruct K1 as [-> _]. }
  change (negb (FR_OK =r FR_OK)) with false. cbv iota. apply wp_bind, wp_mod_fs. cbn [vfs vdsk]. pose proof (media_len _ _ _ _ G1 Hb) as Lb.
  destruct (ld_dword_is_Some b FSI_LeadSig) as (lead & Hlead & _); [done|by rewrite Lb|].
  destruct (ld_dword_is_Some b FSI_StrucSig) as (struc & Hstruc & _); [done|by rewrite Lb|].
  apply wp_bind, wp_bind, wp_get_fs. eapply wp_chk; [exact Hlead|]. apply wp_bind, wp_bind, wp_get_fs. eapply wp_chk; [exact Hstruc|].
  apply wp_bind. eapply wp_dword_is; [exact Ht|]. change (le_combine [x00; x00; x00; x00] =? 2857697280) with false. rewrite andb_false_r. apply wp_ret.
  split; [done|]. split; rewrite ?Eb; try done. cbn. split; [lia|done].
Qed.

(** The sub-type from the number of clusters is that of the plan. *)
Lemma plan_type : 0 < pl_nclst pl -> fat_type (pl_nclst pl) = pl_fsty pl.
Proof using Hpl.
  intros Hpos. pose proof (pk_type _ _ _ _ _ _ Hpl) as Hty. revert Hty. unfold fat_type, MAX_FAT12, MAX_FAT16, MAX_FAT32.
  destruct (Z.leb_spec (pl_nclst pl) 4085), (Z.leb_spec (pl_nclst pl) 65525), (Z.leb_spec (pl_nclst pl) 268435445); intuition lia.
Qed.

Lemma nclst_range : 0 <= pl_nclst pl <= MAX_FAT32.
Proof using Hin Hpl.
  destruct Hpl as [P1 _ _ _ _ _ _ P8 _ P10 P11 _]. pose proof (pow2_range _ P1). split; [rewrite P10; apply Z.div_pos; lia|].
  revert P11. unfold MAX_FAT12, MAX_FAT16, MAX_FAT32. lia.
Qed.

Lemma mount_geometry_fresh fs0 fs d (Q : FRESULT + Z -> vol D -> Prop) :
  n_rootdir fs = (if pl_fsty pl =? FS_FAT32 then 0 else n_root) -> csize fs = pl_pau pl -> fsize fs = pl_fat pl -> n_fats fs = n_fat ->
  pdrv fs = p -> fs_id fs = fs_id fs0 -> wflag fs = 0 -> winsect fs = b_vol -> media d p b_vol = Some (win fs) -> vbr_of (win fs) pl n_fat n_root sz_vol ->
  (pl_nclst pl = 0 -> Q (inl FR_NO_FILESYSTEM) (mkVol fs d)) ->
  (forall fs', 0 < pl_nclst pl -> known fs0 (set_free_clst 0xFFFFFFFF fs') d -> winsect fs' = b_vol -> win fs' = win fs -> Q (inr (pl_fsty pl)) (mkVol fs' d)) ->
  wp (mount_geometry b_vol (n_fat * pl_fat pl) sz_vol (pl_rsv pl)) Q (mkVol fs d).
Proof using HU Hin Hpl HN.
  intros R1 R2 R3 R4 R5 R6 R7 R8 R9 Hv HQ0 HQ. unfold mount_geometry. apply wp_bind, wp_get_fs. cbn [vfs vdsk].
  pose proof nclst_range as Hnc. pose proof plan_type as Hty.
  destruct Hin as [V1 V2 V3 V4 V5 [V6 V7]], Hpl as [P1 P2 P3 P4 P5 P6 P7 P8 P9 P10 P11 P12].
  assert (n_rootdir fs / (SS / SZDIRE) = pl_dir pl) as Ed by (rewrite R1, P7; by destruct (pl_fsty pl =? FS_FAT32)).
  rewrite Ed. change (pl_rsv pl + n_fat * pl_fat pl + pl_dir pl) with (plan_sys n_fat pl).
  assert (0 <= plan_sys n_fat pl) as Hsys.
  { unfold plan_sys. rewrite P7. assert (0 <= n_root / 16) by (apply Z.div_pos; lia). destruct (pl_fsty pl =? FS_FAT32), V5 as [->| ->]; lia. }
  rewrite (u32_small (plan_sys n_fat pl)) by (unfold U32 in *; lia). rewrite (proj2 (Z.ltb_ge sz_vol (plan_sys n_fat pl))) by lia.
  rewrite R2, <- P10. destruct (Z.eqb_spec (pl_nclst pl) 0) as [E0|E0]; [by apply wp_ret, HQ0|]. rewrite Hty by lia.
  assert ((pl_fsty pl =? 0) = false) as -> by (by destruct P11 as [[-> _]|[[-> _]|[-> _]]]).
  rewrite (u32_small (pl_nclst pl + 2)) by (revert Hnc; unfold MAX_FAT32, U32; lia).
  do 4 apply wp_bind, wp_mod_fs. cbn [vfs vdsk]. rewrite !(u32_small (b_vol + _)) by (unfold plan_sys, U32 in *; destruct V5 as [E5|E5]; rewrite ?E5 in *; lia).
  assert ((fsize fs <? u32 (fat_bytes (pl_fsty pl) (pl_nclst pl + 2) + (SS - 1)) / SS) = false) as ->.
  { apply Z.ltb_ge. pose proof (fat_bytes_small (pl_fsty pl) (pl_nclst pl + 2) ltac:(lia)). rewrite u32_small by (unfold U32, SS in *; lia).
    rewrite R3. apply Z.lt_succ_r, Z.div_lt_upper_bound; [done|]. unfold SS in *. lia. }
  set (fs4 := set_database _ _).
  assert (forall x, x = (if pl_fsty pl =? FS_FAT32 then 2 else fats_end n_fat pl) ->
    wp (if false then ret (inl FR_NO_FILESYSTEM) else ret (inr (pl_fsty pl))) Q (mkVol (set_dirbase x fs4) d)) as Hfin.
  { intros x Ex. apply wp_ret, HQ; [lia| |done|done]. split; cbn; try done. split; [rewrite R8; lia|by rewrite R8]. }
  pose proof (vb_fat32 _ _ _ _ _ Hv) as H32. apply wp_bind. destruct (pl_fsty pl =? FS_FAT32) eqn:Eb.
  - destruct (H32 (proj1 (Z.eqb_eq _ _) Eb)) as (_ & W2 & W3 & _). apply wp_bind. eapply wp_word_is; [exact W2|].
    change (nz (le_combine [x00; x00])) with false. cbv iota. rewrite R1. change (nz 0) with false. cbv iota. apply wp_bind. eapply wp_dword_is; [exact W3|].
    change (le_combine (le_split 4 2)) with 2. apply wp_bind, wp_mod_fs, wp_ret. cbv iota. by apply Hfin.
  - rewrite R1, (proj2 (Z.eqb_neq n_root 0)) by lia. apply wp_bind, wp_mod_fs, wp_ret. cbv iota. apply Hfin.
    unfold fats_end. rewrite P4. apply u32_small. unfold plan_sys, U32 in *. rewrite P7 in *. assert (0 <= n_root / 16) by (apply Z.div_pos; lia).
    destruct V5 as [E5|E5]; rewrite ?E5 in *; lia.
Qed.

(** The boot record is read. *)
Lemma mount_bpb_fresh b fs d :
  seen fs d -> formatted p N b_vol sz_vol n_fat n_root pl d -> media d p b_vol = Some b -> vbr_of b pl n_fat n_root sz_vol ->
  wp (mount_bpb b_vol) (fun r v' => vdsk v' = d /\
    if pl_nclst pl =? 0 then r = inl FR_NO_FILESYSTEM else r = inr (pl_fsty pl) /\ known fs (vfs v') d) (mkVol (holding b_vol b fs) d).
Proof using HU Hin Hpl HN.
  intros (G1 & G2 & G3) Hf Hm Hv. pose proof Hv as [W1 W2 W3 W4 W5 W6 W7 W8 W9 W10 W11 W12 W13]. destruct Hin as [V1 V2 V3 V4 V5 [V6 V7]].
  pose proof Hpl as [P1 P2 P3 P4 P5 P6 P7 P8 P9 P10 P11 P12]. unfold mount_bpb. destruct (pow2_byte _ P1) as [Ep1 Ep2]. pose proof (pow2_range _ P1) as Hpau.
  assert (pl_fat pl < U32 /\ u32 (pl_fat pl * n_fat) = n_fat * pl_fat pl) as [Hfat Efat].
  { assert (0 <= n_root / 16) by (apply Z.div_pos; lia). unfold plan_sys in P8. rewrite P7 in P8.
    destruct (pl_fsty pl =? FS_FAT32), V5 as [E5|E5]; rewrite ?E5 in *; (split; [|rewrite u32_small]); unfold U32 in *; lia. }
  apply wp_bind. eapply wp_word_is; [exact W3|]. change (negb (le_combine (le_split 2 SS) =? SS)) with false. cbv iota.
  apply wp_bind. eapply wp_word_is; [exact W10|]. apply wp_bind.
  apply (wp_mono _ _ (fun x v' => x = pl_fat pl /\ v' = mkVol (holding b_vol b fs) d)).
  { destruct (Z.eqb_spec (pl_fsty pl) FS_FAT32) as [E|E].
    - destruct (W11 E) as (W & _). change (le_combine [x00; x00] =? 0) with true. cbv iota. eapply wp_dword_is; [exact W|]. rewrite le_dword; lia || done.
    - specialize (P6 E). rewrite le_word by lia. rewrite (proj2 (Z.eqb_neq _ 0)) by lia. by apply wp_ret. }
  intros x v' [-> ->]. apply wp_bind, wp_mod_fs. cbn [vfs vdsk]. apply wp_bind. eapply wp_at_is; [exact W6|]. rewrite bval_mkb.
  assert (n_fat mod 256 = n_fat) as -> by (destruct V5 as [->| ->]; done). apply wp_bind, wp_mod_fs. cbn [vfs vdsk].
  assert (negb (n_fat =? 1) && negb (n_fat =? 2) = false) as -> by (destruct V5 as [->| ->]; done). rewrite Efat.
  apply wp_bind. eapply wp_at_is; [exact W4|]. rewrite bval_mkb, Ep1. apply wp_bind, wp_mod_fs. cbn [vfs vdsk].
  unfold nz at 1. rewrite Ep2, (proj2 (Z.eqb_neq (pl_pau pl) 0)) by lia. cbn [orb negb].
  apply wp_bind. eapply wp_word_is; [exact W7|]. rewrite le_word by (destruct (_ =? _); lia). apply wp_bind, wp_mod_fs. cbn [vfs vdsk].
  set (nr := if pl_fsty pl =? FS_FAT32 then 0 else n_root).
  assert (nz (nr mod (SS / SZDIRE)) = false) as -> by (unfold nr, nz; change (SS / SZDIRE) with 16; destruct (_ =? FS_FAT32); [done|by rewrite V7]).
  apply wp_bind. eapply wp_word_is; [exact W8|]. apply wp_bind. set (fs4 := set_n_rootdir _ _).
  apply (wp_mono _ _ (fun x v' => x = sz_vol /\ v' = mkVol fs4 d)).
  { destruct (Z.ltb_spec sz_vol 65536).
    - rewrite le_word by lia. rewrite (proj2 (Z.eqb_neq _ 0)) by lia. by apply wp_ret.
    - change (le_combine [x00; x00] =? 0) with true. cbv iota. eapply wp_dword_is; [exact W9|]. rewrite le_dword; done || (unfold U32 in *; lia). }
  intros x v' [-> ->]. apply wp_bind. eapply wp_word_is; [exact W5|]. rewrite le_word by lia. rewrite (proj2 (Z.eqb_neq (pl_rsv pl) 0)) by lia.
  apply wp_bind. apply (mount_geometry_fresh fs fs4 d); try done.
  - intros E0. apply wp_ret. by rewrite E0.
  - intros fs' Hpos Hk Hw1 Hw2. apply wp_bind. eapply wp_mono; [apply (load_fsinfo_spec fs fs' d Hk Hf Hw1)|].
    + by rewrite Hw2.
    + rewrite Hw2. intros E. by destruct (W11 E) as (_ & _ & _ & ?).
    + intros _ v' [Hd Hkn]. apply wp_ret. split; [done|]. rewrite (proj2 (Z.eqb_neq _ 0)) by lia. done.
Qed.

(** The drive comes up, and can be written. *)
Definition starts : Prop := forall d, dok d -> wp (dio_initialize p) (fun s _ => Z.land s STA_NOINIT = 0 /\ Z.land s STA_PROTECT = 0) d.

Lemma mount_fs_fresh v mode :
  starts -> vol_ok v -> pdrv (vfs v) = p -> formatted p N b_vol sz_vol n_fat n_root pl (vdsk v) ->
  b_vol = 0 \/ (b_vol = N_SEC_TRACK /\ exists m, media (vdsk v) p 0 = Some m /\ mbr_of m b_vol) ->
  wp (mount_fs mode) (fun r v' => formatted p N b_vol sz_vol n_fat n_root pl (vdsk v') /\
    if pl_nclst pl =? 0 then r = inl FR_NO_FILESYSTEM else r = inr (pl_fsty pl) /\ known (vfs v) (vfs v') (vdsk v')) v.
Proof using HU Hin Hpl HN.
  intros Hst [Hf Hd] Hp Hfm Hb. unfold mount_fs. apply wp_bind, wp_mod_fs, wp_bind, wp_get_fs. cbn [vfs vdsk set_fs_type pdrv]. rewrite Hp.
  apply wp_bind, wp_on_disk. cbn [vfs vdsk]. pose proof (dio_initialize_law (vdsk v) p Hd) as Hl. pose proof (Hst _ Hd) as Hi.
  eapply wp_mono; [apply (wp_conj _ _ _ _ _ Hl Hi)|]. intros st d' [(Hd' & Hm & Hg) [Hs1 Hs2]]. cbv beta. unfold nz at 1. rewrite Hs1. cbn [Z.eqb negb].
  assert (nz (Z.land st STA_PROTECT) = false) as -> by (by rewrite Hs2). rewrite andb_false_r. pose proof (fm_good _ _ _ _ _ _ _ _ Hfm) as [_ Hgd].
  assert (formatted p N b_vol sz_vol n_fat n_root pl d') as Hfm'.
  { apply (formatted_frame p N b_vol sz_vol sz_blk n_fat n_root pl Hin Hpl HN (vdsk v)); [done| |done]. split; auto. }
  destruct (fm_vbr _ _ _ _ _ _ _ _ Hfm') as (b & Hb1 & Hb2).
  assert (seen (set_fs_type 0 (vfs v)) d') as Hsn by (split; [split; auto|]; split; [done|apply (ok_win _ Hf)]).
  apply wp_bind. eapply (find_volume_spec b); [exact Hsn|exact Hb1|exact Hb2| |].
  { destruct Hb as [?|(? & m & Hm0 & ?)]; [by left|right]. split; [done|]. exists m. by rewrite Hm. }
  change (0 =? 4) with false. change (0 >=? 2) with false. cbv iota. apply wp_bind, wp_get_fs. cbn [vfs vdsk holding winsect set_winsect].
  eapply wp_mono; [apply (mount_bpb_fresh b (set_fs_type 0 (vfs v)) d' Hsn Hfm' Hb1 Hb2)|]. intros r v' [-> H]. split; [done|].
  destruct (pl_nclst pl =? 0); [done|]. destruct H as [-> [K1 K2 K3 K4 K5 K6 K7 K8 K9 K10 K11 K12 K13]]. by split; [|split].
Qed.

End volume.

End mount.
