(* ===== verification/Empty.v ===== *)
(** * A fresh volume is an empty one

    When [mount_volume] has read the boot record that [f_mkfs] wrote, the
    volume is in order, its root directory is empty and every other cluster is
    free: the assumptions of the theorems on files and directories hold. *)

From stdpp Require Import base numbers list option gmap.
From Stdlib Require Import ZArith Lia.
From Stdlib Require Import Strings.Byte.
From S2P Require Import Prelude Types Bytes Diskio Window Fat Chain Live Dir Path Mount File DirApi Content Writing Refine Listing Entries Tree Persist Space Mkfs Plan Boot Format Fresh.

Section empty.
Context {D : Type} `{!DiskIO D} `{!DiskIOLaws D} (p N : Z).
Context (b_vol sz_vol sz_blk n_fat n_root : Z) (pl : mkfs_plan).
Context (HU : N < U32) (Hin : plan_in sz_vol b_vol sz_blk n_fat n_root) (Hpl : plan_ok sz_vol b_vol sz_blk n_fat n_root pl) (HN : b_vol + sz_vol = N).
Context (v : vol D) (fs0 : FATFS) (Hpos : 0 < pl_nclst pl).
Context (Hfm : formatted p N b_vol sz_vol n_fat n_root pl (vdsk v)) (Hkn : known p N b_vol n_fat n_root pl fs0 (vfs v) (vdsk v)).
Context (Hty : fs_type (vfs v) = pl_fsty pl) (Hok : vol_ok v) (Hmo : mounted (vfs v)).

(** The window shows what is on the drive. *)
Lemma fresh_view s : lview v s = media (vdsk v) p s.
Proof using Hkn.
  destruct Hkn as [[K1 _] _ _ _ _ _ _ _ _ _ _ _ [_ K2]]. unfold lview. rewrite K1. by destruct (Z.eqb_spec s (winsect (vfs v))) as [->|].
Qed.

(** ** The table *)

(** Where things are, once more. *)
Lemma fresh_places : 0 <= b_vol < pl_bfat pl /\ pl_bfat pl + n_fat * pl_fat pl <= b_vol + plan_sys n_fat pl /\ b_vol + plan_sys n_fat pl + pl_pau pl * pl_nclst pl <= N /\
  fats_end n_fat pl + root_sects pl <= N /\ 1 <= pl_fat pl /\ (n_fat = 1 \/ n_fat = 2) /\ 1 <= pl_pau pl <= 128.
Proof using HU Hin Hpl HN Hpos.
  destruct (places N b_vol sz_vol sz_blk n_fat n_root pl Hin Hpl HN) as (L1 & L2 & L3 & L4 & _). specialize (L4 Hpos).
  destruct Hin as [V1 V2 V3 V4 V5 [V6 V7]], Hpl as [P1 P2 P3 P4 P5 P6 P7 P8 P9 P10 P11 P12]. pose proof (pow2_range _ P1).
  pose proof (Z.mul_div_le (sz_vol - plan_sys n_fat pl) (pl_pau pl) ltac:(lia)). rewrite <- P10 in *.
  split_and!; try done; try lia. unfold plan_sys. rewrite P7. assert (0 <= n_root / 16) by (apply Z.div_pos; lia). destruct (_ =? FS_FAT32); lia.
Qed.

Lemma fresh_byte o : 0 <= o < pl_fat pl * SS -> fat_byte v o = if o <? SS then at_ (fat_head (pl_fsty pl)) o else Some x00.
Proof using HU Hin Hpl HN Hpos Hfm Hkn.
  intros Ho. destruct fresh_places as (L1 & L2 & L3 & _ & L5 & L6 & L7). unfold fat_byte, fat_sect. rewrite fresh_view, (kn_fat _ _ _ _ _ _ _ _ _ Hkn).
  assert (0 <= o / SS < pl_fat pl) as Hq by (split; [apply Z.div_pos; [lia|done]|apply Z.div_lt_upper_bound; [done|lia]]).
  assert (n_fat * pl_fat pl >= pl_fat pl) by (destruct L6; nia).
  rewrite u32_small by (unfold U32 in *; nia). rewrite (fm_fats _ _ _ _ _ _ _ _ Hfm) by (unfold fats_end; lia). cbn. unfold fats_of.
  replace (pl_bfat pl + o / SS - pl_bfat pl) with (o / SS) by lia. rewrite (Z.mod_small (o / SS)) by lia.
  destruct (Z.ltb_spec o SS) as [Hlt|Hge].
  - rewrite Z.div_small, Z.mod_small by lia. done.
  - assert (1 <= o / SS) by (apply Z.div_le_lower_bound; [done|lia]). rewrite (proj2 (Z.eqb_neq _ 0)) by lia.
    pose proof (Z.mod_pos_bound o SS ltac:(done)). rewrite at_lookup by lia. apply lookup_replicate_2. unfold SS in *. lia.
Qed.

(** Behind the head the table is empty. *)
Lemma fresh_zero o : (if pl_fsty pl =? FS_FAT12 then 3 else if pl_fsty pl =? FS_FAT16 then 4 else 12) <= o < pl_fat pl * SS -> fat_byte v o = Some x00.
Proof using HU Hin Hpl HN Hpos Hfm Hkn.
  intros Ho. assert (0 <= o) by (destruct (pl_fsty pl =? FS_FAT12), (pl_fsty pl =? FS_FAT16); lia). rewrite fresh_byte by lia. destruct (Z.ltb_spec o SS); [|done].
  apply fat_head_at; [|lia]. destruct (pk_type _ _ _ _ _ _ Hpl) as [[-> _]|[[-> _]|[-> _]]]; auto.
Qed.

Lemma fresh_layout : fat_layout (vfs v).
Proof using HU Hin Hpl HN Hpos Hkn Hmo.
  destruct fresh_places as (L1 & L2 & L3 & _ & L5 & L6 & L7). destruct Hkn as [_ K2 _ _ _ K6 _ K8 _ _ _ _ _].
  apply mounted_layout; [done|..]; rewrite ?K2, ?K6, ?K8; unfold U32 in *; destruct L6 as [E|E]; rewrite ?E in L2, L3 |- *; nia.
Qed.

Lemma fresh_entry c : valid_clst (vfs v) c ->
  fat_entry v c = Some (if (pl_fsty pl =? FS_FAT32) && (c =? 2) then 0x0FFFFFFF else 0).
Proof using HU Hin Hpl HN Hpos Hfm Hkn Hty Hmo.
  intros [C1 C2]. pose proof fresh_layout as [_ _ _ _ _ _ F12 F16 F32]. rewrite Hty, (kn_fsize _ _ _ _ _ _ _ _ _ Hkn) in F12, F16, F32.
  pose proof fresh_zero as Hz. unfold fat_entry. rewrite Hty. cbv zeta.
  destruct (pk_type _ _ _ _ _ _ Hpl) as [[E _]|[[E _]|[E _]]]; rewrite E in *.
  - change (FS_FAT12 =? FS_FAT12) with true in *. change (FS_FAT12 =? FS_FAT32) with false. cbn [andb]. specialize (F12 eq_refl).
    set (n := n_fatent (vfs v)) in *. pose proof (Z.div_mod c 2 ltac:(lia)). pose proof (Z.mod_pos_bound c 2 ltac:(lia)).
    pose proof (Z.div_mod (n * 3) 2 ltac:(lia)). pose proof (Z.mod_pos_bound (n * 3) 2 ltac:(lia)). pose proof (Z.div_mod n 2 ltac:(lia)). pose proof (Z.mod_pos_bound n 2 ltac:(lia)).
    cbn [fat_le]. rewrite !Hz by lia. cbn. by destruct (Z.odd c).
  - change (FS_FAT16 =? FS_FAT12) with false in *. change (FS_FAT16 =? FS_FAT16) with true in *. change (FS_FAT16 =? FS_FAT32) with false. cbn [andb].
    specialize (F16 eq_refl). cbn [fat_le]. rewrite !Hz by lia. done.
  - change (FS_FAT32 =? FS_FAT12) with false in *. change (FS_FAT32 =? FS_FAT16) with false in *. change (FS_FAT32 =? FS_FAT32) with true. cbn [andb].
    specialize (F32 eq_refl). cbn [fat_le]. destruct (Z.eqb_spec c 2) as [->|Hne].
    + rewrite !fresh_byte, E by (unfold SS in *; lia). done.
    + rewrite !Hz by lia. done.
Qed.

(** The two reserved entries are in use. *)
Lemma fresh_reserved : reserved_used v.
Proof using HU Hin Hpl HN Hpos Hfm Hkn Hty Hmo.
  intros Hne. pose proof fresh_layout as [_ _ _ _ _ _ _ F16 F32]. rewrite Hty, (kn_fsize _ _ _ _ _ _ _ _ _ Hkn) in F16, F32. pose proof (mo_few _ Hmo) as Hn.
  rewrite Hty in Hne. unfold fat_entry. rewrite Hty. cbv zeta. destruct (pk_type _ _ _ _ _ _ Hpl) as [[E _]|[[E _]|[E _]]]; [done| |]; rewrite E in *.
  - specialize (F16 eq_refl). change (FS_FAT16 =? FS_FAT12) with false. change (FS_FAT16 =? FS_FAT16) with true. cbn [fat_le].
    rewrite !fresh_byte, E by (unfold SS in *; lia). split; vm_compute; discriminate.
  - specialize (F32 eq_refl). change (FS_FAT32 =? FS_FAT12) with false. change (FS_FAT32 =? FS_FAT16) with false. cbn [fat_le].
    rewrite !fresh_byte, E by (unfold SS in *; lia). split; vm_compute; discriminate.
Qed.

(** ** The volume is in order *)

Abbreviation G := (fun s : Z => 0 <= s < N).

Lemma fresh_sound : sound G v.
Proof using HU Hin Hpl HN Hpos Hfm Hkn Hty Hok Hmo.
  destruct fresh_places as (L1 & L2 & L3 & _ & L5 & L6 & L7). pose proof fresh_layout as Hfl. pose proof Hkn as [[K1 _] K2 K3 K4 K5 K6 K7 K8 K9 K10 K11 K12 [K13 K14]].
  split; try done.
  - split; rewrite ?K2, ?K3, ?K5, ?K6, ?K8, ?K9; try lia. apply (pk_pau _ _ _ _ _ _ Hpl).
  - intros _ _. by rewrite K1.
  - split; [intros x Hx; rewrite K1; by apply (gd_good _ _ _ (fm_good _ _ _ _ _ _ _ _ Hfm))|]. split; [done|]. intros o. unfold fat_sect. rewrite K6, K8. intros Ho.
    assert (0 <= o / SS < pl_fat pl) by (split; [apply Z.div_pos; [lia|done]|apply Z.div_lt_upper_bound; [done|lia]]).
    assert (n_fat * pl_fat pl >= pl_fat pl) by (destruct L6; nia). rewrite u32_small; unfold U32 in *; nia.
  - intros (c & Hc & E). rewrite fresh_entry in E by done. by destruct (_ && _).
  - intros s [S1 S2]. rewrite K9, K3, K5 in *. nia.
Qed.

(** ** The root directory *)

Definition root_space : dspace := if pl_fsty pl =? FS_FAT32 then Clst [2] else Root.
Definition root_blank : list (list byte) := replicate (Z.to_nat (dsize (vfs v) root_space)) zero_entry.
Definition root_tree : tree := {[ 0 := (root_space, root_blank) ]}.

Lemma root_size : 0 <= dsize (vfs v) root_space /\ dsize (vfs v) root_space * SZDIRE <= root_sects pl * SS.
Proof using HU Hin Hpl HN Hpos Hkn.
  destruct fresh_places as (_ & _ & _ & _ & _ & _ & L7). destruct Hkn as [_ _ K3 K4 _ _ _ _ _ _ _ _ _].
  pose proof (pi_root _ _ _ _ _ Hin) as [V6 V7]. pose proof (pk_dir _ _ _ _ _ _ Hpl) as P7. unfold root_space, root_sects.
  destruct (pl_fsty pl =? FS_FAT32); cbn [dsize].
  - unfold bcs. rewrite K3. change (len [2]) with 1. assert (pl_pau pl * SS / SZDIRE = 16 * pl_pau pl) as ->
      by (unfold SS, SZDIRE; replace (pl_pau pl * 512) with (16 * pl_pau pl * 32) by lia; by apply Z.div_mul).
    change (MAX_DIR / SZDIRE) with 65536. unfold SZDIRE, SS. lia.
  - rewrite K4, P7. pose proof (Z.div_mod n_root 16 ltac:(lia)). unfold SZDIRE, SS. lia.
Qed.

Lemma root_some : 0 < dsize (vfs v) root_space.
Proof using HU Hin Hpl HN Hpos Hkn.
  destruct fresh_places as (_ & _ & _ & _ & _ & _ & L7). destruct Hkn as [_ _ K3 K4 _ _ _ _ _ _ _ _ _]. pose proof (pi_root _ _ _ _ _ Hin) as [V6 V7].
  unfold root_space. destruct (pl_fsty pl =? FS_FAT32); cbn [dsize]; [|lia]. unfold bcs. rewrite K3. change (len [2]) with 1.
  assert (16 <= pl_pau pl * SS / SZDIRE) by (apply Z.div_le_lower_bound; [done|unfold SS, SZDIRE; lia]). change (MAX_DIR / SZDIRE) with 65536. lia.
Qed.

(** Its sectors are clear. *)
Lemma root_clear k : 0 <= k < dsize (vfs v) root_space -> dentry v root_space k = Some zero_entry.
Proof using HU Hin Hpl HN Hpos Hfm Hkn.
  intros Hk. destruct root_size as [_ Hsz]. destruct fresh_places as (L1 & L2 & _). destruct Hkn as [_ _ K3 K4 _ _ _ _ K9 K10 _ _ _].
  assert (0 <= k * SZDIRE / SS < root_sects pl) as Hq.
  { split; [apply Z.div_pos; [unfold SZDIRE; lia|done]|]. apply Z.div_lt_upper_bound; [done|]. unfold SZDIRE, SS in *. lia. }
  assert (exists s, dsect (vfs v) root_space (k * SZDIRE) = Some s /\ fats_end n_fat pl <= s < fats_end n_fat pl + root_sects pl) as (s & Hs & Hr).
  { revert Hk Hq. unfold root_space, root_sects. destruct (pl_fsty pl =? FS_FAT32) eqn:Eb; intros Hk Hq; cbn [dsect].
    - unfold fsect. assert (k * SZDIRE < bcs (vfs v)).
      { unfold root_sects, bcs in *. rewrite Eb, K3 in *. unfold root_space in Hsz. rewrite Eb in Hsz. unfold SZDIRE, SS in *. lia. }
      assert (0 <= k * SZDIRE) by (unfold SZDIRE; lia). rewrite (Z.div_small (k * SZDIRE) (bcs (vfs v))), (Z.mod_small (k * SZDIRE) (bcs (vfs v))) by lia.
      change (Z.to_nat 0) with 0%nat. cbn [lookup list_lookup mbind option_bind]. eexists. split; [done|]. unfold clst_sect. rewrite K3, K9.
      replace (b_vol + plan_sys n_fat pl) with (fats_end n_fat pl); [lia|]. unfold fats_end, plan_sys. rewrite (pk_bfat _ _ _ _ _ _ Hpl), (pk_dir _ _ _ _ _ _ Hpl), Eb. lia.
    - rewrite Z.div_mul by done. rewrite (proj2 (Z.ltb_lt _ _)) by apply Hk. eexists. split; [done|]. rewrite K10. lia. }
  unfold dentry. rewrite Hs. cbn. rewrite fresh_view, (fm_root _ _ _ _ _ _ _ _ Hfm) by done. cbn. apply zero_sector_entry.
Qed.

Lemma fresh_tree : tree_in G v root_tree.
Proof using HU Hin Hpl HN Hpos Hfm Hkn Hty Hok Hmo.
  intros sc sp es H. unfold root_tree in H. apply lookup_singleton_Some in H as [<- [= <- <-]].
  destruct fresh_places as (L1 & L2 & L3 & L4 & L5 & L6 & L7). pose proof Hkn as [_ K2 K3 K4 K5 K6 _ K8 K9 K10 _ _ _].
  pose proof (pi_root _ _ _ _ _ Hin) as [V6 V7]. split.
  - unfold root_space. destruct (Z.eqb_spec (pl_fsty pl) FS_FAT32) as [E|E]; cbn [dir_space].
    + assert (dir_start (vfs v) 0 = 2) as -> by (unfold dir_start; by rewrite Hty, E, K10).
      assert (valid_clst (vfs v) 2) as Hv by (split; [lia|rewrite K5; lia]).
      apply (chain_end _ _ 0x0FFFFFFF); [done|rewrite fresh_entry by done; by rewrite E|].
      rewrite K5. pose proof (nclst_range b_vol sz_vol sz_blk n_fat n_root pl Hin Hpl) as Hnc. revert Hnc. unfold MAX_FAT32. lia.
    + assert (n_root / 16 = root_sects pl) as Er by (unfold root_sects; by rewrite (pk_dir _ _ _ _ _ _ Hpl), (proj2 (Z.eqb_neq _ _) E)).
      split; [done|]. split.
      { rewrite Hty. destruct (pk_type _ _ _ _ _ _ Hpl) as [[-> _]|[[-> _]|[? _]]]; done. }
      split.
      * split; rewrite ?K2, ?K4, ?K6, ?K8, ?K9, ?K10; try done; try lia; [unfold fats_end; destruct L6 as [Ef|Ef]; rewrite Ef; lia|].
        rewrite Er. unfold fats_end, plan_sys, root_sects. rewrite (pk_bfat _ _ _ _ _ _ Hpl), (proj2 (Z.eqb_neq _ _) E). lia.
      * intros s. unfold root_sect. rewrite K4, K10, Er. unfold fats_end in *. assert (0 <= n_fat * pl_fat pl) by (destruct L6 as [Ef|Ef]; rewrite Ef; lia). lia.
  - destruct root_size as [Hsz _]. unfold dir_holds, root_blank. rewrite len_replicate by done. split; [done|]. intros k Hk. rewrite root_clear by done.
    rewrite at_lookup by lia. symmetry. apply lookup_replicate_2. lia.
Qed.

Lemma fresh_apart : tree_apart (vfs v) root_tree.
Proof using Type.
  intros sc1 sp1 es1 sc2 sp2 es2 o1 o2 s H1 H2 _ _ _ _. unfold root_tree in *. apply lookup_singleton_Some in H1 as [<- _]. by apply lookup_singleton_Some in H2 as [<- _].
Qed.

Lemma fresh_fsi : fsi_apart G (vfs v).
Proof using HU Hin Hpl HN Hpos Hkn Hty.
  intros E. rewrite Hty in E. destruct fresh_places as (L1 & L2 & L3 & _ & L5 & L6 & L7). destruct Hkn as [_ _ _ _ _ _ K7 K8 _ _ _ _ _]. rewrite K7, K8.
  pose proof (pk_bfat _ _ _ _ _ _ Hpl). pose proof (pk_rsv32 _ _ _ _ _ _ Hpl E). assert (0 <= n_fat * pl_fat pl) by (destruct L6 as [Ef|Ef]; rewrite Ef; lia). assert (0 <= pl_pau pl * pl_nclst pl) by nia. lia.
Qed.

(** ** Free space *)

Lemma fresh_count : count_right v.
Proof using Hkn Hpl Hin.
  intros H. destruct Hkn as [_ _ _ _ K5 _ _ _ _ _ K11 _ _]. rewrite K5, K11 in H. pose proof (nclst_range b_vol sz_vol sz_blk n_fat n_root pl Hin Hpl) as Hnc.
  revert Hnc. unfold MAX_FAT32. lia.
Qed.

(** All clusters are free but that of the root directory of a FAT32 volume. *)
Lemma fresh_free : free_count v = pl_nclst pl - (if pl_fsty pl =? FS_FAT32 then 1 else 0).
Proof using HU Hin Hpl HN Hpos Hfm Hkn Hty Hmo.
  unfold free_count. rewrite (kn_fatent _ _ _ _ _ _ _ _ _ Hkn). replace (pl_nclst pl + 2 - 2) with (pl_nclst pl) by lia.
  assert (zeros (fun _ => Some 0) 2 (pl_nclst pl) = pl_nclst pl) as Hall.
  { assert (forall n, 0 <= n -> zeros (fun _ => Some 0) 2 n = n) as H; [|apply H; lia]. apply natlike_ind; [done|]. intros n Hn IH. unfold Z.succ. by rewrite zeros_succ, IH. }
  assert (forall c, 2 <= c < 2 + pl_nclst pl -> fat_entry v c = Some (if (pl_fsty pl =? FS_FAT32) && (c =? 2) then 0x0FFFFFFF else 0)) as He.
  { intros c Hc. apply fresh_entry. split; [lia|]. rewrite (kn_fatent _ _ _ _ _ _ _ _ _ Hkn). lia. }
  destruct (pl_fsty pl =? FS_FAT32); cbn [andb] in He.
  - rewrite (zeros_insert (fun _ => Some 0) (fat_entry v) 2 (pl_nclst pl) 2), Hall; [|lia|].
    + rewrite (He 2) by lia. rewrite bool_decide_eq_true_2, bool_decide_eq_false_2 by done. lia.
    + intros x Hx Hne. rewrite He by lia. by rewrite (proj2 (Z.eqb_neq _ _) Hne).
  - rewrite (zeros_ext (fat_entry v) (fun _ => Some 0)) by (intros c Hc; by rewrite He). lia.
Qed.

End empty.
