(* ===== verification/Made.v ===== *)
(** * From [f_mkfs] to [f_mount]

    The two calls in the world: what [f_mkfs] answers and leaves on the drive,
    and that [f_mount] finds an empty volume there. *)

From stdpp Require Import base numbers list option gmap.
From Stdlib Require Import ZArith Lia.
From Stdlib Require Import Strings.Byte.
From S2P Require Import Prelude Types Bytes Diskio Window Fat Chain Live Dir Path Mount File DirApi Content Writing Refine Listing Entries Tree Persist Space Mkfs Plan Boot Format Fresh Empty.

(** A volume in order that holds nothing but its root directory. *)
Record empty_volume {D : Type} `{!DiskIO D} `{!DiskIOLaws D} (N : Z) (v : vol D) (T : tree) : Prop := mk_empty_volume {
  ev_sound : sound (fun s => 0 <= s < N) v;
  ev_root : exists sp n, (0 < n)%nat /\ T = {[ 0 := (sp, replicate n zero_entry) ]};
  ev_tree : tree_in (fun s => 0 <= s < N) v T;
  ev_apart : tree_apart (vfs v) T;
  ev_fsi : fsi_apart (fun s => 0 <= s < N) (vfs v);
  ev_few : 2 < n_fatent (vfs v);
  ev_reserved : reserved_used v;
  ev_count : count_right v
}.

Section empty.
Context {D : Type} `{!DiskIO D} `{!DiskIOLaws D} (p N : Z).

(** What [f_mkfs] wrote and [mount_volume] read is such a volume. *)
Lemma fresh_empty b_vol sz_vol sz_blk n_fat n_root pl (v : vol D) :
  N < U32 -> plan_in sz_vol b_vol sz_blk n_fat n_root -> plan_ok sz_vol b_vol sz_blk n_fat n_root pl -> b_vol + sz_vol = N -> 0 < pl_nclst pl ->
  formatted p N b_vol sz_vol n_fat n_root pl (vdsk v) -> known p N b_vol n_fat n_root pl (vfs v) (vfs v) (vdsk v) ->
  fs_type (vfs v) = pl_fsty pl -> vol_ok v -> mounted (vfs v) -> empty_volume N v (root_tree pl v).
Proof using Type.
  intros HU F1 F2 F3 Hpos Hfm Hk Hty Hv Hm. split.
  - by apply (fresh_sound p N b_vol sz_vol sz_blk n_fat n_root pl HU F1 F2 F3 v (vfs v)).
  - exists (root_space pl), (Z.to_nat (dsize (vfs v) (root_space pl))). split; [|done].
    pose proof (root_some p N b_vol sz_vol sz_blk n_fat n_root pl HU F1 F2 F3 v (vfs v) Hpos Hk). lia.
  - by apply (fresh_tree p N b_vol sz_vol sz_blk n_fat n_root pl HU F1 F2 F3 v (vfs v)).
  - apply fresh_apart.
  - by apply (fresh_fsi p N b_vol sz_vol sz_blk n_fat n_root pl HU F1 F2 F3 v (vfs v)).
  - rewrite (kn_fatent _ _ _ _ _ _ _ _ _ Hk). lia.
  - by apply (fresh_reserved p N b_vol sz_vol sz_blk n_fat n_root pl HU F1 F2 F3 v (vfs v)).
  - by apply (fresh_count p N b_vol sz_vol sz_blk n_fat n_root pl F1 F2 v (vfs v)).
Qed.

End empty.

Section made.
Context {Pf : Platform} {D : Type} `{!DiskIO D} `{!DiskIOLaws D} (N : Z) (HN : 0 <= N < U32).
Context (Hcount : counted (D := D) 0 N) (Hstart : starts (D := D) 0).

(** The drive is initialised. *)
Lemma initialize_spec t w (Q : Z -> world D -> Prop) :
  dok (wdisk w) ->
  (forall s d, Z.land s STA_NOINIT = 0 -> Z.land s STA_PROTECT = 0 -> dok d -> (forall x, media d 0 x = media (wdisk w) 0 x) ->
     (forall q x, dgood (wdisk w) q x -> dgood d q x) -> Q s (mkWorld (heap w) (FatFs w) (Fsid w) d)) ->
  wpt t (on_wdisk (dio_initialize 0)) Q w.
Proof using Hstart.
  intros Hd HQ. apply wp_zoom, wp_total. pose proof (Hstart _ Hd) as H1. pose proof (dio_initialize_law _ 0 Hd) as H2.
  eapply wp_mono; [apply (wp_conj _ _ _ _ _ H1 H2)|]. intros s d [[S1 S2] (D1 & D2 & D3)]. by apply HQ.
Qed.

Lemma f_mkfs_spec h w pth rp opt b wlen :
  winv false h w -> good_drive 0 N (wdisk w) -> (forall s : world D, get_ldnumber (Some pth) s = Done ((0, rp), s)) ->
  mkfs_args (default defopt opt) (wlen / SS) b ->
  wp (f_mkfs (Some pth) opt (Some b) wlen) (fun r w' => winv false h w' /\ FatFs w' = FatFs w /\ (exists b', r.2 = Some b' /\ len b' = len b) /\
    mkfs_post 0 N (default defopt opt) (wlen / SS) (wdisk w) r.1 (wdisk w')) w.
Proof using HN Hcount Hstart.
  intros Hw Hg Hld Ha. unfold f_mkfs. apply wp_bind. eapply wp_of_run; [apply Hld|]. change (0 <? 0) with false. cbv iota.
  apply wp_bind. eapply wp_get_FatFs; [exact Hw|done|]. intros o Ho Hreg. apply wp_bind.
  apply (wp_mono _ _ (fun _ w1 => winv false h w1 /\ FatFs w1 = FatFs w /\ wdisk w1 = wdisk w)).
  { destruct o as [q|]; [|by apply wp_ret]. eapply wp_invalidate; [exact Hw|by apply Hreg|intros fs Hfs; by split; [apply fs_ok_set_fs_type|]|]. done. }
  intros _ w1 (Hw1 & Ht1 & Hd1). cbv zeta. change (u8 0) with 0. apply wp_bind. apply initialize_spec; [apply (wi_disk _ _ _ Hw1)|].
  intros st d S1 S2 D1 D2 D3. unfold nz. rewrite S1, S2. cbn [Z.eqb negb]. apply wp_bind. rewrite Hd1 in D2, D3.
  assert (good_drive 0 N d) as Hgd by (split; [done|]; intros x Hx; by apply D3, (gd_good _ _ _ Hg)).
  apply wp_zoom. cbn [wdisk]. destruct (wp_run _ _ _ (mkfs_run_spec 0 N (default defopt opt) (wlen / SS) (mkMkst d b) HN Hcount Hgd Ha)) as (r & s' & E & L & Hp).
  apply (wp_of_run _ _ _ _ (r, mbuf s') (mdsk s')); [by rewrite E|]. cbn [mdsk mbuf] in *. apply wp_ret. cbn [fst snd FatFs wdisk]. destruct Hp as [Hg' Hp].
  split; [|split; [done|split; [by eexists|split; [done|]]]].
  - destruct Hw1 as [I1 I2 I3 I4 I5 I6 I7]. split; try done. apply Hg'.
  - destruct Hp as [Hp|[Hp1 Hp2]]; [by left|right]. split; [|done]. intros x. by rewrite Hp1, D2.
Qed.

(** ** [f_mount] *)

Lemma f_mount_fresh h w pth rp q pl :
  winv false h w -> q ∈ h -> (forall s : world D, get_ldnumber (Some pth) s = Done ((0, rp), s)) -> fresh_drive 0 N (wdisk w) pl ->
  wp (f_mount (Some q) (Some pth) 1) (fun r w' =>
    if pl_nclst pl =? 0 then r = FR_NO_FILESYSTEM
    else r = FR_OK /\ at_ (FatFs w') 0 = Some (Some q) /\ exists v T, hosts w' q v /\ empty_volume N v T /\
      fs_type (vfs v) = pl_fsty pl /\ n_fatent (vfs v) = pl_nclst pl + 2 /\ free_count v = pl_nclst pl - (if pl_fsty pl =? FS_FAT32 then 1 else 0)) w.
Proof using HN Hstart.
  intros Hw Hq Hld Hfr. unfold f_mount. apply wp_bind. eapply wp_of_run; [apply Hld|]. change (0 <? 0) with false. cbv iota.
  apply wp_bind. eapply wp_get_FatFs; [exact Hw|done|]. intros o Ho Hreg. apply wp_bind.
  apply (wp_mono _ _ (fun _ w1 => winv false h w1 /\ wdisk w1 = wdisk w)).
  { destruct o as [c|]; [|by apply wp_ret]. apply wp_bind. eapply wp_put_FatFs; [exact Hw|done|done|]. intros w1 Hw1 _ Hd1 _.
    eapply wp_invalidate; [exact Hw1|by apply Hreg|intros fs Hfs; by split; [apply fs_ok_set_fs_type|]|]. intros w2 fs H1 _ _ _ H3. split; [done|congruence]. }
  intros _ w1 (Hw1 & Hd1). apply wp_bind.
  apply (wp_mono _ _ (fun _ w2 => winv false h w2 /\ wdisk w2 = wdisk w /\ at_ (FatFs w2) 0 = Some (Some q) /\ exists fs, heap w2 !! q = Some fs /\ pdrv fs = 0 /\ fs_type fs = 0)).
  { apply wp_bind. change (mod_fs (set_pdrv (u8 0)) ;;; mod_fs (set_fs_type 0)) with (mod_fs (D := D) (fun fs => set_fs_type 0 (set_pdrv 0 fs))).
    eapply wp_invalidate; [exact Hw1|done| |].
    - intros fs Hfs. split; [|done]. apply fs_ok_set_fs_type; [|done]. by apply fs_ok_set_pdrv.
    - intros w2 fs Hw2 _ Eh _ Hd2. eapply wp_put_FatFs; [exact Hw2|done|by intros ? [= <-]|]. intros w3 Hw3 Eh3 Hd3 Ht3. split; [done|]. split; [congruence|]. split; [done|].
      eexists. split; [by rewrite Eh3, Eh, lookup_insert_eq|done]. }
  intros _ w2 (Hw2 & Hd2 & Ht2 & fs & Hfs & Hp & H0). change (1 =? 0) with false. cbv iota. apply wp_bind.
  unfold mount_volume. apply wp_bind. eapply wp_of_run; [apply Hld|]. change (0 <? 0) with false. cbv iota. apply wp_bind.
  eapply wp_get_FatFs; [exact Hw2|done|]. intros o2 Ho2 _. rewrite Ht2 in Ho2. injection Ho2 as <-. cbv zeta.
  apply wp_bind. eapply wp_on_vol; [exact Hfs|]. apply wp_get_fs. cbn [vfs vdsk]. rewrite insert_id by done.
  replace (mkWorld (heap w2) (FatFs w2) (Fsid w2) (wdisk w2)) with w2 by (by destruct w2). rewrite H0. change (nz 0) with false. cbv iota. apply wp_bind, wp_ret.
  change (negb (nz (Z.land STA_NOINIT STA_NOINIT))) with false. cbv iota. apply wp_bind. eapply wp_on_vol; [exact Hfs|].
  rewrite <- Hd2 in Hfr. destruct Hfr as [b_vol sz_vol sz_blk n_fat n_root pl F1 F2 F3 F4 F5]. pose proof (wi_heap _ _ _ Hw2 _ _ Hfs) as [Hok _].
  assert (vol_ok (mkVol fs (wdisk w2))) as Hv by (split; [done|apply (wi_disk _ _ _ Hw2)]).
  eapply wp_mono; [apply (wp_conj _ _ _ _ _ (mount_fs_spec true (mkVol fs (wdisk w2)) (Z.land 0 (u8 (Z.lnot FA_READ))) Hv)
    (mount_fs_fresh 0 N b_vol sz_vol sz_blk n_fat n_root pl ltac:(lia) F1 F2 F3 _ _ Hstart Hv Hp F4 F5))|].
  intros r v' [(Hv' & _ & Hr) [Hfm Hm]]. destruct (pl_nclst pl =? 0) eqn:En; [subst r; apply wp_ret; by apply wp_ret|].
  destruct Hm as [-> Hkn]. destruct Hr as [Hmo Hty]. cbn [heap FatFs Fsid wdisk vfs vdsk].
  apply wp_bind. eapply wp_on_vol; [cbn; by rewrite lookup_insert_eq|]. apply wp_mod_fs. cbn [heap FatFs Fsid wdisk vfs vdsk]. rewrite u8_small by done.
  apply wp_bind, wp_get. cbv zeta. apply wp_bind, wp_put, wp_bind. eapply wp_on_vol; [cbn; by rewrite lookup_insert_eq|]. apply wp_mod_fs, wp_ret, wp_ret.
  cbn [heap FatFs Fsid wdisk vfs vdsk set_Fsid]. set (id := u16 _). set (v := mkVol (set_fs_id id (set_fs_type (pl_fsty pl) (vfs v'))) (vdsk v')).
  split; [done|]. split; [done|].
  assert (known 0 N b_vol n_fat n_root pl (vfs v) (vfs v) (vdsk v)) as Hk.
  { destruct Hkn as [[K1 _] K2 K3 K4 K5 K6 K7 K8 K9 K10 K11 K12 K13]. by split. }
  assert (vol_ok v) as Hvok.
  { destruct Hv' as [Hf' Hd']. split; [|done]. apply fs_ok_set_fs_id; [by apply fs_ok_set_fs_type|apply u16_range]. }
  assert (mounted (vfs v)) as Hmv by (destruct Hmo; by split).
  assert (0 < pl_nclst pl) as Hpos by (apply Z.eqb_neq in En; pose proof (nclst_range b_vol sz_vol sz_blk n_fat n_root pl F1 F2); lia).
  exists v, (root_tree pl v). split; [|split; [|split; [done|split; [apply (kn_fatent _ _ _ _ _ _ _ _ _ Hk)|]]]].
  - split; [cbn; by rewrite lookup_insert_eq|done|]. cbn. by destruct (pk_type _ _ _ _ _ _ F2) as [[-> _]|[[-> _]|[-> _]]].
  - by apply (fresh_empty 0 N b_vol sz_vol sz_blk n_fat n_root); try lia.
  - by apply (fresh_free 0 N b_vol sz_vol sz_blk n_fat n_root pl ltac:(lia) F1 F2 F3 v (vfs v)).
Qed.

End made.
