(* ===== verification/Harness.v ===== *)
(** * The fuzzing harnesses

    One turn of the persistent loop of each main function: harness.c, and the
    per-operation harnesses of harnesses/ (mount, stat, read, write, seek,
    unlink, mkdir, rename).  A turn gets the test case of the fuzzer, loads it
    (or the constant image [clean_disk]) into the RAM disk, mounts it, and
    calls the API.  The filesystem object [FATFS fs] of a turn is an automatic
    variable of the block of the loop: it exists from [declare_fs] to [end_fs],
    and the volume table still holds its address afterwards when the mount
    failed.  At the end of the file: which turns make no bad access, whatever
    the test cases are, and which turn uses the object that has ended. *)

From stdpp Require Import base numbers list option gmap.
From Stdlib Require Import ZArith Lia.
From Stdlib Require Import Strings.Byte Strings.String.
From S2P Require Import Prelude Types Bytes Diskio Window Fat Chain Dir Path Mount File DirApi.

(** ** C strings *)

(** The characters of a literal, without and with the terminator. *)
Definition chars (s : string) : list byte := list_byte_of_string s.
Definition lit (s : string) : list byte := chars s ++ [x00].

(** What [%s] prints: the bytes before the first null, which has to be in the
    object. *)
Fixpoint c_str (l : list byte) : option (list byte) :=
  match l with
  | [] => None
  | b :: l => if bval b =? 0 then Some [] else cons b <$> c_str l
  end.

(** [snprintf (buf, sizeof (buf), ...)] of the formatted text [s]. *)
Definition snprintf {St} (buf s : list byte) : M St (list byte) :=
  chk (splice buf 0 (take (Z.to_nat (len buf - 1)) s ++ [x00])).

(** ** The mains *)

(** The automatic variables of a main function before they are assigned. *)
Record Stack : Type := mkStack {
  st_fs : FATFS;
  st_file : FIL;
  st_dir : DIR;
  st_fno : FILINFO;
  st_chars : Z -> list byte
}.

Section harness.
Context {Pf : Platform}.
Context (st : Stack) (clean_disk : list byte) (fsp : Z).

Abbreviation W := (M (world Ram.ram)).

Definition RAM_DRIVE : option (list byte) := Some (lit "RAM:").
Definition RAM_ROOT : option (list byte) := Some (lit "RAM:/").

(** [FATFS fs;], an automatic variable of the block of the loop, at the address
    [fsp]: the object exists from the entry of the block, with whatever the
    stack holds there, to the end of the block. *)
Definition declare_fs : W unit := modify (fun w => set_heap (<[ fsp := st_fs st ]> (heap w)) w).
Definition end_fs : W unit := modify (fun w => set_heap (delete fsp (heap w)) w).

(** Mount, or give the turn up; at its end, unregister the volume. *)
Definition session (body : W unit) : W unit :=
  r <- f_mount (Some fsp) RAM_DRIVE 1 ;;
  if negb (r =r FR_OK) then ret tt else
  body ;;;
  f_mount None RAM_DRIVE 0 ;;;
  ret tt.

(** Load a whole test case, or the clean image. *)
Definition load_input (buf : list byte) (n : Z) : W unit := on_wdisk (Ram.fuzz_disk_load buf n).
Definition reset_disk : W unit := on_wdisk (Ram.fuzz_disk_load clean_disk 65536).

(** Open a file to read, read one buffer and close it. *)
Definition read_file (file : FIL) (path : list byte) : W FIL :=
  do (r, file) <- f_open file (Some path) FA_READ ;;
  if r =r FR_OK then
    do (_, file, _, _) <- f_read file (st_chars st 512) 512 ;;
    do (_, file) <- f_close file ;;
    ret file
  else ret file.

(** [while (f_readdir(&dir, &fno) == FR_OK && fno.fname\[0\]) { ... }]: the
    loop variables are the directory object, the file information and a file
    object. *)
Definition walk_body (each : FILINFO -> FIL -> W FIL) (a : DIR * FILINFO * FIL) :
    W (DIR * FILINFO * FIL + DIR * FILINFO * FIL) :=
  let '(dir, fno, file) := a in
  do (r, dir, i) <- f_readdir dir (Some fno) ;;
  fno <- chk i ;;
  if negb (r =r FR_OK) then ret (inr (dir, fno, file)) else
  c <- chk (at_ (fi_fname fno) 0) ;;
  if negb (nz (bval c)) then ret (inr (dir, fno, file)) else
  file <- each fno file ;;
  ret (inl (dir, fno, file)).

(** Open a directory, walk it and close it. *)
Definition walk (each : FILINFO -> FIL -> W FIL) (path : option (list byte)) (fno : FILINFO)
    (file : FIL) : W FIL :=
  do (r, dir) <- f_opendir (st_dir st) path ;;
  if r =r FR_OK then
    do (dir, _, file) <- loop (walk_body each) (dir, fno, file) ;;
    f_closedir dir ;;;
    ret file
  else ret file.

(** [snprintf(path, sizeof(path), "RAM:/%s", fno.fname)]. *)
Definition path_of (fno : FILINFO) : W (list byte) :=
  s <- chk (c_str (fi_fname fno)) ;;
  snprintf (st_chars st 64) (chars "RAM:/" ++ s).

(** A file of a subdirectory, in harness.c. *)
Definition read_in_subdir (path : list byte) (subfno : FILINFO) (file : FIL) : W FIL :=
  if nz (Z.land (fi_fattrib subfno) AM_DIR) then ret file else
  d <- chk (c_str path) ;;
  s <- chk (c_str (fi_fname subfno)) ;;
  subpath <- snprintf (st_chars st 96) (d ++ chars "/" ++ s) ;;
  read_file file subpath.

(** An entry of the root directory, in harness.c. *)
Definition read_entry (fno : FILINFO) (file : FIL) : W FIL :=
  path <- path_of fno ;;
  if nz (Z.land (fi_fattrib fno) AM_DIR) then walk (read_in_subdir path) (Some path) (st_fno st) file
  else read_file file path.

(** Create a file, write to it, close it, and go on. *)
Definition write_close (file : FIL) (path : option (list byte)) (data : list byte) (n : Z)
    (k : FIL -> W unit) : W unit :=
  do (r, file) <- f_open file path (Z.lor FA_WRITE FA_CREATE_ALWAYS) ;;
  if r =r FR_OK then
    do (_, file, _) <- f_write file data n ;;
    k file
  else ret tt.

Definition close (file : FIL) : W unit := f_close file ;;; ret tt.

(** harness.c. *)
Definition main (buf : list byte) (n : Z) : W unit :=
  load_input buf n ;;;
  session (
    file <- walk read_entry RAM_ROOT (st_fno st) (st_file st) ;;
    write_close file (Some (lit "RAM:/fuzzw.bin")) (lit "AFLplusplus-write-probe") 24 (fun file =>
      close file ;;;
      f_unlink (Some (lit "RAM:/fuzzw.bin")) ;;;
      ret tt) ;;;
    f_mkdir (Some (lit "RAM:/fuzzdir")) ;;;
    ret tt).

(** harness_mount.c. *)
Definition mount_entry (fno : FILINFO) (file : FIL) : W FIL :=
  path <- path_of fno ;;
  if negb (nz (Z.land (fi_fattrib fno) AM_DIR)) then read_file file path else ret file.

Definition main_mount (buf : list byte) (n : Z) : W unit :=
  load_input buf n ;;;
  session (walk mount_entry RAM_ROOT (st_fno st) (st_file st) ;;; ret tt).

(** harness_stat.c; [fno] is used for the root and then for the walk. *)
Definition stat_entry (fno : FILINFO) (file : FIL) : W FIL :=
  path <- path_of fno ;;
  f_stat (Some path) (Some (st_fno st)) ;;;
  ret file.

Definition main_stat (buf : list byte) (n : Z) : W unit :=
  load_input buf n ;;;
  session (
    do (_, i) <- f_stat RAM_ROOT (Some (st_fno st)) ;;
    fno <- chk i ;;
    walk stat_entry RAM_ROOT fno (st_file st) ;;;
    ret tt).

(** "RAM:/" and [k] bytes of the test case from offset [o], in the array
    [fname]. *)
Definition fuzz_name (fname buf : list byte) (o k : Z) : W (list byte) :=
  fname <- snprintf fname (chars "RAM:/") ;;
  name <- chk (slice buf o k) ;;
  fname <- chk (splice fname 5 name) ;;
  chk (upd fname (5 + k) x00).

(** A pointer into the test case. *)
Definition from (buf : list byte) (o : Z) : list byte := drop (Z.to_nat o) buf.

(** harness_unlink.c. *)
Definition main_unlink (buf : list byte) (n : Z) : W unit :=
  if n <? 2 then ret tt else
  b0 <- chk (at_ buf 0) ;;
  let name_len := bval b0 mod 16 + 1 in
  if n <? 1 + name_len then ret tt else
  fname <- fuzz_name (st_chars st 64) buf 1 name_len ;;
  reset_disk ;;;
  session (write_close (st_file st) (Some fname) buf n (fun file =>
    close file ;;;
    f_unlink (Some fname) ;;;
    ret tt)).

(** harness_mkdir.c. *)
Definition main_mkdir (buf : list byte) (n : Z) : W unit :=
  if n <? 2 then ret tt else
  b0 <- chk (at_ buf 0) ;;
  let name_len := bval b0 mod 16 + 1 in
  if n <? 1 + name_len then ret tt else
  dname <- fuzz_name (st_chars st 64) buf 1 name_len ;;
  reset_disk ;;;
  session (
    f_mkdir (Some dname) ;;;
    d <- chk (c_str dname) ;;
    fpath <- snprintf (st_chars st 96) (d ++ chars "/test.txt") ;;
    write_close (st_file st) (Some fpath) buf n close).

(** harness_write.c; [reset_disk] is its function of that name. *)
Definition main_write (buf : list byte) (n : Z) : W unit :=
  if n <? 4 then ret tt else
  b0 <- chk (at_ buf 0) ;;
  let name_len := bval b0 mod 32 + 1 in
  if n <? 1 + name_len then ret tt else
  fname <- fuzz_name (replicate (Z.to_nat 64) x00) buf 1 name_len ;;
  let data := from buf (1 + name_len) in
  let data_len := n - 1 - name_len in
  reset_disk ;;;
  session (write_close (st_file st) (Some fname) data (u32 data_len) (fun file =>
    do (_, file) <- f_lseek file 0 ;;
    do (_, file, _, _) <- f_read file (st_chars st 512) 512 ;;
    close file ;;;
    f_unlink (Some fname) ;;;
    ret tt)).

(** harness_seek.c. *)
Definition main_seek (buf : list byte) (n : Z) : W unit :=
  if n <? 8 then ret tt else
  b0 <- chk (at_ buf 0) ;;
  b1 <- chk (at_ buf 1) ;;
  b2 <- chk (at_ buf 2) ;;
  b3 <- chk (at_ buf 3) ;;
  let seek_off := Z.lor (Z.lor (Z.lor (u32 (Z.shiftl (bval b0) 24)) (u32 (Z.shiftl (bval b1) 16)))
                               (u32 (Z.shiftl (bval b2) 8))) (bval b3) in
  reset_disk ;;;
  session (write_close (st_file st) (Some (lit "RAM:/seektest.bin")) (from buf 4) (u32 (n - 4)) (fun file =>
    do (_, file) <- f_lseek file seek_off ;;
    do (_, file, _, _) <- f_read file (st_chars st 512) 512 ;;
    close file)).

(** harness_read.c: write a file first, then read it, seek and read again. *)
Definition read_back (fname data : list byte) (data_len : Z) : W unit :=
  do (r, file) <- f_open (st_file st) (Some fname) (Z.lor FA_WRITE FA_CREATE_ALWAYS) ;;
  file <- (if r =r FR_OK then
             do (_, file, _) <- f_write file data (u32 data_len) ;;
             do (_, file) <- f_close file ;;
             ret file
           else ret file) ;;
  do (r, file) <- f_open file (Some fname) FA_READ ;;
  if r =r FR_OK then
    do (_, file, rbuf, _) <- f_read file (st_chars st 512) 512 ;;
    do (_, file) <- f_lseek file (u32 (data_len / 2)) ;;
    do (_, file, _, _) <- f_read file rbuf 512 ;;
    close file
  else ret tt.

Definition main_read (buf : list byte) (n : Z) : W unit :=
  if n <? 2 then ret tt else
  b0 <- chk (at_ buf 0) ;;
  let name_len := bval b0 mod 16 + 1 in
  if n <? 1 + name_len then ret tt else
  fname <- fuzz_name (st_chars st 64) buf 1 name_len ;;
  let data := from buf (1 + name_len) in
  let data_len := n - 1 - name_len in
  reset_disk ;;;
  session (read_back fname data data_len).

(** harness_rename.c. *)
Definition main_rename (buf : list byte) (n : Z) : W unit :=
  if n <? 6 then ret tt else
  b0 <- chk (at_ buf 0) ;;
  let src_len := bval b0 mod 16 + 1 in
  if n <? 1 + src_len + 1 then ret tt else
  b1 <- chk (at_ buf (1 + src_len)) ;;
  let dst_len := bval b1 mod 16 + 1 in
  if n <? 1 + src_len + 1 + dst_len then ret tt else
  src <- fuzz_name (st_chars st 32) buf 1 src_len ;;
  dst <- fuzz_name (st_chars st 32) buf (1 + src_len + 1) dst_len ;;
  reset_disk ;;;
  session (write_close (st_file st) (Some src) (lit "fuzz") 4 (fun file =>
    close file ;;;
    f_rename (Some src) (Some dst) ;;;
    ret tt)).

(** The harnesses. *)
Inductive harness : Set :=
| Harness | H_mount | H_stat | H_unlink | H_mkdir | H_write | H_seek | H_read | H_rename.

Definition main_of (x : harness) : list byte -> Z -> W unit :=
  match x with
  | Harness => main | H_mount => main_mount | H_stat => main_stat | H_unlink => main_unlink
  | H_mkdir => main_mkdir | H_write => main_write | H_seek => main_seek | H_read => main_read
  | H_rename => main_rename
  end.

(** The block of the loop, with the [n] bytes of a test case in [buf]. *)
Definition turn (x : harness) (buf : list byte) (n : Z) : W unit :=
  declare_fs ;;;
  main_of x buf n ;;;
  end_fs.

End harness.

(** [while (__AFL_LOOP(10000)) ...]: a turn per test case, each with what its
    stack holds and where its filesystem object lies. *)
Fixpoint afl_loop {Pf : Platform} (clean_disk : list byte) (x : harness)
    (turns : list (Stack * Z * list byte)) : M (world Ram.ram) unit :=
  match turns with
  | [] => ret tt
  | (st, fsp, buf) :: rest => turn st clean_disk fsp x buf (len buf) ;;; afl_loop clean_disk x rest
  end.

(** ** Safety of the harnesses *)

(** What is known of an uninitialised object: the fields fit their types. *)
Record stack_ok (st : Stack) : Prop := mk_stack_ok {
  sk_fs : fs_ok (st_fs st);
  sk_file : 0 <= fp_clust (st_file st) < U32;
  sk_dir : dir_w (st_dir st);
  sk_fno : len (fi_fname (st_fno st)) = 13;
  sk_chars : forall n, 0 <= n -> len (st_chars st n) = n
}.

(** *** Strings *)

Lemma c_str_some l : x00 ∈ l -> exists s, c_str l = Some s.
Proof.
  induction l as [|b l IH]; intros H; [by apply elem_of_nil in H|]. cbn.
  destruct (Z.eqb_spec (bval b) 0) as [|Hb]; [by eexists|].
  apply elem_of_cons in H as [<-|H]; [done|]. destruct (IH H) as [s ->]. by eexists.
Qed.

(** A buffer that holds a C string: the argument of a path parameter. *)
Definition str_ok (p : list byte) : Prop := len p < U32 /\ x00 ∈ p.

Lemma str_ok_arg p : str_ok p -> path_arg (Some p).
Proof.
  intros [Hl Hz]. split; [done|]. split; [done|]. apply list_elem_of_lookup in Hz as [k Hk].
  exists (Z.of_nat k). split; [lia|]. by rewrite at_lookup, Nat2Z.id by lia.
Qed.

Lemma str_ok_lit s : len (lit s) < U32 -> str_ok (lit s).
Proof. intros H. split; [done|]. unfold lit. set_solver. Qed.

Lemma splice_elem (l : list byte) o src r x : splice l o src = Some r -> x ∈ src -> x ∈ r.
Proof. intros (_ & _ & _ & ->)%splice_Some_inv H. set_solver. Qed.

Lemma snprintf_runs {St} (buf s : list byte) :
  0 < len buf < U32 -> runs (S := St) (snprintf buf s) (fun r => len r = len buf /\ str_ok r).
Proof.
  intros Hl. unfold snprintf. set (src := take _ s ++ [x00]).
  assert (len src <= len buf) as Hs.
  { unfold src. rewrite len_app. unfold len in *. cbn. rewrite length_take. lia. }
  destruct (splice_is_Some buf 0 src) as (r & Hr & Hrl); [lia|lia|].
  apply runs_chk. exists r. split; [done|]. split; [done|]. split; [lia|].
  eapply splice_elem; [done|]. unfold src. apply elem_of_app. right. by apply list_elem_of_singleton.
Qed.

(** *** Mounting an uninitialised object *)

(** The world as if the type field of the object at [p] were zero. *)
Definition zap {D} (p : Z) (w : world D) : world D :=
  set_heap (alter (set_fs_type 0) p (heap w)) w.

Section fresh.
Context {D : Type} `{!DiskIO D}.

Lemma insert_alter_same (p : Z) (f : FATFS -> FATFS) x (m : gmap Z FATFS) :
  <[p := x]> (alter f p m) = <[p := x]> m.
Proof using Type.
  apply map_eq. intros i. destruct (decide (i = p)) as [->|Hi].
  - by rewrite !lookup_insert_eq.
  - by rewrite !lookup_insert_ne, lookup_alter_ne by done.
Qed.

(** The object is made invalid: its old type does not matter. *)
Lemma on_fs_zap p (m : M (vol D) unit) w :
  (forall fs d, m (mkVol (set_fs_type 0 fs) d) = m (mkVol fs d)) ->
  on_fs p m (zap p w) = on_fs p m w.
Proof using Type.
  intros Hm. unfold on_fs, zap. cbn. rewrite lookup_alter_eq. destruct (heap w !! p) as [fs|]; [|done].
  cbn. rewrite Hm. destruct (m _) as [[a v]| |]; [|done..]. by rewrite insert_alter_same.
Qed.

Lemma on_fs_zap_ne p c (m : M (vol D) unit) w :
  c <> p -> on_fs c m (zap p w) =
    match on_fs c m w with Done (a, w') => Done (a, zap p w') | Fault => Fault | OutOfFuel => OutOfFuel end.
Proof using Type.
  intros Hc. unfold on_fs, zap. cbn. rewrite lookup_alter_ne by done. destruct (heap w !! c) as [fs|]; [|done].
  destruct (m _) as [[a v]| |]; [|done..]. cbn. unfold set_heap. cbn. do 3 f_equal.
  by rewrite alter_insert_ne.
Qed.

Lemma get_ldnumber_ram {St} (s : St) : get_ldnumber RAM_DRIVE s = Done ((0, 4), s).
Proof using Type. vm_compute. reflexivity. Qed.

Lemma bind_eq {St A B} (m : M St A) (k : A -> M St B) s1 s2 : m s1 = m s2 -> bind m k s1 = bind m k s2.
Proof using Type. unfold bind. by intros ->. Qed.

Lemma bind_fault {St A B} (m : M St A) (k : A -> M St B) s : m s = Fault -> bind m k s = Fault.
Proof using Type. unfold bind. by intros ->. Qed.

Lemma get_FatFs_eq i (w : world D) :
  get_FatFs i w = match at_ (FatFs w) i with Some o => Done (o, w) | None => Fault end.
Proof using Type. unfold get_FatFs, bind, get, chk. by destruct (at_ _ _). Qed.

Lemma put_FatFs_eq i o (w : world D) :
  put_FatFs i o w = match upd (FatFs w) i o with Some l => Done (tt, set_FatFs l w) | None => Fault end.
Proof using Type. unfold put_FatFs, bind, get, chk. by destruct (upd _ _ _). Qed.

(** [f_mount] does not look at the old contents of a new object. *)
Lemma f_mount_zap p opt (w : world D) :
  f_mount (Some p) RAM_DRIVE opt (zap p w) = f_mount (Some p) RAM_DRIVE opt w.
Proof using Type.
  assert (forall w : world D, on_fs p (mod_fs (set_pdrv (u8 0)) ;;; mod_fs (set_fs_type 0)) (zap p w) =
            on_fs p (mod_fs (set_pdrv (u8 0)) ;;; mod_fs (set_fs_type 0)) w) as Hp by (intros; by apply on_fs_zap).
  unfold f_mount. rewrite !(bind_done _ _ _ _ _ (get_ldnumber_ram _)). cbn [Z.ltb Z.compare].
  destruct (at_ (FatFs w) 0) as [o|] eqn:Ho.
  2:{ by rewrite 2!bind_fault by (rewrite get_FatFs_eq; cbn [FatFs zap set_heap]; by rewrite Ho). }
  rewrite (bind_done _ _ (zap p w) o (zap p w)), (bind_done _ _ w o w)
    by (rewrite get_FatFs_eq; cbn [FatFs zap set_heap]; by rewrite Ho).
  destruct o as [c|].
  2:{ rewrite (bind_done _ _ (zap p w) () (zap p w)), (bind_done _ _ w () w) by done. apply bind_eq, bind_eq, Hp. }
  destruct (upd (FatFs w) 0 None) as [l|] eqn:Hl.
  2:{ by rewrite 2!bind_fault by (apply bind_fault; rewrite put_FatFs_eq; cbn [FatFs zap set_heap]; by rewrite Hl). }
  destruct (decide (c = p)) as [->|Hc].
  { apply bind_eq. rewrite (bind_done _ _ (zap p w) () (zap p (set_FatFs l w))), (bind_done _ _ w () (set_FatFs l w))
      by (rewrite put_FatFs_eq; cbn [FatFs zap set_heap]; by rewrite Hl).
    by apply on_fs_zap. }
  assert (forall x : world D, bind (put_FatFs 0 None) (fun _ => on_fs c (mod_fs (set_fs_type 0))) x =
            match upd (FatFs x) 0 None with
            | Some l => on_fs c (mod_fs (set_fs_type 0)) (set_FatFs l x) | None => Fault end) as Hput.
  { intros x. unfold bind at 1. rewrite put_FatFs_eq. destruct (upd (FatFs x) 0 None); reflexivity. }
  pose proof (Hput w) as H1. pose proof (Hput (zap p w)) as H2. cbn [FatFs zap set_heap] in H2.
  rewrite Hl in H1, H2. change (set_FatFs l (zap p w)) with (zap p (set_FatFs l w)) in H2.
  rewrite on_fs_zap_ne in H2 by done.
  destruct (on_fs c (mod_fs (set_fs_type 0)) (set_FatFs l w)) as [[a w']| |].
  - rewrite (bind_done _ _ _ _ _ H1), (bind_done _ _ _ _ _ H2). apply bind_eq, bind_eq, Hp.
  - apply bind_eq. by rewrite H1, H2.
  - apply bind_eq. by rewrite H1, H2.
Qed.

(** With the address of an ended object in the table, [f_mount] writes to it. *)
Lemma f_mount_dead p q (w : world D) :
  FatFs w = [Some p] -> heap w !! p = None -> f_mount (Some q) RAM_DRIVE 1 w = Fault.
Proof using Type.
  intros Hf Hh. unfold f_mount. rewrite (bind_done _ _ _ _ _ (get_ldnumber_ram _)). cbn [Z.ltb Z.compare].
  rewrite (bind_done _ _ w (Some p) w) by (rewrite get_FatFs_eq; by rewrite Hf).
  apply bind_fault. rewrite (bind_done _ _ w () (set_FatFs [None] w)) by (rewrite put_FatFs_eq; by rewrite Hf).
  unfold on_fs. cbn. by rewrite Hh.
Qed.

End fresh.

Lemma session_dead p q body (w : world Ram.ram) :
  FatFs w = [Some p] -> heap w !! p = None -> session q body w = Fault.
Proof. intros Hf Hh. by apply bind_fault, f_mount_dead with p. Qed.

(** *** The mains *)

Section harness_safe.
Context {Pf : Platform} (st : Stack) (clean_disk : list byte) (fsp : Z) (h : gset Z).
Context (Hst : stack_ok st) (Hcd : len clean_disk = 65536) (Hfsp : fsp ∈ h) (Hun : dir_w uninit_dir).

Abbreviation W := (M (world Ram.ram)).
(** No bad access, and a well-formed world at the end. *)
Abbreviation hsafe m P := (wsafe (D := Ram.ram) false h m P).

Lemma hready : drive_ready (D := Ram.ram) false.
Proof using Type. done. Qed.

(** An access known to be inside its object. *)
Lemma hsafe_chk {A B} (o : option A) a (k : A -> W B) Q :
  o = Some a -> hsafe (k a) Q -> hsafe (bind (chk o) k) Q.
Proof using Type. intros -> Hk w Hw. apply wp_bind, wp_ret. by apply Hk. Qed.

(** The file variable between uses. *)
Definition fil_any (file : FIL) : Prop := 0 <= fp_clust file < U32.

Lemma file_any file : file_ok h file -> fil_any file.
Proof using Type. intros [Hf _]. apply Hf. Qed.

(** Before the mount: the world is well formed but for the type field of the
    new object, which nothing has set. *)
Definition before (w : world Ram.ram) : Prop := winv false h (zap fsp w).

(** [m] makes no bad access before the mount, and leaves the world so. *)
Definition bsafe {A} (m : W A) (P : A -> Prop) : Prop :=
  forall w, before w -> wpt false m (fun a w' => before w' /\ P a) w.

Lemma bsafe_ret {A} (a : A) (P : A -> Prop) : P a -> bsafe (ret a) P.
Proof using Type. intros HP w Hw. by apply wp_ret. Qed.

Lemma bsafe_bind {A B} (m : W A) (k : A -> W B) P Q :
  bsafe m P -> (forall a, P a -> bsafe (k a) Q) -> bsafe (bind m k) Q.
Proof using Type.
  intros Hm Hk w Hw. apply wp_bind. eapply wp_mono; [by apply Hm|]. intros a w' []. by apply Hk.
Qed.

Lemma bsafe_then {A B} (m : W A) (k : W B) P Q : bsafe m P -> bsafe k Q -> bsafe (bind m (fun _ => k)) Q.
Proof using Type. intros Hm Hk. eapply bsafe_bind; [exact Hm|]. by intros _ _. Qed.

Lemma bsafe_runs {A} (m : W A) P : runs m P -> bsafe m P.
Proof using Type. intros H w Hw. apply wp_total. eapply wp_mono; [apply H|]. by intros a w' [-> ?]. Qed.

Lemma bsafe_chk {A B} (o : option A) a (k : A -> W B) Q :
  o = Some a -> bsafe (k a) Q -> bsafe (bind (chk o) k) Q.
Proof using Type. intros -> Hk w Hw. apply wp_bind, wp_ret. by apply Hk. Qed.

(** A well-formed world is one for the next mount, too. *)
Lemma winv_before w : winv false h w -> before w.
Proof using Hfsp.
  intros [H1 H2 H3 H4 H5 H6 H7]. constructor; cbn; try done.
  - by rewrite dom_alter_L.
  - intros p x Hx. apply lookup_alter_Some in Hx as [(-> & y & Hy & ->)|[_ Hx]]; [|by eapply H3].
    destruct (H3 _ _ Hy) as [Hy1 _]. split; [by apply fs_ok_set_fs_type|done].
Qed.

Lemma session_safe (body : W unit) :
  hsafe body (fun _ => True) -> bsafe (session fsp body) (fun _ => True).
Proof using Hfsp.
  intros Hb w1 Hw. unfold session.
  apply wp_bind. unfold wpt. rewrite <- f_mount_zap. change (wpt false (f_mount (Some fsp) RAM_DRIVE 1)
    (fun r => wpt false (if negb (r =r FR_OK) then ret () else body ;;; f_mount None RAM_DRIVE 0 ;;; ret ())
      (fun _ w' => before w' /\ True)) (zap fsp w1)).
  assert (path_arg RAM_DRIVE) as Hr by by apply str_ok_arg, str_ok_lit.
  eapply wp_mono; [apply (f_mount_safe h (Some fsp)); [by intros p [= <-]|done|]|].
  - exact Hw.
  - intros r w2 [Hw2 _]. destruct (negb _); [by apply wp_ret; split; [apply winv_before|]|].
    eapply wp_mono; [apply (wsafe_bind _ _ _ _ _ (fun _ => True) Hb); [|done]|].
    + intros _ _. eapply wsafe_bind; [by apply f_mount_safe|]. intros _ _. by apply wsafe_ret.
    + intros _ w3 [Hw3 _]. by split; [apply winv_before|].
Qed.

Lemma load_safe buf n : 0 <= n <= len buf -> bsafe (load_input buf n) (fun _ => True).
Proof using Type.
  intros Hn w Hw. unfold load_input, on_wdisk. apply wp_zoom, wp_total.
  eapply wp_mono; [apply Ram.fuzz_disk_load_spec; [apply Hw|done]|]. intros _ d [Hd _]. split; [|done].
  destruct Hw. by constructor.
Qed.

Lemma reset_safe : bsafe (reset_disk clean_disk) (fun _ => True).
Proof using Hcd. apply load_safe. rewrite Hcd. lia. Qed.

Lemma chars_len n : 0 <= n -> len (st_chars st n) = n.
Proof using Hst. apply Hst. Qed.

Lemma read_file_safe file path :
  fil_any file -> str_ok path -> hsafe (read_file st file path) fil_any.
Proof using Hst Hun.
  intros Hf Hp. unfold read_file.
  eapply wsafe_bind; [apply f_open_safe; [apply hready|done|done|by apply str_ok_arg]|].
  intros [r f1] (Hc & Hok & _). cbn [fst snd] in *. destruct (fr_eqb_spec r FR_OK) as [->|]; [|by apply wsafe_ret].
  eapply wsafe_bind; [apply f_read_safe; [by apply Hok|done|by rewrite chars_len]|].
  intros [[[r2 f2] b] br] (Hf2 & _). cbn [fst snd] in *.
  eapply wsafe_bind; [by apply f_close_safe|]. intros [r3 f3] [Hf3 _]. by apply wsafe_ret, file_any.
Qed.

(** A walk is safe when what it does with each entry is. *)
Lemma walk_safe each path fno file :
  (forall i f, name_ok (fi_fname i) -> fil_any f -> hsafe (each i f) fil_any) ->
  path_arg path -> len (fi_fname fno) = 13 -> fil_any file -> hsafe (walk st each path fno file) fil_any.
Proof using Hst.
  intros He Hp Hn Hf. unfold walk.
  eapply wsafe_bind; [apply f_opendir_safe; [apply hready|apply Hst|done]|].
  intros [r dir] [Hok _]. cbn [fst snd] in *. destruct (fr_eqb_spec r FR_OK) as [->|]; [|by apply wsafe_ret].
  apply (wsafe_bind _ _ _ _ (fun a => dir_ok h a.1.1 /\ fil_any a.2)).
  2:{ intros [[d2 i2] f2] [Hd2 Hf2]. cbn [fst snd] in *.
      eapply wsafe_bind; [apply f_closedir_safe, Hd2|]. intros _ _. by apply wsafe_ret. }
  intros w Hw. apply (wp_loop_partial (fun a w => winv false h w /\ dir_ok h a.1.1 /\ len (fi_fname a.1.2) = 13 /\ fil_any a.2)).
  2:{ split; [done|]. cbn. split; [by apply Hok|done]. }
  clear dir Hok fno file Hn Hf w Hw. intros [[dir fno] file] w (Hw & Hd & Hn & Hf). cbn [fst snd] in *.
  unfold walk_body. apply wp_bind.
  eapply wp_mono; [apply (f_readdir_safe false h dir (Some fno)); [done|by intros i [= <-]|done]|].
  intros [[r d2] i] w2 (Hw2 & Hdo & Hs & Hi). cbn [fst snd] in *. destruct (Hs (mk_is_Some _ _ eq_refl)) as [i2 ->].
  apply wp_bind. eapply wp_chk; [done|]. destruct (Hi i2 eq_refl) as [Hl Hnm].
  destruct (fr_eqb_spec r FR_OK) as [->|]; cbn [negb]; [|by apply wp_ret].
  destruct (at_is_Some (fi_fname i2) 0) as [c Hc]; [lia|]. apply wp_bind. eapply wp_chk; [done|].
  destruct (negb _); [by apply wp_ret|].
  apply wp_bind. eapply wp_mono; [apply He; [by apply Hnm|done|done]|].
  intros f2 w3 [Hw3 Hf2]. by apply wp_ret.
Qed.

Lemma path_of_safe fno : name_ok (fi_fname fno) -> hsafe (path_of st fno) str_ok.
Proof using Hst.
  intros [_ Hz]. unfold path_of. destruct (c_str_some _ Hz) as [s Hs].
  eapply hsafe_chk; [done|]. apply wsafe_runs.
  eapply runs_mono; [apply snprintf_runs; by rewrite chars_len|]. by intros r [].
Qed.

Lemma read_in_subdir_safe path fno file :
  str_ok path -> name_ok (fi_fname fno) -> fil_any file -> hsafe (read_in_subdir st path fno file) fil_any.
Proof using Hst Hun.
  intros [Hl Hz] [_ Hn] Hf. unfold read_in_subdir. destruct (nz _); [by apply wsafe_ret|].
  destruct (c_str_some _ Hz) as [d Hd]. destruct (c_str_some _ Hn) as [s Hs].
  eapply hsafe_chk; [done|]. eapply hsafe_chk; [done|].
  eapply wsafe_bind; [apply wsafe_runs, snprintf_runs; by rewrite chars_len|].
  intros p [_ Hp]. by apply read_file_safe.
Qed.

Lemma read_entry_safe fno file :
  name_ok (fi_fname fno) -> fil_any file -> hsafe (read_entry st fno file) fil_any.
Proof using Hst Hun.
  intros Hn Hf. unfold read_entry. eapply wsafe_bind; [by apply path_of_safe|]. intros p Hp.
  destruct (nz _); [|by apply read_file_safe].
  apply walk_safe; [intros; by apply read_in_subdir_safe|by apply str_ok_arg|apply Hst|done].
Qed.

Lemma mount_entry_safe fno file :
  name_ok (fi_fname fno) -> fil_any file -> hsafe (mount_entry st fno file) fil_any.
Proof using Hst Hun.
  intros Hn Hf. unfold mount_entry. eapply wsafe_bind; [by apply path_of_safe|]. intros p Hp.
  destruct (negb _); [by apply read_file_safe|by apply wsafe_ret].
Qed.

Lemma stat_entry_safe fno file :
  name_ok (fi_fname fno) -> fil_any file -> hsafe (stat_entry st fno file) fil_any.
Proof using Hst Hun.
  intros Hn Hf. unfold stat_entry. eapply wsafe_bind; [by apply path_of_safe|]. intros p Hp.
  eapply wsafe_bind; [apply f_stat_safe; [apply hready|done|by apply str_ok_arg|]|].
  - intros i [= <-]. apply Hst.
  - intros _ _. by apply wsafe_ret.
Qed.

(** Create, write, go on: safe when what follows is. *)
Lemma write_close_safe file path data n k :
  fil_any file -> path_arg path -> 0 <= n < U32 -> n <= len data ->
  (forall f, file_ok h f -> hsafe (k f) (fun _ => True)) ->
  hsafe (write_close file path data n k) (fun _ => True).
Proof using Hun.
  intros Hf Hp Hn Hl Hk. unfold write_close.
  eapply wsafe_bind; [apply f_open_safe; [apply hready|done|done|done]|].
  intros [r f1] (_ & Hok & _). cbn [fst snd] in *. destruct (fr_eqb_spec r FR_OK) as [->|]; [|by apply wsafe_ret].
  eapply wsafe_bind; [apply f_write_safe; [by apply Hok|done|done]|].
  intros [[r2 f2] bw] [Hf2 _]. by apply Hk.
Qed.

Lemma close_safe file : file_ok h file -> hsafe (close file) (fun _ => True).
Proof using Type.
  intros Hf. unfold close. eapply wsafe_bind; [by apply f_close_safe|]. intros r _. by apply wsafe_ret.
Qed.

(** Ignore the result of a safe call. *)
Lemma hsafe_then {A B} (m : W A) (k : W B) P Q : hsafe m P -> hsafe k Q -> hsafe (bind m (fun _ => k)) Q.
Proof using Type. intros Hm Hk. eapply wsafe_bind; [exact Hm|]. by intros _ _. Qed.

Lemma close_then {A} file (k : W A) Q : file_ok h file -> hsafe k Q -> hsafe (close file ;;; k) Q.
Proof using Type. intros Hf Hk. eapply hsafe_then; [by apply close_safe|done]. Qed.

Lemma unlink_safe p : str_ok p -> hsafe (f_unlink (Some p) ;;; ret tt) (fun _ => True).
Proof using Hun.
  intros Hp. eapply hsafe_then; [apply f_unlink_safe; [apply hready|done|by apply str_ok_arg]|by apply wsafe_ret].
Qed.

Lemma main_safe buf n : 0 <= n <= len buf -> bsafe (main st fsp buf n) (fun _ => True).
Proof using Hst Hfsp Hun.
  intros Hn. unfold main. eapply bsafe_then; [by apply load_safe|]. apply session_safe.
  eapply wsafe_bind.
  { apply walk_safe; [intros; by apply read_entry_safe|by apply str_ok_arg, str_ok_lit|apply Hst|apply Hst]. }
  intros file Hf. eapply hsafe_then.
  { apply write_close_safe; [done|by apply str_ok_arg, str_ok_lit|done|done|].
    intros f Hok. apply close_then; [done|]. by apply unlink_safe, str_ok_lit. }
  eapply hsafe_then; [apply f_mkdir_safe; [apply hready|done|by apply str_ok_arg, str_ok_lit]|by apply wsafe_ret].
Qed.

Lemma main_mount_safe buf n : 0 <= n <= len buf -> bsafe (main_mount st fsp buf n) (fun _ => True).
Proof using Hst Hfsp Hun.
  intros Hn. unfold main_mount. eapply bsafe_then; [by apply load_safe|]. apply session_safe.
  eapply hsafe_then; [|by apply wsafe_ret].
  apply walk_safe; [intros; by apply mount_entry_safe|by apply str_ok_arg, str_ok_lit|apply Hst|apply Hst].
Qed.

Lemma main_stat_safe buf n : 0 <= n <= len buf -> bsafe (main_stat st fsp buf n) (fun _ => True).
Proof using Hst Hfsp Hun.
  intros Hn. unfold main_stat. eapply bsafe_then; [by apply load_safe|]. apply session_safe.
  eapply wsafe_bind; [apply f_stat_safe; [apply hready|done|by apply str_ok_arg, str_ok_lit|]|].
  { intros i [= <-]. apply Hst. }
  intros [r i] [Hs Hi]. cbn [fst snd] in *. destruct (Hs (mk_is_Some _ _ eq_refl)) as [i2 ->].
  eapply hsafe_chk; [done|]. eapply hsafe_then; [|by apply wsafe_ret].
  apply walk_safe; [intros; by apply stat_entry_safe|by apply str_ok_arg, str_ok_lit|by destruct (Hi i2 eq_refl)|apply Hst].
Qed.

(** The name of a test case: at most [size] bytes with its terminator. *)
Lemma fuzz_name_safe fname buf o k :
  0 <= o -> 0 < k -> o + k <= len buf -> 5 + k < len fname < U32 -> bsafe (fuzz_name fname buf o k) str_ok.
Proof using Type.
  intros Ho Hk Hl Hs. unfold fuzz_name.
  eapply bsafe_bind; [apply bsafe_runs, snprintf_runs; lia|]. intros f1 [Hf1 _].
  destruct (slice_is_Some buf o k) as (nm & Hnm & Hnl); [lia..|]. eapply bsafe_chk; [done|].
  destruct (splice_is_Some f1 5 nm) as (f2 & Hf2 & Hl2); [lia..|]. eapply bsafe_chk; [done|].
  destruct (upd_is_Some f2 (5 + k) x00) as (f3 & Hf3 & Hl3); [lia|]. apply bsafe_runs, runs_chk. exists f3. split; [done|].
  split; [lia|]. eapply splice_elem; [exact Hf3|]. by apply list_elem_of_singleton.
Qed.

(** The length byte of a test case, and the name it announces. *)
Lemma name_len_range b m : 0 < m -> 1 <= bval b mod m + 1 <= m.
Proof using Type. intros Hm. pose proof (Z.mod_pos_bound (bval b) m Hm). lia. Qed.

(** A test case of [n] bytes in the fuzzer's buffer. *)
Definition case_ok (buf : list byte) (n : Z) : Prop := 0 <= n <= len buf /\ n < 2147483648.

(** A harness that takes a name of at most [m] bytes from the test case. *)
Lemma named_safe arr m lim buf n (k : Z -> list byte -> W unit) :
  len arr = 64 -> 0 < m <= 32 -> 1 <= lim -> case_ok buf n ->
  (forall l f, 1 <= l <= m -> 1 + l <= n -> str_ok f -> bsafe (k l f) (fun _ => True)) ->
  bsafe (if n <? lim then ret tt else
         b0 <- chk (at_ buf 0) ;;
         let name_len := bval b0 mod m + 1 in
         if n <? 1 + name_len then ret tt else
         fname <- fuzz_name arr buf 1 name_len ;; k name_len fname) (fun _ => True).
Proof using Type.
  intros Harr Hm Hlim [Hn _] Hk. destruct (Z.ltb_spec n lim); [by apply bsafe_ret|].
  destruct (at_is_Some buf 0) as [b0 Hb0]; [lia|]. eapply bsafe_chk; [done|]. cbv zeta.
  pose proof (name_len_range b0 m ltac:(lia)). destruct (Z.ltb_spec n (1 + (bval b0 mod m + 1))); [by apply bsafe_ret|].
  eapply bsafe_bind; [apply fuzz_name_safe; rewrite ?Harr; unfold U32; lia|]. intros f Hf. by apply Hk.
Qed.

Lemma main_unlink_safe buf n : case_ok buf n -> bsafe (main_unlink st clean_disk fsp buf n) (fun _ => True).
Proof using Hst Hfsp Hun Hcd.
  intros Hc. unfold main_unlink.
  apply (named_safe (st_chars st 64) 16 2 buf n (fun _ fname => reset_disk clean_disk ;;; session fsp
    (write_close (st_file st) (Some fname) buf n (fun file => close file ;;; f_unlink (Some fname) ;;; ret tt)))); [by rewrite ?chars_len, ?len_replicate|lia|lia|done|].
  intros l f Hl Hn Hf. eapply bsafe_then; [apply reset_safe|]. apply session_safe.
  destruct Hc as [Hc1 Hc2].
  apply write_close_safe; [apply Hst|by apply str_ok_arg|unfold U32; lia|lia|].
  intros x Hx. apply close_then; [done|]. by apply unlink_safe.
Qed.

Lemma main_mkdir_safe buf n : case_ok buf n -> bsafe (main_mkdir st clean_disk fsp buf n) (fun _ => True).
Proof using Hst Hfsp Hun Hcd.
  intros Hc. unfold main_mkdir.
  apply (named_safe (st_chars st 64) 16 2 buf n (fun _ dname => reset_disk clean_disk ;;; session fsp (
    f_mkdir (Some dname) ;;; d <- chk (c_str dname) ;;
    fpath <- snprintf (st_chars st 96) (d ++ chars "/test.txt") ;;
    write_close (st_file st) (Some fpath) buf n close))); [by rewrite ?chars_len, ?len_replicate|lia|lia|done|].
  intros l f Hl Hn Hf. eapply bsafe_then; [apply reset_safe|]. apply session_safe.
  eapply hsafe_then; [apply f_mkdir_safe; [apply hready|done|by apply str_ok_arg]|].
  destruct (c_str_some f) as [d Hd]; [apply Hf|]. eapply hsafe_chk; [done|].
  eapply wsafe_bind; [apply wsafe_runs, snprintf_runs; by rewrite chars_len|]. intros p [_ Hp].
  destruct Hc as [Hc1 Hc2].
  apply write_close_safe; [apply Hst|by apply str_ok_arg|unfold U32; lia|lia|]. apply close_safe.
Qed.

Lemma len_from buf o : 0 <= o <= len buf -> len (from buf o) = len buf - o.
Proof using Type. clear -st. intros H. unfold from, len in *. rewrite length_drop. lia. Qed.

(** Seek, read and close. *)
Lemma seek_read_safe {A} file ofs buf (k : FIL -> W A) Q :
  file_ok h file -> 0 <= ofs < U32 -> len buf = 512 -> (forall f, file_ok h f -> hsafe (k f) Q) ->
  hsafe (do (_, file) <- f_lseek file ofs ;; do (_, file, _, _) <- f_read file buf 512 ;; k file) Q.
Proof using Type.
  intros Hf Ho Hl Hk. eapply wsafe_bind; [by apply f_lseek_safe|]. intros [r f1] Hf1. cbn [snd] in Hf1.
  eapply wsafe_bind; [apply f_read_safe; [done|done|lia]|]. intros [[[r2 f2] b] br] [Hf2 _]. by apply Hk.
Qed.

Lemma main_write_safe buf n : case_ok buf n -> bsafe (main_write st clean_disk fsp buf n) (fun _ => True).
Proof using Hst Hfsp Hun Hcd.
  intros Hc. unfold main_write.
  apply (named_safe (replicate (Z.to_nat 64) x00) 32 4 buf n (fun name_len fname => reset_disk clean_disk ;;; session fsp (
    write_close (st_file st) (Some fname) (from buf (1 + name_len)) (u32 (n - 1 - name_len)) (fun file =>
    do (_, file) <- f_lseek file 0 ;; do (_, file, _, _) <- f_read file (st_chars st 512) 512 ;;
    close file ;;; f_unlink (Some fname) ;;; ret tt)))); [by rewrite ?chars_len, ?len_replicate|lia|lia|done|].
  intros l f Hl Hn Hf. eapply bsafe_then; [apply reset_safe|]. apply session_safe. destruct Hc as [Hc1 Hc2].
  apply write_close_safe; [apply Hst|by apply str_ok_arg|apply u32_range| |].
  { rewrite len_from, u32_small by (unfold U32; lia). lia. }
  intros x Hx. apply seek_read_safe; [done|done|by apply chars_len|]. intros y Hy.
  apply close_then; [done|]. by apply unlink_safe.
Qed.

Lemma main_read_safe buf n : case_ok buf n -> bsafe (main_read st clean_disk fsp buf n) (fun _ => True).
Proof using Hst Hfsp Hun Hcd.
  intros Hc. unfold main_read.
  apply (named_safe (st_chars st 64) 16 2 buf n (fun name_len fname => reset_disk clean_disk ;;; session fsp (
    read_back st fname (from buf (1 + name_len)) (n - 1 - name_len)))); [by rewrite ?chars_len, ?len_replicate|lia|lia|done|].
  intros l f Hl Hn Hf. eapply bsafe_then; [apply reset_safe|]. apply session_safe. unfold read_back.
  destruct Hc as [Hc1 Hc2].
  eapply wsafe_bind; [apply f_open_safe; [apply hready|done|apply Hst|by apply str_ok_arg]|].
  intros [r f1] (Hf1 & Hok & _). cbn [fst snd] in *.
  apply (wsafe_bind _ _ _ _ fil_any).
  { destruct (fr_eqb_spec r FR_OK) as [->|]; [|by apply wsafe_ret].
    eapply wsafe_bind; [apply f_write_safe; [by apply Hok|apply u32_range|]|].
    { rewrite len_from, u32_small by (unfold U32; lia). lia. }
    intros [[r2 f2] bw] [Hf2 _]. cbn [fst snd] in *. eapply wsafe_bind; [by apply f_close_safe|].
    intros [r3 f3] [Hf3 _]. by apply wsafe_ret, file_any. }
  intros f2 Hf2. eapply wsafe_bind; [apply f_open_safe; [apply hready|done|done|by apply str_ok_arg]|].
  intros [r2 f3] (_ & Hok2 & _). cbn [fst snd] in *. destruct (fr_eqb_spec r2 FR_OK) as [->|]; [|by apply wsafe_ret].
  eapply wsafe_bind; [apply f_read_safe; [by apply Hok2|done|by rewrite chars_len]|].
  intros [[[r3 f4] b] br] (Hf4 & Hb & _). cbn [fst snd] in *. rewrite chars_len in Hb by lia.
  apply seek_read_safe; [done|apply u32_range|done|]. apply close_safe.
Qed.

Lemma main_seek_safe buf n : case_ok buf n -> bsafe (main_seek st clean_disk fsp buf n) (fun _ => True).
Proof using Hst Hfsp Hun Hcd.
  intros [Hn Hn2]. unfold main_seek. destruct (Z.ltb_spec n 8); [by apply bsafe_ret|].
  destruct (at_is_Some buf 0) as [b0 H0]; [lia|]. destruct (at_is_Some buf 1) as [b1 H1]; [lia|].
  destruct (at_is_Some buf 2) as [b2 H2]; [lia|]. destruct (at_is_Some buf 3) as [b3 H3]; [lia|].
  do 4 (eapply bsafe_chk; [done|]). cbv zeta. eapply bsafe_then; [apply reset_safe|]. apply session_safe.
  apply write_close_safe; [apply Hst|by apply str_ok_arg, str_ok_lit|apply u32_range| |].
  { rewrite len_from, u32_small by (unfold U32; lia). lia. }
  intros x Hx. apply seek_read_safe; [done| |by apply chars_len|apply close_safe].
  pose proof (bval_range b3). change U32 with (2 ^ 32).
  repeat (apply lor_range; [lia| |]); try apply u32_range. lia.
Qed.

Lemma main_rename_safe buf n : case_ok buf n -> bsafe (main_rename st clean_disk fsp buf n) (fun _ => True).
Proof using Hst Hfsp Hun Hcd.
  intros [Hn Hn2]. unfold main_rename. destruct (Z.ltb_spec n 6); [by apply bsafe_ret|].
  destruct (at_is_Some buf 0) as [b0 Hb0]; [lia|]. eapply bsafe_chk; [done|]. cbv zeta.
  pose proof (name_len_range b0 16 ltac:(lia)). set (sl := bval b0 mod 16 + 1) in *.
  destruct (Z.ltb_spec n (1 + sl + 1)); [by apply bsafe_ret|].
  destruct (at_is_Some buf (1 + sl)) as [b1 Hb1]; [lia|]. eapply bsafe_chk; [done|].
  pose proof (name_len_range b1 16 ltac:(lia)). set (dl := bval b1 mod 16 + 1) in *.
  destruct (Z.ltb_spec n (1 + sl + 1 + dl)); [by apply bsafe_ret|].
  eapply bsafe_bind; [apply (fuzz_name_safe (st_chars st 32) buf 1 sl); rewrite ?chars_len; unfold U32; lia|]. intros src Hs.
  eapply bsafe_bind; [apply (fuzz_name_safe (st_chars st 32) buf (1 + sl + 1) dl); rewrite ?chars_len; unfold U32; lia|]. intros dst Hd.
  eapply bsafe_then; [apply reset_safe|]. apply session_safe.
  apply write_close_safe; [apply Hst|by apply str_ok_arg|done|done|].
  intros x Hx. apply close_then; [done|].
  eapply hsafe_then; [apply f_rename_safe; [apply hready|done|by apply str_ok_arg..]|by apply wsafe_ret].
Qed.

Lemma main_of_safe x buf n : case_ok buf n -> bsafe (main_of st clean_disk fsp x buf n) (fun _ => True).
Proof using Hst Hfsp Hun Hcd.
  intros Hc. destruct x; [apply main_safe, Hc|apply main_mount_safe, Hc|apply main_stat_safe, Hc|
    by apply main_unlink_safe|by apply main_mkdir_safe|by apply main_write_safe|by apply main_seek_safe|
    by apply main_read_safe|by apply main_rename_safe].
Qed.

End harness_safe.

(** *** The loop *)

(** Between the turns no filesystem object exists.  The volume table is empty
    or holds [p], the address of an object that has ended. *)
Record idle (p : Z) (w : world Ram.ram) : Prop := mk_idle {
  id_heap : heap w = ∅;
  id_disk : dok (wdisk w);
  id_reg : FatFs w = [None] \/ FatFs w = [Some p];
  id_fsid : 0 <= Fsid w < 65536
}.

Lemma idle_declare st p w :
  stack_ok st -> idle p w -> before p {[ p ]} (set_heap (<[ p := st_fs st ]> (heap w)) w).
Proof.
  intros Hst [H1 H2 H3 H4]. constructor; cbn; rewrite ?H1; try done.
  - by rewrite dom_alter_L, dom_insert_L, dom_empty_L, union_empty_r_L.
  - intros q x Hx. rewrite insert_empty in Hx. apply lookup_alter_Some in Hx as [(-> & y & Hy & ->)|[Hne Hx]].
    + rewrite lookup_singleton_eq in Hy. injection Hy as <-. split; [apply fs_ok_set_fs_type; [apply Hst|lia]|done].
    + by rewrite lookup_singleton_ne in Hx.
  - by destruct H3 as [-> | ->].
  - intros i q Hi. apply elem_of_singleton. apply at_Some_range in Hi as Hr.
    destruct H3 as [E|E]; rewrite E in Hi, Hr; (assert (i = 0) as -> by (unfold len in Hr; cbn in Hr; lia)); [done|by injection Hi].
Qed.

Lemma before_end p w : before p {[ p ]} w -> idle p (set_heap (delete p (heap w)) w).
Proof.
  intros [H1 H2 H3 H4 H5 H6 _]. cbn in *. constructor; cbn; try done.
  - apply dom_empty_inv_L. rewrite dom_delete_L. rewrite dom_alter_L in H1. rewrite H1. apply difference_diag_L.
  - destruct (FatFs w) as [|o [|? ?]] eqn:E; [done| |unfold len in H4; cbn in H4; change FF_VOLUMES with 1 in H4; lia].
    destruct o as [q|]; [right|by left]. specialize (H5 0 q eq_refl). by apply elem_of_singleton in H5 as ->.
Qed.

Section loop_safe.
Context {Pf : Platform} (clean_disk : list byte) (Hcd : len clean_disk = 65536) (Hun : dir_w uninit_dir).

(** A turn at the address the table holds, or from an empty table. *)
Lemma turn_safe st p x buf w :
  stack_ok st -> len buf < 2147483648 -> idle p w ->
  wpt false (turn st clean_disk p x buf (len buf)) (fun _ w' => idle p w') w.
Proof using Hcd Hun.
  intros Hst Hb Hw. unfold turn, declare_fs, end_fs. apply wp_bind, wp_modify, wp_bind.
  assert (p ∈ ({[ p ]} : gset Z)) as Hp by by apply elem_of_singleton.
  eapply wp_mono; [apply (main_of_safe st clean_disk p {[ p ]} Hst Hcd Hp Hun); [|by apply idle_declare]|].
  { split; [|done]. pose proof (len_nonneg buf). lia. }
  intros _ w' [Hw' _]. apply wp_modify. by apply before_end.
Qed.

Lemma afl_loop_safe p x turns w :
  Forall (fun '(st, fsp, buf) => stack_ok st /\ fsp = p /\ len buf < 2147483648) turns -> idle p w ->
  wpt false (afl_loop clean_disk x turns) (fun _ w' => idle p w') w.
Proof using Hcd Hun.
  intros H. revert w. induction H as [|[[st q] buf] rest (Hst & -> & Hb) _ IH]; intros w Hw; cbn [afl_loop]; [by apply wp_ret|].
  apply wp_bind. eapply wp_mono; [by apply turn_safe|]. intros a w' Hw'. exact (IH w' Hw').
Qed.

(** A turn of a harness that mounts every test case, at another address than
    the one a failed mount has left in the table: [f_mount] writes to the
    object that has ended. *)
Definition always_mounts (x : harness) : bool :=
  match x with Harness | H_mount | H_stat => true | _ => false end.

Lemma turn_dead st p q x buf w :
  always_mounts x = true -> q <> p -> idle p w -> FatFs w = [Some p] ->
  turn st clean_disk q x buf (len buf) w = Fault.
Proof using Type.
  intros Hx Hq [H1 H2 H3 H4] Hf. unfold turn, declare_fs. unfold bind at 1. cbn [modify].
  apply bind_fault. set (w1 := set_heap _ w).
  assert (exists d, load_input buf (len buf) w1 = Done (tt, mkWorld (heap w1) (FatFs w1) (Fsid w1) d)) as [d Hd].
  { destruct (wp_run _ _ _ (Ram.fuzz_disk_load_spec (wdisk w1) buf (len buf) H2 ltac:(pose proof (len_nonneg buf); lia)))
      as ([] & d & Hd & _).
    exists d. unfold load_input, on_wdisk, zoom. by rewrite Hd. }
  assert (heap w1 !! p = None) as Hp by (unfold w1; cbn; rewrite H1, lookup_insert_ne by done; apply lookup_empty).
  destruct x; try discriminate; cbn [main_of]; unfold main, main_mount, main_stat;
    rewrite (bind_done _ _ _ _ _ Hd); by apply session_dead with p.
Qed.

End loop_safe.
