(* ===== verification/Zephyr.v ===== *)
(** * The replay firmware

    src/main.c of the Zephyr sample: a loop that reads packets from the UART
    and replays them as file system operations.  The kernel's services (UART,
    disk access, file system) are not part of the repository: they are the
    operations of the class [Zephyr], with the documented behaviour that the
    program relies on in [ZephyrLaws].  The program's own state is its static
    buffers and what it has printed. *)

From stdpp Require Import base numbers list option gmap.
From Stdlib Require Import ZArith Lia.
From Stdlib Require Import Strings.Byte Strings.String.
From S2P Require Import Prelude Types Bytes Diskio Window Fat Chain Dir Path Mount File DirApi Harness.

(** ** The kernel *)

(** [K] is the state of the kernel; [zfile] and [zdir] are the structures
    fs_file_t and fs_dir_t, passed by pointer and returned as they are left. *)
Class Zephyr (K : Type) : Type := {
  zfile : Type;
  zdir : Type;
  FS_O_READ : Z;
  FS_O_WRITE : Z;
  FS_O_RDWR : Z;
  FS_O_CREATE : Z;
  FS_SEEK_SET : Z;
  device_is_ready : M K bool;
  uart_poll_in : M K (Z * byte);
  k_sleep : Z -> M K unit;
  disk_access_init : list byte -> M K Z;
  disk_access_write : list byte -> list byte -> Z -> Z -> M K Z;
  fs_mount : M K Z;
  fs_unmount : M K Z;
  fs_file_t_init : M K zfile;
  fs_dir_t_init : M K zdir;
  fs_open : zfile -> list byte -> Z -> M K (Z * zfile);
  fs_write : zfile -> list byte -> Z -> M K (Z * zfile);
  fs_read : zfile -> list byte -> Z -> M K (Z * zfile * list byte);
  fs_seek : zfile -> Z -> Z -> M K (Z * zfile);
  fs_truncate : zfile -> Z -> M K (Z * zfile);
  fs_close : zfile -> M K (Z * zfile);
  fs_mkdir : list byte -> M K Z;
  fs_unlink : list byte -> M K Z;
  fs_rename : list byte -> list byte -> M K Z;
  fs_stat : list byte -> M K Z;
  fs_opendir : zdir -> list byte -> M K (Z * zdir);
  fs_readdir : zdir -> M K (Z * zdir);
  fs_closedir : zdir -> M K (Z * zdir)
}.

(** ** The program *)

Definition DISK_SECTORS : Z := 128.
Definition SECTOR_SIZE : Z := 512.
Definition MAX_DATA : Z := 4096.
Definition MAX_NAME : Z := 32.

Definition OP_WRITE : Z := 0x01.
Definition OP_READ : Z := 0x02.
Definition OP_MKDIR : Z := 0x03.
Definition OP_RENAME : Z := 0x04.
Definition OP_UNLINK : Z := 0x05.
Definition OP_STAT : Z := 0x06.
Definition OP_TRUNCATE : Z := 0x07.
Definition OP_MOUNT_RAW : Z := 0x08.

(** What is printed: the line that opens an operation (with the name that
    "%s" shows), the one that closes it ([OpDone None] is the line for an
    unknown operation), and the others. *)
Inductive line : Type :=
| NotReady
| FuzzReady
| OpStart (op : Z) (name : list byte) (dlen : Z)
| OpDone (op : option Z) (rc : Z)
| FuzzExit
| FuzzAck.

Record App (K : Type) : Type := mkApp {
  kernel : K;
  sector_buf : list byte;
  data_buf : list byte;
  name_buf : list byte;
  name2_buf : list byte;
  console : list line
}.
Arguments mkApp {K}.
Arguments kernel {K}.
Arguments sector_buf {K}.
Arguments data_buf {K}.
Arguments name_buf {K}.
Arguments name2_buf {K}.
Arguments console {K}.

Section app.
Context {K : Type} `{!Zephyr K} (stack : Z -> list byte).

Abbreviation P := (M (App K)).

Definition sys {A} (m : M K A) : P A :=
  zoom kernel (fun k a => mkApp k (sector_buf a) (data_buf a) (name_buf a) (name2_buf a) (console a)) m.
Definition set_sector_buf (b : list byte) : P unit :=
  modify (fun a => mkApp (kernel a) b (data_buf a) (name_buf a) (name2_buf a) (console a)).
Definition set_data_buf (b : list byte) : P unit :=
  modify (fun a => mkApp (kernel a) (sector_buf a) b (name_buf a) (name2_buf a) (console a)).
Definition set_name_buf (b : list byte) : P unit :=
  modify (fun a => mkApp (kernel a) (sector_buf a) (data_buf a) b (name2_buf a) (console a)).
Definition set_name2_buf (b : list byte) : P unit :=
  modify (fun a => mkApp (kernel a) (sector_buf a) (data_buf a) (name_buf a) b (console a)).
Definition printk (l : line) : P unit :=
  modify (fun a => mkApp (kernel a) (sector_buf a) (data_buf a) (name_buf a) (name2_buf a) (console a ++ [l])).

(** [memset (b, 0, sizeof (b))]. *)
Definition zeroed (b : list byte) : list byte := replicate (Z.to_nat (len b)) x00.

Definition uart_getc : P byte :=
  loop (fun _ : unit =>
    do (rc, c) <- sys uart_poll_in ;;
    if rc <? 0 then sys (k_sleep 1) ;;; ret (inl tt) else ret (inr c)) tt.

Definition uart_read_exact (dst : list byte) (n : Z) : P (list byte) :=
  loop (fun '(dst, i) =>
    if i <? n then
      c <- uart_getc ;;
      dst <- chk (upd dst i c) ;;
      ret (inl (dst, i + 1))
    else ret (inr dst)) (dst, 0).

(** Write the whole of [sector_buf] to the disk. *)
Definition write_disk : P unit :=
  sys (disk_access_init (lit "RAM")) ;;;
  a <- get ;;
  sys (disk_access_write (lit "RAM") (sector_buf a) 0 DISK_SECTORS) ;;;
  ret tt.

Definition mount_clean : P unit :=
  a <- get ;;
  set_sector_buf (zeroed (sector_buf a)) ;;;
  write_disk ;;;
  sys fs_mount ;;;
  ret tt.

Definition unmount_all : P unit := sys fs_unmount ;;; ret tt.

(** The path: "/RAM:/" and [name_len] bytes. *)
Definition read_name (name_len : Z) : P unit :=
  a <- get ;;
  nb <- snprintf (zeroed (name_buf a)) (chars "/RAM:/") ;;
  set_name_buf nb ;;;
  (if name_len >? 0 then
     tmp <- uart_read_exact (stack MAX_NAME) name_len ;;
     src <- chk (slice tmp 0 name_len) ;;
     a <- get ;;
     nb <- chk (splice (name_buf a) 6 src) ;;
     set_name_buf nb
   else ret tt) ;;;
  a <- get ;;
  nb <- chk (upd (name_buf a) (6 + name_len) x00) ;;
  set_name_buf nb.

Definition read_data (data_len : Z) : P unit :=
  a <- get ;;
  set_data_buf (zeroed (data_buf a)) ;;;
  if data_len >? 0 then
    a <- get ;;
    d <- uart_read_exact (data_buf a) data_len ;;
    set_data_buf d
  else ret tt.

(** A packet: the operation and the length of the data. *)
Definition read_packet : P (Z * Z) :=
  hdr <- uart_read_exact (stack 4) 4 ;;
  h0 <- chk (at_ hdr 0) ;;
  h1 <- chk (at_ hdr 1) ;;
  h2 <- chk (at_ hdr 2) ;;
  h3 <- chk (at_ hdr 3) ;;
  let op := bval h0 in
  let name_len := bval h1 mod MAX_NAME in
  let data_len := Z.lor (u16 (Z.shiftl (bval h2) 8)) (bval h3) in
  let data_len := if data_len >? MAX_DATA then MAX_DATA else data_len in
  read_name name_len ;;;
  read_data data_len ;;;
  a <- get ;;
  s <- chk (c_str (name_buf a)) ;;
  printk (OpStart op s data_len) ;;;
  ret (op, data_len).

(** [fs_open] of [name_buf]. *)
Definition open_name (flags : Z) : P (Z * zfile) :=
  f <- sys fs_file_t_init ;;
  a <- get ;;
  sys (fs_open f (name_buf a) flags).

Definition op_write (data_len : Z) : P unit :=
  mount_clean ;;;
  do (rc, f) <- open_name (Z.lor FS_O_CREATE FS_O_WRITE) ;;
  rc <- (if rc =? 0 then
           a <- get ;;
           do (rc, f) <- sys (fs_write f (data_buf a) data_len) ;;
           sys (fs_close f) ;;;
           ret rc
         else ret rc) ;;
  unmount_all ;;;
  printk (OpDone (Some OP_WRITE) rc).

(** Create the file and write [n] bytes of [d] to it, if that works. *)
Definition create_file (d : list byte) (n : Z) : P unit :=
  do (rc, f) <- open_name (Z.lor FS_O_CREATE FS_O_WRITE) ;;
  if rc =? 0 then
    do (_, f) <- sys (fs_write f d n) ;;
    sys (fs_close f) ;;;
    ret tt
  else ret tt.

Definition op_read (data_len : Z) : P unit :=
  mount_clean ;;;
  a <- get ;;
  create_file (data_buf a) data_len ;;;
  do (rc, f) <- open_name FS_O_READ ;;
  rc <- (if rc =? 0 then
           do (rc, f, _) <- sys (fs_read f (stack 512) 512) ;;
           sys (fs_close f) ;;;
           ret rc
         else ret rc) ;;
  unmount_all ;;;
  printk (OpDone (Some OP_READ) rc).

Definition op_mkdir : P unit :=
  mount_clean ;;;
  a <- get ;;
  rc <- sys (fs_mkdir (name_buf a)) ;;
  unmount_all ;;;
  printk (OpDone (Some OP_MKDIR) rc).

Definition op_rename (data_len : Z) : P unit :=
  a <- get ;;
  nb <- snprintf (zeroed (name2_buf a)) (chars "/RAM:/") ;;
  let copy_len := if data_len <? MAX_NAME then data_len else MAX_NAME in
  src <- chk (slice (data_buf a) 0 copy_len) ;;
  nb <- chk (splice nb 6 src) ;;
  nb <- chk (upd nb (6 + copy_len) x00) ;;
  set_name2_buf nb ;;;
  mount_clean ;;;
  create_file (lit "x") 1 ;;;
  a <- get ;;
  rc <- sys (fs_rename (name_buf a) (name2_buf a)) ;;
  unmount_all ;;;
  printk (OpDone (Some OP_RENAME) rc).

Definition op_unlink : P unit :=
  mount_clean ;;;
  do (rc, f) <- open_name (Z.lor FS_O_CREATE FS_O_WRITE) ;;
  (if rc =? 0 then sys (fs_close f) ;;; ret tt else ret tt) ;;;
  a <- get ;;
  rc <- sys (fs_unlink (name_buf a)) ;;
  unmount_all ;;;
  printk (OpDone (Some OP_UNLINK) rc).

Definition op_stat : P unit :=
  mount_clean ;;;
  a <- get ;;
  rc <- sys (fs_stat (name_buf a)) ;;
  unmount_all ;;;
  printk (OpDone (Some OP_STAT) rc).

Definition op_truncate (data_len : Z) : P unit :=
  mount_clean ;;;
  do (rc, f) <- open_name (Z.lor FS_O_CREATE FS_O_RDWR) ;;
  rc <- (if rc =? 0 then
           a <- get ;;
           do (_, f) <- sys (fs_write f (data_buf a) data_len) ;;
           do (_, f) <- sys (fs_seek f 0 FS_SEEK_SET) ;;
           do (rc, f) <- sys (fs_truncate f (data_len / 2)) ;;
           sys (fs_close f) ;;;
           ret rc
         else ret rc) ;;
  unmount_all ;;;
  printk (OpDone (Some OP_TRUNCATE) rc).

Definition op_mount_raw (data_len : Z) : P unit :=
  a <- get ;;
  let n := if data_len <? DISK_SECTORS * SECTOR_SIZE then data_len else DISK_SECTORS * SECTOR_SIZE in
  src <- chk (slice (data_buf a) 0 n) ;;
  sb <- chk (splice (zeroed (sector_buf a)) 0 src) ;;
  set_sector_buf sb ;;;
  write_disk ;;;
  rc <- sys fs_mount ;;
  (if rc =? 0 then
     d <- sys fs_dir_t_init ;;
     do (r, d) <- sys (fs_opendir d (lit "/RAM:")) ;;
     (if r =? 0 then
        do (_, d) <- sys (fs_readdir d) ;;
        sys (fs_closedir d) ;;;
        ret tt
      else ret tt) ;;;
     sys fs_unmount ;;;
     ret tt
   else ret tt) ;;;
  printk (OpDone (Some OP_MOUNT_RAW) rc).

(** The switch over the operation: whether the loop goes on. *)
Definition dispatch (op data_len : Z) : P bool :=
  if op =? OP_WRITE then op_write data_len ;;; ret true
  else if op =? OP_READ then op_read data_len ;;; ret true
  else if op =? OP_MKDIR then op_mkdir ;;; ret true
  else if op =? OP_RENAME then op_rename data_len ;;; ret true
  else if op =? OP_UNLINK then op_unlink ;;; ret true
  else if op =? OP_STAT then op_stat ;;; ret true
  else if op =? OP_TRUNCATE then op_truncate data_len ;;; ret true
  else if op =? OP_MOUNT_RAW then op_mount_raw data_len ;;; ret true
  else if op =? 0xFF then printk FuzzExit ;;; ret false
  else printk (OpDone None (-1)) ;;; ret true.

(** One turn of the loop. *)
Definition main_turn : P (unit + Z) :=
  do (op, data_len) <- read_packet ;;
  go <- dispatch op data_len ;;
  if go then printk FuzzAck ;;; ret (inl tt) else ret (inr 0).

Definition firmware : P Z :=
  ready <- sys device_is_ready ;;
  if negb ready then printk NotReady ;;; ret (-1) else
  printk FuzzReady ;;;
  loop (fun _ : unit => main_turn) tt.

End app.

(** ** What the program relies on *)

(** [zok k] is the invariant of the kernel, [pending k] the bytes that this
    program will be given by [uart_poll_in] and has not taken yet, [due k] bounds
    the number of polls before the next of them is there.  The bytes delivered
    need not be all that the host has sent: prj.conf puts a shell on the same
    UART, which may take some of them, and the receive buffer can overflow.  A
    statement about a packet that the host sends says so by what is pending. *)
Class ZephyrView (K : Type) : Type := {
  zok : K -> Prop;
  pending : K -> list byte;
  due : K -> Z
}.

(** A service returns and leaves the bytes that wait. *)
Definition service {K A} `{!ZephyrView K} (m : M K A) : Prop :=
  forall k, zok k -> wp m (fun _ k' => zok k' /\ pending k' = pending k) k.

(** The bytes delivered to the program come one by one, in their order; every
    other service is one for arguments that lie in their objects. *)
Class ZephyrLaws (K : Type) `{!Zephyr K} `{!ZephyrView K} : Prop := {
  due_range k : zok k -> 0 <= due k < 4294967296;
  uart_poll_law k : zok k -> wp uart_poll_in (fun r k' => zok k' /\
    match pending k with
    | [] => r.1 < 0 /\ pending k' = []
    | c :: l => (r = (0, c) /\ pending k' = l) \/ (r.1 < 0 /\ pending k' = c :: l /\ due k' < due k)
    end) k;
  k_sleep_law n k : zok k -> wp (k_sleep n) (fun _ k' => zok k' /\ pending k' = pending k /\ due k' <= due k) k;
  device_law : service device_is_ready;
  disk_init_law d : str_ok d -> service (disk_access_init d);
  disk_write_law d b s n : str_ok d -> 0 <= s -> 0 <= n -> n * SECTOR_SIZE <= len b -> service (disk_access_write d b s n);
  mount_law : service fs_mount;
  unmount_law : service fs_unmount;
  file_init_law : service fs_file_t_init;
  dir_init_law : service fs_dir_t_init;
  open_law f p fl : str_ok p -> service (fs_open f p fl);
  write_law f b n : 0 <= n <= len b -> service (fs_write f b n);
  read_law f b n : 0 <= n <= len b -> service (fs_read f b n);
  seek_law f o wh : service (fs_seek f o wh);
  truncate_law f n : service (fs_truncate f n);
  close_law f : service (fs_close f);
  mkdir_law p : str_ok p -> service (fs_mkdir p);
  unlink_law p : str_ok p -> service (fs_unlink p);
  rename_law p q : str_ok p -> str_ok q -> service (fs_rename p q);
  stat_law p : str_ok p -> service (fs_stat p);
  opendir_law d p : str_ok p -> service (fs_opendir d p);
  readdir_law d : service (fs_readdir d);
  closedir_law d : service (fs_closedir d)
}.

(** ** Packets *)

(** What a turn takes from the bytes that are delivered: the operation, the name,
    the data, and the bytes left; [None] when the packet is not complete. *)
Definition parse (l : list byte) : option (Z * list byte * list byte * list byte) :=
  match l with
  | h0 :: h1 :: h2 :: h3 :: l =>
    let nl := bval h1 mod MAX_NAME in
    let dl := Z.min (256 * bval h2 + bval h3) MAX_DATA in
    if nl + dl <=? len l then
      Some (bval h0, take (Z.to_nat nl) l, take (Z.to_nat dl) (drop (Z.to_nat nl) l), drop (Z.to_nat (nl + dl)) l)
    else None
  | _ => None
  end.

Section replay.
Context {K : Type} `{!Zephyr K} `{!ZephyrView K} `{!ZephyrLaws K}.
Context (stack : Z -> list byte) (Hstack : forall n, 0 <= n -> len (stack n) = n).

Abbreviation P := (M (App K)).

(** The buffers have their declared sizes. *)
Record app_ok (a : App K) : Prop := mk_app_ok {
  ao_kernel : zok (kernel a);
  ao_sector : len (sector_buf a) = DISK_SECTORS * SECTOR_SIZE;
  ao_data : len (data_buf a) = MAX_DATA;
  ao_name : len (name_buf a) = MAX_NAME + 8;
  ao_name2 : len (name2_buf a) = MAX_NAME + 8
}.

Abbreviation pend a := (pending (kernel a)).

(** Only the kernel moved on. *)
Definition moved (a a' : App K) : Prop :=
  sector_buf a' = sector_buf a /\ data_buf a' = data_buf a /\ name_buf a' = name_buf a /\
  name2_buf a' = name2_buf a /\ console a' = console a.

Lemma moved_ok a a' : app_ok a -> moved a a' -> zok (kernel a') -> app_ok a'.
Proof using Type. intros [] (? & ? & ? & ? & _) ?. split; congruence. Qed.

Lemma moved_trans a b c : moved a b -> moved b c -> moved a c.
Proof using Type. unfold moved. intuition congruence. Qed.

Lemma uart_getc_spec t a :
  app_ok a -> (t = true -> pend a <> []) ->
  wpt t uart_getc (fun c a' => app_ok a' /\ moved a a' /\ pend a = c :: pend a') a.
Proof using ZephyrLaws0.
  intros Ha Ht. unfold uart_getc.
  assert (forall a1, app_ok a1 -> moved a a1 -> pend a1 = pend a ->
    wp (do (rc, c) <- sys uart_poll_in ;; if rc <? 0 then sys (k_sleep 1) ;;; ret (inl tt) else ret (inr c))
      (fun r a2 => app_ok a2 /\ moved a a2 /\ match r with
         | inl _ => pend a2 = pend a /\ (pend a <> [] -> due (kernel a2) < due (kernel a1))
         | inr c => pend a = c :: pend a2
         end) a1) as Hbody.
  { intros a1 Ha1 Hm1 Hp1. apply wp_bind, wp_zoom. eapply wp_mono; [apply uart_poll_law, Ha1|].
    intros [rc c] k [Hz Hr]. rewrite Hp1 in Hr. set (a2 := mkApp k _ _ _ _ _).
    assert (app_ok a2 /\ moved a a2) as [Ha2 Hm2] by (destruct Ha1; split; [by split|exact Hm1]).
    assert (forall (H : pending k = pend a /\ (pend a <> [] -> due k < due (kernel a1))),
      wp (sys (k_sleep 1) ;;; ret (inl tt))
      (fun r a2 => app_ok a2 /\ moved a a2 /\ match r with
         | inl _ => pend a2 = pend a /\ (pend a <> [] -> due (kernel a2) < due (kernel a1))
         | inr c => pend a = c :: pend a2
         end) a2) as Hsl.
    { intros [H1 H2]. apply wp_bind, wp_zoom. eapply wp_mono; [apply (k_sleep_law 1), Hz|]. intros [] k2 (Hz2 & Hp2 & Hd2).
      apply wp_ret. split; [by destruct Ha2; split|]. split; [exact Hm2|]. cbn. cbn in Hp2, Hd2. split; [congruence|].
      intros Hne. specialize (H2 Hne). lia. }
    destruct (pend a) as [|c' l] eqn:Ep.
    - destruct Hr as [Hr1 Hr2]. cbn in Hr1. rewrite (proj2 (Z.ltb_lt rc 0)) by done. by apply Hsl.
    - destruct Hr as [[[= -> ->] Hp2]|(Hr1 & Hp2 & Hd)].
      + apply wp_ret. split; [done|]. split; [done|]. cbn. by rewrite Hp2.
      + cbn in Hr1. rewrite (proj2 (Z.ltb_lt rc 0)) by done. by apply Hsl. }
  destruct t.
  - specialize (Ht eq_refl).
    apply (wp_loop true (fun _ a1 => app_ok a1 /\ moved a a1 /\ pend a1 = pend a) (fun _ a1 => due (kernel a1))).
    + intros [] a1 (H1 & H2 & H3). eapply wp_mono; [by apply Hbody|]. intros [[]|c] a2 (A1 & A2 & A3); [|done].
      destruct A3 as [A3 A4]. split; [done|]. pose proof (due_range (kernel a2) (ao_kernel _ A1)). specialize (A4 Ht). lia.
    + done.
    + pose proof (due_range (kernel a) (ao_kernel _ Ha)). unfold LOOP_FUEL. lia.
  - apply (wp_loop_partial (fun _ a1 => app_ok a1 /\ moved a a1 /\ pend a1 = pend a)); [|done].
    intros [] a1 (H1 & H2 & H3). apply wp_total. eapply wp_mono; [by apply Hbody|].
    intros [[]|c] a2 (A1 & A2 & A3); [|done]. by destruct A3.
Qed.

(** A byte stored behind the [len bs] bytes that were stored before. *)
Lemma upd_front (bs dst : list byte) c :
  len bs < len dst ->
  upd (bs ++ drop (Z.to_nat (len bs)) dst) (len bs) c = Some ((bs ++ [c]) ++ drop (Z.to_nat (len bs + 1)) dst).
Proof using Type.
  intros Hl. pose proof (len_nonneg bs). unfold upd, splice. change (len [c]) with 1.
  rewrite (proj2 (Z.leb_le 0 _)), (proj2 (Z.leb_le (len bs + 1) _)).
  - cbn [andb]. f_equal. unfold len. rewrite Nat2Z.id, take_app_length. rewrite <- app_assoc. do 2 f_equal.
    rewrite drop_app_ge by lia. rewrite drop_drop. f_equal. lia.
  - rewrite len_app. unfold len in *. rewrite length_drop. lia.
  - done.
Qed.

Lemma uart_read_exact_spec t a dst n :
  app_ok a -> 0 <= n <= len dst -> n < 4294967296 -> (t = true -> n <= len (pend a)) ->
  wpt t (uart_read_exact dst n) (fun d a' => app_ok a' /\ moved a a' /\
    exists bs, len bs = n /\ pend a = bs ++ pend a' /\ d = bs ++ drop (Z.to_nat n) dst) a.
Proof using ZephyrLaws0.
  intros Ha Hn Hlim Ht. unfold uart_read_exact.
  apply (wp_loop t (fun x a1 => app_ok a1 /\ moved a a1 /\ exists bs, len bs = x.2 /\ x.2 <= n /\
    pend a = bs ++ pend a1 /\ x.1 = bs ++ drop (Z.to_nat x.2) dst) (fun x _ => n - x.2)).
  - intros [d i] a1 (Ha1 & Hm1 & bs & Hbs & Hi & Hp & Hd). cbn [fst snd] in *. subst i d.
    destruct (Z.ltb_spec (len bs) n) as [Hlt|Hge].
    + apply wp_bind. eapply wp_mono; [apply (uart_getc_spec t a1); [done|]|].
      { intros E. specialize (Ht E). rewrite Hp, len_app in Ht. intros E2. rewrite E2 in Ht. change (len []) with 0 in Ht. lia. }
      intros c a2 (Ha2 & Hm2 & Hp2). apply wp_bind. eapply wp_chk; [apply upd_front; lia|]. apply wp_ret. cbn [fst snd].
      assert (len (bs ++ [c]) = len bs + 1) as El by (rewrite len_app; done).
      split; [|lia]. split; [done|]. split; [by eapply moved_trans|]. exists (bs ++ [c]). split; [done|]. split; [lia|].
      split; [|done]. rewrite Hp, Hp2. by rewrite <- app_assoc.
    + apply wp_ret. assert (n = len bs) as -> by lia. split; [done|]. split; [done|]. exists bs. done.
  - cbn. split; [done|]. split; [done|]. exists []. split; [done|]. split; [lia|]. done.
  - cbn. unfold LOOP_FUEL. lia.
Qed.

(** A path of the file system, in a buffer of 40 bytes. *)
Definition path_image (name : list byte) : list byte :=
  chars "/RAM:/" ++ name ++ replicate (Z.to_nat (34 - len name)) x00.

Lemma path_image_len name : len name <= 34 -> len (path_image name) = 40.
Proof using Type.
  intros H. unfold path_image. rewrite !len_app, len_replicate by lia. change (len (chars "/RAM:/")) with 6. lia.
Qed.

Lemma path_image_str name : len name < 34 -> str_ok (path_image name).
Proof using Type.
  intros H. split; [rewrite path_image_len by lia; done|]. unfold path_image.
  rewrite !elem_of_app. right; right. apply elem_of_replicate. split; [done|]. lia.
Qed.

Lemma print_prefix {St} b (s : St) :
  len b = MAX_NAME + 8 -> snprintf (zeroed b) (chars "/RAM:/") s = Done (path_image [], s).
Proof using Type. intros E. unfold zeroed. rewrite E. reflexivity. Qed.

Lemma put_name name :
  len name <= 33 -> splice (path_image []) 6 name = Some (path_image name) /\
  upd (path_image name) (6 + len name) x00 = Some (path_image name).
Proof using Type.
  intros H. pose proof (len_nonneg name). assert (len (path_image []) = 40) as E0 by done.
  assert (len (path_image name) = 40) as E1 by (apply path_image_len; lia). split.
  - unfold splice. rewrite E0, (proj2 (Z.leb_le (6 + len name) 40)) by lia. cbn [Z.leb andb]. f_equal.
    change (take (Z.to_nat 6) (path_image [])) with (chars "/RAM:/"). unfold path_image at 2. f_equal. f_equal.
    change (path_image []) with (chars "/RAM:/" ++ replicate 34 x00).
    rewrite drop_app_ge by (change (List.length (chars "/RAM:/")) with 6%nat; lia).
    change (List.length (chars "/RAM:/")) with 6%nat. rewrite drop_replicate. f_equal. lia.
  - destruct (upd_is_Some (path_image name) (6 + len name) x00) as (r & Hr & _); [lia|]. rewrite Hr. f_equal.
    apply at_ext. intros i. rewrite (at_upd _ _ _ _ i Hr). destruct (Z.eqb_spec i (6 + len name)) as [->|]; [|done].
    unfold path_image. rewrite at_app. change (len (chars "/RAM:/")) with 6. rewrite (proj2 (Z.ltb_ge _ 6)) by lia.
    rewrite at_app. replace (6 + len name - 6) with (len name) by lia. rewrite Z.ltb_irrefl, Z.sub_diag.
    rewrite at_lookup by lia. symmetry. apply lookup_replicate_2. lia.
Qed.

Lemma wp_then {St A B} t (m : M St A) (k : A -> M St B) Q R s :
  wpt t m Q s -> (forall x s', Q x s' -> wpt t (k x) R s') -> wpt t (bind m k) R s.
Proof using Type. intros H Hk. apply wp_bind. eapply wp_mono; [exact H|done]. Qed.

Lemma read_name_spec t a nl :
  app_ok a -> 0 <= nl < MAX_NAME -> (t = true -> nl <= len (pend a)) ->
  wpt t (read_name stack nl) (fun _ a' => app_ok a' /\ exists name,
    len name = nl /\ pend a = name ++ pend a' /\ name_buf a' = path_image name /\
    sector_buf a' = sector_buf a /\ data_buf a' = data_buf a /\ name2_buf a' = name2_buf a /\ console a' = console a) a.
Proof using Hstack ZephyrLaws0.
  unfold MAX_NAME. intros Ha Hn Ht. unfold read_name. apply wp_bind, wp_get, wp_bind.
  eapply wp_of_run; [apply print_prefix, Ha|]. apply wp_bind, wp_modify.
  set (a1 := mkApp _ _ _ _ _ _). assert (app_ok a1) as Ha1 by (destruct Ha; by split).
  eapply (wp_then _ _ _ (fun _ a2 => app_ok a2 /\ exists name, len name = nl /\ pend a = name ++ pend a2 /\
    name_buf a2 = path_image name /\ sector_buf a2 = sector_buf a /\ data_buf a2 = data_buf a /\
    name2_buf a2 = name2_buf a /\ console a2 = console a)).
  - destruct (Z.gtb_spec nl 0) as [Hpos|Hz].
    + eapply wp_then; [apply (uart_read_exact_spec t a1); [done|rewrite Hstack; unfold MAX_NAME; lia|lia|done]|].
      intros tmp a2 (Ha2 & (M1 & M2 & M3 & M4 & M5) & name & Hl & Hp & ->). apply wp_bind.
      eapply wp_chk.
      { unfold slice. change (0 <=? 0) with true. rewrite (proj2 (Z.leb_le 0 nl)), (proj2 (Z.leb_le (0 + nl) _)); [reflexivity| |lia].
        rewrite len_app. pose proof (len_nonneg (drop (Z.to_nat nl) (stack MAX_NAME))). lia. }
      change (drop (Z.to_nat 0) ?l) with l. rewrite take_app_le, take_ge by (unfold len in Hl; lia).
      apply wp_bind, wp_get, wp_bind. rewrite M3. cbn [name_buf a1].
      eapply wp_chk; [apply put_name; lia|]. apply wp_modify.
      split; [destruct Ha2; split; try done; cbn [name_buf]; by rewrite path_image_len by lia|]. by exists name.
    + assert (nl = 0) as -> by lia. apply wp_ret. split; [done|]. by exists [].
  - intros [] a2 (Ha2 & name & Hl & Hp & Hnb & H). apply wp_bind, wp_get, wp_bind. rewrite Hnb.
    eapply wp_chk; [rewrite <- Hl; apply put_name; lia|]. apply wp_modify. split.
    + destruct Ha2; split; try done. cbn [name_buf]. by rewrite path_image_len by lia.
    + by exists name.
Qed.

Lemma read_data_spec t a dl :
  app_ok a -> 0 <= dl <= MAX_DATA -> (t = true -> dl <= len (pend a)) ->
  wpt t (read_data dl) (fun _ a' => app_ok a' /\ exists data,
    len data = dl /\ pend a = data ++ pend a' /\ data_buf a' = data ++ replicate (Z.to_nat (MAX_DATA - dl)) x00 /\
    sector_buf a' = sector_buf a /\ name_buf a' = name_buf a /\ name2_buf a' = name2_buf a /\ console a' = console a) a.
Proof using ZephyrLaws0.
  unfold MAX_DATA. intros Ha Hn Ht. unfold read_data. apply wp_bind, wp_get, wp_bind, wp_modify.
  set (a1 := mkApp _ _ _ _ _ _).
  assert (data_buf a1 = replicate (Z.to_nat 4096) x00) as Ed by (cbn; unfold zeroed; by rewrite (ao_data _ Ha)).
  assert (app_ok a1) as Ha1 by (destruct Ha; split; try done; rewrite Ed; by rewrite len_replicate).
  destruct (Z.gtb_spec dl 0) as [Hpos|Hz].
  - apply wp_bind, wp_get. rewrite Ed.
    eapply wp_then; [apply (uart_read_exact_spec t a1); [done|rewrite len_replicate by done; lia|lia|done]|].
    intros d a2 (Ha2 & (M1 & M2 & M3 & M4 & M5) & data & Hl & Hp & ->). apply wp_modify.
    rewrite drop_replicate. replace (Z.to_nat 4096 - Z.to_nat dl)%nat with (Z.to_nat (4096 - dl)) by lia.
    split; [|by exists data]. destruct Ha2; split; try done. cbn [data_buf]. rewrite len_app, len_replicate by lia. unfold MAX_DATA. lia.
  - assert (dl = 0) as -> by lia. apply wp_ret. split; [done|]. exists []. by rewrite Ed.
Qed.

(** What is known after a packet was read. *)
Definition packet_read (a : App K) (r : Z * Z) (a' : App K) : Prop := exists op name data s,
  parse (pend a) = Some (op, name, data, pend a') /\ r = (op, len data) /\
  0 <= op < 256 /\ len name < MAX_NAME /\ len data <= MAX_DATA /\
  name_buf a' = path_image name /\ data_buf a' = data ++ replicate (Z.to_nat (MAX_DATA - len data)) x00 /\
  c_str (path_image name) = Some s /\ console a' = console a ++ [OpStart op s (len data)].

Lemma parse_parts h0 h1 h2 h3 name data rest :
  len name = bval h1 mod MAX_NAME -> len data = Z.min (256 * bval h2 + bval h3) MAX_DATA ->
  parse (h0 :: h1 :: h2 :: h3 :: name ++ data ++ rest) = Some (bval h0, name, data, rest).
Proof using Type.
  intros Hn Hd. cbn [parse]. rewrite <- Hn, <- Hd. pose proof (len_nonneg rest).
  rewrite (proj2 (Z.leb_le _ _)) by (rewrite !len_app; lia). unfold len. rewrite <- Nat2Z.inj_add, !Nat2Z.id.
  rewrite take_app_length, drop_app_length, take_app_length. rewrite app_assoc, <- length_app, drop_app_length. done.
Qed.

Lemma parse_length l h0 h1 h2 h3 : parse (h0 :: h1 :: h2 :: h3 :: l) <> None ->
  bval h1 mod MAX_NAME + Z.min (256 * bval h2 + bval h3) MAX_DATA <= len l.
Proof using Type. cbn [parse]. by destruct (Z.leb_spec (bval h1 mod MAX_NAME + Z.min (256 * bval h2 + bval h3) MAX_DATA) (len l)). Qed.

Lemma four {A} (l : list A) : len l = 4 -> exists a b c d, l = [a; b; c; d].
Proof using Type. destruct l as [|a [|b [|c [|d [|e l]]]]]; unfold len; cbn; try lia. eauto. Qed.

Lemma data_len_value h2 h3 :
  (let n := Z.lor (u16 (Z.shiftl (bval h2) 8)) (bval h3) in if n >? MAX_DATA then MAX_DATA else n) =
  Z.min (256 * bval h2 + bval h3) MAX_DATA.
Proof using Type.
  pose proof (bval_range h2). pose proof (bval_range h3). cbv zeta.
  assert (u16 (Z.shiftl (bval h2) 8) = Z.shiftl (bval h2) 8) as ->.
  { rewrite Z.shiftl_mul_pow2 by lia. change (2 ^ 8) with 256. unfold u16. apply Z.mod_small. lia. }
  rewrite lor_shiftl_add by (change (2 ^ 8) with 256; lia). change (2 ^ 8) with 256.
  replace (bval h2 * 256 + bval h3) with (256 * bval h2 + bval h3) by lia.
  destruct (Z.gtb_spec (256 * bval h2 + bval h3) MAX_DATA); lia.
Qed.

Lemma read_packet_spec t a :
  app_ok a -> (t = true -> parse (pend a) <> None) ->
  wpt t (read_packet stack) (fun r a' => app_ok a' /\ packet_read a r a') a.
Proof using Hstack ZephyrLaws0.
  intros Ha Ht. unfold read_packet.
  eapply wp_then; [apply (uart_read_exact_spec t a (stack 4) 4); [done|by rewrite Hstack|done|]|].
  { intros E. specialize (Ht E). destruct (pend a) as [|? [|? [|? [|? l]]]]; try done. unfold len. cbn. lia. }
  intros hdr a1 (Ha1 & (M1 & M2 & M3 & M4 & M5) & bs & Hl & Hp & ->). destruct (four bs Hl) as (h0 & h1 & h2 & h3 & ->).
  rewrite drop_ge by (pose proof (Hstack 4); unfold len in *; lia). cbn [app] in Hp.
  do 4 (apply wp_bind; eapply wp_chk; [reflexivity|]).
  pose proof (Z.mod_pos_bound (bval h1) MAX_NAME ltac:(done)) as Hnl. pose proof (bval_range h2). pose proof (bval_range h3).
  cbv zeta. rewrite data_len_value. set (dl := Z.min _ _). assert (0 <= dl <= MAX_DATA) as Hdl by (subst dl; unfold MAX_DATA; lia).
  rewrite Hp in Ht. assert (t = true -> bval h1 mod MAX_NAME + dl <= len (pend a1)) as Hlen.
  { intros E. by apply (parse_length _ h0), Ht. }
  eapply wp_then; [apply (read_name_spec t a1); [done|done|intros E; specialize (Hlen E); lia]|].
  intros [] a2 (Ha2 & name & Hn & Hp2 & Hnb & E1 & E2 & E3 & E4).
  eapply wp_then; [apply (read_data_spec t a2); [done|done|intros E; specialize (Hlen E); rewrite Hp2, len_app in Hlen; lia]|].
  intros [] a3 (Ha3 & data & Hd & Hp3 & Hdb & F1 & F2 & F3 & F4). apply wp_bind, wp_get, wp_bind.
  rewrite F2, Hnb. assert (len name < 32) as Hn32 by (unfold MAX_NAME in *; lia).
  destruct (c_str_some (path_image name)) as [s Hs]; [apply (path_image_str name); lia|].
  eapply wp_chk; [exact Hs|]. apply wp_bind, wp_modify, wp_ret. split; [by destruct Ha3; split|].
  exists (bval h0), name, data, s. rewrite Hp, Hp2, Hp3. pose proof (bval_range h0).
  split; [by apply parse_parts|]. rewrite Hd. split; [done|]. split; [done|]. split; [done|].
  split; [lia|]. split; [cbn [name_buf]; congruence|]. split; [done|]. split; [done|]. cbn [console]. congruence.
Qed.

(** *** The operations *)

(** Nothing that the program can see changed, but the disk buffer. *)
Record quiet (a a' : App K) : Prop := mk_quiet {
  qu_ok : app_ok a';
  qu_pend : pend a' = pend a;
  qu_console : console a' = console a;
  qu_name : name_buf a' = name_buf a;
  qu_name2 : name2_buf a' = name2_buf a;
  qu_data : data_buf a' = data_buf a
}.

Lemma quiet_refl a : app_ok a -> quiet a a.
Proof using Type. by split. Qed.

Lemma quiet_trans a b c : quiet a b -> quiet b c -> quiet a c.
Proof using Type. intros [] []. split; congruence. Qed.

(** [calm m]: from a state like [a0], [m] returns and leaves such a state. *)
Definition calm {A} (a0 : App K) (m : P A) : Prop := forall a, quiet a0 a -> wp m (fun _ a' => quiet a0 a') a.

Lemma calm_ret {A} a0 (x : A) : calm a0 (ret x).
Proof using Type. intros a Ha. by apply wp_ret. Qed.

Lemma calm_bind {A B} a0 (m : P A) (k : A -> P B) : calm a0 m -> (forall x, calm a0 (k x)) -> calm a0 (bind m k).
Proof using Type. intros Hm Hk a Ha. eapply wp_then; [by apply Hm|]. intros x a' Ha'. by apply Hk. Qed.

Lemma calm_get {A} a0 (k : App K -> P A) : (forall a, quiet a0 a -> calm a0 (k a)) -> calm a0 (bind get k).
Proof using Type. intros Hk a Ha. apply wp_bind, wp_get. by apply Hk. Qed.

Lemma calm_if {A} a0 (b : bool) (m n : P A) : calm a0 m -> calm a0 n -> calm a0 (if b then m else n).
Proof using Type. by destruct b. Qed.

Lemma calm_sys {A} a0 (m : M K A) : service m -> calm a0 (sys m).
Proof using Type.
  intros Hm a Ha. apply wp_zoom. eapply wp_mono; [apply Hm, (ao_kernel _ (qu_ok _ _ Ha))|]. intros x k [Hz Hp].
  apply (quiet_trans a0 a); [done|]. destruct (qu_ok _ _ Ha). by split.
Qed.

Lemma calm_sector a0 b : len b = DISK_SECTORS * SECTOR_SIZE -> calm a0 (set_sector_buf b).
Proof using Type.
  intros Hb a Ha. apply wp_modify. apply (quiet_trans a0 a); [done|]. destruct (qu_ok _ _ Ha). by split.
Qed.

End replay.

Create HintDb calm.
#[export] Hint Resolve calm_ret calm_if calm_sys calm_bind : calm.
#[export] Hint Resolve device_law mount_law unmount_law file_init_law dir_init_law seek_law truncate_law close_law
  readdir_law closedir_law : calm.

Section operations.
Context {K : Type} `{!Zephyr K} `{!ZephyrView K} `{!ZephyrLaws K}.
Context (stack : Z -> list byte) (Hstack : forall n, 0 <= n -> len (stack n) = n).
Context (a0 : App K) (Hname : str_ok (name_buf a0)).

Abbreviation P := (M (App K)).

(** The operation is reported. *)
Definition reported (o : option Z) (a' : App K) : Prop :=
  app_ok a' /\ pending (kernel a') = pending (kernel a0) /\ exists rc, console a' = console a0 ++ [OpDone o rc].

Definition reports (o : option Z) (m : P unit) : Prop := forall a, quiet a0 a -> wp m (fun _ a' => reported o a') a.

Lemma reports_bind {A} o (m : P A) (k : A -> P unit) : calm a0 m -> (forall x, reports o (k x)) -> reports o (bind m k).
Proof using Type. intros Hm Hk a Ha. eapply wp_then; [by apply Hm|]. intros x a' Ha'. by apply Hk. Qed.

Lemma reports_get o (k : App K -> P unit) : (forall a, quiet a0 a -> reports o (k a)) -> reports o (bind get k).
Proof using Type. intros Hk a Ha. apply wp_bind, wp_get. by apply Hk. Qed.

Lemma reports_chk {A} o (x : option A) y (k : A -> P unit) : x = Some y -> reports o (k y) -> reports o (bind (chk x) k).
Proof using Type. intros E Hk a Ha. apply wp_bind. eapply wp_chk; [exact E|]. by apply Hk. Qed.

Lemma reports_print o rc : reports o (printk (OpDone o rc)).
Proof using Type.
  intros a [Ha Hp Hc _ _ _]. apply wp_modify. split; [by destruct Ha; split|]. split; [done|]. exists rc. cbn. by rewrite Hc.
Qed.

Lemma name_str a : quiet a0 a -> str_ok (name_buf a).
Proof using Hname. intros Ha. by rewrite (qu_name _ _ Ha). Qed.

Lemma write_disk_calm : calm a0 write_disk.
Proof using ZephyrLaws0.
  apply calm_bind; [by apply calm_sys, disk_init_law, str_ok_lit|]. intros _. apply calm_get. intros a Ha.
  apply calm_bind; [|by intros; apply calm_ret]. apply calm_sys, disk_write_law; [by apply str_ok_lit|done|done|].
  by rewrite (ao_sector _ (qu_ok _ _ Ha)).
Qed.

Lemma mount_clean_calm : calm a0 mount_clean.
Proof using ZephyrLaws0.
  apply calm_get. intros a Ha. apply calm_bind.
  { apply calm_sector. unfold zeroed. rewrite len_replicate by (apply len_nonneg). apply (ao_sector _ (qu_ok _ _ Ha)). }
  intros _. apply calm_bind; [apply write_disk_calm|]. auto with calm.
Qed.

Lemma unmount_all_calm : calm a0 unmount_all.
Proof using ZephyrLaws0. unfold unmount_all. auto with calm. Qed.

Lemma open_name_calm flags : calm a0 (open_name flags).
Proof using Hname ZephyrLaws0.
  apply calm_bind; [auto with calm|]. intros f. apply calm_get. intros a Ha. by apply calm_sys, open_law, name_str.
Qed.

Lemma write_close_calm f d n : 0 <= n <= len d -> calm a0 (do (_, f) <- sys (fs_write f d n) ;; sys (fs_close f) ;;; ret tt).
Proof using ZephyrLaws0.
  intros Hn. apply calm_bind; [by apply calm_sys, write_law|]. intros [rc f']. auto with calm.
Qed.

Lemma create_file_calm d n : 0 <= n <= len d -> calm a0 (create_file d n).
Proof using Hname ZephyrLaws0.
  intros Hn. apply calm_bind; [apply open_name_calm|]. intros [rc f]. apply calm_if; [by apply write_close_calm|auto with calm].
Qed.

(** After the work: unmount and report. *)
Lemma finish o rc : reports o (unmount_all ;;; printk (OpDone o rc)).
Proof using ZephyrLaws0. apply reports_bind; [apply unmount_all_calm|]. intros _. apply reports_print. Qed.

Lemma op_write_reports n : 0 <= n <= MAX_DATA -> reports (Some OP_WRITE) (op_write n).
Proof using Hname ZephyrLaws0.
  intros Hn. apply reports_bind; [apply mount_clean_calm|]. intros _. apply reports_bind; [apply open_name_calm|].
  intros [rc f]. apply reports_bind; [|intros; apply finish]. apply calm_if; [|auto with calm].
  apply calm_get. intros a Ha. apply calm_bind; [apply calm_sys, write_law; by rewrite (ao_data _ (qu_ok _ _ Ha))|].
  intros [rc' f']. auto with calm.
Qed.

Lemma op_read_reports n : 0 <= n <= MAX_DATA -> reports (Some OP_READ) (op_read stack n).
Proof using Hname Hstack ZephyrLaws0.
  intros Hn. apply reports_bind; [apply mount_clean_calm|]. intros _. apply reports_get. intros a Ha.
  apply reports_bind; [apply create_file_calm; by rewrite (ao_data _ (qu_ok _ _ Ha))|]. intros _.
  apply reports_bind; [apply open_name_calm|]. intros [rc f]. apply reports_bind; [|intros; apply finish].
  apply calm_if; [|auto with calm]. apply calm_bind; [apply calm_sys, read_law; by rewrite Hstack|].
  intros [[rc' f'] b]. auto with calm.
Qed.

Lemma op_mkdir_reports : reports (Some OP_MKDIR) op_mkdir.
Proof using Hname ZephyrLaws0.
  apply reports_bind; [apply mount_clean_calm|]. intros _. apply reports_get. intros a Ha.
  apply reports_bind; [by apply calm_sys, mkdir_law, name_str|]. intros rc. apply finish.
Qed.

Lemma op_stat_reports : reports (Some OP_STAT) op_stat.
Proof using Hname ZephyrLaws0.
  apply reports_bind; [apply mount_clean_calm|]. intros _. apply reports_get. intros a Ha.
  apply reports_bind; [by apply calm_sys, stat_law, name_str|]. intros rc. apply finish.
Qed.

Lemma op_unlink_reports : reports (Some OP_UNLINK) op_unlink.
Proof using Hname ZephyrLaws0.
  apply reports_bind; [apply mount_clean_calm|]. intros _. apply reports_bind; [apply open_name_calm|]. intros [rc f].
  apply reports_bind; [auto with calm|]. intros _. apply reports_get. intros a Ha.
  apply reports_bind; [by apply calm_sys, unlink_law, name_str|]. intros rc'. apply finish.
Qed.

Lemma op_truncate_reports n : 0 <= n <= MAX_DATA -> reports (Some OP_TRUNCATE) (op_truncate n).
Proof using Hname ZephyrLaws0.
  intros Hn. apply reports_bind; [apply mount_clean_calm|]. intros _. apply reports_bind; [apply open_name_calm|].
  intros [rc f]. apply reports_bind; [|intros; apply finish]. apply calm_if; [|auto with calm].
  apply calm_get. intros a Ha. apply calm_bind; [apply calm_sys, write_law; by rewrite (ao_data _ (qu_ok _ _ Ha))|].
  intros [rc1 f1]. apply calm_bind; [auto with calm|]. intros [rc2 f2]. apply calm_bind; [auto with calm|].
  intros [rc3 f3]. auto with calm.
Qed.

Lemma op_mount_raw_reports n : 0 <= n <= MAX_DATA -> reports (Some OP_MOUNT_RAW) (op_mount_raw n).
Proof using ZephyrLaws0.
  intros Hn. apply reports_get. intros a Ha. destruct (qu_ok _ _ Ha) as [_ Hs Hd _ _]. cbv zeta.
  assert ((if n <? DISK_SECTORS * SECTOR_SIZE then n else DISK_SECTORS * SECTOR_SIZE) = n) as ->.
  { unfold MAX_DATA in Hn. by rewrite (proj2 (Z.ltb_lt n _)) by (unfold DISK_SECTORS, SECTOR_SIZE; lia). }
  destruct (slice_is_Some (data_buf a) 0 n) as (src & Hsrc & Hl); [lia|lia|lia|]. eapply reports_chk; [exact Hsrc|].
  destruct (splice_is_Some (zeroed (sector_buf a)) 0 src) as (sb & Hsb & Hlb); [lia|..].
  { unfold zeroed. rewrite len_replicate by apply len_nonneg. unfold MAX_DATA, DISK_SECTORS, SECTOR_SIZE in *. lia. }
  eapply reports_chk; [exact Hsb|]. unfold zeroed in Hlb. rewrite len_replicate in Hlb by apply len_nonneg.
  apply reports_bind; [by apply calm_sector; rewrite Hlb|]. intros _. apply reports_bind; [apply write_disk_calm|]. intros _.
  apply reports_bind; [auto with calm|]. intros rc. apply reports_bind; [|intros; apply reports_print].
  apply calm_if; [|auto with calm]. apply calm_bind; [auto with calm|]. intros d.
  apply calm_bind; [by apply calm_sys, opendir_law, str_ok_lit|]. intros [r d']. apply calm_bind; [|auto with calm].
  apply calm_if; [|auto with calm]. apply calm_bind; [auto with calm|]. intros [r' d'']. auto with calm.
Qed.

End operations.

Section turns.
Context {K : Type} `{!Zephyr K} `{!ZephyrView K} `{!ZephyrLaws K}.
Context (stack : Z -> list byte) (Hstack : forall n, 0 <= n -> len (stack n) = n).

(** The rest of the rename, when both names are ready. *)
Lemma reports_rename (a0 : App K) :
  str_ok (name_buf a0) -> str_ok (name2_buf a0) ->
  reports a0 (Some OP_RENAME) (mount_clean ;;; create_file (lit "x") 1 ;;; a <- get ;;
    rc <- sys (fs_rename (name_buf a) (name2_buf a)) ;; unmount_all ;;; printk (OpDone (Some OP_RENAME) rc)).
Proof using ZephyrLaws0.
  intros H1 H2. apply reports_bind; [apply mount_clean_calm|]. intros _.
  apply reports_bind; [by apply create_file_calm|]. intros _. apply reports_get. intros a Ha.
  apply reports_bind; [apply calm_sys, rename_law; [by rewrite (qu_name _ _ Ha)|by rewrite (qu_name2 _ _ Ha)]|].
  intros rc. apply finish.
Qed.

Lemma op_rename_reports (a0 : App K) n :
  str_ok (name_buf a0) -> app_ok a0 -> 0 <= n <= MAX_DATA ->
  wp (op_rename n) (fun _ a' => reported a0 (Some OP_RENAME) a') a0.
Proof using ZephyrLaws0.
  intros Hs Ha Hn. unfold op_rename. apply wp_bind, wp_get, wp_bind.
  eapply wp_of_run; [apply print_prefix, Ha|]. cbv zeta. set (c := if n <? MAX_NAME then n else MAX_NAME).
  assert (0 <= c <= 32 /\ c <= MAX_DATA) as [Hc Hc2].
  { subst c. unfold MAX_NAME, MAX_DATA in *. destruct (Z.ltb_spec n 32); lia. }
  destruct (slice_is_Some (data_buf a0) 0 c) as (src & Hsrc & Hl); [lia|lia|rewrite (ao_data _ Ha); lia|].
  apply wp_bind. eapply wp_chk; [exact Hsrc|]. rewrite <- Hl. destruct (put_name src) as [H1 H2]; [lia|].
  apply wp_bind. eapply wp_chk; [exact H1|]. apply wp_bind. eapply wp_chk; [exact H2|].
  apply wp_bind, wp_modify. set (a1 := mkApp _ _ _ _ _ _).
  assert (app_ok a1) as Ha1 by (destruct Ha; split; try done; cbn [name2_buf a1]; rewrite path_image_len by lia; done).
  assert (str_ok (name2_buf a1)) as Hs2 by (apply path_image_str; lia).
  apply (reports_rename a1 Hs Hs2 a1). by apply quiet_refl.
Qed.

(** The operation as the closing line names it. *)
Definition known (op : Z) : option Z := if (1 <=? op) && (op <=? 8) then Some op else None.

Lemma dispatch_spec (a0 : App K) op n :
  str_ok (name_buf a0) -> app_ok a0 -> 0 <= n <= MAX_DATA -> 0 <= op < 256 ->
  wp (dispatch stack op n) (fun go a' => app_ok a' /\ pending (kernel a') = pending (kernel a0) /\
    if op =? 0xFF then go = false /\ console a' = console a0 ++ [FuzzExit]
    else go = true /\ exists rc, console a' = console a0 ++ [OpDone (known op) rc]) a0.
Proof using Hstack ZephyrLaws0.
  intros Hs Ha Hn Hop. pose proof (quiet_refl a0 Ha) as Hq.
  assert (forall o (m : M (App K) unit), wp m (fun _ a' => reported a0 o a') a0 -> o = known op -> op <> 0xFF ->
    wp (m ;;; ret true) (fun go a' => app_ok a' /\ pending (kernel a') = pending (kernel a0) /\
    if op =? 0xFF then go = false /\ console a' = console a0 ++ [FuzzExit]
    else go = true /\ exists rc, console a' = console a0 ++ [OpDone (known op) rc]) a0) as Hop1.
  { intros o m Hm -> Hne. eapply wp_then; [exact Hm|]. intros _ a' (H1 & H2 & H3). apply wp_ret.
    rewrite (proj2 (Z.eqb_neq _ _) Hne). done. }
  unfold dispatch.
  destruct (Z.eqb_spec op OP_WRITE) as [->|N1]; [by apply (Hop1 (Some OP_WRITE)); [apply op_write_reports|..]|].
  destruct (Z.eqb_spec op OP_READ) as [->|N2]; [by apply (Hop1 (Some OP_READ)); [apply op_read_reports|..]|].
  destruct (Z.eqb_spec op OP_MKDIR) as [->|N3]; [by apply (Hop1 (Some OP_MKDIR)); [apply op_mkdir_reports|..]|].
  destruct (Z.eqb_spec op OP_RENAME) as [->|N4]; [by apply (Hop1 (Some OP_RENAME)); [apply op_rename_reports|..]|].
  destruct (Z.eqb_spec op OP_UNLINK) as [->|N5]; [by apply (Hop1 (Some OP_UNLINK)); [apply op_unlink_reports|..]|].
  destruct (Z.eqb_spec op OP_STAT) as [->|N6]; [by apply (Hop1 (Some OP_STAT)); [apply op_stat_reports|..]|].
  destruct (Z.eqb_spec op OP_TRUNCATE) as [->|N7]; [by apply (Hop1 (Some OP_TRUNCATE)); [apply op_truncate_reports|..]|].
  destruct (Z.eqb_spec op OP_MOUNT_RAW) as [->|N8]; [by apply (Hop1 (Some OP_MOUNT_RAW)); [apply op_mount_raw_reports|..]|].
  destruct (Z.eqb_spec op 0xFF) as [->|N9].
  - apply wp_bind, wp_modify, wp_ret. split; [by destruct Ha; split|]. done.
  - apply wp_bind, wp_modify, wp_ret. split; [by destruct Ha; split|]. split; [done|]. split; [done|].
    exists (-1). cbn [console]. do 3 f_equal. unfold known.
    unfold OP_WRITE, OP_READ, OP_MKDIR, OP_RENAME, OP_UNLINK, OP_STAT, OP_TRUNCATE, OP_MOUNT_RAW in *.
    destruct (Z.leb_spec 1 op), (Z.leb_spec op 8); cbn; done || lia.
Qed.

(** What a turn of the loop does with a complete packet. *)
Definition turn_post (a : App K) (r : unit + Z) (a' : App K) : Prop := exists op name data s,
  parse (pending (kernel a)) = Some (op, name, data, pending (kernel a')) /\ c_str (path_image name) = Some s /\
  if op =? 0xFF then r = inr 0 /\ console a' = console a ++ [OpStart op s (len data); FuzzExit]
  else r = inl tt /\ exists rc, console a' = console a ++ [OpStart op s (len data); OpDone (known op) rc; FuzzAck].

Lemma main_turn_spec t a :
  app_ok a -> (t = true -> parse (pending (kernel a)) <> None) ->
  wpt t (main_turn stack) (fun r a' => app_ok a' /\ turn_post a r a') a.
Proof using Hstack ZephyrLaws0.
  intros Ha Ht. unfold main_turn. eapply wp_then; [by apply (read_packet_spec stack)|].
  intros [op' n] a1 (Ha1 & op & name & data & s & Hp & [= -> ->] & Hop & Hn & Hd & Hnb & Hdb & Hs & Hc).
  unfold MAX_NAME in Hn. eapply wp_then; [apply wp_total, dispatch_spec; [rewrite Hnb; apply path_image_str; lia|done| |done]|].
  { pose proof (len_nonneg data). lia. }
  intros go a2 (Ha2 & Hp2 & Hgo). destruct (Z.eqb_spec op 0xFF) as [->|Hne].
  - destruct Hgo as [-> Hc2]. apply wp_ret. split; [done|]. exists 0xFF, name, data, s. rewrite Hp2.
    split; [done|]. split; [done|]. cbn [Z.eqb Pos.eqb]. split; [done|]. by rewrite Hc2, Hc, <- app_assoc.
  - destruct Hgo as [-> [rc Hc2]]. apply wp_bind, wp_modify, wp_ret. split; [by destruct Ha2; split|].
    exists op, name, data, s. cbn [kernel console]. rewrite Hp2. split; [done|]. split; [done|].
    rewrite (proj2 (Z.eqb_neq _ _) Hne). split; [done|]. exists rc. by rewrite Hc2, Hc, <- !app_assoc.
Qed.

End turns.
