(* ===== verification/Firmware.v ===== *)
(** * The replay firmware, as theorems

    The protocol between the host script send_packet.py and the firmware: a
    packet that fits is taken as it was sent, every operation is acknowledged
    once, the program ends at the exit packet; and a name of 32 bytes, which
    the script sends, is lost, and the firmware goes on in the middle of the
    packet. *)

From stdpp Require Import base numbers list option gmap.
From Stdlib Require Import ZArith Lia.
From Stdlib Require Import Strings.Byte Strings.String.
From S2P Require Import Prelude Types Bytes Diskio Window Fat Chain Dir Path Mount File DirApi Harness Zephyr.

(** ** The host *)

(** scripts/send_packet.py: the packet, and the one that ends the program. *)
Definition packet (op : byte) (name data : list byte) : list byte :=
  [op; mkb (len name); mkb (len data / 256); mkb (len data)] ++ name ++ data.

Definition send_packet (op : byte) (name data : list byte) : list byte :=
  packet op (take 32 name) (take (Z.to_nat 4096) data) ++ packet xff [] [].

(** A stream of packets that ends with an exit packet. *)
Inductive exits : list byte -> Prop :=
| ex_last l name data rest : parse l = Some (0xFF, name, data, rest) -> exits l
| ex_next l op name data rest : parse l = Some (op, name, data, rest) -> op <> 0xFF -> exits rest -> exits l.

(** What is printed for it. *)
Inductive session_log : list byte -> list line -> list byte -> Prop :=
| sl_last l name data rest s :
    parse l = Some (0xFF, name, data, rest) -> c_str (path_image name) = Some s ->
    session_log l [OpStart 0xFF s (len data); FuzzExit] rest
| sl_next l op name data rest s rc ls l' :
    parse l = Some (op, name, data, rest) -> op <> 0xFF -> c_str (path_image name) = Some s ->
    session_log rest ls l' ->
    session_log l (OpStart op s (len data) :: OpDone (known op) rc :: FuzzAck :: ls) l'.

Lemma parse_shorter l op name data rest : parse l = Some (op, name, data, rest) -> len rest + 4 <= len l.
Proof.
  destruct l as [|h0 [|h1 [|h2 [|h3 l]]]]; try done. cbn [parse]. destruct (_ <=? _); [|done]. intros [= <- <- <- <-].
  unfold len. rewrite length_drop. cbn [List.length]. lia.
Qed.

Lemma parse_packet op name data rest :
  len name < MAX_NAME -> len data <= MAX_DATA ->
  parse (packet op name data ++ rest) = Some (bval op, name, data, rest).
Proof.
  unfold MAX_NAME, MAX_DATA. intros Hn Hd. pose proof (len_nonneg name). pose proof (len_nonneg data). unfold packet.
  rewrite <- app_assoc, <- app_assoc. cbn [app]. apply parse_parts; rewrite !bval_mkb; unfold MAX_NAME, MAX_DATA.
  - rewrite (Z.mod_small (len name) 256), Z.mod_small by lia. done.
  - rewrite (Z.mod_small (len data / 256)) by (split; [apply Z.div_pos; lia|apply Z.div_lt_upper_bound; lia]).
    rewrite <- Z.div_mod by lia. lia.
Qed.

Lemma parse_sent op name data :
  len name < MAX_NAME -> parse (send_packet op name data) = Some (bval op, name, take (Z.to_nat 4096) data, packet xff [] []).
Proof.
  intros Hn. unfold send_packet. unfold MAX_NAME, len in Hn.
  rewrite take_ge by lia. apply parse_packet; [done|]. unfold MAX_DATA, len. rewrite length_take. lia.
Qed.

(** Of a name of 32 bytes and more the firmware takes none: as many bytes as
    the data has are the data, and 32 bytes are left before the exit packet. *)
Lemma parse_long_name op name data :
  let n := take 32 name in let d := take (Z.to_nat 4096) data in
  MAX_NAME <= len name ->
  parse (send_packet op name data) =
    Some (bval op, [], take (List.length d) (n ++ d), drop (List.length d) (n ++ d) ++ packet xff [] []).
Proof.
  intros n d. unfold MAX_NAME. intros Hn. unfold send_packet, packet at 1. fold n d.
  assert (len n = 32) as En by (unfold n, len in *; rewrite length_take; lia).
  assert (0 <= len d <= 4096) as Ed by (unfold d, len in *; rewrite length_take; lia).
  replace (([op; mkb (len n); mkb (len d / 256); mkb (len d)] ++ n ++ d) ++ packet xff [] []) with
    (op :: mkb (len n) :: mkb (len d / 256) :: mkb (len d) :: [] ++ take (List.length d) (n ++ d) ++
       drop (List.length d) (n ++ d) ++ packet xff [] []).
  2:{ cbn [app]. do 4 f_equal. by rewrite (app_assoc (take _ _)), take_drop. }
  apply parse_parts; [by rewrite En|]. rewrite !bval_mkb. unfold MAX_DATA.
  rewrite (Z.mod_small (len d / 256)) by (split; [apply Z.div_pos; lia|apply Z.div_lt_upper_bound; lia]).
  rewrite <- Z.div_mod by lia. rewrite Z.min_l by lia. unfold len. rewrite length_take, length_app. lia.
Qed.

(** ** The device *)

Section firmware.
Context {K : Type} `{!Zephyr K} `{!ZephyrView K} `{!ZephyrLaws K}.
Context (stack : Z -> list byte) (Hstack : forall n, 0 <= n -> len (stack n) = n).

(** C36: a turn of the loop.  Whatever arrives on the UART, in whatever order
    it is timed, the program stores nothing outside its buffers, passes only
    terminated paths and lengths that lie in its buffers to the kernel, takes
    exactly the bytes of one packet, and prints its opening line, its result
    and one acknowledgement (or FUZZ_EXIT, and ends).  With [t = true] the
    packet is complete, and the turn ends. *)
Theorem main_turn_protocol t (a : App K) :
  app_ok a -> (t = true -> parse (pending (kernel a)) <> None) ->
  wpt t (main_turn stack) (fun r a' => app_ok a' /\ turn_post a r a') a.
Proof using Hstack ZephyrLaws0. intros. by apply (main_turn_spec stack). Qed.

Lemma exits_parse l : exits l -> parse l <> None.
Proof using Type. by intros [? ? ? ? ->|? ? ? ? ? ->]. Qed.

(** C37: the session ends.  When the bytes delivered to the firmware are packets
    of which one is an exit packet, the firmware returns: -1 if the UART is not ready, otherwise
    0, having printed FUZZ_READY and, for every packet up to the exit packet,
    its lines. *)
Theorem firmware_session (a : App K) :
  app_ok a -> exits (pending (kernel a)) -> len (pending (kernel a)) < 4294967296 ->
  wp (firmware stack) (fun r a' =>
    (r = -1 /\ console a' = console a ++ [NotReady]) \/
    (r = 0 /\ exists ls, session_log (pending (kernel a)) ls (pending (kernel a')) /\
       console a' = console a ++ FuzzReady :: ls)) a.
Proof using Hstack ZephyrLaws0.
  intros Ha Hex Hlen. unfold firmware.
  eapply wp_then; [apply (calm_sys a _ device_law a), quiet_refl, Ha|]. intros ready a1 Hq.
  destruct ready; cbn [negb].
  2:{ apply wp_bind, wp_modify, wp_ret. left. split; [done|]. cbn. by rewrite (qu_console _ _ Hq). }
  apply wp_bind, wp_modify. set (a2 := mkApp _ _ _ _ _ _).
  assert (app_ok a2) as Ha2 by (destruct (qu_ok _ _ Hq); by split).
  assert (console a2 = console a ++ [FuzzReady]) as Hc2 by (cbn; by rewrite (qu_console _ _ Hq)).
  assert (pending (kernel a2) = pending (kernel a)) as Hp2 by (apply (qu_pend _ _ Hq)).
  apply (wp_loop true (fun _ a3 => app_ok a3 /\ exits (pending (kernel a3)) /\
    exists log, console a3 = console a2 ++ log /\
      forall ls r, session_log (pending (kernel a3)) ls r -> session_log (pending (kernel a2)) (log ++ ls) r)
    (fun _ a3 => len (pending (kernel a3)))).
  - intros [] a3 (Ha3 & He3 & log & Hlog & Hses).
    eapply wp_mono; [apply (main_turn_spec stack Hstack true a3 Ha3)|]; [intros _; by apply exits_parse|].
    intros r a4 (Ha4 & op & name & data & s & Hp & Hs & Hr). destruct (Z.eqb_spec op 0xFF) as [->|Hne].
    + destruct Hr as [-> Hc]. right. split; [done|]. eexists. rewrite <- Hp2. split; [apply Hses; by eapply sl_last|].
      rewrite Hc, Hlog, Hc2. by rewrite <- !app_assoc.
    + destruct Hr as [-> [rc Hc]]. pose proof (parse_shorter _ _ _ _ _ Hp). pose proof (len_nonneg (pending (kernel a4))).
      split; [|lia]. split; [done|]. split.
      { destruct He3 as [l ? ? ? E|l ? ? ? ? E _ He]; rewrite Hp in E; injection E; intros; by subst. }
      exists (log ++ [OpStart op s (len data); OpDone (known op) rc; FuzzAck]). split; [by rewrite Hc, Hlog, <- app_assoc|].
      intros ls r Hls. rewrite <- app_assoc. apply Hses. by eapply sl_next.
  - split; [done|]. split; [by rewrite Hp2|]. exists []. split; [by rewrite app_nil_r|]. done.
  - rewrite Hp2. unfold LOOP_FUEL. lia.
Qed.

(** C38: a packet that fits is taken as it was sent.  For a name of less than
    32 bytes, the firmware gets from what send_packet.py sends, when all of it is
    delivered, the operation,
    the name and the first 4096 bytes of the data, in its buffers, and the exit
    packet is next. *)
Theorem send_packet_roundtrip (a : App K) op name data :
  app_ok a -> pending (kernel a) = send_packet op name data -> len name < MAX_NAME ->
  wp (read_packet stack) (fun r a' =>
    r = (bval op, len (take (Z.to_nat 4096) data)) /\ name_buf a' = path_image name /\
    data_buf a' = take (Z.to_nat 4096) data ++ replicate (Z.to_nat (MAX_DATA - len (take (Z.to_nat 4096) data))) x00 /\
    pending (kernel a') = packet xff [] []) a.
Proof using Hstack ZephyrLaws0.
  intros Ha Hp Hn. pose proof (parse_sent op name data Hn) as Hs. rewrite <- Hp in Hs.
  eapply wp_mono; [apply (read_packet_spec stack Hstack true a Ha); intros _; by rewrite Hs|].
  intros r a' (_ & op' & name' & data' & s & Hp' & -> & _ & _ & _ & H1 & H2 & _).
  rewrite Hs in Hp'. injection Hp' as <- <- <- <-. done.
Qed.

(** C40: a name of 32 bytes is lost.  The script sends up to 32 bytes of the
    name, the firmware reduces the length modulo 32.  For every name of 32 or
    more bytes and every data, also none, as for mkdir, stat and unlink, the
    path of the firmware is the root; the data it takes has the length that was
    sent but begins with the name; and the last 32 bytes of name and data are
    left in front of the exit packet, to be read as the next packet. *)
Theorem send_packet_long_name (a : App K) op name data :
  let n := take 32 name in let d := take (Z.to_nat 4096) data in
  app_ok a -> pending (kernel a) = send_packet op name data -> MAX_NAME <= len name ->
  wp (read_packet stack) (fun r a' =>
    r = (bval op, len d) /\ name_buf a' = path_image [] /\
    data_buf a' = take (List.length d) (n ++ d) ++ replicate (Z.to_nat (MAX_DATA - len d)) x00 /\
    pending (kernel a') = drop (List.length d) (n ++ d) ++ packet xff [] []) a.
Proof using Hstack ZephyrLaws0.
  intros n d Ha Hp Hn. pose proof (parse_long_name op name data Hn) as Hs. cbv zeta in Hs. fold n d in Hs. rewrite <- Hp in Hs.
  eapply wp_mono; [apply (read_packet_spec stack Hstack true a Ha); intros _; by rewrite Hs|].
  intros r a' (_ & op' & name' & data' & s & Hp' & -> & _ & _ & _ & H1 & H2 & _).
  rewrite Hs in Hp'. injection Hp' as <- <- <- Hrest.
  assert (len (take (List.length d) (n ++ d)) = len d) as El by (unfold len; rewrite length_take, length_app; lia).
  rewrite El in *. done.
Qed.

End firmware.

(** ** A kernel to run it on *)

(** The bytes that wait are the state; every service succeeds. *)
Module Toy.

#[global] Instance kernel : Zephyr (list byte) := {|
  zfile := unit; zdir := unit;
  FS_O_READ := 1; FS_O_WRITE := 2; FS_O_RDWR := 3; FS_O_CREATE := 0x10; FS_SEEK_SET := 0;
  device_is_ready := ret true;
  uart_poll_in := fun l => match l with [] => Done ((-1, x00), []) | c :: l => Done ((0, c), l) end;
  k_sleep _ := ret tt;
  disk_access_init _ := ret 0; disk_access_write _ _ _ _ := ret 0;
  fs_mount := ret 0; fs_unmount := ret 0;
  fs_file_t_init := ret tt; fs_dir_t_init := ret tt;
  fs_open f _ _ := ret (0, f); fs_write f _ n := ret (n, f); fs_read f b n := ret (n, f, b);
  fs_seek f _ _ := ret (0, f); fs_truncate f _ := ret (0, f); fs_close f := ret (0, f);
  fs_mkdir _ := ret 0; fs_unlink _ := ret 0; fs_rename _ _ := ret 0; fs_stat _ := ret 0;
  fs_opendir d _ := ret (0, d); fs_readdir d := ret (0, d); fs_closedir d := ret (0, d)
|}.

#[global] Instance view : ZephyrView (list byte) := {| zok _ := True; pending l := l; due _ := 0 |}.

#[global] Instance laws : ZephyrLaws (list byte).
Proof.
  split; try (by intros; intros k Hk; apply wp_ret); try (by intros; apply wp_ret); try done.
  intros [|c l] _; [done|]. split; [done|]. by left.
Qed.

Definition app (l : list byte) : App (list byte) :=
  mkApp l (replicate (Z.to_nat 65536) x00) (replicate (Z.to_nat 4096) x00) (replicate 40 x00) (replicate 40 x00) [].

Lemma app_is_ok l : app_ok (app l).
Proof.
  split; [exact I| | |reflexivity|reflexivity]; cbn [app sector_buf data_buf]; by rewrite len_replicate.
Qed.

Definition stack (n : Z) : list byte := replicate (Z.to_nat n) x00.

Lemma stack_len n : 0 <= n -> len (stack n) = n.
Proof. apply len_replicate. Qed.

End Toy.

(** A write of "AB" to the file "f", then exit. *)
Definition session : list byte := send_packet x01 [x66] [x41; x42].

Lemma session_exits : exits session.
Proof.
  eapply ex_next; [vm_compute; reflexivity|done|]. eapply ex_last. vm_compute. reflexivity.
Qed.

Lemma main_turn_protocol_witness :
  wp (main_turn Toy.stack) (fun r a' => turn_post (Toy.app session) r a') (Toy.app session).
Proof.
  eapply wp_mono; [apply (main_turn_protocol Toy.stack Toy.stack_len true (Toy.app session))|].
  - apply Toy.app_is_ok.
  - intros _. vm_compute. discriminate.
  - by intros r a' [_ H].
Defined.

Lemma firmware_session_witness :
  wp (firmware Toy.stack) (fun r a' => r = -1 \/ r = 0) (Toy.app session).
Proof.
  eapply wp_mono; [apply (firmware_session Toy.stack Toy.stack_len (Toy.app session))|].
  - apply Toy.app_is_ok.
  - apply session_exits.
  - vm_compute. reflexivity.
  - intros r a' [[H _]|[H _]]; auto.
Defined.

Lemma send_packet_roundtrip_witness :
  wp (read_packet Toy.stack) (fun r a' => r = (1, 2) /\ name_buf a' = path_image [x66]) (Toy.app session).
Proof.
  eapply wp_mono; [apply (send_packet_roundtrip Toy.stack Toy.stack_len (Toy.app session) x01 [x66] [x41; x42])|].
  - apply Toy.app_is_ok.
  - reflexivity.
  - reflexivity.
  - by intros r a' (H1 & H2 & _).
Defined.

(** A write with data, and the creation of a directory, which has none. *)
Lemma send_packet_long_name_witness :
  wp (read_packet Toy.stack) (fun r a' => r = (1, 40) /\ name_buf a' = path_image [] /\
      pending (kernel a') = replicate 32 x62 ++ packet xff [] [])
    (Toy.app (send_packet x01 (replicate 32 x61) (replicate 40 x62))) /\
  wp (read_packet Toy.stack) (fun r a' => r = (3, 0) /\ name_buf a' = path_image [] /\
      pending (kernel a') = replicate 32 x61 ++ packet xff [] [])
    (Toy.app (send_packet x03 (replicate 33 x61) [])).
Proof.
  split.
  - eapply wp_mono; [apply (send_packet_long_name Toy.stack Toy.stack_len
      (Toy.app (send_packet x01 (replicate 32 x61) (replicate 40 x62))) x01 (replicate 32 x61) (replicate 40 x62))|].
    + apply Toy.app_is_ok.
    + reflexivity.
    + vm_compute; discriminate.
    + by intros r a' (-> & -> & _ & ->).
  - eapply wp_mono; [apply (send_packet_long_name Toy.stack Toy.stack_len
      (Toy.app (send_packet x03 (replicate 33 x61) [])) x03 (replicate 33 x61) [])|].
    + apply Toy.app_is_ok.
    + reflexivity.
    + vm_compute; discriminate.
    + by intros r a' (-> & -> & _ & ->).
Defined.
