(* ===== verification/Sample.v ===== *)
(** * A sample volume

    A small FAT12 volume on the RAM disk of diskio_fuzz.c, with the geometry
    that [f_mkfs] gives a 128-sector disk, on which the theorems of the
    development are applied.  Its table holds a file chain 2 -> 3 -> 5, a loop
    6 -> 7 -> 6 and free clusters. *)

From stdpp Require Import base numbers list option gmap.
From Stdlib Require Import ZArith Lia.
From Stdlib Require Import Strings.Byte.
From S2P Require Import Prelude Types Bytes Diskio Window Fat Chain Live Dir Path Mount File Content Writing Seeking Refine.

Module Sample.

(** x86: plain [char] is signed; an uninitialised directory object. *)
Definition platform : Platform :=
  {| char_signed := true;
     uninit_dir := mkDIR (mkFFOBJID None 0 0 0 0 0) 0 0 0 0 (replicate 12 x00) |}.

(** The table: entries 0 to 9. *)
Definition table : list byte :=
  [xf8; xff; xff; x03; x50; x00; x00; xf0; xff; x07; x60; x00; x00; x00; x00; x00].

Definition fs : FATFS :=
  mkFATFS FS_FAT12 0 0 1 1 0 1 512 1 0xFFFFFFFF 0xFFFFFFFF 96 1 0 1 2 34 1
          (table ++ replicate 496 x00).

Definition ram : Ram.ram := Ram.mkRam (replicate (Z.to_nat Ram.DISK_SIZE) x00).
Definition vol : vol Ram.ram := mkVol fs ram.
Definition w : world Ram.ram := mkWorld {[ 1 := fs ]} [Some 1] 1 ram.

Lemma ram_ok : Ram.ram_ok ram.
Proof. unfold Ram.ram_ok. cbn [Ram.disk ram]. by rewrite len_replicate. Qed.

Lemma fs_is_ok : fs_ok fs.
Proof. apply (bool_decide_unpack _). vm_compute. exact I. Qed.

Lemma vol_is_ok : vol_ok vol.
Proof. split; [apply fs_is_ok|apply ram_ok]. Qed.

Lemma vol_coherent : coherent vol.
Proof. by intros H. Qed.

Lemma vol_layout : fat_layout fs.
Proof. constructor; vm_compute; try done; auto. Qed.

Lemma is_mounted : mounted fs.
Proof. constructor; vm_compute; try done; auto. Qed.

(** The table is in the window, whatever the disk holds. *)
Definition table_read (v : Window.vol Ram.ram) : Prop :=
  fat_entry v 2 = Some 3 /\ fat_entry v 3 = Some 5 /\ fat_entry v 4 = Some 0 /\
  fat_entry v 5 = Some 4095 /\ fat_entry v 6 = Some 7 /\ fat_entry v 7 = Some 6.

Lemma disk_entries d : table_read (mkVol fs d).
Proof. vm_compute. by split_and!. Qed.

Lemma entries : table_read vol.
Proof. apply disk_entries. Qed.

Lemma file_chain d : chain (mkVol fs d) 2 [2; 3; 5].
Proof.
  destruct (disk_entries d) as (H2 & H3 & H4 & H5 & H6 & H7).
  apply (chain_link _ 2 3); [done|done|done|]. apply (chain_link _ 3 5); [done|done|done|].
  by apply (chain_end _ 5 4095).
Qed.

(** Every sector of the disk is good. *)
Definition good (s : Z) : Prop := 0 <= s < Ram.DISK_SECTORS.

Lemma vol_alive : alive good vol.
Proof.
  split; [done|]. split; [done|]. intros o Ho. assert (o / SS = 0) as E by (apply Z.div_small; exact Ho).
  unfold fat_sect. by rewrite E.
Qed.

Lemma geo t : vol_geo t (geom fs).
Proof.
  constructor; [|intros _; apply layout_of_geom, vol_layout].
  intros fs' Hg. by apply geom_fields in Hg as (_&_&_&_&_&->&_).
Qed.

Lemma world_ok t : winv t {[ 1 ]} w.
Proof.
  constructor; cbn.
  - by rewrite dom_singleton_L.
  - apply ram_ok.
  - intros p x. rewrite lookup_singleton_Some. intros [_ <-].
    split; [apply fs_is_ok|]. intros _. split; [apply is_mounted|]. intros _. apply vol_layout.
  - done.
  - intros i p Hi. apply at_Some_range in Hi as Hr. unfold len in Hr. cbn in Hr.
    assert (i = 0) as -> by lia. injection Hi as <-. by apply elem_of_singleton.
  - done.
  - intros _ i p x _. rewrite lookup_singleton_Some. by intros [_ <-].
Qed.

Lemma ready t : drive_ready (D := Ram.ram) t.
Proof. intros _ d p _. done. Qed.

Lemma uninit_ok : dir_w (@uninit_dir platform).
Proof. by constructor. Qed.

(** An open file of 1200 bytes at the start of the chain, and its name. *)
Definition fil : FIL := mkFIL (mkFFOBJID (Some 1) 1 0 0 2 1200) 3 FR_OK 0 0 0 2 0.
Definition path : list byte := [x61; x2e; x74; x00].
Definition info : FILINFO := mkFILINFO 0 0 0 0 (replicate 13 x00).
Definition buff : list byte := replicate (Z.to_nat 700) x41.

Lemma path_ok : path_arg (Some path).
Proof. split; [done|]. split; [done|]. by exists 3. Qed.

Lemma buff_len : len buff = 700.
Proof. unfold buff. by rewrite len_replicate. Qed.

(** The volume is in order. *)
Lemma vol_data : data_layout fs.
Proof. constructor; try (by vm_compute). by exists 0. Qed.

Lemma no_bad d : ~ bad_entry (mkVol fs d).
Proof.
  set (vol := mkVol fs d). intros (c & [H1 H2] & E). cbn in H1, H2.
  assert (forallb (fun c => negb (bool_decide (fat_entry vol c = Some 1))) (seqZ 2 94) = true) as H by (vm_compute; reflexivity).
  rewrite forallb_forall in H. assert (In c (seqZ 2 94)) as Hin by (apply list_elem_of_In, elem_of_seqZ; lia).
  specialize (H c Hin). by rewrite bool_decide_eq_true_2 in H.
Qed.

Lemma disk_sound d : Ram.ram_ok d -> sound good (mkVol fs d).
Proof.
  intros Hd. split; [by split; [apply fs_is_ok|]|apply vol_layout|apply vol_data|by intros H|by split; [|apply vol_alive]|apply no_bad|].
  intros s [H1 H2]. cbn in H1, H2. unfold good, Ram.DISK_SECTORS. lia.
Qed.

Lemma vol_sound : sound good vol.
Proof. apply disk_sound, ram_ok. Qed.

Lemma w_hosts : hosts w 1 vol.
Proof. by split. Qed.

(** The file holds 1200 zero bytes; a second file, open for writing, is
    empty. *)
Definition file : afile := mkAfile (replicate (Z.to_nat 1200) x00) 0 true true.
Definition fil2 : FIL := mkFIL (mkFFOBJID (Some 1) 1 0 0 0 0) 2 FR_OK 0 0 0 2 32.
Definition file2 : afile := mkAfile [] 0 false true.

Lemma at_zeros n i : 0 <= n -> at_ (replicate (Z.to_nat n) x00) i = if (0 <=? i) && (i <? n) then Some x00 else None.
Proof.
  intros Hn. unfold at_. destruct (Z.leb_spec 0 i); cbn [andb]; [|done]. destruct (Z.ltb_spec i n).
  - apply lookup_replicate_2. lia.
  - apply lookup_ge_None. rewrite length_replicate. lia.
Qed.

Lemma blank s i : good s -> s <> 1 -> 0 <= i < SS -> (b ← lview vol s; at_ b i) = Some x00.
Proof.
  intros Hs Hne Hi. rewrite lview_ne by done. change (media (vdsk vol) (pdrv (vfs vol)) s) with (Ram.sector ram s).
  unfold Ram.sector. unfold good, Ram.DISK_SECTORS, Ram.SECTOR_SIZE, SS in *.
  destruct (slice_is_Some (Ram.disk ram) (s * 512) 512) as (x & Hx & _); [lia|lia| |].
  { cbn [Ram.disk ram]. rewrite len_replicate by done. change Ram.DISK_SIZE with 65536. lia. }
  rewrite Hx. cbn. rewrite (at_slice _ _ _ _ i Hx), (proj2 (Z.leb_le 0 i)), (proj2 (Z.ltb_lt i 512)) by lia. cbn [andb].
  cbn [Ram.disk ram]. rewrite at_zeros by done. change Ram.DISK_SIZE with 65536.
  by rewrite (proj2 (Z.leb_le 0 _)), (proj2 (Z.ltb_lt _ _)) by lia.
Qed.

Lemma fil_is : file_is vol fil [2; 3; 5] file.
Proof.
  split; [apply file_chain|by constructor|done|done|done| |done|done].
  intros i Hi. cbn [af_data file] in *. rewrite len_replicate in Hi by done. rewrite at_zeros by done.
  rewrite (proj2 (Z.leb_le 0 i)), (proj2 (Z.ltb_lt i 1200)) by lia. cbn [andb]. unfold fbyte.
  assert (exists s, fsect (vfs vol) [2; 3; 5] i = Some s /\ good s /\ s <> 1) as (s & -> & H1 & H2).
  { unfold fsect. change (bcs (vfs vol)) with 512. change (csize (vfs vol)) with 1.
    assert (i / 512 = 0 \/ i / 512 = 1 \/ i / 512 = 2) as [E|[E|E]] by (Z.to_euclidean_division_equations; lia);
      rewrite E; eexists; (split; [reflexivity|]); unfold clst_sect, good, Ram.DISK_SECTORS, SS; cbn [vfs vol database csize fs];
      Z.to_euclidean_division_equations; lia. }
  cbn. apply blank; [done|done|]. apply Z.mod_pos_bound. done.
Qed.

Lemma fil2_is : file_is vol fil2 [] file2.
Proof.
  split; [done|by constructor|done|done|done| |done|done]. intros i Hi. change (len (af_data file2)) with 0 in Hi. lia.
Qed.

Lemma both_files : files_are 1 vol [fil; fil2] [file; file2].
Proof.
  split; [done|]. exists [[2; 3; 5]; []]. split; [done|]. split.
  - intros [|[|i]] fp cs a [= <-] [= <-] [= <-]; (split; [done|]); [apply fil_is|apply fil2_is].
  - intros [|[|i]] [|[|j]] ci cj Hne [= <-] [= <-] c H1 H2; [done|by apply elem_of_nil in H2|by apply elem_of_nil in H1|done].
Qed.

End Sample.
