(* ===== verification/Files.v ===== *)
(** * Open files, as theorems

    [f_read], [f_write], [f_lseek] and [f_truncate] against the abstract file
    of [Refine]: a byte string with a position.  The volume is in order
    ([sound]); what the functions do on a damaged one is the subject of
    [Api]. *)

From stdpp Require Import base numbers list option gmap.
From Stdlib Require Import ZArith Lia.
From Stdlib Require Import Strings.Byte.
From S2P Require Import Prelude Types Bytes Diskio Window Fat Chain Live Dir Path Mount File Content Writing Seeking Refine Sample.

Section files.
Context {D : Type} `{!DiskIO D} `{!DiskIOLaws D} (G : Z -> Prop).
Context (Hrdy : drive_ready (D := D) true).

(** C1: open files refine byte strings.  With any number of files of a
    volume open, any sequence of reads, writes, seeks and truncations, each on
    one of them, ends, and gives the results that the abstract files give:
    every file keeps its own bytes and position whatever is done to the
    others, access rights are respected, and a write or a seek past the end
    may stop early but never damages data. *)
Theorem open_files_refine ops (w : world D) p v fils A :
  hosts w p v -> sound G v -> files_are p v fils A ->
  (forall i op, (i, op) ∈ ops -> (i < length fils)%nat /\ op_fits op) ->
  wp (run_ops ops fils) (fun r w' => exists v' A',
    hosts w' p v' /\ sound G v' /\ files_are p v' r.1 A' /\ asteps A ops r.2 A') w.
Proof using Hrdy. intros. by eapply (run_ops_refines G). Qed.

Context (w : world D) (p : Z) (v : vol D) (fp : FIL) (cs : list Z) (a : afile).
Context (Hw : hosts w p v) (Hh : handle p v fp) (Hs : sound G v) (Hf : file_is v fp cs a).

(** C13: [f_read] delivers the file.  It reads [btr] bytes or up to the end of
    the file, puts exactly these bytes of the file at the front of the buffer
    and leaves the rest of it, advances the position by their number, and
    changes nothing else; without FA_READ it returns FR_DENIED and does
    nothing. *)
Theorem f_read_contents buff btr :
  0 <= btr <= len buff -> btr < U32 ->
  wp (f_read fp buff btr) (fun r w' =>
    let '(res, fp', b, n) := r in
    if af_rd a then
      res = FR_OK /\ n = Z.min btr (len (af_data a) - af_pos a) /\
      b = ztake n (zdrop (af_pos a) (af_data a)) ++ zdrop n buff /\
      wstep G p v fp cs w' fp' (mkAfile (af_data a) (af_pos a + n) (af_rd a) (af_wr a)) (fun _ => True)
    else res = FR_DENIED /\ n = 0 /\ b = buff /\ wstep G p v fp cs w' fp' a (fun _ => True)) w.
Proof using All. intros. by apply (f_read_file G). Qed.

(** C12: [f_write] replaces or appends.  The first [n] bytes of the buffer are
    now the bytes of the file at the old position, all others are as before,
    the file is as long as needed, and [n] is less than asked for only when
    the file would pass 4 GiB or the volume is full; no other file of the
    volume changes ([wstep]); the file is marked as modified.  Without FA_WRITE it returns FR_DENIED and does
    nothing. *)
Theorem f_write_contents buff btw :
  0 <= btw <= len buff -> btw < U32 ->
  wp (f_write fp buff btw) (fun r w' =>
    let '(res, fp', n) := r in
    if af_wr a then
      res = FR_OK /\ 0 <= n <= Z.min btw (0xFFFFFFFF - af_pos a) /\
      nz (Z.land (fp_flag fp') FA_MODIFIED) = true /\
      wstep G p v fp cs w' fp'
        (mkAfile (overwrite (af_data a) (af_pos a) (ztake n buff)) (af_pos a + n) (af_rd a) (af_wr a))
        (fun v' => n = Z.min btw (0xFFFFFFFF - af_pos a) \/ full (vfs v) v')
    else res = FR_DENIED /\ n = 0 /\ wstep G p v fp cs w' fp' a (fun _ => True)) w.
Proof using All. intros. by apply (f_write_file G). Qed.

(** C27: [f_lseek] moves to the offset, clipped to the size of the file in
    read mode.  In write mode the file is stretched when the offset is past
    its end (the new bytes are what the clusters held), less far only when
    the volume is full; the bytes of the file stay. *)
Theorem f_lseek_position ofs :
  0 <= ofs < U32 ->
  wp (f_lseek fp ofs) (fun r w' => r.1 = FR_OK /\ exists ext pos,
    let tgt := if af_wr a then ofs else Z.min ofs (len (af_data a)) in
    len (af_data a ++ ext) = Z.max (len (af_data a)) pos /\
    wstep G p v fp cs w' r.2 (mkAfile (af_data a ++ ext) pos (af_rd a) (af_wr a))
      (fun v' => pos = tgt \/ (full (vfs v) v' /\ len (af_data a) <= pos < tgt))) w.
Proof using All. intros. by apply (f_lseek_file G). Qed.

(** C28: [f_truncate] cuts the file at the position; the bytes before it stay,
    and the clusters behind it are free again ([cut_off]).  Without FA_WRITE it
    returns FR_DENIED and does nothing. *)
Theorem f_truncate_cuts :
  wp (f_truncate fp) (fun r w' =>
    if af_wr a then
      r.1 = FR_OK /\ wstep G p v fp cs w' r.2
        (mkAfile (ztake (af_pos a) (af_data a)) (af_pos a) (af_rd a) (af_wr a)) (cut_off cs a v)
    else r.1 = FR_DENIED /\ wstep G p v fp cs w' r.2 a (fun _ => True)) w.
Proof using All. by apply (f_truncate_file G). Qed.

(** What was written is read back.  Writing a buffer, seeking back by the
    number of bytes written and reading as many gives these bytes again. *)
Theorem write_read_back buff buff' btw :
  af_rd a = true -> af_wr a = true -> 0 <= btw <= len buff -> len buff' = len buff -> btw < U32 ->
  wp (do (r1, fp1, n) <- f_write fp buff btw ;;
      do (r2, fp2) <- f_lseek fp1 (fp_fptr fp1 - n) ;;
      do (r3, fp3, b, m) <- f_read fp2 buff' n ;;
      ret (r1, r2, r3, n, m, b))
    (fun x w' => let '(r1, r2, r3, n, m, b) := x in
       r1 = FR_OK /\ r2 = FR_OK /\ r3 = FR_OK /\ m = n /\ ztake n b = ztake n buff) w.
Proof using All.
  intros Hr Hwr Hb Hl Hbu. pose proof (cu_fptr _ _ _ (fi_cursor _ _ _ _ Hf)) as Hp.
  rewrite (fi_pos _ _ _ _ Hf), (fi_len _ _ _ _ Hf) in Hp.
  apply wp_bind. eapply wp_mono; [by apply (f_write_file G Hrdy w p v fp cs a)|].
  intros [[r1 fp1] n] w1 H. rewrite Hwr in H. destruct H as (-> & Hn & _ & v1 & cs1 & Hh1 & Hv1 & _).
  pose proof (vs_file _ _ _ _ _ _ _ _ Hv1) as Hf1. pose proof (fi_pos _ _ _ _ Hf1) as Hp1. cbn [af_pos] in Hp1.
  assert (handle p v1 fp1) as Hha1 by (by apply (handle_next G p v fp cs v1 fp1 cs1 _ Hv1)).
  set (d1 := overwrite (af_data a) (af_pos a) (ztake n buff)) in *.
  assert (len (ztake n buff) = n) as Ln by (apply len_ztake; lia).
  assert (len d1 = Z.max (len (af_data a)) (af_pos a + n)) as Ld by (subst d1; rewrite len_overwrite, Ln by lia; done).
  apply wp_bind. eapply wp_mono; [apply (f_lseek_file G Hrdy w1 p v1 fp1 cs1 _ _ Hh1 Hha1 (vs_sound _ _ _ _ _ _ _ _ Hv1) Hf1)|].
  { unfold U32 in *. lia. }
  intros [r2 fp2] w2 (Hr2 & ext & pos & Hle & v2 & cs2 & Hh2 & Hv2 & Hpos). cbn [fst snd af_data af_wr af_rd] in *.
  pose proof (vs_file _ _ _ _ _ _ _ _ Hv2) as Hf2.
  assert (handle p v2 fp2) as Hha2 by (by apply (handle_next G p v1 fp1 cs1 v2 fp2 cs2 _ Hv2)).
  assert (pos = af_pos a) as -> by (destruct Hpos as [->|[_ ?]]; lia).
  assert (ext = []) as ->.
  { rewrite len_app in Hle. destruct ext; [done|]. unfold len in Hle at 2. cbn in Hle. lia. }
  rewrite app_nil_r in Hv2, Hf2.
  apply wp_bind. eapply wp_mono; [apply (f_read_file G Hrdy w2 p v2 fp2 cs2 _ buff' n Hh2 Hha2 (vs_sound _ _ _ _ _ _ _ _ Hv2) Hf2); lia|].
  intros [[[r3 fp3] b] m] w3 H3. cbn [af_rd af_data af_pos] in H3. rewrite Hr in H3. destruct H3 as (-> & Hm & Hb3 & _).
  apply wp_ret. split; [done|]. split; [done|]. split; [done|]. assert (m = n) as -> by lia. split; [done|].
  apply at_ext. intros i. rewrite Hb3, !at_ztake. destruct (Z.ltb_spec i n) as [Hin|]; [|done].
  destruct (Z.lt_ge_cases i 0); [by rewrite !at_neg by lia|].
  rewrite at_app, len_ztake by (rewrite len_zdrop; lia). rewrite (proj2 (Z.ltb_lt i n) Hin), at_ztake, (proj2 (Z.ltb_lt i n) Hin).
  rewrite at_zdrop by lia. subst d1. rewrite at_overwrite, Ln by lia.
  rewrite (proj2 (Z.leb_le _ _)), (proj2 (Z.ltb_lt _ _)) by lia. cbn [andb].
  replace (af_pos a + i - af_pos a) with i by lia. rewrite at_ztake. by rewrite (proj2 (Z.ltb_lt i n) Hin).
Qed.

End files.

(** ** Applied to the sample volume *)

Lemma sample_handle : handle 1 Sample.vol Sample.fil.
Proof. done. Qed.

(** A write to one file, then a read from the other: it still shows its
    zeros. *)
Lemma open_files_refine_witness :
  wp (run_ops [(1%nat, OpWrite [x41; x42]); (0%nat, OpRead [x41; x42; x43])] [Sample.fil; Sample.fil2])
    (fun r w' => exists n, r.2 = [Put FR_OK n; Got FR_OK [x00; x00; x00]]) Sample.w.
Proof.
  eapply wp_mono; [apply (open_files_refine Sample.good (Sample.ready true) _ Sample.w 1 Sample.vol _ [Sample.file; Sample.file2])|].
  - apply Sample.w_hosts.
  - apply Sample.vol_sound.
  - apply Sample.both_files.
  - intros i op Hin. repeat (apply elem_of_cons in Hin as [[= -> ->]|Hin]; [split; [cbn; lia|done]|]). by apply elem_of_nil in Hin.
  - intros [fils outs] w' (v' & A' & _ & _ & _ & Hst). cbn [fst snd] in *.
    inversion_clear Hst as [|? ? ? ? ? ? ? ? ? H1 H2 H3]. injection H1 as <-.
    inversion_clear H3 as [|? ? ? ? ? ? ? ? ? H4 H5 H6]. injection H4 as <-. inversion H6; subst.
    inversion H2; subst; [|done]. inversion H5; subst; [|done]. exists n. do 3 f_equal; vm_compute; reflexivity.
Defined.

Lemma f_read_contents_witness :
  wp (f_read Sample.fil Sample.buff 3) (fun r w' =>
    r.1.1.1 = FR_OK /\ r.2 = 3 /\ r.1.2 = [x00; x00; x00] ++ zdrop 3 Sample.buff) Sample.w.
Proof.
  eapply wp_mono; [apply (f_read_contents Sample.good (Sample.ready true) Sample.w 1 Sample.vol Sample.fil [2; 3; 5] Sample.file
    Sample.w_hosts sample_handle Sample.vol_sound Sample.fil_is Sample.buff 3)|].
  - by rewrite Sample.buff_len.
  - done.
  - intros [[[res fp'] b] n] w' (H1 & H2 & H3 & _). cbn [fst snd]. split; [done|].
    assert (n = 3) as -> by (rewrite H2; vm_compute; reflexivity). split; [done|]. rewrite H3. f_equal.
Defined.

Lemma f_write_contents_witness :
  wp (f_write Sample.fil Sample.buff 700) (fun r w' => r.1.1 = FR_OK /\ 0 <= r.2 <= 700) Sample.w.
Proof.
  eapply wp_mono; [apply (f_write_contents Sample.good (Sample.ready true) Sample.w 1 Sample.vol Sample.fil [2; 3; 5] Sample.file
    Sample.w_hosts sample_handle Sample.vol_sound Sample.fil_is Sample.buff 700)|].
  - by rewrite Sample.buff_len.
  - done.
  - intros [[res fp'] n] w' (H1 & H2 & _). cbn [fst snd]. split; [done|].
    change (Z.min 700 (0xFFFFFFFF - af_pos Sample.file)) with 700 in H2. exact H2.
Defined.

Lemma f_lseek_position_witness :
  wp (f_lseek Sample.fil 1000) (fun r w' => r.1 = FR_OK /\ fp_fptr r.2 = 1000) Sample.w.
Proof.
  eapply wp_mono; [apply (f_lseek_position Sample.good (Sample.ready true) Sample.w 1 Sample.vol Sample.fil [2; 3; 5] Sample.file
    Sample.w_hosts sample_handle Sample.vol_sound Sample.fil_is 1000)|].
  - done.
  - intros [res fp'] w' (H1 & ext & pos & _ & v' & cs' & _ & Hv & Hp). split; [done|].
    rewrite (fi_pos _ _ _ _ (vs_file _ _ _ _ _ _ _ _ Hv)). cbn [af_pos].
    change (len (af_data Sample.file)) with 1200 in Hp. cbn [af_wr Sample.file] in Hp. destruct Hp as [->|[_ ?]]; [done|lia].
Defined.

Lemma f_truncate_cuts_witness :
  wp (f_truncate Sample.fil) (fun r w' => r.1 = FR_OK /\ fp_objsize r.2 = 0) Sample.w.
Proof.
  eapply wp_mono; [apply (f_truncate_cuts Sample.good (Sample.ready true) Sample.w 1 Sample.vol Sample.fil [2; 3; 5] Sample.file
    Sample.w_hosts sample_handle Sample.vol_sound Sample.fil_is)|].
  intros [res fp'] w' (H1 & v' & cs' & _ & Hv & _). split; [done|].
  by rewrite (fi_len _ _ _ _ (vs_file _ _ _ _ _ _ _ _ Hv)).
Defined.

Lemma write_read_back_witness :
  wp (do (r1, fp1, n) <- f_write Sample.fil Sample.buff 700 ;;
      do (r2, fp2) <- f_lseek fp1 (fp_fptr fp1 - n) ;;
      do (r3, fp3, b, m) <- f_read fp2 Sample.buff n ;;
      ret (r1, r2, r3, n, m, b))
    (fun x w' => let '(r1, r2, r3, n, m, b) := x in m = n /\ ztake n b = ztake n Sample.buff) Sample.w.
Proof.
  eapply wp_mono; [apply (write_read_back Sample.good (Sample.ready true) Sample.w 1 Sample.vol Sample.fil [2; 3; 5] Sample.file
    Sample.w_hosts sample_handle Sample.vol_sound Sample.fil_is Sample.buff Sample.buff 700)|].
  - done.
  - done.
  - by rewrite Sample.buff_len.
  - done.
  - done.
  - by intros [[[[[r1 r2] r3] n] m] b] w' (_ & _ & _ & H).
Defined.
