(* ===== verification/Names.v ===== *)
(** * Names, directories and saved files, as theorems

    [dir_find], [dir_register] and [follow_path] against the abstract
    directories of [Listing], [Entries] and [Tree], and the life of a file
    from one session to the next: written, closed, found again by its path
    and read. *)

From stdpp Require Import base numbers list option gmap.
From Stdlib Require Import ZArith Lia.
From Stdlib Require Import Strings.Byte.
From S2P Require Import Prelude Types Bytes Diskio Window Fat Chain Live Dir Path Mount File Content Writing Seeking Refine Listing Entries Tree Persist Change Sample.

Section names.
Context {D : Type} `{!DiskIO D} `{!DiskIOLaws D} (G : Z -> Prop).
Implicit Types (v : vol D) (dp : DIR).

(** ** Moving facts along a geometry *)

Lemma tree_apart_geom v v' T : geom (vfs v') = geom (vfs v) -> tree_apart (vfs v) T -> tree_apart (vfs v') T.
Proof using Type. intros Hg H sc1 sp1 es1 sc2 sp2 es2 o1 o2 s. rewrite !(dsect_geom _ _ _ _ Hg). apply H. Qed.

Lemma fsi_apart_geom v v' : geom (vfs v') = geom (vfs v) -> fsi_apart G (vfs v) -> fsi_apart G (vfs v').
Proof using Type. intros (E1&_&_&_&_&_&_&_&E2&E3&_)%geom_fields H. unfold fsi_apart. by rewrite E1, E2, E3. Qed.

(** ** Directories *)

Section dirs.
Context (v : vol D) (sc : Z) (sp : dspace) (es : list (list byte)).
Context (Hs : sound G v) (Hsp : dir_space G v sc sp) (Hes : dir_holds v sp es).

(** C21: [dir_find] finds the first entry of the name.  In a directory that
    holds the entries [es] it ends on the first one before the end mark that
    has the 11 bytes of the name and is no volume label, with its attribute,
    or returns FR_NO_FILE when there is none; the volume shows what it
    showed. *)
Theorem dir_find_first dp fn :
  obj_sclust (dp_obj dp) = sc -> slice (dp_fn dp) 0 11 = Some fn ->
  wp (dir_find dp) (fun r v' => same_dir dp r.2 /\ calm G v v' /\
    match lookup_name fn es with
    | Some k => r.1 = FR_OK /\ dir_at (vfs v) sp (Z.of_nat k) r.2 /\
                exists e, es !! k = Some e /\ obj_attr (dp_obj r.2) = ent_attr e
    | None => r.1 = FR_NO_FILE
    end) v.
Proof using Hs Hsp Hes.
  intros Hsc Hfn. eapply wp_mono; [by apply (dir_find_spec G v sc sp Hs Hsp es Hes dp fn); [apply calm_start|..]|].
  intros r v' [Hsd H]. split; [done|]. destruct (lookup_name fn es) as [k|]; [|by destruct H].
  destruct H as [-> Hst]. split; [by eapply stands_calm|]. split; [done|]. destruct Hst as [Hat (e & He & _ & Ha)].
  split; [done|]. by exists e.
Qed.

(** C20: a name that was registered is found.  [dir_register] of a name that
    is not in the directory takes the first free entry, lengthening the
    directory by a cluster when it is full, and [dir_find] then stands on this
    entry; it is refused only when no entry is free and the directory cannot
    grow: it is the root area, has the maximal size or the volume is full. *)
Theorem register_then_find dp fn :
  obj_sclust (dp_obj dp) = sc -> slice (dp_fn dp) 0 11 = Some fn -> ent_byte fn DIR_Name <> 0 -> lookup_name fn es = None ->
  wp (do (r1, dp1) <- dir_register dp ;;
      if r1 =r FR_OK then do (r2, dp2) <- dir_find dp1 ;; ret (r1, r2, dp1, dp2) else ret (r1, r1, dp1, dp1))
    (fun x v' => let '(r1, r2, dp1, dp2) := x in
      (r1 = FR_DENIED /\ no_room G v sp es v') \/
      (r1 = FR_OK /\ r2 = FR_OK /\ dp_sect dp2 = dp_sect dp1 /\ dp_dir dp2 = dp_dir dp1 /\ obj_attr (dp_obj dp2) = 0)) v.
Proof using Hs Hsp Hes.
  intros Hsc Hfn Hn0 Hno. apply wp_bind.
  eapply wp_mono; [by apply (dir_register_spec G v sc sp Hs Hsp es Hes dp fn); [apply calm_start|..]|].
  intros [r1 dp1] v1 [Hsd H]. cbn [fst snd] in *. destruct H as [[-> H]|(-> & v2 & sp1 & es1 & k & Hroom & Hff & Hat & Hrw)].
  { change (FR_DENIED =r FR_OK) with false. cbv iota. apply wp_ret. by left. }
  change (FR_OK =r FR_OK) with true. cbv iota. apply wp_bind.
  destruct (room_ok G v sc sp Hs Hsp es Hes v2 sp1 es1 Hroom) as (Hs2 & Hsp2 & Hes2 & Hg2).
  assert (len fn = 11) as Hl by (by apply slice_len in Hfn).
  assert (lookup_name fn es1 = None) as Hno1 by (destruct Hroom; [done|by apply lookup_name_zeros]).
  destruct (first_free_some _ _ Hff) as (e0 & He0 & _ & Hbef).
  assert (lookup_name fn (<[k := fresh fn]> es1) = Some k) as Hlk.
  { apply lookup_registered; try done. by eapply lookup_lt_Some. }
  destruct Hsd as (Ef & _ & _ & Ec). pose proof (rw_sound _ _ _ _ _ _ _ _ _ _ Hrw) as Hs1. pose proof (rw_geom _ _ _ _ _ _ _ _ _ _ Hrw) as Hg1.
  eapply wp_mono; [apply (dir_find_spec G v1 sc sp1 Hs1 (rw_space _ _ _ _ _ _ _ _ _ _ Hrw) _ (rw_holds _ _ _ _ _ _ _ _ _ _ Hrw) dp1 fn)|].
  - by apply calm_start.
  - congruence.
  - by rewrite Ef.
  - intros [r2 dp2] v3 [_ Hf]. cbn [fst snd] in *. rewrite Hlk in Hf. destruct Hf as [-> [Hat2 (e & He & _ & Ha)]]. apply wp_ret. right.
    rewrite list_lookup_insert_eq in He by (by eapply lookup_lt_Some). injection He as <-.
    split; [done|]. split; [done|]. split.
    + pose proof (da_sect _ _ _ _ Hat2) as E2. rewrite (dsect_geom _ _ _ _ Hg1), (da_sect _ _ _ _ Hat) in E2. by injection E2.
    + split; [by rewrite (da_dir _ _ _ _ Hat2), (da_dir _ _ _ _ Hat)|]. rewrite Ha. unfold ent_attr. by rewrite ent_byte_fresh.
Qed.

End dirs.

(** ** Paths *)

(** C19: [follow_path] goes where the names of the path lead.  In a tree of
    directories, the path, split at its separators into 8.3 names, is followed
    name by name through entries that are directories; the result is the entry
    of the last name, FR_NO_FILE in the directory where the last name is
    missing (with the name in the object, ready to be created), or FR_NO_PATH
    when a name before it is missing or is a file. *)
Theorem follow_path_walks {Pf : Platform} v T dp p path j names x :
  sound G v -> tree_in G v T -> len (dp_fn dp) = 12 -> cstr p path -> skips p path j -> path_names p j names ->
  walk (fs_type (vfs v)) T 0 names = Some x ->
  wp (follow_path dp p path) (reached G v T dp x) v.
Proof using All. intros Hs HT Hl Hc Hsk Hn Hw. by apply (follow_path_spec G v T Hs HT dp p path j names); [apply calm_start|..]. Qed.

(** ** Files from session to session *)

Section saving.
Context {Pf : Platform} (Hun : len (dp_fn uninit_dir) = 12) (Hrdy : drive_ready (D := D) true).
Context (w : world D) (p : Z) (v : vol D) (fp : FIL) (cs : list Z) (a : afile).
Context (Hw : hosts w p v) (Hreg : at_ (FatFs w) 0 = Some (Some p)) (Hha : handle p v fp) (Hs : sound G v) (Hf : file_is v fp cs a).
Context (T : tree) (HT : tree_in G v T) (Hta : tree_apart (vfs v) T) (Hfsi : fsi_apart G (vfs v)).
Context (Hoff : forall sc sp es, T !! sc = Some (sp, es) -> dir_off sp cs).
Context (pth : list byte) (rp sc : Z) (sp : dspace) (es : list (list byte)) (k : nat) (e : list byte).
Context (Hld : forall s : world D, get_ldnumber (Some pth) s = Done ((0, rp), s)).
Context (Hpath : leads v T pth rp (Found sc k)) (HTs : T !! sc = Some (sp, es)) (He : es !! k = Some e).
Context (Hnd : nz (Z.land (ent_attr e) AM_DIR) = false) (Hep : ent_pos v sp k (fp_dir_sect fp) (fp_dir_ptr fp)).

(** Closing, opening by the path and reading. *)
Definition reload (fp fp0 : FIL) (buff : list byte) (btr : Z) : M (world D) (FRESULT * FRESULT * FRESULT * Z * list byte) :=
  do (r2, fp2) <- f_close fp ;;
  do (r3, fp3) <- f_open fp0 (Some pth) FA_READ ;;
  do (r4, fp4, b, m) <- f_read fp3 buff btr ;;
  ret (r2, r3, r4, m, b).

(** A file object that has been changed is closed; its path then gives its
    bytes. *)
Lemma reload_spec w1 v1 fp1 cs1 a1 fp0 buff btr :
  FatFs w1 = FatFs w -> hosts w1 p v1 -> vstep G v fp cs v1 fp1 cs1 a1 -> nz (Z.land (fp_flag fp1) FA_MODIFIED) = true ->
  0 <= btr <= len buff -> btr < U32 ->
  wp (reload fp1 fp0 buff btr) (fun x w' => let '(r2, r3, r4, m, b) := x in
    r2 = FR_OK /\ r3 = FR_OK /\ r4 = FR_OK /\ m = Z.min btr (len (af_data a1)) /\ b = ztake m (af_data a1) ++ zdrop m buff) w1.
Proof using Hun Hrdy Hreg Hha Hs Hf HT Hta Hfsi Hoff Hld Hpath HTs He Hnd Hep.
  intros Ht1 Hw1 Hv1 Hmod Hb1 Hb2. pose proof (vs_sound _ _ _ _ _ _ _ _ Hv1) as Hs1. pose proof (vs_file _ _ _ _ _ _ _ _ Hv1) as Hf1.
  pose proof (vs_geom _ _ _ _ _ _ _ _ Hv1) as Hg1. destruct (vs_dir _ _ _ _ _ _ _ _ Hv1) as [Ed1 Ed2].
  destruct (tree_framed G v fp cs v1 fp1 cs1 a1 T Hs Hv1 HT Hoff) as [HT1 Hoff1].
  assert (ent_pos v1 sp k (fp_dir_sect fp1) (fp_dir_ptr fp1)) as Hep1 by (rewrite Ed1, Ed2; by apply (ent_pos_geom v)).
  unfold reload. apply wp_bind. eapply wp_mono; [apply wp_tk; [apply tk_f_close|]|].
  - apply (f_close_file G Hrdy w1 p v1 T sc sp es k e fp1 cs1 a1); try done.
    + by apply (handle_next G p v fp cs v1 fp1 cs1 a1).
    + by apply (tree_apart_geom v).
    + by apply (fsi_apart_geom v).
    + eapply (dsect_off G v1 sc sp cs1); [done|by apply (HT1 sc sp es)|by eapply Hoff1| | |exact (ep_sect _ _ _ _ _ Hep1)].
      * intros c. by apply (file_clusters_valid _ _ _ _ _ Hf1).
      * unfold_consts. lia.
  - intros [r2 fp2] w2 [(Hr2 & v2 & T2 & e2 & Hw2 & Hrc) Ht2]. cbn [fst snd] in *. subst r2.
    pose proof (rc_geom _ _ _ _ _ _ _ _ _ _ _ _ _ _ Hrc) as Hg2. pose proof (rc_tree _ _ _ _ _ _ _ _ _ _ _ _ _ _ Hrc) as (HT2 & HTs2 & He2).
    assert (fs_type (vfs v1) = fs_type (vfs v) /\ fs_type (vfs v2) = fs_type (vfs v)) as [Ey1 Ey2].
    { apply geom_fields in Hg1 as [-> _]. apply geom_fields in Hg2 as [-> _]. by apply (vs_geom _ _ _ _ _ _ _ _) in Hv1 as [-> _]%geom_fields. }
    apply wp_bind. eapply wp_mono; [apply (f_open_file G Hun Hrdy w2 p v2 T2 pth rp sc sp (<[k := e2]> es) k e2 cs1 (af_data a1) fp0)|].
    + done.
    + by rewrite Ht2, Ht1.
    + apply Hrc.
    + done.
    + done.
    + destruct Hpath as (Hc & j & names & Hsk & Hn & Hwk). split; [done|]. exists j, names. split; [done|]. split; [done|].
      rewrite Ey2, <- Ey1. apply (rc_walk _ _ _ _ _ _ _ _ _ _ _ _ _ _ Hrc). by rewrite Ey1.
    + done.
    + done.
    + unfold ent_attr. rewrite (rc_attr _ _ _ _ _ _ _ _ _ _ _ _ _ _ Hrc), !Z.land_lor_distr_l.
      change (Z.land (Z.land AM_ARC AM_MASK) AM_DIR) with 0. by rewrite Z.lor_0_r.
    + apply Hrc.
    + intros [r3 fp3] w3 (Hr3 & v3 & Hw3 & Hs3 & Hha3 & Hf3). cbn [fst snd] in *. apply wp_bind.
      eapply wp_mono; [by apply (f_read_file G Hrdy w3 p v3 fp3 cs1 _ buff btr Hw3 Hha3 Hs3 Hf3)|].
      intros [[[r4 fp4] b] m] w4 (Hr4 & Hm & Hb & _). cbn [af_data af_pos] in *. apply wp_ret. rewrite Z.sub_0_r in Hm. done.
Qed.

(** C2: what was written is there again after closing.  A file that is open
    for writing is written to and closed; [f_open] with its path and FA_READ
    then gives a file object from which [f_read] delivers the bytes of the
    file as the write left them, from the start and up to its end.  The path
    may lead through any number of directories, which lie apart from each
    other and from the file; the write is short only at 4 GiB or on a full
    volume. *)
Theorem save_and_load buff btw fp0 buff' btr :
  af_wr a = true -> 0 <= btw <= len buff -> btw < U32 -> 0 <= btr <= len buff' -> btr < U32 ->
  wp (f_write fp buff btw) (fun r w1 => let '(r1, fp1, n) := r in
    let data := overwrite (af_data a) (af_pos a) (ztake n buff) in
    r1 = FR_OK /\ (n = Z.min btw (0xFFFFFFFF - af_pos a) \/ exists v1, hosts w1 p v1 /\ full (vfs v) v1) /\
    wp (reload fp1 fp0 buff' btr) (fun x w' => let '(r2, r3, r4, m, b) := x in
      r2 = FR_OK /\ r3 = FR_OK /\ r4 = FR_OK /\ m = Z.min btr (len data) /\ b = ztake m data ++ zdrop m buff') w1) w.
Proof using All.
  intros Hwr Hb1 Hb2 Hb3 Hb4.
  eapply wp_mono; [apply wp_tk; [apply tk_f_write|by apply (f_write_file G Hrdy w p v fp cs a)]|].
  intros [[r1 fp1] n] w1 [H Ht1]. rewrite Hwr in H. destruct H as (-> & Hn & Hmod & v1 & cs1 & Hw1 & Hv1 & Hfull).
  split; [done|]. split; [destruct Hfull as [?|?]; [by left|right; by exists v1]|]. by apply (reload_spec w1 v1 fp1 cs1 _ fp0 buff' btr Ht1 Hw1 Hv1).
Qed.

End saving.
End names.

(** ** Applied to a volume with a file *)

(** The sample volume with an entry for the file "a.t" in its root directory,
    and with text in its first cluster. *)
Module Shelf.

Definition name : list byte := [x41; x20; x20; x20; x20; x20; x20; x20; x54; x20; x20].
Definition entry : list byte :=
  name ++ [x20] ++ replicate 14 x00 ++ [x02; x00] ++ [xb0; x04; x00; x00].
Definition entries : list (list byte) := entry :: replicate 511 zero_entry.
Definition text : list byte := [x68; x65; x6c; x6c; x6f] ++ replicate 1195 x00.

Definition ram : Ram.ram :=
  Ram.mkRam (replicate 1024 x00 ++ entry ++ replicate (Z.to_nat 16352) x00 ++ text ++ replicate (Z.to_nat 46928) x00).
Definition vol : vol Ram.ram := mkVol Sample.fs ram.
Definition w : world Ram.ram := mkWorld {[ 1 := Sample.fs ]} [Some 1] 1 ram.
Definition file : afile := mkAfile text 0 true true.
Definition dirs : tree := {[ 0 := (Root, entries) ]}.

Lemma shelf_sound : sound Sample.good vol.
Proof. apply Sample.disk_sound. by vm_compute. Qed.

Lemma shelf_hosts : hosts w 1 vol.
Proof. by split. Qed.

Lemma shelf_handle : handle 1 vol Sample.fil.
Proof. done. Qed.

(** The root directory holds the entry. *)
Lemma root_space : dir_space Sample.good vol 0 Root.
Proof.
  split; [done|]. split; [done|]. split; [constructor; by vm_compute|].
  intros s [H1 H2]. cbn in H1, H2. unfold Sample.good, Ram.DISK_SECTORS. change (512 / 16) with 32 in H2. lia.
Qed.

Lemma root_holds : dir_holds vol Root entries.
Proof.
  split; [by vm_compute|]. intros k Hk. change (len entries) with 512 in Hk.
  assert (forallb (fun k => bool_decide (dentry vol Root k = at_ entries k)) (seqZ 0 512) = true) as H by (vm_compute; reflexivity).
  rewrite forallb_forall in H. specialize (H k). rewrite bool_decide_eq_true in H. apply H, list_elem_of_In, elem_of_seqZ. lia.
Qed.

Lemma dirs_in : tree_in Sample.good vol dirs.
Proof. intros sc sp es. unfold dirs. rewrite lookup_singleton_Some. intros [<- [= <- <-]]. split; [apply root_space|apply root_holds]. Qed.

(** The file holds the text. *)
Lemma shelf_file : file_is vol Sample.fil [2; 3; 5] file.
Proof.
  split; [apply Sample.file_chain|by constructor|done|done|done| |done|done].
  intros i Hi. change (len (af_data file)) with 1200 in Hi.
  assert (forallb (fun i => bool_decide (fbyte vol [2; 3; 5] i = at_ text i)) (seqZ 0 1200) = true) as H by (vm_compute; reflexivity).
  rewrite forallb_forall in H. specialize (H i). rewrite bool_decide_eq_true in H. apply H, list_elem_of_In, elem_of_seqZ. lia.
Qed.

(** The path "a.t" leads to the entry. *)
Lemma names : path_names (Pf := Sample.platform) Sample.path 0 [name].
Proof.
  change [name] with [fix_ddem name]. apply (pn_last (Pf := Sample.platform) Sample.path 0 name 0 4); [by vm_compute| |done].
  exists x00. split; [by vm_compute|]. split; [done|]. by left.
Qed.

Lemma no_separator : skips Sample.path 0 0.
Proof. split; [done|]. split; [intros k Hk; lia|]. by exists x61. Qed.

Lemma path_walk : walk FS_FAT12 dirs 0 [name] = Some (Found 0 0).
Proof. by vm_compute. Qed.

Lemma path_leads : leads (Pf := Sample.platform) vol dirs Sample.path 0 (Found 0 0).
Proof. split; [apply Sample.path_ok|]. exists 0, [name]. split; [apply no_separator|]. split; [apply names|apply path_walk]. Qed.

Lemma dirs_apart : tree_apart Sample.fs dirs.
Proof. intros sc1 sp1 es1 sc2 sp2 es2 o1 o2 s. unfold dirs. rewrite !lookup_singleton_Some. by intros [<- _] [<- _]. Qed.

Lemma dirs_off sc sp es : dirs !! sc = Some (sp, es) -> dir_off sp [2; 3; 5].
Proof. unfold dirs. rewrite lookup_singleton_Some. by intros [_ [= <- _]]. Qed.

(** A directory object of the root, for a new name and for the old one. *)
Definition dir (fn : list byte) : DIR := mkDIR (mkFFOBJID (Some 1) 1 0 0 0 0) 0 0 0 0 (fn ++ [x00]).
Definition other : list byte := [x42; x20; x20; x20; x20; x20; x20; x20; x20; x20; x20].

End Shelf.

(** The file is found, another name is not. *)
Lemma dir_find_first_witness :
  wp (dir_find (Shelf.dir Shelf.name)) (fun r _ => r.1 = FR_OK /\ dp_sect r.2 = 2 /\ obj_attr (dp_obj r.2) = AM_ARC) Shelf.vol /\
  wp (dir_find (Shelf.dir Shelf.other)) (fun r _ => r.1 = FR_NO_FILE) Shelf.vol.
Proof.
  split.
  - eapply wp_mono; [apply (dir_find_first Sample.good Shelf.vol 0 Root Shelf.entries Shelf.shelf_sound Shelf.root_space Shelf.root_holds
      (Shelf.dir Shelf.name) Shelf.name); by vm_compute|].
    intros r v' (_ & _ & H). change (lookup_name Shelf.name Shelf.entries) with (Some 0%nat) in H.
    destruct H as (H1 & H2 & e & [= <-] & H3). split; [done|]. split; [by injection (da_sect _ _ _ _ H2)|done].
  - eapply wp_mono; [apply (dir_find_first Sample.good Shelf.vol 0 Root Shelf.entries Shelf.shelf_sound Shelf.root_space Shelf.root_holds
      (Shelf.dir Shelf.other) Shelf.other); by vm_compute|].
    intros r v' (_ & _ & H). change (lookup_name Shelf.other Shelf.entries) with (@None nat) in H. done.
Defined.

Lemma register_then_find_witness :
  wp (do (r1, dp1) <- dir_register (Shelf.dir Shelf.other) ;;
      if r1 =r FR_OK then do (r2, dp2) <- dir_find dp1 ;; ret (r1, r2, dp1, dp2) else ret (r1, r1, dp1, dp1))
    (fun x _ => x.1.1.1 = FR_OK /\ x.1.1.2 = FR_OK) Shelf.vol.
Proof.
  eapply wp_mono; [apply (register_then_find Sample.good Shelf.vol 0 Root Shelf.entries Shelf.shelf_sound Shelf.root_space Shelf.root_holds
    (Shelf.dir Shelf.other) Shelf.other); by vm_compute|].
  intros [[[r1 r2] dp1] dp2] v' [[_ [H _]]|(H1 & H2 & _)]; [|done]. by vm_compute in H.
Defined.

Lemma follow_path_walks_witness :
  wp (follow_path (Pf := Sample.platform) (Shelf.dir Shelf.other) Sample.path 0)
    (reached Sample.good Shelf.vol Shelf.dirs (Shelf.dir Shelf.other) (Found 0 0)) Shelf.vol.
Proof.
  apply (follow_path_walks (Pf := Sample.platform) Sample.good Shelf.vol Shelf.dirs (Shelf.dir Shelf.other) Sample.path 0 0 [Shelf.name]).
  - apply Shelf.shelf_sound.
  - apply Shelf.dirs_in.
  - done.
  - apply Sample.path_ok.
  - apply Shelf.no_separator.
  - apply Shelf.names.
  - apply Shelf.path_walk.
Defined.

(** A byte is written over the text; "aello" is read back. *)
Lemma save_and_load_witness :
  wp (f_write Sample.fil [x61] 1) (fun r w1 => r.1.1 = FR_OK /\
    wp (reload (Pf := Sample.platform) Sample.path r.1.2 Sample.fil2 (replicate 5 x00) 5) (fun x w' => x.1.1.2 = FR_OK /\
      (r.2 = 1 -> x.2 = [x61; x65; x6c; x6c; x6f])) w1) Shelf.w.
Proof.
  eapply wp_mono; [apply (save_and_load (Pf := Sample.platform) Sample.good eq_refl (Sample.ready true) Shelf.w 1 Shelf.vol Sample.fil
    [2; 3; 5] Shelf.file Shelf.shelf_hosts eq_refl Shelf.shelf_handle Shelf.shelf_sound Shelf.shelf_file Shelf.dirs Shelf.dirs_in) with
    (buff := [x61]) (btw := 1) (fp0 := Sample.fil2) (buff' := replicate 5 x00) (btr := 5) (pth := Sample.path) (rp := 0)
    (sc := 0) (sp := Root) (es := Shelf.entries) (k := 0%nat) (e := Shelf.entry)|].
  all: try done.
  - apply Shelf.dirs_apart.
  - apply Shelf.dirs_off.
  - apply Shelf.path_leads.
  - intros [[r1 fp1] n] w1 (-> & _ & H). split; [done|]. eapply wp_mono; [exact H|].
    intros [[[[r2 r3] r4] m] b] w' (_ & _ & -> & -> & ->). split; [done|]. cbn [snd fst]. intros ->. by vm_compute.
Defined.
