(* ===== verification/Dirs.v ===== *)
(** * Directories and free space, as theorems

    Files made, listed and removed: [f_open] of a new file, [f_opendir] and
    [f_readdir], [f_unlink] and [f_getfree] against the tree of directories
    and the table of clusters. *)

From stdpp Require Import base numbers list option gmap.
From Stdlib Require Import ZArith Lia.
From Stdlib Require Import Strings.Byte.
From S2P Require Import Prelude Types Bytes Diskio Window Fat Chain Live Dir Path Mount File DirApi Content Writing Seeking Refine Listing Entries Tree Persist Change Unlink Readdir Text Space Create Mkdir Rename Move Overwrite Append Sample Names.

(** Opening a path for reading, and reading. *)
Definition load_path {Pf : Platform} {D : Type} `{!DiskIO D} (pth : list byte) (fp0 : FIL) (buff : list byte) (btr : Z) :
    M (world D) (FRESULT * FRESULT * Z * list byte) :=
  do (r3, fp) <- f_open fp0 (Some pth) FA_READ ;;
  do (r4, _, b, c) <- f_read fp buff btr ;;
  ret (r3, r4, c, b).

(** The bytes of a file come from the disk. *)
Definition loads (data buff : list byte) (btr : Z) (y : FRESULT * FRESULT * Z * list byte) : Prop :=
  let '(r3, r4, c, b) := y in r3 = FR_OK /\ r4 = FR_OK /\ c = Z.min btr (len data) /\ b = ztake c data ++ zdrop c buff.

Lemma load_path_spec {Pf : Platform} {D : Type} `{!DiskIO D} `{!DiskIOLaws D} G w p (v : vol D) T pth rp sc sp es k e cs data fp0 buff btr :
  len (dp_fn uninit_dir) = 12 -> drive_ready (D := D) true -> hosts w p v -> at_ (FatFs w) 0 = Some (Some p) -> sound G v -> tree_in G v T ->
  (forall s : world D, get_ldnumber (Some pth) s = Done ((0, rp), s)) -> leads v T pth rp (Found sc k) ->
  T !! sc = Some (sp, es) -> es !! k = Some e -> is_dir e = false -> entry_file v e cs data -> 0 <= btr <= len buff -> btr < U32 ->
  wp (load_path pth fp0 buff btr) (fun y _ => loads data buff btr y) w.
Proof.
  intros Hun Hrdy Hw Hreg Hs HT Hld Hle HTs He Hnd Hef Hb1 Hb2. unfold load_path. apply wp_bind.
  eapply wp_mono; [by apply (f_open_file G Hun Hrdy w p v T pth rp sc sp es k e cs data fp0)|].
  intros [r3 fp] w2 (Hr3 & v2 & Hw2 & Hs2 & Hha & Hfi). cbn [fst snd] in *. subst r3. apply wp_bind.
  eapply wp_mono; [by apply (f_read_file G Hrdy w2 p v2 fp cs _ buff btr Hw2 Hha Hs2 Hfi)|]. intros [[[r4 fp'] b] c] w3 (-> & Hc & Hb & _). apply wp_ret.
  cbn [af_data af_pos] in *. rewrite Z.sub_0_r in Hc. done.
Qed.

(** Writing to a file that stands at the end of its bytes, closing it, opening
    its path and reading delivers these bytes and what was written; the write is
    short only at 4 GiB and on a full volume. *)
Definition saved {Pf : Platform} {D : Type} `{!DiskIO D} `{!DiskIOLaws D} (fs : FATFS) (p : Z) (pth data buff : list byte) (btw : Z) (fp1 : FIL) (buff' : list byte) (btr : Z)
    (r : FRESULT * FIL * Z) (w1 : world D) : Prop :=
  let '(r1, fp, n) := r in
  r1 = FR_OK /\ (n = Z.min btw (0xFFFFFFFF - len data) \/ exists v1, hosts w1 p v1 /\ full fs v1) /\
  wp (reload pth fp fp1 buff' btr) (fun x _ => let '(r2, r3, r4, m, b) := x in
    r2 = FR_OK /\ r3 = FR_OK /\ r4 = FR_OK /\ m = Z.min btr (len data + n) /\ b = ztake m (data ++ ztake n buff) ++ zdrop m buff') w1.

Lemma write_saved {Pf : Platform} {D : Type} `{!DiskIO D} `{!DiskIOLaws D} G fs w p (v : vol D) T fp rd pth rp sc sp es k e cs data buff btw fp1 buff' btr :
  len (dp_fn uninit_dir) = 12 -> drive_ready (D := D) true -> hosts w p v -> at_ (FatFs w) 0 = Some (Some p) -> sound G v -> tree_in G v T ->
  tree_apart (vfs v) T -> fsi_apart G (vfs v) -> geom (vfs v) = geom fs -> handle p v fp -> file_is v fp cs (mkAfile data (len data) rd true) ->
  (forall s : world D, get_ldnumber (Some pth) s = Done ((0, rp), s)) -> leads v T pth rp (Found sc k) ->
  T !! sc = Some (sp, es) -> es !! k = Some e -> is_dir e = false -> ent_pos v sp k (fp_dir_sect fp) (fp_dir_ptr fp) ->
  (forall sc' sp' es', T !! sc' = Some (sp', es') -> dir_off sp' cs) ->
  0 <= btw <= len buff -> btw < U32 -> 0 <= btr <= len buff' -> btr < U32 ->
  wp (f_write fp buff btw) (saved fs p pth data buff btw fp1 buff' btr) w.
Proof.
  intros Hun Hrdy Hw Hreg Hs HT Hta Hfsi Hg Hha Hf Hld Hle HTs He Hnd Hep Hoff Hb1 Hb2 Hb3 Hb4. set (a := mkAfile _ _ _ _) in Hf.
  eapply wp_mono; [apply wp_tk; [apply tk_f_write|by apply (f_write_file G Hrdy w p v fp cs a buff btw)]|].
  intros [[r1 fp'] n] w1 [H Ht1]. change (af_wr a) with true in H. destruct H as (-> & Hn & Hmod & v1 & cs1 & Hw1 & Hv1 & Hfull).
  change (af_pos a) with (len data) in *. change (af_data a) with data in *. split; [done|].
  assert (overwrite data (len data) (ztake n buff) = data ++ ztake n buff) as Eo.
  { unfold overwrite. unfold ztake at 1, zdrop, len. rewrite take_ge, drop_ge by lia. by rewrite app_nil_r. }
  rewrite Eo in Hv1. split.
  - destruct Hfull as [->|Hfull]; [by left|]. right. exists v1. split; [done|].
    destruct Hfull as [Hf0|Hf0]; [by left|right]. intros c Hc. apply Hf0. by apply (valid_clst_geom fs).
  - eapply wp_mono; [apply (reload_spec G Hun Hrdy w p v fp cs a Hreg Hha Hs Hf T HT Hta Hfsi)
      with (w1 := w1) (v1 := v1) (fp1 := fp') (cs1 := cs1) (a1 := mkAfile (data ++ ztake n buff) (len data + n) (af_rd a) (af_wr a))
           (pth := pth) (rp := rp) (sc := sc) (sp := sp) (es := es) (k := k) (e := e); done|].
    intros [[[[r2 r3] r4] m] b] w' (-> & -> & -> & -> & ->). cbn [af_data]. by rewrite len_app, len_ztake by lia.
Qed.

Lemma dir_off_nil sp : dir_off sp [].
Proof. destruct sp; [done|]. intros c _ Hc. by apply elem_of_nil in Hc. Qed.

(** What FA_CREATE_ALWAYS and FA_OPEN_APPEND do not refuse is a file. *)
Lemma plain_file e : nz (Z.land (ent_attr e) (Z.lor AM_RDO AM_DIR)) = false -> is_dir e = false.
Proof.
  unfold is_dir, nz. rewrite negb_false_iff, Z.eqb_eq, negb_false_iff, Z.eqb_eq, Z.land_lor_distr_r. by intros [_ ?]%Z.lor_eq_0_iff.
Qed.

Section volume.
Context {Pf : Platform} {D : Type} `{!DiskIO D} `{!DiskIOLaws D} (G : Z -> Prop).
Context (Hun : len (dp_fn uninit_dir) = 12) (Hrdy : drive_ready (D := D) true) (Hwrt : drive_writable (D := D)).
Context (w : world D) (p : Z) (v : vol D) (T : tree).
Context (Hw : hosts w p v) (Hreg : at_ (FatFs w) 0 = Some (Some p)) (Hs : sound G v) (HT : tree_in G v T).
Context (Hta : tree_apart (vfs v) T) (Hfsi : fsi_apart G (vfs v)).

Lemma calm_tree_in v' : calm G v v' -> tree_in G v' T.
Proof using Hs HT.
  intros Hc. eapply (changed_tree G (fun _ => False) (fun _ => False)); [exact Hs|by apply calm_changed| |exact HT].
  intros sc' sp' es' _. split; [destruct sp'; [done|by intros ? _ []]|by intros ? ? _ _ []].
Qed.

(** ** Removing *)

(** C11: [f_unlink] removes what the path names.  A read-only entry and a
    directory that is not empty are refused with FR_DENIED, and then the volume
    shows what it showed.  Otherwise the entry is gone from its directory, its
    clusters [cs] are free, the other directories of the tree hold their
    entries, and nothing changes but the sector of the entry and these
    clusters. *)
Theorem f_unlink_removes pth rp sc sp es k e cs :
  (forall s : world D, get_ldnumber (Some pth) s = Done ((0, rp), s)) -> leads v T pth rp (Found sc k) ->
  T !! sc = Some (sp, es) -> es !! k = Some e -> occupies v T e cs ->
  (forall sc' sp' es', tree_unlink (fs_type (vfs v)) T sc sp es k e !! sc' = Some (sp', es') -> dir_off sp' cs) ->
  wp (f_unlink (Some pth)) (fun r w' => exists v', hosts w' p v' /\
    if read_only e || (is_dir e && match T !! ent_clust (fs_type (vfs v)) e with Some (_, es2) => in_use es2 | None => false end)
    then r = FR_DENIED /\ calm G v v'
    else r = FR_OK /\ exists s d, ent_pos v sp k s d /\ changed G (fun c => c ∈ cs) (eq s) v v' /\
      tree_in G v' (tree_unlink (fs_type (vfs v)) T sc sp es k e) /\ forall c, c ∈ cs -> fat_entry v' c = Some 0) w.
Proof using All.
  intros Hld Hle HTs He Hocc Hoff.
  eapply wp_mono; [by apply (f_unlink_file G Hun v T Hs HT Hta Hfsi sc sp es k e cs HTs He Hocc Hoff w p pth rp)|].
  intros r w' [-> (v' & Hh & H)]. exists v'. split; [done|]. unfold unlink_result in *. destruct (read_only e); [done|]. cbn [orb].
  assert (forall x, (exists s d, ent_pos v sp k s d /\ unlinked G v T sc sp es k e cs s x) -> exists s d, ent_pos v sp k s d /\
    changed G (fun c => c ∈ cs) (eq s) v x /\ tree_in G x (tree_unlink (fs_type (vfs v)) T sc sp es k e) /\ forall c, c ∈ cs -> fat_entry x c = Some 0) as Hx.
  { intros x (s & d & Hp & [H1 H2 H3]). by exists s, d. }
  destruct (is_dir e); cbn [andb] in *; [|split; [done|by apply Hx]]. destruct (T !! ent_clust _ e) as [[? es2]|]; [|split; [done|by apply Hx]].
  destruct (in_use es2); [done|]. split; [done|by apply Hx].
Qed.

(** ** Making *)

(** The steps of creating and writing. *)
Lemma new_saved pth rp sc sp es fn fp0 buff btw fp1 buff' btr :
  (forall s : world D, get_ldnumber (Some pth) s = Done ((0, rp), s)) -> leads v T pth rp (Missing sc fn) -> T !! sc = Some (sp, es) ->
  0 <= btw <= len buff -> btw < U32 -> 0 <= btr <= len buff' -> btr < U32 ->
  wp (f_open fp0 (Some pth) (Z.lor FA_WRITE FA_CREATE_ALWAYS)) (fun r0 w0 =>
    (r0.1 = FR_DENIED /\ exists v0, hosts w0 p v0 /\ no_room G v sp es v0) \/
    (r0.1 = FR_OK /\ wp (f_write r0.2 buff btw) (saved (vfs v) p pth [] buff btw fp1 buff' btr) w0)) w.
Proof using All.
  intros Hld Hle HTs Hb1 Hb2 Hb3 Hb4.
  eapply wp_mono; [by apply (f_open_new G v T Hs HT Hta sc sp es HTs Hun w p pth rp (Z.lor FA_WRITE FA_CREATE_ALWAYS) fn fp0)|].
  intros [r0 fp] w0 (Ht0 & v0 & Hw0 & [[-> Hno]|(-> & sp1 & es' & k & e & [Hch HT1 Hta1 Hle1 He Hfile] & [F1 F2 F3 F4])]); [left; eauto|right].
  split; [done|]. cbn [fst snd] in *. pose proof (cg_geom _ _ _ _ _ Hch) as Hg.
  eapply (write_saved G (vfs v) w0 p v0 _ fp _ pth rp sc sp1 es' k e []); try done.
  - congruence.
  - apply Hch.
  - by apply (fsi_apart_geom G v).
  - destruct F1 as [E1 E2]. split; [done|]. by pose proof Hg as (_&_&_&->&_)%geom_fields.
  - by rewrite lookup_insert_eq.
  - intros. apply dir_off_nil.
Qed.

(** C3: a new file is there.  [f_open] with FA_CREATE_ALWAYS and the path of a
    file that does not exist, in any directory of the tree, fails only when
    there is no room for the entry; otherwise the file is written, closed,
    opened by its path and read, and delivers the bytes that were written; the
    write is short only on a full volume. *)
Theorem new_file_saved pth rp sc sp es fn fp0 buff btw fp1 buff' btr :
  (forall s : world D, get_ldnumber (Some pth) s = Done ((0, rp), s)) -> leads v T pth rp (Missing sc fn) -> T !! sc = Some (sp, es) ->
  0 <= btw <= len buff -> btw < U32 -> 0 <= btr <= len buff' -> btr < U32 ->
  wp (f_open fp0 (Some pth) (Z.lor FA_WRITE FA_CREATE_ALWAYS)) (fun r0 w0 =>
    (r0.1 = FR_DENIED /\ exists v0, hosts w0 p v0 /\ no_room G v sp es v0) \/
    (r0.1 = FR_OK /\ wp (f_write r0.2 buff btw) (saved (vfs v) p pth [] buff btw fp1 buff' btr) w0)) w.
Proof using All. apply new_saved. Qed.

(** C4: an old file is overwritten.  [f_open] with FA_CREATE_ALWAYS and the
    path of a file that exists is denied for a read-only file and for a
    directory, and then nothing changes; otherwise it frees the clusters of the
    file, and the file is written, closed, opened by its path and read, and
    delivers the bytes that were written. *)
Theorem old_file_overwritten pth rp sc sp es k e cs fp0 buff btw fp1 buff' btr :
  (forall s : world D, get_ldnumber (Some pth) s = Done ((0, rp), s)) -> leads v T pth rp (Found sc k) -> T !! sc = Some (sp, es) -> es !! k = Some e ->
  clusters v (ent_clust (fs_type (vfs v)) e) cs -> (forall sc' sp' es', T !! sc' = Some (sp', es') -> dir_off sp' cs) ->
  0 <= btw <= len buff -> btw < U32 -> 0 <= btr <= len buff' -> btr < U32 ->
  wp (f_open fp0 (Some pth) (Z.lor FA_WRITE FA_CREATE_ALWAYS)) (fun r0 w0 => exists v0, hosts w0 p v0 /\
    if nz (Z.land (ent_attr e) (Z.lor AM_RDO AM_DIR)) then r0.1 = FR_DENIED /\ calm G v v0
    else r0.1 = FR_OK /\ (exists s d, ent_pos v sp k s d /\ changed G (fun c => c ∈ cs) (eq s) v v0) /\ (forall c, c ∈ cs -> fat_entry v0 c = Some 0) /\
      wp (f_write r0.2 buff btw) (saved (vfs v) p pth [] buff btw fp1 buff' btr) w0) w.
Proof using All.
  intros Hld Hle HTs He Hcl Hoff Hb1 Hb2 Hb3 Hb4.
  eapply wp_mono; [by apply (f_open_over G Hun v T Hs HT Hta sc sp es k e cs HTs He Hcl Hoff w p pth rp (Z.lor FA_WRITE FA_CREATE_ALWAYS) fp0)|].
  intros [r0 fp] w0 (Ht0 & Hr & v0 & Hw0 & H). cbn [fst snd] in *. exists v0. split; [done|]. unfold over_result in Hr.
  destruct (nz (Z.land (ent_attr e) (Z.lor AM_RDO AM_DIR))) eqn:Ea; [by subst r0|].
  change (nz (Z.land (Z.lor FA_WRITE FA_CREATE_ALWAYS) FA_CREATE_NEW)) with false in Hr. subst r0. change (FR_OK =r FR_OK) with true in H. cbv iota in H.
  destruct H as (s & d & Hep & [Hch HT1 Hta1 Hle1 Hfr] & [F1 F2 F3 F4]). pose proof (cg_geom _ _ _ _ _ Hch) as Hg. split; [done|].
  split; [by exists s, d|]. split; [done|]. destruct (HT _ _ _ HTs) as [_ Hes].
  eapply (write_saved G (vfs v) w0 p v0 _ fp _ pth rp sc sp _ k (born (fs_type (vfs v)) e) []); try done.
  - congruence.
  - apply Hch.
  - by apply (fsi_apart_geom G v).
  - destruct F1 as [E1 E2]. split; [done|]. by pose proof Hg as (_&_&_&->&_)%geom_fields.
  - unfold tree_set. by rewrite lookup_insert_eq.
  - apply list_lookup_insert_eq. by eapply lookup_lt_Some.
  - unfold is_dir. eapply (reborn_file (fs_type (vfs v)) e), born_reborn. by apply (entry_len v sp es k).
  - intros. apply dir_off_nil.
Qed.

(** C5: a file is lengthened.  [f_open] with FA_OPEN_APPEND and the path of a
    file that exists is denied for a read-only file and for a directory;
    otherwise the position is the end of the file, and [f_write], [f_close],
    [f_open] by the path and [f_read] deliver the old bytes followed by those
    that were written.  Opening changes nothing. *)
Theorem append_saved pth rp sc sp es k e cs data fp0 buff btw fp1 buff' btr :
  (forall s : world D, get_ldnumber (Some pth) s = Done ((0, rp), s)) -> leads v T pth rp (Found sc k) -> T !! sc = Some (sp, es) -> es !! k = Some e ->
  entry_file v e cs data -> (forall sc' sp' es', T !! sc' = Some (sp', es') -> dir_off sp' cs) ->
  0 <= btw <= len buff -> btw < U32 -> 0 <= btr <= len buff' -> btr < U32 ->
  wp (f_open fp0 (Some pth) (Z.lor FA_WRITE FA_OPEN_APPEND)) (fun r0 w0 => (exists v0, hosts w0 p v0 /\ calm G v v0) /\
    if nz (Z.land (ent_attr e) (Z.lor AM_RDO AM_DIR)) then r0.1 = FR_DENIED
    else r0.1 = FR_OK /\ wp (f_write r0.2 buff btw) (saved (vfs v) p pth data buff btw fp1 buff' btr) w0) w.
Proof using All.
  intros Hld Hle HTs He Hef Hoff Hb1 Hb2 Hb3 Hb4.
  eapply wp_mono; [apply (f_open_append G Hun v Hs T HT w p pth rp (Z.lor FA_WRITE FA_OPEN_APPEND) fp0 sc sp es k e cs data); try done; by right; left|].
  intros [r0 fp] w0 (Ht0 & Hr & v0 & Hw0 & Hc & Hap). cbn [fst snd] in *. split; [by exists v0|]. unfold append_result in Hr.
  destruct (nz (Z.land (ent_attr e) (Z.lor AM_RDO AM_DIR))) eqn:Ea; [done|]. subst r0. split; [done|]. destruct (Hap eq_refl) as [[O1 O2] Hep Hf].
  pose proof (calm_geom _ _ _ Hc) as Hg. pose proof (calm_changed G (fun _ => False) (fun _ => False) v v0 Hs Hc) as Hch.
  eapply (write_saved G (vfs v) w0 p v0 T fp _ pth rp sc sp es k e cs data); try done.
  - by rewrite Ht0.
  - apply Hch.
  - by apply calm_tree_in.
  - by apply (tree_apart_geom v).
  - by apply (fsi_apart_geom G v).
  - split; [done|]. by pose proof Hg as (_&_&_&->&_)%geom_fields.
  - eapply changed_file; [exact Hs|exact Hch|exact Hf|by intros ? _ []|by intros ? _ []].
  - unfold leads. by pose proof Hg as [-> _]%geom_fields.
  - by apply plain_file.
  - by apply (ent_pos_geom v).
Qed.

(** ** Listing *)

(** Opening a directory and reading it, at most [n] entries of it. *)
Definition list_path (dp : DIR) (pth : list byte) (n : nat) (fno : FILINFO) : M (world D) (FRESULT * FRESULT * list FILINFO) :=
  do (r, dp) <- f_opendir dp (Some pth) ;;
  do (r2, l) <- list_dir n dp fno ;;
  ret (r, r2, l).

Lemma list_path_spec pth rp cl sp es dp n fno :
  (forall s : world D, get_ldnumber (Some pth) s = Done ((0, rp), s)) -> names_dir v T pth rp cl -> T !! cl = Some (sp, es) -> plain_names es ->
  len (dp_fn dp) = 12 -> len (fi_fname fno) = 13 ->
  wp (list_path dp pth n fno) (fun x w' => FatFs w' = FatFs w /\ x.1.1 = FR_OK /\ x.1.2 = FR_OK /\ Forall2 entry_info (take n (listed es)) x.2 /\
    exists v', hosts w' p v' /\ calm G v v') w.
Proof using Hrdy Hw Hreg Hs HT.
  intros Hld Hn Hcl Hpl Hl Hl2. unfold list_path. apply wp_bind.
  eapply wp_mono; [by apply (f_opendir_file G v T Hs HT w p pth rp dp cl sp es)|].
  intros [r dp1] w1 (Ht1 & Hr & v1 & Hw1 & Hc1 & Hrd & Hdh). cbn [fst snd] in *. subst r. apply wp_bind. destruct (HT _ _ _ Hcl) as [Hsp Hes].
  eapply wp_mono; [apply wp_tk; [apply tk_list_dir|by apply (list_dir_from G v cl sp Hs Hsp es Hes Hpl Hrdy p n w1 v1 dp1 fno 0)]|].
  intros [r l] w2 [(Hr & Hf & Hv) Ht2]. cbn [fst snd drop] in *. subst r. apply wp_ret. split; [congruence|done].
Qed.

(** C22: [f_readdir] lists the directory.  [f_opendir] on the root directory or
    on the path of a directory, followed by [n] calls of [f_readdir] or as many
    as give a name, delivers the entries that are in use and are no volume
    label, up to the end mark, in their order and each once: its name as text,
    attribute, size, date and time.  Nothing is changed. *)
Theorem directory_listed pth rp cl sp es dp n fno :
  (forall s : world D, get_ldnumber (Some pth) s = Done ((0, rp), s)) -> names_dir v T pth rp cl -> T !! cl = Some (sp, es) -> plain_names es ->
  len (dp_fn dp) = 12 -> len (fi_fname fno) = 13 ->
  wp (list_path dp pth n fno) (fun x w' => let '(r1, r2, l) := x in
    r1 = FR_OK /\ r2 = FR_OK /\ Forall2 entry_info (take n (listed es)) l /\ exists v', hosts w' p v' /\ calm G v v') w.
Proof using Hrdy Hw Hreg Hs HT.
  intros Hld Hn Hcl Hpl Hl Hl2. eapply wp_mono; [by apply (list_path_spec pth rp cl sp es dp n fno)|].
  by intros [[r1 r2] l] w' (_ & Hx).
Qed.

(** C23: the names that are listed can be opened.  Of the files that reading
    the root directory reports, each one whose name is one that [create_name]
    makes and is not hidden by an earlier entry of the same name is opened by
    the reported text as path, and [f_read] delivers its bytes. *)
Theorem listed_files_open pth rp sp es dp n fno m k e fn cs data fp0 buff btr :
  (forall s : world D, get_ldnumber (Some pth) s = Done ((0, rp), s)) -> names_dir v T pth rp 0 -> T !! 0 = Some (sp, es) -> plain_names es ->
  len (dp_fn dp) = 12 -> len (fi_fname fno) = 13 ->
  (m < n)%nat -> listed es !! m = Some e -> es !! k = Some e -> slice e 0 11 = Some fn -> lookup_name fn es = Some k -> proper_name fn ->
  is_dir e = false -> entry_file v e cs data -> 0 <= btr <= len buff -> btr < U32 ->
  wp (list_path dp pth n fno) (fun x w1 => exists i, x.2 !! m = Some i /\
    wp (load_path (fi_fname i) fp0 buff btr) (fun y _ => loads data buff btr y) w1) w.
Proof using Hun Hrdy Hw Hreg Hs HT.
  intros Hld Hn Hcl Hpl Hl Hl2 Hmn Hm Hk Hfn Hlk Hpr Hnd Hef Hb1 Hb2. eapply wp_mono; [by apply (list_path_spec pth rp 0 sp es dp n fno)|].
  intros [[r1 r2] l] w1 (Ht1 & _ & _ & Hf & v1 & Hw1 & Hc1). cbn [fst snd] in *.
  destruct (Forall2_lookup_l _ _ _ m e Hf) as (i & Hi & Hei); [by rewrite lookup_take_lt|]. exists i. split; [done|].
  destruct (reported_leads v1 T sp es k e fn i Hcl Hlk Hk Hfn Hpr Hei) as [Hle Hld1].
  pose proof (calm_changed G (fun _ => False) (fun _ => False) v v1 Hs Hc1) as Hch.
  apply (load_path_spec G w1 p v1 T (fi_fname i) 0 0 sp es k e cs data fp0 buff btr); try done.
  - by rewrite Ht1.
  - apply Hch.
  - by apply calm_tree_in.
  - eapply entry_file_changed; [exact Hs|exact Hch|done|by intros ? _ []|by intros ? _ []].
Qed.

(** C24: [f_stat] reports the entry that the path names: its name as text,
    attribute, size, date and time, or FR_NO_FILE or FR_NO_PATH when the name or
    a directory on the way is missing.  Nothing is changed. *)
Theorem f_stat_reports pth rp x fno :
  (forall s : world D, get_ldnumber (Some pth) s = Done ((0, rp), s)) -> leads v T pth rp x -> len (fi_fname fno) = 13 ->
  wp (f_stat (Some pth) (Some fno)) (fun r w' => (exists v', hosts w' p v' /\ calm G v v') /\
    match x with
    | Found sc k => r.1 = FR_OK /\ exists sp es e i, T !! sc = Some (sp, es) /\ es !! k = Some e /\ r.2 = Some i /\ entry_info e i
    | Missing _ _ => r.1 = FR_NO_FILE
    | NoPath => r.1 = FR_NO_PATH
    end) w.
Proof using Hun Hrdy Hw Hreg Hs HT.
  intros Hld Hle Hl. by apply (f_stat_file G Hun v Hs T HT w p pth rp x fno).
Qed.

(** ** Free space *)

(** C25: [f_getfree] tells the number of free clusters it knows or counts.  A
    count in the filesystem object that is at most the number of clusters is
    reported as it is stored.  Otherwise the zero entries of the table are
    counted, on FAT12 those of the clusters, on FAT16 and FAT32 those of the two
    reserved entries as well, and the result is stored.  The table and the files
    stay as they are.  So the report is the number of free clusters when the
    stored count is right or not known and the reserved entries are in use; the
    code ensures neither for a volume that it did not format. *)
Theorem f_getfree_reports pth rp :
  (forall s : world D, get_ldnumber (Some pth) s = Done ((0, rp), s)) -> 2 < n_fatent (vfs v) ->
  wp (f_getfree (Some pth)) (fun r w' => r = (FR_OK, Some (free_space v), Some p) /\ exists v', hosts w' p v' /\ sound G v' /\
    free_clst (vfs v') = free_space v /\ free_count v' = free_count v /\ forall s, plain (vfs v) s -> lview v' s = lview v s) w /\
  (count_right v -> reserved_used v -> free_space v = free_count v).
Proof using Hrdy Hw Hreg Hs.
  intros Hld Hn. split; [by apply f_getfree_counts with (rp := rp)|apply free_space_right].
Qed.

(** C26: the count of free clusters stays right.  Where the filesystem object
    knows the number of free clusters, it is the number of zero entries of the
    table; [create_chain] keeps it so when it takes a cluster for a new chain
    or at the end of one, or finds none, and [remove_chain] when it frees a
    chain. *)
Theorem free_count_kept clst c l pclst :
  count_right v -> clst = 0 \/ (exists a l0, chain v a l0 /\ last l0 = Some clst) ->
  chain v c l -> pclst = 0 \/ (valid_clst (vfs v) pclst /\ (pclst ∉ l) /\ fat_entry v pclst <> Some 0) ->
  wp (create_chain clst) (fun x v' => count_right v' /\ free_count v' = free_count v - (if x =? 0 then 0 else 1)) v /\
  wp (remove_chain c pclst) (fun r v' => count_right v' /\ free_count v' = free_count v + len l) v.
Proof using Hs.
  intros Hrt Hcl Hch Hp. pose proof (so_ok _ _ Hs) as Hv. pose proof (chain_valid _ _ _ Hch) as [C1 C2]. split.
  - assert (0 <= clst < U32 /\ (clst <> 0 -> valid_clst (vfs v) clst /\ exists e, fat_entry v clst = Some e /\ n_fatent (vfs v) <= e)) as [Hr Hend].
    { destruct Hcl as [->|(a & l0 & Ha & Hl)]; [by split|]. pose proof (last_Some_elem_of _ _ Hl) as Hin.
      pose proof (chain_all_valid _ _ _ _ Ha Hin) as V. pose proof V as [V1 V2]. pose proof (n_fatent_limit G v Hs) as Hlim. split; [lia|].
      intros _. split; [done|]. by apply (chain_last v a l0). }
    eapply wp_mono; [apply (create_chain_alive G (vfs v) (so_fat _ _ Hs)); [by apply sv_refl|apply Hs|apply Hs|done]|].
    intros x v' (Hpost & _ & Hx).
    destruct Hpost as [[-> Hbl]|[?|[(-> & Ht1 & Hal & _)|[(Hv1 & Hnz & He & _)|(Hv1 & Hx0 & _ & Ht1 & _ & Hf)]]]]; try done.
    + exfalso. destruct Hbl as [Hbl|[Hnz Hbl]]; [by apply (so_bad _ _ Hs)|]. destruct (Hend Hnz) as (H1 & e & H2 & H3).
      destruct Hbl as [?|Hbl]; [done|]. rewrite H2 in Hbl. injection Hbl as ->. lia.
    + cbn. rewrite Z.sub_0_r. pose proof Ht1 as ([_ Hg] & _ & Hf & _). pose proof (free_count_same v v' Hg Hf) as E. split; [|done].
      unfold count_right in *. rewrite E. pose proof Hg as (_&_&_&_&_&_&->&_)%geom_fields. injection Hal as _ -> _. done.
    + exfalso. destruct (Hend Hnz) as (_ & e & H2 & H3). rewrite He in H2. injection H2 as <-. destruct Hv1. lia.
    + pose proof Hv1 as [V1 _]. rewrite (proj2 (Z.eqb_neq x 0)) by lia.
      assert (free_count v' = free_count v - 1) as E.
      { apply (linked_count G v clst x v' Hs Ht1 Hv1 Hx0). destruct (Z.eq_dec clst 0) as [->|Hne]; [by left|right].
        destruct (Hend Hne) as (H1 & e & H2 & H3). split; [done|]. rewrite H2. intros [= ->]. lia. }
      split; [|done]. pose proof Ht1 as ([_ Hg] & _). by apply (count_taken_right v v' x).
  - eapply wp_mono; [apply (alive_run G true v); [by apply sv_refl|apply Hs| |apply live_remove_chain, Hs]|].
    { apply (remove_chain_spec true v c pclst l); [done|apply Hs|apply Hs|done|]. destruct Hp as [?|(? & ? & _)]; auto. }
    intros r v' ([Hr Hok] & _ & Hne). assert (r = FR_OK) as -> by (by destruct Hr). destruct (Hok eq_refl) as [Ht Hf].
    pose proof (cut_count G v pclst c l v' Hs Hch Ht Hp) as E. split; [|done]. destruct Ht as ([_ Hg] & _).
    by apply (count_freed_right v v' (len l)); [lia|..].
Qed.

End volume.

(** ** Directories and names that change *)

Section change.
Context {Pf : Platform} {D : Type} `{!DiskIO D} `{!DiskIOLaws D} (G : Z -> Prop).
Context (Hun : len (dp_fn uninit_dir) = 12) (Hrdy : drive_ready (D := D) true) (Hwrt : drive_writable (D := D)).
Context (w : world D) (p : Z) (v : vol D) (T : tree).
Context (Hw : hosts w p v) (Hreg : at_ (FatFs w) 0 = Some (Some p)) (Hs : sound G v) (HT : tree_in G v T).
Context (Hta : tree_apart (vfs v) T) (Hfsi : fsi_apart G (vfs v)).

(** C10: [f_mkdir] makes a directory.  It answers FR_EXIST when the path leads
    to an entry, FR_NO_PATH when a directory on the way is missing, and
    FR_DENIED only when no cluster or no entry is free, in each case without
    changing the tree.  Otherwise the tree has a new directory, in a cluster
    that was free, with the two dot entries; the path leads to its entry, all
    other directories stay, and [f_readdir] finds it empty. *)
Theorem f_mkdir_makes pth rp x dp n fno :
  (forall s : world D, get_ldnumber (Some pth) s = Done ((0, rp), s)) -> leads v T pth rp x -> len (dp_fn dp) = 12 -> len (fi_fname fno) = 13 ->
  wp (f_mkdir (Some pth)) (fun r w1 => exists v1, hosts w1 p v1 /\ mkdir_post G v T pth rp x r v1 /\
    (r = FR_OK -> wp (list_path dp pth n fno) (fun y _ => y = (FR_OK, FR_OK, [])) w1)) w.
Proof using All.
  intros Hld Hle Hl Hl2. eapply wp_mono; [by apply (f_mkdir_file G v T w p pth rp x)|]. intros r w1 (Ht1 & v1 & Hw1 & Hpost). exists v1.
  split; [done|]. split; [done|]. intros ->. destruct x as [sc k|sc fn|]; [by destruct Hpost| |by destruct Hpost].
  destruct Hpost as (sp & es & HTs & [[? _]|(_ & c & sp1 & es' & k & [Hfree Hch HT1 _ Hle1 (e & He & Hdir & Hcl)])]); [done|].
  pose proof (cg_geom _ _ _ _ _ Hch) as Hg. pose proof (csize_pos _ (so_data _ _ Hs)) as Hcs.
  assert (sc <> c) as Hne by (intros ->; by rewrite (free_no_dir G v T HT c (proj1 Hfree) (proj2 Hfree)) in HTs).
  eapply wp_mono; [apply (list_path_spec G Hrdy w1 p v1 _ Hw1 ltac:(congruence) (cg_sound _ _ _ _ _ Hch) HT1 pth rp c (Clst [c])
    (dots (fs_type (vfs v)) c sc (csize (vfs v) * 16)) dp n fno)|]; try done.
  - epose proof (names_sub v1 _ pth rp sc k sp1 es' e Hle1 (lookup_insert_eq _ _ _) He Hdir) as Hnd.
    pose proof Hg as [Ety _]%geom_fields. by rewrite Ety, Hcl in Hnd.
  - by rewrite lookup_insert_ne, lookup_insert_eq.
  - unfold plain_names. rewrite dots_unlisted by lia. constructor.
  - intros [[r1 r2] l] w2 (_ & Hr1 & Hr2 & Hf & _). cbn [fst snd] in *. subst r1 r2. rewrite dots_unlisted, take_nil in Hf by lia.
    by apply Forall2_nil_inv_l in Hf as ->.
Qed.

(** C8: [f_rename] moves a file.  It answers FR_EXIST when the new path leads
    to another entry, FR_NO_PATH when a directory on the way to it is missing,
    FR_DENIED only when the directory of the new name has no room, in each case
    without changing the tree.  Otherwise the old entry is removed, the new
    path leads to an entry with the same first cluster, size and attributes,
    the other directories stay, and opening the new path and reading delivers
    the bytes of the file. *)
Theorem f_rename_moves po rpo pn rpn sc sp es k e x cs data fp0 buff btr :
  (forall s : world D, get_ldnumber (Some po) s = Done ((0, rpo), s)) -> (forall s : world D, get_ldnumber (Some pn) s = Done ((0, rpn), s)) ->
  leads v T po rpo (Found sc k) -> T !! sc = Some (sp, es) -> es !! k = Some e -> is_dir e = false ->
  leads v T pn rpn x -> x <> Found sc k -> entry_file v e cs data -> (forall sc' sp' es', T !! sc' = Some (sp', es') -> dir_off sp' cs) ->
  0 <= btr <= len buff -> btr < U32 ->
  wp (f_rename (Some po) (Some pn)) (fun r w1 => exists v1, hosts w1 p v1 /\ rename_post G v T sc sp k e pn rpn x r v1 /\
    (r = FR_OK -> wp (load_path pn fp0 buff btr) (fun y _ => loads data buff btr y) w1)) w.
Proof using All.
  intros Hldo Hldn Hlo HTs He Hnd Hle Hx Hef Hoff Hb1 Hb2.
  eapply wp_mono; [by apply (f_rename_file G Hun v T Hs HT Hta Hfsi sc sp es k e HTs He Hnd w p po rpo pn 0 rpn x)|].
  intros r w1 (Ht1 & v1 & Hw1 & Hpost). exists v1. split; [done|]. split; [done|]. intros ->. destruct x as [sc' k'|sc2 fn|]; [by destruct Hpost| |by destruct Hpost].
  destruct Hpost as (sp2 & es2 & HT2 & [[? _]|(_ & s0 & d0 & T' & k2 & Hep & [Hch HT' _ Hle' (sp' & es' & HTs' & He') _ _ Hsf])]); [done|].
  assert (entry_file v1 (moved fn e) cs data) as Hef1.
  { pose proof Hch as [_ Hg _ _]. destruct (file_beside_new G v T Hs HT sc2 sp2 es2 HT2 _ cs (ef_clusters _ _ _ _ Hef) (Hoff _ _ _ HT2)) as [B1 B2].
    destruct (entry_file_changed G _ _ v v1 e cs data Hs Hch Hef B1) as [E1 E2 E3 E4 E5].
    { intros s Hin [->|Hgs]; [|by apply (B2 s)]. destruct (HT _ _ _ HTs) as [Hsp _]. destruct Hep as [_ P2 _].
      eapply (dsect_off G v sc sp cs); [done|done|by eapply Hoff| | |exact P2|done]; [|unfold_consts; lia].
      intros c Hc. destruct Hef as [C1 _ _ _ _]. destruct cs; [by apply elem_of_nil in Hc|]. by eapply chain_all_valid. }
    pose proof Hg as [Ety _]%geom_fields. rewrite Ety in E1. split; try done.
    - rewrite Ety, (sf_clust _ _ _ Hsf). done.
    - by rewrite (sf_size _ _ _ Hsf). }
  apply (load_path_spec G w1 p v1 T' pn rpn sc2 sp' es' k2 (moved fn e) cs data fp0 buff btr); try done.
  - congruence.
  - apply Hch.
  - unfold is_dir, ent_attr. rewrite (sf_attr _ _ _ Hsf). unfold moved_attr. rewrite Hnd. unfold is_dir, ent_attr in Hnd. rewrite !Z.land_lor_distr_l.
    change (Z.land (Z.land AM_ARC AM_MASK) AM_DIR) with 0. by rewrite Z.lor_0_r.
Qed.

(** C9: [f_rename] moves a directory.  It refuses as for a file.  Otherwise
    the old entry is removed and the new path leads to a directory entry with
    the same first cluster; if its parent is another one, the ".." entry of the
    directory points there, and nothing else of it is changed; other
    directories stay.  Listing the new path delivers the entries of the
    directory.  The new path must not lead through the directory itself. *)
Theorem f_rename_directory po rpo pn rpn sc sp es k e cs esc dd x dp n fno :
  (forall s : world D, get_ldnumber (Some po) s = Done ((0, rpo), s)) -> (forall s : world D, get_ldnumber (Some pn) s = Done ((0, rpn), s)) ->
  leads v T po rpo (Found sc k) -> T !! sc = Some (sp, es) -> es !! k = Some e -> is_dir e = true ->
  T !! ent_clust (fs_type (vfs v)) e = Some (Clst cs, esc) -> ent_clust (fs_type (vfs v)) e <> 0 -> ent_clust (fs_type (vfs v)) e <> sc ->
  esc !! 1%nat = Some dd -> ent_byte dd DIR_Name = 0x2E -> plain_names esc ->
  leads v T pn rpn x -> x <> Found sc k -> not_inside v T sc sp es k e pn rpn x -> len (dp_fn dp) = 12 -> len (fi_fname fno) = 13 ->
  wp (f_rename (Some po) (Some pn)) (fun r w1 => exists v1, hosts w1 p v1 /\ move_post G v T sc sp k e cs esc pn rpn x r v1 /\
    (r = FR_OK -> wp (list_path dp pn n fno) (fun y _ => y.1.1 = FR_OK /\ y.1.2 = FR_OK /\ Forall2 entry_info (take n (listed esc)) y.2) w1)) w.
Proof using All.
  intros Hldo Hldn Hlo HTs He Hdir Hown H0 Hself Hdd Hdot Hpl Hle Hx Hni Hl Hl2.
  eapply wp_mono; [by apply (f_rename_dir G Hun v T Hs HT Hta Hfsi sc sp es k e HTs He Hdir cs esc Hown H0 Hself w p po rpo pn 0 rpn x)|].
  intros r w1 (Ht1 & v1 & Hw1 & Hpost). exists v1. split; [done|]. split; [done|]. intros ->. destruct x as [sc' k'|sc2 fn|]; [by destruct Hpost| |by destruct Hpost].
  destruct Hpost as (sp2 & es2 & HT2 & [[? _]|(_ & s0 & d0 & T' & k2 & _ & [Hch HT' _ Hle' (sp' & es' & HTs' & He') _ Hown' _ Hsf])]); [done|].
  assert (listed (own_entries v sc esc sc2) = listed esc) as Hli.
  { unfold own_entries. destruct (sc =? sc2); [done|]. by eapply listed_rehomed. }
  pose proof (names_sub v1 T' pn rpn sc2 k2 sp' es' _ Hle' HTs' He' ltac:(by rewrite (same_file_dir _ _ _ Hsf))) as Hnd.
  pose proof (cg_geom _ _ _ _ _ Hch) as (Ety & _)%geom_fields. rewrite Ety, (sf_clust _ _ _ Hsf) in Hnd.
  eapply wp_mono; [apply (list_path_spec G Hrdy w1 p v1 T' Hw1 ltac:(congruence) (cg_sound _ _ _ _ _ Hch) HT' pn rpn _ _ _ dp n fno Hldn Hnd Hown'); [|done|done]|].
  - unfold plain_names. by rewrite Hli.
  - intros y w2 (_ & Hr1 & Hr2 & Hf & _). by rewrite Hli in Hf.
Qed.

End change.

(** ** Applied to the sample volume *)

Module Shop.

Lemma writable : drive_writable (D := Ram.ram).
Proof. by intros d q _. Qed.

Lemma fsi_ok : fsi_apart Sample.good Sample.fs.
Proof. done. Qed.

(** The paths "b" and "". *)
Definition path_b : list byte := [x62; x00].
Definition path_root : list byte := [x00].

Lemma b_missing : leads (Pf := Sample.platform) Shelf.vol Shelf.dirs path_b 0 (Missing 0 Shelf.other).
Proof.
  split; [by split; [|split; [|exists 1]]|]. exists 0, [Shelf.other].
  split; [split; [done|]; split; [intros; lia|]; by exists x62|]. split; [|by vm_compute].
  change [Shelf.other] with [fix_ddem Shelf.other]. apply (pn_last (Pf := Sample.platform) path_b 0 Shelf.other 0 2); [by vm_compute| |done].
  exists x00. split; [done|]. split; [done|]. by left.
Qed.

Lemma root_named : names_dir (Pf := Sample.platform) Shelf.vol Shelf.dirs path_root 0 0.
Proof.
  apply (names_root (Pf := Sample.platform) Shelf.vol Shelf.dirs path_root 0 0 x00); [by split; [|split; [|exists 0]]| |done|done].
  split; [done|]. split; [intros; lia|]. by exists x00.
Qed.

Lemma root_listed : listed Shelf.entries = [Shelf.entry].
Proof. by vm_compute. Qed.

Lemma root_plain : plain_names Shelf.entries.
Proof. unfold plain_names. rewrite root_listed. constructor; [by vm_compute|constructor]. Qed.

Lemma a_proper : proper_name Shelf.name.
Proof. exists Sample.path, Shelf.name. split; [by vm_compute|]. split; [by vm_compute|done]. Qed.

Lemma a_entry_file : entry_file Shelf.vol Shelf.entry [2; 3; 5] Shelf.text.
Proof. destruct Shelf.shelf_file as [H1 _ _ _ H2 H3 _ _]. by split. Qed.

Lemma a_occupies : occupies Shelf.vol Shelf.dirs Shelf.entry [2; 3; 5].
Proof. apply a_entry_file. Qed.

(** The volume with a count of free clusters in its object. *)
Definition fs_known (n : Z) : FATFS := set_free_clst n Sample.fs.
Definition known (n : Z) : vol Ram.ram := mkVol (fs_known n) Shelf.ram.
Definition w_known (n : Z) : world Ram.ram := mkWorld {[ 1 := fs_known n ]} [Some 1] 1 Shelf.ram.

Lemma known_hosts n : hosts (w_known n) 1 (known n).
Proof. by split. Qed.

Lemma known_tweak n : 0 <= n < U32 -> sound Sample.good (known n) /\ forall c, fat_entry (known n) c = fat_entry Shelf.vol c.
Proof.
  intros Hn. destruct (tweak Sample.good Shelf.vol (fs_known n) Shelf.shelf_sound) as (H1 & _ & H2); [|done..|done].
  apply fs_ok_set_free_clst; [apply (so_ok _ _ Shelf.shelf_sound)|done].
Qed.

Lemma known_sound n : 0 <= n < U32 -> sound Sample.good (known n).
Proof. apply known_tweak. Qed.

Lemma known_right : count_right (known 89).
Proof. intros _. by vm_compute. Qed.

Lemma known_chain : chain (known 89) 2 [2; 3; 5].
Proof.
  pose proof (proj2 (known_tweak 89 ltac:(done))) as Hf. destruct (Sample.disk_entries Shelf.ram) as (H2 & H3 & H4 & H5 & _).
  apply (chain_link _ 2 3); [done|by rewrite Hf|done|]. apply (chain_link _ 3 5); [done|by rewrite Hf|done|].
  by apply (chain_end _ 5 4095); [done|rewrite Hf|].
Qed.

End Shop.

Module House.

(** A volume with the directories "a" in cluster 2, which holds a file, and
    "b" in cluster 3. *)
Definition fs : FATFS := set_win ([xf8; xff; xff; xff; xff; xff] ++ replicate 506 x00) Sample.fs.
Definition name_a : list byte := [x41; x20; x20; x20; x20; x20; x20; x20; x20; x20; x20].
Definition dir_entry (fn : list byte) (cl : Z) : list byte := set_clust FS_FAT12 cl (put_field (fresh fn) DIR_Attr [mkb AM_DIR]).
Definition entry_a : list byte := dir_entry name_a 2.
Definition root : list (list byte) := entry_a :: dir_entry Shelf.other 3 :: replicate 510 zero_entry.
Definition in_a : list (list byte) := <[2%nat := fresh Shelf.name]> (dots FS_FAT12 2 0 16).
Definition in_b : list (list byte) := dots FS_FAT12 3 0 16.
Definition ram : Ram.ram :=
  Ram.mkRam (replicate 1024 x00 ++ concat root ++ concat in_a ++ concat in_b ++ replicate (Z.to_nat (Ram.DISK_SIZE - 18432)) x00).
Definition vol : Window.vol Ram.ram := mkVol fs ram.
Definition w : world Ram.ram := mkWorld {[ 1 := fs ]} [Some 1] 1 ram.
Definition dirs : tree := {[ 0 := (Root, root); 2 := (Clst [2], in_a); 3 := (Clst [3], in_b) ]}.

Lemma house_ram : Ram.ram_ok ram.
Proof. by vm_compute. Qed.

Lemma house_sound : sound Sample.good vol.
Proof.
  split.
  - split; [apply (bool_decide_unpack _); vm_compute; exact I|apply house_ram].
  - constructor; vm_compute; try done; auto.
  - constructor; try (by vm_compute). by exists 0.
  - by intros H.
  - split; [done|]. split; [done|]. intros o Ho. assert (o / SS = 0) as E by (apply Z.div_small; exact Ho). unfold fat_sect. by rewrite E.
  - intros (c & [H1 H2] & E). cbn in H1, H2.
    assert (forallb (fun c => negb (bool_decide (fat_entry vol c = Some 1))) (seqZ 2 94) = true) as H by (vm_compute; reflexivity).
    rewrite forallb_forall in H. assert (In c (seqZ 2 94)) as Hin by (apply list_elem_of_In, elem_of_seqZ; lia).
    specialize (H c Hin). by rewrite bool_decide_eq_true_2 in H.
  - intros s [H1 H2]. cbn in H1, H2. unfold Sample.good, Ram.DISK_SECTORS. lia.
Qed.

Lemma house_hosts : hosts w 1 vol.
Proof. by split. Qed.

(** What the three directories hold. *)
Definition holds (sp : dspace) (es : list (list byte)) : bool :=
  (len es =? dsize (vfs vol) sp) && forallb (fun k => bool_decide (dentry vol sp k = at_ es k)) (seqZ 0 (len es)).

Lemma holds_spec sp es : holds sp es = true -> dir_holds vol sp es.
Proof.
  unfold holds. rewrite andb_true_iff, Z.eqb_eq. intros [Hl H]. split; [done|]. intros k Hk. rewrite forallb_forall in H. specialize (H k).
  rewrite bool_decide_eq_true in H. apply H, list_elem_of_In, elem_of_seqZ. lia.
Qed.

Lemma dirs_cases sc sp es : dirs !! sc = Some (sp, es) ->
  sc = 0 /\ sp = Root /\ es = root \/ sc = 2 /\ sp = Clst [2] /\ es = in_a \/ sc = 3 /\ sp = Clst [3] /\ es = in_b.
Proof.
  unfold dirs. rewrite lookup_insert_Some, lookup_insert_Some, lookup_singleton_Some.
  intros [[<- [= <- <-]]|[_ [[<- [= <- <-]]|[_ [<- [= <- <-]]]]]]; auto.
Qed.

Lemma one_chain c : c = 2 \/ c = 3 -> chain vol c [c].
Proof. intros [-> | ->]; by apply (chain_end _ _ 4095). Qed.

Lemma house_in : tree_in Sample.good vol dirs.
Proof.
  intros sc sp es [(-> & -> & ->)|[(-> & -> & ->)|(-> & -> & ->)]]%dirs_cases; (split; [|apply holds_spec; vm_compute; reflexivity]).
  - split; [done|]. split; [done|]. split; [constructor; by vm_compute|].
    intros s [H1 H2]. cbn in H1, H2. unfold Sample.good, Ram.DISK_SECTORS. change (512 / 16) with 32 in H2. lia.
  - apply (one_chain 2). by left.
  - apply (one_chain 3). by right.
Qed.

(** The sectors of each. *)
Lemma dirs_sect sc sp es o s : dirs !! sc = Some (sp, es) -> 0 <= o -> dsect fs sp o = Some s -> if sc =? 0 then 2 <= s < 34 else s = 32 + sc.
Proof.
  intros H Ho. assert (forall c, fsect fs [c] o = Some s -> s = 32 + c) as Hf.
  { intros c. unfold fsect. change (bcs fs) with 512. destruct (Z.to_nat (o / 512)) eqn:E; [|done]. cbn. intros [= <-]. unfold clst_sect. cbn [csize database fs Sample.fs set_win].
    unfold SS. pose proof (Z.mod_pos_bound o 512 ltac:(done)). rewrite (Z.div_small (o mod 512)) by lia. lia. }
  destruct (dirs_cases _ _ _ H) as [(-> & -> & ->)|[(-> & -> & ->)|(-> & -> & ->)]]; cbn; [|apply Hf|apply Hf].
  unfold SZDIRE, SS. destruct (Z.ltb_spec (o / 32) 512); [|done]. intros [= <-]. Z.to_euclidean_division_equations. lia.
Qed.

Lemma house_apart : tree_apart fs dirs.
Proof.
  intros sc1 sp1 es1 sc2 sp2 es2 o1 o2 s H1 H2 Ho1 Ho2 E1 E2.
  pose proof (dirs_sect _ _ _ _ _ H1 Ho1 E1) as A. pose proof (dirs_sect _ _ _ _ _ H2 Ho2 E2) as B.
  destruct (dirs_cases _ _ _ H1) as [(-> & _)|[(-> & _)|(-> & _)]], (dirs_cases _ _ _ H2) as [(-> & _)|[(-> & _)|(-> & _)]]; cbn in A, B; lia.
Qed.

(** The paths "a", "b/a" and "a/c". *)
Definition path_a : list byte := [x61; x00].
Definition path_ba : list byte := [x62; x2f; x61; x00].
Definition path_ac : list byte := [x61; x2f; x63; x00].

Lemma a_names : path_names (Pf := Sample.platform) path_a 0 [name_a].
Proof.
  change [name_a] with [fix_ddem name_a]. apply (pn_last (Pf := Sample.platform) path_a 0 name_a 0 2); [by vm_compute| |done].
  exists x00. split; [done|]. split; [done|]. by left.
Qed.

Lemma a_leads : leads (Pf := Sample.platform) vol dirs path_a 0 (Found 0 0).
Proof.
  split; [by split; [|split; [|exists 1]]|]. exists 0, [name_a]. split; [split; [done|]; split; [intros; lia|]; by exists x61|]. split; [apply a_names|by vm_compute].
Qed.

Lemma ba_names : path_names (Pf := Sample.platform) path_ba 0 [Shelf.other; name_a].
Proof.
  apply (pn_more (Pf := Sample.platform) path_ba 0 Shelf.other 0x2F 2 [name_a]); [by vm_compute| |done|].
  - exists x2f. split; [done|]. split; [done|]. right. split; [done|]. split; [done|]. split; [done|].
    split; [by split; [|split; [|exists 3]]|]. split; [|by exists x61]. intros k Hk. change (0 + _) with 1 in Hk. lia.
  - change [name_a] with [fix_ddem name_a]. apply (pn_last (Pf := Sample.platform) path_ba 2 name_a 0 4); [by vm_compute| |done].
    exists x00. split; [done|]. split; [done|]. by left.
Qed.

Lemma ba_walk T : walk FS_FAT12 T 0 [Shelf.other; name_a] = Some (Missing 3 name_a) -> leads (Pf := Sample.platform) vol T path_ba 0 (Missing 3 name_a).
Proof.
  intros Hw. split; [by split; [|split; [|exists 3]]|]. exists 0, [Shelf.other; name_a]. split; [split; [done|]; split; [intros; lia|]; by exists x62|].
  split; [apply ba_names|exact Hw].
Qed.

(** What the theorem on [f_rename] asks for. *)
Lemma root_known : dirs !! 0 = Some (Root, root).
Proof. vm_compute. reflexivity. Qed.

Lemma a_known : root !! 0%nat = Some entry_a.
Proof. reflexivity. Qed.

Lemma a_dir : is_dir entry_a = true.
Proof. vm_compute. reflexivity. Qed.

Lemma own_known : dirs !! ent_clust (fs_type (vfs vol)) entry_a = Some (Clst [2], in_a).
Proof. vm_compute. reflexivity. Qed.

Lemma own_here : ent_clust (fs_type (vfs vol)) entry_a <> 0.
Proof. vm_compute. discriminate. Qed.

Lemma dots_known : in_a !! 1%nat = Some (dotdot_entry FS_FAT12 2 0).
Proof. vm_compute. reflexivity. Qed.

Lemma dots_named : ent_byte (dotdot_entry FS_FAT12 2 0) DIR_Name = 0x2E.
Proof. vm_compute. reflexivity. Qed.

Lemma ba_missing : walk FS_FAT12 dirs 0 [Shelf.other; name_a] = Some (Missing 3 name_a).
Proof. vm_compute. reflexivity. Qed.

Lemma ba_outside : not_inside (Pf := Sample.platform) vol dirs 0 Root root 0 entry_a path_ba 0 (Missing 3 name_a).
Proof. split; [by vm_compute|]. apply ba_walk. by vm_compute. Qed.

Lemma a_listed : listed in_a = [fresh Shelf.name].
Proof. by vm_compute. Qed.

Lemma a_plain : plain_names in_a.
Proof. unfold plain_names. rewrite a_listed. constructor; [by vm_compute|constructor]. Qed.

(** The answers when "a" is moved to "a/c" and then looked for. *)
Definition lost : FRESULT * FRESULT * FRESULT :=
  match f_rename (Pf := Sample.platform) (Some path_a) (Some path_ac) w with
  | Done (r, w1) =>
    match f_opendir (Pf := Sample.platform) (Shelf.dir Shelf.other) (Some path_a) w1, f_opendir (Pf := Sample.platform) (Shelf.dir Shelf.other) (Some path_ac) w1 with
    | Done (y1, _), Done (y2, _) => (r, y1.1, y2.1)
    | _, _ => (FR_INT_ERR, FR_INT_ERR, FR_INT_ERR)
    end
  | _ => (FR_INT_ERR, FR_INT_ERR, FR_INT_ERR)
  end.

Lemma lost_path : lost = (FR_OK, FR_NO_PATH, FR_NO_PATH).
Proof. vm_compute. reflexivity. Qed.

End House.

Lemma f_unlink_removes_witness :
  wp (f_unlink (Pf := Sample.platform) (Some Sample.path)) (fun r w' => r = FR_OK /\ exists v', hosts w' 1 v' /\ fat_entry v' 3 = Some 0 /\
    tree_in Sample.good v' {[ 0 := (Root, <[0%nat := removed Shelf.entry]> Shelf.entries) ]}) Shelf.w.
Proof.
  eapply wp_mono; [apply (f_unlink_removes (Pf := Sample.platform) Sample.good eq_refl (Sample.ready true) Shop.writable Shelf.w 1 Shelf.vol Shelf.dirs
    Shelf.shelf_hosts eq_refl Shelf.shelf_sound Shelf.dirs_in Shelf.dirs_apart Shop.fsi_ok Sample.path 0 0 Root Shelf.entries 0 Shelf.entry [2; 3; 5]
    ltac:(done) Shelf.path_leads ltac:(done) ltac:(done) Shop.a_occupies)|].
  - intros sc' sp' es'. change (tree_unlink _ _ _ _ _ _ _) with (tree_set Shelf.dirs 0 Root Shelf.entries 0 (removed Shelf.entry)).
    unfold tree_set, Shelf.dirs. rewrite insert_singleton_eq, lookup_singleton_Some. by intros [_ [= <- _]].
  - intros r w' (v' & Hh & H). change (read_only Shelf.entry || _) with false in H. destruct H as (-> & s & d & _ & _ & HT & H0). split; [done|].
    exists v'. split; [done|]. split; [apply H0; set_solver|]. change (tree_unlink _ _ _ _ _ _ _) with (tree_set Shelf.dirs 0 Root Shelf.entries 0 (removed Shelf.entry)) in HT.
    unfold tree_set, Shelf.dirs in HT. by rewrite insert_singleton_eq in HT.
Defined.

(** Two bytes go into the new file "b" and come back. *)
Lemma new_file_saved_witness :
  wp (f_open (Pf := Sample.platform) Sample.fil2 (Some Shop.path_b) (Z.lor FA_WRITE FA_CREATE_ALWAYS)) (fun r0 w0 => r0.1 = FR_OK /\
    wp (f_write r0.2 [x61; x62] 2) (fun r w1 => r.1.1 = FR_OK /\
      wp (reload (Pf := Sample.platform) Shop.path_b r.1.2 Sample.fil2 (replicate 5 x00) 5) (fun x _ => x.1.1.2 = FR_OK /\
        (r.2 = 2 -> x.2 = [x61; x62; x00; x00; x00])) w1) w0) Shelf.w.
Proof.
  eapply wp_mono; [apply (new_file_saved (Pf := Sample.platform) Sample.good eq_refl (Sample.ready true) Shop.writable Shelf.w 1 Shelf.vol Shelf.dirs
    Shelf.shelf_hosts eq_refl Shelf.shelf_sound Shelf.dirs_in Shelf.dirs_apart Shop.fsi_ok Shop.path_b 0 0 Root Shelf.entries Shelf.other
    Sample.fil2 [x61; x62] 2 Sample.fil2 (replicate 5 x00) 5 ltac:(done) Shop.b_missing ltac:(done)); done|].
  intros r0 w0 [(_ & v0 & _ & Hno & _)|(-> & H)]; [by vm_compute in Hno|]. split; [done|]. eapply wp_mono; [exact H|].
  intros [[r1 fp] n] w1 (-> & _ & Hx). split; [done|]. eapply wp_mono; [exact Hx|].
  intros [[[[r2 r3] r4] m] b] w' (_ & _ & -> & -> & ->). split; [done|]. cbn [snd fst]. intros ->. by vm_compute.
Defined.

(** "a.t" is overwritten with two bytes. *)
Lemma old_file_overwritten_witness :
  wp (f_open (Pf := Sample.platform) Sample.fil2 (Some Sample.path) (Z.lor FA_WRITE FA_CREATE_ALWAYS)) (fun r0 w0 => r0.1 = FR_OK /\
    wp (f_write r0.2 [x61; x62] 2) (fun r w1 => r.1.1 = FR_OK /\
      wp (reload (Pf := Sample.platform) Sample.path r.1.2 Sample.fil2 (replicate 5 x00) 5) (fun x _ => x.1.1.2 = FR_OK /\
        (r.2 = 2 -> x.2 = [x61; x62; x00; x00; x00])) w1) w0) Shelf.w.
Proof.
  eapply wp_mono; [apply (old_file_overwritten (Pf := Sample.platform) Sample.good eq_refl (Sample.ready true) Shop.writable Shelf.w 1 Shelf.vol Shelf.dirs
    Shelf.shelf_hosts eq_refl Shelf.shelf_sound Shelf.dirs_in Shelf.dirs_apart Shop.fsi_ok Sample.path 0 0 Root Shelf.entries 0 Shelf.entry [2; 3; 5]
    Sample.fil2 [x61; x62] 2 Sample.fil2 (replicate 5 x00) 5 ltac:(done) Shelf.path_leads ltac:(done) ltac:(done) Shop.a_occupies Shelf.dirs_off); done|].
  intros r0 w0 (v0 & _ & H). change (nz (Z.land (ent_attr Shelf.entry) (Z.lor AM_RDO AM_DIR))) with false in H. destruct H as (-> & _ & _ & H).
  split; [done|]. eapply wp_mono; [exact H|].
  intros [[r1 fp] n] w1 (-> & _ & Hx). split; [done|]. eapply wp_mono; [exact Hx|].
  intros [[[[r2 r3] r4] m] b] w' (_ & _ & -> & -> & ->). split; [done|]. cbn [snd fst]. intros ->. by vm_compute.
Defined.

Lemma directory_listed_witness :
  wp (list_path (Pf := Sample.platform) (Shelf.dir Shelf.other) Shop.path_root 10 Sample.info)
    (fun x _ => exists i, x.2 = [i] /\ fi_fsize i = 1200 /\ fi_fattrib i = AM_ARC) Shelf.w.
Proof.
  eapply wp_mono; [apply (directory_listed (Pf := Sample.platform) Sample.good (Sample.ready true) Shelf.w 1 Shelf.vol Shelf.dirs
    Shelf.shelf_hosts eq_refl Shelf.shelf_sound Shelf.dirs_in Shop.path_root 0 0 Root Shelf.entries (Shelf.dir Shelf.other) 10 Sample.info
    ltac:(done) Shop.root_named ltac:(done) Shop.root_plain); done|].
  intros [[r1 r2] l] w' (_ & _ & Hf & _). rewrite Shop.root_listed in Hf. cbn [take] in Hf. apply Forall2_cons_inv_l in Hf as (i & l' & Hi & Hf & ->).
  apply Forall2_nil_inv_l in Hf as ->. exists i. split; [done|]. destruct Hi as [_ Ha Hz _ _ _]. by rewrite Ha, Hz.
Defined.

Lemma listed_files_open_witness :
  wp (list_path (Pf := Sample.platform) (Shelf.dir Shelf.other) Shop.path_root 10 Sample.info) (fun x w1 => exists i, x.2 !! 0%nat = Some i /\
    wp (load_path (Pf := Sample.platform) (fi_fname i) Sample.fil2 (replicate 5 x00) 5)
      (fun y _ => y.2 = [x68; x65; x6c; x6c; x6f]) w1) Shelf.w.
Proof.
  eapply wp_mono; [apply (listed_files_open (Pf := Sample.platform) Sample.good eq_refl (Sample.ready true) Shelf.w 1 Shelf.vol Shelf.dirs
    Shelf.shelf_hosts eq_refl Shelf.shelf_sound Shelf.dirs_in Shop.path_root 0 Root Shelf.entries (Shelf.dir Shelf.other) 10 Sample.info
    0 0 Shelf.entry Shelf.name [2; 3; 5] Shelf.text Sample.fil2 (replicate 5 x00) 5
    ltac:(done) Shop.root_named ltac:(done) Shop.root_plain ltac:(done) ltac:(done) ltac:(lia) ltac:(by rewrite Shop.root_listed) ltac:(done) ltac:(done)
    ltac:(by vm_compute) Shop.a_proper ltac:(done) Shop.a_entry_file); done|].
  intros x w1 (i & Hi & H). exists i. split; [done|]. eapply wp_mono; [exact H|]. intros [[[r3 r4] c] b] w2 (_ & _ & -> & ->). by vm_compute.
Defined.

(** The scan finds 89 free clusters; a count of 50 is reported, though wrong. *)
Lemma f_getfree_reports_witness :
  wp (f_getfree (D := Ram.ram) (Some Sample.path)) (fun r w' => r = (FR_OK, Some 89, Some 1)) Shelf.w /\
  wp (f_getfree (D := Ram.ram) (Some Sample.path)) (fun r w' => r = (FR_OK, Some 50, Some 1)) (Shop.w_known 50).
Proof.
  split.
  - eapply wp_mono; [apply (proj1 (f_getfree_reports Sample.good (Sample.ready true) Shelf.w 1 Shelf.vol
      Shelf.shelf_hosts eq_refl Shelf.shelf_sound Sample.path 0 ltac:(done) ltac:(done)))|].
    intros r w' [-> _]. assert (free_space Shelf.vol = 89) as -> by (by vm_compute). done.
  - eapply wp_mono; [apply (proj1 (f_getfree_reports Sample.good (Sample.ready true) (Shop.w_known 50) 1 (Shop.known 50)
      (Shop.known_hosts 50) eq_refl (Shop.known_sound 50 ltac:(done)) Sample.path 0 ltac:(done) ltac:(done)))|].
    intros r w' [-> _]. assert (free_space (Shop.known 50) = 50) as -> by (by vm_compute). done.
Defined.

(** The count is known and right. *)
Lemma free_count_kept_witness :
  free_clst (vfs (Shop.known 89)) = 89 /\
  wp (create_chain 5) (fun x v' => count_right v' /\ free_count v' = free_count (Shop.known 89) - (if x =? 0 then 0 else 1)) (Shop.known 89) /\
  wp (remove_chain 2 0) (fun r v' => count_right v' /\ free_count v' = free_count (Shop.known 89) + 3) (Shop.known 89).
Proof.
  split; [reflexivity|].
  apply (free_count_kept Sample.good (Shop.known 89) (Shop.known_sound 89 ltac:(done)) 5 2 [2; 3; 5] 0);
    [apply Shop.known_right| |apply Shop.known_chain|by left].
  right. exists 2, [2; 3; 5]. split; [apply Shop.known_chain|done].
Defined.

(** The directory "b" is made and is empty; "a.t" exists. *)
Lemma f_mkdir_makes_witness :
  wp (f_mkdir (Pf := Sample.platform) (Some Shop.path_b)) (fun r w1 => r = FR_OK /\
    wp (list_path (Pf := Sample.platform) (Shelf.dir Shelf.other) Shop.path_b 10 Sample.info) (fun y _ => y = (FR_OK, FR_OK, [])) w1) Shelf.w /\
  wp (f_mkdir (Pf := Sample.platform) (Some Sample.path)) (fun r w1 => r = FR_EXIST) Shelf.w.
Proof.
  split.
  - destruct (wp_run _ _ _ (f_mkdir_makes (Pf := Sample.platform) Sample.good eq_refl (Sample.ready true) Shop.writable Shelf.w 1 Shelf.vol Shelf.dirs
      Shelf.shelf_hosts eq_refl Shelf.shelf_sound Shelf.dirs_in Shelf.dirs_apart Shop.fsi_ok Shop.path_b 0 (Missing 0 Shelf.other)
      (Shelf.dir Shelf.other) 10 Sample.info ltac:(done) Shop.b_missing ltac:(done) ltac:(done))) as (r & w1 & E & v1 & _ & _ & H).
    assert (match f_mkdir (Pf := Sample.platform) (Some Shop.path_b) Shelf.w with Done (r, _) => r | _ => FR_INT_ERR end = FR_OK) as R by (vm_compute; reflexivity).
    rewrite E in R. subst r. eapply wp_of_run; [exact E|]. split; [reflexivity|by apply H].
  - eapply wp_mono; [apply (f_mkdir_makes (Pf := Sample.platform) Sample.good eq_refl (Sample.ready true) Shop.writable Shelf.w 1 Shelf.vol Shelf.dirs
      Shelf.shelf_hosts eq_refl Shelf.shelf_sound Shelf.dirs_in Shelf.dirs_apart Shop.fsi_ok Sample.path 0 (Found 0 0)
      (Shelf.dir Shelf.other) 10 Sample.info ltac:(done) Shelf.path_leads ltac:(done) ltac:(done))|].
    by intros r w1 (v1 & _ & [-> _] & _).
Defined.

(** "a.t" becomes "b" and keeps its text. *)
Lemma f_rename_moves_witness :
  wp (f_rename (Pf := Sample.platform) (Some Sample.path) (Some Shop.path_b)) (fun r w1 => r = FR_OK /\
    wp (load_path (Pf := Sample.platform) Shop.path_b Sample.fil2 (replicate 5 x00) 5) (fun y _ => y.2 = [x68; x65; x6c; x6c; x6f]) w1) Shelf.w.
Proof.
  destruct (wp_run _ _ _ (f_rename_moves (Pf := Sample.platform) Sample.good eq_refl (Sample.ready true) Shop.writable Shelf.w 1 Shelf.vol Shelf.dirs
    Shelf.shelf_hosts eq_refl Shelf.shelf_sound Shelf.dirs_in Shelf.dirs_apart Shop.fsi_ok Sample.path 0 Shop.path_b 0 0 Root Shelf.entries 0 Shelf.entry
    (Missing 0 Shelf.other) [2; 3; 5] Shelf.text Sample.fil2 (replicate 5 x00) 5 ltac:(done) ltac:(done) Shelf.path_leads ltac:(done) ltac:(done) ltac:(done)
    Shop.b_missing ltac:(done) Shop.a_entry_file Shelf.dirs_off ltac:(done) ltac:(done))) as (r & w1 & E & v1 & _ & _ & H).
  assert (match f_rename (Pf := Sample.platform) (Some Sample.path) (Some Shop.path_b) Shelf.w with Done (r, _) => r | _ => FR_INT_ERR end = FR_OK) as R
    by (vm_compute; reflexivity).
  rewrite E in R. subst r. eapply wp_of_run; [exact E|]. split; [reflexivity|]. eapply wp_mono; [by apply H|].
  intros [[[r3 r4] c] b] w2 (_ & _ & -> & ->). by vm_compute.
Defined.

(** "a" becomes "b/a", with ".." in "b" and its file.  Into itself it should not
    go, but [f_rename] answers FR_OK then, too, and no path leads to the
    directory any more. *)
Lemma f_rename_directory_witness :
  wp (f_rename (Pf := Sample.platform) (Some House.path_a) (Some House.path_ba)) (fun r w1 => r = FR_OK /\
    (exists v1 T', hosts w1 1 v1 /\ tree_in Sample.good v1 T' /\ T' !! 2 = Some (Clst [2], rehomed FS_FAT12 3 House.in_a)) /\
    wp (list_path (Pf := Sample.platform) (Shelf.dir Shelf.other) House.path_ba 10 Sample.info) (fun y _ => y.1 = (FR_OK, FR_OK) /\ Forall2 entry_info [fresh Shelf.name] y.2) w1) House.w /\
  wp (f_rename (Pf := Sample.platform) (Some House.path_a) (Some House.path_ac)) (fun r w1 => r = FR_OK /\
    wp (f_opendir (Pf := Sample.platform) (Shelf.dir Shelf.other) (Some House.path_a)) (fun y _ => y.1 = FR_NO_PATH) w1 /\
    wp (f_opendir (Pf := Sample.platform) (Shelf.dir Shelf.other) (Some House.path_ac)) (fun y _ => y.1 = FR_NO_PATH) w1) House.w.
Proof.
  split.
  - destruct (wp_run _ _ _ (f_rename_directory (Pf := Sample.platform) Sample.good eq_refl (Sample.ready true) Shop.writable House.w 1 House.vol House.dirs
      House.house_hosts eq_refl House.house_sound House.house_in House.house_apart Shop.fsi_ok House.path_a 0 House.path_ba 0 0 Root House.root 0 House.entry_a
      [2] House.in_a (dotdot_entry FS_FAT12 2 0) (Missing 3 House.name_a) (Shelf.dir Shelf.other) 10 Sample.info ltac:(done) ltac:(done) House.a_leads House.root_known House.a_known House.a_dir
      House.own_known House.own_here House.own_here House.dots_known House.dots_named House.a_plain (House.ba_walk _ House.ba_missing) ltac:(done)
      House.ba_outside ltac:(done) ltac:(done))) as (r & w1 & E & v1 & Hh & Hp & H).
    assert (match f_rename (Pf := Sample.platform) (Some House.path_a) (Some House.path_ba) House.w with Done (r, _) => r | _ => FR_INT_ERR end = FR_OK) as R by (vm_compute; reflexivity).
    rewrite E in R. subst r. eapply wp_of_run; [exact E|]. split; [reflexivity|]. split.
    + destruct Hp as (sp2 & es2 & _ & [[Hd _]|(_ & s0 & d0 & T' & k2 & _ & [_ HT' _ _ _ _ Ho _ _])]); [discriminate Hd|]. exists v1, T'. split; [exact Hh|]. split; [exact HT'|exact Ho].
    + eapply wp_mono; [exact (H eq_refl)|]. intros [[r1 r2] l] w2 (H1 & H2 & Hf). cbn [fst snd] in *. subst r1 r2. split; [reflexivity|]. rewrite House.a_listed in Hf. exact Hf.
  - pose proof House.lost_path as R. unfold House.lost in R.
    destruct (f_rename (Some House.path_a) (Some House.path_ac) House.w) as [[r w1]| |] eqn:E; [|discriminate R..]. apply (wp_of_run _ _ _ _ r w1 E).
    destruct (f_opendir _ (Some House.path_a) w1) as [[y1 wa]| |] eqn:Ea; [|discriminate R..]. destruct (f_opendir _ (Some House.path_ac) w1) as [[y2 wb]| |] eqn:Eb; [|discriminate R..].
    injection R as -> R1 R2. split; [reflexivity|]. split; [apply (wp_of_run _ _ _ _ y1 wa Ea R1)|apply (wp_of_run _ _ _ _ y2 wb Eb R2)].
Defined.

(** Two bytes are added to "a.t". *)
Lemma append_saved_witness :
  wp (f_open (Pf := Sample.platform) Sample.fil2 (Some Sample.path) (Z.lor FA_WRITE FA_OPEN_APPEND)) (fun r0 w0 => r0.1 = FR_OK /\
    wp (f_write r0.2 [x61; x62] 2) (fun r w1 => r.1.1 = FR_OK /\
      wp (reload (Pf := Sample.platform) Sample.path r.1.2 Sample.fil2 (replicate 2000 x00) 2000) (fun x _ => x.1.1.2 = FR_OK /\
        (r.2 = 2 -> x.1.2 = 1202 /\ at_ x.2 0 = Some x68 /\ at_ x.2 1200 = Some x61 /\ at_ x.2 1201 = Some x62)) w1) w0) Shelf.w.
Proof.
  eapply wp_mono; [apply (append_saved (Pf := Sample.platform) Sample.good eq_refl (Sample.ready true) Shop.writable Shelf.w 1 Shelf.vol Shelf.dirs
    Shelf.shelf_hosts eq_refl Shelf.shelf_sound Shelf.dirs_in Shelf.dirs_apart Shop.fsi_ok Sample.path 0 0 Root Shelf.entries 0 Shelf.entry [2; 3; 5] Shelf.text
    Sample.fil2 [x61; x62] 2 Sample.fil2 (replicate 2000 x00) 2000 ltac:(done) Shelf.path_leads ltac:(done) ltac:(done) Shop.a_entry_file Shelf.dirs_off); done|].
  intros r0 w0 (_ & H). change (nz (Z.land (ent_attr Shelf.entry) (Z.lor AM_RDO AM_DIR))) with false in H. destruct H as (-> & H).
  split; [done|]. eapply wp_mono; [exact H|].
  intros [[r1 fp] n] w1 (-> & _ & Hx). split; [done|]. eapply wp_mono; [exact Hx|].
  intros [[[[r2 r3] r4] m] b] w' (_ & _ & -> & -> & ->). split; [done|]. cbn [snd fst]. intros ->. by vm_compute.
Defined.

Lemma f_stat_reports_witness :
  wp (f_stat (Pf := Sample.platform) (Some Sample.path) (Some Sample.info)) (fun r _ => r.1 = FR_OK /\
    exists i, r.2 = Some i /\ fi_fsize i = 1200 /\ fi_fattrib i = AM_ARC) Shelf.w /\
  wp (f_stat (Pf := Sample.platform) (Some Shop.path_b) (Some Sample.info)) (fun r _ => r.1 = FR_NO_FILE) Shelf.w.
Proof.
  split.
  - eapply wp_mono; [apply (f_stat_reports (Pf := Sample.platform) Sample.good eq_refl (Sample.ready true) Shelf.w 1 Shelf.vol Shelf.dirs
      Shelf.shelf_hosts eq_refl Shelf.shelf_sound Shelf.dirs_in Sample.path 0 (Found 0 0) Sample.info ltac:(done) Shelf.path_leads ltac:(done))|].
    intros r w' (_ & Hr & sp & es & e & i & HT & He & Hi & Hin). split; [done|]. exists i. split; [done|].
    unfold Shelf.dirs in HT. apply lookup_singleton_Some in HT as [_ [= <- <-]]. injection He as <-. destruct Hin as [_ Ha Hz _ _ _]. by rewrite Ha, Hz.
  - eapply wp_mono; [apply (f_stat_reports (Pf := Sample.platform) Sample.good eq_refl (Sample.ready true) Shelf.w 1 Shelf.vol Shelf.dirs
      Shelf.shelf_hosts eq_refl Shelf.shelf_sound Shelf.dirs_in Shop.path_b 0 (Missing 0 Shelf.other) Sample.info ltac:(done) Shop.b_missing ltac:(done))|].
    by intros r w' (_ & Hr).
Defined.
