(* ===== verification/Volumes.v ===== *)
(** * Volumes made, as theorems

    From [f_mkfs] to [f_mount], and on to the first file. *)

From stdpp Require Import base numbers list option gmap.
From Stdlib Require Import ZArith Lia.
From Stdlib Require Import Strings.Byte.
From S2P Require Import Prelude Types Bytes Diskio Window Fat Chain Live Dir Path Mount File DirApi Content Writing Seeking Refine Listing Entries Tree Persist Change Space Create Mkfs Plan Boot Format Fresh Empty Made Sample Names Dirs.

(** In an empty volume nothing is found. *)
Lemma empty_leads {Pf : Platform} {D : Type} `{!DiskIO D} `{!DiskIOLaws D} N (v : vol D) T pth rp j fn :
  empty_volume N v T -> cstr pth rp -> skips pth rp j -> path_names pth j [fn] -> leads v T pth rp (Missing 0 fn).
Proof.
  intros He Hc Hs Hp. split; [done|]. exists j, [fn]. split; [done|]. split; [done|]. destruct (ev_root _ _ _ He) as (sp & n & Hn & ->).
  cbn [walk]. rewrite lookup_singleton_eq. cbn. destruct n; [lia|]. done.
Qed.

Section volumes.
Context {Pf : Platform} {D : Type} `{!DiskIO D} `{!DiskIOLaws D} (N : Z) (HN : 0 <= N < U32).
Context (Hcount : counted (D := D) 0 N) (Hstart : starts (D := D) 0).
Context (h : gset Z) (w : world D) (Hw : winv false h w) (Hgood : good_drive 0 N (wdisk w)) (q : Z) (Hq : q ∈ h).

(** C6: what [f_mkfs] makes is found.  On a drive of [N] good sectors, for any
    options and any size of the work buffer, [f_mkfs] ends.  It fails without
    changing a sector when the buffer has no sector, when no FAT type is asked
    for, or when no cluster size fits, which does not happen on small drives
    with the default sizes.  Otherwise [f_mount] on any filesystem
    object gives a volume in order of the type that was chosen, with an empty
    root directory and all clusters free (but the one of the root directory of
    a FAT32 volume); it answers FR_NO_FILESYSTEM only when the alignment has
    left no cluster. *)
Theorem format_mounts drv rp opt b wlen :
  (forall s : world D, get_ldnumber (Some drv) s = Done ((0, rp), s)) -> mkfs_args (default defopt opt) (wlen / SS) b ->
  wp (f_mkfs (Some drv) opt (Some b) wlen) (fun r w1 =>
    (forall x, media (wdisk w1) 0 x = media (wdisk w) 0 x) /\
      (r.1 = FR_NOT_ENOUGH_CORE /\ wlen / SS = 0 \/
       r.1 = FR_INVALID_PARAMETER /\ Z.land (mk_fmt (default defopt opt)) (Z.lor FM_FAT FM_FAT32) = 0 \/
       r.1 = FR_MKFS_ABORTED /\ ~ small_drive N (default defopt opt)) \/
    r.1 = FR_OK /\ exists pl, fresh_drive 0 N (wdisk w1) pl /\ (small_drive N (default defopt opt) -> 0 < pl_nclst pl) /\
      wp (f_mount (Some q) (Some drv) 1) (fun r2 w2 =>
      if pl_nclst pl =? 0 then r2 = FR_NO_FILESYSTEM
      else r2 = FR_OK /\ at_ (FatFs w2) 0 = Some (Some q) /\ exists v T, hosts w2 q v /\ empty_volume N v T /\
        fs_type (vfs v) = pl_fsty pl /\ n_fatent (vfs v) = pl_nclst pl + 2 /\ free_count v = pl_nclst pl - (if pl_fsty pl =? FS_FAT32 then 1 else 0)) w1) w.
Proof using HN Hcount Hstart Hw Hgood Hq.
  intros Hld Ha. eapply wp_mono; [exact (f_mkfs_spec N HN Hcount Hstart h w drv rp opt b wlen Hw Hgood Hld Ha)|].
  intros r w1 (Hw1 & _ & _ & _ & [[Hr (pl & Hfr & Hpos)]|[Hm Hr]]); [right|left; exact (conj Hm Hr)]. split; [exact Hr|]. exists pl. split; [exact Hfr|]. split; [exact Hpos|].
  exact (f_mount_fresh N HN Hstart h w1 drv rp q pl Hw1 Hq Hld Hfr).
Qed.

(** C7: a formatted drive takes a file.  After [f_mkfs] and [f_mount],
    [f_open] with the path of a new file in the root directory succeeds, and
    the file is written, closed, opened by its path and read: it delivers the
    bytes that were written, as many as the volume has room for.  On small
    drives with the default sizes [f_mkfs] and [f_mount] succeed. *)
Theorem formatted_file_saved drv rpd opt b wlen pth rp j fn fp0 buff btw fp1 buff' btr :
  len (dp_fn uninit_dir) = 12 -> drive_ready (D := D) true -> drive_writable (D := D) ->
  (forall s : world D, get_ldnumber (Some drv) s = Done ((0, rpd), s)) -> mkfs_args (default defopt opt) (wlen / SS) b ->
  (forall s : world D, get_ldnumber (Some pth) s = Done ((0, rp), s)) -> cstr pth rp -> skips pth rp j -> path_names pth j [fn] ->
  0 <= btw <= len buff -> btw < U32 -> 0 <= btr <= len buff' -> btr < U32 ->
  wp (f_mkfs (Some drv) opt (Some b) wlen) (fun r w1 => (small_drive N (default defopt opt) -> 0 < wlen / SS -> r.1 = FR_OK) /\ (r.1 = FR_OK ->
    wp (f_mount (Some q) (Some drv) 1) (fun r2 w2 => (r2 = FR_NO_FILESYSTEM /\ ~ small_drive N (default defopt opt)) \/ r2 = FR_OK /\
      wp (f_open fp0 (Some pth) (Z.lor FA_WRITE FA_CREATE_ALWAYS)) (fun r3 w3 => r3.1 = FR_OK /\
        exists v, hosts w2 q v /\ wp (f_write r3.2 buff btw) (saved (vfs v) q pth [] buff btw fp1 buff' btr) w3) w2) w1)) w.
Proof using All.
  intros Hun Hrdy Hwrt Hldd Ha Hld Hc Hsk Hpn Hb1 Hb2 Hb3 Hb4. eapply wp_mono; [exact (f_mkfs_spec N HN Hcount Hstart h w drv rpd opt b wlen Hw Hgood Hldd Ha)|].
  intros r w1 (Hw1 & _ & _ & _ & Hpost). split.
  { intros Hsm Hwl. destruct Hpost as [[H _]|[_ [[_ H]|[[_ H]|[_ H]]]]]; [done|lia| |done]. pose proof (sm_fmt _ _ Hsm) as Hf. unfold nz in Hf.
    rewrite Z.land_lor_distr_r, Z.lor_eq_0_iff in H. destruct H as [H _]. by rewrite H in Hf. }
  intros Hr. assert (exists pl, fresh_drive 0 N (wdisk w1) pl /\ (small_drive N (default defopt opt) -> 0 < pl_nclst pl)) as (pl & Hfr & Hpos).
  { destruct Hpost as [[_ H]|[_ [[H _]|[[H _]|[H _]]]]]; [done|congruence..]. }
  eapply wp_mono; [exact (f_mount_fresh N HN Hstart h w1 drv rpd q pl Hw1 Hq Hldd Hfr)|]. intros r2 w2 H. destruct (Z.eqb_spec (pl_nclst pl) 0) as [Hz|_]; [left; split; [done|]; intros Hsm; specialize (Hpos Hsm); lia|right].
  destruct H as (-> & Hreg & v & T & Hh & He & _). split; [done|]. pose proof (empty_leads N v T pth rp j fn He Hc Hsk Hpn) as Hle.
  destruct (ev_root _ _ _ He) as (sp & n & Hn & ET). destruct He as [E1 _ E3 E4 E5 _ _ _].
  eapply wp_mono; [apply (new_saved (fun s => 0 <= s < N) Hun Hrdy Hwrt w2 q v T Hh Hreg E1 E3 E4 E5 pth rp 0 sp (replicate n zero_entry) fn fp0 buff btw fp1 buff' btr); try done|].
  { rewrite ET. by rewrite lookup_singleton_eq. }
  intros r3 w3 [(_ & v0 & _ & Hno & _)|[-> Hx]]; [|split; [done|by exists v]]. destruct n; [lia|]. done.
Qed.

End volumes.


(** ** Applied to the RAM disk *)

Module Blank.

(** The whole disk as one volume: the default sizes without alignment, and
    blocks as large as the disk; a work buffer of two sectors; the path of the drive. *)
Definition plain : MKFS_PARM := mkMKFS_PARM (Z.lor FM_FAT FM_SFD) 0 1 0 0.
Definition coarse : MKFS_PARM := mkMKFS_PARM (Z.lor FM_FAT FM_SFD) 0 128 0 0.
Definition work : list byte := replicate (Z.to_nat 1024) x41.
Definition drive : list byte := [x00].

Lemma ram_counts : counted (D := Ram.ram) 0 128.
Proof. by intros d _. Qed.

Lemma ram_starts : starts (D := Ram.ram) 0.
Proof. by intros d _. Qed.

Lemma ram_good : good_drive (D := Ram.ram) 0 128 Sample.ram.
Proof. split; [apply Sample.ram_ok|]. by intros x Hx. Qed.

Lemma args opt : opt = plain \/ opt = coarse -> mkfs_args opt (1024 / SS) work.
Proof. unfold work. intros [-> | ->]; (split; [done|done|]; rewrite len_replicate by done; done). Qed.

Lemma number path : path = drive \/ path = Shop.path_b -> forall s : world Ram.ram, get_ldnumber (Some path) s = Done ((0, 0), s).
Proof. by intros [-> | ->]. Qed.

Lemma plain_small : small_drive 128 plain.
Proof. by split. Qed.

(** The answers of the two calls. *)
Definition answers (opt : MKFS_PARM) : FRESULT * FRESULT :=
  match f_mkfs (Some drive) (Some opt) (Some work) 1024 Sample.w with
  | Done ((r, _), w1) => match f_mount (Some 1) (Some drive) 1 w1 with Done (r2, _) => (r, r2) | _ => (r, FR_INT_ERR) end
  | _ => (FR_INT_ERR, FR_INT_ERR)
  end.

Lemma plain_answers : answers plain = (FR_OK, FR_OK).
Proof. vm_compute. reflexivity. Qed.

Lemma coarse_answers : answers coarse = (FR_OK, FR_NO_FILESYSTEM).
Proof. vm_compute. reflexivity. Qed.

Lemma b_names : path_names (Pf := Sample.platform) Shop.path_b 0 [Shelf.other].
Proof.
  change [Shelf.other] with [fix_ddem Shelf.other]. apply (pn_last (Pf := Sample.platform) Shop.path_b 0 Shelf.other 0 2); [by vm_compute| |done].
  exists x00. split; [done|]. split; [done|]. by left.
Qed.

End Blank.

(** With the default sizes the volume is found and empty; with blocks as large
    as the disk [f_mkfs] answers FR_OK too, and nothing is found. *)
Lemma format_mounts_witness :
  wp (f_mkfs (Some Blank.drive) (Some Blank.plain) (Some Blank.work) 1024) (fun r w1 => r.1 = FR_OK /\
    wp (f_mount (Some 1) (Some Blank.drive) 1) (fun r2 w2 => r2 = FR_OK /\ exists v T, hosts w2 1 v /\ empty_volume 128 v T) w1) Sample.w /\
  wp (f_mkfs (Some Blank.drive) (Some Blank.coarse) (Some Blank.work) 1024) (fun r w1 => r.1 = FR_OK /\
    wp (f_mount (Some 1) (Some Blank.drive) 1) (fun r2 w2 => r2 = FR_NO_FILESYSTEM) w1) Sample.w.
Proof.
  split.
  - destruct (wp_run _ _ _ (format_mounts 128 ltac:(done) Blank.ram_counts Blank.ram_starts {[ 1 ]} Sample.w (Sample.world_ok false) Blank.ram_good 1
      ltac:(by apply elem_of_singleton) Blank.drive 0 (Some Blank.plain) Blank.work 1024 (Blank.number _ (or_introl eq_refl)) (Blank.args _ (or_introl eq_refl)))) as ([r b] & w1 & E & H).
    pose proof Blank.plain_answers as A. unfold Blank.answers in A. rewrite E in A. eapply wp_of_run; [exact E|].
    destruct H as [[_ H]|[Hr (pl & _ & _ & H)]].
    { assert (r = FR_OK) as -> by (destruct (f_mount _ _ _ w1) as [[? ?]| |]; congruence). destruct H as [[H _]|[[H _]|[H _]]]; discriminate H. }
    split; [exact Hr|]. destruct (wp_run _ _ _ H) as (r2 & w2 & E2 & H2). rewrite E2 in A. injection A as _ ->. eapply wp_of_run; [exact E2|]. split; [reflexivity|].
    destruct (pl_nclst pl =? 0); [discriminate H2|]. destruct H2 as (_ & _ & v & T & Hh & He & _). exists v, T. exact (conj Hh He).
  - destruct (wp_run _ _ _ (format_mounts 128 ltac:(done) Blank.ram_counts Blank.ram_starts {[ 1 ]} Sample.w (Sample.world_ok false) Blank.ram_good 1
      ltac:(by apply elem_of_singleton) Blank.drive 0 (Some Blank.coarse) Blank.work 1024 (Blank.number _ (or_introl eq_refl)) (Blank.args _ (or_intror eq_refl)))) as ([r b] & w1 & E & H).
    pose proof Blank.coarse_answers as A. unfold Blank.answers in A. rewrite E in A. eapply wp_of_run; [exact E|].
    destruct H as [[_ H]|[Hr (pl & _ & _ & H)]].
    { assert (r = FR_OK) as -> by (destruct (f_mount _ _ _ w1) as [[? ?]| |]; congruence). destruct H as [[H _]|[[H _]|[H _]]]; discriminate H. }
    split; [exact Hr|]. destruct (wp_run _ _ _ H) as (r2 & w2 & E2 & H2). rewrite E2 in A. injection A as _ ->. eapply wp_of_run; [exact E2|]. reflexivity.
Defined.

(** Two bytes go into the file "b" of a drive just formatted and come back. *)
Lemma formatted_file_saved_witness :
  wp (f_mkfs (Some Blank.drive) (Some Blank.plain) (Some Blank.work) 1024) (fun r w1 => r.1 = FR_OK /\
    wp (f_mount (Some 1) (Some Blank.drive) 1) (fun r2 w2 => r2 = FR_OK /\
      wp (f_open (Pf := Sample.platform) Sample.fil2 (Some Shop.path_b) (Z.lor FA_WRITE FA_CREATE_ALWAYS)) (fun r3 w3 => r3.1 = FR_OK /\
        wp (f_write r3.2 [x61; x62] 2) (fun r4 w4 => r4.1.1 = FR_OK /\
          wp (reload (Pf := Sample.platform) Shop.path_b r4.1.2 Sample.fil2 (replicate 5 x00) 5) (fun x _ => x.1.1.2 = FR_OK /\
            (r4.2 = 2 -> x.2 = [x61; x62; x00; x00; x00])) w4) w3) w2) w1) Sample.w.
Proof.
  destruct (wp_run _ _ _ (formatted_file_saved (Pf := Sample.platform) 128 ltac:(done) Blank.ram_counts Blank.ram_starts {[ 1 ]} Sample.w (Sample.world_ok false) Blank.ram_good 1
    ltac:(by apply elem_of_singleton) Blank.drive 0 (Some Blank.plain) Blank.work 1024 Shop.path_b 0 0 Shelf.other Sample.fil2 [x61; x62] 2 Sample.fil2 (replicate 5 x00) 5
    eq_refl (Sample.ready true) Shop.writable (Blank.number _ (or_introl eq_refl)) (Blank.args _ (or_introl eq_refl)) (Blank.number _ (or_intror eq_refl))
    ltac:(by split; [|split; [|exists 1]]) ltac:(split; [done|]; split; [intros; lia|]; by exists x62) Blank.b_names ltac:(done) ltac:(done) ltac:(done) ltac:(done)))
    as ([r b] & w1 & E & H).
  eapply wp_of_run; [exact E|]. cbn [fst default] in *. destruct H as [Hr H]. specialize (Hr Blank.plain_small eq_refl). split; [exact Hr|].
  eapply wp_mono; [exact (H Hr)|]. intros r2 w2 [[_ Hn]|[-> H2]]; [destruct (Hn Blank.plain_small)|]. split; [reflexivity|]. eapply wp_mono; [exact H2|]. intros r3 w3 (-> & v & _ & H3). split; [reflexivity|]. eapply wp_mono; [exact H3|].
  intros [[r4 fp] n] w4 (-> & _ & Hx). split; [reflexivity|]. eapply wp_mono; [exact Hx|].
  intros [[[[r5 r6] r7] m] c] w' (_ & _ & -> & -> & ->). split; [reflexivity|]. cbn [snd fst]. intros ->. by vm_compute.
Defined.
