(* ===== verification/Core.v ===== *)
(** * The core, as theorems

    What the sector cache, the FAT routines, the RAM disk and the name parser
    promise, each stated of the functions themselves and applied to the
    sample volume. *)

From stdpp Require Import base numbers list option gmap.
From Stdlib Require Import ZArith Lia.
From Stdlib Require Import Strings.Byte.
From S2P Require Import Prelude Types Bytes Diskio Window Fat Chain Live Dir Path Mount Sample.

Section core.
Context {Pf : Platform} {D : Type} `{!DiskIO D} `{!DiskIOLaws D}.
Implicit Types (v : vol D).

(** [G] is a set of sectors that can be read and written without an error,
    where that is claimed. *)
Context (G : Z -> Prop).

(** A specification, and what a reliable medium adds to it. *)
Lemma wp_when_alive {A} v (m : M (vol D) A) P Q :
  vol_ok v -> wp m Q v -> live G (geom (vfs v)) m P ->
  wp m (fun a v' => Q a v' /\ (alive G v -> alive G v' /\ P a)) v.
Proof using Type.
  intros Hv Hm Hl. destruct (wp_run _ _ _ Hm) as (a & v' & E & HQ). eapply wp_of_run; [exact E|].
  split; [done|]. intros Ha. pose proof (Hl v (sv_refl _ Hv) Ha) as Hw. unfold wpt in Hw. rewrite E in Hw.
  by destruct Hw as [[_ ?] ?].
Qed.

(** C18: [move_window] is transparent.  On a coherent volume it ends; whatever
    sector it loads and whatever it writes back, the volume shows the same
    content in every sector outside the FAT copy, stays coherent and keeps its
    geometry.  On success the window holds what the volume showed of [sect]
    before the call.  The only failure is FR_DISK_ERR, and there is none when
    the sector of the window, those of the table and [sect] are good. *)
Theorem move_window_transparent v sect :
  vol_ok v -> coherent v -> 0 <= sect < U32 ->
  wp (move_window sect) (fun r v' =>
    sv (geom (vfs v)) v' /\ coherent v' /\
    (forall s, plain (vfs v) s -> lview v' s = lview v s) /\
    (r = FR_OK -> winsect (vfs v') = sect /\
                  (plain (vfs v) sect -> lview v sect = Some (win (vfs v')))) /\
    (r <> FR_OK -> r = FR_DISK_ERR) /\
    (alive G v -> G sect -> r = FR_OK)) v.
Proof using Type.
  intros Hv Hc Hs.
  assert (wpt false (move_window sect) (fun r _ => alive G v -> G sect -> r = FR_OK) v) as Hg.
  { unfold wpt. destruct (move_window sect v) as [[r v']| |] eqn:E; [|by pose proof (move_window_spec true v sect Hv Hs) as Hw; unfold wpt in Hw; rewrite E in Hw|done].
    intros Ha Hd. pose proof (move_window_good G v sect Hv Ha Hs Hd) as Hw. unfold wpt in Hw. rewrite E in Hw. apply Hw. }
  eapply wp_mono; [apply (wp_conj_partial _ _ _ _ _ (move_window_spec true v sect Hv Hs) Hg)|].
  intros r v' [(Hsv & _ & Hok & Hko & Hco) Hlive]. destruct (Hco Hc) as [Hc' Hl].
  split_and!; try done; [apply Hsv..|].
  intros Hr. specialize (Hok Hr). split; [done|]. intros Hp. rewrite <- Hl by done.
  unfold lview. by rewrite Hok, Z.eqb_refl.
Qed.

(** C17: [get_fat] refines the FAT as a table.  On a coherent, consistent
    volume it ends and changes nothing the volume shows; for a cluster of the
    data area it returns the value of the table's entry (the 12-, 16- or
    28-bit field, also across a sector boundary) or the disk-error code, and 1
    for any other cluster number.  On a reliable medium it is exact. *)
Theorem get_fat_refines v c :
  vol_ok v -> coherent v -> fat_layout (vfs v) ->
  wp (get_fat c) (fun x v' =>
    unchanged v v' /\
    (valid_clst (vfs v) c -> x = 0xFFFFFFFF \/ fat_entry v c = Some x) /\
    (~ valid_clst (vfs v) c -> x = 1) /\
    (alive G v -> alive G v' /\ (valid_clst (vfs v) c -> fat_entry v c = Some x))) v.
Proof using Type.
  intros Hv Hc Hl. eapply wp_mono; [apply (wp_when_alive _ _ _ _ Hv (get_fat_spec true v c Hv Hc Hl)
    (live_get_fat_any G _ Hl c))|].
  intros x v' [(Hu & Hin & Hout) Ha]. split_and!; try done. intros Hav. destruct (Ha Hav) as [Ha' [Hx _]].
  split; [done|]. intros Hcl. by destruct (Hin Hcl).
Qed.

(** C14: [put_fat] writes one entry.  It leaves every other entry of the table
    and every sector outside the table as they were; on success the entry
    holds the low 12, 16 or 28 bits of the value; the only failure is
    FR_DISK_ERR, and there is none on a reliable medium. *)
Theorem put_fat_refines v c val :
  vol_ok v -> coherent v -> fat_layout (vfs v) -> valid_clst (vfs v) c ->
  wp (put_fat c val) (fun r v' =>
    put_effect v c v' /\
    (r = FR_OK -> fat_entry v' c = Some (ent_mask (fs_type (vfs v)) val)) /\
    (r <> FR_OK -> r = FR_DISK_ERR) /\
    (alive G v -> alive G v' /\ r = FR_OK)) v.
Proof using Type.
  intros Hv Hc Hl Hcl. eapply wp_mono; [apply (wp_when_alive _ _ _ _ Hv (put_fat_spec true v c val Hv Hc Hl Hcl)
    (live_put_fat G _ c Hl Hcl val))|].
  by intros r v' [(? & ? & ?) Ha].
Qed.

(** C16: [remove_chain] frees a chain.  For a chain [l] that starts at [c] and
    a predecessor [pclst] outside it (or 0), success leaves exactly the
    clusters of [l] free, ends the chain at [pclst], changes nothing else and
    brings the free count up to date.  On a reliable medium it succeeds. *)
Theorem remove_chain_frees v c pclst l :
  vol_ok v -> coherent v -> fat_layout (vfs v) -> chain v c l ->
  pclst = 0 \/ (valid_clst (vfs v) pclst /\ pclst ∉ l) ->
  wp (remove_chain c pclst) (fun r v' =>
    (r = FR_OK \/ r = FR_DISK_ERR) /\
    (r = FR_OK -> table_is v (cut_table v pclst l) v' /\
       free_clst (vfs v') = count_freed (n_fatent (vfs v)) (free_clst (vfs v)) (len l)) /\
    (alive G v -> alive G v' /\ r = FR_OK)) v.
Proof using Type.
  intros Hv Hc Hl Hch Hp.
  eapply wp_mono; [apply (wp_when_alive _ _ _ _ Hv (remove_chain_spec true v c pclst l Hv Hc Hl Hch Hp)
    (live_remove_chain G _ Hl c pclst))|].
  intros r v' [[Hr Hok] Ha]. split_and!; try done. intros Hav. destruct (Ha Hav) as [? ?].
  split; [done|]. by destruct Hr.
Qed.

(** [remove_chain] ends on any table: loops, cross links, links to free
    or to impossible clusters.  It makes no bad access and keeps the volume
    well formed. *)
Theorem remove_chain_ends v c pclst :
  vol_ok v -> fat_layout (vfs v) ->
  wp (remove_chain c pclst) (fun r v' =>
    sv (geom (vfs v)) v' /\ (r = FR_OK \/ r = FR_DISK_ERR \/ r = FR_INT_ERR)) v.
Proof using Type.
  intros Hv Hl. apply remove_chain_safe; [|by apply sv_refl]. intros _. by apply layout_of_geom.
Qed.

(** C15: [create_chain] allocates.  It ends in 1 when the table is damaged (an
    entry points to cluster 1, or [clst] is not in a chain), in 0xFFFFFFFF on a
    disk error (never on a reliable medium), in 0 when [clst] ends its chain
    and the volume is full (the free count is 0 or no cluster of the table is
    free), in the successor
    [clst] already has, or in a cluster that was free and that is now the end
    of the chain, linked from [clst] if that is not 0, with the allocation
    information up to date. *)
Theorem create_chain_allocates v clst :
  vol_ok v -> coherent v -> fat_layout (vfs v) -> 0 <= clst < U32 ->
  wp (create_chain clst) (fun x v' =>
    ((x = 1 /\ bad_link v clst) \/ x = 0xFFFFFFFF \/
     (x = 0 /\ table_is v (fat_entry v) v' /\ alloc_info (vfs v') = alloc_info (vfs v) /\
       (clst <> 0 -> exists e, fat_entry v clst = Some e /\ n_fatent (vfs v) <= e) /\
       (free_clst (vfs v) = 0 \/ forall c, valid_clst (vfs v) c -> fat_entry v c <> Some 0)) \/
     (valid_clst (vfs v) x /\ clst <> 0 /\ fat_entry v clst = Some x /\ table_is v (fat_entry v) v') \/
     (valid_clst (vfs v) x /\ fat_entry v x = Some 0 /\
       (clst <> 0 -> exists e, fat_entry v clst = Some e /\ n_fatent (vfs v) <= e) /\
       table_is v (linked_table v clst x) v' /\ last_clst (vfs v') = x /\
       free_clst (vfs v') = count_taken (n_fatent (vfs v)) (free_clst (vfs v)))) /\
    (alive G v -> alive G v' /\ x <> 0xFFFFFFFF)) v.
Proof using Type.
  intros Hv Hc Hl Hcl.
  eapply wp_mono; [apply (wp_when_alive _ _ _ _ Hv (create_chain_spec true v clst Hv Hc Hl (proj1 Hcl))
    (live_create_chain G _ (proj1 Hv) Hl clst Hcl))|].
  by intros x v' [? ?].
Qed.

(** C30: [create_name] computes the 8.3 name.  For a NUL-terminated path it
    ends, touches nothing but [fn], accepts exactly the segments that the
    reference [sfn_of] accepts, stores the reference's eleven bytes (a leading
    0xE5 replaced by 0x05), and stops at the end of the segment and of the
    separators after it, with NS_LAST set at the end of the path. *)
Theorem create_name_reference (dp : DIR) (p : list byte) (path : Z) (s : vol D) :
  cstr p path -> len (dp_fn dp) = 12 ->
  exists r, create_name dp p path s = Done (r, s) /\ create_name_post dp p path r.
Proof using Type. intros Hp Hf. apply runs_done. by apply create_name_spec. Qed.

End core.

(** A buffer is determined by its sectors. *)
Lemma sectors_ext (n : Z) (a b : list byte) :
  len a = n * SS -> len b = n * SS ->
  (forall i, 0 <= i < n -> slice a (i * SS) SS = slice b (i * SS) SS) -> a = b.
Proof.
  intros Ha Hb Heq. apply at_ext. intros i.
  destruct (Z.lt_ge_cases i 0); [by rewrite !at_neg|].
  destruct (Z.lt_ge_cases i (n * SS)); [|by rewrite !at_None by lia].
  assert (0 <= i / SS < n /\ 0 <= i mod SS < SS /\ i = i / SS * SS + i mod SS) as (H1 & H2 & H3)
    by (unfold SS in *; Z.to_euclidean_division_equations; lia).
  destruct (slice_is_Some a (i / SS * SS) SS) as (x & Hx & _); [unfold SS in *; lia..|].
  pose proof (at_slice _ _ _ _ (i mod SS) Hx) as E1. rewrite Heq in Hx by done.
  pose proof (at_slice _ _ _ _ (i mod SS) Hx) as E2. rewrite <- H3 in E1, E2.
  rewrite (proj2 (Z.leb_le 0 _)), (proj2 (Z.ltb_lt _ SS)) in E1, E2 by lia. cbn [andb] in E1, E2. congruence.
Qed.

(** C35: the RAM disk keeps what it is given.  Inside the array a write
    succeeds and a read of the same range then returns the data written, and
    sectors outside the range keep their content.  A range that ends behind
    the array is refused by both, with [RES_PARERR], and neither the disk nor
    the buffer of the reader changes. *)
Theorem ram_write_read (d : Ram.ram) (p : Z) (buf buf' : list byte) (s n : Z) :
  Ram.ram_ok d -> 0 <= s -> 0 < n -> len buf = n * SS -> len buf' = n * SS ->
  exists r d', Ram.disk_write p buf s n d = Done (r, d') /\ Ram.ram_ok d' /\
    (r = RES_OK <-> s + n <= Ram.DISK_SECTORS) /\ (r <> RES_OK -> d' = d) /\
    (forall x, x < s \/ s + n <= x -> Ram.sector d' x = Ram.sector d x) /\
    (r = RES_OK -> Ram.disk_read p buf' s n d' = Done ((RES_OK, buf), d')) /\
    (Ram.DISK_SECTORS < s + n ->
       r = RES_PARERR /\ Ram.disk_read p buf' s n d = Done ((RES_PARERR, buf'), d)).
Proof.
  intros Hd Hs Hn Hb Hb'.
  destruct (wp_run _ _ _ (Ram.disk_write_spec d p buf s n Hd Hs ltac:(lia) Hb))
    as (r & d' & Hrun & Hd' & Hr & Hbad & Hfr & Hok).
  assert (r = RES_OK <-> s + n <= Ram.DISK_SECTORS) as Hr' by (rewrite Hr; lia).
  exists r, d'. split_and!; try done; [apply Hr'..| |]; [intros ->|].
  - destruct (wp_run _ _ _ (Ram.disk_read_spec d' p buf' s n Hd' Hs ltac:(lia) Hb'))
      as ([r2 b2] & d2 & -> & -> & Hl & Hr2 & Hok2). cbn [fst snd] in *.
    assert (r2 = RES_OK) as -> by (by apply Hr2, Hr). f_equal. f_equal. f_equal.
    apply (sectors_ext n); [congruence|done|]. intros i Hi. rewrite <- Hok2 by done. by apply Hok.
  - intros Hout. assert (Ram.in_bounds s n = false) as Hi.
    { apply not_true_is_false. rewrite Ram.in_bounds_iff by lia. lia. }
    revert Hrun. unfold Ram.disk_write, Ram.disk_read. rewrite Hi. cbn. by intros [= <- _].
Qed.

(** Loading a test case: [fuzz_disk_load] copies the first bytes of the
    input, at most the size of the disk, and clears the rest of the array. *)
Theorem fuzz_disk_load_image (d : Ram.ram) (data : list byte) (n : Z) :
  Ram.ram_ok d -> 0 <= n <= len data ->
  exists d', Ram.fuzz_disk_load data n d = Done (tt, d') /\ Ram.ram_ok d' /\
    forall i, 0 <= i < Ram.DISK_SIZE ->
      at_ (Ram.disk d') i = if i <? n then at_ data i else Some x00.
Proof.
  intros Hd Hn. destruct (wp_run _ _ _ (Ram.fuzz_disk_load_spec d data n Hd Hn)) as ([] & d' & H & H1 & H2).
  by exists d'.
Qed.

(** ** Applied to the sample volume *)

Lemma move_window_transparent_witness :
  wp (move_window 2) (fun r v' => r = FR_OK) Sample.vol.
Proof.
  eapply wp_mono; [apply (move_window_transparent Sample.good Sample.vol 2)|].
  - apply Sample.vol_is_ok.
  - apply Sample.vol_coherent.
  - done.
  - intros r v' (_ & _ & _ & _ & _ & H). by apply H; [apply Sample.vol_alive|].
Defined.

Lemma get_fat_refines_witness :
  wp (get_fat 2) (fun x v' => x = 3) Sample.vol.
Proof.
  eapply wp_mono; [apply (get_fat_refines Sample.good Sample.vol 2)|].
  - apply Sample.vol_is_ok.
  - apply Sample.vol_coherent.
  - apply Sample.vol_layout.
  - intros x v' (_ & _ & _ & H). destruct (H Sample.vol_alive) as [_ E]. specialize (E ltac:(done)).
    destruct Sample.entries as [E2 _]. congruence.
Defined.

Lemma put_fat_refines_witness :
  wp (put_fat 4 0x1005) (fun r v' => r = FR_OK /\ fat_entry v' 4 = Some 5) Sample.vol.
Proof.
  eapply wp_mono; [apply (put_fat_refines Sample.good Sample.vol 4 0x1005)|].
  - apply Sample.vol_is_ok.
  - apply Sample.vol_coherent.
  - apply Sample.vol_layout.
  - done.
  - intros r v' (_ & H & _ & Ha). destruct (Ha Sample.vol_alive) as [_ ->]. split; [done|by apply H].
Defined.

Lemma remove_chain_frees_witness :
  wp (remove_chain 2 0) (fun r v' => r = FR_OK /\ fat_entry v' 3 = Some 0) Sample.vol.
Proof.
  eapply wp_mono; [apply (remove_chain_frees Sample.good Sample.vol 2 0 [2; 3; 5])|].
  - apply Sample.vol_is_ok.
  - apply Sample.vol_coherent.
  - apply Sample.vol_layout.
  - apply Sample.file_chain.
  - by left.
  - intros r v' (_ & H & Ha). destruct (Ha Sample.vol_alive) as [_ ->].
    destruct (H eq_refl) as [(_ & _ & Ht & _) _]. split; [done|]. by rewrite Ht.
Defined.

Lemma remove_chain_ends_witness :
  wp (remove_chain 6 0) (fun r v' => r = FR_OK \/ r = FR_DISK_ERR \/ r = FR_INT_ERR) Sample.vol.
Proof.
  eapply wp_mono; [apply (remove_chain_ends Sample.vol 6 0)|].
  - apply Sample.vol_is_ok.
  - apply Sample.vol_layout.
  - by intros r v' [_ H].
Defined.

Lemma create_chain_allocates_witness :
  wp (create_chain 5) (fun x v' => x <> 0xFFFFFFFF /\ x <> 2) Sample.vol.
Proof.
  eapply wp_mono; [apply (create_chain_allocates Sample.good Sample.vol 5)|].
  - apply Sample.vol_is_ok.
  - apply Sample.vol_coherent.
  - apply Sample.vol_layout.
  - done.
  - destruct Sample.entries as (E2 & _ & _ & E5 & _). intros x v' [Hx Ha]. split; [by apply Ha, Sample.vol_alive|].
    intros ->. destruct Hx as [[? _]|[?|[[? _]|[(_ & _ & E & _)|(_ & E & _)]]]]; congruence.
Defined.

Lemma create_name_reference_witness :
  exists r, create_name (Pf := Sample.platform) (@uninit_dir Sample.platform) [x61; x2e; x62; x00] 0 Sample.vol
              = Done (r, Sample.vol) /\ r.1.1 = FR_OK.
Proof.
  destruct (create_name_reference (Pf := Sample.platform) (@uninit_dir Sample.platform)
              [x61; x2e; x62; x00] 0 Sample.vol) as ([[res dp] j] & H & Hp).
  - split; [done|]. split; [done|]. by exists 3.
  - reflexivity.
  - exists (res, dp, j). split; [exact H|]. apply Hp.
Defined.

Lemma ram_write_read_witness :
  exists d', Ram.disk_write 0 (replicate (Z.to_nat 512) x41) 127 1 Sample.ram = Done (RES_OK, d') /\
    Ram.disk_read 0 (replicate (Z.to_nat 512) x00) 127 1 d' = Done ((RES_OK, replicate (Z.to_nat 512) x41), d') /\
    Ram.disk_read 0 (replicate (Z.to_nat 512) x00) 128 1 d' = Done ((RES_PARERR, replicate (Z.to_nat 512) x00), d').
Proof.
  destruct (ram_write_read Sample.ram 0 (replicate (Z.to_nat 512) x41) (replicate (Z.to_nat 512) x00) 127 1)
    as (r & d' & H1 & Hd' & H2 & _ & _ & H3 & _).
  - apply Sample.ram_ok.
  - done.
  - done.
  - by rewrite len_replicate.
  - by rewrite len_replicate.
  - assert (r = RES_OK) as -> by (by apply H2). exists d'. split; [exact H1|]. split; [by apply H3|].
    destruct (ram_write_read d' 0 (replicate (Z.to_nat 512) x41) (replicate (Z.to_nat 512) x00) 128 1)
      as (r2 & d2 & _ & _ & _ & _ & _ & _ & H4); [done|done|done|by rewrite len_replicate..|]. by apply H4.
Defined.

Lemma fuzz_disk_load_image_witness :
  exists d', Ram.fuzz_disk_load [x01; x02; x03] 2 Sample.ram = Done (tt, d') /\
    at_ (Ram.disk d') 1 = Some x02 /\ at_ (Ram.disk d') 2 = Some x00.
Proof.
  destruct (fuzz_disk_load_image Sample.ram [x01; x02; x03] 2) as (d' & H & _ & Hd).
  - apply Sample.ram_ok.
  - done.
  - exists d'. split; [exact H|].
    split; (rewrite Hd; [reflexivity|split; reflexivity || discriminate]).
Defined.
