(* ===== verification/Api.v ===== *)
(** * The API, as theorems

    What mounting establishes, and what every function of the API keeps: the
    world of filesystem objects stays well formed whatever the medium holds,
    no access leaves its object, and the calls end. *)

From stdpp Require Import base numbers list option gmap.
From Stdlib Require Import ZArith Lia.
From Stdlib Require Import Strings.Byte.
From S2P Require Import Prelude Types Bytes Diskio Window Fat Chain Dir Path Mount File DirApi Mkfs Plan Boot Format MkfsSafe Session Sample.

Section api.
Context {Pf : Platform} {D : Type} `{!DiskIO D} `{!DiskIOLaws D}.

(** C31: mounting accepts only consistent volumes.  Whatever the medium holds,
    the analysis of [mount_volume] ends without a bad access; an error leaves
    the filesystem object invalid, and success finds a sub-type for which the
    object is consistent: 1 or 2 FATs, a power-of-2 cluster size, a number of
    clusters in the range of the sub-type, and a FAT large enough for it; the
    table is then well placed unless a sector number wraps around. *)
Theorem mount_fs_consistent (v : vol D) (mode : Z) :
  vol_ok v ->
  wp (mount_fs mode) (fun r v' =>
    vol_ok v' /\ fs_type (vfs v') = 0 /\
    match r with
    | inl e => e <> FR_OK
    | inr fmt => let fs := set_fs_type fmt (vfs v') in
        mounted fs /\ (fatbase fs + fsize fs < U32 -> (n_fats fs = 2 -> 2 * fsize fs <= U32) -> fat_layout fs)
    end) v.
Proof using Type.
  intros Hv. eapply wp_mono; [by apply mount_fs_spec|]. intros [e|fmt] v' (H1 & H2 & H3); [done|].
  destruct H3 as [Hm _]. split; [done|]. split; [done|]. split; [done|]. intros. by apply mounted_layout.
Qed.

(** For the rest: [h] is the set of the addresses of filesystem objects.
    With [t = true] the registered volumes are mounted, their tables well
    placed and the drive stays ready, and the calls end. *)
Context (t : bool) (h : gset Z) (Hrdy : drive_ready (D := D) t) (Hun : dir_w uninit_dir).

(** C34: transfers stay inside the caller's buffer.  For any well-formed file
    object, valid or stale, and any medium contents: [f_read] leaves the buffer
    at its size and reports at most [btr] bytes; [f_write] reads only the buffer,
    clips the length so that the file pointer does not wrap around, and reports
    at most [btw] bytes; with [t = true] both end, also on a cyclic cluster
    chain. *)
Theorem transfers_in_bounds (w : world D) fp buff n :
  winv t h w -> file_ok h fp -> 0 <= n < U32 -> n <= len buff ->
  wpt t (f_read fp buff n) (fun r w' => winv t h w' /\ file_ok h r.1.1.2 /\ len r.1.2 = len buff /\ 0 <= r.2 <= n) w /\
  wpt t (f_write fp buff n) (fun r w' => winv t h w' /\ file_ok h r.1.2 /\ 0 <= r.2 <= n) w.
Proof using Type. intros Hw Hf Hb Hl. split; [by apply f_read_safe|by apply f_write_safe]. Qed.

(** ** Any sequence of calls *)

Context (nf nd : nat).

(** C32: no sequence of calls makes a bad access.  Whatever the medium holds, a
    program may call all the functions of the API that are compiled in, in any
    order, on objects that are open, closed or stale: it may mount, unmount and
    format volumes in between, and rewind directories, also when that fails.  No
    call accesses memory outside an object, buffers keep their sizes, counts
    stay in their bounds, names that are reported end inside their field, and
    the world and the objects of the program stay well formed.  The program has
    to pass paths that are C strings, buffers as long as it says, and objects
    that exist ([call_ok]).  Calls on a badly placed table need not end; the next
    theorem says when they do. *)
Theorem calls_no_fault (w : world D) s cs :
  winv false h w -> session_ok h nf nd s -> Forall (call_ok false h nf nd) cs ->
  wpt false (run_calls s cs) (fun r w' => winv false h w' /\ session_ok h nf nd r.2 /\ Forall2 (fun c x => out_ok c x.1 x.2) cs r.1) w.
Proof using Hun. intros Hw Hs Hcs. by apply (run_calls_safe false h nf nd). Qed.

(** C33: calls on well-placed volumes end.  When every registered volume is
    mounted, the sectors of its table do not wrap around and its two copies do
    not overlap ([winv true]), and the drive stays ready, any sequence of calls other than
    [f_mount] and [f_mkfs] returns from each of them, also on cyclic cluster
    chains and damaged directories, and the volumes stay so placed.  Mounting
    alone does not give this placement: the size of the FAT area is computed by
    [mount_volume] without a test for overflow. *)
Theorem calls_end (w : world D) s cs :
  drive_ready (D := D) true -> winv true h w -> session_ok h nf nd s -> Forall (call_ok true h nf nd) cs ->
  exists l s' w', run_calls s cs w = Done ((l, s'), w') /\ length l = length cs /\ winv true h w' /\ session_ok h nf nd s'.
Proof using Hun.
  intros Hr Hw Hs Hcs. destruct (wp_run _ _ _ (run_calls_safe true h nf nd Hr Hun s cs Hs Hcs w Hw)) as ([l s'] & w' & E & H1 & H2 & H3).
  exists l, s', w'. split; [done|]. split; [by apply Forall2_length in H3|done].
Qed.

End api.

(** ** Applied to the sample world *)

Lemma sample_file : file_ok {[ 1 ]} Sample.fil.
Proof. split; [by constructor|]. intros p [= <-]. by apply elem_of_singleton. Qed.

(** The RAM disk after [f_mkfs], with the default sizes on the whole disk. *)
Definition formatted_ram : Ram.ram :=
  match f_mkfs (Some [x00]) (Some (mkMKFS_PARM (Z.lor FM_FAT FM_SFD) 0 1 0 0)) (Some (replicate 1024 x00)) 1024 Sample.w with
  | Done (_, w) => wdisk w
  | _ => Sample.ram
  end.

Lemma formatted_ram_ok : Ram.ram_ok formatted_ram.
Proof. vm_compute. reflexivity. Qed.

Lemma formatted_vol_ok : vol_ok (mkVol Sample.fs formatted_ram).
Proof. split; [apply Sample.fs_is_ok|exact formatted_ram_ok]. Qed.

(** The type that is found on a disk. *)
Definition found_type (d : Ram.ram) : option Z :=
  match mount_fs 0 (mkVol Sample.fs d) with Done (inr fmt, _) => Some fmt | _ => None end.

Lemma found_fat12 : found_type formatted_ram = Some FS_FAT12.
Proof. vm_compute. reflexivity. Qed.

Lemma mount_fs_consistent_witness :
  wp (mount_fs 0) (fun r v' => r = inr FS_FAT12 /\ mounted (set_fs_type FS_FAT12 (vfs v'))) (mkVol Sample.fs formatted_ram).
Proof.
  destruct (wp_run _ _ _ (mount_fs_consistent (mkVol Sample.fs formatted_ram) 0 formatted_vol_ok)) as (r & v' & E & _ & _ & H).
  pose proof found_fat12 as F. unfold found_type in F. rewrite E in F. eapply wp_of_run; [exact E|].
  destruct r as [e|fmt]; [discriminate F|]. injection F as ->. split; [reflexivity|apply H].
Defined.

Lemma transfers_in_bounds_witness :
  wp (f_read Sample.fil Sample.buff 700) (fun r w' => len r.1.2 = 700 /\ 0 <= r.2 <= 700) Sample.w /\
  wp (f_write Sample.fil Sample.buff 700) (fun r w' => 0 <= r.2 <= 700) Sample.w.
Proof.
  destruct (transfers_in_bounds true {[ 1 ]} Sample.w Sample.fil Sample.buff 700) as [H1 H2].
  - apply Sample.world_ok.
  - apply sample_file.
  - done.
  - by rewrite Sample.buff_len.
  - split; [eapply wp_mono; [exact H1|]|eapply wp_mono; [exact H2|]]; intros r w' H; apply H.
Defined.

(** A session with the open file and a directory object; the calls touch every
    kind of object, close the file and use it again. *)
Definition sample_session : session := mkSession [Sample.fil] [set_dp_fs None (@uninit_dir Sample.platform)].
Definition sample_calls : list call :=
  [CRead 0 Sample.buff 700; CSeek 0 5000; CWrite 0 Sample.buff 700; CTruncate 0; COpendir 0 (@uninit_dir Sample.platform) (Some Sample.path);
   CReaddir 0 Sample.info; CRewind 0; CStat (Some Sample.path) (Some Sample.info); CClose 0; CRead 0 Sample.buff 5; CMkdir (Some Sample.path);
   CUnlink (Some Sample.path); CRename (Some Sample.path) Sample.path; CGetfree (Some Sample.path); COpen 0 Sample.fil (Some Sample.path) 1].

Lemma sample_session_ok : session_ok {[ 1 ]} 1 1 sample_session.
Proof. split; [|by constructor; [left|]|done|done]. constructor; [right; apply sample_file|done]. Qed.

Lemma sample_calls_ok t : Forall (call_ok t {[ 1 ]} 1 1) sample_calls.
Proof.
  assert (forall n, 0 <= n <= 700 -> 0 <= n < U32 /\ n <= len Sample.buff) as Hb by (rewrite Sample.buff_len; unfold U32; lia).
  pose proof Sample.path_ok as Hp. pose proof Sample.uninit_ok as Hu. unfold sample_calls.
  repeat (apply Forall_cons_2; [cbn [call_ok]; repeat first [done|lia|apply Hb; lia|apply Hp|split]|]); [|constructor]. by intros i [= <-].
Qed.

(** A format and a mount before and between them. *)
Definition sample_mkfs : call := CMkfs (Some Sample.path) None (Some Sample.buff) 700.
Definition sample_mount : call := CMount (Some 1) (Some Sample.path) 1.

Lemma calls_no_fault_witness :
  wpt false (run_calls (Pf := Sample.platform) sample_session (sample_mkfs :: sample_mount :: sample_calls ++ [sample_mkfs; CRewind 0]))
    (fun r w' => session_ok {[ 1 ]} 1 1 r.2) Sample.w.
Proof.
  eapply wp_mono; [apply (calls_no_fault (Pf := Sample.platform) {[ 1 ]} Sample.uninit_ok 1 1 Sample.w sample_session)|].
  - apply Sample.world_ok.
  - apply sample_session_ok.
  - assert (call_ok false {[ 1 ]} 1 1 sample_mkfs) as Hm.
    { split; [done|]. split; [apply Sample.path_ok|]. split; [done|]. split; [done|]. split; [done|]. intros b [= <-]. by rewrite Sample.buff_len. }
    constructor; [exact Hm|]. constructor; [|apply Forall_app; split; [apply sample_calls_ok|]].
    + split; [done|]. split; [intros p [= <-]; by apply elem_of_singleton|apply Sample.path_ok].
    + constructor; [exact Hm|]. constructor; [cbn; lia|constructor].
  - by intros r w' (_ & H & _).
Defined.

Lemma calls_end_witness :
  exists l s' w', run_calls (Pf := Sample.platform) sample_session sample_calls Sample.w = Done ((l, s'), w') /\ length l = 15%nat.
Proof.
  destruct (calls_end (Pf := Sample.platform) {[ 1 ]} Sample.uninit_ok 1 1 Sample.w sample_session sample_calls (Sample.ready true)
    (Sample.world_ok true) sample_session_ok (sample_calls_ok true)) as (l & s' & w' & E & H & _).
  exists l, s', w'. split; [exact E|exact H].
Defined.
