(* ===== verification/Fuzzing.v ===== *)
(** * The harnesses, as theorems

    Which turns of the persistent loops leave an object: none, whatever the
    test cases are, as long as the loop finds its filesystem object at the same
    place in every turn; and the first one after a failed mount when it does
    not. *)

From stdpp Require Import base numbers list option gmap.
From Stdlib Require Import ZArith Lia.
From Stdlib Require Import Strings.Byte Strings.String.
From S2P Require Import Prelude Types Bytes Diskio Window Fat Chain Live Dir Path Mount File DirApi Harness Sample.

(** C29: the harnesses.  Between the turns no filesystem object exists, and
    the volume table is empty or holds [p], where the object of a turn whose
    mount failed was.  For any sequence of test cases shorter than 2 GiB, with
    any values in the automatic variables of each turn, and with the objects
    [fs] of all the turns at [p]: no turn of the persistent loop of any of the
    nine harnesses reads or writes outside an object (the path and name
    buffers, the test case, the sector window, the disk array) or uses a
    filesystem object that does not exist, and the state between the turns is
    as before.  (A turn may run forever.)  Nothing makes the object lie at the
    same address again: while the table holds the address of an ended object, a
    turn of harness.c, harness_mount.c or harness_stat.c whose object is
    elsewhere writes to the ended one, on every test case.  (A pointer is an
    address here: one that holds the address of a new object points to it.) *)
Theorem afl_loop_no_fault {Pf : Platform} (clean_disk : list byte) (p : Z) (x : harness) (w : world Ram.ram) :
  len clean_disk = 65536 -> dir_w uninit_dir -> idle p w ->
  (forall turns, Forall (fun '(st, fsp, buf) => stack_ok st /\ fsp = p /\ len buf < 2147483648) turns ->
     wpt false (afl_loop clean_disk x turns) (fun _ w' => idle p w') w) /\
  (always_mounts x = true -> FatFs w = [Some p] ->
     forall st q buf, q <> p -> turn st clean_disk q x buf (len buf) w = Fault).
Proof.
  intros Hcd Hun Hw. split.
  - intros turns Ht. by apply afl_loop_safe.
  - intros Hx Hf st q buf Hq. by apply turn_dead with p.
Qed.

(** The stack of a turn, here all zero, and a blank image. *)
Definition blank_stack : Stack :=
  mkStack (mkFATFS 0 0 0 0 0 0 0 0 0 0 0 0 0 0 0 0 0 0 (replicate (Z.to_nat 512) x00))
    (mkFIL (mkFFOBJID None 0 0 0 0 0) 0 FR_OK 0 0 0 0 0)
    (@uninit_dir Sample.platform) Sample.info (fun n => replicate (Z.to_nat n) x00).

Lemma blank_stack_ok : stack_ok blank_stack.
Proof.
  split; [|done|apply Sample.uninit_ok|done|intros n Hn; by apply len_replicate].
  apply (bool_decide_unpack _). vm_compute. exact I.
Qed.

(** Before the first turn: no volume is registered. *)
Definition start : world Ram.ram := mkWorld ∅ [None] 0 Sample.ram.

Lemma start_idle p : idle p start.
Proof. constructor; [done|apply Sample.ram_ok|by left|done]. Qed.

Definition no_image : list byte := replicate (Z.to_nat 65536) x00.

(** An empty test case, which is not mounted, and the world after its turn. *)
Definition empty_case : list byte := [].

Definition second : world Ram.ram :=
  match turn (Pf := Sample.platform) blank_stack no_image 1 H_mount empty_case (len empty_case) start with Done (_, w) => w | _ => start end.

Lemma no_image_len : len no_image = 65536.
Proof. by apply len_replicate. Qed.

Lemma wpt_result {S A} t (m : M S A) (Q : A -> S -> Prop) s a s' : wpt t m Q s -> m s = Done (a, s') -> Q a s'.
Proof. unfold wpt. intros H E. by rewrite E in H. Qed.

Lemma second_table :
  match turn (Pf := Sample.platform) blank_stack no_image 1 H_mount empty_case (len empty_case) start with
  | Done (_, w) => bool_decide (FatFs w = [Some 1]) | _ => false end = true.
Proof. vm_compute. reflexivity. Qed.

Lemma second_run :
  turn (Pf := Sample.platform) blank_stack no_image 1 H_mount empty_case (len empty_case) start = Done (tt, second) /\ FatFs second = [Some 1].
Proof.
  generalize second_table. unfold second. generalize (turn (Pf := Sample.platform) blank_stack no_image 1 H_mount empty_case (len empty_case) start).
  intros [[[] w]| |]; [|discriminate..]. intros Hc. split; [reflexivity|exact (bool_decide_eq_true_1 _ Hc)].
Qed.

Lemma second_idle : idle 1 second.
Proof.
  refine (wpt_result _ _ _ _ _ _ (turn_safe (Pf := Sample.platform) no_image no_image_len Sample.uninit_ok blank_stack 1
    H_mount empty_case start blank_stack_ok eq_refl (start_idle 1)) (proj1 second_run)).
Qed.

Lemma afl_loop_no_fault_witness :
  wpt false (afl_loop (Pf := Sample.platform) no_image H_write
               [(blank_stack, 1, [x03; x41; x42; x43; x44; x45]); (blank_stack, 1, [])])
    (fun _ w' => idle 1 w') start /\
  turn (Pf := Sample.platform) blank_stack no_image 1 H_mount empty_case (len empty_case) start = Done (tt, second) /\
  turn (Pf := Sample.platform) blank_stack no_image 2 H_mount empty_case (len empty_case) second = Fault.
Proof.
  split; [|split; [apply second_run|]].
  - apply (afl_loop_no_fault (Pf := Sample.platform) no_image 1 H_write start no_image_len Sample.uninit_ok (start_idle 1)).
    by repeat constructor; try apply blank_stack_ok.
  - apply (proj2 (afl_loop_no_fault (Pf := Sample.platform) no_image 1 H_mount second no_image_len Sample.uninit_ok second_idle)
             eq_refl (proj2 second_run) blank_stack 2 empty_case). lia.
Defined.
