(* ===== verification/Findings.v ===== *)
(** * Places where the code does not do what it means to

    Each is a theorem about the model of the code as it is. *)

From stdpp Require Import base numbers list option gmap.
From Stdlib Require Import ZArith Lia.
From Stdlib Require Import Strings.Byte.
From S2P Require Import Prelude Types Bytes Diskio Window Fat Chain Live Dir Path Mount Mkfs Sample.

(** A store of bytes leaves the bytes beside it. *)
Lemma at_st_dword b p x b' i : st_dword b p x = Some b' -> i < p \/ p + 4 <= i -> at_ b' i = at_ b i.
Proof.
  rewrite st_dword_splice. intros H Hi. rewrite (at_splice _ _ _ _ i H), len_le_split.
  destruct (Z.leb_spec p i), (Z.ltb_spec i (p + Z.of_nat 4)); cbn; done || lia.
Qed.

Lemma at_st_word b p x b' i : st_word b p x = Some b' -> i < p \/ p + 2 <= i -> at_ b' i = at_ b i.
Proof.
  rewrite st_word_splice. intros H Hi. rewrite (at_splice _ _ _ _ i H), len_le_split.
  destruct (Z.leb_spec p i), (Z.ltb_spec i (p + Z.of_nat 2)); cbn; done || lia.
Qed.

(** Where the trailing signature of FSInfo is looked for, [f_mkfs] leaves
    zeros. *)
Lemma mkfs_fsinfo_trail b n b' : mkfs_fsinfo b n = Some b' -> ld_dword b' FSI_TrailSig = Some 0.
Proof.
  unfold mkfs_fsinfo. intros H.
  apply bind_Some in H as (b1 & H1 & H). apply bind_Some in H as (b2 & H2 & H). apply bind_Some in H as (b3 & H3 & H).
  apply bind_Some in H as (b4 & H4 & H). apply bind_Some in H as (b5 & H5 & H6).
  assert (forall i, FSI_TrailSig <= i < FSI_TrailSig + 4 -> at_ b' i = Some x00) as Hz.
  { unfold_consts. intros i Hi.
    rewrite (at_st_word _ _ _ _ i H6), (at_st_dword _ _ _ _ i H5), (at_st_dword _ _ _ _ i H4), (at_st_dword _ _ _ _ i H3),
      (at_st_dword _ _ _ _ i H2) by (unfold_consts; lia).
    unfold memset in H1. rewrite (at_splice _ _ _ _ i H1), len_replicate by done. unfold SS.
    rewrite (proj2 (Z.leb_le 0 i)), (proj2 (Z.ltb_lt i (0 + 512))) by lia. cbn [andb]. rewrite at_lookup by lia.
    apply lookup_replicate_2. lia. }
  unfold ld_dword. unfold_consts. rewrite !Hz by lia. reflexivity.
Qed.

Section findings.
Context {D : Type} `{!DiskIO D} `{!DiskIOLaws D}.

(** C39: the FSInfo sector that [f_mkfs] creates is never used.  [mount_volume]
    looks for the trailing signature at offset 498, [f_mkfs] does not store
    one there: whatever the format wrote as the number of free clusters, after
    mounting it is unknown. *)
Theorem mkfs_fsinfo_ignored (v : vol D) b n b' bsect :
  vol_ok v -> coherent v -> mkfs_fsinfo b n = Some b' ->
  plain (vfs v) (u32 (bsect + 1)) -> lview v (u32 (bsect + 1)) = Some b' ->
  wp (load_fsinfo FS_FAT32 bsect) (fun _ v' =>
    free_clst (vfs v') = 0xFFFFFFFF /\ last_clst (vfs v') = 0xFFFFFFFF) v.
Proof using DiskIOLaws0.
  intros Hv Hc Hb Hp Hl. unfold load_fsinfo. do 3 (apply wp_bind, wp_modify).
  set (v1 := mkVol _ _). assert (vol_ok v1) as Hv1 by (destruct Hv as [[] ?]; by split; [split|]).
  change (negb (FS_FAT32 =? FS_FAT32)) with false. cbv iota. apply wp_bind.
  eapply wp_win_word; [done|done|done|]. intros i _ _. destruct (negb _); [by apply wp_ret|].
  apply wp_bind. eapply wp_mono; [apply (move_window_unchanged true v1); [done|done|apply Hp]|].
  intros r v2 (Hu & Hw & _). pose proof Hu as ([Hv2 Hg] & Ha & _ & Hvw). unfold alloc_info in Ha. cbn in Ha. injection Ha as A1 A2 A3.
  destruct (fr_eqb_spec r FR_OK) as [E|]; cbn [negb]; [|by apply wp_ret]. specialize (Hw E).
  assert (win (vfs v2) = b') as Hb'.
  { pose proof (lview_win v2) as Hw2. rewrite Hw, Hvw in Hw2 by done. change (lview v1 (u32 (bsect + 1))) with (lview v (u32 (bsect + 1))) in Hw2.
    congruence. }
  apply wp_bind, wp_modify. set (v3 := mkVol _ _).
  assert (vol_ok v3) as Hv3 by (destruct Hv2 as [[] ?]; by split; [split|]).
  apply wp_bind. eapply wp_win_dword; [done|done|done|]. intros lead _ _.
  apply wp_bind. eapply wp_win_dword; [done|done|done|]. intros struc _ _.
  apply wp_bind. eapply wp_win_dword; [done|done|done|]. intros trail Ht _.
  cbn in Ht. rewrite Hb', (mkfs_fsinfo_trail _ _ _ Hb) in Ht. injection Ht as <-.
  rewrite andb_false_r. apply wp_ret. cbn. split; congruence.
Qed.

End findings.

(** A boot record that announces FSInfo in the next sector, in the window and
    on the disk, and a fresh FSInfo sector behind it: the count is read from the
    disk, and ignored. *)
Definition fsinfo : list byte := default [] (mkfs_fsinfo (replicate 512 x00) 70000).
Definition boot : list byte := default [] (st_word (replicate 512 x00) BPB_FSInfo32 1).
Definition drive : Ram.ram := Ram.mkRam (boot ++ fsinfo ++ replicate (Z.to_nat (Ram.DISK_SIZE - 1024)) x00).
Definition mounting : vol Ram.ram := mkVol (set_wflag 0 (set_winsect 0 (set_win boot Sample.fs))) drive.

Lemma drive_ok : Ram.ram_ok drive.
Proof. vm_compute. reflexivity. Qed.

Lemma mkfs_fsinfo_ignored_witness :
  ld_word (win (vfs mounting)) BPB_FSInfo32 = Some 1 /\ lview mounting 1 = Some fsinfo /\ ld_dword fsinfo FSI_Free_Count = Some 69999 /\
  wp (load_fsinfo FS_FAT32 0) (fun _ v' => free_clst (vfs v') = 0xFFFFFFFF) mounting.
Proof.
  split; [vm_compute; reflexivity|]. split; [vm_compute; reflexivity|]. split; [vm_compute; reflexivity|].
  eapply wp_mono; [apply (mkfs_fsinfo_ignored mounting (replicate 512 x00) 70000 fsinfo 0)|].
  - split; [|apply drive_ok]. apply fs_ok_set_wflag; [|lia]. apply fs_ok_set_winsect; [|unfold U32; lia].
    apply fs_ok_set_win; [apply Sample.fs_is_ok|]. vm_compute. reflexivity.
  - intros _ _. vm_compute. reflexivity.
  - vm_compute. reflexivity.
  - split; [done|]. split; [done|]. intros [H _]. vm_compute in H. discriminate.
  - vm_compute. reflexivity.
  - by intros _ v' [H _].
Defined.
